(* ===== verification/_CoqProject ===== *)
-Q . S2P
Prelude.v
PathFsm.v
PathSpec.v
Chains.v
Wire.v
CString.v
Ring.v
ReorderRx.v
RxFlow.v
RxInv.v
RxStep.v
RxTrace.v
RxRestore.v
RxTable.v
RxEngine.v
ReorderTx.v
TxProofs.v
Shim.v
Icmp.v
Gate.v
FlowSched.v
AddrPool.v
Hybrid.v
HybridProofs.v
HybridLane.v
Client.v
ClientInv.v
ClientLife.v
ClientRun.v
ClientSafe.v
ClientProgress.v
RtxTable.v
RedundantTx.v
RedundantProofs.v
RedundantLife.v
RedundantPorts.v
StateOpt.v
TunFrame.v
ClientLane.v
LaneProofs.v
LaneRun.v
Auth.v
ServerConn.v
ServerData.v
ServerInv.v
ServerSess.v
ServerOps.v
ServerFwd.v
ServerTun.v
ServerLife.v
ServerRun.v
TunOffload.v
OffloadCsum.v
OffloadSplit.v
GroEntry.v
GroSuper.v
GroFlush.v
GroRun.v
SniParse.v
SniCrypto.v
SniRouter.v
SniStream.v
SniHello.v
SniFrames.v
SniOpen.v
SniMatch.v
SniInv.v
SniRun.v
SniTrace.v
SniRoute.v
TcpLane.v
TcpEvent.v
TcpTable.v
TcpClose.v
TcpSyn.v
TcpUplink.v
TcpDownlink.v
TcpOps.v
TcpTick.v
TcpTrace.v
