(* ===== verification/Prelude.v ===== *)
(** * mqvpn: a verification library for the multipath QUIC VPN

    mqvpn tunnels IP packets in QUIC datagrams over several network paths at
    once.  The client ([src/mqvpn_client.c]) owns a table of path slots, one
    per network interface, drives a lifecycle state machine per slot
    ([src/path_state_machine.c]) and keeps one QUIC connection up, reconnecting
    when it is lost.  Packets of selected flows are stamped with sequence
    numbers on the sending side ([src/reorder_tx.c]) and put back into order on
    the receiving side ([src/reorder_rx.c]); a gate ([src/reorder_gate.h])
    decides per packet whether to stamp, pass or drop it, with an ICMP answer
    ([src/icmp.c]).  A flow hash ([src/flow_sched.c]) pins flows to paths.  TCP
    connections may take a stream lane instead ([src/hybrid/]): the client
    terminates them with lwIP and relays their bytes over one HTTP/3 stream
    each ([src/hybrid/tcp_lane.c]), which the server judges by an egress policy; packets of selected ports may be sent on several
    paths at once ([src/redundant_tx.c]).  The server ([src/mqvpn_server.c])
    authenticates requests ([src/auth.c]), hands out tunnel addresses from a
    pool ([src/addr_pool.c]), keeps a table of sessions by address and moves
    packets between its tunnel interface and the clients.  On Linux the tunnel
    interface hands over super-packets, which are cut into segments, and takes
    merged ones ([src/platform/linux/tun_offload.c]).  In front of the server a
    router ([src/sni_router.c]) reads the server name out of the first packets
    of a client and passes them to the server or to a fallback.

    ** Conventions

    C code is translated to functions on records whose fields have the names
    of the C fields; assignments are record updates [r <| f := v |>].  Integers
    are [Z] with the wrap-around of their width written out ([u8] ... [u64],
    [s32]); bytes are [Z] and byte strings [list Z], read through [rd], [rdn],
    [wr] and [wrn], where [None] is an access out of bounds.  Hash tables are
    lists of chains, as in the source.  Library code (xquic, lwIP, the C
    library's [inet_pton], the allocator, the clock, the transports of the
    platform) is a parameter; allocation failures and the answers of the engine
    are arguments, so theorems hold for every answer.  Log lines are left out,
    except where the state machine logs its transitions.

    ** Files

    - [Prelude]: scopes, record update, machine integers, byte strings, lemmas
      and tactics shared by all.  [Chains]: chained hash tables.  [CString]: C
      strings.
    - [PathFsm]: the slot record, its event handlers, assertions, back-off and
      stability tick.  [PathSpec]: the repository's own specification
      ([formal/PathSlotFsm.tla]) and the refinement proof against it.
    - [Wire]: the reorder header, the inner packet parser, flow keys, rules and
      configuration ([src/reorder.h]).
    - [Ring]: the elastic ring of a flow, proved to represent a finite map
      (class [RingSpec]).  [ReorderRx]: the receive engine.  [RxFlow], [RxInv],
      [RxStep], [RxTrace], [RxRestore], [RxTable], [RxEngine]: its flow
      operations, invariants, traces, restoration of bursts, table and
      lifetimes.
    - [ReorderTx], [TxProofs]: the send engine.  [Shim]: both engines composed.
    - [Icmp], [Gate], [FlowSched], [AddrPool]: ICMP errors, the ingress gate,
      the flow hash, the address pool.
    - [Hybrid], [HybridProofs], [HybridLane]: CIDR sets, classifier, egress
      policy, and the client's and the server's side composed.
    - [TcpLane], [TcpEvent]: the TCP lane: its table of flows and markers, the
      relay in both directions, the callbacks of lwIP and xquic, the sweep and
      the choice of the lane for a packet.  Flows are objects of a heap; lwIP
      and xquic are the record [tcp_env], and the log holds every call of them.
      [TcpTable]: the invariant.  [TcpClose], [TcpSyn]: flows that go and come.
      [TcpUplink], [TcpDownlink]: the two directions, with a calculus for steps
      of one flow ([lwp]).  [TcpOps], [TcpTick]: the callbacks, the sweep, the
      end.  [TcpTrace]: lifetimes.
    - [Client]: the client as a state monad over a world that holds the handle,
      the phase of the QUIC connection and the trace of effects; the engine,
      the transports and the clock are the record [env].  [ClientInv]: weakest
      preconditions and the steps that touch slots only.  [ClientLife]: the
      invariant and the engine's callbacks.  [ClientRun]: every operation keeps
      the invariant.  [ClientSafe], [ClientProgress]: what follows.
    - [RtxTable]: the open-addressing table of the copy tracker.  [RedundantTx],
      [RedundantProofs], [RedundantLife], [RedundantPorts]: the tracker, its
      lifetimes, its port list and packet match.
    - [StateOpt]: the state monad with faults that the packet paths and the
      server use, with a calculus of total correctness ([dwp]).  [TunFrame]:
      frames and the TTL.  [ClientLane], [LaneProofs], [LaneRun]: the
      client's packet path.
    - [Auth]: Base64, key comparison, credentials and users.  [ServerConn]: the
      server's connections, requests and sessions as a map of live connections
      and the table of sessions; [ServerData]: its packet path.  [ServerInv]:
      the invariant; [ServerSess], [ServerOps]: sessions and control
      operations; [ServerFwd], [ServerTun]: packets of clients and of the
      tunnel; [ServerLife], [ServerRun]: lifetimes and the claims.
    - [TunOffload]: checksums over native words, the segment iterator and the
      merger of the TUN device.  [OffloadCsum], [OffloadSplit]: checksums and
      segmentation.  [GroEntry], [GroSuper], [GroFlush], [GroRun]: entries of the
      merger, what may be merged, what a merged packet stands for, and runs.
    - [SniParse], [SniCrypto], [SniRouter]: the SNI router; its connections are
      objects of a heap, the operating system is the record [sni_env].
      [SniStream], [SniHello], [SniFrames]: headers, the CRYPTO buffer, the
      ClientHello and its frames.  [SniOpen]: packet protection.
      [SniMatch]: names.  [SniInv]: the invariant.  [SniRun], [SniTrace],
      [SniRoute]: steps of a connection, of the table and of the public
      functions, runs, and the way of a client.

    ** What the theorems show

    - Path lifecycle: the C state machine is a functional refinement of the
      TLA+ operator, including the public events and the timer updates; no
      event a caller can raise trips an assertion.
    - Reordering: packets offered to the sender come out of the receiver once
      and in order from any reachable states, within window, limits and grace;
      within an epoch deliveries are strictly increasing in every state; a gap
      timeout releases exactly its cohort; memory is accounted, bounded and
      returned; a tick leaves no work behind; the wire format round-trips and
      the parser is memory safe.
    - Client: over any sequence of API calls, engine callbacks and ticks no
      assertion fails and no NULL is read, each transport is finalised once,
      the platform is told once per connection that its tunnel closed, a lost
      connection is re-established by the tick while a path is attached, a
      send fails hard only when no path is attached, the reported wake is in
      time, the interface MTU fits.
    - Ingress, hybrid lane, pool: the gate's answers are consistent with what
      it accepts, ICMP packets are well formed with verifying checksums, the
      flow hash agrees with the parser's 5-tuple, the pool is a set of leases,
      a laned flow reaches the server as its own destination and is judged by
      the lists alone, the CIDR and configuration checks mean what they say.
    - TCP lane: over any packets, callbacks and ticks nothing faults and no freed
      flow, pcb or request is used; every byte of either direction is passed on
      once and in order or waits in the queue or the stash, and the FINs behind
      them; the windows add up and the queues are bounded; the table finds its
      flows and counts them within the caps; a callback returns [ERR_ABRT]
      exactly when it aborted; a connection is closed only when it is complete;
      the end of the lane leaves no pcb behind.
    - Redundant transmission: the table is a finite map; every original is
      reported once, delivered or lost; the gate, the overload mode and the
      port list do what they say.
    - Client packet path: what is sent is a frame around a tunnel packet with
      the assigned source; answers, latch and counters agree; the latch holds
      until the write notification; received packets arrive with a valid
      checksum.
    - Authentication: the users are a bounded map and exactly the holders of
      its keys or of the global key are let in; Base64 decodes.
    - Server: over any sequence of callbacks, packets, ticks and user changes
      that xquic and the platform may make, nothing faults and the debug
      assertions hold, the sessions, the tunnels and the leased addresses
      correspond one to one, a tunnel comes up only for an entitled request,
      packets reach only their owner and are let out only under the sender's
      own address, deliverable packets are delivered, a removed user is
      disconnected.
    - Offload: a super-packet is cut into segments that carry its payload in
      order with verifying checksums; the merger gives the device exactly the
      packets pushed, in order per flow, whatever the device answers.
    - SNI router: no bytes make the parsers leave their buffers; protected
      Initial packets are opened to what was sealed; the CRYPTO buffer is a
      finite map of offsets and its counter the complete prefix; the name found
      is the one of the ClientHello; a name is accepted exactly when a pattern
      stands for it; every datagram is handed on once and in order; limits hold
      and sockets are closed; a client reaches the server or the fallback as
      its name says.

    Some lemmas state runs in which the code does not do what its comments
    promise: the byte limit of a flow after an overflow flush
    ([flow_byte_limit_exceeded]), the counter identity after an eviction
    ([eviction_unbalances_periods]), the path prefix of a request
    ([masque_path_loose]), the role of a refused stream
    ([refused_stream_ends_tunnel]), the bound of the uplink queue
    ([queue_beyond_window]).

    ** Fuel and bounds

    Loops that are not structural run on fuel that their definitions supply and
    the theorems show sufficient: the drain loops of the receive engine run
    once per buffered packet, the ring doubles at most to the configured
    capacity, the primary rotation visits each slot once, the IPv6 extension
    walk shortens the packet each round.  The client's theorems assume a clock
    that is positive and far enough from the end of its 64-bit range for the
    longest back-off to be added ([clock_ok]); the packet paths and the server
    assume a clock that does not go back ([lane_env_ok], [server_env_ok]).  The
    server's table has 255 slots and its loops visit each once.  The frame,
    extension and name loops of the router take at least a byte each round; the
    CRYPTO buffer doubles, so that 64 rounds reach any size; the number of
    datagrams read at one readable event is an argument.  A drain of the TCP
    lane ends because a body is exhausted after finitely many reads
    ([eo_ends] of [tcp_env_ok]); the sweep starts a bucket again only for a flow
    that is no longer stalled, so that the square of the length is enough.

    ** Not modelled

    The platform layer (sockets, TUN, routing, DNS, event loops), the language
    bindings, the HTTP/2 proxy, the set-up of the lwIP stack, the sockets of the
    TCP egress, the configuration front ends, connection settings and TLS
    flags.  Of the client: callbacks of the platform that call back into the
    client, and the statistics getters.  Of the server: the capsules a client
    sends, which it only logs, the status queries, the set-up of sockets and
    engine, destroy.  The packet path of the client behind the reorder gate
    ([ClientLane]) and the server are modelled in the builds without the TCP
    lane, the TCP egress and the HTTP/2 proxy.  Of the TCP lane: the release of
    pbufs and the packet counters. *)

From stdpp Require Export base tactics option list gmap fin_maps sorting.
From Stdlib Require Export ZArith Lia.

(** ** Scopes *)

Declare Scope mqvpn_scope.
Delimit Scope mqvpn_scope with mqvpn.
#[global] Open Scope Z_scope.
#[global] Open Scope mqvpn_scope.

(** ** Record update

    C code assigns one field of a struct at a time.  [r <| f := v |>] is the
    record [r] with the field [f] replaced by [v]; the updater is derived from
    the record's eta expansion, registered once per record as a [Settable]
    instance. *)

Class Settable (R : Type) := eta_expand : R -> R.

Class Setter {R T : Type} (proj : R -> T) := update : (T -> T) -> R -> R.
Arguments update {R T} proj {_} f r /.

Ltac derive_setter :=
  lazymatch goal with
  | |- @Setter ?R ?T ?proj =>
      let inst := constr:(_ : Settable R) in
      let e := eval hnf in inst in
      let r := fresh "r" in
      let f := fresh "f" in
      refine (fun (f : T -> T) (r : R) => _);
      let b := eval cbv beta in (e r) in
      lazymatch (eval pattern (proj r) in b) with
      | ?g _ => let t := eval cbv beta in (g (f (proj r))) in exact t
      end
  end.

#[export] Hint Extern 0 (Setter _) => derive_setter : typeclass_instances.

Notation "r <| proj := v |>" := (update proj (fun _ => v) r)
  (at level 1, left associativity, format "r  <| proj  :=  v |>") : mqvpn_scope.

Notation "r <| proj ::= g |>" := (update proj g r)
  (at level 1, left associativity, format "r  <| proj  ::=  g |>") : mqvpn_scope.

(** ** Machine integers

    Unsigned C integers are [Z] values; every operation that can leave the
    range of its type is written with the wrap of that type. *)

Definition u8 (z : Z) : Z := z mod 2 ^ 8.
Definition u16 (z : Z) : Z := z mod 2 ^ 16.
Definition u32 (z : Z) : Z := z mod 2 ^ 32.
Definition u64 (z : Z) : Z := z mod 2 ^ 64.

(** Conversion to [int]. *)
Definition s32 (z : Z) : Z := (z + 2 ^ 31) mod 2 ^ 32 - 2 ^ 31.

Definition UINT16_MAX : Z := 65535.
Definition UINT64_MAX : Z := 18446744073709551615.

Lemma u64_small z : 0 <= z < 2 ^ 64 -> u64 z = z.
Proof. apply Z.mod_small. Qed.

Lemma u32_small z : 0 <= z < 2 ^ 32 -> u32 z = z.
Proof. apply Z.mod_small. Qed.

Lemma u16_small z : 0 <= z < 2 ^ 16 -> u16 z = z.
Proof. apply Z.mod_small. Qed.

Lemma u8_small z : 0 <= z < 2 ^ 8 -> u8 z = z.
Proof. apply Z.mod_small. Qed.

Lemma s32_small z : - 2 ^ 31 <= z < 2 ^ 31 -> s32 z = z.
Proof. intros. unfold s32. rewrite Z.mod_small; lia. Qed.

Lemma u64_range z : 0 <= u64 z < 2 ^ 64.
Proof. apply Z.mod_pos_bound. lia. Qed.

Lemma u32_range z : 0 <= u32 z < 2 ^ 32.
Proof. apply Z.mod_pos_bound. lia. Qed.

Lemma pow2_pos k : 0 <= k -> 0 < 2 ^ k.
Proof. intros. apply Z.pow_pos_nonneg; lia. Qed.

Create HintDb machine.
Create HintDb path.
#[export] Hint Resolve u64_range u32_range : machine.

(** ** Automation *)

(** Case analysis on the condition of every [if] and the scrutinee of every
    [match] in sight, keeping the equations. *)
Ltac split_ifs :=
  repeat match goal with
  | |- context [if ?b then _ else _] => destruct b eqn:?
  | H : context [if ?b then _ else _] |- _ => destruct b eqn:?
  end.

(** Boolean tests to the propositions [lia] reads. *)
Ltac bool_to_prop :=
  repeat match goal with
  | H : _ && _ = true |- _ => apply andb_prop in H as [? ?]
  | H : _ && _ = false |- _ => apply andb_false_iff in H as [?|?]
  | H : _ || _ = true |- _ => apply orb_prop in H as [?|?]
  | H : _ || _ = false |- _ => apply orb_false_elim in H as [? ?]
  | H : negb _ = true |- _ => apply negb_true_iff in H
  | H : negb _ = false |- _ => apply negb_false_iff in H
  | H : (_ =? _) = true |- _ => apply Z.eqb_eq in H
  | H : (_ =? _) = false |- _ => apply Z.eqb_neq in H
  | H : (_ <? _) = true |- _ => apply Z.ltb_lt in H
  | H : (_ <? _) = false |- _ => apply Z.ltb_ge in H
  | H : (_ <=? _) = true |- _ => apply Z.leb_le in H
  | H : (_ <=? _) = false |- _ => apply Z.leb_gt in H
  end.

(** Decides the [bool_decide]s whose proposition [congruence] settles. *)
Ltac decide_ctors :=
  repeat (case_bool_decide; try (exfalso; congruence)).

(** ** Byte buffers

    A buffer is the list of its bytes (each in [0, 255]).  A read that leaves
    the buffer, undefined behaviour in C, is [None]; theorems that a function
    returns [Some] are memory-safety theorems. *)

Definition blen (b : list Z) : Z := Z.of_nat (length b).

Definition rd (b : list Z) (i : Z) : option Z :=
  if i <? 0 then None else b !! Z.to_nat i.

(** [memcpy (dst, b + off, n)]. *)
Definition rdn (b : list Z) (off n : Z) : option (list Z) :=
  if (0 <=? off) && (0 <=? n) && (off + n <=? blen b)
  then Some (take (Z.to_nat n) (drop (Z.to_nat off) b)) else None.

(** [b[i] = v] and [memcpy (b + off, data, n)] with [n] the length of [data]. *)
Definition wr (b : list Z) (i v : Z) : option (list Z) :=
  if (0 <=? i) && (i <? blen b) then Some (<[Z.to_nat i := v]> b) else None.

Definition wrn (b : list Z) (off : Z) (data : list Z) : option (list Z) :=
  if (0 <=? off) && (off + blen data <=? blen b)
  then Some (take (Z.to_nat off) b ++ data ++ drop (Z.to_nat (off + blen data)) b) else None.

Definition is_byte (z : Z) : Prop := 0 <= z < 256.
Definition bytes_ok (b : list Z) : Prop := Forall is_byte b.

Lemma blen_nonneg b : 0 <= blen b.
Proof. unfold blen. lia. Qed.

Lemma rd_in_bounds b i : 0 <= i < blen b -> exists v, rd b i = Some v.
Proof.
  intros H. unfold rd, blen in *. destruct (Z.ltb_spec i 0); [lia|].
  apply lookup_lt_is_Some_2. lia.
Qed.

Lemma rd_lt b i v : rd b i = Some v -> 0 <= i < blen b.
Proof.
  unfold rd, blen. destruct (Z.ltb_spec i 0); [done|]. intros ?%lookup_lt_Some. lia.
Qed.

Lemma rd_byte b i v : bytes_ok b -> rd b i = Some v -> 0 <= v < 256.
Proof.
  unfold rd, bytes_ok. destruct (i <? 0); [done|]. intros H Hv.
  by eapply (Forall_lookup_1 is_byte) in Hv.
Qed.

Lemma rdn_in_bounds b off n :
  0 <= off -> 0 <= n -> off + n <= blen b -> exists v, rdn b off n = Some v.
Proof.
  intros. unfold rdn. rewrite !andb_if.
  destruct (Z.leb_spec 0 off), (Z.leb_spec 0 n), (Z.leb_spec (off + n) (blen b)); eauto; lia.
Qed.

Lemma rdn_spec b off n v :
  rdn b off n = Some v -> blen v = n /\ v = take (Z.to_nat n) (drop (Z.to_nat off) b) /\
  0 <= off /\ off + n <= blen b.
Proof.
  unfold rdn. destruct (_ && _) eqn:E; [|done]. bool_to_prop. intros [= <-].
  unfold blen in *. rewrite length_take, length_drop. split_and!; [lia | done | lia..].
Qed.

Lemma rdn_bytes b off n v : bytes_ok b -> rdn b off n = Some v -> bytes_ok v.
Proof.
  intros Hb (_ & -> & _)%rdn_spec. apply Forall_take, Forall_drop, Hb.
Qed.

(** [(hi << 8) | lo] of two bytes. *)
Definition be16 (hi lo : Z) : Z := Z.lor (Z.shiftl hi 8) lo.

Lemma testbit_high b k n : 0 <= b < 2 ^ k -> k <= n -> Z.testbit b n = false.
Proof.
  intros Hb Hn. destruct (Z.eq_dec b 0) as [->|]; [apply Z.bits_0|].
  apply Z.bits_above_log2; [lia|]. apply Z.lt_le_trans with k; [|done].
  apply Z.log2_lt_pow2; lia.
Qed.

Lemma lor_shift_add a b k : 0 <= k -> 0 <= b < 2 ^ k -> Z.lor (Z.shiftl a k) b = a * 2 ^ k + b.
Proof.
  intros Hk Hb. rewrite <- Z.shiftl_mul_pow2 by lia. symmetry.
  assert (Hd : Z.land (Z.shiftl a k) b = 0).
  { apply Z.bits_inj'. intros n Hn. rewrite Z.land_spec, Z.bits_0.
    destruct (Z.ltb_spec n k); [by rewrite Z.shiftl_spec_low by lia|].
    rewrite (testbit_high b k n) by lia. apply andb_false_r. }
  rewrite Z.add_nocarry_lxor by done. symmetry. apply Z.bits_inj'. intros n Hn.
  rewrite Z.lxor_spec, Z.lor_spec. apply (f_equal (fun z => Z.testbit z n)) in Hd.
  rewrite Z.land_spec, Z.bits_0 in Hd.
  by destruct (Z.testbit (Z.shiftl a k) n), (Z.testbit b n).
Qed.

Lemma be16_eq hi lo : 0 <= lo < 256 -> be16 hi lo = hi * 256 + lo.
Proof. intros. unfold be16. by rewrite lor_shift_add. Qed.

(** Masking with an all-ones value is reduction modulo a power of two. *)
Lemma land_ones_mod z k : 0 <= k -> Z.land z (2 ^ k - 1) = z mod 2 ^ k.
Proof. intros. rewrite <- Z.land_ones by lia. f_equal. rewrite Z.ones_equiv. lia. Qed.
