(* ===== verification/PathFsm.v ===== *)
(** * Path lifecycle state machine ([src/path_state_machine.c])

    The nine-state lifecycle of one path slot: the slot record
    [path_entry_t], the event handlers, their dispatcher [path_on_event], the
    per-state assertions [path_invariant_check], the retry back-off and the
    30 s stability tick.  Handlers are functions from the slot to the slot and
    the list of effects they have on the owning client (log lines, the
    transition log, the public path event, a failed debug assertion). *)

From S2P Require Import Prelude.
From Stdlib Require Import String.

Open Scope string_scope.
Open Scope list_scope.
Open Scope Z_scope.

(** ** Data *)

Inductive mqvpn_path_status_t :=
  | MQVPN_PATH_PENDING | MQVPN_PATH_ACTIVE | MQVPN_PATH_STANDBY
  | MQVPN_PATH_DEGRADED | MQVPN_PATH_CLOSED.

Inductive path_lifecycle_t :=
  | PATH_LC_PENDING | PATH_LC_CREATE_WAIT | PATH_LC_VALIDATING
  | PATH_LC_ACTIVE | PATH_LC_STANDBY | PATH_LC_DEGRADED
  | PATH_LC_CLOSED_RECOVERABLE | PATH_LC_CLOSED_DROPPED | PATH_LC_CLOSED_FREE.

Inductive path_event_t :=
  | PATH_EVENT_ACTIVATE_REQUESTED | PATH_EVENT_RETRY_TIMER
  | PATH_EVENT_VALIDATION_OK | PATH_EVENT_XQUIC_REMOVED
  | PATH_EVENT_MANUAL_REACTIVATE | PATH_EVENT_PLATFORM_DROP
  | PATH_EVENT_REMOVE_API | PATH_EVENT_ADD | PATH_EVENT_CONN_RESET
  | PATH_EVENT_TRANSPORT_RELEASED.

Inductive activate_result_t :=
  | ACTIVATE_OK | ACTIVATE_TRANSIENT_FAIL | ACTIVATE_PERMANENT_FAIL.

Inductive path_transition_reason_t :=
  | PATH_REASON_ADD | PATH_REASON_ACTIVATE_OK | PATH_REASON_ACTIVATE_FAILED
  | PATH_REASON_XQUIC_REMOVED | PATH_REASON_PLATFORM_DROPPED
  | PATH_REASON_REMOVE_API | PATH_REASON_REACTIVATE | PATH_REASON_CONN_RESET
  | PATH_REASON_RETRY_RESET | PATH_REASON_TRANSPORT_RELEASED.

#[export] Instance path_status_eq_dec : EqDecision mqvpn_path_status_t.
Proof. solve_decision. Defined.

#[export] Instance path_lifecycle_eq_dec : EqDecision path_lifecycle_t.
Proof. solve_decision. Defined.

#[export] Instance path_event_eq_dec : EqDecision path_event_t.
Proof. solve_decision. Defined.

(** Function and context pointers are [option Z]: [None] is [NULL]. *)
Record mqvpn_path_ops_t := PathOps {
  ops_struct_size : Z;
  ops_send : option Z;
  ops_get_stats : option Z;
  ops_release : option Z
}.

#[export] Instance eta_path_ops : Settable mqvpn_path_ops_t := fun r =>
  PathOps (ops_struct_size r) (ops_send r) (ops_get_stats r) (ops_release r).

Record path_entry_t := PathEntry {
  handle : Z;
  ops : mqvpn_path_ops_t;
  transport_ctx : option Z;
  transport_attached : bool;
  transport_released : bool;
  name : string;
  status : mqvpn_path_status_t;
  state : path_lifecycle_t;
  local_addr : list Z;
  local_addr_len : Z;
  platform_net_id : Z;
  flags : Z;
  xqc_path_id : Z;
  xquic_path_live : bool;
  srtt_ms : Z;
  bytes_tx : Z;
  bytes_rx : Z;
  recreate_after_us : Z;
  recreate_retries : Z;
  path_stable_since_us : Z;
  state_entered_at_us : Z;
  last_residence_warn_at_us : Z
}.

#[export] Instance eta_path_entry : Settable path_entry_t := fun r =>
  PathEntry (handle r) (ops r) (transport_ctx r) (transport_attached r)
    (transport_released r) (name r) (status r) (state r) (local_addr r)
    (local_addr_len r) (platform_net_id r) (flags r) (xqc_path_id r)
    (xquic_path_live r) (srtt_ms r) (bytes_tx r) (bytes_rx r)
    (recreate_after_us r) (recreate_retries r) (path_stable_since_us r)
    (state_entered_at_us r) (last_residence_warn_at_us r).

Record path_event_ctx_t := PathEventCtx {
  result : activate_result_t;
  new_xqc_path_id : Z;
  validated_target : path_lifecycle_t;
  now_us : Z
}.

Inductive log_level_t := MQVPN_LOG_DEBUG | MQVPN_LOG_INFO | MQVPN_LOG_WARN | MQVPN_LOG_ERROR.

(** What a handler does to the owning client.  [FxTransition] carries the
    arguments of the transition log line, [FxPathEvent] those of the
    [path_event] callback, [FxAbort] is a failed [assert] of a debug build. *)
Inductive path_fx :=
  | FxLog (level : log_level_t) (text : string) (st : path_lifecycle_t)
  | FxTransition (h : Z) (old new : path_lifecycle_t)
      (reason : path_transition_reason_t) (retries : Z)
      (attached released : bool) (xqc_id : Z)
  | FxPathEvent (h : Z) (st : mqvpn_path_status_t)
  | FxAbort.

Definition PATH_RECREATE_DELAY_US : Z := 5 * 1000000.
Definition PATH_RECREATE_MAX_DELAY_US : Z := 60 * 1000000.
Definition PATH_RECREATE_MAX_RETRIES : Z := 6.
Definition PATH_STABLE_THRESHOLD_US : Z := 30 * 1000000.
Definition PATH_RESIDENCE_PENDING_WARN_US : Z := 30 * 1000 * 1000.
Definition PATH_RESIDENCE_DEGRADED_GRACE_US : Z := 60 * 1000 * 1000.

(** ** Names *)

Definition mqvpn_path_status_name (s : mqvpn_path_status_t) : string :=
  match s with
  | MQVPN_PATH_PENDING => "PENDING"
  | MQVPN_PATH_ACTIVE => "ACTIVE"
  | MQVPN_PATH_STANDBY => "STANDBY"
  | MQVPN_PATH_DEGRADED => "DEGRADED"
  | MQVPN_PATH_CLOSED => "CLOSED"
  end.

Definition mqvpn_path_transition_reason_name (r : path_transition_reason_t) : string :=
  match r with
  | PATH_REASON_ADD => "ADD"
  | PATH_REASON_ACTIVATE_OK => "ACTIVATE_OK"
  | PATH_REASON_ACTIVATE_FAILED => "ACTIVATE_FAILED"
  | PATH_REASON_XQUIC_REMOVED => "XQUIC_REMOVED"
  | PATH_REASON_PLATFORM_DROPPED => "PLATFORM_DROPPED"
  | PATH_REASON_REMOVE_API => "REMOVE_API"
  | PATH_REASON_REACTIVATE => "REACTIVATE"
  | PATH_REASON_CONN_RESET => "CONN_RESET"
  | PATH_REASON_RETRY_RESET => "RETRY_RESET"
  | PATH_REASON_TRANSPORT_RELEASED => "TRANSPORT_RELEASED"
  end.

Definition path_lifecycle_name (s : path_lifecycle_t) : string :=
  match s with
  | PATH_LC_PENDING => "PENDING"
  | PATH_LC_CREATE_WAIT => "CREATE_WAIT"
  | PATH_LC_VALIDATING => "VALIDATING"
  | PATH_LC_ACTIVE => "ACTIVE"
  | PATH_LC_STANDBY => "STANDBY"
  | PATH_LC_DEGRADED => "DEGRADED"
  | PATH_LC_CLOSED_RECOVERABLE => "CLOSED_RECOVERABLE"
  | PATH_LC_CLOSED_DROPPED => "CLOSED_DROPPED"
  | PATH_LC_CLOSED_FREE => "CLOSED_FREE"
  end.

Definition path_event_name (ev : path_event_t) : string :=
  match ev with
  | PATH_EVENT_ACTIVATE_REQUESTED => "ACTIVATE_REQUESTED"
  | PATH_EVENT_RETRY_TIMER => "RETRY_TIMER"
  | PATH_EVENT_VALIDATION_OK => "VALIDATION_OK"
  | PATH_EVENT_XQUIC_REMOVED => "XQUIC_REMOVED"
  | PATH_EVENT_MANUAL_REACTIVATE => "MANUAL_REACTIVATE"
  | PATH_EVENT_PLATFORM_DROP => "PLATFORM_DROP"
  | PATH_EVENT_REMOVE_API => "REMOVE_API"
  | PATH_EVENT_ADD => "ADD"
  | PATH_EVENT_CONN_RESET => "CONN_RESET"
  | PATH_EVENT_TRANSPORT_RELEASED => "TRANSPORT_RELEASED"
  end.

(** ** Assertions *)

Definition path_public_status_from_lifecycle (s : path_lifecycle_t) : mqvpn_path_status_t :=
  match s with
  | PATH_LC_PENDING | PATH_LC_CREATE_WAIT | PATH_LC_VALIDATING => MQVPN_PATH_PENDING
  | PATH_LC_ACTIVE => MQVPN_PATH_ACTIVE
  | PATH_LC_STANDBY => MQVPN_PATH_STANDBY
  | PATH_LC_DEGRADED => MQVPN_PATH_DEGRADED
  | PATH_LC_CLOSED_RECOVERABLE | PATH_LC_CLOSED_DROPPED | PATH_LC_CLOSED_FREE =>
      MQVPN_PATH_CLOSED
  end.

(** The conjunction of the assertions the C function makes. *)
Definition path_invariant_check_legacy (p : path_entry_t) : bool :=
  let attached_ok := transport_attached p && negb (transport_released p) in
  match status p with
  | MQVPN_PATH_PENDING =>
      transport_attached p && negb (xquic_path_live p) && attached_ok &&
      (xqc_path_id p =? 0) && (recreate_after_us p =? 0) && (path_stable_since_us p =? 0)
  | MQVPN_PATH_ACTIVE | MQVPN_PATH_STANDBY =>
      transport_attached p && xquic_path_live p && attached_ok && (recreate_after_us p =? 0)
  | MQVPN_PATH_DEGRADED =>
      transport_attached p && negb (xquic_path_live p) && attached_ok &&
      (xqc_path_id p =? 0) && negb (recreate_after_us p =? 0) && (path_stable_since_us p =? 0)
  | MQVPN_PATH_CLOSED =>
      if transport_attached p then
        negb (xquic_path_live p) && attached_ok && (xqc_path_id p =? 0) &&
        (recreate_after_us p =? 0) && (path_stable_since_us p =? 0)
      else (recreate_after_us p =? 0) && (path_stable_since_us p =? 0)
  end.

(** The conjunction of the assertions the C function makes. *)
Definition path_invariant_check (p : path_entry_t) : bool :=
  let attached_ok := transport_attached p && negb (transport_released p) in
  bool_decide (status p = path_public_status_from_lifecycle (state p)) &&
  match state p with
  | PATH_LC_PENDING =>
      transport_attached p && negb (xquic_path_live p) && attached_ok &&
      (xqc_path_id p =? 0) && (recreate_after_us p =? 0) && (path_stable_since_us p =? 0)
  | PATH_LC_CREATE_WAIT =>
      transport_attached p && negb (xquic_path_live p) && attached_ok &&
      negb (recreate_after_us p =? 0)
  | PATH_LC_VALIDATING =>
      transport_attached p && xquic_path_live p && attached_ok && (recreate_after_us p =? 0)
  | PATH_LC_ACTIVE | PATH_LC_STANDBY =>
      transport_attached p && xquic_path_live p && attached_ok && (recreate_after_us p =? 0)
  | PATH_LC_DEGRADED =>
      transport_attached p && negb (xquic_path_live p) && attached_ok &&
      (xqc_path_id p =? 0) && negb (recreate_after_us p =? 0) && (path_stable_since_us p =? 0)
  | PATH_LC_CLOSED_RECOVERABLE =>
      transport_attached p && negb (xquic_path_live p) && attached_ok &&
      (xqc_path_id p =? 0) && (recreate_after_us p =? 0) && (path_stable_since_us p =? 0)
  | PATH_LC_CLOSED_DROPPED =>
      negb (transport_attached p) && (recreate_after_us p =? 0) && (path_stable_since_us p =? 0)
  | PATH_LC_CLOSED_FREE =>
      negb (transport_attached p) && transport_released p && negb (xquic_path_live p) &&
      (xqc_path_id p =? 0) && bool_decide (ops_send (ops p) = None) &&
      bool_decide (transport_ctx p = None) && (recreate_after_us p =? 0) &&
      (path_stable_since_us p =? 0)
  end.

(** ** Residence timers *)

Definition path_mark_state_entry (p : path_entry_t) (now : Z) : path_entry_t :=
  p <| state_entered_at_us := now |> <| last_residence_warn_at_us := 0 |>.

Definition path_is_real_transition (old new_status : mqvpn_path_status_t)
    (entered_at_us : Z) : bool :=
  if negb (bool_decide (old = new_status)) then true
  else if entered_at_us =? 0 then true
  else false.

Definition path_should_warn_residence (p : path_entry_t) (now : Z) : bool :=
  if state_entered_at_us p =? 0 then false
  else
    let anchor := if negb (last_residence_warn_at_us p =? 0)
                  then last_residence_warn_at_us p else state_entered_at_us p in
    let since_anchor := u64 (now - anchor) in
    match status p with
    | MQVPN_PATH_PENDING => PATH_RESIDENCE_PENDING_WARN_US <? since_anchor
    | MQVPN_PATH_DEGRADED =>
        negb (recreate_after_us p =? 0) &&
        (u64 (recreate_after_us p + PATH_RESIDENCE_DEGRADED_GRACE_US) <? now) &&
        (PATH_RESIDENCE_DEGRADED_GRACE_US <? since_anchor)
    | _ => false
    end.

(** ** Transitions *)

Definition path_log_state_change (p : path_entry_t) (old : path_lifecycle_t)
    (reason : path_transition_reason_t) : path_fx :=
  FxTransition (handle p) old (state p) reason (recreate_retries p)
    (transport_attached p) (transport_released p) (xqc_path_id p).

(** [clk] is the value [client_now_us] returns. *)
Definition set_path_state_with_log (clk : Z) (p : path_entry_t)
    (new_state : path_lifecycle_t) (reason : path_transition_reason_t)
    : path_entry_t * list path_fx :=
  let old_state := state p in
  let real := negb (bool_decide (old_state = new_state)) || (state_entered_at_us p =? 0) in
  if negb real then (p, [])
  else
    let p := p <| status := path_public_status_from_lifecycle new_state |>
               <| state := new_state |> in
    let p := path_mark_state_entry p clk in
    (p, [path_log_state_change p old_state reason]).

Fixpoint backoff_loop (iters : nat) (delay : Z) : Z :=
  match iters with
  | O => delay
  | S n => if delay <? PATH_RECREATE_MAX_DELAY_US then backoff_loop n (delay * 2) else delay
  end.

(** The loop counter runs from 1 to [retries - 1]. *)
Definition path_recreate_backoff (retries : Z) : Z :=
  let delay := backoff_loop (Z.to_nat (retries - 1)) PATH_RECREATE_DELAY_US in
  if PATH_RECREATE_MAX_DELAY_US <? delay then PATH_RECREATE_MAX_DELAY_US else delay.

Definition no_ops : mqvpn_path_ops_t := PathOps 0 None None None.

(** [memset] to zero, then the two fields that are not zero. *)
Definition path_entry_init : path_entry_t :=
  let p := PathEntry 0 no_ops None false false "" MQVPN_PATH_PENDING PATH_LC_PENDING
             [] 0 0 0 0 false 0 0 0 0 0 0 0 0 in
  p <| transport_released := true |>
    <| state := PATH_LC_CLOSED_FREE |>
    <| status := path_public_status_from_lifecycle PATH_LC_CLOSED_FREE |>.

Definition apply_failure_with_retry_check (clk : Z) (p : path_entry_t)
    (retry_target : path_lifecycle_t) (reason : path_transition_reason_t)
    (now : Z) : path_entry_t * list path_fx :=
  let p := p <| xquic_path_live := false |> <| xqc_path_id := 0 |>
             <| path_stable_since_us := 0 |> in
  let p := p <| recreate_retries := recreate_retries p + 1 |> in
  if PATH_RECREATE_MAX_RETRIES <=? recreate_retries p then
    set_path_state_with_log clk (p <| recreate_after_us := 0 |>)
      PATH_LC_CLOSED_RECOVERABLE reason
  else
    set_path_state_with_log clk
      (p <| recreate_after_us := u64 (now + path_recreate_backoff (recreate_retries p)) |>)
      retry_target reason.

Definition maybe_transition_dropped_to_free (clk : Z) (p : path_entry_t)
    (reason : path_transition_reason_t) : path_entry_t * list path_fx :=
  if negb (bool_decide (state p = PATH_LC_CLOSED_DROPPED)) then (p, [])
  else if negb (transport_released p) then (p, [])
  else if xquic_path_live p then (p, [])
  else if negb (xqc_path_id p =? 0) then (p, [])
  else set_path_state_with_log clk p PATH_LC_CLOSED_FREE reason.

(** ** Event handlers *)

Definition path_on_activate_requested (clk : Z) (p : path_entry_t)
    (ctx : path_event_ctx_t) : path_entry_t * list path_fx :=
  if negb (bool_decide (state p = PATH_LC_PENDING)) then
    (p, [FxLog MQVPN_LOG_WARN "ACTIVATE_REQUESTED in unexpected state" (state p)])
  else
    match result ctx with
    | ACTIVATE_OK =>
        set_path_state_with_log clk
          (p <| xqc_path_id := new_xqc_path_id ctx |> <| xquic_path_live := true |>
             <| recreate_after_us := 0 |>)
          PATH_LC_VALIDATING PATH_REASON_ACTIVATE_OK
    | ACTIVATE_TRANSIENT_FAIL =>
        apply_failure_with_retry_check clk p PATH_LC_CREATE_WAIT
          PATH_REASON_ACTIVATE_FAILED (now_us ctx)
    | ACTIVATE_PERMANENT_FAIL =>
        set_path_state_with_log clk
          (p <| xquic_path_live := false |> <| xqc_path_id := 0 |>
             <| path_stable_since_us := 0 |> <| recreate_after_us := 0 |>)
          PATH_LC_CLOSED_RECOVERABLE PATH_REASON_ACTIVATE_FAILED
    end.

Definition path_on_retry_timer (clk : Z) (p : path_entry_t)
    (ctx : path_event_ctx_t) : path_entry_t * list path_fx :=
  if negb (bool_decide (state p = PATH_LC_CREATE_WAIT)) &&
     negb (bool_decide (state p = PATH_LC_DEGRADED)) then
    (p, [FxLog MQVPN_LOG_WARN "RETRY_TIMER in unexpected state" (state p)])
  else
    let retry_target := state p in
    match result ctx with
    | ACTIVATE_OK =>
        set_path_state_with_log clk
          (p <| xqc_path_id := new_xqc_path_id ctx |> <| xquic_path_live := true |>
             <| recreate_after_us := 0 |>)
          PATH_LC_VALIDATING PATH_REASON_ACTIVATE_OK
    | ACTIVATE_TRANSIENT_FAIL =>
        apply_failure_with_retry_check clk p retry_target
          PATH_REASON_ACTIVATE_FAILED (now_us ctx)
    | ACTIVATE_PERMANENT_FAIL =>
        set_path_state_with_log clk
          (p <| xquic_path_live := false |> <| xqc_path_id := 0 |>
             <| path_stable_since_us := 0 |> <| recreate_after_us := 0 |>)
          PATH_LC_CLOSED_RECOVERABLE PATH_REASON_ACTIVATE_FAILED
    end.

Definition path_on_validation_ok (clk : Z) (p : path_entry_t)
    (ctx : path_event_ctx_t) : path_entry_t * list path_fx :=
  if negb (bool_decide (state p = PATH_LC_VALIDATING)) then
    (p, [FxLog MQVPN_LOG_DEBUG "VALIDATION_OK (late), ignoring" (state p)])
  else
    set_path_state_with_log clk (p <| path_stable_since_us := now_us ctx |>)
      (validated_target ctx) PATH_REASON_ACTIVATE_OK.

Definition path_on_xquic_removed (clk : Z) (p : path_entry_t)
    (ctx : path_event_ctx_t) : path_entry_t * list path_fx :=
  match state p with
  | PATH_LC_VALIDATING =>
      apply_failure_with_retry_check clk p PATH_LC_CREATE_WAIT
        PATH_REASON_XQUIC_REMOVED (now_us ctx)
  | PATH_LC_ACTIVE | PATH_LC_STANDBY =>
      apply_failure_with_retry_check clk p PATH_LC_DEGRADED
        PATH_REASON_XQUIC_REMOVED (now_us ctx)
  | PATH_LC_CLOSED_DROPPED =>
      maybe_transition_dropped_to_free clk
        (p <| xquic_path_live := false |> <| xqc_path_id := 0 |>)
        PATH_REASON_XQUIC_REMOVED
  | _ => (p, [FxLog MQVPN_LOG_WARN "XQUIC_REMOVED in unexpected state" (state p)])
  end.

Definition path_on_manual_reactivate (clk : Z) (p : path_entry_t)
    (ctx : path_event_ctx_t) : path_entry_t * list path_fx :=
  if negb (bool_decide (state p = PATH_LC_CLOSED_RECOVERABLE)) &&
     negb (bool_decide (state p = PATH_LC_CREATE_WAIT)) &&
     negb (bool_decide (state p = PATH_LC_DEGRADED)) then
    (p, [FxLog MQVPN_LOG_WARN "MANUAL_REACTIVATE in unexpected state" (state p)])
  else
    match result ctx with
    | ACTIVATE_OK =>
        set_path_state_with_log clk
          (p <| xqc_path_id := new_xqc_path_id ctx |> <| xquic_path_live := true |>
             <| recreate_after_us := 0 |>)
          PATH_LC_VALIDATING PATH_REASON_REACTIVATE
    | ACTIVATE_TRANSIENT_FAIL | ACTIVATE_PERMANENT_FAIL =>
        (p, [FxLog MQVPN_LOG_INFO "MANUAL_REACTIVATE fail, no state change" (state p)])
    end.

Definition path_on_platform_drop (clk : Z) (p : path_entry_t)
    : path_entry_t * list path_fx :=
  if bool_decide (state p = PATH_LC_CLOSED_DROPPED) then (p, [])
  else if bool_decide (state p = PATH_LC_CLOSED_FREE) then (p, [])
  else
    set_path_state_with_log clk
      (p <| transport_attached := false |> <| recreate_after_us := 0 |>
         <| path_stable_since_us := 0 |>)
      PATH_LC_CLOSED_DROPPED PATH_REASON_PLATFORM_DROPPED.

Definition path_on_remove_api (clk : Z) (p : path_entry_t)
    : path_entry_t * list path_fx :=
  if bool_decide (state p = PATH_LC_CLOSED_DROPPED) then (p, [])
  else if bool_decide (state p = PATH_LC_CLOSED_FREE) then (p, [])
  else
    set_path_state_with_log clk
      (p <| transport_attached := false |> <| recreate_after_us := 0 |>
         <| path_stable_since_us := 0 |>)
      PATH_LC_CLOSED_DROPPED PATH_REASON_REMOVE_API.

Definition path_on_add (clk : Z) (p : path_entry_t) : path_entry_t * list path_fx :=
  if negb (bool_decide (state p = PATH_LC_CLOSED_FREE)) then
    (p, [FxLog MQVPN_LOG_WARN "ADD in unexpected state" (state p)])
  else
    set_path_state_with_log clk
      (p <| transport_attached := true |> <| transport_released := false |>)
      PATH_LC_PENDING PATH_REASON_ADD.

Definition path_on_conn_reset (clk : Z) (p : path_entry_t) : path_entry_t * list path_fx :=
  let p := p <| xquic_path_live := false |> <| xqc_path_id := 0 |>
             <| recreate_after_us := 0 |> <| recreate_retries := 0 |>
             <| path_stable_since_us := 0 |> in
  if transport_attached p then
    set_path_state_with_log clk p PATH_LC_PENDING PATH_REASON_CONN_RESET
  else maybe_transition_dropped_to_free clk p PATH_REASON_CONN_RESET.

Definition path_on_transport_released (clk : Z) (p : path_entry_t)
    : path_entry_t * list path_fx :=
  if negb (bool_decide (state p = PATH_LC_CLOSED_DROPPED)) then
    (p, [FxLog MQVPN_LOG_DEBUG "TRANSPORT_RELEASED (late), ignoring" (state p)])
  else
    maybe_transition_dropped_to_free clk
      (p <| transport_ctx := None |> <| transport_released := true |>)
      PATH_REASON_TRANSPORT_RELEASED.

(** The [switch] of [path_on_event]. *)
Definition path_dispatch (clk : Z) (p : path_entry_t) (ev : path_event_t)
    (ctx : path_event_ctx_t) : path_entry_t * list path_fx :=
  match ev with
  | PATH_EVENT_ACTIVATE_REQUESTED => path_on_activate_requested clk p ctx
  | PATH_EVENT_RETRY_TIMER => path_on_retry_timer clk p ctx
  | PATH_EVENT_VALIDATION_OK => path_on_validation_ok clk p ctx
  | PATH_EVENT_XQUIC_REMOVED => path_on_xquic_removed clk p ctx
  | PATH_EVENT_MANUAL_REACTIVATE => path_on_manual_reactivate clk p ctx
  | PATH_EVENT_PLATFORM_DROP => path_on_platform_drop clk p
  | PATH_EVENT_REMOVE_API => path_on_remove_api clk p
  | PATH_EVENT_ADD => path_on_add clk p
  | PATH_EVENT_CONN_RESET => path_on_conn_reset clk p
  | PATH_EVENT_TRANSPORT_RELEASED => path_on_transport_released clk p
  end.

Definition path_on_event (clk : Z) (p : path_entry_t) (ev : path_event_t)
    (ctx : option path_event_ctx_t) : path_entry_t * list path_fx :=
  match ctx with
  | None => (p, [FxLog MQVPN_LOG_ERROR "path_on_event: NULL ctx" (state p)])
  | Some ctx =>
      let prior := state p in
      let '(p', fx) := path_dispatch clk p ev ctx in
      (p', fx ++ (if path_invariant_check p' then [] else [FxAbort]) ++
           (if bool_decide (prior = state p') then [] else [FxPathEvent (handle p') (status p')]))
  end.

Definition path_fsm_tick_confirm_stable (p : path_entry_t) (now : Z)
    : path_entry_t * list path_fx :=
  if negb (bool_decide (state p = PATH_LC_ACTIVE)) &&
     negb (bool_decide (state p = PATH_LC_STANDBY)) then (p, [])
  else if (path_stable_since_us p =? 0) || negb (xquic_path_live p) ||
          (u64 (now - path_stable_since_us p) <? PATH_STABLE_THRESHOLD_US) then (p, [])
  else
    (p <| recreate_retries := 0 |> <| path_stable_since_us := now |>,
     [FxLog MQVPN_LOG_INFO "stable for 30s, resetting retry budget" (state p)]).
