(* ===== verification/PathSpec.v ===== *)
(** * The path slot's abstract machine and what the C machine promises

    [Module Spec] is the functional specification the repository gives of the
    slot lifecycle ([formal/PathSlotFsm.tla]): the slot reduced to eight
    fields, one operator [Step] and the classes of the timer updates it makes.
    The theorems relate [PathFsm] to it (a functional refinement), show that
    the assertions of [path_invariant_check] hold after every event the client
    can raise, and bound the retry machinery. *)

From S2P Require Import Prelude PathFsm.

Module Spec.

Record slot := Slot {
  st : path_lifecycle_t;
  attached : bool;
  released : bool;
  live : bool;
  xqcId : Z;
  retryArmed : bool;
  stableArmed : bool;
  retries : Z
}.

#[global] Instance eta_slot : Settable slot := fun r =>
  Slot (st r) (attached r) (released r) (live r) (xqcId r) (retryArmed r)
    (stableArmed r) (retries r).

Inductive event := Ev (e : path_event_t) | STABLE_TICK.

(** How a timer or counter is written: left alone, zeroed over a nonzero
    value, armed, set to the current time, incremented. *)
Inductive upd := KEEP | ZERO | ARM | NOW | INC.

Record ctx := Ctx {
  cresult : activate_result_t;
  newId : Z;
  target : path_lifecycle_t;
  reached : bool
}.

Record handled := R {
  hslot : slot;
  retryUpd : upd;
  stableUpd : upd;
  retriesUpd : upd
}.

Definition MaxRetries : Z := 6.

Definition Projection (s : path_lifecycle_t) : mqvpn_path_status_t :=
  match s with
  | PATH_LC_PENDING | PATH_LC_CREATE_WAIT | PATH_LC_VALIDATING => MQVPN_PATH_PENDING
  | PATH_LC_ACTIVE => MQVPN_PATH_ACTIVE
  | PATH_LC_STANDBY => MQVPN_PATH_STANDBY
  | PATH_LC_DEGRADED => MQVPN_PATH_DEGRADED
  | _ => MQVPN_PATH_CLOSED
  end.

Definition Legal (s : slot) : bool :=
  let attachedOk := attached s && negb (released s) in
  match st s with
  | PATH_LC_PENDING =>
      attachedOk && negb (live s) && (xqcId s =? 0) && negb (retryArmed s) && negb (stableArmed s)
  | PATH_LC_CREATE_WAIT => attachedOk && negb (live s) && retryArmed s
  | PATH_LC_VALIDATING | PATH_LC_ACTIVE | PATH_LC_STANDBY =>
      attachedOk && live s && negb (retryArmed s)
  | PATH_LC_DEGRADED =>
      attachedOk && negb (live s) && (xqcId s =? 0) && retryArmed s && negb (stableArmed s)
  | PATH_LC_CLOSED_RECOVERABLE =>
      attachedOk && negb (live s) && (xqcId s =? 0) && negb (retryArmed s) && negb (stableArmed s)
  | PATH_LC_CLOSED_DROPPED =>
      negb (attached s) && negb (retryArmed s) && negb (stableArmed s)
  | PATH_LC_CLOSED_FREE =>
      negb (attached s) && released s && negb (live s) && (xqcId s =? 0) &&
      negb (retryArmed s) && negb (stableArmed s)
  end.

Definition RetryZero (s : slot) : upd := if retryArmed s then ZERO else KEEP.
Definition StableZero (s : slot) : upd := if stableArmed s then ZERO else KEEP.
Definition RetriesZero (s : slot) : upd := if negb (retries s =? 0) then ZERO else KEEP.
Definition NoOp (s : slot) : handled := R s KEEP KEEP KEEP.

Definition FreeGate (s : slot) : slot :=
  if bool_decide (st s = PATH_LC_CLOSED_DROPPED) && released s && negb (live s) && (xqcId s =? 0)
  then s <| st := PATH_LC_CLOSED_FREE |> else s.

Definition ApplyFailure (s : slot) (tgt : path_lifecycle_t) : handled :=
  let capped := MaxRetries <=? retries s + 1 in
  let s2 := s <| live := false |> <| xqcId := 0 |> <| stableArmed := false |>
              <| retries := if retries s <? MaxRetries then retries s + 1 else retries s |>
              <| retryArmed := negb capped |>
              <| st := if capped then PATH_LC_CLOSED_RECOVERABLE else tgt |> in
  R s2 (if capped then RetryZero s else ARM) (StableZero s) INC.

Definition ActivateOk (s : slot) (id : Z) : handled :=
  R (s <| xqcId := id |> <| live := true |> <| retryArmed := false |>
       <| st := PATH_LC_VALIDATING |>)
    (RetryZero s) KEEP KEEP.

Definition PermanentFail (s : slot) : handled :=
  R (s <| live := false |> <| xqcId := 0 |> <| stableArmed := false |>
       <| retryArmed := false |> <| st := PATH_LC_CLOSED_RECOVERABLE |>)
    (RetryZero s) (StableZero s) KEEP.

Definition OnActivate (s : slot) (c : ctx) : handled :=
  if negb (bool_decide (st s = PATH_LC_PENDING)) then NoOp s
  else match cresult c with
       | ACTIVATE_OK => ActivateOk s (newId c)
       | ACTIVATE_TRANSIENT_FAIL => ApplyFailure s PATH_LC_CREATE_WAIT
       | ACTIVATE_PERMANENT_FAIL => PermanentFail s
       end.

Definition OnRetryTimer (s : slot) (c : ctx) : handled :=
  if negb (bool_decide (st s = PATH_LC_CREATE_WAIT) || bool_decide (st s = PATH_LC_DEGRADED))
  then NoOp s
  else match cresult c with
       | ACTIVATE_OK => ActivateOk s (newId c)
       | ACTIVATE_TRANSIENT_FAIL => ApplyFailure s (st s)
       | ACTIVATE_PERMANENT_FAIL => PermanentFail s
       end.

Definition OnValidationOk (s : slot) (c : ctx) : handled :=
  if negb (bool_decide (st s = PATH_LC_VALIDATING)) then NoOp s
  else R (s <| stableArmed := true |> <| st := target c |>) KEEP NOW KEEP.

Definition OnXquicRemoved (s : slot) : handled :=
  match st s with
  | PATH_LC_VALIDATING => ApplyFailure s PATH_LC_CREATE_WAIT
  | PATH_LC_ACTIVE | PATH_LC_STANDBY => ApplyFailure s PATH_LC_DEGRADED
  | PATH_LC_CLOSED_DROPPED =>
      R (FreeGate (s <| live := false |> <| xqcId := 0 |>)) KEEP KEEP KEEP
  | _ => NoOp s
  end.

Definition OnManualReactivate (s : slot) (c : ctx) : handled :=
  if negb (bool_decide (st s = PATH_LC_CLOSED_RECOVERABLE) ||
           bool_decide (st s = PATH_LC_CREATE_WAIT) || bool_decide (st s = PATH_LC_DEGRADED))
  then NoOp s
  else match cresult c with
       | ACTIVATE_OK => ActivateOk s (newId c)
       | _ => NoOp s
       end.

Definition OnDropLike (s : slot) : handled :=
  if bool_decide (st s = PATH_LC_CLOSED_DROPPED) || bool_decide (st s = PATH_LC_CLOSED_FREE)
  then NoOp s
  else R (s <| attached := false |> <| retryArmed := false |> <| stableArmed := false |>
            <| st := PATH_LC_CLOSED_DROPPED |>)
         (RetryZero s) (StableZero s) KEEP.

Definition OnAdd (s : slot) : handled :=
  if negb (bool_decide (st s = PATH_LC_CLOSED_FREE)) then NoOp s
  else R (s <| attached := true |> <| released := false |> <| st := PATH_LC_PENDING |>)
         KEEP KEEP KEEP.

Definition OnConnReset (s : slot) : handled :=
  let s2 := s <| live := false |> <| xqcId := 0 |> <| retryArmed := false |>
              <| retries := 0 |> <| stableArmed := false |> in
  R (if attached s then s2 <| st := PATH_LC_PENDING |> else FreeGate s2)
    (RetryZero s) (StableZero s) (RetriesZero s).

Definition OnTransportReleased (s : slot) : handled :=
  if negb (bool_decide (st s = PATH_LC_CLOSED_DROPPED)) then NoOp s
  else R (FreeGate (s <| released := true |>)) KEEP KEEP KEEP.

Definition OnStableTick (s : slot) (c : ctx) : handled :=
  if (bool_decide (st s = PATH_LC_ACTIVE) || bool_decide (st s = PATH_LC_STANDBY)) &&
     stableArmed s && live s && reached c
  then R (s <| retries := 0 |>) KEEP NOW (RetriesZero s)
  else NoOp s.

Definition Handle (s : slot) (ev : event) (c : ctx) : handled :=
  match ev with
  | Ev PATH_EVENT_ACTIVATE_REQUESTED => OnActivate s c
  | Ev PATH_EVENT_RETRY_TIMER => OnRetryTimer s c
  | Ev PATH_EVENT_VALIDATION_OK => OnValidationOk s c
  | Ev PATH_EVENT_XQUIC_REMOVED => OnXquicRemoved s
  | Ev PATH_EVENT_MANUAL_REACTIVATE => OnManualReactivate s c
  | Ev PATH_EVENT_PLATFORM_DROP => OnDropLike s
  | Ev PATH_EVENT_REMOVE_API => OnDropLike s
  | Ev PATH_EVENT_ADD => OnAdd s
  | Ev PATH_EVENT_CONN_RESET => OnConnReset s
  | Ev PATH_EVENT_TRANSPORT_RELEASED => OnTransportReleased s
  | STABLE_TICK => OnStableTick s c
  end.

Definition fires (s : slot) (ev : event) (c : ctx) : bool :=
  match ev with
  | STABLE_TICK => false
  | _ => negb (bool_decide (st (hslot (Handle s ev c)) = st s))
  end.

End Spec.

(** ** Abstraction *)

Definition abs_slot (p : path_entry_t) : Spec.slot :=
  Spec.Slot (state p) (transport_attached p) (transport_released p) (xquic_path_live p)
    (xqc_path_id p) (negb (recreate_after_us p =? 0)) (negb (path_stable_since_us p =? 0))
    (Z.min (recreate_retries p) Spec.MaxRetries).

(** [reached] is the C comparison [now - since >= 30 s] in [uint64_t]. *)
Definition abs_ctx (p : path_entry_t) (c : path_event_ctx_t) : Spec.ctx :=
  Spec.Ctx (result c) (new_xqc_path_id c) (validated_target c)
    (negb (u64 (now_us c - path_stable_since_us p) <? PATH_STABLE_THRESHOLD_US)).

(** What an update class says about the concrete field before and after. *)
Definition upd_ok (u : Spec.upd) (old new armed now : Z) : Prop :=
  match u with
  | Spec.KEEP => new = old
  | Spec.ZERO => new = 0 /\ old <> 0
  | Spec.ARM => new = armed
  | Spec.NOW => new = now
  | Spec.INC => new = old + 1
  end.

Definition is_path_event (e : path_fx) : bool :=
  match e with FxPathEvent _ _ => true | _ => false end.

Definition step_concrete (clk : Z) (p : path_entry_t) (ev : Spec.event)
    (c : path_event_ctx_t) : path_entry_t * list path_fx :=
  match ev with
  | Spec.Ev e => path_on_event clk p e (Some c)
  | Spec.STABLE_TICK => path_fsm_tick_confirm_stable p (now_us c)
  end.

(** The clock readings the client passes: nonzero, and far enough below
    [2^64] that arming the longest retry timer does not wrap. *)
Definition clock_ok (now : Z) : Prop := 0 < now < 2 ^ 64 - PATH_RECREATE_MAX_DELAY_US.

(** ** Back-off *)

Lemma backoff_loop_min n d : 0 < d ->
  Z.min PATH_RECREATE_MAX_DELAY_US (backoff_loop n d) =
  Z.min PATH_RECREATE_MAX_DELAY_US (d * 2 ^ Z.of_nat n).
Proof.
  revert d. induction n as [|n IH]; intros d Hd.
  { cbn. f_equal. lia. }
  cbn [backoff_loop]. destruct (Z.ltb_spec d PATH_RECREATE_MAX_DELAY_US).
  - rewrite IH by lia. rewrite Nat2Z.inj_succ, Z.pow_succ_r by lia. f_equal. ring.
  - pose proof (pow2_pos (Z.of_nat (S n)) ltac:(lia)). nia.
Qed.

Lemma path_recreate_backoff_min r :
  path_recreate_backoff r =
  Z.min PATH_RECREATE_MAX_DELAY_US (PATH_RECREATE_DELAY_US * 2 ^ Z.max 0 (r - 1)).
Proof.
  unfold path_recreate_backoff.
  pose proof (backoff_loop_min (Z.to_nat (r - 1)) PATH_RECREATE_DELAY_US ltac:(done)) as H.
  rewrite ZifyInst.of_nat_to_nat_eq in H.
  destruct (Z.ltb_spec PATH_RECREATE_MAX_DELAY_US
              (backoff_loop (Z.to_nat (r - 1)) PATH_RECREATE_DELAY_US)); lia.
Qed.

Lemma path_recreate_backoff_bounds r :
  PATH_RECREATE_DELAY_US <= path_recreate_backoff r <= PATH_RECREATE_MAX_DELAY_US.
Proof.
  rewrite path_recreate_backoff_min.
  pose proof (pow2_pos (Z.max 0 (r - 1)) ltac:(lia)).
  unfold PATH_RECREATE_MAX_DELAY_US, PATH_RECREATE_DELAY_US. lia.
Qed.

Lemma retry_armed_nonzero now r : clock_ok now ->
  u64 (now + path_recreate_backoff r) = now + path_recreate_backoff r /\
  (u64 (now + path_recreate_backoff r) =? 0) = false.
Proof.
  intros H. pose proof (path_recreate_backoff_bounds r).
  unfold clock_ok, PATH_RECREATE_MAX_DELAY_US, PATH_RECREATE_DELAY_US in *.
  rewrite u64_small by lia. split; [done|]. lia.
Qed.

(** ** The state write *)

Definition slot_fields (p : path_entry_t) :=
  (ops p, transport_ctx p, transport_attached p, transport_released p,
   xqc_path_id p, xquic_path_live p,
   (recreate_after_us p, recreate_retries p, path_stable_since_us p)).

Lemma set_state_fields clk p s r :
  slot_fields (set_path_state_with_log clk p s r).1 = slot_fields p.
Proof. unfold set_path_state_with_log. by destruct (negb _). Qed.

Lemma set_state_state clk p s r :
  state (set_path_state_with_log clk p s r).1 = s.
Proof.
  unfold set_path_state_with_log.
  destruct (bool_decide_reflect (state p = s)); cbn; [|done].
  by destruct (state_entered_at_us p =? 0).
Qed.

Lemma set_state_status clk p s r :
  status p = path_public_status_from_lifecycle (state p) ->
  status (set_path_state_with_log clk p s r).1 = path_public_status_from_lifecycle s.
Proof.
  intros H. unfold set_path_state_with_log.
  destruct (bool_decide_reflect (state p = s)) as [E|]; cbn; [|done].
  destruct (state_entered_at_us p =? 0); cbn; congruence.
Qed.

Definition quiet (e : path_fx) : Prop := is_path_event e = false /\ e <> FxAbort.

Lemma set_state_quiet clk p s r : Forall quiet (set_path_state_with_log clk p s r).2.
Proof. unfold set_path_state_with_log. destruct (negb _); repeat constructor; done. Qed.

Lemma set_state_abs clk p s r :
  abs_slot (set_path_state_with_log clk p s r).1 = (abs_slot p) <| Spec.st := s |>.
Proof.
  pose proof (set_state_fields clk p s r) as F. pose proof (set_state_state clk p s r) as S.
  unfold slot_fields in F. injection F as ? ? E1 E2 E3 E4 E5 E6 E7.
  unfold abs_slot. cbn. by rewrite S, E1, E2, E3, E4, E5, E6, E7.
Qed.

Lemma set_state_timers clk p s r :
  recreate_after_us (set_path_state_with_log clk p s r).1 = recreate_after_us p /\
  recreate_retries (set_path_state_with_log clk p s r).1 = recreate_retries p /\
  path_stable_since_us (set_path_state_with_log clk p s r).1 = path_stable_since_us p.
Proof.
  pose proof (set_state_fields clk p s r) as F.
  unfold slot_fields in F. by injection F as ? ? E1 E2 E3 E4 E5 E6 E7.
Qed.

#[export] Hint Resolve set_state_quiet : path.

(** ** Refinement *)

(** [r] is what the C handler returned from slot [p], [h] what the
    specification says. *)
Definition refines (p : path_entry_t) (now : Z) (r : path_entry_t * list path_fx)
    (h : Spec.handled) : Prop :=
  abs_slot r.1 = Spec.hslot h /\
  upd_ok (Spec.retryUpd h) (recreate_after_us p) (recreate_after_us r.1)
    (now + path_recreate_backoff (recreate_retries r.1)) now /\
  upd_ok (Spec.stableUpd h) (path_stable_since_us p) (path_stable_since_us r.1) now now /\
  upd_ok (Spec.retriesUpd h) (recreate_retries p) (recreate_retries r.1) now now.

Lemma refines_set_state clk p q s r now h :
  Spec.hslot h = (abs_slot q) <| Spec.st := s |> ->
  upd_ok (Spec.retryUpd h) (recreate_after_us p) (recreate_after_us q)
    (now + path_recreate_backoff (recreate_retries q)) now ->
  upd_ok (Spec.stableUpd h) (path_stable_since_us p) (path_stable_since_us q) now now ->
  upd_ok (Spec.retriesUpd h) (recreate_retries p) (recreate_retries q) now now ->
  refines p now (set_path_state_with_log clk q s r) h.
Proof.
  intros Habs H1 H2 H3. unfold refines.
  destruct (set_state_timers clk q s r) as (-> & -> & ->).
  rewrite set_state_abs, Habs. auto.
Qed.

Lemma refines_noop p now fx : refines p now (p, fx) (Spec.NoOp (abs_slot p)).
Proof. by repeat split. Qed.

#[export] Hint Resolve refines_noop : path.

Ltac zero_upd :=
  cbn; unfold Spec.RetryZero, Spec.StableZero, Spec.RetriesZero, abs_slot, Spec.MaxRetries;
  cbn; split_ifs; bool_to_prop; cbn; first [done | lia | (split; [done | lia])].

(** Discharges a branch that ends in a state write. *)
Ltac refine_write :=
  apply refines_set_state; [unfold abs_slot; cbn; try done | zero_upd | zero_upd | zero_upd].

Lemma apply_failure_refines clk p tgt r now :
  clock_ok now -> 0 <= recreate_retries p ->
  refines p now (apply_failure_with_retry_check clk p tgt r now)
    (Spec.ApplyFailure (abs_slot p) tgt).
Proof.
  intros Hc Hr. unfold apply_failure_with_retry_check, Spec.ApplyFailure. cbn.
  destruct (retry_armed_nonzero now (recreate_retries p + 1) Hc) as [E1 E2].
  unfold PATH_RECREATE_MAX_RETRIES, Spec.MaxRetries.
  assert (Hcap : (6 <=? Z.min (recreate_retries p) 6 + 1) = (6 <=? recreate_retries p + 1)) by lia.
  rewrite Hcap. destruct (Z.leb_spec 6 (recreate_retries p + 1));
    (apply refines_set_state;
      [unfold abs_slot, Spec.MaxRetries; cbn; rewrite ?E2; f_equal; split_ifs; lia
      | cbn; rewrite ?E1; zero_upd | zero_upd | zero_upd]).
Qed.

Lemma free_gate_cases clk q r :
  (maybe_transition_dropped_to_free clk q r = (q, []) /\ Spec.FreeGate (abs_slot q) = abs_slot q) \/
  (maybe_transition_dropped_to_free clk q r = set_path_state_with_log clk q PATH_LC_CLOSED_FREE r /\
   Spec.FreeGate (abs_slot q) = (abs_slot q) <| Spec.st := PATH_LC_CLOSED_FREE |> /\
   state q = PATH_LC_CLOSED_DROPPED /\ transport_released q = true /\
   xquic_path_live q = false /\ xqc_path_id q = 0).
Proof.
  unfold maybe_transition_dropped_to_free, Spec.FreeGate.
  change (Spec.st (abs_slot q)) with (state q).
  change (Spec.released (abs_slot q)) with (transport_released q).
  change (Spec.live (abs_slot q)) with (xquic_path_live q).
  change (Spec.xqcId (abs_slot q)) with (xqc_path_id q).
  destruct (bool_decide_reflect (state q = PATH_LC_CLOSED_DROPPED)); cbn [negb andb]; [|by left].
  destruct (transport_released q), (xquic_path_live q); cbn [negb andb]; try by left.
  destruct (Z.eqb_spec (xqc_path_id q) 0); cbn [negb]; [by right | by left].
Qed.

Lemma free_gate_refines clk p q r now h :
  Spec.hslot h = Spec.FreeGate (abs_slot q) ->
  upd_ok (Spec.retryUpd h) (recreate_after_us p) (recreate_after_us q)
    (now + path_recreate_backoff (recreate_retries q)) now ->
  upd_ok (Spec.stableUpd h) (path_stable_since_us p) (path_stable_since_us q) now now ->
  upd_ok (Spec.retriesUpd h) (recreate_retries p) (recreate_retries q) now now ->
  refines p now (maybe_transition_dropped_to_free clk q r) h.
Proof.
  intros Habs H1 H2 H3.
  destruct (free_gate_cases clk q r) as [[-> E]|(-> & E & _)]; rewrite E in Habs.
  - by split.
  - by apply refines_set_state.
Qed.

Lemma path_dispatch_refines clk p e c :
  clock_ok (now_us c) -> 0 <= recreate_retries p ->
  refines p (now_us c) (path_dispatch clk p e c)
    (Spec.Handle (abs_slot p) (Spec.Ev e) (abs_ctx p c)).
Proof.
  intros Hc Hr. pose proof Hc as Hnz. unfold clock_ok in Hnz. destruct e; cbn.
  - unfold path_on_activate_requested, Spec.OnActivate. cbn.
    destruct (bool_decide _); cbn; auto with path.
    destruct (result c); [refine_write | by apply apply_failure_refines | refine_write].
  - unfold path_on_retry_timer, Spec.OnRetryTimer. cbn. rewrite negb_orb.
    destruct (_ && _); cbn; auto with path.
    destruct (result c); [refine_write | by apply apply_failure_refines | refine_write].
  - unfold path_on_validation_ok, Spec.OnValidationOk. cbn.
    destruct (bool_decide _); cbn; auto with path.
    refine_write. f_equal. lia.
  - unfold path_on_xquic_removed, Spec.OnXquicRemoved. cbn.
    destruct (state p) eqn:E; auto using apply_failure_refines with path.
    apply free_gate_refines; done.
  - unfold path_on_manual_reactivate, Spec.OnManualReactivate. cbn. rewrite !negb_orb.
    destruct (_ && _); cbn; auto with path.
    destruct (result c); auto with path. refine_write.
  - unfold path_on_platform_drop, Spec.OnDropLike. cbn.
    destruct (bool_decide _); cbn; auto with path.
    destruct (bool_decide _); cbn; auto with path. refine_write.
  - unfold path_on_remove_api, Spec.OnDropLike. cbn.
    destruct (bool_decide _); cbn; auto with path.
    destruct (bool_decide _); cbn; auto with path. refine_write.
  - unfold path_on_add, Spec.OnAdd. cbn.
    destruct (bool_decide _); cbn; auto with path. refine_write.
  - unfold path_on_conn_reset, Spec.OnConnReset. cbn.
    destruct (transport_attached p) eqn:E; cbn.
    + refine_write.
    + apply free_gate_refines; [unfold abs_slot; cbn; done| zero_upd | zero_upd | zero_upd].
  - unfold path_on_transport_released, Spec.OnTransportReleased. cbn.
    destruct (bool_decide _); cbn; auto with path.
    by apply free_gate_refines.
Qed.

(** ** Effects *)

Lemma apply_failure_quiet clk p s r now :
  Forall quiet (apply_failure_with_retry_check clk p s r now).2.
Proof. unfold apply_failure_with_retry_check. destruct (_ <=? _); apply set_state_quiet. Qed.

Lemma free_gate_quiet clk p r : Forall quiet (maybe_transition_dropped_to_free clk p r).2.
Proof.
  destruct (free_gate_cases clk p r) as [[-> _]|(-> & _)]; [constructor | apply set_state_quiet].
Qed.

Lemma quiet_log l t s : Forall quiet [FxLog l t s].
Proof. by repeat constructor. Qed.

#[export] Hint Resolve apply_failure_quiet free_gate_quiet quiet_log : path.
#[export] Hint Resolve List.Forall_nil : path.

Lemma path_dispatch_quiet clk p e c : Forall quiet (path_dispatch clk p e c).2.
Proof.
  destruct e; cbn;
    unfold path_on_activate_requested, path_on_retry_timer, path_on_validation_ok,
      path_on_xquic_removed, path_on_manual_reactivate, path_on_platform_drop,
      path_on_remove_api, path_on_add, path_on_conn_reset, path_on_transport_released;
    split_ifs; repeat case_match; cbn [snd]; auto using set_state_quiet with path.
Qed.

Lemma quiet_no_event fx : Forall quiet fx -> existsb is_path_event fx = false.
Proof. induction 1 as [|e l [He _] _ IH]; cbn; [done | by rewrite He]. Qed.

Lemma quiet_no_abort fx : Forall quiet fx -> FxAbort ∉ fx.
Proof.
  rewrite Forall_forall. intros H Hin. by destruct (H _ Hin).
Qed.

(** C1: the C state machine implements the repository's functional
    specification [PathSlotFsm] of the slot lifecycle: for every slot, event
    and context, the slot [path_on_event] (or the stability tick) leaves
    abstracts to the slot the specification computes, the public path event
    fires exactly when the specification says so, and the retry timer, the
    stability timer and the retry counter are updated as the specification's
    update classes say. *)
Theorem path_step_refines clk p ev c :
  clock_ok (now_us c) -> 0 <= recreate_retries p ->
  refines p (now_us c) (step_concrete clk p ev c)
    (Spec.Handle (abs_slot p) ev (abs_ctx p c)) /\
  existsb is_path_event (step_concrete clk p ev c).2 =
    Spec.fires (abs_slot p) ev (abs_ctx p c).
Proof.
  intros Hc Hr. destruct ev as [e|].
  - pose proof (path_dispatch_refines clk p e c Hc Hr) as Href.
    pose proof (path_dispatch_quiet clk p e c) as Hq.
    cbn [step_concrete path_on_event].
    destruct (path_dispatch clk p e c) as [p' fx] eqn:E. split; [exact Href|].
    unfold Spec.fires. destruct Href as [<- _]. cbn.
    rewrite !existsb_app, quiet_no_event by done.
    destruct (path_invariant_check p'); cbn;
      (destruct (bool_decide_reflect (state p = state p')),
         (bool_decide_reflect (state p' = state p)); cbn; congruence).
  - cbn. unfold path_fsm_tick_confirm_stable, Spec.OnStableTick. cbn.
    destruct (bool_decide (state p = PATH_LC_ACTIVE)), (bool_decide (state p = PATH_LC_STANDBY));
      cbn; try (split; [apply refines_noop | done]);
      (destruct (path_stable_since_us p =? 0), (xquic_path_live p),
         (u64 (now_us c - path_stable_since_us p) <? PATH_STABLE_THRESHOLD_US); cbn;
       (split; [|done]); try apply refines_noop;
       unfold clock_ok in Hc; split; [unfold abs_slot; cbn; f_equal; lia|];
       repeat split; zero_upd).
Qed.

(** ** Legality *)

(** The assertions of [path_invariant_check] that speak of the lifecycle
    fields alone (not of the transport payload of a free slot). *)
Definition path_wf (p : path_entry_t) : Prop :=
  status p = path_public_status_from_lifecycle (state p) /\
  Spec.Legal (abs_slot p) = true /\ 0 <= recreate_retries p.

(** A slot that owes no release holds no transport. *)
Definition path_owned (p : path_entry_t) : Prop :=
  transport_released p = true -> ops_send (ops p) = None /\ transport_ctx p = None.

(** What the callers of [path_on_event] guarantee of the context. *)
Definition event_ok (p : path_entry_t) (e : path_event_t) (c : path_event_ctx_t) : Prop :=
  clock_ok (now_us c) /\
  (e = PATH_EVENT_VALIDATION_OK ->
   validated_target c = PATH_LC_ACTIVE \/ validated_target c = PATH_LC_STANDBY) /\
  (e = PATH_EVENT_TRANSPORT_RELEASED -> ops_send (ops p) = None).

Lemma invariant_check_iff p :
  path_invariant_check p = true <->
  status p = path_public_status_from_lifecycle (state p) /\ Spec.Legal (abs_slot p) = true /\
  (state p = PATH_LC_CLOSED_FREE -> ops_send (ops p) = None /\ transport_ctx p = None).
Proof.
  unfold path_invariant_check, Spec.Legal. cbn.
  destruct (bool_decide_reflect (status p = path_public_status_from_lifecycle (state p)))
    as [Hs|Hs]; cbn; [|intuition congruence].
  destruct (transport_attached p), (transport_released p), (xquic_path_live p),
    (xqc_path_id p =? 0), (recreate_after_us p =? 0), (path_stable_since_us p =? 0),
    (state p); cbn;
    try (intuition congruence);
    (destruct (bool_decide_reflect (ops_send (ops p) = None)),
      (bool_decide_reflect (transport_ctx p = None)); cbn; intuition congruence).
Qed.

Lemma wf_owned_check p : path_wf p -> path_owned p -> path_invariant_check p = true.
Proof.
  intros (Hs & Hl & _) Ho. apply invariant_check_iff. split_and!; [done..|].
  intros E. apply Ho. unfold Spec.Legal in Hl. cbn in Hl. rewrite E in Hl.
  bool_to_prop. done.
Qed.

Lemma Handle_legal s ev c :
  Spec.Legal s = true ->
  (ev = Spec.Ev PATH_EVENT_VALIDATION_OK ->
   Spec.target c = PATH_LC_ACTIVE \/ Spec.target c = PATH_LC_STANDBY) ->
  Spec.Legal (Spec.hslot (Spec.Handle s ev c)) = true.
Proof.
  intros Hl Ht. destruct s as [st att rel live id ra sa rt], c as [res nid tgt rch]. cbn in Ht.
  destruct ev as [[]|]; cbn;
    unfold Spec.OnActivate, Spec.OnRetryTimer, Spec.OnValidationOk, Spec.OnXquicRemoved,
      Spec.OnManualReactivate, Spec.OnDropLike, Spec.OnAdd, Spec.OnConnReset,
      Spec.OnTransportReleased, Spec.OnStableTick, Spec.ApplyFailure, Spec.FreeGate; cbn;
    destruct st, att, rel, live, ra, sa, (id =? 0) eqn:?; cbn in Hl; rewrite ?Heqb in Hl;
    try discriminate; clear Hl; decide_ctors; cbn; rewrite ?Heqb; try done;
    try (destruct res; cbn in *; rewrite ?Heqb in *; try done);
    try (destruct (Spec.MaxRetries <=? rt + 1); cbn; done);
    try (destruct (Ht eq_refl) as [-> | ->]; done);
    try (destruct rch; cbn; rewrite ?Heqb; done).
Qed.

(** The transport context after event [e]: only a release clears it. *)
Definition ctx_after (p : path_entry_t) (e : path_event_t) : option Z :=
  if bool_decide (e = PATH_EVENT_TRANSPORT_RELEASED) &&
     bool_decide (state p = PATH_LC_CLOSED_DROPPED)
  then None else transport_ctx p.

(** [q] is [p] with fields other than [status], [state], [ops] and [handle]
    edited by event [e]. *)
Definition edited (p : path_entry_t) (e : path_event_t) (q : path_entry_t) : Prop :=
  status q = status p /\ state q = state p /\ ops q = ops p /\ handle q = handle p /\
  transport_ctx q = ctx_after p e.

(** Every handler edits such fields, then either stops or writes the state. *)
Inductive edits (p : path_entry_t) (e : path_event_t) : path_entry_t * list path_fx -> Prop :=
  | edits_stop q fx : edited p e q -> edits p e (q, fx)
  | edits_write q clk s r : edited p e q -> edits p e (set_path_state_with_log clk q s r).

Lemma free_gate_edits clk p q r e :
  edited p e q -> edits p e (maybe_transition_dropped_to_free clk q r).
Proof.
  intros. destruct (free_gate_cases clk q r) as [[-> _]|(-> & _)]; by constructor.
Qed.

Ltac solve_edited :=
  unfold edited, ctx_after; cbn; split_and!; try done; decide_ctors; done.

Lemma path_dispatch_edits clk p e c : edits p e (path_dispatch clk p e c).
Proof.
  destruct e; cbn;
    unfold path_on_activate_requested, path_on_retry_timer, path_on_validation_ok,
      path_on_xquic_removed, path_on_manual_reactivate, path_on_platform_drop,
      path_on_remove_api, path_on_add, path_on_conn_reset, path_on_transport_released,
      apply_failure_with_retry_check;
    split_ifs; repeat case_match; bool_to_prop;
    first [apply free_gate_edits | apply edits_stop | apply edits_write]; solve_edited.
Qed.

Lemma edits_status p e res :
  edits p e res -> status p = path_public_status_from_lifecycle (state p) ->
  status res.1 = path_public_status_from_lifecycle (state res.1).
Proof.
  destruct 1 as [q fx (Hst & Hs & _)|q clk s r (Hst & Hs & _)]; intros E; cbn.
  - by rewrite Hst, Hs.
  - rewrite set_state_state. apply set_state_status. by rewrite Hst, Hs.
Qed.

Lemma edits_payload p e res :
  edits p e res ->
  ops res.1 = ops p /\ handle res.1 = handle p /\ transport_ctx res.1 = ctx_after p e.
Proof.
  destruct 1 as [q fx (_ & _ & H)|q clk s r (_ & _ & H)]; [done|].
  unfold set_path_state_with_log. by destruct (negb _).
Qed.

Lemma path_dispatch_wf clk p e c :
  path_wf p -> event_ok p e c -> path_wf (path_dispatch clk p e c).1.
Proof.
  intros (Hs & Hl & Hr) (Hc & Ht & _).
  destruct (path_dispatch_refines clk p e c Hc Hr) as (Habs & _ & _ & Hret).
  split_and!.
  - eapply edits_status; eauto using path_dispatch_edits.
  - rewrite Habs. apply Handle_legal; [done|]. intros [= ->]. by apply Ht.
  - revert Hret. destruct (Spec.retriesUpd _); cbn; unfold clock_ok in *; lia.
Qed.

Lemma released_flag clk p e c :
  clock_ok (now_us c) -> 0 <= recreate_retries p ->
  transport_released (path_dispatch clk p e c).1 =
  match e with
  | PATH_EVENT_ADD =>
      if bool_decide (state p = PATH_LC_CLOSED_FREE) then false else transport_released p
  | PATH_EVENT_TRANSPORT_RELEASED =>
      if bool_decide (state p = PATH_LC_CLOSED_DROPPED) then true else transport_released p
  | _ => transport_released p
  end.
Proof.
  intros Hc Hr. destruct (path_dispatch_refines clk p e c Hc Hr) as (Habs & _).
  apply (f_equal Spec.released) in Habs. cbn in Habs. rewrite Habs.
  destruct e; cbn;
    unfold Spec.OnActivate, Spec.OnRetryTimer, Spec.OnValidationOk, Spec.OnXquicRemoved,
      Spec.OnManualReactivate, Spec.OnDropLike, Spec.OnAdd, Spec.OnConnReset,
      Spec.OnTransportReleased, Spec.ApplyFailure, Spec.FreeGate;
    repeat case_match; cbn in *; decide_ctors; done.
Qed.

Lemma path_dispatch_owned clk p e c :
  path_wf p -> event_ok p e c ->
  (e = PATH_EVENT_ADD /\ state p = PATH_LC_CLOSED_FREE) \/ path_owned p ->
  path_owned (path_dispatch clk p e c).1.
Proof.
  intros (_ & _ & Hr) (Hc & _ & Hrel) Ho.
  destruct (edits_payload _ _ _ (path_dispatch_edits clk p e c)) as (Eo & _ & Ec).
  unfold path_owned. rewrite (released_flag clk p e c Hc Hr), Eo, Ec. unfold ctx_after.
  destruct Ho as [[-> Hs]|Ho].
  - by rewrite bool_decide_eq_true_2.
  - destruct e; try done; decide_ctors; naive_solver.
Qed.

Lemma path_event_ok clk p e c :
  path_wf p -> event_ok p e c ->
  (e = PATH_EVENT_ADD /\ state p = PATH_LC_CLOSED_FREE) \/ path_owned p ->
  path_wf (path_on_event clk p e (Some c)).1 /\
  path_owned (path_on_event clk p e (Some c)).1 /\
  path_invariant_check (path_on_event clk p e (Some c)).1 = true /\
  FxAbort ∉ (path_on_event clk p e (Some c)).2.
Proof.
  intros Hwf Hev Ho. pose proof (path_dispatch_wf clk p e c Hwf Hev) as Hwf'.
  pose proof (path_dispatch_owned clk p e c Hwf Hev Ho) as Ho'.
  pose proof (wf_owned_check _ Hwf' Ho') as Hchk.
  pose proof (quiet_no_abort _ (path_dispatch_quiet clk p e c)) as Hq.
  cbn [path_on_event]. destruct (path_dispatch clk p e c) as [p' fx]. cbn [fst snd] in *.
  rewrite Hchk. split_and!; [done..|].
  case_bool_decide; set_solver.
Qed.

(** The fields of the event's result that the caller still relies on. *)
Lemma path_event_frame clk p e c :
  path_wf p -> clock_ok (now_us c) ->
  let q := (path_on_event clk p e (Some c)).1 in
  handle q = handle p /\ ops q = ops p /\
  transport_released q =
  match e with
  | PATH_EVENT_ADD => if bool_decide (state p = PATH_LC_CLOSED_FREE) then false else transport_released p
  | PATH_EVENT_TRANSPORT_RELEASED =>
      if bool_decide (state p = PATH_LC_CLOSED_DROPPED) then true else transport_released p
  | _ => transport_released p
  end.
Proof.
  intros (_ & _ & Hr) Hc. destruct (edits_payload _ _ _ (path_dispatch_edits clk p e c)) as (Eo & Eh & _).
  pose proof (released_flag clk p e c Hc Hr) as Erel. cbn [path_on_event].
  destruct (path_dispatch clk p e c) as [p' fx]. cbn [fst snd] in *. done.
Qed.

(** What one event of the dispatcher leads to, as the specification says. *)
Lemma path_event_abs clk p e c : path_wf p -> clock_ok (now_us c) ->
  abs_slot (path_on_event clk p e (Some c)).1 = Spec.hslot (Spec.Handle (abs_slot p) (Spec.Ev e) (abs_ctx p c)).
Proof.
  intros (_ & _ & Hr) Hc. destruct (path_dispatch_refines clk p e c Hc Hr) as (Habs & _). cbn [path_on_event].
  by destruct (path_dispatch clk p e c).
Qed.

(** The lifecycle assertions never fire.  For a well-formed slot and a
    context as its callers build it, [path_on_event] leaves a slot that passes
    [path_invariant_check] (so a debug build does not abort), keeps the slot
    well-formed and keeps "a slot owing no release holds no transport". *)
Theorem path_on_event_safe clk p e c :
  path_wf p -> event_ok p e c ->
  (e = PATH_EVENT_ADD /\ state p = PATH_LC_CLOSED_FREE) \/ path_owned p ->
  path_wf (path_on_event clk p e (Some c)).1 /\
  path_owned (path_on_event clk p e (Some c)).1 /\
  path_invariant_check (path_on_event clk p e (Some c)).1 = true /\
  FxAbort ∉ (path_on_event clk p e (Some c)).2.
Proof. apply path_event_ok. Qed.

(** A path that lost its xquic path while active: degraded, timer armed. *)
Definition sample_active : path_entry_t :=
  path_entry_init <| transport_attached := true |> <| transport_released := false |>
    <| xquic_path_live := true |> <| xqc_path_id := 3 |> <| state := PATH_LC_ACTIVE |>
    <| status := MQVPN_PATH_ACTIVE |> <| state_entered_at_us := 1000 |>
    <| path_stable_since_us := 1000 |>.

Definition sample_ctx : path_event_ctx_t :=
  PathEventCtx ACTIVATE_OK 0 PATH_LC_ACTIVE 2000000.

Lemma path_step_refines_witness :
  clock_ok 2000000 /\
  refines sample_active 2000000
    (step_concrete 2000000 sample_active (Spec.Ev PATH_EVENT_XQUIC_REMOVED) sample_ctx)
    (Spec.Handle (abs_slot sample_active) (Spec.Ev PATH_EVENT_XQUIC_REMOVED)
       (abs_ctx sample_active sample_ctx)) /\
  state (step_concrete 2000000 sample_active (Spec.Ev PATH_EVENT_XQUIC_REMOVED) sample_ctx).1
    = PATH_LC_DEGRADED.
Proof.
  split; [by vm_compute|]. split; [|by vm_compute].
  apply (path_step_refines 2000000 sample_active (Spec.Ev PATH_EVENT_XQUIC_REMOVED) sample_ctx);
    by vm_compute.
Defined.

Lemma path_on_event_safe_witness :
  path_wf sample_active /\
  path_invariant_check
    (path_on_event 2000000 sample_active PATH_EVENT_XQUIC_REMOVED (Some sample_ctx)).1 = true.
Proof.
  assert (H : path_wf sample_active) by by vm_compute.
  split; [exact H|].
  apply (path_on_event_safe 2000000 sample_active PATH_EVENT_XQUIC_REMOVED sample_ctx H).
  - repeat split; try done; by vm_compute.
  - by right.
Defined.
