(* ===== verification/Chains.v ===== *)
(** * Chained hash tables as lists of lists

    Facts shared by the flow tables of the receive and the transmit engine:
    both keep an array of chains, find entries by place and put entries at the
    head of a chain. *)

From S2P Require Import Prelude.

Section chains.
Context {A : Type}.
Implicit Types (bs : list (list A)) (c : list A) (x : A).

Lemma concat_split bs i c : bs !! i = Some c ->
  concat bs ≡ₚ c ++ concat (<[i := []]> bs) /\
  forall c', concat (<[i := c']> bs) ≡ₚ c' ++ concat (<[i := []]> bs).
Proof.
  revert i. induction bs as [|b bs IH]; intros [|i] Hi; simplify_eq/=; [done|].
  destruct (IH i Hi) as [IH1 IH2]. split.
  - rewrite IH1 at 1. by rewrite !(Permutation_app_comm b), <- app_assoc, (Permutation_app_comm _ b).
  - intros c'. rewrite (IH2 c'). rewrite !app_assoc. by rewrite (Permutation_app_comm b).
Qed.

Lemma delete_insert_at c j x : delete j (<[j := x]> c) = delete j c.
Proof.
  revert j. induction c as [|y c IH]; intros [|j]; [done..|]. cbn. f_equal. apply IH.
Qed.

(** Taking the element at a place out of the table, and putting one back. *)
Lemma concat_take bs i j c x : bs !! i = Some c -> c !! j = Some x ->
  concat bs ≡ₚ x :: concat (<[i := delete j c]> bs) /\
  forall x', concat (<[i := <[j := x']> c]> bs) ≡ₚ x' :: concat (<[i := delete j c]> bs).
Proof.
  intros Hi Hj. destruct (concat_split bs i c Hi) as [H1 H2]. split.
  - rewrite H1, (H2 (delete j c)). by rewrite (delete_Permutation c j x Hj) at 1.
  - intros x'. rewrite (H2 (<[j := x']> c)), (H2 (delete j c)). rewrite (delete_Permutation (<[j := x']> c) j x').
    + by rewrite delete_insert_at.
    + apply list_lookup_insert_eq. by eapply lookup_lt_Some.
Qed.

Lemma concat_cons bs i c x : bs !! i = Some c -> concat (<[i := x :: c]> bs) ≡ₚ x :: concat bs.
Proof. intros Hi. destruct (concat_split bs i c Hi) as [H1 H2]. rewrite (H2 (x :: c)), H1. done. Qed.

Lemma elem_of_concat_lookup bs x : x ∈ concat bs <-> exists i c, bs !! i = Some c /\ x ∈ c.
Proof.
  rewrite list_elem_of_In, in_concat. split.
  - intros (c & Hc & Hf). apply list_elem_of_In, list_elem_of_lookup in Hc as [i Hi].
    exists i, c. split; [done|by apply list_elem_of_In].
  - intros (i & c & Hi & Hf). exists c.
    split; apply list_elem_of_In; [by eapply list_elem_of_lookup_2|done].
Qed.
End chains.
