(* ===== verification/Wire.v ===== *)
(** * Datagram wire format, flow identity and configuration ([src/reorder.h])

    The 8-byte reorder header and its codec, the first-byte dispatch, the
    capability header, the 5-tuple flow key with its comparison and hash, the
    inner IPv4/IPv6 parser and the reorder configuration with its per-rule
    resolution. *)

From S2P Require Import Prelude.

(** ** Wire header *)

Definition MQVPN_REORDER_TYPE_V1 : Z := 1.
Definition MQVPN_REORDER_FLAG_RESET : Z := 1.
Definition MQVPN_REORDER_HDR_LEN : Z := 8.

Inductive mqvpn_reorder_kind_t :=
  | MQVPN_REORDER_KIND_RAW | MQVPN_REORDER_KIND_REORDER_V1 | MQVPN_REORDER_KIND_UNKNOWN.

Definition mqvpn_reorder_classify_byte (b0 : Z) : mqvpn_reorder_kind_t :=
  let nibble := Z.shiftr b0 4 in
  if (nibble =? 4) || (nibble =? 6) then MQVPN_REORDER_KIND_RAW
  else if b0 =? MQVPN_REORDER_TYPE_V1 then MQVPN_REORDER_KIND_REORDER_V1
  else MQVPN_REORDER_KIND_UNKNOWN.

(** The eight bytes written at [out8]. *)
Definition mqvpn_reorder_wire_encode (type flags seq : Z) : list Z :=
  [type; flags; u8 (Z.shiftr seq 40); u8 (Z.shiftr seq 32); u8 (Z.shiftr seq 24);
   u8 (Z.shiftr seq 16); u8 (Z.shiftr seq 8); u8 seq].

(** [None] is the return value -1; [Some (type, flags, seq)] is 0. *)
Definition mqvpn_reorder_wire_decode (inp : list Z) : option (Z * Z * Z) :=
  match inp with
  | b0 :: b1 :: b2 :: b3 :: b4 :: b5 :: b6 :: b7 :: _ =>
      Some (b0, b1,
        Z.lor (Z.lor (Z.lor (Z.lor (Z.lor (Z.shiftl b2 40) (Z.shiftl b3 32)) (Z.shiftl b4 24))
          (Z.shiftl b5 16)) (Z.shiftl b6 8)) b7)
  | _ => None
  end.

(** ** Capability header *)

(** The bytes of the strings mqvpn-reorder and v1. *)
Definition MQVPN_REORDER_HDR_NAME : list Z :=
  [109; 113; 118; 112; 110; 45; 114; 101; 111; 114; 100; 101; 114].
Definition MQVPN_REORDER_HDR_VALUE : list Z := [118; 49].

Definition mqvpn_reorder_header_match (name value : list Z) : bool :=
  let n := blen MQVPN_REORDER_HDR_NAME in
  let v := blen MQVPN_REORDER_HDR_VALUE in
  (blen name =? n) && bool_decide (take (Z.to_nat n) name = MQVPN_REORDER_HDR_NAME) &&
  (blen value =? v) && bool_decide (take (Z.to_nat v) value = MQVPN_REORDER_HDR_VALUE).

Inductive mqvpn_reorder_mode_t := MQVPN_REORDER_OFF | MQVPN_REORDER_ON.

#[export] Instance reorder_mode_eq_dec : EqDecision mqvpn_reorder_mode_t.
Proof. solve_decision. Defined.

(** [rx_engine] is whether the pointer is non-NULL. *)
Definition mqvpn_reorder_should_advertise (mode : mqvpn_reorder_mode_t) (rx_engine : bool) : bool :=
  negb (bool_decide (mode = MQVPN_REORDER_OFF)) && rx_engine.

(** ** Flow identity *)

Record mqvpn_flow_key_t := FlowKey {
  ip_version : Z;
  proto : Z;
  src_port : Z;
  dst_port : Z;
  src_ip : list Z;
  dst_ip : list Z
}.

#[export] Instance flow_key_eq_dec : EqDecision mqvpn_flow_key_t.
Proof. solve_decision. Defined.

Definition mqvpn_flow_key_eq (a b : mqvpn_flow_key_t) : bool :=
  (ip_version a =? ip_version b) && (proto a =? proto b) &&
  (src_port a =? src_port b) && (dst_port a =? dst_port b) &&
  bool_decide (take 16 (src_ip a) = take 16 (src_ip b)) &&
  bool_decide (take 16 (dst_ip a) = take 16 (dst_ip b)).

(** The struct's 38 bytes on a little-endian host. *)
Definition flow_key_bytes (k : mqvpn_flow_key_t) : list Z :=
  [ip_version k; proto k; u8 (src_port k); u8 (Z.shiftr (src_port k) 8);
   u8 (dst_port k); u8 (Z.shiftr (dst_port k) 8)] ++ src_ip k ++ dst_ip k.

Definition fnv_prime : Z := 1099511628211.

Definition mqvpn_flow_key_hash (k : mqvpn_flow_key_t) (seed : Z) : Z :=
  fold_left (fun h b => u64 (Z.lxor h b * fnv_prime)) (flow_key_bytes k)
    (Z.lxor 14695981039346656037 seed).

(** ** Inner IP parser *)

Definition MQVPN_IPPROTO_UDP : Z := 17.
Definition MQVPN_IPPROTO_TCP : Z := 6.
Definition MQVPN_IP6_HOPOPTS : Z := 0.
Definition MQVPN_IP6_ROUTING : Z := 43.
Definition MQVPN_IP6_FRAGMENT : Z := 44.
Definition MQVPN_IP6_DSTOPTS : Z := 60.

Inductive mqvpn_l4_verdict_t :=
  | MQVPN_L4_UDP | MQVPN_L4_TCP | MQVPN_L4_FRAGMENT | MQVPN_L4_OTHER | MQVPN_L4_MALFORMED.

#[export] Instance l4_verdict_eq_dec : EqDecision mqvpn_l4_verdict_t.
Proof. solve_decision. Defined.

(** A verdict and what was written to the out parameter, if anything. *)
Definition parse_result : Type := mqvpn_l4_verdict_t * option mqvpn_flow_key_t.

Definition l4_min (p : Z) : Z := if p =? MQVPN_IPPROTO_TCP then 20 else 8.
Definition l4_verdict (p : Z) : mqvpn_l4_verdict_t :=
  if p =? MQVPN_IPPROTO_TCP then MQVPN_L4_TCP else MQVPN_L4_UDP.

(** The two ports at [off], host order. *)
Definition rd_ports (pkt : list Z) (off : Z) : option (Z * Z) :=
  s0 ← rd pkt off; s1 ← rd pkt (off + 1);
  d0 ← rd pkt (off + 2); d1 ← rd pkt (off + 3);
  Some (be16 s0 s1, be16 d0 d1).

Definition parse_v4 (pkt : list Z) (b0 : Z) : option parse_result :=
  let len := blen pkt in
  if len <? 20 then Some (MQVPN_L4_MALFORMED, None)
  else
    let ihl := Z.land b0 15 in
    let hdr_len := ihl * 4 in
    if (ihl <? 5) || (len <? hdr_len) then Some (MQVPN_L4_MALFORMED, None)
    else
      b6 ← rd pkt 6; b7 ← rd pkt 7;
      let frag := be16 b6 b7 in
      if negb (Z.land frag 16383 =? 0) then Some (MQVPN_L4_FRAGMENT, None)
      else
        pr ← rd pkt 9;
        if negb (pr =? MQVPN_IPPROTO_UDP) && negb (pr =? MQVPN_IPPROTO_TCP)
        then Some (MQVPN_L4_OTHER, None)
        else if len <? hdr_len + l4_min pr then Some (MQVPN_L4_MALFORMED, None)
        else
          s ← rdn pkt 12 4; d ← rdn pkt 16 4;
          ports ← rd_ports pkt hdr_len;
          Some (l4_verdict pr,
                Some (FlowKey 4 pr ports.1 ports.2 (s ++ replicate 12 0) (d ++ replicate 12 0))).

(** The extension-header walk; [fuel] counts the remaining iterations of the
    bounded loop. *)
Fixpoint parse_v6_walk (fuel : nat) (pkt : list Z) (next off : Z) : option parse_result :=
  let len := blen pkt in
  match fuel with
  | O => Some (MQVPN_L4_OTHER, None)
  | S fuel =>
      if (next =? MQVPN_IPPROTO_UDP) || (next =? MQVPN_IPPROTO_TCP) then
        if len <? off + l4_min next then Some (MQVPN_L4_MALFORMED, None)
        else
          s ← rdn pkt 8 16; d ← rdn pkt 24 16;
          ports ← rd_ports pkt off;
          Some (l4_verdict next, Some (FlowKey 6 next ports.1 ports.2 s d))
      else if next =? MQVPN_IP6_FRAGMENT then Some (MQVPN_L4_FRAGMENT, None)
      else if (next =? MQVPN_IP6_HOPOPTS) || (next =? MQVPN_IP6_ROUTING) ||
              (next =? MQVPN_IP6_DSTOPTS) then
        if len <? off + 2 then Some (MQVPN_L4_MALFORMED, None)
        else
          hdr_ext_len ← rd pkt (off + 1);
          next' ← rd pkt off;
          let off' := off + (hdr_ext_len + 1) * 8 in
          if len <? off' then Some (MQVPN_L4_MALFORMED, None)
          else parse_v6_walk fuel pkt next' off'
      else Some (MQVPN_L4_OTHER, None)
  end.

Definition mqvpn_parse_l3l4 (pkt : list Z) : option parse_result :=
  let len := blen pkt in
  if len <? 1 then Some (MQVPN_L4_MALFORMED, None)
  else
    b0 ← rd pkt 0;
    let version := Z.shiftr b0 4 in
    if version =? 4 then parse_v4 pkt b0
    else if version =? 6 then
      if len <? 40 then Some (MQVPN_L4_MALFORMED, None)
      else next ← rd pkt 6; parse_v6_walk 16 pkt next 40
    else Some (MQVPN_L4_MALFORMED, None).

(** [Some (Some key)] is return value 0 with [*out] written, [Some None] is -1. *)
Definition mqvpn_reorder_parse_5tuple (pkt : list Z) : option (option mqvpn_flow_key_t) :=
  r ← mqvpn_parse_l3l4 pkt;
  Some (if bool_decide (r.1 = MQVPN_L4_UDP) then r.2 else None).

(** ** Configuration *)

Definition MQVPN_REORDER_MAX_RULES : Z := 16.

Inductive mqvpn_reorder_profile_t :=
  | MQVPN_RPROF_QUIC_BULK | MQVPN_RPROF_LOW_LATENCY | MQVPN_RPROF_DEFAULT_UDP
  | MQVPN_RPROF_CELLULAR_BOND | MQVPN_RPROF_FIBER_LTE.

#[export] Instance reorder_profile_eq_dec : EqDecision mqvpn_reorder_profile_t.
Proof. solve_decision. Defined.

Record mqvpn_reorder_rule_t := ReorderRule {
  rule_proto : Z;
  rule_port : Z;
  profile : mqvpn_reorder_profile_t;
  explicit_wait_ms : Z;
  explicit_cap : Z;
  resolved_wait_ms : Z;
  resolved_cap : Z
}.

#[export] Instance eta_reorder_rule : Settable mqvpn_reorder_rule_t := fun r =>
  ReorderRule (rule_proto r) (rule_port r) (profile r) (explicit_wait_ms r)
    (explicit_cap r) (resolved_wait_ms r) (resolved_cap r).

(** [Some (wait_ms, cap)] when the profile carries a preset. *)
Definition mqvpn_reorder_profile_preset (p : mqvpn_reorder_profile_t) : option (Z * Z) :=
  match p with
  | MQVPN_RPROF_QUIC_BULK | MQVPN_RPROF_CELLULAR_BOND => Some (50, 1024)
  | MQVPN_RPROF_FIBER_LTE => Some (50, 2048)
  | _ => None
  end.

(** [rules] holds the first [n_rules] entries of the array. *)
Record mqvpn_reorder_config_t := ReorderConfig {
  mode : mqvpn_reorder_mode_t;
  max_wait_ms : Z;
  cap_packets_per_flow : Z;
  max_buffer_bytes_per_flow : Z;
  classify_window : Z;
  ack_demote_max_large_packets : Z;
  small_packet_threshold_bytes : Z;
  reset_mark_packets : Z;
  reset_idle_grace_ms : Z;
  max_flows : Z;
  global_max_buffer_bytes : Z;
  ingress_idle_timeout_sec : Z;
  egress_idle_timeout_sec : Z;
  eval_force_no_demotion : bool;
  has_explicit_wait : bool;
  has_explicit_cap : bool;
  rules : list mqvpn_reorder_rule_t
}.

#[export] Instance eta_reorder_config : Settable mqvpn_reorder_config_t := fun r =>
  ReorderConfig (mode r) (max_wait_ms r) (cap_packets_per_flow r)
    (max_buffer_bytes_per_flow r) (classify_window r) (ack_demote_max_large_packets r)
    (small_packet_threshold_bytes r) (reset_mark_packets r) (reset_idle_grace_ms r)
    (max_flows r) (global_max_buffer_bytes r) (ingress_idle_timeout_sec r)
    (egress_idle_timeout_sec r) (eval_force_no_demotion r) (has_explicit_wait r)
    (has_explicit_cap r) (rules r).

Definition rule_matches (key : mqvpn_flow_key_t) (r : mqvpn_reorder_rule_t) : bool :=
  if negb (rule_proto r =? proto key) then false
  else (rule_port r =? src_port key) || (rule_port r =? dst_port key).

Definition mqvpn_reorder_match_rule (cfg : mqvpn_reorder_config_t) (key : mqvpn_flow_key_t)
    : option mqvpn_reorder_rule_t :=
  List.find (rule_matches key) (rules cfg).

Definition mqvpn_reorder_cap_is_valid (cap : Z) : bool :=
  negb (cap =? 0) && (Z.land cap (u32 (cap - 1)) =? 0).

Definition finalize_rule (cfg : mqvpn_reorder_config_t) (r : mqvpn_reorder_rule_t)
    : mqvpn_reorder_rule_t :=
  let preset := mqvpn_reorder_profile_preset (profile r) in
  let r := r <| resolved_wait_ms :=
    if bool_decide (profile r = MQVPN_RPROF_DEFAULT_UDP) then 0
    else if negb (explicit_wait_ms r =? 0) then explicit_wait_ms r
    else if has_explicit_wait cfg then max_wait_ms cfg
    else match preset with Some (pw, _) => pw | None => max_wait_ms cfg end |> in
  let rcap := if mqvpn_reorder_cap_is_valid (explicit_cap r) then explicit_cap r else 0 in
  let cap :=
    if negb (rcap =? 0) then rcap
    else if has_explicit_cap cfg then cap_packets_per_flow cfg
    else match preset with Some (_, pc) => pc | None => cap_packets_per_flow cfg end in
  r <| resolved_cap := if mqvpn_reorder_cap_is_valid cap then cap else 1024 |>.

Definition mqvpn_reorder_config_finalize (cfg : mqvpn_reorder_config_t) : mqvpn_reorder_config_t :=
  cfg <| rules := map (finalize_rule cfg) (rules cfg) |>.

Definition mqvpn_reorder_config_default : mqvpn_reorder_config_t :=
  ReorderConfig MQVPN_REORDER_OFF 30 1024 1572864 64 3 200 8 10000 65536 67108864 30 300
    false false false [].

Definition mqvpn_reorder_config_validate (cfg : mqvpn_reorder_config_t) : bool :=
  if egress_idle_timeout_sec cfg <=? ingress_idle_timeout_sec cfg then false
  else mqvpn_reorder_cap_is_valid (cap_packets_per_flow cfg).

(** ** Codec *)

Lemma lor_be a b k : 0 <= k -> is_byte b ->
  Z.lor (Z.shiftl a (k + 8)) (Z.shiftl b k) = Z.shiftl (a * 256 + b) k.
Proof.
  intros Hk Hb. replace (k + 8) with (8 + k) by lia.
  rewrite <- Z.shiftl_shiftl, <- Z.shiftl_lor by lia. f_equal. by apply lor_shift_add.
Qed.

Lemma u8_is_byte z : is_byte (u8 z).
Proof. apply Z.mod_pos_bound. lia. Qed.

#[export] Hint Resolve u8_is_byte : machine.

Lemma wire_decode_encode_lemma t f s rest : 0 <= s ->
  mqvpn_reorder_wire_decode (mqvpn_reorder_wire_encode t f s ++ rest) = Some (t, f, s mod 2 ^ 48).
Proof.
  intros Hs. cbn [mqvpn_reorder_wire_encode mqvpn_reorder_wire_decode app]. do 2 f_equal.
  rewrite (lor_be _ _ 32), (lor_be _ _ 24), (lor_be _ _ 16), (lor_be _ _ 8), lor_shift_add
    by first [lia | apply u8_is_byte].
  unfold u8. rewrite !Z.shiftr_div_pow2 by lia.
  change (2 ^ 40) with (2 ^ 32 * 2 ^ 8). change (2 ^ 32) with (2 ^ 24 * 2 ^ 8).
  change (2 ^ 24) with (2 ^ 16 * 2 ^ 8). change (2 ^ 16) with (2 ^ 8 * 2 ^ 8).
  rewrite <- !Z.div_div by lia.
  change (2 ^ 48) with (2 ^ 8 * 2 ^ 8 * 2 ^ 8 * 2 ^ 8 * 2 ^ 8 * 2 ^ 8).
  rewrite (Z.mod_eq s (_ * _)), <- !Z.div_div by lia.
  change (2 ^ 8) with 256 in *. rewrite !Z.mod_eq by lia. ring.
Qed.

(** A decoded number fits its 48 bits. *)
Lemma wire_decode_range d t f s : bytes_ok d -> mqvpn_reorder_wire_decode d = Some (t, f, s) ->
  is_byte t /\ is_byte f /\ 0 <= s < 2 ^ 48.
Proof.
  intros Hb. do 8 (destruct d as [|? d]; [done|]). cbn [mqvpn_reorder_wire_decode]. intros [= <- <- <-].
  repeat (apply Forall_cons in Hb as [? Hb]). split_and!; [done..| |];
    rewrite (lor_be _ _ 32), (lor_be _ _ 24), (lor_be _ _ 16), (lor_be _ _ 8), lor_shift_add by (done || lia);
    unfold is_byte in *; lia.
Qed.

Lemma decode_length d r : mqvpn_reorder_wire_decode d = Some r -> MQVPN_REORDER_HDR_LEN <= blen d /\ d <> [].
Proof.
  do 8 (destruct d as [|? d]; [done|]). intros _. unfold MQVPN_REORDER_HDR_LEN, blen. simpl length. split; [lia|done].
Qed.

(** The wire header round-trips.  A header encoded for any sequence number
    decodes, whatever payload follows it, to the same type and flags and to
    the low 48 bits of the sequence number; and no datagram shorter than the
    header decodes. *)
Theorem wire_roundtrip t f s rest :
  0 <= s ->
  mqvpn_reorder_wire_decode (mqvpn_reorder_wire_encode t f s ++ rest) = Some (t, f, s mod 2 ^ 48) /\
  (forall d, mqvpn_reorder_wire_decode d = None <-> blen d < MQVPN_REORDER_HDR_LEN).
Proof.
  intros Hs. split; [by apply wire_decode_encode_lemma|].
  unfold blen, MQVPN_REORDER_HDR_LEN. intros d.
  do 8 (destruct d as [|? d]; [cbn; split; [lia | done]|]). cbn. split; [done | lia].
Qed.

Lemma wire_roundtrip_witness :
  mqvpn_reorder_wire_decode (mqvpn_reorder_wire_encode 1 1 1311768467463790320 ++ [69; 0])
    = Some (1, 1, 1311768467463790320 mod 2 ^ 48).
Proof. apply (wire_roundtrip 1 1 1311768467463790320 [69; 0]). lia. Defined.

(** ** Parser *)

Definition key_wf (k : mqvpn_flow_key_t) : Prop :=
  (ip_version k = 4 \/ ip_version k = 6) /\
  (proto k = MQVPN_IPPROTO_UDP \/ proto k = MQVPN_IPPROTO_TCP) /\
  0 <= src_port k < 2 ^ 16 /\ 0 <= dst_port k < 2 ^ 16 /\
  length (src_ip k) = 16%nat /\ length (dst_ip k) = 16%nat /\
  bytes_ok (src_ip k) /\ bytes_ok (dst_ip k).

Lemma flow_key_eq_spec a b : key_wf a -> key_wf b -> mqvpn_flow_key_eq a b = true <-> a = b.
Proof.
  intros (_ & _ & _ & _ & La & Da & _) (_ & _ & _ & _ & Lb & Db & _). unfold mqvpn_flow_key_eq.
  rewrite !(take_ge (src_ip _)), !(take_ge (dst_ip _)) by lia. split.
  - intros H. bool_to_prop. repeat match goal with H : bool_decide _ = true |- _ => apply bool_decide_eq_true in H end.
    destruct a, b; simpl in *; congruence.
  - intros ->. rewrite !Z.eqb_refl, !bool_decide_eq_true_2 by done. done.
Qed.

(** A key is written exactly with a UDP or TCP verdict, it is well-formed and
    its protocol is the verdict's. *)
Definition result_wf (r : parse_result) : Prop :=
  match r with
  | (MQVPN_L4_UDP, Some k) => key_wf k /\ proto k = MQVPN_IPPROTO_UDP
  | (MQVPN_L4_TCP, Some k) => key_wf k /\ proto k = MQVPN_IPPROTO_TCP
  | (MQVPN_L4_FRAGMENT, None) | (MQVPN_L4_OTHER, None) | (MQVPN_L4_MALFORMED, None) => True
  | _ => False
  end.

Lemma be16_range hi lo : is_byte hi -> is_byte lo -> 0 <= be16 hi lo < 2 ^ 16.
Proof. unfold is_byte. intros. rewrite be16_eq; lia. Qed.

Lemma rd_ports_ok pkt off : bytes_ok pkt -> 0 <= off -> off + 4 <= blen pkt ->
  exists s d, rd_ports pkt off = Some (s, d) /\ 0 <= s < 2 ^ 16 /\ 0 <= d < 2 ^ 16.
Proof.
  intros Hb Ho Hl. unfold rd_ports.
  destruct (rd_in_bounds pkt off) as [s0 E0]; [lia|].
  destruct (rd_in_bounds pkt (off + 1)) as [s1 E1]; [lia|].
  destruct (rd_in_bounds pkt (off + 2)) as [d0 E2]; [lia|].
  destruct (rd_in_bounds pkt (off + 3)) as [d1 E3]; [lia|].
  rewrite E0, E1, E2, E3. cbn. eexists _, _. split; [done|].
  split; apply be16_range; unfold is_byte; eauto using rd_byte.
Qed.

Lemma l4_min_bounds p : 8 <= l4_min p <= 20.
Proof. unfold l4_min. destruct (p =? _); lia. Qed.

Lemma result_wf_l4 p k :
  (p = MQVPN_IPPROTO_UDP \/ p = MQVPN_IPPROTO_TCP) -> proto k = p -> key_wf k ->
  result_wf (l4_verdict p, Some k).
Proof.
  intros Hp E Hk. unfold l4_verdict. destruct Hp as [-> | ->]; cbn; auto.
Qed.

Lemma parse_v4_wf pkt b0 : bytes_ok pkt -> rd pkt 0 = Some b0 ->
  exists r, parse_v4 pkt b0 = Some r /\ result_wf r.
Proof.
  intros Hb E0. unfold parse_v4. destruct (Z.ltb_spec (blen pkt) 20); [by eexists|].
  destruct ((Z.land b0 15 <? 5) || (blen pkt <? Z.land b0 15 * 4)) eqn:E; [by eexists|].
  bool_to_prop.
  destruct (rd_in_bounds pkt 6) as [b6 E6]; [lia|].
  destruct (rd_in_bounds pkt 7) as [b7 E7]; [lia|].
  destruct (rd_in_bounds pkt 9) as [pr E9]; [lia|].
  rewrite E6, E7, E9. cbn [mbind option_bind].
  destruct (negb (Z.land (be16 b6 b7) 16383 =? 0)); [by eexists|].
  destruct (negb (pr =? MQVPN_IPPROTO_UDP) && negb (pr =? MQVPN_IPPROTO_TCP)) eqn:Ep; [by eexists|].
  pose proof (l4_min_bounds pr).
  destruct (Z.ltb_spec (blen pkt) (Z.land b0 15 * 4 + l4_min pr)); [by eexists|].
  destruct (rdn_in_bounds pkt 12 4) as [s Es]; [lia..|].
  destruct (rdn_in_bounds pkt 16 4) as [d Ed]; [lia..|].
  destruct (rd_ports_ok pkt (Z.land b0 15 * 4) Hb) as (sp & dp & Eq & Hsp & Hdp); [lia..|].
  rewrite Es, Ed, Eq. cbn [mbind option_bind fst snd]. eexists. split; [done|].
  assert (Hp : pr = MQVPN_IPPROTO_UDP \/ pr = MQVPN_IPPROTO_TCP) by (bool_to_prop; auto).
  destruct (rdn_spec _ _ _ _ Es) as (Ls & _), (rdn_spec _ _ _ _ Ed) as (Ld & _).
  unfold blen in Ls, Ld.
  apply result_wf_l4; [done..|]. unfold key_wf. cbn [ip_version proto src_port dst_port src_ip dst_ip].
  rewrite !length_app, !length_replicate. split_and!; try (auto; lia).
  all: apply Forall_app; split; [by eapply rdn_bytes | apply Forall_replicate; unfold is_byte; lia].
Qed.

Lemma parse_v6_walk_wf fuel pkt next off : bytes_ok pkt -> 40 <= off -> 40 <= blen pkt ->
  exists r, parse_v6_walk fuel pkt next off = Some r /\ result_wf r.
Proof.
  intros Hb. revert next off. induction fuel as [|fuel IH]; intros next off Ho Hl; [by eexists|].
  cbn [parse_v6_walk].
  destruct ((next =? MQVPN_IPPROTO_UDP) || (next =? MQVPN_IPPROTO_TCP)) eqn:Ep.
  - assert (Hp : next = MQVPN_IPPROTO_UDP \/ next = MQVPN_IPPROTO_TCP) by (bool_to_prop; auto).
    pose proof (l4_min_bounds next).
    destruct (Z.ltb_spec (blen pkt) (off + l4_min next)); [by eexists|].
    destruct (rdn_in_bounds pkt 8 16) as [s Es]; [lia..|].
    destruct (rdn_in_bounds pkt 24 16) as [d Ed]; [lia..|].
    destruct (rd_ports_ok pkt off Hb) as (sp & dp & Eq & Hsp & Hdp); [lia..|].
    rewrite Es, Ed, Eq. cbn [mbind option_bind fst snd]. eexists. split; [done|].
    destruct (rdn_spec _ _ _ _ Es) as (Ls & _), (rdn_spec _ _ _ _ Ed) as (Ld & _).
    unfold blen in Ls, Ld.
    apply result_wf_l4; [done..|]. unfold key_wf.
    cbn [ip_version proto src_port dst_port src_ip dst_ip].
    split_and!; first [by auto | lia | by eapply rdn_bytes].
  - destruct (next =? MQVPN_IP6_FRAGMENT); [by eexists|].
    destruct (_ || _ || _); [|by eexists].
    destruct (Z.ltb_spec (blen pkt) (off + 2)); [by eexists|].
    destruct (rd_in_bounds pkt (off + 1)) as [h Eh]; [lia|].
    destruct (rd_in_bounds pkt off) as [nx En]; [lia|].
    rewrite Eh, En. cbn [mbind option_bind]. pose proof (rd_byte _ _ _ Hb Eh).
    destruct (Z.ltb_spec (blen pkt) (off + (h + 1) * 8)); [by eexists|].
    apply IH; lia.
Qed.

Lemma walk_version n pkt next off v k : parse_v6_walk n pkt next off = Some (v, Some k) -> ip_version k = 6.
Proof.
  revert next off. induction n as [|n IH]; intros next off; [done|]. simpl.
  destruct (_ || _); [|destruct (next =? MQVPN_IP6_FRAGMENT); [done|]].
  - destruct (_ <? _); [done|]. destruct (rdn pkt 8 16); [|done]. destruct (rdn pkt 24 16); [|done].
    destruct (rd_ports pkt off); [|done]. simpl. by intros [= _ <-].
  - destruct (_ || _); [|done]. destruct (_ <? _); [done|]. destruct (rd pkt (off + 1)); [|done]. destruct (rd pkt off); [|done].
    simpl. destruct (_ <? _); [done|]. apply IH.
Qed.

Lemma parse_l3l4_wf pkt : bytes_ok pkt ->
  exists r, mqvpn_parse_l3l4 pkt = Some r /\ result_wf r.
Proof.
  intros Hb. unfold mqvpn_parse_l3l4. destruct (Z.ltb_spec (blen pkt) 1); [by eexists|].
  destruct (rd_in_bounds pkt 0) as [b0 E0]; [lia|]. rewrite E0. cbn [mbind option_bind].
  destruct (Z.shiftr b0 4 =? 4); [by apply parse_v4_wf|].
  destruct (Z.shiftr b0 4 =? 6); [|by eexists].
  destruct (Z.ltb_spec (blen pkt) 40); [by eexists|].
  destruct (rd_in_bounds pkt 6) as [nx En]; [lia|]. rewrite En. cbn [mbind option_bind].
  apply parse_v6_walk_wf; [done | lia..].
Qed.

Lemma parse_5tuple_wf pkt : bytes_ok pkt ->
  exists r, mqvpn_reorder_parse_5tuple pkt = Some r /\ forall key, r = Some key -> key_wf key.
Proof.
  intros Hb. destruct (parse_l3l4_wf pkt Hb) as ([v k] & E & Hw). unfold mqvpn_reorder_parse_5tuple.
  rewrite E. simpl. eexists. split; [done|]. intros key. case_bool_decide as Hv; [|done].
  subst v. intros ->. apply Hw.
Qed.

(** C25: the inner-packet parser is memory safe and well-typed.  On every byte
    string, of any length, it performs no out-of-bounds read and returns a
    verdict; it writes a flow key exactly for the UDP and TCP verdicts, and
    that key has a valid version, the verdict's protocol, 16-bit ports and
    two 16-byte addresses. *)
Theorem parse_l3l4_safe pkt :
  bytes_ok pkt -> exists r, mqvpn_parse_l3l4 pkt = Some r /\ result_wf r.
Proof. apply parse_l3l4_wf. Qed.

(** A 28-byte IPv4 UDP packet 10.0.0.2:4660 -> 10.0.0.1:443. *)
Definition sample_udp : list Z :=
  [69; 0; 0; 28; 0; 0; 0; 0; 64; 17; 0; 0; 10; 0; 0; 2; 10; 0; 0; 1;
   18; 52; 1; 187; 0; 8; 0; 0].

Lemma sample_udp_bytes : bytes_ok sample_udp.
Proof. repeat constructor; unfold is_byte; lia. Qed.

Lemma parse_l3l4_safe_witness :
  (exists r, mqvpn_parse_l3l4 sample_udp = Some r /\ result_wf r) /\
  mqvpn_parse_l3l4 sample_udp =
    Some (MQVPN_L4_UDP, Some (FlowKey 4 17 4660 443 ([10; 0; 0; 2] ++ replicate 12 0)
                                ([10; 0; 0; 1] ++ replicate 12 0))).
Proof. split; [apply (parse_l3l4_safe sample_udp sample_udp_bytes) | reflexivity]. Defined.

(** ** Configuration *)

Lemma cap_is_valid_pow2 cap : 0 <= cap < 2 ^ 32 ->
  mqvpn_reorder_cap_is_valid cap = true <-> exists k, 0 <= k < 32 /\ cap = 2 ^ k.
Proof.
  intros Hc. unfold mqvpn_reorder_cap_is_valid. split.
  - intros H. bool_to_prop. exists (Z.log2 cap).
    assert (Hk : 2 ^ Z.log2 cap <= cap < 2 ^ Z.succ (Z.log2 cap)) by (apply Z.log2_spec; lia).
    assert (0 <= Z.log2 cap < 32)
      by (split; [apply Z.log2_nonneg | apply Z.log2_lt_pow2; lia]).
    split; [done|]. destruct (Z.eq_dec cap (2 ^ Z.log2 cap)) as [|Hne]; [done|]. exfalso.
    rewrite u32_small in H0 by lia.
    assert (E : Z.log2 (cap - 1) = Z.log2 cap) by (apply Z.log2_unique; lia).
    apply (f_equal (fun z => Z.testbit z (Z.log2 cap))) in H0.
    rewrite Z.land_spec, Z.bits_0, Z.bit_log2, <- E in H0 by lia.
    rewrite Z.bit_log2 in H0; [done|]. pose proof (pow2_pos (Z.log2 cap)). lia.
  - intros (k & Hk & ->). pose proof (pow2_pos k ltac:(lia)).
    rewrite u32_small by (pose proof (Z.pow_lt_mono_r 2 k 32); lia).
    rewrite land_ones_mod, Z.mod_same by lia. cbn.
    destruct (Z.eqb_spec (2 ^ k) 0); [lia | done].
Qed.

Lemma cap_clamp_valid c :
  mqvpn_reorder_cap_is_valid (if mqvpn_reorder_cap_is_valid c then c else 1024) = true.
Proof. by destruct (mqvpn_reorder_cap_is_valid c) eqn:E. Qed.

Lemma finalize_rule_cap cfg r :
  mqvpn_reorder_cap_is_valid (resolved_cap (finalize_rule cfg r)) = true.
Proof. apply cap_clamp_valid. Qed.

Lemma finalize_rule_idem cfg r : finalize_rule cfg (finalize_rule cfg r) = finalize_rule cfg r.
Proof. done. Qed.

(** What a matched rule's effective parameters are, tier by tier: the rule's
    own value, an explicit global value, the profile's preset, the global
    default. *)
Definition effective_wait (cfg : mqvpn_reorder_config_t) (r : mqvpn_reorder_rule_t) : Z :=
  if bool_decide (profile r = MQVPN_RPROF_DEFAULT_UDP) then 0
  else if explicit_wait_ms r =? 0
       then if has_explicit_wait cfg then max_wait_ms cfg
            else from_option fst (max_wait_ms cfg) (mqvpn_reorder_profile_preset (profile r))
       else explicit_wait_ms r.

(** Configuration resolution.  After [mqvpn_reorder_config_finalize] every
    rule has a ring capacity that is a power of two (so ring index masking is
    sound) and the wait its precedence tiers give, a [default_udp] rule never
    reorders, the number of rules is unchanged and a second finalize changes
    nothing. *)
Theorem config_finalize_correct cfg :
  let cfg' := mqvpn_reorder_config_finalize cfg in
  Forall2 (fun r r' =>
    mqvpn_reorder_cap_is_valid (resolved_cap r') = true /\
    resolved_wait_ms r' = effective_wait cfg r /\
    (profile r = MQVPN_RPROF_DEFAULT_UDP -> resolved_wait_ms r' = 0) /\
    (mqvpn_reorder_cap_is_valid (explicit_cap r) = true -> resolved_cap r' = explicit_cap r))
    (rules cfg) (rules cfg') /\
  mqvpn_reorder_config_finalize cfg' = cfg'.
Proof.
  cbn. split.
  - apply Forall2_fmap_r, Forall_Forall2_diag, Forall_forall. intros r _. split_and!.
    + apply finalize_rule_cap.
    + unfold finalize_rule, effective_wait. cbn.
      destruct (bool_decide _), (explicit_wait_ms r =? 0), (has_explicit_wait cfg); cbn; try done.
    + intros E. unfold finalize_rule. cbn. by rewrite bool_decide_eq_true_2.
    + intros E. unfold finalize_rule. cbn. rewrite E.
      assert (Hnz : (explicit_cap r =? 0) = false)
        by (unfold mqvpn_reorder_cap_is_valid in E; bool_to_prop; by apply Z.eqb_neq).
      rewrite Hnz. cbn. by rewrite E.
  - unfold mqvpn_reorder_config_finalize. cbn. f_equal. rewrite map_map. by apply map_ext.
Qed.
