(* ===== verification/CString.v ===== *)
(** * C strings

    A C string is the list of its character codes without the terminator.
    These are the functions of the C library that the components call on
    strings, with the facts the round trips need. *)

From S2P Require Import Prelude.

(** [strncpy (buf, s, size - 1); buf[size - 1] = '\0']. *)
Definition strncpy_z (s : list Z) (size : nat) : list Z := take (size - 1) s.

(** The string that a buffer holds: up to its first NUL. *)
Fixpoint cstr (s : list Z) : list Z :=
  match s with c :: s => if c =? 0 then [] else c :: cstr s | [] => [] end.

(** [strchr (s, c)] and [memchr]: the parts before and after the first [c]. *)
Fixpoint strchr_split (c : Z) (s : list Z) : option (list Z * list Z) :=
  match s with
  | [] => None
  | x :: s => if x =? c then Some ([], s)
              else match strchr_split c s with Some (a, b) => Some (x :: a, b) | None => None end
  end.

Definition isspace (c : Z) : bool := (c =? 32) || ((9 <=? c) && (c <=? 13)).
Definition isdigit (c : Z) : bool := (48 <=? c) && (c <=? 57).

Definition LONG_MAX : Z := 9223372036854775807.

Fixpoint skip_space (s : list Z) : list Z :=
  match s with c :: s' => if isspace c then skip_space s' else s | [] => [] end.

(** The value of the digits at the head and the rest. *)
Fixpoint digits (acc : Z) (s : list Z) : Z * list Z :=
  match s with
  | c :: s' => if isdigit c then digits (acc * 10 + (c - 48)) s' else (acc, s)
  | [] => (acc, [])
  end.

(** [strtol (s, &endptr, 10)]: the value, saturated, and the rest at [endptr];
    without digits the rest is the whole string. *)
Definition strtol (s : list Z) : Z * list Z :=
  let t := skip_space s in
  let '(neg, t) := match t with
                   | c :: t' => if c =? 45 then (true, t') else if c =? 43 then (false, t') else (false, t)
                   | [] => (false, [])
                   end in
  match t with
  | c :: _ =>
      if isdigit c then
        let '(v, rest) := digits 0 t in
        let v := if neg then - v else v in
        (Z.max (- LONG_MAX - 1) (Z.min LONG_MAX v), rest)
      else (0, s)
  | [] => (0, s)
  end.

(** [endptr == s || *endptr != '\0']. *)
Definition bad_number (s rest : list Z) : bool :=
  (Z.of_nat (length rest) =? Z.of_nat (length s)) || negb (bool_decide (rest = [])).

(** The digits of [%u]; a 32-bit value has at most ten. *)
Fixpoint dec_digits (fuel : nat) (n : Z) (acc : list Z) : list Z :=
  match fuel with
  | O => acc
  | S fuel => let acc := (48 + n mod 10) :: acc in if n <? 10 then acc else dec_digits fuel (n / 10) acc
  end.

Definition print_u32 (n : Z) : list Z := dec_digits 10 n [].

(** ** Facts *)

Lemma strchr_split_first c a b : c ∉ a -> strchr_split c (a ++ c :: b) = Some (a, b).
Proof.
  induction a as [|x a IH]; intros Hn; simpl; [by rewrite Z.eqb_refl|].
  rewrite not_elem_of_cons in Hn. destruct Hn as [Hx Ha]. rewrite (proj2 (Z.eqb_neq _ _)) by congruence. by rewrite IH.
Qed.

Lemma strchr_split_none c s : c ∉ s -> strchr_split c s = None.
Proof.
  induction s as [|x s IH]; intros Hn; simpl; [done|]. rewrite not_elem_of_cons in Hn. destruct Hn as [Hx Hs].
  rewrite (proj2 (Z.eqb_neq _ _)) by congruence. by rewrite IH.
Qed.

Lemma strchr_split_some c s a b : strchr_split c s = Some (a, b) -> s = a ++ c :: b /\ c ∉ a.
Proof.
  revert a b. induction s as [|x s IH]; intros a b; simpl; [done|]. destruct (Z.eqb_spec x c) as [->|Hne].
  - intros [= <- <-]. split; [done|apply not_elem_of_nil].
  - destruct (strchr_split c s) as [[a' b']|]; [|done]. intros [= <- <-]. destruct (IH a' b' eq_refl) as [-> Hn].
    split; [done|]. rewrite not_elem_of_cons. split; [congruence|done].
Qed.

(** Printed decimals are digits. *)
Definition digits_ok (s : list Z) : Prop := Forall (fun c => 48 <= c <= 57) s.

Lemma dec_digits_ok fuel n acc : 0 <= n -> digits_ok acc -> digits_ok (dec_digits fuel n acc).
Proof.
  revert n acc. induction fuel as [|fuel IH]; intros n acc Hn Ha; simpl; [done|].
  assert (Hd : digits_ok ((48 + n mod 10) :: acc)).
  { constructor; [|done]. pose proof (Z.mod_pos_bound n 10). lia. }
  destruct (n <? 10); [done|]. apply IH; [apply Z.div_pos; lia|done].
Qed.

Lemma print_u32_digits n : 0 <= n -> digits_ok (print_u32 n).
Proof. intros. apply dec_digits_ok; [done|constructor]. Qed.

Lemma digits_not_in c s : digits_ok s -> ~ (48 <= c <= 57) -> c ∉ s.
Proof. intros Hs Hc Hin. unfold digits_ok in Hs. rewrite Forall_forall in Hs. by apply Hs in Hin. Qed.

(** Reading digits one at a time. *)
Definition dec_value (acc : Z) (s : list Z) : Z := fold_left (fun a c => a * 10 + (c - 48)) s acc.

Lemma dec_value_app acc a b : dec_value acc (a ++ b) = dec_value (dec_value acc a) b.
Proof. unfold dec_value. by rewrite fold_left_app. Qed.

Lemma dec_value_acc s acc : dec_value acc s = acc * 10 ^ Z.of_nat (length s) + dec_value 0 s.
Proof.
  revert acc. induction s as [|c s IH] using rev_ind; intros acc; [unfold dec_value; simpl; lia|].
  rewrite !dec_value_app, (IH acc), length_app, Nat2Z.inj_add, Z.pow_add_r by lia. unfold dec_value. simpl. lia.
Qed.

(** The digits of [n] in front of [acc] read back as [n] shifted over [acc]. *)
Lemma dec_digits_value fuel n acc : 0 <= n < 10 ^ Z.of_nat fuel -> (0 < fuel)%nat ->
  dec_value 0 (dec_digits fuel n acc) = n * 10 ^ Z.of_nat (length acc) + dec_value 0 acc.
Proof.
  revert n acc. induction fuel as [|fuel IH]; intros n acc Hn Hf; [lia|]. cbn [dec_digits].
  pose proof (Z.div_mod n 10 ltac:(lia)) as Hdm. pose proof (Z.mod_pos_bound n 10 ltac:(lia)).
  assert (Hcons : dec_value 0 ((48 + n mod 10) :: acc) = n mod 10 * 10 ^ Z.of_nat (length acc) + dec_value 0 acc).
  { change (dec_value 0 ((48 + n mod 10) :: acc)) with (dec_value (0 * 10 + (48 + n mod 10 - 48)) acc).
    rewrite dec_value_acc. f_equal. f_equal. lia. }
  destruct (Z.ltb_spec n 10) as [Hlt|Hge].
  - rewrite Hcons. f_equal. f_equal. apply Z.mod_small. lia.
  - rewrite Nat2Z.inj_succ, Z.pow_succ_r in Hn by lia.
    assert (n / 10 < 10 ^ Z.of_nat fuel) by (apply Z.div_lt_upper_bound; lia).
    assert (0 < n / 10) by (apply Z.div_str_pos; lia).
    assert ((0 < fuel)%nat) by (destruct fuel; [simpl in *; lia|lia]).
    rewrite IH by lia. rewrite Hcons. simpl length. rewrite Nat2Z.inj_succ, Z.pow_succ_r by lia. nia.
Qed.

Lemma print_u32_value n : 0 <= n < 2 ^ 32 -> dec_value 0 (print_u32 n) = n.
Proof. intros Hn. unfold print_u32. rewrite dec_digits_value by (simpl; lia). unfold dec_value. simpl. lia. Qed.

Lemma dec_digits_length fuel n acc k : 0 <= n < 10 ^ Z.of_nat k -> (0 < k)%nat ->
  (length acc < length (dec_digits (S fuel) n acc) <= length acc + k)%nat.
Proof.
  revert n acc k. induction fuel as [|fuel IH]; intros n acc k Hn Hk.
  { simpl. destruct (n <? 10); simpl; lia. }
  cbn [dec_digits]. destruct (Z.ltb_spec n 10); [simpl; lia|]. fold dec_digits.
  destruct k as [|k]; [lia|]. rewrite Nat2Z.inj_succ, Z.pow_succ_r in Hn by lia.
  assert (n / 10 < 10 ^ Z.of_nat k) by (apply Z.div_lt_upper_bound; lia).
  assert (0 < n / 10) by (apply Z.div_str_pos; lia).
  assert ((0 < k)%nat) by (destruct k; [simpl in *; lia|lia]).
  specialize (IH (n / 10) ((48 + n mod 10) :: acc) k ltac:(lia) ltac:(lia)). cbn [dec_digits] in IH. simpl length in IH. lia.
Qed.

Lemma print_u32_length n k : 0 <= n < 10 ^ Z.of_nat k -> (0 < k)%nat -> (0 < length (print_u32 n) <= k)%nat.
Proof. intros. unfold print_u32. pose proof (dec_digits_length 9 n [] k). simpl length in *. lia. Qed.

Lemma cstr_id s : 0 ∉ s -> cstr s = s.
Proof.
  induction s as [|c s IH]; [done|]. rewrite not_elem_of_cons. intros [Hc Hs]. simpl.
  rewrite (proj2 (Z.eqb_neq _ _)) by congruence. by rewrite IH.
Qed.
