(* ===== verification/Ring.v ===== *)
(** * The elastic sequence-indexed ring ([src/reorder_rx.c], section 13)

    The receive buffer of one reordered flow: an array of slots indexed by the
    low bits of the sequence number, allocated on the first out-of-order
    packet and doubled (with a rehash) when the span of buffered numbers
    outgrows it.  [RingSpec] is what the ring promises to the flow engine: it
    represents a finite map from sequence numbers to slots, seen through a
    window that starts at the next expected number. *)

From stdpp Require Import list_numbers.
From S2P Require Import Prelude Wire.

(** ** Data *)

(** [pkt = None] is the null pointer of a free slot. *)
Record slot := Slot {
  s_seq : Z;
  s_len : Z;
  s_pkt : option (list Z);
  s_enqueue_us : Z
}.

#[export] Instance eta_slot : Settable slot := fun r =>
  Slot (s_seq r) (s_len r) (s_pkt r) (s_enqueue_us r).

(** A slot of a fresh [calloc]ed array. *)
Definition empty_slot : slot := Slot 0 0 None 0.

Record ring := Ring {
  slots : option (list slot);
  rsize : Z;
  rcap : Z;
  rcount : Z;
  rbytes : Z
}.

#[export] Instance eta_ring : Settable ring := fun r =>
  Ring (slots r) (rsize r) (rcap r) (rcount r) (rbytes r).

(** ** Operations *)

Definition RING_IDX (r : ring) (s : Z) : Z := u32 (Z.land s (u64 (rsize r - 1))).

Definition slot_at (l : list slot) (i : Z) : slot := default empty_slot (l !! Z.to_nat i).

Definition occupied (s : slot) : bool := bool_decide (is_Some (s_pkt s)).

Definition ring_init (cap : Z) : ring := Ring None 0 cap 0 0.

Definition ring_free (r : ring) : ring :=
  r <| slots := None |> <| rsize := 0 |> <| rcount := 0 |> <| rbytes := 0 |>.

Definition ring_empty (r : ring) : bool := rcount r =? 0.

Definition ring_far_ahead (r : ring) (seq expected : Z) : bool :=
  rcap r <=? u64 (seq - expected).

Definition ring_contains (r : ring) (seq : Z) : bool :=
  match slots r with
  | None => false
  | Some l => let s := slot_at l (RING_IDX r seq) in occupied s && (s_seq s =? seq)
  end.

(** [ok] is whether [calloc] succeeds. *)
Definition ring_alloc_slots (ok : bool) (r : ring) (new_size : Z) : option ring :=
  if ok then
    Some (r <| slots := Some (replicate (Z.to_nat new_size) empty_slot) |> <| rsize := new_size |>)
  else None.

Fixpoint grow_want (fuel : nat) (want span cap : Z) : Z :=
  match fuel with
  | O => want
  | S n =>
      if (want <=? span) && (want <? cap) then grow_want n (u32 (Z.shiftl want 1)) span cap
      else want
  end.

(** One iteration of the rehash loop into the array of ring [r]. *)
Definition rehash_slot (r : ring) (ns : list slot) (o : slot) : list slot :=
  if occupied o then <[Z.to_nat (RING_IDX r (s_seq o)) := o]> ns else ns.

(** [None] is the return value -1 (the ring is left as it was).  The doubling
    loop is given 33 iterations: [want] starts at 1 or more and stops at
    [cap], which is below [2^32]. *)
Definition ring_grow_to_cover (ok : bool) (r : ring) (span : Z) : option ring :=
  let want := if negb (rsize r =? 0) then rsize r else 1 in
  let want := grow_want 33 want span (rcap r) in
  let want := if want <? rsize r then rsize r else want in
  if (want =? rsize r) && bool_decide (is_Some (slots r)) then Some r
  else
    match ring_alloc_slots ok r want with
    | None => None
    | Some r' =>
        match slots r, slots r' with
        | Some old, Some fresh => Some (r' <| slots := Some (fold_left (rehash_slot r') old fresh) |>)
        | _, _ => Some r'
        end
    end.

Definition ring_insert (ok : bool) (r : ring) (seq : Z) (pkt : list Z) (len expected enqueue_us : Z)
    : option ring :=
  let span := u64 (seq - expected) in
  let grown := if bool_decide (slots r = None) || (rsize r <=? span)
               then ring_grow_to_cover ok r span else Some r in
  match grown with
  | None => None
  | Some r =>
      match slots r with
      | None => None
      | Some l =>
          Some (r <| slots := Some (<[Z.to_nat (RING_IDX r seq) := Slot seq len (Some pkt) enqueue_us]> l) |>
                  <| rcount := u32 (rcount r + 1) |> <| rbytes := u64 (rbytes r + len) |>)
      end
  end.

(** The packet, its length and its enqueue time, with the ring after the
    removal; [None] when the number is absent. *)
Definition ring_remove (r : ring) (seq : Z) : option ((list Z * Z * Z) * ring) :=
  match slots r with
  | None => None
  | Some l =>
      let s := slot_at l (RING_IDX r seq) in
      match s_pkt s with
      | None => None
      | Some pkt =>
          if negb (s_seq s =? seq) then None
          else Some ((pkt, s_len s, s_enqueue_us s),
                     r <| slots := Some (<[Z.to_nat (RING_IDX r seq) := empty_slot]> l) |>
                       <| rcount := u32 (rcount r - 1) |> <| rbytes := u64 (rbytes r - s_len s) |>)
      end
  end.

(** The scan from offset [i]; [n] is the number of offsets left. *)
Fixpoint lowest_from (n : nat) (l : list slot) (r : ring) (expected i : Z) : Z :=
  match n with
  | O => expected
  | S n =>
      let seq := u64 (expected + i) in
      let s := slot_at l (RING_IDX r seq) in
      if occupied s && (s_seq s =? seq) then seq else lowest_from n l r expected (i + 1)
  end.

Definition ring_lowest_seq (r : ring) (expected : Z) : Z :=
  match slots r with
  | None => expected
  | Some l => lowest_from (Z.to_nat (rsize r)) l r expected 0
  end.

(** ** Specification *)

(** Sequence numbers on the wire are 48 bits wide; the window origin is at
    most one past the last of them. *)
Definition SEQ_LIMIT : Z := 2 ^ 48.

Definition sum_len (m : gmap Z slot) : Z := map_fold (fun _ s acc => s_len s + acc) 0 m.

Definition occupied_slots (r : ring) : list slot :=
  match slots r with None => [] | Some l => List.filter occupied l end.

(** What the ring promises: [rep r e m] says that ring [r], read through the
    window starting at [e], holds exactly the entries of [m]. *)
Class RingSpec := {
  rep : ring -> Z -> gmap Z slot -> Prop;
  rep_init cap e :
    mqvpn_reorder_cap_is_valid cap = true -> 0 <= cap < 2 ^ 32 -> 0 <= e <= SEQ_LIMIT ->
    rep (ring_init cap) e ∅;
  rep_free r e e' m : rep r e m -> 0 <= e' <= SEQ_LIMIT -> rep (ring_free r) e' ∅;
  rep_origin r e m : rep r e m -> 0 <= e <= SEQ_LIMIT;
  rep_cap_bound r e m : rep r e m -> 0 < rcap r < 2 ^ 32;
  rep_window r e m s : rep r e m -> is_Some (m !! s) -> e <= s < e + rcap r;
  rep_slot r e m s x :
    rep r e m -> m !! s = Some x ->
    s_seq x = s /\ is_Some (s_pkt x) /\ 0 <= s_len x <= UINT16_MAX /\ s < SEQ_LIMIT;
  rep_count r e m : rep r e m -> rcount r = Z.of_nat (size m);
  rep_count_cap r e m : rep r e m -> Z.of_nat (size m) <= rcap r;
  rep_bytes r e m : rep r e m -> rbytes r = sum_len m;
  rep_slots r e m : rep r e m -> occupied_slots r ≡ₚ (map_to_list m).*2;
  rep_contains r e m s : rep r e m -> 0 <= s < 2 ^ 64 ->
    ring_contains r s = bool_decide (is_Some (m !! s));
  rep_advance r e e' m :
    rep r e m -> e <= e' <= SEQ_LIMIT -> (forall s, is_Some (m !! s) -> e' <= s) -> rep r e' m;
  rep_lowest r e m : rep r e m -> m <> ∅ ->
    is_Some (m !! ring_lowest_seq r e) /\
    forall s, is_Some (m !! s) -> ring_lowest_seq r e <= s;
  rep_remove r e m s : rep r e m -> 0 <= s < 2 ^ 64 ->
    match m !! s with
    | None => ring_remove r s = None
    | Some x => exists pkt r', s_pkt x = Some pkt /\
        ring_remove r s = Some ((pkt, s_len x, s_enqueue_us x), r') /\
        rep r' e (delete s m) /\ rcap r' = rcap r
    end;
  rep_insert ok r e m s pkt len enq :
    rep r e m -> m !! s = None -> e <= s < e + rcap r -> s < SEQ_LIMIT ->
    0 <= len <= UINT16_MAX ->
    match ring_insert ok r s pkt len e enq with
    | None => ok = false
    | Some r' => rep r' e (<[s := Slot s len (Some pkt) enq]> m) /\ rcap r' = rcap r
    end
}.

(** ** The representation *)

(** The array [l] of [n = 2^j] slots holds the entries of [m], whose numbers
    lie in the [n] numbers from [e] on, each at its index modulo [n]. *)
Record store_ok (n cap : Z) (l : list slot) (e : Z) (m : gmap Z slot) : Prop := {
  so_size : exists j, 0 <= j /\ n = 2 ^ j;
  so_cap : n <= cap;
  so_length : length l = Z.to_nat n;
  so_window s : is_Some (m !! s) -> e <= s < e + n;
  so_held i x : l !! i = Some x -> occupied x = true ->
    m !! s_seq x = Some x /\ i = Z.to_nat (s_seq x mod n);
  so_found s x : m !! s = Some x -> l !! Z.to_nat (s mod n) = Some x
}.

Record ring_rep (r : ring) (e : Z) (m : gmap Z slot) : Prop := {
  rr_origin : 0 <= e <= SEQ_LIMIT;
  rr_cap : exists k, 0 <= k < 32 /\ rcap r = 2 ^ k;
  rr_slot s x : m !! s = Some x ->
    s_seq x = s /\ is_Some (s_pkt x) /\ 0 <= s_len x <= UINT16_MAX /\ s < SEQ_LIMIT;
  rr_count : rcount r = Z.of_nat (size m);
  rr_bytes : rbytes r = sum_len m;
  rr_store :
    match slots r with
    | None => rsize r = 0 /\ m = ∅
    | Some l => store_ok (rsize r) (rcap r) l e m
    end
}.

(** ** Sums over maps and windows *)

Lemma sum_len_insert m s x : m !! s = None -> sum_len (<[s := x]> m) = s_len x + sum_len m.
Proof.
  intros H. unfold sum_len. rewrite (map_fold_insert_L _ _ s x m); [done| |done]. intros. lia.
Qed.

Lemma sum_len_delete m s x : m !! s = Some x -> sum_len m = s_len x + sum_len (delete s m).
Proof.
  intros H. rewrite <- (sum_len_insert _ s) by apply lookup_delete_eq. by rewrite insert_delete_id.
Qed.

Lemma sum_len_bounds m :
  (forall s x, m !! s = Some x -> 0 <= s_len x <= UINT16_MAX) ->
  0 <= sum_len m <= UINT16_MAX * Z.of_nat (size m).
Proof.
  induction m as [|s x m Hs IH] using map_ind; intros Hm; [done|].
  rewrite sum_len_insert, map_size_insert_None by done.
  assert (0 <= s_len x <= UINT16_MAX) by (eapply Hm; apply lookup_insert_eq).
  ospecialize (IH _); [|unfold UINT16_MAX in *; lia].
  intros t y Ht. apply (Hm t). rewrite lookup_insert_ne; congruence.
Qed.

(** A map whose keys lie in a window of [n] numbers has at most [n] entries. *)
Lemma window_size (m : gmap Z slot) e n :
  0 <= n -> (forall s, is_Some (m !! s) -> e <= s < e + n) -> Z.of_nat (size m) <= n.
Proof.
  intros Hn Hw. rewrite <- size_dom.
  assert (Hsub : elements (dom m) ⊆+ seqZ e n).
  { apply NoDup_submseteq; [apply NoDup_elements|]. intros s Hs.
    apply elem_of_elements, elem_of_dom, Hw in Hs. apply elem_of_seqZ. lia. }
  apply submseteq_length in Hsub. rewrite length_seqZ in Hsub.
  change (size (dom m)) with (length (elements (dom m))). lia.
Qed.

Lemma mod_window_inj e n s t :
  0 < n -> e <= s < e + n -> e <= t < e + n -> s mod n = t mod n -> s = t.
Proof.
  intros Hn Hs Ht E.
  pose proof (Z.div_mod s n ltac:(lia)). pose proof (Z.div_mod t n ltac:(lia)).
  assert (s / n = t / n) by nia. nia.
Qed.

(** ** Consequences of the representation *)

Section store.
Context (n cap : Z) (l : list slot) (e : Z) (m : gmap Z slot).
Hypothesis Hs : store_ok n cap l e m.

Lemma store_pos : 0 < n.
Proof. destruct (so_size _ _ _ _ _ Hs) as (j & ? & ->). by apply pow2_pos. Qed.

Lemma store_inj s t : is_Some (m !! s) -> is_Some (m !! t) -> s mod n = t mod n -> s = t.
Proof.
  intros. apply (mod_window_inj e n); eauto using store_pos, so_window.
Qed.

(** The membership test at the index of [s]. *)
Lemma store_at s :
  (forall t x, m !! t = Some x -> is_Some (s_pkt x) /\ s_seq x = t) ->
  let x := slot_at l (s mod n) in
  (occupied x && (s_seq x =? s)) = bool_decide (is_Some (m !! s)) /\
  (forall y, m !! s = Some y -> x = y).
Proof.
  intros Hm x. pose proof store_pos as Hn.
  assert (Hx : l !! Z.to_nat (s mod n) = Some x).
  { unfold x, slot_at. destruct (l !! _) as [y|] eqn:E; [done|].
    apply lookup_ge_None in E. rewrite (so_length _ _ _ _ _ Hs) in E.
    pose proof (Z.mod_pos_bound s n Hn). lia. }
  assert (Hy : forall y, m !! s = Some y -> x = y).
  { intros y Hy%(so_found _ _ _ _ _ Hs). congruence. }
  split; [|done]. case_bool_decide as HS.
  - destruct HS as [y HS]. rewrite (Hy y) by done. destruct (Hm _ _ HS) as [Ho <-].
    unfold occupied. rewrite bool_decide_eq_true_2 by done. apply Z.eqb_refl.
  - destruct (occupied x) eqn:Ho; [|done]. apply Z.eqb_neq. intros E.
    apply HS. destruct (so_held _ _ _ _ _ Hs _ _ Hx Ho) as [Hq _]. rewrite E in Hq. eauto.
Qed.

Lemma store_nodup : NoDup (List.filter occupied l).
Proof.
  pose proof (so_held _ _ _ _ _ Hs) as Hh. clear Hs.
  assert (Hd : forall i j x, l !! i = Some x -> l !! j = Some x -> occupied x = true -> i = j).
  { intros i j x Hi Hj Ho. destruct (Hh _ _ Hi Ho), (Hh _ _ Hj Ho). congruence. }
  clear Hh. induction l as [|a l' IH]; simpl; [constructor|].
  assert (Hl' : NoDup (List.filter occupied l')).
  { apply IH. intros i j x Hi Hj Ho. by apply (Hd (S i) (S j) x) in Ho as [= ->]. }
  destruct (occupied a) eqn:Ha; [|done]. constructor; [|done].
  rewrite list_elem_of_In, List.filter_In, <- list_elem_of_In.
  intros [[i Hi]%list_elem_of_lookup _]. by apply (Hd 0%nat (S i) a) in Ha.
Qed.
End store.

Lemma RING_IDX_mod r s j : 0 <= j < 32 -> rsize r = 2 ^ j -> RING_IDX r s = s mod rsize r.
Proof.
  intros Hj Hr. pose proof (pow2_pos j ltac:(lia)).
  assert (2 ^ j <= 2 ^ 31) by (apply Z.pow_le_mono_r; lia).
  unfold RING_IDX. rewrite u64_small by lia. rewrite Hr, land_ones_mod by lia.
  apply u32_small. pose proof (Z.mod_pos_bound s (2 ^ j)). lia.
Qed.

Lemma store_idx r e m l s :
  ring_rep r e m -> slots r = Some l -> RING_IDX r s = s mod rsize r.
Proof.
  intros H Hl. pose proof (rr_store _ _ _ H) as Hst. rewrite Hl in Hst.
  destruct (so_size _ _ _ _ _ Hst) as (j & Hj & Ej), (rr_cap _ _ _ H) as (k & Hk & Ek).
  apply (RING_IDX_mod r s j); [|done]. split; [done|].
  pose proof (so_cap _ _ _ _ _ Hst) as Hc. rewrite Ej, Ek in Hc.
  apply Z.pow_le_mono_r_iff in Hc; lia.
Qed.

(** ** Growing *)

Lemma grow_want_spec fuel a k span :
  0 <= a <= k -> k < 32 -> (Z.to_nat (k - a) < fuel)%nat -> span < 2 ^ k ->
  exists b, a <= b <= k /\ grow_want fuel (2 ^ a) span (2 ^ k) = 2 ^ b /\ span < 2 ^ b.
Proof.
  revert a. induction fuel as [|fuel IH]; intros a Ha Hk Hf Hs; [lia|]. simpl.
  destruct (Z.leb_spec (2 ^ a) span); simpl; [|exists a; split_and!; [lia..|done|lia]].
  destruct (Z.ltb_spec (2 ^ a) (2 ^ k)) as [Hl|]; [|lia].
  apply Z.pow_lt_mono_r_iff in Hl; [|lia..].
  assert (2 ^ (a + 1) <= 2 ^ 31) by (apply Z.pow_le_mono_r; lia).
  rewrite Z.shiftl_mul_pow2, <- Z.pow_add_r, u32_small by (pose proof (pow2_pos (a + 1)); lia).
  destruct (IH (a + 1)) as (b & ? & ? & ?); [lia..|].
  exists b. split_and!; [lia|lia|done..].
Qed.

Lemma occupied_empty : occupied empty_slot = false.
Proof. done. Qed.

(** The state of the rehash loop with the slots [todo] still to be visited:
    what is stored is right, and what is not stored is to come. *)
Record rehash_inv (n : Z) (m : gmap Z slot) (acc todo : list slot) : Prop := {
  ri_length : length acc = Z.to_nat n;
  ri_todo x : x ∈ todo -> occupied x = true -> m !! s_seq x = Some x;
  ri_held i x : acc !! i = Some x -> occupied x = true ->
    m !! s_seq x = Some x /\ i = Z.to_nat (s_seq x mod n);
  ri_found s x : m !! s = Some x -> acc !! Z.to_nat (s mod n) = Some x \/ x ∈ todo
}.

Lemma rehash_step r e n m acc o todo :
  0 < n -> (forall s, RING_IDX r s = s mod n) ->
  (forall s, is_Some (m !! s) -> e <= s < e + n) ->
  (forall s x, m !! s = Some x -> s_seq x = s /\ occupied x = true) ->
  rehash_inv n m acc (o :: todo) -> rehash_inv n m (rehash_slot r acc o) todo.
Proof.
  intros Hn Hidx Hw Hm [Hl Ht Hh Hf]. unfold rehash_slot. rewrite Hidx.
  assert (Hlt : (Z.to_nat (s_seq o mod n) < length acc)%nat)
    by (pose proof (Z.mod_pos_bound (s_seq o) n Hn); lia).
  destruct (occupied o) eqn:Ho.
  - assert (Hmo : m !! s_seq o = Some o) by (apply Ht; [left|done]).
    split.
    + by rewrite length_insert.
    + intros x Hx. apply Ht. by right.
    + intros i x. rewrite list_lookup_insert_Some. intros [(<- & -> & _)|[_ Hi]]; eauto.
    + intros s x Hx. destruct (Hm s x Hx) as [<- Hox].
      destruct (Hf _ _ Hx) as [Ha|[->|Hin]%elem_of_cons].
      * left. apply list_lookup_insert_Some.
        destruct (decide (Z.to_nat (s_seq o mod n) = Z.to_nat (s_seq x mod n))) as [Eq|]; [left|by right].
        assert (s_seq o = s_seq x) as Es.
        { apply (mod_window_inj e n); [done| apply Hw; eauto | apply Hw; eauto|].
          pose proof (Z.mod_pos_bound (s_seq o) n Hn). pose proof (Z.mod_pos_bound (s_seq x) n Hn). lia. }
        split_and!; [done| |lia]. rewrite Es in Hmo. congruence.
      * left. by apply list_lookup_insert_eq.
      * by right.
  - split; [done| | done |].
    + intros x Hx. apply Ht. by right.
    + intros s x Hx. destruct (Hf _ _ Hx) as [?|[->|?]%elem_of_cons]; [by left| |by right].
      destruct (Hm _ _ Hx). congruence.
Qed.

Lemma rehash_fold r e n m todo acc :
  0 < n -> (forall s, RING_IDX r s = s mod n) ->
  (forall s, is_Some (m !! s) -> e <= s < e + n) ->
  (forall s x, m !! s = Some x -> s_seq x = s /\ occupied x = true) ->
  rehash_inv n m acc todo -> rehash_inv n m (fold_left (rehash_slot r) todo acc) [].
Proof.
  intros Hn Hidx Hw Hm. revert acc. induction todo as [|o todo IH]; intros acc H; [done|].
  simpl. apply IH. by eapply rehash_step.
Qed.

(** A fresh array of [n] slots with the entries of the old one rehashed. *)
Lemma rehash_store r e n n' cap m old :
  (exists j, 0 <= j /\ n' = 2 ^ j) -> n <= n' <= cap -> (forall s, RING_IDX r s = s mod n') ->
  (forall s x, m !! s = Some x -> s_seq x = s /\ occupied x = true) ->
  store_ok n cap old e m ->
  store_ok n' cap (fold_left (rehash_slot r) old (replicate (Z.to_nat n') empty_slot)) e m.
Proof.
  intros Hj Hc Hidx Hm Hst. pose proof (store_pos _ _ _ _ _ Hst).
  assert (Hw : forall s, is_Some (m !! s) -> e <= s < e + n').
  { intros s ?%(so_window _ _ _ _ _ Hst). lia. }
  destruct (rehash_fold r e n' m old (replicate (Z.to_nat n') empty_slot)) as [Hl _ Hh Hf];
    [lia|done..| |].
  - split.
    + by rewrite length_replicate.
    + intros x [i Hi]%list_elem_of_lookup Ho. by destruct (so_held _ _ _ _ _ Hst _ _ Hi Ho).
    + intros i x [-> _]%lookup_replicate. by rewrite occupied_empty.
    + intros s x Hx. right. eapply list_elem_of_lookup_2, so_found; eauto.
  - split; [done|lia|done|done|done|]. intros s x Hx. destruct (Hf s x Hx) as [?|Hn]; [done|].
    by apply elem_of_nil in Hn.
Qed.

Lemma rep_live r e m s x : ring_rep r e m -> m !! s = Some x -> s_seq x = s /\ occupied x = true.
Proof.
  intros H Hx. destruct (rr_slot _ _ _ H _ _ Hx) as (? & ? & _). split; [done|].
  by apply bool_decide_eq_true_2.
Qed.

Lemma ring_rep_cap r e m : ring_rep r e m -> 0 < rcap r < 2 ^ 32.
Proof.
  intros H. destruct (rr_cap _ _ _ H) as (k & Hk & ->). split; [apply pow2_pos; lia|].
  apply Z.pow_lt_mono_r; lia.
Qed.

Lemma ring_rep_window r e m s : ring_rep r e m -> is_Some (m !! s) -> e <= s < e + rcap r.
Proof.
  intros H Hs. pose proof (rr_store _ _ _ H) as Hst. destruct (slots r) as [l|].
  - pose proof (so_window _ _ _ _ _ Hst _ Hs). pose proof (so_cap _ _ _ _ _ Hst). lia.
  - destruct Hst as [_ ->]. rewrite lookup_empty in Hs. by destruct Hs.
Qed.

Lemma ring_rep_count_cap r e m : ring_rep r e m -> Z.of_nat (size m) <= rcap r.
Proof.
  intros H. pose proof (ring_rep_cap _ _ _ H). apply (window_size m e); [lia|].
  intros s. by apply ring_rep_window.
Qed.

(** A ring with a new array that stores the same entries. *)
Lemma ring_rep_restore r e m n l :
  ring_rep r e m -> store_ok n (rcap r) l e m ->
  ring_rep (r <| slots := Some l |> <| rsize := n |>) e m.
Proof. intros [] Hst. by split. Qed.

Lemma ring_grow_to_cover_spec ok r e m span :
  ring_rep r e m -> span < rcap r ->
  match ring_grow_to_cover ok r span with
  | None => ok = false
  | Some r' => ring_rep r' e m /\ rcap r' = rcap r /\ span < rsize r' /\ is_Some (slots r')
  end.
Proof.
  intros H Hspan. destruct (rr_cap _ _ _ H) as (k & Hk & Ek).
  pose proof (rr_store _ _ _ H) as Hst. unfold ring_grow_to_cover.
  set (want0 := if negb (rsize r =? 0) then rsize r else 1).
  assert (exists a, 0 <= a <= k /\ want0 = 2 ^ a /\ rsize r <= 2 ^ a) as (a & Ha & Ew & Hra).
  { unfold want0. destruct (slots r) as [l|].
    - destruct (so_size _ _ _ _ _ Hst) as (j & Hj & Ej). pose proof (so_cap _ _ _ _ _ Hst) as Hc.
      rewrite Ej, Ek in Hc. apply Z.pow_le_mono_r_iff in Hc; [|lia..]. exists j.
      rewrite Ej. pose proof (pow2_pos j Hj). destruct (Z.eqb_spec (2 ^ j) 0); simpl; lia.
    - destruct Hst as [-> _]. exists 0. simpl. lia. }
  rewrite Ew, Ek. destruct (grow_want_spec 33 a k span) as (b & Hb & -> & Hsb); [lia..|].
  assert (2 ^ a <= 2 ^ b) by (apply Z.pow_le_mono_r; lia).
  assert (2 ^ b <= 2 ^ k) by (apply Z.pow_le_mono_r; lia).
  destruct (Z.ltb_spec (2 ^ b) (rsize r)); [lia|].
  destruct (_ && _) eqn:Esame; [bool_to_prop; case_bool_decide; by split_and!; [..|lia|]|].
  destruct ok; [|done]. simpl. destruct (slots r) as [l|] eqn:El; simpl.
  - split_and!; [|done|lia|done].
    apply ring_rep_restore; [done|]. eapply (rehash_store _ _ (rsize r)); [by exists b; split; [lia|]|lia| | |done].
    + intros s. rewrite (RING_IDX_mod _ _ b); [done|lia|done].
    + intros s x. by apply (rep_live r e).
  - destruct Hst as [_ ->]. split_and!; [|done|lia|done].
    apply ring_rep_restore; [done|]. split; [by exists b; split; [lia|]|lia| | | |].
    + by rewrite length_replicate.
    + intros s [? Hs]. by rewrite lookup_empty in Hs.
    + intros i x [-> _]%lookup_replicate. by rewrite occupied_empty.
    + intros s x. by rewrite lookup_empty.
Qed.

(** ** The laws *)

Lemma ring_rep_at r e m l s :
  ring_rep r e m -> slots r = Some l ->
  let x := slot_at l (RING_IDX r s) in
  occupied x && (s_seq x =? s) = bool_decide (is_Some (m !! s)) /\
  (forall y, m !! s = Some y -> x = y).
Proof.
  intros H Hl. rewrite (store_idx r e m l) by done.
  pose proof (rr_store _ _ _ H) as Hst. rewrite Hl in Hst. apply (store_at _ _ _ _ _ Hst).
  intros t x Hx. destruct (rr_slot _ _ _ H _ _ Hx) as (? & ? & _). done.
Qed.

Lemma lowest_from_spec r e m l n i :
  ring_rep r e m -> slots r = Some l -> 0 <= i -> i + Z.of_nat n <= 2 ^ 32 ->
  (forall s, is_Some (m !! s) -> e + i <= s) ->
  (exists s, is_Some (m !! s) /\ s < e + i + Z.of_nat n) ->
  let s := lowest_from n l r e i in is_Some (m !! s) /\ forall t, is_Some (m !! t) -> s <= t.
Proof.
  intros H Hl. pose proof (rr_origin _ _ _ H) as He. unfold SEQ_LIMIT in He.
  revert i. induction n as [|n IH]; intros i Hi Hn Hlow (s & Hs & Hsn).
  { specialize (Hlow _ Hs). lia. }
  cbn [lowest_from]. rewrite u64_small by lia.
  destruct (ring_rep_at r e m l (e + i) H Hl) as [-> _].
  case_bool_decide as Hm; [by split|]. apply IH; [lia..| |exists s; split; [done|lia]].
  intros t Ht. specialize (Hlow _ Ht). destruct (decide (t = e + i)) as [->|]; [done|lia].
Qed.

Lemma ring_rep_lowest r e m : ring_rep r e m -> m <> ∅ ->
  is_Some (m !! ring_lowest_seq r e) /\ forall s, is_Some (m !! s) -> ring_lowest_seq r e <= s.
Proof.
  intros H Hm. apply map_choose in Hm as (s & x & Hs). unfold ring_lowest_seq.
  pose proof (rr_store _ _ _ H) as Hst. pose proof (ring_rep_cap _ _ _ H).
  destruct (slots r) as [l|] eqn:Hl; [|by destruct Hst as [_ ->]; rewrite lookup_empty in Hs].
  pose proof (so_cap _ _ _ _ _ Hst). pose proof (store_pos _ _ _ _ _ Hst).
  apply (lowest_from_spec r e m l); [done..|lia|lia| |].
  - intros t ?%(so_window _ _ _ _ _ Hst). lia.
  - exists s. split; [eauto|]. assert (is_Some (m !! s)) as ?%(so_window _ _ _ _ _ Hst) by eauto. lia.
Qed.

Lemma store_remove n cap l e m s :
  store_ok n cap l e m -> is_Some (m !! s) ->
  store_ok n cap (<[Z.to_nat (s mod n) := empty_slot]> l) e (delete s m).
Proof.
  intros Hst Hs. destruct Hst as [? ? ? Hw Hh Hf] eqn:E. clear E. split; [done..|by rewrite length_insert| | |].
  - intros t [? [_ ?]%lookup_delete_Some]. eauto.
  - intros i x. rewrite list_lookup_insert_Some. intros [(_ & <- & _)|[Hne Hi]] Ho; [done|].
    destruct (Hh _ _ Hi Ho) as [Hx ->]. rewrite lookup_delete_ne; [done|]. by intros ->.
  - intros t x [Hne Ht]%lookup_delete_Some. rewrite list_lookup_insert_ne; [by apply Hf|].
    intros Eq. apply Hne. apply (store_inj _ _ _ _ _ Hst); [done|eauto|].
    pose proof (Z.mod_pos_bound s n (store_pos _ _ _ _ _ Hst)).
    pose proof (Z.mod_pos_bound t n (store_pos _ _ _ _ _ Hst)). lia.
Qed.

Lemma store_insert n cap l e m s x :
  store_ok n cap l e m -> m !! s = None -> s_seq x = s -> occupied x = true -> e <= s < e + n ->
  store_ok n cap (<[Z.to_nat (s mod n) := x]> l) e (<[s := x]> m).
Proof.
  intros Hst Hs Hx Ho Hsw. pose proof (store_pos _ _ _ _ _ Hst) as Hn.
  destruct Hst as [? ? Hlen Hw Hh Hf].
  assert (Hinj : forall t y, m !! t = Some y -> Z.to_nat (s mod n) <> Z.to_nat (t mod n)).
  { intros t y Ht E. assert (s = t) as ->; [|congruence].
    apply (mod_window_inj e n); [done..|apply Hw; eauto|].
    pose proof (Z.mod_pos_bound s n Hn). pose proof (Z.mod_pos_bound t n Hn). lia. }
  split; [done..|by rewrite length_insert| | |].
  - intros t [? [[-> _]|[_ ?]]%lookup_insert_Some]; [done|eauto].
  - intros i y. rewrite list_lookup_insert_Some. intros [(<- & <- & _)|[Hne Hi]] Hoy.
    + rewrite Hx, lookup_insert_eq. done.
    + destruct (Hh _ _ Hi Hoy) as [Hy ->]. rewrite lookup_insert_ne; [done|]. congruence.
  - intros t y [[-> ->]|[Hne Ht]]%lookup_insert_Some.
    + apply list_lookup_insert_eq. pose proof (Z.mod_pos_bound t n Hn). lia.
    + rewrite list_lookup_insert_ne; eauto.
Qed.

Lemma ring_rep_remove r e m s : ring_rep r e m ->
  match m !! s with
  | None => ring_remove r s = None
  | Some x => exists pkt r', s_pkt x = Some pkt /\
      ring_remove r s = Some ((pkt, s_len x, s_enqueue_us x), r') /\
      ring_rep r' e (delete s m) /\ rcap r' = rcap r
  end.
Proof.
  intros H. pose proof (rr_store _ _ _ H) as Hst. unfold ring_remove.
  destruct (slots r) as [l|] eqn:Hl; [|by destruct Hst as [_ ->]; rewrite lookup_empty].
  destruct (ring_rep_at r e m l s H Hl) as [Hat Heq].
  destruct (m !! s) as [x|] eqn:Hs.
  - rewrite (Heq x eq_refl). destruct (rr_slot _ _ _ H _ _ Hs) as (Hseq & [pkt Hp] & Hlen & Hlim).
    rewrite Hp, Hseq, Z.eqb_refl. simpl. eexists pkt, _. split_and!; [done..| |done].
    rewrite (store_idx r e m l) by done.
    pose proof (sum_len_delete _ _ _ Hs) as Hsum.
    pose proof (map_size_delete_Some s m ltac:(eauto)) as Hsz.
    pose proof (ring_rep_count_cap _ _ _ H). pose proof (ring_rep_cap _ _ _ H).
    assert (size m <> 0%nat) by (intros E%map_size_empty_inv; by rewrite E, lookup_empty in Hs).
    assert (Hb : 0 <= sum_len m <= UINT16_MAX * Z.of_nat (size m)).
    { apply sum_len_bounds. intros t y Ht. by apply (rr_slot _ _ _ H _ _ Ht). }
    assert (Hb' : 0 <= sum_len (delete s m)).
    { apply sum_len_bounds. intros t y [_ Ht]%lookup_delete_Some. by apply (rr_slot _ _ _ H _ _ Ht). }
    unfold UINT16_MAX in *.
    split; cbn -[Z.pow]; [apply H..| | | |].
    + intros t y [_ Ht]%lookup_delete_Some. by apply (rr_slot _ _ _ H).
    + rewrite (rr_count _ _ _ H), u32_small; lia.
    + rewrite (rr_bytes _ _ _ H), u64_small; lia.
    + apply store_remove; [done|eauto].
  - rewrite bool_decide_eq_false_2 in Hat by (intros [? ?]; done). unfold occupied in Hat.
    destruct (s_pkt _); [|done]. rewrite bool_decide_eq_true_2 in Hat by eauto.
    simpl in Hat. by rewrite Hat.
Qed.

Lemma ring_rep_insert ok r e m s pkt len enq :
  ring_rep r e m -> m !! s = None -> e <= s < e + rcap r -> s < SEQ_LIMIT -> 0 <= len <= UINT16_MAX ->
  match ring_insert ok r s pkt len e enq with
  | None => ok = false
  | Some r' => ring_rep r' e (<[s := Slot s len (Some pkt) enq]> m) /\ rcap r' = rcap r
  end.
Proof.
  intros H Hs Hw Hlim Hlen. unfold ring_insert.
  pose proof (ring_rep_cap _ _ _ H). pose proof (rr_origin _ _ _ H). unfold SEQ_LIMIT in *.
  rewrite u64_small by lia.
  assert (Hg : match (if bool_decide (slots r = None) || (rsize r <=? s - e)
                      then ring_grow_to_cover ok r (s - e) else Some r) with
               | None => ok = false
               | Some r' => ring_rep r' e m /\ rcap r' = rcap r /\ s - e < rsize r' /\ is_Some (slots r')
               end).
  { destruct (_ || _) eqn:Eg; [apply ring_grow_to_cover_spec; [done|lia]|]. bool_to_prop.
    destruct (slots r); [|done]. split_and!; [done..|lia|eauto]. }
  destruct (if bool_decide (slots r = None) || (rsize r <=? s - e)
            then ring_grow_to_cover ok r (s - e) else Some r) as [r'|]; [|done].
  destruct Hg as (Hr & Hc & Hsp & [l Hl]). rewrite Hl. split; [|done].
  pose proof (rr_store _ _ _ Hr) as Hst. rewrite Hl in Hst.
  rewrite (store_idx r' e m l) by done.
  set (x := Slot s len (Some pkt) enq).
  assert (Hst' : store_ok (rsize r') (rcap r') (<[Z.to_nat (s mod rsize r') := x]> l) e (<[s := x]> m))
    by (apply store_insert; [done..|lia]).
  assert (Hent : forall t y, <[s := x]> m !! t = Some y ->
    s_seq y = t /\ is_Some (s_pkt y) /\ 0 <= s_len y <= UINT16_MAX /\ t < 2 ^ 48).
  { intros t y [[<- <-]|[_ Ht]]%lookup_insert_Some; [simpl; split_and!; eauto; lia|].
    by apply (rr_slot _ _ _ Hr). }
  assert (Hsz : Z.of_nat (size (<[s := x]> m)) <= rsize r').
  { apply (window_size _ e); [|apply (so_window _ _ _ _ _ Hst')]. pose proof (store_pos _ _ _ _ _ Hst). lia. }
  pose proof (sum_len_bounds _ (fun t y Ht => proj1 (proj2 (proj2 (Hent t y Ht))))) as Hb.
  pose proof (so_cap _ _ _ _ _ Hst).
  rewrite sum_len_insert in Hb by done. rewrite map_size_insert_None in Hsz, Hb by done.
  unfold UINT16_MAX in *.
  split; cbn -[Z.pow]; [apply Hr..|done| | |done].
  - rewrite map_size_insert_None, (rr_count _ _ _ Hr), u32_small by (done || lia). lia.
  - rewrite sum_len_insert, (rr_bytes _ _ _ Hr), u64_small by (done || (simpl in *; lia)). simpl. lia.
Qed.

Lemma ring_rep_slots r e m : ring_rep r e m -> occupied_slots r ≡ₚ (map_to_list m).*2.
Proof.
  intros H. pose proof (rr_store _ _ _ H) as Hst. unfold occupied_slots.
  destruct (slots r) as [l|]; [|destruct Hst as [_ ->]; by rewrite map_to_list_empty].
  apply NoDup_Permutation.
  - by eapply store_nodup.
  - apply NoDup_fmap_2_strong; [|apply NoDup_map_to_list].
    intros [s x] [t y] Hx%elem_of_map_to_list Hy%elem_of_map_to_list E. simpl in *. subst y.
    destruct (rr_slot _ _ _ H _ _ Hx) as [<- _], (rr_slot _ _ _ H _ _ Hy) as [<- _]. done.
  - intros x. rewrite list_elem_of_In, List.filter_In, <- list_elem_of_In, list_elem_of_fmap. split.
    + intros [[i Hi]%list_elem_of_lookup Ho]. exists (s_seq x, x). split; [done|].
      apply elem_of_map_to_list. by destruct (so_held _ _ _ _ _ Hst _ _ Hi Ho).
    + intros ([s y] & -> & Hy%elem_of_map_to_list). split.
      * eapply list_elem_of_lookup_2, so_found; eauto.
      * by eapply rep_live in Hy as [_ ?].
Qed.

Lemma ring_rep_advance r e e' m :
  ring_rep r e m -> e <= e' <= SEQ_LIMIT -> (forall s, is_Some (m !! s) -> e' <= s) -> ring_rep r e' m.
Proof.
  intros H He Hlow. pose proof (rr_origin _ _ _ H). destruct H as [? ? ? ? ? Hst].
  split; [lia|done..|]. destruct (slots r); [|done]. destruct Hst as [? ? ? Hw ? ?].
  split; [done..| |done|done]. intros s Hs. specialize (Hw s Hs). specialize (Hlow s Hs). lia.
Qed.

Lemma ring_rep_init cap e :
  mqvpn_reorder_cap_is_valid cap = true -> 0 <= cap < 2 ^ 32 -> 0 <= e <= SEQ_LIMIT ->
  ring_rep (ring_init cap) e ∅.
Proof.
  intros Hc Hr He. apply cap_is_valid_pow2 in Hc as (k & Hk & ->); [|done].
  split; [done| |intros s x; by rewrite lookup_empty|done|done|done]. exists k. split; [lia|done].
Qed.

(** The ring implements its interface. *)
#[export] Instance ring_spec : RingSpec.
Proof.
  refine {| rep := ring_rep |}; intros.
  - by apply ring_rep_init.
  - destruct H. split; [done|done| |done|done|done]. intros s x. by rewrite lookup_empty.
  - by eapply rr_origin.
  - by eapply ring_rep_cap.
  - by eapply ring_rep_window.
  - by eapply rr_slot.
  - by apply (rr_count _ e).
  - by eapply ring_rep_count_cap.
  - by apply (rr_bytes _ e).
  - by eapply ring_rep_slots.
  - pose proof (rr_store _ _ _ H) as Hst. unfold ring_contains. destruct (slots r) as [l|] eqn:Hl.
    + by destruct (ring_rep_at r e m l s H Hl).
    + destruct Hst as [_ ->]. by rewrite lookup_empty.
  - by eapply ring_rep_advance.
  - by apply ring_rep_lowest.
  - by apply ring_rep_remove.
  - by apply ring_rep_insert.
Qed.
