(* ===== verification/ReorderRx.v ===== *)
(** * The receive-side reorder engine ([src/reorder_rx.c], sections 11-17)

    The operations of the engine as functions on its state.  A flow function
    of the source takes the pointers [rx] and [f] and mutates both structures;
    here it takes both records and returns both.  The [deliver] callback is
    the only output: the packets handed to it are appended to [deliver_log].
    What [malloc] and [calloc] answer during one call is the argument
    [allocs]. *)

From S2P Require Import Prelude Wire Ring.

(** ** Data *)

Definition MQVPN_REORDER_LAT_BUCKETS : Z := 12.

Record mqvpn_reorder_stats_t := Stats {
  delivered_count : Z;
  too_late_drop_count : Z;
  too_far_ahead_drop_count : Z;
  duplicate_drop_count : Z;
  per_flow_limit_drop_count : Z;
  pool_drop_count : Z;
  reset_discard_count : Z;
  gap_count : Z;
  gap_filled_count : Z;
  gap_timeout_count : Z;
  gap_overflow_count : Z;
  gap_demote_count : Z;
  gap_reset_count : Z;
  ack_demote_count : Z;
  residence_bucket : list Z;
  residence_max_us : Z
}.

#[export] Instance eta_stats : Settable mqvpn_reorder_stats_t := fun r =>
  Stats (delivered_count r) (too_late_drop_count r) (too_far_ahead_drop_count r)
    (duplicate_drop_count r) (per_flow_limit_drop_count r) (pool_drop_count r)
    (reset_discard_count r) (gap_count r) (gap_filled_count r) (gap_timeout_count r)
    (gap_overflow_count r) (gap_demote_count r) (gap_reset_count r) (ack_demote_count r)
    (residence_bucket r) (residence_max_us r).

Definition stats_zero : mqvpn_reorder_stats_t :=
  Stats 0 0 0 0 0 0 0 0 0 0 0 0 0 0 (replicate 12 0) 0.

Record mqvpn_reorder_flow_t := Flow {
  f_key : mqvpn_flow_key_t;
  expected : Z;
  initialized : bool;
  buffer : ring;
  gap_timer_active : bool;
  gap_deadline_us : Z;
  gap_armed_us : Z;
  wait_ms : Z;
  rx_next : Z;
  reord : Z;
  last_seen_us : Z;
  last_progress_us : Z;
  pass_through : bool;
  classify_seen : Z;
  classify_large : Z;
  fstats : mqvpn_reorder_stats_t
}.

#[export] Instance eta_flow : Settable mqvpn_reorder_flow_t := fun r =>
  Flow (f_key r) (expected r) (initialized r) (buffer r) (gap_timer_active r)
    (gap_deadline_us r) (gap_armed_us r) (wait_ms r) (rx_next r) (reord r)
    (last_seen_us r) (last_progress_us r) (pass_through r) (classify_seen r)
    (classify_large r) (fstats r).

Inductive reorder_process_result :=
  | REORDER_DELIVERED | REORDER_BUFFERED | REORDER_DROPPED_LATE
  | REORDER_DROPPED_FAR_AHEAD | REORDER_DROPPED_LIMIT.

Inductive classify_result := CLASSIFY_UNCHANGED | CLASSIFY_DEMOTED.

(** [buckets] is the array of hash chains, each in link order.
    [deliver_log] is the sequence of packets handed to the callback so far. *)
Record mqvpn_reorder_rx_t := Rx {
  cfg : mqvpn_reorder_config_t;
  hash_seed : Z;
  buckets : list (list mqvpn_reorder_flow_t);
  n_buckets : Z;
  n_flows : Z;
  next_gap_us : Z;
  next_idle_us : Z;
  pool_bytes_used : Z;
  evicted_stats : mqvpn_reorder_stats_t;
  deliver_log : list (list Z)
}.

#[export] Instance eta_rx : Settable mqvpn_reorder_rx_t := fun r =>
  Rx (cfg r) (hash_seed r) (buckets r) (n_buckets r) (n_flows r) (next_gap_us r) (next_idle_us r)
    (pool_bytes_used r) (evicted_stats r) (deliver_log r).

(** The answers of the allocator during one call: whether a flow, a packet
    copy and a slot array can be had. *)
Record allocs := Allocs { al_flow : bool; al_copy : bool; al_slots : bool }.

(** What a flow function returns: both structures. *)
Abbreviation flow_state := (mqvpn_reorder_rx_t * mqvpn_reorder_flow_t)%type.

(** [f->stats.c++]. *)
Definition stat_inc (c : mqvpn_reorder_stats_t -> Z) {S : Setter c} (f : mqvpn_reorder_flow_t)
    : mqvpn_reorder_flow_t :=
  f <| fstats ::= update c (fun n => u64 (n + 1)) |>.

(** [rx->deliver(pkt, len, ctx)]. *)
Definition rx_deliver (rx : mqvpn_reorder_rx_t) (pkt : list Z) (len : Z) : mqvpn_reorder_rx_t :=
  rx <| deliver_log ::= fun l => l ++ [take (Z.to_nat len) pkt] |>.

(** ** Statistics *)

Definition mqvpn_reorder_stats_accumulate (dst src : mqvpn_reorder_stats_t) : mqvpn_reorder_stats_t :=
  Stats (u64 (delivered_count dst + delivered_count src))
    (u64 (too_late_drop_count dst + too_late_drop_count src))
    (u64 (too_far_ahead_drop_count dst + too_far_ahead_drop_count src))
    (u64 (duplicate_drop_count dst + duplicate_drop_count src))
    (u64 (per_flow_limit_drop_count dst + per_flow_limit_drop_count src))
    (u64 (pool_drop_count dst + pool_drop_count src))
    (u64 (reset_discard_count dst + reset_discard_count src))
    (u64 (gap_count dst + gap_count src))
    (u64 (gap_filled_count dst + gap_filled_count src))
    (u64 (gap_timeout_count dst + gap_timeout_count src))
    (u64 (gap_overflow_count dst + gap_overflow_count src))
    (u64 (gap_demote_count dst + gap_demote_count src))
    (u64 (gap_reset_count dst + gap_reset_count src))
    (u64 (ack_demote_count dst + ack_demote_count src))
    (zip_with (fun a b => u64 (a + b)) (residence_bucket dst) (residence_bucket src))
    (if residence_max_us dst <? residence_max_us src then residence_max_us src
     else residence_max_us dst).

Definition reorder_lat_bound_us : list Z :=
  [0; 1000; 2000; 4000; 8000; 16000; 32000; 64000; 128000; 256000; 512000; UINT64_MAX].

(** The bucket search with [n] increments left. *)
Fixpoint lat_bucket (n : nat) (i : nat) (residence_us : Z) : nat :=
  match n with
  | O => i
  | S n =>
      if default 0 (reorder_lat_bound_us !! i) <? residence_us then lat_bucket n (S i) residence_us
      else i
  end.

Definition record_residence (f : mqvpn_reorder_flow_t) (now_us enq_us : Z) : mqvpn_reorder_flow_t :=
  let residence_us := if enq_us <? now_us then u64 (now_us - enq_us) else 0 in
  let i := lat_bucket (Z.to_nat (MQVPN_REORDER_LAT_BUCKETS - 1)) 0 residence_us in
  let f := f <| fstats ::= update residence_bucket (alter (fun n => u64 (n + 1)) i) |> in
  if residence_max_us (fstats f) <? residence_us
  then f <| fstats ::= update residence_max_us (fun _ => residence_us) |> else f.

(** ** Delivery and the packet pool *)

Definition deliver_pkt (rx : mqvpn_reorder_rx_t) (pkt : list Z) (len : Z)
    (f : mqvpn_reorder_flow_t) (now_us enq_us : Z) : flow_state :=
  (rx_deliver rx pkt len, record_residence (stat_inc delivered_count f) now_us enq_us).

Definition pool_release (rx : mqvpn_reorder_rx_t) (len : Z) : mqvpn_reorder_rx_t :=
  if len <=? pool_bytes_used rx then rx <| pool_bytes_used ::= fun n => u64 (n - len) |>
  else rx <| pool_bytes_used := 0 |>.

(** Every occupied slot of the array, in index order. *)
Definition flow_destroy (rx : mqvpn_reorder_rx_t) (f : mqvpn_reorder_flow_t) : mqvpn_reorder_rx_t :=
  let rx := rx <| evicted_stats ::= fun st => mqvpn_reorder_stats_accumulate st (fstats f) |> in
  match slots (buffer f) with
  | None => rx
  | Some l => fold_left (fun rx s => if occupied s then pool_release rx (s_len s) else rx) l rx
  end.

(** ** Flow table *)

Definition MQVPN_RX_BUCKETS : Z := 1024.

Definition chain (rx : mqvpn_reorder_rx_t) (i : Z) : list mqvpn_reorder_flow_t :=
  default [] (buckets rx !! Z.to_nat i).

Definition set_chain (rx : mqvpn_reorder_rx_t) (i : Z) (c : list mqvpn_reorder_flow_t)
    : mqvpn_reorder_rx_t :=
  rx <| buckets ::= <[Z.to_nat i := c]> |>.

Definition flow_idx (rx : mqvpn_reorder_rx_t) (key : mqvpn_flow_key_t) : Z :=
  u32 (Z.land (mqvpn_flow_key_hash key (hash_seed rx)) (u32 (n_buckets rx - 1))).

(** The bucket, and the position of the flow in its chain with the flow. *)
Definition flow_lookup (rx : mqvpn_reorder_rx_t) (key : mqvpn_flow_key_t)
    : Z * option (nat * mqvpn_reorder_flow_t) :=
  let idx := flow_idx rx key in
  (idx, list_find (fun f => mqvpn_flow_key_eq (f_key f) key = true) (chain rx idx)).

(** The scan of one chain for the least recently active flow: [best] is the
    time and the place (bucket, position) of the last candidate. *)
Fixpoint lru_scan_chain (i j : nat) (c : list mqvpn_reorder_flow_t) (best : Z * option (nat * nat))
    : Z * option (nat * nat) :=
  match c with
  | [] => best
  | f :: c =>
      lru_scan_chain i (S j) c
        (if last_progress_us f <=? best.1 then (last_progress_us f, Some (i, j)) else best)
  end.

Fixpoint lru_scan (i : nat) (bs : list (list mqvpn_reorder_flow_t)) (best : Z * option (nat * nat))
    : Z * option (nat * nat) :=
  match bs with
  | [] => best
  | c :: bs => lru_scan (S i) bs (lru_scan_chain i 0 c best)
  end.

Definition evict_lru_flow (rx : mqvpn_reorder_rx_t) : mqvpn_reorder_rx_t :=
  match (lru_scan 0 (buckets rx) (UINT64_MAX, None)).2 with
  | None => rx
  | Some (i, j) =>
      let c := chain rx (Z.of_nat i) in
      match c !! j with
      | None => rx
      | Some victim =>
          let rx := set_chain rx (Z.of_nat i) (delete j c) in
          let rx := flow_destroy rx victim in
          rx <| n_flows ::= fun n => u32 (n - 1) |>
      end
  end.

(** The fresh flow of a key: [calloc]ed, then key, ring and wait filled in. *)
Definition new_flow (rx : mqvpn_reorder_rx_t) (key : mqvpn_flow_key_t) : mqvpn_reorder_flow_t :=
  let r := mqvpn_reorder_match_rule (cfg rx) key in
  let cap := match r with Some r => resolved_cap r | None => cap_packets_per_flow (cfg rx) end in
  let wait := match r with Some r => resolved_wait_ms r | None => max_wait_ms (cfg rx) end in
  Flow key 0 false (ring_init cap) false 0 0 wait 0 0 0 0 false 0 0 stats_zero.

(** The place (bucket, position) of the flow of [key], created when absent;
    [None] when the allocation fails. *)
Definition flow_get_or_create (al : allocs) (rx : mqvpn_reorder_rx_t) (key : mqvpn_flow_key_t)
    : mqvpn_reorder_rx_t * option (Z * nat) :=
  match flow_lookup rx key with
  | (idx, Some (j, _)) => (rx, Some (idx, j))
  | (idx, None) =>
      let rx := if (0 <? max_flows (cfg rx)) && (max_flows (cfg rx) <=? n_flows rx)
                then evict_lru_flow rx else rx in
      if al_flow al then
        let rx := set_chain rx idx (new_flow rx key :: chain rx idx) in
        let rx := rx <| n_flows ::= fun n => u32 (n + 1) |> in
        (rx <| next_idle_us := 0 |>, Some (idx, 0%nat))
      else (rx, None)
  end.

(** ** Gap timer and wait periods *)

Definition arm_gap_timer (rx : mqvpn_reorder_rx_t) (f : mqvpn_reorder_flow_t) (now_us wait : Z)
    : flow_state :=
  let f := f <| gap_timer_active := true |> <| gap_armed_us := now_us |>
             <| gap_deadline_us := u64 (now_us + u64 (wait * 1000)) |> in
  (if gap_deadline_us f <? next_gap_us rx then rx <| next_gap_us := gap_deadline_us f |> else rx, f).

Definition stop_gap_timer (f : mqvpn_reorder_flow_t) : mqvpn_reorder_flow_t :=
  f <| gap_timer_active := false |>.

Definition period_end_if_done (end_counter : mqvpn_reorder_stats_t -> Z) {S : Setter end_counter}
    (f : mqvpn_reorder_flow_t) : mqvpn_reorder_flow_t :=
  if gap_timer_active f && (ring_empty (buffer f) || (reord f <=? expected f))
  then stop_gap_timer (stat_inc end_counter f) else f.

Definition period_start_if_needed (rx : mqvpn_reorder_rx_t) (f : mqvpn_reorder_flow_t) (now_us : Z)
    : flow_state :=
  if negb (gap_timer_active f) && negb (ring_empty (buffer f)) then
    let f := f <| reord := rx_next f |> in
    let '(rx, f) := arm_gap_timer rx f now_us (wait_ms f) in
    (rx, stat_inc gap_count f)
  else (rx, f).

(** ** Draining, timeout and flush *)

(** One iteration of the drain per unit of [fuel]. *)
Fixpoint drain_loop (fuel : nat) (rx : mqvpn_reorder_rx_t) (f : mqvpn_reorder_flow_t) (now_us : Z)
    : flow_state :=
  match fuel with
  | O => (rx, f)
  | S fuel =>
      match ring_remove (buffer f) (expected f) with
      | None => (rx, f)
      | Some ((pkt, len, enq), b) =>
          let '(rx, f) := deliver_pkt rx pkt len (f <| buffer := b |>) now_us enq in
          let rx := pool_release rx len in
          drain_loop fuel rx (f <| expected := u64 (expected f + 1) |>) now_us
      end
  end.

(** Each iteration removes a packet, so the number of buffered packets bounds
    the loop. *)
Definition drain_contiguous (rx : mqvpn_reorder_rx_t) (f : mqvpn_reorder_flow_t) (now_us : Z)
    : flow_state :=
  drain_loop (S (Z.to_nat (rcount (buffer f)))) rx f now_us.

Definition skip_to_lowest_and_drain (rx : mqvpn_reorder_rx_t) (f : mqvpn_reorder_flow_t) (now_us : Z)
    : flow_state :=
  let lowest := ring_lowest_seq (buffer f) (expected f) in
  let f := if expected f <? lowest then f <| expected := lowest |> else f in
  let '(rx, f) := drain_contiguous rx f now_us in
  (rx, f <| last_progress_us := now_us |>).

Fixpoint timeout_loop (fuel : nat) (rx : mqvpn_reorder_rx_t) (f : mqvpn_reorder_flow_t) (now_us : Z)
    : flow_state :=
  match fuel with
  | O => (rx, f)
  | S fuel =>
      if negb (ring_empty (buffer f)) && (expected f <? reord f) then
        let f := f <| expected := ring_lowest_seq (buffer f) (expected f) |> in
        let '(rx, f) := drain_contiguous rx f now_us in
        timeout_loop fuel rx f now_us
      else (rx, f)
  end.

Definition on_gap_timeout (rx : mqvpn_reorder_rx_t) (f : mqvpn_reorder_flow_t) (now_us : Z)
    : flow_state :=
  if ring_empty (buffer f) then (rx, stop_gap_timer f)
  else
    let f := stat_inc gap_timeout_count f in
    let '(rx, f) := timeout_loop (S (Z.to_nat (rcount (buffer f)))) rx f now_us in
    let f := f <| last_progress_us := now_us |> in
    period_start_if_needed rx (stop_gap_timer f) now_us.

Definition overflow_flush (rx : mqvpn_reorder_rx_t) (f : mqvpn_reorder_flow_t) (now_us : Z)
    : flow_state :=
  let '(rx, f) := skip_to_lowest_and_drain rx f now_us in
  period_start_if_needed rx (period_end_if_done gap_overflow_count f) now_us.

(** ** Reset *)

(** One iteration of the discard loop. *)
Definition discard_slot (st : flow_state) (s : slot) : flow_state :=
  let '(rx, f) := st in
  if occupied s then (pool_release rx (s_len s), stat_inc reset_discard_count f) else (rx, f).

Definition discard_buffer_for_reset (rx : mqvpn_reorder_rx_t) (f : mqvpn_reorder_flow_t) : flow_state :=
  let f := if gap_timer_active f then stat_inc gap_reset_count f else f in
  let '(rx, f) :=
    match slots (buffer f) with
    | None => (rx, f)
    | Some l => fold_left discard_slot l (rx, f)
    end in
  let f := stop_gap_timer f in
  let f := f <| rx_next := 0 |> <| reord := 0 |> in
  (rx, f <| buffer ::= ring_free |>).

Definition reset_reorder_flow (rx : mqvpn_reorder_rx_t) (f : mqvpn_reorder_flow_t) : flow_state :=
  let '(rx, f) := discard_buffer_for_reset rx f in
  (rx, f <| pass_through := false |> <| classify_seen := 0 |> <| classify_large := 0 |>).

(** ** Demotion *)

Definition inner_udp_payload_len (pkt : list Z) (len : Z) : Z :=
  if len <? 1 then 0
  else
    let b0 := default 0 (rd pkt 0) in
    let version := Z.shiftr b0 4 in
    let hdr :=
      if version =? 4 then if len <? 20 then None else Some (Z.land b0 15 * 4)
      else if version =? 6 then Some 40 else None in
    match hdr with
    | None => 0
    | Some hdr => let l4 := hdr + 8 in if len <=? l4 then 0 else len - l4
    end.

Definition classify_update (rx : mqvpn_reorder_rx_t) (f : mqvpn_reorder_flow_t) (pkt : list Z) (len : Z)
    : mqvpn_reorder_flow_t * classify_result :=
  if eval_force_no_demotion (cfg rx) then (f, CLASSIFY_UNCHANGED)
  else if classify_window (cfg rx) <=? classify_seen f then (f, CLASSIFY_UNCHANGED)
  else
    let f := f <| classify_seen ::= fun n => u16 (n + 1) |> in
    let f := if small_packet_threshold_bytes (cfg rx) <=? inner_udp_payload_len pkt len
             then f <| classify_large ::= fun n => u16 (n + 1) |> else f in
    if (classify_seen f =? classify_window (cfg rx)) &&
       (classify_large f <=? ack_demote_max_large_packets (cfg rx))
    then (f, CLASSIFY_DEMOTED) else (f, CLASSIFY_UNCHANGED).

Fixpoint demote_loop (fuel : nat) (rx : mqvpn_reorder_rx_t) (f : mqvpn_reorder_flow_t) (now_us : Z)
    : flow_state :=
  match fuel with
  | O => (rx, f)
  | S fuel =>
      if ring_empty (buffer f) then (rx, f)
      else
        let f := f <| expected := ring_lowest_seq (buffer f) (expected f) |> in
        let '(rx, f) := drain_loop (S (Z.to_nat (rcount (buffer f)))) rx f now_us in
        demote_loop fuel rx f now_us
  end.

Definition flush_buffer_for_demote (rx : mqvpn_reorder_rx_t) (f : mqvpn_reorder_flow_t) (now_us : Z)
    : flow_state :=
  let f := if gap_timer_active f then stat_inc gap_demote_count f else f in
  let '(rx, f) := demote_loop (S (Z.to_nat (rcount (buffer f)))) rx f now_us in
  let f := stop_gap_timer (f <| last_progress_us := now_us |>) in
  (rx, f <| buffer ::= ring_free |>).

(** ** Admission *)

Definition would_exceed_per_flow_limits (rx : mqvpn_reorder_rx_t) (f : mqvpn_reorder_flow_t) (len : Z)
    : bool :=
  if rcap (buffer f) <=? rcount (buffer f) then true
  else max_buffer_bytes_per_flow (cfg rx) <? u64 (rbytes (buffer f) + len).

Definition pool_would_exhaust (rx : mqvpn_reorder_rx_t) (len : Z) : bool :=
  global_max_buffer_bytes (cfg rx) <? u64 (pool_bytes_used rx + len).

(** A flow function that also returns a [reorder_process_result]. *)
Abbreviation process_state := (mqvpn_reorder_rx_t * mqvpn_reorder_flow_t * reorder_process_result)%type.

Definition buffer_insert_committed (al : allocs) (rx : mqvpn_reorder_rx_t) (f : mqvpn_reorder_flow_t)
    (seq : Z) (pkt : list Z) (len now_us : Z) : process_state :=
  if negb (al_copy al) then (rx, stat_inc pool_drop_count f, REORDER_DROPPED_LIMIT)
  else
    let copy := take (Z.to_nat len) pkt in
    match ring_insert (al_slots al) (buffer f) seq copy len (expected f) now_us with
    | None => (rx, stat_inc pool_drop_count f, REORDER_DROPPED_LIMIT)
    | Some b =>
        let f := f <| buffer := b |> in
        let rx := rx <| pool_bytes_used ::= fun n => u64 (n + len) |> in
        let f := f <| last_progress_us := now_us |> in
        let f := if rx_next f <? u64 (seq + 1) then f <| rx_next := u64 (seq + 1) |> else f in
        let '(rx, f) := period_start_if_needed rx f now_us in
        (rx, f, REORDER_BUFFERED)
    end.

(** The delivery of the packet whose number is the expected one. *)
Definition deliver_in_order (rx : mqvpn_reorder_rx_t) (f : mqvpn_reorder_flow_t)
    (pkt : list Z) (len now_us : Z) : process_state :=
  let '(rx, f) := deliver_pkt rx pkt len f now_us now_us in
  let f := f <| expected := u64 (expected f + 1) |> <| last_progress_us := now_us |> in
  let '(rx, f) := drain_contiguous rx f now_us in
  let '(rx, f) := period_start_if_needed rx (period_end_if_done gap_filled_count f) now_us in
  (rx, f, REORDER_DELIVERED).

Definition reclassify_after_flush (rx : mqvpn_reorder_rx_t) (f : mqvpn_reorder_flow_t)
    (seq : Z) (pkt : list Z) (len now_us : Z) : process_state :=
  if seq <? expected f then (rx, stat_inc too_late_drop_count f, REORDER_DROPPED_LATE)
  else if seq =? expected f then deliver_in_order rx f pkt len now_us
  else if ring_far_ahead (buffer f) seq (expected f) then
    (rx, stat_inc too_far_ahead_drop_count f, REORDER_DROPPED_FAR_AHEAD)
  else if ring_contains (buffer f) seq then
    (rx, stat_inc duplicate_drop_count f, REORDER_DROPPED_LIMIT)
  else (rx, f, REORDER_BUFFERED).

(** The second half of [buffer_admit]: the global pool, then the insertion. *)
Definition pool_admit (al : allocs) (rx : mqvpn_reorder_rx_t) (f : mqvpn_reorder_flow_t)
    (seq : Z) (pkt : list Z) (len now_us : Z) : process_state :=
  if pool_would_exhaust rx len then
    if ring_empty (buffer f) then (rx, stat_inc pool_drop_count f, REORDER_DROPPED_LIMIT)
    else
      let '(rx, f) := overflow_flush rx f now_us in
      match reclassify_after_flush rx f seq pkt len now_us with
      | (rx, f, REORDER_BUFFERED) =>
          if pool_would_exhaust rx len then (rx, stat_inc pool_drop_count f, REORDER_DROPPED_LIMIT)
          else buffer_insert_committed al rx f seq pkt len now_us
      | r => r
      end
  else buffer_insert_committed al rx f seq pkt len now_us.

Definition buffer_admit (al : allocs) (rx : mqvpn_reorder_rx_t) (f : mqvpn_reorder_flow_t)
    (seq : Z) (pkt : list Z) (len now_us : Z) : process_state :=
  if ring_contains (buffer f) seq then
    (rx, stat_inc duplicate_drop_count f, REORDER_DROPPED_LIMIT)
  else if would_exceed_per_flow_limits rx f len then
    if ring_empty (buffer f) then (rx, stat_inc per_flow_limit_drop_count f, REORDER_DROPPED_LIMIT)
    else
      let '(rx, f) := overflow_flush rx f now_us in
      match reclassify_after_flush rx f seq pkt len now_us with
      | (rx, f, REORDER_BUFFERED) => pool_admit al rx f seq pkt len now_us
      | r => r
      end
  else pool_admit al rx f seq pkt len now_us.

(** The first packet of an epoch: deliver it and expect its successor. *)
Definition start_epoch (rx : mqvpn_reorder_rx_t) (f : mqvpn_reorder_flow_t) (seq : Z)
    (pkt : list Z) (len now_us : Z) : flow_state :=
  let f := f <| initialized := true |> <| expected := seq |> in
  let '(rx, f) := deliver_pkt rx pkt len f now_us now_us in
  (rx, f <| expected := u64 (expected f + 1) |> <| last_progress_us := now_us |>).

Definition process_reorder_packet (al : allocs) (rx : mqvpn_reorder_rx_t) (f : mqvpn_reorder_flow_t)
    (seq : Z) (pkt : list Z) (len now_us : Z) : process_state :=
  if negb (initialized f) then (start_epoch rx f seq pkt len now_us, REORDER_DELIVERED)
  else if seq =? expected f then deliver_in_order rx f pkt len now_us
  else if seq <? expected f then (rx, stat_inc too_late_drop_count f, REORDER_DROPPED_LATE)
  else if ring_far_ahead (buffer f) seq (expected f) then
    (rx, stat_inc too_far_ahead_drop_count f, REORDER_DROPPED_FAR_AHEAD)
  else buffer_admit al rx f seq pkt len now_us.

(** Whether a reset-marked packet is honoured: the flow is new, or it has made
    no progress for longer than the grace period. *)
Definition reset_honored (rx : mqvpn_reorder_rx_t) (f : mqvpn_reorder_flow_t) (flags now_us : Z) : bool :=
  negb (Z.land flags MQVPN_REORDER_FLAG_RESET =? 0) &&
  (negb (initialized f) ||
   ((last_progress_us f <? now_us) &&
    (u64 (reset_idle_grace_ms (cfg rx) * 1000) <? u64 (now_us - last_progress_us f)))).

Definition feeds_classifier (r : reorder_process_result) : bool :=
  match r with
  | REORDER_DELIVERED | REORDER_BUFFERED | REORDER_DROPPED_LATE => true
  | _ => false
  end.

Definition on_reordered (al : allocs) (rx : mqvpn_reorder_rx_t) (f : mqvpn_reorder_flow_t)
    (seq flags : Z) (pkt : list Z) (len now_us : Z) : flow_state :=
  let f := f <| last_seen_us := now_us |> in
  if reset_honored rx f flags now_us then
    let '(rx, f) := reset_reorder_flow rx f in
    start_epoch rx f seq pkt len now_us
  else if pass_through f then
    let '(rx, f) := deliver_pkt rx pkt len f now_us now_us in
    (rx, f <| last_progress_us := now_us |>)
  else
    let '(rx, f, res) := process_reorder_packet al rx f seq pkt len now_us in
    if feeds_classifier res then
      match classify_update rx f pkt len with
      | (f, CLASSIFY_DEMOTED) =>
          let '(rx, f) := flush_buffer_for_demote rx f now_us in
          (rx, stat_inc ack_demote_count (f <| pass_through := true |>))
      | (f, CLASSIFY_UNCHANGED) => (rx, f)
      end
    else (rx, f).

(** ** Public interface *)

(** [ok_rx] and [ok_buckets] are the answers of the two [calloc]s;
    [has_deliver] is whether the callback is non-NULL. *)
Definition mqvpn_reorder_rx_new (ok_rx ok_buckets : bool) (c : option mqvpn_reorder_config_t)
    (seed : Z) (has_deliver : bool) : option mqvpn_reorder_rx_t :=
  match c with
  | None => None
  | Some c =>
      if negb has_deliver || negb (mqvpn_reorder_config_validate c) then None
      else if negb ok_rx then None
      else if negb ok_buckets then None
      else Some (Rx (mqvpn_reorder_config_finalize c) seed
                   (replicate (Z.to_nat MQVPN_RX_BUCKETS) []) MQVPN_RX_BUCKETS 0 0 0 0 stats_zero [])
  end.

(** The engine just before its memory is released. *)
Definition mqvpn_reorder_rx_free (rx : mqvpn_reorder_rx_t) : mqvpn_reorder_rx_t :=
  fold_left (fun rx c => fold_left flow_destroy c rx) (buckets rx) rx.

(** The effective wait of a key: the matching rule's or the global one. *)
Definition key_wait (rx : mqvpn_reorder_rx_t) (key : mqvpn_flow_key_t) : Z :=
  match mqvpn_reorder_match_rule (cfg rx) key with
  | Some r => resolved_wait_ms r
  | None => max_wait_ms (cfg rx)
  end.

(** The flow at a place of the table, and its update. *)
Definition flow_at (rx : mqvpn_reorder_rx_t) (p : Z * nat) : option mqvpn_reorder_flow_t :=
  chain rx p.1 !! p.2.

Definition flow_put (rx : mqvpn_reorder_rx_t) (p : Z * nat) (f : mqvpn_reorder_flow_t)
    : mqvpn_reorder_rx_t :=
  set_chain rx p.1 (<[p.2 := f]> (chain rx p.1)).

(** [None] is an out-of-bounds read in the inner-packet parser. *)
Definition mqvpn_reorder_rx_on_packet (al : allocs) (rx : mqvpn_reorder_rx_t) (payload : list Z)
    (now_us : Z) : option mqvpn_reorder_rx_t :=
  match mqvpn_reorder_wire_decode payload with
  | None => Some rx
  | Some (type, flags, seq) =>
      if negb (type =? MQVPN_REORDER_TYPE_V1) then Some rx
      else
        let inner := drop (Z.to_nat MQVPN_REORDER_HDR_LEN) payload in
        let inner_len := blen payload - MQVPN_REORDER_HDR_LEN in
        if (inner_len =? 0) || (UINT16_MAX <? inner_len) then Some rx
        else if (max_wait_ms (cfg rx) =? 0) && bool_decide (rules (cfg rx) = []) then
          Some (rx_deliver rx inner inner_len)
        else
          parsed ← mqvpn_reorder_parse_5tuple inner;
          match parsed with
          | None => Some rx
          | Some key =>
              if key_wait rx key =? 0 then Some (rx_deliver rx inner inner_len)
              else
                match flow_get_or_create al rx key with
                | (rx, None) => Some rx
                | (rx, Some p) =>
                    match flow_at rx p with
                    | None => Some rx
                    | Some f =>
                        let '(rx, f) := on_reordered al rx f seq flags inner (u16 inner_len) now_us in
                        Some (flow_put rx p f)
                    end
                end
          end
  end.

(** The body of the gap sweep. *)
Definition gap_visit (rx : mqvpn_reorder_rx_t) (f : mqvpn_reorder_flow_t) (now_us : Z) : flow_state :=
  if negb (gap_timer_active f) then (rx, f)
  else if gap_deadline_us f <=? now_us then on_gap_timeout rx f now_us
  else if gap_deadline_us f <? next_gap_us rx then (rx <| next_gap_us := gap_deadline_us f |>, f)
  else (rx, f).

(** The gap sweep of one chain; the chain is updated in place. *)
Fixpoint gap_sweep_chain (rx : mqvpn_reorder_rx_t) (c : list mqvpn_reorder_flow_t) (now_us : Z)
    : mqvpn_reorder_rx_t * list mqvpn_reorder_flow_t :=
  match c with
  | [] => (rx, [])
  | f :: c =>
      let '(rx, f) := gap_visit rx f now_us in
      let '(rx, c) := gap_sweep_chain rx c now_us in
      (rx, f :: c)
  end.

Fixpoint gap_sweep (rx : mqvpn_reorder_rx_t) (bs : list (list mqvpn_reorder_flow_t)) (now_us : Z)
    : mqvpn_reorder_rx_t * list (list mqvpn_reorder_flow_t) :=
  match bs with
  | [] => (rx, [])
  | c :: bs =>
      let '(rx, c) := gap_sweep_chain rx c now_us in
      let '(rx, bs) := gap_sweep rx bs now_us in
      (rx, c :: bs)
  end.

Definition is_idle (f : mqvpn_reorder_flow_t) (idle_us now_us : Z) : bool :=
  (last_progress_us f <? now_us) && (idle_us <? u64 (now_us - last_progress_us f)).

Fixpoint idle_sweep_chain (rx : mqvpn_reorder_rx_t) (c : list mqvpn_reorder_flow_t)
    (idle_us now_us : Z) : mqvpn_reorder_rx_t * list mqvpn_reorder_flow_t :=
  match c with
  | [] => (rx, [])
  | f :: c =>
      if is_idle f idle_us now_us then
        let rx := flow_destroy rx f in
        let rx := rx <| n_flows ::= fun n => u32 (n - 1) |> in
        idle_sweep_chain rx c idle_us now_us
      else
        let idle_at := u64 (last_progress_us f + idle_us + 1) in
        let rx := if idle_at <? next_idle_us rx then rx <| next_idle_us := idle_at |> else rx in
        let '(rx, c) := idle_sweep_chain rx c idle_us now_us in
        (rx, f :: c)
  end.

Fixpoint idle_sweep (rx : mqvpn_reorder_rx_t) (bs : list (list mqvpn_reorder_flow_t))
    (idle_us now_us : Z) : mqvpn_reorder_rx_t * list (list mqvpn_reorder_flow_t) :=
  match bs with
  | [] => (rx, [])
  | c :: bs =>
      let '(rx, c) := idle_sweep_chain rx c idle_us now_us in
      let '(rx, bs) := idle_sweep rx bs idle_us now_us in
      (rx, c :: bs)
  end.

Definition gap_phase (rx : mqvpn_reorder_rx_t) (now_us : Z) : mqvpn_reorder_rx_t :=
  if next_gap_us rx <=? now_us then
    let rx := rx <| next_gap_us := UINT64_MAX |> in
    let '(rx, bs) := gap_sweep rx (buckets rx) now_us in
    rx <| buckets := bs |>
  else rx.

Definition idle_phase (rx : mqvpn_reorder_rx_t) (now_us : Z) : mqvpn_reorder_rx_t :=
  let idle_us := u64 (ingress_idle_timeout_sec (cfg rx) * 1000000) in
  if now_us <? next_idle_us rx then rx
  else
    let rx := rx <| next_idle_us := UINT64_MAX |> in
    let '(rx, bs) := idle_sweep rx (buckets rx) idle_us now_us in
    rx <| buckets := bs |>.

Definition mqvpn_reorder_rx_tick (rx : mqvpn_reorder_rx_t) (now_us : Z) : mqvpn_reorder_rx_t :=
  if n_flows rx =? 0 then rx else idle_phase (gap_phase rx now_us) now_us.

Definition mqvpn_reorder_rx_get_stats (rx : mqvpn_reorder_rx_t) : mqvpn_reorder_stats_t :=
  fold_left (fun out c => fold_left (fun out f => mqvpn_reorder_stats_accumulate out (fstats f)) c out)
    (buckets rx) (evicted_stats rx).

Definition mqvpn_reorder_rx_set_force_no_demotion (rx : mqvpn_reorder_rx_t) (force : bool)
    : mqvpn_reorder_rx_t :=
  rx <| cfg ::= fun c => c <| eval_force_no_demotion := force |> |>.
