(* ===== verification/RxFlow.v ===== *)
(** * Correctness of one reordered flow

    The flow engine of [ReorderRx] proved against the ring's interface.
    Every flush of the engine (in-order drain, gap timeout, overflow flush,
    demotion) is a [cut] of the buffered map at some number [e']: what lies
    below [e'] is delivered in ascending order, what lies above is kept. *)

From stdpp Require Import list_numbers.
From S2P Require Import Prelude Wire Ring ReorderRx.

(** ** Cutting a map *)

(** The bytes of a buffered packet. *)
Definition payload (x : slot) : list Z := take (Z.to_nat (s_len x)) (default [] (s_pkt x)).

(** The payloads numbered from [lo] to below [hi], in ascending order. *)
Definition pkts (m : gmap Z slot) (lo hi : Z) : list (list Z) :=
  omap (fun s => payload <$> m !! s) (seqZ lo (hi - lo)).

(** The entries numbered [e] or more. *)
Definition keep (e : Z) (m : gmap Z slot) : gmap Z slot := filter (fun kv => e <= kv.1) m.

Lemma keep_lookup e m s : keep e m !! s = if decide (e <= s) then m !! s else None.
Proof.
  unfold keep. rewrite map_lookup_filter. destruct (m !! s) as [x|]; simpl; [|by case_decide].
  case_decide; [by rewrite option_guard_True|by rewrite option_guard_False].
Qed.

Lemma keep_all e m : (forall s, is_Some (m !! s) -> e <= s) -> keep e m = m.
Proof.
  intros H. apply map_eq. intros s. rewrite keep_lookup. case_decide as Hs; [done|].
  destruct (m !! s) eqn:E; [|done]. destruct Hs. apply H. eauto.
Qed.

Lemma keep_keep e e' m : e <= e' -> keep e' (keep e m) = keep e' m.
Proof.
  intros H. apply map_eq. intros s. rewrite !keep_lookup. repeat case_decide; try done. lia.
Qed.

Lemma keep_succ e m : (forall s, is_Some (m !! s) -> e <= s) -> keep (e + 1) m = delete e m.
Proof.
  intros H. apply map_eq. intros s. rewrite keep_lookup.
  destruct (decide (s = e)) as [->|]; [rewrite lookup_delete_eq; case_decide; [lia|done]|].
  rewrite lookup_delete_ne by done. case_decide; [done|].
  destruct (m !! s) eqn:E; [|done]. assert (e <= s) by (apply H; eauto). lia.
Qed.

Lemma pkts_app m a b c : a <= b <= c -> pkts m a c = pkts m a b ++ pkts (keep b m) b c.
Proof.
  intros H. unfold pkts. replace (c - a) with ((b - a) + (c - b)) by lia.
  rewrite seqZ_app by lia. rewrite omap_app. f_equal. replace (a + (b - a)) with b by lia.
  apply list_omap_ext, Forall_Forall2_diag, Forall_forall. intros s Hs%elem_of_seqZ.
  rewrite keep_lookup. case_decide; [done|lia].
Qed.

Lemma pkts_none m a b : (forall s, a <= s < b -> m !! s = None) -> pkts m a b = [].
Proof.
  intros H. unfold pkts. assert (Hs : Forall (fun s => m !! s = None) (seqZ a (b - a))).
  { apply Forall_forall. intros s Hs%elem_of_seqZ. apply H. lia. }
  induction Hs as [|s l Hs _ IH]; [done|]. simpl. by rewrite Hs.
Qed.

Lemma pkts_one m e x : m !! e = Some x -> pkts m e (e + 1) = [payload x].
Proof.
  intros H. unfold pkts. replace (e + 1 - e) with 1 by lia. unfold seqZ. simpl.
  by rewrite Z.add_0_l, H.
Qed.

Lemma seqZ_sorted lo n : StronglySorted Z.lt (seqZ lo n).
Proof.
  destruct (Z.le_gt_cases 0 n) as [Hn|Hn]; [|destruct n; [lia..|constructor]].
  revert lo. pattern n. apply natlike_ind; [constructor| |done]. intros k Hk IH lo.
  rewrite seqZ_cons, Z.pred_succ by lia. constructor; [apply IH|].
  apply Forall_forall. intros s Hs%elem_of_seqZ. lia.
Qed.

(** ** The cut relation *)

(** The counters of the wait periods. *)
Definition gap_stats (s : mqvpn_reorder_stats_t) : list Z :=
  [gap_count s; gap_filled_count s; gap_timeout_count s; gap_overflow_count s;
   gap_demote_count s; gap_reset_count s].

Section cut.
Context {RS : RingSpec}.

(** The step from [(rx, f)] to [(rx', f')] cuts the buffered map [m] at [e']
    and touches nothing else (delivery statistics apart). *)
Record cut (m : gmap Z slot) (e' : Z) (rx : mqvpn_reorder_rx_t) (f : mqvpn_reorder_flow_t)
    (rx' : mqvpn_reorder_rx_t) (f' : mqvpn_reorder_flow_t) : Prop := Cut {
  cut_le : expected f <= e';
  cut_expected : expected f' = e';
  cut_rep : rep (buffer f') e' (keep e' m);
  cut_cap : rcap (buffer f') = rcap (buffer f);
  cut_log : deliver_log rx' = deliver_log rx ++ pkts m (expected f) e';
  cut_pool : pool_bytes_used rx' = pool_bytes_used rx - (sum_len m - sum_len (keep e' m));
  cut_rx : rx' = rx <| deliver_log := deliver_log rx' |> <| pool_bytes_used := pool_bytes_used rx' |>;
  cut_f : f' = f <| buffer := buffer f' |> <| expected := expected f' |> <| fstats := fstats f' |>;
  cut_gap : gap_stats (fstats f') = gap_stats (fstats f)
}.

(** The pool covers what the flow has buffered. *)
Definition pool_ok (rx : mqvpn_reorder_rx_t) (m : gmap Z slot) : Prop :=
  sum_len m <= pool_bytes_used rx < 2 ^ 64.

Lemma rep_low r e m s : rep r e m -> is_Some (m !! s) -> e <= s.
Proof. intros H Hs. pose proof (rep_window _ _ _ _ H Hs). lia. Qed.

Lemma cut_skip m e' rx f :
  rep (buffer f) (expected f) m -> expected f <= e' <= SEQ_LIMIT ->
  (forall s, is_Some (m !! s) -> e' <= s) -> cut m e' rx f rx (f <| expected := e' |>).
Proof.
  intros Hr He Hlow. assert (Hk : keep e' m = m) by (by apply keep_all).
  split; simpl; rewrite ?Hk; try done; try lia.
  - by eapply rep_advance.
  - rewrite pkts_none, app_nil_r; [done|]. intros s Hs. destruct (m !! s) eqn:E; [|done].
    assert (e' <= s) by (apply Hlow; eauto). lia.
  - by destruct rx.
Qed.

Lemma cut_refl m rx f : rep (buffer f) (expected f) m -> cut m (expected f) rx f rx f.
Proof.
  intros Hr. pose proof (rep_origin _ _ _ Hr).
  destruct (cut_skip m (expected f) rx f) as []; [done|lia|intros s; by apply rep_low with (buffer f)|].
  split; try done. by destruct f.
Qed.

Lemma cut_trans m e1 e2 rx f rx1 f1 rx2 f2 :
  cut m e1 rx f rx1 f1 -> cut (keep e1 m) e2 rx1 f1 rx2 f2 -> cut m e2 rx f rx2 f2.
Proof.
  intros [L1 E1 R1 C1 G1 P1 X1 F1 S1] [L2 E2 R2 C2 G2 P2 X2 F2 S2].
  assert (e1 <= e2) by lia. rewrite keep_keep in R2, P2 by done.
  split; try congruence; try lia.
  - rewrite G2, G1, E1, (pkts_app m (expected f) e1 e2) by lia. by rewrite app_assoc.
  - rewrite X2, X1. by destruct rx.
  - rewrite F2, F1. by destruct f.
Qed.

Lemma record_residence_frame f now enq :
  record_residence f now enq = f <| fstats := fstats (record_residence f now enq) |> /\
  gap_stats (fstats (record_residence f now enq)) = gap_stats (fstats f).
Proof. unfold record_residence. destruct f, fstats; simpl. by case_match. Qed.

(** The release of a packet the pool covers. *)
Lemma pool_release_covered rx n : 0 <= n <= pool_bytes_used rx -> pool_bytes_used rx < 2 ^ 64 ->
  pool_release rx n = rx <| pool_bytes_used := pool_bytes_used rx - n |>.
Proof.
  intros H Hb. unfold pool_release. destruct (Z.leb_spec n (pool_bytes_used rx)); [|lia].
  simpl. by rewrite u64_small by lia.
Qed.

Lemma rep_sum_bounds r e m : rep r e m -> 0 <= sum_len m.
Proof.
  intros H. apply sum_len_bounds. intros s x Hx. by apply (rep_slot _ _ _ _ _ H Hx).
Qed.

Lemma keep_sum_bounds r e e' m : rep r e m -> 0 <= sum_len (keep e' m) <= sum_len m.
Proof.
  intros H. unfold keep.
  assert (Hm : forall s x, m !! s = Some x -> 0 <= s_len x <= UINT16_MAX)
    by (intros s x Hx; by apply (rep_slot _ _ _ _ _ H Hx)). clear H.
  induction m as [|s x m Hs IH] using map_ind; [done|].
  assert (0 <= s_len x) by (eapply Hm; apply lookup_insert_eq).
  ospecialize (IH _). { intros t y Ht. apply (Hm t). rewrite lookup_insert_ne; congruence. }
  rewrite map_filter_insert. rewrite (sum_len_insert m) by done. case_decide.
  - rewrite sum_len_insert; [lia|]. rewrite map_lookup_filter. by rewrite Hs.
  - rewrite delete_id by done. lia.
Qed.

(** One iteration of the drain: the expected packet is delivered. *)
Lemma cut_one m rx f now x pkt b :
  rep (buffer f) (expected f) m -> pool_ok rx m -> m !! expected f = Some x ->
  s_pkt x = Some pkt -> rep b (expected f) (delete (expected f) m) -> rcap b = rcap (buffer f) ->
  let st := deliver_pkt rx pkt (s_len x) (f <| buffer := b |>) now (s_enqueue_us x) in
  cut m (expected f + 1) rx f (pool_release st.1 (s_len x))
    (st.2 <| expected := u64 (expected st.2 + 1) |>).
Proof.
  intros Hr [Hp1 Hp2] Hx Hpkt Hb Hc. cbn zeta.
  set (f1 := stat_inc delivered_count (f <| buffer := b |>)).
  destruct (record_residence_frame f1 now (s_enqueue_us x)) as [Ef Eg].
  destruct (rep_slot _ _ _ _ _ Hr Hx) as (_ & _ & Hlen & Hlim).
  pose proof (rep_origin _ _ _ Hr). unfold SEQ_LIMIT in *.
  pose proof (sum_len_delete _ _ _ Hx) as Hsum.
  pose proof (rep_sum_bounds _ _ _ Hb).
  assert (Hk : keep (expected f + 1) m = delete (expected f) m).
  { apply keep_succ. intros s. by apply rep_low with (buffer f). }
  unfold deliver_pkt. cbn [fst snd]. fold f1. rewrite Ef.
  rewrite pool_release_covered by (simpl; lia).
  split; cbn -[record_residence Z.pow keep]; rewrite ?Hk, ?u64_small by lia; try done; try lia.
  - eapply rep_advance; [done|unfold SEQ_LIMIT; lia|]. intros s [y [Hne Hy]%lookup_delete_Some].
    assert (expected f <= s) by (apply (rep_low _ _ _ _ Hr); eauto). lia.
  - rewrite (pkts_one m _ x) by done. unfold payload. by rewrite Hpkt.
Qed.

Lemma cut_pool_ok m e' rx f rx' f' :
  rep (buffer f) (expected f) m -> pool_ok rx m -> cut m e' rx f rx' f' -> pool_ok rx' (keep e' m).
Proof.
  intros Hr [Hp1 Hp2] H. unfold pool_ok. rewrite (cut_pool _ _ _ _ _ _ H).
  pose proof (keep_sum_bounds _ _ e' _ Hr). lia.
Qed.

(** Where a drain from [e] stops: the first number from [e] on that is not
    buffered. *)
Definition first_missing (m : gmap Z slot) (e e' : Z) : Prop :=
  e <= e' /\ m !! e' = None /\ forall s, e <= s < e' -> is_Some (m !! s).

Lemma drain_loop_cut fuel m rx f now :
  rep (buffer f) (expected f) m -> pool_ok rx m -> (size m < fuel)%nat ->
  let st := drain_loop fuel rx f now in
  exists e', first_missing m (expected f) e' /\ cut m e' rx f st.1 st.2.
Proof.
  revert m rx f. induction fuel as [|fuel IH]; intros m rx f Hr Hp Hf; [lia|].
  cbn [drain_loop]. pose proof (rep_origin _ _ _ Hr) as Ho. unfold SEQ_LIMIT in Ho.
  pose proof (rep_remove _ _ _ (expected f) Hr ltac:(lia)) as Hrm.
  destruct (m !! expected f) as [x|] eqn:Hx.
  - destruct Hrm as (pkt & b & Hpkt & -> & Hb & Hc).
    pose proof (cut_one m rx f now x pkt b Hr Hp Hx Hpkt Hb Hc) as H1. cbn zeta in H1.
    destruct (deliver_pkt rx pkt (s_len x) (f <| buffer := b |>) now (s_enqueue_us x)) as [rx1 f1].
    cbn [fst snd] in H1. set (rx2 := pool_release rx1 (s_len x)) in *.
    set (f2 := f1 <| expected := u64 (expected f1 + 1) |>) in *.
    pose proof (cut_pool_ok _ _ _ _ _ _ Hr Hp H1) as Hp'.
    pose proof (cut_rep _ _ _ _ _ _ H1) as Hr'. pose proof (cut_expected _ _ _ _ _ _ H1) as He.
    rewrite keep_succ in Hr', Hp' by (intros s; by apply rep_low with (buffer f)).
    rewrite <- He in Hr'.
    destruct (IH _ rx2 f2 Hr' Hp') as (e' & (Hle & Hn & Ha) & Hc2).
    { assert (size m <> 0%nat) by (intros E%map_size_empty_inv; by rewrite E, lookup_empty in Hx).
      rewrite map_size_delete_Some by eauto. lia. }
    exists e'. split.
    + rewrite He in Hle, Ha. rewrite lookup_delete_ne in Hn by lia. split_and!; [lia|done|].
      intros s Hs. destruct (decide (s = expected f)) as [->|]; [eauto|].
      specialize (Ha s ltac:(lia)). by rewrite lookup_delete_ne in Ha.
    + eapply cut_trans; [exact H1|].
      rewrite keep_succ by (intros s; by apply rep_low with (buffer f)). done.
  - rewrite Hrm. exists (expected f). split; [split_and!; [lia|done|lia]|]. simpl.
    by apply cut_refl.
Qed.

Lemma drain_cut m rx f now :
  rep (buffer f) (expected f) m -> pool_ok rx m ->
  let st := drain_contiguous rx f now in
  exists e', first_missing m (expected f) e' /\ cut m e' rx f st.1 st.2.
Proof.
  intros Hr Hp. apply drain_loop_cut; [done..|]. rewrite (rep_count _ _ _ Hr). lia.
Qed.

(** Skipping to the lowest buffered number and draining from there. *)
Lemma skip_drain_cut m rx f now :
  rep (buffer f) (expected f) m -> pool_ok rx m -> m <> ∅ ->
  let lowest := ring_lowest_seq (buffer f) (expected f) in
  let st := drain_contiguous rx (f <| expected := lowest |>) now in
  expected f <= lowest /\ is_Some (m !! lowest) /\
  exists e', first_missing m lowest e' /\ cut m e' rx f st.1 st.2.
Proof.
  intros Hr Hp Hm. cbn zeta. set (lowest := ring_lowest_seq _ _).
  destruct (rep_lowest _ _ _ Hr Hm) as [Hlo Hmin]. fold lowest in Hlo, Hmin.
  pose proof (rep_low _ _ _ _ Hr Hlo). split_and!; [done..|].
  destruct Hlo as [x Hx]. destruct (rep_slot _ _ _ _ _ Hr Hx) as (_ & _ & _ & Hlim).
  assert (Hs : cut m lowest rx f rx (f <| expected := lowest |>)) by (apply cut_skip; [done|lia|done]).
  assert (Hk : keep lowest m = m) by (by apply keep_all).
  pose proof (cut_rep _ _ _ _ _ _ Hs) as Hr'. rewrite Hk in Hr'.
  destruct (drain_cut m rx (f <| expected := lowest |>) now Hr' Hp) as (e' & Hfm & Hc).
  exists e'. split; [done|]. eapply cut_trans; [exact Hs|]. by rewrite Hk.
Qed.

Lemma keep_size_lt m e s : is_Some (m !! s) -> s < e -> (size (keep e m) < size m)%nat.
Proof.
  intros [x Hx] Hs. apply map_subset_size. split; [apply map_filter_subseteq|].
  intros Hsub. apply (lookup_weaken _ _ _ _ Hx) in Hsub. rewrite keep_lookup in Hsub.
  case_decide; [lia|done].
Qed.

Lemma keep_some e m s : is_Some (m !! s) -> e <= s -> is_Some (keep e m !! s).
Proof. intros. rewrite keep_lookup. by case_decide. Qed.

Lemma keep_some_inv e m s : is_Some (keep e m !! s) -> e <= s /\ is_Some (m !! s).
Proof. rewrite keep_lookup. case_decide; [done|by intros []]. Qed.

Lemma rep_ring_empty r e m : rep r e m -> ring_empty r = bool_decide (m = ∅).
Proof.
  intros H. unfold ring_empty. rewrite (rep_count _ _ _ H).
  case_bool_decide as E; rewrite <- map_size_empty_iff in E; [apply Z.eqb_eq|apply Z.eqb_neq]; lia.
Qed.

Lemma timeout_loop_cut fuel m rx f now :
  rep (buffer f) (expected f) m -> pool_ok rx m -> (size m < fuel)%nat -> m !! expected f = None ->
  (expected f < reord f -> is_Some (m !! (reord f - 1))) ->
  let st := timeout_loop fuel rx f now in
  exists e', first_missing m (Z.max (reord f) (expected f)) e' /\ cut m e' rx f st.1 st.2.
Proof.
  revert m rx f. induction fuel as [|fuel IH]; intros m rx f Hr Hp Hf Hn Hre; [lia|].
  cbn [timeout_loop]. rewrite (rep_ring_empty _ _ _ Hr).
  destruct (Z.ltb_spec (expected f) (reord f)) as [Hlt|Hge].
  - specialize (Hre Hlt).
    assert (Hm : m <> ∅) by (intros ->; rewrite lookup_empty in Hre; by destruct Hre).
    rewrite bool_decide_eq_false_2 by done. cbn [negb andb].
    destruct (skip_drain_cut m rx f now Hr Hp Hm) as (Hlo & Hlm & e1 & (Hfl & Hfn & Hfa) & H1).
    pose proof (proj2 (rep_lowest _ _ _ Hr Hm) _ Hre) as Hmin.
    cbn zeta in *. set (lowest := ring_lowest_seq _ _) in *.
    destruct (drain_contiguous rx (f <| expected := lowest |>) now) as [rx1 f1]. cbn [fst snd] in H1.
    assert (Hlt1 : lowest < e1) by (destruct (decide (lowest = e1)) as [->|]; [rewrite Hfn in Hlm; by destruct Hlm|lia]).
    pose proof (cut_expected _ _ _ _ _ _ H1) as He.
    assert (Hro : reord f1 = reord f) by (rewrite (cut_f _ _ _ _ _ _ H1); done).
    pose proof (cut_rep _ _ _ _ _ _ H1) as Hr1. rewrite <- He in Hr1 at 1.
    destruct (IH (keep e1 m) rx1 f1) as (e' & (Hle & Hen & Hea) & H2).
    + done.
    + by eapply cut_pool_ok.
    + pose proof (keep_size_lt m e1 lowest Hlm ltac:(lia)). lia.
    + rewrite He, keep_lookup. by case_decide.
    + rewrite Hro, He. intros. apply keep_some; [done|lia].
    + rewrite Hro, He in Hle, Hea. exists e'. split; [|by eapply cut_trans].
      rewrite keep_lookup in Hen. case_decide; [|lia].
      split_and!; [lia|done|]. intros s Hs. destruct (decide (s < e1)); [apply Hfa; lia|].
      apply (keep_some_inv e1), Hea. lia.
  - rewrite andb_false_r. exists (expected f). rewrite Z.max_r by lia.
    split; [split_and!; [lia|done|lia]|by apply cut_refl].
Qed.

Lemma demote_loop_cut fuel m rx f now :
  rep (buffer f) (expected f) m -> pool_ok rx m -> (size m < fuel)%nat ->
  let st := demote_loop fuel rx f now in
  exists e', keep e' m = ∅ /\ cut m e' rx f st.1 st.2.
Proof.
  revert m rx f. induction fuel as [|fuel IH]; intros m rx f Hr Hp Hf; [lia|].
  cbn [demote_loop]. rewrite (rep_ring_empty _ _ _ Hr). case_bool_decide as Hm.
  - exists (expected f). split; [by rewrite Hm|by apply cut_refl].
  - destruct (skip_drain_cut m rx f now Hr Hp Hm) as (Hlo & Hlm & e1 & (Hfl & Hfn & Hfa) & H1).
    cbn zeta in *. set (lowest := ring_lowest_seq _ _) in *. fold (drain_contiguous rx (f <| expected := lowest |>) now).
    destruct (drain_contiguous rx (f <| expected := lowest |>) now) as [rx1 f1]. cbn [fst snd] in H1.
    assert (Hlt1 : lowest < e1) by (destruct (decide (lowest = e1)) as [->|]; [rewrite Hfn in Hlm; by destruct Hlm|lia]).
    pose proof (cut_expected _ _ _ _ _ _ H1) as He.
    pose proof (cut_rep _ _ _ _ _ _ H1) as Hr1. rewrite <- He in Hr1 at 1.
    destruct (IH (keep e1 m) rx1 f1 Hr1) as (e' & Hke & H2).
    + by eapply cut_pool_ok.
    + pose proof (keep_size_lt m e1 lowest Hlm ltac:(lia)). lia.
    + exists e'. split; [|by eapply cut_trans]. pose proof (cut_le _ _ _ _ _ _ H2).
      by rewrite keep_keep in Hke by lia.
Qed.
End cut.
