(* ===== verification/RxInv.v ===== *)
(** * Invariants of one reordered flow

    The operation-boundary invariants of the engine: the gap timer runs
    exactly while packets are buffered, the reordering mark lies between the
    expected number and the highest buffered one, the wait-period counters
    balance, and the pool charge of a flow is what it has buffered.  Every
    flow operation preserves them and delivers in ascending order. *)

From stdpp Require Import list_numbers.
From S2P Require Import Prelude Wire Ring ReorderRx RxFlow.

(** ** Wait-period accounting *)

(** Periods started and not yet ended, in the counters' width. *)
Definition open_periods (st : mqvpn_reorder_stats_t) : Z :=
  u64 (gap_count st - (gap_filled_count st + gap_timeout_count st + gap_overflow_count st +
                       gap_demote_count st + gap_reset_count st)).

Lemma gap_stats_open a b : gap_stats a = gap_stats b -> open_periods a = open_periods b.
Proof. intros [= ? ? ? ? ? ?]. unfold open_periods. congruence. Qed.

(** The five counters that end a period. *)
Class EndCounter (c : mqvpn_reorder_stats_t -> Z) `{Setter _ _ c} :=
  end_counter_inc st : open_periods (update c (fun n => u64 (n + 1)) st) = u64 (open_periods st - 1).

Lemma u64_wrap a b : (2 ^ 64 | a - b) -> u64 a = u64 b.
Proof.
  intros [k Hk]. unfold u64. replace a with (b + k * 2 ^ 64) by lia. apply Z.mod_add. lia.
Qed.

Lemma u64_wrap_self a : exists k, u64 a = a + k * 2 ^ 64.
Proof. exists (- (a / 2 ^ 64)). unfold u64. rewrite Z.mod_eq by lia. lia. Qed.

Lemma u64_end g a b : u64 (g - (u64 (a + 1) + b)) = u64 (u64 (g - (a + b)) - 1).
Proof.
  destruct (u64_wrap_self (a + 1)) as [k ->], (u64_wrap_self (g - (a + b))) as [k' ->].
  apply u64_wrap. exists (- k - k'). lia.
Qed.

Ltac end_counter :=
  intros st; unfold open_periods; destruct st; simpl;
  match goal with
  | |- u64 (?g - ?s) = u64 (u64 (?g - ?t) - 1) =>
      match s with
      | context [u64 (?x + 1)] =>
          replace s with (u64 (x + 1) + (t - x)) by lia; rewrite u64_end; do 3 f_equal; lia
      end
  end.

#[export] Instance end_filled : EndCounter gap_filled_count. Proof. end_counter. Qed.
#[export] Instance end_timeout : EndCounter gap_timeout_count. Proof. end_counter. Qed.
#[export] Instance end_overflow : EndCounter gap_overflow_count. Proof. end_counter. Qed.
#[export] Instance end_demote : EndCounter gap_demote_count. Proof. end_counter. Qed.
#[export] Instance end_reset : EndCounter gap_reset_count. Proof. end_counter. Qed.

(** The counters that are no part of the period accounting. *)
Class OtherCounter (c : mqvpn_reorder_stats_t -> Z) `{Setter _ _ c} :=
  other_counter_inc st : gap_stats (update c (fun n => u64 (n + 1)) st) = gap_stats st.

#[export] Instance other_late : OtherCounter too_late_drop_count. Proof. by intros []. Qed.
#[export] Instance other_far : OtherCounter too_far_ahead_drop_count. Proof. by intros []. Qed.
#[export] Instance other_dup : OtherCounter duplicate_drop_count. Proof. by intros []. Qed.
#[export] Instance other_limit : OtherCounter per_flow_limit_drop_count. Proof. by intros []. Qed.
#[export] Instance other_pool : OtherCounter pool_drop_count. Proof. by intros []. Qed.
#[export] Instance other_discard : OtherCounter reset_discard_count. Proof. by intros []. Qed.
#[export] Instance other_demote : OtherCounter ack_demote_count. Proof. by intros []. Qed.

Lemma open_periods_start st :
  open_periods (update gap_count (fun n => u64 (n + 1)) st) = u64 (open_periods st + 1).
Proof.
  unfold open_periods. destruct st; simpl.
  match goal with |- u64 (u64 ?a - ?b) = u64 (u64 ?c + 1) =>
    destruct (u64_wrap_self a) as [k ->], (u64_wrap_self c) as [k' ->] end.
  apply u64_wrap. exists (k - k'). lia.
Qed.

(** ** The invariant *)

Section inv.
Context {RS : RingSpec}.

(** What holds of the sequence state alone. *)
Record flow_core (f : mqvpn_reorder_flow_t) (m : gmap Z slot) : Prop := {
  fc_rep : rep (buffer f) (expected f) m;
  fc_fresh : initialized f = false -> m = ∅ /\ rx_next f <= 0 /\ pass_through f = false;
  fc_pass : pass_through f = true -> m = ∅;
  fc_next_empty : m = ∅ -> rx_next f <= expected f;
  fc_next : m <> ∅ -> is_Some (m !! (rx_next f - 1));
  fc_next_max s : is_Some (m !! s) -> s < rx_next f
}.

(** The operation-boundary invariant (sections 11.1, 12.2 and 17). *)
Record flow_inv (f : mqvpn_reorder_flow_t) (m : gmap Z slot) : Prop := {
  fi_core : flow_core f m;
  fi_fresh : initialized f = false -> expected f = 0;
  fi_head : m !! expected f = None;
  fi_timer : gap_timer_active f = bool_decide (m <> ∅);
  fi_mark : m <> ∅ -> expected f < reord f <= rx_next f /\ is_Some (m !! (reord f - 1));
  fi_gap : open_periods (fstats f) = Z.b2z (gap_timer_active f)
}.

(** In the middle of an operation, after the expected number moved. *)
Record flow_loose (f : mqvpn_reorder_flow_t) (m : gmap Z slot) : Prop := {
  fl_core : flow_core f m;
  fl_init : initialized f = true;
  fl_mark : gap_timer_active f = true -> reord f <= rx_next f;
  fl_mark_in : gap_timer_active f = true -> expected f < reord f -> is_Some (m !! (reord f - 1));
  fl_gap : open_periods (fstats f) = Z.b2z (gap_timer_active f)
}.

Lemma inv_init f m : flow_inv f m -> m <> ∅ -> initialized f = true.
Proof.
  intros H Hm. destruct (initialized f) eqn:E; [done|].
  by destruct (fc_fresh _ _ (fi_core _ _ H) E).
Qed.

Lemma flow_inv_loose f m : flow_inv f m -> initialized f = true -> flow_loose f m.
Proof.
  intros [Hc Hfr Hh Ht Hm Hg] Hin. split; try done; intros Ha; rewrite Ht in Ha; apply bool_decide_eq_true in Ha;
    by destruct (Hm Ha) as [[? ?] ?].
Qed.

Lemma cut_core m e' rx f rx' f' :
  flow_core f m -> cut m e' rx f rx' f' -> flow_core f' (keep e' m).
Proof.
  intros [Hr Hf Hp He Hn Hx] H. pose proof (cut_le _ _ _ _ _ _ H). pose proof (cut_f _ _ _ _ _ _ H) as Ef.
  assert (Enx : rx_next f' = rx_next f) by (by rewrite Ef).
  assert (Hsome : forall s, is_Some (keep e' m !! s) -> is_Some (m !! s) /\ m <> ∅).
  { intros s [_ Hs]%keep_some_inv. split; [done|]. intros ->. rewrite lookup_empty in Hs. by destruct Hs. }
  split.
  - rewrite (cut_expected _ _ _ _ _ _ H). apply (cut_rep _ _ _ _ _ _ H).
  - rewrite Ef. simpl. intros Hi. destruct (Hf Hi) as (-> & ? & ?). done.
  - rewrite Ef. simpl. intros Hi. by rewrite (Hp Hi).
  - rewrite Enx, (cut_expected _ _ _ _ _ _ H). intros Hk. destruct (decide (m = ∅)) as [->|Hm]; [specialize (He eq_refl); lia|].
    destruct (decide (rx_next f <= e')); [done|].
    assert (Hs : is_Some (keep e' m !! (rx_next f - 1))) by (apply keep_some; [auto|lia]).
    rewrite Hk, lookup_empty in Hs. by destruct Hs.
  - rewrite Enx. intros (s & x & Hs)%map_choose. destruct (Hsome s) as [Hs' Hm]; [eauto|].
    assert (is_Some (keep e' m !! s)) as [? _]%keep_some_inv by eauto.
    apply keep_some; [by apply Hn|]. specialize (Hx _ Hs'). lia.
  - rewrite Enx. intros s Hs. apply Hx. by destruct (Hsome s).
Qed.

Lemma cut_loose m e' rx f rx' f' :
  flow_loose f m -> cut m e' rx f rx' f' -> flow_loose f' (keep e' m).
Proof.
  intros [Hc Hin Hm Hi Hg] H. pose proof (cut_core _ _ _ _ _ _ Hc H) as Hc'.
  pose proof (cut_f _ _ _ _ _ _ H) as Ef. pose proof (cut_expected _ _ _ _ _ _ H) as Ee.
  assert (gap_timer_active f' = gap_timer_active f) as Ea by (by rewrite Ef).
  assert (reord f' = reord f) as Er by (by rewrite Ef).
  assert (rx_next f' = rx_next f) as En by (by rewrite Ef).
  pose proof (cut_le _ _ _ _ _ _ H).
  split; [done|by rewrite Ef| | |].
  - by rewrite Ea, Er, En.
  - rewrite Ea, Er, Ee. intros Ha Hlt. apply keep_some; [apply Hi; [done|lia]|lia].
  - rewrite (gap_stats_open _ _ (cut_gap _ _ _ _ _ _ H)), Ea. done.
Qed.

(** ** Ending and starting periods *)

Lemma period_end_loose c `{EndCounter c} f m :
  flow_loose f m ->
  let f' := period_end_if_done c f in
  flow_loose f' m /\ (gap_timer_active f' = true -> m <> ∅ /\ expected f' < reord f').
Proof.
  intros [Hc Hin Hm Hi Hg]. cbn zeta. unfold period_end_if_done.
  rewrite (rep_ring_empty _ _ _ (fc_rep _ _ Hc)).
  destruct (gap_timer_active f) eqn:Ha; cbn [andb].
  - destruct (bool_decide (m = ∅) || (reord f <=? expected f)) eqn:Ed.
    + split; [|done]. split; [by destruct Hc|done|done|done|].
      etrans; [exact (end_counter_inc (fstats f))|]. by rewrite Hg.
    + bool_to_prop. case_bool_decide; [done|]. rewrite Ha. split; [|split; [done|lia]].
      split; [done|done|by intros; apply Hm|by intros; apply Hi|by rewrite Ha].
  - split; [|by rewrite Ha]. split; [done|done| | |by rewrite Ha]; rewrite Ha; done.
Qed.

(** ** Effects

    What a flow operation does to everything but the invariant: the pool
    charge follows the buffer, only the callback log, the pool and the timer
    bound of the engine move, and what is delivered is an ascending run of
    numbered packets, each buffered before or the arriving one ([arr]). *)

Definition rx_frame (rx rx' : mqvpn_reorder_rx_t) : Prop :=
  rx' = rx <| deliver_log := deliver_log rx' |> <| pool_bytes_used := pool_bytes_used rx' |>
           <| next_gap_us := next_gap_us rx' |> /\
  next_gap_us rx' <= next_gap_us rx.

Definition flow_frame (f f' : mqvpn_reorder_flow_t) : Prop :=
  f_key f' = f_key f /\ wait_ms f' = wait_ms f /\ rcap (buffer f') = rcap (buffer f) /\
  (initialized f = true -> initialized f' = true) /\ pass_through f' = pass_through f /\
  (0 <= classify_seen f -> 0 <= classify_seen f').

(** An armed timer never expires before the engine's bound. *)
Definition gap_bound (rx : mqvpn_reorder_rx_t) (f : mqvpn_reorder_flow_t) : Prop :=
  gap_timer_active f = true -> next_gap_us rx <= gap_deadline_us f.

(** The pool covers the flow's buffer, respects its limit, and the limit
    leaves room for one more packet in 64 bits. *)
Definition pool_inv (rx : mqvpn_reorder_rx_t) (m : gmap Z slot) : Prop :=
  sum_len m <= pool_bytes_used rx <= global_max_buffer_bytes (cfg rx) /\
  global_max_buffer_bytes (cfg rx) + UINT16_MAX < 2 ^ 64.

(** Numbered packets [ds] handed out between two expected numbers. *)
Definition run (arr : Z -> list Z -> Prop) (m : gmap Z slot) (lo hi : Z) (ds : list (Z * list Z)) : Prop :=
  StronglySorted Z.lt ds.*1 /\
  Forall (fun d => lo <= d.1 < hi /\ (payload <$> m !! d.1 = Some d.2 \/ arr d.1 d.2)) ds.

Record effect (arr : Z -> list Z -> Prop) (now : Z)
    (rx : mqvpn_reorder_rx_t) (f : mqvpn_reorder_flow_t) (m : gmap Z slot)
    (rx' : mqvpn_reorder_rx_t) (f' : mqvpn_reorder_flow_t) (m' : gmap Z slot) : Prop := {
  ef_pool : pool_bytes_used rx' - sum_len m' = pool_bytes_used rx - sum_len m;
  ef_bound : pool_bytes_used rx' <= global_max_buffer_bytes (cfg rx);
  ef_rx : rx_frame rx rx';
  ef_f : flow_frame f f';
  ef_gap : gap_bound rx f -> gap_bound rx' f';
  ef_progress : last_progress_us f' = last_progress_us f \/ last_progress_us f' = now;
  ef_le : expected f <= expected f';
  ef_out : exists ds, deliver_log rx' = deliver_log rx ++ ds.*2 /\ run arr m (expected f) (expected f') ds;
  ef_left s x : m' !! s = Some x -> m !! s = Some x \/ arr s (payload x)
}.

Lemma rx_frame_refl rx : rx_frame rx rx.
Proof. split; [by destruct rx|lia]. Qed.

Lemma rx_frame_trans a b c : rx_frame a b -> rx_frame b c -> rx_frame a c.
Proof.
  intros [E1 L1] [E2 L2]. split; [|lia]. rewrite E2 at 1. rewrite E1. by destruct a.
Qed.

Lemma rx_frame_cfg rx rx' : rx_frame rx rx' -> cfg rx' = cfg rx.
Proof. intros [-> _]. done. Qed.

Lemma run_app arr m lo mid hi m' d1 d2 :
  lo <= mid <= hi -> (forall s x, m' !! s = Some x -> m !! s = Some x \/ arr s (payload x)) ->
  run arr m lo mid d1 -> run arr m' mid hi d2 -> run arr m lo hi (d1 ++ d2).
Proof.
  intros Hl Hm [S1 F1] [S2 F2]. split.
  - rewrite fmap_app. apply StronglySorted_app_2; [|done|done].
    intros x y (a & -> & Ha)%list_elem_of_fmap (b & -> & Hb)%list_elem_of_fmap.
    rewrite Forall_forall in F1, F2. specialize (F1 _ Ha). specialize (F2 _ Hb). lia.
  - apply Forall_app. split.
    + eapply Forall_impl; [exact F1|]. intros [s p] [? ?]; simpl in *. split; [lia|done].
    + eapply Forall_impl; [exact F2|]. intros [s p] [? Ho]; simpl in *. split; [lia|].
      destruct Ho as [Ho|]; [|by right]. apply fmap_Some in Ho as (x & Hx & ->).
      destruct (Hm _ _ Hx) as [->|]; [by left|by right].
Qed.

Lemma effect_trans arr now rx f m rx1 f1 m1 rx2 f2 m2 :
  effect arr now rx f m rx1 f1 m1 -> effect arr now rx1 f1 m1 rx2 f2 m2 ->
  effect arr now rx f m rx2 f2 m2.
Proof.
  intros [P1 B1 X1 F1 G1 R1 L1 (d1 & O1 & U1) M1] [P2 B2 X2 F2 G2 R2 L2 (d2 & O2 & U2) M2].
  assert (Hm : forall s x, m2 !! s = Some x -> m !! s = Some x \/ arr s (payload x)).
  { intros s x Hx. destruct (M2 _ _ Hx) as [Hx'|]; [eauto|by right]. }
  split; try done.
  - lia.
  - by rewrite (rx_frame_cfg _ _ X1) in B2.
  - by eapply rx_frame_trans.
  - destruct F1 as (? & ? & ? & ? & ? & ?), F2 as (? & ? & ? & ? & ? & ?). split_and!; first [congruence|auto].
  - auto.
  - destruct R2 as [->| ->]; [done|by right].
  - lia.
  - exists (d1 ++ d2). rewrite O2, O1, fmap_app, app_assoc. split; [done|].
    eapply run_app; [|exact M1|done|done]. lia.
Qed.

(** Steps that only touch the flow's bookkeeping. *)
Lemma effect_flow arr now rx f m f' :
  pool_inv rx m -> flow_frame f f' -> expected f' = expected f ->
  (gap_timer_active f' = true -> gap_timer_active f = true /\ gap_deadline_us f' = gap_deadline_us f) ->
  (last_progress_us f' = last_progress_us f \/ last_progress_us f' = now) ->
  effect arr now rx f m rx f' m.
Proof.
  intros [? ?] Hf He Hg Hp. split; try done; try lia.
  - apply rx_frame_refl.
  - intros Hb Ha. destruct (Hg Ha) as [? ->]. auto.
  - exists []. rewrite app_nil_r. split; [done|]. split; constructor.
  - by left.
Qed.

Lemma effect_refl arr now rx f m : pool_inv rx m -> effect arr now rx f m rx f m.
Proof. intros Hp. apply effect_flow; auto. by split_and!. Qed.

(** The numbered packets of a cut. *)
Definition cut_run (m : gmap Z slot) (lo hi : Z) : list (Z * list Z) :=
  omap (fun s => (fun x => (s, payload x)) <$> m !! s) (seqZ lo (hi - lo)).

Lemma cut_run_pkts m lo hi : (cut_run m lo hi).*2 = pkts m lo hi.
Proof.
  unfold cut_run, pkts. rewrite list_fmap_omap. apply list_omap_ext, Forall_Forall2_diag, Forall_forall.
  intros s _. by destruct (m !! s).
Qed.

Lemma cut_run_run arr m lo hi : run arr m lo hi (cut_run m lo hi).
Proof.
  assert (Hg : forall l, StronglySorted Z.lt l -> Forall (fun s => lo <= s < hi) l ->
    run arr m lo hi (omap (fun s => (fun x => (s, payload x)) <$> m !! s) l)).
  { intros l Hl. induction Hl as [|s l Hl IH Hs]; intros Hf; [split; constructor|].
    inversion_clear Hf as [|? ? Hb Hf']. destruct (IH Hf') as [IS IF]. simpl.
    destruct (m !! s) as [x|] eqn:Hx; simpl; [|by split]. split; simpl.
    - constructor; [done|]. apply Forall_fmap, Forall_forall. intros [t p] Ht.
      apply list_elem_of_omap in Ht as (t' & Ht' & E). rewrite Forall_forall in Hs.
      apply fmap_Some in E as (? & ? & [= -> ->]). by apply Hs.
    - constructor; [|done]. split; [done|]. left. simpl. by rewrite Hx. }
  apply Hg.
  - apply seqZ_sorted.
  - apply Forall_forall. intros s Hs%elem_of_seqZ. lia.
Qed.

Lemma cut_effect arr now m e' rx f rx' f' :
  pool_inv rx m -> rep (buffer f) (expected f) m -> cut m e' rx f rx' f' ->
  effect arr now rx f m rx' f' (keep e' m).
Proof.
  intros [Hp Hg] Hr H. pose proof (keep_sum_bounds _ _ e' _ Hr).
  pose proof (cut_pool _ _ _ _ _ _ H). pose proof (cut_f _ _ _ _ _ _ H) as Ef.
  pose proof (cut_rx _ _ _ _ _ _ H) as Ex. pose proof (cut_le _ _ _ _ _ _ H).
  split.
  - lia.
  - lia.
  - split; [rewrite Ex; by destruct rx|rewrite Ex; simpl; lia].
  - split_and!; [by rewrite Ef|by rewrite Ef|apply (cut_cap _ _ _ _ _ _ H)|by rewrite Ef..].
  - unfold gap_bound. rewrite Ef, Ex. done.
  - left. by rewrite Ef.
  - rewrite (cut_expected _ _ _ _ _ _ H). lia.
  - exists (cut_run m (expected f) e'). rewrite cut_run_pkts, (cut_expected _ _ _ _ _ _ H).
    split; [apply (cut_log _ _ _ _ _ _ H)|apply cut_run_run].
  - intros s x. rewrite keep_lookup. case_decide; [by left|done].
Qed.

(** ** Timer operations preserve and restore the invariant *)

Lemma period_start_inv arr now rx f m :
  flow_loose f m -> m !! expected f = None -> pool_inv rx m ->
  (gap_timer_active f = true -> m <> ∅ /\ expected f < reord f) ->
  let st := period_start_if_needed rx f now in
  flow_inv st.2 m /\ effect arr now rx f m st.1 st.2 m /\ expected st.2 = expected f /\
  deliver_log st.1 = deliver_log rx.
Proof.
  intros [Hc Hin Hm Hi Hg] Hh Hp Ha. cbn zeta. unfold period_start_if_needed.
  rewrite (rep_ring_empty _ _ _ (fc_rep _ _ Hc)).
  destruct (gap_timer_active f) eqn:Ea; cbn [negb andb fst snd].
  - destruct (Ha eq_refl). split_and!; [|by apply effect_refl|done|done].
    split; [done|by rewrite Hin|done|..].
    + rewrite Ea. by rewrite bool_decide_eq_true_2.
    + intros _. split; [split; [done|by apply Hm]|by apply Hi].
    + by rewrite Ea.
  - case_bool_decide as Em; cbn [negb fst snd].
    + split_and!; [|by apply effect_refl|done|done].
      split; [done|by rewrite Hin|done|by rewrite Ea, Em|by rewrite Em|by rewrite Ea].
    + unfold arm_gap_timer. cbn [fst snd]. destruct Hc as [Hr Hf Hpt He Hn Hx].
      split_and!; [| |done|by case_match].
      * split; simpl.
        -- by split.
        -- by rewrite Hin.
        -- done.
        -- by rewrite bool_decide_eq_true_2.
        -- intros _. split; [|by apply Hn]. split; [|done].
           destruct (Hn Em) as [x Hy]. pose proof (rep_low _ _ _ _ Hr ltac:(eauto)) as Hlow.
           destruct (decide (expected f = rx_next f - 1)) as [E|]; [|lia]. congruence.
        -- etrans; [exact (open_periods_start (fstats f))|]. by rewrite Hg.
      * destruct Hp. split; simpl; try done.
        -- case_match; simpl; lia.
        -- case_match; simpl; lia.
        -- split; [destruct rx; by case_match|]. case_match; bool_to_prop; simpl; lia.
        -- intros _ _. case_match; bool_to_prop; simpl in *; lia.
        -- by left.
        -- exists []. rewrite app_nil_r. split; [by case_match|]. split; constructor.
        -- by left.
Qed.

(** Ending a finished period and starting the next one. *)
Lemma settle c `{EndCounter c} arr now rx f m :
  flow_loose f m -> m !! expected f = None -> pool_inv rx m ->
  let st := period_start_if_needed rx (period_end_if_done c f) now in
  flow_inv st.2 m /\ effect arr now rx f m st.1 st.2 m /\ expected st.2 = expected f /\
  deliver_log st.1 = deliver_log rx.
Proof.
  intros Hl Hh Hp. destruct (period_end_loose c f m Hl) as [Hl' Ha]. cbn zeta in *.
  assert (Hfr : flow_frame f (period_end_if_done c f) /\
    expected (period_end_if_done c f) = expected f /\
    last_progress_us (period_end_if_done c f) = last_progress_us f /\
    (gap_timer_active (period_end_if_done c f) = true -> gap_timer_active f = true /\
       gap_deadline_us (period_end_if_done c f) = gap_deadline_us f)).
  { unfold period_end_if_done. by case_match; split_and!. }
  destruct Hfr as (Hf & He & Hpr & Ht).
  destruct (period_start_inv arr now rx (period_end_if_done c f) m) as (Hi & Hef & Hex & Hlog); [done| |done|done|].
  { by rewrite He. }
  split_and!; [done| |congruence|done]. eapply effect_trans; [|exact Hef]. apply effect_flow; auto.
Qed.

Lemma pool_inv_ok rx m : pool_inv rx m -> pool_ok rx m.
Proof. unfold pool_inv, pool_ok, UINT16_MAX. lia. Qed.

Lemma effect_pool_inv arr now rx f m rx' f' m' :
  pool_inv rx m -> effect arr now rx f m rx' f' m' -> pool_inv rx' m'.
Proof.
  intros [Hp Hg] H. unfold pool_inv. rewrite (rx_frame_cfg _ _ (ef_rx _ _ _ _ _ _ _ _ H)).
  pose proof (ef_pool _ _ _ _ _ _ _ _ H). pose proof (ef_bound _ _ _ _ _ _ _ _ H). lia.
Qed.

(** ** In-order delivery *)

(** Delivering the expected packet itself, before the drain. *)
Definition deliver_head (rx : mqvpn_reorder_rx_t) (f : mqvpn_reorder_flow_t) (pkt : list Z) (len now : Z)
    : flow_state :=
  let st := deliver_pkt rx pkt len f now now in
  (st.1, st.2 <| expected := u64 (expected st.2 + 1) |> <| last_progress_us := now |>).

Lemma deliver_pkt_frame rx pkt len f now enq :
  let st := deliver_pkt rx pkt len f now enq in
  st.1 = rx_deliver rx pkt len /\ st.2 = f <| fstats := fstats st.2 |> /\
  gap_stats (fstats st.2) = gap_stats (fstats f).
Proof.
  unfold deliver_pkt. simpl.
  destruct (record_residence_frame (stat_inc delivered_count f) now enq) as [E G].
  split_and!; [done| |by rewrite G]. rewrite E. by destruct f.
Qed.

(** A delivery of one numbered packet to the right of everything delivered. *)
Lemma effect_deliver (arr : Z -> list Z -> Prop) now rx f m f' pkt len s :
  pool_inv rx m -> flow_frame f f' -> arr s (take (Z.to_nat len) pkt) ->
  expected f <= s < expected f' ->
  (gap_timer_active f' = true -> gap_timer_active f = true /\ gap_deadline_us f' = gap_deadline_us f) ->
  (last_progress_us f' = last_progress_us f \/ last_progress_us f' = now) ->
  effect arr now rx f m (rx_deliver rx pkt len) f' m.
Proof.
  intros [? ?] Hf Harr Hs Hg Hp. split; simpl; try done; try lia.
  - intros Hb Ha. destruct (Hg Ha) as [? ->]. by apply Hb.
  - exists [(s, take (Z.to_nat len) pkt)]. split; [done|]. split; repeat constructor; simpl; auto; lia.
  - by left.
Qed.

Lemma deliver_head_loose arr now rx f m pkt len :
  flow_inv f m -> pool_inv rx m -> expected f < SEQ_LIMIT -> initialized f = true ->
  arr (expected f) (take (Z.to_nat len) pkt) ->
  let st := deliver_head rx f pkt len now in
  flow_loose st.2 m /\ effect arr now rx f m st.1 st.2 m /\ expected st.2 = expected f + 1 /\
  deliver_log st.1 = deliver_log rx ++ [take (Z.to_nat len) pkt].
Proof.
  intros [[Hr Hf Hpt He Hn Hx] Hfr Hh Ht Hm Hg] Hp Hlim Hi Harr.
  pose proof (rep_origin _ _ _ Hr). unfold SEQ_LIMIT in *.
  destruct (deliver_pkt_frame rx pkt len f now now) as (E1 & E2 & E3). unfold deliver_head. cbn zeta.
  destruct (deliver_pkt rx pkt len f now now) as [rx1 f1]. cbn [fst snd] in *. subst rx1. rewrite E2. cbn [expected].
  assert (Hex : u64 (expected f + 1) = expected f + 1) by (apply u64_small; lia).
  assert (Hab : forall s, is_Some (m !! s) -> expected f + 1 <= s).
  { intros s Hs. pose proof (rep_low _ _ _ _ Hr Hs).
    destruct (decide (s = expected f)) as [->|]; [rewrite Hh in Hs; by destruct Hs|lia]. }
  split_and!; [| |done|done].
  - split; simpl.
    + split; simpl; rewrite ?Hex; try done.
      * eapply rep_advance; [exact Hr|unfold SEQ_LIMIT; lia|done].
      * intros ->. specialize (He eq_refl). lia.
    + done.
    + intros Ha. rewrite Ht in Ha. apply bool_decide_eq_true in Ha. by apply Hm.
    + intros Ha _. rewrite Ht in Ha. apply bool_decide_eq_true in Ha. by apply Hm.
    + by rewrite (gap_stats_open _ _ E3).
  - apply (effect_deliver _ _ _ _ _ _ _ _ (expected f)); simpl; rewrite ?Hex; auto; [by split_and!|lia].
Qed.

Lemma deliver_in_order_ok arr now rx f m pkt len :
  flow_inv f m -> pool_inv rx m -> expected f < SEQ_LIMIT -> initialized f = true ->
  arr (expected f) (take (Z.to_nat len) pkt) ->
  exists rx' f' e', deliver_in_order rx f pkt len now = (rx', f', REORDER_DELIVERED) /\
    first_missing m (expected f + 1) e' /\ expected f' = e' /\ flow_inv f' (keep e' m) /\
    effect arr now rx f m rx' f' (keep e' m) /\
    deliver_log rx' = deliver_log rx ++ [take (Z.to_nat len) pkt] ++ pkts m (expected f + 1) e'.
Proof.
  intros Hv Hp Hlim Hi Harr.
  destruct (deliver_head_loose arr now rx f m pkt len Hv Hp Hlim Hi Harr) as (Hl & He & Hx & Hlog).
  unfold deliver_in_order. unfold deliver_head in *. cbn zeta in *.
  destruct (deliver_pkt rx pkt len f now now) as [rx1 f1]. cbn [fst snd] in *.
  set (f2 := f1 <| expected := u64 (expected f1 + 1) |> <| last_progress_us := now |>) in *.
  pose proof (effect_pool_inv _ _ _ _ _ _ _ _ Hp He) as Hp2.
  pose proof (fc_rep _ _ (fl_core _ _ Hl)) as Hr2.
  destruct (drain_cut m rx1 f2 now Hr2 (pool_inv_ok _ _ Hp2)) as (e' & Hfm & Hc). cbn zeta in *.
  destruct (drain_contiguous rx1 f2 now) as [rx3 f3]. cbn [fst snd] in *.
  pose proof (cut_loose _ _ _ _ _ _ Hl Hc) as Hl3.
  pose proof (cut_effect arr now _ _ _ _ _ _ Hp2 Hr2 Hc) as He3.
  pose proof (cut_expected _ _ _ _ _ _ Hc) as Hx3. rewrite Hx in Hfm.
  destruct (settle gap_filled_count arr now rx3 f3 (keep e' m) Hl3) as (Hv4 & He4 & Hx4 & Hlog4).
  { rewrite Hx3, keep_lookup. destruct Hfm as (_ & ? & _). by case_decide. }
  { by eapply effect_pool_inv. }
  destruct (period_start_if_needed rx3 (period_end_if_done gap_filled_count f3) now) as [rx4 f4].
  cbn [fst snd] in *. exists rx4, f4, e'. split_and!; [done|done|congruence|done| |].
  - eapply effect_trans; [exact He|]. by eapply effect_trans.
  - rewrite Hlog4, (cut_log _ _ _ _ _ _ Hc), Hlog, Hx. by rewrite app_assoc.
Qed.

(** ** Overflow flush and admission *)

Lemma overflow_flush_ok arr now rx f m :
  flow_inv f m -> pool_inv rx m -> m <> ∅ ->
  exists rx' f' e', overflow_flush rx f now = (rx', f') /\
    expected f < e' /\ m !! e' = None /\ expected f' = e' /\ flow_inv f' (keep e' m) /\
    effect arr now rx f m rx' f' (keep e' m) /\
    deliver_log rx' = deliver_log rx ++ pkts m (expected f) e'.
Proof.
  intros Hv Hp Hm. pose proof (flow_inv_loose _ _ Hv (inv_init _ _ Hv Hm)) as Hl. pose proof (fc_rep _ _ (fi_core _ _ Hv)) as Hr.
  destruct (skip_drain_cut m rx f now Hr (pool_inv_ok _ _ Hp) Hm) as (Hlo & Hlm & e' & (Hfl & Hfn & _) & Hc).
  cbn zeta in *. unfold overflow_flush, skip_to_lowest_and_drain.
  set (lowest := ring_lowest_seq _ _) in *.
  assert (expected f < lowest).
  { destruct (decide (lowest = expected f)) as [E|]; [|lia]. rewrite E, (fi_head _ _ Hv) in Hlm. by destruct Hlm. }
  rewrite (proj2 (Z.ltb_lt _ _)) by done.
  destruct (drain_contiguous rx (f <| expected := lowest |>) now) as [rx1 f1]. cbn [fst snd] in *.
  pose proof (cut_loose _ _ _ _ _ _ Hl Hc) as [Hc1 Hin1 Hm1 Hi1 Hg1].
  pose proof (cut_effect arr now _ _ _ _ _ _ Hp Hr Hc) as He1.
  pose proof (cut_expected _ _ _ _ _ _ Hc) as Hx1.
  set (f2 := f1 <| last_progress_us := now |>).
  destruct (settle gap_overflow_count arr now rx1 f2 (keep e' m)) as (Hv2 & He2 & Hx2 & Hlog2).
  { split; [by destruct Hc1|done..]. }
  { simpl. rewrite Hx1, keep_lookup. by case_decide. }
  { by eapply effect_pool_inv. }
  cbn zeta in *. destruct (period_start_if_needed rx1 (period_end_if_done gap_overflow_count f2) now) as [rx2 f3].
  cbn [fst snd] in *. exists rx2, f3, e'. simpl in Hx2.
  split_and!; [done|lia|done|congruence|done| |].
  - eapply effect_trans; [exact He1|]. eapply effect_trans; [|exact He2].
    apply effect_flow; auto; [by eapply effect_pool_inv|by split_and!].
  - rewrite Hlog2. apply (cut_log _ _ _ _ _ _ Hc).
Qed.

(** The stored copy of an ahead packet. *)
Definition stored (seq : Z) (pkt : list Z) (len now : Z) : slot :=
  Slot seq len (Some (take (Z.to_nat len) pkt)) now.

Lemma payload_stored seq pkt len now : payload (stored seq pkt len now) = take (Z.to_nat len) pkt.
Proof. unfold payload. simpl. rewrite take_take. f_equal. lia. Qed.

(** Bookkeeping that leaves the sequence state and the period counters alone. *)
Lemma flow_inv_ext f f' m :
  expected f' = expected f -> buffer f' = buffer f -> initialized f' = initialized f ->
  pass_through f' = pass_through f -> rx_next f' = rx_next f -> reord f' = reord f ->
  gap_timer_active f' = gap_timer_active f -> gap_stats (fstats f') = gap_stats (fstats f) ->
  flow_inv f m -> flow_inv f' m.
Proof.
  intros E1 E2 E3 E4 E5 E6 E7 E8%gap_stats_open [[] ? ? ? ? ?].
  split; [split|..]; rewrite ?E1, ?E2, ?E3, ?E4, ?E5, ?E6, ?E7, ?E8; done.
Qed.

(** A dropped packet only moves a counter that is not a period counter. *)
Lemma drop_ok c `{OtherCounter c} arr now rx f m :
  flow_inv f m -> pool_inv rx m ->
  flow_inv (stat_inc c f) m /\ effect arr now rx f m rx (stat_inc c f) m.
Proof.
  intros Hv Hp. split; [by apply (flow_inv_ext f), Hv; try done; apply other_counter_inc|].
  apply effect_flow; auto. by split_and!.
Qed.

(** The flow just after an ahead packet went into its ring. *)
Definition inserted (f : mqvpn_reorder_flow_t) (b : ring) (seq now : Z) : mqvpn_reorder_flow_t :=
  let f := f <| buffer := b |> <| last_progress_us := now |> in
  if rx_next f <? seq + 1 then f <| rx_next := seq + 1 |> else f.

Lemma inserted_frame f b seq now :
  let f' := inserted f b seq now in
  f' = f <| buffer := b |> <| last_progress_us := now |> <| rx_next := Z.max (rx_next f) (seq + 1) |>.
Proof.
  cbn zeta. unfold inserted. simpl. destruct (Z.ltb_spec (rx_next f) (seq + 1)).
  - by rewrite Z.max_r by lia.
  - by rewrite Z.max_l by lia.
Qed.

Lemma inserted_loose f m b seq pkt len now :
  flow_inv f m -> initialized f = true -> pass_through f = false -> expected f < seq ->
  let m' := <[seq := stored seq pkt len now]> m in
  rep b (expected f) m' -> flow_loose (inserted f b seq now) m'.
Proof.
  intros [[Hr Hf Hps He Hnx Hmx] Hfr Hh Ht Hm Hg] Hi Hpt Hw m' Hb.
  assert (Hin : is_Some (m' !! seq)) by (unfold m'; rewrite lookup_insert_eq; eauto).
  assert (Hold : forall s, is_Some (m !! s) -> is_Some (m' !! s)).
  { intros s Hs. apply lookup_insert_is_Some'. by right. }
  rewrite inserted_frame. split; [split|..]; simpl; try done.
  - by rewrite Hi.
  - by rewrite Hpt.
  - intros E. rewrite E, lookup_empty in Hin. by destruct Hin.
  - intros _. destruct (decide (seq + 1 <= rx_next f)).
    + rewrite Z.max_l by lia. apply Hold, Hnx. intros ->. specialize (He eq_refl). lia.
    + rewrite Z.max_r by lia. by replace (seq + 1 - 1) with seq by lia.
  - intros s [->|[_ Hs]]%lookup_insert_is_Some; [lia|]. specialize (Hmx _ Hs). lia.
  - rewrite Ht. intros Ha%bool_decide_eq_true. destruct (Hm Ha). lia.
  - rewrite Ht. intros Ha%bool_decide_eq_true _. apply Hold. by destruct (Hm Ha).
Qed.

Lemma insert_committed_ok al arr now rx f m seq pkt len :
  flow_inv f m -> pool_inv rx m -> initialized f = true -> pass_through f = false ->
  expected f < seq < expected f + rcap (buffer f) -> seq < SEQ_LIMIT -> m !! seq = None ->
  1 <= len <= UINT16_MAX -> pool_would_exhaust rx len = false -> arr seq (take (Z.to_nat len) pkt) ->
  exists rx' f' m' r, buffer_insert_committed al rx f seq pkt len now = (rx', f', r) /\
    flow_inv f' m' /\ effect arr now rx f m rx' f' m' /\ expected f' = expected f /\
    deliver_log rx' = deliver_log rx /\
    (r = REORDER_BUFFERED /\ m' = <[seq := stored seq pkt len now]> m \/
     r = REORDER_DROPPED_LIMIT /\ m' = m /\ (al_copy al = false \/ al_slots al = false)).
Proof.
  intros Hv Hp Hi Hpt Hw Hlim Hn Hlen Hex Harr. unfold buffer_insert_committed.
  pose proof (drop_ok pool_drop_count arr now rx f m Hv Hp) as [Hdv Hde].
  destruct (al_copy al) eqn:Ea; cbn [negb]; [|eexists _, _, m, _; split_and!; eauto].
  pose proof (fc_rep _ _ (fi_core _ _ Hv)) as Hr.
  pose proof (rep_insert (al_slots al) _ _ _ seq (take (Z.to_nat len) pkt) len now Hr Hn ltac:(lia) Hlim ltac:(lia)) as Hins.
  destruct (ring_insert _ _ _ _ _ _ _) as [b|]; [|eexists _, _, m, _; split_and!; eauto 6].
  destruct Hins as [Hb Hcap]. fold (stored seq pkt len now) in Hb. clear Hdv Hde.
  pose proof (inserted_loose f m b seq pkt len now Hv Hi Hpt (proj1 Hw) Hb) as Hl.
  set (m' := <[seq := stored seq pkt len now]> m) in *. cbn zeta in Hl.
  pose proof (rep_origin _ _ _ Hr). unfold pool_inv, SEQ_LIMIT, UINT16_MAX in *.
  assert (Hsum : sum_len m' = len + sum_len m) by (by apply sum_len_insert).
  pose proof (rep_sum_bounds _ _ _ Hr). unfold pool_would_exhaust in Hex.
  rewrite u64_small in Hex by lia. apply Z.ltb_ge in Hex. rewrite (u64_small (seq + 1)) by lia.
  set (rx1 := rx <| pool_bytes_used ::= fun n => u64 (n + len) |>).
  assert (Hpool : pool_bytes_used rx1 = pool_bytes_used rx + len) by (simpl; rewrite u64_small; lia).
  fold (inserted f b seq now). pose proof (inserted_frame f b seq now) as Ef. cbn zeta in Ef.
  set (f2 := inserted f b seq now) in *.
  destruct (period_start_inv arr now rx1 f2 m' Hl) as (Hv3 & He3 & Hx3 & Hlog3).
  { rewrite Ef. simpl. unfold m'. rewrite lookup_insert_ne by lia. apply Hv. }
  { split; [rewrite Hpool; simpl; lia|simpl; unfold UINT16_MAX; lia]. }
  { rewrite Ef. simpl. rewrite (fi_timer _ _ Hv). intros Ha%bool_decide_eq_true.
    split; [apply insert_non_empty|]. by destruct (fi_mark _ _ Hv Ha) as [[? _] _]. }
  cbn zeta in *. unfold f2, inserted in *. cbn zeta in *. destruct (period_start_if_needed rx1 _ now) as [rx3 f3].
  cbn [fst snd] in *. exists rx3, f3, m', REORDER_BUFFERED.
  split_and!; [done|done| |by rewrite Hx3, Ef|by rewrite Hlog3|by left].
  eapply effect_trans; [|exact He3]. rewrite Ef. split; simpl in *; try done; try lia.
  - exists []. rewrite app_nil_r. split; [done|]. split; constructor.
  - intros s x [[<- <-]|[_ Hx]]%lookup_insert_Some; [right; by rewrite payload_stored|by left].
Qed.

(** ** Processing one packet *)

Section packet.
Context (al : allocs) (arr : Z -> list Z -> Prop) (now seq : Z) (pkt : list Z) (len : Z).
Hypothesis Hseq : 0 <= seq < SEQ_LIMIT.
Hypothesis Hlen : 1 <= len <= UINT16_MAX.
Hypothesis Harr : arr seq (take (Z.to_nat len) pkt).

(** The result of a flow operation: the invariant again, and the effect. *)
Definition proc_ok (rx : mqvpn_reorder_rx_t) (f : mqvpn_reorder_flow_t) (m : gmap Z slot)
    (st : flow_state) : Prop :=
  exists m', flow_inv st.2 m' /\ effect arr now rx f m st.1 st.2 m'.

(** A flow that reorders. *)
Definition live (rx : mqvpn_reorder_rx_t) (f : mqvpn_reorder_flow_t) (m : gmap Z slot) : Prop :=
  flow_inv f m /\ pool_inv rx m /\ initialized f = true /\ pass_through f = false.

Lemma live_effect rx f m rx' f' m' :
  live rx f m -> flow_inv f' m' -> effect arr now rx f m rx' f' m' -> live rx' f' m'.
Proof.
  intros (Hv & Hp & Hi & Hpt) Hv' He. destruct (ef_f _ _ _ _ _ _ _ _ He) as (_ & _ & _ & Hi' & Hp' & _).
  split_and!; [done|by eapply effect_pool_inv|auto|congruence].
Qed.

Lemma proc_ok_trans rx f m rx' f' m' st :
  effect arr now rx f m rx' f' m' -> proc_ok rx' f' m' st -> proc_ok rx f m st.
Proof. intros He (m2 & Hv & He2). exists m2. split; [done|]. by eapply effect_trans. Qed.

Lemma far_ahead_spec f m : rep (buffer f) (expected f) m -> expected f <= seq ->
  ring_far_ahead (buffer f) seq (expected f) = false -> seq < expected f + rcap (buffer f).
Proof.
  intros Hr Hle. pose proof (rep_origin _ _ _ Hr). unfold ring_far_ahead, SEQ_LIMIT in *.
  rewrite u64_small by lia. intros ?%Z.leb_gt. lia.
Qed.

Lemma contains_spec f m : rep (buffer f) (expected f) m ->
  ring_contains (buffer f) seq = bool_decide (is_Some (m !! seq)).
Proof. intros Hr. apply (rep_contains _ _ _ _ Hr). unfold SEQ_LIMIT in Hseq. lia. Qed.

Lemma insert_proc_ok rx f m :
  live rx f m -> expected f < seq < expected f + rcap (buffer f) -> m !! seq = None ->
  pool_would_exhaust rx len = false ->
  proc_ok rx f m (buffer_insert_committed al rx f seq pkt len now).1.
Proof.
  intros (Hv & Hp & Hi & Hpt) Hw Hn Hex.
  destruct (insert_committed_ok al arr now rx f m seq pkt len) as (rx' & f' & m' & r & -> & Hv' & He & _);
    [done..|lia|done|done|done|done|]. by exists m'.
Qed.

Lemma reclassify_ok rx f m :
  live rx f m ->
  let st := reclassify_after_flush rx f seq pkt len now in
  proc_ok rx f m st.1 /\
  (st.2 = REORDER_BUFFERED -> st.1 = (rx, f) /\ m !! seq = None /\
     expected f < seq < expected f + rcap (buffer f)).
Proof.
  intros (Hv & Hp & Hi & Hpt). pose proof (fc_rep _ _ (fi_core _ _ Hv)) as Hr.
  cbn zeta. unfold reclassify_after_flush.
  destruct (Z.ltb_spec seq (expected f)).
  { split; [exists m; by apply (drop_ok too_late_drop_count)|done]. }
  destruct (Z.eqb_spec seq (expected f)) as [E|].
  { destruct (deliver_in_order_ok arr now rx f m pkt len Hv Hp) as (rx' & f' & e' & -> & _ & _ & Hv' & He & _);
      [lia|done|by rewrite <- E|]. split; [by exists (keep e' m)|done]. }
  destruct (ring_far_ahead _ _ _) eqn:Efa.
  { split; [exists m; by apply (drop_ok too_far_ahead_drop_count)|done]. }
  rewrite (contains_spec f m Hr). case_bool_decide as Hc.
  { split; [exists m; by apply (drop_ok duplicate_drop_count)|done]. }
  split; [exists m; split; [done|by apply effect_refl]|]. intros _.
  pose proof (far_ahead_spec f m Hr ltac:(lia) Efa).
  split_and!; [done|by apply eq_None_not_Some|lia|lia].
Qed.

(** Flush, reclassify, and go on if the packet is still ahead. *)
Lemma flush_then_ok rx f m (k : mqvpn_reorder_rx_t -> mqvpn_reorder_flow_t -> process_state) :
  live rx f m -> m <> ∅ ->
  (forall rx' f' m', live rx' f' m' -> m' !! seq = None ->
     expected f' < seq < expected f' + rcap (buffer f') -> proc_ok rx' f' m' (k rx' f').1) ->
  proc_ok rx f m
    (let '(rx, f) := overflow_flush rx f now in
     match reclassify_after_flush rx f seq pkt len now with
     | (rx, f, REORDER_BUFFERED) => k rx f
     | r => r
     end).1.
Proof.
  intros Hlive Hm Hk. destruct Hlive as (Hv & Hp & Hi & Hpt) eqn:E. clear E.
  destruct (overflow_flush_ok arr now rx f m Hv Hp Hm) as (rx1 & f1 & e' & -> & _ & _ & _ & Hv1 & He1 & _).
  eapply proc_ok_trans; [exact He1|].
  pose proof (live_effect _ _ _ _ _ _ Hlive Hv1 He1) as Hl1.
  pose proof (reclassify_ok rx1 f1 (keep e' m) Hl1) as [Hok Hb]. cbn zeta in *.
  destruct (reclassify_after_flush rx1 f1 seq pkt len now) as [[rx2 f2] []]; try done.
  destruct (Hb eq_refl) as ([= -> ->] & Hn & Hw). by apply Hk.
Qed.

Lemma live_ring_empty rx f m : live rx f m -> ring_empty (buffer f) = bool_decide (m = ∅).
Proof. intros (Hv & _). apply (rep_ring_empty _ _ _ (fc_rep _ _ (fi_core _ _ Hv))). Qed.

Lemma pool_admit_ok rx f m :
  live rx f m -> expected f < seq < expected f + rcap (buffer f) -> m !! seq = None ->
  proc_ok rx f m (pool_admit al rx f seq pkt len now).1.
Proof.
  intros Hl Hw Hn. unfold pool_admit. destruct (pool_would_exhaust rx len) eqn:Ex; [|by apply insert_proc_ok].
  rewrite (live_ring_empty _ _ _ Hl). case_bool_decide as Em.
  - exists m. destruct Hl as (? & ? & _). by apply (drop_ok pool_drop_count).
  - apply (flush_then_ok rx f m (fun rx f => if pool_would_exhaust rx len then _ else _)); [done..|].
    intros rx' f' m' Hl' Hn' Hw'. destruct (pool_would_exhaust rx' len) eqn:Ex'.
    + exists m'. destruct Hl' as (? & ? & _). by apply (drop_ok pool_drop_count).
    + by apply insert_proc_ok.
Qed.

Lemma buffer_admit_ok rx f m :
  live rx f m -> expected f < seq < expected f + rcap (buffer f) ->
  proc_ok rx f m (buffer_admit al rx f seq pkt len now).1.
Proof.
  intros Hl Hw. destruct Hl as (Hv & Hp & Hi & Hpt) eqn:E. clear E. unfold buffer_admit.
  rewrite (contains_spec f m (fc_rep _ _ (fi_core _ _ Hv))). case_bool_decide as Hc.
  { exists m. by apply (drop_ok duplicate_drop_count). }
  apply eq_None_not_Some in Hc. destruct (would_exceed_per_flow_limits rx f len); [|by apply pool_admit_ok].
  rewrite (live_ring_empty _ _ _ Hl). case_bool_decide as Em.
  - exists m. by apply (drop_ok per_flow_limit_drop_count).
  - apply (flush_then_ok rx f m (fun rx f => pool_admit al rx f seq pkt len now)); [done..|].
    intros. by apply pool_admit_ok.
Qed.

(** The first packet of an epoch, on a flow with nothing buffered. *)
Lemma start_epoch_ok rx f m :
  flow_core f m -> m = ∅ -> rx_next f <= 0 -> pass_through f = false -> gap_timer_active f = false ->
  open_periods (fstats f) = 0 ->
  (forall e, 0 <= e <= SEQ_LIMIT -> rep (buffer f) e ∅) ->
  let st := start_epoch rx f seq pkt len now in
  flow_inv st.2 ∅ /\ expected st.2 = seq + 1 /\ initialized st.2 = true /\
  st.1 = rx_deliver rx pkt len /\ last_progress_us st.2 = now /\ gap_timer_active st.2 = false /\
  flow_frame f st.2.
Proof.
  intros [Hr Hf Hpt He Hn Hx] -> Hnx Hp Ht Hg Hany. cbn zeta. unfold start_epoch. unfold SEQ_LIMIT in *.
  destruct (deliver_pkt_frame rx pkt len (f <| initialized := true |> <| expected := seq |>) now now) as (E1 & E2 & E3).
  destruct (deliver_pkt _ _ _ _ _ _) as [rx1 f1]. cbn [fst snd] in *. subst rx1. rewrite E2. simpl.
  rewrite u64_small by lia. split_and!; try done. split; simpl.
  - split; simpl; try done; [apply Hany; lia|lia].
  - done.
  - by rewrite lookup_empty.
  - rewrite Ht. symmetry. apply bool_decide_eq_false_2. auto.
  - done.
  - rewrite (gap_stats_open _ _ E3). simpl. by rewrite Hg, Ht.
Qed.

Lemma process_ok rx f m :
  flow_inv f m -> pool_inv rx m -> pass_through f = false ->
  let st := process_reorder_packet al rx f seq pkt len now in
  proc_ok rx f m st.1 /\ initialized st.1.2 = true.
Proof.
  intros Hv Hp Hpt. cbn zeta. unfold process_reorder_packet. pose proof (fi_core _ _ Hv) as Hc.
  destruct (initialized f) eqn:Hi; cbn [negb].
  - assert (Hl : live rx f m) by done. pose proof (fc_rep _ _ Hc) as Hr.
    assert (Hgo : forall st : process_state, proc_ok rx f m st.1 -> proc_ok rx f m st.1 /\ initialized st.1.2 = true).
    { intros st Hst. split; [done|]. destruct Hst as (m' & _ & He).
      by apply (ef_f _ _ _ _ _ _ _ _ He). }
    apply Hgo. destruct (Z.eqb_spec seq (expected f)) as [E|].
    { destruct (deliver_in_order_ok arr now rx f m pkt len Hv Hp) as (rx' & f' & e' & -> & _ & _ & Hv' & He & _);
        [lia|done|by rewrite <- E|]. by exists (keep e' m). }
    destruct (Z.ltb_spec seq (expected f)).
    { exists m; by apply (drop_ok too_late_drop_count). }
    destruct (ring_far_ahead _ _ _) eqn:Efa.
    { exists m; by apply (drop_ok too_far_ahead_drop_count). }
    apply buffer_admit_ok; [done|]. pose proof (far_ahead_spec f m Hr ltac:(lia) Efa). lia.
  - destruct (fc_fresh _ _ Hc Hi) as (-> & Hnx & _). pose proof (fi_timer _ _ Hv) as Ht.
    rewrite bool_decide_eq_false_2 in Ht by auto.
    pose proof (fi_gap _ _ Hv) as Hg. rewrite Ht in Hg.
    destruct (start_epoch_ok rx f ∅) as (Hv' & Hex & Hi' & Hrx & Hpr & Ht' & Hfr); [done..| |].
    { intros e He. eapply rep_advance; [apply (fc_rep _ _ Hc)|rewrite (fi_fresh _ _ Hv Hi); lia|].
      intros s [? Hs]. by rewrite lookup_empty in Hs. }
    cbn zeta in *. destruct (start_epoch _ _ _ _ _ _) as [rx1 f1]. cbn [fst snd] in *. subst rx1.
    split; [|done]. exists ∅. split; [done|].
    apply (effect_deliver arr now rx f ∅ f1 pkt len seq); [done..| | |by right].
    + rewrite Hex, (fi_fresh _ _ Hv Hi). lia.
    + by rewrite Ht'.
Qed.
End packet.

(** ** Gap timeout *)

Lemma on_gap_timeout_ok arr now rx f m :
  flow_inv f m -> pool_inv rx m -> m <> ∅ ->
  exists rx' f' e', on_gap_timeout rx f now = (rx', f') /\
    first_missing m (reord f) e' /\ expected f' = e' /\ flow_inv f' (keep e' m) /\
    effect arr now rx f m rx' f' (keep e' m) /\
    deliver_log rx' = deliver_log rx ++ pkts m (expected f) e' /\
    last_progress_us f' = now /\ gap_bound rx' f' /\
    (gap_timer_active f' = true -> gap_deadline_us f' = u64 (now + u64 (wait_ms f * 1000))).
Proof.
  intros Hv Hp Hm. pose proof (inv_init _ _ Hv Hm) as Hin.
  destruct Hv as [Hc Hfr Hh Ht Hmk Hg]. destruct (Hmk Hm) as [Hmk1 Hmk2].
  rewrite bool_decide_eq_true_2 in Ht by done. rewrite Ht in Hg.
  pose proof (fc_rep _ _ Hc) as Hr. unfold on_gap_timeout. rewrite (rep_ring_empty _ _ _ Hr), bool_decide_eq_false_2 by done.
  set (f1 := stat_inc gap_timeout_count f).
  assert (Hc1 : flow_core f1 m) by (by destruct Hc).
  assert (Hg1 : open_periods (fstats f1) = 0).
  { etrans; [exact (end_counter_inc (fstats f))|]. by rewrite Hg. }
  destruct (timeout_loop_cut (S (Z.to_nat (rcount (buffer f1)))) m rx f1 now) as (e' & Hfm & Hcut); try done.
  { by apply pool_inv_ok. }
  { simpl. rewrite (rep_count _ _ _ Hr). lia. }
  cbn zeta in *. change (reord f1) with (reord f) in Hfm. change (expected f1) with (expected f) in Hfm.
  rewrite Z.max_l in Hfm by lia.
  destruct (timeout_loop _ rx f1 now) as [rx2 f2]. cbn [fst snd] in *.
  pose proof (cut_effect arr now _ _ _ _ _ _ Hp (fc_rep _ _ Hc1) Hcut) as He2.
  pose proof (cut_core _ _ _ _ _ _ Hc1 Hcut) as Hc2. pose proof (cut_f _ _ _ _ _ _ Hcut) as Ef.
  set (f3 := stop_gap_timer (f2 <| last_progress_us := now |>)).
  pose proof (effect_pool_inv _ _ _ _ _ _ _ _ Hp He2) as Hp2.
  destruct (period_start_inv arr now rx2 f3 (keep e' m)) as (Hv4 & He4 & Hx4 & Hlog4); [|..|done|done|].
  { split; simpl; [by destruct Hc2|by rewrite Ef|done|done|].
    by rewrite (gap_stats_open _ _ (cut_gap _ _ _ _ _ _ Hcut)). }
  { simpl. rewrite (cut_expected _ _ _ _ _ _ Hcut), keep_lookup.
    destruct Hfm as (_ & ? & _). by case_decide. }
  cbn zeta in *. exists (period_start_if_needed rx2 f3 now).1, (period_start_if_needed rx2 f3 now).2, e'.
  split_and!; [by destruct (period_start_if_needed rx2 f3 now)|done| |done| | | | |].
  - rewrite Hx4. apply (cut_expected _ _ _ _ _ _ Hcut).
  - eapply (effect_trans _ _ _ _ m _ f1 m); [by apply effect_flow; auto; split_and!|].
    eapply effect_trans; [exact He2|]. eapply effect_trans; [|exact He4].
    apply effect_flow; auto; [by split_and!|done].
  - rewrite Hlog4. apply (cut_log _ _ _ _ _ _ Hcut).
  - unfold period_start_if_needed. by case_match.
  - by apply (ef_gap _ _ _ _ _ _ _ _ He4).
  - unfold period_start_if_needed. case_match; [|done]. simpl. by rewrite Ef.
Qed.
End inv.
