(* ===== verification/RxStep.v ===== *)
(** * Whole flow operations: reset, demotion, dispatch

    The remaining flow operations of [ReorderRx] on top of [RxInv]: discarding
    the buffer on a reset, flushing it on a demotion, and the dispatch
    [on_reordered].  Every one preserves the flow invariant; outside resets
    and demotions everything is delivered in ascending order. *)

From stdpp Require Import list_numbers.
From S2P Require Import Prelude Wire Ring ReorderRx RxFlow RxInv.

(** ** Releasing the whole buffer *)

Definition sum_lens (l : list slot) : Z := foldr (fun s acc => s_len s + acc) 0 l.

Lemma sum_lens_perm l k : l ≡ₚ k -> sum_lens l = sum_lens k.
Proof. induction 1; simpl; lia. Qed.

Lemma sum_len_list m : sum_len m = sum_lens (map_to_list m).*2.
Proof.
  unfold sum_len. rewrite map_fold_foldr. induction (map_to_list m) as [|[k x] l IH]; [done|].
  simpl. by rewrite IH.
Qed.

(** The loop over the slot array releases the occupied slots' bytes. *)
Lemma release_slots l rx :
  Forall (fun s => occupied s = true -> 0 <= s_len s) l ->
  sum_lens (List.filter occupied l) <= pool_bytes_used rx < 2 ^ 64 ->
  fold_left (fun rx s => if occupied s then pool_release rx (s_len s) else rx) l rx =
  rx <| pool_bytes_used := pool_bytes_used rx - sum_lens (List.filter occupied l) |>.
Proof.
  intros Hl. revert rx. induction Hl as [|s l Hs Hl IH]; intros rx Hp; simpl.
  { rewrite Z.sub_0_r. by destruct rx. }
  assert (Hn : 0 <= sum_lens (List.filter occupied l)).
  { clear IH Hp. induction Hl as [|t l Ht Hl IH]; simpl; [done|].
    destruct (occupied t); simpl; [specialize (Ht eq_refl)|]; lia. }
  simpl in Hp. destruct (occupied s) eqn:Ho; simpl in Hp; [specialize (Hs eq_refl)|by apply IH].
  rewrite pool_release_covered, IH by (simpl; lia). simpl. f_equal. lia.
Qed.

Section step.
Context {RS : RingSpec}.

Lemma rep_occupied_slots r e m :
  rep r e m -> sum_lens (occupied_slots r) = sum_len m /\
  Forall (fun s => 0 <= s_len s) (occupied_slots r).
Proof.
  intros Hr. pose proof (rep_slots _ _ _ Hr) as Hperm. split.
  - by rewrite sum_len_list, (sum_lens_perm _ _ Hperm).
  - rewrite Hperm. apply Forall_fmap, Forall_forall. intros [s x] Hx%elem_of_map_to_list. simpl.
    by apply (rep_slot _ _ _ _ _ Hr Hx).
Qed.

Lemma release_ring r e m rx l :
  rep r e m -> pool_ok rx m -> slots r = Some l ->
  fold_left (fun rx s => if occupied s then pool_release rx (s_len s) else rx) l rx =
  rx <| pool_bytes_used := pool_bytes_used rx - sum_len m |>.
Proof.
  intros Hr Hp Hl. destruct (rep_occupied_slots _ _ _ Hr) as [Hs Hf]. unfold occupied_slots in *.
  rewrite Hl in Hs, Hf. rewrite <- Hs. apply release_slots; [|by rewrite Hs].
  rewrite Forall_forall in Hf. apply Forall_forall. intros s Hin Ho. apply Hf.
  apply list_elem_of_In, List.filter_In. split; [by apply list_elem_of_In|done].
Qed.

(** A ring without an array holds nothing. *)
Lemma rep_no_slots r e m : rep r e m -> slots r = None -> sum_len m = 0.
Proof.
  intros Hr Hn. destruct (rep_occupied_slots _ _ _ Hr) as [<- _]. unfold occupied_slots. by rewrite Hn.
Qed.

Lemma flow_destroy_ok rx f m :
  rep (buffer f) (expected f) m -> pool_ok rx m ->
  flow_destroy rx f =
    rx <| evicted_stats := mqvpn_reorder_stats_accumulate (evicted_stats rx) (fstats f) |>
       <| pool_bytes_used := pool_bytes_used rx - sum_len m |>.
Proof.
  intros Hr Hp. unfold flow_destroy. destruct (slots (buffer f)) as [l|] eqn:Hl.
  - by erewrite (release_ring _ _ _ _ l Hr) by done.
  - rewrite (rep_no_slots _ _ _ Hr Hl), Z.sub_0_r. by destruct rx.
Qed.

(** ** Reset *)

Lemma discard_fold l rx f :
  exists st, fold_left discard_slot l (rx, f) =
    (fold_left (fun rx s => if occupied s then pool_release rx (s_len s) else rx) l rx, f <| fstats := st |>) /\
    gap_stats st = gap_stats (fstats f).
Proof.
  revert rx f. induction l as [|s l IH]; intros rx f; simpl.
  - exists (fstats f). by destruct f.
  - destruct (occupied s).
    + destruct (IH (pool_release rx (s_len s)) (stat_inc reset_discard_count f)) as (st & -> & Hg).
      exists st. split; [done|]. rewrite Hg. apply other_counter_inc.
    + apply IH.
Qed.

(** The buffer is discarded: nothing is delivered, the pool is credited with
    all of it, and an armed period ends. *)
Lemma reset_flow_ok rx f m :
  flow_inv f m -> pool_ok rx m ->
  exists rx' f', reset_reorder_flow rx f = (rx', f') /\
    rx' = rx <| pool_bytes_used := pool_bytes_used rx - sum_len m |> /\
    f' = f <| fstats := fstats f' |> <| gap_timer_active := false |> <| rx_next := 0 |> <| reord := 0 |>
           <| buffer ::= ring_free |> <| pass_through := false |> <| classify_seen := 0 |>
           <| classify_large := 0 |> /\
    open_periods (fstats f') = 0.
Proof.
  intros Hv Hp. pose proof (fc_rep _ _ (fi_core _ _ Hv)) as Hr.
  unfold reset_reorder_flow, discard_buffer_for_reset.
  set (f1 := if gap_timer_active f then stat_inc gap_reset_count f else f).
  assert (Hg1 : open_periods (fstats f1) = 0).
  { unfold f1. pose proof (fi_gap _ _ Hv) as Hg. destruct (gap_timer_active f); [|done].
    etrans; [exact (end_counter_inc (fstats f))|]. by rewrite Hg. }
  assert (Hf1 : f1 = f <| fstats := fstats f1 |>) by (unfold f1; destruct f; by case_match).
  assert (Hb : buffer f1 = buffer f) by (by rewrite Hf1). rewrite Hb.
  destruct (slots (buffer f)) as [l|] eqn:Hl.
  - destruct (discard_fold l rx f1) as (st & -> & Hst). eexists _, _. split; [done|].
    rewrite (release_ring _ _ _ _ l Hr Hp Hl). split_and!; [done| |].
    + rewrite Hf1. by destruct f.
    + simpl. by rewrite (gap_stats_open _ _ Hst).
  - eexists _, _. split; [done|]. rewrite (rep_no_slots _ _ _ Hr Hl), Z.sub_0_r. split_and!; [by destruct rx| |done].
    rewrite Hf1. by destruct f.
Qed.

(** ** Summary of an operation for the table *)

Record summary (now : Z) (rx : mqvpn_reorder_rx_t) (f : mqvpn_reorder_flow_t) (m : gmap Z slot)
    (rx' : mqvpn_reorder_rx_t) (f' : mqvpn_reorder_flow_t) (m' : gmap Z slot) : Prop := {
  sm_pool : pool_bytes_used rx' - sum_len m' = pool_bytes_used rx - sum_len m;
  sm_bound : pool_bytes_used rx' <= global_max_buffer_bytes (cfg rx);
  sm_rx : rx_frame rx rx';
  sm_f : f_key f' = f_key f /\ wait_ms f' = wait_ms f /\ rcap (buffer f') = rcap (buffer f);
  sm_gap : gap_bound rx f -> gap_bound rx' f';
  sm_progress : last_progress_us f' = last_progress_us f \/ last_progress_us f' = now
}.

Lemma effect_summary arr now rx f m rx' f' m' :
  effect arr now rx f m rx' f' m' -> summary now rx f m rx' f' m'.
Proof. intros [? ? ? (? & ? & ? & _) ? ? ? ? ?]. by split. Qed.

Lemma summary_trans now rx f m rx1 f1 m1 rx2 f2 m2 :
  summary now rx f m rx1 f1 m1 -> summary now rx1 f1 m1 rx2 f2 m2 -> summary now rx f m rx2 f2 m2.
Proof.
  intros [P1 B1 X1 (K1 & W1 & C1) G1 R1] [P2 B2 X2 (K2 & W2 & C2) G2 R2]. split.
  - lia.
  - by rewrite (rx_frame_cfg _ _ X1) in B2.
  - by eapply rx_frame_trans.
  - split_and!; congruence.
  - auto.
  - destruct R2 as [->| ->]; [done|by right].
Qed.

(** The ordering half of an effect. *)
Record ordered (arr : Z -> list Z -> Prop) (rx : mqvpn_reorder_rx_t) (f : mqvpn_reorder_flow_t)
    (m : gmap Z slot) (rx' : mqvpn_reorder_rx_t) (f' : mqvpn_reorder_flow_t) (m' : gmap Z slot) : Prop := {
  or_le : expected f <= expected f';
  or_out : exists ds, deliver_log rx' = deliver_log rx ++ ds.*2 /\ run arr m (expected f) (expected f') ds;
  or_left s x : m' !! s = Some x -> m !! s = Some x \/ arr s (payload x)
}.

Lemma effect_ordered arr now rx f m rx' f' m' :
  effect arr now rx f m rx' f' m' -> ordered arr rx f m rx' f' m'.
Proof. intros []. by split. Qed.

Lemma ordered_trans arr rx f m rx1 f1 m1 rx2 f2 m2 :
  ordered arr rx f m rx1 f1 m1 -> ordered arr rx1 f1 m1 rx2 f2 m2 -> ordered arr rx f m rx2 f2 m2.
Proof.
  intros [L1 (d1 & O1 & U1) M1] [L2 (d2 & O2 & U2) M2]. split.
  - lia.
  - exists (d1 ++ d2). rewrite O2, O1, fmap_app, app_assoc. split; [done|].
    eapply run_app; [|exact M1|done|done]. lia.
  - intros s x Hx. destruct (M2 _ _ Hx) as [Hx'|]; [eauto|by right].
Qed.

(** A step that only relabels the flow. *)
Lemma ordered_relabel arr rx f m f' m' :
  expected f' = expected f -> (forall s x, m' !! s = Some x -> m !! s = Some x) ->
  ordered arr rx f m rx f' m'.
Proof.
  intros He Hm. split; [lia| |auto]. exists []. rewrite app_nil_r. split; [done|]. split; constructor.
Qed.

(** ** Demotion *)

Definition demoted (f : mqvpn_reorder_flow_t) : mqvpn_reorder_flow_t :=
  stat_inc ack_demote_count (f <| pass_through := true |>).

Lemma demote_ok arr now rx f m :
  flow_inv f m -> pool_inv rx m -> initialized f = true -> 
  let st := flush_buffer_for_demote rx f now in
  flow_inv (demoted st.2) ∅ /\ summary now rx f m st.1 (demoted st.2) ∅ /\
  ordered arr rx f m st.1 (demoted st.2) ∅ /\ initialized st.2 = true /\
  deliver_log st.1 = deliver_log rx ++ pkts m (expected f) (expected st.2).
Proof.
  intros Hv Hp Hin. destruct Hv as [Hc Hfr Hh Ht Hmk Hg].
  unfold flush_buffer_for_demote. cbn zeta.
  set (f1 := if gap_timer_active f then stat_inc gap_demote_count f else f).
  assert (Hg1 : open_periods (fstats f1) = 0).
  { unfold f1. destruct (gap_timer_active f); [|done].
    etrans; [exact (end_counter_inc (fstats f))|]. by rewrite Hg. }
  assert (Hf1 : f1 = f <| fstats := fstats f1 |>) by (unfold f1; destruct f; by case_match).
  assert (Hc1 : flow_core f1 m) by (rewrite Hf1; by destruct Hc).
  assert (He1 : effect arr now rx f m rx f1 m).
  { unfold f1. destruct (gap_timer_active f); [|by apply effect_refl].
    apply effect_flow; auto. by split_and!. }
  pose proof (fc_rep _ _ Hc1) as Hr1.
  destruct (demote_loop_cut (S (Z.to_nat (rcount (buffer f1)))) m rx f1 now) as (e' & Hk & Hcut); [done|by apply pool_inv_ok| |].
  { rewrite (rep_count _ _ _ Hr1). lia. }
  cbn zeta in *. destruct (demote_loop _ rx f1 now) as [rx2 f2]. cbn [fst snd] in *.
  pose proof (cut_effect arr now _ _ _ _ _ _ Hp Hr1 Hcut) as He2.
  pose proof (cut_core _ _ _ _ _ _ Hc1 Hcut) as Hc2. pose proof (cut_f _ _ _ _ _ _ Hcut) as Ef.
  rewrite Hk in *. pose proof (effect_trans _ _ _ _ _ _ _ _ _ _ _ He1 He2) as He.
  set (f3 := stop_gap_timer (f2 <| last_progress_us := now |>) <| buffer ::= ring_free |>).
  assert (Hcap : rcap (buffer f3) = rcap (buffer f2)) by done.
  split_and!.
  - split; simpl.
    + destruct Hc2. split; simpl; try done; [|by rewrite Ef, Hf1; simpl; rewrite Hin].
      eapply rep_free; [done|]. by eapply rep_origin.
    + by rewrite Ef, Hf1; simpl; rewrite Hin.
    + by rewrite lookup_empty.
    + symmetry. apply bool_decide_eq_false_2. auto.
    + done.
    + etrans; [exact (gap_stats_open _ _ (other_counter_inc (c := ack_demote_count) (fstats f2)))|].
      by rewrite (gap_stats_open _ _ (cut_gap _ _ _ _ _ _ Hcut)).
  - eapply summary_trans; [by eapply effect_summary|]. pose proof (effect_pool_inv _ _ _ _ _ _ _ _ Hp He) as [? ?].
    split; simpl; try done; [lia|apply rx_frame_refl|by right].
  - eapply ordered_trans; [by eapply effect_ordered|]. by apply ordered_relabel.
  - by rewrite Ef, Hf1.
  - simpl. rewrite (cut_log _ _ _ _ _ _ Hcut), (cut_expected _ _ _ _ _ _ Hcut). by rewrite Hf1.
Qed.

Lemma classify_frame rx f pkt len :
  let f' := (classify_update rx f pkt len).1 in
  f' = f <| classify_seen := classify_seen f' |> <| classify_large := classify_large f' |> /\
  (0 <= classify_seen f -> 0 <= classify_seen f').
Proof.
  cbn zeta. split; [unfold classify_update; destruct f; repeat case_match; done|].
  intros H. unfold classify_update. repeat case_match; simplify_eq; simpl; try done;
    apply Z.mod_pos_bound; lia.
Qed.

(** ** Dispatch *)

Section dispatch.
Context (al : allocs) (arr : Z -> list Z -> Prop) (now seq flags : Z) (pkt : list Z) (len : Z).
Hypothesis Hseq : 0 <= seq < SEQ_LIMIT.
Hypothesis Hlen : 1 <= len <= UINT16_MAX.
Hypothesis Harr : arr seq (take (Z.to_nat len) pkt).

(** An honoured reset discards the old epoch and starts one at [seq]. *)
Lemma reset_epoch_ok rx f m :
  flow_inv f m -> pool_inv rx m ->
  let st := (let '(rx, f) := reset_reorder_flow rx f in start_epoch rx f seq pkt len now) in
  flow_inv st.2 ∅ /\ summary now rx f m st.1 st.2 ∅ /\ initialized st.2 = true /\
  expected st.2 = seq + 1 /\ pass_through st.2 = false /\
  deliver_log st.1 = deliver_log rx ++ [take (Z.to_nat len) pkt].
Proof.
  intros Hv Hp. destruct (reset_flow_ok rx f m Hv (pool_inv_ok _ _ Hp)) as (rx1 & f1 & -> & Hrx & Hf & Hg).
  cbn zeta. pose proof (fi_core _ _ Hv) as Hc. pose proof (fc_rep _ _ Hc) as Hr.
  assert (Hany : forall e, 0 <= e <= SEQ_LIMIT -> rep (buffer f1) e ∅).
  { intros e He. rewrite Hf. simpl. by eapply rep_free. }
  destruct (start_epoch_ok now seq pkt len Hseq rx1 f1 ∅) as (Hv' & Hx & Hi & Hrx' & Hpr & Ht & Hfr);
    [|done|by rewrite Hf..|done|done|].
  { rewrite Hf. simpl. pose proof (rep_origin _ _ _ Hr).
    split; simpl; try done; [by eapply rep_free|lia|]. intros s [? Hs]. by rewrite lookup_empty in Hs. }
  cbn zeta in *. destruct (start_epoch rx1 f1 seq pkt len now) as [rx2 f2]. cbn [fst snd] in *.
  destruct Hfr as (Hk & Hw & Hcp & _ & Hpt & _). rewrite Hrx', Hrx. pose proof (rep_sum_bounds _ _ _ Hr). destruct Hp.
  split_and!; [done| |done|done| |done].
  - split; simpl.
    + change (sum_len ∅) with 0. lia.
    + lia.
    + split; [by destruct rx|simpl; lia].
    + rewrite Hk, Hw, Hcp, Hf. done.
    + unfold gap_bound. by rewrite Ht.
    + by right.
  - by rewrite Hpt, Hf.
Qed.

Lemma pass_ok rx f m :
  flow_inv f m -> pool_inv rx m ->
  let st := (let '(rx, f) := deliver_pkt rx pkt len f now now in (rx, f <| last_progress_us := now |>)) in
  flow_inv st.2 m /\ summary now rx f m st.1 st.2 m /\ initialized st.2 = initialized f.
Proof.
  intros Hv [Hp ?]. destruct (deliver_pkt_frame rx pkt len f now now) as (E1 & E2 & E3).
  destruct (deliver_pkt _ _ _ _ _ _) as [rx1 f1]. cbn [fst snd] in *. subst rx1. split_and!.
  - apply (flow_inv_ext f); first [exact Hv|exact E3|by rewrite E2].
  - split; simpl; try done; try lia.
    + by rewrite E2.
    + unfold gap_bound. simpl. rewrite E2. done.
  - by rewrite E2.
Qed.

Lemma on_reordered_ok rx f m :
  flow_inv f m -> pool_inv rx m ->
  let st := on_reordered al rx f seq flags pkt len now in
  exists m', flow_inv st.2 m' /\ summary now rx f m st.1 st.2 m' /\
    (initialized f = true \/ reset_honored rx f flags now = true \/ pass_through f = false -> initialized st.2 = true) /\
    (reset_honored rx f flags now = false -> pass_through f = false -> ordered arr rx f m st.1 st.2 m').
Proof.
  intros Hv Hp. cbn zeta. unfold on_reordered. set (f1 := f <| last_seen_us := now |>).
  assert (Hv1 : flow_inv f1 m) by (by apply (flow_inv_ext f)).
  assert (He1 : effect arr now rx f m rx f1 m) by (apply effect_flow; auto; by split_and!).
  change (reset_honored rx f flags now) with (reset_honored rx f1 flags now).
  change (pass_through f) with (pass_through f1). change (initialized f) with (initialized f1).
  destruct (reset_honored rx f1 flags now).
  { destruct (reset_epoch_ok rx f1 m Hv1 Hp) as (Hv2 & Hs2 & Hi2 & _). exists ∅.
    split_and!; [done| |done|done]. eapply summary_trans; [by eapply effect_summary|done]. }
  destruct (pass_through f1) eqn:Hpt.
  { destruct (pass_ok rx f1 m Hv1 Hp) as (Hv2 & Hs2 & Hi2). exists m.
    split_and!; [done| | |done].
    - eapply summary_trans; [by eapply effect_summary|done].
    - rewrite Hi2. by intros [?|[?|?]]. }
  destruct (process_ok al arr now seq pkt len Hseq Hlen Harr rx f1 m Hv1 Hp Hpt) as [(m2 & Hv2 & He2) Hi2].
  cbn zeta in *. destruct (process_reorder_packet al rx f1 seq pkt len now) as [[rx2 f2] res]. cbn [fst snd] in *.
  pose proof (effect_trans _ _ _ _ _ _ _ _ _ _ _ He1 He2) as He.
  pose proof (effect_pool_inv _ _ _ _ _ _ _ _ Hp He) as Hp2.
  destruct (feeds_classifier res); [|exists m2; split_and!; eauto using effect_summary, effect_ordered].
  pose proof (classify_frame rx2 f2 pkt len) as [Hcf Hcs]. cbn zeta in Hcf, Hcs.
  destruct (classify_update rx2 f2 pkt len) as [f3 r]. cbn [fst] in Hcf, Hcs.
  assert (Hv3 : flow_inv f3 m2) by (apply (flow_inv_ext f2); first [exact Hv2|by rewrite Hcf]).
  assert (He3 : effect arr now rx f m rx2 f3 m2).
  { eapply effect_trans; [exact He|]. rewrite Hcf. apply effect_flow; auto. by split_and!; auto. }
  assert (Hi3 : initialized f3 = true) by (by rewrite Hcf).
  destruct r; [exists m2; split_and!; eauto using effect_summary, effect_ordered|].
  destruct (demote_ok arr now rx2 f3 m2 Hv3 Hp2 Hi3) as (Hv4 & Hs4 & Ho4 & Hi4 & _). cbn zeta in *.
  destruct (flush_buffer_for_demote rx2 f3 now) as [rx4 f4] eqn:E4. cbn [fst snd] in *. fold (demoted f4).
  exists ∅. split_and!; [done| | |].
  - eapply summary_trans; [by eapply effect_summary|done].
  - done.
  - intros _ _. eapply ordered_trans; [by eapply effect_ordered|done].
Qed.
End dispatch.
End step.
