(* ===== verification/RxRestore.v ===== *)
(** * A complete burst is restored to its order

    When every packet of a burst arrives (in any order, any number of times)
    within the window, the limits and the reset grace of a fresh flow, the
    engine delivers exactly the burst, in order, and ends with an empty
    buffer. *)

From stdpp Require Import list_numbers.
From S2P Require Import Prelude Wire Ring ReorderRx RxFlow RxInv RxStep RxTrace.

(** The reset grace in the clock's unit. *)
Definition grace_us (c : mqvpn_reorder_config_t) : Z := u64 (reset_idle_grace_ms c * 1000).

(** No demotion happens under this configuration. *)
Definition no_demotion (c : mqvpn_reorder_config_t) : Prop :=
  eval_force_no_demotion c = true \/ classify_window c = 0.

(** An arrival of the burst [a, b) with payloads [P], all of at most [L]
    bytes, between [t0] and [t1], with memory available. *)
Definition burst_op (a b : Z) (P : Z -> list Z) (L t0 t1 : Z) (op : flow_op) : Prop :=
  match op with
  | Arrival al seq _ pkt len now =>
      al_copy al = true /\ al_slots al = true /\ a <= seq < b /\ pkt = P seq /\ len = blen pkt /\
      1 <= len <= L /\ t0 <= now <= t1
  | Deadline _ => False
  end.

Definition op_seq (op : flow_op) : Z :=
  match op with Arrival _ seq _ _ _ _ => seq | Deadline _ => -1 end.

Section restore.
Context {RS : RingSpec}.
Context (c0 : mqvpn_reorder_config_t) (log0 : list (list Z)) (pool0 : Z).
Context (a b : Z) (P : Z -> list Z) (L t0 t1 cap : Z).
Hypothesis Hab : 0 <= a /\ a < b <= SEQ_LIMIT.
Hypothesis Hcap : b - a <= cap < 2 ^ 32.
Hypothesis HL : 1 <= L <= UINT16_MAX.
Hypothesis Hbytes : (b - a) * L <= max_buffer_bytes_per_flow c0.
Hypothesis Hpool0 : 0 <= pool0 /\ pool0 + (b - a) * L <= global_max_buffer_bytes c0.
Hypothesis Hglob : global_max_buffer_bytes c0 + UINT16_MAX < 2 ^ 64.
Hypothesis Hdem : no_demotion c0.
Hypothesis Htime : 0 <= t0 /\ t0 <= t1 < 2 ^ 64 /\ t1 - t0 <= grace_us c0.

(** The burst so far: [R] has arrived, everything below the expected number
    has been delivered and the rest of [R] is buffered. *)
Record burst_inv (rx : mqvpn_reorder_rx_t) (f : mqvpn_reorder_flow_t) (m : gmap Z slot) (R : list Z) : Prop := {
  bi_inv : flow_inv f m;
  bi_live : initialized f = true /\ pass_through f = false;
  bi_range : a <= expected f <= b;
  bi_log : deliver_log rx = log0 ++ (P <$> seqZ a (expected f - a));
  bi_arrived s : s ∈ R <-> a <= s < expected f \/ is_Some (m !! s);
  bi_entry s x : m !! s = Some x -> payload x = P s /\ s_len x <= L /\ s < b;
  bi_pool : pool_bytes_used rx = pool0 + sum_len m;
  bi_progress : t0 <= last_progress_us f <= t1;
  bi_seen : 0 <= classify_seen f;
  bi_cfg : cfg rx = c0;
  bi_cap : rcap (buffer f) = cap
}.

Lemma pkts_full m lo hi :
  (forall s, lo <= s < hi -> exists x, m !! s = Some x /\ payload x = P s) ->
  pkts m lo hi = P <$> seqZ lo (hi - lo).
Proof.
  intros H. unfold pkts.
  assert (Hl : Forall (fun s => payload <$> m !! s = Some (P s)) (seqZ lo (hi - lo))).
  { apply Forall_forall. intros s Hs%elem_of_seqZ. destruct (H s) as (x & -> & <-); [lia|done]. }
  induction Hl as [|s l Hs _ IH]; [done|]. simpl. rewrite Hs. by f_equal.
Qed.

(** At most [b - e - 1] packets of at most [L] bytes are buffered. *)
Lemma burst_room rx f m R : burst_inv rx f m R ->
  Z.of_nat (size m) <= b - expected f /\ 0 <= sum_len m <= L * Z.of_nat (size m) /\
  (expected f < b -> Z.of_nat (size m) <= b - expected f - 1).
Proof.
  intros H. pose proof (bi_inv _ _ _ _ H) as Hv. pose proof (fc_rep _ _ (fi_core _ _ Hv)) as Hr.
  pose proof (bi_range _ _ _ _ H) as Hrg.
  assert (Hw : forall s, is_Some (m !! s) -> expected f + 1 <= s < b).
  { intros s Hs. pose proof (rep_low _ _ _ _ Hr Hs).
    destruct Hs as [x Hx]. destruct (bi_entry _ _ _ _ H _ _ Hx) as (_ & _ & ?).
    destruct (decide (s = expected f)) as [->|]; [|lia]. by rewrite (fi_head _ _ Hv) in Hx. }
  split_and!.
  - apply (window_size m (expected f)); [lia|]. intros s Hs. specialize (Hw s Hs). lia.
  - by eapply rep_sum_bounds.
  - clear Hw Hr Hv. pose proof (bi_entry _ _ _ _ H) as He. clear H.
    induction m as [|s x m Hs IH] using map_ind; [change (sum_len ∅) with 0; rewrite map_size_empty; lia|].
    rewrite sum_len_insert, map_size_insert_None by done.
    destruct (He s x (lookup_insert_eq _ _ _)) as (_ & ? & _).
    ospecialize (IH _). { intros t y Ht. apply He. rewrite lookup_insert_ne; congruence. } nia.
  - intros. apply (window_size m (expected f + 1)); [lia|]. intros s Hs. specialize (Hw s Hs). lia.
Qed.

Lemma burst_pool rx f m R : burst_inv rx f m R -> pool_inv rx m.
Proof.
  intros H. destruct (burst_room _ _ _ _ H) as (Hsz & Hs & _). pose proof (bi_range _ _ _ _ H).
  unfold pool_inv. rewrite (bi_cfg _ _ _ _ H), (bi_pool _ _ _ _ H). split; [|done]. split; [lia|].
  assert (L * Z.of_nat (size m) <= (b - a) * L) by nia. lia.
Qed.

Lemma classify_off rx f pkt len : cfg rx = c0 -> 0 <= classify_seen f ->
  classify_update rx f pkt len = (f, CLASSIFY_UNCHANGED).
Proof.
  intros Hc Hs. unfold classify_update. rewrite Hc. destruct Hdem as [->| ->]; [done|].
  destruct (eval_force_no_demotion c0); [done|]. by rewrite (proj2 (Z.leb_le _ _)).
Qed.

(** The grace period is not over during the burst. *)
Lemma burst_no_reset rx f m R flags now :
  burst_inv rx f m R -> t0 <= now <= t1 -> reset_honored rx (f <| last_seen_us := now |>) flags now = false.
Proof.
  intros H Hn. unfold reset_honored. simpl. destruct (bi_live _ _ _ _ H) as [-> _]. simpl.
  rewrite (bi_cfg _ _ _ _ H). pose proof (bi_progress _ _ _ _ H). fold (grace_us c0).
  destruct (Z.ltb_spec (last_progress_us f) now); [|by rewrite andb_false_r].
  rewrite u64_small by lia. rewrite (proj2 (Z.ltb_ge _ _)) by lia. by rewrite !andb_false_r.
Qed.

(** Carrying the burst over an operation on the packet numbered [seq]. *)
Lemma burst_carry arr now seq rx f m R rx' f' m' :
  burst_inv rx f m R -> t0 <= now <= t1 -> a <= seq < b ->
  flow_inv f' m' -> effect arr now rx f m rx' f' m' ->
  a <= expected f' <= b -> deliver_log rx' = log0 ++ (P <$> seqZ a (expected f' - a)) ->
  (forall s, s ∈ seq :: R <-> a <= s < expected f' \/ is_Some (m' !! s)) ->
  (forall s x, m' !! s = Some x -> m !! s = Some x \/ (s = seq /\ payload x = P s /\ s_len x <= L)) ->
  burst_inv rx' f' m' (seq :: R).
Proof.
  intros H Hn Hs Hv' He Hr' Hl' Ha' Hm'. pose proof (ef_pool _ _ _ _ _ _ _ _ He).
  pose proof (bi_pool _ _ _ _ H). pose proof (bi_live _ _ _ _ H) as [Hi Hpt].
  destruct (ef_f _ _ _ _ _ _ _ _ He) as (_ & _ & Hc' & Hi' & Hp' & Hs').
  split; [done|split; [auto|congruence]|done|done|done| |lia| | | |].
  - intros s x Hx. destruct (Hm' _ _ Hx) as [Hx'|(-> & ? & ?)]; [by apply (bi_entry _ _ _ _ H)|split_and!; [done..|lia]].
  - pose proof (bi_progress _ _ _ _ H). destruct (ef_progress _ _ _ _ _ _ _ _ He) as [->| ->]; lia.
  - apply Hs', (bi_seen _ _ _ _ H).
  - by rewrite (rx_frame_cfg _ _ (ef_rx _ _ _ _ _ _ _ _ He)), (bi_cfg _ _ _ _ H).
  - by rewrite Hc', (bi_cap _ _ _ _ H).
Qed.

(** A packet that had already arrived is dropped and changes nothing. *)
Lemma burst_drop c `{OtherCounter c} now seq rx f m R :
  burst_inv rx f m R -> t0 <= now <= t1 -> a <= seq < b -> seq ∈ R ->
  burst_inv rx (stat_inc c f) m (seq :: R).
Proof.
  intros Hb Hn Hs Hin.
  destruct (drop_ok c (fun _ _ => True) now rx f m (bi_inv _ _ _ _ Hb) (burst_pool _ _ _ _ Hb)) as [Hv He].
  apply (burst_carry (fun _ _ => True) now seq rx f m R rx); try done; try apply Hb; [|auto].
  intros s. change (expected (stat_inc c f)) with (expected f). rewrite <- (bi_arrived _ _ _ _ Hb), elem_of_cons.
  split; [by intros [->|]|by right].
Qed.

(** The expected packet is delivered with the run it completes. *)
Lemma burst_head now seq rx f m R :
  burst_inv rx f m R -> t0 <= now <= t1 -> a <= seq < b -> seq = expected f -> blen (P seq) <= L ->
  let st := deliver_in_order rx f (P seq) (blen (P seq)) now in
  exists m', burst_inv st.1.1 st.1.2 m' (seq :: R).
Proof.
  intros H Hn Hs E Hlen. cbn zeta. pose proof (bi_live _ _ _ _ H) as [Hi _]. pose proof (bi_range _ _ _ _ H).
  destruct (deliver_in_order_ok (fun _ _ => True) now rx f m (P seq) (blen (P seq))) as
    (rx' & f' & e' & -> & (Hle & Hmn & Hall) & Hx & Hv & He & Hlog);
    [apply H|by eapply burst_pool|lia|done|done|].
  assert (Htake : take (Z.to_nat (blen (P seq))) (P seq) = P seq) by (apply take_ge; unfold blen; lia).
  rewrite Htake in Hlog. rewrite (pkts_full m) in Hlog.
  2:{ intros s Hss. destruct (Hall s Hss) as [x Hxs]. exists x. split; [done|]. by apply (bi_entry _ _ _ _ H). }
  assert (He' : e' <= b).
  { destruct (decide (e' = expected f + 1)); [lia|]. destruct (Hall (e' - 1)) as [x Hxs]; [lia|].
    apply (bi_entry _ _ _ _ H) in Hxs. lia. }
  exists (keep e' m). simpl. apply (burst_carry (fun _ _ => True) now seq rx f m R); try done.
  - lia.
  - rewrite Hlog, Hx, (bi_log _ _ _ _ H), <- app_assoc. f_equal.
    replace (e' - a) with ((expected f - a) + (1 + (e' - (expected f + 1)))) by lia.
    rewrite !seqZ_app, !fmap_app by lia. replace (a + (expected f - a)) with seq by lia. rewrite <- E. done.
  - intros s. rewrite Hx, elem_of_cons, (bi_arrived _ _ _ _ H). split.
    + intros [->|[Hss|Hss]]; [left; lia|left; lia|].
      destruct (decide (e' <= s)); [right; by apply keep_some|].
      pose proof (rep_low _ _ _ _ (fc_rep _ _ (fi_core _ _ (bi_inv _ _ _ _ H))) Hss). left. lia.
    + intros [Hss|Hss]; [|apply keep_some_inv in Hss; tauto].
      destruct (decide (s = expected f)) as [->|]; [by left|]. right.
      destruct (decide (s < expected f)); [left; lia|right]. apply Hall. lia.
  - intros s x. rewrite keep_lookup. case_decide; [by left|done].
Qed.

(** An ahead packet that is not yet buffered is stored. *)
Lemma burst_ahead al now seq rx f m R :
  burst_inv rx f m R -> al_copy al = true -> al_slots al = true -> t0 <= now <= t1 -> a <= seq < b ->
  expected f < seq -> m !! seq = None -> 1 <= blen (P seq) <= L ->
  let st := buffer_admit al rx f seq (P seq) (blen (P seq)) now in
  exists m', burst_inv st.1.1 st.1.2 m' (seq :: R).
Proof.
  intros H Hal Has Hn Hs Hgt Hmn Hlen. cbn zeta. pose proof (bi_live _ _ _ _ H) as [Hi Hpt].
  pose proof (burst_pool _ _ _ _ H) as Hp. pose proof (bi_inv _ _ _ _ H) as Hv.
  pose proof (fc_rep _ _ (fi_core _ _ Hv)) as Hr. pose proof (bi_range _ _ _ _ H) as Hrg.
  destruct (burst_room _ _ _ _ H) as (_ & Hsum & Hroom). specialize (Hroom ltac:(lia)).
  assert (HLs : L * Z.of_nat (size m) + L <= (b - a) * L) by nia.
  assert ((b - a) * L < 2 ^ 32 * 2 ^ 16) by (unfold UINT16_MAX in *; nia).
  assert (Hex : pool_would_exhaust rx (blen (P seq)) = false).
  { unfold pool_would_exhaust. rewrite (bi_cfg _ _ _ _ H), (bi_pool _ _ _ _ H), u64_small; [apply Z.ltb_ge|]; lia. }
  unfold buffer_admit. rewrite (contains_spec seq ltac:(lia) f m Hr), bool_decide_eq_false_2 by (rewrite Hmn; by intros []).
  assert (would_exceed_per_flow_limits rx f (blen (P seq)) = false) as ->.
  { unfold would_exceed_per_flow_limits. rewrite (rep_count _ _ _ Hr), (rep_bytes _ _ _ Hr), (bi_cfg _ _ _ _ H).
    rewrite (bi_cap _ _ _ _ H), (proj2 (Z.leb_gt _ _)) by lia. rewrite u64_small by lia. apply Z.ltb_ge. lia. }
  unfold pool_admit. rewrite Hex.
  destruct (insert_committed_ok al (fun _ _ => True) now rx f m seq (P seq) (blen (P seq))) as
    (rx' & f' & m' & r & -> & Hv' & He & Hx & Hlog & Hcase); try done; [rewrite (bi_cap _ _ _ _ H); lia|lia|unfold UINT16_MAX in *; lia|].
  assert (m' = <[seq := stored seq (P seq) (blen (P seq)) now]> m) as ->.
  { destruct Hcase as [[_ ?]|(_ & _ & [?|?])]; congruence. }
  eexists. simpl. apply (burst_carry (fun _ _ => True) now seq rx f m R); try done.
  - lia.
  - by rewrite Hlog, Hx, (bi_log _ _ _ _ H).
  - intros s. rewrite Hx, elem_of_cons, (bi_arrived _ _ _ _ H), lookup_insert_is_Some'.
    split; [intros [->|[?|?]]|intros [?|[->|?]]]; auto.
  - intros s x [[<- <-]|[_ Hxs]]%lookup_insert_Some; [right|by left]. split; [done|].
    rewrite payload_stored. simpl. split; [|lia]. apply take_ge. unfold blen. lia.
Qed.

Lemma burst_process al rx f m R seq now :
  burst_inv rx f m R -> al_copy al = true -> al_slots al = true -> a <= seq < b ->
  1 <= blen (P seq) <= L -> t0 <= now <= t1 ->
  let st := process_reorder_packet al rx f seq (P seq) (blen (P seq)) now in
  exists m', burst_inv st.1.1 st.1.2 m' (seq :: R).
Proof.
  intros H Hal Has Hs Hlen Hn. cbn zeta. destruct (bi_live _ _ _ _ H) as [Hi Hpt].
  pose proof (bi_inv _ _ _ _ H) as Hv. pose proof (fc_rep _ _ (fi_core _ _ Hv)) as Hr.
  pose proof (bi_range _ _ _ _ H). unfold process_reorder_packet. rewrite Hi. cbn [negb].
  destruct (Z.eqb_spec seq (expected f)); [by eapply burst_head; (done || lia)|].
  destruct (Z.ltb_spec seq (expected f)).
  { exists m. apply (burst_drop too_late_drop_count now); try done. apply (bi_arrived _ _ _ _ H). left. lia. }
  assert (ring_far_ahead (buffer f) seq (expected f) = false) as ->.
  { unfold ring_far_ahead. rewrite (bi_cap _ _ _ _ H). unfold SEQ_LIMIT in *. rewrite u64_small by lia.
    apply Z.leb_gt. lia. }
  destruct (m !! seq) as [x|] eqn:Hx; [|by eapply burst_ahead; (done || lia)].
  exists m. unfold buffer_admit. rewrite (contains_spec seq ltac:(lia) f m Hr), Hx. simpl.
  apply (burst_drop duplicate_drop_count now); try done. apply (bi_arrived _ _ _ _ H). right. eauto.
Qed.

Lemma burst_relabel rx f m R now :
  burst_inv rx f m R -> burst_inv rx (f <| last_seen_us := now |>) m R.
Proof. intros []. split; try done. by apply (flow_inv_ext f). Qed.

Lemma burst_step rx f m R op :
  burst_inv rx f m R -> burst_op a b P L t0 t1 op ->
  let st := flow_step (rx, f) op in exists m', burst_inv st.1 st.2 m' (op_seq op :: R).
Proof.
  destruct op as [al seq flags pkt len now|now]; [|done]. simpl.
  intros H (Hal & Has & Hs & -> & -> & Hlen & Hn). unfold on_reordered.
  rewrite (burst_no_reset rx f m R) by done. apply (burst_relabel _ _ _ _ now) in H.
  set (f1 := f <| last_seen_us := now |>) in *. destruct (bi_live _ _ _ _ H) as [_ ->].
  destruct (burst_process al rx f1 m R seq now H Hal Has Hs Hlen Hn) as [m' Hb]. cbn zeta in Hb.
  destruct (process_reorder_packet al rx f1 seq (P seq) (blen (P seq)) now) as [[rx2 f2] res].
  cbn [fst snd] in Hb. exists m'. destruct (feeds_classifier res); [|done].
  by rewrite classify_off by apply Hb.
Qed.

Lemma burst_run ops rx f m R :
  burst_inv rx f m R -> Forall (burst_op a b P L t0 t1) ops ->
  let st := flow_run (rx, f) ops in
  exists m' R', burst_inv st.1 st.2 m' R' /\ forall s, s ∈ R \/ s ∈ op_seq <$> ops -> s ∈ R'.
Proof.
  revert rx f m R. induction ops as [|op ops IH]; intros rx f m R H Hops; cbn zeta.
  { exists m, R. split; [done|]. intros s [?|Hs]; [done|]. by apply elem_of_nil in Hs. }
  apply Forall_cons in Hops as [Hop Hops]. destruct (burst_step rx f m R op H Hop) as [m1 H1].
  change (flow_run (rx, f) (op :: ops)) with (flow_run (flow_step (rx, f) op) ops).
  cbn zeta in H1. destruct (flow_step (rx, f) op) as [rx1 f1]. cbn [fst snd] in H1.
  destruct (IH rx1 f1 m1 (op_seq op :: R) H1 Hops) as (m2 & R2 & H2 & Hin). exists m2, R2. split; [done|].
  intros s [Hs|[->|Hs]%elem_of_cons]; apply Hin; [left; by right|left; by left|by right].
Qed.

(** The opening packet of the burst. *)
Lemma burst_first rx key f al flags now :
  fresh_flow rx key f -> rx = rx <| deliver_log := log0 |> <| pool_bytes_used := pool0 |> <| cfg := c0 |> ->
  rcap (buffer f) = cap -> 1 <= blen (P a) <= L -> t0 <= now <= t1 ->
  let st := flow_step (rx, f) (Arrival al a flags (P a) (blen (P a)) now) in
  burst_inv st.1 st.2 ∅ [a].
Proof.
  intros Hf Erx Ecap Hlen Hn. destruct (new_flow_inv rx key f Hf) as [Hv Hp]. destruct Hf as (Ef & _).
  assert (Htake : take (Z.to_nat (blen (P a))) (P a) = P a) by (apply take_ge; unfold blen; lia).
  assert (Hs : 0 <= a < SEQ_LIMIT) by lia. unfold UINT16_MAX in *.
  assert (Hend : forall rx' f', flow_inv f' ∅ -> initialized f' = true -> pass_through f' = false ->
    expected f' = a + 1 -> rx' = rx_deliver rx (P a) (blen (P a)) -> last_progress_us f' = now ->
    0 <= classify_seen f' -> rcap (buffer f') = cap -> burst_inv rx' f' ∅ [a]).
  { intros rx' f' Hv' Hi' Hp' Hx' -> Hl' Hc' Hcp'. rewrite Erx. split; simpl; rewrite ?Hx', ?Hl'; try done; try lia.
    - rewrite Htake. replace (a + 1 - a) with 1 by lia. unfold seqZ. simpl. by rewrite Z.add_0_l.
    - intros s. rewrite list_elem_of_singleton, lookup_empty. split; [intros ->; left; lia|].
      intros [?|[? ?]]; [lia|done].
    - change (sum_len ∅) with 0. lia. }
  cbn zeta. simpl. unfold on_reordered. set (f1 := f <| last_seen_us := now |>).
  assert (Hv1 : flow_inv f1 ∅) by (by apply (flow_inv_ext f)).
  pose proof (fi_core _ _ Hv1) as Hc1. pose proof (fc_rep _ _ Hc1) as Hr1.
  assert (Hinit : initialized f1 = false /\ pass_through f1 = false /\ rx_next f1 = 0 /\
    gap_timer_active f1 = false /\ open_periods (fstats f1) = 0 /\ classify_seen f1 = 0) by (by subst f).
  destruct Hinit as (Hi & Hpt & Hnx & Ht & Hg & Hcs).
  assert (Hany : forall e, 0 <= e <= SEQ_LIMIT -> rep (buffer f1) e ∅).
  { intros e He. eapply rep_advance; [exact Hr1|rewrite (fi_fresh _ _ Hv1 Hi); lia|].
    intros s [? Hx]. by rewrite lookup_empty in Hx. }
  destruct (start_epoch_ok now a (P a) (blen (P a)) Hs rx f1 ∅) as (Hv2 & Hx2 & Hi2 & Hrx2 & Hl2 & _ & Hfr);
    [done|done|lia|done..|].
  cbn zeta in *. destruct Hfr as (_ & _ & Hcp & _ & Hpt2 & Hcs2).
  assert (reset_reorder_flow rx f1 = (rx, f1)) as -> by (by unfold f1; subst f).
  unfold process_reorder_packet. rewrite Hi, Hpt. cbn [negb].
  destruct (start_epoch rx f1 a (P a) (blen (P a)) now) as [rx2 f2]. cbn [fst snd] in *.
  assert (Hb : burst_inv rx2 f2 ∅ [a]).
  { apply Hend; try done; [congruence|apply Hcs2; lia|by rewrite Hcp]. }
  destruct (reset_honored rx f1 flags now); [done|]. cbn [feeds_classifier].
  by rewrite classify_off by apply Hb.
Qed.
End restore.


(** Numbers 20 to 23 arriving as 20, 23, 21, 23, 22. *)
Definition demo_payload (s : Z) : list Z := s :: sample_udp.

Definition demo_burst : list flow_op :=
  map (fun s => Arrival all_ok s 1 (demo_payload s) (blen (demo_payload s)) (1000 + s)) [23; 21; 23; 22].

