(* ===== verification/RxTable.v ===== *)
(** * The flow table of the receive engine

    The engine of [ReorderRx] as a whole: the hash table of flows, the shared
    packet pool, least-recently-active eviction, the two gated sweeps of the
    tick and the datagram entry point.  The engine invariant says that the
    pool charge is the sum of what the flows have buffered and within its
    limit, that the table is well-formed and bounded, that every flow
    satisfies its own invariant and that the sweep gates are lower bounds. *)

From stdpp Require Import list_numbers.
From S2P Require Import Prelude Chains Wire Ring ReorderRx RxFlow RxInv RxStep RxTrace.

(** ** The engine invariant *)

Definition flows (rx : mqvpn_reorder_rx_t) : list mqvpn_reorder_flow_t := concat (buckets rx).

Lemma elem_of_flows rx f : f ∈ flows rx <-> exists i c, buckets rx !! i = Some c /\ f ∈ c.
Proof. apply elem_of_concat_lookup. Qed.

Definition total_bytes (l : list mqvpn_reorder_flow_t) : Z :=
  foldr (fun f acc => rbytes (buffer f) + acc) 0 l.

Definition idle_us_of (c : mqvpn_reorder_config_t) : Z := u64 (ingress_idle_timeout_sec c * 1000000).

(** The capacity a flow of [key] gets. *)
Definition key_cap (c : mqvpn_reorder_config_t) (key : mqvpn_flow_key_t) : Z :=
  match mqvpn_reorder_match_rule c key with
  | Some r => resolved_cap r
  | None => cap_packets_per_flow c
  end.

(** The wait a flow of [key] gets. *)
Definition key_wait_of (c : mqvpn_reorder_config_t) (key : mqvpn_flow_key_t) : Z :=
  match mqvpn_reorder_match_rule c key with
  | Some r => resolved_wait_ms r
  | None => max_wait_ms c
  end.

(** What the engine needs of a resolved configuration. *)
Record cfg_ok (c : mqvpn_reorder_config_t) : Prop := {
  co_flows : 0 < max_flows c < 2 ^ 32;
  co_pool : 0 <= global_max_buffer_bytes c /\ global_max_buffer_bytes c + UINT16_MAX < 2 ^ 64;
  co_cap key : mqvpn_reorder_cap_is_valid (key_cap c key) = true /\ 0 <= key_cap c key < 2 ^ 32;
  co_wait key : 0 <= key_wait_of c key < 2 ^ 32;
  co_idle : 0 <= ingress_idle_timeout_sec c < 2 ^ 32
}.

(** The clock stays far from its wrap. *)
Definition TIME_LIMIT : Z := 2 ^ 63.

Section table.
Context {RS : RingSpec}.

(** [T] is the latest time seen. *)
Record flow_ok (T : Z) (rx : mqvpn_reorder_rx_t) (f : mqvpn_reorder_flow_t) : Prop := {
  fo_inv : exists m, flow_inv f m;
  fo_key : key_wf (f_key f);
  fo_gap : gap_bound rx f;
  fo_time : 0 <= last_progress_us f <= T;
  fo_idle : next_idle_us rx <= last_progress_us f + idle_us_of (cfg rx) + 1;
  fo_wait : 0 < wait_ms f < 2 ^ 32
}.

Record rx_inv (T : Z) (rx : mqvpn_reorder_rx_t) : Prop := {
  ri_cfg : cfg_ok (cfg rx);
  ri_size : n_buckets rx = MQVPN_RX_BUCKETS /\ length (buckets rx) = Z.to_nat MQVPN_RX_BUCKETS;
  ri_flows : Forall (flow_ok T rx) (flows rx);
  ri_pool : pool_bytes_used rx = total_bytes (flows rx);
  ri_limit : pool_bytes_used rx <= global_max_buffer_bytes (cfg rx);
  ri_count : n_flows rx = Z.of_nat (length (flows rx));
  ri_max : n_flows rx <= max_flows (cfg rx);
  ri_place i c f : buckets rx !! i = Some c -> f ∈ c -> Z.to_nat (flow_idx rx (f_key f)) = i;
  ri_keys : NoDup (f_key <$> flows rx);
  ri_time : 0 <= T < TIME_LIMIT
}.

Lemma flow_bytes f m : flow_inv f m -> rbytes (buffer f) = sum_len m /\ 0 <= sum_len m.
Proof.
  intros Hv. pose proof (fc_rep _ _ (fi_core _ _ Hv)) as Hr.
  split; [apply (rep_bytes _ _ _ Hr)|by eapply rep_sum_bounds].
Qed.

Lemma total_nonneg T rx l : Forall (flow_ok T rx) l -> 0 <= total_bytes l.
Proof.
  induction 1 as [|f l [[m Hv] _ _ _ _ _] _ IH]; simpl; [done|]. destruct (flow_bytes f m Hv). lia.
Qed.

Lemma total_perm l k : l ≡ₚ k -> total_bytes l = total_bytes k.
Proof. induction 1; simpl; lia. Qed.

Lemma total_app l k : total_bytes (l ++ k) = total_bytes l + total_bytes k.
Proof. induction l; simpl; lia. Qed.

Lemma flow_idx_range rx key : n_buckets rx = MQVPN_RX_BUCKETS -> 0 <= flow_idx rx key < MQVPN_RX_BUCKETS.
Proof.
  intros E. unfold flow_idx. rewrite E. change (u32 (MQVPN_RX_BUCKETS - 1)) with (2 ^ 10 - 1).
  rewrite land_ones_mod by lia. pose proof (Z.mod_pos_bound (mqvpn_flow_key_hash key (hash_seed rx)) (2 ^ 10)).
  unfold MQVPN_RX_BUCKETS. rewrite u32_small; lia.
Qed.

(** A flow taken out of the table: the pool covers it and the rest. *)
Lemma table_pool T rx f m l :
  rx_inv T rx -> flows rx ≡ₚ f :: l -> flow_inv f m ->
  pool_inv rx m /\ total_bytes l = pool_bytes_used rx - sum_len m /\ 0 <= total_bytes l.
Proof.
  intros H Hp Hv. destruct (flow_bytes f m Hv) as [Hb Hn].
  pose proof (ri_flows _ _ H) as Hf. rewrite Hp in Hf. apply Forall_cons in Hf as [_ Hl].
  pose proof (total_nonneg _ _ _ Hl). pose proof (total_perm _ _ Hp) as Ht. simpl in Ht.
  pose proof (ri_pool _ _ H). pose proof (ri_limit _ _ H). destruct (co_pool _ (ri_cfg _ _ H)).
  unfold pool_inv. split_and!; lia.
Qed.

(** Later times and lower gates. *)
Lemma flow_ok_mono T T' rx rx' f :
  T <= T' -> next_gap_us rx' <= next_gap_us rx -> next_idle_us rx' <= next_idle_us rx ->
  cfg rx' = cfg rx -> flow_ok T rx f -> flow_ok T' rx' f.
Proof.
  intros HT Hg Hi Hc [? ? Hgb ? ? ?]. split; try done.
  - intros Ha. specialize (Hgb Ha). lia.
  - lia.
  - rewrite Hc. lia.
Qed.

(** An operation on the flow at a place of the table. *)
Lemma table_step T now rx rx' f f' m m' i j c :
  rx_inv T rx -> T <= now < TIME_LIMIT -> buckets rx !! i = Some c -> c !! j = Some f ->
  flow_inv f m -> summary now rx f m rx' f' m' -> flow_inv f' m' ->
  rx_inv now (flow_put rx' (Z.of_nat i, j) f').
Proof.
  intros H Hn Hi Hj Hv [Sp Sb [Ex Eg] (Sk & Sw & Sc) Sg Spr] Hv'.
  assert (Hbk : buckets rx' = buckets rx) by (by rewrite Ex).
  assert (Hch : chain rx' (Z.of_nat i) = c) by (unfold chain; by rewrite Nat2Z.id, Hbk, Hi).
  destruct (concat_take (buckets rx) i j c f Hi Hj) as [Hp Hp'].
  set (rest := concat (<[i := delete j c]> (buckets rx))) in *.
  set (rx2 := flow_put rx' (Z.of_nat i, j) f').
  assert (Hfl : flows rx2 ≡ₚ f' :: rest).
  { unfold flows, rx2, flow_put, set_chain. simpl. rewrite Nat2Z.id, Hch, Hbk. apply Hp'. }
  destruct (table_pool T rx f m rest H Hp Hv) as (Hpi & Htot & _).
  destruct (flow_bytes f m Hv), (flow_bytes f' m' Hv').
  pose proof (ri_flows _ _ H) as Hf. unfold flows in Hf. rewrite Hp in Hf. apply Forall_cons in Hf as [[Ho1 Ho2 Ho3 Ho4 Ho5 Ho6] Hrest].
  assert (Ecfg : cfg rx2 = cfg rx) by (unfold rx2, flow_put, set_chain; simpl; by rewrite Ex).
  assert (Enf : n_flows rx2 = n_flows rx) by (unfold rx2, flow_put, set_chain; simpl; by rewrite Ex).
  assert (Eni : next_idle_us rx2 = next_idle_us rx) by (unfold rx2, flow_put, set_chain; simpl; by rewrite Ex).
  assert (Eng : next_gap_us rx2 = next_gap_us rx') by done.
  assert (Eix : forall key, flow_idx rx2 key = flow_idx rx key) by (intros; unfold flow_idx, rx2, flow_put, set_chain; simpl; by rewrite Ex).
  split.
  - rewrite Ecfg. apply H.
  - destruct (ri_size _ _ H). unfold rx2, flow_put, set_chain. simpl. rewrite length_insert, Hbk. by rewrite Ex.
  - rewrite Hfl. constructor.
    + split; [eauto|by rewrite Sk|by apply Sg| | |by rewrite Sw].
      * destruct Spr as [->| ->]; lia.
      * rewrite Eni, Ecfg. destruct Spr as [->| ->]; lia.
    + eapply Forall_impl; [exact Hrest|]. intros g. apply flow_ok_mono; [lia|by rewrite Eng|lia|done].
  - rewrite (total_perm _ _ Hfl). simpl. change (pool_bytes_used rx2) with (pool_bytes_used rx'). lia.
  - rewrite Ecfg. done.
  - rewrite Enf, (ri_count _ _ H), Hfl. unfold flows. by rewrite Hp.
  - rewrite Enf, Ecfg. apply H.
  - intros i' c' g Hi' Hg. rewrite Eix. unfold rx2, flow_put, set_chain in Hi'. simpl in Hi'.
    rewrite Nat2Z.id, Hch, Hbk in Hi'. apply list_lookup_insert_Some in Hi' as [(<- & <- & _)|[_ Hi']]; [|by eapply ri_place].
    apply list_elem_of_lookup in Hg as [k Hk]. apply list_lookup_insert_Some in Hk as [(<- & <- & _)|[_ Hk]].
    + rewrite Sk. eapply ri_place; [done..|by eapply list_elem_of_lookup_2].
    + eapply ri_place; [done..|by eapply list_elem_of_lookup_2].
  - pose proof (ri_keys _ _ H) as Hk. unfold flows in Hk. rewrite Hp in Hk. rewrite Hfl. simpl in *. by rewrite Sk.
  - pose proof (ri_time _ _ H). lia.
Qed.

(** ** Removal and eviction *)

(** The table without the flow at a place. *)
Definition drop_flow (rx : mqvpn_reorder_rx_t) (i j : nat) (c : list mqvpn_reorder_flow_t)
    (f : mqvpn_reorder_flow_t) : mqvpn_reorder_rx_t :=
  (flow_destroy (set_chain rx (Z.of_nat i) (delete j c)) f) <| n_flows ::= fun n => u32 (n - 1) |>.

Lemma table_remove T rx f i j c :
  rx_inv T rx -> buckets rx !! i = Some c -> c !! j = Some f ->
  let rx' := drop_flow rx i j c f in
  rx_inv T rx' /\ flows rx ≡ₚ f :: flows rx' /\ n_flows rx' = n_flows rx - 1 /\
  cfg rx' = cfg rx /\ hash_seed rx' = hash_seed rx /\ deliver_log rx' = deliver_log rx /\ buckets rx' = <[i := delete j c]> (buckets rx).
Proof.
  intros H Hi Hj. cbn zeta. destruct (concat_take (buckets rx) i j c f Hi Hj) as [Hp _].
  set (rest := concat (<[i := delete j c]> (buckets rx))) in *.
  pose proof (ri_flows _ _ H) as Hf. unfold flows in Hf. rewrite Hp in Hf.
  apply Forall_cons in Hf as [[[m Hv] _ _ _ _ _] Hrest].
  destruct (table_pool T rx f m rest H Hp Hv) as (Hpi & Htot & Hnn).
  pose proof (ri_count _ _ H) as Hcnt. unfold flows in Hcnt. rewrite Hp in Hcnt. simpl in Hcnt.
  pose proof (ri_max _ _ H). pose proof (co_flows _ (ri_cfg _ _ H)). destruct (flow_bytes f m Hv).
  assert (E : drop_flow rx i j c f = rx <| buckets := <[i := delete j c]> (buckets rx) |>
     <| evicted_stats := mqvpn_reorder_stats_accumulate (evicted_stats rx) (fstats f) |>
     <| pool_bytes_used := pool_bytes_used rx - sum_len m |> <| n_flows := n_flows rx - 1 |>).
  { unfold drop_flow. rewrite (flow_destroy_ok _ f m (fc_rep _ _ (fi_core _ _ Hv))).
    - unfold set_chain. simpl. rewrite Nat2Z.id. f_equal. apply u32_small. lia.
    - by apply pool_inv_ok in Hpi. }
  rewrite E. split_and!; [|done..]. split; simpl; try apply H.
  - rewrite length_insert. apply H.
  - eapply Forall_impl; [exact Hrest|]. intros g. apply flow_ok_mono; (done || lia).
  - unfold flows. simpl. fold rest. lia.
  - pose proof (ri_limit _ _ H). lia.
  - unfold flows. simpl. fold rest. lia.
  - lia.
  - intros i' c' g Hi' Hg. apply list_lookup_insert_Some in Hi' as [(<- & <- & _)|[_ Hi']]; [|by eapply (ri_place _ _ H)].
    eapply (ri_place _ _ H); [done..|]. rewrite (delete_Permutation c j f Hj). by right.
  - pose proof (ri_keys _ _ H) as Hk. unfold flows in Hk. rewrite Hp in Hk. simpl in Hk.
    by apply NoDup_cons in Hk as [_ Hk].
Qed.

(** A candidate of the scan: nothing yet, or a place with its time. *)
Definition scan_ok (bs : list (list mqvpn_reorder_flow_t)) (best : Z * option (nat * nat)) : Prop :=
  match best.2 with
  | None => best.1 = UINT64_MAX
  | Some (i, j) => exists c f, bs !! i = Some c /\ c !! j = Some f /\ last_progress_us f = best.1
  end.

Lemma lru_scan_chain_ok bs i c pre best :
  bs !! i = Some (pre ++ c) -> scan_ok bs best ->
  let r := lru_scan_chain i (length pre) c best in
  scan_ok bs r /\ r.1 <= best.1 /\ Forall (fun f => r.1 <= last_progress_us f) c.
Proof.
  revert pre best. induction c as [|f c IH]; intros pre best Hi Hb; cbn zeta; [by split_and!|]. simpl.
  set (best' := if last_progress_us f <=? best.1 then _ else _).
  assert (Hb' : scan_ok bs best' /\ best'.1 <= best.1 /\ best'.1 <= last_progress_us f).
  { unfold best'. destruct (Z.leb_spec (last_progress_us f) (best.1)); simpl; [|split_and!; [done|lia..]].
    split_and!; [|lia..]. exists (pre ++ f :: c), f. split_and!; [done| |done].
    by rewrite list_lookup_middle. }
  destruct Hb' as (Hs & Hle & Hlf).
  destruct (IH (pre ++ [f]) best') as (Hr & Hr1 & Hr2); [by rewrite <- app_assoc|done|].
  rewrite length_app, Nat.add_1_r in Hr, Hr1, Hr2. split_and!; [done|lia|]. constructor; [lia|done].
Qed.

Lemma lru_scan_ok bs pre suf best :
  bs = pre ++ suf -> scan_ok bs best ->
  let r := lru_scan (length pre) suf best in
  scan_ok bs r /\ r.1 <= best.1 /\ Forall (fun f => r.1 <= last_progress_us f) (concat suf).
Proof.
  revert pre best. induction suf as [|c suf IH]; intros pre best E Hb; cbn zeta; [by split_and!|]. simpl.
  destruct (lru_scan_chain_ok bs (length pre) c [] best) as (H1 & L1 & F1);
    [rewrite E; by apply list_lookup_middle|done|].
  destruct (IH (pre ++ [c]) (lru_scan_chain (length pre) 0 c best)) as (H2 & L2 & F2);
    [by rewrite <- app_assoc|done|].
  rewrite length_app, Nat.add_1_r in H2, L2, F2. simpl in *. split_and!; [done|lia|].
  apply Forall_app. split; [|done]. eapply Forall_impl; [exact F1|]. simpl. intros f Hf. lia.
Qed.

(** Eviction removes one flow, and none has been inactive for longer. *)
Lemma evict_lru_ok T rx :
  rx_inv T rx -> flows rx <> [] ->
  let rx' := evict_lru_flow rx in
  exists victim, rx_inv T rx' /\ flows rx ≡ₚ victim :: flows rx' /\ n_flows rx' = n_flows rx - 1 /\
    cfg rx' = cfg rx /\ hash_seed rx' = hash_seed rx /\ deliver_log rx' = deliver_log rx /\
    Forall (fun f => last_progress_us victim <= last_progress_us f) (flows rx).
Proof.
  intros H Hne. cbn zeta. unfold evict_lru_flow.
  destruct (lru_scan_ok (buckets rx) [] (buckets rx) (UINT64_MAX, None)) as (Hs & _ & Hf); [done|done|].
  simpl in Hs, Hf. destruct (lru_scan 0 (buckets rx) (UINT64_MAX, None)) as [t p]. cbn [fst snd] in *.
  unfold scan_ok in Hs. destruct p as [[i j]|]; simpl in Hs.
  - destruct Hs as (c & f & Hi & Hj & <-). unfold chain. rewrite Nat2Z.id, Hi. simpl. rewrite Hj.
    fold (drop_flow rx i j c f). destruct (table_remove T rx f i j c H Hi Hj) as (? & ? & ? & ? & ? & ? & _).
    exists f. by split_and!.
  - exfalso. pose proof (ri_flows _ _ H) as Hok. destruct (flows rx) as [|g l] eqn:E; [done|].
    unfold flows in E. rewrite E in Hf. apply Forall_cons in Hf as [Hg _], Hok as [Ho _].
    pose proof (fo_time _ _ _ Ho). pose proof (ri_time _ _ H). unfold TIME_LIMIT, UINT64_MAX in *. lia.
Qed.

(** ** Lookup and creation *)

Lemma bucket_of T rx key : rx_inv T rx ->
  exists c, buckets rx !! Z.to_nat (flow_idx rx key) = Some c /\ chain rx (flow_idx rx key) = c.
Proof.
  intros H. destruct (ri_size _ _ H) as [Hn Hl]. pose proof (flow_idx_range rx key Hn).
  destruct (lookup_lt_is_Some_2 (buckets rx) (Z.to_nat (flow_idx rx key))) as [c Hc]; [lia|].
  exists c. split; [done|]. unfold chain. by rewrite Hc.
Qed.

Lemma lookup_found T rx key idx j f :
  rx_inv T rx -> key_wf key -> flow_lookup rx key = (idx, Some (j, f)) ->
  exists i c, idx = Z.of_nat i /\ buckets rx !! i = Some c /\ c !! j = Some f /\ f_key f = key.
Proof.
  intros H Hk [= <- Hf]. destruct (bucket_of T rx key H) as (c & Hc & Ec). rewrite Ec in Hf.
  apply list_find_Some in Hf as (Hj & He & _). pose proof (flow_idx_range rx key (proj1 (ri_size _ _ H))).
  exists (Z.to_nat (flow_idx rx key)), c. rewrite Z2Nat.id by lia. split_and!; [done..|].
  apply flow_key_eq_spec; [|done|done]. pose proof (ri_flows _ _ H) as Hfl. rewrite Forall_forall in Hfl.
  eapply fo_key, Hfl, elem_of_flows. exists (Z.to_nat (flow_idx rx key)), c.
  split; [done|by eapply list_elem_of_lookup_2].
Qed.

Lemma lookup_absent T rx key idx :
  rx_inv T rx -> key_wf key -> flow_lookup rx key = (idx, None) ->
  idx = flow_idx rx key /\ key ∉ f_key <$> flows rx.
Proof.
  intros H Hk [= <- Hf]. split; [done|]. destruct (bucket_of T rx key H) as (c & Hc & Ec). rewrite Ec in Hf.
  intros (f & -> & (i & c' & Hi & Hfc)%elem_of_flows)%list_elem_of_fmap.
  pose proof (ri_place _ _ H i c' f Hi Hfc) as <-. rewrite Hc in Hi. injection Hi as ->.
  apply list_find_None in Hf. rewrite Forall_forall in Hf. apply (Hf f Hfc).
  by apply flow_key_eq_spec.
Qed.

(** A fresh flow goes to the head of its bucket. *)
Lemma table_add T rx key :
  rx_inv T rx -> key_wf key -> key ∉ f_key <$> flows rx -> n_flows rx < max_flows (cfg rx) ->
  0 < key_wait_of (cfg rx) key ->
  let idx := flow_idx rx key in
  let rx' := (set_chain rx idx (new_flow rx key :: chain rx idx))
               <| n_flows ::= fun n => u32 (n + 1) |> <| next_idle_us := 0 |> in
  rx_inv T rx' /\ exists c, buckets rx' !! Z.to_nat idx = Some (new_flow rx key :: c).
Proof.
  intros H Hk Habs Hlt Hw. cbn zeta. destruct (bucket_of T rx key H) as (c & Hc & Ec). rewrite Ec.
  set (idx := flow_idx rx key) in *. pose proof (ri_cfg _ _ H) as Hcfg.
  pose proof (concat_cons (buckets rx) (Z.to_nat idx) c (new_flow rx key) Hc) as Hp.
  pose proof (ri_count _ _ H) as Hcnt. pose proof (co_flows _ Hcfg). pose proof (ri_time _ _ H).
  pose proof (u64_range (ingress_idle_timeout_sec (cfg rx) * 1000000)).
  split; [|exists c; simpl; apply list_lookup_insert_eq; by eapply lookup_lt_Some].
  split; simpl; try apply H.
  - rewrite length_insert. apply H.
  - unfold flows. simpl. rewrite Hp. constructor.
    + split; simpl; try done; [|lia|unfold idle_us_of; lia|].
      * exists ∅. destruct (co_cap _ Hcfg key) as [? ?].
        apply (new_flow_inv rx key). pose proof (ri_limit _ _ H). pose proof (ri_pool _ _ H).
        pose proof (total_nonneg _ _ _ (ri_flows _ _ H)). destruct (co_pool _ Hcfg).
        unfold fresh_flow. change (rcap (buffer (new_flow rx key))) with (key_cap (cfg rx) key). split_and!; (done || lia).
      * pose proof (co_wait _ Hcfg key). unfold key_wait_of in *. lia.
    + eapply Forall_impl; [apply (ri_flows _ _ H)|]. intros g Hg. destruct Hg as [? ? ? Ht ? ?].
      split; try done; simpl. unfold idle_us_of. lia.
  - unfold flows. simpl. rewrite (total_perm _ _ Hp). simpl. apply (ri_pool _ _ H).
  - unfold flows. simpl. rewrite Hp. simpl. rewrite Hcnt, u32_small by lia. unfold flows. lia.
  - rewrite u32_small by lia. lia.
  - intros i c' f Hi Hf. apply list_lookup_insert_Some in Hi as [(<- & <- & _)|[_ Hi]]; [|by eapply (ri_place _ _ H)].
    apply elem_of_cons in Hf as [->|Hf]; [done|]. by eapply (ri_place _ _ H).
  - unfold flows. simpl. rewrite Hp. simpl. constructor; [done|apply (ri_keys _ _ H)].
Qed.

Lemma get_or_create_ok al T rx key :
  rx_inv T rx -> key_wf key -> 0 < key_wait_of (cfg rx) key ->
  let r := flow_get_or_create al rx key in
  rx_inv T r.1 /\ cfg r.1 = cfg rx /\ deliver_log r.1 = deliver_log rx /\
  match r.2 with
  | None => al_flow al = false
  | Some p => exists i j c f, p = (Z.of_nat i, j) /\ buckets r.1 !! i = Some c /\ c !! j = Some f /\ f_key f = key
  end.
Proof.
  intros H Hk Hw. cbn zeta. unfold flow_get_or_create.
  destruct (flow_lookup rx key) as [idx [[j f]|]] eqn:El.
  { split_and!; [done..|]. destruct (lookup_found T rx key idx j f H Hk El) as (i & c & -> & Hi & Hj & Hf). by exists i, j, c, f. }
  destruct (lookup_absent T rx key idx H Hk El) as [-> Habs].
  set (rx1 := if (0 <? max_flows (cfg rx)) && (max_flows (cfg rx) <=? n_flows rx) then evict_lru_flow rx else rx).
  assert (H1 : rx_inv T rx1 /\ cfg rx1 = cfg rx /\ hash_seed rx1 = hash_seed rx /\ deliver_log rx1 = deliver_log rx /\
    n_flows rx1 < max_flows (cfg rx) /\ key ∉ f_key <$> flows rx1).
  { pose proof (co_flows _ (ri_cfg _ _ H)). pose proof (ri_max _ _ H). pose proof (ri_count _ _ H).
    unfold rx1. destruct (_ && _) eqn:E; bool_to_prop; [|split_and!; (done || lia)..].
    destruct (evict_lru_ok T rx H) as (v & Hv & Hp & Hn & Hc & Hs & Hd & _); [intros E; rewrite E in *; simpl in *; lia|].
    split_and!; [done..|lia|]. rewrite Hp in Habs. by apply not_elem_of_cons in Habs as [_ ?]. }
  clearbody rx1. destruct H1 as (H1 & Ec & Es & Ed & Hlt & Habs1).
  destruct (al_flow al) eqn:Ea; [|by split_and!].
  assert (Ei : flow_idx rx key = flow_idx rx1 key).
  { unfold flow_idx. rewrite (proj1 (ri_size _ _ H)), (proj1 (ri_size _ _ H1)), Es. done. }
  rewrite Ei. destruct (table_add T rx1 key) as [H2 [c Hc]]; [done..|by rewrite Ec|by rewrite Ec|].
  cbn [fst snd]. split_and!; [done..|].
  exists (Z.to_nat (flow_idx rx1 key)), 0%nat, (new_flow rx1 key :: c), (new_flow rx1 key).
  pose proof (flow_idx_range rx1 key (proj1 (ri_size _ _ H1))). rewrite Z2Nat.id by lia. by split_and!.
Qed.

(** ** Arrivals *)

Lemma rx_inv_later T now rx : rx_inv T rx -> T <= now < TIME_LIMIT -> rx_inv now rx.
Proof.
  intros H Hn. pose proof (ri_time _ _ H). split; try apply H; [|lia].
  eapply Forall_impl; [apply (ri_flows _ _ H)|]. intros f. apply flow_ok_mono; (done || lia).
Qed.

Lemma rx_inv_deliver T rx pkt len : rx_inv T rx -> rx_inv T (rx_deliver rx pkt len).
Proof.
  intros H. split; try apply H. eapply Forall_impl; [apply (ri_flows _ _ H)|]. intros f. apply flow_ok_mono; (done || lia).
Qed.

Lemma on_packet_ok al T now rx payload :
  rx_inv T rx -> T <= now < TIME_LIMIT -> bytes_ok payload ->
  exists rx', mqvpn_reorder_rx_on_packet al rx payload now = Some rx' /\ rx_inv now rx' /\ cfg rx' = cfg rx.
Proof.
  intros H Hn Hb. pose proof (rx_inv_later _ _ _ H Hn) as H0. unfold mqvpn_reorder_rx_on_packet.
  destruct (mqvpn_reorder_wire_decode payload) as [[[type flags] seq]|] eqn:Ed; [|by eexists].
  destruct (wire_decode_range _ _ _ _ Hb Ed) as (_ & _ & Hseq).
  destruct (negb _); [by eexists|]. set (inner := drop _ payload). set (il := blen payload - _).
  assert (Hil : blen inner = il).
  { unfold inner, il, blen. rewrite length_drop. destruct (decode_length _ _ Ed) as [? ?].
    unfold MQVPN_REORDER_HDR_LEN, blen in *. lia. }
  destruct (Z.eqb_spec il 0); [by eexists|]. destruct (Z.ltb_spec UINT16_MAX il); [by eexists|]. cbn [orb].
  destruct (_ && _); [eexists; split_and!; [done|by apply rx_inv_deliver|done]|].
  assert (Hbi : bytes_ok inner) by (by apply Forall_drop).
  destruct (parse_5tuple_wf inner Hbi) as (r & -> & Hkey). cbn [mbind option_bind].
  destruct r as [key|]; [|by eexists]. specialize (Hkey key eq_refl).
  change (key_wait rx key) with (key_wait_of (cfg rx) key).
  destruct (Z.eqb_spec (key_wait_of (cfg rx) key) 0); [eexists; split_and!; [done|by apply rx_inv_deliver|done]|].
  pose proof (co_wait _ (ri_cfg _ _ H) key) as Hkw.
  destruct (get_or_create_ok al T rx key H Hkey) as (Hr1 & Ec & _ & Hp); [lia|]. cbn zeta in *.
  destruct (flow_get_or_create al rx key) as [rx1 [p|]]; cbn [fst snd] in *.
  2:{ eexists. split_and!; [done|by eapply rx_inv_later|done]. }
  destruct Hp as (i & j & c & f & -> & Hi & Hj & Hfk).
  unfold flow_at. cbn [fst snd]. unfold chain at 1. rewrite Nat2Z.id, Hi. cbn [default]. simpl. rewrite Hj.
  pose proof (ri_flows _ _ Hr1) as Hfl. rewrite Forall_forall in Hfl.
  assert (Hin : f ∈ flows rx1) by (apply elem_of_flows; exists i, c; split; [done|by eapply list_elem_of_lookup_2]).
  destruct (fo_inv _ _ _ (Hfl f Hin)) as [m Hv].
  destruct (concat_take (buckets rx1) i j c f Hi Hj) as [Hperm _].
  destruct (table_pool T rx1 f m _ Hr1 Hperm Hv) as (Hpi & _).
  pose proof (blen_nonneg inner) as Hbn.
  assert (Hlen : 1 <= u16 il <= UINT16_MAX) by (unfold UINT16_MAX in *; rewrite u16_small; lia).
  destruct (on_reordered_ok al (fun _ _ => True) now seq flags inner (u16 il) Hseq Hlen I rx1 f m Hv Hpi) as
    (m' & Hv' & Hs & _). cbn zeta in *.
  destruct (on_reordered al rx1 f seq flags inner (u16 il) now) as [rx2 f2] eqn:E2. cbn [fst snd] in *.
  eexists. split_and!; [done|by eapply table_step|].
  unfold flow_put, set_chain. simpl. by rewrite (rx_frame_cfg _ _ (sm_rx _ _ _ _ _ _ _ Hs)).
Qed.

(** ** The gap sweep *)

(** One flow before and after the sweep at [now]. *)
Record swept (now : Z) (rx' : mqvpn_reorder_rx_t) (f f' : mqvpn_reorder_flow_t) : Prop := {
  sw_key : f_key f' = f_key f;
  sw_wait : wait_ms f' = wait_ms f;
  sw_inv : exists m, flow_inv f' m;
  sw_progress : last_progress_us f' = last_progress_us f \/ last_progress_us f' = now;
  sw_gap : gap_bound rx' f';
  sw_deadline : gap_timer_active f' = true -> now < gap_deadline_us f'
}.

Record sweep_ok (now : Z) (rx : mqvpn_reorder_rx_t) (c : list mqvpn_reorder_flow_t)
    (rx' : mqvpn_reorder_rx_t) (c' : list mqvpn_reorder_flow_t) : Prop := {
  sk_rx : rx_frame rx rx';
  sk_pool : pool_bytes_used rx' - total_bytes c' = pool_bytes_used rx - total_bytes c;
  sk_bound : pool_bytes_used rx' <= global_max_buffer_bytes (cfg rx);
  sk_flows : Forall2 (swept now rx') c c'
}.

(** What the sweep needs of the flows it visits. *)
Definition sweepable (f : mqvpn_reorder_flow_t) : Prop :=
  (exists m, flow_inv f m) /\ 0 < wait_ms f < 2 ^ 32.

Definition pool_covers (rx : mqvpn_reorder_rx_t) (n : Z) : Prop :=
  n <= pool_bytes_used rx <= global_max_buffer_bytes (cfg rx) /\
  global_max_buffer_bytes (cfg rx) + UINT16_MAX < 2 ^ 64.

Lemma sweepable_total c : Forall sweepable c -> 0 <= total_bytes c.
Proof.
  induction 1 as [|f c [[m Hv] _] _ IH]; simpl; [done|]. destruct (flow_bytes f m Hv). lia.
Qed.

Lemma swept_mono now rx rx' f f' :
  next_gap_us rx' <= next_gap_us rx -> swept now rx f f' -> swept now rx' f f'.
Proof.
  intros Hle [? ? ? ? Hg ?]. split; try done. intros Ha. specialize (Hg Ha). lia.
Qed.

Lemma gap_visit_ok now rx f :
  0 <= now < TIME_LIMIT -> sweepable f -> pool_covers rx (rbytes (buffer f)) ->
  let st := gap_visit rx f now in sweep_ok now rx [f] st.1 [st.2].
Proof.
  intros Hn [[m Hv] Hw] [Hp Hg]. destruct (flow_bytes f m Hv) as [Hb _]. rewrite Hb in Hp. cbn zeta. unfold gap_visit.
  destruct (gap_timer_active f) eqn:Ha; cbn [negb].
  - assert (Hm : m <> ∅) by (rewrite (fi_timer _ _ Hv) in Ha; by apply bool_decide_eq_true in Ha).
    destruct (Z.leb_spec (gap_deadline_us f) now).
    + destruct (on_gap_timeout_ok (fun _ _ => True) now rx f m Hv (conj Hp Hg) Hm) as
        (rx' & f' & e' & -> & _ & _ & Hv' & He & _ & Hl & Hgb & Hd).
      destruct (ef_f _ _ _ _ _ _ _ _ He) as (Hk & Hwt & _). destruct (flow_bytes f' _ Hv') as [Hb' _].
      pose proof (ef_pool _ _ _ _ _ _ _ _ He). split; simpl.
      * apply He.
      * lia.
      * apply He.
      * constructor; [|constructor]. split; [done|done|eauto|by right|done|]. intros Ha'. rewrite (Hd Ha').
        unfold TIME_LIMIT in *. rewrite !u64_small; [lia|lia|rewrite u64_small; lia].
    + destruct (Z.ltb_spec (gap_deadline_us f) (next_gap_us rx)); split; simpl; try lia.
      * split; [by destruct rx|simpl; lia].
      * constructor; [|constructor]. split; [done|done|eauto|by left|unfold gap_bound; simpl; lia|lia].
      * apply rx_frame_refl.
      * constructor; [|constructor]. split; [done|done|eauto|by left|unfold gap_bound; lia|lia].
  - split; simpl; [apply rx_frame_refl|lia|lia|]. constructor; [|constructor].
    split; [done|done|eauto|by left|unfold gap_bound|]; by rewrite Ha.
Qed.

Lemma sweep_ok_cons now rx f c rx1 f1 rx2 c2 :
  sweep_ok now rx [f] rx1 [f1] -> sweep_ok now rx1 c rx2 c2 -> sweep_ok now rx (f :: c) rx2 (f1 :: c2).
Proof.
  intros [X1 P1 B1 F1] [X2 P2 B2 F2]. split.
  - by eapply rx_frame_trans.
  - simpl in *. lia.
  - by rewrite (rx_frame_cfg _ _ X1) in B2.
  - apply Forall2_cons in F1 as [F1 _]. constructor; [|done]. eapply swept_mono; [|done]. apply X2.
Qed.

Lemma gap_sweep_chain_ok now c rx :
  0 <= now < TIME_LIMIT -> Forall sweepable c -> pool_covers rx (total_bytes c) ->
  let st := gap_sweep_chain rx c now in sweep_ok now rx c st.1 st.2.
Proof.
  intros Hn Hc. revert rx. induction Hc as [|f c Hf Hc IH]; intros rx Hp; cbn zeta.
  { destruct Hp. split; simpl; [apply rx_frame_refl|lia|lia|constructor]. }
  cbn [gap_sweep_chain]. pose proof (sweepable_total _ Hc). simpl in Hp.
  pose proof (gap_visit_ok now rx f Hn Hf) as HS1. destruct (gap_visit rx f now) as [rx1 f1]. cbn [fst snd] in HS1.
  destruct Hf as [[m Hv] _]. destruct (flow_bytes f m Hv).
  ospecialize (HS1 _); [destruct Hp; split; [lia|done]|]. pose proof HS1 as [X1 P1 B1 F1].
  pose proof (IH rx1) as HS2. destruct (gap_sweep_chain rx1 c now) as [rx2 c2]. cbn [fst snd] in *.
  eapply sweep_ok_cons; [exact HS1|]. apply HS2. unfold pool_covers in *. rewrite (rx_frame_cfg _ _ X1).
  simpl in P1. apply Forall2_cons in F1 as [[_ _ [m1 Hv1] _ _ _] _]. destruct (flow_bytes f1 m1 Hv1). lia.
Qed.

Lemma gap_sweep_ok now bs rx :
  0 <= now < TIME_LIMIT -> Forall sweepable (concat bs) -> pool_covers rx (total_bytes (concat bs)) ->
  let st := gap_sweep rx bs now in
  sweep_ok now rx (concat bs) st.1 (concat st.2) /\ Forall2 (Forall2 (fun f f' => f_key f' = f_key f)) bs st.2.
Proof.
  intros Hn. revert rx. induction bs as [|c bs IH]; intros rx Hc Hp; cbn zeta.
  { destruct Hp. split; [|constructor]. split; simpl; [apply rx_frame_refl|lia|lia|constructor]. }
  simpl in Hc, Hp. apply Forall_app in Hc as [Hc Hbs]. rewrite total_app in Hp.
  pose proof (sweepable_total _ Hc). pose proof (sweepable_total _ Hbs). simpl.
  pose proof (gap_sweep_chain_ok now c rx Hn Hc) as HS1. destruct (gap_sweep_chain rx c now) as [rx1 c1]. cbn [fst snd] in HS1.
  ospecialize (HS1 _); [destruct Hp; split; [lia|done]|]. destruct HS1 as [X1 P1 B1 F1].
  pose proof (IH rx1 Hbs) as HS2. destruct (gap_sweep rx1 bs now) as [rx2 bs2]. cbn [fst snd] in *.
  assert (Hc1 : 0 <= total_bytes c1).
  { clear -F1 RS. induction F1 as [|f f' c c' [_ _ [m Hv] _ _ _] _ IH]; simpl; [done|]. destruct (flow_bytes f' m Hv). lia. }
  ospecialize (HS2 _). { unfold pool_covers in *. rewrite (rx_frame_cfg _ _ X1). lia. }
  destruct HS2 as [[X2 P2 B2 F2] K2]. split; [split|].
  - by eapply rx_frame_trans.
  - simpl. rewrite !total_app. lia.
  - by rewrite (rx_frame_cfg _ _ X1) in B2.
  - simpl. apply Forall2_app; [|done]. eapply Forall2_impl; [exact F1|]. intros f f'. apply swept_mono, X2.
  - constructor; [|done]. eapply Forall2_impl; [exact F1|]. by intros f f' [].
Qed.

Lemma gap_phase_ok T now rx :
  rx_inv T rx -> T <= now < TIME_LIMIT ->
  let rx' := gap_phase rx now in
  rx_inv now rx' /\ cfg rx' = cfg rx /\ f_key <$> flows rx' = f_key <$> flows rx /\
  Forall (fun f => gap_timer_active f = true -> now < gap_deadline_us f) (flows rx').
Proof.
  intros H Hn. cbn zeta. unfold gap_phase. pose proof (ri_time _ _ H) as HT.
  destruct (Z.leb_spec (next_gap_us rx) now) as [Hg|Hg].
  2:{ split_and!; [by eapply rx_inv_later|done|done|]. eapply Forall_impl; [apply (ri_flows _ _ H)|].
      intros f Hf Ha. pose proof (fo_gap _ _ _ Hf Ha). lia. }
  set (rx0 := rx <| next_gap_us := UINT64_MAX |>).
  assert (Hsw : Forall sweepable (concat (buckets rx))).
  { eapply Forall_impl; [apply (ri_flows _ _ H)|]. intros f [? ? ? ? ? ?]. done. }
  destruct (gap_sweep_ok now (buckets rx) rx0) as [[X P B F] K]; [lia|done| |].
  { pose proof (ri_pool _ _ H) as Hp. pose proof (ri_limit _ _ H). destruct (co_pool _ (ri_cfg _ _ H)).
    unfold flows in Hp. split; [simpl; lia|done]. }
  cbn zeta in *. change (buckets rx0) with (buckets rx). destruct (gap_sweep rx0 (buckets rx) now) as [rx' bs']. cbn [fst snd] in *.
  destruct X as [Ex _]. assert (Ec : cfg rx' = cfg rx) by (by rewrite Ex).
  assert (Hkeys : f_key <$> concat bs' = f_key <$> concat (buckets rx)).
  { clear -F. induction F as [|f f' c c' [E _ _ _ _ _] _ IH]; [done|]. rewrite !fmap_cons, E. by f_equal. }
  pose proof (Forall2_length _ _ _ F) as Hlen.
  split_and!; [|done|done|].
  - split; simpl; rewrite ?Ec; try apply H.
    + rewrite Ex. simpl. rewrite <- (Forall2_length _ _ _ K). apply H.
    + pose proof (ri_flows _ _ H) as Hok. unfold flows in *. simpl.
      clear -F Hok Hn HT Ec Ex RS. revert Hok. induction F as [|f f' c c' [E1 E2 E3 E4 E5 E6] _ IH]; intros Hok; [constructor|].
      apply Forall_cons in Hok as [[Ho1 Ho2 Ho3 Ho4 Ho5 Ho6] Hok]. constructor; [|by apply IH].
      split; [done|by rewrite E1|done| | |by rewrite E2].
      * destruct E4 as [->| ->]; lia.
      * simpl. rewrite ?Ec. replace (next_idle_us rx') with (next_idle_us rx) by (by rewrite Ex).
        destruct E4 as [->| ->]; lia.
    + pose proof (ri_pool _ _ H). unfold flows in *. simpl in *. lia.
    + done.
    + rewrite Ex. simpl. rewrite (ri_count _ _ H). unfold flows. simpl. lia.
    + rewrite Ex. simpl. apply H.
    + intros i c' f' Hi Hf'. destruct (Forall2_lookup_r _ _ _ _ _ K Hi) as (c & Hc & Hk).
      apply list_elem_of_lookup in Hf' as [j Hj]. destruct (Forall2_lookup_r _ _ _ _ _ Hk Hj) as (f & Hf & ->).
      etrans; [|eapply (ri_place _ _ H); [exact Hc|by eapply list_elem_of_lookup_2]].
      unfold flow_idx. simpl. by rewrite Ex.
    + unfold flows. simpl. rewrite Hkeys. apply H.
    + lia.
  - unfold flows. simpl. clear -F. induction F as [|f f' c c' [] _ IH]; constructor; done.
Qed.

(** ** The idle sweep *)

Definition alive (idle now : Z) (f : mqvpn_reorder_flow_t) : bool := negb (is_idle f idle now).

(** The engine after the sweep dropped the idle flows of [c]. *)
Record idle_ok (idle now : Z) (rx : mqvpn_reorder_rx_t) (c : list mqvpn_reorder_flow_t)
    (rx' : mqvpn_reorder_rx_t) (c' : list mqvpn_reorder_flow_t) : Prop := {
  io_flows : c' = List.filter (alive idle now) c;
  io_rx : rx' = rx <| evicted_stats := evicted_stats rx' |> <| pool_bytes_used := pool_bytes_used rx' |>
                   <| n_flows := n_flows rx' |> <| next_idle_us := next_idle_us rx' |>;
  io_pool : pool_bytes_used rx' = pool_bytes_used rx - (total_bytes c - total_bytes c');
  io_count : n_flows rx' = n_flows rx - (Z.of_nat (length c) - Z.of_nat (length c'));
  io_gate : next_idle_us rx' <= next_idle_us rx;
  io_bound : Forall (fun f => next_idle_us rx' <= last_progress_us f + idle + 1) c'
}.

Lemma filter_total c idle now : Forall sweepable c ->
  0 <= total_bytes (List.filter (alive idle now) c) <= total_bytes c.
Proof.
  induction 1 as [|f c [[m Hv] _] _ IH]; simpl; [done|]. destruct (flow_bytes f m Hv).
  destruct (alive idle now f); simpl; lia.
Qed.

Lemma filter_length c idle now : (length (List.filter (alive idle now) c) <= length c)%nat.
Proof. induction c as [|f c IH]; simpl; [done|]. destruct (alive idle now f); simpl; lia. Qed.

Lemma idle_sweep_chain_ok idle now c rx :
  0 <= idle < 2 ^ 52 -> Forall sweepable c -> Forall (fun f => 0 <= last_progress_us f < TIME_LIMIT) c ->
  total_bytes c <= pool_bytes_used rx < 2 ^ 64 -> Z.of_nat (length c) <= n_flows rx < 2 ^ 32 ->
  let st := idle_sweep_chain rx c idle now in idle_ok idle now rx c st.1 st.2.
Proof.
  intros Hid Hc. revert rx. induction Hc as [|f c [[m Hv] Hw] Hc IH]; intros rx Ht Hp Hn; cbn zeta.
  { split; simpl; try done; try lia; by destruct rx. }
  apply Forall_cons in Ht as [Hf Ht]. simpl in Hp, Hn. destruct (flow_bytes f m Hv) as [Hb Hb0].
  pose proof (sweepable_total _ Hc). cbn [idle_sweep_chain]. unfold TIME_LIMIT in *.
  destruct (is_idle f idle now) eqn:Ei.
  - rewrite (flow_destroy_ok rx f m (fc_rep _ _ (fi_core _ _ Hv))) by (unfold pool_ok; lia).
    set (rx1 := update n_flows _ _). assert (En : n_flows rx1 = n_flows rx - 1) by (apply u32_small; lia).
    destruct (IH rx1) as [F X P N G B]; [done|simpl; lia|rewrite En; lia|]. cbn zeta in *.
    destruct (idle_sweep_chain rx1 c idle now) as [rx2 c2]. cbn [fst snd] in *. rewrite En in N.
    split; simpl; unfold alive; rewrite ?Ei; try done.
    + simpl in P. lia.
    + lia.
  - set (at_ := u64 (last_progress_us f + idle + 1)).
    assert (Ea : at_ = last_progress_us f + idle + 1) by (apply u64_small; lia).
    set (rx1 := if at_ <? next_idle_us rx then rx <| next_idle_us := at_ |> else rx).
    assert (H1 : rx1 = rx <| next_idle_us := next_idle_us rx1 |> /\ next_idle_us rx1 <= next_idle_us rx /\
      next_idle_us rx1 <= at_).
    { unfold rx1. destruct (Z.ltb_spec at_ (next_idle_us rx)); simpl; split_and!; try lia; [done|by destruct rx]. }
    destruct H1 as (Ex & Hg1 & Hg2).
    assert (Ep : pool_bytes_used rx1 = pool_bytes_used rx) by (by rewrite Ex).
    assert (En : n_flows rx1 = n_flows rx) by (by rewrite Ex).
    destruct (IH rx1) as [F X P N G B]; [done|lia|lia|]. cbn zeta in *.
    destruct (idle_sweep_chain rx1 c idle now) as [rx2 c2]. cbn [fst snd] in *.
    split; simpl; unfold alive; rewrite ?Ei; simpl; try lia.
    + f_equal. done.
    + rewrite X at 1. rewrite Ex. by destruct rx.
    + constructor; [lia|done].
Qed.

Lemma idle_sweep_ok idle now bs rx :
  0 <= idle < 2 ^ 52 -> Forall sweepable (concat bs) ->
  Forall (fun f => 0 <= last_progress_us f < TIME_LIMIT) (concat bs) ->
  total_bytes (concat bs) <= pool_bytes_used rx < 2 ^ 64 ->
  Z.of_nat (length (concat bs)) <= n_flows rx < 2 ^ 32 ->
  let st := idle_sweep rx bs idle now in
  idle_ok idle now rx (concat bs) st.1 (concat st.2) /\ st.2 = map (List.filter (alive idle now)) bs.
Proof.
  intros Hid. revert rx. induction bs as [|c bs IH]; intros rx Hc Ht Hp Hn; cbn zeta.
  { split; [|done]. split; simpl; try done; try lia; by destruct rx. }
  simpl in Hc, Ht, Hp, Hn. apply Forall_app in Hc as [Hc Hbs], Ht as [Ht Htb].
  rewrite total_app in Hp. rewrite length_app in Hn.
  pose proof (sweepable_total _ Hc). pose proof (sweepable_total _ Hbs). cbn [idle_sweep].
  destruct (idle_sweep_chain_ok idle now c rx) as [F X P N G B]; [done..|lia|lia|]. cbn zeta in *.
  destruct (idle_sweep_chain rx c idle now) as [rx1 c1]. cbn [fst snd] in *.
  pose proof (filter_total c idle now Hc). pose proof (filter_length c idle now). rewrite <- F in *.
  destruct (IH rx1 Hbs Htb) as [[F2 X2 P2 N2 G2 B2] K2]; [lia|lia|]. cbn zeta in *.
  destruct (idle_sweep rx1 bs idle now) as [rx2 bs2]. cbn [fst snd concat map] in *.
  split; [split|].
  - rewrite List.filter_app. by rewrite <- F, <- F2.
  - rewrite X2, X. by destruct rx.
  - rewrite !total_app. lia.
  - rewrite !length_app. lia.
  - lia.
  - apply Forall_app. split; [|done]. eapply Forall_impl; [exact B|]. simpl. intros f Hf. lia.
  - by rewrite <- F, <- K2.
Qed.

Lemma idle_us_range T rx : rx_inv T rx -> 0 <= idle_us_of (cfg rx) < 2 ^ 52.
Proof. intros H. pose proof (co_idle _ (ri_cfg _ _ H)). unfold idle_us_of. rewrite u64_small; lia. Qed.

Lemma filter_concat {A} (p : A -> bool) (bs : list (list A)) :
  concat (map (List.filter p) bs) = List.filter p (concat bs).
Proof. induction bs as [|c bs IH]; [done|]. simpl. by rewrite List.filter_app, IH. Qed.

Lemma filter_all {A} (p : A -> bool) (l : list A) : Forall (fun x => p x = true) l -> List.filter p l = l.
Proof. induction 1 as [|x l Hx _ IH]; [done|]. simpl. by rewrite Hx, IH. Qed.

Lemma idle_phase_ok now rx :
  rx_inv now rx ->
  let rx' := idle_phase rx now in
  rx_inv now rx' /\ cfg rx' = cfg rx /\ next_gap_us rx' = next_gap_us rx /\
  flows rx' = List.filter (alive (idle_us_of (cfg rx)) now) (flows rx).
Proof.
  intros H. cbn zeta. unfold idle_phase. fold (idle_us_of (cfg rx)). pose proof (ri_time _ _ H) as HT.
  pose proof (idle_us_range _ _ H) as Hid. set (idle := idle_us_of (cfg rx)) in *. unfold TIME_LIMIT in HT.
  destruct (Z.ltb_spec now (next_idle_us rx)) as [Hg|Hg].
  { split_and!; [done..|]. symmetry. apply filter_all. eapply Forall_impl; [apply (ri_flows _ _ H)|].
    intros f Hf. pose proof (fo_idle _ _ _ Hf). pose proof (fo_time _ _ _ Hf). fold idle in H0.
    unfold alive, is_idle. destruct (Z.ltb_spec (last_progress_us f) now); [|done].
    rewrite u64_small by lia. by rewrite (proj2 (Z.ltb_ge _ _)) by lia. }
  set (rx0 := rx <| next_idle_us := UINT64_MAX |>). change (buckets rx0) with (buckets rx).
  pose proof (ri_flows _ _ H) as Hok. pose proof (ri_pool _ _ H) as Hp. pose proof (ri_count _ _ H) as Hc.
  pose proof (ri_limit _ _ H). destruct (co_pool _ (ri_cfg _ _ H)). pose proof (ri_max _ _ H).
  pose proof (co_flows _ (ri_cfg _ _ H)). unfold flows in Hp, Hc, Hok. unfold UINT16_MAX in *.
  destruct (idle_sweep_ok idle now (buckets rx) rx0) as [[F X P N G B] K]; [done| | |simpl; lia|simpl; lia|].
  { eapply Forall_impl; [exact Hok|]. intros f []. done. }
  { eapply Forall_impl; [exact Hok|]. intros f [? ? ? Hft ? ?]. unfold TIME_LIMIT. lia. }
  cbn zeta in *. destruct (idle_sweep rx0 (buckets rx) idle now) as [rx' bs']. cbn [fst snd] in *.
  assert (Hsub : forall f, f ∈ concat bs' -> f ∈ concat (buckets rx)).
  { intros f. rewrite F, !list_elem_of_In. by intros [? _]%List.filter_In. }
  assert (Ec : cfg rx' = cfg rx) by (by rewrite X).
  split_and!; [|done|by rewrite X|by unfold flows].
  split; simpl; rewrite ?Ec; try apply H.
  - rewrite K, length_map. destruct (ri_size _ _ H). by rewrite X.
  - apply Forall_forall. intros f Hf. unfold flows in Hf. simpl in Hf. pose proof (Hsub f Hf) as Hf'.
    rewrite Forall_forall in Hok, B. destruct (Hok f Hf') as [? ? Hgb ? ? ?]. split; try done.
    + unfold gap_bound. simpl. rewrite X. done.
    + simpl. rewrite ?Ec. by apply B.
  - unfold flows. simpl. simpl in P. lia.
  - simpl in P. assert (total_bytes (concat bs') <= total_bytes (concat (buckets rx))); [|lia].
    rewrite F. apply filter_total. eapply Forall_impl; [exact Hok|]. intros f []. done.
  - unfold flows. simpl. simpl in N. lia.
  - simpl in N. pose proof (filter_length (concat (buckets rx)) idle now) as Hfl. rewrite <- F in Hfl. lia.
  - intros i c f Hi Hf. rewrite K in Hi. apply list_lookup_fmap_Some in Hi as (c0 & -> & Hi).
    apply list_elem_of_In, List.filter_In in Hf as [Hf _]. apply list_elem_of_In in Hf.
    etrans; [|by eapply (ri_place _ _ H)]. unfold flow_idx. simpl. by rewrite X.
  - unfold flows. simpl. rewrite F. pose proof (ri_keys _ _ H) as Hk. unfold flows in Hk.
    clear -Hk. induction (concat (buckets rx)) as [|f l IH]; simpl; [constructor|].
    rewrite fmap_cons in Hk. apply NoDup_cons in Hk as [Hk1 Hk2]. destruct (alive idle now f); [|by apply IH].
    rewrite fmap_cons. constructor; [|by apply IH]. intros (g & Eg & Hg)%list_elem_of_fmap. apply Hk1.
    apply list_elem_of_fmap. exists g. split; [done|]. by apply list_elem_of_In, List.filter_In, proj1, list_elem_of_In in Hg.
Qed.

Lemma tick_ok T now rx :
  rx_inv T rx -> T <= now < TIME_LIMIT ->
  let rx' := mqvpn_reorder_rx_tick rx now in
  rx_inv now rx' /\ cfg rx' = cfg rx /\
  Forall (fun f => (gap_timer_active f = true -> now < gap_deadline_us f) /\
                   is_idle f (idle_us_of (cfg rx)) now = false) (flows rx') /\
  flows rx' = List.filter (alive (idle_us_of (cfg rx)) now) (flows (gap_phase rx now)).
Proof.
  intros H Hn. cbn zeta. unfold mqvpn_reorder_rx_tick.
  destruct (gap_phase_ok T now rx H Hn) as (H1 & Ec1 & Ek1 & Hd).
  destruct (Z.eqb_spec (n_flows rx) 0) as [E|E].
  - assert (Hnil : flows rx = []) by (apply nil_length_inv; pose proof (ri_count _ _ H); lia).
    assert (Hnil' : flows (gap_phase rx now) = []).
    { rewrite Hnil in Ek1. by apply fmap_nil_inv in Ek1. }
    rewrite Hnil, Hnil'. split_and!; [by eapply rx_inv_later|done|constructor|done].
  - destruct (idle_phase_ok now (gap_phase rx now) H1) as (H2 & Ec2 & Eg & Ef). rewrite Ec1 in Ef.
    split_and!; [done|congruence| |done]. rewrite Ef. apply Forall_forall. intros f Hf.
    apply list_elem_of_In, List.filter_In in Hf as [Hf Ha]. rewrite Forall_forall in Hd.
    split; [by apply Hd, list_elem_of_In|]. by apply negb_true_iff in Ha.
Qed.
End table.
