(* ===== verification/RxEngine.v ===== *)
(** * The receive engine from creation to teardown

    The public interface of [ReorderRx] over whole lifetimes: any sequence of
    datagrams and ticks after [mqvpn_reorder_rx_new] keeps the engine safe,
    the tick leaves no work behind, teardown returns the whole pool, and the
    lifetime statistics balance up to the periods cut off by evictions. *)

From stdpp Require Import list_numbers.
From S2P Require Import Prelude Wire Ring ReorderRx RxFlow RxInv RxStep RxTrace RxTable.

(** ** Lifetimes *)

Inductive rx_op :=
  | RxPacket (al : allocs) (datagram : list Z) (now : Z)
  | RxTick (now : Z)
  | RxForce (force : bool).

Definition rx_step (rx : mqvpn_reorder_rx_t) (op : rx_op) : option mqvpn_reorder_rx_t :=
  match op with
  | RxPacket al d now => mqvpn_reorder_rx_on_packet al rx d now
  | RxTick now => Some (mqvpn_reorder_rx_tick rx now)
  | RxForce b => Some (mqvpn_reorder_rx_set_force_no_demotion rx b)
  end.

Fixpoint rx_run (rx : mqvpn_reorder_rx_t) (ops : list rx_op) : option mqvpn_reorder_rx_t :=
  match ops with
  | [] => Some rx
  | op :: ops => rx ← rx_step rx op; rx_run rx ops
  end.

(** Datagrams are bytes and the clock does not step back. *)
Fixpoint ops_ok (T : Z) (ops : list rx_op) : Prop :=
  match ops with
  | [] => True
  | RxPacket _ d now :: ops => bytes_ok d /\ T <= now < TIME_LIMIT /\ ops_ok now ops
  | RxTick now :: ops => T <= now < TIME_LIMIT /\ ops_ok now ops
  | RxForce _ :: ops => ops_ok T ops
  end.

(** The configuration fields hold values of their C types, the flow table is
    bounded and the pool limit leaves room for one packet. *)
Record cfg_ranges (c : mqvpn_reorder_config_t) : Prop := {
  cr_wait : 0 <= max_wait_ms c < 2 ^ 32;
  cr_cap : 0 <= cap_packets_per_flow c < 2 ^ 32;
  cr_flows : 0 < max_flows c < 2 ^ 32;
  cr_pool : 0 <= global_max_buffer_bytes c /\ global_max_buffer_bytes c + UINT16_MAX < 2 ^ 64;
  cr_idle : 0 <= ingress_idle_timeout_sec c < 2 ^ 32;
  cr_rules : Forall (fun r => 0 <= explicit_wait_ms r < 2 ^ 32 /\ 0 <= explicit_cap r < 2 ^ 32) (rules c)
}.

Lemma preset_ranges p w c : mqvpn_reorder_profile_preset p = Some (w, c) -> 0 <= w < 2 ^ 32 /\ 0 <= c < 2 ^ 32.
Proof. destruct p; intros [= <- <-]; lia. Qed.

Lemma finalize_rule_ranges c r :
  cfg_ranges c -> 0 <= explicit_wait_ms r < 2 ^ 32 -> 0 <= explicit_cap r < 2 ^ 32 ->
  0 <= resolved_wait_ms (finalize_rule c r) < 2 ^ 32 /\ 0 <= resolved_cap (finalize_rule c r) < 2 ^ 32.
Proof.
  intros [? ? _ _ _ _] Hw Hc. pose proof (preset_ranges (profile r)) as Hp. unfold finalize_rule. simpl.
  destruct (mqvpn_reorder_profile_preset (profile r)) as [[pw pc]|]; [specialize (Hp pw pc eq_refl)|clear Hp];
    split; repeat case_match; lia.
Qed.

Lemma find_map_Some {A} (p : A -> bool) (g : A -> A) l x :
  List.find p (map g l) = Some x -> exists y, y ∈ l /\ x = g y.
Proof.
  intros [Hin _]%List.find_some. apply List.in_map_iff in Hin as (y & <- & Hy).
  exists y. split; [by apply list_elem_of_In|done].
Qed.

Lemma new_cfg_ok c : cfg_ranges c -> mqvpn_reorder_config_validate c = true ->
  cfg_ok (mqvpn_reorder_config_finalize c).
Proof.
  intros Hr Hv. pose proof Hr as [? ? ? ? ? Hrules]. rewrite Forall_forall in Hrules.
  assert (Hcap : mqvpn_reorder_cap_is_valid (cap_packets_per_flow c) = true)
    by (unfold mqvpn_reorder_config_validate in Hv; by case_match).
  split; try done; intros key; unfold key_cap, key_wait_of;
    destruct (mqvpn_reorder_match_rule _ key) as [r|] eqn:E; try done;
    apply find_map_Some in E as (r0 & Hin & ->); destruct (Hrules _ Hin);
    destruct (finalize_rule_ranges c r0) as [? ?]; try done.
  split; [apply finalize_rule_cap|done].
Qed.

Section engine.
Context {RS : RingSpec}.

Lemma rx_empty_ok c seed bs :
  cfg_ok c -> length bs = Z.to_nat MQVPN_RX_BUCKETS -> Forall (fun l => l = []) bs ->
  rx_inv 0 (Rx c seed bs MQVPN_RX_BUCKETS 0 0 0 0 stats_zero []).
Proof.
  intros Hc Hl He. assert (Hnil : concat bs = []) by (clear Hl; induction He as [|? ? -> _ IH]; done).
  pose proof (co_flows _ Hc). destruct (co_pool _ Hc).
  split; unfold flows; cbn -[Z.pow]; rewrite ?Hnil; try done; try lia.
  - intros i l f Hi Hf. rewrite Forall_forall in He. apply list_elem_of_lookup_2, He in Hi as ->.
    by apply elem_of_nil in Hf.
  - constructor.
Qed.

Lemma rx_new_ok c seed rx :
  cfg_ranges c -> mqvpn_reorder_rx_new true true (Some c) seed true = Some rx ->
  rx_inv 0 rx /\ deliver_log rx = [].
Proof.
  intros Hr. unfold mqvpn_reorder_rx_new. destruct (mqvpn_reorder_config_validate c) eqn:Hv; [|done].
  cbn [negb orb]. intros E%Some_inj. rewrite <- E. split; [|done].
  apply rx_empty_ok; [by apply new_cfg_ok|apply length_replicate|by apply Forall_replicate].
Qed.

Lemma rx_force_ok T rx b : rx_inv T rx -> rx_inv T (mqvpn_reorder_rx_set_force_no_demotion rx b).
Proof.
  intros H. destruct (ri_cfg _ _ H) as [? ? ? ? ?]. split; try apply H; [by split|].
  eapply Forall_impl; [apply (ri_flows _ _ H)|]. intros f []. by split.
Qed.

(** The limits of the configuration never move. *)
Definition same_limits (c c' : mqvpn_reorder_config_t) : Prop :=
  max_flows c' = max_flows c /\ global_max_buffer_bytes c' = global_max_buffer_bytes c /\
  ingress_idle_timeout_sec c' = ingress_idle_timeout_sec c.

Lemma rx_step_ok T rx op : rx_inv T rx -> ops_ok T [op] ->
  exists rx' T', rx_step rx op = Some rx' /\ rx_inv T' rx' /\ T <= T' /\ same_limits (cfg rx) (cfg rx') /\
    forall ops, ops_ok T (op :: ops) -> ops_ok T' ops.
Proof.
  intros H Hop. destruct op as [al d now|now|b]; simpl in *.
  - destruct Hop as (Hb & Hn & _). destruct (on_packet_ok al T now rx d H Hn Hb) as (rx' & E & H' & Ec).
    exists rx', now. rewrite Ec. split_and!; (done || lia || tauto).
  - destruct Hop as [Hn _]. destruct (tick_ok T now rx H Hn) as (H' & Ec & _).
    eexists _, now. rewrite Ec. split_and!; (done || lia || tauto).
  - eexists _, T. split_and!; first [done|by apply rx_force_ok|lia].
Qed.

Lemma rx_run_ok T rx ops : rx_inv T rx -> ops_ok T ops ->
  exists rx' T', rx_run rx ops = Some rx' /\ rx_inv T' rx' /\ T <= T' /\ same_limits (cfg rx) (cfg rx').
Proof.
  revert T rx. induction ops as [|op ops IH]; intros T rx H Hops; [exists rx, T; by split_and!|].
  assert (Hop : ops_ok T [op]) by (destruct op; simpl in *; tauto).
  destruct (rx_step_ok T rx op H Hop) as (rx1 & T1 & E & H1 & HT & (L1 & L2 & L3) & Hnext).
  destruct (IH T1 rx1 H1 (Hnext ops Hops)) as (rx2 & T2 & E2 & H2 & HT2 & (M1 & M2 & M3)).
  exists rx2, T2. simpl. rewrite E. simpl. unfold same_limits. split_and!; (done || lia).
Qed.

(** The concrete reading of the flow invariant. *)
Definition flow_safe (f : mqvpn_reorder_flow_t) : Prop :=
  gap_timer_active f = negb (ring_empty (buffer f)) /\
  (gap_timer_active f = true ->
     expected f < reord f <= rx_next f /\ ring_contains (buffer f) (reord f - 1) = true) /\
  open_periods (fstats f) = Z.b2z (gap_timer_active f) /\
  0 <= rcount (buffer f) <= rcap (buffer f) /\ 0 <= rbytes (buffer f).

Lemma flow_inv_safe f m : flow_inv f m -> flow_safe f.
Proof.
  intros Hv. pose proof (fc_rep _ _ (fi_core _ _ Hv)) as Hr. pose proof (rep_origin _ _ _ Hr) as Ho.
  pose proof (rep_cap_bound _ _ _ Hr). unfold SEQ_LIMIT in Ho. destruct (flow_bytes f m Hv). split_and!.
  - rewrite (rep_ring_empty _ _ _ Hr), (fi_timer _ _ Hv). by repeat case_bool_decide.
  - intros Ha. rewrite (fi_timer _ _ Hv) in Ha. apply bool_decide_eq_true in Ha.
    destruct (fi_mark _ _ Hv Ha) as [Hm Hin]. split; [done|]. pose proof (rep_window _ _ _ _ Hr Hin).
    rewrite (rep_contains _ _ _ _ Hr) by lia. by apply bool_decide_eq_true_2.
  - apply Hv.
  - rewrite (rep_count _ _ _ Hr). lia.
  - rewrite (rep_count _ _ _ Hr). apply (rep_count_cap _ _ _ Hr).
  - lia.
Qed.

Lemma lookup_in_table T rx f : rx_inv T rx -> f ∈ flows rx ->
  exists j, flow_lookup rx (f_key f) = (flow_idx rx (f_key f), Some (j, f)).
Proof.
  intros H Hin. pose proof (ri_flows _ _ H) as Hok. rewrite Forall_forall in Hok.
  pose proof (fo_key _ _ _ (Hok f Hin)) as Hk.
  destruct (flow_lookup rx (f_key f)) as [idx [[j g]|]] eqn:E.
  - assert (idx = flow_idx rx (f_key f)) as -> by (by injection E).
    destruct (lookup_found T rx _ _ _ _ H Hk E) as (i & c & Ei & Hi & Hj & Eg). exists j. do 3 f_equal.
    assert (Hg : g ∈ flows rx) by (apply elem_of_flows; exists i, c; split; [done|by eapply list_elem_of_lookup_2]).
    pose proof (ri_keys _ _ H) as Hnd. apply list_elem_of_lookup in Hin as [a Ha], Hg as [b Hb].
    assert (a = b) as ->; [|congruence]. eapply (NoDup_lookup _ a b (f_key f) Hnd); rewrite list_lookup_fmap.
    + by rewrite Ha.
    + by rewrite Hb, <- Eg.
  - destruct (lookup_absent T rx _ _ H Hk E) as [_ Habs]. destruct Habs. by apply list_elem_of_fmap_2.
Qed.

(** A run followed by a tick: the clock of the run is not past the tick's. *)
Lemma rx_run_then now ops T rx0 rx :
  rx_inv T rx0 -> ops_ok T (ops ++ [RxTick now]) -> rx_run rx0 ops = Some rx ->
  exists T', rx_inv T' rx /\ T' <= now < TIME_LIMIT /\ same_limits (cfg rx0) (cfg rx).
Proof.
  revert T rx0. induction ops as [|op ops IH]; intros T rx0 H Hops Hrun.
  - injection Hrun as ->. simpl in Hops. exists T. split_and!; (done || tauto).
  - assert (Hop : ops_ok T [op]) by (destruct op; simpl in *; tauto).
    destruct (rx_step_ok T rx0 op H Hop) as (rx1 & T1 & E & H1 & HT & (L1 & L2 & L3) & Hnext).
    simpl in Hrun. rewrite E in Hrun. simpl in Hrun.
    destruct (IH T1 rx1 H1 (Hnext _ Hops) Hrun) as (T' & H' & Hn & (M1 & M2 & M3)).
    exists T'. unfold same_limits. split_and!; (done || lia).
Qed.
End engine.

(** C8: safety of the receive engine.  From any successful creation, under
    any sequence of datagrams (any bytes, any allocation failures), ticks and
    evaluation toggles with a clock that does not step back, the engine never
    reads out of bounds, and afterwards: the pool counter is exactly the sum
    of the bytes buffered by the flows and within the configured global
    limit; the flow count is the number of flows in the table and within its
    limit; no key has two flows; a lookup finds every flow in the table; and
    every flow satisfies the timer, mark, accounting and capacity invariants. *)
Theorem engine_safe c seed rx0 ops :
  cfg_ranges c -> mqvpn_reorder_rx_new true true (Some c) seed true = Some rx0 -> ops_ok 0 ops ->
  exists rx, rx_run rx0 ops = Some rx /\
    pool_bytes_used rx = total_bytes (flows rx) /\ pool_bytes_used rx <= global_max_buffer_bytes c /\
    n_flows rx = Z.of_nat (length (flows rx)) /\ n_flows rx <= max_flows c /\
    NoDup (f_key <$> flows rx) /\
    (forall f, f ∈ flows rx -> exists j, flow_lookup rx (f_key f) = (flow_idx rx (f_key f), Some (j, f))) /\
    Forall flow_safe (flows rx).
Proof.
  intros Hr Hnew Hops. destruct (rx_new_ok c seed rx0 Hr Hnew) as [H0 _].
  destruct (rx_run_ok 0 rx0 ops H0 Hops) as (rx & T & E & H & _ & (L1 & L2 & _)).
  assert (Ec : max_flows (cfg rx0) = max_flows c /\ global_max_buffer_bytes (cfg rx0) = global_max_buffer_bytes c).
  { unfold mqvpn_reorder_rx_new in Hnew. destruct (mqvpn_reorder_config_validate c); [|done].
    apply Some_inj in Hnew. by rewrite <- Hnew. }
  destruct Ec as [E1 E2]. exists rx. pose proof (ri_limit _ _ H). pose proof (ri_max _ _ H).
  split_and!; try apply H; [done|lia|lia|by intros f; apply (lookup_in_table T)|].
  eapply Forall_impl; [apply (ri_flows _ _ H)|]. intros f [[m Hv] _ _ _ _ _]. by eapply flow_inv_safe.
Qed.

(** The datagram of number [seq] and flags [flags] around the sample packet
    with source port low byte [port]. *)
Definition demo_datagram (seq flags port : Z) (pad : nat) : list Z :=
  mqvpn_reorder_wire_encode MQVPN_REORDER_TYPE_V1 flags seq ++
  <[21%nat := port]> sample_udp ++ replicate pad 0.

Definition demo_life : list rx_op :=
  [RxPacket all_ok (demo_datagram 10 1 52 0) 1000; RxPacket all_ok (demo_datagram 12 1 52 0) 2000;
   RxPacket all_ok (demo_datagram 7 1 53 0) 3000; RxTick 4000; RxPacket all_ok [1; 2; 3] 5000;
   RxTick 50000; RxForce true; RxPacket all_ok (demo_datagram 15 0 52 0) 60000].

Lemma demo_cfg_ranges : cfg_ranges demo_cfg.
Proof. split; try (simpl; unfold UINT16_MAX; lia). constructor. Qed.

Lemma demo_life_ok : ops_ok 0 demo_life.
Proof.
  assert (H : forall s f p n, bytes_ok (demo_datagram s f p n) <-> forallb (fun b => (0 <=? b) && (b <? 256)) (demo_datagram s f p n) = true).
  { intros. unfold bytes_ok. rewrite List.forallb_forall, Forall_forall. unfold is_byte.
    split; intros Hb x Hx; specialize (Hb x); rewrite ?list_elem_of_In in *; specialize (Hb Hx); bool_to_prop; lia. }
  unfold demo_life, ops_ok, TIME_LIMIT.
  split_and!; try done; try lia; try (apply H; vm_compute; reflexivity).
  repeat constructor; unfold is_byte; lia.
Qed.

Lemma engine_safe_witness :
  exists rx, rx_run demo_rx demo_life = Some rx /\ pool_bytes_used rx = total_bytes (flows rx) /\
    n_flows rx <= 65536.
Proof.
  destruct (engine_safe demo_cfg 7 demo_rx demo_life demo_cfg_ranges ltac:(vm_compute; reflexivity) demo_life_ok)
    as (rx & E & Hp & _ & _ & Hn & _).
  exists rx. split; [exact E|]. split; [exact Hp|exact Hn].
Defined.

(** C23: the tick is complete despite its gates.  In every reachable engine
    state a tick leaves no armed timer whose deadline has passed and no idle
    flow, although it sweeps the buckets only when its lower bounds say so;
    and the flows it removes are exactly the idle ones. *)
Theorem tick_complete c seed rx0 ops rx now :
  cfg_ranges c -> mqvpn_reorder_rx_new true true (Some c) seed true = Some rx0 ->
  ops_ok 0 (ops ++ [RxTick now]) -> rx_run rx0 ops = Some rx ->
  let idle := u64 (ingress_idle_timeout_sec c * 1000000) in
  let rx' := mqvpn_reorder_rx_tick rx now in
  Forall (fun f => (gap_timer_active f = true -> now < gap_deadline_us f) /\ is_idle f idle now = false)
    (flows rx') /\
  flows rx' = List.filter (fun f => negb (is_idle f idle now)) (flows (gap_phase rx now)) /\
  f_key <$> flows (gap_phase rx now) = f_key <$> flows rx.
Proof.
  intros Hr Hnew Hops Hrun. destruct (rx_new_ok c seed rx0 Hr Hnew) as [H0 _].
  destruct (rx_run_then now ops 0 rx0 rx H0 Hops Hrun) as (T & H & Hn & (_ & _ & L)).
  assert (Ec : ingress_idle_timeout_sec (cfg rx0) = ingress_idle_timeout_sec c).
  { unfold mqvpn_reorder_rx_new in Hnew. destruct (mqvpn_reorder_config_validate c); [|done].
    apply Some_inj in Hnew. by rewrite <- Hnew. }
  destruct (tick_ok T now rx H Hn) as (_ & _ & Hf & Hfl). destruct (gap_phase_ok T now rx H Hn) as (_ & _ & Hk & _).
  unfold idle_us_of in *. rewrite L, Ec in Hf, Hfl. by split_and!.
Qed.

Lemma tick_complete_witness :
  let idle := u64 (ingress_idle_timeout_sec demo_cfg * 1000000) in
  let rx' := mqvpn_reorder_rx_tick (default demo_rx (rx_run demo_rx demo_life)) 100000000 in
  Forall (fun f => (gap_timer_active f = true -> 100000000 < gap_deadline_us f) /\
                   is_idle f idle 100000000 = false) (flows rx') /\
  length (flows (default demo_rx (rx_run demo_rx demo_life))) = 2%nat /\ length (flows rx') = 1%nat.
Proof.
  split; [|split; vm_compute; reflexivity].
  refine (proj1 (tick_complete demo_cfg 7 demo_rx demo_life (default demo_rx (rx_run demo_rx demo_life))
    100000000 demo_cfg_ranges _ _ _)).
  - vm_compute. reflexivity.
  - pose proof demo_life_ok as H. unfold demo_life, ops_ok, TIME_LIMIT in *. simpl. tauto.
  - vm_compute. reflexivity.
Defined.

(** ** Teardown and statistics *)

Definition fold_stats (out : mqvpn_reorder_stats_t) (l : list mqvpn_reorder_flow_t) : mqvpn_reorder_stats_t :=
  fold_left (fun out f => mqvpn_reorder_stats_accumulate out (fstats f)) l out.

Lemma fold_left_concat {A B} (g : A -> B -> A) (bs : list (list B)) (a : A) :
  fold_left (fun a c => fold_left g c a) bs a = fold_left g (concat bs) a.
Proof.
  revert a. induction bs as [|c bs IH]; intros a; [done|]. simpl. by rewrite fold_left_app, IH.
Qed.

Lemma u64_add_l a b : u64 (u64 a + b) = u64 (a + b).
Proof. unfold u64. by rewrite Zplus_mod_idemp_l. Qed.

(** The period balance of an accumulation is the sum of the balances. *)
Lemma open_periods_accumulate a b :
  open_periods (mqvpn_reorder_stats_accumulate a b) = u64 (open_periods a + open_periods b).
Proof.
  unfold open_periods, mqvpn_reorder_stats_accumulate. simpl.
  destruct (u64_wrap_self (gap_count a + gap_count b)) as [k0 ->],
    (u64_wrap_self (gap_filled_count a + gap_filled_count b)) as [k1 ->],
    (u64_wrap_self (gap_timeout_count a + gap_timeout_count b)) as [k2 ->],
    (u64_wrap_self (gap_overflow_count a + gap_overflow_count b)) as [k3 ->],
    (u64_wrap_self (gap_demote_count a + gap_demote_count b)) as [k4 ->],
    (u64_wrap_self (gap_reset_count a + gap_reset_count b)) as [k5 ->].
  match goal with |- _ = u64 (u64 ?x + u64 ?y) =>
    destruct (u64_wrap_self x) as [k6 ->], (u64_wrap_self y) as [k7 ->] end.
  apply u64_wrap. exists (k0 - k1 - k2 - k3 - k4 - k5 - k6 - k7). lia.
Qed.

Lemma open_periods_fold l out :
  open_periods (fold_stats out l) =
  u64 (open_periods out + foldr (fun f acc => open_periods (fstats f) + acc) 0 l).
Proof.
  revert out. induction l as [|f l IH]; intros out; simpl.
  - rewrite Z.add_0_r. symmetry. apply u64_small, u64_range.
  - unfold fold_stats in *. simpl. rewrite IH, open_periods_accumulate, u64_add_l. f_equal. lia.
Qed.

Section teardown.
Context {RS : RingSpec}.

Lemma destroy_all_ok l rx :
  Forall (fun f => exists m, flow_inv f m) l -> total_bytes l <= pool_bytes_used rx < 2 ^ 64 ->
  let rx' := fold_left flow_destroy l rx in
  pool_bytes_used rx' = pool_bytes_used rx - total_bytes l /\ evicted_stats rx' = fold_stats (evicted_stats rx) l.
Proof.
  intros Hl. revert rx. induction Hl as [|f l [m Hv] Hl IH]; intros rx Hp; cbn zeta.
  { unfold fold_stats. simpl. split; [lia|done]. }
  destruct (flow_bytes f m Hv) as [Hb Hb0]. simpl in *.
  assert (0 <= total_bytes l).
  { clear -Hl RS. induction Hl as [|g l [k Hk] _ IH]; simpl; [done|]. destruct (flow_bytes g k Hk). lia. }
  rewrite (flow_destroy_ok rx f m (fc_rep _ _ (fi_core _ _ Hv))) by (unfold pool_ok; lia).
  destruct (IH (rx <| evicted_stats := mqvpn_reorder_stats_accumulate (evicted_stats rx) (fstats f) |>
    <| pool_bytes_used := pool_bytes_used rx - sum_len m |>)) as [H1 H2]; [simpl; lia|].
  cbn zeta in *. rewrite H1, H2. simpl. split; [lia|done].
Qed.
End teardown.

(** Flows whose gap timer is armed. *)
Definition armed_flows (rx : mqvpn_reorder_rx_t) : Z :=
  Z.of_nat (length (List.filter gap_timer_active (flows rx))).

Lemma armed_sum l : Forall flow_safe l ->
  foldr (fun f acc => open_periods (fstats f) + acc) 0 l = Z.of_nat (length (List.filter gap_timer_active l)).
Proof.
  induction 1 as [|f l (_ & _ & Ho & _) _ IH]; [done|]. simpl. rewrite Ho, IH.
  destruct (gap_timer_active f); simpl; lia.
Qed.

(** Teardown and lifetime statistics.  In every reachable state,
    destroying the engine returns every buffered byte to the pool and folds
    into the lifetime totals exactly what [get_stats] reports; and the
    reported wait periods that have started and not ended are those of the
    flows whose timer is armed now plus those that evicted flows took with
    them. *)
Theorem teardown_and_stats c seed rx0 ops rx :
  cfg_ranges c -> mqvpn_reorder_rx_new true true (Some c) seed true = Some rx0 -> ops_ok 0 ops ->
  rx_run rx0 ops = Some rx ->
  pool_bytes_used (mqvpn_reorder_rx_free rx) = 0 /\
  evicted_stats (mqvpn_reorder_rx_free rx) = mqvpn_reorder_rx_get_stats rx /\
  open_periods (mqvpn_reorder_rx_get_stats rx) = u64 (open_periods (evicted_stats rx) + armed_flows rx).
Proof.
  intros Hr Hnew Hops Hrun. destruct (rx_new_ok c seed rx0 Hr Hnew) as [H0 _].
  destruct (rx_run_ok 0 rx0 ops H0 Hops) as (rx' & T & E & H & _). rewrite Hrun in E. injection E as <-.
  pose proof (ri_pool _ _ H) as Hp. pose proof (ri_limit _ _ H). destruct (co_pool _ (ri_cfg _ _ H)).
  assert (Hinv : Forall (fun f => exists m, flow_inv f m) (flows rx)).
  { eapply Forall_impl; [apply (ri_flows _ _ H)|]. by intros f []. }
  destruct (destroy_all_ok (flows rx) rx Hinv) as [Hpool Hev]; [unfold UINT16_MAX in *; lia|].
  cbn zeta in *. unfold mqvpn_reorder_rx_free, mqvpn_reorder_rx_get_stats. rewrite !fold_left_concat. split_and!.
  - unfold flows in *. lia.
  - exact Hev.
  - fold (flows rx). fold (fold_stats (evicted_stats rx) (flows rx)). rewrite open_periods_fold, armed_sum; [done|].
    eapply Forall_impl; [exact Hinv|]. intros f [m Hv]. by eapply flow_inv_safe.
Qed.

Lemma teardown_and_stats_witness :
  pool_bytes_used (mqvpn_reorder_rx_free (default demo_rx (rx_run demo_rx demo_life))) = 0 /\
  pool_bytes_used (default demo_rx (rx_run demo_rx demo_life)) = 28.
Proof.
  split; [|vm_compute; reflexivity].
  refine (proj1 (teardown_and_stats demo_cfg 7 demo_rx demo_life (default demo_rx (rx_run demo_rx demo_life))
    demo_cfg_ranges _ demo_life_ok _)); vm_compute; reflexivity.
Defined.

(** ** Two observations on concrete runs *)

(** Two flows in a table for one: evicting the first one while its timer is
    armed leaves a started period without an end in the lifetime statistics,
    although no timer is armed any more. *)
Definition one_flow_cfg : mqvpn_reorder_config_t := demo_cfg <| max_flows := 1 |>.

Definition one_flow_rx : mqvpn_reorder_rx_t :=
  default demo_rx (mqvpn_reorder_rx_new true true (Some one_flow_cfg) 7 true).

Definition evict_armed : list rx_op :=
  [RxPacket all_ok (demo_datagram 1 1 52 0) 1000; RxPacket all_ok (demo_datagram 3 1 52 0) 2000;
   RxPacket all_ok (demo_datagram 1 1 53 0) 3000; RxTick 1000000].

(** The header says the identity between started and ended wait periods
    holds over the aggregate; in this run one period was started, none ended
    and none is running. *)
Theorem eviction_unbalances_periods :
  exists rx, rx_run one_flow_rx evict_armed = Some rx /\ armed_flows rx = 0 /\
    gap_count (mqvpn_reorder_rx_get_stats rx) = 1 /\
    open_periods (mqvpn_reorder_rx_get_stats rx) = 1.
Proof. eexists. split; [vm_compute; reflexivity|]. split_and!; vm_compute; reflexivity. Qed.

(** A flow limited to 100 buffered bytes: after the flush that the third
    ahead packet forces, the packet is stored without a second look at the
    flow's limit. *)
Definition byte_limit_cfg : mqvpn_reorder_config_t :=
  demo_cfg <| max_buffer_bytes_per_flow := 100 |> <| cap_packets_per_flow := 16 |>.

Definition byte_limit_rx : mqvpn_reorder_rx_t :=
  default demo_rx (mqvpn_reorder_rx_new true true (Some byte_limit_cfg) 7 true).

Definition exceed_limit : list rx_op :=
  [RxPacket all_ok (demo_datagram 1 1 52 0) 1000; RxPacket all_ok (demo_datagram 3 1 52 0) 2000;
   RxPacket all_ok (demo_datagram 5 1 52 40) 3000; RxPacket all_ok (demo_datagram 7 1 52 60) 4000].

(** A flow's byte limit is not a bound: in this run a flow limited to 100
    buffered bytes ends with 156. *)
Theorem flow_byte_limit_exceeded :
  exists rx f, rx_run byte_limit_rx exceed_limit = Some rx /\ flows rx = [f] /\
    max_buffer_bytes_per_flow (cfg rx) = 100 /\ rbytes (buffer f) = 156.
Proof. eexists _, _. split; [vm_compute; reflexivity|]. split_and!; vm_compute; reflexivity. Qed.
