(* ===== verification/ReorderTx.v ===== *)
(** * The transmit side of the reorder shim ([src/reorder_tx.c])

    The send-flow table and the peek/commit stamping of outgoing packets.  A
    flow pointer is a place (bucket, position) of the table; the answers of
    [calloc] are boolean arguments. *)

From S2P Require Import Prelude Chains Wire.

(** ** Data *)

Record mqvpn_send_flow_t := SendFlow {
  sf_key : mqvpn_flow_key_t;
  next_seq : Z;
  last_activity_us : Z;
  reset_marks_left : Z;
  eligible : bool
}.

#[export] Instance eta_send_flow : Settable mqvpn_send_flow_t := fun r =>
  SendFlow (sf_key r) (next_seq r) (last_activity_us r) (reset_marks_left r) (eligible r).

Record mqvpn_reorder_tx_stats_t := TxStats {
  forced_evict_count : Z;
  flows_created : Z;
  idle_evict_count : Z;
  table_full_raw : Z
}.

#[export] Instance eta_tx_stats : Settable mqvpn_reorder_tx_stats_t := fun r =>
  TxStats (forced_evict_count r) (flows_created r) (idle_evict_count r) (table_full_raw r).

Record mqvpn_reorder_tx_t := Tx {
  tx_cfg : mqvpn_reorder_config_t;
  tx_hash_seed : Z;
  tx_buckets : list (list mqvpn_send_flow_t);
  tx_n_buckets : Z;
  tx_n_flows : Z;
  tx_stats : mqvpn_reorder_tx_stats_t
}.

#[export] Instance eta_tx : Settable mqvpn_reorder_tx_t := fun r =>
  Tx (tx_cfg r) (tx_hash_seed r) (tx_buckets r) (tx_n_buckets r) (tx_n_flows r) (tx_stats r).

Inductive mqvpn_reorder_tx_action_t :=
  | MQVPN_REORDER_TX_STAMP | MQVPN_REORDER_TX_RAW | MQVPN_REORDER_TX_DROP_MTU.

(** [hdr] is the eight bytes of the header, [peek_flow] the flow pointer. *)
Record mqvpn_reorder_tx_peek_t := Peek {
  action : mqvpn_reorder_tx_action_t;
  hdr : list Z;
  peek_flow : option (nat * nat)
}.

(** ** Operations *)

Fixpoint pick_loop (fuel : nat) (n max_flows : Z) : Z :=
  match fuel with
  | O => n
  | S fuel =>
      if (n <? max_flows) && (n <? Z.shiftl 1 20) then pick_loop fuel (u32 (Z.shiftl n 1)) max_flows else n
  end.

(** From 16 to [2^20] the loop doubles at most 16 times. *)
Definition pick_buckets (max_flows : Z) : Z := pick_loop 17 16 max_flows.

(** [ok_tx] and [ok_buckets] are the answers of the two [calloc]s. *)
Definition mqvpn_reorder_tx_new (ok_tx ok_buckets : bool) (c : option mqvpn_reorder_config_t) (seed : Z)
    : option mqvpn_reorder_tx_t :=
  match c with
  | None => None
  | Some c =>
      if negb ok_tx then None
      else
        let n := pick_buckets (if negb (max_flows c =? 0) then max_flows c else 16) in
        if negb ok_buckets then None
        else Some (Tx c seed (replicate (Z.to_nat n) []) n 0 (TxStats 0 0 0 0))
  end.

Definition compute_eligible (c : mqvpn_reorder_config_t) (key : mqvpn_flow_key_t) : bool :=
  match mqvpn_reorder_match_rule c key with
  | None => bool_decide (rules c = []) && negb (bool_decide (mode c = MQVPN_REORDER_OFF))
  | Some r => match mqvpn_reorder_profile_preset (profile r) with Some _ => true | None => false end
  end.

Definition tx_idx (tx : mqvpn_reorder_tx_t) (key : mqvpn_flow_key_t) : Z :=
  u32 (Z.land (mqvpn_flow_key_hash key (tx_hash_seed tx)) (u32 (tx_n_buckets tx - 1))).

Definition tx_chain (tx : mqvpn_reorder_tx_t) (b : nat) : list mqvpn_send_flow_t :=
  default [] (tx_buckets tx !! b).

Definition table_lookup (tx : mqvpn_reorder_tx_t) (key : mqvpn_flow_key_t)
    : nat * option (nat * mqvpn_send_flow_t) :=
  let b := Z.to_nat (tx_idx tx key) in
  (b, list_find (fun f => mqvpn_flow_key_eq (sf_key f) key = true) (tx_chain tx b)).

Definition tx_idle (f : mqvpn_send_flow_t) (idle_us now_us : Z) : bool :=
  (last_activity_us f <? now_us) && (idle_us <? u64 (now_us - last_activity_us f)).

(** The scan of one chain for the oldest idle flow. *)
Fixpoint idle_scan_chain (idle_us now_us : Z) (b j : nat) (c : list mqvpn_send_flow_t)
    (oldest : option (nat * nat * mqvpn_send_flow_t)) : option (nat * nat * mqvpn_send_flow_t) :=
  match c with
  | [] => oldest
  | f :: c =>
      let oldest :=
        if tx_idle f idle_us now_us then
          match oldest with
          | None => Some (b, j, f)
          | Some (_, _, o) => if last_activity_us f <? last_activity_us o then Some (b, j, f) else oldest
          end
        else oldest in
      idle_scan_chain idle_us now_us b (S j) c oldest
  end.

Fixpoint idle_scan (idle_us now_us : Z) (b : nat) (bs : list (list mqvpn_send_flow_t))
    (oldest : option (nat * nat * mqvpn_send_flow_t)) : option (nat * nat * mqvpn_send_flow_t) :=
  match bs with
  | [] => oldest
  | c :: bs => idle_scan idle_us now_us (S b) bs (idle_scan_chain idle_us now_us b 0 c oldest)
  end.

(** [None] is the return value 0 (no idle victim). *)
Definition evict_one_idle (tx : mqvpn_reorder_tx_t) (now_us : Z) : option mqvpn_reorder_tx_t :=
  let idle_us := u64 (egress_idle_timeout_sec (tx_cfg tx) * 1000000) in
  match idle_scan idle_us now_us 0 (tx_buckets tx) None with
  | None => None
  | Some (b, j, _) =>
      Some (tx <| tx_buckets ::= <[b := delete j (tx_chain tx b)]> |>
               <| tx_n_flows ::= fun n => u32 (n - 1) |>
               <| tx_stats ::= update idle_evict_count (fun n => u64 (n + 1)) |>)
  end.

Definition new_send_flow (tx : mqvpn_reorder_tx_t) (key : mqvpn_flow_key_t) (now_us : Z) : mqvpn_send_flow_t :=
  SendFlow key 0 now_us (reset_mark_packets (tx_cfg tx)) (compute_eligible (tx_cfg tx) key).

(** The table and the place of the flow of [key]; [None] is the null pointer. *)
Definition get_or_create (ok : bool) (tx : mqvpn_reorder_tx_t) (key : mqvpn_flow_key_t) (now_us : Z)
    : mqvpn_reorder_tx_t * option (nat * nat) :=
  match table_lookup tx key with
  | (b, Some (j, _)) => (tx, Some (b, j))
  | (b, None) =>
      let room :=
        if negb (max_flows (tx_cfg tx) =? 0) && (max_flows (tx_cfg tx) <=? tx_n_flows tx)
        then evict_one_idle tx now_us else Some tx in
      match room with
      | None => (tx <| tx_stats ::= update table_full_raw (fun n => u64 (n + 1)) |>, None)
      | Some tx =>
          if ok then
            (tx <| tx_buckets ::= <[b := new_send_flow tx key now_us :: tx_chain tx b]> |>
                <| tx_n_flows ::= fun n => u32 (n + 1) |>
                <| tx_stats ::= update flows_created (fun n => u64 (n + 1)) |>, Some (b, 0%nat))
          else (tx, None)
      end
  end.

Definition send_flow_at (tx : mqvpn_reorder_tx_t) (p : nat * nat) : option mqvpn_send_flow_t :=
  tx_chain tx p.1 !! p.2.

Definition raw_peek : mqvpn_reorder_tx_peek_t := Peek MQVPN_REORDER_TX_RAW (replicate 8 0) None.

(** [None] is an out-of-bounds read in the inner-packet parser. *)
Definition mqvpn_reorder_tx_peek (ok : bool) (tx : mqvpn_reorder_tx_t) (pkt : list Z)
    (now_us max_inner_without_reorder : Z) : option (mqvpn_reorder_tx_t * mqvpn_reorder_tx_peek_t) :=
  if bool_decide (mode (tx_cfg tx) = MQVPN_REORDER_OFF) then Some (tx, raw_peek)
  else
    parsed ← mqvpn_reorder_parse_5tuple pkt;
    match parsed with
    | None => Some (tx, raw_peek)
    | Some key =>
        let '(tx, p) := get_or_create ok tx key now_us in
        match (p ← p; f ← send_flow_at tx p; Some (p, f)) with
        | None => Some (tx, raw_peek)
        | Some (p, flow) =>
            if negb (eligible flow) then Some (tx, raw_peek)
            else if max_inner_without_reorder <? MQVPN_REORDER_HDR_LEN + blen pkt then
              Some (tx, Peek MQVPN_REORDER_TX_DROP_MTU (replicate 8 0) (Some p))
            else
              let flags := if 0 <? reset_marks_left flow then MQVPN_REORDER_FLAG_RESET else 0 in
              Some (tx, Peek MQVPN_REORDER_TX_STAMP
                          (mqvpn_reorder_wire_encode MQVPN_REORDER_TYPE_V1 flags (next_seq flow)) (Some p))
        end
    end.

(** The flow's state after a successful send. *)
Definition commit_flow (flow : mqvpn_send_flow_t) (now_us : Z) : mqvpn_send_flow_t :=
  let flow := flow <| next_seq ::= fun n => u64 (n + 1) |> in
  let flow := if 0 <? reset_marks_left flow
              then flow <| reset_marks_left ::= fun n => u32 (n - 1) |> else flow in
  flow <| last_activity_us := now_us |>.

Definition mqvpn_reorder_tx_commit (tx : mqvpn_reorder_tx_t) (peek : mqvpn_reorder_tx_peek_t) (now_us : Z)
    : mqvpn_reorder_tx_t :=
  match action peek, peek_flow peek with
  | MQVPN_REORDER_TX_STAMP, Some (b, j) =>
      match send_flow_at tx (b, j) with
      | None => tx
      | Some flow => tx <| tx_buckets ::= <[b := <[j := commit_flow flow now_us]> (tx_chain tx b)]> |>
      end
  | _, _ => tx
  end.
