(* ===== verification/TxProofs.v ===== *)
(** * Correctness of the transmit side

    The send-flow table of [ReorderTx] stays well-formed and bounded, never
    evicts an active flow, and stamps the packets of a flow with consecutive
    numbers that the receiver's codec recovers. *)

From S2P Require Import Prelude Chains Wire ReorderTx.

(** ** The table invariant *)

Definition send_flows (tx : mqvpn_reorder_tx_t) : list mqvpn_send_flow_t := concat (tx_buckets tx).

Definition egress_idle_us (c : mqvpn_reorder_config_t) : Z := u64 (egress_idle_timeout_sec c * 1000000).

Record send_flow_ok (c : mqvpn_reorder_config_t) (f : mqvpn_send_flow_t) : Prop := {
  so_key : key_wf (sf_key f);
  so_eligible : eligible f = compute_eligible c (sf_key f);
  so_seq : 0 <= next_seq f < 2 ^ 64;
  so_marks : 0 <= reset_marks_left f <= reset_mark_packets c
}.

Record tx_inv (tx : mqvpn_reorder_tx_t) : Prop := {
  ti_max_range : 0 < max_flows (tx_cfg tx) < 2 ^ 32;
  ti_marks_range : 0 <= reset_mark_packets (tx_cfg tx) < 2 ^ 32;
  ti_size : exists k, 0 <= k <= 20 /\ tx_n_buckets tx = 2 ^ k /\ length (tx_buckets tx) = Z.to_nat (2 ^ k);
  ti_flows : Forall (send_flow_ok (tx_cfg tx)) (send_flows tx);
  ti_count : tx_n_flows tx = Z.of_nat (length (send_flows tx));
  ti_max : tx_n_flows tx <= max_flows (tx_cfg tx);
  ti_place b c f : tx_buckets tx !! b = Some c -> f ∈ c -> Z.to_nat (tx_idx tx (sf_key f)) = b;
  ti_keys : NoDup (sf_key <$> send_flows tx);
  ti_forced : forced_evict_count (tx_stats tx) = 0
}.

Lemma elem_of_send_flows tx f : f ∈ send_flows tx <-> exists b c, tx_buckets tx !! b = Some c /\ f ∈ c.
Proof. apply elem_of_concat_lookup. Qed.

Lemma tx_idx_range tx key : tx_inv tx -> (Z.to_nat (tx_idx tx key) < length (tx_buckets tx))%nat.
Proof.
  intros H. destruct (ti_size _ H) as (k & Hk & En & Hl). rewrite Hl. unfold tx_idx. rewrite En.
  pose proof (pow2_pos k ltac:(lia)). assert (2 ^ k <= 2 ^ 20) by (apply Z.pow_le_mono_r; lia).
  rewrite (u32_small (2 ^ k - 1)), land_ones_mod by lia.
  pose proof (Z.mod_pos_bound (mqvpn_flow_key_hash key (tx_hash_seed tx)) (2 ^ k)). rewrite u32_small; lia.
Qed.

Lemma tx_chain_at tx key : tx_inv tx ->
  tx_buckets tx !! Z.to_nat (tx_idx tx key) = Some (tx_chain tx (Z.to_nat (tx_idx tx key))).
Proof.
  intros H. destruct (lookup_lt_is_Some_2 _ _ (tx_idx_range tx key H)) as [c Hc].
  unfold tx_chain. by rewrite Hc.
Qed.

Lemma tx_lookup_found tx key b j f :
  tx_inv tx -> key_wf key -> table_lookup tx key = (b, Some (j, f)) ->
  tx_buckets tx !! b = Some (tx_chain tx b) /\ tx_chain tx b !! j = Some f /\ sf_key f = key /\ f ∈ send_flows tx.
Proof.
  intros H Hk [= <- Hf]. apply list_find_Some in Hf as (Hj & He & _).
  pose proof (tx_chain_at tx key H) as Hc.
  assert (Hin : f ∈ send_flows tx).
  { apply elem_of_send_flows. eexists _, _. split; [exact Hc|by eapply list_elem_of_lookup_2]. }
  split_and!; [done..| |done]. pose proof (ti_flows _ H) as Hfl. rewrite Forall_forall in Hfl.
  apply flow_key_eq_spec; [by eapply so_key, Hfl|done|done].
Qed.

Lemma tx_lookup_absent tx key b :
  tx_inv tx -> key_wf key -> table_lookup tx key = (b, None) ->
  b = Z.to_nat (tx_idx tx key) /\ key ∉ sf_key <$> send_flows tx.
Proof.
  intros H Hk [= <- Hf]. split; [done|].
  intros (f & -> & (i & c & Hi & Hfc)%elem_of_send_flows)%list_elem_of_fmap.
  pose proof (ti_place _ H i c f Hi Hfc) as <-. rewrite (tx_chain_at tx _ H) in Hi. injection Hi as <-.
  apply list_find_None in Hf. rewrite Forall_forall in Hf. apply (Hf f Hfc). by apply flow_key_eq_spec.
Qed.

(** ** Eviction *)

(** A candidate of the scan is an idle flow of the table. *)
Definition victim_ok (idle now : Z) (bs : list (list mqvpn_send_flow_t))
    (o : option (nat * nat * mqvpn_send_flow_t)) : Prop :=
  match o with
  | None => True
  | Some (b, j, f) => exists c, bs !! b = Some c /\ c !! j = Some f /\ tx_idle f idle now = true
  end.

(** [o] is at least as old as every idle flow of [l]. *)
Definition covers (idle now : Z) (l : list mqvpn_send_flow_t) (o : option (nat * nat * mqvpn_send_flow_t)) : Prop :=
  Forall (fun g => tx_idle g idle now = true ->
    exists b j f, o = Some (b, j, f) /\ last_activity_us f <= last_activity_us g) l.

Lemma idle_scan_chain_ok idle now bs b c pre o seen :
  bs !! b = Some (pre ++ c) -> victim_ok idle now bs o -> covers idle now seen o ->
  let o' := idle_scan_chain idle now b (length pre) c o in
  victim_ok idle now bs o' /\ covers idle now (seen ++ c) o'.
Proof.
  revert pre o seen. induction c as [|f c IH]; intros pre o seen Hb Ho Hs; cbn zeta; [by rewrite app_nil_r|]. simpl.
  set (o1 := if tx_idle f idle now then _ else o).
  assert (H1 : victim_ok idle now bs o1 /\ covers idle now (seen ++ [f]) o1).
  { assert (Hat : (pre ++ f :: c) !! length pre = Some f) by (by rewrite list_lookup_middle).
    unfold o1. destruct (tx_idle f idle now) eqn:Ei.
    - destruct o as [[[b' j'] g]|].
      + destruct (Z.ltb_spec (last_activity_us f) (last_activity_us g)).
        * split; [by exists (pre ++ f :: c)|]. apply Forall_app. split.
          -- eapply Forall_impl; [exact Hs|]. simpl. intros x Hx Hi. destruct (Hx Hi) as (? & ? & ? & [= <- <- <-] & ?).
             eexists _, _, _. split; [done|lia].
          -- constructor; [|constructor]. intros _. eexists _, _, _. split; [done|lia].
        * split; [done|]. apply Forall_app. split; [done|]. constructor; [|constructor].
          intros _. eexists _, _, _. split; [done|lia].
      + split; [by exists (pre ++ f :: c)|]. apply Forall_app. split.
        * eapply Forall_impl; [exact Hs|]. simpl. intros x Hx Hi. by destruct (Hx Hi) as (? & ? & ? & ? & _).
        * constructor; [|constructor]. intros _. eexists _, _, _. split; [done|lia].
    - split; [done|]. apply Forall_app. split; [done|]. constructor; [|constructor]. by rewrite Ei. }
  destruct H1 as [Hv Hc]. destruct (IH (pre ++ [f]) o1 (seen ++ [f])) as [H1 H2]; [by rewrite <- app_assoc|done|done|].
  rewrite length_app, Nat.add_1_r in H1, H2. rewrite <- app_assoc in H2. by split.
Qed.

Lemma idle_scan_ok idle now bs pre suf o :
  bs = pre ++ suf -> victim_ok idle now bs o -> covers idle now (concat pre) o ->
  let o' := idle_scan idle now (length pre) suf o in
  victim_ok idle now bs o' /\ covers idle now (concat bs) o'.
Proof.
  revert pre o. induction suf as [|c suf IH]; intros pre o E Ho Hs; cbn zeta.
  { rewrite app_nil_r in E. by subst pre. }
  simpl. destruct (idle_scan_chain_ok idle now bs (length pre) c [] o (concat pre)) as [H1 H2];
    [rewrite E; by apply list_lookup_middle|done|done|].
  destruct (IH (pre ++ [c]) (idle_scan_chain idle now (length pre) 0 c o)) as [H3 H4];
    [by rewrite <- app_assoc|done|rewrite concat_app; simpl; by rewrite app_nil_r|].
  rewrite length_app, Nat.add_1_r in H3, H4. by split.
Qed.

(** Eviction takes out one flow, which is idle and the oldest of the idle
    ones; without an idle flow it takes out none. *)
Lemma evict_one_idle_ok tx now :
  tx_inv tx ->
  match evict_one_idle tx now with
  | None => Forall (fun f => tx_idle f (egress_idle_us (tx_cfg tx)) now = false) (send_flows tx)
  | Some tx' => exists v, tx_inv tx' /\ tx_cfg tx' = tx_cfg tx /\ tx_n_flows tx' = tx_n_flows tx - 1 /\
      send_flows tx ≡ₚ v :: send_flows tx' /\ tx_idle v (egress_idle_us (tx_cfg tx)) now = true /\
      Forall (fun g => tx_idle g (egress_idle_us (tx_cfg tx)) now = true ->
                       last_activity_us v <= last_activity_us g) (send_flows tx) /\
      (forall key, tx_idx tx' key = tx_idx tx key)
  end.
Proof.
  intros H. unfold evict_one_idle. fold (egress_idle_us (tx_cfg tx)).
  destruct (idle_scan_ok (egress_idle_us (tx_cfg tx)) now (tx_buckets tx) [] (tx_buckets tx) None) as [Hv Hc];
    [done|done|constructor|]. cbn zeta in *. simpl in Hv, Hc.
  destruct (idle_scan _ now 0 (tx_buckets tx) None) as [[[b j] v]|].
  - destruct Hv as (c & Hb & Hj & Hi). unfold tx_chain. rewrite Hb. cbn [default].
    destruct (concat_take (tx_buckets tx) b j c v Hb Hj) as [Hp _]. exists v.
    set (rest := concat (<[b := delete j c]> (tx_buckets tx))) in *.
    pose proof (ti_count _ H) as Hn. unfold send_flows in Hn. rewrite Hp in Hn. simpl in Hn.
    pose proof (ti_max _ H). pose proof (ti_max_range _ H).
    assert (En : u32 (tx_n_flows tx - 1) = tx_n_flows tx - 1) by (apply u32_small; lia).
    pose proof (ti_flows _ H) as Hok. unfold send_flows in Hok. rewrite Hp in Hok. apply Forall_cons in Hok as [_ Hok].
    split_and!; try done.
    + split; simpl; try apply H.
      * destruct (ti_size _ H) as (k & ? & ? & ?). exists k. by rewrite length_insert.
      * done.
      * unfold send_flows. simpl. change (id c) with c. fold rest. lia.
      * lia.
      * intros b' c' g Hb' Hg. apply list_lookup_insert_Some in Hb' as [(<- & <- & _)|[_ Hb']]; [|by eapply (ti_place _ H)].
        eapply (ti_place _ H); [exact Hb|]. change (id c) with c in Hg. rewrite (delete_Permutation c j v Hj). by right.
      * pose proof (ti_keys _ H) as Hk. unfold send_flows in Hk. rewrite Hp in Hk. by apply NoDup_cons in Hk as [_ Hk].
    + eapply Forall_impl; [exact Hc|]. simpl. intros g Hg Hi'. destruct (Hg Hi') as (? & ? & ? & [= <- <- <-] & ?). done.
  - eapply Forall_impl; [exact Hc|]. simpl. intros g Hg. destruct (tx_idle g _ now); [|done].
    by destruct (Hg eq_refl) as (? & ? & ? & ? & _).
Qed.

Lemma tx_add_ok tx key now :
  tx_inv tx -> key_wf key -> key ∉ sf_key <$> send_flows tx -> tx_n_flows tx < max_flows (tx_cfg tx) ->
  let b := Z.to_nat (tx_idx tx key) in
  let tx' := tx <| tx_buckets ::= <[b := new_send_flow tx key now :: tx_chain tx b]> |>
                <| tx_n_flows ::= fun n => u32 (n + 1) |>
                <| tx_stats ::= update flows_created (fun n => u64 (n + 1)) |> in
  tx_inv tx' /\ send_flows tx' ≡ₚ new_send_flow tx key now :: send_flows tx /\
  send_flow_at tx' (b, 0%nat) = Some (new_send_flow tx key now).
Proof.
  intros H Hk Habs Hlt. cbn zeta. pose proof (tx_chain_at tx key H) as Hc. set (b := Z.to_nat (tx_idx tx key)) in *.
  pose proof (concat_cons (tx_buckets tx) b _ (new_send_flow tx key now) Hc) as Hp.
  pose proof (ti_max_range _ H). pose proof (ti_count _ H) as Hn. pose proof (ti_marks_range _ H).
  assert (En : u32 (tx_n_flows tx + 1) = tx_n_flows tx + 1) by (apply u32_small; lia).
  split_and!.
  - split; simpl; try apply H.
    + destruct (ti_size _ H) as (k & ? & ? & ?). exists k. by rewrite length_insert.
    + unfold send_flows. simpl. rewrite Hp. constructor; [|apply (ti_flows _ H)]. split; simpl; (done || lia).
    + unfold send_flows. simpl. rewrite Hp, En, Hn. unfold send_flows. simpl. lia.
    + lia.
    + intros b' c' g Hb' Hg. apply list_lookup_insert_Some in Hb' as [(<- & <- & _)|[_ Hb']]; [|by eapply (ti_place _ H)].
      apply elem_of_cons in Hg as [->|Hg]; [done|]. by eapply (ti_place _ H).
    + unfold send_flows. simpl. rewrite Hp. constructor; [done|apply (ti_keys _ H)].
  - apply Hp.
  - unfold send_flow_at, tx_chain at 1. simpl. rewrite list_lookup_insert_eq by (by eapply lookup_lt_Some). done.
Qed.

(** The flow of a key: found, or created fresh after at most one eviction. *)
Lemma tx_get_or_create_ok ok tx key now :
  tx_inv tx -> key_wf key ->
  let r := get_or_create ok tx key now in
  tx_inv r.1 /\ tx_cfg r.1 = tx_cfg tx /\
  (forall g, g ∈ send_flows tx -> g ∉ send_flows r.1 -> tx_idle g (egress_idle_us (tx_cfg tx)) now = true) /\
  match r.2 with
  | None => key ∉ sf_key <$> send_flows tx
  | Some p => exists f, send_flow_at r.1 p = Some f /\ sf_key f = key /\ p.1 = Z.to_nat (tx_idx r.1 key) /\
      f ∈ send_flows r.1 /\ (f ∈ send_flows tx \/ (key ∉ sf_key <$> send_flows tx) /\ f = new_send_flow tx key now)
  end.
Proof.
  intros H Hk. cbn zeta. unfold get_or_create. destruct (table_lookup tx key) as [b [[j f]|]] eqn:El.
  { destruct (tx_lookup_found tx key b j f H Hk El) as (Hb & Hj & Hf & Hin). cbn [fst snd].
    split_and!; [done|done|by intros|]. exists f. split_and!; try done; [by injection El|by left]. }
  destruct (tx_lookup_absent tx key b H Hk El) as [-> Habs].
  pose proof (ti_max_range _ H) as Hmr. pose proof (ti_max _ H) as Hmx.
  set (room := if negb (max_flows (tx_cfg tx) =? 0) && (max_flows (tx_cfg tx) <=? tx_n_flows tx)
               then evict_one_idle tx now else Some tx).
  assert (Hroom : match room with
    | None => True
    | Some tx1 => tx_inv tx1 /\ tx_cfg tx1 = tx_cfg tx /\ tx_n_flows tx1 < max_flows (tx_cfg tx) /\
        (forall g, g ∈ send_flows tx1 -> g ∈ send_flows tx) /\
        (forall g, g ∈ send_flows tx -> g ∉ send_flows tx1 -> tx_idle g (egress_idle_us (tx_cfg tx)) now = true) /\
        (forall k, tx_idx tx1 k = tx_idx tx k)
    end).
  { unfold room. destruct (_ && _) eqn:E; bool_to_prop.
    - pose proof (evict_one_idle_ok tx now H) as He. destruct (evict_one_idle tx now) as [tx1|]; [|done].
      destruct He as (v & HT1 & Ec & En & Hp & Hi & _ & Hix). split_and!; try done; [lia|..].
      + intros g Hg. rewrite Hp. by right.
      + intros g Hg Hng. rewrite Hp in Hg. by apply elem_of_cons in Hg as [->|Hg].
    - lia.
    - split_and!; (done || lia || by intros). }
  clearbody room. destruct room as [tx1|]; [|cbn [fst snd]; split_and!; [|done|by intros|done]; by destruct H; split].
  destruct Hroom as (HT1 & Ec & Hlt & Hsub & Hev & Hix).
  assert (Habs1 : key ∉ sf_key <$> send_flows tx1).
  { intros (g & -> & Hg%Hsub)%list_elem_of_fmap. by apply Habs, list_elem_of_fmap_2. }
  destruct ok; [|by split_and!].
  destruct (tx_add_ok tx1 key now HT1 Hk Habs1) as (HT2 & Hp & Hat); [by rewrite Ec|]. cbn zeta in *. rewrite <- (Hix key) in *.
  set (tx2 := tx1 <| tx_buckets ::= _ |> <| tx_n_flows ::= _ |> <| tx_stats ::= _ |>) in *. cbn [fst snd].
  split_and!; [done|done| |].
  - intros g Hg Hng. apply Hev; [done|]. intros Hg1. apply Hng. rewrite Hp. by right.
  - exists (new_send_flow tx1 key now). split_and!; try done; [rewrite Hp; by left|right].
    split; [done|]. unfold new_send_flow. by rewrite Ec.
Qed.

(** ** Creation, commit and runs *)

Lemma pick_loop_pow2 fuel a m : 0 <= a <= 20 -> exists k, a <= k <= 20 /\ pick_loop fuel (2 ^ a) m = 2 ^ k.
Proof.
  revert a. induction fuel as [|fuel IH]; intros a Ha; simpl; [by exists a; split; [lia|]|].
  change (Z.shiftl 1 20) with (2 ^ 20).
  destruct (Z.ltb_spec (2 ^ a) m); simpl; [|by exists a; split; [lia|]].
  destruct (Z.ltb_spec (2 ^ a) (2 ^ 20)) as [Hlt|]; [|by exists a; split; [lia|]].
  apply Z.pow_lt_mono_r_iff in Hlt; [|lia..]. assert (2 ^ (a + 1) <= 2 ^ 20) by (apply Z.pow_le_mono_r; lia).
  rewrite Z.shiftl_mul_pow2, <- Z.pow_add_r, u32_small by (pose proof (pow2_pos (a + 1)); lia).
  destruct (IH (a + 1)) as (k & Hk & E); [lia|]. exists k. split; [lia|done].
Qed.

Lemma concat_replicate_nil {A} n : concat (replicate n (@nil A)) = [].
Proof. induction n; [done|]. done. Qed.

Lemma tx_new_ok c seed tx :
  0 < max_flows c < 2 ^ 32 -> 0 <= reset_mark_packets c < 2 ^ 32 ->
  mqvpn_reorder_tx_new true true (Some c) seed = Some tx -> tx_inv tx /\ tx_cfg tx = c.
Proof.
  intros Hm Hk. unfold mqvpn_reorder_tx_new. cbn [negb].
  destruct (pick_loop_pow2 17 4 (if negb (max_flows c =? 0) then max_flows c else 16)) as (k & Hk2 & E); [lia|].
  unfold pick_buckets. change 16 with (2 ^ 4) at 1 3. rewrite E. intros Etx%Some_inj. rewrite <- Etx.
  split; [|done]. split; simpl; try done; unfold send_flows; simpl; rewrite ?concat_replicate_nil; try done; try lia.
  - exists k. split_and!; [lia|lia|done|by rewrite length_replicate].
  - intros b l f [-> _]%lookup_replicate Hf. by apply elem_of_nil in Hf.
  - constructor.
Qed.

Lemma commit_flow_frame f now :
  sf_key (commit_flow f now) = sf_key f /\ eligible (commit_flow f now) = eligible f /\
  next_seq (commit_flow f now) = u64 (next_seq f + 1) /\ last_activity_us (commit_flow f now) = now /\
  reset_marks_left (commit_flow f now) =
    (if 0 <? reset_marks_left f then u32 (reset_marks_left f - 1) else reset_marks_left f).
Proof. unfold commit_flow. simpl. by destruct (0 <? reset_marks_left f). Qed.

Lemma tx_commit_ok tx pk now b j f :
  tx_inv tx -> action pk = MQVPN_REORDER_TX_STAMP -> peek_flow pk = Some (b, j) ->
  send_flow_at tx (b, j) = Some f ->
  let tx' := mqvpn_reorder_tx_commit tx pk now in
  tx_inv tx' /\ tx_cfg tx' = tx_cfg tx /\ send_flow_at tx' (b, j) = Some (commit_flow f now) /\
  (forall key, tx_idx tx' key = tx_idx tx key).
Proof.
  intros H Ha Hp Hf. cbn zeta. unfold mqvpn_reorder_tx_commit. rewrite Ha, Hp, Hf.
  unfold send_flow_at in Hf. cbn [fst snd] in Hf. unfold tx_chain in *.
  destruct (tx_buckets tx !! b) as [c|] eqn:Hb; [|done]. cbn in Hf.
  destruct (concat_take (tx_buckets tx) b j c f Hb Hf) as [Hp1 Hp2]. specialize (Hp2 (commit_flow f now)).
  destruct (commit_flow_frame f now) as (Ek & Ee & Es & _ & Em).
  pose proof (ti_flows _ H) as Hok. unfold send_flows in Hok. rewrite Hp1 in Hok. apply Forall_cons in Hok as [Hfo Hok].
  pose proof (ti_keys _ H) as Hk. unfold send_flows in Hk. rewrite Hp1 in Hk. pose proof (ti_count _ H) as Hn. unfold send_flows in Hn. rewrite Hp1 in Hn.
  pose proof (ti_marks_range _ H).
  split_and!; [|done| |done].
  - split; simpl; try apply H.
    + destruct (ti_size _ H) as (k & ? & ? & ?). exists k. by rewrite length_insert.
    + unfold send_flows. simpl. rewrite Hp2. constructor; [|done]. destruct Hfo as [? ? ? ?]. split.
      * by rewrite Ek.
      * by rewrite Ee, Ek.
      * rewrite Es. apply u64_range.
      * rewrite Em. destruct (Z.ltb_spec 0 (reset_marks_left f)); [rewrite u32_small; lia|lia].
    + unfold send_flows. simpl. by rewrite Hp2.
    + intros b' c' g Hb' Hg. apply list_lookup_insert_Some in Hb' as [(<- & <- & _)|[_ Hb']]; [|by eapply (ti_place _ H)].
      apply list_elem_of_lookup in Hg as [i Hi]. apply list_lookup_insert_Some in Hi as [(<- & <- & _)|[_ Hi]].
      * rewrite Ek. eapply (ti_place _ H); [done|by eapply list_elem_of_lookup_2].
      * eapply (ti_place _ H); [done|by eapply list_elem_of_lookup_2].
    + unfold send_flows. simpl. rewrite Hp2. rewrite fmap_cons, Ek. by rewrite fmap_cons in Hk.
  - unfold send_flow_at, tx_chain. simpl. rewrite list_lookup_insert_eq by (by eapply lookup_lt_Some). simpl.
    apply list_lookup_insert_eq. by eapply lookup_lt_Some.
Qed.

(** A packet offered to the sender; [sent] is whether the transport took the
    stamped datagram. *)
Record offer := Offer { of_alloc : bool; of_sent : bool; of_pkt : list Z; of_now : Z; of_mss : Z }.

Definition tx_send (tx : mqvpn_reorder_tx_t) (o : offer) : option (mqvpn_reorder_tx_t * mqvpn_reorder_tx_peek_t) :=
  r ← mqvpn_reorder_tx_peek (of_alloc o) tx (of_pkt o) (of_now o) (of_mss o);
  Some (if of_sent o then mqvpn_reorder_tx_commit r.1 r.2 (of_now o) else r.1, r.2).

Fixpoint tx_run (tx : mqvpn_reorder_tx_t) (os : list offer)
    : option (mqvpn_reorder_tx_t * list mqvpn_reorder_tx_peek_t) :=
  match os with
  | [] => Some (tx, [])
  | o :: os => r ← tx_send tx o; r' ← tx_run r.1 os; Some (r'.1, r.2 :: r'.2)
  end.

(** What a peek establishes: the verdict's condition, and for a stamp the
    flow whose next number the header carries. *)
Definition peek_ok (tx tx' : mqvpn_reorder_tx_t) (pkt : list Z) (now mss : Z) (pk : mqvpn_reorder_tx_peek_t) : Prop :=
  match action pk with
  | MQVPN_REORDER_TX_RAW => tx_cfg tx' = tx_cfg tx
  | MQVPN_REORDER_TX_DROP_MTU => mss < MQVPN_REORDER_HDR_LEN + blen pkt
  | MQVPN_REORDER_TX_STAMP =>
      MQVPN_REORDER_HDR_LEN + blen pkt <= mss /\
      exists key p f, mqvpn_reorder_parse_5tuple pkt = Some (Some key) /\ peek_flow pk = Some p /\
        send_flow_at tx' p = Some f /\ sf_key f = key /\ compute_eligible (tx_cfg tx) key = true /\
        p.1 = Z.to_nat (tx_idx tx' key) /\
        (f ∈ send_flows tx \/ (key ∉ sf_key <$> send_flows tx) /\ f = new_send_flow tx key now) /\
        hdr pk = mqvpn_reorder_wire_encode MQVPN_REORDER_TYPE_V1
                   (if 0 <? reset_marks_left f then MQVPN_REORDER_FLAG_RESET else 0) (next_seq f)
  end.

Lemma tx_peek_ok ok tx pkt now mss :
  tx_inv tx -> bytes_ok pkt ->
  exists tx' pk, mqvpn_reorder_tx_peek ok tx pkt now mss = Some (tx', pk) /\ tx_inv tx' /\
    tx_cfg tx' = tx_cfg tx /\ peek_ok tx tx' pkt now mss pk /\
    (forall g, g ∈ send_flows tx -> g ∉ send_flows tx' -> tx_idle g (egress_idle_us (tx_cfg tx)) now = true).
Proof.
  intros H Hb. unfold mqvpn_reorder_tx_peek.
  case_bool_decide; [by eexists _, _; split_and!; try done; intros|].
  destruct (parse_5tuple_wf pkt Hb) as (r & Er & Hkey). rewrite Er. cbn [mbind option_bind].
  destruct r as [key|]; [|by eexists _, _; split_and!; try done; intros]. specialize (Hkey key eq_refl).
  destruct (tx_get_or_create_ok ok tx key now H Hkey) as (H1 & Ec & Hev & Hp). cbn zeta in *.
  destruct (get_or_create ok tx key now) as [tx1 [p|]]; cbn [fst snd] in *;
    [|by eexists _, _; split_and!].
  destruct Hp as (f & Hf & Hfk & Hpb & Hin & Hold). cbn [mbind option_bind]. rewrite Hf. cbn [mbind option_bind].
  destruct (eligible f) eqn:Hel; cbn [negb]; [|by eexists _, _; split_and!].
  destruct (Z.ltb_spec mss (MQVPN_REORDER_HDR_LEN + blen pkt)); [by eexists _, _; split_and!|].
  eexists _, _. split_and!; try done. simpl. split; [done|]. exists key, p, f. split_and!; try done.
  pose proof (ti_flows _ H1) as Hfl. rewrite Forall_forall in Hfl. destruct (Hfl f Hin) as [_ He _ _].
  by rewrite <- Ec, <- Hfk, <- He.
Qed.

Lemma tx_send_ok tx o :
  tx_inv tx -> bytes_ok (of_pkt o) ->
  exists tx' pk, tx_send tx o = Some (tx', pk) /\ tx_inv tx' /\ tx_cfg tx' = tx_cfg tx.
Proof.
  intros H Hb. destruct (tx_peek_ok (of_alloc o) tx (of_pkt o) (of_now o) (of_mss o) H Hb) as (tx1 & pk & E & H1 & Ec & Hok & _).
  unfold tx_send. rewrite E. cbn [mbind option_bind fst snd]. destruct (of_sent o); [|by eexists _, _].
  eexists _, _. split; [done|]. unfold peek_ok in Hok. destruct (action pk) eqn:Ea.
  - destruct Hok as (_ & key & [b j] & f & _ & Hp & Hf & _).
    destruct (tx_commit_ok tx1 pk (of_now o) b j f H1 Ea Hp Hf) as (? & E2 & _). split; [done|congruence].
  - unfold mqvpn_reorder_tx_commit. by rewrite Ea.
  - unfold mqvpn_reorder_tx_commit. by rewrite Ea.
Qed.

Lemma tx_run_ok tx os :
  tx_inv tx -> Forall (fun o => bytes_ok (of_pkt o)) os ->
  exists tx' pks, tx_run tx os = Some (tx', pks) /\ tx_inv tx' /\ tx_cfg tx' = tx_cfg tx.
Proof.
  revert tx. induction os as [|o os IH]; intros tx H Hos; [by eexists _, _|].
  apply Forall_cons in Hos as [Ho Hos]. destruct (tx_send_ok tx o H Ho) as (tx1 & pk & E & H1 & Ec).
  destruct (IH tx1 H1 Hos) as (tx2 & pks & E2 & H2 & Ec2). exists tx2, (pk :: pks). simpl. rewrite E. simpl.
  rewrite E2. simpl. split_and!; [done|done|congruence].
Qed.

(** The flow of a key is where the lookup finds it. *)
Lemma get_existing ok tx key now p f :
  tx_inv tx -> key_wf key -> send_flow_at tx p = Some f -> sf_key f = key ->
  p.1 = Z.to_nat (tx_idx tx key) -> get_or_create ok tx key now = (tx, Some p).
Proof.
  intros H Hk Hf Hfk Hp. destruct p as [b j]. unfold send_flow_at in Hf. cbn [fst snd] in *. subst b.
  pose proof (tx_chain_at tx key H) as Hc. unfold get_or_create.
  destruct (table_lookup tx key) as [b [[i g]|]] eqn:El.
  - destruct (tx_lookup_found tx key b i g H Hk El) as (_ & Hi & Hg & _).
    assert (b = Z.to_nat (tx_idx tx key)) as -> by (by injection El).
    do 3 f_equal. pose proof (ti_keys _ H) as Hnd. unfold send_flows in Hnd.
    destruct (concat_split _ _ _ Hc) as [Hs _]. rewrite Hs, fmap_app in Hnd. apply NoDup_app in Hnd as [Hnd _].
    eapply (NoDup_lookup _ i j key Hnd); rewrite list_lookup_fmap; [by rewrite Hi, <- Hg|by rewrite Hf, <- Hfk].
  - destruct (tx_lookup_absent tx key b H Hk El) as [_ Habs]. destruct Habs. apply list_elem_of_fmap.
    exists f. split; [done|]. apply elem_of_send_flows. eexists _, _. split; [exact Hc|by eapply list_elem_of_lookup_2].
Qed.

(** A further packet of a flow in the table. *)
Lemma peek_existing ok tx pkt key now mss p f :
  tx_inv tx -> mode (tx_cfg tx) <> MQVPN_REORDER_OFF -> mqvpn_reorder_parse_5tuple pkt = Some (Some key) -> key_wf key ->
  send_flow_at tx p = Some f -> sf_key f = key -> p.1 = Z.to_nat (tx_idx tx key) -> eligible f = true ->
  MQVPN_REORDER_HDR_LEN + blen pkt <= mss ->
  mqvpn_reorder_tx_peek ok tx pkt now mss =
    Some (tx, Peek MQVPN_REORDER_TX_STAMP (mqvpn_reorder_wire_encode MQVPN_REORDER_TYPE_V1
      (if 0 <? reset_marks_left f then MQVPN_REORDER_FLAG_RESET else 0) (next_seq f)) (Some p)).
Proof.
  intros H Hm Hpk Hk Hf Hfk Hp He Hlen. unfold mqvpn_reorder_tx_peek. rewrite bool_decide_eq_false_2 by done.
  rewrite Hpk. cbn [mbind option_bind]. rewrite (get_existing ok tx key now p f) by done.
  cbn [mbind option_bind]. rewrite Hf. cbn [mbind option_bind]. rewrite He. cbn [negb].
  by rewrite (proj2 (Z.ltb_ge _ _)) by lia.
Qed.

Lemma u64_mod48 z : u64 z mod 2 ^ 48 = z mod 2 ^ 48.
Proof.
  unfold u64. change (2 ^ 64) with (2 ^ 48 * 2 ^ 16). rewrite Z.rem_mul_r by lia.
  rewrite Z.mul_comm, Z.mod_add, Z.mod_mod by lia. done.
Qed.

(** C24: stamping.  In every reachable state of the sender, offering any
    packet reads no byte out of bounds, keeps the table within its limit and
    evicts no flow that is not idle (the forced-eviction counter stays 0).  A
    stamped packet with its header fits the datagram size; the header decodes
    to the flow's next number; looking again before the commit gives the same
    header; and after the commit the flow's next packet carries the next
    number. *)
Theorem tx_stamping c seed tx0 os tx pks o now' ok' :
  0 < max_flows c < 2 ^ 32 -> 0 <= reset_mark_packets c < 2 ^ 32 ->
  mqvpn_reorder_tx_new true true (Some c) seed = Some tx0 ->
  Forall (fun o => bytes_ok (of_pkt o)) os -> tx_run tx0 os = Some (tx, pks) -> bytes_ok (of_pkt o) ->
  exists tx1 pk, mqvpn_reorder_tx_peek (of_alloc o) tx (of_pkt o) (of_now o) (of_mss o) = Some (tx1, pk) /\
    forced_evict_count (tx_stats tx1) = 0 /\ tx_n_flows tx1 <= max_flows c /\
    (forall g, g ∈ send_flows tx -> g ∉ send_flows tx1 -> tx_idle g (egress_idle_us c) (of_now o) = true) /\
    (action pk = MQVPN_REORDER_TX_STAMP ->
       MQVPN_REORDER_HDR_LEN + blen (of_pkt o) <= of_mss o /\
       exists s flag, mqvpn_reorder_wire_decode (hdr pk ++ of_pkt o) = Some (MQVPN_REORDER_TYPE_V1, flag, s mod 2 ^ 48) /\
         mqvpn_reorder_tx_peek ok' tx1 (of_pkt o) now' (of_mss o) = Some (tx1, pk) /\
         let tx2 := mqvpn_reorder_tx_commit tx1 pk (of_now o) in
         exists pk2 flag2, mqvpn_reorder_tx_peek ok' tx2 (of_pkt o) now' (of_mss o) = Some (tx2, pk2) /\
           mqvpn_reorder_wire_decode (hdr pk2 ++ of_pkt o) = Some (MQVPN_REORDER_TYPE_V1, flag2, (s + 1) mod 2 ^ 48)).
Proof.
  intros Hm Hk Hnew Hos Hrun Ho. destruct (tx_new_ok c seed tx0 Hm Hk Hnew) as [H0 Ec0].
  destruct (tx_run_ok tx0 os H0 Hos) as (tx' & pks' & E & H & Ec). rewrite Hrun in E. injection E as <- <-.
  destruct (tx_peek_ok (of_alloc o) tx (of_pkt o) (of_now o) (of_mss o) H Ho) as (tx1 & pk & Epk & H1 & Ec1 & Hok & Hev).
  rewrite Ec, Ec0 in Hev. exists tx1, pk. pose proof (ti_max _ H1) as Hmx. rewrite Ec1, Ec, Ec0 in Hmx.
  split_and!; [done|apply H1|done|done|]. intros Ha. unfold peek_ok in Hok. rewrite Ha in Hok.
  destruct Hok as (Hlen & key & [b j] & f & Hpk & Hp & Hf & Hfk & Hel & Hpb & _ & Hh). split; [done|].
  destruct (parse_5tuple_wf _ Ho) as (r & Er & Hkey). rewrite Hpk in Er. injection Er as <-. specialize (Hkey key eq_refl).
  assert (Hfin : f ∈ send_flows tx1).
  { apply elem_of_send_flows. eexists _, _. split; [apply (tx_chain_at tx1 key H1)|].
    unfold send_flow_at in Hf. cbn [fst snd] in *. subst b. by eapply list_elem_of_lookup_2. }
  pose proof (ti_flows _ H1) as Hfl. rewrite Forall_forall in Hfl. destruct (Hfl f Hfin) as [_ He Hsq _].
  assert (Helf : eligible f = true) by (rewrite He, Ec1, Hfk; done).
  assert (Hmode : mode (tx_cfg tx1) <> MQVPN_REORDER_OFF).
  { rewrite Ec1. intros Eoff. unfold mqvpn_reorder_tx_peek in Epk. rewrite bool_decide_eq_true_2 in Epk by done.
    injection Epk as <- <-. done. }
  exists (next_seq f), (if 0 <? reset_marks_left f then MQVPN_REORDER_FLAG_RESET else 0). split_and!.
  - rewrite Hh. apply wire_decode_encode_lemma. lia.
  - rewrite (peek_existing ok' tx1 (of_pkt o) key now' (of_mss o) (b, j) f) by done.
    do 3 f_equal. destruct pk; simpl in *; congruence.
  - destruct (tx_commit_ok tx1 pk (of_now o) b j f H1 Ha Hp Hf) as (H2 & Ec2 & Hf2 & Hix). cbn zeta.
    destruct (commit_flow_frame f (of_now o)) as (Ek & Ee & Es & _ & _).
    eexists _, _. split.
    + apply (peek_existing _ _ _ key _ _ (b, j) (commit_flow f (of_now o))); try done.
      * by rewrite Ec2.
      * by rewrite Ek.
      * by rewrite Hix.
      * by rewrite Ee.
    + cbn [hdr]. etrans; [apply wire_decode_encode_lemma; rewrite Es; apply u64_range|].
      by rewrite Es, u64_mod48.
Qed.

(** ** A concrete sender *)

Definition tx_demo_cfg : mqvpn_reorder_config_t :=
  mqvpn_reorder_config_default <| mode := MQVPN_REORDER_ON |> <| max_flows := 2 |>.

Definition tx_demo : mqvpn_reorder_tx_t :=
  default (Tx tx_demo_cfg 0 [] 0 0 (TxStats 0 0 0 0)) (mqvpn_reorder_tx_new true true (Some tx_demo_cfg) 7).

(** A packet of the flow with source port [18 * 256 + port]. *)
Definition tx_demo_offer (port now : Z) : offer :=
  Offer true true (<[21%nat := port]> sample_udp) now 1200.

Definition tx_demo_offers : list offer := [tx_demo_offer 52 1000; tx_demo_offer 53 2000; tx_demo_offer 52 3000].

(** Two flows fill the table; the third flow's packet evicts the idle one. *)
Lemma tx_stamping_witness :
  let r := default (tx_demo, []) (tx_run tx_demo tx_demo_offers) in
  (exists tx1 pk, mqvpn_reorder_tx_peek true r.1 (of_pkt (tx_demo_offer 54 400000000)) 400000000 1200 = Some (tx1, pk) /\
    forced_evict_count (tx_stats tx1) = 0 /\ tx_n_flows tx1 <= 2) /\
  (map action r.2 = replicate 3 MQVPN_REORDER_TX_STAMP /\
   (map (fun pk => nth 7 (hdr pk) 0) r.2 = [0; 0; 1])).
Proof.
  split; [|split; vm_compute; reflexivity].
  destruct (tx_stamping tx_demo_cfg 7 tx_demo tx_demo_offers
    (fst (default (tx_demo, []) (tx_run tx_demo tx_demo_offers)))
    (snd (default (tx_demo, []) (tx_run tx_demo tx_demo_offers)))
    (tx_demo_offer 54 400000000) 0 true) as (tx1 & pk & H1 & H2 & H3 & _).
  - vm_compute. split; reflexivity.
  - vm_compute. split; [discriminate|reflexivity].
  - vm_compute. reflexivity.
  - repeat constructor; unfold is_byte; lia.
  - vm_compute. reflexivity.
  - repeat constructor; unfold is_byte; lia.
  - exists tx1, pk. split; [exact H1|]. split; [exact H2|exact H3].
Defined.
