(* ===== verification/Shim.v ===== *)
(** * The reorder shim end to end

    The sender of [ReorderTx] and the receiver of [ReorderRx] composed over a
    transport that reorders and duplicates: what was offered to one side
    comes out of the other, in the order in which it was offered. *)

From stdpp Require Import list_numbers.
From S2P Require Import Prelude Chains Wire Ring ReorderRx RxFlow RxInv RxStep RxTrace RxRestore RxTable RxEngine.
From S2P Require Import ReorderTx TxProofs.

(** ** The sending side *)

(** The next packet of [key] gets the number [k]. *)
Definition sender_at (tx : mqvpn_reorder_tx_t) (key : mqvpn_flow_key_t) (k : Z) : Prop :=
  tx_inv tx /\ mode (tx_cfg tx) <> MQVPN_REORDER_OFF /\ compute_eligible (tx_cfg tx) key = true /\
  ((key ∉ sf_key <$> send_flows tx) /\ tx_n_flows tx < max_flows (tx_cfg tx) /\ k = 0 \/
   exists p f, send_flow_at tx p = Some f /\ sf_key f = key /\ p.1 = Z.to_nat (tx_idx tx key) /\
     eligible f = true /\ next_seq f = k).

(** An offer of a packet of [key] that fits and is sent. *)
Definition sent_offer (key : mqvpn_flow_key_t) (o : offer) : Prop :=
  of_alloc o = true /\ of_sent o = true /\ bytes_ok (of_pkt o) /\
  mqvpn_reorder_parse_5tuple (of_pkt o) = Some (Some key) /\ MQVPN_REORDER_HDR_LEN + blen (of_pkt o) <= of_mss o.

Lemma peek_at ok tx tx1 pkt key now mss p f :
  mode (tx_cfg tx) <> MQVPN_REORDER_OFF -> mqvpn_reorder_parse_5tuple pkt = Some (Some key) ->
  get_or_create ok tx key now = (tx1, Some p) -> send_flow_at tx1 p = Some f -> eligible f = true ->
  MQVPN_REORDER_HDR_LEN + blen pkt <= mss ->
  mqvpn_reorder_tx_peek ok tx pkt now mss =
    Some (tx1, Peek MQVPN_REORDER_TX_STAMP (mqvpn_reorder_wire_encode MQVPN_REORDER_TYPE_V1
      (if 0 <? reset_marks_left f then MQVPN_REORDER_FLAG_RESET else 0) (next_seq f)) (Some p)).
Proof.
  intros Hm Hpk Hg Hf He Hl. unfold mqvpn_reorder_tx_peek. rewrite bool_decide_eq_false_2 by done.
  rewrite Hpk. cbn [mbind option_bind]. rewrite Hg. cbn [mbind option_bind]. rewrite Hf. cbn [mbind option_bind].
  rewrite He. cbn [negb]. by rewrite (proj2 (Z.ltb_ge _ _)) by lia.
Qed.

(** The place of the flow of [key], found or made. *)
Lemma sender_flow tx key k now : sender_at tx key k -> key_wf key ->
  exists tx1 b j f, get_or_create true tx key now = (tx1, Some (b, j)) /\ send_flow_at tx1 (b, j) = Some f /\
    sf_key f = key /\ b = Z.to_nat (tx_idx tx1 key) /\ eligible f = true /\ next_seq f = k /\
    tx_inv tx1 /\ tx_cfg tx1 = tx_cfg tx.
Proof.
  intros (H & Hm & He & [(Habs & Hlt & ->)|([b j] & f & Hf & Hfk & Hp & Hel & Hn)]) Hk.
  - destruct (tx_add_ok tx key now H Hk Habs Hlt) as (H1 & _ & Hat). cbn zeta in *.
    unfold get_or_create. destruct (table_lookup tx key) as [b [[j g]|]] eqn:El.
    { destruct (tx_lookup_found tx key b j g H Hk El) as (_ & _ & <- & Hin). destruct Habs. by apply list_elem_of_fmap_2. }
    assert (b = Z.to_nat (tx_idx tx key)) as -> by (by injection El).
    rewrite (proj2 (Z.leb_gt _ _)), andb_false_r by lia. eexists _, _, 0%nat, _.
    split; [done|]. split; [exact Hat|]. by split_and!.
  - exists tx, b, j, f. rewrite (get_existing true tx key now (b, j) f) by done. by split_and!.
Qed.

Lemma sender_step tx key k o :
  sender_at tx key k -> sent_offer key o -> key_wf key -> 0 <= k -> k + 1 < 2 ^ 48 ->
  exists tx' pk flag, tx_send tx o = Some (tx', pk) /\ action pk = MQVPN_REORDER_TX_STAMP /\
    hdr pk = mqvpn_reorder_wire_encode MQVPN_REORDER_TYPE_V1 flag k /\ is_byte flag /\ sender_at tx' key (k + 1).
Proof.
  intros Hs (Ha & Hse & _ & Hpk & Hl) Hk Hk0 Hk1. destruct (sender_flow tx key k (of_now o) Hs Hk) as
    (tx1 & b & j & f & Hg & Hf & Hfk & Hb & Hel & Hn & H1 & Ec). destruct Hs as (H & Hm & He & _).
  unfold tx_send. rewrite Ha, Hse, (peek_at true tx tx1 _ key _ _ (b, j) f) by done. cbn [mbind option_bind fst snd].
  eexists _, _, _. split; [done|]. split_and!; [done|by rewrite <- Hn|destruct (0 <? _); unfold is_byte, MQVPN_REORDER_FLAG_RESET; lia|].
  match goal with |- sender_at (mqvpn_reorder_tx_commit tx1 ?pk _) _ _ => set (pk0 := pk) end.
  destruct (tx_commit_ok tx1 pk0 (of_now o) b j f H1 eq_refl eq_refl Hf) as (H2 & Ec2 & Hf2 & Hix). cbn zeta in *.
  destruct (commit_flow_frame f (of_now o)) as (Ek & Ee & Es & _ & _).
  split_and!; [done|by rewrite Ec2, Ec|by rewrite Ec2, Ec|right].
  exists (b, j), (commit_flow f (of_now o)). rewrite Ek, Ee, Es, Hn, Hix, u64_small by lia. by split_and!.
Qed.

(** What the sender puts in front of a run of packets. *)
Definition numbered (k : Z) (pks : list mqvpn_reorder_tx_peek_t) : Prop :=
  forall i pk, pks !! i = Some pk -> action pk = MQVPN_REORDER_TX_STAMP /\
    exists flag, is_byte flag /\ hdr pk = mqvpn_reorder_wire_encode MQVPN_REORDER_TYPE_V1 flag (k + Z.of_nat i).

Lemma sender_run tx key k os :
  sender_at tx key k -> Forall (sent_offer key) os -> key_wf key -> 0 <= k -> k + Z.of_nat (length os) < 2 ^ 48 ->
  exists tx' pks, tx_run tx os = Some (tx', pks) /\ length pks = length os /\ numbered k pks.
Proof.
  revert tx k. induction os as [|o os IH]; intros tx k Hs Hos Hk Hk0 Hn; [by exists tx, []|].
  apply Forall_cons in Hos as [Ho Hos]. simpl in Hn.
  destruct (sender_step tx key k o Hs Ho Hk Hk0) as (tx1 & pk & flag & E1 & Ha & Hh & Hfl & Hs1); [lia|].
  destruct (IH tx1 (k + 1) Hs1 Hos Hk) as (tx2 & pks & E2 & Hl & Hnum); [lia..|].
  exists tx2, (pk :: pks). simpl. rewrite E1. simpl. rewrite E2. simpl. split_and!; [done|lia|].
  intros [|i] pk' Hi; simpl in Hi.
  - injection Hi as <-. split; [done|]. exists flag. split; [done|]. by rewrite Hh, Z.add_0_r.
  - destruct (Hnum i pk' Hi) as (? & fl & ? & ->). split; [done|]. exists fl. split; [done|]. f_equal. lia.
Qed.

(** ** The receiving side *)

(** A stamped datagram of [key] reaches the flow that the table gives. *)
Lemma on_packet_at al rx rx1 flags s inner key now p f :
  0 <= s < 2 ^ 48 -> 1 <= blen inner <= UINT16_MAX -> mqvpn_reorder_parse_5tuple inner = Some (Some key) ->
  key_wait_of (cfg rx) key <> 0 -> flow_get_or_create al rx key = (rx1, Some p) -> flow_at rx1 p = Some f ->
  mqvpn_reorder_rx_on_packet al rx (mqvpn_reorder_wire_encode MQVPN_REORDER_TYPE_V1 flags s ++ inner) now =
    let st := on_reordered al rx1 f s flags inner (blen inner) now in Some (flow_put st.1 p st.2).
Proof.
  intros Hs Hl Hpk Hw Hg Hf. unfold mqvpn_reorder_rx_on_packet.
  rewrite wire_decode_encode_lemma, (Z.mod_small s) by lia. rewrite Z.eqb_refl. cbn [negb].
  set (e := mqvpn_reorder_wire_encode MQVPN_REORDER_TYPE_V1 flags s).
  assert (El : blen (e ++ inner) - MQVPN_REORDER_HDR_LEN = blen inner).
  { unfold blen, MQVPN_REORDER_HDR_LEN. rewrite length_app. simpl. lia. }
  change (drop (Z.to_nat MQVPN_REORDER_HDR_LEN) (e ++ inner)) with inner. rewrite El.
  rewrite (proj2 (Z.eqb_neq _ _)), (proj2 (Z.ltb_ge _ _)) by lia. cbn [orb].
  destruct (_ && _) eqn:E.
  { destruct Hw. apply andb_prop in E as [Ew%Z.eqb_eq Er%bool_decide_eq_true].
    unfold key_wait_of, mqvpn_reorder_match_rule. by rewrite Er. }
  rewrite Hpk. cbn [mbind option_bind]. change (key_wait rx key) with (key_wait_of (cfg rx) key).
  rewrite (proj2 (Z.eqb_neq _ _)) by done. rewrite Hg, Hf. unfold UINT16_MAX in Hl. rewrite u16_small by lia.
  by destruct (on_reordered al rx1 f s flags inner (blen inner) now).
Qed.

Section receiver.
Context {RS : RingSpec}.

(** The flow of [key] and its place. *)
Definition flow_in (rx : mqvpn_reorder_rx_t) (key : mqvpn_flow_key_t) (i j : nat) (f : mqvpn_reorder_flow_t) : Prop :=
  exists c, buckets rx !! i = Some c /\ c !! j = Some f /\ f_key f = key.

Lemma flow_in_at rx key i j f : flow_in rx key i j f -> flow_at rx (Z.of_nat i, j) = Some f.
Proof. intros (c & Hi & Hj & _). unfold flow_at, chain. cbn [fst snd]. by rewrite Nat2Z.id, Hi. Qed.

Lemma flow_in_found al T rx key i j f :
  rx_inv T rx -> flow_in rx key i j f -> flow_get_or_create al rx key = (rx, Some (Z.of_nat i, j)).
Proof.
  intros H (c & Hi & Hj & Hk). assert (Hfc : f ∈ c) by (by eapply list_elem_of_lookup_2).
  assert (Hin : f ∈ flows rx) by (apply elem_of_flows; eauto).
  destruct (lookup_in_table T rx f H Hin) as [j' El]. rewrite Hk in El.
  pose proof (ri_flows _ _ H) as Hok. rewrite Forall_forall in Hok. pose proof (fo_key _ _ _ (Hok f Hin)) as Hkw.
  rewrite Hk in Hkw. destruct (lookup_found T rx key _ _ _ H Hkw El) as (i' & c' & Ei & Hi' & Hj' & _).
  pose proof (ri_place _ _ H i c f Hi Hfc) as Ep. rewrite Hk in Ep.
  assert (i' = i) as -> by lia. assert (c' = c) as -> by congruence.
  unfold flow_get_or_create. rewrite El, Ei. do 3 f_equal.
  pose proof (ri_keys _ _ H) as Hnd. unfold flows in Hnd. destruct (concat_split _ _ _ Hi) as [Hs _].
  rewrite Hs, fmap_app in Hnd. apply NoDup_app in Hnd as [Hnd _].
  eapply (NoDup_lookup _ j' j key Hnd); rewrite list_lookup_fmap; [by rewrite Hj', <- Hk|by rewrite Hj, <- Hk].
Qed.

Lemma flow_in_created al T rx key :
  rx_inv T rx -> key_wf key -> key ∉ f_key <$> flows rx -> n_flows rx < max_flows (cfg rx) -> 0 < key_wait_of (cfg rx) key ->
  al_flow al = true ->
  exists rx1 i, flow_get_or_create al rx key = (rx1, Some (Z.of_nat i, 0%nat)) /\ rx_inv T rx1 /\
    flow_in rx1 key i 0 (new_flow rx key) /\ new_flow rx1 key = new_flow rx key /\ cfg rx1 = cfg rx /\
    deliver_log rx1 = deliver_log rx /\ pool_bytes_used rx1 = pool_bytes_used rx.
Proof.
  intros H Hk Habs Hlt Hw Hal. destruct (table_add T rx key H Hk Habs Hlt Hw) as (H1 & c & Hc). cbn zeta in *.
  unfold flow_get_or_create. destruct (flow_lookup rx key) as [idx [[j g]|]] eqn:El.
  { destruct (lookup_found T rx key idx j g H Hk El) as (i & l & _ & Hi & Hj & <-). destruct Habs.
    apply list_elem_of_fmap_2, elem_of_flows. exists i, l. split; [done|by eapply list_elem_of_lookup_2]. }
  destruct (lookup_absent T rx key idx H Hk El) as [-> _].
  rewrite (proj2 (Z.leb_gt _ _)), andb_false_r, Hal by lia.
  pose proof (flow_idx_range rx key (proj1 (ri_size _ _ H))).
  eexists _, (Z.to_nat (flow_idx rx key)). rewrite Z2Nat.id by lia. split_and!; [done|exact H1| |done..].
  eexists. by split_and!.
Qed.

(** An operation on the flow in place. *)
Lemma flow_in_put now rx key i j f m rx' f' m' :
  flow_in rx key i j f -> summary now rx f m rx' f' m' ->
  flow_in (flow_put rx' (Z.of_nat i, j) f') key i j f'.
Proof.
  intros (c & Hi & Hj & Hk) Hs. destruct (sm_rx _ _ _ _ _ _ _ Hs) as [Ex _]. destruct (sm_f _ _ _ _ _ _ _ Hs) as (Ek & _).
  assert (Hb : buckets rx' = buckets rx) by (by rewrite Ex).
  exists (<[j := f']> c). unfold flow_put, set_chain, chain. cbn [fst snd]. simpl.
  rewrite Nat2Z.id, Hb, Hi. simpl. split_and!.
  - apply list_lookup_insert_eq. by eapply lookup_lt_Some.
  - apply list_lookup_insert_eq. by eapply lookup_lt_Some.
  - congruence.
Qed.
End receiver.

(** ** Both sides *)

Section shim.
Context {RS : RingSpec}.
Context (c0 : mqvpn_reorder_config_t) (log0 : list (list Z)) (pool0 : Z) (key : mqvpn_flow_key_t).
Context (n : Z) (P : Z -> list Z) (L t0 t1 : Z).
Hypothesis Hkey : key_wf key.
Hypothesis HP : forall s, 0 <= s < n ->
  bytes_ok (P s) /\ mqvpn_reorder_parse_5tuple (P s) = Some (Some key) /\ 1 <= blen (P s) <= L.
Hypothesis Hn : 0 < n <= SEQ_LIMIT.
Hypothesis Hcap : n <= key_cap c0 key < 2 ^ 32.
Hypothesis HL : 1 <= L <= UINT16_MAX.
Hypothesis Hbytes : n * L <= max_buffer_bytes_per_flow c0.
Hypothesis Hpool0 : 0 <= pool0 /\ pool0 + n * L <= global_max_buffer_bytes c0.
Hypothesis Hglob : global_max_buffer_bytes c0 + UINT16_MAX < 2 ^ 64.
Hypothesis Hdem : no_demotion c0.
Hypothesis Hwait : 0 < key_wait_of c0 key.
Hypothesis Htime : 0 <= t0 /\ t0 <= t1 < TIME_LIMIT /\ t1 - t0 <= grace_us c0.

Definition shim_burst := burst_inv c0 log0 pool0 0 n P L t0 t1 (key_cap c0 key).

(** The receiver holds the flow of [key] with the arrivals [R]. *)
Definition shim_inv (T : Z) (rx : mqvpn_reorder_rx_t) (R : list Z) : Prop :=
  rx_inv T rx /\ exists i j f m, flow_in rx key i j f /\ shim_burst rx f m R.

Definition datagram (flag s : Z) : list Z :=
  mqvpn_reorder_wire_encode MQVPN_REORDER_TYPE_V1 flag s ++ P s.

Lemma datagram_bytes flag s : is_byte flag -> 0 <= s < n -> bytes_ok (datagram flag s).
Proof.
  intros Hf Hs. apply Forall_app. split; [|by apply HP].
  repeat (constructor; [first [done|apply u8_is_byte|unfold is_byte, MQVPN_REORDER_TYPE_V1; lia]|]). constructor.
Qed.

Lemma burst_put rx p g f m R : shim_burst rx f m R -> shim_burst (flow_put rx p g) f m R.
Proof. intros []. by split. Qed.

(** A datagram at the flow that the table gives, old or new. *)
Lemma shim_packet T now rx rx1 i j f m flag s R :
  rx_inv T rx -> T <= now -> t0 <= now <= t1 -> is_byte flag -> 0 <= s < n -> cfg rx = c0 ->
  flow_get_or_create all_ok rx key = (rx1, Some (Z.of_nat i, j)) -> flow_in rx1 key i j f ->
  flow_inv f m -> pool_inv rx1 m ->
  (let st := flow_step (rx1, f) (Arrival all_ok s flag (P s) (blen (P s)) now) in
   exists m', shim_burst st.1 st.2 m' (s :: R)) ->
  exists rx', mqvpn_reorder_rx_on_packet all_ok rx (datagram flag s) now = Some rx' /\ shim_inv now rx' (s :: R).
Proof.
  intros H HT Hnow Hf Hs Hc Hg Hin Hv Hp Hb. destruct (HP s Hs) as (_ & Hpk & Hlen).
  destruct (on_packet_ok all_ok T now rx (datagram flag s) H) as (rx' & E & H' & _);
    [lia|by apply datagram_bytes|]. exists rx'. split; [done|]. split; [done|].
  unfold datagram in E. unfold SEQ_LIMIT in *.
  rewrite (on_packet_at all_ok rx rx1 flag s (P s) key now (Z.of_nat i, j) f) in E;
    [|lia|lia|done|rewrite Hc; lia|done|by eapply flow_in_at].
  destruct (on_reordered_ok all_ok (fun _ _ => True) now s flag (P s) (blen (P s)) ltac:(unfold SEQ_LIMIT; lia) ltac:(lia) I rx1 f m Hv Hp)
    as (m1 & _ & Hsm & _). cbn zeta in *. cbn [flow_step] in Hb.
  destruct (on_reordered all_ok rx1 f s flag (P s) (blen (P s)) now) as [rx2 f2]. cbn [fst snd] in *.
  destruct Hb as [m2 Hb]. injection E as <-. exists i, j, f2, m2. split; [by eapply flow_in_put|by apply burst_put].
Qed.

Lemma shim_step T now rx flag s R :
  shim_inv T rx R -> T <= now -> t0 <= now <= t1 -> is_byte flag -> 0 <= s < n ->
  exists rx', mqvpn_reorder_rx_on_packet all_ok rx (datagram flag s) now = Some rx' /\ shim_inv now rx' (s :: R).
Proof.
  intros [H (i & j & f & m & Hin & Hb)] HT Hnow Hf Hs. destruct (HP s Hs) as (_ & _ & Hlen).
  assert (Hpi : pool_inv rx m) by (eapply burst_pool; try exact Hb; lia).
  eapply (shim_packet T now rx rx); try done.
  - apply Hb.
  - by eapply flow_in_found.
  - apply Hb.
  - unfold TIME_LIMIT in *. eapply burst_step; try exact Hb; try lia; try done; simpl; split_and!; (done || lia).
Qed.

Lemma shim_first T now rx flag :
  rx_inv T rx -> cfg rx = c0 -> deliver_log rx = log0 -> pool_bytes_used rx = pool0 ->
  key ∉ f_key <$> flows rx -> n_flows rx < max_flows c0 -> T <= now -> t0 <= now <= t1 -> is_byte flag ->
  exists rx', mqvpn_reorder_rx_on_packet all_ok rx (datagram flag 0) now = Some rx' /\ shim_inv now rx' [0].
Proof.
  intros H Hc Hl Hp Habs Hroom HT Hnow Hf. destruct (HP 0 ltac:(lia)) as (_ & _ & Hlen).
  destruct (flow_in_created all_ok T rx key H Hkey Habs) as (rx1 & i & Hg & H1 & Hin & Hnew & Ec1 & El1 & Ep1);
    [by rewrite Hc|by rewrite Hc|done|].
  assert (Hcapok : mqvpn_reorder_cap_is_valid (key_cap c0 key) = true) by (rewrite <- Hc; apply (co_cap _ (ri_cfg _ _ H))).
  assert (Hr1 : rcap (buffer (new_flow rx key)) = key_cap c0 key) by (unfold new_flow, key_cap; by rewrite Hc).
  assert (Hfresh : fresh_flow rx1 key (new_flow rx key)).
  { split_and!; rewrite ?Hr1, ?Ec1, ?Hc, ?Ep1, ?Hp; try done; nia. }
  destruct (new_flow_inv _ _ _ Hfresh) as [Hv Hpi].
  eapply (shim_packet T now rx rx1 i 0 (new_flow rx key) ∅); try done; [lia|].
  cbn zeta. unfold TIME_LIMIT in *. eexists. eapply burst_first; try done; try lia.
  rewrite <- Hl, <- Hp, <- Hc, <- El1, <- Ep1, <- Ec1. by destruct rx1.
Qed.

(** Times that do not step back and end by [t1]. *)
Fixpoint times_ok (T : Z) (l : list (nat * Z)) : Prop :=
  match l with
  | [] => True
  | (_, now) :: l => T <= now <= t1 /\ times_ok now l
  end.

(** The stamped packets in the order in which they arrive. *)
Definition arrival_ops (flag : nat -> Z) (l : list (nat * Z)) : list rx_op :=
  map (fun a => RxPacket all_ok (datagram (flag a.1) (Z.of_nat a.1)) a.2) l.

Lemma shim_run flag l T rx R :
  shim_inv T rx R -> times_ok T l -> t0 <= T ->
  Forall (fun a => 0 <= Z.of_nat a.1 < n /\ is_byte (flag a.1)) l ->
  exists rx' T' R', rx_run rx (arrival_ops flag l) = Some rx' /\ shim_inv T' rx' R' /\
    (forall s, s ∈ R \/ s ∈ (Z.of_nat ∘ fst) <$> l -> s ∈ R').
Proof.
  revert T rx R. induction l as [|[i now] l IH]; intros T rx R H Ht HT Hl.
  { exists rx, T, R. split_and!; [done|done|]. intros s [?|Hs]; [done|by apply elem_of_nil in Hs]. }
  apply Forall_cons in Hl as [[Hi Hf] Hl]. destruct Ht as [Hnow Ht]. cbn [fst] in *.
  destruct (shim_step T now rx (flag i) (Z.of_nat i) R H) as (rx1 & E1 & H1); [lia|lia|done|done|].
  destruct (IH now rx1 _ H1 Ht) as (rx2 & T2 & R2 & E2 & H2 & HR); [lia|done|].
  exists rx2, T2, R2. split_and!; [|done|].
  - simpl. rewrite E1. simpl. done.
  - intros s [Hs|Hs]; apply HR; [left; by right|]. apply elem_of_cons in Hs as [->|Hs]; [left; left|by right].
Qed.

(** Once everything has arrived, everything has been delivered. *)
Lemma shim_done T rx R : shim_inv T rx R -> (forall s, 0 <= s < n -> s ∈ R) ->
  deliver_log rx = log0 ++ (P <$> seqZ 0 n) /\ pool_bytes_used rx = pool0.
Proof.
  intros [_ (i & j & f & m & _ & Hb)] HR. pose proof (bi_inv _ _ _ _ _ _ _ _ _ _ _ _ _ _ Hb) as Hv.
  pose proof (bi_range _ _ _ _ _ _ _ _ _ _ _ _ _ _ Hb) as Hr.
  assert (Hend : expected f = n).
  { destruct (decide (expected f = n)) as [|Hne]; [done|].
    destruct (proj1 (bi_arrived _ _ _ _ _ _ _ _ _ _ _ _ _ _ Hb (expected f))) as [?|[x Hx]];
      [apply HR; lia|lia|]. by rewrite (fi_head _ _ Hv) in Hx. }
  assert (Hm : m = ∅).
  { apply map_empty. intros s. destruct (m !! s) as [x|] eqn:Hx; [|done].
    apply (bi_entry _ _ _ _ _ _ _ _ _ _ _ _ _ _ Hb) in Hx as Hx'.
    pose proof (rep_low _ _ _ _ (fc_rep _ _ (fi_core _ _ Hv)) ltac:(eauto)). lia. }
  rewrite (bi_log _ _ _ _ _ _ _ _ _ _ _ _ _ _ Hb), (bi_pool _ _ _ _ _ _ _ _ _ _ _ _ _ _ Hb), Hend, Hm.
  rewrite Z.sub_0_r. split; [done|]. change (sum_len ∅) with 0. lia.
Qed.

(** The whole burst, the lowest number first. *)
Lemma shim_receive flag T first rx l :
  rx_inv T rx -> cfg rx = c0 -> deliver_log rx = log0 -> pool_bytes_used rx = pool0 ->
  key ∉ f_key <$> flows rx -> n_flows rx < max_flows c0 -> T <= t0 -> times_ok t0 ((0%nat, first) :: l) ->
  Forall (fun a => 0 <= Z.of_nat a.1 < n /\ is_byte (flag a.1)) ((0%nat, first) :: l) ->
  (forall s, 0 <= s < n -> s ∈ 0 :: ((Z.of_nat ∘ fst) <$> l)) ->
  exists rx', rx_run rx (arrival_ops flag ((0%nat, first) :: l)) = Some rx' /\
    deliver_log rx' = log0 ++ (P <$> seqZ 0 n) /\ pool_bytes_used rx' = pool0.
Proof.
  intros H Hc Hlog Hp Habs Hroom HT [Hfirst Ht] Hl Hall. apply Forall_cons in Hl as [[_ Hf] Hl].
  destruct (shim_first T first rx (flag 0%nat)) as (rx1 & E1 & H1); try first [done|lia].
  destruct (shim_run flag l first rx1 [0] H1 Ht) as (rx2 & T2 & R2 & E2 & H2 & HR); [lia|done|].
  exists rx2. split.
  { cbn [arrival_ops map rx_run rx_step fst snd]. change (Z.of_nat 0) with 0. rewrite E1. exact E2. }
  eapply shim_done; [exact H2|].
  intros s Hs. apply HR. specialize (Hall s Hs). apply elem_of_cons in Hall as [->|?]; [left; left|by right].
Qed.
End shim.

(** A sender reached from its creation by any offers, with no flow for [key]
    and room for one. *)
Definition sender_ready (c : mqvpn_reorder_config_t) (tx : mqvpn_reorder_tx_t) (key : mqvpn_flow_key_t) : Prop :=
  exists seed tx0 os pks, 0 < max_flows c < 2 ^ 32 /\ 0 <= reset_mark_packets c < 2 ^ 32 /\
    mqvpn_reorder_tx_new true true (Some c) seed = Some tx0 /\
    Forall (fun o => bytes_ok (of_pkt o)) os /\ tx_run tx0 os = Some (tx, pks) /\
    (key ∉ sf_key <$> send_flows tx) /\ tx_n_flows tx < max_flows c /\
    mode c <> MQVPN_REORDER_OFF /\ compute_eligible c key = true.

(** A receiver reached from its creation by any operations until [t0], with
    no flow for [key] and room for one. *)
Definition receiver_ready (rx : mqvpn_reorder_rx_t) (key : mqvpn_flow_key_t) (t0 : Z) : Prop :=
  exists c seed rx0 ops, cfg_ranges c /\ mqvpn_reorder_rx_new true true (Some c) seed true = Some rx0 /\
    ops_ok 0 (ops ++ [RxTick t0]) /\ rx_run rx0 ops = Some rx /\
    (key ∉ f_key <$> flows rx) /\ n_flows rx < max_flows (cfg rx) /\ 0 < key_wait_of (cfg rx) key.

(** The datagram of the [i]-th packet offered. *)
Definition sent_datagram (pks : list mqvpn_reorder_tx_peek_t) (os : list offer) (i : nat) : list Z :=
  match pks !! i, os !! i with Some pk, Some o => hdr pk ++ of_pkt o | _, _ => [] end.

Definition deliveries (pks : list mqvpn_reorder_tx_peek_t) (os : list offer) (l : list (nat * Z)) : list rx_op :=
  map (fun a => RxPacket all_ok (sent_datagram pks os a.1) a.2) l.

Definition offered (os : list offer) (s : Z) : list Z := default [] (of_pkt <$> os !! Z.to_nat s).

Definition sent_flag (pks : list mqvpn_reorder_tx_peek_t) (i : nat) : Z :=
  match pks !! i with Some pk => nth 1 (hdr pk) 0 | None => 0 end.

Lemma offered_all os : offered os <$> seqZ 0 (Z.of_nat (length os)) = of_pkt <$> os.
Proof.
  apply list_eq. intros i. rewrite !list_lookup_fmap.
  destruct (decide (i < length os)%nat) as [Hi|Hi].
  - rewrite lookup_seqZ_lt by lia. destruct (lookup_lt_is_Some_2 os i Hi) as [o Ho].
    rewrite Ho. simpl. unfold offered. rewrite Z.add_0_l, Nat2Z.id, Ho. done.
  - rewrite lookup_seqZ_ge by lia. by rewrite lookup_ge_None_2 by lia.
Qed.

Lemma deliveries_datagrams pks os l :
  numbered 0 pks -> length pks = length os -> Forall (fun a => (a.1 < length os)%nat) l ->
  deliveries pks os l = arrival_ops (offered os) (sent_flag pks) l /\ Forall (fun a => is_byte (sent_flag pks a.1)) l.
Proof.
  intros Hn El Hl. induction Hl as [|[i now] l Hi _ [IH1 IH2]]; [done|]. cbn [fst] in Hi.
  destruct (lookup_lt_is_Some_2 pks i) as [pk Hpk]; [lia|]. destruct (lookup_lt_is_Some_2 os i) as [o Ho]; [lia|].
  destruct (Hn i pk Hpk) as (_ & fl & Hfl & Hh). assert (Ef : sent_flag pks i = fl) by (unfold sent_flag; by rewrite Hpk, Hh).
  split; [|constructor; [by cbn [fst]; rewrite Ef|done]].
  unfold deliveries, arrival_ops in *. cbn [map fst snd]. rewrite IH1. f_equal. f_equal.
  unfold sent_datagram, datagram, offered. rewrite Hpk, Ho, Ef, Hh, Nat2Z.id, Z.add_0_l, Ho. done.
Qed.


(** ** A concrete exchange *)

(** Three packets of one flow; their datagrams arrive as 0, 2, 0, 1. *)
Definition exchange_offers : list offer :=
  map (fun pad => Offer true true (sample_udp ++ replicate pad 7) 2000 1200) [1%nat; 2%nat; 3%nat].

Definition exchange_arrivals : list (nat * Z) := [(2%nat, 3100); (0%nat, 3200); (1%nat, 3300)].

(** Another flow is open on both sides. *)
Definition exchange_tx : mqvpn_reorder_tx_t :=
  fst (default (tx_demo, []) (tx_run tx_demo [tx_demo_offer 53 1000])).

Definition exchange_rx : mqvpn_reorder_rx_t :=
  default demo_rx (rx_run demo_rx [RxPacket all_ok (demo_datagram 7 1 53 0) 1000]).

Lemma exchange_sender : sender_ready tx_demo_cfg exchange_tx demo_key.
Proof.
  exists 7, tx_demo, [tx_demo_offer 53 1000], (snd (default (tx_demo, []) (tx_run tx_demo [tx_demo_offer 53 1000]))).
  split_and!; try (vm_compute; (done || reflexivity)).
  - repeat constructor; unfold is_byte; lia.
  - intros Hin. apply list_elem_of_In in Hin. vm_compute in Hin. by destruct Hin as [Hin|[]].
Qed.

Lemma exchange_receiver : receiver_ready exchange_rx demo_key 3000.
Proof.
  exists demo_cfg, 7, demo_rx, [RxPacket all_ok (demo_datagram 7 1 53 0) 1000].
  split_and!; try (vm_compute; (done || reflexivity)).
  - simpl. unfold TIME_LIMIT. split_and!; try lia. repeat constructor; unfold is_byte; vm_compute; (done || split; done).
  - intros Hin. apply list_elem_of_In in Hin. vm_compute in Hin. by destruct Hin as [Hin|[]].
Qed.

