(* ===== verification/Icmp.v ===== *)
(** * ICMP errors towards the tunnel ([src/icmp.c])

    The two builders of ICMP error packets with the Internet checksum.  A
    packet buffer is the list of the bytes that [memset] clears at the start;
    a write outside it is [None].  The callback receives the whole buffer, so
    the result of a builder is the packet it hands over, or [None] inside
    [Some] when it returns without calling back. *)

From S2P Require Import Prelude.

Definition IPV4_MIN_HDR : Z := 20.
Definition IPV6_MIN_HDR : Z := 40.
Definition IPV6_MIN_MTU : Z := 1280.
Definition MQVPN_ICMP_TTL : Z := 64.

(** ** Checksums *)

(** [while (cksum >> 16) cksum = (cksum & 0xFFFF) + (cksum >> 16)]. *)
Fixpoint fold_carry (fuel : nat) (cksum : Z) : Z :=
  match fuel with
  | O => cksum
  | S fuel =>
      if Z.shiftr cksum 16 =? 0 then cksum
      else fold_carry fuel (u32 (Z.land cksum 65535 + Z.shiftr cksum 16))
  end.

(** A 32-bit sum is below [2^16] after two rounds; the third test ends the loop. *)
Definition fold_checksum (cksum : Z) : Z := u16 (65535 - u16 (fold_carry 3 cksum)).

(** The loop of [ipv4_checksum]: an odd length reads one byte too far. *)
Fixpoint sum_words (cksum : Z) (b : list Z) : option Z :=
  match b with
  | [] => Some cksum
  | [_] => None
  | hi :: lo :: b => sum_words (u32 (cksum + Z.lor (Z.shiftl hi 8) lo)) b
  end.

(** The loop of the ICMP checksums, which pads an odd length. *)
Fixpoint sum_padded (cksum : Z) (b : list Z) : Z :=
  match b with
  | [] => cksum
  | [hi] => u32 (cksum + Z.shiftl hi 8)
  | hi :: lo :: b => sum_padded (u32 (u32 (cksum + Z.shiftl hi 8) + lo)) b
  end.

Definition ipv4_checksum (hdr : list Z) (len : Z) : option Z :=
  h ← rdn hdr 0 len;
  cksum ← sum_words 0 h;
  Some (fold_checksum cksum).

Definition icmpv6_checksum (src6 dst6 icmp : list Z) (icmpv6_len : Z) : option Z :=
  s ← rdn src6 0 16;
  cksum ← sum_words 0 s;
  d ← rdn dst6 0 16;
  cksum ← sum_words cksum d;
  let cksum := u32 (cksum + Z.shiftr icmpv6_len 16) in
  let cksum := u32 (cksum + Z.land icmpv6_len 65535) in
  let cksum := u32 (cksum + 58) in
  p ← rdn icmp 0 icmpv6_len;
  Some (fold_checksum (sum_padded cksum p)).

(** ** Builders *)

Definition mqvpn_icmp_send_v4 (src_ip : list Z) (type code mtu : Z) (orig : list Z)
    : option (option (list Z)) :=
  let orig_len := blen orig in
  if orig_len <? IPV4_MIN_HDR then Some None
  else
    b0 ← rd orig 0;
    let ihl := Z.land b0 15 * 4 in
    if (ihl <? IPV4_MIN_HDR) || (orig_len <? ihl) then Some None
    else
      let icmp_data_len := if orig_len <? ihl + 8 then orig_len else ihl + 8 in
      let total := IPV4_MIN_HDR + 8 + icmp_data_len in
      if 128 <? total then Some None
      else
        let pkt := replicate (Z.to_nat total) 0 in
        pkt ← wr pkt 0 69;
        pkt ← wr pkt 1 192;
        pkt ← wr pkt 2 (Z.land (Z.shiftr total 8) 255);
        pkt ← wr pkt 3 (Z.land total 255);
        pkt ← wr pkt 8 MQVPN_ICMP_TTL;
        pkt ← wr pkt 9 1;
        src ← rdn src_ip 0 4;
        pkt ← wrn pkt 12 src;
        dst ← rdn orig 12 4;
        pkt ← wrn pkt 16 dst;
        ip_ck ← ipv4_checksum pkt IPV4_MIN_HDR;
        pkt ← wr pkt 10 (Z.shiftr ip_ck 8);
        pkt ← wr pkt 11 (Z.land ip_ck 255);
        pkt ← wr pkt (IPV4_MIN_HDR + 0) type;
        pkt ← wr pkt (IPV4_MIN_HDR + 1) code;
        pkt ← wr pkt (IPV4_MIN_HDR + 6) (Z.shiftr mtu 8);
        pkt ← wr pkt (IPV4_MIN_HDR + 7) (Z.land mtu 255);
        data ← rdn orig 0 icmp_data_len;
        pkt ← wrn pkt (IPV4_MIN_HDR + 8) data;
        let icmp_total := 8 + icmp_data_len in
        icmp ← rdn pkt IPV4_MIN_HDR icmp_total;
        let ic := fold_checksum (sum_padded 0 icmp) in
        pkt ← wr pkt (IPV4_MIN_HDR + 2) (Z.shiftr ic 8);
        pkt ← wr pkt (IPV4_MIN_HDR + 3) (Z.land ic 255);
        Some (Some pkt).

Definition mqvpn_icmp_send_v6 (src_ip6 : list Z) (type code mtu : Z) (orig : list Z)
    : option (option (list Z)) :=
  let orig_len := blen orig in
  if orig_len <? IPV6_MIN_HDR then Some None
  else
    let icmpv6_data_len :=
      if IPV6_MIN_MTU <? IPV6_MIN_HDR + 8 + orig_len then IPV6_MIN_MTU - IPV6_MIN_HDR - 8 else orig_len in
    let icmpv6_len := 8 + icmpv6_data_len in
    let total := IPV6_MIN_HDR + icmpv6_len in
    let pkt := replicate (Z.to_nat total) 0 in
    pkt ← wr pkt 0 96;
    pkt ← wr pkt 4 (Z.land (Z.shiftr icmpv6_len 8) 255);
    pkt ← wr pkt 5 (Z.land icmpv6_len 255);
    pkt ← wr pkt 6 58;
    pkt ← wr pkt 7 MQVPN_ICMP_TTL;
    src ← rdn src_ip6 0 16;
    pkt ← wrn pkt 8 src;
    dst ← rdn orig 8 16;
    pkt ← wrn pkt 24 dst;
    pkt ← wr pkt (IPV6_MIN_HDR + 0) type;
    pkt ← wr pkt (IPV6_MIN_HDR + 1) code;
    pkt ← wr pkt (IPV6_MIN_HDR + 4) (Z.land (Z.shiftr mtu 24) 255);
    pkt ← wr pkt (IPV6_MIN_HDR + 5) (Z.land (Z.shiftr mtu 16) 255);
    pkt ← wr pkt (IPV6_MIN_HDR + 6) (Z.land (Z.shiftr mtu 8) 255);
    pkt ← wr pkt (IPV6_MIN_HDR + 7) (Z.land mtu 255);
    data ← rdn orig 0 icmpv6_data_len;
    pkt ← wrn pkt (IPV6_MIN_HDR + 8) data;
    s ← rdn pkt 8 16;
    d ← rdn pkt 24 16;
    icmp ← rdn pkt IPV6_MIN_HDR icmpv6_len;
    ic ← icmpv6_checksum s d icmp icmpv6_len;
    pkt ← wr pkt (IPV6_MIN_HDR + 2) (Z.shiftr ic 8);
    pkt ← wr pkt (IPV6_MIN_HDR + 3) (Z.land ic 255);
    Some (Some pkt).

(** ** The Internet checksum *)

(** The sum of the big-endian 16-bit words, an odd byte padded with zero. *)
Fixpoint words (b : list Z) : Z :=
  match b with
  | [] => 0
  | [hi] => hi * 256
  | hi :: lo :: b => hi * 256 + lo + words b
  end.

(** Induction two bytes at a time. *)
Lemma pair_ind (P : list Z -> Prop) :
  P [] -> (forall x, P [x]) -> (forall x y l, P l -> P (x :: y :: l)) -> forall l, P l.
Proof.
  intros H0 H1 H2. fix IH 1. intros [|x [|y l]]; [exact H0|apply H1|apply H2, IH].
Qed.

Lemma words_bounds b : bytes_ok b -> 0 <= words b <= 65535 * blen b.
Proof.
  unfold blen. induction b as [|x|x y b IH] using pair_ind; intros Hb; simpl; [lia|..].
  - apply Forall_cons in Hb as [Hx _]. unfold is_byte in *. lia.
  - apply Forall_cons in Hb as [Hx [Hy Hb]%Forall_cons]. unfold is_byte in *. specialize (IH Hb). lia.
Qed.

Lemma words_app a b : Nat.Even (length a) -> words (a ++ b) = words a + words b.
Proof.
  induction a as [|x|x y a IH] using pair_ind; intros [k Hk]; simpl in *; [done|lia|].
  rewrite IH; [lia|]. exists (k - 1)%nat. lia.
Qed.

Lemma sum_words_eq b acc : bytes_ok b -> Nat.Even (length b) -> 0 <= acc -> acc + words b < 2 ^ 32 ->
  sum_words acc b = Some (acc + words b).
Proof.
  revert acc. induction b as [|x|x y b IH] using pair_ind; intros acc Hb [k Hk] Ha Hs; simpl in *; [by rewrite Z.add_0_r|lia|].
  apply Forall_cons in Hb as [Hx [Hy Hb]%Forall_cons]. pose proof (words_bounds b Hb). unfold is_byte in *.
  rewrite lor_shift_add by lia. change (2 ^ 8) with 256. rewrite u32_small by lia.
  rewrite IH; [f_equal; lia|done|exists (k - 1)%nat; lia|lia|lia].
Qed.

Lemma sum_padded_eq b acc : bytes_ok b -> 0 <= acc -> acc + words b < 2 ^ 32 -> sum_padded acc b = acc + words b.
Proof.
  revert acc. induction b as [|x|x y b IH] using pair_ind; intros acc Hb Ha Hs; simpl in *; [lia|..].
  - apply Forall_cons in Hb as [Hx _]. unfold is_byte in *. rewrite Z.shiftl_mul_pow2, u32_small by lia. lia.
  - apply Forall_cons in Hb as [Hx [Hy Hb]%Forall_cons]. pose proof (words_bounds b Hb). unfold is_byte in *.
    rewrite Z.shiftl_mul_pow2, (u32_small (acc + _)), u32_small by lia. rewrite IH; [lia|done|lia|lia].
Qed.

(** One round of carry folding keeps the value modulo [2^16 - 1]. *)
Lemma fold_round c : 0 <= c < 2 ^ 32 ->
  u32 (Z.land c 65535 + Z.shiftr c 16) = c - 65535 * (c / 2 ^ 16).
Proof.
  intros Hc. rewrite Z.shiftr_div_pow2 by lia. change 65535 with (2 ^ 16 - 1) at 1. rewrite land_ones_mod by lia.
  pose proof (Z.div_mod c (2 ^ 16) ltac:(lia)). pose proof (Z.mod_pos_bound c (2 ^ 16) ltac:(lia)).
  assert (0 <= c / 2 ^ 16 < 2 ^ 16) by (split; [apply Z.div_pos; lia|apply Z.div_lt_upper_bound; lia]).
  rewrite u32_small by lia. lia.
Qed.

Lemma fold_carry_spec n c : 0 <= c < 2 ^ 32 ->
  let r := fold_carry n c in 0 <= r <= c /\ (exists q, c = r + 65535 * q) /\ (r = 0 -> c = 0).
Proof.
  revert c. induction n as [|n IH]; intros c Hc; cbn zeta; simpl; [split_and!; try lia; by exists 0; lia|].
  destruct (Z.eqb_spec (Z.shiftr c 16) 0) as [|Hne]; [split_and!; try lia; by exists 0; lia|].
  rewrite fold_round by done. rewrite Z.shiftr_div_pow2 in Hne by lia.
  pose proof (Z.div_mod c (2 ^ 16) ltac:(lia)). pose proof (Z.mod_pos_bound c (2 ^ 16) ltac:(lia)).
  assert (0 <= c / 2 ^ 16) by (apply Z.div_pos; lia).
  destruct (IH (c - 65535 * (c / 2 ^ 16))) as (Hr & (q & Hq) & Hz); [lia|]. cbn zeta in *.
  split_and!; [lia|lia|exists (q + c / 2 ^ 16); lia|lia].
Qed.

Lemma fold_carry_small c : 0 <= c < 2 ^ 32 -> fold_carry 3 c < 2 ^ 16.
Proof.
  assert (Hstep : forall n x, 0 <= x < 2 ^ 32 -> fold_carry (S n) x < 2 ^ 16 \/
    2 ^ 16 <= x /\ fold_carry (S n) x = fold_carry n (x - 65535 * (x / 2 ^ 16))).
  { intros n x Hx. cbn [fold_carry]. rewrite Z.shiftr_div_pow2 by lia.
    destruct (Z.eqb_spec (x / 2 ^ 16) 0) as [E|Hne].
    - left. apply Z.div_small_iff in E; lia.
    - right. split; [|rewrite <- fold_round by done; by rewrite Z.shiftr_div_pow2 by lia].
      destruct (Z.lt_ge_cases x (2 ^ 16)); [|lia]. rewrite Z.div_small in Hne by lia. lia. }
  assert (Hval : forall x, 0 <= x -> let y := x - 65535 * (x / 2 ^ 16) in
    y = x mod 2 ^ 16 + x / 2 ^ 16 /\ 0 <= x mod 2 ^ 16 < 2 ^ 16 /\ 0 <= x / 2 ^ 16).
  { intros x Hx. cbn zeta. pose proof (Z.div_mod x (2 ^ 16) ltac:(lia)). pose proof (Z.mod_pos_bound x (2 ^ 16) ltac:(lia)).
    pose proof (Z.div_pos x (2 ^ 16) ltac:(lia) ltac:(lia)). lia. }
  intros Hc. destruct (Hstep 2%nat c Hc) as [?|[_ ->]]; [done|]. destruct (Hval c ltac:(lia)) as (E1 & R1 & R2). cbn zeta in E1.
  assert (c / 2 ^ 16 < 2 ^ 16) by (apply Z.div_lt_upper_bound; lia). set (y := c - _) in *.
  destruct (Hstep 1%nat y ltac:(lia)) as [?|[Hy ->]]; [done|]. destruct (Hval y ltac:(lia)) as (E2 & R3 & R4). cbn zeta in E2.
  assert (y / 2 ^ 16 < 2) by (apply Z.div_lt_upper_bound; lia).
  assert (y mod 2 ^ 16 < 2 ^ 16 - 1) by (pose proof (Z.div_mod y (2 ^ 16) ltac:(lia)); lia).
  destruct (Hstep 0%nat (y - 65535 * (y / 2 ^ 16)) ltac:(lia)) as [?|[Hz _]]; [done|]. lia.
Qed.

Lemma fold_checksum_eq c : 0 <= c < 2 ^ 32 -> fold_checksum c = 65535 - fold_carry 3 c /\ 0 <= fold_checksum c <= 65535.
Proof.
  intros Hc. destruct (fold_carry_spec 3 c Hc) as (Hr & _). pose proof (fold_carry_small c Hc). cbn zeta in *.
  unfold fold_checksum. rewrite (u16_small (fold_carry 3 c)), u16_small by lia. lia.
Qed.

(** A sum that includes its own checksum folds to zero. *)
Lemma checksum_verifies c : 0 <= c -> c + 65535 < 2 ^ 32 -> fold_checksum (c + fold_checksum c) = 0.
Proof.
  intros H0 Hc. destruct (fold_checksum_eq c) as [E R]; [lia|].
  destruct (fold_carry_spec 3 c) as (Hr & (q & Hq) & Hz); [lia|]. pose proof (fold_carry_small c ltac:(lia)).
  destruct (fold_checksum_eq (c + fold_checksum c)) as [E2 R2]; [lia|].
  destruct (fold_carry_spec 3 (c + fold_checksum c)) as (Hr2 & (q2 & Hq2) & Hz2); [lia|].
  pose proof (fold_carry_small (c + fold_checksum c) ltac:(lia)). cbn zeta in *. lia.
Qed.

(** ** Symbolic execution of the builders *)

Lemma wr_prefix l t i v : 0 <= i < blen l -> wr (l ++ t) i v = Some (<[Z.to_nat i := v]> l ++ t).
Proof.
  intros Hi. unfold wr. unfold blen in *. rewrite length_app, (proj2 (Z.leb_le _ _)), (proj2 (Z.ltb_lt _ _)) by lia.
  simpl. by rewrite insert_app_l by lia.
Qed.

Lemma wrn_prefix l t off data : 0 <= off -> off + blen data <= blen l ->
  wrn (l ++ t) off data = Some ((take (Z.to_nat off) l ++ data ++ drop (Z.to_nat (off + blen data)) l) ++ t).
Proof.
  intros Ho Hl. unfold wrn. unfold blen in *. rewrite length_app, !(proj2 (Z.leb_le _ _)) by lia. simpl.
  rewrite take_app_le, drop_app_le by lia. by rewrite <- !app_assoc.
Qed.

(** [memcpy] over exactly the rest of the buffer. *)
Lemma wrn_rest l t off data : off = blen l -> length data = length t -> wrn (l ++ t) off data = Some (l ++ data).
Proof.
  intros -> Hl. unfold wrn. unfold blen. rewrite length_app, !(proj2 (Z.leb_le _ _)) by lia. simpl.
  rewrite Nat2Z.id, take_app_length. rewrite drop_ge by (rewrite length_app; lia). by rewrite app_nil_r.
Qed.

Lemma rdn_prefix l t off n : 0 <= off -> 0 <= n -> off + n <= blen l ->
  rdn (l ++ t) off n = Some (take (Z.to_nat n) (drop (Z.to_nat off) l)).
Proof.
  intros. unfold rdn. unfold blen in *. rewrite length_app, !(proj2 (Z.leb_le _ _)) by lia. simpl.
  rewrite drop_app_le, take_app_le by (rewrite ?length_drop; lia). done.
Qed.

Lemma rdn_eq b off n : 0 <= off -> 0 <= n -> off + n <= blen b ->
  rdn b off n = Some (take (Z.to_nat n) (drop (Z.to_nat off) b)).
Proof. intros. rewrite <- (app_nil_r b) at 1. by apply rdn_prefix. Qed.

Lemma rdn_rest l t off n : off = blen l -> n = blen t -> rdn (l ++ t) off n = Some t.
Proof.
  intros -> ->. rewrite rdn_eq by (unfold blen; rewrite ?length_app; lia). unfold blen. rewrite !Nat2Z.id.
  by rewrite drop_app_length, take_ge.
Qed.

Lemma list_4 (l : list Z) : blen l = 4 -> exists a b c d, l = [a; b; c; d].
Proof. unfold blen. destruct l as [|a [|b [|c [|d [|]]]]]; simpl; intros; try lia. by exists a, b, c, d. Qed.

(** A 16-bit value as its two bytes. *)
Lemma split16 z : 0 <= z <= 65535 ->
  is_byte (Z.shiftr z 8) /\ is_byte (Z.land z 255) /\ Z.shiftr z 8 * 256 + Z.land z 255 = z.
Proof.
  intros Hz. rewrite Z.shiftr_div_pow2 by lia. change 255 with (2 ^ 8 - 1). rewrite land_ones_mod by lia.
  pose proof (Z.div_mod z (2 ^ 8) ltac:(lia)). pose proof (Z.mod_pos_bound z (2 ^ 8) ltac:(lia)).
  assert (0 <= z / 2 ^ 8 < 256) by (split; [apply Z.div_pos; lia|apply Z.div_lt_upper_bound; lia]).
  unfold is_byte. lia.
Qed.

Lemma land255_byte z : is_byte (Z.land z 255).
Proof. change 255 with (2 ^ 8 - 1). rewrite land_ones_mod by lia. apply Z.mod_pos_bound. lia. Qed.

Lemma be16_bytes z : 0 <= z <= 65535 -> be16 (Z.land (Z.shiftr z 8) 255) (Z.land z 255) = z.
Proof.
  intros Hz. destruct (split16 z Hz) as (Hh & _ & E). rewrite be16_eq by apply land255_byte. rewrite <- E at 3.
  do 2 f_equal. change 255 with (2 ^ 8 - 1). rewrite land_ones_mod by lia. by apply Z.mod_small.
Qed.

Lemma be32_bytes z : 0 <= z < 2 ^ 32 ->
  be16 (Z.land (Z.shiftr z 24) 255) (Z.land (Z.shiftr z 16) 255) * 65536 +
  be16 (Z.land (Z.shiftr z 8) 255) (Z.land z 255) = z.
Proof.
  intros Hz. rewrite !be16_eq by apply land255_byte. change 255 with (2 ^ 8 - 1).
  rewrite !land_ones_mod, !Z.shiftr_div_pow2 by lia. Z.to_euclidean_division_equations. lia.
Qed.

#[export] Hint Resolve land255_byte : machine.

(** The layout of the IPv4 error packet. *)
Definition v4_header (total ck : Z) (src dst : list Z) : list Z :=
  [69; 192; Z.land (Z.shiftr total 8) 255; Z.land total 255; 0; 0; 0; 0; MQVPN_ICMP_TTL; 1;
   Z.shiftr ck 8; Z.land ck 255] ++ src ++ dst.

Definition icmp4_body (type code mtu ic : Z) (data : list Z) : list Z :=
  [type; code; Z.shiftr ic 8; Z.land ic 255; 0; 0; Z.shiftr mtu 8; Z.land mtu 255] ++ data.

Lemma ipv4_checksum_prefix l t n : blen l = n -> ipv4_checksum (l ++ t) n = ipv4_checksum l n.
Proof.
  intros <-. unfold ipv4_checksum. rewrite rdn_prefix, rdn_eq by (unfold blen; lia). done.
Qed.

Ltac wr_step :=
  match goal with
  | |- context [wr ((?a :: ?l) ++ ?t) ?i ?v] =>
      rewrite (wr_prefix (a :: l) t i v) by (unfold blen; simpl; lia);
      let n := eval vm_compute in (Z.to_nat i) in change (Z.to_nat i) with n;
      cbn [mbind option_bind insert list_insert]
  end.

Ltac wrn_step :=
  rewrite wrn_prefix by (unfold blen; simpl; lia); cbn [mbind option_bind];
  match goal with |- context [take ?k ?l ++ ?d ++ drop ?n ?l] =>
    let r := eval cbv [take drop app Z.to_nat Pos.to_nat Pos.iter_op Nat.add blen length Z.of_nat
      Pos.of_succ_nat Pos.succ Z.add Pos.add] in (take k l ++ d ++ drop n l) in
    change (take k l ++ d ++ drop n l) with r
  end.

(** The length of the quoted part and the packet. *)
Definition quoted4 (orig : list Z) (ihl : Z) : Z := if blen orig <? ihl + 8 then blen orig else ihl + 8.

Lemma icmp_send_v4_eq src type code mtu orig b0 :
  blen src = 4 -> rd orig 0 = Some b0 -> 20 <= Z.land b0 15 * 4 <= blen orig ->
  let dlen := quoted4 orig (Z.land b0 15 * 4) in
  let dst := take 4 (drop 12 orig) in
  let data := take (Z.to_nat dlen) orig in
  exists ck, ipv4_checksum (v4_header (28 + dlen) 0 src dst) 20 = Some ck /\
  mqvpn_icmp_send_v4 src type code mtu orig =
    Some (Some (v4_header (28 + dlen) ck src dst ++
      icmp4_body type code mtu (fold_checksum (sum_padded 0 (icmp4_body type code mtu 0 data))) data)).
Proof.
  intros Hs Hb Hi. cbn zeta. unfold mqvpn_icmp_send_v4, IPV4_MIN_HDR. rewrite (proj2 (Z.ltb_ge _ _)) by lia.
  rewrite Hb. cbn [mbind option_bind]. assert (Z.land b0 15 <= 15) by (change 15 with (2 ^ 4 - 1); rewrite land_ones_mod by lia;
    pose proof (Z.mod_pos_bound b0 (2 ^ 4) ltac:(lia)); lia).
  set (ihl := Z.land b0 15 * 4) in *. rewrite !(proj2 (Z.ltb_ge _ _)) by lia. cbn [orb]. fold (quoted4 orig ihl).
  assert (Hd : 20 <= quoted4 orig ihl <= 68 /\ quoted4 orig ihl <= blen orig)
    by (unfold quoted4; destruct (Z.ltb_spec (blen orig) (ihl + 8)); lia).
  set (dlen := quoted4 orig ihl) in *. change (20 + 8 + dlen) with (28 + dlen). rewrite (proj2 (Z.ltb_ge _ _)) by lia.
  rewrite Z2Nat.inj_add, replicate_add by lia. change (replicate (Z.to_nat 28) 0) with
    [0;0;0;0;0;0;0;0;0;0;0;0;0;0;0;0;0;0;0;0;0;0;0;0;0;0;0;0].
  set (rest := replicate (Z.to_nat dlen) 0). do 6 wr_step.
  rewrite (rdn_eq src) by lia. rewrite (take_ge (drop _ src)) by (rewrite length_drop; unfold blen in Hs; lia). cbn [mbind option_bind].
  rewrite (rdn_eq orig 12 4) by lia. change (Z.to_nat 4) with 4%nat. change (Z.to_nat 12) with 12%nat. change (Z.to_nat 0) with 0%nat.
  rewrite drop_0. destruct (list_4 src Hs) as (s0 & s1 & s2 & s3 & ->).
  destruct (list_4 (take 4 (drop 12 orig))) as (d0 & d1 & d2 & d3 & ->); [unfold blen in *; rewrite length_take, length_drop; lia|].
  cbn [mbind option_bind]. do 2 wrn_step.
  match goal with |- context [ipv4_checksum (?l ++ rest) 20] =>
    change (l ++ rest) with (v4_header (28 + dlen) 0 [s0; s1; s2; s3] [d0; d1; d2; d3] ++ [0;0;0;0;0;0;0;0] ++ rest) end.
  rewrite ipv4_checksum_prefix by done.
  destruct (ipv4_checksum (v4_header (28 + dlen) 0 [s0; s1; s2; s3] [d0; d1; d2; d3]) 20) as [ck|] eqn:Eck; [|by cbn in Eck].
  exists ck. split; [done|]. cbn [mbind option_bind]. rewrite app_assoc.
  match goal with |- context [wr (?l ++ rest) 10 _] => let r := eval cbv [v4_header app] in l in change l with r end.
  do 6 wr_step. rewrite (rdn_eq orig) by lia. cbn [mbind option_bind]. change (Z.to_nat 0) with 0%nat. rewrite drop_0.
  set (data := take (Z.to_nat dlen) orig). assert (Hlen : length data = Z.to_nat dlen)
    by (unfold data; rewrite length_take; unfold blen in Hd; lia).
  rewrite wrn_rest; [|done|by unfold rest; rewrite length_replicate]. cbn [mbind option_bind].
  match goal with |- context [rdn (?l ++ data) 20 _] =>
    change (l ++ data) with (v4_header (28 + dlen) ck [s0; s1; s2; s3] [d0; d1; d2; d3] ++ icmp4_body type code mtu 0 data) end.
  rewrite rdn_rest by (unfold icmp4_body, blen; rewrite ?length_app, ?Hlen; simpl; lia). cbn [mbind option_bind].
  set (ic := fold_checksum (sum_padded 0 (icmp4_body type code mtu 0 data))). unfold icmp4_body. rewrite app_assoc.
  match goal with |- context [wr (?l ++ data) (20 + 2) _] => let r := eval cbv [v4_header app] in l in change l with r end.
  by do 2 wr_step.
Qed.

(** The layout of the IPv6 error packet. *)
Definition v6_header (plen : Z) (src dst : list Z) : list Z :=
  [96; 0; 0; 0; Z.land (Z.shiftr plen 8) 255; Z.land plen 255; 58; MQVPN_ICMP_TTL] ++ src ++ dst.

Definition icmp6_body (type code mtu ic : Z) (data : list Z) : list Z :=
  [type; code; Z.shiftr ic 8; Z.land ic 255; Z.land (Z.shiftr mtu 24) 255; Z.land (Z.shiftr mtu 16) 255;
   Z.land (Z.shiftr mtu 8) 255; Z.land mtu 255] ++ data.

Lemma list_16 (l : list Z) : blen l = 16 ->
  exists a b c d e f g h i j k m n o p q, l = [a; b; c; d; e; f; g; h; i; j; k; m; n; o; p; q].
Proof.
  unfold blen. do 16 (destruct l as [|? l]; [simpl; intros; lia|]). destruct l; simpl; intros; [|lia].
  by eexists _, _, _, _, _, _, _, _, _, _, _, _, _, _, _, _.
Qed.

Definition quoted6 (orig : list Z) : Z := if 1280 <? 48 + blen orig then 1280 - 40 - 8 else blen orig.

Lemma icmp_send_v6_eq src type code mtu orig :
  blen src = 16 -> 40 <= blen orig ->
  let dlen := quoted6 orig in
  let dst := take 16 (drop 8 orig) in
  let data := take (Z.to_nat dlen) orig in
  exists ic, icmpv6_checksum src dst (icmp6_body type code mtu 0 data) (8 + dlen) = Some ic /\
  mqvpn_icmp_send_v6 src type code mtu orig =
    Some (Some (v6_header (8 + dlen) src dst ++ icmp6_body type code mtu ic data)).
Proof.
  intros Hs Ho. cbn zeta. unfold mqvpn_icmp_send_v6, IPV6_MIN_HDR, IPV6_MIN_MTU. rewrite (proj2 (Z.ltb_ge _ _)) by lia.
  change (40 + 8 + blen orig) with (48 + blen orig). fold (quoted6 orig).
  assert (Hd : 40 <= quoted6 orig <= 1232 /\ quoted6 orig <= blen orig)
    by (unfold quoted6; destruct (Z.ltb_spec 1280 (48 + blen orig)); lia).
  set (dlen := quoted6 orig) in *. set (plen := 8 + dlen).
  replace (40 + plen) with (48 + dlen) by (unfold plen; lia). rewrite (Z2Nat.inj_add 48 dlen), replicate_add by lia.
  match goal with |- context [replicate (Z.to_nat 48) 0] =>
    let r := eval vm_compute in (replicate (Z.to_nat 48) 0) in change (replicate (Z.to_nat 48) 0) with r end.
  set (rest := replicate (Z.to_nat dlen) 0). do 5 wr_step.
  rewrite (rdn_eq src) by lia. rewrite (take_ge (drop _ src)) by (rewrite length_drop; unfold blen in Hs; lia). cbn [mbind option_bind].
  rewrite (rdn_eq orig 8 16) by lia. change (Z.to_nat 16) with 16%nat. change (Z.to_nat 8) with 8%nat. change (Z.to_nat 0) with 0%nat.
  rewrite drop_0. set (dst := take 16 (drop 8 orig)).
  assert (Hdst : blen dst = 16) by (unfold dst, blen in *; rewrite length_take, length_drop; lia). clearbody dst.
  destruct (list_16 src Hs) as (a0 & a1 & a2 & a3 & a4 & a5 & a6 & a7 & a8 & a9 & aa & ab & ac & ad & ae & af & ->).
  destruct (list_16 dst Hdst) as (b0 & b1 & b2 & b3 & b4 & b5 & b6 & b7 & b8 & b9 & ba & bb & bc & bd & be & bf & ->).
  cbn [mbind option_bind]. do 2 wrn_step. do 6 wr_step.
  rewrite (rdn_eq orig) by lia. cbn [mbind option_bind]. change (Z.to_nat 0) with 0%nat. rewrite drop_0.
  set (data := take (Z.to_nat dlen) orig). assert (Hlen : length data = Z.to_nat dlen)
    by (unfold data; rewrite length_take; unfold blen in Hd; lia).
  rewrite wrn_rest; [|done|by unfold rest; rewrite length_replicate]. cbn [mbind option_bind].
  rewrite (rdn_prefix _ _ 8 16), (rdn_prefix _ _ 24 16) by (unfold blen; simpl; lia). cbn [mbind option_bind].
  match goal with |- context [rdn (?l ++ data) 40 _] =>
    change (l ++ data) with (v6_header plen [a0;a1;a2;a3;a4;a5;a6;a7;a8;a9;aa;ab;ac;ad;ae;af]
      [b0;b1;b2;b3;b4;b5;b6;b7;b8;b9;ba;bb;bc;bd;be;bf] ++ icmp6_body type code mtu 0 data) end.
  rewrite rdn_rest by (unfold plen, icmp6_body, blen; rewrite ?length_app, ?Hlen; simpl; lia). cbn [mbind option_bind].
  change (take (Z.to_nat 16) (drop (Z.to_nat 8) (_ :: _))) with [a0;a1;a2;a3;a4;a5;a6;a7;a8;a9;aa;ab;ac;ad;ae;af].
  change (take (Z.to_nat 16) (drop (Z.to_nat 24) (_ :: _))) with [b0;b1;b2;b3;b4;b5;b6;b7;b8;b9;ba;bb;bc;bd;be;bf].
  destruct (icmpv6_checksum _ _ _ _) as [ic|] eqn:Eic.
  2:{ exfalso. unfold icmpv6_checksum in Eic. rewrite (rdn_eq (icmp6_body _ _ _ _ _)) in Eic
        by (unfold plen, icmp6_body, blen; rewrite ?length_app, ?Hlen; simpl; lia). by cbn in Eic. }
  exists ic. split; [done|]. cbn [mbind option_bind]. unfold icmp6_body. rewrite app_assoc.
  match goal with |- context [wr (?l ++ data) (40 + 2) _] => let r := eval cbv [v6_header app] in l in change l with r end.
  by do 2 wr_step.
Qed.

(** ** The packets on the wire *)

Lemma words_cons2 x y l : words (x :: y :: l) = x * 256 + y + words l.
Proof. done. Qed.

Lemma v4_header_words total ck src dst : 0 <= ck <= 65535 ->
  words (v4_header total ck src dst) = words (v4_header total 0 src dst) + ck.
Proof.
  intros Hc. destruct (split16 ck Hc) as (_ & _ & E). unfold v4_header. cbn [app]. rewrite !words_cons2.
  change (Z.shiftr 0 8) with 0. change (Z.land 0 255) with 0. lia.
Qed.

Lemma icmp4_body_words type code mtu ic data : 0 <= ic <= 65535 ->
  words (icmp4_body type code mtu ic data) = words (icmp4_body type code mtu 0 data) + ic.
Proof.
  intros Hc. destruct (split16 ic Hc) as (_ & _ & E). unfold icmp4_body. cbn [app]. rewrite !words_cons2.
  change (Z.shiftr 0 8) with 0. change (Z.land 0 255) with 0. lia.
Qed.

Lemma icmp6_body_words type code mtu ic data : 0 <= ic <= 65535 ->
  words (icmp6_body type code mtu ic data) = words (icmp6_body type code mtu 0 data) + ic.
Proof.
  intros Hc. destruct (split16 ic Hc) as (_ & _ & E). unfold icmp6_body. cbn [app]. rewrite !words_cons2.
  change (Z.shiftr 0 8) with 0. change (Z.land 0 255) with 0. lia.
Qed.

Ltac bytes_tac :=
  unfold bytes_ok; repeat first
    [ apply Forall_app; split | apply Forall_cons; split | apply Forall_nil | assumption
    | apply land255_byte | (apply split16; lia) | (unfold is_byte, MQVPN_ICMP_TTL; lia) ].

Lemma v4_header_ok total ck src dst : bytes_ok src -> bytes_ok dst -> 0 <= ck <= 65535 ->
  bytes_ok (v4_header total ck src dst).
Proof. intros. unfold v4_header. bytes_tac. Qed.

Lemma icmp4_body_ok type code mtu ic data : is_byte type -> is_byte code -> 0 <= mtu <= 65535 -> 0 <= ic <= 65535 ->
  bytes_ok data -> bytes_ok (icmp4_body type code mtu ic data).
Proof. intros. unfold icmp4_body. bytes_tac. Qed.

Lemma icmp6_body_ok type code mtu ic data : is_byte type -> is_byte code -> 0 <= ic <= 65535 ->
  bytes_ok data -> bytes_ok (icmp6_body type code mtu ic data).
Proof. intros. unfold icmp6_body. bytes_tac. Qed.

Lemma ipv4_checksum_eq b : bytes_ok b -> Nat.Even (length b) -> blen b <= 40 ->
  ipv4_checksum b (blen b) = Some (fold_checksum (words b)).
Proof.
  intros Hb He Hl. pose proof (words_bounds b Hb). unfold ipv4_checksum. pose proof (blen_nonneg b).
  rewrite rdn_eq by lia. change (Z.to_nat 0) with 0%nat. rewrite drop_0, take_ge by (unfold blen in *; lia).
  cbn [mbind option_bind]. rewrite sum_words_eq by (done || lia). done.
Qed.

Lemma v4_header_len total ck src dst : blen src = 4 -> blen dst = 4 -> blen (v4_header total ck src dst) = 20.
Proof. unfold blen, v4_header. rewrite !length_app. simpl length. lia. Qed.

Lemma v4_split total ck src dst t : blen src = 4 -> blen dst = 4 ->
  take 20 (v4_header total ck src dst ++ t) = v4_header total ck src dst /\ drop 20 (v4_header total ck src dst ++ t) = t.
Proof.
  intros Hs Hd. pose proof (v4_header_len total ck src dst Hs Hd) as Hl. unfold blen in Hl.
  assert (E : length (v4_header total ck src dst) = 20%nat) by lia. by rewrite take_app_length', drop_app_length' by done.
Qed.

(** Both checksums of the IPv4 error packet verify. *)
Lemma v4_checksums total src dst type code mtu data ck :
  bytes_ok src -> blen src = 4 -> bytes_ok dst -> blen dst = 4 -> is_byte type -> is_byte code -> 0 <= mtu <= 65535 ->
  bytes_ok data -> blen data <= 68 -> ipv4_checksum (v4_header total 0 src dst) 20 = Some ck ->
  let ic := fold_checksum (sum_padded 0 (icmp4_body type code mtu 0 data)) in
  let p := v4_header total ck src dst ++ icmp4_body type code mtu ic data in
  bytes_ok p /\ ipv4_checksum (take 20 p) 20 = Some 0 /\ fold_checksum (sum_padded 0 (drop 20 p)) = 0.
Proof.
  intros Hsb Hs Hdb Hd Ht Hc Hm Hdata Hl Hck. cbn zeta.
  assert (Hbody : forall ic, blen (icmp4_body type code mtu ic data) <= 76)
    by (intros; unfold icmp4_body, blen in *; rewrite length_app; simpl length; lia).
  assert (Hb0 : bytes_ok (icmp4_body type code mtu 0 data)) by (apply icmp4_body_ok; (done || lia)).
  pose proof (words_bounds _ Hb0) as Hw. specialize (Hbody 0) as Hb0l. rewrite (sum_padded_eq _ _ Hb0) by lia.
  destruct (fold_checksum_eq (0 + words (icmp4_body type code mtu 0 data))) as [_ Hic]; [lia|].
  pose proof (checksum_verifies (0 + words (icmp4_body type code mtu 0 data)) ltac:(lia) ltac:(lia)) as Hver.
  set (ic := fold_checksum _) in *.
  assert (Hh0 : bytes_ok (v4_header total 0 src dst)) by (apply v4_header_ok; (done || lia)).
  assert (Hev : forall k, Nat.Even (length (v4_header total k src dst))).
  { intros k. exists 10%nat. pose proof (v4_header_len total k src dst Hs Hd). unfold blen in *. lia. }
  pose proof (words_bounds _ Hh0) as Hw0. rewrite v4_header_len in Hw0 by done.
  pose proof (ipv4_checksum_eq _ Hh0 (Hev 0)) as Eck. rewrite v4_header_len, Hck in Eck by done.
  pose proof (Some_inj _ _ (Eck ltac:(lia))) as Ek. clear Eck Hck. rewrite Ek. clear ck Ek.
  destruct (fold_checksum_eq (words (v4_header total 0 src dst))) as [_ Hckr]; [lia|].
  pose proof (checksum_verifies (words (v4_header total 0 src dst)) ltac:(lia) ltac:(lia)) as Hverh.
  set (ck := fold_checksum (words _)) in *.
  assert (Hh1 : bytes_ok (v4_header total ck src dst)) by (apply v4_header_ok; (done || lia)).
  assert (Hb1 : bytes_ok (icmp4_body type code mtu ic data)) by (apply icmp4_body_ok; (done || lia)).
  destruct (v4_split total ck src dst (icmp4_body type code mtu ic data)) as [-> ->]; [done..|].
  split_and!; [by apply Forall_app| |].
  - pose proof (ipv4_checksum_eq _ Hh1 (Hev ck)) as E. rewrite v4_header_len in E by done.
    rewrite E, v4_header_words by lia. by rewrite Hverh.
  - pose proof (words_bounds _ Hb1). specialize (Hbody ic). rewrite sum_padded_eq by (done || lia).
    rewrite icmp4_body_words by done. by rewrite Z.add_assoc.
Qed.

(** The low byte of the first byte's nibble as the parser reads it. *)
Lemma rd_nth0 b v : rd b 0 = Some v -> nth 0 b 0 = v.
Proof. destruct b as [|x b]; [done|]. by intros [= ->]. Qed.

Lemma nibble_bounds v : 0 <= v -> 0 <= Z.land v 15 <= 15.
Proof.
  intros. change 15 with (2 ^ 4 - 1). rewrite land_ones_mod by lia. pose proof (Z.mod_pos_bound v (2 ^ 4) ltac:(lia)). lia.
Qed.

(** C33: the IPv4 error packet.  For any original packet and any source
    address the builder stays within its buffers; it answers exactly the
    packets that hold a whole IPv4 header; and what it emits is at most 96
    bytes, is addressed from the given source to the original sender, carries
    its length, type, code and MTU, quotes the original header and the eight
    bytes after it (as far as they exist), and both its checksums verify. *)
Theorem icmp_v4_wellformed src type code mtu orig :
  bytes_ok src -> blen src = 4 -> is_byte type -> is_byte code -> 0 <= mtu <= 65535 -> bytes_ok orig ->
  exists r, mqvpn_icmp_send_v4 src type code mtu orig = Some r /\
    let ihl := Z.land (nth 0 orig 0) 15 * 4 in
    match r with
    | None => blen orig < 20 \/ ihl < 20 \/ blen orig < ihl
    | Some p =>
        20 <= ihl <= blen orig /\ bytes_ok p /\ blen p = 28 + Z.min (ihl + 8) (blen orig) /\ blen p <= 96 /\
        be16 (nth 2 p 0) (nth 3 p 0) = blen p /\ nth 9 p 0 = 1 /\
        take 4 (drop 12 p) = src /\ take 4 (drop 16 p) = take 4 (drop 12 orig) /\
        nth 20 p 0 = type /\ nth 21 p 0 = code /\ be16 (nth 26 p 0) (nth 27 p 0) = mtu /\
        drop 28 p = take (Z.to_nat (ihl + 8)) orig /\
        ipv4_checksum (take 20 p) 20 = Some 0 /\ fold_checksum (sum_padded 0 (drop 20 p)) = 0
    end.
Proof.
  intros Hsrc Hs Ht Hc Hm Ho. cbn zeta. pose proof (blen_nonneg orig). unfold mqvpn_icmp_send_v4 at 1.
  destruct (decide (blen orig < 20)) as [Hshort|Hlong].
  { exists None. unfold IPV4_MIN_HDR. rewrite (proj2 (Z.ltb_lt _ _)) by done. split; [done|by left]. }
  destruct (rd_in_bounds orig 0) as [b0 Hb0]; [lia|]. pose proof (rd_byte orig 0 b0 Ho Hb0).
  rewrite (rd_nth0 _ _ Hb0). pose proof (nibble_bounds b0 ltac:(lia)). set (ihl := Z.land b0 15 * 4) in *.
  destruct (decide (20 <= ihl <= blen orig)) as [Hi|Hi].
  2:{ exists None. split; [|lia]. unfold IPV4_MIN_HDR. rewrite (proj2 (Z.ltb_ge _ _)), Hb0 by lia.
      cbn [mbind option_bind]. fold ihl. destruct (Z.ltb_spec ihl 20); [done|]. rewrite (proj2 (Z.ltb_lt _ _)) by lia. done. }
  fold (mqvpn_icmp_send_v4 src type code mtu orig).
  destruct (icmp_send_v4_eq src type code mtu orig b0 Hs Hb0 Hi) as (ck & Hck & ->). cbn zeta in Hck. fold ihl in Hck |- *.
  assert (Hq : quoted4 orig ihl = Z.min (ihl + 8) (blen orig)) by (unfold quoted4; destruct (Z.ltb_spec (blen orig) (ihl + 8)); lia).
  assert (Hdata : take (Z.to_nat (quoted4 orig ihl)) orig = take (Z.to_nat (ihl + 8)) orig).
  { rewrite Hq. destruct (Z.min_spec (ihl + 8) (blen orig)) as [[? ->]|[? ->]]; [done|].
    rewrite !take_ge by (unfold blen in *; lia). done. }
  rewrite Hdata. set (dst := take 4 (drop 12 orig)) in *. set (data := take (Z.to_nat (ihl + 8)) orig).
  assert (Hdst : bytes_ok dst /\ blen dst = 4).
  { split; [by apply Forall_take, Forall_drop|]. unfold dst, blen in *. rewrite length_take, length_drop. lia. }
  assert (Hdl : bytes_ok data /\ blen data = Z.min (ihl + 8) (blen orig)).
  { split; [by apply Forall_take|]. unfold data, blen in *. rewrite length_take. lia. }
  destruct Hdst as [Hdb Hd4], Hdl as [Hdatab Hdlen].
  destruct (v4_checksums (28 + quoted4 orig ihl) src dst type code mtu data ck) as (Hbk & Hv1 & Hv2); try done; [lia|].
  cbn zeta in *. set (ic := fold_checksum _) in *. eexists. split; [done|].
  destruct (list_4 src Hs) as (s0 & s1 & s2 & s3 & Es). destruct (list_4 dst Hd4) as (d0 & d1 & d2 & d3 & Ed).
  assert (Hlen : blen (v4_header (28 + quoted4 orig ihl) ck src dst ++ icmp4_body type code mtu ic data) = 28 + quoted4 orig ihl).
  { unfold blen in *. unfold icmp4_body. rewrite !length_app. pose proof (v4_header_len (28 + quoted4 orig ihl) ck src dst Hs Hd4).
    unfold blen in *. simpl length at 2. lia. }
  split_and!; try done; try lia; rewrite ?Hlen; rewrite ?Es, ?Ed; try reflexivity.
  - apply be16_bytes. lia.
  - cbn [nth v4_header icmp4_body app]. destruct (split16 mtu Hm) as (? & ? & E). rewrite be16_eq by apply land255_byte. done.
Qed.

Lemma icmpv6_checksum_eq src dst body :
  bytes_ok src -> blen src = 16 -> bytes_ok dst -> blen dst = 16 -> bytes_ok body -> blen body <= 1240 ->
  icmpv6_checksum src dst body (blen body) =
    Some (fold_checksum (words src + words dst + blen body + 58 + words body)).
Proof.
  intros Hsb Hs Hdb Hd Hb Hl. pose proof (words_bounds src Hsb). pose proof (words_bounds dst Hdb).
  pose proof (words_bounds body Hb). pose proof (blen_nonneg body).
  assert (Hev : forall l, blen l = 16 -> Nat.Even (length l)) by (intros l ?; exists 8%nat; unfold blen in *; lia).
  assert (Htk : forall l n, blen l = n -> take (Z.to_nat n) (drop (Z.to_nat 0) l) = l).
  { intros l n <-. change (Z.to_nat 0) with 0%nat. rewrite drop_0. apply take_ge. unfold blen. lia. }
  unfold icmpv6_checksum. rewrite (rdn_eq src), Htk by (done || lia). cbn [mbind option_bind].
  rewrite sum_words_eq by first [done|by apply Hev|lia]. cbn [mbind option_bind].
  rewrite (rdn_eq dst), Htk by (done || lia). cbn [mbind option_bind].
  rewrite sum_words_eq by first [done|by apply Hev|lia]. cbn [mbind option_bind].
  rewrite (rdn_eq body), Htk by (done || lia). cbn [mbind option_bind].
  rewrite (Z.shiftr_div_pow2 _ 16), Z.div_small by lia. change 65535 with (2 ^ 16 - 1). rewrite land_ones_mod, Z.mod_small by lia.
  rewrite (u32_small (_ + 0)), (u32_small (_ + blen body)), (u32_small (_ + 58)) by lia.
  rewrite sum_padded_eq by (done || lia). do 2 f_equal. lia.
Qed.

(** The IPv6 error packet.  For any original packet and any source
    address the builder stays within its buffers; it answers exactly the
    packets that hold an IPv6 header; and what it emits fits the minimum MTU,
    is addressed from the given source to the original sender, carries its
    payload length, type, code and 32-bit MTU, quotes as much of the original
    packet as fits, and its checksum verifies over the pseudo-header. *)
Theorem icmp_v6_wellformed src type code mtu orig :
  bytes_ok src -> blen src = 16 -> is_byte type -> is_byte code -> 0 <= mtu < 2 ^ 32 -> bytes_ok orig ->
  exists r, mqvpn_icmp_send_v6 src type code mtu orig = Some r /\
    match r with
    | None => blen orig < 40
    | Some p =>
        40 <= blen orig /\ bytes_ok p /\ blen p = Z.min (48 + blen orig) IPV6_MIN_MTU /\
        be16 (nth 4 p 0) (nth 5 p 0) = blen p - 40 /\ nth 6 p 0 = 58 /\
        take 16 (drop 8 p) = src /\ take 16 (drop 24 p) = take 16 (drop 8 orig) /\
        nth 40 p 0 = type /\ nth 41 p 0 = code /\
        be16 (nth 44 p 0) (nth 45 p 0) * 65536 + be16 (nth 46 p 0) (nth 47 p 0) = mtu /\
        drop 48 p = take (Z.to_nat (IPV6_MIN_MTU - 48)) orig /\
        icmpv6_checksum src (take 16 (drop 8 orig)) (drop 40 p) (blen p - 40) = Some 0
    end.
Proof.
  intros Hsrc Hs Ht Hc Hm Ho. unfold mqvpn_icmp_send_v6 at 1. destruct (decide (blen orig < 40)) as [Hshort|Hlong].
  { exists None. unfold IPV6_MIN_HDR. rewrite (proj2 (Z.ltb_lt _ _)) by done. by split. }
  fold (mqvpn_icmp_send_v6 src type code mtu orig).
  destruct (icmp_send_v6_eq src type code mtu orig Hs ltac:(lia)) as (ic & Hic & ->). cbn zeta in Hic. unfold IPV6_MIN_MTU.
  assert (Hq : quoted6 orig = Z.min (blen orig) 1232) by (unfold quoted6; destruct (Z.ltb_spec 1280 (48 + blen orig)); lia).
  assert (Hdata : take (Z.to_nat (quoted6 orig)) orig = take (Z.to_nat 1232) orig).
  { rewrite Hq. destruct (Z.min_spec (blen orig) 1232) as [[? ->]|[? ->]]; [|done].
    rewrite !take_ge by (unfold blen in *; lia). done. }
  rewrite Hdata in Hic |- *. set (dst := take 16 (drop 8 orig)) in *. set (data := take (Z.to_nat 1232) orig) in *.
  assert (Hdb : bytes_ok dst) by (by apply Forall_take, Forall_drop).
  assert (Hd : blen dst = 16) by (unfold dst, blen in *; rewrite length_take, length_drop; lia).
  assert (Hdatab : bytes_ok data) by (by apply Forall_take).
  assert (Hdl : blen data = quoted6 orig) by (unfold data, blen in *; rewrite length_take; lia).
  assert (Hbl : forall k, blen (icmp6_body type code mtu k data) = 8 + quoted6 orig)
    by (intros; unfold icmp6_body, blen in *; rewrite length_app; simpl length; lia).
  assert (Hb0 : bytes_ok (icmp6_body type code mtu 0 data)) by (apply icmp6_body_ok; (done || lia)).
  pose proof (icmpv6_checksum_eq src dst _ Hsrc Hs Hdb Hd Hb0) as E0. rewrite (Hbl 0), Hic in E0.
  apply Some_inj in E0; [|lia]. set (c0 := words src + words dst + _ + 58 + _) in *.
  pose proof (words_bounds src Hsrc). pose proof (words_bounds dst Hdb). pose proof (words_bounds _ Hb0) as Hw. rewrite Hbl in Hw.
  assert (Hc0 : 0 <= c0 /\ c0 + 65535 < 2 ^ 32) by (unfold c0; lia).
  destruct (fold_checksum_eq c0) as [_ Hr]; [lia|]. rewrite <- E0 in Hr.
  assert (Hb1 : bytes_ok (icmp6_body type code mtu ic data)) by (apply icmp6_body_ok; (done || lia)).
  eexists. split; [done|].
  assert (Hhl : blen (v6_header (8 + quoted6 orig) src dst) = 40) by (unfold v6_header, blen in *; rewrite !length_app; simpl length; lia).
  assert (Hlen : blen (v6_header (8 + quoted6 orig) src dst ++ icmp6_body type code mtu ic data) = 48 + quoted6 orig)
    by (specialize (Hbl ic); unfold blen in *; rewrite length_app; lia).
  assert (Hdrop : drop 40 (v6_header (8 + quoted6 orig) src dst ++ icmp6_body type code mtu ic data) = icmp6_body type code mtu ic data)
    by (apply drop_app_length'; unfold blen in Hhl; lia).
  assert (Hver : icmpv6_checksum src dst (icmp6_body type code mtu ic data) (8 + quoted6 orig) = Some 0).
  { rewrite <- (Hbl ic), icmpv6_checksum_eq by first [done|rewrite Hbl; lia]. f_equal. rewrite Hbl, icmp6_body_words by lia.
    rewrite E0, Z.add_assoc. fold c0. rewrite <- E0. rewrite E0. apply checksum_verifies; lia. }
  cbn beta iota. rewrite Hlen, Hdrop. replace (48 + quoted6 orig - 40) with (8 + quoted6 orig) by lia.
  destruct (list_16 src Hs) as (a0 & a1 & a2 & a3 & a4 & a5 & a6 & a7 & a8 & a9 & aa & ab & ac & ad & ae & af & Es).
  destruct (list_16 dst Hd) as (b0 & b1 & b2 & b3 & b4 & b5 & b6 & b7 & b8 & b9 & ba & bb & bc & bd & be & bf & Ed).
  split_and!; try done; try lia; try (rewrite Es, Ed; reflexivity).
  - apply Forall_app. split; [|done]. unfold v6_header. bytes_tac.
  - rewrite Es, Ed. apply be16_bytes. lia.
  - rewrite Es, Ed. apply be32_bytes. done.
Qed.

(** An IPv4 packet of 28 bytes from 10.0.0.2 to 10.0.0.1, and an IPv6 one of 1400. *)
Definition sample_v4 : list Z :=
  [69; 0; 0; 28; 0; 0; 0; 0; 64; 17; 0; 0; 10; 0; 0; 2; 10; 0; 0; 1; 18; 52; 1; 187; 0; 8; 0; 0].

Definition sample_v6 : list Z := [96; 0; 0; 0; 5; 80; 17; 64] ++ replicate 16 32 ++ replicate 16 33 ++ replicate 1360 7.

Lemma icmp_v4_wellformed_witness :
  exists p, mqvpn_icmp_send_v4 [10; 0; 0; 1] 3 4 1280 sample_v4 = Some (Some p) /\ blen p = 56 /\
    ipv4_checksum (take 20 p) 20 = Some 0 /\ fold_checksum (sum_padded 0 (drop 20 p)) = 0.
Proof.
  destruct (icmp_v4_wellformed [10; 0; 0; 1] 3 4 1280 sample_v4) as (r & E & H).
  - repeat constructor; unfold is_byte; lia.
  - reflexivity.
  - unfold is_byte. lia.
  - unfold is_byte. lia.
  - lia.
  - repeat constructor; unfold is_byte; lia.
  - destruct r as [p|]; [|exfalso; revert H; vm_compute; intros [H|[H|H]]; discriminate H].
    destruct H as (_ & _ & Hl & _ & _ & _ & _ & _ & _ & _ & _ & _ & Hc1 & Hc2).
    exists p. split; [exact E|]. split; [exact Hl|]. split; [exact Hc1|exact Hc2].
Defined.

Lemma icmp_v6_wellformed_witness :
  exists p, mqvpn_icmp_send_v6 (replicate 16 34) 2 0 1280 sample_v6 = Some (Some p) /\ blen p = 1280.
Proof.
  destruct (icmp_v6_wellformed (replicate 16 34) 2 0 1280 sample_v6) as (r & E & H).
  - apply Forall_replicate. unfold is_byte. lia.
  - reflexivity.
  - unfold is_byte. lia.
  - unfold is_byte. lia.
  - lia.
  - apply Forall_app. split; [repeat constructor; unfold is_byte; lia|].
    repeat (apply Forall_app; split); apply Forall_replicate; unfold is_byte; lia.
  - destruct r as [p|]; [|exfalso; revert H; vm_compute; intros H; discriminate H].
    destruct H as (_ & _ & Hl & _). exists p. split; [exact E|]. rewrite Hl. vm_compute. reflexivity.
Defined.
