(* ===== verification/Gate.v ===== *)
(** * The tunnel-ingress gate ([src/reorder_gate.h])

    The decision to stamp, pass or drop a packet read from the tunnel, and the
    rate-limited Packet-Too-Big answer to a drop.  [tun_output] is the packet
    handed to the callback; [None] as the outer option is an out-of-bounds
    access of a callee. *)

From S2P Require Import Prelude Wire ReorderTx TxProofs Icmp.

Definition MQVPN_PTB_RATE_LIMIT : Z := 10.

Record mqvpn_ptb_bucket_t := PtbBucket { tokens : Z; refill_ms : Z }.

#[export] Instance eta_ptb_bucket : Settable mqvpn_ptb_bucket_t := fun r => PtbBucket (tokens r) (refill_ms r).

Definition mqvpn_ptb_bucket_init : mqvpn_ptb_bucket_t := PtbBucket MQVPN_PTB_RATE_LIMIT 0.

Definition mqvpn_ptb_bucket_allow (b : mqvpn_ptb_bucket_t) (now_ms : Z) : mqvpn_ptb_bucket_t * bool :=
  let b := if 1000 <=? now_ms - refill_ms b
           then b <| tokens := MQVPN_PTB_RATE_LIMIT |> <| refill_ms := now_ms |> else b in
  if 0 <? tokens b then (b <| tokens ::= fun n => n - 1 |>, true) else (b, false).

Inductive mqvpn_rgate_verdict_t :=
  | MQVPN_RGATE_STAMP | MQVPN_RGATE_RAW | MQVPN_RGATE_DROP_REORDER_MTU | MQVPN_RGATE_DROP_RAW_MTU.

(** The result: the sender, the verdict, the peek (when the reorder branch
    ran) and [*out_mtu] (when it was written). *)
Record rgate_result := RGate {
  rg_tx : option mqvpn_reorder_tx_t;
  rg_verdict : mqvpn_rgate_verdict_t;
  rg_peek : option mqvpn_reorder_tx_peek_t;
  rg_mtu : option Z
}.

(** The check of a packet that stays raw. *)
Definition rgate_raw (tx : option mqvpn_reorder_tx_t) (pk : option mqvpn_reorder_tx_peek_t) (len udp_mss : Z)
    : rgate_result :=
  if (0 <? udp_mss) && (udp_mss <? len) then RGate tx MQVPN_RGATE_DROP_RAW_MTU pk (Some udp_mss)
  else RGate tx MQVPN_RGATE_RAW pk None.

Definition mqvpn_rgate_decide (ok : bool) (reorder_tx : option mqvpn_reorder_tx_t) (peer_reorder_supported : bool)
    (reorder_mode : mqvpn_reorder_mode_t) (pkt : list Z) (now_us udp_mss : Z) : option rgate_result :=
  match reorder_tx with
  | Some tx =>
      if peer_reorder_supported && negb (bool_decide (reorder_mode = MQVPN_REORDER_OFF)) && (0 <? udp_mss) then
        r ← mqvpn_reorder_tx_peek ok tx pkt now_us udp_mss;
        let '(tx, pk) := r in
        match action pk with
        | MQVPN_REORDER_TX_STAMP => Some (RGate (Some tx) MQVPN_RGATE_STAMP (Some pk) None)
        | MQVPN_REORDER_TX_DROP_MTU =>
            let out_mtu := if MQVPN_REORDER_HDR_LEN <? udp_mss then udp_mss - MQVPN_REORDER_HDR_LEN else 0 in
            Some (RGate (Some tx) MQVPN_RGATE_DROP_REORDER_MTU (Some pk) (Some out_mtu))
        | MQVPN_REORDER_TX_RAW => Some (rgate_raw (Some tx) (Some pk) (blen pkt) udp_mss)
        end
      else Some (rgate_raw (Some tx) None (blen pkt) udp_mss)
  | None => Some (rgate_raw None None (blen pkt) udp_mss)
  end.

(** The bucket, the return value and the packet sent. *)
Definition mqvpn_rgate_send_ptb (bucket : mqvpn_ptb_bucket_t) (now_ms ip_ver : Z) (addr_ok : bool)
    (src_ip : list Z) (mtu : Z) (pkt : list Z) : option (mqvpn_ptb_bucket_t * bool * option (list Z)) :=
  if negb addr_ok then Some (bucket, false, None)
  else
    let '(bucket, allowed) := mqvpn_ptb_bucket_allow bucket now_ms in
    if negb allowed then Some (bucket, false, None)
    else if ip_ver =? 4 then
      p ← mqvpn_icmp_send_v4 src_ip 3 4 (if 65535 <? mtu then 65535 else u16 mtu) pkt;
      Some (bucket, true, p)
    else
      p ← mqvpn_icmp_send_v6 src_ip 2 0 (u32 mtu) pkt;
      Some (bucket, true, p).

(** ** The rate limit *)

(** Calls at the given times; how many are allowed. *)
Fixpoint ptb_run (b : mqvpn_ptb_bucket_t) (ts : list Z) : Z :=
  match ts with
  | [] => 0
  | t :: ts => let '(b, ok) := mqvpn_ptb_bucket_allow b t in Z.b2z ok + ptb_run b ts
  end.

(** Times that do not step back, within [a, b]. *)
Fixpoint ascending (a b : Z) (ts : list Z) : Prop :=
  match ts with
  | [] => True
  | t :: ts => a <= t <= b /\ ascending t b ts
  end.

(** Refills still possible up to [b]. *)
Definition refills (r a b : Z) : Z :=
  let s := Z.max a (r + 1000) in if b <? s then 0 else (b - s) / 1000 + 1.

Lemma refills_nonneg r a b : 0 <= refills r a b.
Proof. unfold refills. destruct (Z.ltb_spec b (Z.max a (r + 1000))); [lia|]. pose proof (Z.div_pos (b - Z.max a (r + 1000)) 1000). lia. Qed.

Lemma refills_mono r a a' b : a <= a' -> refills r a' b <= refills r a b.
Proof.
  intros Ha. unfold refills. destruct (Z.ltb_spec b (Z.max a' (r + 1000))), (Z.ltb_spec b (Z.max a (r + 1000))); try lia.
  - pose proof (Z.div_pos (b - Z.max a (r + 1000)) 1000). lia.
  - assert ((b - Z.max a' (r + 1000)) / 1000 <= (b - Z.max a (r + 1000)) / 1000) by (apply Z.div_le_mono; lia). lia.
Qed.

Lemma refills_use r a t b : a <= t <= b -> r + 1000 <= t -> 1 + refills t t b <= refills r a b.
Proof.
  intros Ha Hr. unfold refills. rewrite (Z.max_r t (t + 1000)) by lia.
  destruct (Z.ltb_spec b (t + 1000)), (Z.ltb_spec b (Z.max a (r + 1000))); try lia.
  - pose proof (Z.div_pos (b - Z.max a (r + 1000)) 1000). lia.
  - assert ((b - t) / 1000 = (b - (t + 1000)) / 1000 + 1) by (rewrite <- Z.div_add by lia; f_equal; lia).
    assert ((b - t) / 1000 <= (b - Z.max a (r + 1000)) / 1000) by (apply Z.div_le_mono; lia). lia.
Qed.

Definition bucket_ok (b : mqvpn_ptb_bucket_t) : Prop := 0 <= tokens b <= MQVPN_PTB_RATE_LIMIT.

Lemma ptb_allow_ok b t : bucket_ok b -> bucket_ok (mqvpn_ptb_bucket_allow b t).1.
Proof.
  unfold bucket_ok, mqvpn_ptb_bucket_allow, MQVPN_PTB_RATE_LIMIT. intros Hb.
  destruct (1000 <=? t - refill_ms b); simpl; [lia|]. destruct (Z.ltb_spec 0 (tokens b)); simpl; lia.
Qed.

Lemma ptb_run_bound ts b a e : bucket_ok b -> ascending a e ts ->
  ptb_run b ts <= tokens b + MQVPN_PTB_RATE_LIMIT * refills (refill_ms b) a e.
Proof.
  revert b a. induction ts as [|t ts IH]; intros b a Hb Hts; simpl.
  { pose proof (refills_nonneg (refill_ms b) a e). unfold bucket_ok, MQVPN_PTB_RATE_LIMIT in *. lia. }
  destruct Hts as [Ht Hts]. pose proof (ptb_allow_ok b t Hb) as Hb'.
  destruct (mqvpn_ptb_bucket_allow b t) as [b' ok] eqn:E. cbn [fst] in Hb'. specialize (IH b' t Hb' Hts).
  unfold mqvpn_ptb_bucket_allow in E. unfold bucket_ok, MQVPN_PTB_RATE_LIMIT in *.
  destruct (Z.leb_spec 1000 (t - refill_ms b)).
  - simpl in E. injection E as <- <-. simpl in *. pose proof (refills_use (refill_ms b) a t e). lia.
  - pose proof (refills_mono (refill_ms b) a t e).
    destruct (Z.ltb_spec 0 (tokens b)); injection E as <- <-; simpl in *; lia.
Qed.

(** The Packet-Too-Big rate limit.  Whatever the bucket went through,
    calls with a clock that does not step back are allowed at most ten times
    per started second of the interval they span, plus ten left over from the
    running window: at most twenty within any second. *)
Theorem ptb_rate_limited before ts a e :
  ascending a e ts -> a <= e ->
  let b := fold_left (fun b t => (mqvpn_ptb_bucket_allow b t).1) before mqvpn_ptb_bucket_init in
  ptb_run b ts <= MQVPN_PTB_RATE_LIMIT * ((e - a) / 1000 + 2) /\
  (e - a < 1000 -> ptb_run b ts <= 2 * MQVPN_PTB_RATE_LIMIT).
Proof.
  intros Hts Hae. cbn zeta. set (b := fold_left _ _ _).
  assert (Hb : bucket_ok b).
  { unfold b. clear. assert (H0 : bucket_ok mqvpn_ptb_bucket_init) by (split; vm_compute; done). revert H0.
    generalize mqvpn_ptb_bucket_init. induction before as [|t l IH]; intros b Hb; [done|]. simpl. by apply IH, ptb_allow_ok. }
  pose proof (ptb_run_bound ts b a e Hb Hts) as Hr.
  assert (Hf : refills (refill_ms b) a e <= (e - a) / 1000 + 1).
  { unfold refills. destruct (Z.ltb_spec e (Z.max a (refill_ms b + 1000))); [pose proof (Z.div_pos (e - a) 1000); lia|].
    assert ((e - Z.max a (refill_ms b + 1000)) / 1000 <= (e - a) / 1000) by (apply Z.div_le_mono; lia). lia. }
  unfold bucket_ok, MQVPN_PTB_RATE_LIMIT in *. split; [lia|]. intros Hlt. rewrite Z.div_small in Hf by lia. lia.
Qed.

Lemma ptb_rate_limited_witness :
  ptb_run mqvpn_ptb_bucket_init (replicate 30 500 ++ replicate 30 1400) <= 20 /\
  ptb_run mqvpn_ptb_bucket_init (replicate 30 500 ++ replicate 30 1400) = 20.
Proof.
  split; [|vm_compute; reflexivity].
  refine (proj2 (ptb_rate_limited [] (replicate 30 500 ++ replicate 30 1400) 500 1400 _ _) _).
  - simpl. repeat split; lia.
  - lia.
  - lia.
Defined.

(** ** The verdict *)

(** A sender reached from its creation by any offers. *)
Definition sender_reachable (tx : mqvpn_reorder_tx_t) : Prop :=
  exists c seed tx0 os pks, 0 < max_flows c < 2 ^ 32 /\ 0 <= reset_mark_packets c < 2 ^ 32 /\
    mqvpn_reorder_tx_new true true (Some c) seed = Some tx0 /\
    Forall (fun o => bytes_ok (of_pkt o)) os /\ tx_run tx0 os = Some (tx, pks).

Lemma sender_reachable_inv tx : sender_reachable tx -> tx_inv tx.
Proof.
  intros (c & seed & tx0 & os & pks & Hm & Hk & Hnew & Hos & Hrun). destruct (tx_new_ok c seed tx0 Hm Hk Hnew) as [H0 _].
  destruct (tx_run_ok tx0 os H0 Hos) as (? & ? & E & H & _). rewrite Hrun in E. by injection E as <- <-.
Qed.

Definition is_drop (v : mqvpn_rgate_verdict_t) : bool :=
  match v with MQVPN_RGATE_DROP_REORDER_MTU | MQVPN_RGATE_DROP_RAW_MTU => true | _ => false end.

(** What a verdict promises for a packet of length [len]. *)
Definition verdict_ok (len udp_mss : Z) (r : rgate_result) : Prop :=
  match rg_verdict r with
  | MQVPN_RGATE_STAMP => 0 < udp_mss /\ MQVPN_REORDER_HDR_LEN + len <= udp_mss /\ rg_mtu r = None /\
      exists pk, rg_peek r = Some pk /\ action pk = MQVPN_REORDER_TX_STAMP
  | MQVPN_RGATE_RAW => (0 < udp_mss -> len <= udp_mss) /\ rg_mtu r = None
  | MQVPN_RGATE_DROP_REORDER_MTU =>
      0 < udp_mss /\ rg_mtu r = Some (Z.max 0 (udp_mss - MQVPN_REORDER_HDR_LEN)) /\ udp_mss < MQVPN_REORDER_HDR_LEN + len
  | MQVPN_RGATE_DROP_RAW_MTU => 0 < udp_mss /\ rg_mtu r = Some udp_mss /\ udp_mss < len
  end.

Lemma rgate_raw_ok tx pk len mss : verdict_ok len mss (rgate_raw tx pk len mss) /\
  rg_verdict (rgate_raw tx pk len mss) <> MQVPN_RGATE_STAMP /\
  rg_verdict (rgate_raw tx pk len mss) <> MQVPN_RGATE_DROP_REORDER_MTU.
Proof.
  unfold rgate_raw. destruct (Z.ltb_spec 0 mss), (Z.ltb_spec mss len); simpl; unfold verdict_ok; simpl; split_and!; first [done|lia].
Qed.

(** The verdict of a packet, whatever the sender's state. *)
Lemma rgate_decide_verdict ok otx peer m pkt now mss r :
  mqvpn_rgate_decide ok otx peer m pkt now mss = Some r -> is_drop (rg_verdict r) = true ->
  0 < mss /\ (mss < blen pkt \/ mss < MQVPN_REORDER_HDR_LEN + blen pkt).
Proof.
  assert (Hraw : forall tx pk, is_drop (rg_verdict (rgate_raw tx pk (blen pkt) mss)) = true -> 0 < mss /\ mss < blen pkt).
  { intros tx pk. unfold rgate_raw. destruct (Z.ltb_spec 0 mss), (Z.ltb_spec mss (blen pkt)); simpl; (done || lia). }
  unfold mqvpn_rgate_decide. destruct otx as [tx|]; [|by intros [= <-] [? ?]%Hraw; auto].
  destruct (_ && (0 <? mss)) eqn:Eg; [|by intros [= <-] [? ?]%Hraw; auto].
  apply andb_prop in Eg as [_ Hm%Z.ltb_lt].
  destruct (mqvpn_reorder_tx_peek ok tx pkt now mss) as [[tx1 pk]|] eqn:Ep; [|done]. cbn [mbind option_bind].
  destruct (action pk) eqn:Ea; [by intros [= <-]|by intros [= <-] [? ?]%Hraw; auto|]. intros [= <-] _. split; [done|right].
  unfold mqvpn_reorder_tx_peek in Ep. case_bool_decide; [injection Ep as <- <-; done|].
  destruct (mqvpn_reorder_parse_5tuple pkt) as [[key|]|]; cbn [mbind option_bind] in Ep; [|injection Ep as <- <-; done|done].
  destruct (get_or_create ok tx key now) as [tx2 p]. destruct (p ← p; f ← send_flow_at tx2 p; Some (p, f)) as [[q f]|];
    [|injection Ep as <- <-; done].
  destruct (negb (eligible f)); [injection Ep as <- <-; done|].
  destruct (Z.ltb_spec mss (MQVPN_REORDER_HDR_LEN + blen pkt)); [done|injection Ep as <- <-; done].
Qed.

(** The gate.  For any packet and any reachable sender (or none) the
    decision is made without an out-of-bounds access; a stamped packet with
    its header and a raw packet without one fit the datagram size; a drop
    reports an MTU smaller than the packet; without a sender, peer support or
    the mode nothing is stamped; and a packet no larger than the MTU reported
    for a stamped form that did not fit passes the gate afterwards, from any
    sender state. *)
Theorem rgate_decide_sound ok otx peer m pkt now mss :
  bytes_ok pkt -> (forall tx, otx = Some tx -> sender_reachable tx) -> 0 <= mss ->
  exists r, mqvpn_rgate_decide ok otx peer m pkt now mss = Some r /\ verdict_ok (blen pkt) mss r /\
    (otx = None \/ peer = false \/ m = MQVPN_REORDER_OFF -> rg_verdict r <> MQVPN_RGATE_STAMP) /\
    forall mtu, rg_mtu r = Some mtu -> (MQVPN_REORDER_HDR_LEN < mss -> mtu < blen pkt) /\
      forall ok' otx' pkt' now' r', rg_verdict r = MQVPN_RGATE_DROP_REORDER_MTU -> MQVPN_REORDER_HDR_LEN <= mss ->
        blen pkt' <= mtu -> mqvpn_rgate_decide ok' otx' peer m pkt' now' mss = Some r' -> is_drop (rg_verdict r') = false.
Proof.
  intros Hb Hr Hm.
  assert (Hex : exists r, mqvpn_rgate_decide ok otx peer m pkt now mss = Some r /\ verdict_ok (blen pkt) mss r /\
    (otx = None \/ peer = false \/ m = MQVPN_REORDER_OFF -> rg_verdict r <> MQVPN_RGATE_STAMP)).
  { unfold mqvpn_rgate_decide. destruct otx as [tx|]; [|eexists; split; [done|]; by destruct (rgate_raw_ok None None (blen pkt) mss) as (? & ? & _)].
    destruct (_ && (0 <? mss)) eqn:Eg; [|eexists; split; [done|]; by destruct (rgate_raw_ok (Some tx) None (blen pkt) mss) as (? & ? & _)].
    apply andb_prop in Eg as [[Hp Hmo]%andb_prop Hms%Z.ltb_lt]. apply negb_true_iff, bool_decide_eq_false in Hmo.
    pose proof (sender_reachable_inv tx (Hr tx eq_refl)) as H.
    destruct (tx_peek_ok ok tx pkt now mss H Hb) as (tx1 & pk & -> & _ & _ & Hok & _). cbn [mbind option_bind].
    unfold peek_ok in Hok. destruct (action pk) eqn:Ea.
    - destruct Hok as [Hl _]. eexists. split; [done|]. unfold verdict_ok. simpl. split; [split_and!; try done; by exists pk|].
      intros [?|[?|?]]; congruence.
    - eexists; split; [done|]; by destruct (rgate_raw_ok (Some tx1) (Some pk) (blen pkt) mss) as (? & ? & _).
    - eexists. split; [done|]. unfold verdict_ok. simpl. split; [|done]. split_and!; [done| |done]. f_equal.
      unfold MQVPN_REORDER_HDR_LEN in *. destruct (Z.ltb_spec 8 mss); lia. }
  destruct Hex as (r & E & Hv & Hns). exists r. split_and!; [done..|]. intros mtu Hmtu. unfold verdict_ok in Hv. split.
  - intros Hh. destruct (rg_verdict r); rewrite Hmtu in Hv; unfold MQVPN_REORDER_HDR_LEN in *.
    + by destruct Hv as (_ & _ & ? & _).
    + by destruct Hv.
    + destruct Hv as (_ & [= ->] & ?). lia.
    + destruct Hv as (_ & [= ->] & ?). lia.
  - intros ok' otx' pkt' now' r' Hd Hh Hl E'. destruct (is_drop (rg_verdict r')) eqn:Ed; [|done].
    apply (rgate_decide_verdict _ _ _ _ _ _ _ _ E') in Ed. rewrite Hd, Hmtu in Hv. destruct Hv as (_ & [= ->] & _).
    unfold MQVPN_REORDER_HDR_LEN in *. lia.
Qed.

Lemma rgate_decide_sound_witness :
  exists r, mqvpn_rgate_decide true (Some tx_demo) true MQVPN_REORDER_ON sample_udp 1000 30 = Some r /\
    rg_verdict r = MQVPN_RGATE_DROP_REORDER_MTU /\ rg_mtu r = Some 22.
Proof.
  destruct (rgate_decide_sound true (Some tx_demo) true MQVPN_REORDER_ON sample_udp 1000 30) as (r & E & _).
  - exact sample_udp_bytes.
  - intros tx [= <-]. exists tx_demo_cfg, 7, tx_demo, [], []. split_and!; try (vm_compute; (done || reflexivity)).
  - lia.
  - exists r. split; [exact E|]. revert E. vm_compute. intros [= <-]. split; reflexivity.
Defined.
