(* ===== verification/FlowSched.v ===== *)
(** * The flow-affinity hash ([src/flow_sched.c])

    The hash that pins the packets of an inner flow to one path.  [None] is a
    read outside the packet. *)

From S2P Require Import Prelude Wire.

Definition FNV1A_OFFSET : Z := 2166136261.
Definition FNV1A_PRIME : Z := 16777619.
Definition MQVPN_FLOW_HASH_UNPINNED : Z := 4294967295.

Definition flow_hash_update_byte (h b : Z) : Z := u32 (Z.lxor h b * FNV1A_PRIME).

Definition flow_hash_finish (h : Z) : Z :=
  let h := if h =? 0 then 1 else h in
  if h =? MQVPN_FLOW_HASH_UNPINNED then MQVPN_FLOW_HASH_UNPINNED - 1 else h.

(** [for (i = off; i < off + n; i++) h = flow_hash_update_byte(h, pkt[i])]. *)
Definition hash_range (h : Z) (pkt : list Z) (off n : Z) : option Z :=
  bs ← rdn pkt off n;
  Some (fold_left flow_hash_update_byte bs h).

Definition should_pin (proto : Z) (udp_pin : bool) : bool := (proto =? 6) || ((proto =? 17) && udp_pin).

Definition flow_hash_v4 (pkt : list Z) (b0 : Z) (udp_pin : bool) : option Z :=
  let len := blen pkt in
  if len <? 20 then Some 0
  else
    proto ← rd pkt 9;
    let ihl := Z.land b0 15 * 4 in
    if (ihl <? 20) || (len <? ihl) then Some 0
    else
      b6 ← rd pkt 6; b7 ← rd pkt 7;
      let is_fragmented := negb (Z.land (be16 b6 b7) 16383 =? 0) in
      if negb (should_pin proto udp_pin) then Some MQVPN_FLOW_HASH_UNPINNED
      else
        h ← hash_range FNV1A_OFFSET pkt 12 8;
        let h := flow_hash_update_byte h proto in
        if is_fragmented then
          b4 ← rd pkt 4; b5 ← rd pkt 5;
          Some (flow_hash_finish (flow_hash_update_byte (flow_hash_update_byte h b4) b5))
        else if len <? ihl + 4 then Some MQVPN_FLOW_HASH_UNPINNED
        else h ← hash_range h pkt ihl 4; Some (flow_hash_finish h).

Definition flow_hash_v6 (pkt : list Z) (udp_pin : bool) : option Z :=
  let len := blen pkt in
  if len <? 40 then Some 0
  else
    next_hdr ← rd pkt 6;
    if negb (should_pin next_hdr udp_pin) then Some MQVPN_FLOW_HASH_UNPINNED
    else if len <? 44 then Some MQVPN_FLOW_HASH_UNPINNED
    else
      h ← hash_range FNV1A_OFFSET pkt 8 32;
      let h := flow_hash_update_byte h next_hdr in
      h ← hash_range h pkt 40 4;
      Some (flow_hash_finish h).

Definition flow_hash_pkt (pkt : list Z) (udp_pin : bool) : option Z :=
  if blen pkt <? 1 then Some 0
  else
    b0 ← rd pkt 0;
    let version := Z.shiftr b0 4 in
    if version =? 4 then flow_hash_v4 pkt b0 udp_pin
    else if version =? 6 then flow_hash_v6 pkt udp_pin
    else Some 0.

(** ** Classes of the result *)

Lemma hash_range_in h pkt off n : 0 <= off -> 0 <= n -> off + n <= blen pkt -> exists h', hash_range h pkt off n = Some h'.
Proof. intros. unfold hash_range. destruct (rdn_in_bounds pkt off n) as [v ->]; [done..|]. cbn [mbind option_bind]. eauto. Qed.

Lemma update_range h b : 0 <= flow_hash_update_byte h b < 2 ^ 32.
Proof. apply u32_range. Qed.

Lemma fold_update_range bs h : 0 <= h < 2 ^ 32 -> 0 <= fold_left flow_hash_update_byte bs h < 2 ^ 32.
Proof. revert h. induction bs as [|b bs IH]; intros h Hh; [done|]. simpl. apply IH, update_range. Qed.

Lemma hash_range_range h h' pkt off n : 0 <= h < 2 ^ 32 -> hash_range h pkt off n = Some h' -> 0 <= h' < 2 ^ 32.
Proof.
  unfold hash_range. destruct (rdn pkt off n) as [bs|]; [|done]. intros Hh [= <-]. by apply fold_update_range.
Qed.

Lemma finish_pinned h : 0 <= h < 2 ^ 32 -> 0 < flow_hash_finish h < MQVPN_FLOW_HASH_UNPINNED.
Proof.
  intros Hh. unfold flow_hash_finish, MQVPN_FLOW_HASH_UNPINNED.
  destruct (Z.eqb_spec h 0); [done|]. destruct (Z.eqb_spec h 4294967295); lia.
Qed.

#[local] Hint Resolve update_range : machine.

(** A packet that the hash reads as a complete IP header. *)
Definition ip_header_ok (pkt : list Z) : Prop :=
  exists b0, rd pkt 0 = Some b0 /\
    (Z.shiftr b0 4 = 4 /\ 20 <= blen pkt /\ 20 <= Z.land b0 15 * 4 <= blen pkt \/
     Z.shiftr b0 4 = 6 /\ 40 <= blen pkt).

(** What the result says of the packet. *)
Definition hash_class (pkt : list Z) (h : Z) : Prop :=
  h = 0 /\ ~ ip_header_ok pkt \/ ip_header_ok pkt /\ 0 < h <= MQVPN_FLOW_HASH_UNPINNED.

Lemma flow_hash_v4_class pkt b0 pin : rd pkt 0 = Some b0 -> Z.shiftr b0 4 = 4 ->
  exists h, flow_hash_v4 pkt b0 pin = Some h /\ hash_class pkt h.
Proof.
  intros Hb Hv. unfold flow_hash_v4. pose proof (blen_nonneg pkt).
  assert (Hno : blen pkt < 20 \/ ~ (20 <= Z.land b0 15 * 4 <= blen pkt) -> hash_class pkt 0).
  { intros Hc. left. split; [done|]. intros (b & Hb' & Hc'). rewrite Hb in Hb'. injection Hb' as <-. lia. }
  destruct (Z.ltb_spec (blen pkt) 20); [by eexists; split; [done|auto]|].
  destruct (rd_in_bounds pkt 9) as [proto ->]; [lia|]. cbn [mbind option_bind]. set (ihl := Z.land b0 15 * 4) in *.
  destruct (Z.ltb_spec ihl 20); [eexists; split; [done|apply Hno; lia]|].
  destruct (Z.ltb_spec (blen pkt) ihl); [eexists; split; [done|apply Hno; lia]|]. cbn [orb].
  assert (Hok : ip_header_ok pkt) by (exists b0; split; [done|left; fold ihl; lia]).
  destruct (rd_in_bounds pkt 6) as [b6 ->]; [lia|]. destruct (rd_in_bounds pkt 7) as [b7 ->]; [lia|]. cbn [mbind option_bind].
  assert (Hun : hash_class pkt MQVPN_FLOW_HASH_UNPINNED) by (right; split; [done|unfold MQVPN_FLOW_HASH_UNPINNED; lia]).
  assert (Hpin : forall h, 0 <= h < 2 ^ 32 -> hash_class pkt (flow_hash_finish h)).
  { intros h Hh%finish_pinned. right. split; [done|lia]. }
  destruct (negb (should_pin proto pin)); [by eexists|].
  destruct (hash_range_in FNV1A_OFFSET pkt 12 8) as [h0 E0]; [lia..|]. rewrite E0. cbn [mbind option_bind].
  destruct (negb (_ =? 0)).
  { destruct (rd_in_bounds pkt 4) as [b4 ->]; [lia|]. destruct (rd_in_bounds pkt 5) as [b5 ->]; [lia|]. cbn [mbind option_bind].
    eexists. split; [done|]. apply Hpin, update_range. }
  destruct (Z.ltb_spec (blen pkt) (ihl + 4)); [by eexists|].
  destruct (hash_range_in (flow_hash_update_byte h0 proto) pkt ihl 4) as [h1 E1]; [lia..|]. rewrite E1. cbn [mbind option_bind].
  eexists. split; [done|]. apply Hpin. eapply hash_range_range; [|exact E1]. apply update_range.
Qed.

Lemma flow_hash_v6_class pkt b0 pin : rd pkt 0 = Some b0 -> Z.shiftr b0 4 = 6 ->
  exists h, flow_hash_v6 pkt pin = Some h /\ hash_class pkt h.
Proof.
  intros Hb Hv. unfold flow_hash_v6. destruct (Z.ltb_spec (blen pkt) 40).
  { eexists. split; [done|]. left. split; [done|]. intros (b & Hb' & Hc'). rewrite Hb in Hb'. injection Hb' as <-. lia. }
  assert (Hok : ip_header_ok pkt) by (exists b0; split; [done|right; lia]).
  assert (Hun : hash_class pkt MQVPN_FLOW_HASH_UNPINNED) by (right; split; [done|unfold MQVPN_FLOW_HASH_UNPINNED; lia]).
  destruct (rd_in_bounds pkt 6) as [next ->]; [lia|]. cbn [mbind option_bind].
  destruct (negb (should_pin next pin)); [by eexists|]. destruct (Z.ltb_spec (blen pkt) 44); [by eexists|].
  destruct (hash_range_in FNV1A_OFFSET pkt 8 32) as [h0 E0]; [lia..|]. rewrite E0. cbn [mbind option_bind].
  destruct (hash_range_in (flow_hash_update_byte h0 next) pkt 40 4) as [h1 E1]; [lia..|]. rewrite E1. cbn [mbind option_bind].
  eexists. split; [done|]. right. split; [done|]. apply (hash_range_range _ _ _ _ _ (update_range _ _)), finish_pinned in E1. lia.
Qed.

(** The hash is total and its sentinels mean what they say.  On any byte
    string the function reads within the packet and returns 0 ("no hash")
    exactly when the packet holds no complete IP header, and otherwise a value
    from 1 to the unpinned sentinel. *)
Theorem flow_hash_total pkt pin : exists h, flow_hash_pkt pkt pin = Some h /\ hash_class pkt h.
Proof.
  unfold flow_hash_pkt. pose proof (blen_nonneg pkt). destruct (Z.ltb_spec (blen pkt) 1).
  { eexists. split; [done|]. left. split; [done|]. intros (b & Hb%rd_lt & _). lia. }
  destruct (rd_in_bounds pkt 0) as [b0 Hb]; [lia|]. rewrite Hb. cbn [mbind option_bind].
  destruct (Z.eqb_spec (Z.shiftr b0 4) 4); [by eapply flow_hash_v4_class|].
  destruct (Z.eqb_spec (Z.shiftr b0 4) 6); [by eapply flow_hash_v6_class|].
  eexists. split; [done|]. left. split; [done|]. intros (b & Hb' & Hc). rewrite Hb in Hb'. injection Hb' as <-. lia.
Qed.

(** ** Agreement with the 5-tuple parser *)

(** The hash of a 5-tuple. *)
Definition key_flow_hash (key : mqvpn_flow_key_t) (pin : bool) : Z :=
  if should_pin (proto key) pin then
    let n := if ip_version key =? 4 then 4%nat else 16%nat in
    flow_hash_finish (fold_left flow_hash_update_byte
      (take n (src_ip key) ++ take n (dst_ip key) ++ [proto key] ++
       [Z.shiftr (src_port key) 8; Z.land (src_port key) 255; Z.shiftr (dst_port key) 8; Z.land (dst_port key) 255])
      FNV1A_OFFSET)
  else MQVPN_FLOW_HASH_UNPINNED.

Lemma rdn_app b off n m x y : rdn b off n = Some x -> rdn b (off + n) m = Some y -> 0 <= n -> rdn b off (n + m) = Some (x ++ y).
Proof.
  intros (_ & -> & ? & ?)%rdn_spec Hy Hn. apply rdn_spec in Hy as (Hl & -> & ? & ?). unfold rdn.
  pose proof (blen_nonneg (take (Z.to_nat m) (drop (Z.to_nat (off + n)) b))).
  rewrite !(proj2 (Z.leb_le _ _)) by lia. cbn [andb]. f_equal. rewrite !Z2Nat.inj_add by lia.
  rewrite <- drop_drop, <- take_take_drop. done.
Qed.

Lemma be16_split hi lo : is_byte hi -> is_byte lo -> Z.shiftr (be16 hi lo) 8 = hi /\ Z.land (be16 hi lo) 255 = lo.
Proof.
  unfold is_byte. intros Hh Hl. rewrite be16_eq by lia. rewrite Z.shiftr_div_pow2 by lia. change 255 with (2 ^ 8 - 1).
  rewrite land_ones_mod by lia. change (2 ^ 8) with 256. Z.to_euclidean_division_equations. lia.
Qed.

Lemma rd_ports_bytes pkt off sp dp : bytes_ok pkt -> rd_ports pkt off = Some (sp, dp) ->
  rdn pkt off 4 = Some [Z.shiftr sp 8; Z.land sp 255; Z.shiftr dp 8; Z.land dp 255].
Proof.
  intros Hb. unfold rd_ports. destruct (rd pkt off) as [s0|] eqn:E0; [|done]. destruct (rd pkt (off + 1)) as [s1|] eqn:E1; [|done].
  destruct (rd pkt (off + 2)) as [d0|] eqn:E2; [|done]. destruct (rd pkt (off + 3)) as [d1|] eqn:E3; [|done].
  intros [= <- <-]. assert (Hbyte : is_byte s0 /\ is_byte s1 /\ is_byte d0 /\ is_byte d1) by (split_and!; by eapply rd_byte).
  destruct Hbyte as (B0 & B1 & B2 & B3). destruct (be16_split s0 s1 B0 B1) as [-> ->], (be16_split d0 d1 B2 B3) as [-> ->].
  assert (H1 : forall i v, rd pkt i = Some v -> rdn pkt i 1 = Some [v]).
  { intros i v Hi. pose proof (rd_lt _ _ _ Hi). unfold rdn. rewrite !(proj2 (Z.leb_le _ _)) by lia. cbn [andb]. f_equal.
    unfold rd in Hi. destruct (Z.ltb_spec i 0); [lia|]. change (Z.to_nat 1) with 1%nat. by rewrite (drop_S _ _ _ Hi). }
  change 4 with (1 + (1 + (1 + 1))). change [s0; s1; d0; d1] with ([s0] ++ [s1] ++ [d0] ++ [d1]).
  apply rdn_app; [by apply H1| |lia]. apply rdn_app; [by apply H1| |lia]. replace (off + 1 + 1) with (off + 2) by lia.
  apply rdn_app; [by apply H1| |lia]. replace (off + 2 + 1) with (off + 3) by lia. by apply H1.
Qed.

Lemma hash_range_app h pkt off n bs : rdn pkt off n = Some bs -> hash_range h pkt off n = Some (fold_left flow_hash_update_byte bs h).
Proof. intros E. unfold hash_range. by rewrite E. Qed.

(** The base header of an IPv6 packet points at its transport header. *)
Definition no_extension (pkt : list Z) (key : mqvpn_flow_key_t) : Prop :=
  ip_version key = 6 -> rd pkt 6 = Some (proto key).

Lemma hash_agrees_v4 pkt b0 pin v key : bytes_ok pkt -> 20 <= blen pkt -> parse_v4 pkt b0 = Some (v, Some key) ->
  flow_hash_v4 pkt b0 pin = Some (key_flow_hash key pin).
Proof.
  intros Hb Hl. unfold parse_v4, flow_hash_v4. rewrite (proj2 (Z.ltb_ge _ _)) by lia.
  destruct (Z.ltb_spec (Z.land b0 15) 5); [done|]. cbn [orb].
  destruct (Z.ltb_spec (blen pkt) (Z.land b0 15 * 4)) as [|Hih]; [done|].
  destruct (rd pkt 6) as [b6|]; [|done]. destruct (rd pkt 7) as [b7|]; [|done]. cbn [mbind option_bind].
  destruct (Z.land (be16 b6 b7) 16383 =? 0); [|done]. cbn [negb]. destruct (rd pkt 9) as [pr|]; [|done]. cbn [mbind option_bind].
  destruct (_ && _); [done|]. destruct (Z.ltb_spec (blen pkt) (Z.land b0 15 * 4 + l4_min pr)) as [|Hmin]; [done|].
  pose proof (l4_min_bounds pr). destruct (rdn pkt 12 4) as [s|] eqn:Es; [|done]. destruct (rdn pkt 16 4) as [d|] eqn:Ed; [|done].
  destruct (rd_ports pkt (Z.land b0 15 * 4)) as [[sp dp]|] eqn:Ep; [|done]. cbn [mbind option_bind fst snd]. intros [= _ <-].
  rewrite (proj2 (Z.ltb_ge (Z.land b0 15 * 4) 20)) by lia. cbn [orb].
  unfold key_flow_hash. cbn [proto ip_version src_ip dst_ip src_port dst_port]. change (4 =? 4) with true. cbn iota.
  destruct (should_pin pr pin); cbn [negb]; [|done].
  rewrite (hash_range_app _ _ _ _ _ (rdn_app pkt 12 4 4 s d Es Ed ltac:(lia))). cbn [mbind option_bind].
  rewrite (proj2 (Z.ltb_ge _ _)) by lia. rewrite (hash_range_app _ _ _ _ _ (rd_ports_bytes _ _ _ _ Hb Ep)). cbn [mbind option_bind].
  apply rdn_spec in Es as (Hs & _), Ed as (Hd & _). unfold blen in *.
  rewrite (take_app_length' s), (take_app_length' d) by lia. by rewrite !fold_left_app.
Qed.

Lemma hash_agrees_v6 pkt pin v key : bytes_ok pkt -> 40 <= blen pkt -> rd pkt 6 = Some (proto key) ->
  parse_v6_walk 16 pkt (proto key) 40 = Some (v, Some key) -> ip_version key = 6 ->
  flow_hash_v6 pkt pin = Some (key_flow_hash key pin).
Proof.
  intros Hb Hl Hn Hw Hv. unfold flow_hash_v6. rewrite (proj2 (Z.ltb_ge _ _)), Hn by lia. cbn [mbind option_bind].
  unfold key_flow_hash. rewrite Hv. change (6 =? 4) with false. cbn iota.
  destruct (should_pin (proto key) pin) eqn:Epin; cbn [negb]; [|done].
  cbn [parse_v6_walk] in Hw. assert (E : (proto key =? MQVPN_IPPROTO_UDP) || (proto key =? MQVPN_IPPROTO_TCP) = true).
  { unfold should_pin in Epin. unfold MQVPN_IPPROTO_UDP, MQVPN_IPPROTO_TCP. apply orb_prop in Epin as [->|[-> _]%andb_prop]; [|done].
    by rewrite orb_true_r. }
  rewrite E in Hw. destruct (Z.ltb_spec (blen pkt) (40 + l4_min (proto key))) as [|Hmin]; [done|].
  pose proof (l4_min_bounds (proto key)). destruct (rdn pkt 8 16) as [s|] eqn:Es; [|done]. destruct (rdn pkt 24 16) as [d|] eqn:Ed; [|done].
  destruct (rd_ports pkt 40) as [[sp dp]|] eqn:Ep; [|done]. cbn [mbind option_bind fst snd] in Hw. injection Hw as _ Hkey.
  rewrite (proj2 (Z.ltb_ge _ _)) by lia.
  rewrite (hash_range_app _ _ _ _ _ (rdn_app pkt 8 16 16 s d Es Ed ltac:(lia))). cbn [mbind option_bind].
  rewrite (hash_range_app _ _ _ _ _ (rd_ports_bytes _ _ _ _ Hb Ep)). cbn [mbind option_bind].
  apply rdn_spec in Es as (Hs & _), Ed as (Hd & _). unfold blen in *. rewrite <- Hkey. cbn [proto src_ip dst_ip src_port dst_port].
  rewrite (take_ge s), (take_ge d) by lia. rewrite !fold_left_app. rewrite <- Hkey. done.
Qed.

Lemma hash_agrees pkt pin v key : bytes_ok pkt -> mqvpn_parse_l3l4 pkt = Some (v, Some key) -> no_extension pkt key ->
  flow_hash_pkt pkt pin = Some (key_flow_hash key pin).
Proof.
  intros Hb Hp Hx. unfold mqvpn_parse_l3l4 in Hp. unfold flow_hash_pkt. destruct (Z.ltb_spec (blen pkt) 1); [done|].
  destruct (rd pkt 0) as [b0|]; [|done]. cbn [mbind option_bind] in *.
  destruct (Z.eqb_spec (Z.shiftr b0 4) 4).
  - eapply hash_agrees_v4; [done| |exact Hp]. unfold parse_v4 in Hp. by destruct (Z.ltb_spec (blen pkt) 20).
  - destruct (Z.eqb_spec (Z.shiftr b0 4) 6); [|done]. destruct (Z.ltb_spec (blen pkt) 40); [done|].
    destruct (rd pkt 6) as [next|] eqn:En; [|done]. cbn [mbind option_bind] in Hp.
    assert (Hv : ip_version key = 6) by (by eapply walk_version).
    specialize (Hx Hv). rewrite En in Hx. injection Hx as ->. by eapply hash_agrees_v6.
Qed.

(** The fields that name an IPv4 datagram across its fragments. *)
Definition same_datagram (p q : list Z) : Prop :=
  rd p 4 = rd q 4 /\ rd p 5 = rd q 5 /\ rd p 9 = rd q 9 /\ rdn p 12 8 = rdn q 12 8.

(** An IPv4 fragment with a complete header. *)
Definition v4_fragment (p : list Z) : Prop :=
  exists b0 b6 b7, rd p 0 = Some b0 /\ rd p 6 = Some b6 /\ rd p 7 = Some b7 /\ Z.shiftr b0 4 = 4 /\ 20 <= blen p /\
    20 <= Z.land b0 15 * 4 <= blen p /\ Z.land (be16 b6 b7) 16383 <> 0.

Lemma hash_fragment p b0 b6 b7 pin : rd p 0 = Some b0 -> rd p 6 = Some b6 -> rd p 7 = Some b7 -> Z.shiftr b0 4 = 4 ->
  20 <= blen p -> 20 <= Z.land b0 15 * 4 <= blen p -> Z.land (be16 b6 b7) 16383 <> 0 ->
  flow_hash_pkt p pin =
    pr ← rd p 9;
    if negb (should_pin pr pin) then Some MQVPN_FLOW_HASH_UNPINNED
    else h ← hash_range FNV1A_OFFSET p 12 8; b4 ← rd p 4; b5 ← rd p 5;
         Some (flow_hash_finish (flow_hash_update_byte (flow_hash_update_byte (flow_hash_update_byte h pr) b4) b5)).
Proof.
  intros E0 E6 E7 Hv Hl Hi Hf. unfold flow_hash_pkt, flow_hash_v4. rewrite (proj2 (Z.ltb_ge _ _)), E0 by lia.
  cbn [mbind option_bind]. rewrite Hv. change (4 =? 4) with true. cbn iota. rewrite (proj2 (Z.ltb_ge (blen p) 20)) by lia.
  destruct (rd p 9) as [pr|]; [|done]. cbn [mbind option_bind]. rewrite !(proj2 (Z.ltb_ge _ _)), E6, E7 by lia. cbn [orb mbind option_bind].
  by rewrite (proj2 (Z.eqb_neq _ _)) by done.
Qed.

(** Flow affinity.  A packet that the reorder shim maps to a 5-tuple (with
    no IPv6 extension header) gets the hash of that 5-tuple, whatever its
    payload, options and lengths, so that two packets of one flow are pinned
    alike; and all fragments of one IPv4 datagram get one hash. *)
Theorem flow_hash_affinity p q pin :
  (forall v w key, bytes_ok p -> bytes_ok q -> mqvpn_parse_l3l4 p = Some (v, Some key) -> mqvpn_parse_l3l4 q = Some (w, Some key) ->
     no_extension p key -> no_extension q key ->
     flow_hash_pkt p pin = Some (key_flow_hash key pin) /\ flow_hash_pkt q pin = flow_hash_pkt p pin) /\
  (v4_fragment p -> v4_fragment q -> same_datagram p q -> flow_hash_pkt p pin = flow_hash_pkt q pin).
Proof.
  split.
  - intros v w key Hp Hq Ep Eq Xp Xq. rewrite (hash_agrees p pin v key), (hash_agrees q pin w key) by done. done.
  - intros (b0 & b6 & b7 & ? & ? & ? & ? & ? & ? & ?) (c0 & c6 & c7 & ? & ? & ? & ? & ? & ? & ?) (E4 & E5 & E9 & E12).
    erewrite (hash_fragment p), (hash_fragment q) by done. unfold hash_range. by rewrite E4, E5, E9, E12.
Qed.

Lemma flow_hash_affinity_witness :
  flow_hash_pkt (sample_udp ++ [1; 2; 3]) true = flow_hash_pkt sample_udp true /\
  flow_hash_pkt sample_udp true <> Some MQVPN_FLOW_HASH_UNPINNED /\ flow_hash_pkt sample_udp true <> Some 0.
Proof.
  split; [|split; vm_compute; discriminate].
  refine (proj2 (proj1 (flow_hash_affinity sample_udp (sample_udp ++ [1; 2; 3]) true) MQVPN_L4_UDP MQVPN_L4_UDP _ _ _ _ _ _ _)).
  - exact sample_udp_bytes.
  - repeat constructor; unfold is_byte; lia.
  - vm_compute. reflexivity.
  - vm_compute. reflexivity.
  - intros H. discriminate H.
  - intros H. discriminate H.
Defined.
