(* ===== verification/AddrPool.v ===== *)
(** * The server's address pool ([src/addr_pool.c])

    Allocation of tunnel addresses.  C strings are lists of character codes
    without the terminator; an IPv4 address is its host-order value; an IPv6
    address is its 16 bytes.  [inet_pton] belongs to the system and is a
    parameter of the two constructors. *)

From S2P Require Import Prelude CString.

Definition MQVPN_ADDR_POOL_MAX : Z := 254.

Record mqvpn_addr_pool_t := AddrPool {
  base : Z;
  prefix_len : Z;
  pool_size : Z;
  pool_next : Z;
  used : list bool;
  base6 : list Z;
  prefix6 : Z;
  has_v6 : bool
}.

#[export] Instance eta_addr_pool : Settable mqvpn_addr_pool_t := fun r =>
  AddrPool (base r) (prefix_len r) (pool_size r) (pool_next r) (used r) (base6 r) (prefix6 r) (has_v6 r).

(** ** Operations *)

Definition zero_pool : mqvpn_addr_pool_t :=
  AddrPool 0 0 0 0 (replicate 255 false) (replicate 16 0) 0 false.

(** [false] is the return value -1. *)
Definition mqvpn_addr_pool_init (inet_pton4 : list Z -> option Z) (cidr : list Z) : mqvpn_addr_pool_t * bool :=
  let pool := zero_pool in
  match strchr_split 47 (strncpy_z cidr 32) with
  | None => (pool, false)
  | Some (buf, slash) =>
      let '(plen, endptr) := strtol slash in
      if bad_number slash endptr || (plen <? 0) || (32 <? plen) then (pool, false)
      else
        let pool := pool <| prefix_len := plen |> in
        match inet_pton4 buf with
        | None => (pool, false)
        | Some a =>
            let pool := pool <| base := a |> in
            if (prefix_len pool <? 16) || (30 <? prefix_len pool) then (pool, false)
            else
              let host_bits := 32 - prefix_len pool in
              let total_hosts := u32 (Z.shiftl 1 host_bits - 2) in
              let pool := pool <| pool_size := if MQVPN_ADDR_POOL_MAX <? total_hosts then MQVPN_ADDR_POOL_MAX
                                               else total_hosts |> in
              let pool := pool <| pool_next := 2 |> in
              if u32 (base pool + pool_size pool) <? base pool then (pool, false) else (pool, true)
        end
  end.

(** The scan; [fuel] counts the iterations left.  [None] is an access outside
    [used], [Some None] the exhausted pool. *)
Fixpoint alloc_scan (fuel : nat) (i : Z) (pool : mqvpn_addr_pool_t) : option (option (mqvpn_addr_pool_t * Z)) :=
  match fuel with
  | O => Some None
  | S fuel =>
      if i <? pool_size pool then
        let off := u32 (u32 (u32 (pool_next pool - 1) + i) mod pool_size pool + 1) in
        if off =? 1 then alloc_scan fuel (u32 (i + 1)) pool
        else
          u ← used pool !! Z.to_nat off;
          if negb u then
            Some (Some (pool <| used ::= <[Z.to_nat off := true]> |> <| pool_next := u32 (off + 1) |>,
                        u32 (base pool + off)))
          else alloc_scan fuel (u32 (i + 1)) pool
      else Some None
  end.

(** At most [pool_size] iterations. *)
Definition mqvpn_addr_pool_alloc (pool : mqvpn_addr_pool_t) : option (option (mqvpn_addr_pool_t * Z)) :=
  alloc_scan (S (Z.to_nat (pool_size pool))) 0 pool.

(** [None] is a write outside [used]. *)
Definition mqvpn_addr_pool_release (pool : mqvpn_addr_pool_t) (addr : Z) : option mqvpn_addr_pool_t :=
  if addr <? base pool then Some pool
  else
    let off := u32 (addr - base pool) in
    if (1 <=? off) && (off <=? pool_size pool) then
      _ ← used pool !! Z.to_nat off;
      Some (pool <| used ::= <[Z.to_nat off := false]> |>)
    else Some pool.

Definition mqvpn_addr_pool_server_addr (pool : mqvpn_addr_pool_t) : Z := u32 (base pool + 1).

(** [ntohl] of the four bytes at [s6_addr[12]], and [htonl] back. *)
Definition low32 (a : list Z) : Z :=
  fold_left (fun acc b => Z.lor (Z.shiftl acc 8) b) (take 4 (drop 12 a)) 0.

Definition be32_list (v : Z) : list Z :=
  [u8 (Z.shiftr v 24); u8 (Z.shiftr v 16); u8 (Z.shiftr v 8); u8 v].

Definition mqvpn_addr_pool_init6 (inet_pton6 : list Z -> option (list Z)) (pool : mqvpn_addr_pool_t)
    (cidr6 : list Z) : mqvpn_addr_pool_t * bool :=
  match strchr_split 47 (strncpy_z cidr6 64) with
  | None => (pool, false)
  | Some (buf, slash) =>
      let '(plen, endptr) := strtol slash in
      if bad_number slash endptr || (plen <? 96) || (126 <? plen) then (pool, false)
      else
        match inet_pton6 buf with
        | None => (pool, false)
        | Some a =>
            let pool := pool <| base6 := a |> in
            let low := low32 (base6 pool) in
            let host_bits := u32 (128 - plen) in
            let host_mask := if 32 <=? host_bits then 4294967295 else u64 (Z.shiftl 1 host_bits) - 1 in
            if host_mask <? u64 (Z.land low host_mask + pool_size pool) then (pool, false)
            else (pool <| prefix6 := plen |> <| has_v6 := true |>, true)
        end
  end.

Definition mqvpn_addr_pool_get6 (pool : mqvpn_addr_pool_t) (offset : Z) : list Z :=
  take 12 (base6 pool) ++ be32_list (u32 (low32 (base6 pool) + offset)).

Definition mqvpn_addr_pool_server_addr6 (pool : mqvpn_addr_pool_t) : list Z := mqvpn_addr_pool_get6 pool 1.

Definition mqvpn_addr_pool_offset6 (pool : mqvpn_addr_pool_t) (addr : list Z) : Z :=
  if negb (bool_decide (take 12 addr = take 12 (base6 pool))) then 0
  else
    let addr_low := low32 addr in
    let base_low := low32 (base6 pool) in
    if addr_low <? base_low then 0 else u32 (addr_low - base_low).

(** ** Invariant and abstraction *)

Record pool_ok (pool : mqvpn_addr_pool_t) : Prop := {
  po_size : 2 <= pool_size pool <= MQVPN_ADDR_POOL_MAX;
  po_base : 0 <= base pool /\ base pool + pool_size pool < 2 ^ 32;
  po_next : 1 <= pool_next pool <= pool_size pool + 1;
  po_used : length (used pool) = 255%nat
}.

(** The offset that iteration [i] of the scan looks at. *)
Definition scan_off (pool : mqvpn_addr_pool_t) (i : Z) : Z := (pool_next pool - 1 + i) mod pool_size pool + 1.

Definition in_use (pool : mqvpn_addr_pool_t) (off : Z) : Prop := used pool !! Z.to_nat off = Some true.

Lemma scan_off_range pool i : pool_ok pool -> 1 <= scan_off pool i <= pool_size pool.
Proof.
  intros H. pose proof (po_size _ H). unfold scan_off.
  pose proof (Z.mod_pos_bound (pool_next pool - 1 + i) (pool_size pool)). lia.
Qed.

Lemma scan_off_eq pool i : pool_ok pool -> 0 <= i < pool_size pool ->
  u32 (u32 (u32 (pool_next pool - 1) + i) mod pool_size pool + 1) = scan_off pool i.
Proof.
  intros H Hi. pose proof (po_size _ H). pose proof (po_next _ H). pose proof (scan_off_range pool i H).
  unfold scan_off, MQVPN_ADDR_POOL_MAX in *. rewrite (u32_small (pool_next pool - 1)), (u32_small (_ + i)) by lia.
  rewrite u32_small; lia.
Qed.

(** Every offset is looked at by some iteration. *)
Lemma scan_off_onto pool off : pool_ok pool -> 1 <= off <= pool_size pool ->
  exists i, 0 <= i < pool_size pool /\ scan_off pool i = off.
Proof.
  intros H Ho. pose proof (po_size _ H). exists ((off - pool_next pool) mod pool_size pool).
  split; [apply Z.mod_pos_bound; lia|]. unfold scan_off. rewrite Z.add_mod_idemp_r by lia.
  replace (pool_next pool - 1 + (off - pool_next pool)) with (off - 1) by lia. rewrite Z.mod_small; lia.
Qed.

(** What an allocation yields. *)
Definition alloc_ok (pool : mqvpn_addr_pool_t) (r : option (mqvpn_addr_pool_t * Z)) : Prop :=
  match r with
  | Some (pool', a) => exists off, 2 <= off <= pool_size pool /\ ~ in_use pool off /\ a = base pool + off /\
      pool' = pool <| used ::= <[Z.to_nat off := true]> |> <| pool_next := off + 1 |>
  | None => forall off, 2 <= off <= pool_size pool -> in_use pool off
  end.

Lemma alloc_scan_ok fuel i pool : pool_ok pool -> 0 <= i <= pool_size pool -> pool_size pool - i < Z.of_nat fuel ->
  (forall j, 0 <= j < i -> scan_off pool j = 1 \/ in_use pool (scan_off pool j)) ->
  exists r, alloc_scan fuel i pool = Some r /\ alloc_ok pool r.
Proof.
  intros H. pose proof (po_size _ H) as Hs. pose proof (po_base _ H). unfold MQVPN_ADDR_POOL_MAX in Hs.
  revert i. induction fuel as [|fuel IH]; intros i Hi Hf Hseen; [lia|]. cbn [alloc_scan].
  destruct (Z.ltb_spec i (pool_size pool)) as [Hlt|Hge].
  - rewrite scan_off_eq by (done || lia). pose proof (scan_off_range pool i H) as Hr.
    rewrite (u32_small (i + 1)) by lia.
    assert (Hnext : scan_off pool i = 1 \/ in_use pool (scan_off pool i) ->
      exists r, alloc_scan fuel (i + 1) pool = Some r /\ alloc_ok pool r).
    { intros Hi'. apply IH; [lia|lia|]. intros j Hj. destruct (decide (j = i)) as [->|]; [done|]. apply Hseen. lia. }
    destruct (Z.eqb_spec (scan_off pool i) 1) as [E1|N1]; [auto|].
    destruct (lookup_lt_is_Some_2 (used pool) (Z.to_nat (scan_off pool i))) as [u Hu]; [rewrite (po_used _ H); lia|].
    rewrite Hu. cbn [mbind option_bind]. destruct u; cbn [negb]; [auto|].
    rewrite (u32_small (scan_off pool i + 1)), (u32_small (base pool + _)) by lia. eexists. split; [done|].
    exists (scan_off pool i). split_and!; [lia|lia| |done|done]. unfold in_use. by rewrite Hu.
  - eexists. split; [done|]. intros off Ho. destruct (scan_off_onto pool off H) as (j & Hj & <-); [lia|].
    destruct (Hseen j) as [?|?]; [lia|lia|done].
Qed.

Lemma pool_alloc_ok pool : pool_ok pool -> exists r, mqvpn_addr_pool_alloc pool = Some r /\ alloc_ok pool r.
Proof. intros H. pose proof (po_size _ H). apply alloc_scan_ok; [done|lia|lia|]. intros j Hj. lia. Qed.

(** The addresses that are leased. *)
Definition leases_of (pool : mqvpn_addr_pool_t) (L : gset Z) : Prop :=
  forall a, a ∈ L <-> exists off, 2 <= off <= pool_size pool /\ in_use pool off /\ a = base pool + off.

(** The promise of the pool on [base + 2, base + size], in terms of the set of leases. *)
Inductive pool_op := PoolAlloc | PoolRelease (addr : Z).

Inductive lease_step (b n : Z) (L : gset Z) : pool_op -> option Z -> gset Z -> Prop :=
  | lease_granted a : a ∉ L -> b + 2 <= a <= b + n -> lease_step b n L PoolAlloc (Some a) ({[a]} ∪ L)
  | lease_refused : (forall a, b + 2 <= a <= b + n -> a ∈ L) -> lease_step b n L PoolAlloc None L
  | lease_ended a : lease_step b n L (PoolRelease a) None (L ∖ {[a]}).

Inductive lease_run (b n : Z) : gset Z -> list pool_op -> list (option Z) -> gset Z -> Prop :=
  | lease_nil L : lease_run b n L [] [] L
  | lease_cons L op r L1 ops rs L2 :
      lease_step b n L op r L1 -> lease_run b n L1 ops rs L2 -> lease_run b n L (op :: ops) (r :: rs) L2.

(** One operation of the program, and a sequence of them. *)
Definition pool_step (pool : mqvpn_addr_pool_t) (op : pool_op) : option (mqvpn_addr_pool_t * option Z) :=
  match op with
  | PoolAlloc => r ← mqvpn_addr_pool_alloc pool;
                 Some (match r with Some (pool, a) => (pool, Some a) | None => (pool, None) end)
  | PoolRelease a => pool ← mqvpn_addr_pool_release pool a; Some (pool, None)
  end.

Fixpoint pool_run (pool : mqvpn_addr_pool_t) (ops : list pool_op) : option (mqvpn_addr_pool_t * list (option Z)) :=
  match ops with
  | [] => Some (pool, [])
  | op :: ops => r ← pool_step pool op; r' ← pool_run r.1 ops; Some (r'.1, r.2 :: r'.2)
  end.

Definition op_addr_ok (op : pool_op) : Prop := match op with PoolAlloc => True | PoolRelease a => 0 <= a < 2 ^ 32 end.

Lemma mark_leases pool L off v : pool_ok pool -> leases_of pool L -> 1 <= off <= pool_size pool ->
  let pool' := pool <| used ::= <[Z.to_nat off := v]> |> in
  pool_ok pool' /\ forall o, 1 <= o <= pool_size pool -> in_use pool' o <-> if decide (o = off) then v = true else in_use pool o.
Proof.
  intros H HL Ho. cbn zeta. pose proof (po_size _ H). pose proof (po_used _ H) as Hu. unfold MQVPN_ADDR_POOL_MAX in *. split.
  - destruct H. split; try done. simpl. by rewrite length_insert.
  - intros o Ho'. unfold in_use. simpl. case_decide as E.
    + subst o. rewrite list_lookup_insert_eq by (rewrite Hu; lia). by split; [intros [= ->]|intros ->].
    + rewrite list_lookup_insert_ne by lia. done.
Qed.

Lemma pool_step_refines pool L op : pool_ok pool -> leases_of pool L -> op_addr_ok op ->
  exists pool' r L', pool_step pool op = Some (pool', r) /\ pool_ok pool' /\ leases_of pool' L' /\
    base pool' = base pool /\ pool_size pool' = pool_size pool /\ lease_step (base pool) (pool_size pool) L op r L'.
Proof.
  intros H HL Hop. unfold leases_of in HL. pose proof (po_size _ H) as Hs. destruct (po_base _ H) as [Hb0 Hb]. destruct op as [|a]; simpl.
  - destruct (pool_alloc_ok pool H) as ([[pool' a]|] & -> & Ha); cbn [mbind option_bind].
    + destruct Ha as (off & Ho & Hfree & -> & ->). destruct (mark_leases pool L off true H HL ltac:(lia)) as [H' Hu]. cbn zeta in *.
      eexists _, _, ({[base pool + off]} ∪ L). split; [done|]. split; [|split; [|split; [done|split; [done|]]]].
      * destruct H'. split; try done. simpl. lia.
      * intros x. rewrite elem_of_union, elem_of_singleton, HL. split.
        -- intros [->|(o & Ho' & Hin & ->)]; [exists off; split_and!; [simpl; lia|simpl; lia|apply Hu; [lia|by rewrite decide_True]|done]|].
           exists o. split_and!; [simpl; lia|simpl; lia| |done]. apply Hu; [lia|]. by case_decide.
        -- intros (o & Ho' & Hin & ->). simpl in Ho'. apply Hu in Hin; [|lia]. case_decide; [subst; by left|right; by exists o].
      * constructor; [|lia]. rewrite HL. intros (o & _ & Hin & E). assert (o = off) as -> by lia. done.
    + eexists _, _, L. split_and!; try done. constructor. intros x Hx. apply HL. exists (x - base pool).
      split_and!; [lia|lia|apply Ha; lia|lia].
  - unfold mqvpn_addr_pool_release. simpl in Hop.
    assert (Hout : ~ (base pool + 1 <= a <= base pool + pool_size pool) -> L = L ∖ {[a]}).
    { intros Hn. apply set_eq. intros x. rewrite elem_of_difference, elem_of_singleton. split; [|tauto]. intros Hx. split; [done|].
      intros ->. apply HL in Hx as (o & ? & _ & ?). lia. }
    destruct (Z.ltb_spec a (base pool)) as [Hlt|Hge].
    { eexists _, _, (L ∖ {[a]}). split; [done|]. split_and!; try done; [|constructor]. rewrite <- Hout by lia. done. }
    rewrite u32_small by lia. destruct (Z.leb_spec 1 (a - base pool)), (Z.leb_spec (a - base pool) (pool_size pool)); cbn [andb];
      [|eexists _, _, (L ∖ {[a]}); split; [done|]; split_and!; try done; [|constructor]; rewrite <- Hout by lia; done..].
    unfold MQVPN_ADDR_POOL_MAX in *.
    destruct (lookup_lt_is_Some_2 (used pool) (Z.to_nat (a - base pool))) as [u ->]; [rewrite (po_used _ H); lia|]. cbn [mbind option_bind].
    destruct (mark_leases pool L (a - base pool) false H HL ltac:(lia)) as [H' Hu]. cbn zeta in *.
    eexists _, _, (L ∖ {[a]}). split; [done|]. split; [done|]. split; [|split; [done|split; [done|constructor]]].
    intros x. rewrite elem_of_difference, elem_of_singleton, HL. split.
    + intros [(o & Ho & Hin & ->) Hne]. exists o. split_and!; [simpl; lia|simpl; lia| |done]. apply Hu; [lia|]. case_decide; [lia|done].
    + intros (o & Ho & Hin & ->). simpl in Ho. apply Hu in Hin; [|lia]. case_decide; [done|]. split; [by exists o|simpl; lia].
Qed.

Lemma pool_run_refines ops pool L : pool_ok pool -> leases_of pool L -> Forall op_addr_ok ops ->
  exists pool' rs L', pool_run pool ops = Some (pool', rs) /\ pool_ok pool' /\ leases_of pool' L' /\
    lease_run (base pool) (pool_size pool) L ops rs L'.
Proof.
  revert pool L. induction ops as [|op ops IH]; intros pool L H HL Hops.
  { exists pool, [], L. split_and!; try done. constructor. }
  apply Forall_cons in Hops as [Hop Hops].
  destruct (pool_step_refines pool L op H HL Hop) as (p1 & r & L1 & E1 & H1 & HL1 & Eb & Es & Hst).
  destruct (IH p1 L1 H1 HL1 Hops) as (p2 & rs & L2 & E2 & H2 & HL2 & Hrun). rewrite Eb, Es in Hrun.
  exists p2, (r :: rs), L2. simpl. rewrite E1. simpl. rewrite E2. simpl. split_and!; try done. by econstructor.
Qed.

(** ** Creation *)

Section creation.
Context (inet_pton4 : list Z -> option Z).
Hypothesis pton4_range : forall s a, inet_pton4 s = Some a -> 0 <= a < 2 ^ 32.

Lemma pool_init_ok cidr pool : mqvpn_addr_pool_init inet_pton4 cidr = (pool, true) ->
  pool_ok pool /\ leases_of pool ∅ /\ 16 <= prefix_len pool <= 30 /\
  pool_size pool = Z.min 254 (2 ^ (32 - prefix_len pool) - 2).
Proof.
  unfold mqvpn_addr_pool_init. destruct (strchr_split 47 (strncpy_z cidr 32)) as [[buf slash]|]; [|done].
  destruct (strtol slash) as [plen rest]. destruct (_ || _); [done|].
  destruct (inet_pton4 buf) as [a|] eqn:Ea; [|done]. apply pton4_range in Ea. cbn zeta.
  change (prefix_len (update base _ _)) with plen.
  destruct (Z.ltb_spec plen 16); [done|]. destruct (Z.ltb_spec 30 plen); [done|]. cbn [orb].
  assert (Hp : 2 ^ 2 <= 2 ^ (32 - plen) <= 2 ^ 16) by (split; apply Z.pow_le_mono_r; lia).
  rewrite Z.shiftl_1_l, (u32_small (2 ^ (32 - plen) - 2)) by lia.
  set (size := if MQVPN_ADDR_POOL_MAX <? 2 ^ (32 - plen) - 2 then MQVPN_ADDR_POOL_MAX else 2 ^ (32 - plen) - 2).
  assert (Hsz : size = Z.min 254 (2 ^ (32 - plen) - 2)).
  { unfold size, MQVPN_ADDR_POOL_MAX. destruct (Z.ltb_spec 254 (2 ^ (32 - plen) - 2)); lia. }
  simpl. destruct (Z.ltb_spec (u32 (a + size)) a) as [|Hnw]; [done|]. intros E%(f_equal fst). simpl in E. rewrite <- E.
  assert (Hw : a + size < 2 ^ 32).
  { destruct (Z.lt_ge_cases (a + size) (2 ^ 32)); [done|]. unfold u32 in Hnw.
    replace (a + size) with ((a + size - 2 ^ 32) + 1 * 2 ^ 32) in Hnw by lia. rewrite Z.mod_add, Z.mod_small in Hnw by lia. lia. }
  split_and!; simpl; try done; try lia.
  - split; simpl; unfold MQVPN_ADDR_POOL_MAX; try lia.
  - intros x. split; [by intros ?%elem_of_empty|]. intros (off & Ho & Hin & _). simpl in Ho. unfold in_use in Hin.
    change (replicate 255 false !! Z.to_nat off = Some true) in Hin. by apply lookup_replicate in Hin as [? _].
Qed.

(** C32: the pool refines a set of leases.  After a successful creation from
    any CIDR string, any sequence of allocations and releases (of any
    addresses) stays within the bitmap and answers as the abstract lease set
    does: an allocation grants an address of the usable range
    [base + 2, base + size] that is not leased, and is refused only when all
    of them are leased; a release ends the lease of its address and nothing
    else.  No address of the range wraps, is zero or is the server's. *)
Theorem addr_pool_refines cidr pool ops :
  mqvpn_addr_pool_init inet_pton4 cidr = (pool, true) -> Forall op_addr_ok ops ->
  exists pool' rs L, pool_run pool ops = Some (pool', rs) /\ leases_of pool' L /\
    lease_run (base pool) (pool_size pool) ∅ ops rs L /\
    2 <= pool_size pool <= MQVPN_ADDR_POOL_MAX /\
    forall a, a ∈ L -> 0 < a < 2 ^ 32 /\ a <> mqvpn_addr_pool_server_addr pool.
Proof.
  intros Hi Hops. destruct (pool_init_ok cidr pool Hi) as (H & HL & _).
  destruct (pool_run_refines ops pool ∅ H HL Hops) as (p' & rs & L & E & H' & HL' & Hrun).
  exists p', rs, L. split_and!; try done; try apply (po_size _ H). intros a Ha.
  assert (Hin : base pool + 2 <= a <= base pool + pool_size pool).
  { clear -Hrun Ha. assert (Hr : forall a, a ∈ (∅ : gset Z) -> base pool + 2 <= a <= base pool + pool_size pool) by set_solver.
    revert Hr. induction Hrun as [|L1 op r L2 ops rs L3 Hst _ IH]; [by auto|]. intros Hr. apply (IH Ha). intros x.
    destruct Hst as [y Hy Hyr| |y]; [rewrite elem_of_union, elem_of_singleton; intros [->|?]; auto|auto|].
    rewrite elem_of_difference. intros [? _]. auto. }
  destruct (po_base _ H). pose proof (po_size _ H). unfold mqvpn_addr_pool_server_addr. rewrite u32_small by lia. lia.
Qed.
End creation.

(** "10.8.0.0/30": two usable hosts, one of them the server. *)
Definition sample_cidr : list Z := [49; 48; 46; 56; 46; 48; 46; 48; 47; 51; 48].

Definition sample_pton4 (s : list Z) : option Z :=
  if bool_decide (s = [49; 48; 46; 56; 46; 48; 46; 48]) then Some 168296448 else None.

Lemma addr_pool_refines_witness :
  let pool := fst (mqvpn_addr_pool_init sample_pton4 sample_cidr) in
  (exists pool' rs L, pool_run pool [PoolAlloc; PoolAlloc; PoolRelease 168296450; PoolAlloc] = Some (pool', rs) /\
    lease_run (base pool) (pool_size pool) ∅ [PoolAlloc; PoolAlloc; PoolRelease 168296450; PoolAlloc] rs L) /\
  (snd <$> pool_run pool [PoolAlloc; PoolAlloc; PoolRelease 168296450; PoolAlloc]) =
    Some [Some 168296450; None; None; Some 168296450].
Proof.
  split; [|vm_compute; reflexivity].
  destruct (addr_pool_refines sample_pton4) with (cidr := sample_cidr)
    (pool := fst (mqvpn_addr_pool_init sample_pton4 sample_cidr))
    (ops := [PoolAlloc; PoolAlloc; PoolRelease 168296450; PoolAlloc]) as (pool' & rs & L & E & _ & Hr & _).
  - intros s a. unfold sample_pton4. destruct (bool_decide _); [|discriminate]. intros [= <-]. lia.
  - vm_compute. reflexivity.
  - repeat constructor; simpl; lia.
  - exists pool', rs, L. split; [exact E|exact Hr].
Defined.

(** ** The IPv6 side *)

Lemma be32_fold b0 b1 b2 b3 : is_byte b0 -> is_byte b1 -> is_byte b2 -> is_byte b3 ->
  fold_left (fun acc b => Z.lor (Z.shiftl acc 8) b) [b0; b1; b2; b3] 0 = ((b0 * 256 + b1) * 256 + b2) * 256 + b3.
Proof.
  unfold is_byte. intros. cbn [fold_left]. rewrite !lor_shift_add by lia. lia.
Qed.

Lemma low32_split a : bytes_ok a -> length a = 16%nat ->
  exists b0 b1 b2 b3, drop 12 a = [b0; b1; b2; b3] /\ is_byte b0 /\ is_byte b1 /\ is_byte b2 /\ is_byte b3 /\
    low32 a = ((b0 * 256 + b1) * 256 + b2) * 256 + b3.
Proof.
  intros Hb Hl. assert (Hd : length (drop 12 a) = 4%nat) by (rewrite length_drop; lia).
  assert (Hbd : bytes_ok (drop 12 a)) by (by apply Forall_drop). unfold low32.
  destruct (drop 12 a) as [|b0 [|b1 [|b2 [|b3 [|]]]]]; try discriminate.
  repeat (apply Forall_cons in Hbd as [? Hbd]). exists b0, b1, b2, b3. split_and!; try done. by apply be32_fold.
Qed.

Lemma low32_range a : bytes_ok a -> length a = 16%nat -> 0 <= low32 a < 2 ^ 32.
Proof. intros Hb Hl. destruct (low32_split a Hb Hl) as (b0 & b1 & b2 & b3 & _ & ? & ? & ? & ? & ->). unfold is_byte in *. lia. Qed.

Lemma low32_write l v : length l = 12%nat -> 0 <= v < 2 ^ 32 -> low32 (l ++ be32_list v) = v.
Proof.
  intros Hl Hv. unfold low32. rewrite drop_app_length' by done. change (take 4 (be32_list v)) with (be32_list v). unfold be32_list.
  rewrite be32_fold by (apply Z.mod_pos_bound; lia). rewrite !Z.shiftr_div_pow2 by lia. unfold u8.
  Z.to_euclidean_division_equations. lia.
Qed.

(** What fits a block of addresses does not wrap. *)
Lemma block_fits low off k : 0 <= k <= 32 -> 0 <= low < 2 ^ 32 -> low mod 2 ^ k + off < 2 ^ k -> low + off < 2 ^ 32.
Proof.
  intros Hk Hlow Hfit. set (m := 2 ^ k) in *. assert (Hm : 0 < m) by (apply Z.pow_pos_nonneg; lia).
  assert (Hq : 2 ^ 32 = m * 2 ^ (32 - k)) by (unfold m; rewrite <- Z.pow_add_r by lia; f_equal; lia). set (q := 2 ^ (32 - k)) in *.
  pose proof (Z.div_mod low m ltac:(lia)). assert (low / m < q) by (apply Z.div_lt_upper_bound; lia). nia.
Qed.

(** The IPv4 side of the pool stays. *)
Lemma pool_init6_keeps inet_pton6 p cidr6 p' : mqvpn_addr_pool_init6 inet_pton6 p cidr6 = (p', true) ->
  base p' = base p /\ pool_size p' = pool_size p /\ pool_next p' = pool_next p /\ used p' = used p.
Proof.
  unfold mqvpn_addr_pool_init6. destruct (strchr_split _ _) as [[buf slash]|]; [|done]. destruct (strtol slash) as [plen rest]. destruct (_ || _); [done|]. destruct (inet_pton6 buf) as [a|]; [|done].
  cbv zeta. destruct (_ <? _); [done|]. intros H%(f_equal fst). cbn [fst] in H. by subst p'.
Qed.

Lemma pool_init_v4 inet_pton4 cidr p : mqvpn_addr_pool_init inet_pton4 cidr = (p, true) -> has_v6 p = false.
Proof.
  unfold mqvpn_addr_pool_init. destruct (strchr_split _ _) as [[buf slash]|]; [|done]. destruct (strtol slash) as [plen rest]. destruct (_ || _); [done|]. destruct (inet_pton4 buf) as [a|]; [|done].
  cbv zeta. destruct (_ || _); [done|]. destruct (_ <? _); [done|]. intros H%(f_equal fst). cbn [fst] in H. by subst p.
Qed.

Section creation6.
Context (inet_pton6 : list Z -> option (list Z)).
Hypothesis pton6_bytes : forall s a, inet_pton6 s = Some a -> bytes_ok a /\ length a = 16%nat.

(** The network part of an address under a prefix of at least 96 bits: its
    first twelve bytes and the high bits of its last four. *)
Definition network6 (plen : Z) (a : list Z) : list Z * Z := (take 12 a, low32 a / 2 ^ (128 - plen)).

Lemma pool_init6_ok pool pool' cidr6 : pool_ok pool -> mqvpn_addr_pool_init6 inet_pton6 pool cidr6 = (pool', true) ->
  bytes_ok (base6 pool') /\ length (base6 pool') = 16%nat /\ 96 <= prefix6 pool' <= 126 /\ has_v6 pool' = true /\
  pool_size pool' = pool_size pool /\
  low32 (base6 pool') mod 2 ^ (128 - prefix6 pool') + pool_size pool < 2 ^ (128 - prefix6 pool').
Proof.
  intros H. unfold mqvpn_addr_pool_init6. destruct (strchr_split 47 (strncpy_z cidr6 64)) as [[buf slash]|]; [|done].
  destruct (strtol slash) as [plen rest]. destruct (bad_number slash rest); [done|]. cbn [orb].
  destruct (Z.ltb_spec plen 96); [done|]. destruct (Z.ltb_spec 126 plen); [done|]. cbn [orb].
  destruct (inet_pton6 buf) as [a|] eqn:Ea; [|done]. destruct (pton6_bytes _ _ Ea) as [Hb Hl]. cbn zeta.
  change (base6 (update base6 _ _)) with a. change (pool_size (update base6 _ _)) with (pool_size pool).
  rewrite (u32_small (128 - plen)) by lia. pose proof (po_size _ H) as Hs. unfold MQVPN_ADDR_POOL_MAX in Hs.
  assert (Hp : 2 ^ 2 <= 2 ^ (128 - plen) <= 2 ^ 32) by (split; apply Z.pow_le_mono_r; lia).
  assert (Hmask : (if 32 <=? 128 - plen then 4294967295 else u64 (Z.shiftl 1 (128 - plen)) - 1) = 2 ^ (128 - plen) - 1).
  { destruct (Z.leb_spec 32 (128 - plen)); [by replace (128 - plen) with 32 by lia|]. rewrite Z.shiftl_1_l, u64_small by lia. done. }
  rewrite Hmask, land_ones_mod by lia. pose proof (Z.mod_pos_bound (low32 a) (2 ^ (128 - plen)) ltac:(lia)).
  rewrite u64_small by lia. destruct (Z.ltb_spec (2 ^ (128 - plen) - 1) (low32 a mod 2 ^ (128 - plen) + pool_size pool)); [done|].
  intros E%(f_equal fst). cbn [fst] in E. rewrite <- E. simpl. split_and!; try done; lia.
Qed.

(** The IPv6 side shares the offsets.  After both creations, the address
    of every pool offset keeps the network part of the configured prefix, and
    the offset is recovered from the address; so different offsets get
    different addresses. *)
Theorem addr_pool6_roundtrip inet_pton4 cidr cidr6 pool4 pool off :
  (forall s a, inet_pton4 s = Some a -> 0 <= a < 2 ^ 32) ->
  mqvpn_addr_pool_init inet_pton4 cidr = (pool4, true) -> mqvpn_addr_pool_init6 inet_pton6 pool4 cidr6 = (pool, true) ->
  0 <= off <= pool_size pool ->
  let a := mqvpn_addr_pool_get6 pool off in
  mqvpn_addr_pool_offset6 pool a = off /\ network6 (prefix6 pool) a = network6 (prefix6 pool) (base6 pool) /\
  length a = 16%nat /\ bytes_ok a.
Proof.
  intros Hp4 Hi Hi6 Ho. destruct (pool_init_ok inet_pton4 Hp4 cidr pool4 Hi) as (H & _).
  destruct (pool_init6_ok pool4 pool cidr6 H Hi6) as (Hb & Hl & Hpl & _ & Es & Hfit). rewrite Es in Ho. cbn zeta.
  pose proof (low32_range _ Hb Hl) as Hlow. unfold mqvpn_addr_pool_get6. set (low := low32 (base6 pool)) in *.
  set (m := 2 ^ (128 - prefix6 pool)) in *. assert (Hm : 0 < m) by (apply Z.pow_pos_nonneg; lia).
  pose proof (Z.div_mod low m ltac:(lia)) as Hdm. pose proof (Z.mod_pos_bound low m Hm).
  assert (Hsum : low + off < 2 ^ 32) by (apply (block_fits low off (128 - prefix6 pool)); fold m; lia). rewrite u32_small by lia.
  assert (Htl : length (take 12 (base6 pool)) = 12%nat) by (rewrite length_take; lia).
  assert (Hlw : low32 (take 12 (base6 pool) ++ be32_list (low + off)) = low + off) by (apply low32_write; [done|lia]).
  split_and!.
  - unfold mqvpn_addr_pool_offset6. rewrite take_app_length' by done. rewrite bool_decide_eq_true_2 by done. cbn [negb]. rewrite Hlw.
    fold low. rewrite (proj2 (Z.ltb_ge _ _)), u32_small by lia. lia.
  - unfold network6. rewrite Hlw, take_app_length' by done. f_equal. fold low m.
    replace (low + off) with (low mod m + off + low / m * m) by lia. rewrite Z.div_add, Z.div_small by lia. lia.
  - rewrite length_app, Htl. done.
  - apply Forall_app. split; [by apply Forall_take|]. repeat constructor; apply Z.mod_pos_bound; lia.
Qed.
End creation6.

(** "fd00::/126" over the pool above. *)
Definition sample_cidr6 : list Z := [102; 100; 48; 48; 58; 58; 47; 49; 50; 54].
Definition sample_pton6 (s : list Z) : option (list Z) :=
  if bool_decide (s = [102; 100; 48; 48; 58; 58]) then Some ([253; 0] ++ replicate 14 0) else None.

Lemma addr_pool6_roundtrip_witness :
  let pool := fst (mqvpn_addr_pool_init6 sample_pton6 (fst (mqvpn_addr_pool_init sample_pton4 sample_cidr)) sample_cidr6) in
  mqvpn_addr_pool_offset6 pool (mqvpn_addr_pool_get6 pool 2) = 2 /\ mqvpn_addr_pool_get6 pool 2 = [253; 0] ++ replicate 13 0 ++ [2].
Proof.
  split; [|vm_compute; reflexivity].
  refine (proj1 (addr_pool6_roundtrip sample_pton6 _ sample_pton4 sample_cidr sample_cidr6
    (fst (mqvpn_addr_pool_init sample_pton4 sample_cidr)) _ 2 _ _ _ _)).
  - intros s a. unfold sample_pton6. destruct (bool_decide _); [|discriminate]. intros [= <-].
    split; [|reflexivity]. repeat constructor; unfold is_byte; lia.
  - intros s a. unfold sample_pton4. destruct (bool_decide _); [|discriminate]. intros [= <-]. lia.
  - vm_compute. reflexivity.
  - vm_compute. reflexivity.
  - vm_compute. split; discriminate.
Defined.
