(* ===== verification/Hybrid.v ===== *)
(** * The hybrid lane: CIDR sets, classifier and egress policy
    ([src/hybrid/classifier.h], [src/hybrid/classifier.c], the policy and
    path parts of [src/hybrid/tcp_egress.c], [src/hybrid/tcp_lane.h] and
    [src/mqvpn_server.c])

    The client decides per packet whether a TCP connection goes over an HTTP/3
    stream; the server decides per request whether it opens the connection.
    An address is 16 bytes in network order, IPv4 in the first four.
    [inet_pton] and [inet_ntop] are parameters.  [None] is an out-of-bounds
    access. *)

From S2P Require Import Prelude CString Wire AddrPool.

Inductive mqvpn_hybrid_lane_t := MQVPN_LANE_TCP | MQVPN_LANE_DGRAM | MQVPN_LANE_RAW.

#[export] Instance hybrid_lane_eq_dec : EqDecision mqvpn_hybrid_lane_t.
Proof. solve_decision. Defined.

(** The C enumeration with the values a configuration may hold beyond it. *)
Definition MQVPN_HYBRID_TCP_STREAM : Z := 0.
Definition MQVPN_HYBRID_TCP_RAW : Z := 1.
Definition MQVPN_HYBRID_TCP_AUTO : Z := 2.

Definition MQVPN_EGRESS_ACL_MAX : Z := 32.

(** ** CIDR entries *)

Record mqvpn_cidr_entry_t := CidrEntry { family : Z; cidr_plen : Z; net : list Z }.

Definition unset_cidr : mqvpn_cidr_entry_t := CidrEntry 0 0 (replicate 16 0).

(** [(uint8_t)(0xFF << (8 - rem))]. *)
Definition prefix_byte_mask (rem : Z) : Z := u8 (Z.shiftl 255 (8 - rem)).

Definition mqvpn_cidr_premask (net : list Z) (prefix_len : Z) : option (list Z) :=
  let full := prefix_len / 8 in
  let rem := prefix_len mod 8 in
  if negb (rem =? 0) then
    b ← rd net full;
    net ← wr net full (u8 (Z.land b (prefix_byte_mask rem)));
    Some (take (Z.to_nat (full + 1)) net ++ replicate (16 - Z.to_nat (full + 1)) 0)
  else Some (take (Z.to_nat full) net ++ replicate (16 - Z.to_nat full) 0).

Definition mqvpn_cidr_match (e : mqvpn_cidr_entry_t) (fam : Z) (addr : list Z) : option bool :=
  if (family e =? 0) || negb (family e =? fam) then Some false
  else if 128 <? cidr_plen e then Some false
  else
    let full := cidr_plen e / 8 in
    let rem := cidr_plen e mod 8 in
    a ← rdn addr 0 full; n ← rdn (net e) 0 full;
    if negb (bool_decide (a = n)) then Some false
    else if negb (rem =? 0) then
      x ← rd addr full; y ← rd (net e) full;
      let m := prefix_byte_mask rem in
      Some (Z.land x m =? Z.land y m)
    else Some true.

(** [ip] is the four bytes of the assigned address. *)
Definition mqvpn_tunnel_subnet_learn (ip : list Z) (assigned_prefix : Z) : option mqvpn_cidr_entry_t :=
  if assigned_prefix <=? 0 then Some unset_cidr
  else
    let plen := if assigned_prefix <? 24 then assigned_prefix else 24 in
    n ← mqvpn_cidr_premask (take 4 ip ++ replicate 12 0) plen;
    Some (CidrEntry 4 (u8 plen) n).

Definition mqvpn_tunnel_prefix6_effective (capsule_prefix : Z) : Z :=
  if (112 <? capsule_prefix) && (capsule_prefix <=? 128) then 112 else capsule_prefix.

Definition mqvpn_tunnel_subnet_learn_v6 (ip6 : list Z) (assigned_prefix : Z) : option mqvpn_cidr_entry_t :=
  if (assigned_prefix <=? 0) || (128 <? assigned_prefix) then Some unset_cidr
  else
    let plen := mqvpn_tunnel_prefix6_effective assigned_prefix in
    n ← mqvpn_cidr_premask (take 16 ip6) plen;
    Some (CidrEntry 6 (u8 plen) n).

(** The four bytes of a host-order IPv4 address, padded to 16. *)
Definition v4_net (hip : Z) : list Z := be32_list hip ++ replicate 12 0.

(** [Some None] is the return value -1. *)
Definition mqvpn_parse_cidr (inet_pton4 : list Z -> option Z) (inet_pton6 : list Z -> option (list Z)) (s : list Z)
    : option (option mqvpn_cidr_entry_t) :=
  let len := Z.of_nat (length s) in
  if (len =? 0) || (54 <=? len) then Some None
  else
    match strchr_split 47 s with
    | None => Some None
    | Some (buf, prefix_str) =>
        let is_v6 := match strchr_split 58 buf with Some _ => true | None => false end in
        let max_prefix := if is_v6 then 128 else 32 in
        match (if is_v6 then inet_pton6 buf else v4_net <$> inet_pton4 buf) with
        | None => Some None
        | Some n =>
            match prefix_str with
            | c :: _ =>
                if negb (isdigit c) then Some None
                else
                  let '(prefix, rest) := strtol prefix_str in
                  if negb (bool_decide (rest = [])) || (prefix <? 0) || (max_prefix <? prefix) then Some None
                  else
                    n ← mqvpn_cidr_premask n prefix;
                    Some (Some (CidrEntry (if is_v6 then 6 else 4) (u8 prefix) n))
            | [] => Some None
            end
        end
    end.

(** ** Configuration *)

(** The counts of the two lists are their lengths. *)
Record mqvpn_hybrid_config_t := HybridConfig {
  enabled : bool;
  tcp_mode : Z;
  tcp_max_flows : Z;
  tcp_idle_timeout_sec : Z;
  tcp_connect_timeout_sec : Z;
  tcp_max_global_flows : Z;
  egress_allow : list mqvpn_cidr_entry_t;
  egress_deny : list mqvpn_cidr_entry_t;
  client_tunnel_subnet : mqvpn_cidr_entry_t * mqvpn_cidr_entry_t
}.

#[export] Instance eta_hybrid_config : Settable mqvpn_hybrid_config_t := fun r =>
  HybridConfig (enabled r) (tcp_mode r) (tcp_max_flows r) (tcp_idle_timeout_sec r) (tcp_connect_timeout_sec r)
    (tcp_max_global_flows r) (egress_allow r) (egress_deny r) (client_tunnel_subnet r).

Definition MQVPN_TCP_MAX_GLOBAL_FLOWS_DEFAULT : Z := 4096.
Definition MQVPN_TCP_MAX_FLOWS_DEFAULT : Z := 256.
Definition MQVPN_TCP_CONNECT_TIMEOUT_SEC_DEFAULT : Z := 10.

Definition mqvpn_hybrid_config_default : mqvpn_hybrid_config_t :=
  HybridConfig false MQVPN_HYBRID_TCP_AUTO MQVPN_TCP_MAX_FLOWS_DEFAULT 300 MQVPN_TCP_CONNECT_TIMEOUT_SEC_DEFAULT
    MQVPN_TCP_MAX_GLOBAL_FLOWS_DEFAULT [] [] (unset_cidr, unset_cidr).

Definition mqvpn_hybrid_config_validate (cfg : mqvpn_hybrid_config_t) : bool :=
  if MQVPN_HYBRID_TCP_AUTO <? tcp_mode cfg then false
  else if tcp_max_flows cfg =? 0 then false
  else if tcp_connect_timeout_sec cfg =? 0 then false
  else if tcp_max_global_flows cfg =? 0 then false
  else true.

(** The names of the fields, in the INI spelling. *)
Inductive hybrid_field := HfTcp | HfTcpMaxFlows | HfTcpConnectTimeoutSec | HfTcpMaxGlobalFlows.

(** One reset: [names[n]] is written while there is room, [n] always counts. *)
Definition note_reset (f : hybrid_field) (max_names : Z) (st : list hybrid_field * Z) : list hybrid_field * Z :=
  let '(names, n) := st in (if n <? max_names then names ++ [f] else names, n + 1).

(** The configuration, the names written and the number of fields reset. *)
Definition mqvpn_hybrid_config_sanitize (cfg : mqvpn_hybrid_config_t) (max_names : Z)
    : mqvpn_hybrid_config_t * list hybrid_field * Z :=
  let st := ([], 0) in
  let '(cfg, st) := if MQVPN_HYBRID_TCP_AUTO <? tcp_mode cfg
    then (cfg <| tcp_mode := MQVPN_HYBRID_TCP_AUTO |>, note_reset HfTcp max_names st) else (cfg, st) in
  let '(cfg, st) := if tcp_max_flows cfg =? 0
    then (cfg <| tcp_max_flows := MQVPN_TCP_MAX_FLOWS_DEFAULT |>, note_reset HfTcpMaxFlows max_names st) else (cfg, st) in
  let '(cfg, st) := if tcp_connect_timeout_sec cfg =? 0
    then (cfg <| tcp_connect_timeout_sec := MQVPN_TCP_CONNECT_TIMEOUT_SEC_DEFAULT |>,
          note_reset HfTcpConnectTimeoutSec max_names st) else (cfg, st) in
  let '(cfg, st) := if tcp_max_global_flows cfg =? 0
    then (cfg <| tcp_max_global_flows := MQVPN_TCP_MAX_GLOBAL_FLOWS_DEFAULT |>,
          note_reset HfTcpMaxGlobalFlows max_names st) else (cfg, st) in
  (cfg, st.1, st.2).

(** ** The classifier *)

Definition is_v4mapped (addr : list Z) : option bool :=
  z ← rdn addr 0 10;
  if negb (forallb (Z.eqb 0) z) then Some false
  else x ← rd addr 10; y ← rd addr 11; Some ((x =? 255) && (y =? 255)).

Definition is_v6_multicast (addr : list Z) : option bool := x ← rd addr 0; Some (x =? 255).

Definition is_unspecified (addr : list Z) : option bool := z ← rdn addr 0 16; Some (forallb (Z.eqb 0) z).

Definition v6_lane_ineligible (key : mqvpn_flow_key_t) : option bool :=
  a ← is_v4mapped (dst_ip key);
  if (a : bool) then Some true else
  b ← is_v4mapped (src_ip key);
  if (b : bool) then Some true else
  c ← is_v6_multicast (src_ip key);
  if (c : bool) then Some true else
  d ← is_v6_multicast (dst_ip key);
  if (d : bool) then Some true else is_unspecified (src_ip key).

(** The lane and the key written for a TCP or UDP verdict. *)
Definition mqvpn_hybrid_classify (pkt : list Z) (pol : option mqvpn_hybrid_config_t)
    : option (mqvpn_hybrid_lane_t * option mqvpn_flow_key_t) :=
  r ← mqvpn_parse_l3l4 pkt;
  match r with
  | (MQVPN_L4_UDP, key) => Some (MQVPN_LANE_DGRAM, key)
  | (MQVPN_L4_TCP, Some key) =>
      match pol with
      | None => Some (MQVPN_LANE_RAW, Some key)
      | Some pol =>
          if negb (enabled pol) || (tcp_mode pol =? MQVPN_HYBRID_TCP_RAW) then Some (MQVPN_LANE_RAW, Some key)
          else
            let is6 := ip_version key =? 6 in
            ext ← (if is6 then b ← rd pkt 6; Some (negb (b =? MQVPN_IPPROTO_TCP)) else Some false);
            if (ext : bool) then Some (MQVPN_LANE_RAW, Some key)
            else
              inel ← (if is6 then v6_lane_ineligible key else Some false);
              if (inel : bool) then Some (MQVPN_LANE_RAW, Some key)
              else
                let e := if is6 then (client_tunnel_subnet pol).2 else (client_tunnel_subnet pol).1 in
                hit ← mqvpn_cidr_match e (ip_version key) (dst_ip key);
                Some (if (hit : bool) then MQVPN_LANE_RAW else MQVPN_LANE_TCP, Some key)
      end
  | (_, key) => Some (MQVPN_LANE_RAW, key)
  end.

(** ** The server's egress policy *)

(** A row of the tables: the first bytes given, the rest zero. *)
Definition deny_row (fam plen : Z) (bytes : list Z) : mqvpn_cidr_entry_t :=
  CidrEntry fam plen (bytes ++ replicate (16 - length bytes) 0).

Definition DEFAULT_DENY_V4 : list mqvpn_cidr_entry_t :=
  [deny_row 4 8 [0]; deny_row 4 8 [127]; deny_row 4 8 [10]; deny_row 4 12 [172; 16]; deny_row 4 16 [192; 168];
   deny_row 4 16 [169; 254]; deny_row 4 10 [100; 64]; deny_row 4 4 [224]; deny_row 4 4 [240];
   deny_row 4 32 [255; 255; 255; 255]].

Definition DEFAULT_DENY_V6 : list mqvpn_cidr_entry_t :=
  [deny_row 6 128 (replicate 15 0 ++ [1]); deny_row 6 10 [254; 128]; deny_row 6 7 [252]; deny_row 6 8 [255];
   deny_row 6 128 [0]; deny_row 6 96 (replicate 10 0 ++ [255; 255])].

(** Whether some entry of a list matches, in order. *)
Fixpoint any_match (es : list mqvpn_cidr_entry_t) (fam : Z) (addr : list Z) : option bool :=
  match es with
  | [] => Some false
  | e :: es => hit ← mqvpn_cidr_match e fam addr; if (hit : bool) then Some true else any_match es fam addr
  end.

Definition svr_tcp_egress_acl_decide (fam : Z) (addr : list Z) (allow deny : list mqvpn_cidr_entry_t)
    (tunnel : mqvpn_cidr_entry_t) : option bool :=
  t ← mqvpn_cidr_match tunnel fam addr;
  if (t : bool) then Some false else
  a ← any_match allow fam addr;
  if (a : bool) then Some true else
  dd ← any_match (if fam =? 6 then DEFAULT_DENY_V6 else DEFAULT_DENY_V4) fam addr;
  if (dd : bool) then Some false else
  d ← any_match deny fam addr;
  Some (negb d).

(** The tunnel subnets of the server: (IPv4, IPv6). *)
Definition svr_get_egress_policy (pool : mqvpn_addr_pool_t) : option (mqvpn_cidr_entry_t * mqvpn_cidr_entry_t) :=
  n4 ← mqvpn_cidr_premask (v4_net (base pool)) (u8 (prefix_len pool));
  let t4 := CidrEntry 4 (u8 (prefix_len pool)) n4 in
  if has_v6 pool then
    n6 ← mqvpn_cidr_premask (base6 pool) (u8 (prefix6 pool));
    Some (t4, CidrEntry 6 (u8 (prefix6 pool)) n6)
  else Some (t4, unset_cidr).

(** The family and address that the string in a buffer resolves to. *)
Definition resolve_target (inet_pton4 : list Z -> option Z) (inet_pton6 : list Z -> option (list Z)) (target_host : list Z)
    : option (Z * list Z) :=
  match strchr_split 58 (cstr target_host) with
  | Some _ => (fun a => (6, a)) <$> inet_pton6 (cstr target_host)
  | None => (fun a => (4, v4_net a)) <$> inet_pton4 (cstr target_host)
  end.

Definition svr_tcp_egress_acl_allowed (inet_pton4 : list Z -> option Z) (inet_pton6 : list Z -> option (list Z))
    (pool : mqvpn_addr_pool_t) (hybrid : mqvpn_hybrid_config_t) (target_host : list Z) : option bool :=
  match resolve_target inet_pton4 inet_pton6 target_host with
  | None => Some false
  | Some (fam, addr) =>
      tunnels ← svr_get_egress_policy pool;
      svr_tcp_egress_acl_decide fam addr (egress_allow hybrid) (egress_deny hybrid)
        (if fam =? 6 then tunnels.2 else tunnels.1)
  end.

(** ** The request target *)

(** "/.well-known/mqvpn/tcp/". *)
Definition MQVPN_TCP_CONNECT_PATH_PREFIX : list Z :=
  [47; 46; 119; 101; 108; 108; 45; 107; 110; 111; 119; 110; 47; 109; 113; 118; 112; 110; 47; 116; 99; 112; 47].

Definition TCP_EGRESS_PATH_PREFIX : list Z :=
  [47; 46; 119; 101; 108; 108; 45; 107; 110; 111; 119; 110; 47; 109; 113; 118; 112; 110; 47; 116; 99; 112; 47].

Definition MQVPN_TCP_CONNECT_PATH_CAP : nat := 80.

(** [snprintf (out, cap, ...)]: what is stored and the length returned. *)
Definition snprintf_z (cap : nat) (text : list Z) : list Z * Z := (take (cap - 1) text, Z.of_nat (length text)).

(** "%u.%u.%u.%u". *)
Definition print_v4 (a : list Z) : list Z :=
  print_u32 (nth 0 a 0) ++ [46] ++ print_u32 (nth 1 a 0) ++ [46] ++ print_u32 (nth 2 a 0) ++ [46] ++ print_u32 (nth 3 a 0).

(** [None] is the return value -1. *)
Definition mqvpn_tcp_lane_format_connect_path (inet_ntop6 : list Z -> option (list Z)) (cap : nat)
    (key : mqvpn_flow_key_t) : option (list Z * Z) :=
  if ip_version key =? 6 then
    ipbuf ← inet_ntop6 (dst_ip key);
    Some (snprintf_z cap (MQVPN_TCP_CONNECT_PATH_PREFIX ++ ipbuf ++ [47] ++ print_u32 (dst_port key) ++ [47]))
  else
    Some (snprintf_z cap (MQVPN_TCP_CONNECT_PATH_PREFIX ++ print_v4 (dst_ip key) ++ [47] ++ print_u32 (dst_port key) ++ [47])).

(** The port's digits; [None] is the return value -1. *)
Fixpoint parse_port (port : Z) (s : list Z) : option Z :=
  match s with
  | [] => Some port
  | c :: s =>
      if (c <? 48) || (57 <? c) then None
      else
        let port := u32 (u32 (port * 10) + (c - 48)) in
        if 65535 <? port then None else parse_port port s
  end.

(** [None] is the return value -1; [out_host_cap] is the capacity with the
    terminator. *)
Definition svr_tcp_egress_parse_path (path : list Z) (out_host_cap : Z) : option (list Z * Z) :=
  let n := length TCP_EGRESS_PATH_PREFIX in
  if out_host_cap =? 0 then None
  else if (length path <=? n)%nat then None
  else if negb (bool_decide (take n path = TCP_EGRESS_PATH_PREFIX)) then None
  else
    match strchr_split 47 (drop n path) with
    | None => None
    | Some (host, port_start) =>
        let host_len := Z.of_nat (length host) in
        if (host_len =? 0) || (out_host_cap <=? host_len) then None
        else
          match strchr_split 47 port_start with
          | None => None
          | Some (digits, rest) =>
              if negb (bool_decide (rest = [])) then None
              else
                let port_len := Z.of_nat (length digits) in
                if (port_len =? 0) || (5 <? port_len) then None
                else
                  match parse_port 0 digits with
                  | None => None
                  | Some port => if port <? 1 then None else Some (host, u16 port)
                  end
          end
    end.
