(* ===== verification/HybridProofs.v ===== *)
(** * Correctness of the hybrid lane

    CIDR matching is agreement of the prefix bits; the classifier sends to the
    stream lane only what the lane can carry; the egress policy follows its
    precedence and protects the private ranges by default; and the request
    target the client formats is the one the server evaluates. *)

From S2P Require Import Prelude CString Wire AddrPool Hybrid.

(** ** Bits of an address *)

(** Bit [k] of an address, from the most significant one. *)
Definition addr_bit (a : list Z) (k : Z) : bool := Z.testbit (nth (Z.to_nat (k / 8)) a 0) (7 - k mod 8).

Definition prefix_agree (plen : Z) (a b : list Z) : Prop := forall k, 0 <= k < plen -> addr_bit a k = addr_bit b k.

Definition addr_ok (a : list Z) : Prop := bytes_ok a /\ length a = 16%nat.

Lemma mask_bit rem j : 0 < rem < 8 -> 0 <= j -> Z.testbit (prefix_byte_mask rem) j = (8 - rem <=? j) && (j <? 8).
Proof.
  intros Hr Hj. unfold prefix_byte_mask, u8. destruct (Z.ltb_spec j 8) as [H8|H8].
  - rewrite Z.mod_pow2_bits_low by lia. change 255 with (Z.ones 8). destruct (Z.leb_spec (8 - rem) j).
    + rewrite Z.shiftl_spec, Z.ones_spec_low by lia. done.
    + by rewrite Z.shiftl_spec_low by lia.
  - rewrite Z.mod_pow2_bits_high by lia. by rewrite andb_false_r.
Qed.

Lemma byte_high_bit x j : is_byte x -> 8 <= j -> Z.testbit x j = false.
Proof. intros Hx Hj. by apply (testbit_high x 8). Qed.

(** Equality under the mask is agreement of the leading bits. *)
Lemma mask_eq rem x y : 0 < rem < 8 ->
  Z.land x (prefix_byte_mask rem) = Z.land y (prefix_byte_mask rem) <->
  forall j, 0 <= j < rem -> Z.testbit x (7 - j) = Z.testbit y (7 - j).
Proof.
  intros Hr. split.
  - intros E j Hj. apply (f_equal (fun z => Z.testbit z (7 - j))) in E. rewrite !Z.land_spec, !mask_bit in E by lia.
    rewrite (proj2 (Z.leb_le _ _)), (proj2 (Z.ltb_lt _ _)), !andb_true_r in E by lia. done.
  - intros H. apply Z.bits_inj'. intros n Hn. rewrite !Z.land_spec, mask_bit by lia.
    destruct (Z.leb_spec (8 - rem) n), (Z.ltb_spec n 8); cbn [andb]; rewrite ?andb_false_r; try done.
    rewrite !andb_true_r. specialize (H (7 - n) ltac:(lia)). by replace (7 - (7 - n)) with n in H by lia.
Qed.

Lemma byte_eq x y : is_byte x -> is_byte y -> x = y <-> forall j, 0 <= j < 8 -> Z.testbit x (7 - j) = Z.testbit y (7 - j).
Proof.
  intros Hx Hy. split; [by intros ->|]. intros H. apply Z.bits_inj'. intros n Hn. destruct (Z.lt_ge_cases n 8).
  - specialize (H (7 - n) ltac:(lia)). by replace (7 - (7 - n)) with n in H by lia.
  - by rewrite !byte_high_bit by (done || lia).
Qed.

Lemma addr_bit_at a i j : 0 <= i -> 0 <= j < 8 -> addr_bit a (8 * i + j) = Z.testbit (nth (Z.to_nat i) a 0) (7 - j).
Proof.
  intros Hi Hj. unfold addr_bit. replace (8 * i + j) with (j + i * 8) by lia.
  rewrite Z.div_add, Z.mod_add by lia. rewrite (Z.div_small j), Z.mod_small by lia. done.
Qed.

Lemma nth_byte a i : bytes_ok a -> is_byte (nth i a 0).
Proof.
  intros Ha. destruct (nth_in_or_default i a 0) as [Hin|E]; [|rewrite E; unfold is_byte; lia].
  unfold bytes_ok in Ha. rewrite Forall_forall in Ha. by apply Ha, list_elem_of_In.
Qed.

(** Agreement on whole bytes. *)
Lemma prefix_agree_bytes n a b : bytes_ok a -> bytes_ok b -> (n <= length a)%nat -> (n <= length b)%nat ->
  take n a = take n b <-> prefix_agree (8 * Z.of_nat n) a b.
Proof.
  intros Ha Hb Hla Hlb. split.
  - intros E k Hk. pose proof (Z.div_mod k 8 ltac:(lia)) as Hdm. pose proof (Z.mod_pos_bound k 8 ltac:(lia)).
    assert (0 <= k / 8 < Z.of_nat n) by (split; [apply Z.div_pos; lia|apply Z.div_lt_upper_bound; lia]).
    unfold addr_bit. f_equal. rewrite <- (firstn_skipn n a), <- (firstn_skipn n b). rewrite !app_nth1 by (rewrite length_take; lia).
    change (firstn n a) with (take n a). change (firstn n b) with (take n b). by rewrite E.
  - intros H. apply list_eq. intros i. destruct (decide (i < n)%nat) as [Hi|Hi].
    + rewrite !lookup_take_lt by done. destruct (lookup_lt_is_Some_2 a i) as [x Hx]; [lia|]. destruct (lookup_lt_is_Some_2 b i) as [y Hy]; [lia|].
      rewrite Hx, Hy. f_equal. apply byte_eq; [exact (Forall_lookup_1 _ _ _ _ Ha Hx)|exact (Forall_lookup_1 _ _ _ _ Hb Hy)|].
      intros j Hj. specialize (H (8 * Z.of_nat i + j) ltac:(lia)). rewrite !addr_bit_at, Nat2Z.id in H by lia.
      by rewrite !nth_lookup, Hx, Hy in H.
    + rewrite !lookup_take_ge by lia. done.
Qed.

(** ... and on a partial last byte. *)
Lemma prefix_agree_split plen a b : 0 <= plen -> prefix_agree plen a b <->
  prefix_agree (8 * (plen / 8)) a b /\
  forall j, 0 <= j < plen mod 8 -> Z.testbit (nth (Z.to_nat (plen / 8)) a 0) (7 - j) = Z.testbit (nth (Z.to_nat (plen / 8)) b 0) (7 - j).
Proof.
  intros Hp. pose proof (Z.div_mod plen 8 ltac:(lia)) as Hdm. pose proof (Z.mod_pos_bound plen 8 ltac:(lia)) as Hm.
  assert (Hq : 0 <= plen / 8) by (apply Z.div_pos; lia). split.
  - intros H. split; [intros k Hk; apply H; lia|]. intros j Hj. rewrite <- !addr_bit_at by lia. apply H. lia.
  - intros [H1 H2] k Hk. destruct (Z.lt_ge_cases k (8 * (plen / 8))); [apply H1; lia|].
    replace k with (8 * (plen / 8) + (k - 8 * (plen / 8))) by lia. rewrite !addr_bit_at by lia. apply H2. lia.
Qed.

(** ** Matching *)

Definition entry_ok (e : mqvpn_cidr_entry_t) : Prop := addr_ok (net e) /\ 0 <= cidr_plen e.

(** The set of addresses an entry stands for. *)
Definition covers_addr (e : mqvpn_cidr_entry_t) (fam : Z) (addr : list Z) : Prop :=
  fam <> 0 /\ family e = fam /\ cidr_plen e <= 128 /\ prefix_agree (cidr_plen e) addr (net e).

Lemma nth_rd a i v : rd a i = Some v -> nth (Z.to_nat i) a 0 = v.
Proof. unfold rd. destruct (i <? 0); [done|]. intros H. by rewrite nth_lookup, H. Qed.

Lemma cidr_match_lemma e fam addr : entry_ok e -> addr_ok addr ->
  exists h, mqvpn_cidr_match e fam addr = Some h /\ (h = true <-> covers_addr e fam addr).
Proof.
  intros [[Hn Hnl] Hp] [Ha Hal]. unfold mqvpn_cidr_match, covers_addr.
  destruct (Z.eqb_spec (family e) 0); [exists false; split; [done|]; split; [done|intros (? & ? & _); congruence]|]. cbn [orb].
  destruct (Z.eqb_spec (family e) fam) as [Ef|Hne]; cbn [negb]; [|exists false; split; [done|]; split; [done|intros (? & ? & _); congruence]].
  destruct (Z.ltb_spec 128 (cidr_plen e)); [exists false; split; [done|]; split; [done|intros (_ & _ & ? & _); lia]|].
  set (plen := cidr_plen e) in *. pose proof (Z.div_mod plen 8 ltac:(lia)) as Hdm. pose proof (Z.mod_pos_bound plen 8 ltac:(lia)) as Hm.
  assert (Hfull : 0 <= plen / 8 <= 16) by (split; [apply Z.div_pos; lia|apply Z.div_le_upper_bound; lia]).
  assert (Hiff : forall P, (fam <> 0 /\ family e = fam /\ plen <= 128 /\ P) <-> P) by (intros; split; [tauto|intros; split_and!; try done; congruence]).
  setoid_rewrite Hiff. setoid_rewrite prefix_agree_split; [|lia].
  pose proof (prefix_agree_bytes (Z.to_nat (plen / 8)) addr (net e) Ha Hn ltac:(lia) ltac:(lia)) as Hby. rewrite Z2Nat.id in Hby by lia.
  assert (Hr : forall l, length l = 16%nat -> rdn l 0 (plen / 8) = Some (take (Z.to_nat (plen / 8)) l)).
  { intros l Hl. unfold rdn, blen. rewrite Hl, !(proj2 (Z.leb_le _ _)) by lia. done. }
  rewrite !Hr by done. cbn [mbind option_bind]. case_bool_decide as Eq; cbn [negb].
  2:{ exists false. split; [done|]. split; [done|]. intros [H1 _]. by apply Hby in H1. }
  apply Hby in Eq. destruct (Z.eqb_spec (plen mod 8) 0) as [E0|E0]; cbn [negb].
  - exists true. split; [done|]. split; [|done]. intros _. split; [done|]. intros j Hj. lia.
  - destruct (rd_in_bounds addr (plen / 8)) as [x Hx]; [unfold blen; lia|]. destruct (rd_in_bounds (net e) (plen / 8)) as [y Hy]; [unfold blen; lia|].
    rewrite Hx, Hy. cbn [mbind option_bind]. eexists. split; [done|]. rewrite Z.eqb_eq, mask_eq by lia.
    rewrite (nth_rd _ _ _ Hx), (nth_rd _ _ _ Hy). tauto.
Qed.

(** ** Masking *)

Lemma nth_replicate_0 i n : nth i (replicate n 0) 0 = 0.
Proof. revert i. induction n as [|n IH]; intros [|i]; simpl; (done || apply IH). Qed.

Lemma div8_range k m : 0 <= k < 8 * m -> 0 <= k / 8 < m.
Proof. intros. split; [apply Z.div_pos; lia|apply Z.div_lt_upper_bound; lia]. Qed.

Lemma premask_ok n plen : addr_ok n -> 0 <= plen <= 128 ->
  exists n', mqvpn_cidr_premask n plen = Some n' /\ addr_ok n' /\
    forall k, 0 <= k < 128 -> addr_bit n' k = (k <? plen) && addr_bit n k.
Proof.
  intros [Hb Hl] Hp. pose proof (Z.div_mod plen 8 ltac:(lia)) as Hdm. pose proof (Z.mod_pos_bound plen 8 ltac:(lia)) as Hm.
  assert (Hfull : 0 <= plen / 8 <= 16) by (split; [apply Z.div_pos; lia|apply Z.div_le_upper_bound; lia]).
  assert (Hgen : forall l m, addr_ok l -> 0 <= m <= 16 -> addr_ok (take (Z.to_nat m) l ++ replicate (16 - Z.to_nat m) 0) /\
    forall i, 0 <= i < 16 -> nth (Z.to_nat i) (take (Z.to_nat m) l ++ replicate (16 - Z.to_nat m) 0) 0 =
      if i <? m then nth (Z.to_nat i) l 0 else 0).
  { intros l m [Hlb Hll] Hm'. split.
    - split; [apply Forall_app; split; [by apply Forall_take|apply Forall_replicate; unfold is_byte; lia]|].
      rewrite length_app, length_take, length_replicate. lia.
    - intros i Hi. destruct (Z.ltb_spec i m).
      + rewrite app_nth1 by (rewrite length_take; lia). rewrite !nth_lookup, lookup_take_lt by lia. done.
      + rewrite app_nth2 by (rewrite length_take; lia). apply nth_replicate_0. }
  unfold mqvpn_cidr_premask. destruct (Z.eqb_spec (plen mod 8) 0) as [E0|E0]; cbn [negb].
  - eexists. split; [done|]. destruct (Hgen n (plen / 8) (conj Hb Hl) Hfull) as [Hok Hnth]. split; [done|].
    intros k Hk. pose proof (Z.div_mod k 8 ltac:(lia)). pose proof (Z.mod_pos_bound k 8 ltac:(lia)).
    pose proof (div8_range k 16 ltac:(lia)). unfold addr_bit. rewrite Hnth by lia. destruct (Z.ltb_spec (k / 8) (plen / 8)), (Z.ltb_spec k plen); try lia; [done|apply Z.bits_0].
  - destruct (rd_in_bounds n (plen / 8)) as [b Hx]; [unfold blen; lia|]. rewrite Hx. cbn [mbind option_bind].
    pose proof (rd_lt _ _ _ Hx) as Hlt. unfold wr. rewrite (proj2 (Z.leb_le _ _)), (proj2 (Z.ltb_lt _ _)) by lia. cbn [andb mbind option_bind].
    set (v := u8 (Z.land b (prefix_byte_mask (plen mod 8)))). set (n1 := <[Z.to_nat (plen / 8) := v]> n).
    assert (H1 : addr_ok n1).
    { split; [|unfold n1; by rewrite length_insert]. apply Forall_insert; [done|apply Z.mod_pos_bound; lia]. }
    eexists. split; [done|]. unfold blen in Hlt. destruct (Hgen n1 (plen / 8 + 1) H1 ltac:(lia)) as [Hok Hnth]. split; [done|].
    intros k Hk. pose proof (Z.div_mod k 8 ltac:(lia)). pose proof (Z.mod_pos_bound k 8 ltac:(lia)). pose proof (div8_range k 16 ltac:(lia)).
    unfold addr_bit. rewrite Hnth by lia. destruct (Z.ltb_spec (k / 8) (plen / 8 + 1)).
    2:{ rewrite (proj2 (Z.ltb_ge k plen)) by lia. apply Z.bits_0. }
    unfold n1. rewrite (nth_lookup (<[_ := v]> n)). destruct (decide (k / 8 = plen / 8)) as [E|E].
    + rewrite E, list_lookup_insert_eq by lia. cbn [default]. rewrite (nth_rd _ _ _ Hx).
      unfold v, id, u8. rewrite Z.mod_pow2_bits_low, Z.land_spec, mask_bit, andb_comm by lia. f_equal.
      destruct (Z.leb_spec (8 - plen mod 8) (7 - k mod 8)), (Z.ltb_spec (7 - k mod 8) 8), (Z.ltb_spec k plen); (done || lia).
    + rewrite list_lookup_insert_ne by lia. rewrite <- nth_lookup. by rewrite (proj2 (Z.ltb_lt k plen)) by lia.
Qed.

(** ** Parsed entries *)

(** Masking within the first fifteen bytes of a buffer reads inside it. *)
Lemma premask_in_range n plen : 0 <= plen < 96 \/ 0 <= plen <= 112 /\ length n = 16%nat -> (12 <= length n)%nat ->
  exists n', mqvpn_cidr_premask n plen = Some n'.
Proof.
  intros Hp Hl. assert (Hf : 0 <= plen / 8 < Z.of_nat (length n)).
  { split; [apply Z.div_pos; lia|]. apply Z.div_lt_upper_bound; lia. }
  unfold mqvpn_cidr_premask. destruct (negb _); [|by eexists]. destruct (rd_in_bounds n (plen / 8)) as [b ->]; [unfold blen; lia|].
  cbn [mbind option_bind]. unfold wr, blen. rewrite (proj2 (Z.leb_le _ _)), (proj2 (Z.ltb_lt _ _)) by lia. cbn. by eexists.
Qed.

Section inet.
Context (inet_pton4 : list Z -> option Z) (inet_pton6 : list Z -> option (list Z)).
Hypothesis pton4_range : forall s a, inet_pton4 s = Some a -> 0 <= a < 2 ^ 32.
Hypothesis pton6_bytes : forall s a, inet_pton6 s = Some a -> addr_ok a.

Lemma v4_net_ok a : addr_ok (v4_net a).
Proof.
  split; [|done]. apply Forall_app. split; [repeat constructor; apply Z.mod_pos_bound; lia|].
  apply Forall_replicate. unfold is_byte. lia.
Qed.

(** The address that the text before the slash stands for. *)
Definition text_addr (fam : Z) (buf : list Z) : option (list Z) :=
  if fam =? 6 then inet_pton6 buf else v4_net <$> inet_pton4 buf.

Lemma prefix_agree_masked plen a n n' : 0 <= plen <= 128 ->
  (forall k, 0 <= k < 128 -> addr_bit n' k = (k <? plen) && addr_bit n k) ->
  prefix_agree plen a n' <-> prefix_agree plen a n.
Proof.
  intros Hp Hm. assert (E : forall k, 0 <= k < plen -> addr_bit n' k = addr_bit n k).
  { intros k Hk. rewrite Hm by lia. by rewrite (proj2 (Z.ltb_lt k plen)) by lia. }
  split; intros H k Hk; rewrite (H k Hk); [apply E|symmetry; apply E]; lia.
Qed.

(** Configured CIDR ranges mean what they say.  Any string is parsed
    without an out-of-bounds access; an accepted string is an address, a slash
    and a prefix length within the family's width; and the entry matches
    exactly the addresses of that family whose first prefix-length bits are
    those of the address written, host bits in the text notwithstanding. *)
Theorem parse_cidr_match s :
  exists r, mqvpn_parse_cidr inet_pton4 inet_pton6 s = Some r /\
  forall e, r = Some e ->
    exists buf pfx n, s = buf ++ 47 :: pfx /\ text_addr (family e) buf = Some n /\
      (family e = 4 /\ 0 <= cidr_plen e <= 32 \/ family e = 6 /\ 0 <= cidr_plen e <= 128) /\
      fst (strtol pfx) = cidr_plen e /\
      forall fam addr, addr_ok addr -> exists h, mqvpn_cidr_match e fam addr = Some h /\
        (h = true <-> fam = family e /\ prefix_agree (cidr_plen e) addr n).
Proof.
  unfold mqvpn_parse_cidr. destruct (_ || _); [by exists None|].
  destruct (strchr_split 47 s) as [[buf pfx]|] eqn:Es; [|by exists None]. apply strchr_split_some in Es as [-> _].
  set (is6 := match strchr_split 58 buf with Some _ => true | None => false end).
  set (fam6 := if is6 then 6 else 4).
  assert (Et : (if is6 then inet_pton6 buf else v4_net <$> inet_pton4 buf) = text_addr fam6 buf) by (unfold fam6; by destruct is6).
  rewrite Et. destruct (text_addr fam6 buf) as [n|] eqn:En; [|by exists None].
  assert (Hn : addr_ok n).
  { unfold text_addr in En. destruct (fam6 =? 6); [by eapply pton6_bytes|].
    destruct (inet_pton4 buf); [|done]. injection En as <-. apply v4_net_ok. }
  destruct pfx as [|c pfx]; [by exists None|]. destruct (negb (isdigit c)); [by exists None|].
  destruct (strtol (c :: pfx)) as [plen rest] eqn:Ep. destruct (negb _); [by exists None|]. cbn [orb].
  destruct (Z.ltb_spec plen 0); [by exists None|].
  destruct (Z.ltb_spec (if is6 then 128 else 32) plen) as [|Hmax]; [by exists None|]. cbn [orb].
  assert (Hp : 0 <= plen <= 128) by (destruct is6; lia).
  destruct (premask_ok n plen Hn Hp) as (n' & -> & Hn' & Hbits). cbn [mbind option_bind]. eexists. split; [done|].
  intros e [= <-]. exists buf, (c :: pfx), n. rewrite u8_small by lia. cbn [family cidr_plen]. split_and!; try done.
  - unfold fam6. destruct is6; [right|left]; lia.
  - by rewrite Ep.
  - intros fam addr Ha. destruct (cidr_match_lemma (CidrEntry fam6 plen n') fam addr) as (h & -> & Hh); [split; [done|simpl; lia]|done|].
    exists h. split; [done|]. rewrite Hh. unfold covers_addr. cbn [family cidr_plen net]. rewrite (prefix_agree_masked plen addr n n') by done.
    split; [intros (? & -> & _ & ?); done|]. intros [-> ?]. split_and!; try done; [unfold fam6; by destruct is6|lia].
Qed.
End inet.

(** 192.168.1.77/23, read as a subnet. *)
Definition sample_text : list Z := [49; 57; 50; 46; 49; 54; 56; 46; 49; 46; 55; 55; 47; 50; 51].

Lemma parse_cidr_match_witness :
  (exists r, mqvpn_parse_cidr (fun _ => Some 3232235853) (fun _ => None) sample_text = Some r) /\
  mqvpn_parse_cidr (fun _ => Some 3232235853) (fun _ => None) sample_text
    = Some (Some (CidrEntry 4 23 ([192; 168] ++ replicate 14 0))).
Proof.
  split; [|vm_compute; reflexivity].
  destruct (parse_cidr_match (fun _ => Some 3232235853) (fun _ => None)) with (s := sample_text) as (r & E & _).
  - discriminate.
  - exact (ex_intro _ r E).
Defined.

(** ** The egress policy *)

(** An entry of the list covers the address. *)
Definition covered (es : list mqvpn_cidr_entry_t) (fam : Z) (addr : list Z) : Prop :=
  Exists (fun e => covers_addr e fam addr) es.

Lemma any_match_ok es fam addr : Forall entry_ok es -> addr_ok addr ->
  exists h, any_match es fam addr = Some h /\ (h = true <-> covered es fam addr).
Proof.
  intros Hes Ha. induction Hes as [|e es He _ (h & Eh & Hh)]; [exists false; split; [done|]; split; [done|intros H; inversion H]|].
  simpl. destruct (cidr_match_lemma e fam addr He Ha) as (h1 & -> & Hh1). cbn [mbind option_bind]. unfold covered in *.
  destruct h1; [exists true; split; [done|]; split; [intros _; left; by apply Hh1|done]|].
  exists h. split; [done|]. rewrite Hh, Exists_cons. split; [by right|]. intros [H|H]; [|done]. by apply Hh1 in H.
Qed.

Lemma deny_row_ok fam plen bytes : bytes_ok bytes -> (length bytes <= 16)%nat -> 0 <= plen -> entry_ok (deny_row fam plen bytes).
Proof.
  intros Hb Hl Hp. split; [|done]. split; simpl.
  - apply Forall_app. split; [done|]. apply Forall_replicate. unfold is_byte. lia.
  - rewrite length_app, length_replicate. lia.
Qed.

Lemma default_deny_ok : Forall entry_ok DEFAULT_DENY_V4 /\ Forall entry_ok DEFAULT_DENY_V6.
Proof.
  split; repeat (constructor; [apply deny_row_ok; [repeat constructor; unfold is_byte; lia|simpl; lia|lia]|]); constructor.
Qed.

Definition default_deny (fam : Z) : list mqvpn_cidr_entry_t := if fam =? 6 then DEFAULT_DENY_V6 else DEFAULT_DENY_V4.

Lemma acl_decide_lemma fam addr allow deny tunnel :
  Forall entry_ok allow -> Forall entry_ok deny -> entry_ok tunnel -> addr_ok addr ->
  exists h, svr_tcp_egress_acl_decide fam addr allow deny tunnel = Some h /\
    (h = true <-> ~ covers_addr tunnel fam addr /\
       (covered allow fam addr \/ ~ covered (default_deny fam) fam addr /\ ~ covered deny fam addr)).
Proof.
  intros Hal Hde Ht Ha. unfold svr_tcp_egress_acl_decide. fold (default_deny fam).
  destruct (cidr_match_lemma tunnel fam addr Ht Ha) as (t & -> & Et). cbn [mbind option_bind].
  destruct t; [exists false; split; [done|]; split; [done|intros [H _]; destruct H; by apply Et]|].
  destruct (any_match_ok allow fam addr Hal Ha) as (a & -> & Ea). cbn [mbind option_bind].
  assert (Hnt : ~ covers_addr tunnel fam addr) by (by rewrite <- Et).
  destruct a; [exists true; split; [done|]; split; [intros _; split; [done|left; by apply Ea]|done]|].
  assert (Hdd : Forall entry_ok (default_deny fam)) by (unfold default_deny; destruct (fam =? 6); apply default_deny_ok).
  destruct (any_match_ok (default_deny fam) fam addr Hdd Ha) as (dd & -> & Edd). cbn [mbind option_bind].
  assert (Hna : ~ covered allow fam addr) by (by rewrite <- Ea).
  destruct dd; [exists false; split; [done|]; split; [done|intros [_ [?|[H _]]]; [done|destruct H; by apply Edd]]|].
  destruct (any_match_ok deny fam addr Hde Ha) as (d & -> & Ed). cbn [mbind option_bind]. eexists. split; [done|].
  rewrite negb_true_iff. split.
  - intros ->. split; [done|]. right. split; [by rewrite <- Edd|by rewrite <- Ed].
  - intros [_ [?|[_ H]]]; [done|]. destruct d; [|done]. destruct H. by apply Ed.
Qed.

(** The IPv4 ranges that no configuration reaches by default: this network,
    loopback, the private and shared ranges, link-local, multicast, reserved. *)
Definition v4_special (a : list Z) : bool :=
  let a0 := nth 0 a 0 in let a1 := nth 1 a 0 in
  (a0 =? 0) || (a0 =? 127) || (a0 =? 10) || ((a0 =? 172) && (16 <=? a1) && (a1 <=? 31)) || ((a0 =? 192) && (a1 =? 168)) ||
  ((a0 =? 169) && (a1 =? 254)) || ((a0 =? 100) && (64 <=? a1) && (a1 <=? 127)) || (224 <=? a0).

(** ... and the IPv6 ones: unspecified and loopback, link-local, unique local,
    multicast, IPv4-mapped. *)
Definition v6_special (a : list Z) : bool :=
  (forallb (Z.eqb 0) (take 15 a) && (nth 15 a 0 <=? 1)) || ((nth 0 a 0 =? 254) && (128 <=? nth 1 a 0) && (nth 1 a 0 <=? 191)) ||
  (nth 0 a 0 =? 252) || (nth 0 a 0 =? 253) || (nth 0 a 0 =? 255) ||
  (forallb (Z.eqb 0) (take 10 a) && (nth 10 a 0 =? 255) && (nth 11 a 0 =? 255)).

(** Coverage as a comparison of whole bytes and one masked byte. *)
Lemma covers_bytes e fam addr : entry_ok e -> addr_ok addr -> fam <> 0 -> family e = fam -> cidr_plen e <= 128 ->
  covers_addr e fam addr <->
  take (Z.to_nat (cidr_plen e / 8)) addr = take (Z.to_nat (cidr_plen e / 8)) (net e) /\
  Z.land (nth (Z.to_nat (cidr_plen e / 8)) addr 0) (prefix_byte_mask (cidr_plen e mod 8)) =
  Z.land (nth (Z.to_nat (cidr_plen e / 8)) (net e) 0) (prefix_byte_mask (cidr_plen e mod 8)).
Proof.
  intros [[Hn Hnl] Hp] [Ha Hal] Hf0 Hf H128. unfold covers_addr. set (plen := cidr_plen e) in *.
  assert (Hfull : 0 <= plen / 8 <= 16) by (split; [apply Z.div_pos; lia|apply Z.div_le_upper_bound; lia]).
  pose proof (Z.mod_pos_bound plen 8 ltac:(lia)) as Hm.
  rewrite (prefix_agree_bytes _ _ _ Ha Hn) by lia. rewrite Z2Nat.id, (prefix_agree_split plen) by lia.
  destruct (decide (plen mod 8 = 0)) as [E|E].
  - rewrite E. change (prefix_byte_mask 0) with 0. rewrite !Z.land_0_r. split; [tauto|]. intros [? _]. split_and!; try done. intros; lia.
  - rewrite mask_eq by lia. tauto.
Qed.

(** A fact about every byte, by enumeration. *)
Lemma byte_forall (P : Z -> bool) : forallb P (map Z.of_nat (seq 0 256)) = true -> forall x, is_byte x -> P x = true.
Proof.
  intros H x Hx. rewrite forallb_forall in H. apply H, in_map_iff. exists (Z.to_nat x). unfold is_byte in Hx.
  split; [lia|]. apply in_seq. lia.
Qed.

(** The masked rows as intervals. *)
Lemma mask_interval m lo hi x :
  forallb (fun x => Bool.eqb (Z.land x m =? Z.land lo m) ((lo <=? x) && (x <=? hi))) (map Z.of_nat (seq 0 256)) = true ->
  is_byte x -> Z.land x m = Z.land lo m <-> lo <= x <= hi.
Proof.
  intros H Hx. pose proof (byte_forall _ H x Hx) as E. apply Bool.eqb_prop in E.
  rewrite <- Z.eqb_eq, E, andb_true_iff, !Z.leb_le. done.
Qed.

Lemma addr_explicit a : addr_ok a -> exists b0 b1 b2 b3 b4 b5 b6 b7 b8 b9 b10 b11 b12 b13 b14 b15,
  a = [b0; b1; b2; b3; b4; b5; b6; b7; b8; b9; b10; b11; b12; b13; b14; b15].
Proof.
  intros [_ Hl]. do 16 (destruct a as [|? a]; [discriminate|]). destruct a; [|discriminate].
  by eexists _, _, _, _, _, _, _, _, _, _, _, _, _, _, _, _.
Qed.

(** A row of a table, with the comparison computed. *)
Ltac row_covers Ha :=
  rewrite covers_bytes; [|by (apply default_deny_ok || (apply deny_row_ok; [repeat constructor; unfold is_byte; lia|simpl; lia|lia]))
    |exact Ha|done|done|simpl; lia].

Lemma cons_eq_iff (x y : Z) (l k : list Z) : x :: l = y :: k <-> x = y /\ l = k.
Proof. split; [by intros [= -> ->]|by intros [-> ->]]. Qed.

Lemma nil_eq_iff : @nil Z = [] <-> True.
Proof. done. Qed.

(** The comparisons as arithmetic on the bytes. *)
Ltac row_arith :=
  change (Z.to_nat (8 / 8)) with 1%nat; simpl take; simpl nth;
  repeat match goal with |- context [prefix_byte_mask ?r] =>
    let m := eval vm_compute in (prefix_byte_mask r) in change (prefix_byte_mask r) with m end;
  rewrite ?Z.land_0_r, ?cons_eq_iff, ?nil_eq_iff.

Lemma default_deny_v4_spec addr : addr_ok addr -> covered DEFAULT_DENY_V4 4 addr <-> v4_special addr = true.
Proof.
  intros Ha. pose proof Ha as [Hb _].
  destruct (addr_explicit addr Ha) as (b0 & b1 & b2 & b3 & b4 & b5 & b6 & b7 & b8 & b9 & b10 & b11 & b12 & b13 & b14 & b15 & E).
  unfold covered, DEFAULT_DENY_V4. rewrite !Exists_cons, Exists_nil. do 10 row_covers Ha.
  rewrite E in *. unfold v4_special. row_arith. repeat (apply Forall_cons in Hb as [? Hb]).
  rewrite (mask_interval 240 16 31), (mask_interval 192 64 127), (mask_interval 240 224 239), (mask_interval 240 240 255)
    by (done || (vm_compute; reflexivity)).
  rewrite !orb_true_iff, !andb_true_iff, !Z.eqb_eq, !Z.leb_le. unfold is_byte in *. lia.
Qed.

Lemma default_deny_v6_spec addr : addr_ok addr -> covered DEFAULT_DENY_V6 6 addr <-> v6_special addr = true.
Proof.
  intros Ha. pose proof Ha as [Hb _].
  destruct (addr_explicit addr Ha) as (b0 & b1 & b2 & b3 & b4 & b5 & b6 & b7 & b8 & b9 & b10 & b11 & b12 & b13 & b14 & b15 & E).
  unfold covered, DEFAULT_DENY_V6. rewrite !Exists_cons, Exists_nil. do 6 row_covers Ha.
  rewrite E in *. unfold v6_special. row_arith. repeat (apply Forall_cons in Hb as [? Hb]).
  rewrite (mask_interval 192 128 191), (mask_interval 254 252 253) by (done || (vm_compute; reflexivity)).
  assert (Hz10 : forallb (Z.eqb 0) [b0; b1; b2; b3; b4; b5; b6; b7; b8; b9] = true <->
    b0 = 0 /\ b1 = 0 /\ b2 = 0 /\ b3 = 0 /\ b4 = 0 /\ b5 = 0 /\ b6 = 0 /\ b7 = 0 /\ b8 = 0 /\ b9 = 0).
  { cbn [forallb]. rewrite !andb_true_iff, !Z.eqb_eq. split; intros; destruct_and?; split_and!; congruence. }
  assert (Hz15 : forallb (Z.eqb 0) [b0; b1; b2; b3; b4; b5; b6; b7; b8; b9; b10; b11; b12; b13; b14] = true <->
    (b0 = 0 /\ b1 = 0 /\ b2 = 0 /\ b3 = 0 /\ b4 = 0 /\ b5 = 0 /\ b6 = 0 /\ b7 = 0 /\ b8 = 0 /\ b9 = 0) /\
    b10 = 0 /\ b11 = 0 /\ b12 = 0 /\ b13 = 0 /\ b14 = 0).
  { cbn [forallb]. rewrite !andb_true_iff, !Z.eqb_eq. split; intros; destruct_and?; split_and!; congruence. }
  simpl take. rewrite !orb_true_iff, !andb_true_iff, Hz10, Hz15, !Z.eqb_eq, !Z.leb_le.
  set (Z10 := b0 = 0 /\ b1 = 0 /\ b2 = 0 /\ b3 = 0 /\ b4 = 0 /\ b5 = 0 /\ b6 = 0 /\ b7 = 0 /\ b8 = 0 /\ b9 = 0).
  assert (Hre : forall Q, (b0 = 0 /\ b1 = 0 /\ b2 = 0 /\ b3 = 0 /\ b4 = 0 /\ b5 = 0 /\ b6 = 0 /\ b7 = 0 /\ b8 = 0 /\ b9 = 0 /\ Q) <-> (Z10 /\ Q))
    by (unfold Z10; tauto).
  rewrite !Hre. clear Hz10 Hz15 Hre. assert (is_byte b15) as [? ?] by done.
  assert (Hb15 : b15 <= 1 <-> b15 = 0 \/ b15 = 1) by lia. assert (Hula : 252 <= b0 <= 253 <-> b0 = 252 \/ b0 = 253) by lia.
  rewrite Hb15, Hula. clearbody Z10. tauto.
Qed.

(** The egress policy.  For any destination and any well-formed lists the
    decision is made within bounds and follows the precedence: the tunnel
    subnet is refused first, an allow entry then admits, and otherwise the
    destination must be outside the built-in ranges and the deny list.  In
    particular a destination that no allow entry covers is admitted only
    outside the special-purpose IPv4 and IPv6 ranges. *)
Theorem egress_policy fam addr allow deny tunnel :
  Forall entry_ok allow -> Forall entry_ok deny -> entry_ok tunnel -> addr_ok addr ->
  exists h, svr_tcp_egress_acl_decide fam addr allow deny tunnel = Some h /\
    (h = true <-> ~ covers_addr tunnel fam addr /\
       (covered allow fam addr \/ ~ covered (default_deny fam) fam addr /\ ~ covered deny fam addr)) /\
    (h = true -> ~ covered allow fam addr ->
       (fam = 4 -> v4_special addr = false) /\ (fam = 6 -> v6_special addr = false)).
Proof.
  intros Hal Hde Ht Ha. destruct (acl_decide_lemma fam addr allow deny tunnel Hal Hde Ht Ha) as (h & E & Hh).
  exists h. split_and!; [done|done|]. intros Hyes Hna. apply Hh in Hyes as [_ [?|[Hd _]]]; [done|].
  split; intros ->; unfold default_deny in Hd; simpl in Hd;
    [rewrite (default_deny_v4_spec addr Ha) in Hd|rewrite (default_deny_v6_spec addr Ha) in Hd]; by apply not_true_is_false.
Qed.

Lemma egress_policy_witness :
  (exists h, svr_tcp_egress_acl_decide 4 (v4_net 134744072) [] [] unset_cidr = Some h) /\
  svr_tcp_egress_acl_decide 4 (v4_net 134744072) [] [] unset_cidr = Some true /\
  svr_tcp_egress_acl_decide 4 (v4_net 3232235777) [] [] unset_cidr = Some false /\
  svr_tcp_egress_acl_decide 4 (v4_net 3232235777) [deny_row 4 24 [192; 168; 1]] [] unset_cidr = Some true.
Proof.
  split; [|split; [vm_compute; reflexivity|split; vm_compute; reflexivity]].
  destruct (egress_policy 4 (v4_net 134744072) [] [] unset_cidr) as (h & E & _).
  - constructor.
  - constructor.
  - split; [split; [repeat constructor; unfold is_byte; lia|reflexivity]|simpl; lia].
  - apply v4_net_ok.
  - exists h. exact E.
Defined.

(** ** The request target *)

Lemma dec_value_ge s port : digits_ok s -> 0 <= port -> port <= dec_value port s.
Proof.
  revert port. induction s as [|c s IH]; intros port Hs Hp; [unfold dec_value; simpl; lia|].
  apply Forall_cons in Hs as [Hc Hs]. change (dec_value port (c :: s)) with (dec_value (port * 10 + (c - 48)) s).
  specialize (IH (port * 10 + (c - 48)) Hs ltac:(lia)). lia.
Qed.

Lemma parse_port_ok s port : digits_ok s -> 0 <= port -> dec_value port s <= 65535 -> parse_port port s = Some (dec_value port s).
Proof.
  revert port. induction s as [|c s IH]; intros port Hs Hp Hv; [done|]. apply Forall_cons in Hs as [Hc Hs].
  change (dec_value port (c :: s)) with (dec_value (port * 10 + (c - 48)) s) in *.
  pose proof (dec_value_ge s (port * 10 + (c - 48)) Hs ltac:(lia)). cbn [parse_port].
  rewrite !(proj2 (Z.ltb_ge _ _)) by lia. cbn [orb]. rewrite (u32_small (port * 10)), u32_small by lia.
  rewrite (proj2 (Z.ltb_ge _ _)) by lia. by apply IH; (done || lia).
Qed.

Lemma parse_port_nonneg s port v : 0 <= port -> parse_port port s = Some v -> 0 <= v.
Proof.
  revert port. induction s as [|c s IH]; intros port Hp; simpl; [by intros [= <-]|].
  destruct (_ || _); [done|]. destruct (65535 <? _); [done|]. apply IH. apply Z.mod_pos_bound. lia.
Qed.

Lemma parse_path_format host port cap :
  47 ∉ host -> 0 < Z.of_nat (length host) < cap -> 1 <= port <= 65535 ->
  svr_tcp_egress_parse_path (MQVPN_TCP_CONNECT_PATH_PREFIX ++ host ++ [47] ++ print_u32 port ++ [47]) cap = Some (host, port).
Proof.
  intros Hh Hl Hp. unfold svr_tcp_egress_parse_path. rewrite (proj2 (Z.eqb_neq cap 0)) by lia.
  assert (Hlen : length TCP_EGRESS_PATH_PREFIX = 23%nat) by done. rewrite Hlen.
  change MQVPN_TCP_CONNECT_PATH_PREFIX with TCP_EGRESS_PATH_PREFIX.
  rewrite (proj2 (Nat.leb_gt _ _)) by (rewrite !length_app, Hlen; simpl; lia).
  rewrite take_app_length', drop_app_length' by done. rewrite bool_decide_eq_true_2 by done. cbn [negb].
  change (host ++ [47] ++ print_u32 port ++ [47]) with (host ++ 47 :: (print_u32 port ++ [47])). rewrite strchr_split_first by done.
  rewrite (proj2 (Z.eqb_neq _ 0)), (proj2 (Z.leb_gt _ _)) by lia. cbn [orb].
  pose proof (print_u32_digits port ltac:(lia)) as Hd.
  rewrite (strchr_split_first 47 (print_u32 port) []) by (apply digits_not_in; [done|lia]). rewrite bool_decide_eq_true_2 by done. cbn [negb].
  pose proof (print_u32_length port 5 ltac:(simpl; lia) ltac:(lia)) as Hpl.
  rewrite (proj2 (Z.eqb_neq _ 0)), (proj2 (Z.ltb_ge _ _)) by lia. cbn [orb].
  rewrite parse_port_ok by (done || lia || (rewrite print_u32_value by lia; lia)). rewrite print_u32_value by lia.
  rewrite (proj2 (Z.ltb_ge _ _)), u16_small by lia. done.
Qed.

Lemma print_v4_ok a : bytes_ok a ->
  (0 < length (print_v4 a) <= 15)%nat /\ (47 ∉ print_v4 a) /\ (58 ∉ print_v4 a) /\ (0 ∉ print_v4 a).
Proof.
  intros Ha. assert (Hn : forall i, 0 <= nth i a 0 < 10 ^ Z.of_nat 3) by (intros; pose proof (nth_byte a i Ha); unfold is_byte in *; simpl; lia).
  split.
  - unfold print_v4. rewrite !length_app. simpl length.
    pose proof (print_u32_length _ 3 (Hn 0%nat) ltac:(lia)). pose proof (print_u32_length _ 3 (Hn 1%nat) ltac:(lia)).
    pose proof (print_u32_length _ 3 (Hn 2%nat) ltac:(lia)). pose proof (print_u32_length _ 3 (Hn 3%nat) ltac:(lia)). lia.
  - assert (Hc : forall c, ~ (48 <= c <= 57) -> c <> 46 -> c ∉ print_v4 a).
    { intros c H1 H2. unfold print_v4. rewrite !not_elem_of_app, !list_elem_of_singleton.
      split_and!; try done; apply digits_not_in; try done; apply print_u32_digits, (proj1 (Hn _)). }
    split_and!; apply Hc; lia.
Qed.

(** ** The lane *)

(** What the stream lane can carry of an IPv6 flow. *)
Definition v6_carriable (pkt : list Z) (k : mqvpn_flow_key_t) : Prop :=
  rd pkt 6 = Some MQVPN_IPPROTO_TCP /\
  take 12 (dst_ip k) <> replicate 10 0 ++ [255; 255] /\ take 12 (src_ip k) <> replicate 10 0 ++ [255; 255] /\
  nth 0 (src_ip k) 0 <> 255 /\ nth 0 (dst_ip k) 0 <> 255 /\ src_ip k <> replicate 16 0.

Definition tunnel_entry (p : mqvpn_hybrid_config_t) (k : mqvpn_flow_key_t) : mqvpn_cidr_entry_t :=
  if ip_version k =? 6 then (client_tunnel_subnet p).2 else (client_tunnel_subnet p).1.

Lemma forallb_zero l : forallb (Z.eqb 0) l = true <-> l = replicate (length l) 0.
Proof.
  induction l as [|x l IH]; [done|]. cbn [forallb length replicate]. rewrite andb_true_iff, IH, Z.eqb_eq. split; [by intros [<- <-]|].
  intros [= -> E]. by rewrite <- E.
Qed.

Lemma v4mapped_spec a : addr_ok a -> exists h, is_v4mapped a = Some h /\ (h = true <-> take 12 a = replicate 10 0 ++ [255; 255]).
Proof.
  intros Ha. destruct (addr_explicit a Ha) as (b0 & b1 & b2 & b3 & b4 & b5 & b6 & b7 & b8 & b9 & b10 & b11 & b12 & b13 & b14 & b15 & ->).
  unfold is_v4mapped. change (rdn _ 0 10) with (Some [b0; b1; b2; b3; b4; b5; b6; b7; b8; b9]). cbn [mbind option_bind].
  change (rd _ 10) with (Some b10). change (rd _ 11) with (Some b11). cbn [mbind option_bind].
  change (take 12 _) with ([b0; b1; b2; b3; b4; b5; b6; b7; b8; b9] ++ [b10; b11]).
  pose proof (forallb_zero [b0; b1; b2; b3; b4; b5; b6; b7; b8; b9]) as Hz. change (length _) with 10%nat in Hz.
  destruct (forallb _ _); cbn [negb]; eexists; (split; [done|]).
  - rewrite (proj1 Hz eq_refl). rewrite andb_true_iff, !Z.eqb_eq. split; [by intros [-> ->]|]. intros E%app_inj_1; [|done].
    destruct E as [_ [= -> ->]]. done.
  - split; [done|]. intros E%app_inj_1; [|done]. destruct E as [E _]. by apply Hz in E.
Qed.

Lemma unspecified_spec a : addr_ok a -> exists h, is_unspecified a = Some h /\ (h = true <-> a = replicate 16 0).
Proof.
  intros [_ Hl]. unfold is_unspecified. assert (rdn a 0 16 = Some a) as ->.
  { unfold rdn, blen. rewrite Hl. simpl. f_equal. change (Z.to_nat 0) with 0%nat. rewrite drop_0. apply take_ge. rewrite Hl. done. }
  cbn [mbind option_bind]. eexists. split; [done|]. rewrite forallb_zero. by rewrite Hl.
Qed.

Lemma multicast_spec a : addr_ok a -> is_v6_multicast a = Some (nth 0 a 0 =? 255).
Proof. intros [_ Hl]. destruct a as [|x a]; [done|]. done. Qed.

Lemma lane_ineligible_spec k : addr_ok (src_ip k) -> addr_ok (dst_ip k) ->
  exists h, v6_lane_ineligible k = Some h /\
    (h = false <-> take 12 (dst_ip k) <> replicate 10 0 ++ [255; 255] /\ take 12 (src_ip k) <> replicate 10 0 ++ [255; 255] /\
       nth 0 (src_ip k) 0 <> 255 /\ nth 0 (dst_ip k) 0 <> 255 /\ src_ip k <> replicate 16 0).
Proof.
  intros Hs Hd. unfold v6_lane_ineligible. destruct (v4mapped_spec _ Hd) as (h1 & -> & E1), (v4mapped_spec _ Hs) as (h2 & -> & E2).
  rewrite !multicast_spec by done. destruct (unspecified_spec _ Hs) as (h3 & -> & E3). cbn [mbind option_bind].
  destruct h1; [exists true; split; [done|]; split; [done|intros (H & _); destruct H; by apply E1]|].
  destruct h2; [exists true; split; [done|]; split; [done|intros (_ & H & _); destruct H; by apply E2]|].
  destruct (Z.eqb_spec (nth 0 (src_ip k) 0) 255); [exists true; split; [done|]; split; [done|intros (_ & _ & H & _); done]|].
  destruct (Z.eqb_spec (nth 0 (dst_ip k) 0) 255); [exists true; split; [done|]; split; [done|intros (_ & _ & _ & H & _); done]|].
  exists h3. split; [done|]. destruct h3; split; try done.
  - intros (_ & _ & _ & _ & H). destruct H. by apply E3.
  - intros _. split_and!; try done; [by rewrite <- E1|by rewrite <- E2|by rewrite <- E3].
Qed.

(** The destination of an IPv4 key is padded with zeros. *)
Lemma parse_v4_dst pkt b0 v k : parse_v4 pkt b0 = Some (v, Some k) ->
  ip_version k = 4 /\ exists d, length d = 4%nat /\ dst_ip k = d ++ replicate 12 0.
Proof.
  unfold parse_v4. destruct (blen pkt <? 20); [done|]. destruct (_ || _); [done|].
  destruct (rd pkt 6); [|done]. destruct (rd pkt 7); [|done]. cbn [mbind option_bind]. destruct (negb _); [done|].
  destruct (rd pkt 9); [|done]. cbn [mbind option_bind]. destruct (_ && _); [done|]. destruct (_ <? _); [done|].
  destruct (rdn pkt 12 4); [|done]. destruct (rdn pkt 16 4) as [d|] eqn:Ed; [|done].
  destruct (rd_ports _ _); [|done]. cbn [mbind option_bind]. intros [= _ <-]. split; [done|]. exists d.
  apply rdn_spec in Ed as (Hl & _). unfold blen in Hl. split; [lia|done].
Qed.

Lemma classify_lane pkt pol :
  bytes_ok pkt -> (forall p, pol = Some p -> entry_ok (client_tunnel_subnet p).1 /\ entry_ok (client_tunnel_subnet p).2) ->
  exists v key lane, mqvpn_parse_l3l4 pkt = Some (v, key) /\ mqvpn_hybrid_classify pkt pol = Some (lane, key) /\
    (lane = MQVPN_LANE_DGRAM <-> v = MQVPN_L4_UDP) /\
    (lane = MQVPN_LANE_TCP <-> exists p k, pol = Some p /\ v = MQVPN_L4_TCP /\ key = Some k /\
       enabled p = true /\ tcp_mode p <> MQVPN_HYBRID_TCP_RAW /\ (ip_version k = 6 -> v6_carriable pkt k) /\
       ~ covers_addr (tunnel_entry p k) (ip_version k) (dst_ip k)).
Proof.
  intros Hb Hpol. destruct (parse_l3l4_wf pkt Hb) as ([v key] & E & Hw). exists v, key. unfold mqvpn_hybrid_classify. rewrite E.
  cbn [mbind option_bind]. destruct v, key as [k|]; try done;
    try (eexists; split; [done|]; split; [done|]; split; [done|]; split; [done|by intros (? & ? & _ & ? & _)]).
  destruct Hw as [Hk _]. pose proof Hk as (_ & _ & _ & _ & Hsl & Hdl & Hsb & Hdb).
  assert (Hs : addr_ok (src_ip k)) by done. assert (Hd : addr_ok (dst_ip k)) by done.
  assert (Hraw : forall (P : Prop), ~ P -> exists lane, Some (MQVPN_L4_TCP, Some k) = Some (MQVPN_L4_TCP, Some k) /\
    Some (MQVPN_LANE_RAW, Some k) = Some (lane, Some k) /\ (lane = MQVPN_LANE_DGRAM <-> MQVPN_L4_TCP = MQVPN_L4_UDP) /\ (lane = MQVPN_LANE_TCP <-> P))
    by (intros P HP; exists MQVPN_LANE_RAW; split_and!; done).
  destruct pol as [p|]; [|apply Hraw; by intros (? & ? & ? & _)]. destruct (Hpol p eq_refl) as [He1 He2].
  destruct (enabled p) eqn:Een; cbn [negb orb]; [|apply Hraw; intros (? & ? & [= <-] & _ & _ & ? & _); congruence].
  destruct (Z.eqb_spec (tcp_mode p) MQVPN_HYBRID_TCP_RAW); [apply Hraw; intros (? & ? & [= <-] & _ & _ & _ & ? & _); done|].
  assert (Het : entry_ok (tunnel_entry p k)) by (unfold tunnel_entry; by destruct (ip_version k =? 6)).
  fold (tunnel_entry p k). destruct (cidr_match_lemma (tunnel_entry p k) (ip_version k) (dst_ip k) Het Hd) as (h & -> & Hh).
  assert (Hfin : (ip_version k = 6 -> v6_carriable pkt k) -> exists lane, Some (MQVPN_L4_TCP, Some k) = Some (MQVPN_L4_TCP, Some k) /\
    (hit ← Some h; Some (if (hit : bool) then MQVPN_LANE_RAW else MQVPN_LANE_TCP, Some k)) = Some (lane, Some k) /\
    (lane = MQVPN_LANE_DGRAM <-> MQVPN_L4_TCP = MQVPN_L4_UDP) /\
    (lane = MQVPN_LANE_TCP <-> exists p' k', Some p = Some p' /\ MQVPN_L4_TCP = MQVPN_L4_TCP /\ Some k = Some k' /\ enabled p' = true /\
       tcp_mode p' <> MQVPN_HYBRID_TCP_RAW /\ (ip_version k' = 6 -> v6_carriable pkt k') /\ ~ covers_addr (tunnel_entry p' k') (ip_version k') (dst_ip k'))).
  { intros Hc. cbn [mbind option_bind]. eexists. split; [done|]. split; [done|]. destruct h; (split; [done|]); split; try done.
    - intros (? & ? & [= <-] & _ & [= <-] & _ & _ & _ & H). destruct H. by apply Hh.
    - intros _. exists p, k. split_and!; try done. by rewrite <- Hh. }
  destruct (Z.eqb_spec (ip_version k) 6) as [E6|N6]; [|by apply Hfin].
  assert (H40 : 40 <= blen pkt).
  { unfold mqvpn_parse_l3l4 in E. destruct (blen pkt <? 1); [done|]. destruct (rd pkt 0) as [b0|]; [|done]. cbn [mbind option_bind] in E.
    destruct (_ =? 4); [|destruct (_ =? 6); [|done]; by destruct (Z.ltb_spec (blen pkt) 40)].
    destruct (parse_v4_dst pkt b0 _ k E) as (? & _). congruence. }
  destruct (rd_in_bounds pkt 6) as [b6 Eb6]; [lia|]. rewrite Eb6. cbn [mbind option_bind].
  destruct (Z.eqb_spec b6 MQVPN_IPPROTO_TCP) as [->|Hb6]; cbn [negb].
  2:{ apply Hraw. intros (? & ? & _ & _ & [= <-] & _ & _ & Hc & _). destruct (Hc E6) as [? _]. congruence. }
  destruct (lane_ineligible_spec k Hs Hd) as (h2 & -> & Eh2). destruct h2.
  - apply Hraw. intros (? & ? & _ & _ & [= <-] & _ & _ & Hc & _). destruct (Hc E6) as [_ Hc']. by apply Eh2 in Hc'.
  - apply Hfin. intros _. split; [done|]. by apply Eh2.
Qed.

(** The lane of a packet.  Any packet is classified within bounds.  It
    goes to the datagram lane exactly when it parses as UDP, and to the stream
    lane exactly when it is TCP, the lane is enabled and not in raw mode, an
    IPv6 flow is one that the embedded stack can carry (no extension header,
    no mapped, multicast or unspecified address), and the destination is
    outside the tunnel subnet learned for its family. *)
Theorem classify_exact pkt pol :
  bytes_ok pkt -> (forall p, pol = Some p -> entry_ok (client_tunnel_subnet p).1 /\ entry_ok (client_tunnel_subnet p).2) ->
  exists v key lane, mqvpn_parse_l3l4 pkt = Some (v, key) /\ mqvpn_hybrid_classify pkt pol = Some (lane, key) /\
    (lane = MQVPN_LANE_DGRAM <-> v = MQVPN_L4_UDP) /\
    (lane = MQVPN_LANE_TCP <-> exists p k, pol = Some p /\ v = MQVPN_L4_TCP /\ key = Some k /\
       enabled p = true /\ tcp_mode p <> MQVPN_HYBRID_TCP_RAW /\ (ip_version k = 6 -> v6_carriable pkt k) /\
       ~ covers_addr (tunnel_entry p k) (ip_version k) (dst_ip k)).
Proof. apply classify_lane. Qed.

(** A TCP segment from 10.0.0.2 to port 443 of 8.8.8.8. *)
Definition sample_tcp : list Z :=
  [69; 0; 0; 40; 0; 0; 0; 0; 64; 6; 0; 0; 10; 0; 0; 2; 8; 8; 8; 8; 18; 52; 1; 187; 0; 0; 0; 1; 0; 0; 0; 0; 80; 2; 255; 255; 0; 0; 0; 0].

Lemma sample_tcp_bytes : bytes_ok sample_tcp.
Proof. unfold sample_tcp. repeat (apply Forall_cons_2; [unfold is_byte; lia|]). apply Forall_nil_2. Qed.

Lemma unset_cidr_ok : entry_ok unset_cidr.
Proof. split; [split; [apply Forall_replicate; unfold is_byte; lia|done]|simpl; lia]. Qed.

Lemma classify_exact_witness :
  (exists v key lane, mqvpn_parse_l3l4 sample_tcp = Some (v, key) /\
     mqvpn_hybrid_classify sample_tcp (Some (mqvpn_hybrid_config_default <| enabled := true |>)) = Some (lane, key)) /\
  fst <$> mqvpn_hybrid_classify sample_tcp (Some (mqvpn_hybrid_config_default <| enabled := true |>)) = Some MQVPN_LANE_TCP.
Proof.
  split; [|vm_compute; reflexivity].
  destruct (classify_exact sample_tcp (Some (mqvpn_hybrid_config_default <| enabled := true |>))) as (v & key & lane & E & Ec & _).
  - exact sample_tcp_bytes.
  - intros p [= <-]. exact (conj unset_cidr_ok unset_cidr_ok).
  - exact (ex_intro _ v (ex_intro _ key (ex_intro _ lane (conj E Ec)))).
Defined.

(** ** Configuration *)

(** The field that a name stands for, and whether a value of it is refused. *)
Definition field_bad (cfg : mqvpn_hybrid_config_t) (f : hybrid_field) : bool :=
  match f with
  | HfTcp => MQVPN_HYBRID_TCP_AUTO <? tcp_mode cfg
  | HfTcpMaxFlows => tcp_max_flows cfg =? 0
  | HfTcpConnectTimeoutSec => tcp_connect_timeout_sec cfg =? 0
  | HfTcpMaxGlobalFlows => tcp_max_global_flows cfg =? 0
  end.

Definition bad_fields (cfg : mqvpn_hybrid_config_t) : list hybrid_field :=
  List.filter (field_bad cfg) [HfTcp; HfTcpMaxFlows; HfTcpConnectTimeoutSec; HfTcpMaxGlobalFlows].

(** Sanitizing a hybrid configuration.  The result passes validation; a
    configuration that already passes is returned as it is, and passes exactly
    when no field is bad; the fields that are reset are exactly the refused
    ones, to the defaults; the number returned counts them all, and the names
    written are the first ones that fit the caller's array. *)
Theorem hybrid_sanitize_validates cfg max_names : 0 <= max_names ->
  let '(cfg', names, n) := mqvpn_hybrid_config_sanitize cfg max_names in
  let d := mqvpn_hybrid_config_default in
  mqvpn_hybrid_config_validate cfg' = true /\
  (mqvpn_hybrid_config_validate cfg = true <-> bad_fields cfg = []) /\
  (mqvpn_hybrid_config_validate cfg = true -> cfg' = cfg) /\
  n = Z.of_nat (length (bad_fields cfg)) /\ names = take (Z.to_nat max_names) (bad_fields cfg) /\
  cfg' = cfg <| tcp_mode := (if field_bad cfg HfTcp then tcp_mode d else tcp_mode cfg) |>
             <| tcp_max_flows := if field_bad cfg HfTcpMaxFlows then tcp_max_flows d else tcp_max_flows cfg |>
             <| tcp_connect_timeout_sec :=
                  if field_bad cfg HfTcpConnectTimeoutSec then tcp_connect_timeout_sec d else tcp_connect_timeout_sec cfg |>
             <| tcp_max_global_flows :=
                  if field_bad cfg HfTcpMaxGlobalFlows then tcp_max_global_flows d else tcp_max_global_flows cfg |>.
Proof.
  intros Hm. destruct cfg as [en mode mf idle ct mg al de tun].
  unfold mqvpn_hybrid_config_sanitize, mqvpn_hybrid_config_validate, bad_fields, note_reset, field_bad.
  assert (Hk : exists k, max_names = Z.of_nat k) by (exists (Z.to_nat max_names); lia). destruct Hk as [k ->]. rewrite Nat2Z.id.
  cbn -[Z.ltb Z.eqb Z.add take].
  destruct (MQVPN_HYBRID_TCP_AUTO <? mode) eqn:E1, (mf =? 0) eqn:E2, (ct =? 0) eqn:E3, (mg =? 0) eqn:E4; cbn -[Z.ltb Z.eqb Z.add take];
    do 4 (rewrite ?E1, ?E2, ?E3, ?E4; cbn -[Z.ltb Z.eqb Z.add take]);
    (split; [done|]; split; [done|]; split; [done|]; split; [done|]; split; [|done]);
    destruct k as [|[|[|[|k]]]]; reflexivity || (repeat (rewrite (proj2 (Z.ltb_lt _ _)) by lia); cbn; by rewrite ?take_nil).
Qed.

Lemma hybrid_sanitize_validates_witness :
  let cfg := mqvpn_hybrid_config_default <| tcp_mode := 7 |> <| tcp_max_global_flows := 0 |> in
  let '(cfg', names, n) := mqvpn_hybrid_config_sanitize cfg 1 in
  mqvpn_hybrid_config_validate cfg' = true /\ names = [HfTcp] /\ n = 2.
Proof.
  pose proof (hybrid_sanitize_validates (mqvpn_hybrid_config_default <| tcp_mode := 7 |> <| tcp_max_global_flows := 0 |>) 1 ltac:(lia)) as H.
  exact (conj (proj1 H) (conj eq_refl eq_refl)).
Defined.
