(* ===== verification/HybridLane.v ===== *)
(** * From a classified packet to the server's decision

    The client's stream lane and the server's egress policy composed: the
    request that a classified flow makes is parsed back to the flow's own
    destination, and the tunnel subnets known on the two sides agree, so that
    a laned flow is judged by the server's lists alone. *)

From S2P Require Import Prelude CString Wire AddrPool Hybrid HybridProofs.

(** The documented behaviour of the address conversions that the lane relies
    on: dotted decimals are read back, and the IPv6 text form is read back,
    has a colon, no slash, and fits its buffer. *)
Record inet_ok (inet_pton4 : list Z -> option Z) (inet_pton6 inet_ntop6 : list Z -> option (list Z)) : Prop := {
  io_pton4_range s a : inet_pton4 s = Some a -> 0 <= a < 2 ^ 32;
  io_pton6_bytes s a : inet_pton6 s = Some a -> addr_ok a;
  io_dotted b0 b1 b2 b3 : bytes_ok [b0; b1; b2; b3] ->
    inet_pton4 (print_v4 [b0; b1; b2; b3]) = Some (((b0 * 256 + b1) * 256 + b2) * 256 + b3);
  io_text6 a : addr_ok a -> exists s, inet_ntop6 a = Some s /\ inet_pton6 s = Some a /\
    (58 ∈ s) /\ (47 ∉ s) /\ (0 ∉ s) /\ (length s <= 45)%nat
}.

Lemma v4_net_value b0 b1 b2 b3 : bytes_ok [b0; b1; b2; b3] ->
  v4_net (((b0 * 256 + b1) * 256 + b2) * 256 + b3) = [b0; b1; b2; b3] ++ replicate 12 0.
Proof.
  intros Hb. repeat (apply Forall_cons in Hb as [? Hb]). unfold is_byte in *. unfold v4_net, be32_list. cbn [app].
  rewrite !Z.shiftr_div_pow2 by lia. unfold u8. rewrite !cons_eq_iff.
  split_and!; try done; Z.to_euclidean_division_equations; lia.
Qed.

Lemma print_v4_first a b : (4 <= length a)%nat -> print_v4 (a ++ b) = print_v4 a.
Proof. intros Hl. unfold print_v4. rewrite !app_nth1 by lia. done. Qed.

Lemma strchr_found c s : c ∈ s -> exists r, strchr_split c s = Some r.
Proof.
  intros Hin. destruct (strchr_split c s) as [r|] eqn:E; [by exists r|]. exfalso.
  induction s as [|x s IH]; [by apply elem_of_nil in Hin|]. simpl in E. destruct (Z.eqb_spec x c) as [->|Hne]; [done|].
  apply elem_of_cons in Hin as [->|Hin]; [done|]. destruct (strchr_split c s) as [[? ?]|]; [done|]. by apply IH.
Qed.

(** The text of the destination, as the client writes it. *)
Lemma lane_host pton4 pton6 ntop6 pkt v k : inet_ok pton4 pton6 ntop6 -> bytes_ok pkt -> mqvpn_parse_l3l4 pkt = Some (v, Some k) ->
  exists host, (0 < length host <= 45)%nat /\ (47 ∉ host) /\ resolve_target pton4 pton6 host = Some (ip_version k, dst_ip k) /\
    forall cap, mqvpn_tcp_lane_format_connect_path ntop6 cap k =
      Some (snprintf_z cap (MQVPN_TCP_CONNECT_PATH_PREFIX ++ host ++ [47] ++ print_u32 (dst_port k) ++ [47])).
Proof.
  intros Hi Hb E. destruct (parse_l3l4_wf pkt Hb) as (r & Er & Hw). rewrite E in Er. injection Er as <-.
  assert (Hk : key_wf k) by (destruct v; try done; apply Hw). pose proof Hk as (Hv & _ & _ & _ & _ & Hdl & _ & Hdb).
  unfold mqvpn_tcp_lane_format_connect_path, resolve_target. destruct (Z.eqb_spec (ip_version k) 6) as [E6|N6].
  - destruct (io_text6 _ _ _ Hi (dst_ip k) (conj Hdb Hdl)) as (s & -> & Hp & Hc & Hs & H0 & Hl). exists s. cbn [mbind option_bind].
    rewrite (cstr_id s H0), Hp. destruct (strchr_found 58 s Hc) as [? ->]. rewrite E6. split_and!; try done.
    destruct s; [by apply elem_of_nil in Hc|simpl; lia].
  - destruct Hv as [E4|?]; [|done]. exists (print_v4 (dst_ip k)). destruct (print_v4_ok (dst_ip k) Hdb) as (Hl & Hs & Hc & H0).
    rewrite (cstr_id _ H0), (strchr_split_none 58) by done.
    assert (Hd : exists d, length d = 4%nat /\ dst_ip k = d ++ replicate 12 0).
    { unfold mqvpn_parse_l3l4 in E. destruct (blen pkt <? 1); [done|]. destruct (rd pkt 0) as [b0|]; [|done]. cbn [mbind option_bind] in E.
      destruct (_ =? 4); [by eapply parse_v4_dst|]. destruct (_ =? 6); [|done]. destruct (blen pkt <? 40); [done|].
      destruct (rd pkt 6) as [nx|]; [|done]. cbn [mbind option_bind] in E. by rewrite (walk_version _ _ _ _ _ _ E) in N6. }
    destruct Hd as (d & Hdlen & Ed). rewrite Ed in Hdb |- *. rewrite print_v4_first by lia.
    destruct d as [|b0 [|b1 [|b2 [|b3 [|]]]]]; try discriminate. apply Forall_app in Hdb as [Hdb _].
    rewrite (io_dotted _ _ _ Hi) by done. rewrite E4. cbn [fmap option_fmap option_map]. rewrite v4_net_value by done.
    rewrite Ed, print_v4_first in Hl by (simpl; lia). rewrite Ed, print_v4_first in Hs by (simpl; lia). split_and!; (done || lia).
Qed.

(** ** The tunnel subnets of the two sides *)

(** What the policy needs of a created pool: prefixes that the client's
    widening to /24 and /112 does not cut short. *)
Record policy_pool (pool : mqvpn_addr_pool_t) : Prop := {
  pp_plen : 24 <= prefix_len pool <= 32;
  pp_base6 : has_v6 pool = true -> addr_ok (base6 pool) /\ 112 <= prefix6 pool <= 128
}.

Lemma masked_covers fam plen n n' addr : fam <> 0 -> 0 <= plen <= 128 ->
  (forall k, 0 <= k < 128 -> addr_bit n' k = (k <? plen) && addr_bit n k) ->
  covers_addr (CidrEntry fam plen n') fam addr <-> prefix_agree plen addr n.
Proof.
  intros Hf Hp Hm. unfold covers_addr. cbn [family cidr_plen net]. rewrite (prefix_agree_masked plen addr n n') by done.
  split; [tauto|]. intros. split_and!; (done || lia).
Qed.

Lemma egress_policy_tunnels pool : policy_pool pool ->
  exists t4 t6, svr_get_egress_policy pool = Some (t4, t6) /\ entry_ok t4 /\ entry_ok t6 /\
    (forall addr, covers_addr t4 4 addr <-> prefix_agree (prefix_len pool) addr (v4_net (base pool))) /\
    (forall addr, covers_addr t6 6 addr <-> has_v6 pool = true /\ prefix_agree (prefix6 pool) addr (base6 pool)).
Proof.
  intros [Hp H6]. unfold svr_get_egress_policy. rewrite (u8_small (prefix_len pool)) by lia.
  destruct (premask_ok (v4_net (base pool)) (prefix_len pool) (v4_net_ok _)) as (n4 & -> & Hn4 & Hb4); [lia|]. cbn [mbind option_bind].
  assert (He4 : entry_ok (CidrEntry 4 (prefix_len pool) n4)) by (split; [done|simpl; lia]).
  assert (Hc4 : forall addr, covers_addr (CidrEntry 4 (prefix_len pool) n4) 4 addr <-> prefix_agree (prefix_len pool) addr (v4_net (base pool)))
    by (intros; apply masked_covers; [done|lia|done]).
  destruct (has_v6 pool); [|eexists _, _; split; [done|]; split_and!; try done].
  - destruct (H6 eq_refl) as [Hb6 Hp6]. rewrite (u8_small (prefix6 pool)) by lia.
    destruct (premask_ok (base6 pool) (prefix6 pool) Hb6) as (n6 & -> & Hn6 & Hbit6); [lia|]. cbn [mbind option_bind].
    eexists _, _. split; [done|]. split_and!; try done; [split; [done|simpl; lia]|].
    intros addr. rewrite (masked_covers 6 (prefix6 pool) (base6 pool) n6 addr); [tauto|done|lia|done].
  - split; [split; [|done]; apply Forall_replicate; unfold is_byte; lia|simpl; lia].
  - intros addr. split; [intros (_ & Hf & _); discriminate Hf|]. by intros [? _].
Qed.

Lemma learn_covers ip e : bytes_ok ip -> length ip = 4%nat -> mqvpn_tunnel_subnet_learn ip 32 = Some e ->
  entry_ok e /\ forall addr, covers_addr e 4 addr <-> prefix_agree 24 addr (ip ++ replicate 12 0).
Proof.
  intros Hb Hl. unfold mqvpn_tunnel_subnet_learn. cbn. rewrite (take_ge ip) by lia.
  assert (Hok : addr_ok (ip ++ replicate 12 0)).
  { split; [apply Forall_app; split; [done|apply Forall_replicate; unfold is_byte; lia]|]. rewrite length_app, length_replicate. lia. }
  destruct (premask_ok (ip ++ replicate 12 0) 24 Hok) as (n & En & Hn & Hbits); [lia|].
  change (ip ++ [0; 0; 0; 0; 0; 0; 0; 0; 0; 0; 0; 0]) with (ip ++ replicate 12 0). rewrite En. cbn [mbind option_bind]. intros [= <-].
  split; [by split|]. intros addr. apply masked_covers; [done|lia|done].
Qed.

Lemma learn_v6_covers ip6 e : addr_ok ip6 -> mqvpn_tunnel_subnet_learn_v6 ip6 128 = Some e ->
  entry_ok e /\ forall addr, covers_addr e 6 addr <-> prefix_agree 112 addr ip6.
Proof.
  intros [Hb Hl]. unfold mqvpn_tunnel_subnet_learn_v6. cbn -[take]. rewrite (take_ge ip6) by lia.
  destruct (premask_ok ip6 112 (conj Hb Hl)) as (n & En & Hn & Hbits); [lia|].
  change (mqvpn_tunnel_prefix6_effective 128) with 112. rewrite En. cbn [mbind option_bind]. intros [= <-].
  split; [by split|]. intros addr. apply masked_covers; [done|lia|done].
Qed.

Lemma prefix_agree_narrow p q a b c : q <= p -> prefix_agree p a c -> prefix_agree p b c -> prefix_agree q a b.
Proof. intros Hle Ha Hb k Hk. rewrite (Ha k), (Hb k) by lia. done. Qed.

(** The client has learned its subnets from the addresses [ip] and [ip6] that
    the server assigned it out of [pool]. *)
Record learned_from (p : mqvpn_hybrid_config_t) (pool : mqvpn_addr_pool_t) (ip ip6 : list Z) : Prop := {
  lf_ip : bytes_ok ip /\ length ip = 4%nat /\ prefix_agree (prefix_len pool) (ip ++ replicate 12 0) (v4_net (base pool));
  lf_4 : mqvpn_tunnel_subnet_learn ip 32 = Some (client_tunnel_subnet p).1;
  lf_ip6 : has_v6 pool = true -> addr_ok ip6 /\ prefix_agree (prefix6 pool) ip6 (base6 pool) /\
    mqvpn_tunnel_subnet_learn_v6 ip6 128 = Some (client_tunnel_subnet p).2;
  lf_6 : entry_ok (client_tunnel_subnet p).2
}.


(** ** Concrete conversions

    The dotted decimals, and the IPv6 text of eight groups of four digits. *)

Definition octet (s : list Z) : option Z := v ← parse_port 0 s; if 255 <? v then None else Some v.

Definition dotted (s : list Z) : option Z :=
  '(s0, r) ← strchr_split 46 s; '(s1, r) ← strchr_split 46 r; '(s2, s3) ← strchr_split 46 r;
  b0 ← octet s0; b1 ← octet s1; b2 ← octet s2; b3 ← octet s3;
  Some (((b0 * 256 + b1) * 256 + b2) * 256 + b3).

Definition hex_digit (n : Z) : Z := if n <? 10 then 48 + n else 87 + n.
Definition hex_byte (b : Z) : list Z := [hex_digit (b / 16); hex_digit (b mod 16)].

Definition unhex_digit (c : Z) : option Z :=
  if (48 <=? c) && (c <=? 57) then Some (c - 48) else if (97 <=? c) && (c <=? 102) then Some (c - 87) else None.

Definition unhex_byte (c d : Z) : option Z := x ← unhex_digit c; y ← unhex_digit d; Some (x * 16 + y).

Fixpoint groups_text (a : list Z) : list Z :=
  match a with
  | x :: y :: a => hex_byte x ++ hex_byte y ++ match a with [] => [] | _ => 58 :: groups_text a end
  | _ => []
  end.

Fixpoint groups_read (s : list Z) : option (list Z) :=
  match s with
  | c0 :: c1 :: c2 :: c3 :: s =>
      x ← unhex_byte c0 c1; y ← unhex_byte c2 c3;
      match s with
      | [] => Some [x; y]
      | sep :: s => if sep =? 58 then a ← groups_read s; Some (x :: y :: a) else None
      end
  | _ => None
  end.

Definition text6 (a : list Z) : option (list Z) := Some (groups_text a).
Definition read6 (s : list Z) : option (list Z) := a ← groups_read s; if (length a =? 16)%nat then Some a else None.

Lemma unhex_hex_byte b : is_byte b -> unhex_byte (hex_digit (b / 16)) (hex_digit (b mod 16)) = Some b.
Proof.
  intros Hb. apply (bool_decide_eq_true_1 (unhex_byte (hex_digit (b / 16)) (hex_digit (b mod 16)) = Some b)).
  revert b Hb. apply byte_forall. by vm_compute.
Qed.

Lemma hex_byte_chars b : is_byte b -> Forall (fun c => 48 <= c <= 57 \/ 97 <= c <= 102) (hex_byte b).
Proof. intros Hb. unfold is_byte in Hb. unfold hex_byte, hex_digit. repeat apply Forall_cons_2; [..|apply Forall_nil_2]; case_match; Z.to_euclidean_division_equations; lia. Qed.

Lemma unhex_byte_byte c d b : unhex_byte c d = Some b -> is_byte b.
Proof.
  unfold unhex_byte, unhex_digit, is_byte.
  destruct ((48 <=? c) && (c <=? 57)) eqn:E1; [|destruct ((97 <=? c) && (c <=? 102)) eqn:E2; [|done]];
    (destruct ((48 <=? d) && (d <=? 57)) eqn:E3; [|destruct ((97 <=? d) && (d <=? 102)) eqn:E4; [|done]]);
    intros [= <-]; lia.
Qed.

Lemma groups_read_bytes s a : groups_read s = Some a -> bytes_ok a.
Proof.
  remember (length s) as n eqn:Hn. revert s a Hn. induction (lt_wf n) as [n _ IH]. intros s a -> E.
  destruct s as [|c0 [|c1 [|c2 [|c3 s]]]]; try done. cbn [groups_read] in E.
  destruct (unhex_byte c0 c1) as [x|] eqn:Ex; [|done]. destruct (unhex_byte c2 c3) as [y|] eqn:Ey; [|done].
  cbn [mbind option_bind] in E. apply unhex_byte_byte in Ex, Ey. destruct s as [|sep s]; [injection E as <-; (apply Forall_cons_2; [done|]; apply Forall_cons_2; [done|]; apply Forall_nil_2)|].
  destruct (sep =? 58); [|done]. destruct (groups_read s) as [r|] eqn:Er; [|done]. injection E as <-.
  apply Forall_cons_2; [done|]. apply Forall_cons_2; [done|]. eapply (IH (length s)); [simpl; lia|done|done].
Qed.

Lemma inet_concrete : inet_ok dotted read6 text6.
Proof.
  split.
  - intros s a. unfold dotted, octet. destruct (strchr_split 46 s) as [[s0 r0]|]; [|done]. cbn [mbind option_bind].
    destruct (strchr_split 46 r0) as [[s1 r1]|]; [|done]. cbn [mbind option_bind].
    destruct (strchr_split 46 r1) as [[s2 s3]|]; [|done]. cbn [mbind option_bind].
    assert (Ho : forall t v, octet t = Some v -> is_byte v).
    { intros t v. unfold octet. destruct (parse_port 0 t) as [w|] eqn:Ew; [|done]. cbn [mbind option_bind].
      destruct (Z.ltb_spec 255 w); [done|]. intros [= <-]. split; [|lia]. by eapply parse_port_nonneg; [|apply Ew]. }
    fold (octet s0) (octet s1) (octet s2) (octet s3).
    destruct (octet s0) as [b0|] eqn:E0; [|done]. destruct (octet s1) as [b1|] eqn:E1; [|done].
    destruct (octet s2) as [b2|] eqn:E2; [|done]. destruct (octet s3) as [b3|] eqn:E3; [|done]. cbn [mbind option_bind].
    apply Ho in E0, E1, E2, E3. unfold is_byte in *. intros [= <-]. lia.
  - intros s a. unfold read6. destruct (groups_read s) as [r|] eqn:E; [|done]. cbn [mbind option_bind].
    destruct (Nat.eqb_spec (length r) 16); [|done]. intros [= <-]. split; [by eapply groups_read_bytes|done].
  - intros b0 b1 b2 b3 Hb. repeat (apply Forall_cons in Hb as [? Hb]).
    assert (Ho : forall b, is_byte b -> octet (print_u32 b) = Some b /\ (46 ∉ print_u32 b)).
    { intros b Hbb. unfold is_byte in Hbb. pose proof (print_u32_digits b ltac:(lia)) as Hd.
      assert (Ev : dec_value 0 (print_u32 b) = b) by (apply print_u32_value; lia).
      split; [|apply digits_not_in; [done|lia]]. unfold octet. rewrite parse_port_ok, Ev by (done || lia). cbn [mbind option_bind].
      by rewrite (proj2 (Z.ltb_ge _ _)) by lia. }
    destruct (Ho b0) as [O0 N0], (Ho b1) as [O1 N1], (Ho b2) as [O2 N2], (Ho b3) as [O3 _]; try done.
    unfold dotted, print_v4. cbn [nth app]. rewrite strchr_split_first by done. cbn [mbind option_bind].
    rewrite strchr_split_first by done. cbn [mbind option_bind]. rewrite strchr_split_first by done. cbn [mbind option_bind].
    by rewrite O0, O1, O2, O3.
  - intros a Ha. pose proof Ha as [Hb _]. exists (groups_text a). split; [done|].
    destruct (addr_explicit a Ha) as (b0 & b1 & b2 & b3 & b4 & b5 & b6 & b7 & b8 & b9 & b10 & b11 & b12 & b13 & b14 & b15 & ->).
    repeat (apply Forall_cons in Hb as [? Hb]). split.
    { unfold read6. cbn [groups_text hex_byte app groups_read]. rewrite !unhex_hex_byte by done. reflexivity. }
    assert (Hc : Forall (fun c => 48 <= c <= 58 \/ 97 <= c <= 102)
      (groups_text [b0; b1; b2; b3; b4; b5; b6; b7; b8; b9; b10; b11; b12; b13; b14; b15])).
    { cbn [groups_text]. repeat (apply Forall_app_2 || (apply Forall_cons_2; [lia|]) || apply Forall_nil_2 ||
        (eapply Forall_impl; [by apply hex_byte_chars|simpl; lia])). }
    rewrite Forall_forall in Hc. split_and!; [|intros Hin; apply Hc in Hin; lia|intros Hin; apply Hc in Hin; lia|simpl; lia].
    cbn [groups_text hex_byte app]. set_solver.
Qed.

(** A server with 10.0.0.0/24, the client at 10.0.0.2. *)
Definition lane_pool : mqvpn_addr_pool_t := AddrPool 167772160 24 256 2 (replicate 256 false) (replicate 16 0) 0 false.

Definition lane_config : mqvpn_hybrid_config_t :=
  mqvpn_hybrid_config_default <| enabled := true |>
    <| client_tunnel_subnet := (CidrEntry 4 24 ([10; 0; 0] ++ replicate 13 0), unset_cidr) |>.

Lemma lane_config_learned : learned_from lane_config lane_pool [10; 0; 0; 2] [].
Proof.
  assert (Hb : bytes_ok [10; 0; 0; 2]) by (repeat (apply Forall_cons_2; [unfold is_byte; lia|]); apply Forall_nil_2).
  split; [|by vm_compute|done|apply unset_cidr_ok]. split_and!; [done|done|].
  apply (prefix_agree_bytes 3); [|apply v4_net_ok|simpl; lia|simpl; lia|by vm_compute].
  apply Forall_app_2; [done|]. apply Forall_replicate. unfold is_byte. lia.
Qed.

