(* ===== verification/Client.v ===== *)
(** * The client: connection life and path table ([src/mqvpn_client.c])

    The state of a client handle and the operations that change it: the path
    management API, the connection bootstrap, the callbacks of the QUIC
    engine, the tick and the reconnect timers.  Operations are computations of
    a state monad over a world: the client, the phase of the QUIC connection
    and the trace of what the client did to its surroundings.  xquic, the
    transports, the allocator and the clock are the record [env], asked with
    the number of the question, so that two questions may have two answers.
    Log lines are left out. *)

From S2P Require Import Prelude CString Wire Icmp AddrPool Hybrid PathFsm.
From Stdlib Require Import String.
#[local] Abbreviation length := List.length.

Open Scope list_scope.
Open Scope Z_scope.

(** ** Data *)

Inductive mqvpn_client_state_t :=
  | MQVPN_STATE_IDLE | MQVPN_STATE_CONNECTING | MQVPN_STATE_AUTHENTICATING | MQVPN_STATE_TUNNEL_READY
  | MQVPN_STATE_ESTABLISHED | MQVPN_STATE_RECONNECTING | MQVPN_STATE_CLOSED.

Inductive mqvpn_scheduler_t :=
  | MQVPN_SCHED_MINRTT | MQVPN_SCHED_WLB | MQVPN_SCHED_BACKUP_FEC | MQVPN_SCHED_WLB_UDP_PIN.

Inductive mqvpn_error_t :=
  | MQVPN_OK | MQVPN_ERR_INVALID_ARG | MQVPN_ERR_NO_MEMORY | MQVPN_ERR_ENGINE | MQVPN_ERR_TLS | MQVPN_ERR_AUTH
  | MQVPN_ERR_PROTOCOL | MQVPN_ERR_POOL_FULL | MQVPN_ERR_MAX_CLIENTS | MQVPN_ERR_AGAIN | MQVPN_ERR_CLOSED
  | MQVPN_ERR_ABI_MISMATCH | MQVPN_ERR_TIMEOUT | MQVPN_ERR_INVALID_STATE.

Inductive mqvpn_add_path_outcome_t :=
  | MQVPN_ADD_PATH_OK | MQVPN_ADD_PATH_TRANSIENT_FAIL | MQVPN_ADD_PATH_PERMANENT_FAIL.

#[export] Instance client_state_eq_dec : EqDecision mqvpn_client_state_t.
Proof. solve_decision. Defined.

#[export] Instance scheduler_eq_dec : EqDecision mqvpn_scheduler_t.
Proof. solve_decision. Defined.

#[export] Instance error_eq_dec : EqDecision mqvpn_error_t.
Proof. solve_decision. Defined.

Definition MQVPN_MAX_PATHS : Z := 8.
Definition RECONNECT_BACKOFF_MAX_SEC : Z := 60.
Definition HANDSHAKE_STALL_TIMEOUT_MS : Z := 5000.

(** The part of the configuration the modelled operations read; [tx_batch] is a
    field of the handle that is fixed when it is created. *)
Record client_config := ClientConfig {
  multipath : bool;
  scheduler : mqvpn_scheduler_t;
  reconnect_enable : bool;
  reconnect_interval_sec : Z;
  request_server_scheduler : bool;
  tun_mtu : Z;
  reorder_mode : mqvpn_reorder_mode_t;
  tx_batch : bool;
  hybrid : mqvpn_hybrid_config_t
}.

#[export] Instance eta_client_config : Settable client_config := fun r =>
  ClientConfig (multipath r) (scheduler r) (reconnect_enable r) (reconnect_interval_sec r)
    (request_server_scheduler r) (tun_mtu r) (reorder_mode r) (tx_batch r) (hybrid r).

(** [addr4] is [addr_assigned] with [assigned_ip] and [assigned_prefix]. *)
Record cli_conn_t := CliConn {
  dgram_mss : Z;
  masque_request : bool;
  masque_stream_id : Z;
  tunnel_ok : bool;
  tunnel_notified : bool;
  notified_reason : mqvpn_error_t;
  addr4 : option (list Z * Z);
  addr6 : option (list Z * Z);
  peer_reorder_supported : bool;
  peer_sched : option mqvpn_scheduler_t
}.

#[export] Instance eta_cli_conn : Settable cli_conn_t := fun r =>
  CliConn (dgram_mss r) (masque_request r) (masque_stream_id r) (tunnel_ok r) (tunnel_notified r) (notified_reason r)
    (addr4 r) (addr6 r) (peer_reorder_supported r) (peer_sched r).

(** [calloc]. *)
Definition new_conn : cli_conn_t := CliConn 0 false 0 false false MQVPN_OK None None false None.

(** [paths] holds the first [n_paths] slots of the array. *)
Record mqvpn_client_t := Client {
  config : client_config;
  cstate : mqvpn_client_state_t;
  conn : option cli_conn_t;
  assigned4 : list Z * Z;
  assigned6 : list Z * Z;
  c_has_v6 : bool;
  c_mtu : Z;
  tun_active : bool;
  last_notified_mtu : Z;
  c_bytes_tx : Z;
  retired_tx_sends : Z;
  retired_tx_datagrams : Z;
  tx_zero_return_logged : bool;
  paths : list path_entry_t;
  next_path_handle : Z;
  multipath_ready : bool;
  hold_extra_paths : bool;
  primary_path_idx : nat;
  reconnect_attempts : Z;
  reconnect_scheduled_us : Z;
  shutting_down : bool;
  in_connect : bool;
  conn_id : Z;
  next_wake_us : Z;
  handshake_started_us : Z
}.

#[export] Instance eta_client : Settable mqvpn_client_t := fun r =>
  Client (config r) (cstate r) (conn r) (assigned4 r) (assigned6 r) (c_has_v6 r) (c_mtu r) (tun_active r)
    (last_notified_mtu r) (c_bytes_tx r) (retired_tx_sends r) (retired_tx_datagrams r) (tx_zero_return_logged r)
    (paths r) (next_path_handle r) (multipath_ready r) (hold_extra_paths r) (primary_path_idx r) (reconnect_attempts r)
    (reconnect_scheduled_us r) (shutting_down r) (in_connect r) (conn_id r) (next_wake_us r) (handshake_started_us r).

Definition n_paths (c : mqvpn_client_t) : nat := length (paths c).

(** [client_init_handle] on a zeroed handle. *)
Definition client_init_handle (cfg : client_config) : mqvpn_client_t :=
  Client cfg MQVPN_STATE_IDLE None ([], 0) ([], 0) false 0 false 0 0 0 0 false [] 1 false false 0%nat 0 0 false false 0 0 0.

(** ** Surroundings *)

(** How far the QUIC connection is: it is told of the handshake once, then
    of the tunnel stream, and after a local close of nothing but the end. *)
Inductive xq_phase := XqHandshaking | XqOpen | XqClosing.

#[export] Instance xq_phase_eq_dec : EqDecision xq_phase.
Proof. solve_decision. Defined.

(** What the client does to its surroundings, in order.  [FxSlot] is an effect
    of the path state machine, [FxFinalize] carries the handle of a slot whose
    transport is finalised, with its context and release function.  The last
    four are faults: a failed assertion and a NULL or out-of-range access. *)
Inductive client_fx :=
  | FxSlot (e : path_fx)
  | FxStateChanged (old new : mqvpn_client_state_t)
  | FxClosePath (path_id : Z)
  | FxFinalize (h : Z) (ctx : option Z) (release : option Z)
  | FxTunnelClosed (reason : mqvpn_error_t)
  | FxTunnelReady (mtu : Z)
  | FxMtuUpdated (mtu : Z)
  | FxReconnectScheduled (delay : Z)
  | FxConnClose
  | FxRequestClose
  | FxConnFreed
  | FxBadTransition
  | FxBadOutcome
  | FxBadSignal
  | FxNullAccess.

(** The code outside the sources that the client calls. *)
Record env := Env {
  now : nat -> Z;
  calloc_conn : nat -> bool;
  xqc_h3_connect : nat -> bool;
  xqc_conn_create_path : nat -> Z * Z;
  XQC_EMP_CREATE_PATH : Z;
  xqc_paths_info : nat -> list (Z * Z);
  xqc_datagram_get_mss : nat -> Z;
  xqc_masque_udp_mss : Z -> Z -> Z;
  xqc_h3_request_create : nat -> bool;
  xqc_h3_request_send_headers : nat -> bool;
  xqc_h3_stream_id : nat -> Z;
  transport_get_stats : nat -> Z -> option Z -> option (Z * Z);
  transport_send : nat -> Z -> option Z -> list Z -> Z;
  XQC_MAX_SEND_MSG_ONCE : nat
}.

Record world := World { cl : mqvpn_client_t; xq : option xq_phase; calls : nat; out : list client_fx }.

#[export] Instance eta_world : Settable world := fun r => World (cl r) (xq r) (calls r) (out r).

(** ** The monad *)

Definition M (A : Type) : Type := world -> A * world.

#[export] Instance M_ret : MRet M := fun A a w => (a, w).
#[export] Instance M_bind : MBind M := fun A B f m w => let '(a, w) := m w in f a w.

Definition get : M mqvpn_client_t := fun w => (cl w, w).
Definition modify (f : mqvpn_client_t -> mqvpn_client_t) : M unit := fun w => (tt, w <| cl ::= f |>).
Definition emit_all (es : list client_fx) : M unit := fun w => (tt, w <| out ::= fun l => l ++ es |>).
Definition emit (e : client_fx) : M unit := emit_all [e].
Definition set_phase (p : option xq_phase) : M unit := fun w => (tt, w <| xq := p |>).
Definition ask {A} (f : nat -> A) : M A := fun w => (f (calls w), w <| calls ::= S |>).
Definition skip : M unit := mret tt.

(** [for (i = 0; i < n; i++)]. *)
Fixpoint for_each (l : list nat) (f : nat -> M unit) : M unit :=
  match l with [] => skip | i :: l => f i ;; for_each l f end.
Definition for_paths (f : nat -> M unit) : M unit := c ← get; for_each (seq 0 (n_paths c)) f.

(** A read of the live connection, a fault when there is none. *)
Definition with_conn {A} (dflt : A) (f : cli_conn_t -> M A) : M A :=
  c ← get; match conn c with Some k => f k | None => emit FxNullAccess ;; mret dflt end.
Definition modify_conn (f : cli_conn_t -> cli_conn_t) : M unit :=
  with_conn tt (fun k => modify (fun c => c <| conn := Some (f k) |>)).
Definition put_slot (i : nat) (p : path_entry_t) : M unit := modify (fun c => c <| paths ::= fun l => <[i := p]> l |>).

(** The bytes of a string literal. *)
Definition text (s : String.string) : list Z :=
  map (fun a => Z.of_nat (Ascii.nat_of_ascii a)) (String.list_ascii_of_string s).
Arguments text s%_string.

Section client.
Context (E : env).

Definition client_now_us : M Z := ask (now E).

(** [path_on_event (c, &c->paths[i], ev, &ctx)]. *)
Definition fire (i : nat) (ev : path_event_t) (ctx : path_event_ctx_t) : M unit :=
  c ← get;
  match paths c !! i with
  | None => emit FxNullAccess
  | Some p =>
      clk ← client_now_us;
      let '(p', fx) := path_on_event clk p ev (Some ctx) in
      put_slot i p' ;; emit_all (map FxSlot fx)
  end.

(** A context that carries the time alone. *)
Definition now_ctx (t : Z) : path_event_ctx_t := PathEventCtx ACTIVATE_OK 0 PATH_LC_PENDING t.

(** ** Lookups *)

Definition find_idx (f : path_entry_t -> bool) (c : mqvpn_client_t) : option nat :=
  fst <$> list_find (fun p => f p = true) (paths c).

Definition find_path_by_xqc_id (c : mqvpn_client_t) (id : Z) : option nat :=
  find_idx (fun p => xquic_path_live p && (xqc_path_id p =? id)) c.

Definition find_path_by_handle (c : mqvpn_client_t) (h : Z) : option nat := find_idx (fun p => handle p =? h) c.

Definition first_active_idx (c : mqvpn_client_t) : option nat := find_idx transport_attached c.

Definition mqvpn_client_first_active_handle (c : mqvpn_client_t) : Z :=
  match first_active_idx c with
  | Some i => match paths c !! i with Some p => handle p | None => -1 end
  | None => -1
  end.

(** [pidx < n_paths && paths[pidx].transport_attached]. *)
Definition attached_at (c : mqvpn_client_t) (i : nat) : bool :=
  match paths c !! i with Some p => transport_attached p | None => false end.

Definition get_path_entry_for_send (c : mqvpn_client_t) (id : Z) : option nat :=
  match find_path_by_xqc_id c id with
  | Some i => Some i
  | None => if attached_at c (primary_path_idx c) then Some (primary_path_idx c) else first_active_idx c
  end.

(** The [do ... while] of [client_next_primary_idx]: [fuel] slots to visit. *)
Fixpoint next_primary_loop (ps : list path_entry_t) (fuel i : nat) : option nat :=
  match fuel with
  | O => None
  | S fuel =>
      match ps !! i with
      | Some p =>
          if transport_attached p && negb (bool_decide (status p = MQVPN_PATH_CLOSED)) then Some i
          else next_primary_loop ps fuel (S i mod length ps)
      | None => None
      end
  end.

Definition client_next_primary_idx (c : mqvpn_client_t) (from_idx : nat) : nat :=
  match n_paths c with
  | O => 0%nat
  | n => match next_primary_loop (paths c) n (S from_idx mod n) with Some i => i | None => from_idx end
  end.

(** ** Client state *)

Definition mqvpn_state_transition_valid (from to : mqvpn_client_state_t) : bool :=
  match from, to with
  | MQVPN_STATE_IDLE, MQVPN_STATE_CONNECTING
  | MQVPN_STATE_CONNECTING, (MQVPN_STATE_AUTHENTICATING | MQVPN_STATE_RECONNECTING | MQVPN_STATE_CLOSED)
  | MQVPN_STATE_AUTHENTICATING, (MQVPN_STATE_TUNNEL_READY | MQVPN_STATE_RECONNECTING | MQVPN_STATE_CLOSED)
  | MQVPN_STATE_TUNNEL_READY, (MQVPN_STATE_ESTABLISHED | MQVPN_STATE_RECONNECTING | MQVPN_STATE_CLOSED)
  | MQVPN_STATE_ESTABLISHED, (MQVPN_STATE_RECONNECTING | MQVPN_STATE_CLOSED)
  | MQVPN_STATE_RECONNECTING, (MQVPN_STATE_CONNECTING | MQVPN_STATE_CLOSED) => true
  | _, _ => false
  end.

Definition client_set_state (new_state : mqvpn_client_state_t) : M unit :=
  c ← get;
  let old := cstate c in
  if bool_decide (old = new_state) then skip
  else
    (if mqvpn_state_transition_valid old new_state then skip else emit FxBadTransition) ;;
    (if bool_decide (new_state = MQVPN_STATE_CONNECTING) then
       t ← client_now_us; modify (fun c => c <| handshake_started_us := t |>)
     else if bool_decide (old = MQVPN_STATE_CONNECTING) then modify (fun c => c <| handshake_started_us := 0 |>)
     else skip) ;;
    modify (fun c => c <| cstate := new_state |>) ;;
    emit (FxStateChanged old new_state).

Definition client_handshake_stalled (c : mqvpn_client_t) (now_us : Z) : bool :=
  if negb (bool_decide (cstate c = MQVPN_STATE_CONNECTING)) then false
  else if handshake_started_us c =? 0 then false
  else if now_us <=? handshake_started_us c then false
  else HANDSHAKE_STALL_TIMEOUT_MS * 1000 <=? now_us - handshake_started_us c.

(** [delay *= 2] while attempts remain and the cap is not reached. *)
Fixpoint delay_loop (attempts : nat) (delay : Z) : Z :=
  match attempts with
  | O => delay
  | S n => if delay <? RECONNECT_BACKOFF_MAX_SEC then delay_loop n (delay * 2) else delay
  end.

Definition client_reconnect_delay_sec (c : mqvpn_client_t) : Z :=
  let base := reconnect_interval_sec (config c) in
  let base := if base <=? 0 then 5 else base in
  let delay := delay_loop (Z.to_nat (reconnect_attempts c)) base in
  if RECONNECT_BACKOFF_MAX_SEC <? delay then RECONNECT_BACKOFF_MAX_SEC else delay.

Definition client_arm_reconnect_timer : M Z :=
  c ← get;
  let delay := client_reconnect_delay_sec c in
  modify (fun c => c <| reconnect_attempts ::= Z.succ |>) ;;
  t ← client_now_us;
  modify (fun c => c <| reconnect_scheduled_us := u64 (t + delay * 1000000) |>) ;;
  mret delay.

(** ** Transports *)

(** [offsetof + sizeof] of the fields of the ABI structs on a 64-bit target. *)
Definition OPS_END_SEND : Z := 16.
Definition OPS_END_GET_STATS : Z := 24.
Definition OPS_END_RELEASE : Z := 32.
Definition SIZEOF_OPS : Z := 32.

Definition client_copy_path_ops (src : mqvpn_path_ops_t) : mqvpn_path_ops_t :=
  PathOps SIZEOF_OPS (ops_send src)
    (if OPS_END_GET_STATS <=? ops_struct_size src then ops_get_stats src else None)
    (if OPS_END_RELEASE <=? ops_struct_size src then ops_release src else None).

Definition client_finalize_transport (i : nat) : M unit :=
  c ← get;
  match paths c !! i with
  | None => emit FxNullAccess
  | Some p =>
      let o := ops p in
      let ctx := transport_ctx p in
      put_slot i (p <| ops := no_ops |> <| transport_ctx := None |>) ;;
      (match ops_get_stats o with
       | Some f =>
           r ← ask (fun k => transport_get_stats E k f ctx);
           match r with
           | Some (s, d) => modify (fun c => c <| retired_tx_sends := u64 (retired_tx_sends c + s) |>
                                              <| retired_tx_datagrams := u64 (retired_tx_datagrams c + d) |>)
           | None => skip
           end
       | None => skip
       end) ;;
      emit (FxFinalize (handle p) ctx (ops_release o))
  end.

(** The loop of [client_tx_totals]. *)
Fixpoint tx_totals_loop (ps : list path_entry_t) (s d : Z) : M (Z * Z) :=
  match ps with
  | [] => mret (s, d)
  | p :: ps =>
      match transport_released p, ops_get_stats (ops p) with
      | false, Some f =>
          r ← ask (fun k => transport_get_stats E k f (transport_ctx p));
          match r with
          | Some (s', d') => tx_totals_loop ps (u64 (s + s')) (u64 (d + d'))
          | None => tx_totals_loop ps s d
          end
      | _, _ => tx_totals_loop ps s d
      end
  end.

Definition client_tx_totals : M (Z * Z) :=
  c ← get; tx_totals_loop (paths c) (retired_tx_sends c) (retired_tx_datagrams c).

Definition XQC_SOCKET_ERROR : Z := -1.
Definition XQC_SOCKET_EAGAIN : Z := -2.
Definition MQVPN_TX_WOULD_BLOCK : Z := -1.
Definition MQVPN_TX_FAILED : Z := -2.

Definition path_send_dead_retcode (c : mqvpn_client_t) : Z :=
  match first_active_idx c with Some _ => XQC_SOCKET_EAGAIN | None => XQC_SOCKET_ERROR end.

(** A datagram is its length. *)
Definition sum_lens (bufs : list Z) : Z := foldr (fun n s => u64 (n + s)) 0 bufs.

Definition path_transport_send (i : nat) (bufs : list Z) : M Z :=
  c ← get;
  match paths c !! i with
  | None => emit FxNullAccess ;; mret MQVPN_TX_FAILED
  | Some p =>
      match ops_send (ops p) with
      | None => emit FxNullAccess ;; mret MQVPN_TX_FAILED
      | Some f =>
          k ← ask (fun q => transport_send E q f (transport_ctx p) bufs);
          if k =? 0 then modify (fun c => c <| tx_zero_return_logged := true |>) ;; mret MQVPN_TX_FAILED
          else if k <? 0 then mret (if k =? MQVPN_TX_WOULD_BLOCK then MQVPN_TX_WOULD_BLOCK else MQVPN_TX_FAILED)
          else
            let k := if Z.of_nat (length bufs) <? k then Z.of_nat (length bufs) else k in
            let bytes := sum_lens (take (Z.to_nat k) bufs) in
            modify (fun c => c <| c_bytes_tx := u64 (c_bytes_tx c + bytes) |>) ;;
            put_slot i (p <| bytes_tx := u64 (bytes_tx p + bytes) |>) ;;
            mret k
      end
  end.

(** What the engine is told of a transport's answer to [n] datagrams. *)
Definition send_retcode (k accepted : Z) : M Z :=
  if 1 <=? k then mret accepted
  else if k =? MQVPN_TX_WOULD_BLOCK then mret XQC_SOCKET_EAGAIN
  else c ← get; mret (path_send_dead_retcode c).

Definition cb_write_socket_ex (path_id size : Z) : M Z :=
  c ← get;
  match get_path_entry_for_send c path_id with
  | None => mret (path_send_dead_retcode c)
  | Some i =>
      if negb (attached_at c i) then mret (path_send_dead_retcode c)
      else k ← path_transport_send i [size]; send_retcode k size
  end.

Definition cb_write_mmsg_ex (path_id : Z) (iov : list Z) : M Z :=
  c ← get;
  match get_path_entry_for_send c path_id with
  | None => mret (path_send_dead_retcode c)
  | Some i =>
      if negb (attached_at c i) then mret (path_send_dead_retcode c)
      else if (length iov =? 0)%nat then mret 0
      else k ← path_transport_send i (take (XQC_MAX_SEND_MSG_ONCE E) iov); send_retcode k k
  end.

(** ** Activation *)

(** The path id the engine writes is passed on whatever the result. *)
Definition activate_via_xquic_classify : M (activate_result_t * Z) :=
  with_conn (ACTIVATE_TRANSIENT_FAIL, 0) (fun _ =>
    '(ret, id) ← ask (xqc_conn_create_path E);
    mret (if ret =? 0 then ACTIVATE_OK
          else if ret =? - XQC_EMP_CREATE_PATH E then ACTIVATE_PERMANENT_FAIL
          else ACTIVATE_TRANSIENT_FAIL, id)).

Definition client_activate_path (i : nat) : M unit :=
  c ← get;
  match paths c !! i with
  | None => emit FxNullAccess
  | Some p =>
      if xquic_path_live p then skip
      else
        '(r, id) ← activate_via_xquic_classify;
        t ← client_now_us;
        fire i PATH_EVENT_ACTIVATE_REQUESTED (PathEventCtx r id PATH_LC_PENDING t)
  end.

Definition activate_pending_paths : M unit :=
  for_paths (fun i =>
    c ← get;
    match paths c !! i with
    | None => emit FxNullAccess
    | Some p => if bool_decide (state p = PATH_LC_PENDING) then client_activate_path i else skip
    end).

Definition client_release_path_hold : M unit :=
  c ← get;
  if negb (hold_extra_paths c) then skip
  else
    modify (fun c => c <| hold_extra_paths := false |>) ;;
    if multipath_ready c && multipath (config c) then activate_pending_paths else skip.

Definition cb_ready_to_create_path : M unit :=
  modify (fun c => c <| multipath_ready := true |>) ;;
  c ← get;
  if negb (multipath (config c)) || hold_extra_paths c then skip else activate_pending_paths.

Definition cb_path_removed (path_id : Z) : M unit :=
  c ← get;
  match find_path_by_xqc_id c path_id with
  | None => skip
  | Some i => t ← client_now_us; fire i PATH_EVENT_XQUIC_REMOVED (now_ctx t)
  end.

(** ** Path management *)

Record mqvpn_path_desc_t := PathDesc {
  desc_struct_size : Z;
  desc_iface : String.string;
  desc_local_addr : list Z;
  desc_local_addr_len : Z;
  desc_platform_net_id : Z;
  desc_flags : Z
}.

Definition DESC_END_IFACE : Z := 20.
Definition DESC_END_LOCAL_ADDR : Z := 148.
Definition DESC_END_LOCAL_ADDR_LEN : Z := 152.
Definition DESC_END_PLATFORM_NET_ID : Z := 160.
Definition DESC_END_FLAGS : Z := 164.
Definition SIZEOF_LOCAL_ADDR : Z := 128.

(** The oversized address length that is refused. *)
Definition desc_oversized (d : mqvpn_path_desc_t) : bool :=
  (DESC_END_LOCAL_ADDR_LEN <=? desc_struct_size d) && (SIZEOF_LOCAL_ADDR <? desc_local_addr_len d).

(** The fields copied from the descriptor, as far as its size covers them. *)
Definition apply_desc (d : mqvpn_path_desc_t) (p : path_entry_t) : path_entry_t :=
  let has n := n <=? desc_struct_size d in
  let p := if has DESC_END_IFACE then p <| name := String.substring 0 15 (desc_iface d) |> else p in
  let p := if has DESC_END_LOCAL_ADDR && has DESC_END_LOCAL_ADDR_LEN && (0 <? desc_local_addr_len d)
           then p <| local_addr := take (Z.to_nat (desc_local_addr_len d)) (desc_local_addr d) |>
                  <| local_addr_len := desc_local_addr_len d |>
           else p in
  let p := if has DESC_END_PLATFORM_NET_ID then p <| platform_net_id := desc_platform_net_id d |> else p in
  if has DESC_END_FLAGS then p <| flags := desc_flags d |> else p.

Definition add_path_outcome_from_state (s : path_lifecycle_t) : M mqvpn_add_path_outcome_t :=
  match s with
  | PATH_LC_VALIDATING | PATH_LC_ACTIVE | PATH_LC_STANDBY => mret MQVPN_ADD_PATH_OK
  | PATH_LC_CREATE_WAIT => mret MQVPN_ADD_PATH_TRANSIENT_FAIL
  | PATH_LC_CLOSED_RECOVERABLE => mret MQVPN_ADD_PATH_PERMANENT_FAIL
  | PATH_LC_PENDING | PATH_LC_DEGRADED | PATH_LC_CLOSED_DROPPED | PATH_LC_CLOSED_FREE =>
      emit FxBadOutcome ;; mret MQVPN_ADD_PATH_OK
  end.

(** [idx = c->n_paths++] when [idx] is the next free place of the array. *)
Definition reset_slot (idx : nat) : M unit :=
  modify (fun c => c <| paths := if (idx <? n_paths c)%nat then <[idx := path_entry_init]> (paths c)
                                 else paths c ++ [path_entry_init] |>).

Definition mqvpn_client_add_path (desc : option mqvpn_path_desc_t) (o : mqvpn_path_ops_t) (ctx : option Z)
    : M (Z * mqvpn_add_path_outcome_t) :=
  let refused := mret (-1, MQVPN_ADD_PATH_OK) in
  if ops_struct_size o <? OPS_END_SEND then refused
  else if bool_decide (ops_send o = None) then refused
  else if match desc with Some d => desc_oversized d | None => false end then refused
  else
    c ← get;
    let free := find_idx (fun p => bool_decide (state p = PATH_LC_CLOSED_FREE)) c in
    if bool_decide (free = None) && (MQVPN_MAX_PATHS <=? Z.of_nat (n_paths c)) then refused
    else
      let idx := default (n_paths c) free in
      let h := next_path_handle c in
      reset_slot idx ;;
      modify (fun c => c <| next_path_handle := h + 1 |>) ;;
      let p := path_entry_init <| handle := h |> <| ops := client_copy_path_ops o |> <| transport_ctx := ctx |> in
      put_slot idx (match desc with Some d => apply_desc d p | None => p end) ;;
      t ← client_now_us;
      fire idx PATH_EVENT_ADD (now_ctx t) ;;
      c ← get;
      if multipath_ready c && multipath (config c) && bool_decide (is_Some (conn c)) && negb (hold_extra_paths c) then
        activate_pending_paths ;;
        c ← get;
        match paths c !! idx with
        | Some p => oc ← add_path_outcome_from_state (state p); mret (handle p, oc)
        | None => emit FxNullAccess ;; mret (-1, MQVPN_ADD_PATH_OK)
        end
      else mret (h, MQVPN_ADD_PATH_OK).

Definition path_xquic_abandon_due (p : path_entry_t) : bool := xquic_path_live p.

(** The engine exists as long as the client does. *)
Definition abandon_path (c : mqvpn_client_t) (p : path_entry_t) : M unit :=
  if path_xquic_abandon_due p && bool_decide (is_Some (conn c)) then emit (FxClosePath (xqc_path_id p)) else skip.

Definition mqvpn_client_remove_path (h : Z) : M mqvpn_error_t :=
  c ← get;
  match i ← find_path_by_handle c h; p ← paths c !! i; Some (i, p) with
  | None => mret MQVPN_ERR_INVALID_ARG
  | Some (i, p) =>
      if bool_decide (state p = PATH_LC_CLOSED_FREE) then mret MQVPN_OK
      else
        abandon_path c p ;;
        t ← client_now_us;
        fire i PATH_EVENT_REMOVE_API (now_ctx t) ;;
        mret MQVPN_OK
  end.

Definition mqvpn_client_on_platform_path_dropped (h : Z) : M mqvpn_error_t :=
  c ← get;
  match i ← find_path_by_handle c h; p ← paths c !! i; Some (i, p) with
  | None => mret MQVPN_ERR_INVALID_ARG
  | Some (i, p) =>
      abandon_path c p ;;
      t ← client_now_us;
      fire i PATH_EVENT_PLATFORM_DROP (now_ctx t) ;;
      mret MQVPN_OK
  end.

Definition mqvpn_client_drop_path (h : Z) : M mqvpn_error_t := mqvpn_client_on_platform_path_dropped h.

Definition mqvpn_client_on_platform_path_released (h : Z) : M mqvpn_error_t :=
  c ← get;
  match i ← find_path_by_handle c h; p ← paths c !! i; Some (i, p) with
  | None => mret MQVPN_ERR_INVALID_ARG
  | Some (i, p) =>
      if bool_decide (state p = PATH_LC_CLOSED_FREE) then mret MQVPN_OK
      else if negb (bool_decide (state p = PATH_LC_CLOSED_DROPPED)) then mret MQVPN_ERR_INVALID_STATE
      else if transport_released p || bool_decide (ops_send (ops p) = None) then mret MQVPN_OK
      else
        client_finalize_transport i ;;
        t ← client_now_us;
        fire i PATH_EVENT_TRANSPORT_RELEASED (now_ctx t) ;;
        mret MQVPN_OK
  end.

Definition reactivate_slot_eligible (p : path_entry_t) : mqvpn_error_t :=
  if xquic_path_live p then MQVPN_ERR_INVALID_STATE
  else if negb (transport_attached p) then MQVPN_ERR_INVALID_STATE
  else match state p with
       | PATH_LC_DEGRADED | PATH_LC_CREATE_WAIT | PATH_LC_CLOSED_RECOVERABLE => MQVPN_OK
       | _ => MQVPN_ERR_INVALID_STATE
       end.

Definition mqvpn_client_reactivate_path (h : Z) : M mqvpn_error_t :=
  c ← get;
  if negb (bool_decide (cstate c = MQVPN_STATE_ESTABLISHED)) || negb (multipath_ready c) then mret MQVPN_ERR_INVALID_STATE
  else
    match i ← find_path_by_handle c h; p ← paths c !! i; Some (i, p) with
    | None => mret MQVPN_ERR_INVALID_ARG
    | Some (i, p) =>
        if negb (bool_decide (reactivate_slot_eligible p = MQVPN_OK)) then mret (reactivate_slot_eligible p)
        else
          '(r, id) ← activate_via_xquic_classify;
          t ← client_now_us;
          fire i PATH_EVENT_MANUAL_REACTIVATE (PathEventCtx r id PATH_LC_PENDING t) ;;
          c ← get;
          match paths c !! i with
          | Some p => mret (if bool_decide (state p = PATH_LC_VALIDATING) then MQVPN_OK else MQVPN_ERR_ENGINE)
          | None => emit FxNullAccess ;; mret MQVPN_ERR_ENGINE
          end
    end.

Definition mqvpn_client_set_tun_active (active : bool) : M mqvpn_error_t :=
  modify (fun c => c <| tun_active := active |>) ;;
  c ← get;
  (if active && bool_decide (cstate c = MQVPN_STATE_TUNNEL_READY) then client_set_state MQVPN_STATE_ESTABLISHED else skip) ;;
  mret MQVPN_OK.

(** ** The connection *)

Definition client_reset_path_runtime (i : nat) : M unit :=
  c ← get;
  match paths c !! i with
  | None => emit FxNullAccess
  | Some p =>
      put_slot i (p <| last_residence_warn_at_us := 0 |>) ;;
      t ← client_now_us;
      fire i PATH_EVENT_CONN_RESET (now_ctx t)
  end.

Definition client_reset_paths_for_reconnect : M unit :=
  modify (fun c => c <| multipath_ready := false |> <| hold_extra_paths := false |>) ;;
  for_paths client_reset_path_runtime ;;
  modify (fun c => c <| primary_path_idx := client_next_primary_idx c (primary_path_idx c) |>).

Definition cli_conn_destroy : M unit :=
  c ← get;
  match conn c with
  | None => skip
  | Some _ => modify (fun c => c <| conn := None |>) ;; emit FxConnFreed
  end.

(** The direct write of the primary slot, with the assertion that follows. *)
Definition bootstrap_primary : M unit :=
  c ← get;
  match paths c !! primary_path_idx c with
  | None => skip
  | Some p =>
      clk ← client_now_us;
      let '(p', fx) := set_path_state_with_log clk (p <| xqc_path_id := 0 |> <| xquic_path_live := true |>)
                         PATH_LC_VALIDATING PATH_REASON_ACTIVATE_OK in
      put_slot (primary_path_idx c) p' ;;
      emit_all (map FxSlot fx) ;;
      if path_invariant_check p' then skip else emit (FxSlot FxAbort)
  end.

(** Whether a connection was started.  The settings, the TLS flags and the
    shim engines it also builds are not part of the state modelled here. *)
Definition cli_start_connection : M bool :=
  c ← get;
  if bool_decide (is_Some (conn c)) then mret false
  else
    modify (fun c => c <| conn_id := u32 (conn_id c + 1) |>) ;;
    got ← ask (calloc_conn E);
    if negb got then mret false
    else if match paths c !! primary_path_idx c with Some p => negb (transport_attached p) | None => false end
    then mret false
    else
      cid ← ask (xqc_h3_connect E);
      if negb cid then mret false
      else
        mss ← ask (xqc_datagram_get_mss E);
        bootstrap_primary ;;
        modify (fun c => c <| conn := Some (new_conn <| dgram_mss := mss |>) |>) ;;
        set_phase (Some XqHandshaking) ;;
        mret true.

Definition mqvpn_client_connect : M mqvpn_error_t :=
  c ← get;
  if in_connect c then mret MQVPN_ERR_INVALID_ARG
  else if negb (mqvpn_state_transition_valid (cstate c) MQVPN_STATE_CONNECTING) then mret MQVPN_ERR_INVALID_ARG
  else
    modify (fun c => c <| in_connect := true |>) ;;
    let from_reconnecting := bool_decide (cstate c = MQVPN_STATE_RECONNECTING) in
    (if from_reconnecting then
       modify (fun c => c <| reconnect_scheduled_us := 0 |>) ;; client_reset_paths_for_reconnect
     else skip) ;;
    started ← cli_start_connection;
    modify (fun c => c <| in_connect := false |>) ;;
    if negb started then
      c ← get;
      (if from_reconnecting && bool_decide (cstate c = MQVPN_STATE_RECONNECTING) then
         delay ← client_arm_reconnect_timer; emit (FxReconnectScheduled delay)
       else skip) ;;
      mret MQVPN_ERR_ENGINE
    else client_set_state MQVPN_STATE_CONNECTING ;; mret MQVPN_OK.

(** ** The tunnel response *)

Definition cli_classify_status (status : Z) : mqvpn_error_t :=
  if (status =? 401) || (status =? 403) then MQVPN_ERR_AUTH else MQVPN_ERR_PROTOCOL.

Definition cli_signal_connect_fail (reason : mqvpn_error_t) : M unit :=
  with_conn tt (fun k =>
    if tunnel_notified k then skip
    else
      (if tunnel_ok k then emit FxBadSignal else skip) ;;
      modify_conn (fun k => k <| tunnel_notified := true |> <| notified_reason := reason |>) ;;
      emit (FxTunnelClosed reason)).

Definition cli_notify_conn_closed : M unit :=
  with_conn tt (fun k => if tunnel_notified k then skip else emit (FxTunnelClosed MQVPN_ERR_CLOSED)).

Definition MQVPN_SCHED_LIST : list (mqvpn_scheduler_t * list Z) :=
  [(MQVPN_SCHED_MINRTT, text "minrtt"); (MQVPN_SCHED_WLB, text "wlb"); (MQVPN_SCHED_BACKUP_FEC, text "backup_fec");
   (MQVPN_SCHED_WLB_UDP_PIN, text "wlb_udp_pin")].

Definition mqvpn_sched_from_name_n (s : list Z) : option mqvpn_scheduler_t :=
  fst <$> (snd <$> list_find (fun row => s = row.2) MQVPN_SCHED_LIST).

Definition mqvpn_sched_to_name (sched : mqvpn_scheduler_t) : list Z :=
  match sched with
  | MQVPN_SCHED_MINRTT => text "minrtt"
  | MQVPN_SCHED_WLB => text "wlb"
  | MQVPN_SCHED_BACKUP_FEC => text "backup_fec"
  | MQVPN_SCHED_WLB_UDP_PIN => text "wlb_udp_pin"
  end.

Definition STATUS_HDR_NAME : list Z := text ":status".
Definition MQVPN_SCHED_HDR_NAME : list Z := text "mqvpn-scheduler".

(** A value that is not three digits is -1. *)
Definition parse_status (v : list Z) : Z :=
  match v with
  | [a; b; d] => if isdigit a && isdigit b && isdigit d then (a - 48) * 100 + (b - 48) * 10 + (d - 48) else -1
  | _ => -1
  end.

(** The locals of the scan. *)
Record scan := Scan { final_seen : bool; decided_200 : bool; reorder_echo : bool; sched_echo : option mqvpn_scheduler_t }.

#[export] Instance eta_scan : Settable scan := fun r => Scan (final_seen r) (decided_200 r) (reorder_echo r) (sched_echo r).

Definition scan_status (st : Z) (s : scan) : M scan :=
  if (100 <=? st) && (st <? 200) then mret s
  else if final_seen s then mret s
  else if st =? 200 then
    modify_conn (fun k => k <| tunnel_ok := true |>) ;; mret (s <| final_seen := true |> <| decided_200 := true |>)
  else if st <? 0 then cli_signal_connect_fail MQVPN_ERR_PROTOCOL ;; mret (s <| final_seen := true |>)
  else cli_signal_connect_fail (cli_classify_status st) ;; mret (s <| final_seen := true |>).

Fixpoint scan_headers (hs : list (list Z * list Z)) (s : scan) : M scan :=
  match hs with
  | [] => mret s
  | (n, v) :: hs =>
      s ← (if bool_decide (n = STATUS_HDR_NAME) then scan_status (parse_status v) s else mret s);
      let s := if mqvpn_reorder_header_match n v then s <| reorder_echo := true |> else s in
      let s := if bool_decide (n = MQVPN_SCHED_HDR_NAME) then s <| sched_echo := mqvpn_sched_from_name_n v |> else s in
      scan_headers hs s
  end.

Definition cli_connect_ip_scan_headers (hs : list (list Z * list Z)) : M unit :=
  with_conn tt (fun k =>
    s ← scan_headers hs (Scan (tunnel_ok k || tunnel_notified k) false false None);
    (if decided_200 s && reorder_echo s then modify_conn (fun k => k <| peer_reorder_supported := true |>) else skip) ;;
    (if decided_200 s && bool_decide (is_Some (sched_echo s)) then modify_conn (fun k => k <| peer_sched := sched_echo s |>)
     else skip)).

Definition cli_connect_ip_on_request_close : M unit :=
  with_conn tt (fun k =>
    c ← get;
    (if negb (tunnel_ok k) && negb (shutting_down c) then cli_signal_connect_fail MQVPN_ERR_PROTOCOL else skip) ;;
    modify_conn (fun k => k <| tunnel_ok := false |>)).

Definition cli_report_cert_rejected : M unit := cli_signal_connect_fail MQVPN_ERR_TLS.

Definition cli_masque_start_tunnel : M unit :=
  got ← ask (xqc_h3_request_create E);
  if negb got then skip
  else
    modify_conn (fun k => k <| masque_request := true |>) ;;
    c ← get;
    (if request_server_scheduler (config c) then modify (fun c => c <| hold_extra_paths := true |>) else skip) ;;
    sent ← ask (xqc_h3_request_send_headers E);
    if negb sent then modify_conn (fun k => k <| masque_request := false |>)
    else id ← ask (xqc_h3_stream_id E); modify_conn (fun k => k <| masque_stream_id := id |>).

Definition cb_h3_conn_handshake_finished : M unit :=
  mss ← ask (xqc_datagram_get_mss E);
  modify_conn (fun k => k <| dgram_mss := mss |>) ;;
  client_set_state MQVPN_STATE_AUTHENTICATING ;;
  cli_masque_start_tunnel.

(** ** Addresses and MTU *)

(** A capsule as the engine decodes it. *)
Inductive capsule :=
  | ADDRESS_ASSIGN (entries : list (Z * list Z * Z))
  | ROUTE_ADVERTISEMENT (valid : bool)
  | OTHER_CAPSULE.

(** The 16-byte buffer an address is decoded into. *)
Definition buf16 (a : list Z) : list Z := take 16 (a ++ replicate 16 0).

Fixpoint assign_entries (es : list (Z * list Z * Z)) : M unit :=
  match es with
  | [] => skip
  | (ip_ver, ip_addr, prefix) :: es =>
      with_conn tt (fun k =>
        if (ip_ver =? 4) && bool_decide (addr4 k = None) then
          modify_conn (fun k => k <| addr4 := Some (take 4 (buf16 ip_addr), prefix) |>) ;;
          modify (fun c => c <| assigned4 := (take 4 (buf16 ip_addr), prefix) |>)
        else if (ip_ver =? 6) && bool_decide (addr6 k = None) then
          modify_conn (fun k => k <| addr6 := Some (buf16 ip_addr, prefix) |>) ;;
          modify (fun c => c <| assigned6 := (buf16 ip_addr, prefix) |> <| c_has_v6 := true |>)
        else skip) ;;
      assign_entries es
  end.

(** A bad route advertisement closes the request and ends the loop. *)
Fixpoint process_capsules (cs : list capsule) : M unit :=
  match cs with
  | [] => skip
  | ADDRESS_ASSIGN es :: cs => assign_entries es ;; process_capsules cs
  | ROUTE_ADVERTISEMENT valid :: cs => if valid then process_capsules cs else emit FxRequestClose
  | OTHER_CAPSULE :: cs => process_capsules cs
  end.

Definition apply_mtu_cap (cfg_mtu negotiated : Z) : Z :=
  if 0 <? cfg_mtu then if cfg_mtu <? negotiated then cfg_mtu else negotiated else negotiated.

Definition reorder_agreed (c : mqvpn_client_t) (k : cli_conn_t) : bool :=
  negb (bool_decide (reorder_mode (config c) = MQVPN_REORDER_OFF)) && peer_reorder_supported k.

Definition cli_tun_mtu (c : mqvpn_client_t) (k : cli_conn_t) (mtu : Z) : Z :=
  let mtu := apply_mtu_cap (tun_mtu (config c)) mtu in
  if reorder_agreed c k then
    let mtu := mtu - MQVPN_REORDER_HDR_LEN in
    if bool_decide (is_Some (addr6 k)) && (mtu <? IPV6_MIN_MTU) then IPV6_MIN_MTU else mtu
  else mtu.

(** [true] is the return value 0. *)
Definition cli_check_ipv6_mtu (mtu : Z) : M bool :=
  with_conn false (fun k =>
    c ← get;
    let mtu := if reorder_agreed c k then mtu - MQVPN_REORDER_HDR_LEN else mtu in
    if negb (bool_decide (is_Some (addr6 k))) || (IPV6_MIN_MTU <=? mtu) then mret true
    else
      modify_conn (fun k => k <| tunnel_ok := false |>) ;;
      emit FxConnClose ;; set_phase (Some XqClosing) ;;
      cli_signal_connect_fail MQVPN_ERR_INVALID_ARG ;;
      mret false).

Definition cb_dgram_mss_updated (mss : Z) : M unit :=
  modify_conn (fun k => k <| dgram_mss := mss |>) ;;
  c ← get;
  if negb (tun_active c) then skip
  else with_conn tt (fun k =>
    let udp_mss := xqc_masque_udp_mss E mss (masque_stream_id k) in
    if udp_mss <? 68 then skip
    else
      ok ← cli_check_ipv6_mtu udp_mss;
      if negb ok then skip
      else
        let new_mtu := cli_tun_mtu c k udp_mss in
        if new_mtu =? last_notified_mtu c then skip
        else modify (fun c => c <| c_mtu := new_mtu |> <| last_notified_mtu := new_mtu |>) ;; emit (FxMtuUpdated new_mtu)).

(** The subnets the classifier carves out of the stream lane; [assigned_ip6]
    is an array of sixteen bytes. *)
Definition learn_subnets (k : cli_conn_t) : M unit :=
  match addr4 k with
  | None => skip
  | Some (ip, prefix) =>
      match mqvpn_tunnel_subnet_learn ip prefix with
      | None => emit FxNullAccess
      | Some e => modify (fun c => c <| config ::= fun g => g <| hybrid ::= fun h =>
                    h <| client_tunnel_subnet := (e, (client_tunnel_subnet h).2) |> |> |>)
      end
  end ;;
  match addr6 k with
  | None => skip
  | Some (ip6, prefix) =>
      match mqvpn_tunnel_subnet_learn_v6 (buf16 ip6) prefix with
      | None => emit FxNullAccess
      | Some e => modify (fun c => c <| config ::= fun g => g <| hybrid ::= fun h =>
                    h <| client_tunnel_subnet := ((client_tunnel_subnet h).1, e) |> |> |>)
      end
  end ;;
  modify (fun c => c <| config ::= fun g => g <| hybrid ::= fun h => (mqvpn_hybrid_config_sanitize h 8).1.1 |> |>).

(** The bootstrap path is the one the handshake validates. *)
Definition validate_primary : M unit :=
  c ← get;
  match paths c !! primary_path_idx c with
  | None => skip
  | Some p =>
      if transport_attached p && bool_decide (state p = PATH_LC_VALIDATING) && (xqc_path_id p =? 0) then
        t ← client_now_us; fire (primary_path_idx c) PATH_EVENT_VALIDATION_OK (PathEventCtx ACTIVATE_OK 0 PATH_LC_ACTIVE t)
      else skip
  end.

(** [overflow]: a chunk did not fit the capsule buffer. *)
Definition cli_connect_ip_on_body (caps : list capsule) (overflow : bool) : M unit :=
  process_capsules caps ;;
  if overflow then skip
  else with_conn tt (fun k =>
    if tunnel_notified k then skip
    else
      let udp_mss := xqc_masque_udp_mss E (dgram_mss k) (masque_stream_id k) in
      let mtu := if (0 <? dgram_mss k) && (68 <=? udp_mss) then udp_mss else IPV6_MIN_MTU in
      ok ← cli_check_ipv6_mtu mtu;
      if negb ok then skip
      else
        c ← get;
        let mtu := cli_tun_mtu c k mtu in
        if bool_decide (is_Some (addr4 k)) && negb (bool_decide (cstate c = MQVPN_STATE_ESTABLISHED)) &&
           negb (bool_decide (cstate c = MQVPN_STATE_TUNNEL_READY)) then
          modify (fun c => c <| c_mtu := mtu |>) ;;
          learn_subnets k ;;
          validate_primary ;;
          client_set_state MQVPN_STATE_TUNNEL_READY ;;
          emit (FxTunnelReady mtu) ;;
          modify (fun c => c <| reconnect_attempts := 0 |>) ;;
          client_release_path_hold
        else skip).

Definition cb_h3_conn_close : M unit :=
  cli_notify_conn_closed ;;
  with_conn tt (fun k =>
    let cert_rejected := tunnel_notified k && bool_decide (notified_reason k = MQVPN_ERR_TLS) in
    cli_conn_destroy ;;
    set_phase None ;;
    c ← get;
    if negb (shutting_down c) && reconnect_enable (config c) && negb cert_rejected then
      delay ← client_arm_reconnect_timer;
      client_set_state MQVPN_STATE_RECONNECTING ;;
      emit (FxReconnectScheduled delay)
    else client_set_state MQVPN_STATE_CLOSED).

(** ** The engine *)

Inductive xqc_cb :=
  | CbHandshakeFinished
  | CbCertRejected
  | CbHeaders (hs : list (list Z * list Z))
  | CbBody (caps : list capsule) (overflow : bool)
  | CbRequestClose
  | CbMssUpdated (mss : Z)
  | CbReadyToCreatePath
  | CbPathRemoved (path_id : Z)
  | CbConnClose.

(** The order in which the engine tells a connection what happens to it. *)
Definition cb_allowed (ph : xq_phase) (cb : xqc_cb) : bool :=
  match cb, ph with
  | (CbHandshakeFinished | CbCertRejected), XqHandshaking => true
  | (CbHeaders _ | CbBody _ _), XqOpen => true
  | CbRequestClose, (XqOpen | XqClosing) => true
  | CbMssUpdated _, (XqHandshaking | XqOpen) => true
  | (CbReadyToCreatePath | CbPathRemoved _ | CbConnClose), _ => true
  | _, _ => false
  end.

Definition run_cb (cb : xqc_cb) : M unit :=
  match cb with
  | CbHandshakeFinished => set_phase (Some XqOpen) ;; cb_h3_conn_handshake_finished
  | CbCertRejected => cli_report_cert_rejected
  | CbHeaders hs => cli_connect_ip_scan_headers hs
  | CbBody caps overflow => cli_connect_ip_on_body caps overflow
  | CbRequestClose => cli_connect_ip_on_request_close
  | CbMssUpdated mss => cb_dgram_mss_updated mss
  | CbReadyToCreatePath => cb_ready_to_create_path
  | CbPathRemoved id => cb_path_removed id
  | CbConnClose => cb_h3_conn_close
  end.

(** A callback that the engine would not make is not made. *)
Definition deliver (cb : xqc_cb) : M unit := fun w =>
  match xq w with
  | Some ph => if cb_allowed ph cb then run_cb cb w else (tt, w)
  | None => (tt, w)
  end.

(** [xqc_engine_main_logic]: the callbacks it makes. *)
Fixpoint main_logic (cbs : list xqc_cb) : M unit :=
  match cbs with [] => skip | cb :: cbs => deliver cb ;; main_logic cbs end.

Definition close_conn : M unit := emit FxConnClose ;; set_phase (Some XqClosing).

Definition cli_flush_deferred_sends (cbs : list xqc_cb) : M unit :=
  c ← get;
  match conn c with
  | Some k => if tx_batch (config c) && tunnel_ok k then main_logic cbs else skip
  | None => skip
  end.

Definition mqvpn_client_disconnect (flush close : list xqc_cb) : M mqvpn_error_t :=
  c ← get;
  if in_connect c then mret MQVPN_ERR_INVALID_ARG
  else if bool_decide (cstate c = MQVPN_STATE_CLOSED) || bool_decide (cstate c = MQVPN_STATE_IDLE) then mret MQVPN_OK
  else
    modify (fun c => c <| shutting_down := true |>) ;;
    (if bool_decide (is_Some (conn c)) then
       cli_flush_deferred_sends flush ;;
       c ← get;
       if bool_decide (is_Some (conn c)) then close_conn ;; main_logic close else skip
     else skip) ;;
    client_set_state MQVPN_STATE_CLOSED ;;
    mret MQVPN_OK.

(** The callbacks made by the flush and by the end of the engine. *)
Definition mqvpn_client_destroy (flush teardown : list xqc_cb) : M unit :=
  modify (fun c => c <| shutting_down := true |>) ;;
  cli_flush_deferred_sends flush ;;
  client_tx_totals ;;
  main_logic teardown ;;
  cli_conn_destroy ;;
  set_phase None ;;
  for_paths (fun i =>
    c ← get;
    match paths c !! i with
    | None => emit FxNullAccess
    | Some p => if transport_released p then skip else client_finalize_transport i
    end).

(** ** The tick *)

Definition client_path_residence_check (i : nat) (now_us : Z) : M unit :=
  c ← get;
  match paths c !! i with
  | None => emit FxNullAccess
  | Some p => if path_should_warn_residence p now_us then put_slot i (p <| last_residence_warn_at_us := now_us |>) else skip
  end.

Definition tick_drive_retry_timer (i : nat) (now_us : Z) : M unit :=
  c ← get;
  match paths c !! i with
  | None => emit FxNullAccess
  | Some p =>
      if negb (bool_decide (state p = PATH_LC_DEGRADED)) && negb (bool_decide (state p = PATH_LC_CREATE_WAIT)) then skip
      else if (recreate_after_us p =? 0) || (now_us <? recreate_after_us p) then skip
      else
        '(r, id) ← activate_via_xquic_classify;
        fire i PATH_EVENT_RETRY_TIMER (PathEventCtx r id PATH_LC_PENDING now_us)
  end.

Definition MQVPN_XQC_PATH_STATE_ACTIVE : Z := 2.

Definition xqc_find_path_metrics (info : list (Z * Z)) (path_id : Z) : option (Z * Z) :=
  snd <$> list_find (fun pm => pm.1 = path_id) info.

(** One slot of the validation poll. *)
Definition check_validation (info : list (Z * Z)) (now_us : Z) (i : nat) : M unit :=
  c ← get;
  match paths c !! i with
  | None => emit FxNullAccess
  | Some p =>
      if negb (bool_decide (state p = PATH_LC_VALIDATING)) then skip
      else
        match xqc_find_path_metrics info (xqc_path_id p) with
        | None => skip
        | Some pm =>
            if negb (pm.2 =? MQVPN_XQC_PATH_STATE_ACTIVE) then skip
            else
              let target := if bool_decide (scheduler (config c) = MQVPN_SCHED_BACKUP_FEC)
                            then PATH_LC_STANDBY else PATH_LC_ACTIVE in
              fire i PATH_EVENT_VALIDATION_OK (PathEventCtx ACTIVATE_OK 0 target now_us)
        end
  end.

Definition tick_check_all_validations (now_us : Z) : M unit :=
  c ← get;
  if negb (multipath_ready c) || bool_decide (conn c = None) then skip
  else if negb (existsb (fun p => bool_decide (state p = PATH_LC_VALIDATING)) (paths c)) then skip
  else info ← ask (xqc_paths_info E); for_paths (check_validation info now_us).

Definition confirm_stable (i : nat) (now_us : Z) : M unit :=
  c ← get;
  match paths c !! i with
  | None => emit FxNullAccess
  | Some p => let '(p', fx) := path_fsm_tick_confirm_stable p now_us in put_slot i p' ;; emit_all (map FxSlot fx)
  end.

Definition tick_path_recovery : M unit :=
  c ← get;
  if negb (multipath_ready c) || negb (bool_decide (cstate c = MQVPN_STATE_ESTABLISHED)) then skip
  else
    t ← client_now_us;
    tick_check_all_validations t ;;
    for_paths (fun i => client_path_residence_check i t ;; tick_drive_retry_timer i t ;; confirm_stable i t).

Definition tick_reconnect (cbs : list xqc_cb) : M unit :=
  c ← get;
  if negb (bool_decide (cstate c = MQVPN_STATE_RECONNECTING)) || (reconnect_scheduled_us c =? 0) then skip
  else
    t ← client_now_us;
    if t <? reconnect_scheduled_us c then skip
    else
      modify (fun c => c <| reconnect_scheduled_us := 0 |> <| in_connect := true |>) ;;
      client_reset_paths_for_reconnect ;;
      started ← cli_start_connection;
      modify (fun c => c <| in_connect := false |>) ;;
      if negb started then delay ← client_arm_reconnect_timer; emit (FxReconnectScheduled delay)
      else client_set_state MQVPN_STATE_CONNECTING ;; main_logic cbs.

Definition tick_handshake_watchdog : M unit :=
  c ← get;
  if shutting_down c then skip
  else
    t ← client_now_us;
    if negb (client_handshake_stalled c t) then skip
    else
      modify (fun c => c <| handshake_started_us := 0 |>) ;;
      if bool_decide (is_Some (conn c)) then close_conn
      else client_arm_reconnect_timer ;; client_set_state MQVPN_STATE_RECONNECTING.

(** The reorder, lane and redundancy timers that follow are other components. *)
Definition mqvpn_client_tick (cbs reconnect_cbs : list xqc_cb) : M mqvpn_error_t :=
  tick_handshake_watchdog ;;
  main_logic cbs ;;
  tick_path_recovery ;;
  tick_reconnect reconnect_cbs ;;
  mret MQVPN_OK.

(** ** The next wake *)

Record mqvpn_interest_t := Interest { next_timer_ms : Z; tun_readable : bool; interest_idle : bool }.

(** A deadline of a live tunnel shortens the wait and never extends it. *)
Definition shorten (t deadline ms : Z) : Z :=
  if t <? deadline then
    let d := s32 ((deadline - t) / 1000) in
    if (0 <? ms) && (d <? ms) then d else ms
  else 1.

(** A deadline of a tunnel that is down also replaces a wait of zero. *)
Definition shorten_or_set (d ms : Z) : Z := if (ms <=? 0) || (d <? ms) then d else ms.

(** The recovery and the stability timer of one slot. *)
Definition interest_slot (t ms : Z) (p : path_entry_t) : Z :=
  let ms := if 0 <? recreate_after_us p then shorten t (recreate_after_us p) ms else ms in
  if (0 <? path_stable_since_us p) && xquic_path_live p
  then shorten t (u64 (path_stable_since_us p + PATH_STABLE_THRESHOLD_US)) ms else ms.

(** [backpressure] is the latch of the TUN side, [lwip_ms] the timer of the
    stream lane's TCP stack when there is one (negative: none pending). *)
Definition mqvpn_client_get_interest (backpressure : bool) (lwip_ms : option Z) : M mqvpn_interest_t :=
  c ← get;
  let ms := s32 (next_wake_us c / 1000) in
  ms ← (if bool_decide (cstate c = MQVPN_STATE_RECONNECTING) && (0 <? reconnect_scheduled_us c) then
          t ← client_now_us;
          mret (if t <? reconnect_scheduled_us c then shorten_or_set (s32 ((reconnect_scheduled_us c - t) / 1000)) ms else 1)
        else mret ms);
  ms ← (if bool_decide (cstate c = MQVPN_STATE_CONNECTING) && (0 <? handshake_started_us c) then
          let deadline := u64 (handshake_started_us c + HANDSHAKE_STALL_TIMEOUT_MS * 1000) in
          t ← client_now_us;
          mret (shorten_or_set (if t <? deadline then s32 ((deadline - t) / 1000) else 1) ms)
        else mret ms);
  ms ← (if multipath_ready c && bool_decide (cstate c = MQVPN_STATE_ESTABLISHED) then
          t ← client_now_us; mret (foldl (interest_slot t) ms (paths c))
        else mret ms);
  let ms := match lwip_ms with
            | Some l => if (0 <=? l) && (0 <? ms) && (l <? ms) then l else ms
            | None => ms
            end in
  mret (Interest (if 0 <? ms then ms else 1) (tun_active c && negb backpressure)
          (negb (bool_decide (cstate c = MQVPN_STATE_ESTABLISHED)))).

(** ** Lifetimes *)

Inductive client_op :=
  | OpAddPath (desc : option mqvpn_path_desc_t) (o : mqvpn_path_ops_t) (ctx : option Z)
  | OpRemovePath (h : Z)
  | OpPathDropped (h : Z)
  | OpPathReleased (h : Z)
  | OpReactivate (h : Z)
  | OpSetTunActive (active : bool)
  | OpConnect
  | OpDisconnect (flush close : list xqc_cb)
  | OpTick (cbs reconnect_cbs : list xqc_cb)
  | OpPackets (cbs : list xqc_cb)
  | OpSend (path_id size : Z)
  | OpSendBatch (path_id : Z) (iov : list Z)
  | OpSetTimer (wake_after : Z).

(** [cb_set_event_timer]. *)
Definition cb_set_event_timer (wake_after : Z) : M unit := modify (fun c => c <| next_wake_us := wake_after |>).

Definition client_step (op : client_op) : M unit :=
  match op with
  | OpAddPath desc o ctx => mqvpn_client_add_path desc o ctx ;; skip
  | OpRemovePath h => mqvpn_client_remove_path h ;; skip
  | OpPathDropped h => mqvpn_client_drop_path h ;; skip
  | OpPathReleased h => mqvpn_client_on_platform_path_released h ;; skip
  | OpReactivate h => mqvpn_client_reactivate_path h ;; skip
  | OpSetTunActive active => mqvpn_client_set_tun_active active ;; skip
  | OpConnect => mqvpn_client_connect ;; skip
  | OpDisconnect flush close => mqvpn_client_disconnect flush close ;; skip
  | OpTick cbs reconnect_cbs => mqvpn_client_tick cbs reconnect_cbs ;; skip
  | OpPackets cbs => main_logic cbs
  | OpSend path_id size => cb_write_socket_ex path_id size ;; skip
  | OpSendBatch path_id iov => cb_write_mmsg_ex path_id iov ;; skip
  | OpSetTimer wake_after => cb_set_event_timer wake_after
  end.

Fixpoint client_run (ops : list client_op) : M unit :=
  match ops with [] => skip | op :: ops => client_step op ;; client_run ops end.

Definition client_start (cfg : client_config) : world := World (client_init_handle cfg) None 0 [].

End client.
