(* ===== verification/ClientInv.v ===== *)
(** * Reasoning about the client: steps that touch the path slots only

    Weakest preconditions for the client's monad, the invariant of the path
    table, and the steps that change nothing but path slots: every event of
    the path state machine other than adding and releasing a transport.  The
    loops over the table are such steps. *)

From S2P Require Import Prelude PathFsm PathSpec Client.

(** ** Weakest preconditions *)

Definition wp {A} (m : M A) (Q : A -> world -> Prop) (w : world) : Prop := Q (m w).1 (m w).2.

Lemma wp_bind {A B} (m : M A) (f : A -> M B) Q w : wp m (fun a => wp (f a) Q) w -> wp (mbind f m) Q w.
Proof. unfold wp, mbind, M_bind. by destruct (m w). Qed.

Lemma wp_mono {A} (m : M A) (P Q : A -> world -> Prop) w : wp m P w -> (forall a w', P a w' -> Q a w') -> wp m Q w.
Proof. unfold wp. auto. Qed.

Lemma wp_run {A} (m : M A) Q w : wp m Q w -> exists a w', m w = (a, w') /\ Q a w'.
Proof. unfold wp. destruct (m w) as [a w']. intros H. by exists a, w'. Qed.

(** Steps over binds, reads and branches down to the calls that have a lemma. *)
Ltac wp_step :=
  lazymatch goal with
  | |- wp (mbind _ _) _ _ => apply wp_bind
  | |- wp (mret _) _ _ => unfold wp at 1; cbn [mret M_ret fst snd]
  | |- wp skip _ _ => unfold wp at 1; cbn [skip mret M_ret fst snd]
  | |- wp get _ _ => unfold wp at 1; cbn [get fst snd]
  | |- wp (modify _) _ _ => unfold wp at 1; cbn [modify fst snd]
  | |- wp (emit _) _ _ => unfold wp at 1; cbn [emit emit_all fst snd]
  | |- wp (emit_all _) _ _ => unfold wp at 1; cbn [emit_all fst snd]
  | |- wp (set_phase _) _ _ => unfold wp at 1; cbn [set_phase fst snd]
  | |- wp (ask _) _ _ => unfold wp at 1; cbn [ask fst snd]
  | |- wp (put_slot _ _) _ _ => unfold put_slot
  | |- wp (client_now_us _) _ _ => unfold client_now_us
  | |- wp (let '(_, _) := ?x in _) _ _ => let E := fresh "Ex" in destruct x eqn:E
  end.
Ltac wp_steps := repeat wp_step.

(** ** The path table *)

Definition slot_ok (p : path_entry_t) : Prop :=
  path_wf p /\ path_owned p /\ (transport_released p = false -> ops_send (ops p) <> None).

(** The handles whose transports have been finalised, in order. *)
Definition finalized (es : list client_fx) : list Z := omap (fun e => match e with FxFinalize h _ _ => Some h | _ => None end) es.

Definition bad (e : client_fx) : bool :=
  match e with
  | FxSlot FxAbort | FxBadTransition | FxBadOutcome | FxBadSignal | FxNullAccess => true
  | _ => false
  end.

Record slots_inv (ps : list path_entry_t) (next : Z) (fin : list Z) : Prop := {
  si_slot : Forall slot_ok ps;
  si_len : (length ps <= 8)%nat;
  si_nodup : NoDup (handle <$> ps);
  si_range : Forall (fun p => 1 <= handle p < next) ps;
  si_next : 1 <= next;
  si_fin_nodup : NoDup fin;
  si_fin h : h ∈ fin <-> 1 <= h < next /\ Forall (fun p => handle p = h -> transport_released p = true) ps
}.

Definition slots_ok (w : world) : Prop := slots_inv (paths (cl w)) (next_path_handle (cl w)) (finalized (out w)).

(** A slot change that keeps the handle and who owns the transport. *)
Record kept (p p' : path_entry_t) : Prop := {
  kp_ok : slot_ok p -> slot_ok p';
  kp_handle : handle p' = handle p;
  kp_released : transport_released p' = transport_released p
}.

Lemma kept_refl p : kept p p.
Proof. by split. Qed.

Lemma kept_trans p q r : kept p q -> kept q r -> kept p r.
Proof. intros [? H1 H1'] [? H2 H2']. split; [auto|by rewrite H2, H1|by rewrite H2', H1']. Qed.

Lemma slots_inv_kept ps ps' next fin : Forall2 kept ps ps' -> slots_inv ps next fin -> slots_inv ps' next fin.
Proof.
  intros Hk [Hs Hl Hn Hr Hx Hf Hfin].
  assert (Eh : handle <$> ps' = handle <$> ps) by (clear -Hk; induction Hk as [|p p' l l' [] _ IH]; [done|]; rewrite !fmap_cons; congruence).
  split; try done.
  - clear -Hk Hs. induction Hk as [|p p' l l' Hp _ IH]; [constructor|]. inversion Hs; subst. constructor; [by apply Hp|auto].
  - by rewrite <- (Forall2_length _ _ _ Hk).
  - by rewrite Eh.
  - clear -Hk Hr. induction Hk as [|p p' l l' [] _ IH]; [constructor|]. inversion Hr; subst. constructor; [congruence|auto].
  - intros h. rewrite Hfin. apply and_iff_compat_l. clear -Hk.
    induction Hk as [|p p' l l' [_ Eh Er] _ IH]; [by rewrite !Forall_nil|]. rewrite !Forall_cons, IH, Eh, Er. done.
Qed.

(** An effect of the path state machine or the engine on a slot. *)
Definition slot_fx (e : client_fx) : Prop :=
  match e with FxSlot FxAbort => False | FxSlot _ | FxClosePath _ => True | _ => False end.

(** [w'] is [w] after some slots changed. *)
Record quiet_step (w w' : world) : Prop := {
  qs_cl : cl w' = (cl w) <| paths := paths (cl w') |>;
  qs_xq : xq w' = xq w;
  qs_out : exists es, out w' = out w ++ es /\ Forall slot_fx es;
  qs_kept : Forall2 kept (paths (cl w)) (paths (cl w'))
}.

Lemma quiet_refl w : quiet_step w w.
Proof.
  split; [by destruct w as [[] ? ? ?]|done|exists []; by rewrite app_nil_r|].
  apply Forall_Forall2_diag, Forall_true. apply kept_refl.
Qed.

Lemma quiet_trans w1 w2 w3 : quiet_step w1 w2 -> quiet_step w2 w3 -> quiet_step w1 w3.
Proof.
  intros [E1 X1 (e1 & O1 & F1) K1] [E2 X2 (e2 & O2 & F2) K2]. split.
  - rewrite E2, E1. done.
  - congruence.
  - exists (e1 ++ e2). rewrite O2, O1, app_assoc. split; [done|]. by apply Forall_app_2.
  - eapply Forall2_trans; [apply kept_trans|done|done].
Qed.

Lemma slot_fx_clean e : slot_fx e -> bad e = false.
Proof. destruct e as [[]| | | | | | | | | | | | | |]; done. Qed.

Lemma finalized_slot_fx es : Forall slot_fx es -> finalized es = [].
Proof. induction 1 as [|e es He _ IH]; [done|]. by destruct e. Qed.

Lemma finalized_app a b : finalized (a ++ b) = finalized a ++ finalized b.
Proof. unfold finalized. apply omap_app. Qed.

(** A quiet step keeps any reading of the client that does not look at the
    slots. *)
Lemma quiet_reads {A} (f : mqvpn_client_t -> A) w w' :
  (forall c ps, f (c <| paths := ps |>) = f c) -> quiet_step w w' -> f (cl w') = f (cl w).
Proof. intros Hf [E _ _ _]. rewrite E. apply Hf. Qed.

Lemma quiet_slots w w' : quiet_step w w' -> slots_ok w -> slots_ok w'.
Proof.
  intros Hq H. pose proof (quiet_reads next_path_handle w w' ltac:(done) Hq) as En. destruct Hq as [_ _ (es & O & F) K].
  unfold slots_ok. rewrite O, finalized_app, (finalized_slot_fx es F), app_nil_r, En. by eapply slots_inv_kept.
Qed.

(** Faults do not appear in a quiet step. *)
Definition clean (w : world) : Prop := Forall (fun e => bad e = false) (out w).

Lemma quiet_clean w w' : quiet_step w w' -> clean w -> clean w'.
Proof.
  intros [_ _ (es & O & F) _] H. unfold clean. rewrite O. apply Forall_app_2; [done|].
  eapply Forall_impl; [done|]. apply slot_fx_clean.
Qed.

Lemma quiet_len w w' : quiet_step w w' -> n_paths (cl w') = n_paths (cl w).
Proof. intros [_ _ _ K]. unfold n_paths. symmetry. by apply (Forall2_length _ _ _ K). Qed.

(** ** Events *)

Lemma event_fx clk p e c : FxAbort ∉ (path_on_event clk p e (Some c)).2 ->
  Forall slot_fx (map FxSlot (path_on_event clk p e (Some c)).2).
Proof.
  intros H. apply Forall_forall. intros x Hx. apply list_elem_of_fmap in Hx as (y & -> & Hy). by destruct y.
Qed.

(** The context is what the callers build. *)
Definition plain_event (e : path_event_t) (c : path_event_ctx_t) : Prop :=
  clock_ok (now_us c) /\ e <> PATH_EVENT_ADD /\ e <> PATH_EVENT_TRANSPORT_RELEASED /\
  (e = PATH_EVENT_VALIDATION_OK -> validated_target c = PATH_LC_ACTIVE \/ validated_target c = PATH_LC_STANDBY).

Lemma event_kept clk p e c : plain_event e c -> slot_ok p ->
  kept p (path_on_event clk p e (Some c)).1 /\ Forall slot_fx (map FxSlot (path_on_event clk p e (Some c)).2).
Proof.
  intros (Hc & Ha & Ht & Hv) (Hwf & Hown & Hin).
  destruct (path_event_ok clk p e c Hwf) as (Hwf' & Hown' & _ & Hfx); [by split_and!|by right|].
  destruct (path_event_frame clk p e c Hwf Hc) as (Eh & Eo & Er).
  assert (Er' : transport_released (path_on_event clk p e (Some c)).1 = transport_released p) by (rewrite Er; by destruct e).
  split; [|by apply event_fx]. split; [|done|done]. intros _. split_and!; [done|done|]. by rewrite Er', Eo.
Qed.

Lemma insert_kept (ps : list path_entry_t) i p p' : ps !! i = Some p -> kept p p' -> Forall2 kept ps (<[i := p']> ps).
Proof.
  intros Hi Hk. rewrite <- (list_insert_id ps i p Hi) at 1. apply Forall2_insert; [|done].
  apply Forall_Forall2_diag, Forall_true. apply kept_refl.
Qed.

(** One slot rewritten, with the effects of the machine on it. *)
Lemma quiet_put w w' i p p' es : paths (cl w) !! i = Some p -> kept p p' -> Forall slot_fx es ->
  cl w' = (cl w) <| paths := <[i := p']> (paths (cl w)) |> -> xq w' = xq w -> out w' = out w ++ es -> quiet_step w w'.
Proof.
  intros Hi Hk Hf Ec Ex Eo. split; [rewrite Ec; done|done|by exists es|]. rewrite Ec. by eapply insert_kept.
Qed.

Lemma slots_lookup w i p : slots_ok w -> paths (cl w) !! i = Some p -> slot_ok p.
Proof. intros [Hs _ _ _ _ _ _] Hi. by eapply Forall_lookup_1. Qed.

Lemma wp_fire E i e c w p Q : slots_ok w -> paths (cl w) !! i = Some p -> plain_event e c ->
  (forall clk w', quiet_step w w' -> paths (cl w') = <[i := (path_on_event clk p e (Some c)).1]> (paths (cl w)) -> Q tt w') ->
  wp (fire E i e c) Q w.
Proof.
  intros Hs Hi Hp HQ. unfold fire. wp_steps. rewrite Hi. wp_steps.
  destruct (event_kept (now E (calls w)) p e c Hp (slots_lookup _ _ _ Hs Hi)) as [Hk Hf]. rewrite Ex in Hk, Hf.
  apply (HQ (now E (calls w))); [|by rewrite Ex]. eapply quiet_put; [done|done|exact Hf|done|done|done].
Qed.

(** ** Loops *)

(** A body that is a quiet step on every slot of the table makes a loop that
    is one; [P] is what holds of the slots already visited. *)
Lemma wp_for_paths (f : nat -> M unit) (P : nat -> world -> Prop) w Q : slots_ok w ->
  (forall i w', quiet_step w w' -> slots_ok w' -> (i < n_paths (cl w'))%nat -> P i w' ->
     wp (f i) (fun _ w'' => quiet_step w' w'' /\ P (S i) w'') w') ->
  P 0%nat w -> (forall w', quiet_step w w' -> P (n_paths (cl w)) w' -> Q tt w') -> wp (for_paths f) Q w.
Proof.
  intros Hs Hf H0 HQ. unfold for_paths. wp_steps.
  assert (H : forall n i w', quiet_step w w' -> P i w' -> (i + n = n_paths (cl w))%nat ->
    wp (for_each (seq i n) f) (fun _ w'' => quiet_step w w'' /\ P (n_paths (cl w)) w'') w').
  { induction n as [|n IH]; intros i w' Hq HP Hn; cbn [seq for_each].
    - wp_steps. replace (n_paths (cl w)) with i by lia. done.
    - wp_steps. eapply wp_mono; [apply Hf; [done|by eapply quiet_slots|rewrite (quiet_len _ _ Hq); lia|done]|].
      intros _ w'' [Hq' HP']. apply IH; [by eapply quiet_trans|done|lia]. }
  eapply wp_mono; [apply (H _ 0%nat w); [apply quiet_refl|done|lia]|]. intros [] w' [Hq HP]. by apply HQ.
Qed.

(** The loop when nothing more is tracked. *)
Lemma wp_for_quiet (f : nat -> M unit) w Q : slots_ok w ->
  (forall i w', quiet_step w w' -> slots_ok w' -> (i < n_paths (cl w'))%nat -> wp (f i) (fun _ w'' => quiet_step w' w'') w') ->
  (forall w', quiet_step w w' -> Q tt w') -> wp (for_paths f) Q w.
Proof.
  intros Hs Hf HQ. apply (wp_for_paths f (fun _ _ => True)); [done| |done|auto].
  intros i w' Hq Hs' Hi _. eapply wp_mono; [by apply Hf|]. done.
Qed.

(** ** The operations of the client that are quiet *)

(** Where an activation leaves a slot. *)
Definition activated (p : path_entry_t) : Prop :=
  state p = PATH_LC_VALIDATING \/ state p = PATH_LC_CREATE_WAIT \/ state p = PATH_LC_CLOSED_RECOVERABLE.

(** A slot that no connection has touched. *)
Definition fresh (p : path_entry_t) : Prop := transport_attached p = true -> state p = PATH_LC_PENDING.

Lemma activate_state clk p c : path_wf p -> clock_ok (now_us c) -> state p = PATH_LC_PENDING ->
  activated (path_on_event clk p PATH_EVENT_ACTIVATE_REQUESTED (Some c)).1.
Proof.
  intros Hwf Hc Hst. pose proof (f_equal Spec.st (path_event_abs clk p PATH_EVENT_ACTIVATE_REQUESTED c Hwf Hc)) as E.
  cbn [Spec.st abs_slot] in E. unfold activated. rewrite E. cbn. unfold Spec.OnActivate. cbn. rewrite Hst.
  rewrite bool_decide_eq_true_2 by done. unfold Spec.ApplyFailure. destruct (result c); cbn; [tauto| |tauto].
  destruct (Spec.MaxRetries <=? Z.min (recreate_retries p) Spec.MaxRetries + 1); tauto.
Qed.

Lemma reset_state clk p c : path_wf p -> clock_ok (now_us c) -> fresh (path_on_event clk p PATH_EVENT_CONN_RESET (Some c)).1.
Proof.
  intros Hwf Hc. pose proof (path_event_abs clk p PATH_EVENT_CONN_RESET c Hwf Hc) as E. revert E.
  generalize (path_on_event clk p PATH_EVENT_CONN_RESET (Some c)).1. intros q E Ha. pose proof (f_equal Spec.st E) as Es. pose proof (f_equal Spec.attached E) as Ea. cbn in Es, Ea. rewrite Ha in Ea. rewrite Es.
  unfold Spec.OnConnReset, Spec.FreeGate in *. cbn in *. destruct (transport_attached p); [done|]. by destruct (_ && _).
Qed.

Lemma reset_attached clk p c : path_wf p -> clock_ok (now_us c) ->
  transport_attached (path_on_event clk p PATH_EVENT_CONN_RESET (Some c)).1 = transport_attached p.
Proof.
  intros Hwf Hc. pose proof (f_equal Spec.attached (path_event_abs clk p PATH_EVENT_CONN_RESET c Hwf Hc)) as E.
  change (Spec.attached (abs_slot ?x)) with (transport_attached x) in E. rewrite E. cbn. unfold Spec.OnConnReset, Spec.FreeGate. cbn.
  destruct (transport_attached p) eqn:Ea; [done|]. by destruct (_ && _).
Qed.

(** An event that takes a slot out of service keeps it untouched. *)
Lemma drop_fresh clk p e c : path_wf p -> clock_ok (now_us c) -> e = PATH_EVENT_REMOVE_API \/ e = PATH_EVENT_PLATFORM_DROP ->
  fresh (path_on_event clk p e (Some c)).1.
Proof.
  intros Hwf Hc He Ha. exfalso. pose proof (f_equal Spec.attached (path_event_abs clk p e c Hwf Hc)) as E.
  change (Spec.attached (abs_slot _)) with (transport_attached (path_on_event clk p e (Some c)).1) in E. rewrite Ha in E.
  destruct Hwf as (_ & Hl & _). unfold Spec.Legal in Hl.
  destruct He as [-> | ->]; cbn in E, Hl; unfold Spec.OnDropLike in E; cbn in E; revert E;
    (case_bool_decide as H1; [rewrite H1 in Hl; cbn; bool_to_prop; congruence|]);
    (case_bool_decide as H2; [rewrite H2 in Hl; cbn; bool_to_prop; congruence|done]).
Qed.

Lemma pending_not_live p : path_wf p -> state p = PATH_LC_PENDING -> xquic_path_live p = false /\ transport_attached p = true.
Proof. intros (_ & Hl & _) Hs. unfold Spec.Legal in Hl. cbn in Hl. rewrite Hs in Hl. bool_to_prop. done. Qed.

Section quiet.
Context (E : env) (Hclk : forall k, clock_ok (now E k)).

Lemma ask_quiet w n : quiet_step w (w <| calls := n |>).
Proof. split; [by destruct w as [[] ? ? ?]|done|exists []; by rewrite app_nil_r|]. apply Forall_Forall2_diag, Forall_true, kept_refl. Qed.

Lemma wp_classify w Q : conn (cl w) <> None -> (forall r id w', quiet_step w w' -> paths (cl w') = paths (cl w) -> Q (r, id) w') ->
  wp (activate_via_xquic_classify E) Q w.
Proof.
  intros Hc HQ. unfold activate_via_xquic_classify, with_conn. wp_steps. destruct (conn (cl w)); [|done]. wp_steps.
  apply HQ; [apply ask_quiet|done].
Qed.

Lemma plain_activate r id t : clock_ok t -> plain_event PATH_EVENT_ACTIVATE_REQUESTED (PathEventCtx r id PATH_LC_PENDING t).
Proof. intros. by split_and!. Qed.

Lemma wp_activate_path w i p Q : slots_ok w -> conn (cl w) <> None -> paths (cl w) !! i = Some p -> state p = PATH_LC_PENDING ->
  (forall w' p', quiet_step w w' -> activated p' -> paths (cl w') = <[i := p']> (paths (cl w)) -> Q tt w') ->
  wp (client_activate_path E i) Q w.
Proof.
  intros Hs Hc Hi Hst HQ. destruct (slots_lookup w i p Hs Hi) as (Hwf & _). unfold client_activate_path. wp_steps. rewrite Hi.
  rewrite (proj1 (pending_not_live p Hwf Hst)). wp_steps. apply wp_classify; [done|]. intros r id w1 Hq1 Ep1. wp_steps.
  set (w2 := w1 <| calls ::= S |>). pose proof (quiet_trans _ _ _ Hq1 (ask_quiet w1 (S (calls w1)))) as Hq2.
  apply (wp_fire E i _ _ w2 p); [by eapply quiet_slots|by rewrite <- Hi, <- Ep1|by apply plain_activate|].
  intros clk w3 Hq3 Ep3. apply (HQ w3 (path_on_event clk p PATH_EVENT_ACTIVATE_REQUESTED (Some (PathEventCtx r id PATH_LC_PENDING (now E (calls w1))))).1).
  - by eapply quiet_trans.
  - apply activate_state; [done|apply Hclk|done].
  - rewrite Ep3. unfold w2. cbn. by rewrite Ep1.
Qed.

Lemma quiet_conn w w' : quiet_step w w' -> conn (cl w') = conn (cl w).
Proof. by apply quiet_reads. Qed.

(** Every slot that was waiting has been tried. *)
Lemma wp_activate_pending w Q : slots_ok w -> conn (cl w) <> None ->
  (forall w', quiet_step w w' -> (forall j p, paths (cl w) !! j = Some p -> state p = PATH_LC_PENDING ->
      exists p', paths (cl w') !! j = Some p' /\ activated p') -> Q tt w') ->
  wp (activate_pending_paths E) Q w.
Proof.
  intros Hs Hc HQ.
  apply (wp_for_paths _ (fun i w' => (forall j, (j < i)%nat -> forall p, paths (cl w) !! j = Some p -> state p = PATH_LC_PENDING ->
      exists p', paths (cl w') !! j = Some p' /\ activated p') /\
      forall j, (i <= j)%nat -> paths (cl w') !! j = paths (cl w) !! j)); [done| |by split; [lia|]|].
  - intros i w' Hq Hs' Hi [Hdone Hrest]. wp_steps.
    destruct (paths (cl w') !! i) as [p|] eqn:Ep; [|apply lookup_ge_None in Ep; unfold n_paths in Hi; lia].
    case_bool_decide as Hst.
    + apply (wp_activate_path w' i p); [done|by rewrite (quiet_conn _ _ Hq)|done|done|]. intros w'' p' Hq' Ha Eps. split; [done|]. split.
      * intros j Hj p0 Hp0 Hst0. rewrite Eps. destruct (decide (j = i)) as [->|Hne].
        -- exists p'. split; [|done]. apply list_lookup_insert_eq. by apply lookup_lt_Some in Ep.
        -- rewrite list_lookup_insert_ne by done. apply (Hdone j ltac:(lia) p0 Hp0 Hst0).
      * intros j Hj. rewrite Eps, list_lookup_insert_ne by lia. apply Hrest. lia.
    + wp_steps. split; [apply quiet_refl|]. split; [|intros j Hj; apply Hrest; lia].
      intros j Hj p0 Hp0 Hst0. destruct (decide (j = i)) as [->|Hne]; [|apply (Hdone j ltac:(lia) p0 Hp0 Hst0)].
      rewrite Hrest in Ep by lia. rewrite Hp0 in Ep. by injection Ep as ->.
  - intros w' Hq [Hdone _]. apply HQ; [done|]. intros j p Hj. apply Hdone; [|done]. by apply lookup_lt_Some in Hj.
Qed.

(** After the reset no slot remembers the connection. *)
Lemma wp_reset_paths w Q : slots_ok w ->
  (forall w', quiet_step (w <| cl := (cl w) <| multipath_ready := false |> <| hold_extra_paths := false |>
                           <| primary_path_idx := primary_path_idx (cl w') |> |>) w' ->
     Forall fresh (paths (cl w')) -> transport_attached <$> paths (cl w') = transport_attached <$> paths (cl w) ->
     primary_path_idx (cl w') = client_next_primary_idx (cl w') (primary_path_idx (cl w)) -> Q tt w') ->
  wp (client_reset_paths_for_reconnect E) Q w.
Proof.
  intros Hs HQ. unfold client_reset_paths_for_reconnect. wp_steps.
  set (w1 := w <| cl ::= _ |>).
  apply (wp_for_paths _ (fun i w' => (forall j, (j < i)%nat -> forall p, paths (cl w') !! j = Some p -> fresh p) /\
    transport_attached <$> paths (cl w') = transport_attached <$> paths (cl w))); [done| |split; [lia|done]|].
  - intros i w' Hq Hs' Hi [Hdone Hatt]. unfold client_reset_path_runtime. wp_steps.
    destruct (paths (cl w') !! i) as [p|] eqn:Ep; [|apply lookup_ge_None in Ep; unfold n_paths in Hi; lia]. wp_steps.
    set (p1 := p <| last_residence_warn_at_us := 0 |>). set (w2 := (w' <| cl ::= _ |>) <| calls ::= _ |>).
    assert (Hk1 : kept p p1) by by split.
    assert (Hq2 : quiet_step w' w2) by (eapply (quiet_put w' w2 i p p1 []); [done|done|constructor|done|done|by rewrite app_nil_r]).
    pose proof (quiet_slots _ _ Hq2 Hs') as Hs2. assert (Hi2 : paths (cl w2) !! i = Some p1).
    { unfold w2. cbn. apply list_lookup_insert_eq. by apply lookup_lt_Some in Ep. }
    apply (wp_fire E i _ _ w2 p1); [done|done|split; [apply Hclk|by split_and!]|]. intros clk w3 Hq3 Ep3. split; [by eapply quiet_trans|]. split; cycle 1.
    { rewrite Ep3, list_fmap_insert, reset_attached by (apply Hclk || exact (proj1 (slots_lookup w2 i p1 Hs2 Hi2))). unfold w2. cbn [cl paths update].
      rewrite list_fmap_insert, list_insert_insert_eq, list_insert_id; [done|]. by rewrite list_lookup_fmap, Ep. }
    intros j Hj q Hq'. rewrite Ep3 in Hq'. destruct (decide (j = i)) as [->|Hne].
    + rewrite list_lookup_insert_eq in Hq' by (by apply lookup_lt_Some in Hi2). apply Some_inj in Hq' as <-.
      apply reset_state; [exact (proj1 (slots_lookup w2 i p1 Hs2 Hi2))|apply Hclk].
    + rewrite list_lookup_insert_ne in Hq' by done. unfold w2 in Hq'. cbn in Hq'. rewrite list_lookup_insert_ne in Hq' by done.
      apply (Hdone j ltac:(lia) q Hq').
  - intros w' Hq [Hdone Hatt]. wp_steps. pose proof (quiet_reads primary_path_idx _ _ ltac:(done) Hq) as Epr. apply HQ.
    + destruct Hq as [Ec Ex Eo Ek]. split; [|done|done|done]. cbn [cl update]. rewrite Ec. done.
    + apply Forall_lookup_2. intros j p Hj. apply (Hdone j); [|done]. rewrite <- (quiet_len _ _ Hq). by apply lookup_lt_Some in Hj.
    + exact Hatt.
    + cbn. rewrite Epr. reflexivity.
Qed.

(** ** Ticks *)

Lemma stable_kept p t : kept p (path_fsm_tick_confirm_stable p t).1 /\ Forall slot_fx (map FxSlot (path_fsm_tick_confirm_stable p t).2).
Proof.
  unfold path_fsm_tick_confirm_stable. destruct (_ && _) eqn:Eg; [by split; [apply kept_refl|constructor]|].
  destruct (_ || _); [by split; [apply kept_refl|constructor]|]. cbn [fst snd map]. split; [|by apply Forall_cons_2].
  assert (Hs : state p = PATH_LC_ACTIVE \/ state p = PATH_LC_STANDBY)
    by (apply andb_false_iff in Eg as [Eg|Eg]; apply negb_false_iff, bool_decide_eq_true in Eg; auto).
  split; [|done|done]. intros ((Hst & Hl & Hr) & Ho & Hin). split_and!; [|done|done]. split_and!; [done| |cbn; lia].
  revert Hl. unfold Spec.Legal. cbn. by destruct Hs as [-> | ->].
Qed.

Lemma wp_confirm_stable w i t Q : slots_ok w -> (i < n_paths (cl w))%nat -> (forall w', quiet_step w w' -> Q tt w') ->
  wp (confirm_stable i t) Q w.
Proof.
  intros Hs Hi HQ. unfold confirm_stable. wp_steps. destruct (paths (cl w) !! i) as [p|] eqn:Ep; [|apply lookup_ge_None in Ep; unfold n_paths in Hi; lia].
  wp_steps. destruct (stable_kept p t) as [Hk Hf]. rewrite Ex in Hk, Hf. apply HQ. by eapply quiet_put.
Qed.

Lemma wp_residence w i t Q : slots_ok w -> (i < n_paths (cl w))%nat -> (forall w', quiet_step w w' -> Q tt w') ->
  wp (client_path_residence_check i t) Q w.
Proof.
  intros Hs Hi HQ. unfold client_path_residence_check. wp_steps. destruct (paths (cl w) !! i) as [p|] eqn:Ep; [|apply lookup_ge_None in Ep; unfold n_paths in Hi; lia].
  destruct (path_should_warn_residence p t); wp_steps; apply HQ; [|apply quiet_refl].
  eapply (quiet_put _ _ i p _ []); [done| |constructor|done|done|by rewrite app_nil_r]. by split.
Qed.

Lemma wp_retry w i t Q : slots_ok w -> conn (cl w) <> None -> clock_ok t -> (i < n_paths (cl w))%nat ->
  (forall w', quiet_step w w' -> Q tt w') -> wp (tick_drive_retry_timer E i t) Q w.
Proof.
  intros Hs Hc Ht Hi HQ. unfold tick_drive_retry_timer. wp_steps. destruct (paths (cl w) !! i) as [p|] eqn:Ep; [|apply lookup_ge_None in Ep; unfold n_paths in Hi; lia].
  destruct (_ && _); [wp_steps; apply HQ, quiet_refl|]. destruct (_ || _); [wp_steps; apply HQ, quiet_refl|]. wp_steps.
  apply wp_classify; [done|]. intros r id w1 Hq1 Ep1. wp_steps.
  apply (wp_fire E i _ _ w1 p); [by eapply quiet_slots|by rewrite Ep1|by split_and!|]. intros clk w2 Hq2 _. apply HQ. by eapply quiet_trans.
Qed.

Lemma wp_check_validation info t w i : slots_ok w -> clock_ok t -> (i < n_paths (cl w))%nat ->
  wp (check_validation E info t i) (fun _ w' => quiet_step w w') w.
Proof.
  intros Hs Ht Hi. unfold check_validation. wp_steps. destruct (paths (cl w) !! i) as [p|] eqn:Ep; [|apply lookup_ge_None in Ep; unfold n_paths in Hi; lia].
  case_bool_decide; cbn [negb]; [|wp_steps; apply quiet_refl]. destruct (xqc_find_path_metrics _ _) as [pm|]; [|wp_steps; apply quiet_refl].
  destruct (negb _); [wp_steps; apply quiet_refl|]. apply (wp_fire E i _ _ w p); [done|done| |by intros].
  split; [done|]. split_and!; [done|done|]. intros _. cbn. case_bool_decide; auto.
Qed.

Lemma wp_path_recovery w Q : slots_ok w -> (cstate (cl w) = MQVPN_STATE_ESTABLISHED -> conn (cl w) <> None) ->
  (forall w', quiet_step w w' -> Q tt w') -> wp (tick_path_recovery E) Q w.
Proof.
  intros Hs Hc HQ. unfold tick_path_recovery. wp_steps. destruct (negb (multipath_ready _) || _) eqn:Eg; [wp_steps; apply HQ, quiet_refl|].
  apply orb_false_iff in Eg as [_ Eg]. apply negb_false_iff, bool_decide_eq_true in Eg. specialize (Hc Eg). wp_steps.
  set (t := now E (calls w)). set (w1 := w <| calls ::= S |>). assert (Ht : clock_ok t) by apply Hclk.
  assert (Hval : wp (tick_check_all_validations E t) (fun _ w' => quiet_step w1 w') w1).
  { unfold tick_check_all_validations. wp_steps. destruct (_ || _); [wp_steps; apply quiet_refl|]. destruct (negb _); [wp_steps; apply quiet_refl|].
    wp_steps. apply wp_for_quiet; [exact Hs|intros; by apply wp_check_validation|]. intros w' Hq. eapply quiet_trans; [apply ask_quiet|exact Hq]. }
  eapply wp_mono; [exact Hval|]. intros [] w2 Hq2. assert (Hq : quiet_step w w2) by (eapply quiet_trans; [apply ask_quiet|exact Hq2]).
  apply wp_for_quiet; [by eapply quiet_slots| |intros w3 Hq3; apply HQ; by eapply quiet_trans].
  intros i w3 Hq3 Hs3 Hi. wp_steps. apply wp_residence; [done|done|]. intros w4 Hq4. wp_steps.
  pose proof (quiet_trans _ _ _ Hq3 Hq4) as Hq34. apply wp_retry; [exact (quiet_slots _ _ Hq4 Hs3)| |done|by rewrite (quiet_len _ _ Hq4)|].
  { rewrite (quiet_conn _ _ Hq34), (quiet_conn _ _ Hq). done. }
  intros w5 Hq5. pose proof (quiet_trans _ _ _ Hq4 Hq5) as Hq45.
  apply wp_confirm_stable; [exact (quiet_slots _ _ Hq45 Hs3)|by rewrite (quiet_len _ _ Hq45)|]. intros w6 Hq6.
  exact (quiet_trans _ _ _ Hq45 Hq6).
Qed.

Lemma find_idx_lookup f c i : find_idx f c = Some i -> exists p, paths c !! i = Some p /\ f p = true.
Proof.
  unfold find_idx. destruct (list_find _ _) as [[j p]|] eqn:El; [|done]. intros [= <-].
  apply list_find_Some in El as (Hi & Hf & _). by exists p.
Qed.

Lemma wp_path_removed w id Q : slots_ok w -> (forall w', quiet_step w w' -> Q tt w') -> wp (cb_path_removed E id) Q w.
Proof.
  intros Hs HQ. unfold cb_path_removed. wp_steps. destruct (find_path_by_xqc_id _ _) as [i|] eqn:Ei; [|wp_steps; apply HQ, quiet_refl].
  apply find_idx_lookup in Ei as (p & Hp & _). wp_steps. apply (wp_fire E i _ _ _ p); [exact Hs|exact Hp|split; [apply Hclk|by split_and!]|].
  intros clk w2 Hq2 _. apply HQ. eapply quiet_trans; [apply ask_quiet|exact Hq2].
Qed.

(** Taking a path out of service, by the API or by the platform. *)
Lemma wp_abandon_fire w i p e t Q : slots_ok w -> paths (cl w) !! i = Some p -> clock_ok t ->
  e = PATH_EVENT_REMOVE_API \/ e = PATH_EVENT_PLATFORM_DROP ->
  (forall w' p', quiet_step w w' -> fresh p' -> paths (cl w') = <[i := p']> (paths (cl w)) -> Q w') ->
  wp (abandon_path (cl w) p) (fun _ w1 => forall n, wp (fire E i e (now_ctx t)) (fun _ w' => Q w') (w1 <| calls := n |>)) w.
Proof.
  intros Hs Hp Ht He HQ. destruct (slots_lookup w i p Hs Hp) as (Hwf & _).
  assert (Hab : wp (abandon_path (cl w) p) (fun _ w1 => quiet_step w w1 /\ paths (cl w1) = paths (cl w)) w).
  { unfold abandon_path. destruct (_ && _); wp_steps; [|split; [apply quiet_refl|done]]. split; [|done].
    split; [by destruct w as [[] ? ? ?]|done|exists [FxClosePath (xqc_path_id p)]; split; [done|by apply Forall_cons_2]|].
    apply Forall_Forall2_diag, Forall_true, kept_refl. }
  eapply wp_mono; [exact Hab|]. intros [] w1 [Hq1 Ep1] n. pose proof (quiet_trans _ _ _ Hq1 (ask_quiet w1 n)) as Hq2.
  apply (wp_fire E i _ _ _ p); [by eapply quiet_slots|by cbn; rewrite Ep1| |].
  { split; [done|]. destruct He as [-> | ->]; by split_and!. }
  intros clk w3 Hq3 Ep3. eapply HQ; [by eapply quiet_trans|by apply (drop_fresh clk p e (now_ctx t))|]. rewrite Ep3. cbn. by rewrite Ep1.
Qed.
End quiet.
