(* ===== verification/ClientLife.v ===== *)
(** * The client's connection life

    The invariant that ties the client's state, its connection, the phase of
    the QUIC connection and the timers together, and the callbacks of the
    tunnel: response headers, addresses, MTU and the end of the stream.  The
    platform is told once that a connection's tunnel is closed. *)

From S2P Require Import Prelude Wire Hybrid HybridProofs PathFsm PathSpec Client ClientInv.

(** ** The invariant *)

Definition count_fx (f : client_fx -> bool) (es : list client_fx) : nat := length (List.filter f es).

Definition is_closed_fx (e : client_fx) : bool := match e with FxTunnelClosed _ => true | _ => false end.
Definition is_freed_fx (e : client_fx) : bool := match e with FxConnFreed => true | _ => false end.

Lemma count_fx_app f a b : count_fx f (a ++ b) = (count_fx f a + count_fx f b)%nat.
Proof. unfold count_fx. by rewrite List.filter_app, length_app. Qed.

(** The bookkeeping of the tunnel: a notified connection is not up, one in its
    handshake neither, and the platform has been told of every connection that
    ended and of the one whose failure it has been told. *)
Record tunnel_inv (k : option cli_conn_t) (x : option xq_phase) (es : list client_fx) : Prop := {
  ti_down k0 : k = Some k0 -> tunnel_notified k0 = true -> tunnel_ok k0 = false;
  ti_hand k0 : k = Some k0 -> x = Some XqHandshaking -> tunnel_ok k0 = false;
  ti_count : count_fx is_closed_fx es =
    (count_fx is_freed_fx es + match k with Some k0 => if tunnel_notified k0 then 1 else 0 | None => 0 end)%nat
}.

Record life_inv (c : mqvpn_client_t) (x : option xq_phase) : Prop := {
  li_conn : conn c = None <-> x = None;
  li_none : cstate c = MQVPN_STATE_IDLE \/ cstate c = MQVPN_STATE_RECONNECTING -> conn c = None;
  li_some : cstate c = MQVPN_STATE_CONNECTING \/ cstate c = MQVPN_STATE_AUTHENTICATING \/ cstate c = MQVPN_STATE_TUNNEL_READY \/
    cstate c = MQVPN_STATE_ESTABLISHED -> conn c <> None;
  li_hand : x = Some XqHandshaking -> cstate c = MQVPN_STATE_CONNECTING /\ handshake_started_us c <> 0;
  li_open : x = Some XqOpen -> cstate c = MQVPN_STATE_AUTHENTICATING \/ cstate c = MQVPN_STATE_TUNNEL_READY \/
    cstate c = MQVPN_STATE_ESTABLISHED;
  li_sched : cstate c = MQVPN_STATE_RECONNECTING -> reconnect_scheduled_us c <> 0;
  li_idle : cstate c = MQVPN_STATE_IDLE -> Forall fresh (paths c);
  li_start : in_connect c = false;
  li_closed : cstate c = MQVPN_STATE_CLOSED -> conn c <> None -> shutting_down c = true
}.

Record inv (w : world) : Prop := {
  in_slots : slots_ok w;
  in_clean : clean w;
  in_tunnel : tunnel_inv (conn (cl w)) (xq w) (out w);
  in_life : life_inv (cl w) (xq w)
}.

(** Effects that say nothing about connections or transports. *)
Definition plain_fx (e : client_fx) : Prop :=
  bad e = false /\ is_closed_fx e = false /\ is_freed_fx e = false /\ finalized [e] = [].

Lemma slot_fx_plain e : slot_fx e -> plain_fx e.
Proof. intros He. split; [by apply slot_fx_clean|]. destruct e as [[]| | | | | | | | | | | | | |]; done. Qed.

Lemma plain_counts es : Forall plain_fx es ->
  count_fx is_closed_fx es = 0%nat /\ count_fx is_freed_fx es = 0%nat /\ finalized es = [] /\ Forall (fun e => bad e = false) es.
Proof.
  induction 1 as [|e es (Hb & H1 & H2 & H3) _ (IH1 & IH2 & IH3 & IH4)]; [done|]. unfold count_fx in *. cbn [List.filter].
  rewrite H1, H2. split_and!; [done|done| |by apply Forall_cons_2]. change (e :: es) with ([e] ++ es). by rewrite finalized_app, H3, IH3.
Qed.

Lemma tunnel_plain k x es es' : Forall plain_fx es' -> tunnel_inv k x es -> tunnel_inv k x (es ++ es').
Proof.
  intros Hp [Hd Hh Hc]. destruct (plain_counts es' Hp) as (E1 & E2 & _). split; [done|done|].
  rewrite !count_fx_app, E1, E2. rewrite Hc. lia.
Qed.

Lemma clean_app w es : clean w -> Forall plain_fx es -> Forall (fun e => bad e = false) (out w ++ es).
Proof. intros Hc Hp. apply Forall_app_2; [done|]. by apply plain_counts in Hp as (_ & _ & _ & ?). Qed.

Lemma slots_app w es : slots_ok w -> Forall plain_fx es ->
  slots_inv (paths (cl w)) (next_path_handle (cl w)) (finalized (out w ++ es)).
Proof. intros Hs Hp. apply plain_counts in Hp as (_ & _ & E & _). rewrite finalized_app, E, app_nil_r. done. Qed.

(** A quiet step keeps the invariant; an idle client needs its slots fresh. *)
Lemma quiet_inv w w' : quiet_step w w' -> inv w -> (cstate (cl w) = MQVPN_STATE_IDLE -> Forall fresh (paths (cl w'))) -> inv w'.
Proof.
  intros Hq [Hs Hc Ht [Hl1 Hl2 Hl3 Hl4 Hl5 Hl6 Hl7 Hl8 Hl9]] Hf. pose proof (quiet_slots _ _ Hq Hs) as Hs'. pose proof (quiet_clean _ _ Hq Hc) as Hc'.
  pose proof (quiet_conn _ _ Hq) as Ek. pose proof (quiet_reads cstate _ _ ltac:(done) Hq) as Es.
  pose proof (quiet_reads handshake_started_us _ _ ltac:(done) Hq) as Eh.
  pose proof (quiet_reads reconnect_scheduled_us _ _ ltac:(done) Hq) as Er.
  pose proof (quiet_reads shutting_down _ _ ltac:(done) Hq) as Ed. pose proof (quiet_reads in_connect _ _ ltac:(done) Hq) as Ei. destruct Hq as [_ Ex (es & Eo & Ef) _].
  split; [done|done| |].
  - rewrite Ek, Ex, Eo. apply tunnel_plain; [|done]. eapply Forall_impl; [done|]. apply slot_fx_plain.
  - rewrite Ex. split; rewrite ?Ek, ?Es, ?Eh, ?Er, ?Ei, ?Ed; auto.
Qed.

Lemma quiet_inv_live w w' : quiet_step w w' -> inv w -> conn (cl w) <> None -> inv w'.
Proof. intros Hq Hi Hc. eapply quiet_inv; [done|done|]. intros Hs. destruct Hc. eapply li_none; [apply Hi|by left]. Qed.

(** A step that changes none of the slots and not the connection. *)
Lemma plain_inv w w' es : inv w -> paths (cl w') = paths (cl w) -> next_path_handle (cl w') = next_path_handle (cl w) ->
  conn (cl w') = conn (cl w) -> xq w' = xq w -> out w' = out w ++ es -> Forall plain_fx es -> life_inv (cl w') (xq w') -> inv w'.
Proof.
  intros [Is Ic It _] Ep En Ek Ex Eo Hp Hl. split; [|by unfold clean; rewrite Eo; apply clean_app| |done].
  - unfold slots_ok. rewrite Ep, En, Eo. by apply slots_app.
  - rewrite Ek, Ex, Eo. by apply tunnel_plain.
Qed.

(** ** States *)

(** The handshake clock after a change of state. *)
Definition stamped (c : mqvpn_client_t) (s : mqvpn_client_state_t) (t : Z) : Z :=
  if bool_decide (s = MQVPN_STATE_CONNECTING) then t
  else if bool_decide (cstate c = MQVPN_STATE_CONNECTING) then 0 else handshake_started_us c.

Lemma wp_set_state E s w Q : mqvpn_state_transition_valid (cstate (cl w)) s = true -> (forall k, clock_ok (now E k)) ->
  (forall t n, clock_ok t -> Q tt (World ((cl w) <| handshake_started_us := stamped (cl w) s t |> <| cstate := s |>) (xq w) n
     (out w ++ [FxStateChanged (cstate (cl w)) s]))) ->
  wp (client_set_state E s) Q w.
Proof.
  intros Hv Hk HQ. unfold client_set_state. wp_steps. rewrite bool_decide_eq_false_2 by (intros E'; rewrite E' in Hv; by destruct s).
  rewrite Hv. wp_steps. unfold stamped in HQ. destruct w as [c x n es]. cbn [cl xq calls out] in *.
  case_bool_decide as H1; [wp_steps; apply HQ, Hk|]. specialize (HQ (now E 0) n (Hk 0%nat)).
  case_bool_decide as H2; wp_steps; destruct c; exact HQ.
Qed.

(** A change to the state the client is already in is none. *)
Lemma wp_set_state_same E s w (Q : unit -> world -> Prop) : cstate (cl w) = s -> Q tt w -> wp (client_set_state E s) Q w.
Proof. intros Hs HQ. unfold client_set_state. wp_steps. rewrite bool_decide_eq_true_2 by done. wp_steps. done. Qed.

(** ** Reconnecting *)

Lemma delay_loop_bounds n d : 0 < d -> d <= delay_loop n d /\ (RECONNECT_BACKOFF_MAX_SEC <= d -> delay_loop n d = d).
Proof.
  revert d. induction n as [|n IH]; intros d Hd; cbn [delay_loop]; [lia|]. destruct (Z.ltb_spec d RECONNECT_BACKOFF_MAX_SEC); [|lia].
  destruct (IH (d * 2)) as [? _]; [lia|]. split; [lia|]. lia.
Qed.

Lemma reconnect_delay_bounds c : 1 <= client_reconnect_delay_sec c <= RECONNECT_BACKOFF_MAX_SEC.
Proof.
  unfold client_reconnect_delay_sec. set (base := if _ <=? 0 then 5 else _).
  assert (Hb : 0 < base) by (unfold base; destruct (Z.leb_spec (reconnect_interval_sec (config c)) 0); lia).
  destruct (delay_loop_bounds (Z.to_nat (reconnect_attempts c)) base Hb) as [? _].
  destruct (Z.ltb_spec RECONNECT_BACKOFF_MAX_SEC (delay_loop (Z.to_nat (reconnect_attempts c)) base)); unfold RECONNECT_BACKOFF_MAX_SEC in *; lia.
Qed.

Lemma wp_arm E w Q : (forall k, clock_ok (now E k)) ->
  (forall t n delay, t <> 0 -> 1 <= delay <= RECONNECT_BACKOFF_MAX_SEC -> Q delay (World ((cl w) <| reconnect_attempts ::= Z.succ |>
     <| reconnect_scheduled_us := t |>) (xq w) n (out w))) ->
  wp (client_arm_reconnect_timer E) Q w.
Proof.
  intros Hk HQ. unfold client_arm_reconnect_timer. wp_steps. pose proof (reconnect_delay_bounds (cl w)) as Hd.
  destruct w as [c x n es]. cbn [cl xq calls out update] in *. apply HQ; [|done].
  specialize (Hk n). unfold clock_ok, PATH_RECREATE_MAX_DELAY_US, RECONNECT_BACKOFF_MAX_SEC in *. rewrite u64_small; lia.
Qed.

(** ** Steps of the tunnel *)

(** What the life of the connection depends on, the tunnel aside. *)
Definition core (c : mqvpn_client_t) :=
  (cstate c, handshake_started_us c, reconnect_scheduled_us c, paths c, next_path_handle c, in_connect c, shutting_down c).

Record conn_step (w w' : world) : Prop := {
  co_core : core (cl w') = core (cl w);
  co_live : conn (cl w') <> None;
  co_xq : xq w' = xq w \/ xq w' = Some XqClosing;
  co_clean : clean w -> clean w';
  co_fin : finalized (out w') = finalized (out w);
  co_tunnel : tunnel_inv (conn (cl w)) (xq w) (out w) -> tunnel_inv (conn (cl w')) (xq w') (out w')
}.

Lemma conn_step_refl w : conn (cl w) <> None -> conn_step w w.
Proof. intros. by split; auto. Qed.

Lemma conn_step_trans w1 w2 w3 : conn_step w1 w2 -> conn_step w2 w3 -> conn_step w1 w3.
Proof. intros [? ? X1 ? ? ?] [? ? X2 ? ? ?]. split; auto; try congruence. destruct X1, X2; intuition congruence. Qed.

Lemma conn_step_inv w w' : conn_step w w' -> inv w -> conn (cl w) <> None -> inv w'.
Proof.
  intros [Ec Hl Hx Hc Hf Ht] [Is Ic It [L1 L2 L3 L4 L5 L6 L7 L8 L9]] Hk. unfold core in Ec. injection Ec as E1 E2 E3 E4 E5 E6 E7.
  split; [by unfold slots_ok; rewrite Hf, E4, E5|auto|auto|]. split; rewrite ?E1, ?E2, ?E3, ?E4, ?E6, ?E7; try done.
  - split; [done|]. intros E. destruct Hx as [Hx|Hx]; rewrite Hx in E; [by apply L1 in E|done].
  - intros Hs. by destruct (Hk (L2 Hs)).
  - intros E. destruct Hx as [Hx|Hx]; rewrite Hx in E; [auto|done].
  - intros E. destruct Hx as [Hx|Hx]; rewrite Hx in E; [auto|done].
  - auto.
Qed.

(** A change that leaves the connection alone and adds plain effects. *)
Lemma conn_step_plain w w' es : conn (cl w) <> None -> core (cl w') = core (cl w) -> conn (cl w') = conn (cl w) -> xq w' = xq w ->
  out w' = out w ++ es -> Forall plain_fx es -> conn_step w w'.
Proof.
  intros Hk Ec Ek Ex Eo Hp. split; [done|by rewrite Ek|by left| | |].
  - intros Hc. unfold clean. rewrite Eo. by apply clean_app.
  - apply plain_counts in Hp as (_ & _ & E & _). by rewrite Eo, finalized_app, E, app_nil_r.
  - rewrite Ek, Ex, Eo. by apply tunnel_plain.
Qed.

Lemma wp_modify_conn f w k (Q : unit -> world -> Prop) : conn (cl w) = Some k ->
  Q tt (w <| cl := (cl w) <| conn := Some (f k) |> |>) -> wp (modify_conn f) Q w.
Proof. intros Hk HQ. unfold modify_conn, with_conn. wp_steps. rewrite Hk. wp_steps. done. Qed.

(** The connection's flags change as an update [f] of it says. *)
Lemma conn_step_modify f w k : conn (cl w) = Some k -> tunnel_notified (f k) = tunnel_notified k ->
  (tunnel_ok (f k) = true -> tunnel_ok k = true) -> conn_step w (w <| cl := (cl w) <| conn := Some (f k) |> |>).
Proof.
  intros Hk Hn Ho. split; [done|done|by left|done|done|]. cbn. rewrite Hk. intros [Hd Hh Hc]. split.
  - intros k0 [= <-] Hno. rewrite Hn in Hno. specialize (Hd k eq_refl Hno). destruct (tunnel_ok (f k)); [|done]. by rewrite Ho in Hd.
  - intros k0 [= <-] Hx. specialize (Hh k eq_refl Hx). destruct (tunnel_ok (f k)); [|done]. by rewrite Ho in Hh.
  - by rewrite Hn.
Qed.

Lemma wp_signal reason w k Q : conn (cl w) = Some k -> (tunnel_notified k = false -> tunnel_ok k = false) ->
  (forall w' k', conn_step w w' -> conn (cl w') = Some k' -> tunnel_ok k' = tunnel_ok k -> tunnel_notified k' = true -> xq w' = xq w ->
     Q tt w') -> wp (cli_signal_connect_fail reason) Q w.
Proof.
  intros Hk Hdown HQ. unfold cli_signal_connect_fail, with_conn. wp_steps. rewrite Hk. destruct (tunnel_notified k) eqn:En.
  - wp_steps. apply (HQ w k); [apply conn_step_refl; by rewrite Hk|done|done|done|done].
  - rewrite (Hdown eq_refl). wp_steps. eapply wp_modify_conn; [done|]. wp_steps. eapply HQ; [|done|done|done|done].
    split; [done|done|by left| | |].
    + intros Hc. unfold clean. cbn. apply Forall_app_2; [done|]. by apply Forall_cons_2.
    + cbn. by rewrite finalized_app, app_nil_r.
    + cbn. rewrite Hk. intros [Hd Hh Hc]. split; [intros ? [= <-] _; by apply Hdown|intros ? [= <-] _; by apply Hdown|].
      rewrite En in Hc. rewrite !count_fx_app. cbn. unfold count_fx in *. cbn. lia.
Qed.

(** ** Response headers *)

Lemma wp_scan_status st s w k Q : conn (cl w) = Some k -> xq w = Some XqOpen -> final_seen s = tunnel_ok k || tunnel_notified k ->
  (forall s' w' k', conn_step w w' -> xq w' = xq w -> conn (cl w') = Some k' -> final_seen s' = tunnel_ok k' || tunnel_notified k' -> Q s' w') ->
  wp (scan_status st s) Q w.
Proof.
  intros Hk Hx Hf HQ. assert (Hk' : conn (cl w) <> None) by (by rewrite Hk). unfold scan_status.
  destruct (_ && _); [wp_steps; by eapply HQ; [apply conn_step_refl|..]|].
  destruct (final_seen s) eqn:Ef; [wp_steps; eapply HQ; [by apply conn_step_refl|done|done|by rewrite Ef]|].
  symmetry in Hf. apply orb_false_iff in Hf as [Ho Hn]. destruct (st =? 200).
  - wp_steps. eapply wp_modify_conn; [done|]. wp_steps. eapply HQ; [|done|done|done].
    split; [done|done|by left|done|done|]. cbn. rewrite Hk, Hx. intros [Hd Hh Hc]. split; [|done|done]. intros ? [= <-]. cbn. by rewrite Hn.
  - destruct (st <? 0); wp_steps; (apply (wp_signal _ _ k); [done|done|]); intros w' k' Hst Ek' Eo En Ex; wp_steps;
      (eapply HQ; [exact Hst|exact Ex|exact Ek'|by rewrite Eo, Ho, En]).
Qed.

Lemma wp_scan_headers hs s w k Q : conn (cl w) = Some k -> xq w = Some XqOpen -> final_seen s = tunnel_ok k || tunnel_notified k ->
  (forall s' w', conn_step w w' -> Q s' w') -> wp (scan_headers hs s) Q w.
Proof.
  revert s w k Q. induction hs as [|[n v] hs IH]; intros s w k Q Hk Hx Hf HQ; cbn [scan_headers].
  { wp_steps. apply HQ, conn_step_refl. by rewrite Hk. }
  assert (Hgo : forall s1 w1 k1, conn_step w w1 -> xq w1 = xq w -> conn (cl w1) = Some k1 ->
    final_seen s1 = tunnel_ok k1 || tunnel_notified k1 ->
    wp (let s := if mqvpn_reorder_header_match n v then s1 <| reorder_echo := true |> else s1 in
        let s := if bool_decide (n = MQVPN_SCHED_HDR_NAME) then s <| sched_echo := mqvpn_sched_from_name_n v |> else s in
        scan_headers hs s) Q w1).
  { intros s1 w1 k1 Hs1 Hx1 Hk1 Hf1. eapply IH; [done|congruence| |intros s' w' Hs'; by eapply HQ, conn_step_trans].
    by destruct (mqvpn_reorder_header_match n v), (bool_decide (n = MQVPN_SCHED_HDR_NAME)). }
  wp_steps. destruct (bool_decide (n = STATUS_HDR_NAME)); [by eapply wp_scan_status|]. wp_steps. eapply Hgo; [apply conn_step_refl; by rewrite Hk|done|done|done].
Qed.

Lemma wp_headers hs w k Q : conn (cl w) = Some k -> xq w = Some XqOpen -> (forall w', conn_step w w' -> Q tt w') ->
  wp (cli_connect_ip_scan_headers hs) Q w.
Proof.
  intros Hk Hx HQ. unfold cli_connect_ip_scan_headers, with_conn. wp_steps. rewrite Hk. wp_steps.
  eapply wp_scan_headers; [done|done|done|]. intros s w1 Hs1. wp_steps.
  assert (Hm : forall (b : bool) f w2 (Q : unit -> world -> Prop), conn (cl w2) <> None ->
    (forall k, tunnel_ok (f k) = tunnel_ok k /\ tunnel_notified (f k) = tunnel_notified k) ->
    (forall w3, conn_step w2 w3 -> Q tt w3) -> wp (if b then modify_conn f else skip) Q w2).
  { intros b f w2 Q' Hc Hfl HQ'. destruct b; [|wp_steps; by apply HQ', conn_step_refl].
    destruct (conn (cl w2)) as [k2|] eqn:Ek2; [|done]. eapply wp_modify_conn; [done|]. destruct (Hfl k2) as [Hf1 Hf2].
    apply HQ', conn_step_modify; [done|done|congruence]. }
  apply Hm; [apply Hs1|done|]. intros w2 Hs2. apply Hm; [apply Hs2|done|]. intros w3 Hs3. apply HQ. by do 2 (eapply conn_step_trans; [done|]).
Qed.

Lemma wp_request_close w k Q : inv w -> conn (cl w) = Some k -> (forall w', conn_step w w' -> Q tt w') ->
  wp cli_connect_ip_on_request_close Q w.
Proof.
  intros Hi Hk HQ. unfold cli_connect_ip_on_request_close, with_conn. wp_steps. rewrite Hk. wp_steps.
  assert (Hend : forall w1, conn_step w w1 -> wp (modify_conn (fun k => k <| tunnel_ok := false |>)) Q w1).
  { intros w1 Hs1. destruct (conn (cl w1)) as [k1|] eqn:Ek1; [|by destruct (co_live _ _ Hs1)].
    eapply wp_modify_conn; [done|]. apply HQ. eapply conn_step_trans; [done|]. by apply conn_step_modify. }
  destruct (negb (tunnel_ok k) && _) eqn:Eg; wp_steps; [|apply Hend, conn_step_refl; by rewrite Hk].
  apply (wp_signal _ _ k); [done| |intros; by apply Hend]. intros _. apply andb_prop in Eg as [Eg _]. by apply negb_true_iff in Eg.
Qed.

(** ** Addresses and MTU *)

(** A step of the tunnel that stays in its phase. *)
Definition same_phase (w w' : world) : Prop := conn_step w w' /\ xq w' = xq w.

Lemma same_phase_refl w : conn (cl w) <> None -> same_phase w w.
Proof. intros. split; [by apply conn_step_refl|done]. Qed.

Lemma same_phase_trans w1 w2 w3 : same_phase w1 w2 -> same_phase w2 w3 -> same_phase w1 w3.
Proof. intros [] []. split; [by eapply conn_step_trans|congruence]. Qed.

Lemma same_phase_modify f w : conn (cl w) <> None -> (forall c, core (f c) = core c /\ conn (f c) = conn c) -> same_phase w (w <| cl ::= f |>).
Proof. intros Hk Hf. destruct (Hf (cl w)). split; [|done]. by apply (conn_step_plain w _ []); [..|by rewrite app_nil_r|]. Qed.

Lemma wp_assign es w Q : conn (cl w) <> None -> (forall w', same_phase w w' -> Q tt w') -> wp (assign_entries es) Q w.
Proof.
  revert w. induction es as [|[[ver ip] prefix] es IH]; intros w Hk HQ; cbn [assign_entries]; [wp_steps; by apply HQ, same_phase_refl|].
  assert (Hgo : forall w1, same_phase w w1 -> wp (assign_entries es) Q w1).
  { intros w1 Hs1. apply IH; [apply Hs1|]. intros w2 Hs2. apply HQ. by eapply same_phase_trans. }
  destruct (conn (cl w)) as [k|] eqn:Ek; [|done]. wp_steps. unfold with_conn. wp_steps. rewrite Ek.
  assert (Hset : forall f g, (forall k, tunnel_ok (f k) = tunnel_ok k /\ tunnel_notified (f k) = tunnel_notified k) ->
    (forall c, core (g c) = core c /\ conn (g c) = conn c) ->
    wp (modify_conn f ;; modify g) (fun _ => wp (assign_entries es) Q) w).
  { intros f g Hf Hg. wp_steps. eapply wp_modify_conn; [done|]. wp_steps. apply Hgo. destruct (Hf k).
    eapply same_phase_trans; [split; [apply (conn_step_modify f w k); [done|done|congruence]|done]|]. by apply same_phase_modify. }
  destruct (_ && _); [by apply Hset|]. destruct (_ && _); [by apply Hset|]. wp_steps. apply Hgo, same_phase_refl. by rewrite Ek.
Qed.

Lemma wp_capsules caps w Q : conn (cl w) <> None -> (forall w', same_phase w w' -> Q tt w') -> wp (process_capsules caps) Q w.
Proof.
  revert w Q. induction caps as [|[es|valid|] caps IH]; intros w Q Hk HQ; cbn [process_capsules]; [wp_steps; by apply HQ, same_phase_refl| | |by apply IH].
  - wp_steps. apply wp_assign; [done|]. intros w1 Hs1. apply IH; [apply Hs1|]. intros w2 Hs2. apply HQ. by eapply same_phase_trans.
  - destruct valid; [by apply IH|]. wp_steps. apply HQ. split; [|done]. by eapply (conn_step_plain w _ [_]); [..|apply Forall_cons_2].
Qed.

Lemma wp_check_mtu mtu w Q : conn (cl w) <> None ->
  (Q true w) -> (forall w', conn_step w w' -> Q false w') -> wp (cli_check_ipv6_mtu mtu) Q w.
Proof.
  intros Hk H1 H2. unfold cli_check_ipv6_mtu, with_conn. wp_steps. destruct (conn (cl w)) as [k|] eqn:Ek; [|done]. wp_steps.
  destruct (_ || _); wp_steps; [done|]. eapply wp_modify_conn; [done|]. wp_steps.
  set (w1 := w <| cl := _ |>). set (w2 := w1 <| out ::= _ |> <| xq := _ |>).
  assert (Hs1 : conn_step w w1) by (by apply (conn_step_modify (fun k => k <| tunnel_ok := false |>))).
  assert (Hs2 : conn_step w1 w2).
  { split; [done|done|by right| | |].
    - intros Hc. unfold clean. cbn. apply Forall_app_2; [done|by apply Forall_cons_2].
    - cbn. by rewrite finalized_app, app_nil_r.
    - intros Ht. apply (tunnel_plain _ _ _ [FxConnClose]) in Ht; [|by apply Forall_cons_2]. destruct Ht as [Hd Hh Hc]. by split. }
  apply (wp_signal _ _ (k <| tunnel_ok := false |>)); [done|done|]. intros w3 k3 Hs3 _ _ _ _. wp_steps. apply H2.
  eapply conn_step_trans; [done|]. by eapply conn_step_trans.
Qed.

Lemma wp_mss_updated E mss w Q : conn (cl w) <> None -> (forall w', conn_step w w' -> Q tt w') -> wp (cb_dgram_mss_updated E mss) Q w.
Proof.
  intros Hk HQ. unfold cb_dgram_mss_updated. wp_steps. destruct (conn (cl w)) as [k|] eqn:Ek; [|done].
  eapply wp_modify_conn; [done|]. wp_steps. set (w1 := w <| cl := _ |>).
  assert (Hs1 : conn_step w w1) by (by apply (conn_step_modify (fun k => k <| dgram_mss := mss |>))).
  destruct (negb _); [wp_steps; by apply HQ|]. unfold with_conn. wp_steps. change (conn (cl w1)) with (Some (k <| dgram_mss := mss |>)). cbv beta iota zeta.
  match goal with |- context [if ?b then skip else _] => destruct b end; [wp_steps; by apply HQ|]. wp_steps.
  apply wp_check_mtu; [done| |intros w2 Hs2; wp_steps; cbn [negb]; apply HQ; by eapply conn_step_trans]. cbn [negb].
  match goal with |- context [if ?b then skip else _] => destruct b end; wp_steps; [by apply HQ|]. apply HQ. eapply conn_step_trans; [exact Hs1|].
  by eapply (conn_step_plain w1 _ [FxMtuUpdated _]); [..|apply Forall_cons_2].
Qed.

Lemma learn_total ip prefix : mqvpn_tunnel_subnet_learn ip prefix <> None.
Proof.
  unfold mqvpn_tunnel_subnet_learn. destruct (Z.leb_spec prefix 0); [done|]. set (plen := if _ <? _ then _ else _).
  assert (Hp : 0 < plen <= 24) by (unfold plen; destruct (Z.ltb_spec prefix 24); lia).
  destruct (premask_in_range (take 4 ip ++ replicate 12 0) plen) as [n ->]; [lia|rewrite length_app, length_replicate; lia|done].
Qed.

Lemma learn_v6_total ip6 prefix : length ip6 = 16%nat -> mqvpn_tunnel_subnet_learn_v6 ip6 prefix <> None.
Proof.
  intros Hl. unfold mqvpn_tunnel_subnet_learn_v6, mqvpn_tunnel_prefix6_effective. destruct (_ || _) eqn:Eg; [done|]. bool_to_prop.
  set (plen := if _ && _ then _ else _).
  assert (Hp : 0 < plen <= 112) by (unfold plen; destruct (_ && _) eqn:Eb; bool_to_prop; lia).
  destruct (premask_in_range (take 16 ip6) plen) as [n ->]; [right; rewrite take_ge; lia|rewrite take_ge; lia|done].
Qed.

Lemma buf16_length a : length (buf16 a) = 16%nat.
Proof. unfold buf16. rewrite length_take, length_app, length_replicate. lia. Qed.

Lemma wp_learn k w Q : conn (cl w) <> None -> (forall w', same_phase w w' -> Q tt w') -> wp (learn_subnets k) Q w.
Proof.
  intros Hk HQ. unfold learn_subnets. wp_steps.
  assert (H4 : wp (match addr4 k with Some (ip, prefix) => match mqvpn_tunnel_subnet_learn ip prefix with
      | Some e => modify (fun c => c <| config ::= fun g => g <| hybrid ::= fun h => h <| client_tunnel_subnet := (e, (client_tunnel_subnet h).2) |> |> |>)
      | None => emit FxNullAccess end | None => skip end) (fun _ => same_phase w) w).
  { destruct (addr4 k) as [[ip prefix]|]; [|wp_steps; by apply same_phase_refl].
    destruct (mqvpn_tunnel_subnet_learn ip prefix) eqn:El; [|by destruct (learn_total ip prefix)]. wp_steps. by apply same_phase_modify. }
  eapply wp_mono; [exact H4|]. intros [] w1 Hs1. wp_steps. assert (Hk1 : conn (cl w1) <> None) by apply Hs1.
  assert (H6 : wp (match addr6 k with Some (ip6, prefix) => match mqvpn_tunnel_subnet_learn_v6 (buf16 ip6) prefix with
      | Some e => modify (fun c => c <| config ::= fun g => g <| hybrid ::= fun h => h <| client_tunnel_subnet := ((client_tunnel_subnet h).1, e) |> |> |>)
      | None => emit FxNullAccess end | None => skip end) (fun _ => same_phase w1) w1).
  { destruct (addr6 k) as [[ip prefix]|]; [|wp_steps; by apply same_phase_refl].
    destruct (mqvpn_tunnel_subnet_learn_v6 _ _) eqn:El; [|by destruct (learn_v6_total (buf16 ip) prefix (buf16_length ip))].
    wp_steps. by apply same_phase_modify. }
  eapply wp_mono; [exact H6|]. intros [] w2 Hs2. wp_steps. apply HQ. eapply same_phase_trans; [done|]. eapply same_phase_trans; [done|].
  apply same_phase_modify; [apply Hs2|done].
Qed.

(** ** Callbacks *)

Section callbacks.
Context (E : env) (Hclk : forall k, clock_ok (now E k)).

Lemma open_conn w : inv w -> xq w <> None -> exists k, conn (cl w) = Some k.
Proof.
  intros [_ _ _ [Hc _ _ _ _ _ _ _ _]] Hx. destruct (conn (cl w)) as [k|]; [by exists k|]. by destruct Hx; apply Hc.
Qed.

Lemma wp_release_hold w : inv w -> conn (cl w) <> None -> wp (client_release_path_hold E) (fun _ => inv) w.
Proof.
  intros Hi Hk. unfold client_release_path_hold. wp_steps. destruct (negb _); wp_steps; [done|].
  set (w1 := w <| cl ::= _ |>). assert (Hi1 : inv w1).
  { eapply conn_step_inv; [apply (same_phase_modify (fun c => c <| hold_extra_paths := false |>) w Hk); done|done|done]. }
  destruct (_ && _); wp_steps; [|done]. apply (wp_activate_pending E Hclk); [apply Hi1|done|]. intros w2 Hq2 _. by eapply quiet_inv_live.
Qed.

Lemma wp_validate_primary w Q : slots_ok w -> (forall w', quiet_step w w' -> Q tt w') -> wp (validate_primary E) Q w.
Proof.
  intros Hs HQ. unfold validate_primary. wp_steps. destruct (paths (cl w) !! primary_path_idx (cl w)) as [p|] eqn:Ep; [|wp_steps; apply HQ, quiet_refl].
  destruct (_ && _); [|wp_steps; apply HQ, quiet_refl]. wp_steps.
  apply (wp_fire E _ _ _ _ p); [exact Hs|exact Ep|split; [apply Hclk|by split_and!; auto]|].
  intros clk w2 Hq2 _. apply HQ. eapply quiet_trans; [apply ask_quiet|exact Hq2].
Qed.

Lemma wp_body caps ov w : inv w -> xq w = Some XqOpen -> wp (cli_connect_ip_on_body E caps ov) (fun _ => inv) w.
Proof.
  intros Hi Hx. destruct (open_conn w Hi) as [k Hk]; [by rewrite Hx|]. unfold cli_connect_ip_on_body. wp_steps.
  apply wp_capsules; [by rewrite Hk|]. intros w1 [Hs1 Hx1]. assert (Hi1 : inv w1) by (eapply conn_step_inv; [done|done|by rewrite Hk]).
  destruct ov; [by wp_steps|]. unfold with_conn. wp_steps. destruct (conn (cl w1)) as [k1|] eqn:Hk1; [|by destruct (co_live _ _ Hs1)].
  destruct (tunnel_notified k1); [by wp_steps|]. wp_steps.
  apply wp_check_mtu; [by rewrite Hk1| |intros w2 Hs2; cbn [negb]; wp_steps; eapply conn_step_inv; [done|done|by rewrite Hk1]].
  cbn [negb]. wp_steps. destruct (_ && _) eqn:Eg; [|by wp_steps]. apply andb_prop in Eg as [Eg Eg3]. apply andb_prop in Eg as [_ Eg2].
  apply negb_true_iff, bool_decide_eq_false in Eg2, Eg3.
  wp_steps. set (w2 := w1 <| cl ::= _ |>). assert (Hs2 : same_phase w1 w2) by (apply same_phase_modify; [by rewrite Hk1|done]).
  apply wp_learn; [by apply Hs2|]. intros w3 Hs3. pose proof (same_phase_trans _ _ _ Hs2 Hs3) as [Hs13 Hx3].
  assert (Hi3 : inv w3) by (eapply conn_step_inv; [done|done|by rewrite Hk1]). wp_steps.
  assert (Hk3 : conn (cl w3) <> None) by apply Hs13.
  apply wp_validate_primary; [apply Hi3|]. intros w4 Hq4. assert (Hi4 : inv w4) by (by eapply quiet_inv_live).
  assert (Hst : cstate (cl w4) = MQVPN_STATE_AUTHENTICATING).
  { assert (Hx4 : xq w4 = Some XqOpen) by (rewrite (qs_xq _ _ Hq4); congruence).
    assert (Es : cstate (cl w4) = cstate (cl w1)).
    { rewrite (quiet_reads cstate _ _ ltac:(done) Hq4). pose proof (co_core _ _ Hs13) as Ec. unfold core in Ec. congruence. }
    destruct (li_open _ _ (in_life _ Hi4) Hx4) as [?|[H|H]]; [done|rewrite Es in H; by destruct Eg3|rewrite Es in H; by destruct Eg2]. }
  assert (Hk4 : conn (cl w4) <> None) by (by rewrite (quiet_conn _ _ Hq4)). wp_steps.
  apply wp_set_state; [by rewrite Hst|done|]. intros t n _. wp_steps. set (w5 := World _ _ _ _).
  apply wp_release_hold; [|done]. eapply (plain_inv w4 _ [_; _]); [done|done|done|done|done|by cbn; rewrite <- app_assoc|by repeat apply Forall_cons_2|].
  destruct Hi4 as [_ _ _ [L1 L2 L3 L4 L5 L6 L7 L8 L9]].
  split; cbn; try done; try (intros [?|?]; done); [|auto]. intros E'. apply L4 in E' as [E' _]. congruence.
Qed.
Lemma wp_start_tunnel w Q : conn (cl w) <> None -> (forall w', same_phase w w' -> Q tt w') -> wp (cli_masque_start_tunnel E) Q w.
Proof.
  intros Hk HQ. unfold cli_masque_start_tunnel. wp_steps. set (w1 := w <| calls ::= S |>).
  assert (Hs1 : same_phase w w1) by (split; [|done]; eapply (conn_step_plain w _ []); done || by rewrite app_nil_r).
  destruct (negb _); [wp_steps; by apply HQ|]. wp_steps. destruct (conn (cl w1)) as [k|] eqn:Ek; [|done].
  assert (Hm : forall f (w2 : world) (Q : unit -> world -> Prop), conn (cl w2) <> None ->
    (forall k, tunnel_ok (f k) = tunnel_ok k /\ tunnel_notified (f k) = tunnel_notified k) ->
    (forall w3, same_phase w2 w3 -> Q tt w3) -> wp (modify_conn f) Q w2).
  { intros f w2 Q' Hc Hf HQ'. destruct (conn (cl w2)) as [k2|] eqn:Ek2; [|done]. eapply wp_modify_conn; [done|]. destruct (Hf k2).
    apply HQ'. split; [apply conn_step_modify; [done|done|congruence]|done]. }
  apply Hm; [by rewrite Ek|done|]. intros w2 Hs2. wp_steps. pose proof (same_phase_trans _ _ _ Hs1 Hs2) as Hs12.
  assert (Hgo : forall w3, same_phase w w3 -> wp (ask (xqc_h3_request_send_headers E) ≫= fun sent => if negb sent
      then modify_conn (fun k => k <| masque_request := false |>)
      else ask (xqc_h3_stream_id E) ≫= fun id => modify_conn (fun k => k <| masque_stream_id := id |>)) Q w3).
  { intros w3 Hs3. wp_steps. assert (Hk3 : conn (cl w3) <> None) by apply Hs3.
    assert (Hs4 : forall n, same_phase w (w3 <| calls := n |>)).
    { intros n. eapply same_phase_trans; [exact Hs3|]. split; [|done]. eapply (conn_step_plain w3 _ []); done || by rewrite app_nil_r. }
    destruct (negb _); wp_steps; (apply Hm; [done|done|]); intros w5 Hs5; apply HQ; (eapply same_phase_trans; [|exact Hs5]).
    - apply (Hs4 (S (calls w3))).
    - apply (Hs4 (S (S (calls w3)))). }
  destruct (request_server_scheduler _); wp_steps; apply Hgo; [|done].
  eapply same_phase_trans; [done|]. apply same_phase_modify; [apply Hs2|done].
Qed.

Lemma wp_handshake w : inv w -> xq w = Some XqHandshaking -> wp (run_cb E CbHandshakeFinished) (fun _ => inv) w.
Proof.
  intros Hi Hx. destruct (open_conn w Hi) as [k Hk]; [by rewrite Hx|]. destruct (li_hand _ _ (in_life _ Hi) Hx) as [Hst _].
  cbn [run_cb]. unfold cb_h3_conn_handshake_finished. wp_steps. eapply wp_modify_conn; [exact Hk|]. wp_steps.
  apply wp_set_state; [by cbn; rewrite Hst|done|]. intros t n _. apply wp_start_tunnel; [done|]. intros w2 [Hs2 _].
  eapply conn_step_inv; [exact Hs2| |done]. destruct Hi as [Is Ic [T1 T2 T3] [L1 L2 L3 L4 L5 L6 L7 L8 L9]]. split.
  - by apply (slots_app w [_]); [|apply Forall_cons_2].
  - by apply (clean_app w [_]); [|apply Forall_cons_2].
  - apply tunnel_plain; [by apply Forall_cons_2|]. cbn. rewrite Hk in T1, T3. split; [intros k0 [= <-]; exact (T1 k eq_refl)|done|exact T3].
  - split; cbn; try done; try (intros [?|?]; done); auto.
Qed.

Lemma wp_cert w : inv w -> xq w = Some XqHandshaking -> wp cli_report_cert_rejected (fun _ => inv) w.
Proof.
  intros Hi Hx. destruct (open_conn w Hi) as [k Hk]; [by rewrite Hx|]. unfold cli_report_cert_rejected.
  apply (wp_signal _ _ k); [done|by intros _; eapply ti_hand; [apply Hi|done|done]|]. intros. eapply conn_step_inv; [done|done|by rewrite Hk].
Qed.

Lemma wp_ready w : inv w -> conn (cl w) <> None -> wp (cb_ready_to_create_path E) (fun _ => inv) w.
Proof.
  intros Hi Hk. unfold cb_ready_to_create_path. wp_steps. set (w1 := w <| cl ::= _ |>). assert (Hi1 : inv w1).
  { eapply conn_step_inv; [apply (same_phase_modify (fun c => c <| multipath_ready := true |>) w Hk); done|done|done]. }
  destruct (_ || _); wp_steps; [done|]. apply (wp_activate_pending E Hclk); [apply Hi1|done|]. intros w2 Hq2 _. by eapply quiet_inv_live.
Qed.

(** The states a connection can end in. *)
Lemma live_state w : inv w -> conn (cl w) <> None ->
  cstate (cl w) = MQVPN_STATE_CLOSED /\ shutting_down (cl w) = true \/
  mqvpn_state_transition_valid (cstate (cl w)) MQVPN_STATE_RECONNECTING = true /\
  mqvpn_state_transition_valid (cstate (cl w)) MQVPN_STATE_CLOSED = true.
Proof.
  intros [_ _ _ [L1 L2 L3 L4 L5 L6 L7 L8 L9]] Hk. destruct (cstate (cl w)); auto; destruct Hk; apply L2; auto.
Qed.
(** The world after the connection is gone, before the state is changed. *)
Definition conn_gone (w w' : world) : Prop :=
  exists es, cl w' = (cl w) <| conn := None |> /\ xq w' = None /\ out w' = out w ++ es /\ slots_ok w' /\ clean w' /\
    tunnel_inv None None (out w').

(** Such a world with a state and timers that fit. *)
Lemma conn_gone_inv w w' w'' es : conn_gone w w' -> paths (cl w'') = paths (cl w) -> next_path_handle (cl w'') = next_path_handle (cl w) ->
  conn (cl w'') = None -> xq w'' = None -> out w'' = out w' ++ es -> Forall plain_fx es -> in_connect (cl w'') = false ->
  (cstate (cl w'') = MQVPN_STATE_CLOSED \/ cstate (cl w'') = MQVPN_STATE_RECONNECTING /\ reconnect_scheduled_us (cl w'') <> 0) -> inv w''.
Proof.
  intros (es' & Ec & _ & _ & Hs & Hc & Ht) Ep En Ek Ex Eo Hp Hi Hst. split.
  - unfold slots_ok. rewrite Ep, En, Eo. pose proof (slots_app w' es Hs Hp) as H. by rewrite Ec in H.
  - unfold clean. rewrite Eo. by apply clean_app.
  - rewrite Ek, Ex, Eo. by apply tunnel_plain.
  - rewrite Ex. split; rewrite ?Ek; try done; destruct Hst as [->|[-> ?]]; try done; intros; repeat (done || match goal with H : _ \/ _ |- _ => destruct H end).
Qed.

Lemma wp_conn_close w : inv w -> conn (cl w) <> None -> wp (cb_h3_conn_close E) (fun _ => inv) w.
Proof.
  intros Hi Hk. pose proof (live_state w Hi Hk) as Hlive. pose proof (li_start _ _ (in_life _ Hi)) as Hst.
  destruct (conn (cl w)) as [k|] eqn:Ek; [|done]. unfold cb_h3_conn_close. wp_steps.
  unfold cli_notify_conn_closed, with_conn. wp_steps. rewrite Ek.
  set (told := if tunnel_notified k then [] else [FxTunnelClosed MQVPN_ERR_CLOSED]).
  assert (Hn : wp (if tunnel_notified k then skip else emit (FxTunnelClosed MQVPN_ERR_CLOSED))
    (fun _ w1 => cl w1 = cl w /\ xq w1 = xq w /\ out w1 = out w ++ told) w).
  { unfold told. destruct (tunnel_notified k); wp_steps; [by rewrite app_nil_r|done]. }
  eapply wp_mono; [exact Hn|]. intros [] w1 (Ec1 & Ex1 & Eo1). wp_steps. rewrite Ec1, Ek. unfold cli_conn_destroy. wp_steps. rewrite Ec1, Ek. wp_steps.
  match goal with |- wp _ _ ?w => set (w2 := w) end.
  assert (Hg : conn_gone w w2).
  { exists (told ++ [FxConnFreed]). unfold w2. cbn. rewrite Ec1, Eo1. rewrite <- app_assoc. destruct Hi as [Is Ic It _].
    assert (Ef : finalized (told ++ [FxConnFreed]) = []) by (unfold told; by destruct (tunnel_notified k)). split_and!; try done.
    - unfold slots_ok. cbn. by rewrite finalized_app, Ef, app_nil_r.
    - unfold clean. cbn. apply Forall_app_2; [done|]. unfold told. destruct (tunnel_notified k); by repeat apply Forall_cons_2.
    - split; [done|done|]. rewrite !count_fx_app, (ti_count _ _ _ It), Ek. unfold told. destruct (tunnel_notified k); cbn; lia. }
  assert (Es2 : cl w2 = (cl w) <| conn := None |>) by (unfold w2; cbn; by rewrite Ec1).
  assert (Ex2 : xq w2 = None) by done. clearbody w2. rewrite Es2. cbn [shutting_down config update].
  destruct (negb (shutting_down (cl w)) && _ && _) eqn:Eg; wp_steps.
  - apply andb_prop in Eg as [Eg _]. apply andb_prop in Eg as [Eg _]. apply negb_true_iff in Eg.
    destruct Hlive as [[_ ?]|[Hv _]]; [congruence|]. apply wp_arm; [done|]. intros t n delay Ht _. wp_steps.
    apply wp_set_state; [by cbn; rewrite Es2|done|]. intros t' n' _. wp_steps.
    eapply (conn_gone_inv w w2 _ [_; _]); [done|by cbn; rewrite Es2|by cbn; rewrite Es2|by cbn; rewrite Es2|done|by cbn; rewrite <- app_assoc|
      by repeat apply Forall_cons_2|by cbn; rewrite Es2|by right].
  - destruct Hlive as [[Hc _]|[_ Hv]].
    + apply wp_set_state_same; [by rewrite Es2|]. eapply (conn_gone_inv w w2 _ []); [done|by rewrite Es2|by rewrite Es2|by rewrite Es2|done|
        by rewrite app_nil_r|done|by rewrite Es2|left; by rewrite Es2].
    + apply wp_set_state; [by rewrite Es2|done|]. intros t n _.
      eapply (conn_gone_inv w w2 _ [_]); [done|by cbn; rewrite Es2|by cbn; rewrite Es2|by cbn; rewrite Es2|done|done|
        by repeat apply Forall_cons_2|by cbn; rewrite Es2|by left].
Qed.

(** ** The engine *)

Lemma wp_deliver cb w : inv w -> wp (deliver E cb) (fun _ => inv) w.
Proof.
  intros Hi. unfold deliver, wp. destruct (xq w) as [ph|] eqn:Hx; [|done]. destruct (cb_allowed ph cb) eqn:Ha; [|done].
  destruct (open_conn w Hi) as [k Hk]; [by rewrite Hx|]. assert (Hk' : conn (cl w) <> None) by (by rewrite Hk).
  change (wp (run_cb E cb) (fun _ => inv) w). destruct cb, ph; try discriminate Ha; cbn [run_cb].
  all: lazymatch goal with
    | |- context [cb_h3_conn_handshake_finished] => by apply wp_handshake
    | |- context [cli_report_cert_rejected] => by apply wp_cert
    | |- context [cli_connect_ip_scan_headers] => by apply (wp_headers hs w k); [..|intros; eapply conn_step_inv]
    | |- context [cli_connect_ip_on_body] => by apply wp_body
    | |- context [cli_connect_ip_on_request_close] => by apply (wp_request_close w k); [..|intros; eapply conn_step_inv]
    | |- context [cb_dgram_mss_updated] => by apply wp_mss_updated; [|intros; eapply conn_step_inv]
    | |- context [cb_ready_to_create_path] => by apply wp_ready
    | |- context [cb_path_removed] => apply (wp_path_removed E Hclk); [apply Hi|intros; by eapply quiet_inv_live]
    | |- context [cb_h3_conn_close] => by apply wp_conn_close
    end.
Qed.

Lemma wp_main_logic cbs w : inv w -> wp (main_logic E cbs) (fun _ => inv) w.
Proof.
  revert w. induction cbs as [|cb cbs IH]; intros w Hi; cbn [main_logic]; wp_steps; [done|].
  eapply wp_mono; [by apply wp_deliver|]. intros [] w' Hi'. by apply IH.
Qed.
End callbacks.
