(* ===== verification/ClientRun.v ===== *)
(** * Lifetimes of a client

    Every operation of the platform and every callback of the engine keeps the
    invariant of the client, so a client in any lifetime is free of faults,
    keeps its path table and its timers in order, and finalises each transport
    once. *)

From S2P Require Import Prelude Wire Hybrid PathFsm PathSpec Client ClientInv ClientLife.

(** ** The table grows and shrinks *)

Lemma slots_inv_add l1 mid l2 p next fin : slots_inv (l1 ++ mid ++ l2) next fin -> Forall (fun q => transport_released q = true) mid ->
  (length (l1 ++ p :: l2) <= 8)%nat -> slot_ok p -> handle p = next -> transport_released p = false ->
  slots_inv (l1 ++ p :: l2) (next + 1) fin.
Proof.
  intros [Hs Hl Hn Hr Hx Hf Hfin] Hm Hlen Hp Hh Hrel.
  apply Forall_app in Hs as [Hs1 Hs2]. apply Forall_app in Hs2 as [_ Hs2].
  assert (Hr' : Forall (fun q => 1 <= handle q < next) (l1 ++ l2)).
  { apply Forall_app in Hr as [? Hr]. apply Forall_app in Hr as [_ ?]. by apply Forall_app_2. }
  assert (Hperm : handle <$> l1 ++ p :: l2 ≡ₚ next :: (handle <$> l1 ++ l2)) by (rewrite <- Hh, <- Permutation_middle; done).
  split; [apply Forall_app_2; [done|by apply Forall_cons_2]|done| | |lia|done|].
  - rewrite Hperm. apply NoDup_cons. split.
    + intros Hin. apply list_elem_of_fmap in Hin as (q & Eq & Hq). rewrite Forall_forall in Hr'. specialize (Hr' q Hq). lia.
    + rewrite !fmap_app in Hn. rewrite fmap_app. apply NoDup_app in Hn as (N1 & N2 & N3). apply NoDup_app in N3 as (_ & N4 & N5).
      apply NoDup_app. split_and!; [done| |done]. intros x Hx1 Hx2. apply (N2 x Hx1). apply elem_of_app. by right.
  - apply Forall_app in Hr' as [? ?]. apply Forall_app_2; [|apply Forall_cons_2; [lia|]]; (eapply Forall_impl; [done|]); intros; simpl in *; lia.
  - intros h. rewrite Hfin, !Forall_app, Forall_cons. destruct (decide (h = next)) as [->|Hne].
    + split; [intros [? _]; lia|]. intros (_ & _ & Hq & _). rewrite Hq in Hrel; done.
    + assert (Hmid : Forall (fun q => handle q = h -> transport_released q = true) mid) by (eapply Forall_impl; [done|]; auto).
      assert (Hne' : handle p = h -> transport_released p = true) by (intros; congruence). intuition lia.
Qed.

Lemma slots_inv_release ps i p p' next fin : slots_inv ps next fin -> ps !! i = Some p -> transport_released p = false ->
  slot_ok p' -> handle p' = handle p -> transport_released p' = true -> slots_inv (<[i := p']> ps) next (fin ++ [handle p]).
Proof.
  intros [Hs Hl Hn Hr Hx Hf Hfin] Hi Hrel Hp Hh Hrel'.
  assert (Hnin : handle p ∉ fin).
  { intros Hin. apply Hfin in Hin as [_ Hin]. rewrite Forall_lookup in Hin. by rewrite (Hin i p Hi eq_refl) in Hrel. }
  assert (Eh : handle <$> <[i := p']> ps = handle <$> ps).
  { rewrite list_fmap_insert, Hh, list_insert_id; [done|]. by rewrite list_lookup_fmap, Hi. }
  split; [by apply Forall_insert|by rewrite length_insert|by rewrite Eh| |done| |].
  - apply Forall_insert; [done|]. rewrite Hh. by apply (Forall_lookup_1 _ _ _ _ Hr Hi).
  - apply NoDup_app. split_and!; [done| |apply NoDup_singleton]. intros x Hx1 Hx2. apply list_elem_of_singleton in Hx2 as ->. done.
  - intros h. rewrite elem_of_app, list_elem_of_singleton, Hfin, !Forall_lookup. split.
    + intros [[Hrg Hq]| ->]; (split; [try done; apply (Forall_lookup_1 _ _ _ _ Hr Hi)|]); intros j q Hj Ej;
        (apply list_lookup_insert_Some in Hj as [(-> & <- & _)|(Hne & Hj)]; [done|]); [by apply (Hq j q)|].
      destruct Hne. eapply NoDup_lookup; [exact Hn|by rewrite list_lookup_fmap, Hi|]. by rewrite list_lookup_fmap, Hj, <- Ej.
    + intros [Hrg Hq]. destruct (decide (h = handle p)) as [->|Hne]; [by right|]. left. split; [done|]. intros j q Hj Ej.
      destruct (decide (j = i)) as [->|Hij]; [congruence|]. apply (Hq j q); [|done]. by rewrite list_lookup_insert_ne.
Qed.

(** Changes of the handle that the invariant does not read. *)
Lemma inv_modify f w : inv w -> (forall c, core (f c) = core c /\ conn (f c) = conn c) -> inv (w <| cl ::= f |>).
Proof.
  intros Hi Hf. destruct (Hf (cl w)) as [Ec Ek]. unfold core in Ec. injection Ec as E1 E2 E3 E4 E5 E6 E7.
  eapply (plain_inv w _ []); [done|done|done|done|done|by cbn; rewrite app_nil_r|done|]. destruct Hi as [_ _ _ [L1 L2 L3 L4 L5 L6 L7 L8 L9]].
  split; cbn; rewrite ?E1, ?E2, ?E3, ?E4, ?E6, ?E7, ?Ek; done.
Qed.

Lemma inv_calls n w : inv w -> inv (w <| calls := n |>).
Proof. intros [H1 H2 H3 H4]. by split. Qed.

Section run.
Context (E : env) (Hclk : forall k, clock_ok (now E k)).

(** ** Sending *)

Lemma attached_send w i p : slots_ok w -> paths (cl w) !! i = Some p -> transport_attached p = true -> ops_send (ops p) <> None.
Proof.
  intros Hs Hi Ha. destruct (slots_lookup w i p Hs Hi) as ((_ & Hl & _) & _ & Hin). apply Hin. unfold Spec.Legal in Hl. cbn in Hl.
  rewrite Ha in Hl. destruct (state p); cbn in Hl; bool_to_prop; done.
Qed.

(** A transport's answer is accounted on the client and on the slot. *)
Lemma wp_transport_send w i p bufs Q : inv w -> paths (cl w) !! i = Some p -> transport_attached p = true ->
  (forall k w', inv w' -> (forall j, attached_at (cl w') j = attached_at (cl w) j) -> n_paths (cl w') = n_paths (cl w) ->
     k = MQVPN_TX_WOULD_BLOCK \/ k = MQVPN_TX_FAILED \/ 0 <= k <= Z.of_nat (length bufs) /\
       c_bytes_tx (cl w') = u64 (c_bytes_tx (cl w) + sum_lens (take (Z.to_nat k) bufs)) -> Q k w') ->
  wp (path_transport_send E i bufs) Q w.
Proof.
  intros Hi Hp Ha HQ. unfold path_transport_send. wp_steps. rewrite Hp. pose proof (attached_send w i p (in_slots _ Hi) Hp Ha) as Hs.
  destruct (ops_send (ops p)) as [f|]; [|done]. wp_steps. set (k := transport_send E _ f _ bufs).
  assert (Hi1 : inv (w <| calls ::= S |>)) by (by apply (inv_calls (S (calls w)))).
  destruct (Z.eqb_spec k 0); [wp_steps; apply HQ; [by apply (inv_modify (fun c => c <| tx_zero_return_logged := true |>))|done|done|auto]|].
  destruct (Z.ltb_spec k 0); [wp_steps; apply HQ; [done|done|done|destruct (_ =? _); auto]|]. wp_steps.
  set (k' := if _ <? k then _ else k). set (bytes := sum_lens _).
  match goal with |- Q _ ?w2 => set (w2' := w2) end.
  assert (Hq : quiet_step ((w <| calls ::= S |>) <| cl ::= (fun c => c <| c_bytes_tx := u64 (c_bytes_tx c + bytes) |>) |>) w2').
  { eapply (quiet_put _ w2' i p _ []); [done| |constructor|done|done|by rewrite app_nil_r]. by split. }
  apply HQ.
  - eapply quiet_inv; [exact Hq|by apply inv_modify|]. intros Hst. pose proof (li_idle _ _ (in_life _ Hi) Hst) as Hf. unfold w2'. cbn.
    apply Forall_insert; [done|]. by apply (Forall_lookup_1 _ _ _ _ Hf Hp).
  - intros j. unfold attached_at, w2'. cbn. destruct (decide (j = i)) as [->|Hne]; [|by rewrite list_lookup_insert_ne].
    rewrite list_lookup_insert_eq by (by apply lookup_lt_Some in Hp). by rewrite Hp.
  - unfold n_paths, w2'. cbn. by rewrite length_insert.
  - right. right. split; [|done]. unfold k'. clearbody k. destruct (Z.ltb_spec (Z.of_nat (length bufs)) k); lia.
Qed.
Lemma first_active_none c : first_active_idx c = None <-> forall j, attached_at c j = false.
Proof.
  unfold first_active_idx, find_idx, attached_at. split.
  - destruct (list_find _ _) eqn:El; [done|]. intros _ j. apply list_find_None in El. destruct (paths c !! j) as [p|] eqn:Ej; [|done].
    apply not_true_is_false. by apply (Forall_lookup_1 _ _ _ _ El Ej).
  - intros H. destruct (list_find _ _) as [[j p]|] eqn:El; [|done]. apply list_find_Some in El as (Hj & Hp & _). specialize (H j).
    by rewrite Hj, Hp in H.
Qed.

Lemma dead_retcode c : path_send_dead_retcode c = XQC_SOCKET_ERROR /\ (forall j, attached_at c j = false) \/
  path_send_dead_retcode c = XQC_SOCKET_EAGAIN /\ exists j, attached_at c j = true.
Proof.
  unfold path_send_dead_retcode. destruct (first_active_idx c) as [i|] eqn:Ei; [right|left; split; [done|by apply first_active_none]].
  split; [done|]. apply find_idx_lookup in Ei as (p & Hp & Ha). exists i. unfold attached_at. by rewrite Hp.
Qed.

(** What the engine is told when datagrams are offered on a path id: [sent]
    maps the number of datagrams the transport took to the answer. *)
Definition send_answer (c : mqvpn_client_t) (n : nat) (sent : Z -> Z) (r : Z) : Prop :=
  r = XQC_SOCKET_ERROR /\ (forall j, attached_at c j = false) \/
  (exists j, attached_at c j = true) /\ (r = XQC_SOCKET_EAGAIN \/ exists k, 1 <= k <= Z.of_nat n /\ r = sent k).

Lemma wp_offer w i bufs sent Q : inv w -> attached_at (cl w) i = true ->
  (forall r w', inv w' -> send_answer (cl w) (length bufs) sent r -> Q r w') ->
  wp (k ← path_transport_send E i bufs; send_retcode k (sent k)) Q w.
Proof.
  intros Hi Ha HQ. wp_steps. unfold attached_at in Ha. destruct (paths (cl w) !! i) as [p|] eqn:Ep; [|done].
  eapply wp_transport_send; [done|exact Ep|done|]. intros k w' Hi' Hatt _ Hk. unfold send_retcode.
  assert (Hex : exists j, attached_at (cl w) j = true) by (exists i; unfold attached_at; by rewrite Ep).
  destruct (Z.leb_spec 1 k).
  - wp_steps. apply HQ; [done|]. right. split; [done|]. right. exists k. unfold MQVPN_TX_WOULD_BLOCK, MQVPN_TX_FAILED in Hk. split; [lia|done].
  - destruct (k =? MQVPN_TX_WOULD_BLOCK); wp_steps; (apply HQ; [done|]); right; (split; [done|]); left; [done|].
    destruct (dead_retcode (cl w')) as [[-> Hn]|[-> _]]; [|done]. destruct Hex as [j Hj]. by rewrite <- Hatt, Hn in Hj.
Qed.

(** The slot chosen when it is not attached, or none is chosen. *)
Lemma refuse_answer w n sent Q : inv w -> (forall r w', inv w' -> send_answer (cl w) n sent r -> Q r w') ->
  Q (path_send_dead_retcode (cl w)) w.
Proof.
  intros Hi HQ. apply HQ; [done|]. destruct (dead_retcode (cl w)) as [[-> Hn]|[-> He]]; [by left|]. right. split; [done|by left].
Qed.

Lemma wp_send w id size Q : inv w -> (forall r w', inv w' -> send_answer (cl w) 1 (fun _ => size) r -> Q r w') ->
  wp (cb_write_socket_ex E id size) Q w.
Proof.
  intros Hi HQ. unfold cb_write_socket_ex. wp_steps. destruct (get_path_entry_for_send _ _) as [i|]; [|wp_steps; by eapply refuse_answer].
  destruct (attached_at (cl w) i) eqn:Ha; cbn [negb]; [|wp_steps; by eapply refuse_answer].
  by apply (wp_offer w i [size] (fun _ => size)).
Qed.

Lemma wp_send_batch w id iov Q : inv w ->
  (forall r w', inv w' -> iov = [] /\ r = 0 \/ send_answer (cl w) (length (take (XQC_MAX_SEND_MSG_ONCE E) iov)) (fun k => k) r -> Q r w') ->
  wp (cb_write_mmsg_ex E id iov) Q w.
Proof.
  intros Hi HQ. unfold cb_write_mmsg_ex. wp_steps.
  assert (Hr : Q (path_send_dead_retcode (cl w)) w) by (eapply refuse_answer; [done|]; intros; apply HQ; [done|right; done]).
  destruct (get_path_entry_for_send _ _) as [i|]; [|by wp_steps].
  destruct (attached_at (cl w) i) eqn:Ha; cbn [negb]; [|by wp_steps]. destruct iov as [|x iov]; [wp_steps; by apply HQ; [|left]|].
  cbn [length Nat.eqb]. apply (wp_offer w i _ (fun k => k)); [done|done|]. intros. apply HQ; [done|by right].
Qed.

(** ** Paths *)

Lemma handle_lookup c h i p : (i ← find_path_by_handle c h; p ← paths c !! i; Some (i, p)) = Some (i, p) -> paths c !! i = Some p /\ handle p = h.
Proof.
  destruct (find_path_by_handle c h) as [j|] eqn:Ef; [|done]. cbn. apply find_idx_lookup in Ef as (q & Hq & Hh). rewrite Hq. cbn.
  intros [= <- <-]. split; [done|]. by apply Z.eqb_eq.
Qed.

(** A quiet step of one slot that leaves it fresh keeps the invariant. *)
Lemma quiet_one_inv w w' i p' : quiet_step w w' -> inv w -> fresh p' -> paths (cl w') = <[i := p']> (paths (cl w)) -> inv w'.
Proof.
  intros Hq Hi Hf Ep. eapply quiet_inv; [done|done|]. intros Hs. rewrite Ep. apply Forall_insert; [|done]. by apply (li_idle _ _ (in_life _ Hi)).
Qed.

Lemma wp_take_down w i p e : inv w -> paths (cl w) !! i = Some p -> e = PATH_EVENT_REMOVE_API \/ e = PATH_EVENT_PLATFORM_DROP ->
  wp (abandon_path (cl w) p ;; t ← client_now_us E; fire E i e (now_ctx t) ;; mret MQVPN_OK) (fun _ => inv) w.
Proof.
  intros Hi Hp He. apply wp_bind. pose proof (wp_abandon_fire E w i p e) as H.
  assert (Hgo : forall t, clock_ok t -> wp (abandon_path (cl w) p) (fun _ w1 => forall n, wp (fire E i e (now_ctx t)) (fun _ => inv) (w1 <| calls := n |>)) w).
  { intros t Ht. eapply (H t inv); [apply Hi|done|done|done|]. intros w' p' Hq Hf Ep. by eapply quiet_one_inv. }
  assert (Hst : forall t, clock_ok t -> forall n, wp (fire E i e (now_ctx t)) (fun _ => inv) ((abandon_path (cl w) p w).2 <| calls := n |>)).
  { intros t Ht. apply (Hgo t Ht). }
  unfold wp at 1. wp_steps. eapply wp_mono; [apply Hst, Hclk|]. intros [] w' Hi'. by wp_steps.
Qed.

Lemma wp_remove w h : inv w -> wp (mqvpn_client_remove_path E h) (fun _ => inv) w.
Proof.
  intros Hi. unfold mqvpn_client_remove_path. wp_steps. destruct (_ ≫= _) as [[i p]|] eqn:El; [|by wp_steps].
  apply handle_lookup in El as [Hp _]. case_bool_decide; [by wp_steps|]. apply wp_take_down; auto.
Qed.

Lemma wp_drop w h : inv w -> wp (mqvpn_client_drop_path E h) (fun _ => inv) w.
Proof.
  intros Hi. unfold mqvpn_client_drop_path, mqvpn_client_on_platform_path_dropped. wp_steps. destruct (_ ≫= _) as [[i p]|] eqn:El; [|by wp_steps].
  apply handle_lookup in El as [Hp _]. apply wp_take_down; auto.
Qed.

Lemma wp_reactivate w h : inv w -> wp (mqvpn_client_reactivate_path E h) (fun _ => inv) w.
Proof.
  intros Hi. unfold mqvpn_client_reactivate_path. wp_steps. destruct (_ || _) eqn:Eg; [by wp_steps|].
  apply orb_false_iff in Eg as [Eg _]. apply negb_false_iff, bool_decide_eq_true in Eg.
  assert (Hk : conn (cl w) <> None) by (apply (li_some _ _ (in_life _ Hi)); auto).
  destruct (_ ≫= _) as [[i p]|] eqn:El; [|by wp_steps]. apply handle_lookup in El as [Hp _]. destruct (negb _); [by wp_steps|]. wp_steps.
  apply wp_classify; [done|]. intros r id w1 Hq1 Ep1. wp_steps.
  apply (wp_fire E i _ _ _ p); [exact (quiet_slots _ _ Hq1 (in_slots _ Hi))|by cbn; rewrite Ep1|split; [apply Hclk|by split_and!]|].
  intros clk w2 Hq2 Ep2. assert (Hq : quiet_step w w2) by (eapply quiet_trans; [exact Hq1|]; eapply quiet_trans; [apply ask_quiet|exact Hq2]).
  assert (Hi2 : inv w2) by (by eapply quiet_inv_live). wp_steps.
  assert (Hl : paths (cl w2) !! i = Some (path_on_event clk p PATH_EVENT_MANUAL_REACTIVATE (Some (PathEventCtx r id PATH_LC_PENDING (now E (calls w1))))).1).
  { rewrite Ep2. apply list_lookup_insert_eq. cbn. rewrite Ep1. by apply lookup_lt_Some in Hp. }
  rewrite Hl. by wp_steps.
Qed.
(** Finalising: the slot gives up its transport and the totals are taken. *)
Lemma wp_finalize w i p (Q : unit -> world -> Prop) : paths (cl w) !! i = Some p ->
  (forall n s d, Q tt (World ((cl w) <| paths := <[i := p <| ops := no_ops |> <| transport_ctx := None |>]> (paths (cl w)) |>
       <| retired_tx_sends := s |> <| retired_tx_datagrams := d |>) (xq w) n
     (out w ++ [FxFinalize (handle p) (transport_ctx p) (ops_release (ops p))]))) ->
  wp (client_finalize_transport E i) Q w.
Proof.
  intros Hp HQ. unfold client_finalize_transport. wp_steps. rewrite Hp. wp_steps. destruct w as [c x n es]. cbn [cl xq calls out update] in *.
  assert (Hsame : Q tt (World (c <| paths := <[i := p <| ops := no_ops |> <| transport_ctx := None |>]> (paths c) |>) x n
      (es ++ [FxFinalize (handle p) (transport_ctx p) (ops_release (ops p))])) /\
    forall n', Q tt (World (c <| paths := <[i := p <| ops := no_ops |> <| transport_ctx := None |>]> (paths c) |>) x n'
      (es ++ [FxFinalize (handle p) (transport_ctx p) (ops_release (ops p))]))).
  { pose proof (fun n' => HQ n' (retired_tx_sends c) (retired_tx_datagrams c)) as H. destruct c. split; [apply H|intros; apply H]. }
  destruct Hsame as [H1 H2]. destruct (ops_get_stats (ops p)) as [f|]; wp_steps; [|exact H1].
  cbn [calls update]. destruct (transport_get_stats E n f (transport_ctx p)) as [[s d]|]; wp_steps; [apply HQ|apply H2].
Qed.

(** An event of any kind, as a world. *)
Lemma wp_fire_raw w i p e c (Q : unit -> world -> Prop) : paths (cl w) !! i = Some p ->
  (forall clk n, let r := path_on_event clk p e (Some c) in
     Q tt (World ((cl w) <| paths := <[i := r.1]> (paths (cl w)) |>) (xq w) n (out w ++ map FxSlot r.2))) ->
  wp (fire E i e c) Q w.
Proof.
  intros Hp HQ. unfold fire. wp_steps. rewrite Hp. wp_steps. specialize (HQ (now E (calls w)) (S (calls w))). cbn zeta in HQ. rewrite Ex in HQ. exact HQ.
Qed.

(** The slot after its transport is finalised and the release is told. *)
Lemma released_slot clk p t : slot_ok p -> state p = PATH_LC_CLOSED_DROPPED -> clock_ok t ->
  let q := p <| ops := no_ops |> <| transport_ctx := None |> in
  let r := path_on_event clk q PATH_EVENT_TRANSPORT_RELEASED (Some (now_ctx t)) in
  slot_ok r.1 /\ handle r.1 = handle p /\ transport_released r.1 = true /\ fresh r.1 /\ Forall slot_fx (map FxSlot r.2).
Proof.
  intros (Hwf & Hown & Hin) Hst Ht q. assert (Hwfq : path_wf q) by exact Hwf.
  destruct (path_event_ok clk q PATH_EVENT_TRANSPORT_RELEASED (now_ctx t) Hwfq) as (Hwf' & Hown' & _ & Hfx); [by split_and!|by right|].
  destruct (path_event_frame clk q PATH_EVENT_TRANSPORT_RELEASED (now_ctx t) Hwfq Ht) as (Eh & Eo & Er).
  rewrite bool_decide_eq_true_2 in Er by done. cbn zeta. split_and!; [split_and!; [done|done|by rewrite Er]|done|done| |by apply event_fx].
  intros Ha. exfalso. pose proof (f_equal Spec.attached (path_event_abs clk q PATH_EVENT_TRANSPORT_RELEASED (now_ctx t) Hwfq Ht)) as Ea.
  change (Spec.attached (abs_slot ?x)) with (transport_attached x) in Ea. rewrite Ha in Ea.
  destruct Hwf as (_ & Hl & _). unfold Spec.Legal in Hl. cbn in Hl, Ea. rewrite Hst in Hl. bool_to_prop.
  unfold Spec.OnTransportReleased, Spec.FreeGate in Ea. cbn in Ea. rewrite Hst in Ea. rewrite !bool_decide_eq_true_2 in Ea by done. cbn in Ea.
  destruct (negb (xquic_path_live p) && (xqc_path_id p =? 0)); cbn in Ea; congruence.
Qed.

Lemma wp_released w h : inv w -> wp (mqvpn_client_on_platform_path_released E h) (fun _ => inv) w.
Proof.
  intros Hi. unfold mqvpn_client_on_platform_path_released. wp_steps. destruct (_ ≫= _) as [[i p]|] eqn:El; [|by wp_steps].
  apply handle_lookup in El as [Hp _]. case_bool_decide; [by wp_steps|]. case_bool_decide as Hst; cbn [negb]; [|by wp_steps].
  destruct (_ || _) eqn:Eg; [by wp_steps|]. apply orb_false_iff in Eg as [Hrel _]. wp_steps.
  eapply wp_finalize; [done|]. intros n s d. wp_steps. eapply wp_fire_raw; [apply list_lookup_insert_eq; by apply lookup_lt_Some in Hp|].
  intros clk n'. destruct (released_slot clk p (now E n) (slots_lookup w i p (in_slots _ Hi) Hp) Hst (Hclk n)) as (Hok & Hh & Hr & Hf & Hfx).
  cbv zeta in *. cbn [calls] in *. set (r := path_on_event _ _ _ _) in *. clearbody r. wp_steps. set (fx := r.2) in *.
  set (es := FxFinalize (handle p) (transport_ctx p) (ops_release (ops p)) :: map FxSlot fx).
  assert (Hc : Forall (fun e => bad e = false /\ is_closed_fx e = false /\ is_freed_fx e = false) es).
  { apply Forall_cons_2; [done|]. eapply Forall_impl; [exact Hfx|]. intros e He. by apply slot_fx_plain in He as (? & ? & ? & _). }
  assert (Ees : forall l0, (l0 ++ [FxFinalize (handle p) (transport_ctx p) (ops_release (ops p))]) ++ map FxSlot fx = l0 ++ es).
  { intros. by rewrite <- app_assoc. }
  assert (Efin : finalized es = [handle p]). { unfold es. cbn. f_equal. by apply finalized_slot_fx. }
  destruct Hi as [Is Ic [T1 T2 T3] [L1 L2 L3 L4 L5 L6 L7 L8 L9]]. split.
  - unfold slots_ok. cbn. rewrite Ees, finalized_app, Efin, list_insert_insert_eq. by eapply slots_inv_release.
  - unfold clean. cbn. rewrite Ees. apply Forall_app_2; [done|]. eapply Forall_impl; [exact Hc|]. by intros ? [].
  - cbn. rewrite Ees. split; [done|done|]. rewrite !count_fx_app, T3.
    assert (Hz : count_fx is_closed_fx es = 0%nat /\ count_fx is_freed_fx es = 0%nat).
    { clear -Hc. unfold count_fx. induction Hc as [|e l (_ & H1 & H2) _ [IH1 IH2]]; [done|]. cbn [List.filter]. by rewrite H1, H2. }
    destruct Hz as [-> ->]. lia.
  - split; cbn; try done. intros Hs. rewrite list_insert_insert_eq. apply Forall_insert; [auto|done].
Qed.

(** The slot after a transport is added to it. *)
Lemma added_slot clk d h o ctx t : clock_ok t -> ops_send o <> None ->
  let q := path_entry_init <| handle := h |> <| ops := client_copy_path_ops o |> <| transport_ctx := ctx |> in
  let q := match d with Some d => apply_desc d q | None => q end in
  let r := path_on_event clk q PATH_EVENT_ADD (Some (now_ctx t)) in
  slot_ok r.1 /\ handle r.1 = h /\ transport_released r.1 = false /\ state r.1 = PATH_LC_PENDING /\ Forall slot_fx (map FxSlot r.2).
Proof.
  intros Ht Ho q0 q. assert (Hq : path_wf q /\ state q = PATH_LC_CLOSED_FREE /\ handle q = h /\ ops q = client_copy_path_ops o).
  { unfold q, q0, apply_desc. destruct d; [|done]. repeat (case_match; try done). }
  clearbody q. destruct Hq as (Hwf & Hst & Hh & Hop).
  destruct (path_event_ok clk q PATH_EVENT_ADD (now_ctx t) Hwf) as (Hwf' & Hown' & _ & Hfx); [by split_and!|by left|].
  destruct (path_event_frame clk q PATH_EVENT_ADD (now_ctx t) Hwf Ht) as (Eh & Eo & Er). rewrite Hst, bool_decide_eq_true_2 in Er by done.
  cbn zeta. split_and!; [split_and!; [done|done|by rewrite Eo, Hop]|congruence|done| |by apply event_fx].
  pose proof (f_equal Spec.st (path_event_abs clk q PATH_EVENT_ADD (now_ctx t) Hwf Ht)) as Es.
  change (Spec.st (abs_slot ?x)) with (state x) in Es. rewrite Es. cbn. unfold Spec.OnAdd. cbn. by rewrite Hst, bool_decide_eq_true_2.
Qed.

(** The place of the new slot: a slot that gave up its transport, or the end. *)
Lemma free_place ps next fin : slots_inv ps next fin ->
  forall i, fst <$> list_find (fun p => bool_decide (state p = PATH_LC_CLOSED_FREE) = true) ps = i ->
  let idx := default (length ps) i in
  exists l1 mid l2, ps = l1 ++ mid ++ l2 /\ length l1 = idx /\ Forall (fun q => transport_released q = true) mid /\
    (length (l1 ++ l2) < length ps \/ i = None)%nat /\
    forall q r, <[idx := r]> (<[idx := q]> (if (idx <? length ps)%nat then <[idx := path_entry_init]> ps else ps ++ [path_entry_init])) = l1 ++ r :: l2.
Proof.
  intros Hs i Hf. destruct (list_find _ ps) as [[j p]|] eqn:El; cbn in Hf; subst i; cbn [default from_option].
  - apply list_find_Some in El as (Hj & Hp & _). apply bool_decide_eq_true in Hp. pose proof (lookup_lt_Some _ _ _ Hj) as Hlt.
    exists (take j ps), [p], (drop (S j) ps). pose proof (take_drop_middle _ _ _ Hj) as Em. split_and!.
    + by rewrite <- Em at 1.
    + rewrite length_take. cbn. lia.
    + apply Forall_cons_2; [|constructor]. destruct (proj1 (Forall_lookup_1 _ _ _ _ (si_slot _ _ _ Hs) Hj)) as (_ & Hl & _).
      unfold Spec.Legal in Hl. cbn in Hl. rewrite Hp in Hl. bool_to_prop. done.
    + left. rewrite length_app, length_take, length_drop. lia.
    + intros q r. cbn [from_option id]. rewrite (proj2 (Nat.ltb_lt _ _) Hlt), !list_insert_insert_eq. rewrite <- Em at 1.
      by rewrite insert_app_r_alt, length_take, Nat.min_l, Nat.sub_diag by (rewrite length_take; lia) || lia.
  - exists ps, [], []. rewrite !app_nil_r. split_and!; [done|done|done|by right|]. intros q r. rewrite Nat.ltb_irrefl.
    rewrite insert_app_r_alt, Nat.sub_diag by lia. cbn. by rewrite insert_app_r_alt, Nat.sub_diag by lia.
Qed.

(** The table with the new slot in place. *)
Lemma added_inv w l1 mid l2 p es n : inv w -> paths (cl w) = l1 ++ mid ++ l2 -> Forall (fun q => transport_released q = true) mid ->
  (length (l1 ++ l2) < 8)%nat -> slot_ok p -> handle p = next_path_handle (cl w) -> transport_released p = false ->
  state p = PATH_LC_PENDING -> Forall slot_fx es ->
  inv (World ((cl w) <| paths := l1 ++ p :: l2 |> <| next_path_handle := next_path_handle (cl w) + 1 |>) (xq w) n (out w ++ es)).
Proof.
  intros [Is Ic It [L1 L2 L3 L4 L5 L6 L7 L8 L9]] Ep Hm Hlen Hok Hh Hr Hst Hes.
  assert (Hpl : Forall plain_fx es) by (eapply Forall_impl; [done|]; apply slot_fx_plain). split.
  - pose proof (slots_app w es Is Hpl) as Hs. unfold slots_ok. cbn. rewrite Ep in Hs. eapply slots_inv_add; [exact Hs|done| |done|done|done].
    rewrite length_app in *. cbn. lia.
  - by apply clean_app.
  - by apply tunnel_plain.
  - split; cbn; try done. intros Hs. specialize (L7 Hs). rewrite Ep in L7. apply Forall_app in L7 as [F1 F2]. apply Forall_app in F2 as [_ F2].
    apply Forall_app_2; [done|]. apply Forall_cons_2; [by intros _|done].
Qed.

Lemma wp_add w desc o ctx : inv w -> wp (mqvpn_client_add_path E desc o ctx) (fun _ => inv) w.
Proof.
  intros Hi. unfold mqvpn_client_add_path. destruct (ops_struct_size o <? OPS_END_SEND); [by wp_steps|].
  case_bool_decide as Ho; [by wp_steps|]. destruct (match desc with Some d => desc_oversized d | None => false end); [by wp_steps|]. wp_steps.
  destruct (_ && _) eqn:Eg; [by wp_steps|].
  set (free := find_idx _ (cl w)) in *. destruct (free_place _ _ _ (in_slots _ Hi) free eq_refl) as (l1 & mid & l2 & Ep & Hl1 & Hmid & Hlen & Hplace).
  assert (Hlt : (length (l1 ++ l2) < 8)%nat).
  { pose proof (si_len _ _ _ (in_slots _ Hi)) as H8. destruct Hlen as [?|Hn]; [lia|]. rewrite Hn, bool_decide_eq_true_2 in Eg by done.
    cbn in Eg. unfold MQVPN_MAX_PATHS in Eg. apply Z.leb_gt in Eg. unfold n_paths in Eg. rewrite Ep, !length_app in Eg. rewrite length_app. lia. }
  change (length (paths (cl w))) with (n_paths (cl w)) in Hl1, Hplace.
  unfold reset_slot. wp_steps. set (idx := default (n_paths (cl w)) free) in *. set (h := next_path_handle (cl w)) in *.
  cbn [cl paths update calls xq out].
  eapply wp_fire_raw; [apply list_lookup_insert_eq|].
  { destruct (Nat.ltb_spec idx (n_paths (cl w))); rewrite ?length_insert, ?length_app; unfold n_paths in *; [done|]. cbn.
    unfold idx. destruct free as [i|] eqn:Ef; [|cbn; lia]. apply find_idx_lookup in Ef as (q & Hq & _). apply lookup_lt_Some in Hq. cbn. lia. }
  intros clk n. cbv zeta.
  destruct (added_slot clk desc h o ctx (now E (calls w)) (Hclk _) Ho) as (Hok & Hh & Hr & Hst & Hfx). cbv zeta in Hok, Hh, Hr, Hst, Hfx.
  set (r := path_on_event _ _ _ _) in *. cbn [cl paths update calls xq out]. rewrite Hplace. clearbody r.
  pose proof (added_inv w l1 mid l2 r.1 (map FxSlot r.2) n Hi Ep Hmid Hlt Hok Hh Hr Hst Hfx) as Hi1. cbv zeta in Hi1.
  match goal with |- wp _ _ ?w => set (w1 := w) end. change (inv w1) in Hi1.
  assert (Hidx : paths (cl w1) !! idx = Some r.1) by (unfold w1; cbn; by apply list_lookup_middle).
  clearbody w1. wp_steps. match goal with |- context [if ?b then activate_pending_paths E ≫= _ else _] => destruct b eqn:Em end; [|by wp_steps].
  apply andb_prop in Em as [Em _]. apply andb_prop in Em as [_ Em]. apply bool_decide_eq_true in Em as [k Hk]. wp_steps.
  assert (Hk' : conn (cl w1) <> None) by (by rewrite Hk).
  apply (wp_activate_pending E Hclk); [apply Hi1|done|]. intros w2 Hq2 Hact. assert (Hi2 : inv w2) by (by eapply quiet_inv_live).
  destruct (Hact idx r.1 Hidx Hst) as (p2 & Hp2 & Ha2). wp_steps. rewrite Hp2. unfold add_path_outcome_from_state.
  destruct Ha2 as [->|[-> | ->]]; by wp_steps.
Qed.

(** ** The connection *)

Lemma wp_tun_active w b : inv w -> wp (mqvpn_client_set_tun_active E b) (fun _ => inv) w.
Proof.
  intros Hi. unfold mqvpn_client_set_tun_active. wp_steps.
  assert (Hi1 : inv (w <| cl ::= (fun c => c <| tun_active := b |>) |>)) by (by apply inv_modify).
  destruct (_ && _) eqn:Eg; wp_steps; [|done]. apply andb_prop in Eg as [_ Eg]. apply bool_decide_eq_true in Eg.
  apply wp_set_state; [by rewrite Eg|done|]. intros t n _. wp_steps.
  eapply (plain_inv _ _ [_]); [exact Hi1|done|done|done|done|done|by apply Forall_cons_2|]. destruct (in_life _ Hi1) as [L1 L2 L3 L4 L5 L6 L7 L8 L9].
  split; cbn; try done; auto; try (intros [?|?]; done).
  intros Hx. apply L4 in Hx as [Hx _]. cbn in Hx, Eg. congruence.
Qed.

(** The bootstrap writes the primary slot only, and it passes the check. *)
Lemma wp_bootstrap w Q : slots_ok w -> Forall fresh (paths (cl w)) ->
  match paths (cl w) !! primary_path_idx (cl w) with Some p => transport_attached p = true | None => True end ->
  (forall w', quiet_step w w' -> Q tt w') -> wp (bootstrap_primary E) Q w.
Proof.
  intros Hs Hf Ha HQ. unfold bootstrap_primary. wp_steps. destruct (paths (cl w) !! primary_path_idx (cl w)) as [p|] eqn:Ep; [|wp_steps; apply HQ, quiet_refl].
  pose proof (Forall_lookup_1 _ _ _ _ Hf Ep Ha) as Hst. pose proof (slots_lookup w _ p Hs Ep) as (Hwf & Hown & Hsend).
  wp_steps. unfold set_path_state_with_log in Ex. cbn in Ex. rewrite Hst in Ex. cbn in Ex. injection Ex as <- <-.
  match goal with |- context [path_invariant_check ?q] => set (p' := q) end.
  pose proof Hwf as (Hpub & Hl & Hret). unfold Spec.Legal in Hl. cbn in Hl. rewrite Hst, Ha in Hl.
  assert (Hok : slot_ok p').
  { split_and!; [|done|done]. split_and!; [done| |done]. unfold Spec.Legal. cbn. rewrite Ha.
    by destruct (transport_released p), (xquic_path_live p), (xqc_path_id p =? 0), (recreate_after_us p =? 0). }
  rewrite (wf_owned_check p'); [|apply Hok..]. wp_steps. apply HQ.
  eapply quiet_put; [exact Ep| | |done|done|done]; [by split|by cbn; apply Forall_cons_2].
Qed.

(** A client between two connections, while one is being started. *)
Record starting (w : world) : Prop := {
  st_slots : slots_ok w;
  st_clean : clean w;
  st_tunnel : tunnel_inv None None (out w);
  st_conn : conn (cl w) = None;
  st_xq : xq w = None;
  st_state : cstate (cl w) = MQVPN_STATE_IDLE \/ cstate (cl w) = MQVPN_STATE_RECONNECTING;
  st_fresh : Forall fresh (paths (cl w))
}.

(** A start that fails leaves such a client; one that succeeds leaves the
    connection in its handshake and the state to be changed. *)
Lemma wp_start w (Q : bool -> world -> Prop) : starting w ->
  (forall w', starting w' -> cstate (cl w') = cstate (cl w) -> in_connect (cl w') = in_connect (cl w) -> Q false w') ->
  (forall w' mss, slots_ok w' -> clean w' -> tunnel_inv None None (out w') -> conn (cl w') = Some (new_conn <| dgram_mss := mss |>) ->
     xq w' = Some XqHandshaking -> cstate (cl w') = cstate (cl w) -> in_connect (cl w') = in_connect (cl w) -> Q true w') ->
  wp (cli_start_connection E) Q w.
Proof.
  intros [Ss Sc St Sk Sx Sst Sf] HF HT. unfold cli_start_connection. wp_steps. rewrite Sk. rewrite bool_decide_eq_false_2 by (by intros []). wp_steps.
  set (w1 := (w <| cl ::= _ |>) <| calls ::= S |>). assert (Hs1 : starting w1) by by split.
  destruct (calloc_conn E _); cbn [negb]; [|wp_steps; by apply HF]. destruct (match _ with Some p => _ | None => _ end) eqn:Ea; [wp_steps; by apply HF|].
  wp_steps. destruct (xqc_h3_connect E _); cbn [negb]; [|wp_steps; apply HF; [by destruct Hs1; split|done|done]]. wp_steps.
  apply wp_bootstrap; [exact Ss|exact Sf| |].
  { cbn. destruct (paths (cl w) !! primary_path_idx (cl w)); [|done]. by apply negb_false_iff. }
  intros w2 Hq2. wp_steps. destruct (quiet_slots _ _ Hq2 Ss) as [? ? ? ? ? ? ?]. eapply (HT _ _); try done.
  - by apply (quiet_clean _ _ Hq2).
  - destruct (qs_out _ _ Hq2) as (es & Eo & Hes). cbn in *. rewrite Eo. apply tunnel_plain; [|done].
    eapply Forall_impl; [exact Hes|]. apply slot_fx_plain.
  - exact (quiet_reads cstate _ _ ltac:(done) Hq2).
  - exact (quiet_reads in_connect _ _ ltac:(done) Hq2).
Qed.

(** The connection in its handshake, once the state follows. *)
Lemma wp_started w (Q : unit -> world -> Prop) mss : slots_ok w -> clean w -> tunnel_inv None None (out w) ->
  conn (cl w) = Some (new_conn <| dgram_mss := mss |>) -> xq w = Some XqHandshaking ->
  cstate (cl w) = MQVPN_STATE_IDLE \/ cstate (cl w) = MQVPN_STATE_RECONNECTING -> in_connect (cl w) = false ->
  (forall w', inv w' -> Q tt w') -> wp (client_set_state E MQVPN_STATE_CONNECTING) Q w.
Proof.
  intros Hs Hc Ht Hk Hx Hst Hn HQ. apply wp_set_state; [by destruct Hst as [-> | ->]|done|]. intros t n Hclk'. apply HQ. split.
  - by apply (slots_app w [_]); [|apply Forall_cons_2].
  - by apply (clean_app w [_]); [|apply Forall_cons_2].
  - cbn. apply tunnel_plain; [by apply Forall_cons_2|]. rewrite Hk. destruct Ht as [T1 T2 T3]. split; [by intros ? [= <-]|by intros ? [= <-]|exact T3].
  - unfold clock_ok in Hclk'. cbn. rewrite Hk, Hx. split; cbn; try done; try (intros [?|?]; done).
    intros _. split; [done|]. unfold stamped. rewrite bool_decide_eq_true_2 by done. lia.
Qed.

(** A client that could not start and waits again. *)
Lemma starting_inv w w' es : starting w -> paths (cl w') = paths (cl w) -> next_path_handle (cl w') = next_path_handle (cl w) ->
  conn (cl w') = None -> xq w' = None -> out w' = out w ++ es -> Forall plain_fx es -> in_connect (cl w') = false ->
  cstate (cl w') = MQVPN_STATE_IDLE \/ cstate (cl w') = MQVPN_STATE_RECONNECTING /\ reconnect_scheduled_us (cl w') <> 0 -> inv w'.
Proof.
  intros [Ss Sc St Sk Sx Sst Sf] Ep En Ek Ex Eo Hp Hi Hst. split.
  - unfold slots_ok. rewrite Ep, En, Eo. by apply slots_app.
  - unfold clean. rewrite Eo. by apply clean_app.
  - rewrite Ek, Ex, Eo. by apply tunnel_plain.
  - rewrite Ex. split; rewrite ?Ek, ?Ep; try done; destruct Hst as [->|[-> ?]]; try done; intros; repeat (done || match goal with H : _ \/ _ |- _ => destruct H end).
Qed.

(** The reset before a reconnect. *)
Lemma wp_reset_starting w (Q : unit -> world -> Prop) : inv w -> cstate (cl w) = MQVPN_STATE_RECONNECTING ->
  (forall w', starting w' -> cstate (cl w') = MQVPN_STATE_RECONNECTING -> Q tt w') ->
  wp (client_reset_paths_for_reconnect E) Q (w <| cl ::= fun c => c <| reconnect_scheduled_us := 0 |> <| in_connect := true |> |>).
Proof.
  intros [Is Ic It [L1 L2 L3 L4 L5 L6 L7 L8 L9]] Hst HQ. apply (wp_reset_paths E Hclk); [exact Is|]. intros w' Hq Hf _ _.
  assert (Hk : conn (cl w) = None) by (apply L2; auto). assert (Hx : xq w = None) by by apply L1. rewrite Hk, Hx in It.
  assert (Hst' : cstate (cl w') = MQVPN_STATE_RECONNECTING) by (by rewrite (quiet_reads cstate _ _ ltac:(done) Hq)).
  apply HQ; [|done]. split; [exact (quiet_slots _ _ Hq Is)|exact (quiet_clean _ _ Hq Ic)| | | |by right|done].
  - destruct (qs_out _ _ Hq) as (es & Eo & Hes). rewrite Eo. apply tunnel_plain; [|done]. eapply Forall_impl; [exact Hes|]. apply slot_fx_plain.
  - by rewrite (quiet_conn _ _ Hq).
  - by rewrite (qs_xq _ _ Hq).
Qed.

(** The end of both ways of connecting. *)
Lemma wp_finish_start {A} w (rearm go : M A) : starting w ->
  (forall w', starting w' -> cstate (cl w') = cstate (cl w) -> in_connect (cl w') = false -> wp rearm (fun _ => inv) w') ->
  (forall w', inv w' -> wp go (fun _ => inv) w') ->
  wp (started ← cli_start_connection E; modify (fun c => c <| in_connect := false |>) ;;
      if negb started then rearm else client_set_state E MQVPN_STATE_CONNECTING ;; go) (fun _ => inv) w.
Proof.
  intros Hs Hre Hgo. wp_steps. apply wp_start; [done| |].
  - intros w1 Hs1 Est _. wp_steps. cbn [negb]. apply Hre; [by destruct Hs1; split|done|done].
  - intros w1 mss H1 H2 H3 H4 H5 H6 _. wp_steps. cbn [negb]. wp_steps. eapply wp_started; [exact H1|exact H2|exact H3|exact H4|exact H5| |done|done].
    cbn. rewrite H6. apply Hs.
Qed.

Lemma wp_rearm w : starting w -> cstate (cl w) = MQVPN_STATE_RECONNECTING -> in_connect (cl w) = false ->
  wp (delay ← client_arm_reconnect_timer E; emit (FxReconnectScheduled delay)) (fun _ => inv) w.
Proof.
  intros Hs Hst Hn. wp_steps. apply wp_arm; [done|]. intros t n d Ht _. wp_steps.
  eapply (starting_inv w _ [_]); [done|done|done|apply Hs|apply Hs|done|by apply Forall_cons_2|done|by right].
Qed.

Lemma wp_tick_reconnect cbs w : inv w -> wp (tick_reconnect E cbs) (fun _ => inv) w.
Proof.
  intros Hi. unfold tick_reconnect. wp_steps. destruct (_ || _) eqn:Eg; [by wp_steps|]. apply orb_false_iff in Eg as [Eg _].
  apply negb_false_iff, bool_decide_eq_true in Eg. wp_steps. destruct (_ <? _); [wp_steps; by apply (inv_calls (S (calls w)))|]. wp_steps.
  apply (wp_reset_starting (w <| calls ::= S |>)); [by apply (inv_calls (S (calls w)))|done|]. intros w1 Hs1 Est1.
  apply (wp_finish_start w1); [done| |intros; by apply wp_main_logic]. intros w2 Hs2 Est2 Hn2. apply wp_rearm; [done|congruence|done].
Qed.

Lemma wp_connect w : inv w -> wp (mqvpn_client_connect E) (fun _ => inv) w.
Proof.
  intros Hi. unfold mqvpn_client_connect. wp_steps. destruct (in_connect (cl w)); [by wp_steps|].
  destruct (negb _) eqn:Ev; [by wp_steps|]. apply negb_false_iff in Ev. wp_steps.
  destruct (bool_decide (cstate (cl w) = MQVPN_STATE_RECONNECTING)) eqn:Er.
  - apply bool_decide_eq_true in Er. wp_steps. apply (wp_reset_starting w); [done|done|]. intros w1 Hs1 Est1.
    apply (wp_finish_start w1); [done| |intros; by wp_steps]. intros w2 Hs2 Est2 Hn2. wp_steps. rewrite Est2, Est1, bool_decide_eq_true_2 by done.
    cbn [andb]. eapply wp_mono; [apply wp_rearm; [done|congruence|done]|]. intros [] w3 Hi3. by wp_steps.
  - apply bool_decide_eq_false in Er. assert (Hst : cstate (cl w) = MQVPN_STATE_IDLE) by (by destruct (cstate (cl w))).
    wp_step. cbv beta. apply wp_finish_start; [|intros w2 Hs2 Est2 Hn2; cbn [andb]; wp_steps|intros; by wp_steps].
    + destruct Hi as [Is Ic It [L1 L2 L3 L4 L5 L6 L7 L8 L9]]. assert (Hk : conn (cl w) = None) by (apply L2; auto).
      assert (Hx : xq w = None) by by apply L1. rewrite Hk, Hx in It. split; cbn; auto.
    + eapply (starting_inv w2 _ []); [done|done|done|apply Hs2|apply Hs2|by rewrite app_nil_r|done|done|]. left. by rewrite Est2.
Qed.

(** The end: the state is closed whatever is left of the connection. *)
Lemma closed_inv w w' es : inv w -> paths (cl w') = paths (cl w) -> next_path_handle (cl w') = next_path_handle (cl w) ->
  conn (cl w') = conn (cl w) -> out w' = out w ++ es -> Forall plain_fx es -> in_connect (cl w') = false ->
  cstate (cl w') = MQVPN_STATE_CLOSED -> xq w = xq w' -> xq w <> Some XqHandshaking -> xq w <> Some XqOpen -> shutting_down (cl w') = true -> inv w'.
Proof.
  intros Hi Ep En Ek Eo Hp Hn Hst Ex Hh Ho Hd. eapply plain_inv; [done|done|done|done|done|done|done|]. pose proof (li_conn _ _ (in_life _ Hi)) as Hc.
  rewrite <- Ex. split; rewrite ?Ek, ?Hst; try done; intros; repeat (done || match goal with H : _ \/ _ |- _ => destruct H end).
Qed.

(** Closing the connection. *)
Lemma close_inv w : inv w -> conn (cl w) <> None -> inv (w <| out ::= fun l => l ++ [FxConnClose] |> <| xq := Some XqClosing |>).
Proof.
  intros Hi Hk. eapply conn_step_inv; [|exact Hi|done]. split; [done|done|by right| | |].
  - intros Hc. unfold clean. cbn. apply Forall_app_2; [done|by apply Forall_cons_2].
  - cbn. by rewrite finalized_app, app_nil_r.
  - intros Ht. apply (tunnel_plain _ _ _ [FxConnClose]) in Ht; [|by apply Forall_cons_2]. destruct Ht as [Hd Hh Hc]. by split.
Qed.

(** ** Shutting down *)
Create HintDb keeps.

(** A client that is shutting down, with its connection past its close when
    [b] holds. *)
Definition ending (b : bool) (w : world) : Prop :=
  shutting_down (cl w) = true /\ cstate (cl w) <> MQVPN_STATE_IDLE /\ (b = true -> xq w = Some XqClosing \/ xq w = None).

Definition keeps {A} (b : bool) (m : M A) : Prop := forall w, ending b w -> ending b (m w).2.

Lemma keeps_bind {A B} b (m : M A) (f : A -> M B) : keeps b m -> (forall a, keeps b (f a)) -> keeps b (mbind f m).
Proof. intros Hm Hf w Hw. unfold mbind, M_bind. specialize (Hm w Hw). destruct (m w) as [a w']. by apply Hf. Qed.

Lemma keeps_modify b f : (forall c, shutting_down (f c) = shutting_down c /\ (cstate (f c) = cstate c \/ cstate (f c) <> MQVPN_STATE_IDLE)) ->
  keeps b (modify f).
Proof. intros Hf w (H1 & H2 & H3). destruct (Hf (cl w)) as [E1 E2]. split_and!; [by cbn; rewrite E1| |done]. cbn. by destruct E2 as [->|?]. Qed.

Lemma keeps_for_each b l f : (forall i, keeps b (f i)) -> keeps b (for_each l f).
Proof. intros Hf. induction l as [|i l IH]; cbn [for_each]; [by intros w ?|]. by apply keeps_bind. Qed.

Ltac head_of m := lazymatch m with ?f _ => head_of f | _ => m end.

(** Descends to the primitive steps of a computation. *)
Ltac keeps :=
  repeat (cbv beta zeta; lazymatch goal with
  | |- keeps _ (mbind _ _) => apply keeps_bind; [|intros ?]
  | |- keeps _ (modify _) => apply keeps_modify; intros ?; split; [reflexivity|by first [left; reflexivity|right]]
  | |- keeps _ (set_phase _) => intros ? (? & ? & ?); split_and!; [done|done|]; intros ?; by auto
  | |- keeps _ (for_each _ _) => apply keeps_for_each; intros ?
  | |- keeps _ (match ?x with _ => _ end) => destruct x
  | |- keeps _ (mret _) => intros ? ?; done
  | |- keeps _ skip => intros ? ?; done
  | |- keeps _ get => intros ? ?; done
  | |- keeps _ (emit _) => intros ? ?; done
  | |- keeps _ (emit_all _) => intros ? ?; done
  | |- keeps _ (ask _) => intros ? ?; done
  | |- keeps _ (client_now_us _) => intros ? ?; done
  | |- keeps _ ?m => first [solve [auto with keeps] | let h := head_of m in unfold h]
  end).

Lemma keeps_assign b es : keeps b (assign_entries es).
Proof. induction es as [|[[ver ip] pre] es IH]; cbn [assign_entries]; keeps. Qed.

Lemma keeps_capsules b caps : keeps b (process_capsules caps).
Proof. pose proof (keeps_assign b). induction caps as [|[es|v|] caps IH]; cbn [process_capsules]; keeps. Qed.

Lemma keeps_scan b hs s : keeps b (scan_headers hs s).
Proof. revert s. induction hs as [|[n v] hs IH]; intros s; cbn [scan_headers]; keeps. Qed.

Lemma keeps_deliver b cb : keeps b (deliver E cb).
Proof.
  pose proof (keeps_capsules b). pose proof (keeps_scan b). intros w Hw. unfold deliver. destruct (xq w) as [ph|] eqn:Ex; [|done].
  destruct (cb_allowed ph cb) eqn:Ha; [|done]. destruct cb; cbn [run_cb].
  { destruct b, ph; try discriminate Ha; [by destruct (proj2 (proj2 Hw) eq_refl); congruence|]. revert Hw. generalize w. change (keeps false (run_cb E CbHandshakeFinished)). cbn [run_cb]. keeps. }
  all: clear Ha Ex; revert w Hw.
  all: match goal with |- forall w, ending _ w -> ending _ (?m w).2 => change (keeps b m) end; keeps.
Qed.

Lemma keeps_main_logic b cbs : keeps b (main_logic E cbs).
Proof. pose proof (keeps_deliver b). induction cbs as [|cb cbs IH]; cbn [main_logic]; keeps. Qed.

Lemma wp_flush cbs w (Q : unit -> world -> Prop) : inv w -> (forall w', inv w' -> (ending false w -> ending false w') -> Q tt w') ->
  wp (cli_flush_deferred_sends E cbs) Q w.
Proof.
  intros Hi HQ. unfold cli_flush_deferred_sends. wp_steps. destruct (conn (cl w)); [|wp_steps; by apply HQ].
  destruct (_ && _); [|wp_steps; by apply HQ]. pose proof (wp_main_logic E Hclk cbs w Hi) as H1. pose proof (keeps_main_logic false cbs w) as H2.
  unfold wp in *. destruct (main_logic E cbs w) as [[] w']. by apply HQ.
Qed.

Lemma wp_disconnect fl cls w : inv w -> wp (mqvpn_client_disconnect E fl cls) (fun _ => inv) w.
Proof.
  intros Hi. unfold mqvpn_client_disconnect. wp_steps. destruct (in_connect (cl w)); [by wp_steps|]. destruct (_ || _) eqn:Eg; [by wp_steps|].
  apply orb_false_iff in Eg as [Eg1 Eg2]. apply bool_decide_eq_false in Eg1, Eg2. wp_steps.
  set (w1 := w <| cl ::= _ |>). assert (Hi1 : inv w1).
  { destruct Hi as [Is Ic It [L1 L2 L3 L4 L5 L6 L7 L8 L9]]. split; [done|done|done|]. by split. }
  assert (He1 : ending false w1) by by split_and!.
  assert (Hend : forall w2, inv w2 -> ending true w2 -> wp (client_set_state E MQVPN_STATE_CLOSED) (fun _ => wp (mret MQVPN_OK) (fun _ => inv)) w2).
  { intros w2 Hi2 (Hd & Hni & Hp). wp_steps. destruct (decide (cstate (cl w2) = MQVPN_STATE_CLOSED)) as [Ec|Hne]; [apply wp_set_state_same; [done|by wp_steps]|].
    apply wp_set_state; [by destruct (cstate (cl w2))|done|]. intros t n _. wp_steps. specialize (Hp eq_refl).
    eapply (closed_inv w2 _ [_]); [done|done|done|done|done|by apply Forall_cons_2|cbn; apply Hi2|done|done|..|done]; destruct Hp as [-> | ->]; done. }
  assert (Hgone : forall w2, inv w2 -> ending false w2 -> conn (cl w2) = None -> ending true w2).
  { intros w2 Hi2 (H1 & H2 & _) Hk. split_and!; [done|done|]. intros _. right. by apply (li_conn _ _ (in_life _ Hi2)). }
  destruct (bool_decide (is_Some (conn (cl w)))) eqn:Ek; wp_steps.
  - apply wp_flush; [done|]. intros w2 Hi2 He2. specialize (He2 He1). wp_steps. destruct (bool_decide (is_Some (conn (cl w2)))) eqn:Ek2.
    + apply bool_decide_eq_true in Ek2 as [k2 Ek2]. unfold close_conn. wp_steps. match goal with |- wp _ _ ?w => set (w3 := w) end.
      assert (Hi3 : inv w3) by (apply close_inv; [done|by rewrite Ek2]).
      assert (He3 : ending true w3) by (destruct He2 as (? & ? & _); split_and!; auto; by left).
      pose proof (wp_main_logic E Hclk cls w3 Hi3) as H1. pose proof (keeps_main_logic true cls w3 He3) as H2. unfold wp at 1. wp_steps. by apply Hend.
    + wp_steps. apply Hend; [done|]. apply Hgone; [done|done|]. apply bool_decide_eq_false in Ek2. by apply eq_None_not_Some.
  - apply Hend; [done|]. apply Hgone; [done|done|]. apply bool_decide_eq_false in Ek. by apply eq_None_not_Some.
Qed.

(** ** The tick *)

Lemma wp_watchdog w : inv w -> wp (tick_handshake_watchdog E) (fun _ => inv) w.
Proof.
  intros Hi. unfold tick_handshake_watchdog. wp_steps. destruct (shutting_down (cl w)); [by wp_steps|]. wp_steps.
  assert (Hi1 : inv (w <| calls ::= S |>)) by (by apply (inv_calls (S (calls w)))).
  destruct (client_handshake_stalled (cl w) _) eqn:Es; cbn [negb]; [|by wp_steps]. unfold client_handshake_stalled in Es. cbn in Es.
  destruct (bool_decide (cstate (cl w) = MQVPN_STATE_CONNECTING)) eqn:Est; [|done]. apply bool_decide_eq_true in Est.
  assert (Hk : conn (cl w) <> None) by (apply (li_some _ _ (in_life _ Hi)); auto). wp_steps. rewrite bool_decide_eq_true_2 by (by destruct (conn (cl w)); [|done]).
  unfold close_conn. wp_steps. pose proof (close_inv _ Hi1 Hk) as [Is Ic It [L1 L2 L3 L4 L5 L6 L7 L8 L9]]. split; [done|done|done|]. by split.
Qed.

Lemma wp_tick cbs rcbs w : inv w -> wp (mqvpn_client_tick E cbs rcbs) (fun _ => inv) w.
Proof.
  intros Hi. unfold mqvpn_client_tick. wp_steps. eapply wp_mono; [by apply wp_watchdog|]. intros [] w1 Hi1. wp_steps.
  eapply wp_mono; [by apply wp_main_logic|]. intros [] w2 Hi2. wp_steps.
  assert (Hrec : wp (tick_path_recovery E) (fun _ => inv) w2).
  { destruct (decide (cstate (cl w2) = MQVPN_STATE_ESTABLISHED)) as [Hst|Hst].
    - assert (Hk : conn (cl w2) <> None) by (intros; apply (li_some _ _ (in_life _ Hi2)); auto).
      apply (wp_path_recovery E Hclk); [apply Hi2|done|]. intros w3 Hq3. by eapply quiet_inv_live.
    - unfold tick_path_recovery. wp_steps. rewrite (bool_decide_eq_false_2 _ Hst), orb_true_r. by wp_steps. }
  eapply wp_mono; [exact Hrec|]. intros [] w3 Hi3. wp_steps. eapply wp_mono; [by apply wp_tick_reconnect|]. intros [] w4 Hi4. by wp_steps.
Qed.

(** ** Lifetimes *)

Lemma step_inv op w : inv w -> inv (client_step E op w).2.
Proof.
  intros Hi. change (wp (client_step E op) (fun _ => inv) w).
  assert (Hskip : forall A (m : M A), wp m (fun _ => inv) w -> wp (m ;; skip) (fun _ => inv) w).
  { intros A m Hm. wp_steps. eapply wp_mono; [exact Hm|]. intros a w' Hi'. by wp_steps. }
  destruct op; cbn [client_step]; try apply Hskip.
  - by apply wp_add.
  - by apply wp_remove.
  - by apply wp_drop.
  - by apply wp_released.
  - by apply wp_reactivate.
  - by apply wp_tun_active.
  - by apply wp_connect.
  - by apply wp_disconnect.
  - by apply wp_tick.
  - by apply wp_main_logic.
  - by apply wp_send.
  - by apply wp_send_batch.
  - unfold cb_set_event_timer. wp_steps. by apply inv_modify.
Qed.

Lemma run_inv os w : inv w -> inv (client_run E os w).2.
Proof.
  revert w. induction os as [|op os IH]; intros w Hi; cbn [client_run]; [done|].
  change (wp (client_step E op ;; client_run E os) (fun _ => inv) w). apply wp_bind. by apply IH, step_inv.
Qed.

Lemma start_inv cfg : inv (client_start cfg).
Proof.
  split; [|by constructor|by split|].
  - split; cbn; [done|lia|constructor|done|lia|constructor|]. intros h. rewrite elem_of_nil. split; [done|lia].
  - split; cbn; try done; intros [?|[?|[?|?]]]; done.
Qed.
End run.
