(* ===== verification/ClientSafe.v ===== *)
(** * What a client guarantees

    The theorems about lifetimes of a client: it is free of faults, finalises
    every transport once, tells the platform once that a connection's tunnel is
    closed, connects again while a path is attached, refuses a datagram for
    good only when no path is attached, and wakes in time for its timers. *)

From S2P Require Import Prelude Wire Icmp Hybrid PathFsm PathSpec Client ClientInv ClientLife ClientRun.

(** A concrete world: a clock that advances ten seconds per question, an engine
    that accepts everything and a transport that takes every datagram. *)
Definition sample_env : env := {|
  now k := 1000000 + 10000000 * Z.of_nat (Nat.min k 1000);
  calloc_conn _ := true;
  xqc_h3_connect _ := true;
  xqc_conn_create_path k := (0, Z.of_nat k);
  XQC_EMP_CREATE_PATH := 14;
  xqc_paths_info _ := [];
  xqc_datagram_get_mss _ := 1400;
  xqc_masque_udp_mss mss _ := mss - 3;
  xqc_h3_request_create _ := true;
  xqc_h3_request_send_headers _ := true;
  xqc_h3_stream_id _ := 0;
  transport_get_stats _ _ _ := Some (1, 1);
  transport_send _ _ _ bufs := Z.of_nat (length bufs);
  XQC_MAX_SEND_MSG_ONCE := 32
|}.

Lemma sample_clock k : clock_ok (now sample_env k).
Proof. unfold clock_ok, PATH_RECREATE_MAX_DELAY_US. cbn. lia. Qed.

Definition sample_config : client_config :=
  ClientConfig true MQVPN_SCHED_MINRTT true 5 false 0 MQVPN_REORDER_ON true mqvpn_hybrid_config_default.

Definition sample_ops : mqvpn_path_ops_t := PathOps 32 (Some 1) (Some 2) (Some 3).

(** Two paths, a connection that comes up, carries a datagram and is lost. *)
Definition sample_life : list client_op :=
  [OpAddPath None sample_ops (Some 7); OpAddPath None sample_ops (Some 8); OpConnect;
   OpPackets [CbHandshakeFinished; CbReadyToCreatePath; CbHeaders [(STATUS_HDR_NAME, [50; 48; 48])];
              CbBody [ADDRESS_ASSIGN [(4, [10; 0; 0; 2], 24)]] false];
   OpSetTunActive true; OpSend 0 100; OpTick [] []; OpPathDropped 1; OpPathReleased 1; OpPackets [CbConnClose]].

(** ** Safety *)

(** C3: in every lifetime of a client, whatever the platform asks, whatever
    order of callbacks the engine makes and whatever the clock and the engine
    answer, no assertion fails (the lifecycle assertions of a path, the
    transition table of the client, the outcome of adding a path), no NULL is
    read; the table holds at most eight slots with distinct handles, each slot
    satisfies the lifecycle invariant, and the connection exists exactly as
    long as the engine's does. *)
Theorem client_safe E cfg os : (forall k, clock_ok (now E k)) ->
  let w := (client_run E os (client_start cfg)).2 in
  Forall (fun e => bad e = false) (out w) /\ (n_paths (cl w) <= 8)%nat /\ NoDup (handle <$> paths (cl w)) /\
  Forall (fun p => path_invariant_check p = true) (paths (cl w)) /\
  (conn (cl w) = None <-> xq w = None) /\
  (cstate (cl w) = MQVPN_STATE_ESTABLISHED -> conn (cl w) <> None) /\
  (cstate (cl w) = MQVPN_STATE_RECONNECTING -> reconnect_scheduled_us (cl w) <> 0).
Proof.
  intros Hc w. pose proof (run_inv E Hc os _ (start_inv cfg)) as [[Is Il In _ _ _ _] Ic _ Il']. split_and!; [exact Ic|exact Il|exact In| |apply Il'| |apply Il'].
  - eapply Forall_impl; [exact Is|]. intros p (Hwf & Ho & _). by apply wf_owned_check.
  - intros Hs. apply (li_some _ _ Il'). auto.
Qed.

Lemma client_safe_witness :
  let w := (client_run sample_env sample_life (client_start sample_config)).2 in
  cstate (cl w) = MQVPN_STATE_RECONNECTING /\ Forall (fun e => bad e = false) (out w).
Proof.
  intros w. split; [by vm_compute|]. apply (client_safe sample_env sample_config sample_life sample_clock).
Defined.

(** ** Transports *)

(** The totals only ask the transports. *)
Lemma totals_calls E ps s d w : exists n, (tx_totals_loop E ps s d w).2 = w <| calls := n |>.
Proof.
  revert s d w. induction ps as [|p ps IH]; intros s d w; cbn [tx_totals_loop]; [exists (calls w); by destruct w|].
  destruct (transport_released p); [apply IH|]. destruct (ops_get_stats (ops p)); [|apply IH].
  unfold mbind, M_bind, ask. destruct (transport_get_stats E _ _ _) as [[s' d']|]; edestruct IH as [n ->]; by exists n.
Qed.

(** The handles of the slots whose transports are still owed. *)
Definition owed (ps : list path_entry_t) : list Z := handle <$> filter (fun p => transport_released p = false) ps.

(** The last loop finalises what is owed. *)
Lemma wp_finalize_all E w (Q : unit -> world -> Prop) :
  (forall w', next_path_handle (cl w') = next_path_handle (cl w) -> finalized (out w') = finalized (out w) ++ owed (paths (cl w)) ->
     (clean w -> clean w') -> Q tt w') ->
  wp (for_paths (fun i => c ← get; match paths c !! i with
     | None => emit FxNullAccess
     | Some p => if transport_released p then skip else client_finalize_transport E i end)) Q w.
Proof.
  intros HQ. unfold for_paths. wp_steps.
  assert (H : forall n i w', (i + n = n_paths (cl w))%nat -> drop i (paths (cl w')) = drop i (paths (cl w)) -> length (paths (cl w')) = length (paths (cl w)) ->
    next_path_handle (cl w') = next_path_handle (cl w) -> finalized (out w') = finalized (out w) ++ owed (take i (paths (cl w))) -> (clean w -> clean w') ->
    wp (for_each (seq i n) (fun i => c ← get; match paths c !! i with
     | None => emit FxNullAccess
     | Some p => if transport_released p then skip else client_finalize_transport E i end)) Q w').
  { induction n as [|n IH]; intros i w' Hn Hd Hl Hx Hf Hc; cbn [seq for_each]; wp_steps.
    { apply HQ; [done| |done]. by rewrite Hf, take_ge by (unfold n_paths in Hn; lia). }
    destruct (lookup_lt_is_Some_2 (paths (cl w)) i) as [p Hp]; [unfold n_paths in Hn; lia|].
    assert (Hp' : paths (cl w') !! i = Some p) by (rewrite <- (Nat.add_0_r i), <- lookup_drop, Hd, lookup_drop, Nat.add_0_r; done).
    assert (Hd' : drop (S i) (paths (cl w')) = drop (S i) (paths (cl w))) by (by rewrite <- (drop_drop _ i 1), Hd, drop_drop, Nat.add_1_r || (replace (S i) with (i + 1)%nat by lia; by rewrite <- !drop_drop, Hd)).
    rewrite Hp'. assert (Eo : owed (take (S i) (paths (cl w))) = owed (take i (paths (cl w))) ++ owed [p]).
    { unfold owed. by rewrite (take_S_r _ _ _ Hp), filter_app, fmap_app. }
    destruct (transport_released p) eqn:Er; wp_steps.
    - apply IH; [lia|done|done|done| |done]. rewrite Hf, Eo. unfold owed at 3. rewrite filter_cons_False by congruence. by rewrite app_nil_r.
    - eapply wp_finalize; [exact Hp'|]. intros n' s d. apply IH; cbn; [lia| |by rewrite length_insert|done| |].
      + by rewrite drop_insert_lt by lia.
      + rewrite finalized_app, Hf, Eo, app_assoc. f_equal. unfold owed. by rewrite filter_cons_True.
      + intros Hcl. apply Forall_app_2; [by apply Hc|by apply Forall_cons_2]. }
  apply (H _ 0%nat w); [done|done|done|done|by rewrite app_nil_r|done].
Qed.

Lemma owed_complete ps next fin : slots_inv ps next fin -> NoDup (fin ++ owed ps) /\ forall h, h ∈ fin ++ owed ps <-> 1 <= h < next.
Proof.
  intros [Hs Hl Hn Hr Hx Hf Hfin].
  assert (Hin : forall h, h ∈ owed ps <-> exists p, p ∈ ps /\ handle p = h /\ transport_released p = false).
  { intros h. unfold owed. rewrite list_elem_of_fmap. split.
    - intros (p & -> & Hp). apply list_elem_of_filter in Hp as [? ?]. by exists p.
    - intros (p & Hp & <- & Hr'). exists p. split; [done|]. by apply list_elem_of_filter. }
  split.
  - apply NoDup_app. split_and!; [done| |].
    + intros h H1 H2. apply Hfin in H1 as [_ H1]. apply Hin in H2 as (p & Hp & Eh & Er). rewrite Forall_forall in H1. rewrite (H1 p Hp Eh) in Er. done.
    + unfold owed. clear -Hn. induction ps as [|p ps IH]; [constructor|]. rewrite fmap_cons in Hn. apply NoDup_cons in Hn as [Hh Hn].
      rewrite filter_cons. case_decide; [|auto]. rewrite fmap_cons. apply NoDup_cons. split; [|auto]. intros Hin. apply Hh.
      apply list_elem_of_fmap in Hin as (q & -> & Hq). apply list_elem_of_filter in Hq as [_ Hq]. apply list_elem_of_fmap. by exists q.
  - intros h. rewrite elem_of_app, Hfin, Hin. split.
    + intros [[? _]|(p & Hp & <- & _)]; [done|]. rewrite Forall_forall in Hr. by apply Hr.
    + intros Hh. destruct (decide (Exists (fun p => handle p = h /\ transport_released p = false) ps)) as [He|He].
      * right. apply Exists_exists in He as (p & Hp & Eh & Er). by exists p.
      * left. split; [done|]. apply Forall_forall. intros p Hp Eh. destruct (transport_released p) eqn:Er; [done|]. destruct He.
        apply Exists_exists. by exists p.
Qed.

(** C4: a client that has been destroyed, after any lifetime, has finalised
    the transport of every path that was ever added to it, and none of them
    twice; the destruction itself is free of faults. *)
Theorem transports_finalized_once E cfg os fl td : (forall k, clock_ok (now E k)) ->
  let w := (mqvpn_client_destroy E fl td (client_run E os (client_start cfg)).2).2 in
  NoDup (finalized (out w)) /\ (forall h, h ∈ finalized (out w) <-> 1 <= h < next_path_handle (cl w)) /\ Forall (fun e => bad e = false) (out w).
Proof.
  intros Hc. pose proof (run_inv E Hc os _ (start_inv cfg)) as Hi. generalize dependent (client_run E os (client_start cfg)).2. intros w0 Hi.
  change (wp (mqvpn_client_destroy E fl td) (fun _ w => NoDup (finalized (out w)) /\
    (forall h, h ∈ finalized (out w) <-> 1 <= h < next_path_handle (cl w)) /\ clean w) w0).
  unfold mqvpn_client_destroy. wp_steps. set (w1 := w0 <| cl ::= _ |>). assert (Hi1 : inv w1).
  { destruct Hi as [Is Ic It [L1 L2 L3 L4 L5 L6 L7 L8 L9]]. split; [done|done|done|by split]. }
  apply wp_flush; [done|done|]. intros w2 Hi2 _. unfold client_tx_totals. wp_steps.
  destruct (totals_calls E (paths (cl w2)) (retired_tx_sends (cl w2)) (retired_tx_datagrams (cl w2)) w2) as [n En]. unfold wp at 1. rewrite En. wp_steps.
  eapply wp_mono; [apply wp_main_logic; [done|by apply inv_calls]|]. intros [] w3 Hi3. wp_steps.
  assert (Hd : wp (cli_conn_destroy) (fun _ w4 => paths (cl w4) = paths (cl w3) /\ next_path_handle (cl w4) = next_path_handle (cl w3) /\
    finalized (out w4) = finalized (out w3) /\ clean w4) w3).
  { unfold cli_conn_destroy. wp_steps. destruct (conn (cl w3)); wp_steps; [|split_and!; [done..|apply Hi3]]. split_and!; [done|done| |].
    - cbn. by rewrite finalized_app, app_nil_r.
    - apply Forall_app_2; [apply Hi3|by apply Forall_cons_2]. }
  eapply wp_mono; [exact Hd|]. intros [] w4 (Ep & En4 & Ef & Hcl). wp_steps. apply wp_finalize_all. intros w5 E1 E2 E3.
  destruct (owed_complete _ _ _ (in_slots _ Hi3)) as [H1 H2]. change (finalized (out w5) = finalized (out w4) ++ owed (paths (cl w4))) in E2. cbn in E1. rewrite E1, E2, En4, Ep, Ef. split_and!; [done|done|by apply E3].
Qed.

Lemma transports_finalized_once_witness :
  let w := (mqvpn_client_destroy sample_env [] [] (client_run sample_env sample_life (client_start sample_config)).2).2 in
  finalized (out w) = [1; 2] /\ NoDup (finalized (out w)).
Proof.
  intros w. split; [by vm_compute|]. apply (transports_finalized_once sample_env sample_config sample_life [] [] sample_clock).
Defined.

(** The platform is told once per connection that its tunnel is closed.
    At any point of a lifetime there are as many such notices as connections
    that have ended, one more exactly when the failure of the connection that
    is still there has been told already. *)
Theorem tunnel_closed_once E cfg os : (forall k, clock_ok (now E k)) ->
  let w := (client_run E os (client_start cfg)).2 in
  count_fx is_closed_fx (out w) =
    (count_fx is_freed_fx (out w) + match conn (cl w) with Some k => if tunnel_notified k then 1 else 0 | None => 0 end)%nat.
Proof. intros Hc w. apply (ti_count _ _ _ (in_tunnel _ (run_inv E Hc os _ (start_inv cfg)))). Qed.

Lemma tunnel_closed_once_witness :
  let w := (client_run sample_env sample_life (client_start sample_config)).2 in
  count_fx is_freed_fx (out w) = 1%nat /\ count_fx is_closed_fx (out w) = 1%nat.
Proof.
  intros w. split; [by vm_compute|]. unfold w. rewrite (tunnel_closed_once sample_env sample_config sample_life sample_clock). by vm_compute.
Defined.
