(* ===== verification/ClientProgress.v ===== *)
(** * How a client makes progress

    The choice of the primary path, the reconnect back-off, the reconnect
    itself, the wake the client asks for, the answers to the engine's sends and
    the MTU given to the tunnel interface. *)

From S2P Require Import Prelude Wire Icmp Hybrid PathFsm PathSpec Client ClientInv ClientLife ClientRun ClientSafe.

(** ** The primary path *)

(** A slot the bootstrap may use. *)
Definition eligible (ps : list path_entry_t) (i : nat) : bool :=
  match ps !! i with Some p => transport_attached p && negb (bool_decide (status p = MQVPN_PATH_CLOSED)) | None => false end.

Lemma next_primary_loop_spec ps fuel i : (i < length ps)%nat ->
  (exists k, (k < fuel)%nat /\ eligible ps ((i + k) mod length ps) = true /\
     (forall j, (j < k)%nat -> eligible ps ((i + j) mod length ps) = false) /\ next_primary_loop ps fuel i = Some ((i + k) mod length ps)%nat) \/
  (forall k, (k < fuel)%nat -> eligible ps ((i + k) mod length ps) = false) /\ next_primary_loop ps fuel i = None.
Proof.
  revert i. induction fuel as [|fuel IH]; intros i Hi; [right; split; [lia|done]|]. cbn [next_primary_loop].
  assert (E0 : ((i + 0) mod length ps = i)%nat) by (rewrite Nat.add_0_r; by apply Nat.mod_small).
  destruct (lookup_lt_is_Some_2 ps i Hi) as [p Hp]. rewrite Hp. destruct (transport_attached p && _) eqn:Ee.
  { left. exists 0%nat. rewrite E0. unfold eligible at 1. rewrite Hp. split_and!; [lia|done|lia|done]. }
  assert (Hno : eligible ps i = false) by (unfold eligible; by rewrite Hp).
  assert (Es : forall k, ((S i mod length ps + k) mod length ps = (i + S k) mod length ps)%nat).
  { intros k. rewrite Nat.Div0.add_mod_idemp_l. f_equal. lia. }
  destruct (IH (S i mod length ps)%nat) as [(k & Hk & He & Hb & Er)|[Hb Er]]; [apply Nat.mod_upper_bound; lia| |].
  - left. exists (S k). rewrite <- Es. split_and!; [lia|done| |done]. intros [|j] Hj; [by rewrite E0|]. rewrite <- Es. apply Hb. lia.
  - right. split; [|done]. intros [|k] Hk; [by rewrite E0|]. rewrite <- Es. apply Hb. lia.
Qed.

Lemma next_primary_spec c from : (exists i, eligible (paths c) i = true) ->
  exists k, (1 <= k <= n_paths c)%nat /\ client_next_primary_idx c from = ((from + k) mod n_paths c)%nat /\
    eligible (paths c) ((from + k) mod n_paths c) = true /\
    forall j, (1 <= j < k)%nat -> eligible (paths c) ((from + j) mod n_paths c) = false.
Proof.
  intros [m Hm]. assert (Hlt : (m < n_paths c)%nat).
  { unfold eligible in Hm. destruct (paths c !! m) eqn:El; [|done]. by apply lookup_lt_Some in El. }
  unfold client_next_primary_idx. destruct (n_paths c) as [|n] eqn:En; [lia|]. rewrite <- En in *. unfold n_paths in *.
  assert (Es : forall k, ((S from mod length (paths c) + k) mod length (paths c) = (from + S k) mod length (paths c))%nat).
  { intros k. rewrite Nat.Div0.add_mod_idemp_l. f_equal. lia. }
  destruct (next_primary_loop_spec (paths c) (length (paths c)) (S from mod length (paths c))) as [(k & Hk & He & Hb & ->)|[Hb _]];
    [apply Nat.mod_upper_bound; lia| |].
  - exists (S k). rewrite <- Es. split_and!; [lia|lia|done|done|]. intros [|j] Hj; [lia|]. rewrite <- Es. apply Hb. lia.
  - exfalso. set (l := length (paths c)) in *. set (a := (S from mod l)%nat) in *. assert (Ha : (a < l)%nat) by (apply Nat.mod_upper_bound; lia).
    assert (Hx : exists k, (k < l)%nat /\ ((a + k) mod l = m)%nat).
    { destruct (Nat.leb_spec a m); [exists (m - a)%nat|exists (m + l - a)%nat]; (split; [lia|]).
      - rewrite Nat.mod_small; lia.
      - replace (a + (m + l - a))%nat with (m + 1 * l)%nat by lia. rewrite Nat.Div0.mod_add. by apply Nat.mod_small. }
    destruct Hx as (k & Hk & Ek). specialize (Hb k Hk). rewrite Ek in Hb. congruence.
Qed.

(** The rotation of the primary path ends and picks the nearest eligible
    slot after the current one in cyclic order, the current one last; with no
    eligible slot the index stays, and an empty table gives zero. *)
Theorem next_primary_rotates c from :
  match client_next_primary_idx c from with r =>
  (exists i, eligible (paths c) i = true) ->
    exists k, (1 <= k <= n_paths c)%nat /\ r = ((from + k) mod n_paths c)%nat /\ eligible (paths c) r = true /\
      forall j, (1 <= j < k)%nat -> eligible (paths c) ((from + j) mod n_paths c) = false
  end /\
  ((forall i, eligible (paths c) i = false) -> n_paths c <> 0%nat -> client_next_primary_idx c from = from).
Proof.
  split.
  - intros He. destruct (next_primary_spec c from He) as (k & Hk & -> & H1 & H2). by exists k.
  - intros Hn Hz. unfold client_next_primary_idx. destruct (n_paths c) as [|n] eqn:En; [done|]. rewrite <- En. unfold n_paths in *.
    destruct (next_primary_loop_spec (paths c) (length (paths c)) (S from mod length (paths c))) as [(k & _ & He & _)|[_ ->]];
      [apply Nat.mod_upper_bound; lia|by rewrite Hn in He|done].
Qed.

Definition sample_client : mqvpn_client_t := cl (client_run sample_env (take 7 sample_life) (client_start sample_config)).2.

Lemma next_primary_rotates_witness :
  client_next_primary_idx sample_client 0 = 1%nat /\
  exists k, (1 <= k <= n_paths sample_client)%nat /\ client_next_primary_idx sample_client 0 = ((0 + k) mod n_paths sample_client)%nat.
Proof.
  split; [by vm_compute|].
  destruct (proj1 (next_primary_rotates sample_client 0)) as (k & Hk & Er & _); [exists 1%nat; vm_compute; reflexivity|]. exact (ex_intro _ k (conj Hk Er)).
Defined.

(** ** Reconnecting *)

Lemma delay_loop_min n d : 0 < d ->
  Z.min RECONNECT_BACKOFF_MAX_SEC (delay_loop n d) = Z.min RECONNECT_BACKOFF_MAX_SEC (d * 2 ^ Z.of_nat n).
Proof.
  revert d. induction n as [|n IH]; intros d Hd; cbn [delay_loop]; [by rewrite Z.mul_1_r|].
  rewrite Nat2Z.inj_succ, Z.pow_succ_r by lia. pose proof (pow2_pos (Z.of_nat n) ltac:(lia)). destruct (Z.ltb_spec d RECONNECT_BACKOFF_MAX_SEC).
  - rewrite IH by lia. by rewrite <- Z.mul_assoc.
  - rewrite !Z.min_l; nia.
Qed.

(** The reconnect delay is the configured interval, five seconds when
    none is configured, doubled per failed attempt and capped at sixty
    seconds; the doubling never leaves the range of an [int]. *)
Theorem reconnect_delay_closed_form c :
  let base := if reconnect_interval_sec (config c) <=? 0 then 5 else reconnect_interval_sec (config c) in
  client_reconnect_delay_sec c = Z.min RECONNECT_BACKOFF_MAX_SEC (base * 2 ^ Z.of_nat (Z.to_nat (reconnect_attempts c))) /\
  1 <= client_reconnect_delay_sec c <= RECONNECT_BACKOFF_MAX_SEC /\
  forall n, delay_loop n base <= Z.max base (2 * RECONNECT_BACKOFF_MAX_SEC).
Proof.
  intros base. assert (Hb : 0 < base) by (unfold base; destruct (Z.leb_spec (reconnect_interval_sec (config c)) 0); lia).
  split_and!; [|apply reconnect_delay_bounds|apply reconnect_delay_bounds|].
  - rewrite <- delay_loop_min by done. unfold client_reconnect_delay_sec. fold base. destruct (Z.ltb_spec RECONNECT_BACKOFF_MAX_SEC (delay_loop (Z.to_nat (reconnect_attempts c)) base)); lia.
  - intros n. assert (H : forall d, 0 < d -> delay_loop n d <= Z.max d (2 * RECONNECT_BACKOFF_MAX_SEC)); [|by apply H].
    clear. induction n as [|n IH]; intros d Hd; cbn [delay_loop]; [lia|]. destruct (Z.ltb_spec d RECONNECT_BACKOFF_MAX_SEC); [|lia].
    specialize (IH (d * 2)). unfold RECONNECT_BACKOFF_MAX_SEC in *. lia.
Qed.

Section progress.
Context (E : env) (Hclk : forall k, clock_ok (now E k)).

Lemma attached_map c c' j : transport_attached <$> paths c' = transport_attached <$> paths c -> attached_at c' j = attached_at c j.
Proof.
  intros H. apply (f_equal (fun l => l !! j)) in H. rewrite !list_lookup_fmap in H. unfold attached_at.
  destruct (paths c !! j), (paths c' !! j); try done. by injection H.
Qed.

(** With a slot attached the reset puts the primary on an attached slot. *)
Lemma reset_primary w w' : slots_ok w' -> Forall fresh (paths (cl w')) ->
  transport_attached <$> paths (cl w') = transport_attached <$> paths (cl w) ->
  primary_path_idx (cl w') = client_next_primary_idx (cl w') (primary_path_idx (cl w)) ->
  paths (cl w) = [] \/ (exists j, attached_at (cl w) j = true) ->
  paths (cl w') = [] \/ attached_at (cl w') (primary_path_idx (cl w')) = true.
Proof.
  intros Hs Hf Ha Hp [He|[j Hj]].
  { left. rewrite He in Ha. by apply fmap_nil_inv in Ha. }
  right. rewrite <- (attached_map _ _ j Ha) in Hj.
  destruct (next_primary_spec (cl w') (primary_path_idx (cl w))) as (k & _ & Ek & He & _).
  - exists j. unfold attached_at in Hj. unfold eligible. destruct (paths (cl w') !! j) as [p|] eqn:Ep; [|done]. rewrite Hj. cbn.
    pose proof (Forall_lookup_1 _ _ _ _ Hf Ep Hj) as Hst. destruct (slots_lookup w' j p Hs Ep) as ((Hpub & _) & _). rewrite Hpub, Hst. done.
  - rewrite Hp, Ek. unfold eligible in He. unfold attached_at. destruct (paths (cl w') !! _); [|done]. by apply andb_prop in He as [? _].
Qed.

(** A start with memory, an engine that connects and a usable primary. *)
Lemma wp_start_ok w (Q : bool -> world -> Prop) : starting w -> (forall k, calloc_conn E k = true) -> (forall k, xqc_h3_connect E k = true) ->
  paths (cl w) = [] \/ attached_at (cl w) (primary_path_idx (cl w)) = true ->
  (forall w', cstate (cl w') = cstate (cl w) -> conn (cl w') <> None -> xq w' = Some XqHandshaking -> Q true w') -> wp (cli_start_connection E) Q w.
Proof.
  intros [Ss Sc St Sk Sx Sst Sf] Hal Hco Hp HQ. unfold cli_start_connection. wp_steps. rewrite Sk. rewrite bool_decide_eq_false_2 by (by intros []). wp_steps.
  rewrite Hal. cbn [negb].
  assert (Hpr : match paths (cl w) !! primary_path_idx (cl w) with Some p => transport_attached p = true | None => True end).
  { destruct Hp as [-> |Ha]; [done|]. unfold attached_at in Ha. by destruct (paths (cl w) !! primary_path_idx (cl w)). }
  replace (match paths (cl w) !! primary_path_idx (cl w) with Some p => negb (transport_attached p) | None => false end) with false
    by (destruct (paths (cl w) !! primary_path_idx (cl w)); [by rewrite Hpr|done]).
  wp_steps. rewrite Hco. cbn [negb]. wp_steps. apply wp_bootstrap; [exact Ss|exact Sf|exact Hpr|]. intros w2 Hq2. wp_steps.
  apply HQ; [exact (quiet_reads cstate _ _ ltac:(done) Hq2)|done|done].
Qed.

Lemma tick_reconnect_progress w : inv w -> cstate (cl w) = MQVPN_STATE_RECONNECTING ->
  (forall k, calloc_conn E k = true) -> (forall k, xqc_h3_connect E k = true) ->
  paths (cl w) = [] \/ (exists j, attached_at (cl w) j = true) -> reconnect_scheduled_us (cl w) <= now E (calls w) ->
  wp (tick_reconnect E []) (fun _ w' => cstate (cl w') = MQVPN_STATE_CONNECTING /\ conn (cl w') <> None /\ xq w' = Some XqHandshaking) w.
Proof.
  intros Hi Hst Hal Hco Hatt Ht. unfold tick_reconnect. wp_steps. rewrite bool_decide_eq_true_2 by done.
  pose proof (li_sched _ _ (in_life _ Hi) Hst) as Hn. rewrite (proj2 (Z.eqb_neq _ _) Hn). cbn [negb orb]. wp_steps.
  rewrite (proj2 (Z.ltb_ge _ _) Ht). wp_steps. destruct Hi as [Is Ic It [L1 L2 L3 L4 L5 L6 L7 L8 L9]].
  assert (Hk : conn (cl w) = None) by (apply L2; auto). assert (Hx : xq w = None) by by apply L1. rewrite Hk, Hx in It.
  apply (wp_reset_paths E Hclk); [exact Is|]. intros w1 Hq1 Hf Ha Hp. wp_steps.
  pose proof (quiet_slots _ _ Hq1 Is) as Hs1.
  assert (Hst1 : cstate (cl w1) = MQVPN_STATE_RECONNECTING) by (by rewrite (quiet_reads cstate _ _ ltac:(done) Hq1)).
  apply wp_start_ok; [|done|done|eapply (reset_primary w w1); done|].
  - split; [done|exact (quiet_clean _ _ Hq1 Ic)| |by rewrite (quiet_conn _ _ Hq1)|by rewrite (qs_xq _ _ Hq1)|by right|done].
    destruct (qs_out _ _ Hq1) as (es & Eo & Hes). rewrite Eo. apply tunnel_plain; [|done]. eapply Forall_impl; [exact Hes|]. apply slot_fx_plain.
  - intros w2 Est2 Hk2 Hx2. wp_steps. cbn [negb]. wp_steps. apply wp_set_state; [by cbn; rewrite Est2, Hst1|done|]. intros t n _. cbn [main_logic]. by wp_steps.
Qed.

Lemma main_logic_none cbs w : xq w = None -> main_logic E cbs w = (tt, w).
Proof.
  intros Hx. induction cbs as [|cb cbs IH]; [done|]. cbn [main_logic]. unfold mbind, M_bind, deliver at 1. by rewrite Hx.
Qed.

Lemma tick_progress w cbs : inv w -> cstate (cl w) = MQVPN_STATE_RECONNECTING ->
  (forall k, calloc_conn E k = true) -> (forall k, xqc_h3_connect E k = true) ->
  paths (cl w) = [] \/ (exists j, attached_at (cl w) j = true) -> (forall k, (calls w <= k)%nat -> reconnect_scheduled_us (cl w) <= now E k) ->
  wp (mqvpn_client_tick E cbs []) (fun _ w' => cstate (cl w') = MQVPN_STATE_CONNECTING /\ conn (cl w') <> None /\ xq w' = Some XqHandshaking) w.
Proof.
  intros Hi Hst Hal Hco Hatt Ht. unfold mqvpn_client_tick. wp_steps.
  assert (Hw : wp (tick_handshake_watchdog E) (fun _ w1 => exists n, (calls w <= n)%nat /\ w1 = w <| calls := n |>) w).
  { unfold tick_handshake_watchdog. wp_steps. destruct (shutting_down (cl w)); wp_steps; [exists (calls w); split; [done|by destruct w]|].
    unfold client_handshake_stalled. rewrite Hst. cbn [bool_decide]. rewrite bool_decide_eq_false_2 by done. cbn [negb]. wp_steps. exists (S (calls w)). split; [lia|done]. }
  eapply wp_mono; [exact Hw|]. intros [] w1 (n & Hn & ->). wp_steps.
  assert (Hx : xq w = None). { destruct (in_life _ Hi) as [L1 L2 _ _ _ _ _ _ _]. apply L1, L2. auto. }
  unfold wp at 1. rewrite main_logic_none by done. cbn [fst snd]. wp_steps. unfold tick_path_recovery. wp_steps.
  cbn [cl update]. rewrite Hst. rewrite (bool_decide_eq_false_2 (MQVPN_STATE_RECONNECTING = _)) by done. rewrite orb_true_r. wp_steps.
  eapply wp_mono; [apply tick_reconnect_progress; [by apply inv_calls|done|done|done|done|by apply Ht]|]. intros [] w2 H2. by wp_steps.
Qed.
End progress.



(** ** Sending *)

(** What the engine is told of a datagram it sends, after any lifetime.
    The answer is the hard error exactly when no path is attached (and then no
    transport was asked); otherwise it is the size of the datagram or "try
    again", so a path that goes down never kills a connection that has another. *)
Theorem send_answers E cfg os path_id size : (forall k, clock_ok (now E k)) -> 0 <= size ->
  let w := (client_run E os (client_start cfg)).2 in
  let r := (cb_write_socket_ex E path_id size w).1 in
  (r = XQC_SOCKET_ERROR <-> forall j, attached_at (cl w) j = false) /\
  (r = XQC_SOCKET_ERROR \/ r = XQC_SOCKET_EAGAIN \/ r = size).
Proof.
  intros Hc Hsz w r. pose proof (run_inv E Hc os _ (start_inv cfg)) as Hi.
  assert (Ha : send_answer (cl w) 1 (fun _ => size) r) by (by apply (wp_send E w path_id size (fun r _ => send_answer (cl w) 1 (fun _ => size) r))).
  unfold XQC_SOCKET_ERROR, XQC_SOCKET_EAGAIN in *. destruct Ha as [[Er Hn]|[[j Hj] [Er|(k & _ & Er)]]]; unfold XQC_SOCKET_ERROR, XQC_SOCKET_EAGAIN in Er.
  - rewrite Er. split; [done|auto].
  - split; [|auto]. rewrite Er. split; [done|]. intros Hn. by rewrite Hn in Hj.
  - split; [|auto]. rewrite Er. split; [lia|]. intros Hn. by rewrite Hn in Hj.
Qed.

Lemma send_answers_witness :
  let w := (client_run sample_env (take 7 sample_life) (client_start sample_config)).2 in
  (cb_write_socket_ex sample_env 0 100 w).1 = 100 /\
  ((cb_write_socket_ex sample_env 0 100 w).1 = XQC_SOCKET_ERROR \/ (cb_write_socket_ex sample_env 0 100 w).1 = XQC_SOCKET_EAGAIN \/
   (cb_write_socket_ex sample_env 0 100 w).1 = 100).
Proof.
  split; [vm_compute; reflexivity|]. exact (proj2 (send_answers sample_env sample_config (take 7 sample_life) 0 100 sample_clock ltac:(lia))).
Defined.

(** ** The MTU *)

(** The MTU given to the tunnel interface fits.  When the check of the
    IPv6 minimum lets a datagram budget through, the interface MTU plus the
    reorder header is within the budget and, with an IPv6 address assigned, at
    least 1280; when it does not, the tunnel is closed with that reason. *)
Theorem tun_mtu_fits w k budget :
  conn (cl w) = Some k -> tun_mtu (config (cl w)) = 0 \/ IPV6_MIN_MTU <= tun_mtu (config (cl w)) ->
  let overhead := if reorder_agreed (cl w) k then MQVPN_REORDER_HDR_LEN else 0 in
  let mtu := cli_tun_mtu (cl w) k budget in
  let r := cli_check_ipv6_mtu budget w in
  (r.1 = true -> r.2 = w /\ mtu + overhead <= budget /\ (is_Some (addr6 k) -> IPV6_MIN_MTU <= mtu)) /\
  (r.1 = false -> is_Some (addr6 k) /\ budget - overhead < IPV6_MIN_MTU /\ xq r.2 = Some XqClosing /\
     exists k', conn (cl r.2) = Some k' /\ tunnel_ok k' = false /\ tunnel_notified k' = true).
Proof.
  intros Hk Hcfg overhead mtu r.
  assert (Hr : wp (cli_check_ipv6_mtu budget) (fun b w' =>
    b = true /\ w' = w /\ (is_Some (addr6 k) -> IPV6_MIN_MTU <= budget - overhead) \/
    b = false /\ is_Some (addr6 k) /\ budget - overhead < IPV6_MIN_MTU /\ xq w' = Some XqClosing /\
     exists k', conn (cl w') = Some k' /\ tunnel_ok k' = false /\ tunnel_notified k' = true) w).
  { unfold cli_check_ipv6_mtu, with_conn. wp_steps. rewrite Hk. wp_steps. fold overhead.
    replace (if reorder_agreed (cl w) k then budget - MQVPN_REORDER_HDR_LEN else budget) with (budget - overhead)
      by (unfold overhead; destruct (reorder_agreed (cl w) k); lia).
    destruct (bool_decide (is_Some (addr6 k))) eqn:E6; cbn [negb orb].
    - apply bool_decide_eq_true in E6. destruct (Z.leb_spec IPV6_MIN_MTU (budget - overhead)); wp_steps; [by left|].
      eapply wp_modify_conn; [done|]. wp_steps. apply (wp_signal _ _ (k <| tunnel_ok := false |>)); [done|done|].
      intros w3 k3 _ Hk3 Hok3 Hn3 Hx3. wp_steps. right. split_and!; [done|done|done|done|]. by exists k3.
    - wp_steps. left. apply bool_decide_eq_false in E6. by split_and!. }
  unfold wp in Hr. fold r in Hr. destruct Hr as [(-> & -> & H6)|(-> & H6 & H7 & H8 & H9)]; (split; [|done]); [|done]. intros _. split; [done|].
  unfold mtu, cli_tun_mtu, apply_mtu_cap. unfold overhead in *. unfold MQVPN_REORDER_HDR_LEN, IPV6_MIN_MTU in *.
  destruct (reorder_agreed (cl w) k), (bool_decide (is_Some (addr6 k))) eqn:E6; cbn [andb];
    (apply bool_decide_eq_true in E6 || apply bool_decide_eq_false in E6); try specialize (H6 E6); split_ifs; bool_to_prop; split; lia || (intros; done || lia).
Qed.

Lemma tun_mtu_fits_witness :
  let w := World ((client_init_handle sample_config) <| conn := Some (new_conn <| addr6 := Some ([], 64) |> <| peer_reorder_supported := true |>) |>)
             (Some XqOpen) 0 [] in
  let k := new_conn <| addr6 := Some ([], 64) |> <| peer_reorder_supported := true |> in
  (cli_check_ipv6_mtu 1397 w).1 = true /\ cli_tun_mtu (cl w) k 1397 + 8 <= 1397 /\ IPV6_MIN_MTU <= cli_tun_mtu (cl w) k 1397.
Proof.
  intros w k. assert (Hc : (cli_check_ipv6_mtu 1397 w).1 = true) by (vm_compute; reflexivity). split; [exact Hc|].
  destruct (proj1 (tun_mtu_fits w k 1397 eq_refl (or_introl eq_refl)) Hc) as (_ & H1 & H2). split; [exact H1|]. apply H2. by eexists.
Defined.

(** ** Waking *)

(** A wait of [ms] milliseconds from [t] is over by the deadline [d], or is the
    shortest there is. *)
Definition wakes_by (t d ms : Z) : Prop := 1 <= ms /\ (ms = 1 \/ t + ms * 1000 <= d).

(** The same of a wait that is not clamped yet. *)
Definition in_time (t d ms : Z) : Prop := ms <= 1 \/ t + ms * 1000 <= d.

Lemma clamp_in_time t d ms : in_time t d ms -> wakes_by t d (if 0 <? ms then ms else 1).
Proof. unfold in_time, wakes_by. destruct (Z.ltb_spec 0 ms); lia. Qed.

Lemma in_time_mono t d ms ms' : in_time t d ms -> ms' <= Z.max 1 ms -> in_time t d ms'.
Proof. unfold in_time. lia. Qed.

Lemma shorten_le t d ms : shorten t d ms <= Z.max 1 ms.
Proof. unfold shorten. destruct (t <? d); [|lia]. destruct (_ && _) eqn:E; bool_to_prop; lia. Qed.

Lemma div_int t d : t < d -> d - t < 2 ^ 31 * 1000 -> s32 ((d - t) / 1000) = (d - t) / 1000 /\ t + (d - t) / 1000 * 1000 <= d.
Proof.
  intros H1 H2. pose proof (Z.div_le_mono 0 (d - t) 1000 ltac:(lia) ltac:(lia)). pose proof (Z.div_lt_upper_bound (d - t) 1000 (2 ^ 31)).
  pose proof (Z.mul_div_le (d - t) 1000). rewrite s32_small by (change (0 / 1000) with 0 in *; lia). lia.
Qed.

Lemma shorten_in_time t d ms : d - t < 2 ^ 31 * 1000 -> in_time t d (shorten t d ms).
Proof.
  intros Hr. unfold shorten, in_time. destruct (Z.ltb_spec t d); [|lia]. destruct (div_int t d) as [-> Hd]; [done|done|].
  destruct (_ && _) eqn:E; [lia|]. apply andb_false_iff in E as [E|E]; bool_to_prop; lia.
Qed.

Lemma interest_slot_le t ms p : interest_slot t ms p <= Z.max 1 ms.
Proof.
  unfold interest_slot. set (ms1 := if 0 <? _ then _ else _).
  assert (H1 : ms1 <= Z.max 1 ms) by (unfold ms1; destruct (0 <? _); [apply shorten_le|lia]).
  destruct (_ && _); [|lia]. pose proof (shorten_le t (u64 (path_stable_since_us p + PATH_STABLE_THRESHOLD_US)) ms1). lia.
Qed.

Lemma interest_fold_le t ps ms : foldl (interest_slot t) ms ps <= Z.max 1 ms.
Proof. revert ms. induction ps as [|p ps IH]; intros ms; cbn [foldl]; [lia|]. specialize (IH (interest_slot t ms p)). pose proof (interest_slot_le t ms p). lia. Qed.

(** The deadlines of a slot that the tick acts on. *)
Definition slot_deadline (p : path_entry_t) (d : Z) : Prop :=
  0 < recreate_after_us p /\ d = recreate_after_us p \/
  0 < path_stable_since_us p /\ xquic_path_live p = true /\ d = u64 (path_stable_since_us p + PATH_STABLE_THRESHOLD_US).

Lemma interest_fold_in_time t ps p d ms : p ∈ ps -> slot_deadline p d -> d - t < 2 ^ 31 * 1000 -> in_time t d (foldl (interest_slot t) ms ps).
Proof.
  intros Hp Hd Hr. apply list_elem_of_split in Hp as (l1 & l2 & ->). rewrite foldl_app. cbn [foldl]. set (ms0 := foldl _ _ l1).
  eapply in_time_mono; [|apply interest_fold_le]. unfold interest_slot. destruct Hd as [[H1 ->]|(H1 & H2 & ->)].
  - rewrite (proj2 (Z.ltb_lt _ _) H1). destruct (_ && _); [eapply in_time_mono; [|apply shorten_le]|]; by apply shorten_in_time.
  - rewrite (proj2 (Z.ltb_lt _ _) H1), H2. cbn [andb]. by apply shorten_in_time.
Qed.

(** The wait the client reports, by its state. *)
Lemma interest_value E bp l w :
  exists ms, next_timer_ms (mqvpn_client_get_interest E bp l w).1 = (if 0 <? ms then ms else 1) /\
  let c := cl w in let t := now E (calls w) in let ms0 := s32 (next_wake_us c / 1000) in
  ms <= Z.max 1 (match cstate c with
  | MQVPN_STATE_RECONNECTING => if 0 <? reconnect_scheduled_us c then
      if t <? reconnect_scheduled_us c then shorten_or_set (s32 ((reconnect_scheduled_us c - t) / 1000)) ms0 else 1 else ms0
  | MQVPN_STATE_CONNECTING => if 0 <? handshake_started_us c then
      let d := u64 (handshake_started_us c + HANDSHAKE_STALL_TIMEOUT_MS * 1000) in
      shorten_or_set (if t <? d then s32 ((d - t) / 1000) else 1) ms0 else ms0
  | MQVPN_STATE_ESTABLISHED => if multipath_ready c then foldl (interest_slot t) ms0 (paths c) else ms0
  | _ => ms0
  end).
Proof.
  assert (Hl : forall x, (match l with Some l => if (0 <=? l) && (0 <? x) && (l <? x) then l else x | None => x end) <= Z.max 1 x).
  { intros x. destruct l as [l|]; [|lia]. destruct (_ && _) eqn:E'; bool_to_prop; lia. }
  unfold mqvpn_client_get_interest. unfold mbind, M_bind, get, client_now_us, ask, mret, M_ret. cbv beta iota zeta.
  destruct (cstate (cl w)), (0 <? reconnect_scheduled_us (cl w)), (0 <? handshake_started_us (cl w)), (multipath_ready (cl w));
    repeat (rewrite (bool_decide_eq_true_2 (_ = _)) by done || rewrite (bool_decide_eq_false_2 (_ = _)) by done);
    cbn [andb cl fst snd next_timer_ms update]; eexists; (split; [reflexivity|]); apply Hl.
Qed.

Lemma set_in_time t d ms : d - t < 2 ^ 31 * 1000 -> in_time t d (shorten_or_set (if t <? d then s32 ((d - t) / 1000) else 1) ms).
Proof.
  intros Hr. unfold shorten_or_set, in_time. destruct (Z.ltb_spec t d).
  - destruct (div_int t d) as [-> Hd]; [done|done|]. destruct (_ || _) eqn:E; bool_to_prop; lia.
  - destruct (_ || _) eqn:E; bool_to_prop; lia.
Qed.


