(* ===== verification/RtxTable.v ===== *)
(** * The tracking tables of redundant transmission ([src/redundant_tx.c])

    An open-addressing hash table with linear probing and backward-shift
    deletion, used for the copies in flight and for their originals.  The table
    never evicts and is at most half full, so a probe always meets an empty
    slot.  A pointer to an entry is its index.  The loops run on fuel; [None]
    is a loop that does not end or an index out of bounds, which the theorems
    exclude. *)

From S2P Require Import Prelude.

Definition RTX_CAP : Z := 16384.
Definition RTX_SLOTS : Z := 2 * RTX_CAP.

(** Copies: [ent_a] is the key of the original, [ent_b] the path or -1.
    Originals: [ent_a] counts unresolved copies, [ent_b] is the acked flag. *)
Record rtx_ent_t := Ent { ent_key : Z; ent_a : Z; ent_b : Z; ent_used : bool; ent_len : Z }.

#[export] Instance eta_ent : Settable rtx_ent_t := fun r => Ent (ent_key r) (ent_a r) (ent_b r) (ent_used r) (ent_len r).

Record rtx_tab_t := Tab { tab_e : list rtx_ent_t; tab_n : Z }.

#[export] Instance eta_tab : Settable rtx_tab_t := fun r => Tab (tab_e r) (tab_n r).

(** [calloc]. *)
Definition ent_zero : rtx_ent_t := Ent 0 0 0 false 0.
Definition tab_new : rtx_tab_t := Tab (replicate (Z.to_nat RTX_SLOTS) ent_zero) 0.

Definition rtx_slot (k : Z) : Z := Z.land (u32 (Z.shiftr (u64 (k * 11400714819323198485)) 40)) (RTX_SLOTS - 1).

(** [(i + 1) & (RTX_SLOTS - 1)]. *)
Definition next_slot (i : Z) : Z := Z.land (i + 1) (RTX_SLOTS - 1).

Definition slots_fuel : nat := Z.to_nat RTX_SLOTS.

Fixpoint tab_find_loop (fuel : nat) (e : list rtx_ent_t) (key i : Z) : option (option Z) :=
  match fuel with
  | O => None
  | S fuel =>
      match e !! Z.to_nat i with
      | None => None
      | Some x =>
          if negb (ent_used x) then Some None
          else if ent_key x =? key then Some (Some i)
          else tab_find_loop fuel e key (next_slot i)
      end
  end.

Definition tab_find (t : rtx_tab_t) (key : Z) : option (option Z) :=
  tab_find_loop slots_fuel (tab_e t) key (rtx_slot key).

Fixpoint tab_insert_loop (fuel : nat) (e : list rtx_ent_t) (i : Z) : option Z :=
  match fuel with
  | O => None
  | S fuel =>
      match e !! Z.to_nat i with
      | None => None
      | Some x => if ent_used x then tab_insert_loop fuel e (next_slot i) else Some i
      end
  end.

(** The entry's index with the table, [None] inside when the table is full. *)
Definition tab_insert (t : rtx_tab_t) (key : Z) : option (option (Z * rtx_tab_t)) :=
  if RTX_CAP <=? tab_n t then Some None
  else
    i ← tab_insert_loop slots_fuel (tab_e t) (rtx_slot key);
    Some (Some (i, Tab (<[Z.to_nat i := ent_zero <| ent_used := true |> <| ent_key := key |>]> (tab_e t)) (tab_n t + 1))).

(** Whether the home [h] lies cyclically in [(i, j]]. *)
Definition home_between (i j h : Z) : bool :=
  if i <=? j then (i <? h) && (h <=? j) else (i <? h) || (h <=? j).

Fixpoint tab_remove_loop (fuel : nat) (e : list rtx_ent_t) (i j : Z) : option (list rtx_ent_t) :=
  match fuel with
  | O => None
  | S fuel =>
      let j := next_slot j in
      match e !! Z.to_nat j with
      | None => None
      | Some x =>
          if negb (ent_used x) then
            y ← e !! Z.to_nat i; Some (<[Z.to_nat i := y <| ent_used := false |>]> e)
          else if home_between i j (rtx_slot (ent_key x)) then tab_remove_loop fuel e i j
          else tab_remove_loop fuel (<[Z.to_nat i := x]> e) j j
      end
  end.

Definition tab_remove (t : rtx_tab_t) (i : Z) : option rtx_tab_t :=
  e ← tab_remove_loop slots_fuel (tab_e t) i i; Some (Tab e (tab_n t - 1)).

(** Assignments through a pointer to an entry. *)
Definition tab_put (t : rtx_tab_t) (i : Z) (x : rtx_ent_t) : rtx_tab_t := t <| tab_e ::= fun e => <[Z.to_nat i := x]> e |>.

(** ** Cyclic positions *)

Definition in_slots (i : Z) : Prop := 0 <= i < RTX_SLOTS.

(** Steps from [a] to [b]. *)
Definition dist (a b : Z) : Z := if a <=? b then b - a else b - a + RTX_SLOTS.

Ltac cyc := unfold in_slots, dist in *; unfold RTX_SLOTS, RTX_CAP in *; repeat match goal with
  | |- context [?a <=? ?b] => destruct (Z.leb_spec a b)
  | H : context [?a <=? ?b] |- _ => destruct (Z.leb_spec a b)
  | |- context [?a <? ?b] => destruct (Z.ltb_spec a b)
  | H : context [?a <? ?b] |- _ => destruct (Z.ltb_spec a b)
  end; cbn [andb orb] in *; try lia.

Lemma mask_slots z : 0 <= z -> Z.land z (RTX_SLOTS - 1) = z mod RTX_SLOTS.
Proof. intros. change (RTX_SLOTS - 1) with (2 ^ 15 - 1). rewrite land_ones_mod by lia. done. Qed.

Lemma next_slot_eq i : in_slots i -> next_slot i = if i + 1 <? RTX_SLOTS then i + 1 else 0.
Proof.
  intros Hi. unfold next_slot. rewrite mask_slots by (cyc). destruct (Z.ltb_spec (i + 1) RTX_SLOTS); [apply Z.mod_small; cyc|].
  replace (i + 1) with RTX_SLOTS by cyc. apply Z.mod_same. done.
Qed.

Lemma next_slot_range i : in_slots i -> in_slots (next_slot i).
Proof. intros Hi. rewrite next_slot_eq by done. cyc. Qed.

Lemma rtx_slot_range k : in_slots (rtx_slot k).
Proof. unfold rtx_slot, in_slots. rewrite mask_slots by apply u32_range. apply Z.mod_pos_bound. done. Qed.

Lemma dist_range a b : in_slots a -> in_slots b -> 0 <= dist a b < RTX_SLOTS.
Proof. intros. cyc. Qed.

Lemma dist_inj a b c : in_slots a -> in_slots b -> in_slots c -> dist a b = dist a c -> b = c.
Proof. intros. cyc. Qed.

Lemma dist_next a i : in_slots a -> in_slots i -> dist a i + 1 < RTX_SLOTS -> dist a (next_slot i) = dist a i + 1.
Proof. intros Ha Hi. rewrite next_slot_eq by done. cyc. Qed.

Lemma dist_self a : dist a a = 0.
Proof. cyc. Qed.

Lemma home_between_spec i j h : in_slots i -> in_slots j -> in_slots h -> i <> j ->
  home_between i j h = true <-> 0 < dist i h <= dist i j.
Proof. intros. unfold home_between. cyc; (split; [intros; try done; lia|intros; try done; lia]). Qed.

(** ** Well-formed tables *)

Definition used_at (e : list rtx_ent_t) (i : Z) : bool :=
  match e !! Z.to_nat i with Some x => ent_used x | None => false end.

Definition used_ents (e : list rtx_ent_t) : list rtx_ent_t := filter (fun x => ent_used x = true) e.

(** The finite map a table stands for. *)
Definition ents_map (l : list rtx_ent_t) : gmap Z rtx_ent_t := list_to_map ((fun x => (ent_key x, x)) <$> l).
Definition tab_map (t : rtx_tab_t) : gmap Z rtx_ent_t := ents_map (used_ents (tab_e t)).

(** Every slot from the home of an entry to the entry is taken. *)
Definition probe_ok (e : list rtx_ent_t) (i : Z) (x : rtx_ent_t) : Prop :=
  forall y, in_slots y -> dist (rtx_slot (ent_key x)) y < dist (rtx_slot (ent_key x)) i -> used_at e y = true.

Record tab_wf (t : rtx_tab_t) : Prop := {
  tw_len : length (tab_e t) = slots_fuel;
  tw_n : tab_n t = Z.of_nat (length (used_ents (tab_e t)));
  tw_cap : tab_n t <= RTX_CAP;
  tw_nodup : NoDup (ent_key <$> used_ents (tab_e t));
  tw_probe i x : in_slots i -> tab_e t !! Z.to_nat i = Some x -> ent_used x = true -> probe_ok (tab_e t) i x
}.

Lemma slot_lookup (e : list rtx_ent_t) i : length e = slots_fuel -> in_slots i -> exists x, e !! Z.to_nat i = Some x.
Proof. intros Hl Hi. apply lookup_lt_is_Some_2. rewrite Hl. unfold slots_fuel, in_slots in *. lia. Qed.

Lemma fuel_slots : Z.of_nat slots_fuel = RTX_SLOTS.
Proof. unfold slots_fuel. rewrite Z2Nat.id; [done|]. done. Qed.
Opaque slots_fuel.

Lemma used_at_some e i x : e !! Z.to_nat i = Some x -> used_at e i = ent_used x.
Proof. unfold used_at. by intros ->. Qed.

(** A table that is not full has an empty slot. *)
Lemma empty_slot e : length e = slots_fuel -> (length (used_ents e) < length e)%nat -> exists s, in_slots s /\ used_at e s = false.
Proof.
  intros Hl Hlt. destruct (decide (Forall (fun x => ent_used x = true) e)) as [Ha|Hn].
  - exfalso. assert (Hf : used_ents e = e) by (clear -Ha; unfold used_ents; induction Ha as [|x l Hx _ IH]; [done|]; rewrite filter_cons_True by done; by rewrite IH).
    rewrite Hf in Hlt. lia.
  - apply not_Forall_Exists in Hn; [|intros x; apply _]. apply Exists_exists in Hn as (x & Hx & Hu). apply list_elem_of_lookup in Hx as [i Hi].
    exists (Z.of_nat i). pose proof (lookup_lt_Some _ _ _ Hi) as Hr. pose proof fuel_slots. split; [unfold in_slots; lia|].
    unfold used_at. rewrite Nat2Z.id, Hi. by apply not_true_is_false.
Qed.

Lemma wf_empty_slot t : tab_wf t -> exists s, in_slots s /\ used_at (tab_e t) s = false.
Proof.
  intros [Hl Hn Hc _ _]. apply empty_slot; [done|]. rewrite Hl. pose proof fuel_slots. unfold RTX_SLOTS, RTX_CAP in *. lia.
Qed.

Lemma ents_keys l : ((fun x => (ent_key x, x)) <$> l).*1 = ent_key <$> l.
Proof. induction l as [|x l IH]; [done|]. rewrite !fmap_cons. by rewrite IH. Qed.

Lemma ents_map_lookup l k x : NoDup (ent_key <$> l) -> ents_map l !! k = Some x <-> x ∈ l /\ ent_key x = k.
Proof.
  intros Hn. unfold ents_map. rewrite <- elem_of_list_to_map by (by rewrite ents_keys). rewrite list_elem_of_fmap. split.
  - intros (y & [= -> ->] & Hy). done.
  - intros [Hx <-]. by exists x.
Qed.

Lemma ents_map_perm l l' : NoDup (ent_key <$> l) -> l ≡ₚ l' -> ents_map l = ents_map l'.
Proof.
  intros Hn Hp. apply list_to_map_proper; [by rewrite ents_keys|]. by rewrite Hp.
Qed.

Lemma used_elem e x : length e = slots_fuel -> x ∈ used_ents e <-> ent_used x = true /\ exists i, in_slots i /\ e !! Z.to_nat i = Some x.
Proof.
  intros Hl. unfold used_ents. rewrite list_elem_of_filter. apply and_iff_compat_l. split.
  - intros Hx. apply list_elem_of_lookup in Hx as [i Hi]. exists (Z.of_nat i). rewrite Nat2Z.id. split; [|done].
    apply lookup_lt_Some in Hi. pose proof fuel_slots. unfold in_slots. lia.
  - intros (i & _ & Hi). by apply list_elem_of_lookup_2 in Hi.
Qed.

Lemma tab_map_lookup t k x : tab_wf t -> tab_map t !! k = Some x <->
  ent_key x = k /\ ent_used x = true /\ exists i, in_slots i /\ tab_e t !! Z.to_nat i = Some x.
Proof. intros Hw. unfold tab_map. rewrite ents_map_lookup by apply Hw. rewrite used_elem by apply Hw. tauto. Qed.

(** ** Finding *)

Lemma tab_find_loop_spec t key s fuel i : tab_wf t -> in_slots s -> used_at (tab_e t) s = false -> in_slots i ->
  dist (rtx_slot key) i <= dist (rtx_slot key) s -> dist (rtx_slot key) s - dist (rtx_slot key) i < Z.of_nat fuel ->
  (forall y x, in_slots y -> dist (rtx_slot key) y < dist (rtx_slot key) i -> tab_e t !! Z.to_nat y = Some x -> ent_used x = true /\ ent_key x <> key) ->
  match tab_find_loop fuel (tab_e t) key i with
  | None => False
  | Some None => tab_map t !! key = None
  | Some (Some j) => in_slots j /\ exists x, tab_e t !! Z.to_nat j = Some x /\ ent_used x = true /\ ent_key x = key /\ tab_map t !! key = Some x
  end.
Proof.
  intros Hw Hs Hus. pose proof (rtx_slot_range key) as Hh. revert i. induction fuel as [|fuel IH]; intros i Hi Hle Hf Hb; [lia|]. cbn [tab_find_loop].
  destruct (slot_lookup _ i (tw_len _ Hw) Hi) as [x Hx]. rewrite Hx. destruct (ent_used x) eqn:Hu; cbn [negb].
  - destruct (Z.eqb_spec (ent_key x) key) as [Hk|Hk].
    + split; [done|]. exists x. split_and!; try done. apply tab_map_lookup; [done|]. split_and!; try done. by exists i.
    + assert (Hne : dist (rtx_slot key) i <> dist (rtx_slot key) s).
      { intros E. apply dist_inj in E; [|done..]. subst s. rewrite (used_at_some _ _ _ Hx) in Hus. congruence. }
      pose proof (dist_range _ _ Hh Hs).
      apply IH; [by apply next_slot_range| | |]; rewrite dist_next by (done || lia); [lia|lia|].
      intros y z Hy Hd Hz. destruct (decide (dist (rtx_slot key) y = dist (rtx_slot key) i)) as [E|E].
      * apply dist_inj in E; [|done..]. subst y. rewrite Hx in Hz. by injection Hz as <-.
      * apply (Hb y z); [done|lia|done].
  - apply eq_None_not_Some. intros [z Hz]. apply tab_map_lookup in Hz as (Hk & Huz & j & Hj & Hjz); [|done].
    pose proof (tw_probe _ Hw j z Hj Hjz Huz) as Hp. unfold probe_ok in Hp. rewrite Hk in Hp.
    destruct (Z.lt_trichotomy (dist (rtx_slot key) i) (dist (rtx_slot key) j)) as [Hlt|[E|Hgt]].
    + specialize (Hp i Hi Hlt). rewrite (used_at_some _ _ _ Hx) in Hp. congruence.
    + apply dist_inj in E; [|done..]. subst j. congruence.
    + by destruct (Hb j z Hj Hgt Hjz).
Qed.

Lemma tab_find_spec t key : tab_wf t ->
  match tab_find t key with
  | None => False
  | Some None => tab_map t !! key = None
  | Some (Some j) => in_slots j /\ exists x, tab_e t !! Z.to_nat j = Some x /\ ent_used x = true /\ ent_key x = key /\ tab_map t !! key = Some x
  end.
Proof.
  intros Hw. destruct (wf_empty_slot t Hw) as (s & Hs & Hus). pose proof (rtx_slot_range key) as Hh. pose proof (dist_range _ _ Hh Hs).
  apply (tab_find_loop_spec t key s); [done|done|done|done|rewrite dist_self; lia|rewrite dist_self, fuel_slots; lia|].
  intros y x Hy. rewrite dist_self. pose proof (dist_range _ _ Hh Hy). lia.
Qed.

(** ** Changing one slot *)

Definition rest (e : list rtx_ent_t) (i : Z) : list rtx_ent_t := used_ents (delete (Z.to_nat i) e).

Lemma used_ents_split e i x : e !! Z.to_nat i = Some x -> used_ents e ≡ₚ (if ent_used x then [x] else []) ++ rest e i.
Proof.
  intros Hx. unfold rest, used_ents. pose proof (delete_Permutation _ _ _ Hx) as Hp. set (d := delete (Z.to_nat i) e) in *. clearbody d. rewrite Hp, filter_cons. destruct (ent_used x); by case_decide.
Qed.

Lemma delete_put {A} (l : list A) n y : delete n (<[n := y]> l) = delete n l.
Proof. revert n. induction l as [|x l IH]; intros [|n]; try done. cbn. f_equal. apply IH. Qed.

Lemma rest_insert e i y : rest (<[Z.to_nat i := y]> e) i = rest e i.
Proof. unfold rest. by rewrite delete_put. Qed.

Lemma used_ents_put e i x y : e !! Z.to_nat i = Some x -> used_ents (<[Z.to_nat i := y]> e) ≡ₚ (if ent_used y then [y] else []) ++ rest e i.
Proof.
  intros Hx. rewrite <- (rest_insert e i y). apply used_ents_split. apply list_lookup_insert_eq. by apply lookup_lt_Some in Hx.
Qed.

Lemma put_lookup (e : list rtx_ent_t) i j x : in_slots i -> in_slots j -> (Z.to_nat i < length e)%nat ->
  <[Z.to_nat i := x]> e !! Z.to_nat j = if i =? j then Some x else e !! Z.to_nat j.
Proof.
  intros Hi Hj Hl. destruct (Z.eqb_spec i j) as [->|Hne]; [by apply list_lookup_insert_eq|]. apply list_lookup_insert_ne. unfold in_slots in *. lia.
Qed.

Lemma put_used_at e i j x : in_slots i -> in_slots j -> (Z.to_nat i < length e)%nat ->
  used_at (<[Z.to_nat i := x]> e) j = if i =? j then ent_used x else used_at e j.
Proof. intros. unfold used_at. rewrite put_lookup by done. by destruct (i =? j). Qed.

(** ** Inserting *)

Lemma tab_insert_loop_spec e key s fuel i : length e = slots_fuel -> in_slots s -> used_at e s = false -> in_slots i ->
  dist (rtx_slot key) i <= dist (rtx_slot key) s -> dist (rtx_slot key) s - dist (rtx_slot key) i < Z.of_nat fuel ->
  (forall y, in_slots y -> dist (rtx_slot key) y < dist (rtx_slot key) i -> used_at e y = true) ->
  exists j, tab_insert_loop fuel e i = Some j /\ in_slots j /\ used_at e j = false /\
    forall y, in_slots y -> dist (rtx_slot key) y < dist (rtx_slot key) j -> used_at e y = true.
Proof.
  intros Hl Hs Hus. pose proof (rtx_slot_range key) as Hh. revert i. induction fuel as [|fuel IH]; intros i Hi Hle Hf Hb; [lia|]. cbn [tab_insert_loop].
  destruct (slot_lookup _ i Hl Hi) as [x Hx]. rewrite Hx. pose proof (used_at_some _ _ _ Hx) as Hu. destruct (ent_used x); [|by exists i].
  assert (Hne : dist (rtx_slot key) i <> dist (rtx_slot key) s) by (intros E; apply dist_inj in E; [congruence|done..]).
  pose proof (dist_range _ _ Hh Hs). apply IH; [by apply next_slot_range| | |]; rewrite dist_next by (done || lia); [lia|lia|].
  intros y Hy Hd. destruct (decide (dist (rtx_slot key) y = dist (rtx_slot key) i)) as [E|E]; [apply dist_inj in E; congruence|apply Hb; [done|lia]].
Qed.

Lemma in_slots_lt (e : list rtx_ent_t) i : length e = slots_fuel -> in_slots i -> (Z.to_nat i < length e)%nat.
Proof. intros -> Hi. pose proof fuel_slots. unfold in_slots in Hi. lia. Qed.

Definition ent_new (key : Z) : rtx_ent_t := ent_zero <| ent_used := true |> <| ent_key := key |>.

Lemma tab_insert_spec t key : tab_wf t -> tab_n t < RTX_CAP -> tab_map t !! key = None ->
  exists i t', tab_insert t key = Some (Some (i, t')) /\ tab_wf t' /\ tab_map t' = <[key := ent_new key]> (tab_map t) /\
    in_slots i /\ tab_e t' !! Z.to_nat i = Some (ent_new key) /\ tab_n t' = tab_n t + 1.
Proof.
  intros Hw Hn Hk. destruct (wf_empty_slot t Hw) as (s & Hs & Hus). pose proof (rtx_slot_range key) as Hh. pose proof (dist_range _ _ Hh Hs).
  destruct (tab_insert_loop_spec (tab_e t) key s slots_fuel (rtx_slot key)) as (i & Ei & Hi & Hui & Hb);
    [apply Hw|done|done|done|rewrite dist_self; lia|rewrite dist_self, fuel_slots; lia|
     intros y Hy; rewrite dist_self; pose proof (dist_range _ _ Hh Hy); lia|].
  pose proof (in_slots_lt _ i (tw_len _ Hw) Hi) as Hlt. destruct (slot_lookup _ i (tw_len _ Hw) Hi) as [x Hx].
  assert (Hux : ent_used x = false) by (by rewrite <- (used_at_some _ _ _ Hx)).
  pose proof (used_ents_split _ _ _ Hx) as Hp0. rewrite Hux in Hp0. cbn [app] in Hp0.
  set (e' := <[Z.to_nat i := ent_new key]> (tab_e t)). pose proof (used_ents_put _ _ _ (ent_new key) Hx) as Hp1. cbn [ent_used ent_new update app] in Hp1.
  assert (Hp : used_ents e' ≡ₚ ent_new key :: used_ents (tab_e t)) by (unfold e'; rewrite Hp1; by rewrite Hp0).
  assert (Hnd : NoDup (ent_key <$> used_ents e')).
  { rewrite Hp, fmap_cons. apply NoDup_cons. split; [|apply Hw]. intros Hin. apply list_elem_of_fmap in Hin as (y & Ey & Hy).
    apply eq_None_not_Some in Hk as []. exists y. apply ents_map_lookup; [apply Hw|done]. }
  exists i, (Tab e' (tab_n t + 1)). unfold tab_insert. rewrite (proj2 (Z.leb_gt _ _) Hn), Ei. split; [done|]. split_and!; [|unfold tab_map; cbn [tab_e]|done| |done].
  - split; cbn [tab_e tab_n]; [by unfold e'; rewrite length_insert; apply Hw| |lia|done|].
    + rewrite Hp. cbn [length]. pose proof (tw_n _ Hw). lia.
    + intros j y Hj Hjy Huy z Hz Hd. unfold e' in *. rewrite put_used_at by done. rewrite put_lookup in Hjy by done.
      destruct (Z.eqb_spec i z) as [->|Hne]; [done|]. destruct (Z.eqb_spec i j) as [->|Hne'].
      * injection Hjy as <-. by apply Hb.
      * by apply (tw_probe _ Hw j y).
  - rewrite (ents_map_perm _ _ Hnd Hp). done.
  - unfold e'. cbn [tab_e]. by apply list_lookup_insert_eq.
Qed.

(** ** Writing through a pointer *)

Lemma tab_put_spec t i x x' : tab_wf t -> in_slots i -> tab_e t !! Z.to_nat i = Some x -> ent_used x = true ->
  ent_used x' = true -> ent_key x' = ent_key x ->
  tab_wf (tab_put t i x') /\ tab_map (tab_put t i x') = <[ent_key x := x']> (tab_map t).
Proof.
  intros Hw Hi Hx Hu Hu' Hk. pose proof (in_slots_lt _ i (tw_len _ Hw) Hi) as Hlt.
  pose proof (used_ents_split _ _ _ Hx) as Hp0. rewrite Hu in Hp0. pose proof (used_ents_put _ _ _ x' Hx) as Hp1. rewrite Hu' in Hp1. cbn [app] in Hp0, Hp1.
  assert (Hnd : NoDup (ent_key <$> used_ents (<[Z.to_nat i := x']> (tab_e t)))).
  { rewrite Hp1, fmap_cons, Hk. pose proof (tw_nodup _ Hw) as Hn. by rewrite Hp0, fmap_cons in Hn. }
  split.
  - split; cbn [tab_put tab_e tab_n update]; [rewrite length_insert; apply Hw| |apply Hw|done|].
    + rewrite Hp1, (tw_n _ Hw), Hp0. done.
    + intros j y Hj Hjy Huy z Hz Hd. rewrite put_used_at by done. destruct (Z.eqb_spec i z); [done|]. rewrite put_lookup in Hjy by done.
      destruct (Z.eqb_spec i j) as [->|Hne]; [injection Hjy as <-; rewrite Hk in Hd; by apply (tw_probe _ Hw j x)|by apply (tw_probe _ Hw j y)].
  - unfold tab_map. cbn [tab_put tab_e update]. rewrite (ents_map_perm _ _ Hnd Hp1), (ents_map_perm _ _ (tw_nodup _ Hw) Hp0). cbn. unfold ents_map. cbn.
    rewrite Hk. by rewrite insert_insert_eq.
Qed.

(** ** Removing *)

(** The scan at [j] with its hole at [i]: every entry but the one in the hole
    is well placed as long as the hole counts as taken, and the entries passed
    over have their homes behind the hole. *)
Record hole (e : list rtx_ent_t) (i j s : Z) (R : list rtx_ent_t) : Prop := {
  ho_len : length e = slots_fuel;
  ho_i : in_slots i;
  ho_j : in_slots j;
  ho_s : in_slots s;
  ho_used : used_at e i = true;
  ho_free : used_at e s = false;
  ho_rest : rest e i ≡ₚ R;
  ho_order : dist i j < dist i s;
  ho_probe y x : in_slots y -> y <> i -> e !! Z.to_nat y = Some x -> ent_used x = true -> probe_ok e y x;
  ho_passed y x : in_slots y -> 0 < dist i y <= dist i j -> e !! Z.to_nat y = Some x ->
    ent_used x = true /\ 0 < dist i (rtx_slot (ent_key x)) <= dist i y
}.

(** Closing the hole at an empty slot [j]. *)
Lemma hole_close e i j s R y : hole e i j s R -> in_slots (next_slot j) -> used_at e (next_slot j) = false -> dist i (next_slot j) = dist i j + 1 ->
  e !! Z.to_nat i = Some y ->
  let e' := <[Z.to_nat i := y <| ent_used := false |>]> e in
  length e' = slots_fuel /\ used_ents e' ≡ₚ R /\
  forall k x, in_slots k -> e' !! Z.to_nat k = Some x -> ent_used x = true -> probe_ok e' k x.
Proof.
  intros [Hl Hi Hj Hs Hui Hus HR Ho Hp Hpass] Hn Hun Hd Hy e'. pose proof (in_slots_lt _ i Hl Hi) as Hlt. split_and!.
  - unfold e'. by rewrite length_insert.
  - unfold e'. rewrite (used_ents_put _ _ _ _ Hy). exact HR.
  - intros k x Hk Hkx Hux z Hz Hdz. unfold e' in *. rewrite put_lookup in Hkx by done. rewrite put_used_at by done.
    destruct (Z.eqb_spec i k) as [->|Hne]; [by injection Hkx as <-|]. pose proof (Hp k x Hk ltac:(auto) Hkx Hux) as Hpk.
    destruct (Z.eqb_spec i z) as [<-|Hnz]; [|by apply Hpk]. exfalso. pose proof (rtx_slot_range (ent_key x)) as Hh. set (h := rtx_slot (ent_key x)) in *.
    assert (Hik : 0 < dist i k) by (clear -Hne Hi Hk; cyc). destruct (Z.le_gt_cases (dist i k) (dist i j)) as [Hle|Hgt].
    + destruct (Hpass k x Hk ltac:(lia) Hkx) as [_ Hhome]. fold h in Hhome. clear -Hhome Hdz Hi Hk Hh Hne. cyc.
    + destruct (decide (k = next_slot j)) as [E|E].
      * rewrite <- E in Hun. rewrite (used_at_some _ _ _ Hkx) in Hun. congruence.
      * assert (Hlt' : dist i (next_slot j) < dist i k).
        { destruct (decide (dist i k = dist i (next_slot j))) as [E'|E']; [|lia]. apply dist_inj in E'; [|done..]. done. }
        pose proof (Hpk (next_slot j) Hn) as Hused. rewrite Hun in Hused. cut (false = true); [done|]. apply Hused. fold h.
        assert (0 <= dist i j) by (apply dist_range; done). clear -Hlt' Hdz Hi Hk Hh Hn Hd H. generalize dependent (next_slot j). intros n. intros. cyc.
Qed.

Lemma hole_step e i j s R fuel : hole e i j s R -> dist i s - dist i j <= Z.of_nat fuel ->
  exists e', tab_remove_loop fuel e i j = Some e' /\ length e' = slots_fuel /\ used_ents e' ≡ₚ R /\
    forall k x, in_slots k -> e' !! Z.to_nat k = Some x -> ent_used x = true -> probe_ok e' k x.
Proof.
  revert e i j. induction fuel as [|fuel IH]; intros e i j Hh Hf; [pose proof (ho_order _ _ _ _ _ Hh); lia|].
  pose proof Hh as [Hl Hi Hj Hs Hui Hus HR Ho Hp Hpass]. cbn [tab_remove_loop]. pose proof (next_slot_range j Hj) as Hn.
  pose proof (dist_range i s Hi Hs) as Hds. assert (Hd : dist i (next_slot j) = dist i j + 1) by (apply dist_next; [done|done|lia]).
  assert (Hdj : 0 <= dist i j) by (by apply dist_range). set (j' := next_slot j) in *. destruct (slot_lookup e j' Hl Hn) as [x Hx].
  destruct (slot_lookup e i Hl Hi) as [y Hy]. rewrite Hx. pose proof (used_at_some _ _ _ Hx) as Hux.
  destruct (ent_used x) eqn:Eu; cbn [negb]; cycle 1.
  { rewrite Hy. cbn. eexists. split; [done|]. by eapply (hole_close e i j s R y). }
  assert (Hns : dist i j' <> dist i s) by (intros E; apply dist_inj in E; congruence).
  assert (Hne : i <> j') by (intros <-; rewrite dist_self in Hd; lia).
  pose proof (rtx_slot_range (ent_key x)) as Hhm. destruct (home_between i j' (rtx_slot (ent_key x))) eqn:Eb.
  - apply (home_between_spec i j' _ Hi Hn Hhm Hne) in Eb. apply IH; [|lia]. split; try done; [lia|].
    intros z w Hz Hdz Hw. destruct (decide (dist i z = dist i j')) as [E|E]; [apply dist_inj in E; [|done..]; subst z; rewrite Hx in Hw; injection Hw as <-; done|].
    apply Hpass; [done|lia|done].
  - assert (Enb : ~ 0 < dist i (rtx_slot (ent_key x)) <= dist i j') by (intros Hc; apply (home_between_spec i j' _ Hi Hn Hhm Hne) in Hc; congruence).
    pose proof (in_slots_lt _ i Hl Hi) as Hlt. set (e' := <[Z.to_nat i := x]> e).
    assert (Hua : forall z, in_slots z -> used_at e' z = used_at e z).
    { intros z Hz. unfold e'. rewrite put_used_at by done. destruct (Z.eqb_spec i z) as [<-|]; [congruence|done]. }
    assert (Hxj : e' !! Z.to_nat j' = Some x) by (unfold e'; rewrite put_lookup by done; by destruct (i =? j')).
    assert (Hsplit : dist j' s = dist i s - dist i j') by (clear -Hi Hn Hs Ho Hd Hns; generalize dependent j'; intros; cyc).
    apply IH; [|rewrite dist_self; lia]. split; try done.
    + unfold e'. by rewrite length_insert.
    + by rewrite Hua, (used_at_some _ _ _ Hx).
    + by rewrite Hua.
    + apply (Permutation_cons_inv (a := x)). rewrite <- HR. pose proof (used_ents_split e' j' x Hxj) as H1. pose proof (used_ents_put e i y x Hy) as H2.
      rewrite Eu in H1, H2. cbn [app] in H1, H2. fold e' in H2. by rewrite <- H1, H2.
    + rewrite dist_self. lia.
    + intros z w Hz Hnz Hw Huw k Hk Hdk. rewrite Hua by done. unfold e' in Hw. rewrite put_lookup in Hw by done.
      destruct (Z.eqb_spec i z) as [<-|Hiz]; [|by apply (Hp z w)]. injection Hw as <-. apply (Hp j' x); try done.
      set (h := rtx_slot (ent_key x)) in *. clearbody h j'. clear -Hi Hn Hk Hhm Enb Hdk Hne. cyc.
    + intros z w Hz Hdz. rewrite dist_self in Hdz. lia.
Qed.

Lemma tab_remove_spec t i x : tab_wf t -> in_slots i -> tab_e t !! Z.to_nat i = Some x -> ent_used x = true ->
  exists t', tab_remove t i = Some t' /\ tab_wf t' /\ tab_map t' = delete (ent_key x) (tab_map t) /\ tab_n t' = tab_n t - 1.
Proof.
  intros Hw Hi Hx Hu. destruct (wf_empty_slot t Hw) as (s & Hs & Hus). pose proof (used_ents_split _ _ _ Hx) as Hp. rewrite Hu in Hp. cbn [app] in Hp.
  assert (His : i <> s) by (intros ->; rewrite (used_at_some _ _ _ Hx) in Hus; congruence).
  destruct (hole_step (tab_e t) i i s (rest (tab_e t) i) slots_fuel) as (e' & Ee & Hl & HR & Hpr).
  - split; try done; [apply Hw|by rewrite (used_at_some _ _ _ Hx)| | |].
    + rewrite dist_self. clear -Hi Hs His. cyc.
    + intros y z Hy _ Hyz Huz. by apply (tw_probe _ Hw).
    + intros y z Hy Hd. rewrite dist_self in Hd. lia.
  - rewrite dist_self, fuel_slots. pose proof (dist_range _ _ Hi Hs). lia.
  - pose proof (tw_nodup _ Hw) as Hnd. rewrite Hp, fmap_cons in Hnd. apply NoDup_cons in Hnd as [Hnin Hnd].
    exists (Tab e' (tab_n t - 1)). unfold tab_remove. rewrite Ee. split; [done|]. split_and!; [|unfold tab_map; cbn [tab_e]|done].
    + split; cbn [tab_e tab_n]; [done| |pose proof (tw_cap _ Hw); lia|by rewrite HR|done]. rewrite HR, (tw_n _ Hw), Hp. cbn [length]. lia.
    + rewrite (ents_map_perm (used_ents e') (rest (tab_e t) i)) by (by rewrite ?HR). rewrite (ents_map_perm _ _ (tw_nodup _ Hw) Hp).
      unfold ents_map at 2. cbn. rewrite delete_insert_id; [done|]. apply not_elem_of_list_to_map. by rewrite ents_keys.
Qed.

Lemma tab_new_wf : tab_wf tab_new /\ tab_map tab_new = ∅.
Proof.
  assert (E : used_ents (tab_e tab_new) = []).
  { unfold tab_new. cbn [tab_e]. generalize (Z.to_nat RTX_SLOTS). intros n. unfold used_ents. induction n as [|n IH]; [done|]. cbn [replicate].
    by rewrite filter_cons_False. }
  split; [|unfold tab_map; by rewrite E]. split; rewrite ?E; [|done|done|constructor|].
  - unfold tab_new. cbn [tab_e]. by rewrite length_replicate.
  - intros i x _ Hx Hu. unfold tab_new in Hx. cbn [tab_e] in Hx. apply lookup_replicate in Hx as [-> _]. done.
Qed.

Lemma tab_n_size t : tab_wf t -> tab_n t = Z.of_nat (size (tab_map t)).
Proof.
  intros Hw. rewrite (tw_n _ Hw). unfold tab_map, ents_map. rewrite map_size_list_to_map by (rewrite ents_keys; apply Hw). by rewrite length_fmap.
Qed.

(** ** The table as a finite map *)

Inductive tab_op := TFind (k : Z) | TInsert (k a b len : Z) | TRemove (k : Z).

(** What the callers do with the table: find reads an entry, insert fills in
    the entry it gets, remove takes out the entry that find located.  The answer
    is the entry concerned. *)
Definition tab_do (t : rtx_tab_t) (op : tab_op) : option (option rtx_ent_t * rtx_tab_t) :=
  match op with
  | TFind k =>
      r ← tab_find t k;
      match r with Some i => x ← tab_e t !! Z.to_nat i; Some (Some x, t) | None => Some (None, t) end
  | TInsert k a b len =>
      r ← tab_insert t k;
      match r with
      | Some (i, t) =>
          x ← tab_e t !! Z.to_nat i;
          let x := x <| ent_a := a |> <| ent_b := b |> <| ent_len := len |> in Some (Some x, tab_put t i x)
      | None => Some (None, t)
      end
  | TRemove k =>
      r ← tab_find t k;
      match r with Some i => x ← tab_e t !! Z.to_nat i; t ← tab_remove t i; Some (Some x, t) | None => Some (None, t) end
  end.

(** The specification: a finite map of at most [RTX_CAP] entries. *)
Definition map_do (m : gmap Z rtx_ent_t) (op : tab_op) : option rtx_ent_t * gmap Z rtx_ent_t :=
  match op with
  | TFind k => (m !! k, m)
  | TInsert k a b len =>
      if RTX_CAP <=? Z.of_nat (size m) then (None, m) else (Some (Ent k a b true len), <[k := Ent k a b true len]> m)
  | TRemove k => (m !! k, delete k m)
  end.

Fixpoint tab_exec (t : rtx_tab_t) (ops : list tab_op) : option (list (option rtx_ent_t) * rtx_tab_t) :=
  match ops with
  | [] => Some ([], t)
  | op :: ops => '(a, t) ← tab_do t op; '(l, t) ← tab_exec t ops; Some (a :: l, t)
  end.

Fixpoint map_exec (m : gmap Z rtx_ent_t) (ops : list tab_op) : list (option rtx_ent_t) * gmap Z rtx_ent_t :=
  match ops with
  | [] => ([], m)
  | op :: ops => let '(a, m) := map_do m op in let '(l, m) := map_exec m ops in (a :: l, m)
  end.

(** Only keys that are absent are inserted. *)
Fixpoint map_legal (m : gmap Z rtx_ent_t) (ops : list tab_op) : bool :=
  match ops with
  | [] => true
  | op :: ops =>
      match op with TInsert k _ _ _ => negb (bool_decide (is_Some (m !! k))) | _ => true end && map_legal (map_do m op).2 ops
  end.

(** A step of the option monad as an equation. *)
Lemma bind_some {A B} (x : A) (f : A -> option B) : Some x ≫= f = f x.
Proof. done. Qed.

Lemma tab_insert_full t k : RTX_CAP <= tab_n t -> tab_insert t k = Some None.
Proof. intros Hc. unfold tab_insert. by rewrite (proj2 (Z.leb_le _ _) Hc). Qed.

Opaque tab_find tab_insert tab_remove.

Lemma tab_do_refines t op : tab_wf t -> (match op with TInsert k _ _ _ => tab_map t !! k = None | _ => True end) ->
  exists t', tab_do t op = Some ((map_do (tab_map t) op).1, t') /\ tab_wf t' /\ tab_map t' = (map_do (tab_map t) op).2.
Proof.
  intros Hw Hl. destruct op as [k|k a b len|k]; cbn [tab_do map_do fst snd].
  - pose proof (tab_find_spec t k Hw) as Hf. destruct (tab_find t k) as [[i|]|]; [|rewrite bind_some, Hf; by exists t|done]. destruct Hf as (Hi & x & Hx & Hu & Hk & Hm).
    rewrite bind_some, Hx, bind_some, Hm. by exists t.
  - rewrite <- (tab_n_size _ Hw). destruct (Z.leb_spec RTX_CAP (tab_n t)) as [Hc|Hc].
    + assert (E : tab_insert t k = Some None) by (by apply tab_insert_full). rewrite E, bind_some. by exists t.
    + destruct (tab_insert_spec t k Hw Hc Hl) as (i & t1 & -> & Hw1 & Hm1 & Hi & Hx & _). rewrite bind_some, Hx, bind_some. cbv zeta. cbn [fst snd].
      destruct (tab_put_spec t1 i (ent_new k) (Ent k a b true len) Hw1 Hi Hx) as [Hw2 Hm2]; [done..|]. eexists. split; [done|]. split; [exact Hw2|].
      change (tab_map (tab_put t1 i (Ent k a b true len)) = <[k := Ent k a b true len]> (tab_map t)). rewrite Hm2, Hm1. apply insert_insert_eq.
  - pose proof (tab_find_spec t k Hw) as Hf. destruct (tab_find t k) as [[i|]|]; [|rewrite bind_some, Hf; exists t; by rewrite delete_id|done].
    destruct Hf as (Hi & x & Hx & Hu & Hk & Hm). rewrite bind_some, Hx, bind_some, Hm. destruct (tab_remove_spec t i x Hw Hi Hx Hu) as (t' & -> & Hw' & Hm' & _).
    rewrite bind_some. exists t'. rewrite Hk in Hm'. done.
Qed.

Lemma tab_exec_refines ops t : tab_wf t -> map_legal (tab_map t) ops = true ->
  exists t', tab_exec t ops = Some ((map_exec (tab_map t) ops).1, t') /\ tab_wf t' /\ tab_map t' = (map_exec (tab_map t) ops).2.
Proof.
  revert t. induction ops as [|op ops IH]; intros t Hw Hl; cbn [tab_exec map_exec map_legal] in *; [by exists t|]. apply andb_true_iff in Hl as [H1 H2].
  destruct (tab_do_refines t op Hw) as (t1 & -> & Hw1 & Hm1); [destruct op; try done; apply negb_true_iff, bool_decide_eq_false in H1; by apply eq_None_not_Some|].
  rewrite bind_some. rewrite <- Hm1 in H2. destruct (IH t1 Hw1 H2) as (t2 & -> & Hw2 & Hm2). rewrite bind_some. exists t2. rewrite Hm1 in Hm2 |- *.
  destruct (map_do (tab_map t) op) as [a m]. cbn [fst snd] in *. by destruct (map_exec m ops).
Qed.


(** Keys 1, 2, 5 and 6 with removals between. *)
Definition tab_demo : list tab_op :=
  [TInsert 1 10 0 100; TInsert 2 20 1 200; TFind 1; TRemove 1; TFind 1; TFind 2; TInsert 5 50 0 0; TRemove 9; TInsert 1 11 0 0; TFind 1].

