(* ===== verification/RedundantTx.v ===== *)
(** * Redundant transmission ([src/redundant_tx.c])

    The tracker of packets that are sent on several paths at once: the port
    list and the packet match, the copies in flight and their originals, the
    per-path queue gate and the overload mode.  Every function of the tracker
    takes the tracker and returns it; [None] is an index out of bounds or a
    probe that does not end. *)

From S2P Require Import Prelude RtxTable.

Definition MQVPN_RTX_PATHS : Z := 8.
Definition RTX_LAG : Z := 250000.
Definition RTX_RTT_UNKNOWN : Z := 10000000.
Definition RTX_RATE_BUCKET : Z := 100000.
Definition RTX_PKT_BYTES : Z := 1400.
Definition RTX_MODE_WIN : Z := 200000.
Definition RTX_IDLE : Z := 1000000.
Definition RTX_START_GRACE : Z := 2000000.
Definition RTX_ENTER_N : Z := 5.
Definition RTX_REENTER_N : Z := 2.
Definition RTX_HOLD_FIRST : Z := 10000000.
Definition RTX_HOLD_MAX : Z := 32000000.
Definition RTX_PROBE_OK : Z := 10000000.
Definition RTX_HIST : Z := 10.
Definition RTX_MIN_JUDGED : Z := 40.

Inductive rtx_mode := RTX_NORMAL | RTX_PROBE | RTX_OVERLOAD.

#[export] Instance rtx_mode_eq_dec : EqDecision rtx_mode.
Proof. solve_decision. Defined.

(** ** Port list and packet match *)

Definition is_blank (c : Z) : bool := (c =? 32) || (c =? 9) || (c =? 13) || (c =? 10).

Fixpoint skip_blank (s : list Z) : list Z :=
  match s with c :: s' => if is_blank c then skip_blank s' else s | [] => [] end.

(** The digits at the start of [s]: the value, which stops growing past 65535,
    whether there was one, and the rest. *)
Fixpoint port_digits (s : list Z) (v : Z) (digits : bool) : Z * bool * list Z :=
  match s with
  | c :: s' =>
      if (48 <=? c) && (c <=? 57) then port_digits s' (if v <=? 65535 then v * 10 + (c - 48) else v) true
      else (v, digits, s)
  | [] => (v, digits, [])
  end.

(** One round of the loop per token; [fuel] bounds the tokens by the length. *)
Fixpoint ports_loop (fuel : nat) (s : list Z) (n_tok max : Z) (out : list Z) : option (list Z) :=
  match fuel with
  | O => None
  | S fuel =>
      let s := skip_blank s in
      let '(v, digits, s) := port_digits s 0 false in
      let s := skip_blank s in
      if negb digits || (v <? 1) || (65535 <? v) then None
      else if max <? n_tok + 1 then None
      else
        let out := if existsb (Z.eqb v) out then out else out ++ [v] in
        match s with
        | [] => Some out
        | c :: s => if c =? 44 then ports_loop fuel s (n_tok + 1) max out else None
        end
  end.

(** [s] is the C string without its terminator ([None] for NULL); the result is
    the ports written, [None] for -1. *)
Definition mqvpn_redundant_parse_ports (s : option (list Z)) (max : Z) : option (list Z) :=
  match s with
  | None => Some []
  | Some s => match skip_blank s with [] => Some [] | _ => ports_loop (S (length s)) s 0 max [] end
  end.

(** The port at [off + 2] is in the list. *)
Definition match_dport (ports pkt : list Z) (off : Z) : option bool :=
  if blen pkt <? off + 4 then Some false
  else
    hi ← rd pkt (off + 2); lo ← rd pkt (off + 3);
    Some (existsb (Z.eqb (u16 (Z.lor (Z.shiftl hi 8) lo))) ports).

Definition mqvpn_redundant_match (ports pkt : list Z) : option bool :=
  if blen pkt <? 1 then Some false
  else
    b0 ← rd pkt 0;
    if Z.shiftr b0 4 =? 4 then
      if blen pkt <? 20 then Some false
      else
        proto ← rd pkt 9;
        if negb (proto =? 17) then Some false
        else if (length ports =? 0)%nat then Some true
        else
          f6 ← rd pkt 6; f7 ← rd pkt 7;
          if negb (Z.land (Z.lor (Z.shiftl f6 8) f7) 8191 =? 0) then Some false
          else
            let off := Z.land b0 15 * 4 in
            if off <? 20 then Some false else match_dport ports pkt off
    else if Z.shiftr b0 4 =? 6 then
      if blen pkt <? 40 then Some false
      else
        nh ← rd pkt 6;
        if negb (nh =? 17) then Some false
        else if (length ports =? 0)%nat then Some true
        else match_dport ports pkt 40
    else Some false.

(** ** The tracker *)

Record rtx_path_t := RtxPath {
  bound : bool;
  xqc_id : Z;
  outstanding : Z;
  out_bytes : Z;
  rmin_rtt_us : Z;
  rfirst : Z;
  racked : Z;
  est_bw : Z;
  inflight : Z;
  hit : bool
}.

#[export] Instance eta_rtx_path : Settable rtx_path_t := fun r =>
  RtxPath (bound r) (xqc_id r) (outstanding r) (out_bytes r) (rmin_rtt_us r) (rfirst r) (racked r) (est_bw r) (inflight r) (hit r).

Record mqvpn_redundant_tx_t := RedundantTx {
  copies : rtx_tab_t;
  origs : rtx_tab_t;
  next_orig : Z;
  rpath : list rtx_path_t;
  have_win : bool;
  win_sec : Z;
  win_count : Z;
  prev_count : Z;
  rlast_us : Z;
  bkt_id : Z;
  bkt_count : Z;
  prev_bkt_count : Z;
  rmode : rtx_mode;
  short_n : Z;
  win_start_us : Z;
  flow_since_us : Z;
  since_us : Z;
  hold_us : Z;
  sec_hist : list Z;
  sent : list (list Z)
}.

#[export] Instance eta_redundant_tx : Settable mqvpn_redundant_tx_t := fun r =>
  RedundantTx (copies r) (origs r) (next_orig r) (rpath r) (have_win r) (win_sec r) (win_count r) (prev_count r) (rlast_us r)
    (bkt_id r) (bkt_count r) (prev_bkt_count r) (rmode r) (short_n r) (win_start_us r) (flow_since_us r) (since_us r) (hold_us r)
    (sec_hist r) (sent r).

Definition rtx_mode_reset (t : mqvpn_redundant_tx_t) : mqvpn_redundant_tx_t :=
  t <| rmode := RTX_NORMAL |> <| short_n := 0 |> <| win_start_us := 0 |> <| flow_since_us := 0 |> <| hold_us := RTX_HOLD_FIRST |>
    <| sec_hist := replicate (Z.to_nat RTX_HIST) 0 |>.

Definition rtx_path_zero : rtx_path_t := RtxPath false 0 0 0 0 0 0 0 0 false.

(** With the memory granted. *)
Definition mqvpn_redundant_tx_new : mqvpn_redundant_tx_t :=
  rtx_mode_reset (RedundantTx tab_new tab_new 0 (replicate (Z.to_nat MQVPN_RTX_PATHS) rtx_path_zero) false 0 0 0 0 0 0 0 RTX_NORMAL 0 0 0 0 0
    [] (replicate (Z.to_nat MQVPN_RTX_PATHS) (replicate (Z.to_nat RTX_CAP) 0))).

Definition path_ok (p : Z) : bool := (0 <=? p) && (p <? MQVPN_RTX_PATHS).

Definition path_at (t : mqvpn_redundant_tx_t) (p : Z) : option rtx_path_t := rpath t !! Z.to_nat p.
Definition path_put (p : Z) (x : rtx_path_t) (t : mqvpn_redundant_tx_t) : mqvpn_redundant_tx_t :=
  t <| rpath ::= fun l => <[Z.to_nat p := x]> l |>.

(** The scan of a detach over the copies. *)
Definition detach_ent (p : Z) (x : rtx_ent_t) : rtx_ent_t :=
  if ent_used x && (ent_b x =? p) then x <| ent_b := -1 |> else x.

Definition mqvpn_redundant_tx_detach_path (t : mqvpn_redundant_tx_t) (p : Z) : option mqvpn_redundant_tx_t :=
  if negb (path_ok p) then Some t
  else
    x ← path_at t p;
    if outstanding x =? 0 then Some t
    else Some (path_put p (x <| outstanding := 0 |> <| out_bytes := 0 |>)
                 (t <| copies ::= fun c => c <| tab_e ::= map (detach_ent p) |> |>)).

Definition mqvpn_redundant_tx_bind_path (t : mqvpn_redundant_tx_t) (p xqc_path_id : Z) : option mqvpn_redundant_tx_t :=
  if negb (path_ok p) then Some t
  else
    x ← path_at t p;
    t ← (if bound x && negb (xqc_id x =? xqc_path_id) then mqvpn_redundant_tx_detach_path t p else Some t);
    x ← path_at t p;
    Some (path_put p (x <| bound := true |> <| xqc_id := xqc_path_id |>) t).

Definition mqvpn_redundant_tx_set_path_metrics (t : mqvpn_redundant_tx_t) (p min_rtt bw infl : Z) : option mqvpn_redundant_tx_t :=
  if negb (path_ok p) then Some t
  else
    x ← path_at t p;
    Some (path_put p (x <| rmin_rtt_us := if min_rtt <? RTX_RTT_UNKNOWN then min_rtt else 0 |> <| est_bw := bw |> <| inflight := infl |>) t).

Definition rtx_stream_pps (t : mqvpn_redundant_tx_t) : Z :=
  let pps := prev_count t in
  let bkt := prev_bkt_count t * (1000000 / RTX_RATE_BUCKET) in
  if pps <? bkt then bkt else pps.

Definition rtx_queued_us (t : mqvpn_redundant_tx_t) (p now_us : Z) : option Z :=
  x ← path_at t p;
  if outstanding x =? 0 then Some 0
  else
    l ← sent t !! Z.to_nat p;
    s ← l !! Z.to_nat (rfirst x);
    let due := u64 (s + rmin_rtt_us x) in
    Some (if due <? now_us then now_us - due else 0).

(** The queues of the usable paths in their order, and the least-queued one. *)
Fixpoint select_best (t : mqvpn_redundant_tx_t) (usable : list Z) (now_us : Z) (best : option (Z * Z * Z)) : option (option (Z * Z * Z)) :=
  match usable with
  | [] => Some best
  | p :: usable =>
      if negb (path_ok p) then select_best t usable now_us best
      else
        q ← rtx_queued_us t p now_us;
        x ← path_at t p;
        let o := outstanding x in
        let better := match best with
                      | None => true
                      | Some (bp, bq, bo) => (q <? bq) || ((q =? bq) && ((o <? bo) || ((o =? bo) && (p <? bp))))
                      end in
        select_best t usable now_us (if better then Some (p, q, o) else best)
  end.

(** The second pass: what is sent on, and the mark on what is left out. *)
Fixpoint select_pass (t : mqvpn_redundant_tx_t) (usable : list Z) (now_us bp bq : Z) (out : list Z) : option (list Z * mqvpn_redundant_tx_t) :=
  match usable with
  | [] => Some (out, t)
  | p :: usable =>
      if negb (path_ok p) then select_pass t usable now_us bp bq out
      else
        q ← rtx_queued_us t p now_us;
        if (if RTX_LAG <? bq then p =? bp else q <=? u64 (bq + RTX_LAG)) then select_pass t usable now_us bp bq (out ++ [p])
        else x ← path_at t p; select_pass (path_put p (x <| hit := true |>) t) usable now_us bp bq out
  end.

(** The paths the caller sends on, as far as the returned count goes. *)
Definition mqvpn_redundant_tx_select (t : mqvpn_redundant_tx_t) (usable : list Z) (now_us : Z) : option (list Z * mqvpn_redundant_tx_t) :=
  if (length usable =? 0)%nat then Some ([], t)
  else if RTX_CAP <=? tab_n (origs t) then Some ([], t)
  else
    best ← select_best t usable now_us None;
    match best with
    | None => Some ([], t)
    | Some (bp, bq, _) =>
        '(out, t) ← select_pass t usable now_us bp bq [];
        let room := RTX_CAP - tab_n (copies t) in
        let n := Z.of_nat (length out) in
        Some (take (Z.to_nat (if n <? room then n else room)) out, t)
    end.

Definition rtx_count_rate (t : mqvpn_redundant_tx_t) (now_us : Z) : mqvpn_redundant_tx_t :=
  let sec := now_us / 1000000 in
  let t := if have_win t && (now_us <? rlast_us t) then t <| have_win := false |> else t in
  let fresh := negb (have_win t) in
  let t := if negb (have_win t) || negb (sec =? win_sec t) then
             let contiguous := have_win t && (sec =? u64 (win_sec t + 1)) in
             let t := if contiguous then t <| sec_hist ::= fun l => <[Z.to_nat (win_sec t mod RTX_HIST) := win_count t]> l |> else t in
             t <| prev_count := if contiguous then win_count t else 0 |> <| have_win := true |> <| win_sec := sec |> <| win_count := 0 |>
           else t in
  let t := t <| win_count := u32 (win_count t + 1) |> in
  let b := now_us / RTX_RATE_BUCKET in
  let t := if fresh || negb (b =? bkt_id t) then
             t <| prev_bkt_count := if negb fresh && (b =? u64 (bkt_id t + 1)) then bkt_count t else 0 |> <| bkt_id := b |> <| bkt_count := 0 |>
           else t in
  t <| bkt_count := u32 (bkt_count t + 1) |> <| rlast_us := now_us |>.

(** One copy of the original with key [ok]. *)
Definition commit_copy (ok bytes now_us : Z) (t : mqvpn_redundant_tx_t) (id p : Z) : option mqvpn_redundant_tx_t :=
  r ← tab_insert (copies t) id;
  '(i, tab) ← r;
  x ← tab_e tab !! Z.to_nat i;
  let b := if path_ok p then p else -1 in
  let tab := tab_put tab i (x <| ent_a := ok |> <| ent_b := b |> <| ent_len := bytes |>) in
  let t := t <| copies := tab |> in
  if 0 <=? b then
    y ← path_at t b;
    l ← sent t !! Z.to_nat b;
    let k := Z.land (rfirst y + outstanding y) (RTX_CAP - 1) in
    Some (path_put b (y <| outstanding := outstanding y + 1 |> <| out_bytes := u64 (out_bytes y + bytes) |>)
            (t <| sent ::= fun s => <[Z.to_nat b := <[Z.to_nat k := now_us]> l]> s |>))
  else Some t.

Fixpoint commit_loop (ok bytes now_us : Z) (t : mqvpn_redundant_tx_t) (cs : list (Z * Z)) : option mqvpn_redundant_tx_t :=
  match cs with
  | [] => Some t
  | (id, p) :: cs => t ← commit_copy ok bytes now_us t id p; commit_loop ok bytes now_us t cs
  end.

(** [cs] pairs the datagram ids with the paths that accepted them. *)
Definition mqvpn_redundant_tx_commit (t : mqvpn_redundant_tx_t) (cs : list (Z * Z)) (now_us len : Z) : option mqvpn_redundant_tx_t :=
  let k := Z.of_nat (length cs) in
  if (k <=? 0) || (RTX_CAP <=? tab_n (origs t)) || (RTX_CAP <? tab_n (copies t) + k) then Some t
  else
    let t := rtx_count_rate t now_us in
    let bytes := if UINT16_MAX <? len then UINT16_MAX else len in
    let ok := u64 (next_orig t + 1) in
    r ← tab_insert (origs t) ok;
    '(i, tab) ← r;
    x ← tab_e tab !! Z.to_nat i;
    commit_loop ok bytes now_us (t <| next_orig := ok |> <| origs := tab_put tab i (x <| ent_a := k |>) |>) cs.

(** The index of the original of a resolved copy and whether it was the last. *)
Definition resolve (t : mqvpn_redundant_tx_t) (id : Z) (acked : bool) : option (option (Z * bool) * mqvpn_redundant_tx_t) :=
  c ← tab_find (copies t) id;
  match c with
  | None => Some (None, t)
  | Some ci =>
      c ← tab_e (copies t) !! Z.to_nat ci;
      o ← tab_find (origs t) (ent_a c);
      oi ← o;
      t ← (if 0 <=? ent_b c then
             y ← path_at t (ent_b c);
             Some (path_put (ent_b c) (y <| outstanding := outstanding y - 1 |> <| out_bytes := u64 (out_bytes y - ent_len c) |>
                     <| racked := if acked then u64 (racked y + 1) else racked y |> <| rfirst := Z.land (rfirst y + 1) (RTX_CAP - 1) |>) t)
           else Some t);
      tab ← tab_remove (copies t) ci;
      o ← tab_e (origs t) !! Z.to_nat oi;
      let o := o <| ent_a := u64 (ent_a o - 1) |> in
      Some (Some (oi, ent_a o =? 0), t <| copies := tab |> <| origs ::= fun s => tab_put s oi o |>)
  end.

Definition remove_orig (t : mqvpn_redundant_tx_t) (oi : Z) : option mqvpn_redundant_tx_t :=
  tab ← tab_remove (origs t) oi; Some (t <| origs := tab |>).

Definition mqvpn_redundant_tx_on_acked (t : mqvpn_redundant_tx_t) (id : Z) : option (Z * mqvpn_redundant_tx_t) :=
  '(r, t) ← resolve t id true;
  match r with
  | None => Some (-1, t)
  | Some (oi, last) =>
      o ← tab_e (origs t) !! Z.to_nat oi;
      let first := ent_b o =? 0 in
      let t := t <| origs ::= fun s => tab_put s oi (o <| ent_b := 1 |>) |> in
      t ← (if (last : bool) then remove_orig t oi else Some t);
      Some (if first then 1 else 0, t)
  end.

Definition mqvpn_redundant_tx_on_lost (t : mqvpn_redundant_tx_t) (id : Z) : option (Z * mqvpn_redundant_tx_t) :=
  '(r, t) ← resolve t id false;
  match r with
  | None => Some (-1, t)
  | Some (oi, last) =>
      o ← tab_e (origs t) !! Z.to_nat oi;
      let r := if (last : bool) && (ent_b o =? 0) then 1 else 0 in
      t ← (if (last : bool) then remove_orig t oi else Some t);
      Some (r, t)
  end.

(** ** Overload mode *)

Definition rtx_window_start (t : mqvpn_redundant_tx_t) (now_us : Z) : mqvpn_redundant_tx_t :=
  t <| win_start_us := if now_us =? 0 then 1 else now_us |> <| rpath ::= map (fun x => x <| racked := 0 |> <| hit := false |>) |>.

(** The lowest whole second of the history that is not empty. *)
Definition hist_base (t : mqvpn_redundant_tx_t) (pps : Z) : Z :=
  let base := foldl (fun base h => if negb (h =? 0) && ((base =? 0) || (h <? base)) then h else base) 0 (sec_hist t) in
  if base =? 0 then pps else base.

(** All usable paths short, some path able to carry the stream. *)
Fixpoint judge (t : mqvpn_redundant_tx_t) (usable : list Z) (el pps base : Z) (all_short fit : bool) : option (bool * bool) :=
  match usable with
  | [] => Some (all_short, fit)
  | p :: usable =>
      if negb (path_ok p) then judge t usable el pps base all_short fit
      else
        x ← path_at t p;
        let acked_pps := u64 (racked x * 1000000) / el in
        let fed := hit x || (u64 (inflight x + inflight x / 10) <? out_bytes x) in
        let all_short := if negb fed || (u64 (pps * 95) <=? u64 (acked_pps * 100)) then false else all_short in
        let fit := if u64 (base * 105) <=? u64 (est_bw x / RTX_PKT_BYTES * 100) then true else fit in
        judge t usable el pps base all_short fit
  end.

(** What a judgement does to the mode. *)
Definition mode_step (t : mqvpn_redundant_tx_t) (all_short fit : bool) (now_us : Z) : Z * mqvpn_redundant_tx_t :=
  if bool_decide (rmode t = RTX_OVERLOAD) then
    if (u64 (now_us - since_us t) <? hold_us t) || negb fit then (0, t)
    else (-1, t <| rmode := RTX_PROBE |> <| since_us := now_us |> <| short_n := 0 |>)
  else
    let t := if all_short && (RTX_START_GRACE <=? u64 (now_us - flow_since_us t)) then t <| short_n := short_n t + 1 |> else t <| short_n := 0 |> in
    let probe := bool_decide (rmode t = RTX_PROBE) in
    if (if probe then RTX_REENTER_N else RTX_ENTER_N) <=? short_n t then
      let t := if probe then
                 let h := u64 (hold_us t * 2) in
                 t <| hold_us := if RTX_HOLD_MAX <? h then RTX_HOLD_MAX else h |>
               else t in
      (1, t <| rmode := RTX_OVERLOAD |> <| since_us := now_us |>)
    else if probe && (RTX_PROBE_OK <=? u64 (now_us - since_us t)) then (0, t <| rmode := RTX_NORMAL |> <| hold_us := RTX_HOLD_FIRST |>)
    else (0, t).

Definition mqvpn_redundant_tx_update_mode (t : mqvpn_redundant_tx_t) (usable : list Z) (now_us : Z) : option (Z * mqvpn_redundant_tx_t) :=
  if (length usable =? 0)%nat then Some (0, t)
  else if negb (have_win t) || (now_us <? rlast_us t) || (RTX_IDLE <=? now_us - rlast_us t) || (now_us <? win_start_us t) ||
          (negb (win_start_us t =? 0) && (RTX_IDLE <=? now_us - win_start_us t)) then
    Some (if bool_decide (rmode t = RTX_OVERLOAD) then -1 else 0, rtx_mode_reset t)
  else if win_start_us t =? 0 then
    let t := rtx_window_start t now_us in Some (0, t <| flow_since_us := win_start_us t |>)
  else
    let el := now_us - win_start_us t in
    if el <? RTX_MODE_WIN then Some (0, t)
    else
      let pps := rtx_stream_pps t in
      let base := hist_base t pps in
      '(all_short, fit) ← judge t usable el pps base true false;
      let all_short := if u64 (pps * el) <? RTX_MIN_JUDGED * 1000000 then false else (all_short : bool) in
      let t := rtx_window_start t now_us in
      if pps =? 0 then Some (0, t) else Some (mode_step t all_short fit now_us).

Definition mqvpn_redundant_tx_overload_bypass (t : mqvpn_redundant_tx_t) (now_us : Z) : bool * mqvpn_redundant_tx_t :=
  if negb (bool_decide (rmode t = RTX_OVERLOAD)) then (false, t) else (true, rtx_count_rate t now_us).

(** ** Getters *)

Definition mqvpn_redundant_tx_outstanding (t : mqvpn_redundant_tx_t) (p : Z) : option Z :=
  if path_ok p then x ← path_at t p; Some (outstanding x) else Some 0.

Definition mqvpn_redundant_tx_stream_pps (t : mqvpn_redundant_tx_t) : Z := rtx_stream_pps t.
