(* ===== verification/RedundantProofs.v ===== *)
(** * Correctness of redundant transmission

    The tracker's counters are those of the copies in its table and every copy
    belongs to an original that is still tracked: the invariant, and what each
    of the tracker's functions does under it. *)

From S2P Require Import Prelude RtxTable RedundantTx.

#[local] Opaque tab_find tab_insert tab_remove.

(** ** Weights of a set of entries *)

Definition vals (m : gmap Z rtx_ent_t) : list rtx_ent_t := (map_to_list m).*2.

Definition tally (f : rtx_ent_t -> Z) (l : list rtx_ent_t) : Z := foldr (fun x s => f x + s) 0 l.

#[export] Instance tally_perm f : Proper (Permutation ==> eq) (tally f).
Proof. intros l l' Hp. unfold tally. induction Hp; cbn [foldr]; lia. Qed.

Lemma vals_insert m k x : m !! k = None -> vals (<[k := x]> m) ≡ₚ x :: vals m.
Proof. intros Hk. unfold vals. by rewrite map_to_list_insert. Qed.

Lemma vals_delete m k x : m !! k = Some x -> vals m ≡ₚ x :: vals (delete k m).
Proof. intros Hk. unfold vals. by rewrite <- (map_to_list_delete m k x Hk). Qed.

Lemma vals_update m k x y : m !! k = Some x -> vals (<[k := y]> m) ≡ₚ y :: vals (delete k m).
Proof. intros Hk. rewrite <- (insert_delete_eq m k). apply vals_insert. apply lookup_delete_eq. Qed.

Lemma vals_elem m x : x ∈ vals m <-> exists k, m !! k = Some x.
Proof.
  unfold vals. rewrite list_elem_of_fmap. split.
  - intros ([k y] & -> & Hy). exists k. by apply elem_of_map_to_list in Hy.
  - intros [k Hk]. exists (k, x). split; [done|]. by apply elem_of_map_to_list.
Qed.

Lemma tally_pos f l : Forall (fun x => 0 <= f x) l -> 0 <= tally f l.
Proof. unfold tally. induction 1; cbn [foldr]; lia. Qed.

Lemma tally_le f l x : Forall (fun x => 0 <= f x) l -> x ∈ l -> f x <= tally f l.
Proof.
  intros Hf Hx. apply list_elem_of_split in Hx as (l1 & l2 & ->). apply Forall_app in Hf as [H1 H2]. apply Forall_cons in H2 as [Hx H2].
  assert (Ha : tally f (l1 ++ x :: l2) = tally f l1 + (f x + tally f l2)) by (clear; unfold tally; induction l1 as [|y l1 IH]; cbn [foldr app]; lia).
  rewrite Ha. pose proof (tally_pos f l1 H1). pose proof (tally_pos f l2 H2). lia.
Qed.

Lemma tally_bound f l b : Forall (fun x => f x <= b) l -> tally f l <= b * Z.of_nat (length l).
Proof. unfold tally. induction 1; cbn [foldr length]; lia. Qed.

Lemma tally_ext f g l : Forall (fun x => f x = g x) l -> tally f l = tally g l.
Proof. unfold tally. induction 1 as [|x l Hx _ IH]; cbn [foldr]; [done|]. by rewrite Hx, IH. Qed.

Lemma tally_map f g l : tally f (map g l) = tally (fun x => f (g x)) l.
Proof. unfold tally. induction l as [|x l IH]; cbn [foldr map]; [done|]. by rewrite IH. Qed.

(** Copies on a path, their bytes, copies of an original. *)
Definition on_path (p : Z) (x : rtx_ent_t) : Z := if ent_b x =? p then 1 else 0.
Definition bytes_on (p : Z) (x : rtx_ent_t) : Z := if ent_b x =? p then ent_len x else 0.
Definition of_orig (k : Z) (x : rtx_ent_t) : Z := if ent_a x =? k then 1 else 0.

(** ** The invariant *)

Definition copy_ok (mo : gmap Z rtx_ent_t) (c : rtx_ent_t) : Prop :=
  is_Some (mo !! ent_a c) /\ -1 <= ent_b c < MQVPN_RTX_PATHS /\ 0 <= ent_len c <= UINT16_MAX.

Definition path_row_ok (mc : gmap Z rtx_ent_t) (p : Z) (x : rtx_path_t) : Prop :=
  outstanding x = tally (on_path p) (vals mc) /\ out_bytes x = tally (bytes_on p) (vals mc) /\ 0 <= rfirst x < RTX_CAP.

(** The original [ok] still waits for [r] copies to be recorded, or for its
    removal. *)
Definition orig_ok (mc : gmap Z rtx_ent_t) (ok r next k : Z) (o : rtx_ent_t) : Prop :=
  ent_a o = tally (of_orig k) (vals mc) + (if k =? ok then r else 0) /\ (k <> ok -> 0 < ent_a o) /\ 1 <= k <= next.

Record rtx_pend (ok r : Z) (t : mqvpn_redundant_tx_t) : Prop := {
  ri_copies : tab_wf (copies t);
  ri_origs : tab_wf (origs t);
  ri_paths : length (rpath t) = 8%nat;
  ri_sent : length (sent t) = 8%nat /\ Forall (fun l => length l = Z.to_nat RTX_CAP) (sent t);
  ri_next : 0 <= next_orig t;
  ri_copy id c : tab_map (copies t) !! id = Some c -> copy_ok (tab_map (origs t)) c;
  ri_orig k o : tab_map (origs t) !! k = Some o -> orig_ok (tab_map (copies t)) ok r (next_orig t) k o;
  ri_row p x : 0 <= p < MQVPN_RTX_PATHS -> rpath t !! Z.to_nat p = Some x -> path_row_ok (tab_map (copies t)) p x
}.

(** Between operations nothing is pending. *)
Definition rtx_inv (t : mqvpn_redundant_tx_t) : Prop := rtx_pend 0 0 t.

Lemma pend_zero ok t : rtx_pend ok 0 t -> (forall o, tab_map (origs t) !! ok = Some o -> 0 < ent_a o) -> rtx_inv t.
Proof.
  intros [H1 H2 H3 H4 H5 H6 H7 H8] Hz. split; try done. intros k o Ho. destruct (H7 k o Ho) as (E1 & E2 & E3).
  split_and!; [rewrite E1; repeat case_match; lia| |lia..]. intros _. destruct (decide (k = ok)) as [->|Hne]; [by apply Hz|by apply E2].
Qed.

Lemma inv_zero ok t : rtx_inv t -> rtx_pend ok 0 t.
Proof.
  intros [H1 H2 H3 H4 H5 H6 H7 H8]. split; try done. intros k o Ho. destruct (H7 k o Ho) as (E1 & E2 & E3).
  split_and!; [rewrite E1; repeat case_match; lia| |lia..]. intros _. apply E2. lia.
Qed.

Lemma path_lookup ok r t p : rtx_pend ok r t -> path_ok p = true -> exists x, path_at t p = Some x /\ 0 <= p < MQVPN_RTX_PATHS.
Proof.
  intros Hi Hp. unfold path_ok in Hp. bool_to_prop. unfold path_at.
  destruct (lookup_lt_is_Some_2 (rpath t) (Z.to_nat p)) as [x Hx]; [rewrite (ri_paths _ _ _ Hi); unfold MQVPN_RTX_PATHS in *; lia|]. by exists x.
Qed.

(** What an update of one row of the table of paths needs. *)
Lemma row_update (l : list rtx_path_t) p x (Q : Z -> rtx_path_t -> Prop) : length l = 8%nat -> 0 <= p < MQVPN_RTX_PATHS ->
  (forall q y, 0 <= q < MQVPN_RTX_PATHS -> q <> p -> l !! Z.to_nat q = Some y -> Q q y) -> Q p x ->
  forall q y, 0 <= q < MQVPN_RTX_PATHS -> <[Z.to_nat p := x]> l !! Z.to_nat q = Some y -> Q q y.
Proof.
  intros Hl Hp Ho Hx q y Hq Hy. destruct (decide (q = p)) as [->|Hne].
  - rewrite list_lookup_insert_eq in Hy by (rewrite Hl; unfold MQVPN_RTX_PATHS in *; lia). by injection Hy as <-.
  - rewrite list_lookup_insert_ne in Hy by lia. by apply Ho.
Qed.

(** Fields that the invariant does not read. *)
Definition same_core (t t' : mqvpn_redundant_tx_t) : Prop :=
  copies t' = copies t /\ origs t' = origs t /\ next_orig t' = next_orig t /\ sent t' = sent t /\
  Forall2 (fun x x' => outstanding x' = outstanding x /\ out_bytes x' = out_bytes x /\ rfirst x' = rfirst x) (rpath t) (rpath t').

Lemma same_core_refl t : same_core t t.
Proof. split_and!; try done. apply Forall_Forall2_diag, Forall_true. done. Qed.

Lemma same_core_eq t t' : copies t' = copies t -> origs t' = origs t -> next_orig t' = next_orig t -> sent t' = sent t -> rpath t' = rpath t -> same_core t t'.
Proof. intros E1 E2 E3 E4 E5. split_and!; try done. rewrite E5. apply Forall_Forall2_diag, Forall_true. done. Qed.

Lemma same_core_inv ok r t t' : same_core t t' -> rtx_pend ok r t -> rtx_pend ok r t'.
Proof.
  intros (Ec & Eo & En & Es & Ep) [Hc Ho Hp Hs Hn H1 H2 H3]. split; rewrite ?Ec, ?Eo, ?En, ?Es; try done.
  - by rewrite <- (Forall2_length _ _ _ Ep).
  - intros p x' Hp' Hx'. destruct (Forall2_lookup_r _ _ _ _ _ Ep Hx') as (x & Hx & E1 & E2 & E3). unfold path_row_ok. rewrite E1, E2, E3. by apply H3.
Qed.

Lemma same_core_put t p x x' : rpath t !! Z.to_nat p = Some x ->
  outstanding x' = outstanding x /\ out_bytes x' = out_bytes x /\ rfirst x' = rfirst x -> same_core t (path_put p x' t).
Proof.
  intros Hx Hs. split_and!; try done. cbn [path_put rpath update]. rewrite <- (list_insert_id _ _ _ Hx) at 1. apply Forall2_insert; [|done].
  apply Forall_Forall2_diag, Forall_true. done.
Qed.

Lemma same_core_trans t1 t2 t3 : same_core t1 t2 -> same_core t2 t3 -> same_core t1 t3.
Proof.
  intros (A1 & A2 & A3 & A4 & A5) (B1 & B2 & B3 & B4 & B5). split_and!; try congruence.
  eapply Forall2_trans; [|exact A5|exact B5]. intros x y z (?&?&?) (?&?&?). split_and!; congruence.
Qed.

(** ** Steps that leave the tables alone *)

Lemma count_rate_core t now : same_core t (rtx_count_rate t now).
Proof.
  unfold rtx_count_rate. set (t1 := if have_win t && _ then _ else t). assert (H1 : same_core t t1) by (unfold t1; destruct (_ && _); by apply same_core_eq).
  clearbody t1. eapply same_core_trans; [exact H1|]. clear H1. cbv zeta.
  repeat (match goal with |- context [if ?b then _ else _] => destruct b end); by apply same_core_eq.
Qed.

Lemma window_core t now : same_core t (rtx_window_start t now).
Proof.
  split_and!; try done. unfold rtx_window_start. cbn [rpath update]. induction (rpath t) as [|x l IH]; cbn; constructor; [done|exact IH].
Qed.

Lemma mode_reset_core t : same_core t (rtx_mode_reset t).
Proof. by apply same_core_eq. Qed.

(** ** Selecting *)

Lemma queued_total t p now : rtx_inv t -> path_ok p = true -> exists q, rtx_queued_us t p now = Some q.
Proof.
  intros Hi Hp. destruct (path_lookup _ _ _ _ Hi Hp) as (x & Hx & Hr). unfold rtx_queued_us. rewrite Hx. cbn. destruct (outstanding x =? 0); [by eexists|].
  destruct (ri_sent _ _ _ Hi) as [Hl Hf]. destruct (lookup_lt_is_Some_2 (sent t) (Z.to_nat p)) as [l Hl']; [rewrite Hl; unfold MQVPN_RTX_PATHS in *; lia|].
  rewrite Hl'. cbn. destruct (ri_row _ _ _ Hi p x Hr Hx) as (_ & _ & Hfi). pose proof (Forall_lookup_1 _ _ _ _ Hf Hl') as Hlen.
  destruct (lookup_lt_is_Some_2 l (Z.to_nat (rfirst x))) as [s ->]; [rewrite Hlen; lia|]. by eexists.
Qed.

(** The queue of a path, zero when it is not one. *)
Definition queue (t : mqvpn_redundant_tx_t) (now p : Z) : Z := default 0 (rtx_queued_us t p now).

Definition usable_ok (usable : list Z) : list Z := List.filter path_ok usable.

Lemma select_best_spec t usable now best : rtx_inv t ->
  (forall bp bq bo, best = Some (bp, bq, bo) -> bq = queue t now bp /\ path_ok bp = true) ->
  exists best', select_best t usable now best = Some best' /\ (best' = None -> best = None /\ usable_ok usable = []) /\
    forall bp bq bo, best' = Some (bp, bq, bo) -> bq = queue t now bp /\ path_ok bp = true /\
      (bp ∈ usable \/ exists bq' bo', best = Some (bp, bq', bo')) /\
      (forall p, p ∈ usable -> path_ok p = true -> bq <= queue t now p) /\ (forall p q o, best = Some (p, q, o) -> bq <= q).
Proof.
  intros Hi. revert best. induction usable as [|p usable IH]; intros best Hb; cbn [select_best].
  { exists best. split; [done|]. split; [done|]. intros bp bq bo ->. destruct (Hb bp bq bo eq_refl). split_and!; try done; [right; by eauto|by intros ? ?%elem_of_nil|].
    intros p q o [= <- <- <-]. lia. }
  cbn [usable_ok List.filter]. destruct (path_ok p) eqn:Ep; cbn [negb].
  - destruct (queued_total t p now Hi Ep) as [q Hq]. destruct (path_lookup _ _ _ _ Hi Ep) as (x & Hx & _). rewrite Hq. cbn. rewrite Hx. cbn.
    assert (Eq : queue t now p = q) by (unfold queue; by rewrite Hq).
    match goal with |- context [select_best t usable now ?b] => set (b' := b) end.
    destruct (IH b') as (best' & E & Hn & Hs).
    { unfold b'. case_match; [intros ? ? ? [= <- <- <-]; done|done]. }
    exists best'. split; [done|]. split.
    + intros ->. destruct (Hn eq_refl) as [Hb' _]. unfold b' in Hb'. destruct best as [[[? ?] ?]|]; [|done]. by case_match.
    + intros bp bq bo ->. destruct (Hs bp bq bo eq_refl) as (H1 & H2 & H3 & H4 & H5). split_and!; try done.
      * destruct H3 as [H3|(bq' & bo' & H3)]; [left; by right|]. unfold b' in H3. case_match; [|right; by eauto]. injection H3 as -> _ _. left. by left.
      * intros p' [->|Hp']%elem_of_cons Hok; [|by apply H4]. rewrite Eq. unfold b' in H5. destruct best as [[[cp cq] co]|]; [|by apply (H5 p q (outstanding x))].
        case_match eqn:Eb; [by apply (H5 p q (outstanding x))|]. specialize (H5 cp cq co eq_refl). apply orb_false_iff in Eb as [Eb _]. bool_to_prop. lia.
      * intros p' q' o' Eb. unfold b' in H5. rewrite Eb in H5. case_match eqn:Ec; [|by apply (H5 p' q' o')]. specialize (H5 p q _ eq_refl).
        apply orb_true_iff in Ec as [Ec|Ec]; bool_to_prop; lia.
  - destruct (IH best Hb) as (best' & E & Hn & Hs). exists best'. split; [done|]. split; [done|].
    intros bp bq bo ->. destruct (Hs bp bq bo eq_refl) as (H1 & H2 & H3 & H4 & H5). split_and!; try done.
    + destruct H3 as [H3|H3]; [left; by right|by right].
    + intros p' [->|Hp']%elem_of_cons Hok; [congruence|by apply H4].
Qed.

(** A tracker in which select left some paths out. *)
Definition marked (t t' : mqvpn_redundant_tx_t) : Prop :=
  t' = t <| rpath := rpath t' |> /\ Forall2 (fun x x' => x' = x <| hit := hit x' |>) (rpath t) (rpath t').

Lemma marked_refl t : marked t t.
Proof. split; [by destruct t|]. apply Forall_Forall2_diag, Forall_forall. intros [] _. done. Qed.

Lemma marked_trans t1 t2 t3 : marked t1 t2 -> marked t2 t3 -> marked t1 t3.
Proof.
  intros [A1 A2] [B1 B2]. split; [rewrite B1, A1; done|]. eapply Forall2_trans; [|exact A2|exact B2]. intros x y z -> ->. done.
Qed.

Lemma marked_put t p x : path_at t p = Some x -> marked t (path_put p (x <| hit := true |>) t).
Proof.
  intros Hx. split; [done|]. cbn [path_put rpath update]. unfold path_at in Hx. rewrite <- (list_insert_id _ _ _ Hx) at 1. apply Forall2_insert; [|done].
  apply Forall_Forall2_diag, Forall_forall. intros [] _. done.
Qed.

Lemma marked_core t t' : marked t t' -> same_core t t'.
Proof. intros [E Hf]. split_and!; try (rewrite E; done). eapply Forall2_impl; [exact Hf|]. intros x x' ->. done. Qed.

Lemma marked_queue t t' now p : marked t t' -> rtx_queued_us t' p now = rtx_queued_us t p now.
Proof.
  intros [E Hf]. unfold rtx_queued_us, path_at. assert (Es : sent t' = sent t) by (by rewrite E). rewrite Es. clear E Es.
  pose proof (Forall2_length _ _ _ Hf) as Hl. destruct (rpath t !! Z.to_nat p) as [x|] eqn:Ex.
  - destruct (Forall2_lookup_l _ _ _ _ _ Hf Ex) as (x' & -> & ->). done.
  - apply lookup_ge_None in Ex. rewrite Hl in Ex. apply lookup_ge_None in Ex. by rewrite Ex.
Qed.

(** The rule of the gate. *)
Definition admitted_path (t : mqvpn_redundant_tx_t) (now bp bq p : Z) : bool :=
  if RTX_LAG <? bq then p =? bp else queue t now p <=? u64 (bq + RTX_LAG).

Lemma select_pass_spec t usable now bp bq out : rtx_inv t ->
  exists t', select_pass t usable now bp bq out = Some (out ++ List.filter (admitted_path t now bp bq) (usable_ok usable), t') /\ marked t t'.
Proof.
  revert t out. induction usable as [|p usable IH]; intros t out Hi; cbn [select_pass usable_ok List.filter].
  { exists t. rewrite app_nil_r. split; [done|apply marked_refl]. }
  destruct (path_ok p) eqn:Ep; cbn [negb List.filter]; [|by apply IH].
  destruct (queued_total t p now Hi Ep) as [q Hq]. rewrite Hq. cbn [mbind option_bind]. unfold admitted_path at 1. unfold queue at 1. rewrite Hq. cbn [default from_option id].
  destruct (if RTX_LAG <? bq then p =? bp else q <=? u64 (bq + RTX_LAG)) eqn:Ea.
  - destruct (IH t (out ++ [p]) Hi) as (t' & E & Hm). exists t'. split; [|done]. rewrite E. by rewrite <- app_assoc.
  - destruct (path_lookup _ _ _ _ Hi Ep) as (x & Hx & _). rewrite Hx. cbn [mbind option_bind]. pose proof (marked_put t p x Hx) as Hm.
    destruct (IH (path_put p (x <| hit := true |>) t) out) as (t' & E & Hm'); [by eapply same_core_inv, Hi; apply marked_core|].
    exists t'. split; [|by eapply marked_trans]. rewrite E. do 3 f_equal. apply List.filter_ext. intros p'. unfold admitted_path, queue. by rewrite (marked_queue _ _ _ _ Hm).
Qed.

(** What select answers. *)
Lemma select_spec t usable now : rtx_inv t ->
  exists out t', mqvpn_redundant_tx_select t usable now = Some (out, t') /\ marked t t' /\
    (out = [] \/ tab_n (copies t) + Z.of_nat (length out) <= RTX_CAP /\ tab_n (origs t) < RTX_CAP) /\
    (usable_ok usable <> [] -> tab_n (origs t) < RTX_CAP -> tab_n (copies t) < RTX_CAP ->
     exists bp, bp ∈ usable /\ path_ok bp = true /\ (forall p, p ∈ usable -> path_ok p = true -> queue t now bp <= queue t now p) /\
       out = take (Z.to_nat (RTX_CAP - tab_n (copies t))) (List.filter (admitted_path t now bp (queue t now bp)) (usable_ok usable)) /\ out <> []).
Proof.
  intros Hi. unfold mqvpn_redundant_tx_select. destruct usable as [|p0 us] eqn:Eus; cbn [length Nat.eqb].
  { exists [], t. split_and!; [done|apply marked_refl|by left|]. done. }
  rewrite <- Eus. destruct (Z.leb_spec RTX_CAP (tab_n (origs t))) as [Ho|Ho].
  { exists [], t. split_and!; [done|apply marked_refl|by left|lia]. }
  destruct (select_best_spec t usable now None Hi) as (best & -> & Hn & Hs); [done|]. cbn. destruct best as [[[bp bq] bo]|]; cycle 1.
  { exists [], t. destruct (Hn eq_refl) as [_ Hu]. split_and!; [done|apply marked_refl|by left|by intros []]. }
  destruct (Hs bp bq bo eq_refl) as (-> & Hok & [Hin|(? & ? & ?)] & Hmin & _); [|done].
  destruct (select_pass_spec t usable now bp (queue t now bp) [] Hi) as (t' & -> & Hm). cbn.
  assert (Ec : copies t' = copies t) by (destruct Hm as [-> _]; done). rewrite Ec. set (out := List.filter _ _).
  assert (Hcap : tab_n (copies t) <= RTX_CAP) by (apply (tw_cap _ (ri_copies _ _ _ Hi))).
  exists (take (Z.to_nat (RTX_CAP - tab_n (copies t))) out), t'. split_and!; [|done| |].
  - do 2 f_equal. destruct (Z.ltb_spec (Z.of_nat (length out)) (RTX_CAP - tab_n (copies t))); [|done]. rewrite !take_ge by lia. done.
  - right. split; [|done]. rewrite length_take. lia.
  - intros Hne _ Hc. exists bp. split_and!; try done. intros Ht. assert (Hbp : bp ∈ out).
    { apply list_elem_of_In. unfold out. apply List.filter_In. split; [apply List.filter_In; split; [by apply list_elem_of_In|done]|].
      unfold admitted_path. destruct (RTX_LAG <? queue t now bp) eqn:El; [apply Z.eqb_refl|]. bool_to_prop.
      assert (0 <= queue t now bp).
      { unfold queue. destruct (queued_total t bp now Hi Hok) as [q Hq]. rewrite Hq. cbn. revert Hq. unfold rtx_queued_us.
        destruct (path_at t bp); cbn; [|done]. destruct (_ =? 0); [intros [= <-]; lia|]. destruct (sent t !! _); cbn; [|done]. destruct (_ !! _); cbn; [|done].
        intros [= <-]. case_match; bool_to_prop; lia. }
      rewrite u64_small by (unfold RTX_LAG in *; lia). unfold RTX_LAG. apply Z.leb_le. lia. }
    destruct out as [|y out']; [by apply elem_of_nil in Hbp|]. revert Ht. destruct (Z.to_nat (RTX_CAP - tab_n (copies t))) eqn:En; [lia|]. done.
Qed.


(** ** Detaching, binding and metrics *)

Lemma used_ents_map (f : rtx_ent_t -> rtx_ent_t) e : (forall x, ent_used (f x) = ent_used x) -> used_ents (map f e) = map f (used_ents e).
Proof.
  intros Hu. unfold used_ents. induction e as [|x e IH]; [done|]. cbn [map]. rewrite !filter_cons, IH. repeat case_decide; try done; rewrite Hu in *; congruence.
Qed.

Lemma tab_map_ents (f : rtx_ent_t -> rtx_ent_t) t : tab_wf t -> (forall x, ent_used (f x) = ent_used x /\ ent_key (f x) = ent_key x) ->
  tab_wf (t <| tab_e ::= map f |>) /\ tab_map (t <| tab_e ::= map f |>) = f <$> tab_map t.
Proof.
  intros Hw Hf. assert (Hu : forall x, ent_used (f x) = ent_used x) by apply Hf. assert (Hk : forall l, ent_key <$> map f l = ent_key <$> l).
  { intros l. induction l as [|x l IH]; [done|]. cbn [map]. rewrite !fmap_cons, IH. f_equal. apply Hf. }
  assert (Hl : forall i, map f (tab_e t) !! i = f <$> tab_e t !! i) by (intros i; apply list_lookup_fmap).
  assert (Hua : forall i, used_at (map f (tab_e t)) i = used_at (tab_e t) i) by (intros i; unfold used_at; rewrite Hl; destruct (tab_e t !! _); [apply Hu|done]).
  split.
  - split; cbn [tab_e tab_n update]; rewrite ?used_ents_map, ?length_map, ?Hk by done; [apply Hw..|].
    intros i y Hi Hy Huy z Hz Hd. rewrite Hl in Hy. destruct (tab_e t !! Z.to_nat i) as [x|] eqn:Hx; [|done]. injection Hy as <-. rewrite Hu in Huy.
    destruct (Hf x) as [_ E]. rewrite E in Hd. rewrite Hua. by apply (tw_probe _ Hw i x).
  - unfold tab_map, ents_map. cbn [tab_e update]. rewrite used_ents_map by done. induction (used_ents (tab_e t)) as [|x l IH]; [cbn; by rewrite fmap_empty|].
    cbn [map]. rewrite !fmap_cons. cbn [list_to_map foldr]. rewrite IH, fmap_insert. destruct (Hf x) as [_ ->]. done.
Qed.

Lemma tally_fmap h (f : rtx_ent_t -> rtx_ent_t) m : tally h (vals (f <$> m)) = tally (fun x => h (f x)) (vals m).
Proof.
  rewrite <- (tally_map h f). unfold vals. rewrite map_to_list_fmap. f_equal. induction (map_to_list m) as [|[k x] l IH]; [done|]. cbn. by rewrite IH.
Qed.

Lemma used_vals t : tab_wf t -> Forall (fun x => ent_used x = true) (vals (tab_map t)).
Proof. intros Hw. apply Forall_forall. intros x [k Hk]%vals_elem. by apply tab_map_lookup in Hk as (_ & ? & _). Qed.

Lemma detach_spec t p : rtx_inv t -> exists t', mqvpn_redundant_tx_detach_path t p = Some t' /\ rtx_inv t' /\ origs t' = origs t /\ next_orig t' = next_orig t /\
  dom (tab_map (copies t')) = dom (tab_map (copies t)).
Proof.
  intros Hi. unfold mqvpn_redundant_tx_detach_path. destruct (path_ok p) eqn:Ep; cbn [negb]; [|by exists t].
  destruct (path_lookup _ _ _ _ Hi Ep) as (x & Hx & Hr). rewrite Hx. cbn [mbind option_bind]. destruct (outstanding x =? 0); [by exists t|].
  eexists. split; [done|]. destruct (tab_map_ents (detach_ent p) (copies t)) as [Hw Hm]; [apply Hi|by intros y; unfold detach_ent; case_match|].
  destruct Hi as [H1 H2 H3 H4 H5 H6 H7 H8]. pose proof (used_vals _ H1) as Hu. set (c' := (copies t) <| tab_e ::= map (detach_ent p) |>) in *.
  match goal with |- rtx_inv ?t0 /\ _ => set (t' := t0) end. assert (Ec : copies t' = c') by done. assert (Eo : origs t' = origs t) by done.
  assert (Ho : forall k, tally (of_orig k) (vals (tab_map c')) = tally (of_orig k) (vals (tab_map (copies t)))).
  { intros k. rewrite Hm, tally_fmap. apply tally_ext, Forall_true. intros y. unfold detach_ent. by case_match. }
  split; [|split_and!; [done|done|rewrite Ec, Hm; apply dom_fmap_L]].
  split; rewrite ?Ec, ?Eo; try done; cbn [t' rpath path_put update].
  - by rewrite length_insert.
  - intros id c Hc. rewrite Hm, lookup_fmap in Hc. destruct (tab_map (copies t) !! id) as [c0|] eqn:E0; [|done]. injection Hc as <-.
    destruct (H6 id c0 E0) as (Ha & Hb & Hl). unfold copy_ok, detach_ent. unfold MQVPN_RTX_PATHS in *. case_match; split_and!; try done; cbn [ent_b ent_len update]; lia.
  - intros k o Hk. unfold orig_ok. change (next_orig _) with (next_orig t). rewrite Ho. by apply H7.
  - apply (row_update (rpath t) p); [done|done| |].
    + intros q y Hq Hne Hy. unfold path_row_ok. rewrite Hm, !tally_fmap. destruct (H8 q y Hq Hy) as (E1 & E2 & E3). rewrite E1, E2.
      split_and!; [apply tally_ext, Forall_true; intros z; unfold on_path, bytes_on, detach_ent; destruct (ent_used z && (ent_b z =? p)) eqn:Ed; [|done]; apply andb_true_iff in Ed as [_ Ed]; bool_to_prop; cbn [ent_b update]; repeat case_match; bool_to_prop; lia..|lia|lia].
    + unfold path_row_ok. rewrite Hm, !tally_fmap. destruct (H8 p x Hr Hx) as (_ & _ & E3).
      assert (Hz : forall h, (forall z, ent_used z = true -> h (detach_ent p z) = 0) -> tally (fun z => h (detach_ent p z)) (vals (tab_map (copies t))) = 0).
      { intros h Hh. rewrite (tally_ext _ (fun _ => 0)); [clear; unfold tally; induction (vals _); cbn [foldr]; [done|lia]|]. eapply Forall_impl; [exact Hu|done]. }
      rewrite !Hz; [done|intros z Hz'; unfold on_path, bytes_on, detach_ent; rewrite Hz'; cbn [andb]; destruct (Z.eqb_spec (ent_b z) p); cbn; repeat case_match; bool_to_prop; lia..].
Qed.

Lemma bind_spec t p xid : rtx_inv t -> exists t', mqvpn_redundant_tx_bind_path t p xid = Some t' /\ rtx_inv t' /\ origs t' = origs t /\ next_orig t' = next_orig t /\
  dom (tab_map (copies t')) = dom (tab_map (copies t)).
Proof.
  intros Hi. unfold mqvpn_redundant_tx_bind_path. destruct (path_ok p) eqn:Ep; cbn [negb]; [|by exists t].
  destruct (path_lookup _ _ _ _ Hi Ep) as (x & Hx & Hr). rewrite Hx. cbn [mbind option_bind].
  assert (Hd : exists t1, (if bound x && negb (xqc_id x =? xid) then mqvpn_redundant_tx_detach_path t p else Some t) = Some t1 /\ rtx_inv t1 /\ origs t1 = origs t /\
    next_orig t1 = next_orig t /\ dom (tab_map (copies t1)) = dom (tab_map (copies t))) by (case_match; [by apply detach_spec|by exists t]).
  destruct Hd as (t1 & -> & Hi1 & Eo & En & Ec). cbn [mbind option_bind]. destruct (path_lookup _ _ _ _ Hi1 Ep) as (y & Hy & _). rewrite Hy. cbn [mbind option_bind].
  eexists. split; [done|]. split_and!; try done. eapply same_core_inv; [|exact Hi1]. by eapply same_core_put.
Qed.

Lemma metrics_spec t p rtt bw infl : rtx_inv t -> exists t', mqvpn_redundant_tx_set_path_metrics t p rtt bw infl = Some t' /\ same_core t t'.
Proof.
  intros Hi. unfold mqvpn_redundant_tx_set_path_metrics. destruct (path_ok p) eqn:Ep; cbn [negb]; [|exists t; split; [done|apply same_core_refl]].
  destruct (path_lookup _ _ _ _ Hi Ep) as (x & Hx & _). rewrite Hx. cbn [mbind option_bind]. eexists. split; [done|]. by eapply same_core_put.
Qed.

(** ** Committing *)

Lemma vals_length m : length (vals m) = size m.
Proof. unfold vals. rewrite length_fmap. apply length_map_to_list. Qed.

Lemma bytes_bound t mo p : tab_wf t -> (forall id c, tab_map t !! id = Some c -> copy_ok mo c) ->
  0 <= tally (bytes_on p) (vals (tab_map t)) <= UINT16_MAX * tab_n t.
Proof.
  intros Hw Hc. assert (Hf : Forall (fun x => 0 <= bytes_on p x <= UINT16_MAX) (vals (tab_map t))).
  { apply Forall_forall. intros x [k Hk]%vals_elem. destruct (Hc k x Hk) as (_ & _ & Hl). unfold bytes_on. case_match; [done|]. unfold UINT16_MAX. lia. }
  split; [apply tally_pos; eapply Forall_impl; [exact Hf|intros x Hx; apply Hx]|]. rewrite (tab_n_size _ Hw), <- vals_length. apply tally_bound.
  eapply Forall_impl; [exact Hf|]. intros x Hx. apply Hx.
Qed.

Lemma mask_cap z : 0 <= z -> Z.land z (RTX_CAP - 1) = z mod RTX_CAP.
Proof. intros. change (RTX_CAP - 1) with (2 ^ 14 - 1). rewrite land_ones_mod by lia. done. Qed.

Lemma commit_copy_spec ok r bytes now t id p : rtx_pend ok (r + 1) t -> is_Some (tab_map (origs t) !! ok) -> tab_map (copies t) !! id = None ->
  tab_n (copies t) < RTX_CAP -> 0 <= bytes <= UINT16_MAX ->
  exists t', commit_copy ok bytes now t id p = Some t' /\ rtx_pend ok r t' /\ origs t' = origs t /\ next_orig t' = next_orig t /\
    dom (tab_map (copies t')) = {[id]} ∪ dom (tab_map (copies t)) /\ tab_n (copies t') = tab_n (copies t) + 1.
Proof.
  intros Hi Ho Hid Hn Hb. unfold commit_copy. destruct (tab_insert_spec (copies t) id) as (i & tab & -> & Hw & Hm & Hsl & Hx & Hn'); [apply Hi|done..|].
  cbn [mbind option_bind]. rewrite Hx. cbn [mbind option_bind]. set (b := if path_ok p then p else -1). set (c := (ent_new id) <| ent_a := ok |> <| ent_b := b |> <| ent_len := bytes |>).
  destruct (tab_put_spec tab i (ent_new id) c) as [Hw' Hm']; [done..|]. set (tab' := tab_put tab i c) in *. change (ent_key (ent_new id)) with id in Hm'. rewrite Hm, insert_insert_eq in Hm'.
  assert (Hv : vals (tab_map tab') ≡ₚ c :: vals (tab_map (copies t))) by (rewrite Hm'; by apply vals_insert).
  assert (Hnt : tab_n tab' = tab_n (copies t) + 1) by done. clear Hw Hm Hx Hn'. clearbody tab'.
  assert (Hbr : -1 <= b < MQVPN_RTX_PATHS) by (unfold b; destruct (path_ok p) eqn:Ep; unfold path_ok, MQVPN_RTX_PATHS in *; bool_to_prop; lia).
  destruct Hi as [H1 H2 H3 [H4 H4'] H5 H6 H7 H8].
  assert (Hcopy : forall id' c', tab_map tab' !! id' = Some c' -> copy_ok (tab_map (origs t)) c').
  { intros id' c' Hc'. rewrite Hm' in Hc'. apply lookup_insert_Some in Hc' as [[<- <-]|[_ Hc']]; [done|by apply (H6 id')]. }
  assert (Horig : forall k o, tab_map (origs t) !! k = Some o -> orig_ok (tab_map tab') ok r (next_orig t) k o).
  { intros k o Hk. destruct (H7 k o Hk) as (E1 & E2 & E3). split; [|done]. rewrite Hv, E1. unfold tally. cbn [foldr]. unfold of_orig at 2. cbn [ent_a c update].
    rewrite (Z.eqb_sym ok k). case_match; lia. }
  assert (Hdom : dom (tab_map tab') = {[id]} ∪ dom (tab_map (copies t))) by (by rewrite Hm', dom_insert_L).
  destruct (Z.leb_spec 0 b) as [Hb0|Hb0].
  - unfold path_at. cbn [rpath sent update]. destruct (lookup_lt_is_Some_2 (rpath t) (Z.to_nat b)) as [y Hy]; [rewrite H3; unfold MQVPN_RTX_PATHS in *; lia|].
    destruct (lookup_lt_is_Some_2 (sent t) (Z.to_nat b)) as [l Hl]; [rewrite H4; unfold MQVPN_RTX_PATHS in *; lia|]. rewrite Hy. cbn [mbind option_bind]. rewrite Hl. cbn [mbind option_bind].
    eexists. split; [done|]. split; [|split_and!; done]. split; try done; cbn [rpath sent path_put update].
    + by rewrite length_insert.
    + rewrite length_insert. split; [done|]. apply Forall_insert; [done|]. rewrite length_insert. exact (Forall_lookup_1 _ _ _ _ H4' Hl).
    + destruct (H8 b y (conj Hb0 (proj2 Hbr)) Hy) as (E1 & E2 & E3). apply (row_update (rpath t) b); [done|lia| |].
      * intros q z Hq Hne Hz. destruct (H8 q z Hq Hz) as (F1 & F2 & F3). unfold path_row_ok. rewrite Hv. unfold tally. cbn [foldr]. unfold on_path at 1, bytes_on at 1.
        change (ent_b c) with b. rewrite (proj2 (Z.eqb_neq b q)) by lia. done.
      * unfold path_row_ok. rewrite Hv. unfold tally. cbn [foldr]. unfold on_path at 1, bytes_on at 1. change (ent_b c) with b. rewrite Z.eqb_refl. cbn [outstanding out_bytes rfirst update ent_len c].
        pose proof (bytes_bound _ _ b H1 H6) as Hbb. rewrite u64_small by (rewrite E2; unfold RTX_CAP, UINT16_MAX in *; lia). rewrite E1, E2. unfold tally. lia.
  - eexists. split; [done|]. split; [|split_and!; done]. split; try done. intros q z Hq Hz. destruct (H8 q z Hq Hz) as (F1 & F2 & F3). unfold path_row_ok. cbn [copies update].
    rewrite Hv. unfold tally. cbn [foldr]. unfold on_path at 1, bytes_on at 1. change (ent_b c) with b. rewrite (proj2 (Z.eqb_neq b q)) by lia. done.
Qed.

Lemma commit_loop_spec ok bytes now t cs o : rtx_pend ok (Z.of_nat (length cs)) t -> tab_map (origs t) !! ok = Some o -> 0 < ent_a o ->
  NoDup cs.*1 -> (forall id, id ∈ cs.*1 -> tab_map (copies t) !! id = None) ->
  tab_n (copies t) + Z.of_nat (length cs) <= RTX_CAP -> 0 <= bytes <= UINT16_MAX ->
  exists t', commit_loop ok bytes now t cs = Some t' /\ rtx_inv t' /\ origs t' = origs t /\ next_orig t' = next_orig t /\
    dom (tab_map (copies t')) = list_to_set cs.*1 ∪ dom (tab_map (copies t)).
Proof.
  intros Hi Ho Ho0. revert t Hi Ho. induction cs as [|[id p] cs IH]; intros t Hi Ho Hnd Hfr Hn Hb; cbn [commit_loop length] in *.
  { exists t. split; [done|]. split; [apply (pend_zero ok); [done|]; intros o' E; rewrite Ho in E; by injection E as <-|]. cbn. split_and!; try done. by rewrite union_empty_l_L. }
  cbn [fmap list_fmap fst] in Hnd, Hfr. apply NoDup_cons in Hnd as [Hnin Hnd].
  destruct (commit_copy_spec ok (Z.of_nat (length cs)) bytes now t id p) as (t1 & -> & Hi1 & Eo & En & Ed & Ec); [by replace (_ + 1) with (Z.of_nat (S (length cs))) by lia|by eexists|apply Hfr; by left|lia|done|].
  cbn [mbind option_bind]. destruct (IH t1) as (t2 & -> & Hi2 & Eo2 & En2 & Ed2); [done|by rewrite Eo|done| |lia|done|].
  - intros id' Hid'. apply not_elem_of_dom. rewrite Ed. apply not_elem_of_union. split; [|apply not_elem_of_dom, Hfr; by right].
    intros ->%elem_of_singleton. done.
  - exists t2. split_and!; try done; [congruence|congruence|]. rewrite Ed2, Ed. cbn. rewrite (assoc_L (∪)). f_equal. apply (comm_L (∪)).
Qed.

(** The copies are not recorded. *)
Definition commit_full (t : mqvpn_redundant_tx_t) (cs : list (Z * Z)) : bool :=
  (Z.of_nat (length cs) <=? 0) || (RTX_CAP <=? tab_n (origs t)) || (RTX_CAP <? tab_n (copies t) + Z.of_nat (length cs)).

Lemma tally_zero f l : Forall (fun x => f x = 0) l -> tally f l = 0.
Proof. unfold tally. induction 1; cbn [foldr]; lia. Qed.

(** No copy belongs to a key that is not tracked. *)
Lemma untracked_orig ok r t k : rtx_pend ok r t -> tab_map (origs t) !! k = None -> tally (of_orig k) (vals (tab_map (copies t))) = 0.
Proof.
  intros Hi Hk. apply tally_zero, Forall_forall. intros x [id Hid]%vals_elem. destruct (ri_copy _ _ _ Hi id x Hid) as ([o Ho] & _).
  unfold of_orig. destruct (Z.eqb_spec (ent_a x) k); congruence.
Qed.

Lemma commit_spec t cs now len : rtx_inv t -> NoDup cs.*1 -> (forall id, id ∈ cs.*1 -> tab_map (copies t) !! id = None) ->
  next_orig t + 1 < 2 ^ 64 -> 0 <= len ->
  exists t', mqvpn_redundant_tx_commit t cs now len = Some t' /\ rtx_inv t' /\
    if commit_full t cs then t' = t
    else next_orig t' = next_orig t + 1 /\ tab_map (origs t) !! (next_orig t + 1) = None /\
      tab_map (origs t') = <[next_orig t + 1 := Ent (next_orig t + 1) (Z.of_nat (length cs)) 0 true 0]> (tab_map (origs t)) /\
      dom (tab_map (copies t')) = list_to_set cs.*1 ∪ dom (tab_map (copies t)).
Proof.
  intros Hi Hnd Hfr Hnx Hlen. unfold mqvpn_redundant_tx_commit. fold (commit_full t cs). destruct (commit_full t cs) eqn:Ef; [by exists t|].
  unfold commit_full in Ef. apply orb_false_iff in Ef as [[Ek Eo]%orb_false_iff Ec]. bool_to_prop. cbv zeta.
  pose proof (count_rate_core t now) as Hcore. set (t1 := rtx_count_rate t now) in *. clearbody t1. pose proof (same_core_inv _ _ _ _ Hcore Hi) as Hi1.
  destruct Hcore as (Cc & Co & Cn & _ & _). rewrite <- Cc in *. rewrite <- Co in *. rewrite <- Cn in *. clear t Hi Cc Co Cn. rename t1 into t.
  pose proof (ri_next _ _ _ Hi1). rewrite u64_small by lia. set (ok := next_orig t + 1) in *.
  assert (Hno : tab_map (origs t) !! ok = None) by (apply eq_None_not_Some; intros [o Ho]; destruct (ri_orig _ _ _ Hi1 ok o Ho) as (_ & _ & ?); lia).
  destruct (tab_insert_spec (origs t) ok) as (i & tab & -> & Hw & Hm & Hsl & Hx & Hn'); [apply Hi1|lia|done|]. cbn [mbind option_bind]. rewrite Hx. cbn [mbind option_bind].
  set (o := (ent_new ok) <| ent_a := Z.of_nat (length cs) |>). destruct (tab_put_spec tab i (ent_new ok) o) as [Hw' Hm']; [done..|].
  set (tab' := tab_put tab i o) in *. change (ent_key (ent_new ok)) with ok in Hm'. rewrite Hm, insert_insert_eq in Hm'. clearbody tab'.
  set (t2 := t <| next_orig := ok |> <| origs := tab' |>). assert (Hok2 : tab_map (origs t2) !! ok = Some o) by (cbn [origs t2 update]; rewrite Hm'; apply lookup_insert_eq).
  destruct (commit_loop_spec ok (if UINT16_MAX <? len then UINT16_MAX else len) now t2 cs o) as (t3 & -> & Hi3 & Eo3 & En3 & Ed3); try done.
  - destruct Hi1 as [H1 H2 H3 H4 H5 H6 H7 H8]. split; try done; [cbn [next_orig t2 update]; lia| |].
    + intros id c Hc. destruct (H6 id c Hc) as (Ha & Hb). split; [|done]. cbn [origs t2 update]. rewrite Hm'. by apply lookup_insert_is_Some'; right.
    + intros k o' Hk. cbn [origs t2 update] in Hk. rewrite Hm' in Hk. apply lookup_insert_Some in Hk as [[<- <-]|[Hne Hk]].
      * unfold orig_ok. change (copies t2) with (copies t). rewrite (untracked_orig 0 0 t ok), Z.eqb_refl by done. change (next_orig t2) with ok. cbn [ent_a o update]. lia.
      * destruct (H7 k o' Hk) as (E1 & E2 & E3). unfold orig_ok. change (next_orig t2) with ok. change (copies t2) with (copies t). rewrite E1. repeat case_match; bool_to_prop; try lia.
        all: split_and!; [lia|intros _; rewrite <- E1; apply E2; lia|lia|lia].
  - case_match; bool_to_prop; unfold UINT16_MAX in *; lia.
  - exists t3. split_and!; try done. by rewrite Eo3.
Qed.

(** ** Resolving *)

(** The row of the path of a resolved copy. *)
Definition row_resolved (acked : bool) (c : rtx_ent_t) (y : rtx_path_t) : rtx_path_t :=
  y <| outstanding := outstanding y - 1 |> <| out_bytes := u64 (out_bytes y - ent_len c) |>
    <| racked := if acked then u64 (racked y + 1) else racked y |> <| rfirst := Z.land (rfirst y + 1) (RTX_CAP - 1) |>.

Lemma bytes_pos mc mo p : (forall id c, mc !! id = Some c -> copy_ok mo c) -> Forall (fun x => 0 <= bytes_on p x) (vals mc).
Proof. intros Hc. apply Forall_forall. intros x [k Hk]%vals_elem. destruct (Hc k x Hk) as (_ & _ & Hl). unfold bytes_on. case_match; lia. Qed.

(** Taking a copy out of the table and out of the row of its path. *)
Lemma rows_resolved ok r t id c acked y : rtx_pend ok r t -> tab_map (copies t) !! id = Some c -> 0 <= ent_b c -> rpath t !! Z.to_nat (ent_b c) = Some y ->
  forall p x, 0 <= p < MQVPN_RTX_PATHS -> <[Z.to_nat (ent_b c) := row_resolved acked c y]> (rpath t) !! Z.to_nat p = Some x -> path_row_ok (delete id (tab_map (copies t))) p x.
Proof.
  intros [H1 H2 H3 H4 H5 H6 H7 H8] Hc Hb Hy. destruct (H6 id c Hc) as (_ & Hbr & Hl). pose proof (vals_delete _ _ _ Hc) as Hv.
  apply (row_update (rpath t) (ent_b c)); [done|lia| |].
  - intros q z Hq Hne Hz. destruct (H8 q z Hq Hz) as (F1 & F2 & F3). rewrite Hv in F1, F2. unfold tally in F1, F2. cbn [foldr] in F1, F2. unfold on_path at 1 in F1. unfold bytes_on at 1 in F2.
    rewrite (proj2 (Z.eqb_neq (ent_b c) q)) in F1, F2 by lia. done.
  - destruct (H8 (ent_b c) y ltac:(lia) Hy) as (F1 & F2 & F3). pose proof (bytes_bound _ _ (ent_b c) H1 H6) as Hbb. pose proof (tw_cap _ H1).
    rewrite Hv in F1, F2, Hbb. unfold tally in F1, F2, Hbb. cbn [foldr] in F1, F2, Hbb. unfold on_path at 1 in F1. unfold bytes_on at 1 in F2. unfold bytes_on at 1 3 in Hbb.
    rewrite Z.eqb_refl in F1, F2, Hbb. unfold path_row_ok, row_resolved. cbn [outstanding out_bytes rfirst update].
    assert (Hp : 0 <= tally (bytes_on (ent_b c)) (vals (delete id (tab_map (copies t))))).
    { apply tally_pos. apply (bytes_pos _ (tab_map (origs t))). intros id' c' [_ Hc']%lookup_delete_Some. by apply (H6 id'). }
    unfold tally in *. rewrite u64_small by (rewrite F2; unfold RTX_CAP, UINT16_MAX in *; lia). rewrite mask_cap by lia.
    split_and!; [lia|lia|apply Z.mod_pos_bound; done..].
Qed.

Lemma resolve_row t id c acked : rtx_inv t -> tab_map (copies t) !! id = Some c ->
  exists t1, (if 0 <=? ent_b c then y ← path_at t (ent_b c); Some (path_put (ent_b c) (row_resolved acked c y) t) else Some t) = Some t1 /\
    copies t1 = copies t /\ origs t1 = origs t /\ next_orig t1 = next_orig t /\ sent t1 = sent t /\ length (rpath t1) = 8%nat /\
    forall p x, 0 <= p < MQVPN_RTX_PATHS -> rpath t1 !! Z.to_nat p = Some x -> path_row_ok (delete id (tab_map (copies t))) p x.
Proof.
  intros Hi Hc. destruct (ri_copy _ _ _ Hi id c Hc) as (_ & Hbr & _). destruct (Z.leb_spec 0 (ent_b c)) as [Hb|Hb].
  - destruct (path_lookup _ _ _ (ent_b c) Hi) as (y & Hy & _); [unfold path_ok; lia|]. rewrite Hy. cbn [mbind option_bind]. eexists. split_and!; try done; cbn [rpath path_put update].
    + rewrite length_insert. apply Hi.
    + by apply (rows_resolved 0 0 t id c acked y).
  - exists t. split_and!; try done; [apply Hi|]. intros p x Hp Hx. destruct (ri_row _ _ _ Hi p x Hp Hx) as (F1 & F2 & F3). rewrite (vals_delete _ _ _ Hc) in F1, F2.
    unfold tally in F1, F2. cbn [foldr] in F1, F2. unfold on_path at 1 in F1. unfold bytes_on at 1 in F2. rewrite (proj2 (Z.eqb_neq (ent_b c) p)) in F1, F2 by lia. done.
Qed.

(** An original has at most as many copies as the table holds. *)
Lemma orig_bound t k o : rtx_inv t -> tab_map (origs t) !! k = Some o -> 0 < ent_a o <= RTX_CAP.
Proof.
  intros Hi Ho. destruct (ri_orig _ _ _ Hi k o Ho) as (Ea & Ep & Ek). split; [apply Ep; lia|]. rewrite Ea.
  pose proof (tw_cap _ (ri_copies _ _ _ Hi)) as Hcap. rewrite (tab_n_size _ (ri_copies _ _ _ Hi)), <- vals_length in Hcap.
  assert (tally (of_orig k) (vals (tab_map (copies t))) <= 1 * Z.of_nat (length (vals (tab_map (copies t))))) by (apply tally_bound, Forall_true; intros x; unfold of_orig; by destruct (_ =? k)).
  case_match; lia.
Qed.

(** The tracker once a copy is resolved: its original is left as [k], which may
    have no copies any more. *)
Definition resolved (t t' : mqvpn_redundant_tx_t) (id k : Z) (o : rtx_ent_t) : Prop :=
  rtx_pend k 0 t' /\ next_orig t' = next_orig t /\ tab_map (copies t') = delete id (tab_map (copies t)) /\
  tab_map (origs t) !! k = Some o /\ 0 < ent_a o /\ tab_map (origs t') = <[k := o <| ent_a := ent_a o - 1 |>]> (tab_map (origs t)).

Lemma resolve_spec t id acked : rtx_inv t ->
  match tab_map (copies t) !! id with
  | None => resolve t id acked = Some (None, t)
  | Some c => exists oi o t', resolve t id acked = Some (Some (oi, ent_a o =? 1), t') /\ resolved t t' id (ent_a c) o /\
      in_slots oi /\ tab_e (origs t') !! Z.to_nat oi = Some (o <| ent_a := ent_a o - 1 |>) /\ ent_key o = ent_a c /\ ent_used o = true
  end.
Proof.
  intros Hi. unfold resolve. pose proof (tab_find_spec (copies t) id (ri_copies _ _ _ Hi)) as Hf.
  destruct (tab_find (copies t) id) as [[ci|]|]; [|by rewrite Hf|done]. destruct Hf as (Hci & c & Hce & Huc & Hkc & Hmc). rewrite Hmc. rewrite !bind_some. rewrite Hce. rewrite !bind_some.
  destruct (ri_copy _ _ _ Hi id c Hmc) as ([o Hmo] & Hbr & Hlen). destruct (ri_orig _ _ _ Hi _ o Hmo) as (Ea & Ep & Ek).
  pose proof (tab_find_spec (origs t) (ent_a c) (ri_origs _ _ _ Hi)) as Hf. destruct (tab_find (origs t) (ent_a c)) as [[oi|]|]; [|congruence|done].
  destruct Hf as (Hoi & o' & Hoe & Huo & Hko & Hmo'). assert (o' = o) by congruence. subst o'. rewrite !bind_some.
  destruct (resolve_row t id c acked Hi Hmc) as (t1 & E1 & Ec1 & Eo1 & En1 & Es1 & El1 & Hr1). unfold row_resolved in E1. rewrite E1. clear E1. rewrite !bind_some.
  rewrite Ec1, Eo1. destruct (tab_remove_spec (copies t) ci c) as (tab & -> & Hw & Hm & Hn); [apply Hi|done..|]. rewrite !bind_some. rewrite Hoe. rewrite !bind_some. rewrite Hkc in Hm.
  destruct (orig_bound t _ o Hi Hmo) as [Hpos Hub].
  cbv zeta. rewrite u64_small by (unfold RTX_CAP in Hub; lia). set (o1 := o <| ent_a := ent_a o - 1 |>).
  destruct (tab_put_spec (origs t) oi o o1) as [Hwo Hmo1]; [apply Hi|done..|]. rewrite Hko in Hmo1.
  match goal with |- context [t1 <| copies := tab |> <| origs ::= ?f |>] => set (t2 := t1 <| copies := tab |> <| origs ::= f |>) end.
  assert (Ec2 : copies t2 = tab) by done. assert (Eo2 : origs t2 = tab_put (origs t) oi o1) by (cbn [origs t2 update]; by rewrite Eo1).
  assert (Ez : (ent_a o1 =? 0) = (ent_a o =? 1)) by (cbn [ent_a o1 update]; lia). rewrite Ez. exists oi, o, t2. split; [done|].
  assert (Hp2 : rtx_pend (ent_a c) 0 t2); cycle 1.
  { split_and!; try done; [unfold resolved; split_and!; try done; by rewrite ?Ec2, ?Eo2|]. rewrite Eo2. cbn [tab_put tab_e update]. apply list_lookup_insert_eq. by apply lookup_lt_Some in Hoe. }
  pose proof (vals_delete _ _ _ Hmc) as Hv. pose proof Hi as [H1 H2 H3 H4 H5 H6 H7 H8]. split; rewrite ?Ec2, ?Eo2, ?Hm, ?Hmo1; try done.
  - change (sent t2) with (sent t1). by rewrite Es1.
  - change (next_orig t2) with (next_orig t1). by rewrite En1.
  - intros id' c' [_ Hc']%lookup_delete_Some. destruct (H6 id' c' Hc') as (Ha & Hb). split; [|done]. by apply lookup_insert_is_Some'; right.
  - intros k o' Hk. change (next_orig t2) with (next_orig t1). rewrite En1. apply lookup_insert_Some in Hk as [[<- <-]|[Hne Hk]].
    + split_and!; [|done|lia|lia]. rewrite Z.eqb_refl. rewrite Hv in Ea. unfold tally in *. cbn [foldr] in Ea. unfold of_orig at 1 in Ea. rewrite Z.eqb_refl in Ea. cbn [ent_a o1 update]. case_match; lia.
    + destruct (H7 k o' Hk) as (F1 & F2 & F3). rewrite Hv in F1. unfold tally in F1. cbn [foldr] in F1. unfold of_orig at 1 in F1. rewrite (proj2 (Z.eqb_neq _ _) Hne) in F1. unfold orig_ok, tally.
      rewrite F1. rewrite (proj2 (Z.eqb_neq k (ent_a c))) by lia. split_and!; [case_match; lia|intros _; rewrite <- F1; apply F2; lia|lia..].
Qed.

(** The acked flag of an original is not read by the invariant. *)
Lemma flag_orig k t oi x : rtx_pend k 0 t -> in_slots oi -> tab_e (origs t) !! Z.to_nat oi = Some x -> ent_used x = true -> ent_key x = k ->
  rtx_pend k 0 (t <| origs ::= fun s => tab_put s oi (x <| ent_b := 1 |>) |>) /\
  tab_map (origs (t <| origs ::= fun s => tab_put s oi (x <| ent_b := 1 |>) |>)) = <[k := x <| ent_b := 1 |>]> (tab_map (origs t)) /\
  tab_e (origs (t <| origs ::= fun s => tab_put s oi (x <| ent_b := 1 |>) |>)) !! Z.to_nat oi = Some (x <| ent_b := 1 |>).
Proof.
  intros Hi Hoi Hx Hu Hk. assert (Hxm : tab_map (origs t) !! k = Some x) by (apply tab_map_lookup; [apply Hi|]; split_and!; try done; by exists oi).
  destruct (tab_put_spec (origs t) oi x (x <| ent_b := 1 |>)) as [Hw Hm]; [apply Hi|done..|]. rewrite Hk in Hm. set (tab' := tab_put _ _ _) in *.
  change (origs (t <| origs ::= _ |>)) with tab'. split; [|split; [done|unfold tab', tab_put; cbn [tab_e update]; apply list_lookup_insert_eq; by apply lookup_lt_Some in Hx]].
  destruct Hi as [H1 H2 H3 H4 H5 H6 H7 H8]. split; try done; change (origs (t <| origs ::= _ |>)) with tab'; rewrite Hm.
  - intros id c Hc. destruct (H6 id c Hc) as (Ha & Hb). split; [|done]. by apply lookup_insert_is_Some'; right.
  - intros k' o [[<- <-]|[Hne Ho]]%lookup_insert_Some; [exact (H7 k x Hxm)|by apply H7].
Qed.

(** Removing an original that has no copies left. *)
Lemma remove_orig_spec k t oi x : rtx_pend k 0 t -> in_slots oi -> tab_e (origs t) !! Z.to_nat oi = Some x -> ent_used x = true -> ent_key x = k -> ent_a x = 0 ->
  exists t', remove_orig t oi = Some t' /\ rtx_inv t' /\ next_orig t' = next_orig t /\ copies t' = copies t /\ tab_map (origs t') = delete k (tab_map (origs t)).
Proof.
  intros Hi Hoi Hx Hu Hk Ha. assert (Hxm : tab_map (origs t) !! k = Some x) by (apply tab_map_lookup; [apply Hi|]; split_and!; try done; by exists oi).
  unfold remove_orig. destruct (tab_remove_spec (origs t) oi x) as (tab & -> & Hw & Hm & Hn); [apply Hi|done..|]. rewrite Hk in Hm. eexists. split; [done|]. split; [|done].
  destruct Hi as [H1 H2 H3 H4 H5 H6 H7 H8]. destruct (H7 k x Hxm) as (E1 & _ & _). rewrite Ha, Z.eqb_refl in E1.
  split; try done; cbn [origs update]; change (copies (t <| origs := tab |>)) with (copies t); rewrite Hm.
  - intros id c Hc. destruct (H6 id c Hc) as (Hca & Hb). split; [|done]. rewrite lookup_delete_ne; [done|]. intros E.
    assert (Hle : of_orig k c <= tally (of_orig k) (vals (tab_map (copies t)))).
    { apply tally_le; [apply Forall_true; intros y; unfold of_orig; by case_match|apply vals_elem; by exists id]. }
    unfold of_orig in Hle at 1. rewrite <- E, Z.eqb_refl in Hle. lia.
  - intros k' o [Hne Ho]%lookup_delete_Some. destruct (H7 k' o Ho) as (F1 & F2 & F3). unfold orig_ok; cbn [next_orig copies update]; split_and!; [rewrite F1; repeat case_match; lia|intros _; by apply F2|lia..].
Qed.

(** What an acknowledgement or a loss of a copy does: the copy is gone, its
    original follows with its last copy. *)
Definition settled (t t' : mqvpn_redundant_tx_t) (id k : Z) (o : rtx_ent_t) (flag : Z) : Prop :=
  rtx_inv t' /\ next_orig t' = next_orig t /\ tab_map (copies t') = delete id (tab_map (copies t)) /\
  tab_map (origs t') = if ent_a o =? 1 then delete k (tab_map (origs t)) else <[k := o <| ent_a := ent_a o - 1 |> <| ent_b := flag |>]> (tab_map (origs t)).

Lemma acked_spec t id : rtx_inv t ->
  match tab_map (copies t) !! id with
  | None => mqvpn_redundant_tx_on_acked t id = Some (-1, t)
  | Some c => exists o t', mqvpn_redundant_tx_on_acked t id = Some (if ent_b o =? 0 then 1 else 0, t') /\ tab_map (origs t) !! ent_a c = Some o /\ settled t t' id (ent_a c) o 1
  end.
Proof.
  intros Hi. unfold mqvpn_redundant_tx_on_acked. pose proof (resolve_spec t id true Hi) as Hr. destruct (tab_map (copies t) !! id) as [c|] eqn:Ec; [|by rewrite Hr].
  destruct Hr as (oi & o & t1 & -> & (Hp & En & Em & Eo & Hpos & Emo) & Hoi & Hx & Hk & Hu). rewrite bind_some. rewrite Hx, bind_some.
  destruct (flag_orig _ t1 oi _ Hp Hoi Hx) as (Hp2 & Em2 & Hx2); [done..|]. set (x := o <| ent_a := ent_a o - 1 |>) in *. set (t2 := t1 <| origs ::= _ |>) in *. cbv zeta.
  assert (En2 : next_orig t2 = next_orig t) by done. assert (Ec2 : tab_map (copies t2) = delete id (tab_map (copies t))) by done. clearbody t2. rewrite Emo, insert_insert_eq in Em2.
  exists o. unfold settled. destruct (Z.eqb_spec (ent_a o) 1) as [E1|E1].
  - destruct (remove_orig_spec _ t2 oi _ Hp2 Hoi Hx2) as (t3 & -> & Hi3 & En3 & Ec3 & Em3); [done|done|cbn [ent_a x update]; lia|]. rewrite bind_some. exists t3. split_and!; try done; [congruence|congruence|].
    by rewrite Em3, Em2, delete_insert_eq.
  - rewrite bind_some. exists t2. split_and!; try done. apply (pend_zero (ent_a c)); [done|]. intros o' Ho'. rewrite Em2, lookup_insert_eq in Ho'. apply Some_inj in Ho'. subst o'. cbn [ent_a x update]. lia.
Qed.

Lemma lost_spec t id : rtx_inv t ->
  match tab_map (copies t) !! id with
  | None => mqvpn_redundant_tx_on_lost t id = Some (-1, t)
  | Some c => exists o t', mqvpn_redundant_tx_on_lost t id = Some (if (ent_a o =? 1) && (ent_b o =? 0) then 1 else 0, t') /\ tab_map (origs t) !! ent_a c = Some o /\
      settled t t' id (ent_a c) o (ent_b o)
  end.
Proof.
  intros Hi. unfold mqvpn_redundant_tx_on_lost. pose proof (resolve_spec t id false Hi) as Hr. destruct (tab_map (copies t) !! id) as [c|] eqn:Ec; [|by rewrite Hr].
  destruct Hr as (oi & o & t1 & -> & (Hp & En & Em & Eo & Hpos & Emo) & Hoi & Hx & Hk & Hu). rewrite bind_some. rewrite Hx, bind_some. set (x := o <| ent_a := ent_a o - 1 |>) in *. cbv zeta.
  exists o. unfold settled. change (ent_b x) with (ent_b o). destruct (Z.eqb_spec (ent_a o) 1) as [E1|E1].
  - destruct (remove_orig_spec _ t1 oi _ Hp Hoi Hx) as (t3 & -> & Hi3 & En3 & Ec3 & Em3); [done|done|cbn [ent_a x update]; lia|]. rewrite bind_some. exists t3. split_and!; try done; [congruence|congruence|].
    by rewrite Em3, Emo, delete_insert_eq.
  - rewrite bind_some. exists t1. split_and!; try done. apply (pend_zero (ent_a c)); [done|]. intros o' Ho'. rewrite Emo, lookup_insert_eq in Ho'.
    apply Some_inj in Ho'. subst o'. cbn [ent_a x update]. lia.
Qed.
