(* ===== verification/RedundantLife.v ===== *)
(** * Lifetimes of a redundant transmission tracker

    Sequences of calls of the tracker's functions: no call faults, each original
    is reported exactly once, the gate of select and the reports of the overload
    mode. *)

From S2P Require Import Prelude RtxTable RedundantTx RedundantProofs.

#[local] Opaque tab_find tab_insert tab_remove.

(** ** The overload mode *)

Lemma judge_total t usable el pps base a f : rtx_inv t -> exists r, judge t usable el pps base a f = Some r.
Proof.
  intros Hi. revert a f. induction usable as [|p usable IH]; intros a f; cbn [judge]; [by eexists|]. destruct (path_ok p) eqn:Ep; cbn [negb]; [|apply IH].
  destruct (path_lookup _ _ _ _ Hi Ep) as (x & Hx & _). rewrite Hx, bind_some. apply IH.
Qed.

Lemma mode_step_core t a f now : same_core t (mode_step t a f now).2.
Proof.
  unfold mode_step. cbv zeta. repeat (match goal with |- context [if ?b then _ else _] => destruct b end); cbn [snd]; first [apply same_core_refl|by apply same_core_eq].
Qed.

Lemma update_mode_total t usable now : rtx_inv t -> exists r t', mqvpn_redundant_tx_update_mode t usable now = Some (r, t') /\ same_core t t'.
Proof.
  intros Hi. unfold mqvpn_redundant_tx_update_mode. destruct (_ =? 0)%nat; [exists 0, t; split; [done|apply same_core_refl]|].
  match goal with |- context [if ?b then Some (_, rtx_mode_reset t) else _] => destruct b end; [do 2 eexists; split; [done|apply mode_reset_core]|].
  destruct (win_start_us t =? 0); [do 2 eexists; split; [done|]; eapply same_core_trans; [apply (window_core t now)|by apply same_core_eq]|]. cbv zeta.
  destruct (_ <? RTX_MODE_WIN); [exists 0, t; split; [done|apply same_core_refl]|].
  destruct (judge_total t usable (now - win_start_us t) (rtx_stream_pps t) (hist_base t (rtx_stream_pps t)) true false Hi) as [[a f] ->]. rewrite bind_some.
  destruct (rtx_stream_pps t =? 0); [do 2 eexists; split; [done|apply window_core]|].
  match goal with |- context [mode_step ?t1 ?a1 f now] => pose proof (mode_step_core t1 a1 f now) as Hm; destruct (mode_step t1 a1 f now) as [r t'] end.
  exists r, t'. split; [done|]. eapply same_core_trans; [apply (window_core t now)|exact Hm].
Qed.

Lemma bypass_core t now : same_core t (mqvpn_redundant_tx_overload_bypass t now).2.
Proof. unfold mqvpn_redundant_tx_overload_bypass. case_match; [apply same_core_refl|apply count_rate_core]. Qed.

(** ** Lifetimes of a tracker *)

Inductive rtx_op :=
| OpBind (p xid : Z)
| OpDetach (p : Z)
| OpMetrics (p rtt bw infl : Z)
| OpSelect (usable : list Z) (now : Z)
| OpCommit (cs : list (Z * Z)) (now len : Z)
| OpAcked (id : Z)
| OpLost (id : Z)
| OpMode (usable : list Z) (now : Z)
| OpBypass (now : Z).

(** The tracker with what was seen of it: the originals of the acknowledged
    copies, the originals reported as delivered and those reported as lost. *)
Record rtx_world := RtxWorld { w_t : mqvpn_redundant_tx_t; w_acks : list Z; w_delivered : list Z; w_lost : list Z }.

Definition rtx_world0 : rtx_world := RtxWorld mqvpn_redundant_tx_new [] [] [].

(** The original of a tracked copy. *)
Definition orig_of (t : mqvpn_redundant_tx_t) (id : Z) : list Z :=
  match tab_map (copies t) !! id with Some c => [ent_a c] | None => [] end.

Definition rtx_do (w : rtx_world) (op : rtx_op) : option rtx_world :=
  let '(RtxWorld t acks dl ls) := w in
  match op with
  | OpBind p x => t' ← mqvpn_redundant_tx_bind_path t p x; Some (RtxWorld t' acks dl ls)
  | OpDetach p => t' ← mqvpn_redundant_tx_detach_path t p; Some (RtxWorld t' acks dl ls)
  | OpMetrics p rtt bw infl => t' ← mqvpn_redundant_tx_set_path_metrics t p rtt bw infl; Some (RtxWorld t' acks dl ls)
  | OpSelect us now => '(_, t') ← mqvpn_redundant_tx_select t us now; Some (RtxWorld t' acks dl ls)
  | OpCommit cs now len => t' ← mqvpn_redundant_tx_commit t cs now len; Some (RtxWorld t' acks dl ls)
  | OpAcked id => '(r, t') ← mqvpn_redundant_tx_on_acked t id; Some (RtxWorld t' (acks ++ orig_of t id) (dl ++ if r =? 1 then orig_of t id else []) ls)
  | OpLost id => '(r, t') ← mqvpn_redundant_tx_on_lost t id; Some (RtxWorld t' acks dl (ls ++ if r =? 1 then orig_of t id else []))
  | OpMode us now => '(_, t') ← mqvpn_redundant_tx_update_mode t us now; Some (RtxWorld t' acks dl ls)
  | OpBypass now => Some (RtxWorld (mqvpn_redundant_tx_overload_bypass t now).2 acks dl ls)
  end.

(** A caller commits distinct datagram ids that are not tracked yet, and the
    numbering of the originals has not run out. *)
Definition op_ok (t : mqvpn_redundant_tx_t) (op : rtx_op) : bool :=
  match op with
  | OpCommit cs _ len => bool_decide (NoDup cs.*1) && forallb (fun id => negb (bool_decide (is_Some (tab_map (copies t) !! id)))) cs.*1 &&
      (next_orig t + 1 <? 2 ^ 64) && (0 <=? len)
  | _ => true
  end.

Fixpoint rtx_run (w : rtx_world) (ops : list rtx_op) : option rtx_world :=
  match ops with [] => Some w | op :: ops => w ← rtx_do w op; rtx_run w ops end.

Fixpoint rtx_legal (w : rtx_world) (ops : list rtx_op) : bool :=
  match ops with
  | [] => true
  | op :: ops => op_ok (w_t w) op && match rtx_do w op with Some w' => rtx_legal w' ops | None => true end
  end.

Record world_ok (w : rtx_world) : Prop := {
  wk_inv : rtx_inv (w_t w);
  wk_once : NoDup (w_delivered w ++ w_lost w);
  wk_acks k : k ∈ w_acks w -> 1 <= k <= next_orig (w_t w);
  wk_delivered k : k ∈ w_delivered w <-> k ∈ w_acks w;
  wk_lost k : k ∈ w_lost w <-> 1 <= k <= next_orig (w_t w) /\ (k ∉ w_acks w) /\ tab_map (origs (w_t w)) !! k = None;
  wk_flag k o : tab_map (origs (w_t w)) !! k = Some o -> ent_b o = 0 <-> k ∉ w_acks w
}.

(** Steps that leave the originals alone. *)
Lemma world_keep t t' acks dl ls : world_ok (RtxWorld t acks dl ls) -> rtx_inv t' -> origs t' = origs t -> next_orig t' = next_orig t -> world_ok (RtxWorld t' acks dl ls).
Proof. intros [H1 H2 H3 H4 H5 H6] Hi Eo En. split; cbn [w_t w_acks w_delivered w_lost] in *; rewrite ?Eo, ?En; done. Qed.

Lemma world_core t t' acks dl ls : world_ok (RtxWorld t acks dl ls) -> same_core t t' -> world_ok (RtxWorld t' acks dl ls).
Proof. intros Hw Hc. apply (world_keep t); [done|eapply same_core_inv; [exact Hc|apply Hw]|apply Hc|apply Hc]. Qed.

Lemma world_commit t acks dl ls cs now len : world_ok (RtxWorld t acks dl ls) -> op_ok t (OpCommit cs now len) = true ->
  exists w, rtx_do (RtxWorld t acks dl ls) (OpCommit cs now len) = Some w /\ world_ok w.
Proof.
  intros Hw Hok. cbn [op_ok] in Hok. apply andb_true_iff in Hok as [[[Hnd Hfr]%andb_true_iff Hnx]%andb_true_iff Hlen]. apply bool_decide_eq_true in Hnd. apply Z.ltb_lt in Hnx. apply Z.leb_le in Hlen.
  destruct (commit_spec t cs now len) as (t' & E & Hi & Hcase); [apply Hw|done| |done|done|].
  { intros id Hid. rewrite forallb_forall in Hfr. apply list_elem_of_In in Hid. specialize (Hfr id Hid). apply negb_true_iff, bool_decide_eq_false in Hfr. by apply eq_None_not_Some. }
  cbn [rtx_do]. rewrite E, bind_some. eexists. split; [done|]. destruct (commit_full t cs); [by rewrite Hcase|]. destruct Hcase as (En & Hno & Em & _).
  destruct Hw as [H1 H2 H3 H4 H5 H6]. cbn [w_t w_acks w_delivered w_lost] in *. pose proof (ri_next _ _ _ H1). split; cbn [w_t w_acks w_delivered w_lost]; rewrite ?En, ?Em; try done.
  - intros k Hk. specialize (H3 k Hk). lia.
  - intros k. rewrite H5. destruct (decide (k = next_orig t + 1)) as [->|Hne].
    + rewrite lookup_insert_eq. split; [lia|by intros (_ & _ & ?)].
    + rewrite lookup_insert_ne by done. split; intros (Hr & Hrest); (split; [lia|done]).
  - intros k o [[<- <-]|[Hne Ho]]%lookup_insert_Some; [|by apply H6]. cbn [ent_b]. split; [|done]. intros _ Hk. specialize (H3 _ Hk). lia.
Qed.

Lemma elem_one (k k' : Z) (b : bool) l : k ∈ l ++ (if b then [k'] else []) <-> k ∈ l \/ b = true /\ k = k'.
Proof. rewrite elem_of_app. destruct b; rewrite ?list_elem_of_singleton, ?elem_of_nil; intuition congruence. Qed.

Lemma world_acked t acks dl ls id : world_ok (RtxWorld t acks dl ls) -> exists w, rtx_do (RtxWorld t acks dl ls) (OpAcked id) = Some w /\ world_ok w.
Proof.
  intros Hw. pose proof (acked_spec t id (wk_inv _ Hw)) as Ha. cbn [rtx_do]. unfold orig_of. destruct (tab_map (copies t) !! id) as [c|] eqn:Ec; cycle 1.
  { rewrite Ha, bind_some. eexists. split; [done|]. cbn [Z.eqb]. by rewrite !app_nil_r. }
  destruct Ha as (o & t' & -> & Ho & Hi & En & _ & Em). rewrite bind_some. eexists. split; [done|]. set (k := ent_a c) in *.
  assert (Eb : ((if ent_b o =? 0 then 1 else 0) =? 1) = (ent_b o =? 0)) by (by destruct (ent_b o =? 0)). rewrite Eb. clear Eb.
  destruct Hw as [H1 H2 H3 H4 H5 H6]. cbn [w_t w_acks w_delivered w_lost] in *. destruct (ri_orig _ _ _ H1 k o Ho) as (_ & _ & Hk). pose proof (H6 k o Ho) as Hflag.
  assert (Hin : ent_b o <> 0 -> k ∈ acks) by (intros Hb; apply dec_stable; tauto). assert (Hls : k ∉ ls) by (rewrite H5; intros (_ & _ & ?); congruence).
  split; cbn [w_t w_acks w_delivered w_lost]; rewrite ?En; try done.
  - destruct (Z.eqb_spec (ent_b o) 0) as [Eb|Eb]; [|by rewrite app_nil_r]. rewrite <- app_assoc. cbn [app]. apply NoDup_app in H2 as (Hd & Hx & Hl).
    apply NoDup_app. split_and!; [done| |by apply NoDup_cons]. intros k' Hk' [->|Hk2]%elem_of_cons; [apply H4 in Hk'; tauto|by apply (Hx k')].
  - intros k' [Hk'|Hk'%list_elem_of_singleton]%elem_of_app; [by apply H3|lia].
  - intros k'. rewrite elem_one, elem_of_app, H4, list_elem_of_singleton. destruct (Z.eqb_spec (ent_b o) 0) as [Eb|Eb]; [intuition congruence|].
    specialize (Hin Eb). intuition congruence.
  - intros k'. rewrite H5, Em, not_elem_of_app, list_elem_of_singleton. destruct (decide (k' = k)) as [->|Hne]; [split; [intros (_ & _ & ?); congruence|tauto]|].
    destruct (ent_a o =? 1); rewrite ?lookup_delete_ne, ?lookup_insert_ne by done; tauto.
  - intros k' o' Ho'. rewrite not_elem_of_app, list_elem_of_singleton. rewrite Em in Ho'. destruct (decide (k' = k)) as [->|Hne].
    + destruct (ent_a o =? 1); [by rewrite lookup_delete_eq in Ho'|]. rewrite lookup_insert_eq in Ho'. apply Some_inj in Ho'. subst o'. cbn [ent_b update]. split; [done|tauto].
    + rewrite <- (H6 k' o'); [tauto|]. destruct (ent_a o =? 1); by rewrite ?lookup_delete_ne, ?lookup_insert_ne in Ho' by done.
Qed.

Lemma world_lost t acks dl ls id : world_ok (RtxWorld t acks dl ls) -> exists w, rtx_do (RtxWorld t acks dl ls) (OpLost id) = Some w /\ world_ok w.
Proof.
  intros Hw. pose proof (lost_spec t id (wk_inv _ Hw)) as Ha. cbn [rtx_do]. unfold orig_of. destruct (tab_map (copies t) !! id) as [c|] eqn:Ec; cycle 1.
  { rewrite Ha, bind_some. eexists. split; [done|]. cbn [Z.eqb]. by rewrite !app_nil_r. }
  destruct Ha as (o & t' & -> & Ho & Hi & En & _ & Em). rewrite bind_some. eexists. split; [done|]. set (k := ent_a c) in *. set (b := (ent_a o =? 1) && (ent_b o =? 0)).
  assert (Eb : ((if b then 1 else 0) =? 1) = b) by (by destruct b). rewrite Eb. clear Eb.
  destruct Hw as [H1 H2 H3 H4 H5 H6]. cbn [w_t w_acks w_delivered w_lost] in *. destruct (ri_orig _ _ _ H1 k o Ho) as (_ & _ & Hk). pose proof (H6 k o Ho) as Hflag.
  assert (Hls : k ∉ ls) by (rewrite H5; intros (_ & _ & ?); congruence).
  split; cbn [w_t w_acks w_delivered w_lost]; rewrite ?En; try done.
  - rewrite app_assoc. unfold b. destruct (ent_a o =? 1); cbn [andb]; [|by rewrite app_nil_r]. destruct (Z.eqb_spec (ent_b o) 0) as [E0|E0]; [|by rewrite app_nil_r].
    rewrite Permutation_app_comm. cbn [app]. apply NoDup_cons. split; [|done]. rewrite elem_of_app, H4. tauto.
  - intros k'. rewrite elem_one, H5, Em. unfold b. destruct (Z.eqb_spec (ent_a o) 1) as [E1|E1]; cbn [andb].
    + destruct (decide (k' = k)) as [->|Hne].
      * rewrite lookup_delete_eq, Ho. split; [intros [(_ & _ & ?)|[Hb _]]; [done|bool_to_prop; tauto]|]. intros (_ & Hna & _). right. split; [|done]. apply Z.eqb_eq. tauto.
      * rewrite lookup_delete_ne by done. intuition congruence.
    + destruct (decide (k' = k)) as [->|Hne]; [rewrite lookup_insert_eq, Ho|rewrite lookup_insert_ne by done]; intuition congruence.
  - intros k' o' Ho'. rewrite Em in Ho'. destruct (decide (k' = k)) as [->|Hne].
    + destruct (ent_a o =? 1); [by rewrite lookup_delete_eq in Ho'|]. rewrite lookup_insert_eq in Ho'. apply Some_inj in Ho'. subst o'. exact Hflag.
    + apply (H6 k' o'). destruct (ent_a o =? 1); by rewrite ?lookup_delete_ne, ?lookup_insert_ne in Ho' by done.
Qed.

Lemma world_step w op : world_ok w -> op_ok (w_t w) op = true -> exists w', rtx_do w op = Some w' /\ world_ok w'.
Proof.
  destruct w as [t acks dl ls]. intros Hw Hok. pose proof (wk_inv _ Hw) as Hi. cbn [w_t] in Hi. destruct op as [p xid|p|p rtt bw infl|us now|cs now len|id|id|us now|now].
  - destruct (bind_spec t p xid Hi) as (t' & E & Hi' & Eo & En & _). cbn [rtx_do]. rewrite E, bind_some. eexists. split; [done|]. by eapply world_keep.
  - destruct (detach_spec t p Hi) as (t' & E & Hi' & Eo & En & _). cbn [rtx_do]. rewrite E, bind_some. eexists. split; [done|]. by eapply world_keep.
  - destruct (metrics_spec t p rtt bw infl Hi) as (t' & E & Hc). cbn [rtx_do]. rewrite E, bind_some. eexists. split; [done|]. by eapply world_core.
  - destruct (select_spec t us now Hi) as (out & t' & E & Hm & _). cbn [rtx_do]. rewrite E, bind_some. eexists. split; [done|]. eapply world_core; [done|]. by apply marked_core.
  - by apply world_commit.
  - by apply world_acked.
  - by apply world_lost.
  - destruct (update_mode_total t us now Hi) as (r & t' & E & Hc). cbn [rtx_do]. rewrite E, bind_some. eexists. split; [done|]. by eapply world_core.
  - eexists. split; [done|]. eapply world_core; [done|apply bypass_core].
Qed.

(** The memory of a new tracker, for tables and rows that are given. *)
Lemma world_fresh tab rows snt hist : tab_wf tab -> tab_map tab = ∅ -> length rows = 8%nat -> Forall (fun x => x = rtx_path_zero) rows ->
  length snt = 8%nat -> Forall (fun l => length l = Z.to_nat RTX_CAP) snt ->
  world_ok (RtxWorld (RedundantTx tab tab 0 rows false 0 0 0 0 0 0 0 RTX_NORMAL 0 0 0 0 RTX_HOLD_FIRST hist snt) [] [] []).
Proof.
  intros Hw Em Hl Hz Hs Hf. split; cbn [w_t w_acks w_delivered w_lost app origs next_orig].
  - split; cbn [copies origs rpath sent next_orig]; rewrite ?Em; try done.
    intros p x _ Hx. pose proof (Forall_lookup_1 _ _ _ _ Hz Hx) as ->. split_and!; done.
  - constructor.
  - by intros k ?%elem_of_nil.
  - done.
  - intros k. rewrite elem_of_nil. split; [done|lia].
  - intros k o. by rewrite Em.
Qed.

Lemma world_new : world_ok rtx_world0.
Proof.
  destruct tab_new_wf as [Hw Em]. apply (world_fresh _ _ _ _ Hw Em); [apply length_replicate|by apply Forall_replicate|apply length_replicate|].
  apply Forall_replicate. apply length_replicate.
Qed.

Lemma run_spec ops w : world_ok w -> rtx_legal w ops = true -> exists w', rtx_run w ops = Some w' /\ world_ok w'.
Proof.
  revert w. induction ops as [|op ops IH]; intros w Hw Hl; cbn [rtx_run rtx_legal] in *; [by exists w|]. apply andb_true_iff in Hl as [Ho Hl].
  destruct (world_step w op Hw Ho) as (w1 & E & Hw1). rewrite E in *. rewrite bind_some. by apply IH.
Qed.

Lemma no_copies_no_origs t k : rtx_inv t -> tab_map (copies t) = ∅ -> tab_map (origs t) !! k = None.
Proof.
  intros Hi He. apply eq_None_not_Some. intros [o Ho]. destruct (ri_orig _ _ _ Hi k o Ho) as (E1 & E2 & E3). rewrite He in E1. specialize (E2 ltac:(lia)).
  change (tally (of_orig k) (vals ∅)) with 0 in E1. case_match; lia.
Qed.

(** C38: over any sequence of calls of the tracker's functions by a caller that
    commits fresh datagram ids, no call faults, and every original is reported
    at most once: as delivered exactly when one of its copies was acknowledged,
    as lost exactly when it is no longer tracked and none was.  Once no copy is
    in flight, each original ever committed has been reported exactly once. *)
Theorem redundant_reports_once ops : rtx_legal rtx_world0 ops = true ->
  exists w, rtx_run rtx_world0 ops = Some w /\ NoDup (w_delivered w ++ w_lost w) /\
    (forall k, k ∈ w_delivered w <-> k ∈ w_acks w) /\
    (forall k, k ∈ w_lost w <-> 1 <= k <= next_orig (w_t w) /\ (k ∉ w_acks w) /\ tab_map (origs (w_t w)) !! k = None) /\
    (tab_map (copies (w_t w)) = ∅ -> w_delivered w ++ w_lost w ≡ₚ seqZ 1 (next_orig (w_t w))).
Proof.
  intros Hl. destruct (run_spec ops _ world_new Hl) as (w & E & [H1 H2 H3 H4 H5 H6]). exists w. split_and!; try done. intros He.
  apply NoDup_Permutation; [done|apply NoDup_seqZ|]. intros k. rewrite elem_of_app, elem_of_seqZ, H4, H5. pose proof (no_copies_no_origs _ k H1 He) as Hn. split.
  - intros [Hk|(Hk & _)]; [specialize (H3 k Hk); lia|lia].
  - intros Hk. destruct (decide (k ∈ w_acks w)); [by left|right; split_and!; try done; lia].
Qed.

Definition rtx_demo : list rtx_op :=
  [OpBind 0 7; OpBind 1 9; OpSelect [0; 1] 1000; OpCommit [(11, 0); (12, 1)] 1000 1200; OpCommit [(13, 0); (14, 1)] 2000 1200;
   OpAcked 11; OpLost 12; OpLost 13; OpDetach 1; OpLost 14; OpAcked 14].

Lemma redundant_reports_once_witness : exists w, rtx_run rtx_world0 rtx_demo = Some w /\ NoDup (w_delivered w ++ w_lost w) /\
  (forall k, k ∈ w_delivered w <-> k ∈ w_acks w) /\
  (forall k, k ∈ w_lost w <-> 1 <= k <= next_orig (w_t w) /\ (k ∉ w_acks w) /\ tab_map (origs (w_t w)) !! k = None) /\
  (tab_map (copies (w_t w)) = ∅ -> w_delivered w ++ w_lost w ≡ₚ seqZ 1 (next_orig (w_t w))).
Proof. refine (redundant_reports_once rtx_demo _). vm_compute. reflexivity. Defined.

(** The run of the example reports the first original as delivered and the
    second as lost. *)
Example rtx_demo_reports : (fun w => (w_delivered w, w_lost w, next_orig (w_t w), tab_n (copies (w_t w)), tab_n (origs (w_t w)))) <$> rtx_run rtx_world0 rtx_demo = Some ([1], [2], 2, 0, 0).
Proof. vm_compute. reflexivity. Qed.

(** Select never faults.  While both tables have room and some path is
    usable it sends on at least one path: it picks the least-queued usable path
    and answers, in their order, the usable paths the gate admits beside it, cut
    to the room for copies.  It never answers more paths than the table has
    room for and changes nothing but the marks of the paths it left out. *)
Theorem redundant_select_gate ops usable now : rtx_legal rtx_world0 ops = true ->
  exists w out t', rtx_run rtx_world0 ops = Some w /\ mqvpn_redundant_tx_select (w_t w) usable now = Some (out, t') /\ marked (w_t w) t' /\
    (out = [] \/ tab_n (copies (w_t w)) + Z.of_nat (length out) <= RTX_CAP /\ tab_n (origs (w_t w)) < RTX_CAP) /\
    (usable_ok usable <> [] -> tab_n (origs (w_t w)) < RTX_CAP -> tab_n (copies (w_t w)) < RTX_CAP ->
     exists bp, bp ∈ usable /\ path_ok bp = true /\ (forall p, p ∈ usable -> path_ok p = true -> queue (w_t w) now bp <= queue (w_t w) now p) /\
       out = take (Z.to_nat (RTX_CAP - tab_n (copies (w_t w)))) (List.filter (admitted_path (w_t w) now bp (queue (w_t w) now bp)) (usable_ok usable)) /\ out <> []).
Proof.
  intros Hl. destruct (run_spec ops _ world_new Hl) as (w & E & Hw). destruct (select_spec (w_t w) usable now (wk_inv _ Hw)) as (out & t' & Hs & Hm & H1 & H2).
  exists w, out, t'. split_and!; done.
Qed.

Lemma redundant_select_gate_witness : exists w out t', rtx_run rtx_world0 rtx_demo = Some w /\ mqvpn_redundant_tx_select (w_t w) [0; 1] 3000 = Some (out, t') /\ marked (w_t w) t' /\
    (out = [] \/ tab_n (copies (w_t w)) + Z.of_nat (length out) <= RTX_CAP /\ tab_n (origs (w_t w)) < RTX_CAP) /\
    (usable_ok [0; 1] <> [] -> tab_n (origs (w_t w)) < RTX_CAP -> tab_n (copies (w_t w)) < RTX_CAP ->
     exists bp, bp ∈ [0; 1] /\ path_ok bp = true /\ (forall p, p ∈ [0; 1] -> path_ok p = true -> queue (w_t w) 3000 bp <= queue (w_t w) 3000 p) /\
       out = take (Z.to_nat (RTX_CAP - tab_n (copies (w_t w)))) (List.filter (admitted_path (w_t w) 3000 bp (queue (w_t w) 3000 bp)) (usable_ok [0; 1])) /\ out <> []).
Proof. refine (redundant_select_gate rtx_demo [0; 1] 3000 _). vm_compute. reflexivity. Defined.

(** ** The overload mode over a lifetime *)

Definition overloaded (t : mqvpn_redundant_tx_t) : bool := bool_decide (rmode t = RTX_OVERLOAD).

Definition hold_ok (t : mqvpn_redundant_tx_t) : Prop := RTX_HOLD_FIRST <= hold_us t <= RTX_HOLD_MAX.

(** The stream stopped, the clock went back, or the last window is too old. *)
Definition mode_stale (t : mqvpn_redundant_tx_t) (now : Z) : bool :=
  negb (have_win t) || (now <? rlast_us t) || (RTX_IDLE <=? now - rlast_us t) || (now <? win_start_us t) ||
  (negb (win_start_us t =? 0) && (RTX_IDLE <=? now - win_start_us t)).

Lemma count_rate_mode t now : hold_us (rtx_count_rate t now) = hold_us t /\ rmode (rtx_count_rate t now) = rmode t.
Proof.
  unfold rtx_count_rate. set (t1 := if have_win t && _ then _ else t). assert (H1 : hold_us t1 = hold_us t /\ rmode t1 = rmode t) by (unfold t1; by destruct (_ && _)).
  clearbody t1. cbv zeta. destruct H1 as [<- <-]. repeat (match goal with |- context [if ?b then _ else _] => destruct b end); done.
Qed.

(** One call of [update_mode] seen from outside. *)
Definition mode_report (t t' : mqvpn_redundant_tx_t) (now r : Z) : Prop :=
  r = Z.b2z (overloaded t') - Z.b2z (overloaded t) /\ hold_ok t' /\
  (r = -1 -> mode_stale t now = true \/ hold_us t <= u64 (now - since_us t)) /\
  (r = 1 -> RTX_START_GRACE <= u64 (now - flow_since_us t) /\ (if bool_decide (rmode t = RTX_PROBE) then RTX_REENTER_N else RTX_ENTER_N) <= short_n t + 1 /\
            since_us t' = now).

Lemma mode_step_report t all_short fit now : hold_ok t ->
  let '(r, t') := mode_step t all_short fit now in
  r = Z.b2z (overloaded t') - Z.b2z (overloaded t) /\ hold_ok t' /\ (r = -1 -> hold_us t <= u64 (now - since_us t)) /\
  (r = 1 -> RTX_START_GRACE <= u64 (now - flow_since_us t) /\ (if bool_decide (rmode t = RTX_PROBE) then RTX_REENTER_N else RTX_ENTER_N) <= short_n t + 1 /\ since_us t' = now).
Proof.
  intros Hh. unfold mode_step, overloaded, hold_ok in *. assert (Bo : forall m, bool_decide (m = RTX_OVERLOAD) = match m with RTX_OVERLOAD => true | _ => false end) by (by intros []).
  assert (Bp : forall m, bool_decide (m = RTX_PROBE) = match m with RTX_PROBE => true | _ => false end) by (by intros []). rewrite !Bo, !Bp. cbv zeta.
  unfold RTX_HOLD_FIRST, RTX_HOLD_MAX, RTX_ENTER_N, RTX_REENTER_N, RTX_START_GRACE in *. assert (Eh : u64 (hold_us t * 2) = hold_us t * 2) by (apply u64_small; lia). clear Bp.
  set (t1 := if all_short && _ then _ else _). assert (H1 : hold_us t1 = hold_us t /\ rmode t1 = rmode t /\
    (short_n t1 = 0 \/ short_n t1 = short_n t + 1 /\ 2000000 <= u64 (now - flow_since_us t))).
  { unfold t1. destruct (all_short && _) eqn:Ea; [|by auto]. apply andb_true_iff in Ea as [_ Ea]. bool_to_prop. split_and!; [done|done|right; split; [done|lia]]. }
  clearbody t1. destruct H1 as (E1 & E2 & E3). destruct (rmode t) eqn:Er.
  all: rewrite ?E2, ?Bo; repeat match goal with |- context [if ?b then _ else _] => let E := fresh "E" in destruct b eqn:E end.
  all: cbn [rmode hold_us since_us update]; rewrite ?Bo, ?Er, ?E2, ?E1, ?Eh in *; cbn [Z.b2z].
  all: try done; bool_to_prop; split_and!; intros; lia.
Qed.

Lemma update_mode_report t usable now : rtx_inv t -> hold_ok t ->
  exists r t', mqvpn_redundant_tx_update_mode t usable now = Some (r, t') /\ mode_report t t' now r.
Proof.
  intros Hi Hh. unfold mqvpn_redundant_tx_update_mode, mode_report. assert (Hid : overloaded t = overloaded t) by done.
  destruct (_ =? 0)%nat; [exists 0, t; split_and!; try done; lia|]. fold (mode_stale t now). destruct (mode_stale t now) eqn:Es.
  { do 2 eexists. split; [done|]. unfold overloaded. split_and!; [|done|intros _; by left|by case_match]. cbn [rmode rtx_mode_reset update]. by destruct (bool_decide (rmode t = _)). }
  destruct (win_start_us t =? 0); [do 2 eexists; split; [done|]; unfold overloaded; split_and!; try done; cbn [rmode rtx_window_start update]; lia|]. cbv zeta.
  destruct (_ <? RTX_MODE_WIN); [exists 0, t; split_and!; try done; lia|].
  destruct (judge_total t usable (now - win_start_us t) (rtx_stream_pps t) (hist_base t (rtx_stream_pps t)) true false Hi) as [[a f] ->]. rewrite bind_some.
  destruct (rtx_stream_pps t =? 0); [do 2 eexists; split; [done|]; unfold overloaded; split_and!; try done; cbn [rmode rtx_window_start update]; lia|].
  match goal with |- context [mode_step ?t1 ?a1 f now] => pose proof (mode_step_report t1 a1 f now Hh) as Hm; destruct (mode_step t1 a1 f now) as [r t'] end.
  exists r, t'. split; [done|]. destruct Hm as (E1 & E2 & E3 & E4). split_and!; try done. intros Hr. right. by apply E3.
Qed.

(** The calls other than [update_mode] leave the mode and its hold alone. *)
Definition same_mode (t t' : mqvpn_redundant_tx_t) : Prop := rmode t' = rmode t /\ hold_us t' = hold_us t.

Lemma detach_mode t p t' : mqvpn_redundant_tx_detach_path t p = Some t' -> same_mode t t'.
Proof.
  unfold mqvpn_redundant_tx_detach_path, same_mode. intros E. destruct (negb _); [apply Some_inj in E; by subst t'|].
  destruct (path_at t p) as [x|]; [|done]. rewrite bind_some in E. destruct (outstanding x =? 0); apply Some_inj in E; by subst t'.
Qed.

Lemma select_pass_mode t usable now bp bq out r : select_pass t usable now bp bq out = Some r -> same_mode t r.2.
Proof.
  revert t out. induction usable as [|p usable IH]; intros t out E; cbn [select_pass] in E; [apply Some_inj in E; by subst r|]. destruct (negb (path_ok p)); [by eapply IH|].
  destruct (rtx_queued_us t p now) as [q|]; [|done]. rewrite bind_some in E. match type of E with (if ?b then _ else _) = _ => destruct b end; [by eapply IH|].
  destruct (path_at t p); [|done]. rewrite bind_some in E. apply IH in E. done.
Qed.

Lemma commit_loop_mode ok bytes now t cs t' : commit_loop ok bytes now t cs = Some t' -> same_mode t t'.
Proof.
  revert t. induction cs as [|[id p] cs IH]; intros t E; cbn [commit_loop] in E; [apply Some_inj in E; by subst t'|]. destruct (commit_copy ok bytes now t id p) as [t1|] eqn:Ec; [|done].
  rewrite bind_some in E. apply IH in E as [E1 E2]. assert (H : same_mode t t1); [|destruct H; split; congruence]. clear -Ec. unfold commit_copy in Ec.
  destruct (tab_insert (copies t) id) as [[[i tab]|]|]; [|done..]. rewrite !bind_some in Ec. destruct (tab_e tab !! _); [|done]. rewrite bind_some in Ec. cbv zeta in Ec.
  match type of Ec with (if ?b then _ else _) = _ => destruct b end; [|apply Some_inj in Ec; by subst t1]. destruct (path_at _ _); [|done]. rewrite bind_some in Ec. cbn [sent update] in Ec.
  destruct (sent t !! _); [|done]. rewrite bind_some in Ec. apply Some_inj in Ec. by subst t1.
Qed.

Lemma resolve_mode t id acked r t' : resolve t id acked = Some (r, t') -> same_mode t t'.
Proof.
  unfold resolve. intros E. destruct (tab_find (copies t) id) as [[ci|]|]; [|rewrite bind_some in E; by injection E as _ <-|done]. rewrite bind_some in E.
  destruct (tab_e (copies t) !! _) as [c|]; [|done]. rewrite bind_some in E. destruct (tab_find (origs t) (ent_a c)) as [[oi|]|]; [|done..]. rewrite !bind_some in E.
  match type of E with (?a ≫= _) = _ => assert (Ha : forall t1, a = Some t1 -> same_mode t t1); [|destruct a as [t1|]; [|done]] end.
  { intros t1. case_match; [|intros [= <-]; done]. destruct (path_at t (ent_b c)); [|done]. rewrite bind_some. intros Et. apply Some_inj in Et. by subst t1. }
  specialize (Ha t1 eq_refl). rewrite bind_some in E. destruct (tab_remove (copies t1) ci) as [tab|]; [|done]. rewrite bind_some in E. destruct (tab_e (origs t1) !! _); [|done]. rewrite bind_some in E.
  apply Some_inj in E. cbv zeta in E. injection E as _ <-. exact Ha.
Qed.

Lemma remove_orig_mode t oi t' : remove_orig t oi = Some t' -> same_mode t t'.
Proof. unfold remove_orig. destruct (tab_remove (origs t) oi); [|done]. rewrite bind_some. intros E. apply Some_inj in E. by subst t'. Qed.

Lemma acked_mode t id r t' : mqvpn_redundant_tx_on_acked t id = Some (r, t') -> same_mode t t'.
Proof.
  unfold mqvpn_redundant_tx_on_acked. intros E. destruct (resolve t id true) as [[o t1]|] eqn:Er; [|done]. rewrite bind_some in E. apply resolve_mode in Er.
  destruct o as [[oi last]|]; [|apply Some_inj in E; by injection E as _ <-]. destruct (tab_e (origs t1) !! _) as [x|]; [|done]. rewrite bind_some in E. cbv zeta in E.
  destruct last; [|rewrite bind_some in E; apply Some_inj in E; by injection E as _ <-]. match type of E with (remove_orig ?t2 oi ≫= _) = _ => destruct (remove_orig t2 oi) as [t3|] eqn:E3; [|done] end.
  rewrite bind_some in E. apply Some_inj in E. injection E as _ <-. apply remove_orig_mode in E3. unfold same_mode in *. cbn [rmode hold_us update] in E3. destruct Er, E3. split; congruence.
Qed.

Lemma lost_mode t id r t' : mqvpn_redundant_tx_on_lost t id = Some (r, t') -> same_mode t t'.
Proof.
  unfold mqvpn_redundant_tx_on_lost. intros E. destruct (resolve t id false) as [[o t1]|] eqn:Er; [|done]. rewrite bind_some in E. apply resolve_mode in Er.
  destruct o as [[oi last]|]; [|apply Some_inj in E; by injection E as _ <-]. destruct (tab_e (origs t1) !! _) as [x|]; [|done]. rewrite bind_some in E. cbv zeta in E.
  destruct last; [|rewrite bind_some in E; apply Some_inj in E; by injection E as _ <-]. destruct (remove_orig t1 oi) as [t3|] eqn:E3; [|done].
  rewrite bind_some in E. apply Some_inj in E. injection E as _ <-. apply remove_orig_mode in E3. unfold same_mode in *. destruct Er, E3. split; congruence.
Qed.

Lemma commit_mode t cs now len t' : mqvpn_redundant_tx_commit t cs now len = Some t' -> same_mode t t'.
Proof.
  unfold mqvpn_redundant_tx_commit. intros E. cbv zeta in E. match type of E with (if ?b then _ else _) = _ => destruct b end; [apply Some_inj in E; by subst t'|].
  destruct (count_rate_mode t now) as [Eh Em]. set (t1 := rtx_count_rate t now) in *. clearbody t1. destruct (tab_insert (origs t1) _) as [[[i tab]|]|]; [|done..]. rewrite !bind_some in E.
  destruct (tab_e tab !! _); [|done]. rewrite bind_some in E. apply commit_loop_mode in E as [E1 E2]. unfold same_mode. cbn [rmode hold_us update] in E1, E2. split; congruence.
Qed.

Lemma bind_mode t p xid t' : mqvpn_redundant_tx_bind_path t p xid = Some t' -> same_mode t t'.
Proof.
  unfold mqvpn_redundant_tx_bind_path. intros E. destruct (negb _); [apply Some_inj in E; by subst t'|]. destruct (path_at t p) as [x|]; [|done]. rewrite bind_some in E.
  match type of E with (?a ≫= _) = _ => assert (Ha : forall t1, a = Some t1 -> same_mode t t1); [|destruct a as [t1|]; [|done]] end.
  { intros t1. case_match; [apply detach_mode|intros Et; apply Some_inj in Et; by subst t1]. }
  specialize (Ha t1 eq_refl). rewrite bind_some in E. destruct (path_at t1 p) as [y|]; [|done]. rewrite bind_some in E. apply Some_inj in E. by subst t'.
Qed.

Lemma metrics_mode t p rtt bw infl t' : mqvpn_redundant_tx_set_path_metrics t p rtt bw infl = Some t' -> same_mode t t'.
Proof.
  unfold mqvpn_redundant_tx_set_path_metrics. intros E. destruct (negb _); [apply Some_inj in E; by subst t'|]. apply bind_Some in E as (x & _ & E). apply Some_inj in E. by subst t'.
Qed.

Lemma select_mode t us now out t' : mqvpn_redundant_tx_select t us now = Some (out, t') -> same_mode t t'.
Proof.
  unfold mqvpn_redundant_tx_select. intros E. destruct (_ =? 0)%nat; [apply Some_inj in E; by injection E as _ <-|]. destruct (_ <=? _); [apply Some_inj in E; by injection E as _ <-|].
  apply bind_Some in E as (best & _ & E). destruct best as [[[bp bq] bo]|]; [|apply Some_inj in E; by injection E as _ <-].
  apply bind_Some in E as ([out1 t1] & Ep & E). apply select_pass_mode in Ep. apply Some_inj in E. cbv zeta in E. injection E as _ <-. exact Ep.
Qed.

Lemma bypass_mode t now : same_mode t (mqvpn_redundant_tx_overload_bypass t now).2.
Proof. unfold mqvpn_redundant_tx_overload_bypass. case_match; [done|]. split; apply count_rate_mode. Qed.

Lemma mode_hold t t' : same_mode t t' -> hold_ok t -> hold_ok t'.
Proof. intros [_ E]. unfold hold_ok. by rewrite E. Qed.

Lemma do_hold w op w' : rtx_inv (w_t w) -> rtx_do w op = Some w' -> hold_ok (w_t w) -> hold_ok (w_t w').
Proof.
  destruct w as [t acks dl ls]. cbn [w_t]. intros Hi E Hh. destruct op as [p xid|p|p rtt bw infl|us now|cs now len|id|id|us now|now]; cbn [rtx_do] in E.
  1, 2, 3, 5: apply bind_Some in E as (t' & Et & E); apply Some_inj in E; subst w'; (eapply mode_hold; [|exact Hh]).
  5, 6, 7, 8: apply bind_Some in E as ([r t'] & Et & E); apply Some_inj in E; subst w'.
  - by apply bind_mode in Et.
  - by apply detach_mode in Et.
  - by apply metrics_mode in Et.
  - by apply commit_mode in Et.
  - eapply mode_hold; [by eapply select_mode|done].
  - eapply mode_hold; [by eapply acked_mode|done].
  - eapply mode_hold; [by eapply lost_mode|done].
  - destruct (update_mode_report t us now Hi Hh) as (r' & t1 & Et1 & _ & Hh' & _). rewrite Et in Et1. apply Some_inj in Et1. by injection Et1 as _ ->.
  - apply Some_inj in E. subst w'. eapply mode_hold; [apply bypass_mode|done].
Qed.

Lemma run_hold ops w w' : world_ok w -> rtx_legal w ops = true -> rtx_run w ops = Some w' -> hold_ok (w_t w) -> hold_ok (w_t w').
Proof.
  revert w. induction ops as [|op ops IH]; intros w Hw Hl E Hh; cbn [rtx_run rtx_legal] in *; [apply Some_inj in E; by subst w'|]. apply andb_true_iff in Hl as [Ho Hl].
  destruct (world_step w op Hw Ho) as (w1 & E1 & Hw1). rewrite E1 in *. rewrite bind_some in E. apply (IH w1 Hw1 Hl E). by apply (do_hold w op w1); [apply Hw| |].
Qed.

(** At any point of a tracker's lifetime [update_mode] answers, and its
    answer is 1 exactly when the call enters overload, -1 exactly when it
    leaves it and 0 otherwise.  The hold stays between its first value and its
    cap, overload is left early only because the stream's clock is stale, and
    it is entered only after the start grace and the full count of short
    windows. *)
Theorem redundant_mode_reports ops usable now : rtx_legal rtx_world0 ops = true ->
  exists w r t', rtx_run rtx_world0 ops = Some w /\ mqvpn_redundant_tx_update_mode (w_t w) usable now = Some (r, t') /\ mode_report (w_t w) t' now r.
Proof.
  intros Hl. destruct (run_spec ops _ world_new Hl) as (w & E & Hw). pose proof (run_hold ops _ w world_new Hl E ltac:(done)) as Hh.
  destruct (update_mode_report (w_t w) usable now (wk_inv _ Hw) Hh) as (r & t' & Et & Hr). by exists w, r, t'.
Qed.

Lemma redundant_mode_reports_witness : exists w r t', rtx_run rtx_world0 rtx_demo = Some w /\ mqvpn_redundant_tx_update_mode (w_t w) [0; 1] 300000 = Some (r, t') /\ mode_report (w_t w) t' 300000 r.
Proof. refine (redundant_mode_reports rtx_demo [0; 1] 300000 _). vm_compute. reflexivity. Defined.
