(* ===== verification/RedundantPorts.v ===== *)
(** * The port list and the packet match of redundant transmission

    What [mqvpn_redundant_parse_ports] accepts and what
    [mqvpn_redundant_match] selects. *)

From S2P Require Import Prelude CString RedundantTx.

(** ** Parsing *)

Lemma skip_blank_length s : (length (skip_blank s) <= length s)%nat.
Proof. induction s as [|c s IH]; cbn [skip_blank]; [done|]. case_match; cbn [length]; lia. Qed.

Lemma port_digits_length s v d v' d' s' : port_digits s v d = (v', d', s') -> (length s' <= length s)%nat.
Proof.
  revert v d. induction s as [|c s IH]; intros v d; cbn [port_digits]; [by intros [= _ _ <-]|]. case_match; [|by intros [= _ _ <-]].
  intros E%IH. cbn [length]. lia.
Qed.

(** The bound on the rounds never decides the outcome. *)
Lemma ports_loop_fuel f1 f2 s n max out : (length s < f1)%nat -> (length s < f2)%nat -> ports_loop f1 s n max out = ports_loop f2 s n max out.
Proof.
  revert f2 s n out. induction f1 as [|f1 IH]; intros [|f2] s n out H1 H2; [lia..|]. cbn [ports_loop]. destruct (port_digits (skip_blank s) 0 false) as [[v d] s1] eqn:E.
  apply port_digits_length in E. pose proof (skip_blank_length s). pose proof (skip_blank_length s1). destruct (_ || (65535 <? v)); [done|]. destruct (max <? n + 1); [done|].
  destruct (skip_blank s1) as [|c s2]; [done|]. destruct (c =? 44); [|done]. cbn [length] in *. apply IH; lia.
Qed.

Lemma port_digits_dec s rest v d : digits_ok s -> 0 <= v -> dec_value v s <= 65535 ->
  (match rest with c :: _ => (48 <=? c) && (c <=? 57) | [] => false end) = false ->
  port_digits (s ++ rest) v d = (dec_value v s, d || negb (length s =? 0)%nat, rest).
Proof.
  intros Hs. revert v d. induction Hs as [|c s Hc Hs IH]; intros v d Hv Hle Hr; cbn [app length Nat.eqb negb].
  - rewrite orb_false_r. destruct rest as [|c rest]; [done|]. cbn [port_digits]. by rewrite Hr.
  - cbn [port_digits]. rewrite (proj2 (andb_true_iff _ _)) by (split; apply Z.leb_le; lia).
    change (dec_value v (c :: s)) with (dec_value (v * 10 + (c - 48)) s) in *.
    assert (Hge : v * 10 + (c - 48) <= dec_value (v * 10 + (c - 48)) s).
    { rewrite dec_value_acc. assert (Hz : 0 <= dec_value 0 s).
      { clear -Hs. induction s as [|x s IH] using rev_ind; [done|]. apply Forall_app in Hs as [H1 H2]. apply Forall_cons in H2 as [H2 _]. rewrite dec_value_app. specialize (IH H1). unfold dec_value at 1. cbn [fold_left]. lia. }
      assert (1 <= 10 ^ Z.of_nat (length s)) by (apply (Z.pow_le_mono_r 10 0); lia). nia. }
    rewrite (proj2 (Z.leb_le v 65535)) by lia. rewrite IH by (done || lia). by rewrite orb_true_l, orb_true_r.
Qed.

(** A list of ports as text. *)
Fixpoint print_ports (ports : list Z) : list Z :=
  match ports with
  | [] => []
  | [p] => print_u32 p
  | p :: ports => print_u32 p ++ 44 :: print_ports ports
  end.

Definition port_ok (p : Z) : Prop := 1 <= p <= 65535.

Lemma skip_digits s rest : digits_ok s -> s <> [] -> skip_blank (s ++ rest) = s ++ rest.
Proof.
  intros Hs Hne. destruct s as [|c s]; [done|]. apply Forall_cons in Hs as [Hc _]. cbn [app skip_blank]. unfold is_blank.
  rewrite !(proj2 (Z.eqb_neq c _)) by lia. done.
Qed.

Lemma print_ne p : port_ok p -> print_u32 p <> [].
Proof. intros Hp E. pose proof (print_u32_length p 10%nat) as Hl. rewrite E in Hl. unfold port_ok in Hp. cbn in Hl. lia. Qed.

Lemma print_port p rest : port_ok p -> (match rest with c :: _ => (48 <=? c) && (c <=? 57) | [] => false end) = false ->
  port_digits (skip_blank (print_u32 p ++ rest)) 0 false = (p, true, rest).
Proof.
  unfold port_ok. intros Hp Hr. assert (Hd : digits_ok (print_u32 p)) by (apply print_u32_digits; lia). pose proof (print_ne p Hp) as Hne.
  rewrite skip_digits by done. rewrite port_digits_dec; [|done|lia|rewrite print_u32_value; lia|done]. rewrite print_u32_value by lia. by destruct (print_u32 p).
Qed.

Lemma ports_loop_print fuel ports n max out : ports <> [] -> Forall port_ok ports -> NoDup (out ++ ports) -> n + Z.of_nat (length ports) <= max ->
  (length ports <= fuel)%nat -> ports_loop fuel (print_ports ports) n max out = Some (out ++ ports).
Proof.
  revert ports n out. induction fuel as [|fuel IH]; intros ports n out Hne Hp Hnd Hm Hf; [destruct ports; cbn [length] in Hf; [done|lia]|].
  destruct ports as [|p ports]; [done|]. apply Forall_cons in Hp as [Hp Hps]. cbn [length] in *.
  assert (Hx : existsb (Z.eqb p) out = false).
  { apply not_true_is_false. intros (x & Hx & E)%existsb_exists. bool_to_prop. subst x. apply NoDup_app in Hnd as (_ & Hd & _). apply (Hd p); [by apply list_elem_of_In|by left]. }
  assert (Hpv : (p <? 1) || (65535 <? p) = false) by (unfold port_ok in Hp; lia).
  destruct ports as [|p2 ports]; cbn [ports_loop].
  - cbn [print_ports]. rewrite <- (app_nil_r (print_u32 p)), print_port by done. cbn [skip_blank negb orb]. rewrite Hpv, Hx. cbn [length] in Hm. rewrite (proj2 (Z.ltb_ge _ _)) by lia. done.
  - change (print_ports (p :: p2 :: ports)) with (print_u32 p ++ 44 :: print_ports (p2 :: ports)). rewrite print_port by done.
    change (skip_blank (44 :: print_ports (p2 :: ports))) with (44 :: print_ports (p2 :: ports)). cbn [negb orb]. rewrite Hpv, Hx. rewrite (proj2 (Z.ltb_ge _ _)) by lia.
    cbn [Z.eqb Pos.eqb]. rewrite IH; [by rewrite <- app_assoc|done|done|by rewrite <- app_assoc|cbn [length] in *; lia|cbn [length] in *; lia].
Qed.

Lemma ports_loop_sound fuel s n max out r : ports_loop fuel s n max out = Some r -> Forall port_ok out -> NoDup out -> Z.of_nat (length out) <= n -> n <= max ->
  Forall port_ok r /\ NoDup r /\ Z.of_nat (length r) <= max.
Proof.
  revert s n out. induction fuel as [|fuel IH]; intros s n out E Hp Hnd Hl Hm; cbn [ports_loop] in E; [done|]. destruct (port_digits (skip_blank s) 0 false) as [[v d] s1].
  destruct (negb d || (v <? 1) || (65535 <? v)) eqn:Ev; [done|]. apply orb_false_iff in Ev as [[_ Ev1]%orb_false_iff Ev2]. bool_to_prop. destruct (Z.ltb_spec max (n + 1)); [done|].
  set (out' := if existsb (Z.eqb v) out then out else out ++ [v]) in *.
  assert (Ho : Forall port_ok out' /\ NoDup out' /\ Z.of_nat (length out') <= n + 1).
  { unfold out'. destruct (existsb (Z.eqb v) out) eqn:Ex; [split_and!; try done; lia|]. split_and!.
    - apply Forall_app. split; [done|]. constructor; [unfold port_ok; lia|constructor].
    - apply NoDup_app. split_and!; [done| |apply NoDup_singleton]. intros x Hx ->%list_elem_of_singleton. apply list_elem_of_In in Hx.
      rewrite (proj2 (existsb_exists _ _)) in Ex; [done|]. exists v. split; [done|apply Z.eqb_refl].
    - rewrite length_app. cbn [length]. lia. }
  clearbody out'. destruct Ho as (H1 & H2 & H3). destruct (skip_blank s1) as [|c s2]; [apply Some_inj in E; subst r; split_and!; try done; lia|].
  destruct (c =? 44); [|done]. apply (IH _ _ _ E); done || lia.
Qed.

(** The parser of the port list writes distinct ports between 1 and 65535,
    at most as many as it is given room for, and reads back every such list
    from its comma-separated decimal form. *)
Theorem parse_ports_roundtrip max ports : 0 <= max -> Forall port_ok ports -> NoDup ports -> Z.of_nat (length ports) <= max ->
  mqvpn_redundant_parse_ports (Some (print_ports ports)) max = Some ports /\
  forall s r, mqvpn_redundant_parse_ports s max = Some r -> Forall port_ok r /\ NoDup r /\ Z.of_nat (length r) <= max.
Proof.
  intros Hmax Hp Hnd Hl. split.
  - unfold mqvpn_redundant_parse_ports. destruct ports as [|p ports]; [done|]. assert (Hb : skip_blank (print_ports (p :: ports)) = print_ports (p :: ports) /\ print_ports (p :: ports) <> []).
    { apply Forall_cons in Hp as [Hp _]. pose proof (print_ne p Hp) as Hne. assert (Hd : digits_ok (print_u32 p)) by (apply print_u32_digits; unfold port_ok in Hp; lia).
      destruct ports as [|p2 ports]; cbn [print_ports].
      - split; [|done]. rewrite <- (app_nil_r (print_u32 p)). by apply skip_digits.
      - split; [by apply skip_digits|]. intros E%app_eq_nil. tauto. }
    destruct Hb as [-> Hne]. destruct (print_ports (p :: ports)) as [|c s] eqn:Es; [done|]. rewrite <- Es.
    rewrite (ports_loop_fuel _ (S (length (print_ports (p :: ports)) + length (p :: ports)))) by lia. rewrite ports_loop_print; [done|done|done|done|lia|lia].
  - intros [s|] r E; cbn [mqvpn_redundant_parse_ports] in E; [|apply Some_inj in E; subst r; split_and!; [constructor|constructor|cbn; lia]].
    destruct (skip_blank s); [apply Some_inj in E; subst r; split_and!; [constructor|constructor|cbn; lia]|]. apply (ports_loop_sound _ _ _ _ _ _ E); [apply Forall_nil_2|apply NoDup_nil_2|cbn; lia|lia].
Qed.

Lemma parse_ports_roundtrip_witness : mqvpn_redundant_parse_ports (Some (print_ports [53; 443; 65535])) 16 = Some [53; 443; 65535] /\
  forall s r, mqvpn_redundant_parse_ports s 16 = Some r -> Forall port_ok r /\ NoDup r /\ Z.of_nat (length r) <= 16.
Proof.
  refine (parse_ports_roundtrip 16 [53; 443; 65535] ltac:(lia) _ _ _).
  - repeat (constructor; [unfold port_ok; lia|]). constructor.
  - apply (bool_decide_eq_true_1 _). vm_compute. reflexivity.
  - cbn. lia.
Defined.

(** ** Matching *)

(** The packet carries UDP as the match sees it: the protocol byte, a first
    fragment and, with ports, a destination port from the list. *)
Definition byte_at (pkt : list Z) (i : Z) : Z := default 0 (rd pkt i).

Definition dport_in (ports pkt : list Z) (off : Z) : bool :=
  (off + 4 <=? blen pkt) && existsb (Z.eqb (byte_at pkt (off + 2) * 256 + byte_at pkt (off + 3))) ports.

Definition match_spec (ports pkt : list Z) : bool :=
  let hl := byte_at pkt 0 mod 16 * 4 in
  let any := (length ports =? 0)%nat in
  match byte_at pkt 0 / 16 with
  | 4 => (20 <=? blen pkt) && (byte_at pkt 9 =? 17) &&
         (any || (((byte_at pkt 6 * 256 + byte_at pkt 7) mod 8192 =? 0) && (20 <=? hl) && dport_in ports pkt hl))
  | 6 => (40 <=? blen pkt) && (byte_at pkt 6 =? 17) && (any || dport_in ports pkt 40)
  | _ => false
  end.

Lemma rd_byte_at pkt i : 0 <= i < blen pkt -> rd pkt i = Some (byte_at pkt i).
Proof. intros Hi. unfold byte_at. by destruct (rd_in_bounds pkt i Hi) as [v ->]. Qed.

Lemma byte_at_range pkt i : bytes_ok pkt -> 0 <= byte_at pkt i < 256.
Proof. intros Hb. unfold byte_at. destruct (rd pkt i) as [v|] eqn:E; cbn; [by eapply rd_byte|lia]. Qed.

Lemma shift_or a b : 0 <= a < 256 -> 0 <= b < 256 -> Z.lor (Z.shiftl a 8) b = a * 256 + b.
Proof. intros Ha Hb. rewrite lor_shift_add by (cbn; lia). lia. Qed.

Lemma match_dport_spec ports pkt off : bytes_ok pkt -> 0 <= off -> match_dport ports pkt off = Some (dport_in ports pkt off).
Proof.
  intros Hb Ho. unfold match_dport, dport_in. destruct (Z.ltb_spec (blen pkt) (off + 4)) as [Hl|Hl]; [by rewrite (proj2 (Z.leb_gt _ _)) by lia|].
  rewrite (proj2 (Z.leb_le (off + 4) _)) by lia. rewrite !rd_byte_at by lia. cbn [mbind option_bind andb].
  pose proof (byte_at_range pkt (off + 2) Hb). pose proof (byte_at_range pkt (off + 3) Hb). rewrite shift_or by done. rewrite u16_small by lia. done.
Qed.

Lemma redundant_match_total ports pkt : bytes_ok pkt -> mqvpn_redundant_match ports pkt = Some (match_spec ports pkt).
Proof.
  intros Hb. unfold mqvpn_redundant_match, match_spec. destruct (Z.ltb_spec (blen pkt) 1) as [H0|H0].
  { assert (E : byte_at pkt 0 = 0) by (unfold byte_at; destruct (rd pkt 0) eqn:E; [apply rd_lt in E; lia|done]). by rewrite E. }
  rewrite (rd_byte_at pkt 0) by lia. cbn [mbind option_bind]. pose proof (byte_at_range pkt 0 Hb) as H00. rewrite Z.shiftr_div_pow2 by lia. change (2 ^ 4) with 16.
  change 15 with (2 ^ 4 - 1). rewrite land_ones_mod by lia. change (2 ^ 4) with 16. pose proof (Z.mod_pos_bound (byte_at pkt 0) 16 ltac:(lia)).
  set (v := byte_at pkt 0 / 16). destruct (Z.eqb_spec v 4) as [->|N4]; [|destruct (Z.eqb_spec v 6) as [->|N6]].
  - destruct (Z.ltb_spec (blen pkt) 20); [by rewrite (proj2 (Z.leb_gt _ _)) by lia|]. rewrite (proj2 (Z.leb_le 20 _)) by lia. rewrite !rd_byte_at by lia. cbn [mbind option_bind andb].
    destruct (byte_at pkt 9 =? 17); cbn [negb andb]; [|done]. destruct (length ports =? 0)%nat; cbn [orb]; [done|]. rewrite shift_or by (by apply byte_at_range).
    change 8191 with (2 ^ 13 - 1). rewrite land_ones_mod by lia. change (2 ^ 13) with 8192. destruct (_ =? 0); cbn [negb andb]; [|done].
    destruct (Z.ltb_spec (byte_at pkt 0 mod 16 * 4) 20); [by rewrite (proj2 (Z.leb_gt _ _)) by lia|]. rewrite (proj2 (Z.leb_le 20 _)) by lia. cbn [andb]. apply match_dport_spec; [done|lia].
  - destruct (Z.ltb_spec (blen pkt) 40); [by rewrite (proj2 (Z.leb_gt _ _)) by lia|]. rewrite (proj2 (Z.leb_le 40 _)) by lia. rewrite !rd_byte_at by lia. cbn [mbind option_bind andb].
    destruct (byte_at pkt 6 =? 17); cbn [negb andb]; [|done]. destruct (length ports =? 0)%nat; cbn [orb]; [done|]. apply match_dport_spec; [done|lia].
  - destruct v as [|p|p]; try done. do 3 (destruct p as [p|p|]; try done).
Qed.

(** The packet match never reads outside the packet and selects exactly the
    IPv4 and IPv6 UDP packets, and with a port list only unfragmented-or-first
    ones whose destination port is on it. *)
Theorem redundant_match_correct ports pkt : bytes_ok pkt -> mqvpn_redundant_match ports pkt = Some (match_spec ports pkt).
Proof. apply redundant_match_total. Qed.

Definition udp_demo : list Z := [69; 0; 0; 32; 0; 0; 0; 0; 64; 17; 0; 0; 10; 0; 0; 1; 10; 0; 0; 2; 200; 0; 1; 187; 0; 12; 0; 0; 1; 2; 3; 4].

Lemma redundant_match_correct_witness : mqvpn_redundant_match [443] udp_demo = Some (match_spec [443] udp_demo) /\ match_spec [443] udp_demo = true.
Proof.
  split; [|vm_compute; reflexivity]. refine (redundant_match_correct [443] udp_demo _). apply (bool_decide_eq_true_1 _). unfold is_byte. vm_compute. reflexivity.
Defined.
