(* ===== verification/StateOpt.v ===== *)
(** * Computations with a state and faults

    The monad of the packet paths and of the server: a computation passes a
    state on and fails ([None]) when the program would access memory out of
    bounds, use a freed object or fail an assertion; with the calculus of its
    total correctness. *)

From S2P Require Import Prelude.

Definition stM (S A : Type) : Type := S -> option (A * S).

#[export] Instance stM_ret S : MRet (stM S) := fun A a s => Some (a, s).
#[export] Instance stM_bind S : MBind (stM S) := fun A B f m s => match m s with Some (a, s) => f a s | None => None end.

Definition d_get {S} : stM S S := fun s => Some (s, s).
Definition d_modify {S} (f : S -> S) : stM S unit := fun s => Some (tt, f s).
Definition d_lift {S A} (o : option A) : stM S A := fun s => match o with Some a => Some (a, s) | None => None end.
Definition d_skip {S} : stM S unit := mret tt.

Section wp.
Context {S : Type}.

Definition dwp {A} (m : stM S A) (s : S) (Q : A -> S -> Prop) : Prop := exists a s', m s = Some (a, s') /\ Q a s'.

Lemma dwp_mono {A} (m : stM S A) s (Q Q' : A -> S -> Prop) : dwp m s Q -> (forall a s', Q a s' -> Q' a s') -> dwp m s Q'.
Proof. intros (a & s' & E & H) Hi. exists a, s'. auto. Qed.

Lemma dwp_bind {A B} (m : stM S A) (f : A -> stM S B) s Q : dwp m s (fun a s' => dwp (f a) s' Q) -> dwp (m ≫= f) s Q.
Proof. intros (a & s' & E & b & s'' & E' & H). exists b, s''. split; [|done]. unfold mbind, stM_bind. by rewrite E. Qed.

Lemma dwp_ret {A} (a : A) s (Q : A -> S -> Prop) : Q a s -> dwp (mret a) s Q.
Proof. intros H. by exists a, s. Qed.

Lemma dwp_skip s (Q : unit -> S -> Prop) : Q tt s -> dwp d_skip s Q.
Proof. apply dwp_ret. Qed.

Lemma dwp_get s (Q : S -> S -> Prop) : Q s s -> dwp d_get s Q.
Proof. intros H. by exists s, s. Qed.

Lemma dwp_modify f s (Q : unit -> S -> Prop) : Q tt (f s) -> dwp (d_modify f) s Q.
Proof. intros H. by exists tt, (f s). Qed.

Lemma dwp_lift {A} (o : option A) a s (Q : A -> S -> Prop) : o = Some a -> Q a s -> dwp (d_lift o) s Q.
Proof. intros -> H. by exists a, s. Qed.

End wp.
