(* ===== verification/TunFrame.v ===== *)
(** * Packets between the tunnel and the datagrams ([src/dgram_frame.h])

    The frame of a packet, and the decrement of the TTL or hop limit with the
    incremental update of the IPv4 header checksum, which [forward_inner_ip] of
    the client and of the server and [mqvpn_server_on_tun_packet] contain.
    [None] is an access outside a buffer.  The MASQUE header is written by
    xquic: the frame functions take it, or the error, as an argument. *)

From S2P Require Import Prelude Wire Icmp.

Definition PACKET_BUF_SIZE : Z := 65536.
Definition MASQUE_FRAME_BUF : Z := PACKET_BUF_SIZE + 16.
Definition MQVPN_DGRAM_STACK_BUF : Z := 2048.
Definition MQVPN_MASQUE_HDR_MAX : Z := 9.

Definition mqvpn_dgram_frame_cap (len : Z) (stamp : bool) : Z :=
  MQVPN_MASQUE_HDR_MAX + (if stamp then MQVPN_REORDER_HDR_LEN else 0) + len.

(** The buffer of a frame: its capacity, and whether it comes from the heap. *)
Definition frame_room (len : Z) (stamp : bool) : Z * bool :=
  let cap := mqvpn_dgram_frame_cap len stamp in
  let cap := if MASQUE_FRAME_BUF <? cap then MASQUE_FRAME_BUF else cap in
  if MQVPN_DGRAM_STACK_BUF <? cap then (cap, true) else (MQVPN_DGRAM_STACK_BUF, false).

(** [mhdr] is what [xqc_h3_ext_masque_frame_udp] wrote, [None] for its error;
    the result is the frame, [None] inside for an error. *)
Definition mqvpn_dgram_frame (cap : Z) (mhdr : option (list Z)) (reorder_hdr : option (list Z)) (pkt : list Z)
    : option (option (list Z)) :=
  match mhdr with
  | None => Some None
  | Some h =>
      let rh := match reorder_hdr with Some r => r | None => [] end in
      if u64 (cap - blen h) <? blen rh + blen pkt then Some None
      else if blen h + blen rh + blen pkt <=? cap then Some (Some (h ++ rh ++ pkt))
      else None
  end.

(** [fwd_pkt[8]--] with the checksum, or [fwd_pkt[7]--]. *)
Definition ttl_decrement (ip_ver : Z) (p : list Z) : option (list Z) :=
  if ip_ver =? 4 then
    t ← rd p 8;
    p ← wr p 8 (u8 (t - 1));
    hi ← rd p 10;
    lo ← rd p 11;
    let sum := u32 (Z.lor (Z.shiftl hi 8) lo + 256) in
    let sum := u32 (Z.land sum 65535 + Z.shiftr sum 16) in
    p ← wr p 10 (Z.land (Z.shiftr sum 8) 255);
    wr p 11 (Z.land sum 255)
  else
    t ← rd p 7;
    wr p 7 (u8 (t - 1)).

(** [memcmp (pkt + off, ip, n) == 0]. *)
Definition same_bytes (pkt : list Z) (off n : Z) (ip : list Z) : option bool :=
  a ← rdn pkt off n; b ← rdn ip 0 n; Some (bool_decide (a = b)).

(** ** The checksum *)

Lemma fold_checksum_zero c : 0 <= c < 2 ^ 32 -> fold_checksum c = 0 <-> 0 < c /\ (65535 | c).
Proof.
  intros Hc. destruct (fold_checksum_eq c Hc) as [E R]. destruct (fold_carry_spec 3 c Hc) as (Hr & (q & Hq) & Hz). pose proof (fold_carry_small c Hc). cbn zeta in *. rewrite E. split.
  - intros H0. split; [lia|]. exists (q + 1). lia.
  - intros [Hp [k Hk]]. assert (Hd : fold_carry 3 c = 65535 * (k - q)) by lia. assert (k - q = 0 \/ k - q = 1) as [E0|E1] by lia; lia.
Qed.

Lemma list_20 (l : list Z) : 20 <= blen l -> exists x0 x1 x2 x3 x4 x5 x6 x7 x8 x9 x10 x11 x12 x13 x14 x15 x16 x17 x18 x19 t,
  l = [x0; x1; x2; x3; x4; x5; x6; x7; x8; x9; x10; x11; x12; x13; x14; x15; x16; x17; x18; x19] ++ t.
Proof. unfold blen. intros Hl. do 20 (destruct l as [|? l]; [cbn [length] in Hl; lia|]). do 20 eexists. by exists l. Qed.

(** The new checksum word, after the end-around carry. *)
Lemma incremental_word hi lo : is_byte hi -> is_byte lo ->
  let sum := u32 (Z.lor (Z.shiftl hi 8) lo + 256) in let sum := u32 (Z.land sum 65535 + Z.shiftr sum 16) in
  is_byte (Z.land (Z.shiftr sum 8) 255) /\ is_byte (Z.land sum 255) /\
  exists c, 0 <= c <= 1 /\ Z.land (Z.shiftr sum 8) 255 * 256 + Z.land sum 255 = hi * 256 + lo + 256 - 65535 * c.
Proof.
  intros Hh Hl. unfold is_byte in Hh, Hl. rewrite lor_shift_add by lia. change (2 ^ 8) with 256. cbv zeta. rewrite (u32_small (hi * 256 + lo + 256)) by lia. rewrite fold_round by lia.
  set (s := hi * 256 + lo + 256). assert (Hs : 0 <= s < 65536 + 256) by lia. pose proof (Z.div_mod s (2 ^ 16) ltac:(lia)) as Hdm. pose proof (Z.mod_pos_bound s (2 ^ 16) ltac:(lia)) as Hmd.
  assert (Hc : 0 <= s / 2 ^ 16 <= 1) by lia. set (v := s - 65535 * (s / 2 ^ 16)). assert (Hv : 0 <= v <= 65535) by lia. destruct (split16 v Hv) as (H1 & H2 & H3).
  split; [apply land255_byte|]. split; [done|]. exists (s / 2 ^ 16). split; [done|]. change 255 with (2 ^ 8 - 1) at 1. rewrite land_ones_mod by lia.
  unfold is_byte in H1. rewrite Z.mod_small by (change (2 ^ 8) with 256; lia). fold v. lia.
Qed.

(** [p'] is [p] with a smaller TTL and another checksum. *)
Definition ttl_of (p p' : list Z) : Prop :=
  length p' = length p /\ (forall i, i <> 8 -> i <> 10 -> i <> 11 -> rd p' i = rd p i) /\
  exists t, rd p 8 = Some t /\ rd p' 8 = Some (t - 1).

Lemma ttl_v4_step p t : bytes_ok p -> 20 <= blen p -> rd p 8 = Some t -> 1 <= t ->
  exists p', ttl_decrement 4 p = Some p' /\ bytes_ok p' /\ ttl_of p p' /\
    forall n, 20 <= n <= blen p -> exists c, 0 <= c <= 1 /\ words (take (Z.to_nat n) p') = words (take (Z.to_nat n) p) - 65535 * c.
Proof.
  intros Hb Hl Ht Ht1. destruct (list_20 p Hl) as (x0 & x1 & x2 & x3 & x4 & x5 & x6 & x7 & x8 & x9 & x10 & x11 & x12 & x13 & x14 & x15 & x16 & x17 & x18 & x19 & r & ->).
  cbn in Ht. injection Ht as ->. unfold bytes_ok in Hb. rewrite Forall_app in Hb. destruct Hb as [Hb Hr]. repeat (apply Forall_cons in Hb as [? Hb]).
  destruct (incremental_word x10 x11) as (Hh & Hlo & c & Hc & Ev); [done..|]. cbv zeta in *.
  unfold ttl_decrement. change (4 =? 4) with true. cbv iota.
  assert (Hrd : forall l i, 0 <= i < blen l -> rd (l ++ r) i = rd l i) by (intros l i Hi; unfold rd; rewrite lookup_app_l by (unfold blen in Hi; lia); done).
  rewrite Hrd by (unfold blen; cbn [length]; lia). change (rd [x0; x1; x2; x3; x4; x5; x6; x7; t; x9; x10; x11; x12; x13; x14; x15; x16; x17; x18; x19] 8) with (Some t). cbn [mbind option_bind]. rewrite wr_prefix by (unfold blen; cbn [length]; lia). cbn [mbind option_bind].
  change (Z.to_nat 8) with 8%nat. cbn [insert list_insert]. rewrite !Hrd by (unfold blen; cbn [length]; lia). change (rd [x0; x1; x2; x3; x4; x5; x6; x7; u8 (t - 1); x9; x10; x11; x12; x13; x14; x15; x16; x17; x18; x19] 10) with (Some x10).
  change (rd [x0; x1; x2; x3; x4; x5; x6; x7; u8 (t - 1); x9; x10; x11; x12; x13; x14; x15; x16; x17; x18; x19] 11) with (Some x11). cbn [mbind option_bind]. cbv zeta.
  set (sum := u32 (Z.land _ 65535 + _)) in *. rewrite wr_prefix by (unfold blen; cbn [length]; lia). cbn [mbind option_bind]. change (Z.to_nat 10) with 10%nat. cbn [insert list_insert]. rewrite wr_prefix by (unfold blen; cbn [length]; lia).
  change (Z.to_nat 11) with 11%nat. cbn [insert list_insert]. assert (Hu : u8 (t - 1) = t - 1) by (apply u8_small; unfold is_byte in *; lia). rewrite Hu. eexists. split; [done|]. unfold ttl_of. split_and!.
  - unfold bytes_ok. rewrite Forall_app. split; [|done]. repeat constructor; try done; unfold is_byte in *; lia.
  - done.
  - intros i N8 N10 N11. destruct (Z.ltb_spec i 0) as [Hi|Hi]; [unfold rd; by rewrite (proj2 (Z.ltb_lt i 0)) by done|]. unfold rd. rewrite (proj2 (Z.ltb_ge i 0)) by done.
    remember (Z.to_nat i) as k eqn:Ek. do 20 (destruct k as [|k]; [try done; exfalso; lia|]). done.
  - by exists t.
  - intros n Hn. exists c. split; [done|]. assert (Hk : exists k, Z.to_nat n = (20 + k)%nat) by (exists (Z.to_nat n - 20)%nat; lia). destruct Hk as [k ->].
    cbn [Nat.add take app words]. lia.
Qed.

Lemma ttl_v4_checksum p n t b0 : bytes_ok p -> rd p 0 = Some b0 -> Z.shiftr b0 4 = 4 -> 20 <= n <= blen p -> n <= 60 -> Z.even n = true -> rd p 8 = Some t -> 1 <= t ->
  ipv4_checksum p n = Some 0 -> exists p', ttl_decrement 4 p = Some p' /\ bytes_ok p' /\ ttl_of p p' /\ ipv4_checksum p' n = Some 0.
Proof.
  intros Hb H0 Hv Hn Hn60 He Ht Ht1 Hck. destruct (ttl_v4_step p t Hb ltac:(lia) Ht Ht1) as (p' & E & Hb' & Hof & Hw). exists p'. split_and!; try done. destruct (Hw n Hn) as (c & Hc & Ew).
  assert (Hev : forall q, blen q = blen p -> bytes_ok q -> ipv4_checksum q n = Some (fold_checksum (words (take (Z.to_nat n) q))) /\ 0 <= words (take (Z.to_nat n) q) < 2 ^ 32).
  { intros q Hq Hbq. unfold ipv4_checksum. rewrite rdn_eq by lia. cbn [mbind option_bind]. rewrite drop_0. assert (Hbt : bytes_ok (take (Z.to_nat n) q)) by (by apply Forall_take).
    pose proof (words_bounds _ Hbt) as Hwb. unfold blen in Hwb, Hq, Hn. rewrite length_take in Hwb. assert (Hlt : 0 <= words (take (Z.to_nat n) q) < 2 ^ 32) by lia. split; [|done].
    rewrite sum_words_eq; [done|done| |lia|lia]. rewrite length_take, Nat.min_l by lia. apply Z.even_spec in He as [m Hm]. exists (Z.to_nat m). lia. }
  destruct Hof as (Hlen & Hsame & _). destruct (Hev p eq_refl Hb) as [Ep Rp]. destruct (Hev p') as [Ep' Rp']; [unfold blen; lia|done|]. rewrite Ep in Hck. apply Some_inj in Hck. rewrite Ep'. f_equal.
  apply fold_checksum_zero; [done|]. apply fold_checksum_zero in Hck as [Hpos Hdiv]; [|done]. split; [|rewrite Ew; apply Z.divide_sub_r; [done|apply Z.divide_factor_l]].
  rewrite <- (Hsame 0) in H0 by lia. assert (Hb0 : 64 <= b0) by (rewrite Z.shiftr_div_pow2 in Hv by lia; pose proof (Z.div_mod b0 (2 ^ 4) ltac:(lia)); pose proof (Z.mod_pos_bound b0 (2 ^ 4) ltac:(lia)); lia).
  clear -H0 Hb0 Hb' Hn Hlen. destruct (Z.to_nat n) as [|[|k]] eqn:Ek; [lia|lia|]. unfold rd in H0. cbn in H0. destruct p' as [|x [|y p']]; [done|cbn [length] in Hlen; unfold blen in Hn; lia|].
  cbn in H0. injection H0 as ->. cbn [take words]. apply Forall_cons in Hb' as [Hx [Hy Hb']%Forall_cons]. pose proof (words_bounds (take k p') (Forall_take _ _ _ Hb')). unfold is_byte in *. lia.
Qed.
