(* ===== verification/ClientLane.v ===== *)
(** * The client's packet path ([src/mqvpn_client.c])

    Packets from the tunnel to the datagrams and back: source validation, the
    lane decision, redundant and ordinary sends, the backpressure latch, the
    dispatch of received datagrams and the acknowledgement counters.  The
    client's handle and connection are those of [Client]; the fields only the
    packet path touches are the record [lane].  Operations are computations
    that pass the lane on, and fail ([None]) when they access memory out of
    bounds.  The build is the one without the TCP lane
    ([MQVPN_HYBRID_TCP_LANE_ENABLED] off). *)

From S2P Require Import Prelude Wire ReorderRx ReorderTx Icmp Gate FlowSched Hybrid PathFsm Client RtxTable RedundantTx TunFrame StateOpt.

(** What the packet path hands to its surroundings, in order: packets for the
    tunnel, datagrams for xquic (on a given path or scheduled, with the answer)
    and the callback that reading the tunnel may go on. *)
Inductive lane_fx :=
| LxTun (pkt : list Z)
| LxSend (path : option Z) (frame : list Z) (flow_hash : Z) (ret id : Z)
| LxReady.

Record lane := Lane {
  reorder_tx : option mqvpn_reorder_tx_t;
  reorder_rx : option mqvpn_reorder_rx_t;
  redundant_tx : option mqvpn_redundant_tx_t;
  redundant_refresh_us : Z;
  redundant_full_warned : bool;
  dgram_acked_cnt : Z;
  dgram_lost_cnt : Z;
  ptb_bucket : mqvpn_ptb_bucket_t;
  backpressure : bool;
  dgram_sent : Z;
  dgram_recv : Z;
  dgram_acked : Z;
  dgram_lost : Z;
  lane_bytes_rx : Z;
  pkts_lane_dgram : Z;
  pkts_lane_raw : Z;
  lane_calls : nat;
  lane_out : list lane_fx
}.

#[export] Instance eta_lane : Settable lane := fun r =>
  Lane (reorder_tx r) (reorder_rx r) (redundant_tx r) (redundant_refresh_us r) (redundant_full_warned r) (dgram_acked_cnt r) (dgram_lost_cnt r)
    (ptb_bucket r) (backpressure r) (dgram_sent r) (dgram_recv r) (dgram_acked r) (dgram_lost r) (lane_bytes_rx r)
    (pkts_lane_dgram r) (pkts_lane_raw r) (lane_calls r) (lane_out r).

(** The code outside the sources: the clocks, the allocator and xquic.  A
    question that may have another answer each time is asked with its number. *)
Record lane_env := LaneEnv {
  l_now_us : nat -> Z;
  l_now_ms : nat -> Z;
  l_malloc : nat -> bool;
  l_rx_allocs : nat -> allocs;
  l_masque_frame_udp : Z -> Z -> option (list Z);
  l_masque_unframe_udp : list Z -> option (Z * list Z);
  l_masque_udp_mss : Z -> Z -> Z;
  l_datagram_send : nat -> option Z -> list Z -> Z -> Z * Z;
  l_path_metrics : nat -> list (Z * (Z * Z * Z));
  l_has_ready : bool;
  XQC_EAGAIN : Z
}.

(** The settings the packet path reads besides those in [client_config]. *)
Record lane_config := LaneConfig {
  lc_reorder : mqvpn_reorder_config_t;
  lc_redundant : bool;
  lc_redundant_ports : list Z
}.

(** The engines of a new connection, given the outcome of each allocation:
    without either reorder engine both are dropped. *)
Definition lane_engines (cfg : lane_config) (ok_red ok_tx ok_txb ok_rx ok_rxb : bool) (now_us conn_id : Z)
    : option mqvpn_redundant_tx_t * option mqvpn_reorder_tx_t * option mqvpn_reorder_rx_t :=
  let red := if lc_redundant cfg && ok_red then Some mqvpn_redundant_tx_new else None in
  if bool_decide (mode (lc_reorder cfg) = MQVPN_REORDER_OFF) then (red, None, None)
  else
    let seed_base := Z.lxor now_us (u64 (Z.shiftl conn_id 32)) in
    let tx := ReorderTx.mqvpn_reorder_tx_new ok_tx ok_txb (Some (lc_reorder cfg)) seed_base in
    let rx := mqvpn_reorder_rx_new ok_rx ok_rxb (Some (lc_reorder cfg)) (Z.lxor seed_base 2654435769) true in
    match tx, rx with Some tx, Some rx => (red, Some tx, Some rx) | _, _ => (red, None, None) end.

(** ** The monad *)

Abbreviation D := (stM lane).

Definition d_emit (x : lane_fx) : D unit := d_modify (fun s => s <| lane_out ::= fun l => l ++ [x] |>).
Definition d_ask {A} (f : nat -> A) : D A := fun s => Some (f (lane_calls s), s <| lane_calls ::= S |>).

(** The packet of a builder that calls back with it or not at all. *)
Definition emit_icmp (p : option (option (list Z))) : D unit :=
  p ← d_lift p; match p with Some pkt => d_emit (LxTun pkt) | None => d_skip end.

Section lane_ops.
Context (E : lane_env) (cfg : lane_config).

Definition l_clock : D Z := d_ask (l_now_us E).

(** ** From the datagrams to the tunnel *)

(** The copy whose TTL is decremented. *)
Definition forward_copy (ip_ver : Z) (pkt : list Z) : D unit :=
  ok ← (if blen pkt <=? MQVPN_DGRAM_STACK_BUF then mret true else d_ask (l_malloc E));
  if negb ok then d_skip
  else
    fwd_pkt ← d_lift (ttl_decrement ip_ver pkt);
    d_modify (fun s => s <| dgram_recv ::= fun n => u64 (n + 1) |> <| lane_bytes_rx ::= fun n => u64 (n + blen pkt) |>) ;;
    d_emit (LxTun fwd_pkt).

Definition forward_inner_ip (c : mqvpn_client_t) (k : cli_conn_t) (pkt : list Z) : D unit :=
  if blen pkt <? 1 then d_skip
  else
    b0 ← d_lift (rd pkt 0);
    let ip_ver := Z.shiftr b0 4 in
    if PACKET_BUF_SIZE <? blen pkt then d_skip
    else if ip_ver =? 4 then
      if blen pkt <? IPV4_MIN_HDR then d_skip
      else
        ttl ← d_lift (rd pkt 8);
        if ttl <=? 1 then
          match k' ← conn c; addr4 k' with
          | Some (ip, _) => emit_icmp (mqvpn_icmp_send_v4 ip 11 0 0 pkt)
          | None => d_skip
          end
        else forward_copy ip_ver pkt
    else if ip_ver =? 6 then
      if (blen pkt <? IPV6_MIN_HDR) || negb (bool_decide (is_Some (addr6 k))) then d_skip
      else
        hl ← d_lift (rd pkt 7);
        if hl <=? 1 then
          match k' ← conn c; addr6 k' with
          | Some (ip6, _) => emit_icmp (mqvpn_icmp_send_v6 ip6 3 0 0 pkt)
          | None => d_skip
          end
        else forward_copy ip_ver pkt
    else d_skip.

Fixpoint forward_all (c : mqvpn_client_t) (k : cli_conn_t) (pkts : list (list Z)) : D unit :=
  match pkts with [] => d_skip | p :: pkts => forward_inner_ip c k p ;; forward_all c k pkts end.

(** A step of the receive engine: what it delivers goes through the callback. *)
Definition lane_rx_step (c : mqvpn_client_t) (k : cli_conn_t) (rx rx' : mqvpn_reorder_rx_t) : D unit :=
  d_modify (fun s => s <| reorder_rx := Some rx' |>) ;;
  forward_all c k (drop (length (deliver_log rx)) (deliver_log rx')).

Definition cb_dgram_read (c : mqvpn_client_t) (k : cli_conn_t) (data : list Z) : D unit :=
  if negb (tun_active c) then d_skip
  else
    match l_masque_unframe_udp E data with
    | None => d_skip
    | Some (_, payload) =>
        if blen payload <? 1 then d_skip
        else
          b0 ← d_lift (rd payload 0);
          match mqvpn_reorder_classify_byte b0 with
          | MQVPN_REORDER_KIND_RAW => forward_inner_ip c k payload
          | MQVPN_REORDER_KIND_REORDER_V1 =>
              s ← d_get;
              match reorder_rx s with
              | Some rx =>
                  t ← l_clock;
                  al ← d_ask (l_rx_allocs E);
                  rx' ← d_lift (mqvpn_reorder_rx_on_packet al rx payload t);
                  lane_rx_step c k rx rx'
              | None => d_skip
              end
          | _ => d_skip
          end
    end.

Definition cb_dgram_write : D unit :=
  s ← d_get;
  if backpressure s then
    d_modify (fun s => s <| backpressure := false |>) ;;
    if l_has_ready E then d_emit LxReady else d_skip
  else d_skip.

(** ** Acknowledgements *)

Definition cli_dgram_notify (id : Z) (acked : bool) : D unit :=
  s ← d_get;
  r ← match redundant_tx s with
      | Some t =>
          '(r, t) ← d_lift (if acked then mqvpn_redundant_tx_on_acked t id else mqvpn_redundant_tx_on_lost t id);
          d_modify (fun s => s <| redundant_tx := Some t |>) ;;
          mret r
      | None => mret (-1)
      end;
  if negb (r =? 1) && negb (r =? -1) then d_skip
  else if acked then d_modify (fun s => s <| dgram_acked_cnt ::= fun n => u64 (n + 1) |> <| dgram_acked ::= fun n => u64 (n + 1) |>)
  else d_modify (fun s => s <| dgram_lost_cnt ::= fun n => u64 (n + 1) |> <| dgram_lost ::= fun n => u64 (n + 1) |>).

(** ** From the tunnel to the datagrams *)

Inductive tun_ingress_verdict_t := TUN_INGRESS_PROCEED | TUN_INGRESS_DROP.

Definition tun_validate_src (k : cli_conn_t) (pkt : list Z) (ip_ver : Z) : option tun_ingress_verdict_t :=
  if ip_ver =? 4 then
    match addr4 k with
    | Some (ip, _) => same ← same_bytes pkt 12 4 ip; Some (if (same : bool) then TUN_INGRESS_PROCEED else TUN_INGRESS_DROP)
    | None => Some TUN_INGRESS_PROCEED
    end
  else if ip_ver =? 6 then
    match addr6 k with
    | Some (ip6, _) =>
        if blen pkt <? IPV6_MIN_HDR then Some TUN_INGRESS_DROP
        else same ← same_bytes pkt 8 16 ip6; Some (if (same : bool) then TUN_INGRESS_PROCEED else TUN_INGRESS_DROP)
    | None => Some TUN_INGRESS_DROP
    end
  else Some TUN_INGRESS_DROP.

(** [Some (do_stamp, peek, redundant)] to proceed. *)
Definition lane_decision : Type := option (bool * option mqvpn_reorder_tx_peek_t * bool).

Definition tun_decide_lane (c : mqvpn_client_t) (k : cli_conn_t) (pkt : list Z) (ip_ver : Z) : D lane_decision :=
  (if enabled (hybrid (config c)) then
     '(ln, _) ← d_lift (mqvpn_hybrid_classify pkt (Some (hybrid (config c))));
     match ln with
     | MQVPN_LANE_DGRAM => d_modify (fun s => s <| pkts_lane_dgram ::= fun n => u64 (n + 1) |>)
     | MQVPN_LANE_TCP | MQVPN_LANE_RAW => d_modify (fun s => s <| pkts_lane_raw ::= fun n => u64 (n + 1) |>)
     end
   else d_skip) ;;
  let udp_mss := if 0 <? dgram_mss k then l_masque_udp_mss E (dgram_mss k) (masque_stream_id k) else 0 in
  s ← d_get;
  redundant ← match redundant_tx s with
              | Some _ => d_lift (mqvpn_redundant_match (lc_redundant_ports cfg) pkt)
              | None => mret false
              end;
  t ← l_clock;
  ok ← d_ask (l_malloc E);
  rv ← (if (redundant : bool) then d_lift (mqvpn_rgate_decide ok None false MQVPN_REORDER_OFF pkt t (u32 udp_mss))
        else
          rv ← d_lift (mqvpn_rgate_decide ok (reorder_tx s) (peer_reorder_supported k) (mode (lc_reorder cfg)) pkt t (u32 udp_mss));
          d_modify (fun s => s <| reorder_tx := rg_tx rv |>) ;; mret rv);
  match rg_verdict rv with
  | MQVPN_RGATE_DROP_REORDER_MTU | MQVPN_RGATE_DROP_RAW_MTU =>
      let addr := if ip_ver =? 4 then addr4 k else addr6 k in
      ms ← d_ask (l_now_ms E);
      s ← d_get;
      '(b, _, p) ← d_lift (mqvpn_rgate_send_ptb (ptb_bucket s) ms ip_ver (bool_decide (is_Some addr)) (default ([], 0) addr).1
                             (default 0 (rg_mtu rv)) pkt);
      d_modify (fun s => s <| ptb_bucket := b |>) ;;
      match p with Some pk => d_emit (LxTun pk) | None => d_skip end ;;
      mret None
  | MQVPN_RGATE_STAMP => mret (Some (true, rg_peek rv, redundant))
  | MQVPN_RGATE_RAW => mret (Some (false, rg_peek rv, redundant))
  end.

Definition tun_xqc_send (frame : list Z) (flow_hash : Z) (path : option Z) : D (Z * Z) :=
  '(ret, id) ← d_ask (fun n => l_datagram_send E n path frame flow_hash);
  d_emit (LxSend path frame flow_hash ret id) ;;
  mret (ret, id).

(** The tracker of a redundant send; only called with one. *)
Definition with_tracker {A} (f : mqvpn_redundant_tx_t -> option (A * mqvpn_redundant_tx_t)) : D A :=
  s ← d_get;
  t ← d_lift (redundant_tx s);
  '(a, t) ← d_lift (f t);
  d_modify (fun s => s <| redundant_tx := Some t |>) ;;
  mret a.

(** The loop over the path slots, from slot [i]. *)
Fixpoint usable_loop (ps : list path_entry_t) (i : Z) (t : mqvpn_redundant_tx_t) (out : list Z) : option (list Z * mqvpn_redundant_tx_t) :=
  match ps with
  | [] => Some (out, t)
  | p :: ps =>
      if xquic_path_live p && bool_decide (state p = PATH_LC_ACTIVE) then
        t ← mqvpn_redundant_tx_bind_path t i (xqc_path_id p); usable_loop ps (i + 1) t (out ++ [i])
      else t ← mqvpn_redundant_tx_detach_path t i; usable_loop ps (i + 1) t out
  end.

Definition redundant_usable_paths (c : mqvpn_client_t) : D (list Z) := with_tracker (fun t => usable_loop (paths c) 0 t []).

(** The sends on the selected paths: the accepted ids with their paths, and
    whether one was refused for now. *)
Fixpoint redundant_sends (c : mqvpn_client_t) (frame : list Z) (sel : list Z) (acc : list (Z * Z)) (eagain : bool) : D (list (Z * Z) * bool) :=
  match sel with
  | [] => mret (acc, eagain)
  | j :: sel =>
      p ← d_lift (paths c !! Z.to_nat j);
      '(r, id) ← tun_xqc_send frame 0 (Some (xqc_path_id p));
      if 0 <=? r then redundant_sends c frame sel (acc ++ [(id, j)]) eagain
      else redundant_sends c frame sel acc (eagain || (r =? - XQC_EAGAIN E))
  end.

Definition tun_send_redundant (c : mqvpn_client_t) (frame : list Z) : D Z :=
  usable ← redundant_usable_paths c;
  t ← l_clock;
  let nu := negb (length usable =? 0)%nat in
  bypass ← (if nu then with_tracker (fun x => Some (mqvpn_redundant_tx_overload_bypass x t)) else mret false);
  if (bypass : bool) then mret 0
  else
    sel ← (if nu then with_tracker (fun x => mqvpn_redundant_tx_select x usable t) else mret []);
    let k := negb (length sel =? 0)%nat in
    (if nu && negb k then d_modify (fun s => s <| redundant_full_warned := true |>)
     else if k then d_modify (fun s => s <| redundant_full_warned := false |>) else d_skip) ;;
    '(accepted, eagain) ← redundant_sends c frame sel [] false;
    with_tracker (fun x => x ← mqvpn_redundant_tx_commit x accepted t (blen frame); Some (tt, x)) ;;
    if negb (length accepted =? 0)%nat then d_modify (fun s => s <| dgram_sent ::= fun n => u64 (n + 1) |>) ;; mret 1
    else if (eagain : bool) then d_modify (fun s => s <| backpressure := true |>) ;; mret (-1)
    else mret 0.

(** The ordinary send at the end of [tun_send_datagram]. *)
Definition send_ordinary (c : mqvpn_client_t) (pkt frame : list Z) (do_stamp : bool) (peek : option mqvpn_reorder_tx_peek_t) : D mqvpn_error_t :=
  fh ← d_lift (flow_hash_pkt pkt (bool_decide (scheduler (config c) = MQVPN_SCHED_WLB_UDP_PIN)));
  '(xret, _) ← tun_xqc_send frame fh None;
  if xret =? - XQC_EAGAIN E then d_modify (fun s => s <| backpressure := true |>) ;; mret MQVPN_ERR_AGAIN
  else if xret <? 0 then mret MQVPN_ERR_ENGINE
  else
    (if do_stamp then
       s ← d_get;
       tx ← d_lift (reorder_tx s);
       pk ← d_lift peek;
       t ← l_clock;
       d_modify (fun s => s <| reorder_tx := Some (mqvpn_reorder_tx_commit tx pk t) |>)
     else d_skip) ;;
    d_modify (fun s => s <| dgram_sent ::= fun n => u64 (n + 1) |>) ;;
    mret MQVPN_OK.

Definition tun_send_datagram (c : mqvpn_client_t) (k : cli_conn_t) (pkt : list Z) (do_stamp : bool) (peek : option mqvpn_reorder_tx_peek_t)
    (redundant : bool) : D mqvpn_error_t :=
  if do_stamp && (PACKET_BUF_SIZE <? blen pkt) then mret MQVPN_ERR_INVALID_ARG
  else
    let '(cap, heap) := frame_room (blen pkt) do_stamp in
    ok ← (if (heap : bool) then d_ask (l_malloc E) else mret true);
    if negb ok then mret MQVPN_ERR_NO_MEMORY
    else
      rh ← (if do_stamp then pk ← d_lift peek; mret (Some (hdr pk)) else mret None);
      f ← d_lift (mqvpn_dgram_frame cap (l_masque_frame_udp E cap (masque_stream_id k)) rh pkt);
      match f with
      | None => mret MQVPN_ERR_ENGINE
      | Some frame =>
          rr ← (if redundant then tun_send_redundant c frame else mret 0);
          if negb (rr =? 0) then mret (if 0 <? rr then MQVPN_OK else MQVPN_ERR_AGAIN)
          else send_ordinary c pkt frame do_stamp peek
      end.

(** The handle is not NULL. *)
Definition mqvpn_client_on_tun_packet (c : mqvpn_client_t) (pkt : list Z) : D mqvpn_error_t :=
  if blen pkt =? 0 then mret MQVPN_ERR_INVALID_ARG
  else
    match conn c with
    | None => mret MQVPN_ERR_INVALID_ARG
    | Some k =>
        if negb (tunnel_ok k) then mret MQVPN_ERR_INVALID_ARG
        else
          s ← d_get;
          if backpressure s then mret MQVPN_ERR_AGAIN
          else
            b0 ← d_lift (rd pkt 0);
            let ip_ver := Z.shiftr b0 4 in
            if (ip_ver =? 4) && (blen pkt <? IPV4_MIN_HDR) then mret MQVPN_ERR_INVALID_ARG
            else
              v ← d_lift (tun_validate_src k pkt ip_ver);
              match v with
              | TUN_INGRESS_DROP => mret MQVPN_OK
              | TUN_INGRESS_PROCEED =>
                  d ← tun_decide_lane c k pkt ip_ver;
                  match d with
                  | None => mret MQVPN_OK
                  | Some (do_stamp, peek, redundant) => tun_send_datagram c k pkt do_stamp peek redundant
                  end
              end
    end.

(** ** The tick *)

Fixpoint refresh_metrics (c : mqvpn_client_t) (st : list (Z * (Z * Z * Z))) (usable : list Z) (t : mqvpn_redundant_tx_t) : option mqvpn_redundant_tx_t :=
  match usable with
  | [] => Some t
  | j :: usable =>
      p ← paths c !! Z.to_nat j;
      t ← match List.find (fun m => m.1 =? xqc_path_id p) st with
          | Some (_, (rtt, bw, infl)) => mqvpn_redundant_tx_set_path_metrics t j rtt bw infl
          | None => Some t
          end;
      refresh_metrics c st usable t
  end.

(** With a connection; the engine exists. *)
Definition tick_redundant_refresh (c : mqvpn_client_t) : D unit :=
  s ← d_get;
  match redundant_tx s with
  | None => d_skip
  | Some _ =>
      t ← l_clock;
      if negb (redundant_refresh_us s =? 0) && (u64 (t - redundant_refresh_us s) <? 100000) then d_skip
      else
        d_modify (fun s => s <| redundant_refresh_us := if t =? 0 then 1 else t |>) ;;
        usable ← redundant_usable_paths c;
        if (length usable =? 0)%nat || negb (multipath_ready c) then d_skip
        else
          st ← d_ask (l_path_metrics E);
          with_tracker (fun x => x ← refresh_metrics c st usable x; Some (tt, x)) ;;
          _ ← with_tracker (fun x => mqvpn_redundant_tx_update_mode x usable t);
          d_skip
  end.

(** The parts of [mqvpn_client_tick] that concern the packet path. *)
Definition lane_tick (c : mqvpn_client_t) (k : cli_conn_t) : D unit :=
  tick_redundant_refresh c ;;
  s ← d_get;
  match reorder_rx s with
  | Some rx => t ← l_clock; lane_rx_step c k rx (mqvpn_reorder_rx_tick rx t)
  | None => d_skip
  end.

End lane_ops.
