(* ===== verification/LaneProofs.v ===== *)
(** * Correctness of the client's packet path

    A weakest-precondition calculus for the packet path, the invariant of the
    lane and what each step does under it. *)

From S2P Require Import Prelude Wire Ring ReorderRx RxFlow RxInv RxStep RxTable ReorderTx TxProofs Icmp Gate FlowSched Hybrid HybridProofs PathFsm Client RtxTable RedundantTx RedundantProofs RedundantLife RedundantPorts TunFrame StateOpt ClientLane.

#[local] Opaque tab_find tab_insert tab_remove.

(** ** Total correctness of computations *)

Lemma dwp_ask {A} (f : nat -> A) s (Q : A -> lane -> Prop) : Q (f (lane_calls s)) (s <| lane_calls ::= S |>) -> dwp (d_ask f) s Q.
Proof. intros H. by eexists _, _. Qed.

Lemma dwp_emit x s (Q : unit -> lane -> Prop) : Q tt (s <| lane_out ::= fun l => l ++ [x] |>) -> dwp (d_emit x) s Q.
Proof. apply dwp_modify. Qed.

Lemma dwp_tracker {A} (f : mqvpn_redundant_tx_t -> option (A * mqvpn_redundant_tx_t)) s (Q : A -> lane -> Prop) t a t' :
  redundant_tx s = Some t -> f t = Some (a, t') -> Q a (s <| redundant_tx := Some t' |>) -> dwp (with_tracker f) s Q.
Proof.
  intros Et Ef H. unfold with_tracker. apply dwp_bind, dwp_get, dwp_bind. eapply dwp_lift; [exact Et|]. apply dwp_bind. eapply dwp_lift; [exact Ef|].
  apply dwp_bind, dwp_modify, dwp_ret, H.
Qed.

(** ** Hypotheses on the surroundings *)

(** The clock does not go back; xquic's frame header fits the buffer it is
    given, and unframing yields bytes; the ids of the datagrams it accepts grow. *)
Record lane_env_ok (E : lane_env) : Prop := {
  le_mono n m : (n <= m)%nat -> l_now_us E n <= l_now_us E m;
  le_range n : 0 <= l_now_us E n < TIME_LIMIT;
  le_frame cap sid h : l_masque_frame_udp E cap sid = Some h -> blen h <= cap;
  le_unframe d q p : bytes_ok d -> l_masque_unframe_udp E d = Some (q, p) -> bytes_ok p;
  le_ids n m p f h p' f' h' : (n < m)%nat -> 0 <= (l_datagram_send E n p f h).1 -> 0 <= (l_datagram_send E m p' f' h').1 ->
    (l_datagram_send E n p f h).2 < (l_datagram_send E m p' f' h').2;
  le_eagain : 0 < XQC_EAGAIN E
}.

(** What the packet path relies on in the client's handle and connection. *)
Record client_ok (c : mqvpn_client_t) : Prop := {
  ck_paths : (length (paths c) <= 8)%nat;
  ck_addr4 k ip p : conn c = Some k -> addr4 k = Some (ip, p) -> blen ip = 4 /\ bytes_ok ip;
  ck_addr6 k ip p : conn c = Some k -> addr6 k = Some (ip, p) -> blen ip = 16 /\ bytes_ok ip;
  ck_subnet : entry_ok (client_tunnel_subnet (hybrid (config c))).1 /\ entry_ok (client_tunnel_subnet (hybrid (config c))).2
}.

Section lane_proofs.
Context (E : lane_env) (HE : lane_env_ok E) (cfg : lane_config).

(** A datagram id that an earlier call gave out. *)
Definition id_before (n : nat) (id : Z) : Prop :=
  exists k p f h, (k < n)%nat /\ 0 <= (l_datagram_send E k p f h).1 /\ id = (l_datagram_send E k p f h).2.

(** [N] bounds the originals committed so far. *)
Record lane_inv (N : Z) (s : lane) : Prop := {
  li_tx tx : reorder_tx s = Some tx -> tx_inv tx;
  li_rx rx : reorder_rx s = Some rx -> exists T, rx_inv T rx /\ T <= l_now_us E (lane_calls s);
  li_rtx t : redundant_tx s = Some t -> rtx_inv t /\ next_orig t <= N /\ forall id, id ∈ dom (tab_map (copies t)) -> id_before (lane_calls s) id
}.

Lemma id_before_mono n m id : (n <= m)%nat -> id_before n id -> id_before m id.
Proof. intros Hn (k & p & f & h & Hk & Hr). exists k, p, f, h. split; [lia|done]. Qed.

(** Steps that touch no engine. *)
Definition same_engines (s s' : lane) : Prop :=
  reorder_tx s' = reorder_tx s /\ reorder_rx s' = reorder_rx s /\ redundant_tx s' = redundant_tx s /\ (lane_calls s <= lane_calls s')%nat.

Lemma inv_same N s s' : lane_inv N s -> same_engines s s' -> lane_inv N s'.
Proof.
  intros [H1 H2 H3] (E1 & E2 & E3 & Hc). split; rewrite ?E1, ?E2, ?E3; [done| |].
  - intros rx Hrx. destruct (H2 rx Hrx) as (T & Hi & HT). exists T. split; [done|]. pose proof (le_mono _ HE _ _ Hc). lia.
  - intros t Ht. destruct (H3 t Ht) as (Hi & Hn & Hd). split_and!; try done. intros id Hid. eapply id_before_mono; [exact Hc|by apply Hd].
Qed.

Lemma inv_le N N' s : lane_inv N s -> N <= N' -> lane_inv N' s.
Proof. intros [H1 H2 H3] Hn. split; try done. intros t Ht. destruct (H3 t Ht) as (Hi & Hb & Hd). split_and!; try done. lia. Qed.

Lemma inv_rtx N N' s s' t t' : lane_inv N s -> redundant_tx s = Some t -> redundant_tx s' = Some t' -> reorder_tx s' = reorder_tx s -> reorder_rx s' = reorder_rx s ->
  (lane_calls s <= lane_calls s')%nat -> rtx_inv t' -> next_orig t' <= N' -> (forall id, id ∈ dom (tab_map (copies t')) -> id_before (lane_calls s') id) -> lane_inv N' s'.
Proof.
  intros [H1 H2 H3] Et Et' E1 E2 Hc Hi Hn Hd. split; rewrite ?E1, ?E2; [done| |].
  - intros rx Hrx. destruct (H2 rx Hrx) as (T & Hr & HT). exists T. split; [done|]. pose proof (le_mono _ HE _ _ Hc). lia.
  - intros t0 Ht0. rewrite Et' in Ht0. apply Some_inj in Ht0. by subst t0.
Qed.

(** A new tracker state with the same originals and copies. *)
Lemma inv_tracker N s t t' : lane_inv N s -> redundant_tx s = Some t -> rtx_inv t' -> next_orig t' = next_orig t -> dom (tab_map (copies t')) = dom (tab_map (copies t)) ->
  lane_inv N (s <| redundant_tx := Some t' |>).
Proof.
  intros Hi Et Ht' En Ed. destruct (li_rtx _ _ Hi t Et) as (_ & Hn & Hd). eapply (inv_rtx N N s _ t t'); try done; cbn [lane_calls update]; [lia|]. by rewrite Ed.
Qed.

(** ** Received packets *)

Lemma icmp4_total src type code mtu orig : blen src = 4 -> exists r, mqvpn_icmp_send_v4 src type code mtu orig = Some r.
Proof.
  intros Hs. destruct (Z.ltb_spec (blen orig) 20) as [Hl|Hl]; [exists None; unfold mqvpn_icmp_send_v4, IPV4_MIN_HDR; by rewrite (proj2 (Z.ltb_lt _ _)) by lia|].
  destruct (rd_in_bounds orig 0) as [b0 Hb0]; [lia|].
  destruct ((Z.land b0 15 * 4 <? 20) || (blen orig <? Z.land b0 15 * 4)) eqn:Eg.
  - exists None. unfold mqvpn_icmp_send_v4, IPV4_MIN_HDR. rewrite (proj2 (Z.ltb_ge (blen orig) 20)), Hb0 by lia. cbn [mbind option_bind]. by rewrite Eg.
  - apply orb_false_iff in Eg as [G1 G2]. bool_to_prop. destruct (icmp_send_v4_eq src type code mtu orig b0) as (ck & _ & E1); [done|done|lia|]. rewrite E1. by eexists.
Qed.

Lemma icmp6_total src type code mtu orig : blen src = 16 -> exists r, mqvpn_icmp_send_v6 src type code mtu orig = Some r.
Proof.
  intros Hs. destruct (Z.ltb_spec (blen orig) 40) as [Hl|Hl]; [exists None; unfold mqvpn_icmp_send_v6, IPV6_MIN_HDR; by rewrite (proj2 (Z.ltb_lt _ _)) by lia|].
  destruct (icmp_send_v6_eq src type code mtu orig) as (ic & _ & E1); [done|lia|]. rewrite E1. by eexists.
Qed.

(** What a received inner packet turns into: at most one packet for the tunnel
    and whether it counts as received. *)
Definition fwd_verdict (c : mqvpn_client_t) (k : cli_conn_t) (mem : bool) (pkt : list Z) : option (list Z) * bool :=
  let v := byte_at pkt 0 / 16 in
  let fits := (1 <=? blen pkt) && (blen pkt <=? PACKET_BUF_SIZE) in
  if fits && (v =? 4) && (20 <=? blen pkt) then
    if byte_at pkt 8 <=? 1 then (match k' ← conn c; addr4 k' with Some (ip, _) => default None (mqvpn_icmp_send_v4 ip 11 0 0 pkt) | None => None end, false)
    else if mem then (ttl_decrement 4 pkt, true) else (None, false)
  else if fits && (v =? 6) && (40 <=? blen pkt) && bool_decide (is_Some (addr6 k)) then
    if byte_at pkt 7 <=? 1 then (match k' ← conn c; addr6 k' with Some (ip, _) => default None (mqvpn_icmp_send_v6 ip 3 0 0 pkt) | None => None end, false)
    else if mem then (ttl_decrement 6 pkt, true) else (None, false)
  else (None, false).

Definition tun_out (o : option (list Z)) : list lane_fx := match o with Some p => [LxTun p] | None => [] end.

Lemma ttl_total v p : 12 <= blen p -> is_Some (ttl_decrement v p).
Proof.
  intros Hl. assert (Hw : forall q i x, blen q = blen p -> 0 <= i < 12 -> exists q', wr q i x = Some q' /\ blen q' = blen p).
  { intros q i x Hq Hi. unfold wr. rewrite (proj2 (Z.leb_le 0 i)), (proj2 (Z.ltb_lt i _)) by lia. eexists. split; [done|]. unfold blen. rewrite length_insert. exact Hq. }
  unfold ttl_decrement. destruct (v =? 4).
  - rewrite rd_byte_at by lia. cbn [mbind option_bind]. destruct (Hw p 8 (u8 (byte_at p 8 - 1))) as (p1 & -> & H1); [done|lia|]. cbn [mbind option_bind]. rewrite !rd_byte_at by lia. cbn [mbind option_bind]. cbv zeta.
    match goal with |- context [wr p1 10 ?x] => destruct (Hw p1 10 x) as (p2 & -> & H2); [done|lia|] end. cbn [mbind option_bind].
    match goal with |- context [wr p2 11 ?x] => destruct (Hw p2 11 x) as (p3 & -> & H3); [done|lia|] end. by eexists.
  - rewrite rd_byte_at by lia. cbn [mbind option_bind]. destruct (Hw p 7 (u8 (byte_at p 7 - 1))) as (p1 & -> & H1); [done|lia|]. by eexists.
Qed.

(** What received packets leave alone. *)
Definition quiet (s s' : lane) : Prop :=
  backpressure s' = backpressure s /\ dgram_sent s' = dgram_sent s /\ ptb_bucket s' = ptb_bucket s /\ dgram_acked s' = dgram_acked s /\ dgram_lost s' = dgram_lost s.

Lemma lane_quiet_trans s1 s2 s3 : quiet s1 s2 -> quiet s2 s3 -> quiet s1 s3.
Proof. unfold quiet. intuition congruence. Qed.

(** One packet handled with the given outcome. *)
Definition fwd_rel (o : option (list Z) * bool) (s s' : lane) : Prop :=
  same_engines s s' /\ quiet s s' /\ lane_out s' = lane_out s ++ tun_out o.1 /\ dgram_recv s' = (if o.2 then u64 (dgram_recv s + 1) else dgram_recv s).

Lemma fwd_none s s' : same_engines s s' -> quiet s s' -> lane_out s' = lane_out s -> dgram_recv s' = dgram_recv s -> fwd_rel (None, false) s s'.
Proof. intros H1 H2 H3 H4. split_and!; try done. cbn. by rewrite app_nil_r. Qed.

Lemma same_engines_refl s : same_engines s s.
Proof. split_and!; done || lia. Qed.

Lemma same_engines_ask s : same_engines s (s <| lane_calls ::= S |>).
Proof. unfold same_engines. cbn. split_and!; done || lia. Qed.

Lemma emit_icmp_ok o s : is_Some o -> dwp (emit_icmp o) s (fun _ s' => fwd_rel (default None o, false) s s').
Proof.
  intros [r ->]. unfold emit_icmp. apply dwp_bind. eapply dwp_lift; [done|]. destruct r as [p|]; [apply dwp_emit|apply dwp_skip; apply fwd_none; try done; apply same_engines_refl].
  unfold fwd_rel, same_engines. split_and!; try done; cbn; lia.
Qed.

Lemma forward_copy_ok v pkt s : is_Some (ttl_decrement v pkt) ->
  dwp (forward_copy E v pkt) s (fun _ s' => exists mem, fwd_rel (if mem : bool then (ttl_decrement v pkt, true) else (None, false)) s s' /\ (blen pkt <= MQVPN_DGRAM_STACK_BUF -> mem = true)).
Proof.
  intros [p' Ep]. unfold forward_copy. rewrite Ep. apply dwp_bind. destruct (Z.leb_spec (blen pkt) MQVPN_DGRAM_STACK_BUF) as [Hl|Hl].
  - apply dwp_ret. cbn [negb]. apply dwp_bind. eapply dwp_lift; [done|]. apply dwp_bind, dwp_modify, dwp_emit. exists true. split; [|done]. unfold fwd_rel, same_engines. split_and!; try done; cbn; lia.
  - apply dwp_ask. destruct (l_malloc E (lane_calls s)); cbn [negb].
    + apply dwp_bind. eapply dwp_lift; [done|]. apply dwp_bind, dwp_modify, dwp_emit. exists true. split; [|done]. unfold fwd_rel, same_engines. split_and!; try done; cbn; lia.
    + apply dwp_skip. exists false. split; [|lia]. apply fwd_none; try done. apply same_engines_ask.
Qed.

Lemma forward_inner_ip_ok c k pkt s : client_ok c ->
  dwp (forward_inner_ip E c k pkt) s (fun _ s' => exists mem, fwd_rel (fwd_verdict c k mem pkt) s s' /\ (blen pkt <= MQVPN_DGRAM_STACK_BUF -> mem = true)).
Proof.
  intros Hc. unfold forward_inner_ip, fwd_verdict. pose proof (blen_nonneg pkt) as Hn. assert (Hskip : forall b : bool, b = false -> forall s, fwd_rel (None, false) s s) by (intros; apply fwd_none; try done; apply same_engines_refl).
  destruct (Z.ltb_spec (blen pkt) 1) as [H1|H1]; [apply dwp_skip; exists true; rewrite (proj2 (Z.leb_gt 1 _)) by lia; split; [by apply (Hskip false)|done]|].
  rewrite (proj2 (Z.leb_le 1 _)) by lia. rewrite (rd_byte_at pkt 0) by lia. apply dwp_bind. eapply dwp_lift; [done|]. cbv zeta. rewrite Z.shiftr_div_pow2 by lia. change (2 ^ 4) with 16.
  destruct (Z.ltb_spec PACKET_BUF_SIZE (blen pkt)) as [H2|H2]; [apply dwp_skip; exists true; rewrite (proj2 (Z.leb_gt _ PACKET_BUF_SIZE)) by lia; split; [by apply (Hskip false)|done]|].
  rewrite (proj2 (Z.leb_le _ PACKET_BUF_SIZE)) by lia. cbn [andb]. set (v := byte_at pkt 0 / 16). unfold IPV4_MIN_HDR, IPV6_MIN_HDR.
  destruct (Z.eqb_spec v 4) as [->|N4]; cbn [andb].
  - destruct (Z.ltb_spec (blen pkt) 20) as [H20|H20]; [rewrite (proj2 (Z.leb_gt 20 _)) by lia; apply dwp_skip; exists true; split; [by apply (Hskip false)|done]|].
    rewrite (proj2 (Z.leb_le 20 _)) by lia. apply dwp_bind. rewrite rd_byte_at by lia. eapply dwp_lift; [done|]. destruct (Z.leb_spec (byte_at pkt 8) 1) as [Ht|Ht].
    + destruct (k' ← conn c; addr4 k') as [[ip p]|] eqn:Ek; [|apply dwp_skip; exists true; split; [by apply (Hskip false)|done]].
      apply bind_Some in Ek as (k' & Ek & Ea). destruct (ck_addr4 _ Hc k' ip p Ek Ea) as [Hip _].
      eapply dwp_mono; [apply emit_icmp_ok; destruct (icmp4_total ip 11 0 0 pkt Hip) as [r ->]; by eexists|]. intros [] s' Hf. by exists true.
    + eapply dwp_mono; [apply forward_copy_ok, ttl_total; lia|]. intros [] s' (mem & Hf & Hm). exists mem. split; [by destruct mem|done].
  - destruct (Z.eqb_spec v 6) as [->|N6]; cbn [andb]; [|apply dwp_skip; exists true; split; [by apply (Hskip false)|done]].
    destruct (Z.ltb_spec (blen pkt) 40) as [H40|H40]; cbn [orb]; [rewrite (proj2 (Z.leb_gt 40 _)) by lia; apply dwp_skip; exists true; split; [by apply (Hskip false)|done]|].
    rewrite (proj2 (Z.leb_le 40 _)) by lia. destruct (bool_decide (is_Some (addr6 k))); cbn [negb andb]; [|apply dwp_skip; exists true; split; [by apply (Hskip false)|done]].
    apply dwp_bind. rewrite rd_byte_at by lia. eapply dwp_lift; [done|]. destruct (Z.leb_spec (byte_at pkt 7) 1) as [Ht|Ht].
    + destruct (k' ← conn c; addr6 k') as [[ip p]|] eqn:Ek; [|apply dwp_skip; exists true; split; [by apply (Hskip false)|done]].
      apply bind_Some in Ek as (k' & Ek & Ea). destruct (ck_addr6 _ Hc k' ip p Ek Ea) as [Hip _].
      eapply dwp_mono; [apply emit_icmp_ok; destruct (icmp6_total ip 3 0 0 pkt Hip) as [r ->]; by eexists|]. intros [] s' Hf. by exists true.
    + eapply dwp_mono; [apply forward_copy_ok, ttl_total; lia|]. intros [] s' (mem & Hf & Hm). exists mem. split; [by destruct mem|done].
Qed.

Definition is_tun (x : lane_fx) : bool := match x with LxTun _ => true | _ => false end.

(** Any number of received packets. *)
Definition recv_rel (s s' : lane) : Prop :=
  same_engines s s' /\ quiet s s' /\ exists new, lane_out s' = lane_out s ++ new /\ forallb is_tun new = true.

Lemma same_engines_trans s1 s2 s3 : same_engines s1 s2 -> same_engines s2 s3 -> same_engines s1 s3.
Proof. intros (A1 & A2 & A3 & A4) (B1 & B2 & B3 & B4). split_and!; try congruence. lia. Qed.

Lemma recv_refl s : recv_rel s s.
Proof. split; [apply same_engines_refl|]. split; [done|]. exists []. by rewrite app_nil_r. Qed.

Lemma fwd_recv o s s' : fwd_rel o s s' -> recv_rel s s'.
Proof. intros (H1 & H2 & H3 & _). split; [exact H1|]. split; [exact H2|]. exists (tun_out o.1). split; [done|]. by destruct (o.1). Qed.

Lemma recv_trans s1 s2 s3 : recv_rel s1 s2 -> recv_rel s2 s3 -> recv_rel s1 s3.
Proof.
  intros (A1 & A2 & n1 & A3 & A4) (B1 & B2 & n2 & B3 & B4). split; [by eapply same_engines_trans|]. split; [by eapply lane_quiet_trans|]. exists (n1 ++ n2). rewrite B3, A3, forallb_app, A4, B4.
  by rewrite app_assoc.
Qed.

Lemma forward_all_ok c k pkts s : client_ok c -> dwp (forward_all E c k pkts) s (fun _ s' => recv_rel s s').
Proof.
  intros Hc. revert s. induction pkts as [|p pkts IH]; intros s; cbn [forward_all]; [apply dwp_skip, recv_refl|]. apply dwp_bind.
  eapply dwp_mono; [by apply forward_inner_ip_ok|]. intros [] s1 (mem & Hf & _). eapply dwp_mono; [apply IH|]. intros [] s2 H2. eapply recv_trans; [by eapply fwd_recv|done].
Qed.

(** A step of the receive engine at a time read from the clock. *)
Lemma rx_advance N s rx rx' c k T : lane_inv N s -> reorder_rx s = Some rx -> client_ok c -> rx_inv T rx' -> T <= l_now_us E (lane_calls s) ->
  dwp (lane_rx_step E c k rx rx') s (fun _ s' => lane_inv N s' /\ quiet s s' /\ exists new, lane_out s' = lane_out s ++ new /\ forallb is_tun new = true).
Proof.
  intros Hi Er Hc Hrx HT. unfold lane_rx_step. apply dwp_bind, dwp_modify. eapply dwp_mono; [by apply forward_all_ok|]. intros [] s' (He & Hq & Hn). split; [|done].
  eapply inv_same; [|exact He]. destruct Hi as [H1 H2 H3]. split; cbn [reorder_tx reorder_rx redundant_tx lane_calls update]; try done. intros r [= <-]. by exists T.
Qed.

Lemma cb_dgram_read_ok N s c k data : lane_inv N s -> client_ok c -> bytes_ok data ->
  dwp (cb_dgram_read E c k data) s (fun _ s' => lane_inv N s' /\ quiet s s' /\ exists new, lane_out s' = lane_out s ++ new /\ forallb is_tun new = true).
Proof.
  intros Hi Hc Hb. unfold cb_dgram_read. assert (Hz : forall s0, lane_inv N s0 -> lane_inv N s0 /\ quiet s0 s0 /\ exists new, lane_out s0 = lane_out s0 ++ new /\ forallb is_tun new = true).
  { intros s0 H0. split; [done|]. split; [done|]. exists []. by rewrite app_nil_r. }
  destruct (tun_active c); cbn [negb]; [|by apply dwp_skip, Hz]. destruct (l_masque_unframe_udp E data) as [[q payload]|] eqn:Eu; [|by apply dwp_skip, Hz].
  destruct (Z.ltb_spec (blen payload) 1) as [Hl|Hl]; [by apply dwp_skip, Hz|]. apply dwp_bind. rewrite rd_byte_at by lia. eapply dwp_lift; [done|].
  assert (Hbp : bytes_ok payload) by (by eapply le_unframe).
  destruct (mqvpn_reorder_classify_byte (byte_at payload 0)); try by apply dwp_skip, Hz.
  - eapply dwp_mono; [by apply forward_inner_ip_ok|]. intros [] s' (mem & Hf & _). destruct (fwd_recv _ _ _ Hf) as (He & Hq & Hn). split; [by eapply inv_same|done].
  - apply dwp_bind, dwp_get. destruct (reorder_rx s) as [rx|] eqn:Er; [|by apply dwp_skip, Hz]. apply dwp_bind, dwp_ask, dwp_bind, dwp_ask. apply dwp_bind.
    destruct (li_rx _ _ Hi rx Er) as (T & Hrx & HT). pose proof (le_range _ HE (lane_calls s)) as Hr.
    destruct (on_packet_ok (l_rx_allocs E (lane_calls (s <| lane_calls ::= S |>))) T (l_now_us E (lane_calls s)) rx payload Hrx ltac:(lia) Hbp) as (rx' & Ex & Hrx' & _).
    eapply dwp_lift; [exact Ex|]. eapply dwp_mono; [apply (rx_advance N _ rx rx' c k (l_now_us E (lane_calls s)))|]; try done.
    + eapply inv_same; [exact Hi|]. eapply same_engines_trans; apply same_engines_ask.
    + apply (le_mono _ HE). cbn. lia.
Qed.

(** ** Acknowledgements *)

Lemma dom_shrink (m m' : gmap Z rtx_ent_t) id i : m' = delete id m -> i ∈ dom m' -> i ∈ dom m.
Proof. intros ->. rewrite dom_delete_L. by intros [? _]%elem_of_difference. Qed.

(** The counter of an acknowledgement or a loss moves exactly when the tracker
    reports the original now, or does not know the datagram. *)
Lemma notify_ok N s id (acked : bool) : lane_inv N s ->
  dwp (cli_dgram_notify id acked) s (fun _ s' => lane_inv N s' /\ backpressure s' = backpressure s /\ dgram_sent s' = dgram_sent s /\ lane_out s' = lane_out s /\
    exists hit : bool, dgram_acked s' = (if acked && hit then u64 (dgram_acked s + 1) else dgram_acked s) /\
      dgram_lost s' = (if negb acked && hit then u64 (dgram_lost s + 1) else dgram_lost s) /\
      (redundant_tx s = None -> hit = true /\ redundant_tx s' = None) /\
      (forall t, redundant_tx s = Some t -> exists r t', (if acked then mqvpn_redundant_tx_on_acked t id else mqvpn_redundant_tx_on_lost t id) = Some (r, t') /\
         redundant_tx s' = Some t' /\ hit = ((r =? 1) || (r =? -1)))).
Proof.
  intros Hi. unfold cli_dgram_notify. apply dwp_bind, dwp_get. apply dwp_bind. destruct (redundant_tx s) as [t|] eqn:Et.
  - destruct (li_rtx _ _ Hi t Et) as (Hti & Hn & Hd).
    assert (Hstep : exists r t', (if acked then mqvpn_redundant_tx_on_acked t id else mqvpn_redundant_tx_on_lost t id) = Some (r, t') /\ rtx_inv t' /\ next_orig t' = next_orig t /\
      forall i, i ∈ dom (tab_map (copies t')) -> i ∈ dom (tab_map (copies t))).
    { destruct acked.
      - pose proof (acked_spec t id Hti) as Ha. destruct (tab_map (copies t) !! id) as [c|]; [|by exists (-1), t]. destruct Ha as (o & t' & Ea & _ & Hi' & En & Em & _). do 2 eexists. split; [exact Ea|].
        split_and!; try done. intros i. by eapply dom_shrink.
      - pose proof (lost_spec t id Hti) as Ha. destruct (tab_map (copies t) !! id) as [c|]; [|by exists (-1), t]. destruct Ha as (o & t' & Ea & _ & Hi' & En & Em & _). do 2 eexists. split; [exact Ea|].
        split_and!; try done. intros i. by eapply dom_shrink. }
    destruct Hstep as (r & t' & Er & Hi' & En & Hsub). apply dwp_bind. eapply dwp_lift; [exact Er|]. apply dwp_bind, dwp_modify, dwp_ret. set (s1 := s <| redundant_tx := Some t' |>).
    assert (H1 : lane_inv N s1) by (eapply (inv_rtx N N s s1 t t'); [done|done|done|done|done|cbn; lia|done|lia|]; intros i Hid; by apply Hd, Hsub).
    assert (Hcond : negb (r =? 1) && negb (r =? -1) = negb ((r =? 1) || (r =? -1))) by (by rewrite negb_orb). rewrite Hcond.
    destruct ((r =? 1) || (r =? -1)) eqn:Eh; cbn [negb]; [destruct acked; apply dwp_modify|apply dwp_skip]; (split; [by eapply inv_same; [exact H1|]; split_and!|]); split_and!; try done.
    1: exists true. 2: exists true. 3: exists false. 3: rewrite !andb_false_r.
    all: split_and!; try done; intros t0 [= <-]; by exists r, t'.
  - apply dwp_ret. change (negb (-1 =? 1) && negb (-1 =? -1)) with false. cbv iota.
    destruct acked; apply dwp_modify; (split; [by eapply inv_same; [exact Hi|]; split_and!|]); (split_and!; try done); exists true; split_and!; done.
Qed.

Lemma dgram_write_ok N s : lane_inv N s ->
  dwp (cb_dgram_write E) s (fun _ s' => lane_inv N s' /\ backpressure s' = false /\ dgram_sent s' = dgram_sent s /\
    lane_out s' = lane_out s ++ (if backpressure s && l_has_ready E then [LxReady] else [])).
Proof.
  intros Hi. unfold cb_dgram_write. apply dwp_bind, dwp_get. destruct (backpressure s) eqn:Eb; cbn [andb].
  - apply dwp_bind, dwp_modify. destruct (l_has_ready E); [apply dwp_emit|apply dwp_skip]; (split; [by eapply inv_same; [exact Hi|]; split_and!|]); split_and!; try done. cbn. by rewrite app_nil_r.
  - apply dwp_skip. split_and!; try done. by rewrite app_nil_r.
Qed.

(** ** Redundant sends *)

Lemma usable_loop_ok ps i t out : 0 <= i -> rtx_inv t ->
  exists us t', usable_loop ps i t out = Some (out ++ us, t') /\ rtx_inv t' /\ next_orig t' = next_orig t /\ dom (tab_map (copies t')) = dom (tab_map (copies t)) /\
    Forall (fun j => i <= j < i + Z.of_nat (length ps)) us.
Proof.
  revert i t out. induction ps as [|p ps IH]; intros i t out Hi Ht; cbn [usable_loop length].
  { exists [], t. rewrite app_nil_r. by split_and!. }
  destruct (xquic_path_live p && bool_decide (state p = PATH_LC_ACTIVE)).
  - destruct (bind_spec t i (xqc_path_id p) Ht) as (t1 & -> & H1 & _ & En & Ed). cbn [mbind option_bind]. destruct (IH (i + 1) t1 (out ++ [i])) as (us & t2 & -> & H2 & En2 & Ed2 & Hf); [lia|done|].
    exists (i :: us), t2. rewrite <- app_assoc. split_and!; try done; [congruence|congruence|]. apply Forall_cons. split; [lia|]. eapply Forall_impl; [exact Hf|]. cbn. lia.
  - destruct (detach_spec t i Ht) as (t1 & -> & H1 & _ & En & Ed). cbn [mbind option_bind]. destruct (IH (i + 1) t1 out) as (us & t2 & -> & H2 & En2 & Ed2 & Hf); [lia|done|].
    exists us, t2. split_and!; try done; [congruence|congruence|]. eapply Forall_impl; [exact Hf|]. cbn. lia.
Qed.

(** A send of the frame [f]. *)
Definition is_send (f : list Z) (x : lane_fx) : Prop := exists p h r id, x = LxSend p f h r id.
Definition is_accept (x : lane_fx) : bool := match x with LxSend _ _ _ r _ => 0 <=? r | _ => false end.

(** Only questions were asked and datagrams sent. *)
Definition sends_rel (f : list Z) (s s' : lane) (new : list lane_fx) : Prop :=
  s' = s <| lane_calls := lane_calls s' |> <| lane_out := lane_out s ++ new |> /\ (lane_calls s <= lane_calls s')%nat /\ Forall (is_send f) new.

(** The accepted ids were given out from question [n0] on and are distinct. *)
Definition acc_ok (n0 n : nat) (acc : list (Z * Z)) : Prop :=
  NoDup acc.*1 /\ Forall (fun a => exists k p f h, (n0 <= k < n)%nat /\ 0 <= (l_datagram_send E k p f h).1 /\ a.1 = (l_datagram_send E k p f h).2) acc.

Lemma acc_ok_snoc n0 n acc p f h j : acc_ok n0 n acc -> (n0 <= n)%nat -> 0 <= (l_datagram_send E n p f h).1 -> acc_ok n0 (S n) (acc ++ [((l_datagram_send E n p f h).2, j)]).
Proof.
  intros [Hnd Hf] Hn Hr. split.
  - rewrite fmap_app. apply NoDup_app. split_and!; [done| |apply NoDup_singleton]. intros x Hx Hin. apply list_elem_of_singleton in Hin. cbn in Hin. subst x. apply list_elem_of_fmap in Hx as (a & Ea & Ha).
    rewrite Forall_forall in Hf. destruct (Hf a Ha) as (k & p' & f' & h' & Hk & Hr' & E'). pose proof (le_ids _ HE k n p' f' h' p f h ltac:(lia) Hr' Hr). lia.
  - apply Forall_app. split; [eapply Forall_impl; [exact Hf|]; intros a (k & p' & f' & h' & Hk & Hr'); exists k, p', f', h'; split; [lia|done]|].
    apply Forall_cons. split; [|apply Forall_nil_2]. exists n, p, f, h. split; [lia|done].
Qed.

Lemma redundant_sends_ok c f sel acc eg s n0 : (forall j, j ∈ sel -> 0 <= j < Z.of_nat (length (paths c))) -> acc_ok n0 (lane_calls s) acc -> (n0 <= lane_calls s)%nat ->
  dwp (redundant_sends E c f sel acc eg) s (fun r s' => exists new, sends_rel f s s' new /\ acc_ok n0 (lane_calls s') r.1 /\ (n0 <= lane_calls s')%nat /\
    (length r.1 =? 0)%nat = (length acc =? 0)%nat && negb (existsb is_accept new)).
Proof.
  revert acc eg s. induction sel as [|j sel IH]; intros acc eg s Hj Ha Hn; cbn [redundant_sends].
  { apply dwp_ret. exists []. split_and!; try done; [split_and!; [by destruct s; cbn; rewrite app_nil_r|lia|apply Forall_nil_2]|]. cbn. by rewrite andb_true_r. }
  destruct (lookup_lt_is_Some_2 (paths c) (Z.to_nat j)) as [p Hp]; [specialize (Hj j ltac:(by left)); lia|]. apply dwp_bind. eapply dwp_lift; [exact Hp|].
  apply dwp_bind. unfold tun_xqc_send. apply dwp_bind, dwp_ask. destruct (l_datagram_send E (lane_calls s) (Some (xqc_path_id p)) f 0) as [r id] eqn:Es. apply dwp_bind, dwp_emit, dwp_ret.
  set (s1 := s <| lane_calls ::= S |> <| lane_out ::= fun l => l ++ [LxSend (Some (xqc_path_id p)) f 0 r id] |>).
  assert (Hfin : forall acc' r' s', (exists new, sends_rel f s1 s' new /\ acc_ok n0 (lane_calls s') r'.1 /\ (n0 <= lane_calls s')%nat /\ (length (r' : list (Z * Z) * bool).1 =? 0)%nat = (length (acc' : list (Z * Z)) =? 0)%nat && negb (existsb is_accept new)) ->
    (length acc' =? 0)%nat = (length acc =? 0)%nat && negb (0 <=? r) -> exists new, sends_rel f s s' new /\ acc_ok n0 (lane_calls s') r'.1 /\ (n0 <= lane_calls s')%nat /\
      (length r'.1 =? 0)%nat = (length acc =? 0)%nat && negb (existsb is_accept new)).
  { intros acc' r' s' (new & (R1 & R2 & R3) & R4 & R5 & R6) Hl. exists (LxSend (Some (xqc_path_id p)) f 0 r id :: new). split_and!; try done.
    - split_and!; [rewrite R1; cbn; by rewrite <- app_assoc|cbn in R2; lia|]. apply Forall_cons. split; [by do 4 eexists|done].
    - rewrite R6, Hl. cbn [existsb is_accept]. rewrite negb_orb. by rewrite andb_assoc. }
  destruct (Z.leb_spec 0 r) as [Hr|Hr].
  - eapply dwp_mono; [apply (IH (acc ++ [(id, j)]) eg s1); [intros j' Hj'; apply Hj; by right| |cbn; lia]|].
    + cbn [lane_calls s1 update]. pose proof (acc_ok_snoc n0 (lane_calls s) acc (Some (xqc_path_id p)) f 0 j Ha Hn) as Hs. rewrite Es in Hs. by apply Hs.
    + intros r' s' H. eapply Hfin; [exact H|]. rewrite length_app. cbn [length]. rewrite andb_false_r. apply Nat.eqb_neq. lia.
  - eapply dwp_mono; [apply (IH acc (eg || (r =? - XQC_EAGAIN E)) s1); [intros j' Hj'; apply Hj; by right| |cbn; lia]|].
    + cbn [lane_calls s1 update]. destruct Ha as [Hnd Hf]. split; [done|]. eapply Forall_impl; [exact Hf|]. intros a (k & p' & f' & h' & Hk & Hr'). exists k, p', f', h'. split; [lia|done].
    + intros r' s' H. eapply Hfin; [exact H|]. cbn [negb]. by rewrite andb_true_r.
Qed.

Lemma select_subset t usable now out t' : rtx_inv t -> mqvpn_redundant_tx_select t usable now = Some (out, t') -> forall j, j ∈ out -> j ∈ usable.
Proof.
  intros Hi. unfold mqvpn_redundant_tx_select. destruct (_ =? 0)%nat; [intros Es; apply Some_inj in Es; injection Es as <- _; by intros j ?%elem_of_nil|].
  destruct (_ <=? _); [intros Es; apply Some_inj in Es; injection Es as <- _; by intros j ?%elem_of_nil|]. intros Es. apply bind_Some in Es as (best & _ & Es).
  destruct best as [[[bp bq] bo]|]; [|apply Some_inj in Es; injection Es as <- _; by intros j ?%elem_of_nil].
  destruct (select_pass_spec t usable now bp bq [] Hi) as (t1 & Ep & _). rewrite Ep, bind_some in Es. apply Some_inj in Es. cbv zeta in Es. injection Es as Eo _. rewrite <- Eo.
  intros j Hj. apply subseteq_take in Hj. cbn [app] in Hj. apply list_elem_of_In, List.filter_In, proj1 in Hj. unfold usable_ok in Hj. apply List.filter_In, proj1 in Hj. by apply list_elem_of_In.
Qed.

(** The commit of the accepted copies. *)
Lemma commit_lane N s t acc now len n0 : lane_inv N s -> redundant_tx s = Some t -> N + 1 < 2 ^ 64 -> 0 <= len -> acc_ok n0 (lane_calls s) acc ->
  (forall id, id ∈ dom (tab_map (copies t)) -> id_before n0 id) ->
  dwp (with_tracker (fun x => x ← mqvpn_redundant_tx_commit x acc now len; Some (tt, x))) s (fun _ s' => lane_inv (N + 1) s' /\ exists t', s' = s <| redundant_tx := Some t' |>).
Proof.
  intros Hi Et HN Hl [Hnd Hf] Hold. destruct (li_rtx _ _ Hi t Et) as (Ht & Hn & Hd).
  destruct (commit_spec t acc now len Ht Hnd) as (t' & Ec & Ht' & Hcase); [|lia|done|].
  { intros id Hid. apply not_elem_of_dom. intros Hin. apply Hold in Hin as (k & p & f & h & Hk & Hr & Ek). apply list_elem_of_fmap in Hid as (a & -> & Ha). rewrite Forall_forall in Hf.
    destruct (Hf a Ha) as (k' & p' & f' & h' & Hk' & Hr' & Ek'). pose proof (le_ids _ HE k k' p f h p' f' h' ltac:(lia) Hr Hr'). lia. }
  eapply dwp_tracker; [exact Et|rewrite Ec, bind_some; done|]. split; [|by eexists]. eapply (inv_rtx N (N + 1) s _ t t'); [done|done|done|done|done|cbn; lia|done| |].
  - destruct (commit_full t acc); [subst t'; lia|]. destruct Hcase as (-> & _). lia.
  - intros id Hid. cbn [lane_calls update]. destruct (commit_full t acc); [subst t'; by apply Hd|]. destruct Hcase as (_ & _ & _ & Ed). rewrite Ed in Hid. apply elem_of_union in Hid as [Hid|Hid]; [|by apply Hd].
    apply elem_of_list_to_set in Hid. apply list_elem_of_fmap in Hid as (a & -> & Ha). rewrite Forall_forall in Hf. destruct (Hf a Ha) as (k' & p' & f' & h' & Hk' & Hr' & Ek').
    exists k', p', f', h'. split; [lia|done].
Qed.

(** The fields a send does not touch. *)
Definition send_frame (s s' : lane) : Prop :=
  reorder_rx s' = reorder_rx s /\ dgram_recv s' = dgram_recv s /\ dgram_acked s' = dgram_acked s /\ dgram_lost s' = dgram_lost s /\ ptb_bucket s' = ptb_bucket s.

(** A send of the packet framed as [f]: [ok] when a datagram was accepted,
    [again] when the latch was set. *)
Definition send_rel (f : list Z) (s s' : lane) (ok again : bool) : Prop :=
  send_frame s s' /\ dgram_sent s' = (if ok then u64 (dgram_sent s + 1) else dgram_sent s) /\ backpressure s' = (again || backpressure s) /\
  exists new, lane_out s' = lane_out s ++ new /\ Forall (is_send f) new /\ existsb is_accept new = ok.

(** Only the tracker, the questions and the warning changed. *)
Definition tracker_only (s s' : lane) : Prop :=
  s' = s <| redundant_tx := redundant_tx s' |> <| lane_calls := lane_calls s' |> <| redundant_full_warned := redundant_full_warned s' |> /\ (lane_calls s <= lane_calls s')%nat.

Lemma tracker_only_trans s1 s2 s3 : tracker_only s1 s2 -> tracker_only s2 s3 -> tracker_only s1 s3.
Proof. intros [E1 H1] [E2 H2]. split; [|lia]. rewrite E2, E1. done. Qed.

Lemma usable_ok_lane N s t c : lane_inv N s -> redundant_tx s = Some t ->
  dwp (redundant_usable_paths c) s (fun us s' => lane_inv N s' /\ tracker_only s s' /\ (exists t', redundant_tx s' = Some t') /\ forall j, j ∈ us -> 0 <= j < Z.of_nat (length (paths c))).
Proof.
  intros Hi Et. destruct (li_rtx _ _ Hi t Et) as (Ht & Hn & Hd). destruct (usable_loop_ok (paths c) 0 t [] ltac:(lia) Ht) as (us & t' & Eu & Ht' & En & Ed & Hf).
  unfold redundant_usable_paths. eapply dwp_tracker; [exact Et|exact Eu|]. cbn [app]. split; [by eapply inv_tracker|]. split; [split; [done|cbn; lia]|]. split; [by eexists|].
  intros j Hj. rewrite Forall_forall in Hf. specialize (Hf j Hj). lia.
Qed.

(** The tail of a redundant send: the copies, the commit and the outcome. *)
Definition redundant_tail (c : mqvpn_client_t) (frame sel : list Z) (t : Z) : D Z :=
  '(accepted, eagain) ← redundant_sends E c frame sel [] false;
  with_tracker (fun x => x ← mqvpn_redundant_tx_commit x accepted t (blen frame); Some (tt, x)) ;;
  if negb (length accepted =? 0)%nat then d_modify (fun s => s <| dgram_sent ::= fun n => u64 (n + 1) |>) ;; mret 1
  else if (eagain : bool) then d_modify (fun s => s <| backpressure := true |>) ;; mret (-1)
  else mret 0.

(** What the three answers mean. *)
Definition redundant_post (N : Z) (f : list Z) (s : lane) (r : Z) (s' : lane) : Prop :=
  lane_inv (N + 1) s' /\ reorder_tx s' = reorder_tx s /\ (r = 1 \/ r = -1 \/ r = 0) /\ send_rel f s s' (r =? 1) (r =? -1).

Lemma redundant_tail_ok N s t c f sel now : lane_inv N s -> redundant_tx s = Some t -> N + 1 < 2 ^ 64 -> (forall j, j ∈ sel -> 0 <= j < Z.of_nat (length (paths c))) ->
  dwp (redundant_tail c f sel now) s (redundant_post N f s).
Proof.
  intros Hi Et HN Hsel. destruct (li_rtx _ _ Hi t Et) as (_ & _ & Hd). unfold redundant_tail. apply dwp_bind.
  eapply dwp_mono; [apply (redundant_sends_ok c f sel [] false s (lane_calls s)); [done|split; [constructor|apply Forall_nil_2]|lia]|].
  intros [acc eg] s1 (new & (R1 & R2 & R3) & Ha & Hn0 & Hacc). cbn [fst] in *. assert (H1 : lane_inv N s1) by (eapply inv_same; [exact Hi|]; rewrite R1; split_and!; try done; cbn; lia).
  assert (Et1 : redundant_tx s1 = Some t) by (rewrite R1; exact Et). apply dwp_bind. eapply dwp_mono; [by apply (commit_lane N s1 t acc now (blen f) (lane_calls s)); try done; apply blen_nonneg|].
  intros [] s2 (H2 & t2 & ->). cbn [length Nat.eqb andb] in Hacc. rewrite Hacc, negb_involutive.
  destruct (existsb is_accept new) eqn:Ex.
  - apply dwp_bind, dwp_modify, dwp_ret. split; [eapply inv_same; [exact H2|]; split_and!; done || cbn; lia|]. split; [rewrite R1; done|]. split; [by left|].
    split; [rewrite R1; done|]. split; [rewrite R1; done|]. split; [rewrite R1; done|]. exists new. rewrite R1. done.
  - destruct eg.
    + apply dwp_bind, dwp_modify, dwp_ret. split; [eapply inv_same; [exact H2|]; split_and!; done || cbn; lia|]. split; [rewrite R1; done|]. split; [by right; left|].
      split; [rewrite R1; done|]. split; [rewrite R1; done|]. split; [rewrite R1; done|]. exists new. rewrite R1. done.
    + apply dwp_ret. split; [done|]. split; [rewrite R1; done|]. split; [by right; right|].
      split; [rewrite R1; done|]. split; [rewrite R1; done|]. split; [rewrite R1; done|]. exists new. rewrite R1. done.
Qed.

(** A tail that starts in a state where only the tracker moved. *)
Lemma post_tracker N f s s1 r s' : tracker_only s s1 -> redundant_post N f s1 r s' -> redundant_post N f s r s'.
Proof.
  intros [Es _] (H1 & H2 & H3 & (F1 & F2 & F3 & F4 & F5) & H5 & H6 & new & H7 & H8). split; [done|]. rewrite Es in H2, F1, F2, F3, F4, F5, H5, H6, H7.
  split; [done|]. split; [done|]. split; [done|]. split; [done|]. split; [done|]. by exists new.
Qed.

Lemma no_send N f s s' : lane_inv N s' -> tracker_only s s' -> redundant_post N f s 0 s'.
Proof.
  intros Hi [Es Hc]. split; [eapply inv_le; [exact Hi|lia]|]. rewrite Es. split; [done|]. split; [by right; right|]. split; [done|]. split; [done|]. split; [done|]. exists []. cbn. by rewrite app_nil_r.
Qed.

Lemma tun_send_redundant_ok N s t c f : lane_inv N s -> redundant_tx s = Some t -> N + 1 < 2 ^ 64 ->
  dwp (tun_send_redundant E c f) s (redundant_post N f s).
Proof.
  intros Hi Et HN. unfold tun_send_redundant. apply dwp_bind. eapply dwp_mono; [by apply (usable_ok_lane N s t c)|]. intros us s1 (H1 & T1 & (t1 & Et1) & Hus).
  apply dwp_bind. unfold l_clock. apply dwp_ask. set (now := l_now_us E (lane_calls s1)). set (s2 := s1 <| lane_calls ::= S |>). assert (H2 : lane_inv N s2) by (eapply inv_same; [exact H1|apply same_engines_ask]).
  assert (T2 : tracker_only s s2) by (eapply tracker_only_trans; [exact T1|]; split; [done|cbn; lia]). assert (Et2 : redundant_tx s2 = Some t1) by done. clearbody s2 now. clear s1 H1 T1 Et1. cbv zeta.
  destruct (length us =? 0)%nat eqn:Eu; cbn [negb andb].
  - apply dwp_bind, dwp_ret. cbv iota. apply dwp_bind, dwp_ret. cbn [length Nat.eqb negb]. apply dwp_bind, dwp_skip.
    eapply dwp_mono; [apply (redundant_tail_ok N s2 t1 c f [] now); [done|done|done|by intros j ?%elem_of_nil]|]. intros r s' Hp. by eapply post_tracker.
  - destruct (li_rtx _ _ H2 t1 Et2) as (Ht1 & Hn1 & Hd1). apply dwp_bind. eapply dwp_tracker; [exact Et2|rewrite (surjective_pairing (mqvpn_redundant_tx_overload_bypass t1 now)); done|].
    pose proof (bypass_core t1 now) as Hb. destruct (mqvpn_redundant_tx_overload_bypass t1 now) as [b t2]. cbn [fst snd] in *.
    assert (Hcore : forall x y, same_core x y -> rtx_inv x -> rtx_inv y /\ next_orig y = next_orig x /\ dom (tab_map (copies y)) = dom (tab_map (copies x))).
    { intros x y Hxy Hx. split; [by eapply same_core_inv|]. destruct Hxy as (-> & _ & -> & _). done. }
    destruct (Hcore t1 t2 Hb Ht1) as (Ht2 & En2 & Ed2). set (s3 := s2 <| redundant_tx := Some t2 |>). assert (H3 : lane_inv N s3) by (by eapply inv_tracker).
    assert (T3 : tracker_only s s3) by (eapply tracker_only_trans; [exact T2|]; split; [done|cbn; lia]). destruct b; [by apply dwp_ret, no_send|].
    destruct (select_spec t2 us now Ht2) as (out & t3 & Es & Hm & _). apply dwp_bind. eapply dwp_tracker; [done|exact Es|]. destruct (Hcore t2 t3 (marked_core _ _ Hm) Ht2) as (Ht3 & En3 & Ed3).
    set (s4 := s3 <| redundant_tx := Some t3 |>). assert (H4 : lane_inv N s4) by (eapply (inv_tracker N s3 t2 t3); done). assert (T4 : tracker_only s s4) by (eapply tracker_only_trans; [exact T3|]; split; [done|cbn; lia]).
    assert (Hsel : forall j, j ∈ out -> 0 <= j < Z.of_nat (length (paths c))) by (intros j Hj; by apply Hus, (select_subset t2 us now out t3 Ht2 Es)).
    apply dwp_bind. destruct (length out =? 0)%nat; cbn [negb]; apply dwp_modify;
      (eapply dwp_mono; [apply (redundant_tail_ok N _ t3 c f out now); [eapply inv_same; [exact H4|]; split_and!; done || cbn; lia|done|done|done]|]; intros r s' Hp; eapply post_tracker; [|exact Hp];
       eapply tracker_only_trans; [exact T4|]; split; [done|cbn; lia]).
Qed.

(** ** The lane decision *)

(** A stamp that can be committed. *)
Definition stamp_ready (otx : option mqvpn_reorder_tx_t) (opk : option mqvpn_reorder_tx_peek_t) : Prop :=
  exists tx pk b j f, otx = Some tx /\ opk = Some pk /\ action pk = MQVPN_REORDER_TX_STAMP /\ peek_flow pk = Some (b, j) /\ send_flow_at tx (b, j) = Some f.

Lemma rgate_ok ok otx peer m pkt now mss : bytes_ok pkt -> (forall tx, otx = Some tx -> tx_inv tx) ->
  exists r, mqvpn_rgate_decide ok otx peer m pkt now mss = Some r /\ (forall tx, rg_tx r = Some tx -> tx_inv tx) /\
    (rg_verdict r = MQVPN_RGATE_STAMP -> stamp_ready (rg_tx r) (rg_peek r)) /\ (otx = None -> rg_verdict r <> MQVPN_RGATE_STAMP).
Proof.
  intros Hb Htx. assert (Hraw : forall tx pk, (forall x, tx = Some x -> tx_inv x) -> exists r, Some (rgate_raw tx pk (blen pkt) mss) = Some r /\ (forall tx, rg_tx r = Some tx -> tx_inv tx) /\
    (rg_verdict r = MQVPN_RGATE_STAMP -> stamp_ready (rg_tx r) (rg_peek r)) /\ (otx = None -> rg_verdict r <> MQVPN_RGATE_STAMP)).
  { intros tx pk H. eexists. split; [done|]. unfold rgate_raw. case_match; cbn; split_and!; done. }
  unfold mqvpn_rgate_decide. destruct otx as [tx|]; [|by apply Hraw]. specialize (Htx tx eq_refl). match goal with |- context [if ?b then _ else _] => destruct b end; [|apply Hraw; by intros ? [= <-]].
  destruct (tx_peek_ok ok tx pkt now mss Htx Hb) as (tx1 & pk & -> & H1 & _ & Hok & _). rewrite bind_some. unfold peek_ok in Hok. destruct (action pk) eqn:Ea.
  - destruct Hok as (_ & key & [b j] & f & _ & Hp & Hf & _). eexists. split; [done|]. cbn. split_and!; try done; [by intros ? [= <-]|]. intros _. by exists tx1, pk, b, j, f.
  - apply Hraw. by intros ? [= <-].
  - eexists. split; [done|]. cbn. split_and!; try done. by intros ? [= <-].
Qed.

Lemma send_ptb_ok b ms v (addr : option (list Z * Z)) mtu pkt : (forall ip p, addr = Some (ip, p) -> blen ip = if v =? 4 then 4 else 16) ->
  exists b' sent p, mqvpn_rgate_send_ptb b ms v (bool_decide (is_Some addr)) (default ([], 0) addr).1 mtu pkt = Some (b', sent, p).
Proof.
  intros Ha. unfold mqvpn_rgate_send_ptb. destruct addr as [[ip pl]|]; [|by do 3 eexists]. specialize (Ha ip pl eq_refl). rewrite bool_decide_eq_true_2 by (by eexists). cbn [negb default fst from_option id].
  destruct (mqvpn_ptb_bucket_allow b ms) as [b1 [|]]; cbn [negb]; [|by do 3 eexists]. destruct (v =? 4).
  - destruct (icmp4_total ip 3 4 (if 65535 <? mtu then 65535 else u16 mtu) pkt Ha) as [r ->]. rewrite bind_some. by do 3 eexists.
  - destruct (icmp6_total ip 2 0 (u32 mtu) pkt Ha) as [r ->]. rewrite bind_some. by do 3 eexists.
Qed.

(** What the decision leaves alone. *)
Definition decide_frame (s s' : lane) : Prop :=
  redundant_tx s' = redundant_tx s /\ reorder_rx s' = reorder_rx s /\ backpressure s' = backpressure s /\ dgram_sent s' = dgram_sent s /\
  dgram_recv s' = dgram_recv s /\ dgram_acked s' = dgram_acked s /\ dgram_lost s' = dgram_lost s /\ (lane_calls s <= lane_calls s')%nat.

Definition is_redundant (s : lane) (pkt : list Z) : bool := bool_decide (is_Some (redundant_tx s)) && match_spec (lc_redundant_ports cfg) pkt.

Definition decide_post (N : Z) (pkt : list Z) (s : lane) (d : lane_decision) (s' : lane) : Prop :=
  lane_inv N s' /\ decide_frame s s' /\
  match d with
  | None => exists new, lane_out s' = lane_out s ++ new /\ forallb is_tun new = true
  | Some (st, pk, red) => lane_out s' = lane_out s /\ red = is_redundant s pkt /\ (red = true -> st = false /\ reorder_tx s' = reorder_tx s) /\
      (st = true -> stamp_ready (reorder_tx s') pk)
  end.

Lemma decide_frame_inv N s s' : lane_inv N s -> decide_frame s s' -> (forall tx, reorder_tx s' = Some tx -> tx_inv tx) -> lane_inv N s'.
Proof.
  intros [H1 H2 H3] (E1 & E2 & _ & _ & _ & _ & _ & Hc) Htx. split; rewrite ?E1, ?E2; [done| |].
  - intros rx Hrx. destruct (H2 rx Hrx) as (T & Hi & HT). exists T. split; [done|]. pose proof (le_mono _ HE _ _ Hc). lia.
  - intros t Ht. destruct (H3 t Ht) as (Hi & Hn & Hd). split_and!; try done. intros id Hid. eapply id_before_mono; [exact Hc|by apply Hd].
Qed.

(** The verdict of the gate turned into a decision. *)
Definition gate_tail (k : cli_conn_t) (pkt : list Z) (ip_ver : Z) (redundant : bool) (rv : rgate_result) : D lane_decision :=
  match rg_verdict rv with
  | MQVPN_RGATE_DROP_REORDER_MTU | MQVPN_RGATE_DROP_RAW_MTU =>
      let addr := if ip_ver =? 4 then addr4 k else addr6 k in
      ms ← d_ask (l_now_ms E);
      s ← d_get;
      '(b, _, p) ← d_lift (mqvpn_rgate_send_ptb (ptb_bucket s) ms ip_ver (bool_decide (is_Some addr)) (default ([], 0) addr).1
                             (default 0 (rg_mtu rv)) pkt);
      d_modify (fun s => s <| ptb_bucket := b |>) ;;
      match p with Some pk => d_emit (LxTun pk) | None => d_skip end ;;
      mret None
  | MQVPN_RGATE_STAMP => mret (Some (true, rg_peek rv, redundant))
  | MQVPN_RGATE_RAW => mret (Some (false, rg_peek rv, redundant))
  end.

Lemma gate_tail_ok N c k pkt v red rv s0 s : client_ok c -> conn c = Some k -> lane_inv N s -> decide_frame s0 s -> lane_out s = lane_out s0 -> red = is_redundant s0 pkt ->
  (rg_verdict rv = MQVPN_RGATE_STAMP -> stamp_ready (reorder_tx s) (rg_peek rv)) -> (red = true -> rg_verdict rv <> MQVPN_RGATE_STAMP /\ reorder_tx s = reorder_tx s0) ->
  dwp (gate_tail k pkt v red rv) s (decide_post N pkt s0).
Proof.
  intros Hc Hk Hi Hf Ho Hred Hst Hr. unfold gate_tail.
  assert (Hdrop : dwp (ms ← d_ask (l_now_ms E); s ← d_get;
      '(b, _, p) ← d_lift (mqvpn_rgate_send_ptb (ptb_bucket s) ms v (bool_decide (is_Some (if v =? 4 then addr4 k else addr6 k))) (default ([], 0) (if v =? 4 then addr4 k else addr6 k)).1
                             (default 0 (rg_mtu rv)) pkt);
      d_modify (fun s => s <| ptb_bucket := b |>) ;; match p with Some pk => d_emit (LxTun pk) | None => d_skip end ;; mret None) s (decide_post N pkt s0)).
  { apply dwp_bind, dwp_ask, dwp_bind, dwp_get. set (s1 := s <| lane_calls ::= S |>).
    destruct (send_ptb_ok (ptb_bucket s1) (l_now_ms E (lane_calls s)) v (if v =? 4 then addr4 k else addr6 k) (default 0 (rg_mtu rv)) pkt) as (b & sent & p & Ep).
    { intros ip pl Ea. destruct (v =? 4); [by destruct (ck_addr4 _ Hc k ip pl Hk Ea)|by destruct (ck_addr6 _ Hc k ip pl Hk Ea)]. }
    apply dwp_bind. eapply dwp_lift; [exact Ep|]. apply dwp_bind, dwp_modify, dwp_bind. destruct Hf as (F1 & F2 & F3 & F4 & F5 & F6 & F7 & F8).
    destruct p as [pk|]; [apply dwp_emit|apply dwp_skip]; apply dwp_ret; (split; [eapply inv_same; [exact Hi|]; split_and!; done || cbn; lia|]); (split; [split_and!; done || cbn; lia|]).
    - exists [LxTun pk]. split; [cbn; by rewrite Ho|done].
    - exists []. split; [cbn; by rewrite app_nil_r|done]. }
  destruct (rg_verdict rv) eqn:Ev; [..|exact Hdrop|exact Hdrop]; apply dwp_ret; (split; [done|]); (split; [done|]); (split; [done|]); (split; [done|]); (split; [intros Hrt; by destruct (Hr Hrt)|]); [by intros _; apply Hst|done].
Qed.

Lemma tun_decide_lane_ok N s c k pkt v : client_ok c -> conn c = Some k -> lane_inv N s -> bytes_ok pkt -> dwp (tun_decide_lane E cfg c k pkt v) s (decide_post N pkt s).
Proof.
  intros Hc Hk Hi Hb. unfold tun_decide_lane. apply dwp_bind.
  assert (Hcl : dwp (if enabled (hybrid (config c)) then '(ln, _) ← d_lift (mqvpn_hybrid_classify pkt (Some (hybrid (config c))));
     match ln with
     | MQVPN_LANE_DGRAM => d_modify (fun s => s <| pkts_lane_dgram ::= fun n => u64 (n + 1) |>)
     | MQVPN_LANE_TCP | MQVPN_LANE_RAW => d_modify (fun s => s <| pkts_lane_raw ::= fun n => u64 (n + 1) |>)
     end else d_skip) s (fun _ s' => decide_frame s s' /\ reorder_tx s' = reorder_tx s /\ lane_out s' = lane_out s)).
  { destruct (enabled (hybrid (config c))); [|apply dwp_skip; split_and!; done || lia]. destruct (classify_lane pkt (Some (hybrid (config c))) Hb) as (lv & key & ln & _ & El & _); [intros p [= <-]; apply Hc|].
    apply dwp_bind. eapply dwp_lift; [exact El|]. destruct ln; apply dwp_modify; split_and!; done || cbn; lia. }
  eapply dwp_mono; [exact Hcl|]. clear Hcl. intros [] s1 (F1 & Ex1 & Eo1). cbv zeta. apply dwp_bind, dwp_get, dwp_bind. assert (H1 : lane_inv N s1) by (eapply decide_frame_inv; [exact Hi|exact F1|]; rewrite Ex1; apply Hi).
  assert (Hred : dwp (match redundant_tx s1 with Some _ => d_lift (mqvpn_redundant_match (lc_redundant_ports cfg) pkt) | None => mret false end) s1 (fun r s' => s' = s1 /\ r = is_redundant s pkt)).
  { unfold is_redundant. destruct F1 as (-> & _). destruct (redundant_tx s) as [t|]; [|by apply dwp_ret]. eapply dwp_lift; [by apply redundant_match_total|]. split; [done|]. by rewrite bool_decide_eq_true_2. }
  eapply dwp_mono; [exact Hred|]. clear Hred. intros red s2 [-> Er]. apply dwp_bind. unfold l_clock. apply dwp_ask, dwp_bind, dwp_ask, dwp_bind.
  set (s2 := s1 <| lane_calls ::= S |> <| lane_calls ::= S |>). assert (F2 : decide_frame s s2) by (destruct F1 as (?&?&?&?&?&?&?&?); split_and!; done || cbn; lia).
  assert (H2 : lane_inv N s2) by (eapply decide_frame_inv; [exact Hi|exact F2|]; cbn; rewrite Ex1; apply Hi). destruct red.
  - destruct (rgate_ok (l_malloc E (lane_calls (s1 <| lane_calls ::= S |>))) None false MQVPN_REORDER_OFF pkt (l_now_us E (lane_calls s1))
      (u32 (if 0 <? dgram_mss k then l_masque_udp_mss E (dgram_mss k) (masque_stream_id k) else 0)) Hb) as (rv & Ev & _ & _ & Hns); [done|].
    eapply dwp_lift; [exact Ev|]. eapply (gate_tail_ok N c k pkt v true rv s s2); try done; [intros E0; by destruct (Hns eq_refl)|]. intros _. split; [by apply Hns|exact Ex1].
  - destruct (rgate_ok (l_malloc E (lane_calls (s1 <| lane_calls ::= S |>))) (reorder_tx s1) (peer_reorder_supported k) (mode (lc_reorder cfg)) pkt (l_now_us E (lane_calls s1))
      (u32 (if 0 <? dgram_mss k then l_masque_udp_mss E (dgram_mss k) (masque_stream_id k) else 0)) Hb) as (rv & Ev & Htx & Hst & _); [apply H1|].
    apply dwp_bind. eapply dwp_lift; [exact Ev|]. apply dwp_bind, dwp_modify, dwp_ret. eapply (gate_tail_ok N c k pkt v false rv s _); try done. eapply decide_frame_inv; [exact Hi|exact F2|]. done.
Qed.

(** ** Sending *)

(** The reorder sender after a send: a number is consumed exactly when a
    stamped datagram was accepted. *)
Definition stamp_rel (st ok : bool) (peek : option mqvpn_reorder_tx_peek_t) (s s' : lane) : Prop :=
  if st && ok then exists tx pk t, reorder_tx s = Some tx /\ peek = Some pk /\ reorder_tx s' = Some (mqvpn_reorder_tx_commit tx pk t)
  else reorder_tx s' = reorder_tx s.

Definition outcome (ok again : bool) (r : mqvpn_error_t) : Prop :=
  if again then ok = false /\ r = MQVPN_ERR_AGAIN else if ok then r = MQVPN_OK else r <> MQVPN_OK /\ r <> MQVPN_ERR_AGAIN.

Definition datagram_post (N : Z) (f : list Z) (st : bool) (peek : option mqvpn_reorder_tx_peek_t) (s : lane) (r : mqvpn_error_t) (s' : lane) : Prop :=
  lane_inv N s' /\ exists ok again, send_rel f s s' ok again /\ outcome ok again r /\ stamp_rel st ok peek s s'.

Lemma send_ordinary_ok N s c pkt f st peek : lane_inv N s -> (st = true -> stamp_ready (reorder_tx s) peek) ->
  dwp (send_ordinary E c pkt f st peek) s (datagram_post N f st peek s).
Proof.
  intros Hi Hst. unfold send_ordinary. apply dwp_bind. destruct (flow_hash_total pkt (bool_decide (scheduler (config c) = MQVPN_SCHED_WLB_UDP_PIN))) as (h & Eh & _). eapply dwp_lift; [exact Eh|].
  apply dwp_bind. unfold tun_xqc_send. apply dwp_bind, dwp_ask. destruct (l_datagram_send E (lane_calls s) None f h) as [r id] eqn:Es. apply dwp_bind, dwp_emit, dwp_ret.
  set (s1 := s <| lane_calls ::= S |> <| lane_out ::= fun l => l ++ [LxSend None f h r id] |>). assert (H1 : lane_inv N s1) by (eapply inv_same; [exact Hi|]; split_and!; done || cbn; lia).
  assert (Hs : Forall (is_send f) [LxSend None f h r id]) by (apply Forall_cons; split; [by do 4 eexists|apply Forall_nil_2]). pose proof (le_eagain _ HE).
  assert (Hx : existsb is_accept [LxSend None f h r id] = (0 <=? r)) by (cbn; by rewrite orb_false_r).
  destruct (Z.eqb_spec r (- XQC_EAGAIN E)) as [Ee|Ee].
  - apply dwp_bind, dwp_modify, dwp_ret. split; [eapply inv_same; [exact H1|]; split_and!; done || cbn; lia|]. exists false, true. split; [|by split; [|unfold stamp_rel; rewrite andb_false_r]].
    split; [done|]. split; [done|]. split; [done|]. exists [LxSend None f h r id]. split; [done|]. split; [done|]. rewrite Hx. apply Z.leb_gt. lia.
  - destruct (Z.ltb_spec r 0) as [Hr|Hr].
    + apply dwp_ret. split; [done|]. exists false, false. split; [|by split; [|unfold stamp_rel; rewrite andb_false_r]]. split; [done|]. split; [done|]. split; [done|].
      exists [LxSend None f h r id]. split; [done|]. split; [done|]. rewrite Hx. by apply Z.leb_gt.
    + apply dwp_bind. destruct st.
      * destruct (Hst eq_refl) as (tx & pk & b & j & fl & Et & Ep & Ea & Ef & Eat). apply dwp_bind, dwp_get, dwp_bind. eapply dwp_lift; [exact Et|]. apply dwp_bind. eapply dwp_lift; [exact Ep|].
        apply dwp_bind. unfold l_clock. apply dwp_ask, dwp_modify, dwp_bind, dwp_modify, dwp_ret.
        destruct (tx_commit_ok tx pk (l_now_us E (lane_calls s1)) b j fl (li_tx _ _ Hi tx Et) Ea Ef Eat) as (Htx & _). split.
        { destruct H1 as [I1 I2 I3]. split; cbn [reorder_tx reorder_rx redundant_tx lane_calls update].
          - by intros ? [= <-].
          - intros rx Hrx. destruct (I2 rx Hrx) as (T & Hrx' & HT). exists T. split; [done|]. pose proof (le_mono _ HE (lane_calls s1) (S (lane_calls s1)) ltac:(lia)). lia.
          - intros t Ht. destruct (I3 t Ht) as (G1 & G2 & G3). split_and!; try done. intros i Hin. eapply id_before_mono; [|by apply G3]. lia. }
        exists true, false. split; [|split; [done|by exists tx, pk, (l_now_us E (lane_calls s1))]]. split; [done|]. split; [done|]. split; [done|].
        exists [LxSend None f h r id]. split; [done|]. split; [done|]. rewrite Hx. by apply Z.leb_le.
      * apply dwp_skip, dwp_bind, dwp_modify, dwp_ret. split; [eapply inv_same; [exact H1|]; split_and!; done || cbn; lia|]. exists true, false. split; [|by split]. split; [done|]. split; [done|]. split; [done|].
        exists [LxSend None f h r id]. split; [done|]. split; [done|]. rewrite Hx. by apply Z.leb_le.
Qed.

(** A redundant send that accepted nothing, followed by an ordinary one. *)
Lemma send_after f s s1 s2 ok again : send_rel f s s1 false false -> send_rel f s1 s2 ok again -> send_rel f s s2 ok again.
Proof.
  intros ((A1 & A2 & A3 & A4 & A5) & A6 & A7 & n1 & A8 & A9 & A10) ((B1 & B2 & B3 & B4 & B5) & B6 & B7 & n2 & B8 & B9 & B10).
  cbn [orb] in A7. split; [split_and!; congruence|]. split; [rewrite B6; by rewrite A6|]. split; [by rewrite B7, A7|]. exists (n1 ++ n2).
  split; [rewrite B8, A8; by rewrite app_assoc|]. split; [by apply Forall_app|]. rewrite existsb_app, A10. exact B10.
Qed.

Lemma send_none f s s' : send_frame s s' -> dgram_sent s' = dgram_sent s -> backpressure s' = backpressure s -> lane_out s' = lane_out s -> send_rel f s s' false false.
Proof. intros H1 H2 H3 H4. split; [done|]. split; [done|]. split; [done|]. exists []. rewrite app_nil_r. by split_and!. Qed.

Definition framed (f pkt : list Z) : Prop := exists h, f = h ++ pkt.

Lemma tun_send_datagram_ok N s c k pkt st peek red : lane_inv N s -> N + 1 < 2 ^ 64 -> (st = true -> stamp_ready (reorder_tx s) peek) ->
  (red = true -> st = false /\ exists t, redundant_tx s = Some t) -> 
  dwp (tun_send_datagram E c k pkt st peek red) s (fun r s' => exists f, framed f pkt /\ datagram_post (N + 1) f st peek s r s').
Proof.
  intros Hi HN Hst Hred. assert (Hi1 : lane_inv (N + 1) s) by (eapply inv_le; [exact Hi|lia]). unfold tun_send_datagram.
  assert (Hno : forall s' r, lane_inv (N + 1) s' -> same_engines s s' -> send_frame s s' -> dgram_sent s' = dgram_sent s -> backpressure s' = backpressure s -> lane_out s' = lane_out s ->
    r <> MQVPN_OK -> r <> MQVPN_ERR_AGAIN -> exists f, framed f pkt /\ datagram_post (N + 1) f st peek s r s').
  { intros s' r H0 He H1 H2 H3 H4 R1 R2. exists pkt. split; [by exists []|]. split; [done|]. exists false, false. split; [by apply send_none|]. split; [done|]. unfold stamp_rel. rewrite andb_false_r. apply He. }
  destruct (st && _); [apply dwp_ret, Hno; try done; apply same_engines_refl|]. destruct (frame_room (blen pkt) st) as [cap heap] eqn:Er. apply dwp_bind.
  assert (Hask : dwp (if (heap : bool) then d_ask (l_malloc E) else mret true) s (fun _ s' => lane_inv N s' /\ tracker_only s s' /\ redundant_tx s' = redundant_tx s)).
  { destruct heap; [apply dwp_ask|apply dwp_ret]; (split; [eapply inv_same; [exact Hi|]; split_and!; done || cbn; lia|]); (split; [split; [|cbn; lia]|]); try done; by destruct s. }
  eapply dwp_mono; [exact Hask|]. clear Hask. intros ok s1 (H1 & [T1 T1'] & Ert). assert (He1 : same_engines s s1) by (rewrite T1; by split_and!).
  assert (H1' : lane_inv (N + 1) s1) by (eapply inv_le; [exact H1|lia]). destruct ok; cbn [negb]; [|apply dwp_ret, Hno; try done; rewrite T1; done].
  apply dwp_bind. assert (Hrh : dwp (if st then pk ← d_lift peek; mret (Some (hdr pk)) else mret None) s1 (fun _ s' => s' = s1)).
  { destruct st; [|by apply dwp_ret]. destruct (Hst eq_refl) as (? & pk & ? & ? & ? & _ & -> & _). apply dwp_bind. eapply dwp_lift; [done|]. by apply dwp_ret. }
  eapply dwp_mono; [exact Hrh|]. clear Hrh. intros rh s1' ->. apply dwp_bind. destruct (mqvpn_dgram_frame cap (l_masque_frame_udp E cap (masque_stream_id k)) rh pkt) as [fo|] eqn:Ef; cycle 1.
  { exfalso. revert Ef. unfold mqvpn_dgram_frame. destruct (l_masque_frame_udp E cap (masque_stream_id k)) as [h|] eqn:Eh; [|done]. pose proof (le_frame _ HE _ _ _ Eh) as Hh. pose proof (blen_nonneg h).
    assert (Hcap : cap < 2 ^ 64) by (revert Er; unfold frame_room, MASQUE_FRAME_BUF, PACKET_BUF_SIZE, MQVPN_DGRAM_STACK_BUF; cbv zeta; repeat case_match; intros [= <- _]; bool_to_prop; lia).
    rewrite u64_small by lia. cbv zeta. set (rb := match rh with Some r => r | None => [] end). destruct (Z.ltb_spec (cap - blen h) (blen rb + blen pkt)); [done|]. by rewrite (proj2 (Z.leb_le _ _)) by lia. }
  eapply dwp_lift; [done|]. destruct fo as [f|]; [|apply dwp_ret, Hno; try done; rewrite T1; done].
  assert (Hfr : framed f pkt).
  { revert Ef. unfold mqvpn_dgram_frame. destruct (l_masque_frame_udp E cap (masque_stream_id k)) as [h|]; [|done]. cbv zeta.
    destruct (u64 _ <? _); [done|]. destruct (_ <=? cap); [|done]. intros [= <-]. rewrite app_assoc. by eexists. }
  assert (Hback : forall r s', datagram_post (N + 1) f st peek s1 r s' -> exists f, framed f pkt /\ datagram_post (N + 1) f st peek s r s').
  { intros r s' (I & o & a & Hs & Ho & Hst'). exists f. split; [done|]. split; [done|]. exists o, a. split; [|split; [done|]].
    - destruct Hs as ((A1 & A2 & A3 & A4 & A5) & A6 & A7 & A8). rewrite T1 in A1, A2, A3, A4, A5, A6, A7, A8. done.
    - unfold stamp_rel in *. rewrite T1 in Hst'. exact Hst'. }
  apply dwp_bind. destruct red.
  - destruct (Hred eq_refl) as (-> & t & Et). eapply dwp_mono; [apply (tun_send_redundant_ok N s1 t c f); [done|by rewrite Ert|done]|]. intros rr s2 (I2 & Etx & Hr & Hs). destruct (Z.eqb_spec rr 0) as [->|Hr0]; cbn [negb].
    + eapply dwp_mono; [by apply (send_ordinary_ok (N + 1) s2 c pkt f false peek)|]. intros r s' (I & o & a & Hs' & Ho & Hst'). apply Hback. split; [done|]. exists o, a. split; [by eapply send_after|]. split; [done|].
      unfold stamp_rel in *. cbn [andb] in *. congruence.
    + apply dwp_ret. apply Hback. split; [done|]. exists (rr =? 1), (rr =? -1). split; [done|]. split; [|done]. unfold outcome. destruct Hr as [-> | [-> | -> ]]; done.
  - apply dwp_ret. cbn [Z.eqb negb]. eapply dwp_mono; [apply (send_ordinary_ok (N + 1) s1 c pkt f st peek H1'); destruct He1 as [Etx _]; by rewrite Etx|]. intros r s' Hp. by apply Hback.
Qed.

End lane_proofs.
