(* ===== verification/LaneRun.v ===== *)
(** * Lifetimes of the client's packet path

    The contract of a packet from the tunnel, what a received packet turns
    into, the backpressure latch, and the safety of any sequence of packets,
    datagrams, acknowledgements and ticks on one connection. *)

From S2P Require Import Prelude Wire Ring ReorderRx RxFlow RxInv RxStep RxTable RxEngine ReorderTx TxProofs Icmp Gate FlowSched Hybrid HybridProofs PathFsm Client RtxTable RedundantTx RedundantProofs RedundantLife RedundantPorts TunFrame StateOpt ClientLane LaneProofs RxTrace.

#[local] Opaque tab_find tab_insert tab_remove.

(** The source of a packet is the address the connection was assigned. *)
Definition src_allowed (k : cli_conn_t) (pkt : list Z) : Prop :=
  (byte_at pkt 0 / 16 = 4 /\ 20 <= blen pkt /\ forall ip p, addr4 k = Some (ip, p) -> take 4 (drop 12 pkt) = take 4 ip) \/
  (byte_at pkt 0 / 16 = 6 /\ 40 <= blen pkt /\ exists ip p, addr6 k = Some (ip, p) /\ take 16 (drop 8 pkt) = take 16 ip).

Lemma same_bytes_ok pkt off n ip : 0 <= off -> 0 <= n -> off + n <= blen pkt -> n <= blen ip ->
  same_bytes pkt off n ip = Some (bool_decide (take (Z.to_nat n) (drop (Z.to_nat off) pkt) = take (Z.to_nat n) ip)).
Proof. intros. unfold same_bytes. rewrite !rdn_eq by lia. done. Qed.

Lemma validate_src_ok c k pkt : client_ok c -> conn c = Some k -> (byte_at pkt 0 / 16 = 4 -> 20 <= blen pkt) ->
  exists v, tun_validate_src k pkt (byte_at pkt 0 / 16) = Some v /\ (v = TUN_INGRESS_PROCEED <-> src_allowed k pkt).
Proof.
  intros Hc Hk H4. unfold tun_validate_src, src_allowed. set (v := byte_at pkt 0 / 16) in *. destruct (Z.eqb_spec v 4) as [E4|N4].
  - specialize (H4 E4). destruct (addr4 k) as [[ip p]|] eqn:Ea.
    + destruct (ck_addr4 _ Hc k ip p Hk Ea) as [Hl _]. rewrite same_bytes_ok by lia. cbn [mbind option_bind]. change (Z.to_nat 4) with 4%nat. change (Z.to_nat 12) with 12%nat. eexists. split; [done|].
      case_bool_decide as Eq; split.
      * intros _. left. split_and!; try done. by intros ? ? [= <- <-].
      * done.
      * done.
      * intros [(_ & _ & H)|(H & _)]; [by destruct Eq; apply (H ip p)|lia].
    + eexists. split; [done|]. split; [|done]. intros _. left. by split_and!.
  - destruct (Z.eqb_spec v 6) as [E6|N6].
    + destruct (addr6 k) as [[ip p]|] eqn:Ea; [|eexists; split; [done|]; split; [done|]; intros [(? & _)|(_ & _ & ? & ? & ? & _)]; [lia|done]].
      destruct (ck_addr6 _ Hc k ip p Hk Ea) as [Hl _]. unfold IPV6_MIN_HDR. destruct (Z.ltb_spec (blen pkt) 40); [eexists; split; [done|]; split; [done|]; intros [(? & _)|(_ & ? & _)]; lia|].
      rewrite same_bytes_ok by lia. cbn [mbind option_bind]. change (Z.to_nat 16) with 16%nat. change (Z.to_nat 8) with 8%nat. eexists. split; [done|].
      case_bool_decide as Eq; split.
      * intros _. right. split_and!; try done. by exists ip, p.
      * done.
      * done.
      * intros [(? & _)|(_ & _ & ip' & p' & [= <- <-] & Hs')]; [lia|done].
    + eexists. split; [done|]. split; [done|]. intros [(? & _)|(? & _)]; lia.
Qed.

(** ** A packet from the tunnel *)

Record tun_contract (c : mqvpn_client_t) (pkt : list Z) (s : lane) (r : mqvpn_error_t) (s' : lane) (new : list lane_fx) : Prop := {
  tc_out : lane_out s' = lane_out s ++ new;
  tc_again : r = MQVPN_ERR_AGAIN -> backpressure s' = true /\ existsb is_accept new = false;
  tc_latch : backpressure s' = backpressure s || bool_decide (r = MQVPN_ERR_AGAIN);
  tc_sent : dgram_sent s' = if existsb is_accept new then u64 (dgram_sent s + 1) else dgram_sent s;
  tc_ok : existsb is_accept new = true -> r = MQVPN_OK;
  tc_blocked : backpressure s = true -> s' = s;
  tc_refused k : backpressure s = true -> pkt <> [] -> conn c = Some k -> tunnel_ok k = true -> r = MQVPN_ERR_AGAIN;
  tc_fx x : x ∈ new -> (exists p, x = LxTun p) \/ exists k f, conn c = Some k /\ tunnel_ok k = true /\ src_allowed k pkt /\ framed f pkt /\ is_send f x;
  tc_counts : dgram_recv s' = dgram_recv s /\ dgram_acked s' = dgram_acked s /\ dgram_lost s' = dgram_lost s
}.

Lemma contract_none c pkt s r : r <> MQVPN_ERR_AGAIN -> (forall k, backpressure s = true -> pkt <> [] -> conn c = Some k -> tunnel_ok k = false) -> tun_contract c pkt s r s [].
Proof. intros Hr Hk. split; try done; [..|intros k Hb Hp Hc Ht; by rewrite (Hk k Hb Hp Hc) in Ht|]; [by rewrite app_nil_r|by rewrite bool_decide_eq_false_2, orb_false_r|by intros x ?%elem_of_nil]. Qed.

Lemma tun_no_accept new : forallb is_tun new = true -> existsb is_accept new = false.
Proof. induction new as [|x new IH]; [done|]. cbn [forallb existsb]. intros [Hx Hn]%andb_true_iff. rewrite (IH Hn), orb_false_r. by destruct x. Qed.

Section lane_life.
Context (E : lane_env) (HE : lane_env_ok E) (cfg : lane_config).

Lemma on_tun_packet_ok N s c pkt : lane_inv E N s -> client_ok c -> bytes_ok pkt -> N + 1 < 2 ^ 64 ->
  dwp (mqvpn_client_on_tun_packet E cfg c pkt) s (fun r s' => lane_inv E (N + 1) s' /\ exists new, tun_contract c pkt s r s' new).
Proof.
  intros Hi Hc Hb HN. assert (Hi1 : lane_inv E (N + 1) s) by (eapply inv_le; [done..|lia]). unfold mqvpn_client_on_tun_packet. pose proof (blen_nonneg pkt).
  assert (Hno : forall r, r <> MQVPN_ERR_AGAIN -> (forall k, backpressure s = true -> pkt <> [] -> conn c = Some k -> tunnel_ok k = false) ->
    dwp (mret r) s (fun r s' => lane_inv E (N + 1) s' /\ exists new, tun_contract c pkt s r s' new)).
  { intros r Hr Hk. apply dwp_ret. split; [done|]. exists []. by apply contract_none. }
  destruct (Z.eqb_spec (blen pkt) 0) as [E0|E0]; [apply Hno; [done|]; intros k _ []; by destruct pkt|]. destruct (conn c) as [k|] eqn:Ek; [|by apply Hno].
  destruct (tunnel_ok k) eqn:Etun; cbn [negb]; [|apply Hno; [done|]; by intros k' _ _ [= <-]].
  apply dwp_bind, dwp_get. destruct (backpressure s) eqn:Ebp.
  { apply dwp_ret. split; [done|]. exists []. split; try done; [by rewrite app_nil_r|by rewrite Ebp|by intros x ?%elem_of_nil]. }
  apply dwp_bind. rewrite rd_byte_at by lia. eapply dwp_lift; [done|]. cbv zeta. rewrite Z.shiftr_div_pow2 by lia. change (2 ^ 4) with 16. set (v := byte_at pkt 0 / 16).
  destruct ((v =? 4) && (blen pkt <? IPV4_MIN_HDR)) eqn:Eshort; [by apply Hno|].
  destruct (validate_src_ok c k pkt Hc Ek) as (vd & Ev & Hvd); [unfold IPV4_MIN_HDR in Eshort; fold v; intros E4; rewrite E4 in Eshort; cbn [Z.eqb andb Pos.eqb] in Eshort; bool_to_prop; lia|].
  apply dwp_bind. eapply dwp_lift; [exact Ev|]. destruct vd; [|by apply Hno]. assert (Hsrc : src_allowed k pkt) by (by apply Hvd). clear Ev Hvd.
  apply dwp_bind. eapply dwp_mono; [by apply (tun_decide_lane_ok E HE cfg N s c k pkt v)|]. intros d s1 (I1 & (F1 & F2 & F3 & F4 & F5 & F6 & F7 & F8) & Hd). destruct d as [[[st pk] red]|].
  - destruct Hd as (Eo & -> & Hred & Hst). eapply dwp_mono; [apply (tun_send_datagram_ok E HE N s1 c k pkt st pk (is_redundant cfg s pkt)); [done|done|done|]|].
    + intros Hr. split; [by apply Hred|]. unfold is_redundant in Hr. apply andb_true_iff in Hr as [Hr _]. apply bool_decide_eq_true in Hr as [t Ht]. exists t. by rewrite F1.
    + intros r s' (f & Hf & I2 & ok & again & ((G1 & G2 & G3 & G4 & G5) & Hsent & Hbp & new & Hout & Hnew & Hacc) & Houtc & _). split; [done|]. exists new. unfold outcome in Houtc.
      rewrite F3, Ebp, orb_false_r in Hbp. split; rewrite ?Hacc.
      * by rewrite Hout, Eo.
      * intros ->. destruct again; [by destruct Houtc as [-> _]|]. destruct ok; [done|by destruct Houtc].
      * rewrite Ebp, Hbp. destruct again; [destruct Houtc as [_ ->]; by rewrite bool_decide_eq_true_2|]. rewrite bool_decide_eq_false_2; [done|]. destruct ok; [by rewrite Houtc|by destruct Houtc].
      * by rewrite Hsent, F4.
      * intros ->. destruct again; [by destruct Houtc|done].
      * congruence.
      * congruence.
      * intros x Hx. right. exists k, f. split_and!; try done. rewrite Forall_forall in Hnew. by apply Hnew.
      * split_and!; congruence.
  - destruct Hd as (new & Hout & Hnew). apply dwp_ret. split; [eapply inv_le; [done..|lia]|]. exists new. pose proof (tun_no_accept new Hnew) as Hna. split; rewrite ?Hna; try done.
    + by rewrite F3, orb_false_r.
    + by rewrite Ebp.
    + by rewrite Ebp.
    + intros x Hx. left. rewrite forallb_forall in Hnew. apply list_elem_of_In in Hx. specialize (Hnew x Hx). destruct x; try done. by eexists.
Qed.

(** ** The tick *)

Lemma refresh_metrics_ok c st us t : (forall j, j ∈ us -> 0 <= j < Z.of_nat (length (paths c))) -> rtx_inv t -> exists t', refresh_metrics c st us t = Some t' /\ same_core t t'.
Proof.
  revert t. induction us as [|j us IH]; intros t Hj Ht; cbn [refresh_metrics]; [exists t; split; [done|apply same_core_refl]|].
  destruct (lookup_lt_is_Some_2 (paths c) (Z.to_nat j)) as [p Hp]; [specialize (Hj j ltac:(by left)); lia|]. rewrite Hp, bind_some.
  assert (H1 : exists t1, match List.find (fun m => m.1 =? xqc_path_id p) st with Some (_, (rtt, bw, infl)) => mqvpn_redundant_tx_set_path_metrics t j rtt bw infl | None => Some t end = Some t1 /\ same_core t t1).
  { destruct (List.find _ st) as [[? [[rtt bw] infl]]|]; [by apply metrics_spec|exists t; split; [done|apply same_core_refl]]. }
  destruct H1 as (t1 & -> & Hc). rewrite bind_some. destruct (IH t1) as (t2 & -> & Hc2); [intros j' Hj'; apply Hj; by right|by eapply same_core_inv|]. exists t2. split; [done|by eapply same_core_trans].
Qed.

Definition tick_post (N : Z) (s : lane) (s' : lane) : Prop := lane_inv E N s' /\ quiet s s' /\ exists new, lane_out s' = lane_out s ++ new /\ forallb is_tun new = true.

Lemma core_inv N s t t' : lane_inv E N s -> redundant_tx s = Some t -> same_core t t' -> lane_inv E N (s <| redundant_tx := Some t' |>).
Proof.
  intros Hi Et Hc. destruct (li_rtx _ _ _ Hi t Et) as (Ht & _ & _). apply (inv_tracker E HE N s t t'); [done|done|by eapply same_core_inv| |]; destruct Hc as (E1 & _ & E2 & _); [done|by rewrite E1].
Qed.

Lemma tick_refresh_ok N s c : lane_inv E N s -> dwp (tick_redundant_refresh E c) s (fun _ s' => lane_inv E N s' /\ quiet s s' /\ lane_out s' = lane_out s).
Proof.
  intros Hi. unfold tick_redundant_refresh. apply dwp_bind, dwp_get. destruct (redundant_tx s) as [t|] eqn:Et; [|by apply dwp_skip]. apply dwp_bind. unfold l_clock. apply dwp_ask.
  set (s1 := s <| lane_calls ::= S |>). assert (I1 : lane_inv E N s1) by (eapply inv_same; [done|exact Hi|apply same_engines_ask]). destruct (_ && _); [by apply dwp_skip|].
  apply dwp_bind, dwp_modify, dwp_bind. set (s2 := s1 <| redundant_refresh_us := _ |>). assert (I2 : lane_inv E N s2) by (eapply inv_same; [done|exact I1|]; split_and!; done || cbn; lia).
  eapply dwp_mono; [by apply (usable_ok_lane E HE N s2 t c)|]. intros us s3 (I3 & [T3 _] & (t3 & Et3) & Hus). assert (Q3 : quiet s s3 /\ lane_out s3 = lane_out s) by (rewrite T3; done).
  destruct (_ || negb (multipath_ready c)); [apply dwp_skip; by destruct Q3|]. apply dwp_bind, dwp_ask, dwp_bind. set (s4 := s3 <| lane_calls ::= S |>).
  assert (I4 : lane_inv E N s4) by (eapply inv_same; [done|exact I3|apply same_engines_ask]). destruct (li_rtx _ _ _ I3 t3 Et3) as (Ht3 & _ & _).
  destruct (refresh_metrics_ok c (l_path_metrics E (lane_calls s3)) us t3 Hus Ht3) as (t4 & Em & Hc4). eapply dwp_tracker; [exact Et3|rewrite Em, bind_some; done|].
  set (s5 := s4 <| redundant_tx := Some t4 |>). assert (I5 : lane_inv E N s5) by (by eapply core_inv). assert (Ht4 : rtx_inv t4) by (by eapply same_core_inv).
  destruct (update_mode_total t4 us (l_now_us E (lane_calls s)) Ht4) as (r & t5 & Eu & Hc5). apply dwp_bind. eapply dwp_tracker; [done|exact Eu|]. apply dwp_skip. split; [by eapply (core_inv N s5)|].
  destruct Q3 as [Q3 O3]. split; [exact Q3|exact O3].
Qed.

Lemma lane_tick_ok N s c k : lane_inv E N s -> client_ok c -> dwp (lane_tick E c k) s (fun _ s' => tick_post N s s').
Proof.
  intros Hi Hc. unfold lane_tick. apply dwp_bind. eapply dwp_mono; [by apply tick_refresh_ok|]. intros [] s1 (I1 & Q1 & O1). apply dwp_bind, dwp_get.
  destruct (reorder_rx s1) as [rx|] eqn:Er; [|apply dwp_skip; split; [done|]; split; [done|]; exists []; by rewrite app_nil_r, O1].
  apply dwp_bind. unfold l_clock. apply dwp_ask. destruct (li_rx _ _ _ I1 rx Er) as (T & Hrx & HT). pose proof (le_range _ HE (lane_calls s1)) as Hr.
  destruct (tick_ok T (l_now_us E (lane_calls s1)) rx Hrx ltac:(lia)) as (Hrx' & _). cbn zeta in Hrx'.
  eapply dwp_mono; [apply (rx_advance E HE N _ rx _ c k (l_now_us E (lane_calls s1))); [eapply inv_same; [done|exact I1|apply same_engines_ask]|done|done|done|apply (le_mono _ HE); cbn; lia]|].
  intros [] s' (I2 & Q2 & new & O2 & Hn). split; [done|]. split; [eapply lane_quiet_trans; [exact Q1|exact Q2]|]. exists new. split; [|done]. rewrite O2. cbn. by rewrite O1.
Qed.

End lane_life.

(** * Lifetimes of the client's packet path

    A connection's start, any sequence of packets, datagrams,
    acknowledgements and ticks on it, and what holds over all of them: no
    access out of bounds, nothing sent but tunnel packets with the assigned
    source address, the backpressure latch, and the packets handed to the
    tunnel. *)

#[local] Opaque tab_find tab_insert tab_remove.

(** An operation with the client's handle at that time. *)
Inductive lane_op :=
| LTun (c : mqvpn_client_t) (pkt : list Z)
| LRead (c : mqvpn_client_t) (k : cli_conn_t) (data : list Z)
| LWrite
| LNotify (id : Z) (acked : bool)
| LTick (c : mqvpn_client_t) (k : cli_conn_t).

(** The handle is sound and the packet consists of bytes. *)
Definition op_ok (op : lane_op) : Prop :=
  match op with
  | LTun c pkt => client_ok c /\ bytes_ok pkt
  | LRead c _ data => client_ok c /\ bytes_ok data
  | LTick c _ => client_ok c
  | LWrite | LNotify _ _ => True
  end.

Definition is_write (op : lane_op) : bool := match op with LWrite => true | _ => false end.
Definition is_tun_op (op : lane_op) : bool := match op with LTun _ _ => true | _ => false end.

(** The outcome of each allocation at the start of a connection. *)
Record start_allocs := StartAllocs { sa_red : bool; sa_tx : bool; sa_txb : bool; sa_rx : bool; sa_rxb : bool }.

Section run.
Context (E : lane_env) (cfg : lane_config).

(** The end of [cli_start_connection], on a connection that was just allocated. *)
Definition lane_connect (a : start_allocs) (conn_id : Z) : D unit :=
  t ← (if bool_decide (mode (lc_reorder cfg) = MQVPN_REORDER_OFF) then mret 0 else l_clock E);
  let '(red, tx, rx) := lane_engines cfg (sa_red a) (sa_tx a) (sa_txb a) (sa_rx a) (sa_rxb a) t conn_id in
  d_modify (fun s => s <| redundant_tx := red |> <| reorder_tx := tx |> <| reorder_rx := rx |> <| redundant_refresh_us := 0 |>
    <| redundant_full_warned := false |> <| dgram_acked_cnt := 0 |> <| dgram_lost_cnt := 0 |>).

Definition lane_do (op : lane_op) : D (option mqvpn_error_t) :=
  match op with
  | LTun c pkt => r ← mqvpn_client_on_tun_packet E cfg c pkt; mret (Some r)
  | LRead c k data => cb_dgram_read E c k data ;; mret None
  | LWrite => cb_dgram_write E ;; mret None
  | LNotify id acked => cli_dgram_notify id acked ;; mret None
  | LTick c k => lane_tick E c k ;; mret None
  end.

Fixpoint lane_run (ops : list lane_op) : D (list (option mqvpn_error_t)) :=
  match ops with
  | [] => mret []
  | op :: ops => r ← lane_do op; rs ← lane_run ops; mret (r :: rs)
  end.

Definition lane_session (a : start_allocs) (conn_id : Z) (ops : list lane_op) : D (list (option mqvpn_error_t)) :=
  lane_connect a conn_id ;; lane_run ops.

(** The settings hold values of their C types. *)
Record lane_cfg_ok : Prop := {
  lc_ranges : cfg_ranges (lc_reorder cfg);
  lc_marks : 0 <= reset_mark_packets (lc_reorder cfg) < 2 ^ 32
}.

Context (HE : lane_env_ok E).

Lemma lane_connect_ok s a conn_id : lane_cfg_ok ->
  dwp (lane_connect a conn_id) s (fun _ s' => lane_inv E 0 s' /\ backpressure s' = backpressure s /\ lane_out s' = lane_out s /\ dgram_sent s' = dgram_sent s).
Proof.
  intros [Hr Hm]. unfold lane_connect. apply dwp_bind.
  assert (Ht : dwp (if bool_decide (mode (lc_reorder cfg) = MQVPN_REORDER_OFF) then mret 0 else l_clock E) s
    (fun _ s' => backpressure s' = backpressure s /\ lane_out s' = lane_out s /\ dgram_sent s' = dgram_sent s)).
  { case_bool_decide; [by apply dwp_ret|]. unfold l_clock. by apply dwp_ask. }
  eapply dwp_mono; [exact Ht|]. clear Ht. intros t s1 Hs. destruct (lane_engines _ _ _ _ _ _ _ _) as [[red tx] rx] eqn:Ee. apply dwp_modify. split; [|exact Hs].
  assert (Hall : (forall x, tx = Some x -> tx_inv x) /\ (forall x, rx = Some x -> rx_inv 0 x) /\ (forall x, red = Some x -> x = mqvpn_redundant_tx_new)).
  { revert Ee. unfold lane_engines. cbv zeta. set (red' := if lc_redundant cfg && sa_red a then _ else None).
    assert (Hred : forall x, red' = Some x -> x = mqvpn_redundant_tx_new) by (unfold red'; intros x; destruct (_ && _); [intros Ex%Some_inj; done|done]).
    assert (Hp : forall tx' rx', (red', tx', rx') = (red, tx, rx) -> red' = red /\ tx' = tx /\ rx' = rx) by (intros tx' rx' [[H1 H2]%pair_equal_spec H3]%pair_equal_spec; done).
    clearbody red'. case_bool_decide; [intros (<- & <- & <-)%Hp; done|]. destruct (ReorderTx.mqvpn_reorder_tx_new _ _ _ _) as [tx'|] eqn:Et; [|intros (<- & <- & <-)%Hp; done].
    destruct (mqvpn_reorder_rx_new _ _ _ _ _) as [rx'|] eqn:Er; intros (<- & <- & <-)%Hp; [|done]. split_and!; [|..|done]; intros x <-%Some_inj.
    - destruct (sa_tx a) eqn:E1; [|done]. destruct (sa_txb a) eqn:E2; [|by unfold ReorderTx.mqvpn_reorder_tx_new in Et].
      eapply (proj1 (tx_new_ok (lc_reorder cfg) _ _ (cr_flows _ Hr) Hm Et)).
    - assert (H1 : sa_rx a = true /\ sa_rxb a = true).
      { revert Er. unfold mqvpn_reorder_rx_new. destruct (negb true || _); [done|]. destruct (sa_rx a); [|done]. by destruct (sa_rxb a). }
      destruct H1 as [E1 E2]. rewrite E1, E2 in Er. by apply (rx_new_ok _ _ _ Hr Er). }
  destruct Hall as (A1 & A2 & A3). split; cbn [reorder_tx reorder_rx redundant_tx lane_calls update].
  - exact A1.
  - intros x Hx. exists 0. split; [by apply A2|]. apply (le_range _ HE).
  - intros x Hx. specialize (A3 x Hx). subst x. pose proof world_new as Hw. destruct tab_new_wf as [_ Em]. split; [apply (wk_inv _ Hw)|]. split; [done|].
    intros id. change (copies mqvpn_redundant_tx_new) with tab_new. rewrite Em, dom_empty_L. intros Hid. destruct (not_elem_of_empty id Hid).
Qed.

(** ** One operation *)

(** The effects [new] of an operation with the answer [r]. *)
Record step_facts (op : lane_op) (r : option mqvpn_error_t) (s s' : lane) (new : list lane_fx) : Prop := {
  sf_out : lane_out s' = lane_out s ++ new;
  sf_send f x : x ∈ new -> is_send f x -> exists c k pkt, op = LTun c pkt /\ conn c = Some k /\ tunnel_ok k = true /\ src_allowed k pkt /\ framed f pkt;
  sf_sent : dgram_sent s' = if existsb is_accept new then u64 (dgram_sent s + 1) else dgram_sent s;
  sf_accept : existsb is_accept new = true -> r = Some MQVPN_OK;
  sf_held : is_write op = false -> backpressure s = true -> backpressure s' = true /\ forallb is_tun new = true;
  sf_refused c pkt k : op = LTun c pkt -> backpressure s = true -> pkt <> [] -> conn c = Some k -> tunnel_ok k = true -> r = Some MQVPN_ERR_AGAIN;
  sf_latched : backpressure s = false -> backpressure s' = bool_decide (r = Some MQVPN_ERR_AGAIN)
}.

Lemma tun_not_send new f x : forallb is_tun new = true -> x ∈ new -> is_send f x -> False.
Proof. rewrite forallb_forall. intros H Hx%list_elem_of_In (p & h & r & id & ->). by specialize (H _ Hx). Qed.

(** An operation that only hands packets to the tunnel. *)
Lemma facts_quiet op s s' new : is_tun_op op = false -> is_write op = false -> lane_out s' = lane_out s ++ new -> forallb is_tun new = true ->
  backpressure s' = backpressure s -> dgram_sent s' = dgram_sent s -> step_facts op None s s' new.
Proof.
  intros Ht Hw Ho Hn Hb Hs. pose proof (tun_no_accept new Hn) as Hna. split; rewrite ?Hna, ?Hb; try done.
  - intros f x Hx Hf. destruct (tun_not_send new f x Hn Hx Hf).
  - intros c pkt k -> . done.
Qed.

Lemma lane_do_ok N s op : lane_inv E N s -> op_ok op -> N + 1 < 2 ^ 64 ->
  dwp (lane_do op) s (fun r s' => lane_inv E (N + 1) s' /\ exists new, step_facts op r s s' new).
Proof.
  intros Hi Ho HN. assert (Hle : forall s', lane_inv E N s' -> lane_inv E (N + 1) s') by (intros s' H; eapply inv_le; [done..|lia]). destruct op as [c pkt|c k data| |id acked|c k]; cbn [lane_do]; apply dwp_bind.
  - destruct Ho as [Hc Hb]. eapply dwp_mono; [by apply (on_tun_packet_ok E HE cfg N)|]. intros r s' (I1 & new & T). apply dwp_ret. split; [done|]. exists new. split; try apply T; try done.
    + intros f x Hx Hf. destruct (tc_fx _ _ _ _ _ _ T x Hx) as [(p & ->)|(k & f' & Hk & Hok & Hsrc & Hfr & Hs)]; [destruct Hf as (? & ? & ? & ? & ?); done|].
      exists c, k, pkt. split_and!; try done. destruct Hf as (? & ? & ? & ? & ->), Hs as (? & ? & ? & ? & [= _ <- _ _ _]). done.
    + intros Ha. f_equal. by apply (tc_ok _ _ _ _ _ _ T).
    + intros _ Hbp. pose proof (tc_blocked _ _ _ _ _ _ T Hbp) as ->. split; [done|]. pose proof (tc_out _ _ _ _ _ _ T) as Hout. destruct new; [done|]. apply (f_equal length) in Hout. rewrite length_app in Hout. cbn in Hout. lia.
    + intros c' pkt' k [= <- <-] Hbp Hp Hk Hok. f_equal. by apply (tc_refused _ _ _ _ _ _ T k).
    + intros Hbp. rewrite (tc_latch _ _ _ _ _ _ T), Hbp. cbn [orb]. apply bool_decide_ext. split; [by intros ->|by intros [= ->]].
  - destruct Ho as [Hc Hb]. eapply dwp_mono; [by apply (cb_dgram_read_ok E HE N)|]. intros [] s' (I1 & (Q1 & Q2 & _) & new & Hout & Hn). apply dwp_ret. split; [by apply Hle|]. exists new. by apply facts_quiet.
  - eapply dwp_mono; [by apply (dgram_write_ok E HE N)|]. intros [] s' (I1 & Hb & Hs & Hout). apply dwp_ret. split; [by apply Hle|]. eexists. split; [exact Hout|..]; destruct (_ && _); try done;
      intros f x; rewrite ?list_elem_of_singleton, ?elem_of_nil; intros H (? & ? & ? & ? & ->); done.
  - eapply dwp_mono; [by apply (notify_ok E HE N)|]. intros [] s' (I1 & Hb & Hs & Hout & _). apply dwp_ret. split; [by apply Hle|]. exists []. apply facts_quiet; try done. by rewrite app_nil_r.
  - eapply dwp_mono; [by apply (lane_tick_ok E HE N)|]. intros [] s' (I1 & (Q1 & Q2 & _) & new & Hout & Hn). apply dwp_ret. split; [by apply Hle|]. exists new. by apply facts_quiet.
Qed.

(** ** Sequences of operations *)

Inductive run_rel : lane -> list lane_op -> list (option mqvpn_error_t) -> lane -> Prop :=
| run_nil s : run_rel s [] [] s
| run_cons s op r s1 new ops rs s' : step_facts op r s s1 new -> run_rel s1 ops rs s' -> run_rel s (op :: ops) (r :: rs) s'.

Lemma lane_run_ok N s ops : lane_inv E N s -> Forall op_ok ops -> N + Z.of_nat (length ops) < 2 ^ 64 ->
  dwp (lane_run ops) s (fun rs s' => lane_inv E (N + Z.of_nat (length ops)) s' /\ run_rel s ops rs s').
Proof.
  revert N s. induction ops as [|op ops IH]; intros N s Hi Ho HN; cbn [lane_run length] in *.
  { apply dwp_ret. split; [by rewrite Z.add_0_r|constructor]. }
  apply Forall_cons in Ho as [Ho1 Ho]. apply dwp_bind. eapply dwp_mono; [apply (lane_do_ok N); [done|done|lia]|]. intros r s1 (I1 & new & Hf). apply dwp_bind.
  eapply dwp_mono; [apply (IH (N + 1)); [done|done|lia]|]. intros rs s' (I2 & Hr). apply dwp_ret. split; [|by econstructor]. by replace (N + Z.of_nat (S (length ops))) with (N + 1 + Z.of_nat (length ops)) by lia.
Qed.

(** What was sent between two states is framed tunnel packets. *)
Lemma run_sends s ops rs s' : run_rel s ops rs s' -> exists new, lane_out s' = lane_out s ++ new /\
  (forall f x, x ∈ new -> is_send f x -> exists c k pkt, LTun c pkt ∈ ops /\ conn c = Some k /\ tunnel_ok k = true /\ src_allowed k pkt /\ framed f pkt) /\
  (Forall (fun op => is_write op = false) ops -> backpressure s = true -> backpressure s' = true /\ forallb is_tun new = true /\
    forall i c pkt k, ops !! i = Some (LTun c pkt) -> pkt <> [] -> conn c = Some k -> tunnel_ok k = true -> rs !! i = Some (Some MQVPN_ERR_AGAIN)).
Proof.
  induction 1 as [s|s op r s1 new ops rs s' Hf _ (new' & Ho & Hs & Hb)].
  { exists []. rewrite app_nil_r. split_and!; [done|by intros f x ?%elem_of_nil|done]. }
  exists (new ++ new'). split_and!.
  - rewrite Ho, (sf_out _ _ _ _ _ Hf). by rewrite app_assoc.
  - intros f x [Hx|Hx]%elem_of_app Hsx.
    + destruct (sf_send _ _ _ _ _ Hf f x Hx Hsx) as (c & k & pkt & -> & Hr). exists c, k, pkt. split; [by left|done].
    + destruct (Hs f x Hx Hsx) as (c & k & pkt & Hin & Hr). exists c, k, pkt. split; [by right|done].
  - intros [Hw Hws]%Forall_cons Hbp. destruct (sf_held _ _ _ _ _ Hf Hw Hbp) as [Hb1 Hn1]. destruct (Hb Hws Hb1) as (Hb2 & Hn2 & Hl). split; [done|]. split; [by rewrite forallb_app, Hn1, Hn2|].
    intros [|i] c pkt k; [|by apply Hl]. intros [= ->] Hp Hk Hok. cbn. f_equal. by eapply (sf_refused _ _ _ _ _ Hf).
Qed.

(** The counter of sent packets. *)
Definition n_ok (rs : list (option mqvpn_error_t)) : nat := length (List.filter (fun r => bool_decide (r = Some MQVPN_OK)) rs).

Lemma run_sent s ops rs s' : run_rel s ops rs s' -> 0 <= dgram_sent s < 2 ^ 64 -> exists n, (n <= n_ok rs)%nat /\ dgram_sent s' = u64 (dgram_sent s + Z.of_nat n).
Proof.
  induction 1 as [s|s op r s1 new ops rs s' Hf _ IH]; intros Hr; [exists 0%nat; split; [done|]; by rewrite Z.add_0_r, u64_small|].
  pose proof (sf_sent _ _ _ _ _ Hf) as Hs. pose proof (sf_accept _ _ _ _ _ Hf) as Ha. unfold n_ok in *. cbn [List.filter]. destruct (existsb is_accept new).
  - destruct IH as (n & Hn & En); [rewrite Hs; apply u64_range|]. exists (S n). rewrite (Ha eq_refl), bool_decide_eq_true_2 by done. cbn [length]. split; [lia|].
    rewrite En, Hs, u64_add_l. f_equal. lia.
  - destruct IH as (n & Hn & En); [by rewrite Hs|]. exists n. split; [case_bool_decide; cbn [length]; lia|]. by rewrite En, Hs.
Qed.

Lemma session_ok s a conn_id ops : lane_cfg_ok -> Forall op_ok ops -> Z.of_nat (length ops) < 2 ^ 64 ->
  exists rs s0 s', lane_session a conn_id ops s = Some (rs, s') /\ run_rel s0 ops rs s' /\ lane_inv E (Z.of_nat (length ops)) s' /\
    backpressure s0 = backpressure s /\ lane_out s0 = lane_out s /\ dgram_sent s0 = dgram_sent s.
Proof.
  intros Hcfg Ho Hl. assert (H : dwp (lane_session a conn_id ops) s (fun rs s' => exists s0, run_rel s0 ops rs s' /\ lane_inv E (Z.of_nat (length ops)) s' /\
    backpressure s0 = backpressure s /\ lane_out s0 = lane_out s /\ dgram_sent s0 = dgram_sent s)).
  { unfold lane_session. apply dwp_bind. eapply dwp_mono; [by apply lane_connect_ok|]. intros [] s0 (I0 & H1 & H2 & H3). eapply dwp_mono; [by apply (lane_run_ok 0 s0)|].
    intros rs s' (I & Hr). exists s0. by split_and!. }
  destruct H as (rs & s' & Er & s0 & H). exists rs, s0, s'. by split.
Qed.

Lemma run_length s ops rs s' : run_rel s ops rs s' -> length rs = length ops.
Proof. induction 1; [done|]. cbn. by f_equal. Qed.

End run.

(** ** Properties *)


(** C40: once a send was refused for now, nothing more is sent until xquic
    reports that datagrams can be written: every packet from the tunnel is
    answered with "again" and leaves no effect but packets for the tunnel, also
    when the connection is replaced in between, and the report clears the
    latch and tells the platform that it may read the tunnel. *)
Theorem backpressure_holds E cfg s a conn_id ops : lane_env_ok E -> lane_cfg_ok cfg -> Forall op_ok ops -> Z.of_nat (length ops) < 2 ^ 64 ->
  backpressure s = true -> Forall (fun op => is_write op = false) ops ->
  exists rs s' new, lane_session E cfg a conn_id ops s = Some (rs, s') /\ backpressure s' = true /\ lane_out s' = lane_out s ++ new /\ forallb is_tun new = true /\
    (forall i c pkt k, ops !! i = Some (LTun c pkt) -> pkt <> [] -> conn c = Some k -> tunnel_ok k = true -> rs !! i = Some (Some MQVPN_ERR_AGAIN)) /\
    exists s'', lane_do E cfg LWrite s' = Some (None, s'') /\ backpressure s'' = false /\ lane_out s'' = lane_out s' ++ (if l_has_ready E then [LxReady] else []).
Proof.
  intros HE Hcfg Ho Hl Hb Hw. destruct (session_ok E cfg HE s a conn_id ops Hcfg Ho Hl) as (rs & s0 & s' & Er & Hr & Hi & Eb & Eo & _).
  destruct (run_sends _ _ _ _ Hr) as (new & Hout & _ & Hheld). destruct (Hheld Hw) as (Hb' & Hn & Hans); [by rewrite Eb|]. exists rs, s', new. split_and!; try done; [by rewrite Hout, Eo|].
  destruct (dgram_write_ok E HE _ s' Hi) as ([] & s'' & Ew & _ & Hb'' & _ & Hout''). exists s''. rewrite Hb' in Hout''. split_and!; try done. cbn [lane_do]. unfold mbind, stM_bind. by rewrite Ew.
Qed.

(** ** A concrete session *)

(** The clock ticks once a question and the ids are the questions' numbers;
    xquic refuses the datagrams of every fourth question for now. *)
Definition demo_lane_env : lane_env :=
  LaneEnv (fun n => Z.of_nat n `min` 1000000) (fun n => Z.of_nat n) (fun _ => true) (fun _ => all_ok) (fun cap sid => if 2 <=? cap then Some [0; 0] else None)
    (fun d => match d with q :: 0 :: p => Some (q, p) | _ => None end) (fun m _ => m - 2)
    (fun n _ _ _ => if Nat.eqb (Nat.modulo n 4) 0 then (-11, 0) else (0, Z.of_nat n)) (fun _ => [(0, (1000, 100000, 0)); (1, (1000, 100000, 0))]) true 11.

Lemma demo_lane_env_ok : lane_env_ok demo_lane_env.
Proof.
  split; cbn [demo_lane_env l_now_us l_masque_frame_udp l_masque_unframe_udp l_datagram_send XQC_EAGAIN].
  - intros n m H. lia.
  - intros n. unfold TIME_LIMIT. lia.
  - intros cap sid h. destruct (Z.leb_spec 2 cap); [|done]. intros [= <-]. exact H.
  - intros d q p Hd. destruct d as [|x [|[| |] d]]; try done. intros [= <- <-]. by apply Forall_cons in Hd as [_ [_ Hd]%Forall_cons].
  - intros n m p f h p' f' h' H. destruct (Nat.eqb _ 0); [cbn; lia|]. destruct (Nat.eqb _ 0); cbn; lia.
  - lia.
Qed.

Definition demo_lane_cfg : lane_config := LaneConfig demo_cfg true [443].

Lemma demo_lane_cfg_ok : lane_cfg_ok demo_lane_cfg.
Proof. split; [apply demo_cfg_ranges|vm_compute; split; [discriminate|reflexivity]]. Qed.

Definition demo_conn : cli_conn_t := CliConn 1400 true 0 true false MQVPN_OK (Some ([10; 0; 0; 2], 24)) None true None.

Definition demo_path (id : Z) : path_entry_t := path_entry_init <| xqc_path_id := id |> <| xquic_path_live := true |> <| state := PATH_LC_ACTIVE |>.

Definition demo_client : mqvpn_client_t :=
  (client_init_handle (ClientConfig true MQVPN_SCHED_MINRTT true 5 false 0 MQVPN_REORDER_ON true mqvpn_hybrid_config_default))
    <| conn := Some demo_conn |> <| tun_active := true |> <| multipath_ready := true |> <| paths := [demo_path 0; demo_path 1] |>.

Lemma demo_client_ok : client_ok demo_client.
Proof.
  split; [cbn; lia|..].
  - intros k ip p [= <-] [= <- <-]. split; [done|]. repeat constructor; unfold is_byte; lia.
  - by intros k ip p [= <-].
  - split; (split; [split; [repeat constructor; unfold is_byte; lia|done]|done]).
Qed.

(** A tunnel packet sent on both paths, an ack, a refused ordinary packet, a
    received packet, the write notification and a tick. *)
Definition other_udp : list Z := [69; 0; 0; 28; 0; 0; 0; 0; 64; 17; 0; 0; 10; 0; 0; 2; 10; 0; 0; 1; 18; 52; 1; 188; 0; 8; 0; 0].

Definition demo_session : list lane_op :=
  [LTun demo_client sample_udp; LNotify 5 true; LTun demo_client other_udp; LTun demo_client other_udp; LRead demo_client demo_conn (0 :: 0 :: other_udp); LWrite; LTick demo_client demo_conn].

Definition demo_allocs : start_allocs := StartAllocs true true true true true.
Definition demo_lane0 : lane := Lane None None None 0 false 0 0 mqvpn_ptb_bucket_init false 0 0 0 0 0 0 0 0 [].

Lemma demo_session_ok : Forall op_ok demo_session.
Proof.
  pose proof demo_client_ok as Hc. assert (Hb : forall l, forallb (fun x => (0 <=? x) && (x <? 256)) l = true -> bytes_ok l).
  { intros l. rewrite forallb_forall. intros H. apply Forall_forall. intros x Hx%list_elem_of_In. specialize (H x Hx). bool_to_prop. unfold is_byte. lia. }
  repeat apply Forall_cons_2; try done; try (split; [exact Hc|apply Hb; reflexivity]); try exact Hc.
Qed.


(** What the operations of the session answer and hand over: the first packet
    is sent on both paths, one copy is refused; the second is refused and
    latches the third; the received packet goes to the tunnel with its TTL
    decremented. *)
Example demo_session_trace :
  (fun r => (r.1, dgram_sent r.2, dgram_recv r.2, dgram_acked r.2, backpressure r.2, List.filter (fun x => match x with LxSend _ _ _ _ _ => false | _ => true end) (lane_out r.2))) <$>
    lane_session demo_lane_env demo_lane_cfg demo_allocs 1 demo_session demo_lane0 =
  Some ([Some MQVPN_OK; None; Some MQVPN_ERR_AGAIN; Some MQVPN_ERR_AGAIN; None; None; None], 1, 1, 1, false,
    [LxTun [69; 0; 0; 28; 0; 0; 0; 0; 63; 17; 1; 0; 10; 0; 0; 2; 10; 0; 0; 1; 18; 52; 1; 188; 0; 8; 0; 0]; LxReady]).
Proof. vm_compute. reflexivity. Qed.


(** ** Packets from the tunnel in any state *)

Definition demo_latched : lane := demo_lane0 <| backpressure := true |>.
Definition demo_held : list lane_op := [LTun demo_client sample_udp; LRead demo_client demo_conn (0 :: 0 :: other_udp); LTick demo_client demo_conn; LTun demo_client other_udp].

Lemma demo_held_ok : Forall op_ok demo_held.
Proof. pose proof demo_session_ok as H. unfold demo_session, demo_held in *. repeat (apply Forall_cons in H as [? H]). by repeat apply Forall_cons_2. Qed.

Lemma backpressure_holds_witness :
  exists rs s' new, lane_session demo_lane_env demo_lane_cfg demo_allocs 1 demo_held demo_latched = Some (rs, s') /\ backpressure s' = true /\ lane_out s' = lane_out demo_latched ++ new /\ forallb is_tun new = true /\
    (forall i c pkt k, demo_held !! i = Some (LTun c pkt) -> pkt <> [] -> conn c = Some k -> tunnel_ok k = true -> rs !! i = Some (Some MQVPN_ERR_AGAIN)) /\
    exists s'', lane_do demo_lane_env demo_lane_cfg LWrite s' = Some (None, s'') /\ backpressure s'' = false /\ lane_out s'' = lane_out s' ++ [LxReady].
Proof.
  refine (backpressure_holds demo_lane_env demo_lane_cfg demo_latched demo_allocs 1 demo_held demo_lane_env_ok demo_lane_cfg_ok demo_held_ok _ _ _); [vm_compute; reflexivity|reflexivity|].
  repeat constructor.
Defined.

(** In every state of a connection, a packet from the tunnel is either
    refused, dropped with an error packet for the tunnel, or framed and handed
    to xquic from the assigned source address; the answer is "again" exactly
    when the latch is or becomes set, an accepted datagram means success and
    moves the counter of sent packets by one however many copies were sent, and
    the counters of received and acknowledged datagrams stay. *)
Theorem tun_packet_contract E cfg s0 a conn_id ops rs s c pkt : lane_env_ok E -> lane_cfg_ok cfg -> Forall op_ok ops -> Z.of_nat (length ops) + 1 < 2 ^ 64 ->
  lane_session E cfg a conn_id ops s0 = Some (rs, s) -> client_ok c -> bytes_ok pkt ->
  exists r s' new, mqvpn_client_on_tun_packet E cfg c pkt s = Some (r, s') /\ tun_contract c pkt s r s' new.
Proof.
  intros HE Hcfg Ho Hl Er Hc Hb. destruct (session_ok E cfg HE s0 a conn_id ops Hcfg Ho ltac:(lia)) as (rs' & s1 & s' & Er' & _ & Hi & _). rewrite Er in Er'. injection Er' as <- <-.
  destruct (on_tun_packet_ok E HE cfg _ s c pkt Hi Hc Hb Hl) as (r & s'' & E1 & _ & new & T). by exists r, s'', new.
Qed.

Lemma tun_packet_contract_witness : exists rs s r s' new, lane_session demo_lane_env demo_lane_cfg demo_allocs 1 demo_session demo_lane0 = Some (rs, s) /\
  mqvpn_client_on_tun_packet demo_lane_env demo_lane_cfg demo_client sample_udp s = Some (r, s') /\ tun_contract demo_client sample_udp s r s' new.
Proof.
  destruct (session_ok demo_lane_env demo_lane_cfg demo_lane_env_ok demo_lane0 demo_allocs 1 demo_session demo_lane_cfg_ok demo_session_ok ltac:(cbn; lia)) as (rs & s1 & s & Es & _).
  exists rs, s. assert (Hb : bytes_ok sample_udp) by (apply sample_udp_bytes).
  destruct (tun_packet_contract demo_lane_env demo_lane_cfg demo_lane0 demo_allocs 1 demo_session rs s demo_client sample_udp demo_lane_env_ok demo_lane_cfg_ok demo_session_ok eq_refl Es demo_client_ok Hb) as (r & s' & new & H1 & H2).
  exists r, s', new. exact (conj Es (conj H1 H2)).
Defined.

(** ** Packets for the tunnel *)

(** A received IPv4 packet that fits a stack buffer and has a valid header
    checksum is handed to the tunnel with its TTL one smaller, a checksum that
    is valid again and all else unchanged, and counts as received; a packet
    whose TTL ends here is not counted and yields at most a "time exceeded"
    packet from the assigned address. *)
Theorem ipv4_received E c k s data q pkt t : client_ok c -> tun_active c = true -> l_masque_unframe_udp E data = Some (q, pkt) -> bytes_ok pkt -> blen pkt <= MQVPN_DGRAM_STACK_BUF ->
  byte_at pkt 0 / 16 = 4 -> let n := byte_at pkt 0 mod 16 * 4 in 20 <= n <= blen pkt -> byte_at pkt 8 = t -> ipv4_checksum pkt n = Some 0 ->
  exists s', cb_dgram_read E c k data s = Some (tt, s') /\ redundant_tx s' = redundant_tx s /\ backpressure s' = backpressure s /\
    if t <=? 1 then dgram_recv s' = dgram_recv s /\
      lane_out s' = lane_out s ++ tun_out (match k' ← conn c; addr4 k' with Some (ip, _) => default None (mqvpn_icmp_send_v4 ip 11 0 0 pkt) | None => None end)
    else dgram_recv s' = u64 (dgram_recv s + 1) /\ exists p', lane_out s' = lane_out s ++ [LxTun p'] /\ bytes_ok p' /\ ttl_of pkt p' /\ ipv4_checksum p' n = Some 0.
Proof.
  intros Hc Ht Hu Hb Hl Hv n Hn Ht8 Hck. pose proof (rd_byte_at pkt 0 ltac:(lia)) as H0. pose proof (rd_byte_at pkt 8 ltac:(lia)) as H8.
  assert (Hread : cb_dgram_read E c k data s = forward_inner_ip E c k pkt s).
  { unfold cb_dgram_read. rewrite Ht, Hu. cbn [negb]. rewrite (proj2 (Z.ltb_ge (blen pkt) 1)) by lia. rewrite H0. unfold mbind at 1, stM_bind at 1, d_lift at 1. unfold mqvpn_reorder_classify_byte.
    rewrite Z.shiftr_div_pow2 by lia. change (2 ^ 4) with 16. by rewrite Hv. }
  destruct (forward_inner_ip_ok E c k pkt s Hc) as ([] & s' & Ef & mem & ((_ & _ & Er & _) & (Eb & _) & Ho & Hr) & Hm). specialize (Hm Hl). subst mem. exists s'. split; [by rewrite Hread|]. split_and!; [done..|].
  revert Ho Hr. unfold fwd_verdict. rewrite Hv, (proj2 (Z.leb_le 1 _)), (proj2 (Z.leb_le _ PACKET_BUF_SIZE)), (proj2 (Z.leb_le 20 _)) by (unfold PACKET_BUF_SIZE, MQVPN_DGRAM_STACK_BUF in *; lia).
  cbn [andb Z.eqb Pos.eqb]. cbv zeta. rewrite Ht8. destruct (Z.leb_spec t 1) as [Ht1|Ht1]; cbn [fst snd]; [done|]. intros Ho Hr. split; [done|].
  destruct (ttl_v4_checksum pkt n t (byte_at pkt 0) Hb H0) as (p' & Ep & Hb' & Hof & Hck'); [rewrite Z.shiftr_div_pow2 by lia; exact Hv|lia| | |by rewrite H8, Ht8|lia|done|].
  - pose proof (Z.mod_pos_bound (byte_at pkt 0) 16). lia.
  - unfold n. rewrite Z.even_mul. apply orb_true_r.
  - exists p'. split_and!; try done. rewrite Ho, Ep. done.
Qed.

(** A packet with a valid checksum. *)
Definition checked_udp : list Z := [69; 0; 0; 28; 0; 0; 0; 0; 64; 17; 102; 207; 10; 0; 0; 1; 10; 0; 0; 2; 18; 52; 1; 187; 0; 8; 0; 0].

Lemma ipv4_received_witness : exists s', cb_dgram_read demo_lane_env demo_client demo_conn (0 :: 0 :: checked_udp) demo_lane0 = Some (tt, s') /\ redundant_tx s' = None /\ backpressure s' = false /\
  dgram_recv s' = 1 /\ exists p', lane_out s' = [LxTun p'] /\ bytes_ok p' /\ ttl_of checked_udp p' /\ ipv4_checksum p' 20 = Some 0.
Proof.
  refine (ipv4_received demo_lane_env demo_client demo_conn demo_lane0 (0 :: 0 :: checked_udp) 0 checked_udp 64 demo_client_ok _ _ _ _ _ _ _ _); try (vm_compute; reflexivity).
  - repeat constructor; unfold is_byte; lia.
  - vm_compute. discriminate.
  - vm_compute. split; discriminate.
Defined.
