(* ===== verification/Auth.v ===== *)
(** * Authentication ([src/auth.c] and the credentials of [src/mqvpn_server.c])

    The constant-time comparison, the Base64 encoder of generated keys, the
    check of a bearer token and the table of users.  C strings are lists of
    character codes without the terminator; a key or name slot holds what
    [snprintf] leaves of the value given. *)

From Stdlib Require Import String.
From S2P Require Import Prelude Client.

#[local] Abbreviation length := List.length.

(** ** [auth.c] *)

Definition b64_table : list Z := text "ABCDEFGHIJKLMNOPQRSTUVWXYZabcdefghijklmnopqrstuvwxyz0123456789+/".

(** [b64_table[(triple >> s) & 0x3F]]. *)
Definition b64_char (triple s : Z) : option Z := b64_table !! Z.to_nat (Z.land (Z.shiftr triple s) 63).

(** The loop over whole triples, and the rest. *)
Fixpoint b64_loop (src : list Z) : option (list Z) :=
  match src with
  | x :: y :: z :: src =>
      let triple := u32 (Z.lor (Z.lor (Z.shiftl x 16) (Z.shiftl y 8)) z) in
      a ← b64_char triple 18; b ← b64_char triple 12; c ← b64_char triple 6; d ← b64_char triple 0;
      out ← b64_loop src; Some (a :: b :: c :: d :: out)
  | [x; y] =>
      let triple := u32 (Z.lor (Z.shiftl x 16) (Z.shiftl y 8)) in
      a ← b64_char triple 18; b ← b64_char triple 12; c ← b64_char triple 6; Some [a; b; c; 61]
  | [x] =>
      let triple := u32 (Z.shiftl x 16) in
      a ← b64_char triple 18; b ← b64_char triple 12; Some [a; b; 61; 61]
  | [] => Some []
  end.

(** [Some None] is the return value -1; [None] is a read outside the table. *)
Definition mqvpn_auth_b64_encode (dst_len : Z) (src : list Z) : option (option (list Z)) :=
  let out_len := (blen src + 2) / 3 * 4 in
  if dst_len <? out_len + 1 then Some None else out ← b64_loop src; Some (Some out).

Fixpoint ct_loop (a b : list Z) (result : Z) : Z :=
  match a, b with
  | x :: a, y :: b => ct_loop a b (Z.lor result (Z.lxor (u8 x) (u8 y)))
  | _, _ => result
  end.

Definition mqvpn_auth_ct_compare (a b : list Z) : Z :=
  if negb (blen a =? blen b) then 1 else if negb (ct_loop a b 0 =? 0) then 1 else 0.

(** ** Credentials of the server *)

Definition MQVPN_MAX_USERS : Z := 64.

Record svr_auth_config := SvrAuth { auth_key : list Z; users : list (list Z * list Z) }.

#[export] Instance eta_svr_auth : Settable svr_auth_config := fun r => SvrAuth (auth_key r) (users r).

Definition svr_auth_required (s : svr_auth_config) : bool := negb (bool_decide (auth_key s = [])) || (0 <? Z.of_nat (length (users s))).

(** The key slot is in use and matches. *)
Definition key_matches (token key : list Z) : bool := negb (bool_decide (key = [])) && (mqvpn_auth_ct_compare token key =? 0).

(** [snprintf] into [cap] bytes. *)
Definition snprintf_cap (cap : Z) (s : list Z) : list Z := take (Z.to_nat (cap - 1)) s.

Definition global_user : list Z := text "(global)".

(** The identity of the caller, [None] for -1. *)
Definition svr_auth_check (s : svr_auth_config) (auth_token : option (list Z)) (username_cap : Z) : option (list Z) :=
  match auth_token with
  | None => None
  | Some tok =>
      let authed := key_matches tok (auth_key s) in
      let authed := fold_left (fun authed u => authed || key_matches tok u.2) (users s) authed in
      if negb authed then None
      else if key_matches tok (auth_key s) then Some (snprintf_cap username_cap global_user)
      else Some (default [] (snprintf_cap username_cap <$> (fst <$> List.find (fun u => key_matches tok u.2) (users s))))
  end.

(** The characters the control interface cannot print. *)
Definition bad_name_char (c : Z) : bool := (c =? 34) || (c =? 92) || (c <? 32).

Fixpoint set_user (us : list (list Z * list Z)) (name key : list Z) : option (list (list Z * list Z)) :=
  match us with
  | [] => None
  | u :: us => if bool_decide (u.1 = name) then Some ((u.1, snprintf_cap 256 key) :: us) else cons u <$> set_user us name key
  end.

Definition mqvpn_server_add_user (s : svr_auth_config) (name key : list Z) : mqvpn_error_t * svr_auth_config :=
  if bool_decide (name = []) || bool_decide (key = []) then (MQVPN_ERR_INVALID_ARG, s)
  else if 64 <=? blen name then (MQVPN_ERR_INVALID_ARG, s)
  else if existsb bad_name_char name then (MQVPN_ERR_INVALID_ARG, s)
  else
    match set_user (users s) name key with
    | Some us => (MQVPN_OK, s <| users := us |>)
    | None =>
        if MQVPN_MAX_USERS <=? Z.of_nat (length (users s)) then (MQVPN_ERR_MAX_CLIENTS, s)
        else (MQVPN_OK, s <| users ::= fun us => us ++ [(snprintf_cap 64 name, snprintf_cap 256 key)] |>)
    end.

(** The table after the first user of that name left; [None] when there is none. *)
Fixpoint drop_user (us : list (list Z * list Z)) (name : list Z) : option (list (list Z * list Z)) :=
  match us with
  | [] => None
  | u :: us => if bool_decide (u.1 = name) then Some us else cons u <$> drop_user us name
  end.

(** ** Proofs *)

Lemma lxor_byte_zero x y : is_byte x -> is_byte y -> Z.lxor (u8 x) (u8 y) = 0 <-> x = y.
Proof. intros Hx Hy. rewrite !u8_small by done. rewrite Z.lxor_eq_0_iff. done. Qed.

Lemma ct_loop_zero a b r : bytes_ok a -> bytes_ok b -> length a = length b -> ct_loop a b r = 0 <-> r = 0 /\ a = b.
Proof.
  revert b r. induction a as [|x a IH]; intros [|y b] r Ha Hb Hl; try done; cbn [ct_loop]; [tauto|].
  apply Forall_cons in Ha as [Hx Ha]. apply Forall_cons in Hb as [Hy Hb]. rewrite IH by (done || by injection Hl). rewrite Z.lor_eq_0_iff, lxor_byte_zero by done.
  split; [by intros [[-> ->] ->]|by intros [-> [= -> ->]]].
Qed.

Lemma ct_compare_eq a b : bytes_ok a -> bytes_ok b -> (mqvpn_auth_ct_compare a b =? 0) = bool_decide (a = b).
Proof.
  intros Ha Hb. unfold mqvpn_auth_ct_compare. destruct (Z.eqb_spec (blen a) (blen b)) as [El|El]; cbn [negb].
  - unfold blen in El. pose proof (ct_loop_zero a b 0 Ha Hb ltac:(lia)) as Hz. destruct (Z.eqb_spec (ct_loop a b 0) 0) as [E0|E0]; cbn [negb Z.eqb Pos.eqb].
    + symmetry. apply bool_decide_eq_true. by apply Hz.
    + symmetry. apply bool_decide_eq_false. intros ->. apply E0. by apply Hz.
  - symmetry. apply bool_decide_eq_false. by intros ->.
Qed.

Lemma key_matches_iff tok key : bytes_ok tok -> bytes_ok key -> key_matches tok key = true <-> key <> [] /\ tok = key.
Proof.
  intros Ht Hk. unfold key_matches. rewrite ct_compare_eq by done. rewrite andb_true_iff, negb_true_iff, bool_decide_eq_false, bool_decide_eq_true. done.
Qed.

(** A configuration as C holds it. *)
Record auth_wf (s : svr_auth_config) : Prop := {
  aw_key : bytes_ok (auth_key s);
  aw_users : Forall (fun u => bytes_ok u.1 /\ bytes_ok u.2 /\ u.1 <> [] /\ u.2 <> [] /\ blen u.1 <= 63 /\ blen u.2 <= 255) (users s);
  aw_names : NoDup (users s).*1;
  aw_count : Z.of_nat (length (users s)) <= MQVPN_MAX_USERS
}.

Lemma fold_orb {A} (f : A -> bool) l b : fold_left (fun b x => b || f x) l b = b || existsb f l.
Proof. revert b. induction l as [|x l IH]; intros b; cbn; [by rewrite orb_false_r|]. rewrite IH. by rewrite orb_assoc. Qed.

(** Who may enter: the holder of the global key or of a user's key. *)
Definition credential (s : svr_auth_config) (tok name : list Z) : Prop :=
  (auth_key s <> [] /\ tok = auth_key s /\ name = global_user) \/ ((auth_key s = [] \/ tok <> auth_key s) /\ (name, tok) ∈ users s).

Lemma auth_check_ok s tok : auth_wf s -> bytes_ok tok ->
  match svr_auth_check s (Some tok) 64 with
  | Some name => credential s tok name
  | None => forall name, ~ credential s tok name
  end.
Proof.
  intros [Hk Hu Hn _] Ht. unfold svr_auth_check. rewrite fold_orb. pose proof (key_matches_iff tok (auth_key s) Ht Hk) as Hg. destruct (key_matches tok (auth_key s)); cbn [orb negb].
  - destruct Hg as [Hg _]. destruct (Hg eq_refl) as [H1 H2]. by left.
  - assert (Hno : auth_key s = [] \/ tok <> auth_key s) by (destruct (decide (auth_key s = [])) as [E0|N0]; [by left|right; intros Et; by specialize (proj2 Hg (conj N0 Et))]).
    assert (Hm : forall u, u ∈ users s -> key_matches tok u.2 = true <-> tok = u.2).
    { intros u Hin. rewrite Forall_forall in Hu. destruct (Hu u Hin) as (_ & H2 & _ & H4 & _). rewrite key_matches_iff by done. tauto. }
    destruct (existsb _ (users s)) eqn:Ee; cbn [negb].
    + destruct (List.find (fun u => key_matches tok u.2) (users s)) as [[n k]|] eqn:Ef.
      * apply find_some in Ef as [Hin Hk']. apply list_elem_of_In in Hin. apply Hm in Hk'; [|done]. cbn in Hk'. subst k. right. split; [done|].
        cbn [fmap option_fmap option_map fst default from_option id]. unfold snprintf_cap. rewrite take_ge; [done|]. rewrite Forall_forall in Hu. destruct (Hu _ Hin) as (_ & _ & _ & _ & Hl & _). unfold blen in Hl. cbn in Hl. lia.
      * apply existsb_exists in Ee as (u & Hin & Hk'). by rewrite (find_none _ _ Ef u Hin) in Hk'.
    + intros name [(H1 & H2 & _)|(_ & Hin)]; [by destruct Hno|]. assert (Hf : existsb (fun u => key_matches tok u.2) (users s) = true); [|congruence].
      apply existsb_exists. exists (name, tok). split; [by apply list_elem_of_In|]. by apply Hm.
Qed.

(** ** The table of users *)

Inductive user_op := UAdd (name key : list Z) | URemove (name : list Z).

(** [mqvpn_server_remove_user] as far as the table goes. *)
Definition user_do (s : svr_auth_config) (op : user_op) : svr_auth_config :=
  match op with
  | UAdd name key => (mqvpn_server_add_user s name key).2
  | URemove name => if bool_decide (name = []) then s else match drop_user (users s) name with Some us => s <| users := us |> | None => s end
  end.

(** What the table promises: a bounded map from names to keys. *)
Definition name_ok (name : list Z) : bool := negb (bool_decide (name = [])) && (blen name <? 64) && negb (existsb bad_name_char name).

Definition user_map_do (m : gmap (list Z) (list Z)) (op : user_op) : gmap (list Z) (list Z) :=
  match op with
  | UAdd name key =>
      if name_ok name && negb (bool_decide (key = [])) && (bool_decide (is_Some (m !! name)) || (Z.of_nat (size m) <? MQVPN_MAX_USERS)) then <[name := take 255 key]> m
      else m
  | URemove name => delete name m
  end.

Definition user_op_ok (op : user_op) : Prop := match op with UAdd name key => bytes_ok name /\ bytes_ok key | URemove name => bytes_ok name end.

Definition user_map (s : svr_auth_config) : gmap (list Z) (list Z) := list_to_map (users s).

Lemma set_user_spec us name key : NoDup us.*1 ->
  match set_user us name key with
  | Some us' => name ∈ us.*1 /\ us'.*1 = us.*1 /\ (list_to_map us' : gmap _ _) = <[name := snprintf_cap 256 key]> (list_to_map us) /\
      forall u, u ∈ us' -> u ∈ us \/ u = (name, snprintf_cap 256 key)
  | None => name ∉ us.*1
  end.
Proof.
  induction us as [|[n k] us IH]; [by intros _ ?%elem_of_nil|]. cbn [set_user fst fmap list_fmap]. intros [Hn Hnd]%NoDup_cons. case_bool_decide as E.
  - subst n. cbn [fmap list_fmap fst list_to_map foldr]. split_and!; [by left|done|by rewrite insert_insert_eq|]. intros u [-> |Hu]%elem_of_cons; [by right|left; by right].
  - specialize (IH Hnd). destruct (set_user us name key) as [us'|]; cbn [fmap option_fmap option_map list_fmap fst].
    + destruct IH as (H1 & H2 & H3 & H4). split_and!; [by right|by rewrite H2|cbn; rewrite H3; by apply insert_insert_ne|]. intros u [-> |Hu]%elem_of_cons; [left; by left|]. destruct (H4 u Hu); [left; by right|by right].
    + intros [?|?]%elem_of_cons; done.
Qed.

Lemma drop_user_spec us name : NoDup us.*1 ->
  match drop_user us name with
  | Some us' => (list_to_map us' : gmap _ _) = delete name (list_to_map us) /\ (length us' < length us)%nat /\ NoDup us'.*1 /\ forall u, u ∈ us' -> u ∈ us
  | None => (list_to_map us : gmap (list Z) (list Z)) = delete name (list_to_map us)
  end.
Proof.
  induction us as [|[n k] us IH]; [intros _; cbn; by rewrite delete_empty|]. cbn [drop_user fst fmap list_fmap]. intros [Hn Hnd]%NoDup_cons. case_bool_decide as E.
  - subst n. cbn. split_and!; [|lia|done|by right]. rewrite delete_insert_id; [done|]. by apply not_elem_of_list_to_map_1.
  - specialize (IH Hnd). destruct (drop_user us name) as [us'|]; cbn [fmap option_fmap option_map list_to_map foldr fst snd].
    + destruct IH as (H1 & H2 & H3 & H4). split_and!.
      * rewrite H1. by rewrite delete_insert_ne.
      * cbn. lia.
      * cbn. apply NoDup_cons. split; [|done]. intros Hin. apply Hn. apply list_elem_of_fmap in Hin as (u & -> & Hu). apply list_elem_of_fmap. exists u. auto.
      * intros u [-> |Hu]%elem_of_cons; [by left|right; auto].
    + rewrite delete_insert_ne by done. by rewrite <- IH.
Qed.

Lemma users_lookup s name key : auth_wf s -> user_map s !! name = Some key <-> (name, key) ∈ users s.
Proof. intros H. unfold user_map. split; [apply elem_of_list_to_map_2|apply elem_of_list_to_map_1, H]. Qed.

Lemma user_map_size s : auth_wf s -> size (user_map s) = length (users s).
Proof. intros H. unfold user_map. rewrite <- (length_map_to_list (list_to_map (users s))). by rewrite map_to_list_to_map by apply H. Qed.

Lemma snprintf_ok cap s : bytes_ok s -> bytes_ok (snprintf_cap cap s).
Proof. apply Forall_take. Qed.

Lemma user_do_refines s op : auth_wf s -> user_op_ok op -> auth_wf (user_do s op) /\ user_map (user_do s op) = user_map_do (user_map s) op /\ auth_key (user_do s op) = auth_key s.
Proof.
  intros Hs Ho. pose proof Hs as [Hk Hu Hn Hc]. destruct op as [name key|name]; cbn [user_do user_map_do].
  - destruct Ho as [Hbn Hbk]. unfold mqvpn_server_add_user, name_ok. case_bool_decide as E1; cbn [orb negb andb]; [done|]. case_bool_decide as E2; cbn [orb negb]; [by rewrite andb_false_r|].
    destruct (Z.leb_spec 64 (blen name)) as [E3|E3]; [by rewrite (proj2 (Z.ltb_ge (blen name) 64)) by done|]. rewrite (proj2 (Z.ltb_lt (blen name) 64)) by done.
    destruct (existsb bad_name_char name); cbn [negb andb]; [done|]. assert (Hkey : snprintf_cap 256 key <> [] /\ bytes_ok (snprintf_cap 256 key) /\ blen (snprintf_cap 256 key) <= 255).
    { split_and!; [by destruct key|by apply snprintf_ok|]. unfold snprintf_cap, blen. rewrite length_take. lia. }
    assert (Hname : snprintf_cap 64 name = name) by (unfold snprintf_cap; apply take_ge; unfold blen in E3; lia). destruct Hkey as (K1 & K2 & K3).
    assert (Hrow : (fun u : list Z * list Z => bytes_ok u.1 /\ bytes_ok u.2 /\ u.1 <> [] /\ u.2 <> [] /\ blen u.1 <= 63 /\ blen u.2 <= 255) (name, snprintf_cap 256 key)) by (cbn; split_and!; done || lia).
    pose proof (set_user_spec (users s) name key Hn) as Hset. destruct (set_user (users s) name key) as [us'|]; cbn [snd].
    + destruct Hset as (H1 & H2 & H3 & H4). rewrite bool_decide_eq_true_2; cbn [orb].
      * split_and!; [|exact H3|done]. split; cbn [users auth_key update]; [done| |by rewrite H2|]; [|by rewrite <- (length_fmap fst us'), H2, length_fmap].
        apply Forall_forall. intros u Hin. rewrite Forall_forall in Hu. destruct (H4 u Hin) as [?| -> ]; [by apply Hu|exact Hrow].
      * apply list_elem_of_fmap in H1 as ([n k] & -> & Hin). exists k. by apply users_lookup.
    + assert (Hfree : user_map s !! name = None) by (unfold user_map; by apply not_elem_of_list_to_map_1). rewrite bool_decide_eq_false_2 by (rewrite Hfree; by intros [? ?]). cbn [orb]. rewrite user_map_size by done.
      destruct (Z.leb_spec MQVPN_MAX_USERS (Z.of_nat (length (users s)))) as [Hfull|Hroom]; [by rewrite (proj2 (Z.ltb_ge _ MQVPN_MAX_USERS)) by done|].
      rewrite (proj2 (Z.ltb_lt _ MQVPN_MAX_USERS)) by done. cbn [snd]. rewrite Hname.
      assert (Hnd : NoDup (users s ++ [(name, snprintf_cap 256 key)]).*1).
      { rewrite fmap_app. apply NoDup_app. split_and!; [done| |apply NoDup_singleton]. intros x Hx ->%list_elem_of_singleton. done. }
      split_and!; [|unfold user_map; cbn [users update]|done].
      * split; cbn [users auth_key update]; [done| |done|rewrite length_app; cbn [length]; lia]. apply Forall_app. split; [done|]. apply Forall_cons. split; [exact Hrow|apply Forall_nil_2].
      * rewrite (list_to_map_proper (M:=gmap (list Z)) (users s ++ [(name, snprintf_cap 256 key)]) ((name, snprintf_cap 256 key) :: users s)); [done|done|]. by rewrite Permutation_app_comm.
  - case_bool_decide as E1.
    + subst name. split_and!; try done. rewrite delete_id; [done|]. apply eq_None_not_Some. intros [k Hin]. apply users_lookup in Hin; [|done]. rewrite Forall_forall in Hu. destruct (Hu _ Hin) as (_ & _ & H3 & _). done.
    + pose proof (drop_user_spec (users s) name Hn) as Hd. destruct (drop_user (users s) name) as [us'|]; [|split_and!; done]. destruct Hd as (H1 & H2 & H3 & H4). split_and!; [|exact H1|done].
      split; cbn [users auth_key update]; [done| |done|lia]. apply Forall_forall. intros u Hin. rewrite Forall_forall in Hu. by apply Hu, H4.
Qed.

(** C29: the credentials.  However the table of users was changed, it is the map
    from names to keys that the calls describe, and a request is let in exactly
    when its token is the global key or the present key of a user, under the
    name "(global)" in the first case and of such a user in the second.  A
    request without a token is refused. *)
Theorem auth_refines_map s0 ops s tok : auth_wf s0 -> Forall user_op_ok ops -> fold_left user_do ops s0 = s -> bytes_ok tok ->
  let m := fold_left user_map_do ops (user_map s0) in
  user_map s = m /\ Z.of_nat (size m) <= MQVPN_MAX_USERS /\ svr_auth_check s None 64 = None /\
  (is_Some (svr_auth_check s (Some tok) 64) <-> (auth_key s0 <> [] /\ tok = auth_key s0) \/ exists name, m !! name = Some tok) /\
  forall name, svr_auth_check s (Some tok) 64 = Some name -> if decide (auth_key s0 <> [] /\ tok = auth_key s0) then name = global_user else m !! name = Some tok.
Proof.
  intros H0 Hops Hs Ht. cbv zeta. assert (Hrun : auth_wf s /\ user_map s = fold_left user_map_do ops (user_map s0) /\ auth_key s = auth_key s0).
  { revert s0 H0 Hs. induction Hops as [|op ops Hop _ IH]; intros s0 H0 Hs; cbn in Hs |- *; [by subst s|]. destruct (user_do_refines s0 op H0 Hop) as (H1 & H2 & H3).
    destruct (IH (user_do s0 op) H1 Hs) as (E1 & E2 & E3). rewrite E2, H2, E3. done. }
  destruct Hrun as (Hw & <- & <-). pose proof (auth_check_ok s tok Hw Ht) as Hc. split_and!; [done|rewrite user_map_size by done; apply Hw|done| |].
  - destruct (svr_auth_check s (Some tok) 64) as [name|].
    + split; [intros _|by eexists]. destruct Hc as [(H1 & H2 & _)|(_ & Hin)]; [by left|right; exists name; by apply users_lookup].
    + split; [by intros [? ?]|]. intros [[H1 H2]|(name & Hm)]; exfalso; [by apply (Hc global_user); left|]. apply users_lookup in Hm; [|done].
      destruct (decide (auth_key s <> [] /\ tok = auth_key s)) as [[H1 H2]|Hd]; [by apply (Hc global_user); left|]. apply (Hc name). right. split; [|done]. destruct (decide (auth_key s = [])); [by left|right; tauto].
  - intros name E. rewrite E in Hc. case_decide as Hd; destruct Hc as [(H1 & H2 & H3)|(H1 & H2)]; [done|tauto|tauto|by apply users_lookup].
Qed.

(** Two users, one of whom gets a new key and one of whom leaves. *)
Definition demo_auth : svr_auth_config := SvrAuth (text "psk") [].
Definition demo_user_ops : list user_op :=
  [UAdd (text "ann") (text "k1"); UAdd (text "bob") (text "k2"); UAdd (text "ann") (text "k3"); URemove (text "bob"); UAdd [34] (text "k4")].

Lemma text_bytes s : bytes_ok (text s).
Proof.
  apply Forall_forall. intros x Hx. unfold text in Hx. apply list_elem_of_In, in_map_iff in Hx as (a & <- & _). unfold is_byte. pose proof (Ascii.nat_ascii_bounded a). lia.
Qed.

Lemma auth_refines_map_witness :
  let m := fold_left user_map_do demo_user_ops (user_map demo_auth) in
  let s := fold_left user_do demo_user_ops demo_auth in
  user_map s = m /\ Z.of_nat (size m) <= MQVPN_MAX_USERS /\ svr_auth_check s None 64 = None /\
  (is_Some (svr_auth_check s (Some (text "k3")) 64) <-> (auth_key demo_auth <> [] /\ text "k3" = auth_key demo_auth) \/ exists name, m !! name = Some (text "k3")) /\
  forall name, svr_auth_check s (Some (text "k3")) 64 = Some name ->
    if decide (auth_key demo_auth <> [] /\ text "k3" = auth_key demo_auth) then name = global_user else m !! name = Some (text "k3").
Proof.
  refine (auth_refines_map demo_auth demo_user_ops (fold_left user_do demo_user_ops demo_auth) (text "k3") _ _ eq_refl (text_bytes _)).
  - split; [apply text_bytes|apply Forall_nil_2|apply NoDup_nil_2|cbn; unfold MQVPN_MAX_USERS; lia].
  - assert (Hq : bytes_ok [34]) by (repeat constructor; unfold is_byte; lia). pose proof text_bytes as Ht.
    assert (Hadd : forall n k, user_op_ok (UAdd (text n) (text k))) by (intros n k; split; apply Ht). assert (Hrem : user_op_ok (URemove (text "bob"))) by apply Ht.
    assert (Hbad : user_op_ok (UAdd [34] (text "k4"))) by (split; [exact Hq|apply Ht]). clear Hq Ht. unfold demo_user_ops.
    do 5 (apply Forall_cons; split; [solve [apply Hadd | exact Hrem | exact Hbad]|]). apply Forall_nil_2.
Defined.

Example demo_auth_check :
  (fun t => svr_auth_check (fold_left user_do demo_user_ops demo_auth) (Some (text t)) 64) <$> ["k3"; "k2"; "psk"; "k1"]%string = [Some (text "ann"); None; Some global_user; None].
Proof. vm_compute. reflexivity. Qed.

(** ** Base64 *)

(** The value of a character of the alphabet, by its position. *)
Definition b64_value (c : Z) : option Z := (fun r => Z.of_nat r.1) <$> list_find (fun x => x = c) b64_table.

(** A decoder after RFC 4648, for padded text. *)
Fixpoint b64_decode (s : list Z) : option (list Z) :=
  match s with
  | [] => Some []
  | a :: b :: c :: d :: s =>
      va ← b64_value a; vb ← b64_value b;
      if (d =? 61) && (c =? 61) then Some [va * 4 + vb / 16]
      else
        vc ← b64_value c;
        if d =? 61 then Some [va * 4 + vb / 16; vb mod 16 * 16 + vc / 4]
        else vd ← b64_value d; rest ← b64_decode s; Some (va * 4 + vb / 16 :: vb mod 16 * 16 + vc / 4 :: vc mod 4 * 64 + vd :: rest)
  | _ => None
  end.

Lemma b64_char_ok v s : 0 <= s -> 0 <= v -> exists c, b64_char v s = Some c /\ b64_value c = Some (v / 2 ^ s mod 64) /\ c <> 61.
Proof.
  intros Hs Hv. unfold b64_char. rewrite Z.shiftr_div_pow2 by lia. change 63 with (2 ^ 6 - 1). rewrite land_ones_mod by lia. change (2 ^ 6) with 64. set (i := v / 2 ^ s mod 64).
  assert (Hi : 0 <= i < 64) by (apply Z.mod_pos_bound; lia). clearbody i. clear -Hi.
  assert (Hall : forallb (fun n => match b64_table !! n with Some c => bool_decide (b64_value c = Some (Z.of_nat n)) && negb (c =? 61) | None => false end) (seq 0 64) = true) by (vm_compute; reflexivity).
  rewrite forallb_forall in Hall. specialize (Hall (Z.to_nat i) ltac:(apply in_seq; lia)). destruct (b64_table !! Z.to_nat i) as [c|]; [|done]. apply andb_true_iff in Hall as [H1%bool_decide_eq_true H2]. exists c. rewrite H1. split_and!; [done|f_equal; lia|].
  by apply negb_true_iff, Z.eqb_neq in H2.
Qed.

Lemma triple_eq x y z : is_byte x -> is_byte y -> is_byte z -> u32 (Z.lor (Z.lor (Z.shiftl x 16) (Z.shiftl y 8)) z) = x * 65536 + y * 256 + z.
Proof.
  intros Hx Hy Hz. unfold is_byte in *. rewrite <- Z.lor_assoc. rewrite (lor_shift_add y z 8) by lia. rewrite (lor_shift_add x _ 16) by lia. change (2 ^ 16) with 65536. change (2 ^ 8) with 256. rewrite u32_small by lia. lia.
Qed.

(** Three bytes as four digits of six bits. *)
Lemma sextets x y z : is_byte x -> is_byte y -> is_byte z -> let t := x * 65536 + y * 256 + z in
  t / 262144 mod 64 * 4 + t / 4096 mod 64 / 16 = x /\ t / 4096 mod 64 mod 16 * 16 + t / 64 mod 64 / 4 = y /\ t / 64 mod 64 mod 4 * 64 + t / 1 mod 64 = z.
Proof.
  intros Hx Hy Hz t. unfold is_byte in *. pose proof (Z.div_mod x 4 ltac:(lia)) as X. pose proof (Z.mod_pos_bound x 4 ltac:(lia)). pose proof (Z.div_mod y 16 ltac:(lia)) as Y. pose proof (Z.mod_pos_bound y 16 ltac:(lia)).
  pose proof (Z.div_mod z 64 ltac:(lia)) as U. pose proof (Z.mod_pos_bound z 64 ltac:(lia)). set (x1 := x / 4) in *. set (x0 := x mod 4) in *. set (y1 := y / 16) in *. set (y0 := y mod 16) in *. set (z1 := z / 64) in *. set (z0 := z mod 64) in *.
  assert (E1 : t / 262144 = x1) by (symmetry; apply (Z.div_unique_pos _ _ _ (x0 * 65536 + y * 256 + z)); lia).
  assert (E2 : t / 4096 = x1 * 64 + (x0 * 16 + y1)) by (symmetry; apply (Z.div_unique_pos _ _ _ (y0 * 256 + z)); lia).
  assert (E3 : t / 64 = (x * 16 + y1) * 64 + (y0 * 4 + z1)) by (symmetry; apply (Z.div_unique_pos _ _ _ z0); lia).
  assert (M : forall a b, 0 <= b < 64 -> (a * 64 + b) mod 64 = b) by (intros a b Hb; rewrite Z.add_comm, Z.mod_add, Z.mod_small by lia; done).
  assert (E4 : t mod 64 = z0) by (unfold t; replace (x * 65536 + y * 256 + z) with ((x * 1024 + y * 4 + z1) * 64 + z0) by lia; apply M; lia).
  rewrite E1, E2, E3, Z.div_1_r, E4, !M by lia. rewrite (Z.mod_small x1) by lia.
  assert (D : forall a b n, 0 < n -> 0 <= b < n -> (a * n + b) / n = a /\ (a * n + b) mod n = b) by (intros a b n Hn Hb; split; [symmetry; apply (Z.div_unique_pos _ _ _ b); lia|symmetry; apply (Z.mod_unique_pos _ _ a); lia]).
  destruct (D x0 y1 16 ltac:(lia) ltac:(lia)) as [-> ->]. destruct (D y0 z1 4 ltac:(lia) ltac:(lia)) as [-> ->]. lia.
Qed.

Lemma b64_loop_decode n src : (length src <= n)%nat -> bytes_ok src -> exists out, b64_loop src = Some out /\ b64_decode out = Some src /\ blen out = (blen src + 2) / 3 * 4.
Proof.
  revert src. induction n as [|n IH]; intros src Hn Hb; [destruct src; [by exists []|cbn in Hn; lia]|]. destruct src as [|x [|y [|z src]]]; [by exists []|..].
  - apply Forall_cons in Hb as [Hx _]. cbn [b64_loop]. unfold is_byte in Hx. rewrite Z.shiftl_mul_pow2, u32_small by lia. change (2 ^ 16) with 65536.
    destruct (b64_char_ok (x * 65536) 18) as (a & -> & Ha & _); [lia|lia|]. destruct (b64_char_ok (x * 65536) 12) as (b & -> & Hb' & _); [lia|lia|]. cbn [mbind option_bind]. eexists. split; [done|]. cbn [b64_decode]. rewrite Ha, Hb'. change (61 =? 61) with true.
    cbn [andb mbind option_bind]. change (2 ^ 18) with 262144. change (2 ^ 12) with 4096. split; [|done]. do 2 f_equal.
    destruct (sextets x 0 0) as (H1 & _); [done|unfold is_byte; lia|unfold is_byte; lia|]. cbv zeta in H1. by rewrite !Z.add_0_r in H1.
  - apply Forall_cons in Hb as [Hx [Hy _]%Forall_cons]. cbn [b64_loop]. unfold is_byte in Hx, Hy. rewrite (Z.shiftl_mul_pow2 y) by lia. rewrite lor_shift_add by lia. change (2 ^ 16) with 65536. change (2 ^ 8) with 256. rewrite u32_small by lia. set (t := x * 65536 + y * 256).
    destruct (b64_char_ok t 18) as (a & -> & Ha & _); [lia|lia|]. destruct (b64_char_ok t 12) as (b & -> & Hb' & _); [lia|lia|]. destruct (b64_char_ok t 6) as (c & -> & Hc & Nc); [lia|lia|].
    cbn [mbind option_bind]. eexists. split; [done|]. cbn [b64_decode]. rewrite Ha, Hb'. cbn [mbind option_bind]. rewrite (proj2 (Z.eqb_neq c 61)) by done. rewrite Hc. change (61 =? 61) with true. cbn [andb mbind option_bind].
    change (2 ^ 18) with 262144. change (2 ^ 12) with 4096. change (2 ^ 6) with 64. split; [|done].
    destruct (sextets x y 0) as (H1 & H2 & _); [done|done|unfold is_byte; lia|]. cbv zeta in H1, H2. rewrite Z.add_0_r in H1, H2. fold t in H1, H2. by rewrite H1, H2.
  - apply Forall_cons in Hb as [Hx [Hy [Hz Hb]%Forall_cons]%Forall_cons]. cbn [length] in Hn. destruct (IH src ltac:(lia) Hb) as (out & Eo & Ed & El). cbn [b64_loop]. rewrite triple_eq by done. unfold is_byte in Hx, Hy, Hz. set (t := x * 65536 + y * 256 + z).
    destruct (b64_char_ok t 18) as (a & -> & Ha & _); [lia|lia|]. destruct (b64_char_ok t 12) as (b & -> & Hb' & _); [lia|lia|]. destruct (b64_char_ok t 6) as (c & -> & Hc & Nc); [lia|lia|]. destruct (b64_char_ok t 0) as (d & -> & Hd & Nd); [lia|lia|].
    rewrite Eo. cbn [mbind option_bind]. eexists. split; [done|]. cbn [b64_decode]. rewrite Ha, Hb'. cbn [mbind option_bind]. rewrite (proj2 (Z.eqb_neq d 61)) by done. rewrite Hc, Hd, Ed. cbn [andb mbind option_bind].
    change (2 ^ 18) with 262144. change (2 ^ 12) with 4096. change (2 ^ 6) with 64. change (2 ^ 0) with 1. split.
    + destruct (sextets x y z Hx Hy Hz) as (H1 & H2 & H3). fold t in H1, H2, H3. cbv zeta in H1, H2, H3. by rewrite H1, H2, H3.
    + unfold blen in *. cbn [length]. replace (Z.of_nat (S (S (S (length src)))) + 2) with (Z.of_nat (length src) + 2 + 1 * 3) by lia. rewrite Z.div_add by lia. lia.
Qed.

(** The Base64 text of a generated key decodes to the key, has the length
    its callers reckon with, and is refused exactly when the buffer has no room
    for it and its terminator. *)
Theorem b64_roundtrip dst_len src : bytes_ok src ->
  mqvpn_auth_b64_encode dst_len src = Some None /\ dst_len < (blen src + 2) / 3 * 4 + 1 \/
  exists out, mqvpn_auth_b64_encode dst_len src = Some (Some out) /\ b64_decode out = Some src /\ blen out = (blen src + 2) / 3 * 4 /\ blen out < dst_len.
Proof.
  intros Hb. unfold mqvpn_auth_b64_encode. destruct (Z.ltb_spec dst_len ((blen src + 2) / 3 * 4 + 1)) as [Hl|Hl]; [by left|]. right.
  destruct (b64_loop_decode (length src) src ltac:(lia) Hb) as (out & -> & Ed & El). exists out. cbn [mbind option_bind]. split_and!; try done. lia.
Qed.

Lemma b64_roundtrip_witness : mqvpn_auth_b64_encode 45 (text "0123456789abcdef0123456789abcdef") = Some None /\ 45 < (blen (text "0123456789abcdef0123456789abcdef") + 2) / 3 * 4 + 1 \/
  exists out, mqvpn_auth_b64_encode 45 (text "0123456789abcdef0123456789abcdef") = Some (Some out) /\ b64_decode out = Some (text "0123456789abcdef0123456789abcdef") /\
    blen out = (blen (text "0123456789abcdef0123456789abcdef") + 2) / 3 * 4 /\ blen out < 45.
Proof. refine (b64_roundtrip 45 (text "0123456789abcdef0123456789abcdef") (text_bytes _)). Defined.
