(* ===== verification/ServerConn.v ===== *)
(** * The server's connections and sessions ([src/mqvpn_server.c])

    Accepting connections, the CONNECT-IP request with its authentication,
    scheduler negotiation and address assignment, the session table, and the
    ways a tunnel ends.  A pointer to a connection is the transport scope the
    connection was given, which is never given again; the live connections are
    the map [conns], so that using a freed one is a fault ([None]), as is an
    access outside the session table and an assertion that fails.  xquic, the
    clocks and the allocator are the record [server_env], asked with the number
    of the question.  The build is the one without the TCP egress and without
    the HTTP/2 proxy; log lines are left out. *)

From Stdlib Require Import String.
From S2P Require Import Prelude CString Wire ReorderRx ReorderTx Icmp Gate AddrPool Hybrid Client TunFrame StateOpt Auth.

#[local] Abbreviation length := List.length.
Open Scope list_scope.

(** ** Data *)

Record svr_conn_t := SvrConn {
  h3_conn : bool;
  masque_stream_id : Z;
  assigned_ip : Z;
  assigned_ip6 : list Z;
  conn_has_v6 : bool;
  tunnel_established : bool;
  dgram_mss : Z;
  dgram_lost_cnt : Z;
  dgram_acked_cnt : Z;
  dgram_dropped_cnt : Z;
  username : list Z;
  connected_at_us : Z;
  tx_scope : Z;
  reorder_tx : option mqvpn_reorder_tx_t;
  reorder_rx : option mqvpn_reorder_rx_t;
  peer_reorder_supported : bool;
  eff_sched : mqvpn_scheduler_t;
  sched_swapped : bool
}.

#[export] Instance eta_svr_conn : Settable svr_conn_t := fun r =>
  SvrConn (h3_conn r) (masque_stream_id r) (assigned_ip r) (assigned_ip6 r) (conn_has_v6 r) (tunnel_established r) (dgram_mss r) (dgram_lost_cnt r)
    (dgram_acked_cnt r) (dgram_dropped_cnt r) (username r) (connected_at_us r) (tx_scope r) (reorder_tx r) (reorder_rx r) (peer_reorder_supported r)
    (eff_sched r) (sched_swapped r).

Inductive svr_stream_role_t := SVR_STREAM_ROLE_UNKNOWN | SVR_STREAM_ROLE_CONNECT_IP.

#[export] Instance svr_stream_role_eq_dec : EqDecision svr_stream_role_t.
Proof. solve_decision. Defined.

Record svr_stream_t := SvrStream { role : svr_stream_role_t; header_sent : bool }.

#[export] Instance eta_svr_stream : Settable svr_stream_t := fun r => SvrStream (role r) (header_sent r).

(** The address of the client, the address and width of the subnet, the MTU and
    the IPv6 address with its width. *)
Record client_info_t := ClientInfo { ci_ip : Z; ci_server : Z * Z; ci_mtu : Z; ci_ip6 : option (list Z * Z) }.

Inductive capsule_t := CAPSULE_ADDRESS_ASSIGN | CAPSULE_ROUTE_ADVERTISEMENT.

(** What the server hands to its surroundings, in order. *)
Inductive svr_fx :=
| SxTun (pkt : list Z)
| SxDgram (conn : Z) (frame : list Z) (flow_hash : option Z) (ret : Z)
| SxHeaders (conn sid : Z) (hdrs : list (list Z * list Z)) (ret : Z)
| SxBody (conn sid : Z) (data : list Z) (ret : Z)
| SxConnected (off : Z) (info : client_info_t)
| SxDisconnected (off : Z)
| SxScopeReleased (scope : Z)
| SxConnClose (conn : Z).

(** The settings of the server the modelled operations read. *)
Record server_config := ServerConfig {
  sv_auth : svr_auth_config;
  sv_reorder : mqvpn_reorder_config_t;
  sv_allow_client_scheduler : bool;
  sv_scheduler : mqvpn_scheduler_t
}.

#[export] Instance eta_server_config : Settable server_config := fun r => ServerConfig (sv_auth r) (sv_reorder r) (sv_allow_client_scheduler r) (sv_scheduler r).

(** A stream is found by its connection and its id. *)
Record mqvpn_server_t := Server {
  sconfig : server_config;
  next_tx_scope : Z;
  pool : mqvpn_addr_pool_t;
  sessions : list (option Z);
  n_sessions : Z;
  max_clients : Z;
  tun_drop_cnt : Z;
  stun_mtu : Z;
  ptb_bucket : mqvpn_ptb_bucket_t;
  sbytes_rx : Z;
  dgram_sent : Z;
  dgram_recv : Z;
  dgram_lost : Z;
  dgram_acked : Z;
  conns : gmap Z svr_conn_t;
  streams : gmap (Z * Z) svr_stream_t;
  svr_calls : nat;
  svr_out : list svr_fx
}.

#[export] Instance eta_server : Settable mqvpn_server_t := fun r =>
  Server (sconfig r) (next_tx_scope r) (pool r) (sessions r) (n_sessions r) (max_clients r) (tun_drop_cnt r) (stun_mtu r) (ptb_bucket r) (sbytes_rx r)
    (dgram_sent r) (dgram_recv r) (dgram_lost r) (dgram_acked r) (conns r) (streams r) (svr_calls r) (svr_out r).

(** [mqvpn_server_new] with a pool that was created; [clients] is the setting. *)
Definition server_init (cfg : server_config) (p : mqvpn_addr_pool_t) (clients tun_mtu : Z) : mqvpn_server_t :=
  Server cfg 0 p (replicate 255 None) 0 (if 0 <? clients then clients else 64) 0 tun_mtu mqvpn_ptb_bucket_init 0 0 0 0 0 ∅ ∅ 0 [].

Record server_env := ServerEnv {
  v_now_us : nat -> Z;
  v_now_ms : nat -> Z;
  v_wall_us : nat -> Z;
  v_malloc : nat -> bool;
  v_engine_allocs : nat -> bool * bool * bool * bool;
  v_rx_allocs : nat -> allocs;
  v_send_headers : nat -> Z;
  v_send_body : nat -> Z;
  v_capsule_encode : Z -> capsule_t -> list Z -> option (list Z);
  v_reapply_ok : nat -> bool;
  v_masque_frame_udp : Z -> Z -> option (list Z);
  v_masque_frame_pkt : Z -> Z -> list Z -> option (list Z);
  v_masque_unframe_udp : list Z -> option (Z * list Z);
  v_masque_udp_mss : Z -> Z -> Z;
  v_datagram_send : nat -> Z -> list Z -> option Z -> Z;
  v_has_connected : bool;
  v_has_disconnected : bool;
  v_has_release_scope : bool;
  v_fec : bool;
  V_XQC_EAGAIN : Z
}.

Abbreviation V := (stM mqvpn_server_t).

Definition v_emit (x : svr_fx) : V unit := d_modify (fun s => s <| svr_out ::= fun l => l ++ [x] |>).
Definition v_ask {A} (f : nat -> A) : V A := fun s => Some (f (svr_calls s), s <| svr_calls ::= S |>).
Definition v_assert (b : bool) : V unit := if b then d_skip else fun _ => None.

(** Access to a connection by its pointer. *)
Definition get_conn (c : Z) : V svr_conn_t := s ← d_get; d_lift (conns s !! c).
Definition put_conn (c : Z) (k : svr_conn_t) : V unit := d_modify (fun s => s <| conns ::= <[c := k]> |>).
Definition modify_conn (c : Z) (f : svr_conn_t -> svr_conn_t) : V unit := k ← get_conn c; put_conn c (f k).

(** ** Request headers *)

Record svr_req_headers_t := ReqHeaders {
  is_connect : bool;
  is_connect_ip : bool;
  has_scheme_https : bool;
  has_capsule_proto : bool;
  has_valid_path : bool;
  auth_token : option (list Z);
  sched_hdr : option (list Z);
  has_reorder_hdr : bool
}.

#[export] Instance eta_req_headers : Settable svr_req_headers_t := fun r =>
  ReqHeaders (is_connect r) (is_connect_ip r) (has_scheme_https r) (has_capsule_proto r) (has_valid_path r) (auth_token r) (sched_hdr r) (has_reorder_hdr r).

Definition no_headers : svr_req_headers_t := ReqHeaders false false false false false None None false.

Definition MASQUE_IP_PATH : list Z := text "/.well-known/masque/ip/".

(** [h->value.iov_len >= 24 && memcmp (value, MASQUE_IP_PATH, 22) == 0]. *)
Definition masque_path_ok (v : list Z) : bool := (24 <=? blen v) && bool_decide (take 22 v = take 22 MASQUE_IP_PATH).

(** One round of the loop. *)
Definition parse_header (out : svr_req_headers_t) (h : list Z * list Z) : svr_req_headers_t :=
  let '(name, value) := h in
  let named n := bool_decide (name = text n) in
  let out := if named ":method"%string && bool_decide (value = text "CONNECT") then out <| is_connect := true |> else out in
  let out := if named ":protocol"%string && bool_decide (value = text "connect-ip") then out <| is_connect_ip := true |> else out in
  let out := if named ":scheme"%string && bool_decide (value = text "https") then out <| has_scheme_https := true |> else out in
  let out := if named ":path"%string && masque_path_ok value then out <| has_valid_path := true |> else out in
  let out := if named "capsule-protocol"%string && bool_decide (value = text "?1") then out <| has_capsule_proto := true |> else out in
  let out := if named "authorization"%string && (7 <? blen value) && bool_decide (take 7 value = text "Bearer ") then out <| auth_token := Some (drop 7 value) |> else out in
  let out := if bool_decide (name = MQVPN_SCHED_HDR_NAME) then out <| sched_hdr := Some value |> else out in
  if mqvpn_reorder_header_match name value then out <| has_reorder_hdr := true |> else out.

Definition svr_parse_request_headers (headers : list (list Z * list Z)) : svr_req_headers_t := fold_left parse_header headers no_headers.

(** ** Scheduler negotiation *)

Inductive mqvpn_sched_neg_t :=
| MQVPN_SCHED_NEG_NONE | MQVPN_SCHED_NEG_APPLY | MQVPN_SCHED_NEG_DISABLED | MQVPN_SCHED_NEG_INVALID | MQVPN_SCHED_NEG_BACKUP_FEC
| MQVPN_SCHED_NEG_SERVER_BACKUP_FEC | MQVPN_SCHED_NEG_ALREADY_SET.

(** [requested] is [None] for -1. *)
Definition mqvpn_sched_negotiate (allow : bool) (server_default : mqvpn_scheduler_t) (has_request : bool) (requested : option mqvpn_scheduler_t)
    (already_swapped : bool) : mqvpn_sched_neg_t :=
  if negb has_request then MQVPN_SCHED_NEG_NONE
  else if negb allow then MQVPN_SCHED_NEG_DISABLED
  else
    match requested with
    | None => MQVPN_SCHED_NEG_INVALID
    | Some r =>
        if bool_decide (r = MQVPN_SCHED_BACKUP_FEC) then MQVPN_SCHED_NEG_BACKUP_FEC
        else if bool_decide (server_default = MQVPN_SCHED_BACKUP_FEC) then MQVPN_SCHED_NEG_SERVER_BACKUP_FEC
        else if already_swapped then MQVPN_SCHED_NEG_ALREADY_SET
        else MQVPN_SCHED_NEG_APPLY
    end.

(** [fec]: the build has FEC. *)
Definition mqvpn_sched_effective (fec : bool) (s : mqvpn_scheduler_t) : mqvpn_scheduler_t :=
  if fec then s else if bool_decide (s = MQVPN_SCHED_BACKUP_FEC) then MQVPN_SCHED_MINRTT else s.

Section ops.
Context (E : server_env).

Definition svr_negotiate_scheduler (c : Z) (hdrs : svr_req_headers_t) : V unit :=
  s ← d_get;
  k ← get_conn c;
  let requested := h ← sched_hdr hdrs; mqvpn_sched_from_name_n h in
  match mqvpn_sched_negotiate (sv_allow_client_scheduler (sconfig s)) (mqvpn_sched_effective (v_fec E) (sv_scheduler (sconfig s)))
          (bool_decide (is_Some (sched_hdr hdrs))) requested (sched_swapped k), requested with
  | MQVPN_SCHED_NEG_APPLY, Some r =>
      ok ← v_ask (v_reapply_ok E);
      if (ok : bool) then put_conn c (k <| eff_sched := r |> <| sched_swapped := true |>) else d_skip
  | _, _ => d_skip
  end.

(** ** Connections *)

Definition new_svr_conn (sched : mqvpn_scheduler_t) (scope : Z) : svr_conn_t :=
  SvrConn false 0 0 (replicate 16 0) false false 0 0 0 0 [] 0 scope None None false sched false.

(** [None] when the connection is refused. *)
Definition cb_accept : V (option Z) :=
  ok ← v_ask (v_malloc E);
  if negb ok then mret None
  else
    s ← d_get;
    if next_tx_scope s =? 2 ^ 64 - 1 then mret None
    else
      let scope := next_tx_scope s + 1 in
      d_modify (fun s => s <| next_tx_scope := scope |>
        <| conns ::= <[scope := new_svr_conn (mqvpn_sched_effective (v_fec E) (sv_scheduler (sconfig s))) scope]> |>) ;;
      mret (Some scope).

Definition svr_conn_reorder_engines_init (c : Z) : V unit :=
  s ← d_get;
  k ← get_conn c;
  let cfg := sv_reorder (sconfig s) in
  if bool_decide (mode cfg = MQVPN_REORDER_OFF) then d_skip
  else if bool_decide (is_Some (reorder_tx k)) || bool_decide (is_Some (reorder_rx k)) then d_skip
  else
    seed_base ← v_ask (v_now_us E);
    '(ok_tx, ok_txb, ok_rx, ok_rxb) ← v_ask (v_engine_allocs E);
    match mqvpn_reorder_tx_new ok_tx ok_txb (Some cfg) seed_base, mqvpn_reorder_rx_new ok_rx ok_rxb (Some cfg) (Z.lxor seed_base 2654435769) true with
    | Some tx, Some rx => put_conn c (k <| reorder_tx := Some tx |> <| reorder_rx := Some rx |>)
    | _, _ => d_skip
    end.

Definition cb_h3_conn_create (c : Z) : V unit :=
  modify_conn c (fun k => k <| h3_conn := true |>) ;;
  svr_conn_reorder_engines_init c.

Definition svr_conn_free (c : Z) : V unit :=
  k ← get_conn c;
  (if negb (tx_scope k =? 0) && v_has_release_scope E then v_emit (SxScopeReleased (tx_scope k)) else d_skip) ;;
  d_modify (fun s => s <| conns ::= delete c |>).

Definition cb_refuse (c : Z) : V unit := svr_conn_free c.

(** The loop of the check, from offset [off] on: the sessions counted. *)
Fixpoint check_slots (n : nat) (off : Z) (s : mqvpn_server_t) (counted : Z) : option Z :=
  match n with
  | O => Some counted
  | S n =>
      slot ← sessions s !! Z.to_nat off;
      match slot with
      | None => check_slots n (off + 1) s counted
      | Some c =>
          k ← conns s !! c;
          if negb (assigned_ip k =? 0) && (u32 (assigned_ip k - base (pool s)) =? off) then check_slots n (off + 1) s (counted + 1) else None
      end
  end.

Definition svr_check_session_invariants : V unit :=
  s ← d_get;
  counted ← d_lift (check_slots (Z.to_nat MQVPN_ADDR_POOL_MAX) 1 s 0);
  v_assert ((counted =? n_sessions s) && (0 <=? n_sessions s) && (n_sessions s <=? max_clients s)).

Definition svr_session_release (c : Z) : V unit :=
  k ← get_conn c;
  if assigned_ip k =? 0 then d_skip
  else
    s ← d_get;
    let offset := u32 (assigned_ip k - base (pool s)) in
    (if (0 <? offset) && (offset <=? MQVPN_ADDR_POOL_MAX) then
       slot ← d_lift (sessions s !! Z.to_nat offset);
       if bool_decide (slot = Some c) then
         d_modify (fun s => s <| sessions ::= <[Z.to_nat offset := None]> |> <| n_sessions ::= fun n => n - 1 |>) ;;
         if v_has_disconnected E then v_emit (SxDisconnected offset) else d_skip
       else d_skip
     else d_skip) ;;
    p ← d_lift (mqvpn_addr_pool_release (pool s) (assigned_ip k));
    d_modify (fun s => s <| pool := p |>) ;;
    modify_conn c (fun k => k <| assigned_ip := 0 |> <| conn_has_v6 := false |> <| assigned_ip6 := replicate 16 0 |> <| masque_stream_id := 0 |>
      <| tunnel_established := false |> <| peer_reorder_supported := false |> <| reorder_tx := None |> <| reorder_rx := None |>) ;;
    svr_check_session_invariants.

Definition cb_h3_conn_close (c : Z) : V unit := svr_session_release c ;; svr_conn_free c.

(** ** The CONNECT-IP request *)

Definition status_hdr (v : string) : list Z * list Z := (STATUS_HDR_NAME, text v).

(** The canned answers: the return value is not used. *)
Definition svr_masque_send_403 (c sid : Z) : V unit := r ← v_ask (v_send_headers E); v_emit (SxHeaders c sid [status_hdr "403"] r).
Definition svr_masque_send_409 (c sid : Z) : V unit := r ← v_ask (v_send_headers E); v_emit (SxHeaders c sid [status_hdr "409"] r).
Definition svr_masque_send_501 (c sid : Z) : V unit := r ← v_ask (v_send_headers E); v_emit (SxHeaders c sid [status_hdr "501"] r).

(** A capsule encoded into [cap] bytes and sent; [false] for a failure. *)
Definition send_capsule (c sid cap : Z) (type : capsule_t) (payload : list Z) : V bool :=
  match v_capsule_encode E cap type payload with
  | None => mret false
  | Some data => r ← v_ask (v_send_body E); v_emit (SxBody c sid data r) ;; mret (0 <=? r)
  end.

(** The label [fail_release_ip]. *)
Definition fail_release_ip (c : Z) : V bool :=
  s ← d_get;
  k ← get_conn c;
  p ← d_lift (mqvpn_addr_pool_release (pool s) (assigned_ip k));
  d_modify (fun s => s <| pool := p |>) ;;
  modify_conn c (fun k => k <| assigned_ip := 0 |> <| conn_has_v6 := false |> <| assigned_ip6 := replicate 16 0 |> <| masque_stream_id := 0 |>) ;;
  mret false.

(** The reorder shim is in use on this tunnel. *)
Definition shim_agreed (s : mqvpn_server_t) (k : svr_conn_t) : bool :=
  mqvpn_reorder_should_advertise (mode (sv_reorder (sconfig s))) (bool_decide (is_Some (reorder_rx k))) && peer_reorder_supported k.

Definition response_headers (s : mqvpn_server_t) (k : svr_conn_t) : list (list Z * list Z) :=
  [status_hdr "200"; (text "capsule-protocol", text "?1")] ++
  (if shim_agreed s k then [(MQVPN_REORDER_HDR_NAME, MQVPN_REORDER_HDR_VALUE)] else []) ++
  [(MQVPN_SCHED_HDR_NAME, mqvpn_sched_to_name (eff_sched k))].

Definition client_mtu (s : mqvpn_server_t) (k : svr_conn_t) : Z :=
  let udp_mss := v_masque_udp_mss E (dgram_mss k) (masque_stream_id k) in
  let mtu := if (0 <? dgram_mss k) && (68 <=? udp_mss) then s32 udp_mss else IPV6_MIN_MTU in
  let mtu := if (0 <? stun_mtu s) && (stun_mtu s <? mtu) then stun_mtu s else mtu in
  if shim_agreed s k then
    let mtu := mtu - MQVPN_REORDER_HDR_LEN in if conn_has_v6 k && (mtu <? IPV6_MIN_MTU) then IPV6_MIN_MTU else mtu
  else mtu.

(** The capsules of both families, in order; [false] after a failure. *)
Definition send_assignments (c sid : Z) : V bool :=
  s ← d_get;
  k ← get_conn c;
  ok ← send_capsule c sid 128 CAPSULE_ADDRESS_ASSIGN ([0; 4] ++ be32_list (assigned_ip k) ++ [32]);
  if negb ok then mret false
  else
    ok ← (if has_v6 (pool s) then
            let v6 := mqvpn_addr_pool_get6 (pool s) (u32 (assigned_ip k - base (pool s))) in
            ok ← send_capsule c sid 64 CAPSULE_ADDRESS_ASSIGN ([0; 6] ++ v6 ++ [128]);
            if (ok : bool) then modify_conn c (fun k => k <| assigned_ip6 := v6 |> <| conn_has_v6 := true |>) ;; mret true else mret false
          else mret true);
    if negb ok then mret false
    else
      ok ← send_capsule c sid 64 CAPSULE_ROUTE_ADVERTISEMENT ([4; 0; 0; 0; 0; 255; 255; 255; 255; 0]);
      if negb ok then mret false
      else
        k ← get_conn c;
        if conn_has_v6 k then send_capsule c sid 80 CAPSULE_ROUTE_ADVERTISEMENT ([6] ++ replicate 16 0 ++ replicate 16 255 ++ [0]) else mret true.

(** The tunnel is up: the session is registered and the platform told. *)
Definition register_session (c : Z) : V unit :=
  modify_conn c (fun k => k <| tunnel_established := true |>) ;;
  s ← d_get;
  k ← get_conn c;
  let ip_off := u32 (assigned_ip k - base (pool s)) in
  (if (0 <? ip_off) && (ip_off <=? MQVPN_ADDR_POOL_MAX) then
     _ ← d_lift (sessions s !! Z.to_nat ip_off);
     d_modify (fun s => s <| sessions ::= <[Z.to_nat ip_off := Some c]> |> <| n_sessions ::= fun n => n + 1 |>)
   else d_skip) ;;
  svr_check_session_invariants ;;
  s ← d_get;
  if v_has_connected E then
    v_emit (SxConnected ip_off (ClientInfo (assigned_ip k) (base (pool s), u8 (prefix_len (pool s))) (client_mtu s k)
      (if conn_has_v6 k then Some (assigned_ip6 k, u8 (prefix6 (pool s))) else None)))
  else d_skip.

(** [true] for 0. *)
Definition svr_masque_send_response (c sid : Z) (hdrs : svr_req_headers_t) : V bool :=
  s ← d_get;
  if max_clients s <=? n_sessions s then svr_masque_send_403 c sid ;; mret false
  else
    svr_negotiate_scheduler c hdrs ;;
    k ← get_conn c;
    r ← v_ask (v_send_headers E);
    v_emit (SxHeaders c sid (response_headers s k) r) ;;
    if r <? 0 then mret false
    else
      st ← d_lift (streams s !! (c, sid));
      d_modify (fun s => s <| streams ::= <[(c, sid) := st <| header_sent := true |>]> |>) ;;
      modify_conn c (fun k => k <| masque_stream_id := sid |>) ;;
      a ← d_lift (mqvpn_addr_pool_alloc (pool s));
      match a with
      | None => mret false
      | Some (p, ip) =>
          d_modify (fun s => s <| pool := p |>) ;;
          modify_conn c (fun k => k <| assigned_ip := ip |>) ;;
          ok ← send_assignments c sid;
          if negb ok then fail_release_ip c else register_session c ;; mret true
      end.

Definition svr_connect_ip_on_request (c sid : Z) (hdrs : svr_req_headers_t) : V bool :=
  if negb (has_scheme_https hdrs) || negb (has_valid_path hdrs) || negb (has_capsule_proto hdrs) then mret false
  else
    s ← d_get;
    let auth := sv_auth (sconfig s) in
    ok ← (if svr_auth_required auth then
            match svr_auth_check auth (auth_token hdrs) 64 with
            | None => svr_masque_send_403 c sid ;; mret false
            | Some u => t ← v_ask (v_wall_us E); modify_conn c (fun k => k <| connected_at_us := t |> <| username := snprintf_cap 64 u |>) ;; mret true
            end
          else mret true);
    if negb ok then mret false
    else
      svr_session_release c ;;
      svr_conn_reorder_engines_init c ;;
      modify_conn c (fun k => k <| peer_reorder_supported := has_reorder_hdr hdrs |>) ;;
      svr_masque_send_response c sid hdrs.

(** ** Streams *)

(** [false] when the stream's context cannot be allocated. *)
Definition cb_request_create (c sid : Z) : V bool :=
  ok ← v_ask (v_malloc E);
  if negb ok then mret false
  else d_modify (fun s => s <| streams ::= <[(c, sid) := SvrStream SVR_STREAM_ROLE_UNKNOWN false]> |>) ;; mret true.

(** The header phase of [cb_request_read]; [false] for -1. *)
Definition cb_request_headers (c sid : Z) (headers : list (list Z * list Z)) : V bool :=
  s ← d_get;
  st ← d_lift (streams s !! (c, sid));
  let hdrs := svr_parse_request_headers headers in
  if is_connect hdrs && is_connect_ip hdrs then
    k ← get_conn c;
    if tunnel_established k then svr_masque_send_409 c sid ;; mret true
    else
      d_modify (fun s => s <| streams ::= <[(c, sid) := st <| role := SVR_STREAM_ROLE_CONNECT_IP |>]> |>) ;;
      svr_connect_ip_on_request c sid hdrs
  else svr_masque_send_501 c sid ;; mret true.

Definition cb_request_close (c sid : Z) : V unit :=
  s ← d_get;
  st ← d_lift (streams s !! (c, sid));
  (if bool_decide (role st = SVR_STREAM_ROLE_CONNECT_IP) then svr_session_release c else d_skip) ;;
  d_modify (fun s => s <| streams ::= delete (c, sid) |>).

(** ** Users *)

Definition server_add_user (name key : list Z) : V mqvpn_error_t :=
  s ← d_get;
  let '(r, a) := mqvpn_server_add_user (sv_auth (sconfig s)) name key in
  d_modify (fun s => s <| sconfig ::= fun g => g <| sv_auth := a |> |>) ;;
  mret r.

(** The loop over the sessions: those of the user are closed. *)
Fixpoint close_user_sessions (n : nat) (off : Z) (name : list Z) : V unit :=
  match n with
  | O => d_skip
  | S n =>
      s ← d_get;
      slot ← d_lift (sessions s !! Z.to_nat off);
      match slot with
      | None => d_skip
      | Some c => k ← get_conn c; if bool_decide (username k = name) then v_emit (SxConnClose c) else d_skip
      end ;;
      close_user_sessions n (off + 1) name
  end.

Definition mqvpn_server_remove_user (name : list Z) : V mqvpn_error_t :=
  s ← d_get;
  if bool_decide (name = []) then mret MQVPN_ERR_INVALID_ARG
  else
    match drop_user (users (sv_auth (sconfig s))) name with
    | None => mret MQVPN_ERR_INVALID_ARG
    | Some us =>
        d_modify (fun s => s <| sconfig ::= fun g => g <| sv_auth ::= fun a => a <| users := us |> |> |>) ;;
        close_user_sessions (Z.to_nat MQVPN_ADDR_POOL_MAX) 1 name ;;
        mret MQVPN_OK
    end.

End ops.
