(* ===== verification/ServerData.v ===== *)
(** * The server's packet path ([src/mqvpn_server.c])

    Datagrams of a client to the tunnel, with the check of the source address;
    packets of the tunnel to the client whose address they carry; the counters
    and the tick.  State, surroundings and faults are those of [ServerConn]. *)

From S2P Require Import Prelude Wire ReorderRx ReorderTx Icmp Gate FlowSched AddrPool Hybrid Client TunFrame StateOpt ServerConn.

(** [ntohl] of four bytes. *)
Definition be32_value (l : list Z) : Z := fold_left (fun acc b => Z.lor (Z.shiftl acc 8) b) l 0.

Section data.
Context (E : server_env).

(** ** ICMP answers *)

Definition ptb_rate_allow : V bool :=
  ms ← v_ask (v_now_ms E);
  s ← d_get;
  let '(b, ok) := mqvpn_ptb_bucket_allow (ptb_bucket s) ms in
  d_modify (fun s => s <| ptb_bucket := b |>) ;;
  mret ok.

Definition send_icmp_via_datagram (c : Z) (pkt : list Z) : V unit :=
  k ← get_conn c;
  match v_masque_frame_pkt E 1400 (masque_stream_id k) pkt with
  | None => d_skip
  | Some frame =>
      r ← v_ask (fun n => v_datagram_send E n c frame None);
      v_emit (SxDgram c frame None r) ;;
      if r =? 0 then d_modify (fun s => s <| dgram_sent ::= fun n => u64 (n + 1) |>) else d_skip
  end.

(** The server's own addresses. *)
Definition srv_addr (s : mqvpn_server_t) : list Z := be32_list (mqvpn_addr_pool_server_addr (pool s)).
Definition srv_addr6 (s : mqvpn_server_t) : list Z := mqvpn_addr_pool_server_addr6 (pool s).

(** An ICMP answer of the given type and code, handed to [out] when the limiter
    allows it. *)
Definition icmp_answer4 (type code : Z) (pkt : list Z) (out : list Z -> V unit) : V unit :=
  ok ← ptb_rate_allow;
  if negb ok then d_skip
  else s ← d_get; p ← d_lift (mqvpn_icmp_send_v4 (srv_addr s) type code 0 pkt); match p with Some p => out p | None => d_skip end.

Definition icmp_answer6 (type code : Z) (pkt : list Z) (out : list Z -> V unit) : V unit :=
  s ← d_get;
  if negb (has_v6 (pool s)) then d_skip
  else
    ok ← ptb_rate_allow;
    if negb ok then d_skip
    else s ← d_get; p ← d_lift (mqvpn_icmp_send_v6 (srv_addr6 s) type code 0 pkt); match p with Some p => out p | None => d_skip end.

(** ** From a client to the tunnel *)

Definition forward_copy (ip_ver : Z) (pkt : list Z) : V unit :=
  ok ← (if blen pkt <=? MQVPN_DGRAM_STACK_BUF then mret true else v_ask (v_malloc E));
  if negb ok then d_skip
  else
    fwd_pkt ← d_lift (ttl_decrement ip_ver pkt);
    d_modify (fun s => s <| sbytes_rx ::= fun n => u64 (n + blen pkt) |> <| dgram_recv ::= fun n => u64 (n + 1) |>) ;;
    v_emit (SxTun fwd_pkt).

Definition forward_inner_ip (c : Z) (pkt : list Z) : V unit :=
  k ← get_conn c;
  if blen pkt <? 1 then d_skip
  else
    b0 ← d_lift (rd pkt 0);
    let ip_ver := Z.shiftr b0 4 in
    if PACKET_BUF_SIZE <? blen pkt then d_skip
    else if ip_ver =? 4 then
      if blen pkt <? 20 then d_skip
      else
        same ← d_lift (same_bytes pkt 12 4 (be32_list (assigned_ip k)));
        if negb same then d_skip
        else
          ttl ← d_lift (rd pkt 8);
          if ttl <=? 1 then icmp_answer4 11 0 pkt (send_icmp_via_datagram c) else forward_copy ip_ver pkt
    else if ip_ver =? 6 then
      if blen pkt <? 40 then d_skip
      else if negb (conn_has_v6 k) then d_skip
      else
        same ← d_lift (same_bytes pkt 8 16 (assigned_ip6 k));
        if negb same then d_skip
        else
          hl ← d_lift (rd pkt 7);
          if hl <=? 1 then icmp_answer6 3 0 pkt (send_icmp_via_datagram c) else forward_copy ip_ver pkt
    else d_skip.

Fixpoint forward_all (c : Z) (pkts : list (list Z)) : V unit :=
  match pkts with [] => d_skip | p :: pkts => forward_inner_ip c p ;; forward_all c pkts end.

(** A step of a connection's receive engine: what it delivers goes through the
    callback [svr_reorder_deliver]. *)
Definition svr_rx_step (c : Z) (rx rx' : mqvpn_reorder_rx_t) : V unit :=
  modify_conn c (fun k => k <| reorder_rx := Some rx' |>) ;;
  forward_all c (drop (length (deliver_log rx)) (deliver_log rx')).

Definition cb_dgram_read (c : Z) (data : list Z) : V unit :=
  k ← get_conn c;
  if negb (tunnel_established k) then d_skip
  else
    match v_masque_unframe_udp E data with
    | None => d_skip
    | Some (qsid, payload) =>
        if negb (qsid =? masque_stream_id k / 4) then d_skip
        else if blen payload <? 1 then d_skip
        else
          b0 ← d_lift (rd payload 0);
          match mqvpn_reorder_classify_byte b0 with
          | MQVPN_REORDER_KIND_RAW => forward_inner_ip c payload
          | MQVPN_REORDER_KIND_REORDER_V1 =>
              match reorder_rx k with
              | Some rx =>
                  t ← v_ask (v_now_us E);
                  al ← v_ask (v_rx_allocs E);
                  rx' ← d_lift (mqvpn_reorder_rx_on_packet al rx payload t);
                  svr_rx_step c rx rx'
              | None => d_skip
              end
          | _ => d_skip
          end
    end.

Definition cb_dgram_acked (c : Z) : V unit :=
  modify_conn c (fun k => k <| dgram_acked_cnt ::= fun n => u64 (n + 1) |>) ;;
  d_modify (fun s => s <| dgram_acked ::= fun n => u64 (n + 1) |>).

Definition cb_dgram_lost (c : Z) : V unit :=
  modify_conn c (fun k => k <| dgram_lost_cnt ::= fun n => u64 (n + 1) |>) ;;
  d_modify (fun s => s <| dgram_lost ::= fun n => u64 (n + 1) |>).

Definition cb_dgram_mss_updated (c mss : Z) : V unit := modify_conn c (fun k => k <| dgram_mss := mss |>).

(** ** From the tunnel to a client *)

(** The slot of the destination: [None] when the packet is not for a client. *)
Definition tun_target (s : mqvpn_server_t) (pkt : list Z) (ip_ver : Z) : option (option (option Z)) :=
  let at_offset offset :=
    if (offset =? 0) || (MQVPN_ADDR_POOL_MAX <? offset) then Some None else slot ← sessions s !! Z.to_nat offset; Some (Some slot) in
  if (ip_ver =? 4) && (20 <=? blen pkt) then dst ← rdn pkt 16 4; at_offset (u32 (be32_value dst - base (pool s)))
  else if (ip_ver =? 6) && (40 <=? blen pkt) && has_v6 (pool s) then dst ← rdn pkt 24 16; at_offset (mqvpn_addr_pool_offset6 (pool s) dst)
  else Some None.

(** The datagram is framed, the TTL decremented in the frame's copy of the
    packet and the frame sent. *)
Definition send_to_client (c : Z) (pkt : list Z) (ip_ver : Z) (do_stamp : bool) (peek : option mqvpn_reorder_tx_peek_t) : V mqvpn_error_t :=
  k ← get_conn c;
  let '(cap, heap) := frame_room (blen pkt) do_stamp in
  ok ← (if (heap : bool) then v_ask (v_malloc E) else mret true);
  if negb ok then mret MQVPN_ERR_NO_MEMORY
  else
    rh ← (if do_stamp then pk ← d_lift peek; mret (Some (hdr pk)) else mret None);
    f ← d_lift (mqvpn_dgram_frame cap (v_masque_frame_udp E cap (masque_stream_id k)) rh pkt);
    match f with
    | None => mret MQVPN_ERR_ENGINE
    | Some frame =>
        let n := Z.to_nat (blen frame - blen pkt) in
        fwd_pkt ← d_lift (ttl_decrement ip_ver (drop n frame));
        let frame := take n frame ++ fwd_pkt in
        fh ← d_lift (flow_hash_pkt pkt (bool_decide (eff_sched k = MQVPN_SCHED_WLB_UDP_PIN)));
        xret ← v_ask (fun i => v_datagram_send E i c frame (Some fh));
        v_emit (SxDgram c frame (Some fh) xret) ;;
        (if xret =? - V_XQC_EAGAIN E then
           modify_conn c (fun k => k <| dgram_dropped_cnt ::= fun n => u64 (n + 1) |>) ;;
           d_modify (fun s => s <| tun_drop_cnt ::= fun n => u64 (n + 1) |>)
         else if xret =? 0 then
           d_modify (fun s => s <| dgram_sent ::= fun n => u64 (n + 1) |>) ;;
           if do_stamp then
             tx ← d_lift (reorder_tx k);
             pk ← d_lift peek;
             t ← v_ask (v_now_us E);
             modify_conn c (fun k => k <| reorder_tx := Some (mqvpn_reorder_tx_commit tx pk t) |>)
           else d_skip
         else d_skip) ;;
        mret MQVPN_OK
    end.

(** From the check of the TTL on. *)
Definition forward_to_client (c : Z) (pkt : list Z) (ip_ver : Z) (do_stamp : bool) (peek : option mqvpn_reorder_tx_peek_t) : V mqvpn_error_t :=
  if PACKET_BUF_SIZE <? blen pkt then mret MQVPN_ERR_INVALID_ARG
  else
    ttl ← d_lift (rd pkt (if ip_ver =? 4 then 8 else 7));
    if ttl <=? 1 then
      (if ip_ver =? 4 then icmp_answer4 11 0 pkt (fun p => v_emit (SxTun p)) else icmp_answer6 3 0 pkt (fun p => v_emit (SxTun p))) ;;
      mret MQVPN_OK
    else send_to_client c pkt ip_ver do_stamp peek.

(** The handle is not NULL. *)
Definition mqvpn_server_on_tun_packet (pkt : list Z) : V mqvpn_error_t :=
  if blen pkt =? 0 then mret MQVPN_ERR_INVALID_ARG
  else
    s ← d_get;
    if n_sessions s =? 0 then mret MQVPN_OK
    else
      b0 ← d_lift (rd pkt 0);
      let ip_ver := Z.shiftr b0 4 in
      slot ← d_lift (tun_target s pkt ip_ver);
      match slot with
      | None => mret MQVPN_OK
      | Some slot =>
          up ← match slot with Some c => k ← get_conn c; mret (tunnel_established k) | None => mret false end;
          match (if (up : bool) then slot else None) with
          | None =>
              (if ip_ver =? 4 then icmp_answer4 3 1 pkt (fun p => v_emit (SxTun p)) else icmp_answer6 1 3 pkt (fun p => v_emit (SxTun p))) ;;
              mret MQVPN_OK
          | Some c =>
              k ← get_conn c;
              let udp_mss := if 0 <? dgram_mss k then v_masque_udp_mss E (dgram_mss k) (masque_stream_id k) else 0 in
              t ← v_ask (v_now_us E);
              ok ← v_ask (v_malloc E);
              rv ← d_lift (mqvpn_rgate_decide ok (reorder_tx k) (peer_reorder_supported k) (mode (sv_reorder (sconfig s))) pkt t (u32 udp_mss));
              put_conn c (k <| reorder_tx := rg_tx rv |>) ;;
              match rg_verdict rv with
              | MQVPN_RGATE_DROP_REORDER_MTU | MQVPN_RGATE_DROP_RAW_MTU =>
                  ms ← v_ask (v_now_ms E);
                  s ← d_get;
                  '(b, _, p) ← d_lift (mqvpn_rgate_send_ptb (ptb_bucket s) ms (if ip_ver =? 4 then 4 else 6) (if ip_ver =? 4 then true else has_v6 (pool s))
                                         (if ip_ver =? 4 then srv_addr s else srv_addr6 s) (default 0 (rg_mtu rv)) pkt);
                  d_modify (fun s => s <| ptb_bucket := b |>) ;;
                  match p with Some p => v_emit (SxTun p) | None => d_skip end ;;
                  mret MQVPN_OK
              | MQVPN_RGATE_STAMP => forward_to_client c pkt ip_ver true (rg_peek rv)
              | MQVPN_RGATE_RAW => forward_to_client c pkt ip_ver false (rg_peek rv)
              end
          end
      end.

(** ** The tick *)

Fixpoint tick_sessions (n : nat) (off t : Z) : V unit :=
  match n with
  | O => d_skip
  | S n =>
      s ← d_get;
      slot ← d_lift (sessions s !! Z.to_nat off);
      match slot with
      | None => d_skip
      | Some c => k ← get_conn c; match reorder_rx k with Some rx => svr_rx_step c rx (mqvpn_reorder_rx_tick rx t) | None => d_skip end
      end ;;
      tick_sessions n (off + 1) t
  end.

(** Without the engine's own work, which is the sequence of the callbacks. *)
Definition mqvpn_server_tick : V unit :=
  s ← d_get;
  if negb (bool_decide (mode (sv_reorder (sconfig s)) = MQVPN_REORDER_OFF)) && (0 <? n_sessions s) then
    t ← v_ask (v_now_us E); tick_sessions (Z.to_nat MQVPN_ADDR_POOL_MAX) 1 t
  else d_skip.

End data.
