(* ===== verification/ServerInv.v ===== *)
(** * The invariant of the server's session table

    Connections, sessions and leased addresses correspond one to one.  The
    invariant has a variant for the moment between the lease of an address and
    the registration of its session. *)

From Stdlib Require Import String.
From S2P Require Import Prelude Wire Ring ReorderRx RxFlow RxInv RxStep RxTable RxEngine ReorderTx TxProofs Icmp Gate AddrPool Hybrid Client TunFrame StateOpt Auth ServerConn.

#[local] Abbreviation length := List.length.
Open Scope list_scope.

(** The clock does not go back. *)
Record server_env_ok (E : server_env) : Prop := {
  ve_mono n m : (n <= m)%nat -> v_now_us E n <= v_now_us E m;
  ve_range n : 0 <= v_now_us E n < TIME_LIMIT;
  ve_frame (cap sid : Z) (h : list Z) : v_masque_frame_udp E cap sid = Some h -> blen h <= cap;
  ve_unframe (d : list Z) (q : Z) (p : list Z) : bytes_ok d -> v_masque_unframe_udp E d = Some (q, p) -> bytes_ok p
}.

(** The number of occupied slots. *)
Definition live_slots (l : list (option Z)) : nat := length (omap id l).

Lemma live_slots_split l i x : l !! i = Some x -> live_slots l = (live_slots (take i l) + (if x is Some _ then 1 else 0) + live_slots (drop (S i) l))%nat.
Proof.
  intros H. rewrite <- (take_drop_middle l i x H) at 1. unfold live_slots. rewrite omap_app, length_app. destruct x; cbn; lia.
Qed.

Lemma live_slots_insert l i x y : l !! i = Some x -> (live_slots (<[i := y]> l) + (if x is Some _ then 1 else 0) = live_slots l + (if y is Some _ then 1 else 0))%nat.
Proof.
  intros H. assert (Hi : (i < length l)%nat) by (by eapply lookup_lt_Some). rewrite (live_slots_split l i x H). rewrite (live_slots_split (<[i := y]> l) i y) by (by apply list_lookup_insert_eq).
  rewrite take_insert_ge, drop_insert_lt by lia. lia.
Qed.

Lemma live_slots_le l : (live_slots l <= length l)%nat.
Proof. unfold live_slots. induction l as [|[x|] l IH]; cbn in *; lia. Qed.

Lemma live_slots_empty n : live_slots (replicate n None) = 0%nat.
Proof. induction n as [|n IH]; [done|]. done. Qed.

Section inv.
Context (E : server_env) (HE : server_env_ok E).

(** The shim engines of a connection. *)
Definition engines_ok (n : nat) (k : svr_conn_t) : Prop :=
  (forall tx, reorder_tx k = Some tx -> tx_inv tx) /\ (forall rx, reorder_rx k = Some rx -> exists T, rx_inv T rx /\ T <= v_now_us E n).

(** No address. *)
Definition conn_idle (k : svr_conn_t) : Prop := assigned_ip k = 0 /\ tunnel_established k = false /\ conn_has_v6 k = false.

(** The tunnel is up and the session registered at its offset. *)
Definition conn_live (s : mqvpn_server_t) (c : Z) (k : svr_conn_t) : Prop :=
  tunnel_established k = true /\ h3_conn k = true /\ conn_has_v6 k = has_v6 (pool s) /\
  exists off, 2 <= off <= pool_size (pool s) /\ assigned_ip k = base (pool s) + off /\ sessions s !! Z.to_nat off = Some (Some c) /\
    (has_v6 (pool s) = true -> assigned_ip6 k = mqvpn_addr_pool_get6 (pool s) off).

(** An address is leased at [off], the session not yet registered. *)
Definition conn_pending (s : mqvpn_server_t) (off : Z) (k : svr_conn_t) : Prop :=
  tunnel_established k = false /\ h3_conn k = true /\ 2 <= off <= pool_size (pool s) /\ assigned_ip k = base (pool s) + off /\
  (conn_has_v6 k = true -> assigned_ip6 k = mqvpn_addr_pool_get6 (pool s) off /\ has_v6 (pool s) = true).

Definition conn_state (P : option (Z * Z)) (s : mqvpn_server_t) (c : Z) (k : svr_conn_t) : Prop :=
  match P with
  | Some (c', off) => if decide (c = c') then conn_pending s off k else conn_idle k \/ conn_live s c k
  | None => conn_idle k \/ conn_live s c k
  end.

Record srv_pend (P : option (Z * Z)) (s : mqvpn_server_t) : Prop := {
  sv_pool : pool_ok (pool s);
  sv_pool6 : has_v6 (pool s) = true -> length (base6 (pool s)) = 16%nat /\ bytes_ok (base6 (pool s)) /\ low32 (base6 (pool s)) + pool_size (pool s) < 2 ^ 32;
  sv_len : length (sessions s) = 255%nat;
  sv_slot i c : sessions s !! i = Some (Some c) -> exists k, conns s !! c = Some k /\ assigned_ip k = base (pool s) + Z.of_nat i /\ conn_live s c k;
  sv_used off : 2 <= off <= pool_size (pool s) -> in_use (pool s) off -> (exists c, sessions s !! Z.to_nat off = Some (Some c)) \/ exists c, P = Some (c, off);
  sv_leased i c : sessions s !! i = Some (Some c) -> in_use (pool s) (Z.of_nat i);
  sv_pending c off : P = Some (c, off) -> in_use (pool s) off /\ sessions s !! Z.to_nat off = Some None /\ is_Some (conns s !! c);
  sv_conns c k : conns s !! c = Some k -> conn_state P s c k /\ engines_ok (svr_calls s) k /\ tx_scope k = c /\ 0 < c <= next_tx_scope s;
  sv_count : n_sessions s = Z.of_nat (live_slots (sessions s));
  sv_room : n_sessions s <= max_clients s;
  sv_streams c sid st : streams s !! (c, sid) = Some st -> exists k, conns s !! c = Some k /\ h3_conn k = true;
  sv_scope : 0 <= next_tx_scope s < 2 ^ 64;
  sv_authed : auth_wf (sv_auth (sconfig s));
  sv_ranges : cfg_ranges (sv_reorder (sconfig s)) /\ 0 <= reset_mark_packets (sv_reorder (sconfig s)) < 2 ^ 32
}.

Definition srv_inv (s : mqvpn_server_t) : Prop := srv_pend None s.

Lemma engines_mono n m k : (n <= m)%nat -> engines_ok n k -> engines_ok m k.
Proof.
  intros Hn [H1 H2]. split; [done|]. intros rx Hrx. destruct (H2 rx Hrx) as (T & Hi & HT). exists T. split; [done|]. pose proof (ve_mono _ HE n m Hn). lia.
Qed.

(** Everything the invariant speaks of is the same. *)
Definition same_tables (s s' : mqvpn_server_t) : Prop :=
  sconfig s' = sconfig s /\ next_tx_scope s' = next_tx_scope s /\ pool s' = pool s /\ sessions s' = sessions s /\ n_sessions s' = n_sessions s /\ max_clients s' = max_clients s /\
  conns s' = conns s /\ streams s' = streams s /\ (svr_calls s <= svr_calls s')%nat.

Lemma pend_same P s s' : srv_pend P s -> same_tables s s' -> srv_pend P s'.
Proof.
  intros [H1 H2 H3 H4 H5 H6 H7 H8 H9 H10 H11 H12 H13 H14] (E1 & E2 & E3 & E4 & E5 & E6 & E7 & E8 & Hc). split; rewrite ?E1, ?E2, ?E3, ?E4, ?E5, ?E6, ?E7, ?E8; try done.
  - intros i c Hi. unfold conn_live in *. rewrite E3, E4. by apply H4.
  - intros c k Hk. destruct (H8 c k Hk) as (Hs & He & Hr). split; [|split; [by eapply engines_mono|done]]. revert Hs. unfold conn_state, conn_live, conn_pending. rewrite E3, E4. done.
Qed.

Lemma same_ask s : same_tables s (s <| svr_calls ::= S |>).
Proof. unfold same_tables. cbn. split_and!; done || lia. Qed.

Lemma same_emit s x : same_tables s (s <| svr_out ::= fun l => l ++ [x] |>).
Proof. unfold same_tables. cbn. split_and!; done || lia. Qed.

Lemma same_refl s : same_tables s s.
Proof. unfold same_tables. split_and!; done || lia. Qed.

Lemma same_trans s1 s2 s3 : same_tables s1 s2 -> same_tables s2 s3 -> same_tables s1 s3.
Proof. intros (?&?&?&?&?&?&?&?&?) (?&?&?&?&?&?&?&?&?). unfold same_tables. split_and!; try congruence. lia. Qed.

(** An update of a connection that does not concern its address. *)
Definition same_addr (k k' : svr_conn_t) : Prop :=
  assigned_ip k' = assigned_ip k /\ assigned_ip6 k' = assigned_ip6 k /\ conn_has_v6 k' = conn_has_v6 k /\ tunnel_established k' = tunnel_established k /\
  tx_scope k' = tx_scope k /\ (h3_conn k = true -> h3_conn k' = true).

Lemma conn_state_addr P s c k k' : same_addr k k' -> conn_state P s c k -> conn_state P s c k'.
Proof.
  intros (E1 & E2 & E3 & E4 & _ & E5). assert (Hi : conn_idle k -> conn_idle k') by (unfold conn_idle; by rewrite E1, E3, E4).
  assert (Hl : conn_live s c k -> conn_live s c k') by (unfold conn_live; rewrite E1, E2, E3, E4; tauto).
  assert (Hp : forall off, conn_pending s off k -> conn_pending s off k') by (intros off; unfold conn_pending; rewrite E1, E2, E3, E4; tauto).
  unfold conn_state. destruct P as [[c' off]|]; [case_decide; [apply Hp|]|]; tauto.
Qed.

Lemma pend_put P s c k k' : srv_pend P s -> conns s !! c = Some k -> same_addr k k' -> engines_ok (svr_calls s) k' -> srv_pend P (s <| conns ::= <[c := k']> |>).
Proof.
  intros Hs Hk Ha He. pose proof Hs as [H1 H2 H3 H4 H5 H6 H7 H8 H9 H10 H11 H12 H13 H14]. pose proof Ha as (A1 & A2 & A3 & A4 & A5 & A6). split; cbn [pool sessions n_sessions max_clients streams sconfig next_tx_scope svr_calls conns update]; try done.
  - intros i c0 Hi. destruct (H4 i c0 Hi) as (k0 & Hk0 & Ea & Hl). destruct (decide (c = c0)) as [<-|Hne].
    + rewrite lookup_insert_eq. exists k'. rewrite Hk in Hk0. injection Hk0 as <-. split_and!; [done|congruence|]. unfold conn_live in *. cbn. rewrite A1, A2, A3, A4. tauto.
    + rewrite lookup_insert_ne by done. by exists k0.
  - intros c0 off HP. destruct (H7 c0 off HP) as (P1 & P2 & P3). split_and!; try done. destruct (decide (c = c0)) as [<-|]; [rewrite lookup_insert_eq; by eexists|by rewrite lookup_insert_ne].
  - intros c0 k0 Hk0. destruct (decide (c = c0)) as [<-|Hne].
    + rewrite lookup_insert_eq in Hk0. injection Hk0 as <-. destruct (H8 c k Hk) as (Hst & _ & Hsc & Hr). split_and!; try done; [by apply (conn_state_addr P s c k k')|congruence|lia|lia].
    + rewrite lookup_insert_ne in Hk0 by done. by apply H8.
  - intros c0 sid st Hst. destruct (H11 c0 sid st Hst) as (k0 & Hk0 & Hh). destruct (decide (c = c0)) as [<-|]; [|by rewrite lookup_insert_ne; eauto]. rewrite lookup_insert_eq. exists k'. split; [done|]. rewrite Hk in Hk0. injection Hk0 as <-. by apply A6.
Qed.

(** ** The calculus *)

Lemma dwp_vask {A} (f : nat -> A) s (Q : A -> mqvpn_server_t -> Prop) : Q (f (svr_calls s)) (s <| svr_calls ::= S |>) -> dwp (v_ask f) s Q.
Proof. intros H. by eexists _, _. Qed.

Lemma dwp_vemit x s (Q : unit -> mqvpn_server_t -> Prop) : Q tt (s <| svr_out ::= fun l => l ++ [x] |>) -> dwp (v_emit x) s Q.
Proof. apply dwp_modify. Qed.

Lemma dwp_conn c k s (Q : svr_conn_t -> mqvpn_server_t -> Prop) : conns s !! c = Some k -> Q k s -> dwp (get_conn c) s Q.
Proof. intros Hk H. unfold get_conn. apply dwp_bind, dwp_get. by eapply dwp_lift. Qed.

Lemma dwp_modify_conn c f k s (Q : unit -> mqvpn_server_t -> Prop) : conns s !! c = Some k -> Q tt (s <| conns ::= <[c := f k]> |>) -> dwp (modify_conn c f) s Q.
Proof. intros Hk H. unfold modify_conn. apply dwp_bind. eapply dwp_conn; [done|]. by apply dwp_modify. Qed.

End inv.
