(* ===== verification/ServerSess.v ===== *)
(** * Sessions begin and end

    The four moves of the session table — lease, give back, register, release —
    keep the invariant, the debug check never fails, and the operations that
    are made of them. *)

From Stdlib Require Import String.
From S2P Require Import Prelude Wire Ring ReorderRx RxFlow RxInv RxStep RxTable RxEngine ReorderTx TxProofs Icmp Gate AddrPool Hybrid Client TunFrame StateOpt Auth ServerConn ServerInv.

#[local] Abbreviation length := List.length.
Open Scope list_scope.

Lemma mark_used p off v : pool_ok p -> 1 <= off <= pool_size p ->
  let p' := p <| used ::= <[Z.to_nat off := v]> |> in
  pool_ok p' /\ forall o, 0 <= o -> in_use p' o <-> if decide (o = off) then v = true else in_use p o.
Proof.
  intros H Ho. cbn zeta. pose proof (po_size _ H). pose proof (po_used _ H) as Hu. unfold MQVPN_ADDR_POOL_MAX in *. split.
  - destruct H. split; try done. cbn. by rewrite length_insert.
  - intros o Ho'. unfold in_use. cbn. case_decide as Ed.
    + subst o. rewrite list_lookup_insert_eq by (rewrite Hu; lia). by split; [intros [= ->]|intros ->].
    + rewrite list_lookup_insert_ne by lia. done.
Qed.

Section sess.
Context (E : server_env) (HE : server_env_ok E).

Lemma live_off s c k i : pool_ok (pool s) -> conn_live s c k -> assigned_ip k = base (pool s) + Z.of_nat i -> 2 <= Z.of_nat i <= pool_size (pool s) /\ sessions s !! i = Some (Some c).
Proof. intros Hp (_ & _ & _ & off & Ho & Ea & Hs & _) Ei. assert (off = Z.of_nat i) as -> by lia. rewrite Nat2Z.id in Hs. done. Qed.

(** ** The debug check *)

Lemma check_slots_ok P s n off counted : srv_pend E P s -> 0 <= off -> off + Z.of_nat n <= 255 ->
  check_slots n off s counted = Some (counted + Z.of_nat (live_slots (take n (drop (Z.to_nat off) (sessions s))))).
Proof.
  intros Hs. pose proof (sv_pool _ _ _ Hs) as Hp. destruct (po_base _ Hp) as [Hb0 Hb]. pose proof (po_size _ Hp) as Hsz. unfold MQVPN_ADDR_POOL_MAX in Hsz.
  revert off counted. induction n as [|n IH]; intros off counted Ho Hn; cbn [check_slots]; [rewrite take_0; cbn; f_equal; lia|].
  destruct (lookup_lt_is_Some_2 (sessions s) (Z.to_nat off)) as [x Hx]; [rewrite (sv_len _ _ _ Hs); lia|]. rewrite Hx. cbn [mbind option_bind].
  rewrite (drop_S _ x _ Hx). cbn [take]. replace (S (Z.to_nat off)) with (Z.to_nat (off + 1)) by lia. destruct x as [c|].
  - destruct (sv_slot _ _ _ Hs _ c Hx) as (k & Hk & Ea & Hl). destruct (live_off s c k _ Hp Hl Ea) as [Hr _]. rewrite Hk. cbn [mbind option_bind]. rewrite Ea, Z2Nat.id by lia.
    rewrite (proj2 (Z.eqb_neq _ 0)) by lia. replace (base (pool s) + off - base (pool s)) with off by lia. rewrite u32_small, Z.eqb_refl by lia. cbn [negb andb]. rewrite IH by lia. f_equal. unfold live_slots. cbn. lia.
  - rewrite IH by lia. unfold live_slots. cbn. done.
Qed.

Lemma check_ok P s : srv_pend E P s -> dwp svr_check_session_invariants s (fun _ s' => s' = s).
Proof.
  intros Hs. unfold svr_check_session_invariants. apply dwp_bind, dwp_get, dwp_bind. eapply dwp_lift; [apply (check_slots_ok P); [done|lia|unfold MQVPN_ADDR_POOL_MAX; lia]|].
  assert (Hl : live_slots (take (Z.to_nat MQVPN_ADDR_POOL_MAX) (drop (Z.to_nat 1) (sessions s))) = live_slots (sessions s)).
  { pose proof (sv_len _ _ _ Hs) as Hlen. rewrite take_ge by (rewrite length_drop, Hlen; unfold MQVPN_ADDR_POOL_MAX; lia). destruct (sessions s) as [|x l] eqn:El; [done|]. change (Z.to_nat 1) with 1%nat. cbn [drop].
    destruct x as [c|]; [|done]. destruct (sv_slot _ _ _ Hs 0%nat c) as (k & Hk & Ea & Hv); [by rewrite El|]. destruct (live_off s c k 0 (sv_pool _ _ _ Hs) Hv Ea). cbn in *. lia. }
  rewrite Hl, <- (sv_count _ _ _ Hs). pose proof (sv_room _ _ _ Hs) as Hr. pose proof (sv_count _ _ _ Hs). rewrite Z.add_0_l, Z.eqb_refl. rewrite (proj2 (Z.leb_le 0 _)) by lia. rewrite (proj2 (Z.leb_le _ (max_clients s))) by lia.
  cbn [andb]. unfold v_assert. by apply dwp_skip.
Qed.

(** ** The moves *)

(** The pool [p'] is [p] but for the lease of [off]. *)
Definition pool_moved (p p' : mqvpn_addr_pool_t) (off : Z) (v : bool) : Prop :=
  pool_ok p' /\ base p' = base p /\ pool_size p' = pool_size p /\ base6 p' = base6 p /\ has_v6 p' = has_v6 p /\
  forall o, 0 <= o -> in_use p' o <-> if decide (o = off) then v = true else in_use p o.

(** The pool, the slot at [off], connection [c] and the counter change. *)
Definition moved (s : mqvpn_server_t) (p : mqvpn_addr_pool_t) (off : Z) (x : option Z) (c : Z) (k : svr_conn_t) (n : Z) : mqvpn_server_t :=
  s <| pool := p |> <| sessions ::= <[Z.to_nat off := x]> |> <| conns ::= <[c := k]> |> <| n_sessions := n |>.

(** A connection has a session or a pending address at [off] before the move and
    may have one after it. *)
Lemma move_inv P P' s p v x0 x c k k' off n : srv_pend E P s -> conns s !! c = Some k -> 2 <= off <= pool_size (pool s) ->
  P = None \/ P = Some (c, off) -> P' = None \/ P' = Some (c, off) -> sessions s !! Z.to_nat off = Some x0 -> x0 = None \/ x0 = Some c -> (x0 = None -> P = None -> conn_idle k) ->
  let s' := moved s p off x c k' n in
  pool_moved (pool s) p off v -> conn_state P' s' c k' -> engines_ok E (svr_calls s) k' -> tx_scope k' = tx_scope k -> (h3_conn k = true -> h3_conn k' = true) ->
  (v = true <-> x = Some c \/ P' = Some (c, off)) -> x = None \/ x = Some c /\ P' = None /\ conn_live s' c k' /\ assigned_ip k' = base (pool s) + off ->
  (P' = Some (c, off) -> x = None) -> n = Z.of_nat (live_slots (<[Z.to_nat off := x]> (sessions s))) -> n <= max_clients s -> srv_pend E P' s'.
Proof.
  intros Hs Hk Ho HP HP' Hx0 Hx0c Hidle s' (Q1 & Q2 & Q3 & Q4 & Q5 & Q6) Hst He Hsc Hh Hv Hx Hpx Hn Hroom. pose proof Hs as [H1 H2 H3 H4 H5 H6 H7 H8 H9 H10 H11 H12 H13 H14].
  assert (Hlt : (Z.to_nat off < length (sessions s))%nat) by (rewrite H3; pose proof (po_size _ H1); unfold MQVPN_ADDR_POOL_MAX in *; lia).
  assert (Hother : forall c0 k0, c0 <> c -> conn_live s c0 k0 -> conn_live s' c0 k0).
  { intros c0 k0 Hne (L1 & L2 & L3 & o & L4 & L5 & L6 & L7). unfold conn_live, mqvpn_addr_pool_get6 in *. cbn [s' moved pool sessions conns n_sessions update]. rewrite Q2, Q3, Q4, Q5. split_and!; try done. exists o. split_and!; try done; try lia.
    rewrite list_lookup_insert_ne; [done|]. intros Eo. assert (o = off) as -> by lia. rewrite Hx0 in L6. injection L6 as ->. destruct Hx0c as [?|[= ->]]; done. }
  split; unfold s'; cbn [moved pool sessions n_sessions max_clients streams sconfig next_tx_scope svr_calls conns update]; rewrite ?Q2, ?Q3, ?Q4, ?Q5; try done.
  - by rewrite length_insert.
  - intros i c0 Hi. destruct (decide (i = Z.to_nat off)) as [->|Hne].
    + rewrite list_lookup_insert_eq in Hi by done. injection Hi as ->. destruct Hx as [?|([= <-] & _ & Hl & Ea)]; [done|]. rewrite lookup_insert_eq. exists k'. split_and!; [done|lia|exact Hl].
    + rewrite list_lookup_insert_ne in Hi by done. destruct (H4 i c0 Hi) as (k0 & Hk0 & Ea & Hl). destruct (live_off s c0 k0 i H1 Hl Ea) as [Hr _]. assert (c0 <> c).
      { intros ->. rewrite Hk in Hk0. injection Hk0 as <-. destruct Hx0c as [-> | -> ]; [|destruct (H4 _ _ Hx0) as (k1 & Hk1 & Ea1 & _); rewrite Hk in Hk1; injection Hk1 as <-; lia].
        destruct HP as [-> | -> ]; [destruct (Hidle eq_refl eq_refl) as (_ & Hf & _); destruct Hl as [Ht _]; congruence|]. destruct (H8 c k Hk) as (St & _). cbn in St. rewrite decide_True in St by done. destruct St as (Hf & _). destruct Hl as [Ht _]; congruence. }
      rewrite lookup_insert_ne by done. exists k0. split_and!; try done. by apply Hother.
  - intros o Hor Hin. apply Q6 in Hin; [|lia]. case_decide as Ed.
    + subst o. apply Hv in Hin as [-> | -> ]; [|by right; exists c]. left. exists c. by apply list_lookup_insert_eq.
    + left. destruct (H5 o Hor Hin) as [[c0 Hc0]|[c0 Ec0]]; [exists c0; rewrite list_lookup_insert_ne by lia; done|]. destruct HP as [-> | -> ]; [done|]. injection Ec0 as -> ->. done.
  - intros i c0 Hi. destruct (decide (i = Z.to_nat off)) as [->|Hne].
    + rewrite list_lookup_insert_eq in Hi by done. injection Hi as ->. rewrite Z2Nat.id by lia. apply Q6; [lia|]. rewrite decide_True by done. apply Hv. destruct Hx as [?|([= <-] & _)]; [done|by left].
    + rewrite list_lookup_insert_ne in Hi by done. apply Q6; [lia|]. rewrite decide_False by lia. by apply (H6 i c0).
  - intros c0 o HPo. destruct HP' as [->|Ep]; [done|]. rewrite Ep in HPo. injection HPo as <- <-. specialize (Hpx Ep). subst x. split_and!.
    + apply Q6; [lia|]. rewrite decide_True by done. apply Hv. by right.
    + by apply list_lookup_insert_eq.
    + rewrite lookup_insert_eq. by eexists.
  - intros c0 k0 Hk0. destruct (decide (c = c0)) as [<-|Hne].
    + rewrite lookup_insert_eq in Hk0. injection Hk0 as <-. destruct (H8 c k Hk) as (_ & _ & Hscope & Hrange). split_and!; try done; [congruence|lia|lia].
    + rewrite lookup_insert_ne in Hk0 by done. destruct (H8 c0 k0 Hk0) as (St & Rest). split; [|done].
      assert (St' : conn_idle k0 \/ conn_live s c0 k0) by (destruct HP as [-> | -> ]; cbn in St; [done|by rewrite decide_False in St by done]).
      assert (St2 : conn_idle k0 \/ conn_live s' c0 k0) by (destruct St'; [by left|right; by apply Hother]). destruct HP' as [-> | -> ]; cbn; [done|by rewrite decide_False by done].
  - intros c0 sid st Hsd. destruct (H11 c0 sid st Hsd) as (k0 & Hk0 & Hh0). destruct (decide (c = c0)) as [<-|]; [|rewrite lookup_insert_ne by done; by exists k0]. rewrite lookup_insert_eq. exists k'. rewrite Hk in Hk0. injection Hk0 as <-. split; [done|auto].
Qed.

Lemma pool_mark p off v : pool_ok p -> 1 <= off <= pool_size p -> pool_moved p (p <| used ::= <[Z.to_nat off := v]> |>) off v.
Proof. intros Hp Ho. destruct (mark_used p off v Hp Ho) as [H1 H2]. split_and!; done. Qed.

Lemma pool_release_eq p off : pool_ok p -> 1 <= off <= pool_size p -> mqvpn_addr_pool_release p (base p + off) = Some (p <| used ::= <[Z.to_nat off := false]> |>).
Proof.
  intros Hp Ho. pose proof (po_size _ Hp). destruct (po_base _ Hp). unfold mqvpn_addr_pool_release, MQVPN_ADDR_POOL_MAX in *. rewrite (proj2 (Z.ltb_ge (base p + off) (base p))) by lia. replace (base p + off - base p) with off by lia. rewrite u32_small by lia.
  rewrite (proj2 (Z.leb_le 1 off)), (proj2 (Z.leb_le off (pool_size p))) by lia. cbn [andb]. destruct (lookup_lt_is_Some_2 (used p) (Z.to_nat off)) as [u ->]; [rewrite (po_used _ Hp); lia|]. done.
Qed.

(** ** Operations that concern one connection *)

Definition is_ctl (x : svr_fx) : bool := match x with SxTun _ | SxDgram _ _ _ _ => false | _ => true end.

(** No other connection changes and no packet is handed on. *)
Definition ctl_rel (c : Z) (s s' : mqvpn_server_t) : Prop :=
  (forall c0, c0 <> c -> conns s' !! c0 = conns s !! c0) /\ sconfig s' = sconfig s /\ max_clients s' = max_clients s /\ (svr_calls s <= svr_calls s')%nat /\
  exists new, svr_out s' = svr_out s ++ new /\ forallb is_ctl new = true.

Lemma ctl_refl c s : ctl_rel c s s.
Proof. split_and!; try done. exists []. by rewrite app_nil_r. Qed.

Lemma ctl_trans c s1 s2 s3 : ctl_rel c s1 s2 -> ctl_rel c s2 s3 -> ctl_rel c s1 s3.
Proof.
  intros (A1 & A2 & A3 & A4 & n1 & A5 & A6) (B1 & B2 & B3 & B4 & n2 & B5 & B6). split_and!; try congruence; [|lia|].
  - intros c0 Hc. rewrite B1, A1 by done. done.
  - exists (n1 ++ n2). rewrite B5, A5, forallb_app, A6, B6. by rewrite app_assoc.
Qed.

Lemma ctl_none c s s' : conns s' = conns s -> sconfig s' = sconfig s -> max_clients s' = max_clients s -> (svr_calls s <= svr_calls s')%nat -> svr_out s' = svr_out s -> ctl_rel c s s'.
Proof. intros E1 E2 E3 E4 E5. split_and!; try done; [by rewrite E1|]. exists []. by rewrite app_nil_r, E5. Qed.

Lemma ctl_ask c s : ctl_rel c s (s <| svr_calls ::= S |>).
Proof. apply ctl_none; done || cbn; lia. Qed.

Lemma ctl_emit c s x : is_ctl x = true -> ctl_rel c s (s <| svr_out ::= fun l => l ++ [x] |>).
Proof. intros Hx. split_and!; try done. exists [x]. cbn. by rewrite Hx. Qed.

Lemma ctl_put c s k : ctl_rel c s (s <| conns ::= <[c := k]> |>).
Proof. split_and!; try done; [intros c0 Hc; cbn; by rewrite lookup_insert_ne|]. exists []. by rewrite app_nil_r. Qed.

Hint Resolve ctl_refl ctl_ask ctl_put : core.

(** Nobody's session or stream changes either. *)
Definition kept_rel (c : Z) (s s' : mqvpn_server_t) : Prop :=
  ctl_rel c s s' /\ pool s' = pool s /\ sessions s' = sessions s /\ n_sessions s' = n_sessions s /\ streams s' = streams s.

Lemma kept_rel_trans c s1 s2 s3 : kept_rel c s1 s2 -> kept_rel c s2 s3 -> kept_rel c s1 s3.
Proof. intros (A1 & A2 & A3 & A4 & A5) (B1 & B2 & B3 & B4 & B5). split; [by eapply ctl_trans|]. split_and!; congruence. Qed.

(** An answer sent on a stream. *)
Lemma answer_ok P c sid hs s : srv_pend E P s -> dwp (r ← v_ask (v_send_headers E); v_emit (SxHeaders c sid hs r)) s (fun _ s' => srv_pend E P s' /\ kept_rel c s s' /\ conns s' = conns s).
Proof.
  intros Hs. apply dwp_bind, dwp_vask, dwp_vemit. split; [eapply pend_same; [done|exact Hs|]; eapply same_trans; [apply same_ask|apply same_emit]|]. split; [|done].
  split; [|done]. eapply ctl_trans; [apply ctl_ask|by apply ctl_emit].
Qed.

Lemma release_ok s c k : srv_inv E s -> conns s !! c = Some k ->
  dwp (svr_session_release E c) s (fun _ s' => srv_inv E s' /\ ctl_rel c s s' /\ streams s' = streams s /\ n_sessions s' <= n_sessions s /\
    exists k', conns s' !! c = Some k' /\ conn_idle k' /\ h3_conn k' = h3_conn k /\ username k' = username k /\ eff_sched k' = eff_sched k).
Proof.
  intros Hs Hk. unfold svr_session_release. apply dwp_bind. eapply dwp_conn; [exact Hk|]. destruct (sv_conns _ _ _ Hs c k Hk) as (Hst & He & Hsc & Hr). pose proof (sv_pool _ _ _ Hs) as Hp. destruct (po_base _ Hp) as [Hb0 Hb].
  destruct Hst as [Hi|Hl].
  { rewrite (proj1 Hi). apply dwp_skip. split_and!; try done. by exists k. }
  pose proof Hl as (Ht & Hh & _ & off & Ho & Ea & Hslot & _). pose proof (po_size _ Hp) as Hsz. unfold MQVPN_ADDR_POOL_MAX in Hsz. rewrite (proj2 (Z.eqb_neq (assigned_ip k) 0)) by lia.
  apply dwp_bind, dwp_get. rewrite Ea. replace (base (pool s) + off - base (pool s)) with off by lia. rewrite u32_small by lia. cbv zeta. unfold MQVPN_ADDR_POOL_MAX.
  rewrite (proj2 (Z.ltb_lt 0 off)), (proj2 (Z.leb_le off 254)) by lia. cbn [andb]. apply dwp_bind, dwp_bind. eapply dwp_lift; [exact Hslot|]. rewrite bool_decide_eq_true_2 by done. apply dwp_bind, dwp_modify.
  set (s1 := s <| sessions ::= _ |> <| n_sessions ::= _ |>). set (k' := k <| assigned_ip := 0 |> <| conn_has_v6 := false |> <| assigned_ip6 := replicate 16 0 |> <| masque_stream_id := 0 |>
      <| tunnel_established := false |> <| peer_reorder_supported := false |> <| reorder_tx := None |> <| reorder_rx := None |>).
  assert (Hemit : dwp (if v_has_disconnected E then v_emit (SxDisconnected off) else d_skip) s1 (fun _ s' => exists new, s' = s1 <| svr_out := svr_out s ++ new |> /\ forallb is_ctl new = true)).
  { destruct (v_has_disconnected E); [apply dwp_vemit; by exists [SxDisconnected off]|]. apply dwp_skip. exists []. rewrite app_nil_r. by destruct s. }
  eapply dwp_mono; [exact Hemit|]. clear Hemit. intros [] s2 (new & -> & Hnew). apply dwp_bind. eapply dwp_lift; [by apply pool_release_eq; [|lia]|]. apply dwp_bind, dwp_modify, dwp_bind. eapply dwp_modify_conn; [exact Hk|]. fold k'.
  match goal with |- dwp _ ?x _ => set (s3 := x) end.
  assert (H3 : srv_inv E s3).
  { eapply (pend_same E HE None (moved s ((pool s) <| used ::= <[Z.to_nat off := false]> |>) off None c k' (n_sessions s - 1))); [|unfold same_tables; cbn; split_and!; done || lia].
    apply (move_inv None None s _ false (Some c) None c k k' off (n_sessions s - 1)); try done; [by left|by left|by right|apply pool_mark; [done|lia]|by left|split; [done|by intros [?|?]]|by left| |].
    - rewrite (sv_count _ _ _ Hs). pose proof (live_slots_insert (sessions s) (Z.to_nat off) (Some c) None Hslot) as Hc. cbv iota in Hc. lia.
    - pose proof (sv_room _ _ _ Hs). lia. }
  eapply dwp_mono; [by apply (check_ok None)|]. intros [] s' ->. split; [done|]. split_and!; try done; try (cbn; lia).
  - split_and!; try done; [intros c0 Hc; cbn; by rewrite lookup_insert_ne|]. by exists new.
  - exists k'. cbn. rewrite lookup_insert_eq. by split_and!.
Qed.

(** ** Opening a session *)

Lemma engines_new n a b x y cfg seed tx rx : cfg_ranges cfg -> 0 <= reset_mark_packets cfg < 2 ^ 32 -> mqvpn_reorder_tx_new a b (Some cfg) seed = Some tx ->
  mqvpn_reorder_rx_new x y (Some cfg) (Z.lxor seed 2654435769) true = Some rx -> forall k, engines_ok E n (k <| reorder_tx := Some tx |> <| reorder_rx := Some rx |>).
Proof.
  intros Hr Hm Et Er k. assert (Hx : a = true /\ b = true) by (destruct a; [|done]; by destruct b). destruct Hx as [-> ->].
  assert (Hy : x = true /\ y = true) by (revert Er; unfold mqvpn_reorder_rx_new; destruct (negb true || _); [done|]; destruct x; [|done]; by destruct y). destruct Hy as [-> ->].
  split; cbn [reorder_tx reorder_rx update]; intros z <-%Some_inj.
  - exact (proj1 (tx_new_ok cfg seed tx (cr_flows _ Hr) Hm Et)).
  - exists 0. split; [exact (proj1 (rx_new_ok cfg _ rx Hr Er))|]. apply (ve_range _ HE).
Qed.

(** The connection keeps its address, its name and its scheduler. *)
Definition same_id (k k' : svr_conn_t) : Prop := same_addr k k' /\ username k' = username k /\ eff_sched k' = eff_sched k.

Lemma engines_init_ok P s c k : srv_pend E P s -> conns s !! c = Some k ->
  dwp (svr_conn_reorder_engines_init E c) s (fun _ s' => srv_pend E P s' /\ kept_rel c s s' /\ exists k', conns s' !! c = Some k' /\ same_id k k').
Proof.
  intros Hs Hk. unfold svr_conn_reorder_engines_init. apply dwp_bind, dwp_get, dwp_bind. eapply dwp_conn; [exact Hk|]. cbv zeta.
  assert (Hno : forall s', srv_pend E P s' -> kept_rel c s s' -> conns s' = conns s -> srv_pend E P s' /\ kept_rel c s s' /\ exists k', conns s' !! c = Some k' /\ same_id k k').
  { intros s' H1 H2 H3. split_and!; try done. exists k. rewrite H3. by split_and!. }
  case_bool_decide; [apply dwp_skip, Hno; [done|split_and!; by auto|done]|]. destruct (_ || _); [apply dwp_skip, Hno; [done|split_and!; by auto|done]|].
  apply dwp_bind, dwp_vask, dwp_bind, dwp_vask. set (s1 := s <| svr_calls ::= S |> <| svr_calls ::= S |>). assert (H1 : srv_pend E P s1) by (eapply pend_same; [done|exact Hs|]; eapply same_trans; apply same_ask).
  assert (K1 : kept_rel c s s1) by (split; [eapply ctl_trans; apply ctl_ask|done]). destruct (v_engine_allocs E _) as [[[a b] x] y].
  destruct (mqvpn_reorder_tx_new _ _ _ _) as [tx|] eqn:Et; [|by apply dwp_skip, Hno]. destruct (mqvpn_reorder_rx_new _ _ _ _ _) as [rx|] eqn:Er; [|by apply dwp_skip, Hno].
  destruct (sv_ranges _ _ _ Hs) as [Hr Hm]. unfold put_conn. apply dwp_modify. split_and!.
  - eapply pend_put; [exact H1|exact Hk|by split_and!|]. by eapply engines_new.
  - eapply kept_rel_trans; [exact K1|]. split_and!; by auto.
  - eexists. cbn. rewrite lookup_insert_eq. split; [done|]. by split_and!.
Qed.

Lemma negotiate_ok P s c k hdrs : srv_pend E P s -> conns s !! c = Some k ->
  dwp (svr_negotiate_scheduler E c hdrs) s (fun _ s' => srv_pend E P s' /\ kept_rel c s s' /\ exists k', conns s' !! c = Some k' /\ same_addr k k' /\ username k' = username k).
Proof.
  intros Hs Hk. unfold svr_negotiate_scheduler. apply dwp_bind, dwp_get, dwp_bind. eapply dwp_conn; [exact Hk|]. cbv zeta.
  assert (Hno : forall s', srv_pend E P s' -> kept_rel c s s' -> conns s' = conns s -> srv_pend E P s' /\ kept_rel c s s' /\ exists k', conns s' !! c = Some k' /\ same_addr k k' /\ username k' = username k).
  { intros s' H1 H2 H3. split_and!; try done. exists k. rewrite H3. by split_and!. }
  assert (Hskip : srv_pend E P s /\ kept_rel c s s /\ exists k', conns s !! c = Some k' /\ same_addr k k' /\ username k' = username k) by (apply Hno; [done|split_and!; by auto|done]).
  destruct (mqvpn_sched_negotiate _ _ _ _ _); destruct (h ← sched_hdr hdrs; mqvpn_sched_from_name_n h) as [r|]; try by apply dwp_skip.
  apply dwp_bind, dwp_vask. set (s1 := s <| svr_calls ::= S |>). assert (H1 : srv_pend E P s1) by (eapply pend_same; [done|exact Hs|apply same_ask]). assert (K1 : kept_rel c s s1) by (split; [apply ctl_ask|done]).
  destruct (v_reapply_ok E _); [|by apply dwp_skip, Hno]. unfold put_conn. apply dwp_modify. split_and!.
  - eapply pend_put; [exact H1|exact Hk|by split_and!|]. destruct (sv_conns _ _ _ H1 c k Hk) as (_ & He & _). exact He.
  - eapply kept_rel_trans; [exact K1|]. split_and!; by auto.
  - eexists. cbn. rewrite lookup_insert_eq. by split_and!.
Qed.

Lemma capsule_ok P s c sid cap type payload : srv_pend E P s ->
  dwp (send_capsule E c sid cap type payload) s (fun _ s' => srv_pend E P s' /\ kept_rel c s s' /\ conns s' = conns s).
Proof.
  intros Hs. unfold send_capsule. destruct (v_capsule_encode E cap type payload) as [d|]; [|apply dwp_ret; split_and!; try done; split_and!; by auto].
  apply dwp_bind, dwp_vask, dwp_bind, dwp_vemit, dwp_ret. split; [eapply pend_same; [done|exact Hs|]; eapply same_trans; [apply same_ask|apply same_emit]|]. split; [|done]. split; [|done]. eapply ctl_trans; [apply ctl_ask|by apply ctl_emit].
Qed.

(** An update of the pending connection. *)
Lemma pend_update s c off k k' : srv_pend E (Some (c, off)) s -> conns s !! c = Some k -> conn_pending s off k' -> engines_ok E (svr_calls s) k' -> tx_scope k' = tx_scope k ->
  srv_pend E (Some (c, off)) (s <| conns ::= <[c := k']> |>).
Proof.
  intros Hs Hk Hp He Hsc. destruct (sv_pending _ _ _ Hs c off eq_refl) as (Hu & Hslot & _). pose proof Hp as (_ & Hh & Ho & _).
  assert (Hid : <[Z.to_nat off := None]> (sessions s) = sessions s) by (by apply list_insert_id).
  eapply (pend_same E HE _ (moved s (pool s) off None c k' (n_sessions s))); [|unfold same_tables; cbn; rewrite Hid; split_and!; done || lia].
  apply (move_inv (Some (c, off)) (Some (c, off)) s (pool s) true None None c k k' off (n_sessions s)); try done; [by right|by right|by left| | |split; [by right|done]|by left| |apply (sv_room _ _ _ Hs)].
  - split_and!; try done; [apply (sv_pool _ _ _ Hs)|]. intros o Hor. case_decide; [subst o; split; [done|by intros _]|done].
  - unfold conn_state. rewrite decide_True by done. destruct Hp as (P1 & P2 & P3 & P4 & P5). split_and!; try done; cbn; lia || done.
  - by rewrite Hid, (sv_count _ _ _ Hs).
Qed.

Lemma pending_conn s c off k : srv_pend E (Some (c, off)) s -> conns s !! c = Some k -> conn_pending s off k /\ engines_ok E (svr_calls s) k /\ tx_scope k = c.
Proof. intros Hs Hk. destruct (sv_conns _ _ _ Hs c k Hk) as (Hst & He & Hsc & _). unfold conn_state in Hst. by rewrite decide_True in Hst by done. Qed.

Lemma assignments_ok s c off sid k : srv_pend E (Some (c, off)) s -> conns s !! c = Some k -> conn_has_v6 k = false ->
  dwp (send_assignments E c sid) s (fun ok s' => srv_pend E (Some (c, off)) s' /\ kept_rel c s s' /\
    exists k', conns s' !! c = Some k' /\ username k' = username k /\ (ok = true -> conn_has_v6 k' = has_v6 (pool s))).
Proof.
  intros Hs Hk Hv. unfold send_assignments. apply dwp_bind, dwp_get, dwp_bind. eapply dwp_conn; [exact Hk|]. cbv zeta. apply dwp_bind. eapply dwp_mono; [by apply (capsule_ok (Some (c, off)))|]. intros ok s1 (H1 & K1 & C1).
  destruct (pending_conn s c off k Hs Hk) as ((_ & Hh & Ho & Ea & _) & He & Hsc). pose proof (sv_pool _ _ _ Hs) as Hp. destruct (po_base _ Hp) as [Hb0 Hb]. pose proof (po_size _ Hp) as Hsz. unfold MQVPN_ADDR_POOL_MAX in Hsz.
  destruct ok; cbn [negb]; [|apply dwp_ret; split_and!; try done; [apply K1..|]; exists k; rewrite C1; by split_and!].
  rewrite Ea. replace (base (pool s) + off - base (pool s)) with off by lia. rewrite u32_small by lia. apply dwp_bind.
  assert (H6 : dwp (if has_v6 (pool s) then
            ok ← send_capsule E c sid 64 CAPSULE_ADDRESS_ASSIGN ([0; 6] ++ mqvpn_addr_pool_get6 (pool s) off ++ [128]);
            if (ok : bool) then modify_conn c (fun k => k <| assigned_ip6 := mqvpn_addr_pool_get6 (pool s) off |> <| conn_has_v6 := true |>) ;; mret true else mret false
          else mret true) s1 (fun ok s' => srv_pend E (Some (c, off)) s' /\ kept_rel c s s' /\
            exists k', conns s' !! c = Some k' /\ username k' = username k /\ (ok = true -> conn_has_v6 k' = has_v6 (pool s)))).
  { destruct (has_v6 (pool s)) eqn:E6; [|apply dwp_ret; split_and!; try done; [apply K1..|]; exists k; rewrite C1; by split_and!]. apply dwp_bind. eapply dwp_mono; [by apply (capsule_ok (Some (c, off)))|]. intros ok s2 (H2 & K2 & C2).
    assert (K12 : kept_rel c s s2) by (by eapply kept_rel_trans). assert (Hk2 : conns s2 !! c = Some k) by congruence. destruct ok; [|apply dwp_ret; split_and!; try done; [apply K12..|]; exists k; by split_and!].
    apply dwp_bind. eapply dwp_modify_conn; [exact Hk2|]. apply dwp_ret. destruct K12 as (K12 & Q1 & Q2 & Q3 & Q4). split; [|split; [split_and!; try done; eapply ctl_trans; [exact K12|by auto]|]].
    - destruct (pending_conn s2 c off k H2 Hk2) as ((L1 & L2 & L3 & L4 & L5) & He2 & Hsc2). eapply pend_update; [exact H2|exact Hk2| |exact He2|done]. split_and!; try done; try lia. intros _. cbn. by rewrite Q1.
    - eexists. cbn. rewrite lookup_insert_eq. split; [done|]. by split. }
  eapply dwp_mono; [exact H6|]. clear H6. intros ok s3 (H3 & K3 & k3 & Hk3 & U3 & V3). assert (Hend : forall ok' s', srv_pend E (Some (c, off)) s' -> kept_rel c s3 s' -> conns s' = conns s3 -> (ok' = true -> ok = true) ->
    srv_pend E (Some (c, off)) s' /\ kept_rel c s s' /\ exists k', conns s' !! c = Some k' /\ username k' = username k /\ (ok' = true -> conn_has_v6 k' = has_v6 (pool s))).
  { intros ok' s' A1 A2 A3 A4. split; [done|]. split; [by eapply kept_rel_trans|]. exists k3. rewrite A3. split_and!; try done. auto. }
  assert (Kr : forall s0, kept_rel c s0 s0) by (intros s0; split; [apply ctl_refl|done]).
  destruct ok; cbn [negb]; [|by apply dwp_ret, Hend]. apply dwp_bind. eapply dwp_mono; [by apply (capsule_ok (Some (c, off)))|]. intros ok4 s4 (H4 & K4 & C4).
  destruct ok4; cbn [negb]; [|by apply dwp_ret, Hend]. apply dwp_bind. eapply dwp_conn; [by rewrite C4|]. destruct (conn_has_v6 k3); [|by apply dwp_ret, Hend].
  eapply dwp_mono; [by apply (capsule_ok (Some (c, off)))|]. intros ok5 s5 (H5 & K5 & C5). apply Hend; [done|by eapply kept_rel_trans|congruence|done].
Qed.

Lemma fail_release_ok s c off k : srv_pend E (Some (c, off)) s -> conns s !! c = Some k ->
  dwp (fail_release_ip c) s (fun r s' => r = false /\ srv_inv E s' /\ ctl_rel c s s' /\ exists k', conns s' !! c = Some k' /\ conn_idle k' /\ username k' = username k).
Proof.
  intros Hs Hk. unfold fail_release_ip. apply dwp_bind, dwp_get, dwp_bind. eapply dwp_conn; [exact Hk|]. destruct (pending_conn s c off k Hs Hk) as ((Ht & Hh & Ho & Ea & _) & He & Hsc).
  pose proof (sv_pool _ _ _ Hs) as Hp. rewrite Ea. apply dwp_bind. eapply dwp_lift; [by apply pool_release_eq; [|lia]|]. apply dwp_bind, dwp_modify, dwp_bind. eapply dwp_modify_conn; [exact Hk|]. apply dwp_ret.
  set (k' := k <| assigned_ip := 0 |> <| conn_has_v6 := false |> <| assigned_ip6 := replicate 16 0 |> <| masque_stream_id := 0 |>). destruct (sv_pending _ _ _ Hs c off eq_refl) as (_ & Hslot & _).
  assert (Hid : <[Z.to_nat off := None]> (sessions s) = sessions s) by (by apply list_insert_id). split_and!; try done.
  - eapply (pend_same E HE None (moved s ((pool s) <| used ::= <[Z.to_nat off := false]> |>) off None c k' (n_sessions s))); [|unfold same_tables; cbn; rewrite Hid; split_and!; done || lia].
    apply (move_inv (Some (c, off)) None s _ false None None c k k' off (n_sessions s)); try done; [by right|by left|by left|apply pool_mark; [done|lia]|by left|split; [done|by intros [?|?]]|by left|by rewrite Hid, (sv_count _ _ _ Hs)|apply (sv_room _ _ _ Hs)].
  - split_and!; try done; [intros c0 Hc; cbn; by rewrite lookup_insert_ne|]. exists []. by rewrite app_nil_r.
  - exists k'. cbn. rewrite lookup_insert_eq. by split_and!.
Qed.

Lemma register_ok s c off k : srv_pend E (Some (c, off)) s -> conns s !! c = Some k -> conn_has_v6 k = has_v6 (pool s) -> n_sessions s < max_clients s ->
  dwp (register_session E c) s (fun _ s' => srv_inv E s' /\ ctl_rel c s s' /\ exists k', conns s' !! c = Some k' /\ username k' = username k /\ tunnel_established k' = true).
Proof.
  intros Hs Hk Hv6 Hroom. unfold register_session. apply dwp_bind. eapply dwp_modify_conn; [exact Hk|]. set (k' := k <| tunnel_established := true |>). set (s1 := s <| conns ::= <[c := k']> |>).
  apply dwp_bind, dwp_get, dwp_bind. eapply (dwp_conn c k'); [cbn; by rewrite lookup_insert_eq|]. destruct (pending_conn s c off k Hs Hk) as ((Ht & Hh & Ho & Ea & P6) & He & Hsc). pose proof (sv_pool _ _ _ Hs) as Hp. destruct (po_base _ Hp) as [Hb0 Hb].
  pose proof (po_size _ Hp) as Hsz. unfold MQVPN_ADDR_POOL_MAX in Hsz. change (assigned_ip k') with (assigned_ip k). change (pool s1) with (pool s). change (sessions s1) with (sessions s). rewrite Ea. replace (base (pool s) + off - base (pool s)) with off by lia. rewrite u32_small by lia. cbv zeta.
  unfold MQVPN_ADDR_POOL_MAX. rewrite (proj2 (Z.ltb_lt 0 off)), (proj2 (Z.leb_le off 254)) by lia. cbn [andb]. destruct (sv_pending _ _ _ Hs c off eq_refl) as (Hu & Hslot & _). apply dwp_bind, dwp_bind. eapply dwp_lift; [exact Hslot|]. apply dwp_modify, dwp_bind.
  set (s2 := s1 <| sessions ::= _ |> <| n_sessions ::= _ |>). assert (Hlt : (Z.to_nat off < length (sessions s))%nat) by (rewrite (sv_len _ _ _ Hs); lia).
  assert (H2 : srv_inv E s2).
  { eapply (pend_same E HE None (moved s (pool s) off (Some c) c k' (n_sessions s + 1))); [|unfold same_tables; cbn; split_and!; done || lia].
    assert (Hlive : conn_live (moved s (pool s) off (Some c) c k' (n_sessions s + 1)) c k').
    { split_and!; try done. exists off. split_and!; try done; try (cbn; lia); [by apply list_lookup_insert_eq|]. intros H6. apply P6. cbn in H6. by rewrite Hv6. }
    apply (move_inv (Some (c, off)) None s (pool s) true None (Some c) c k k' off (n_sessions s + 1)); try done; [by right|by left|by left| |by right|split; [by left|done]|by right| |lia].
    - split_and!; try done. intros o Hor. case_decide; [subst o; split; [done|by intros _]|done].
    - rewrite (sv_count _ _ _ Hs). pose proof (live_slots_insert (sessions s) (Z.to_nat off) None (Some c) Hslot) as Hc. cbv iota in Hc. lia. }
  eapply dwp_mono; [by apply (check_ok None)|]. intros [] s3 ->. apply dwp_bind, dwp_get.
  assert (C2 : ctl_rel c s s2) by (split_and!; try done; [intros c0 Hc; cbn; by rewrite lookup_insert_ne|]; exists []; by rewrite app_nil_r).
  assert (Hk2 : exists k', conns s2 !! c = Some k' /\ username k' = username k /\ tunnel_established k' = true) by (exists k'; cbn; by rewrite lookup_insert_eq).
  destruct (v_has_connected E); [apply dwp_vemit|by apply dwp_skip]. split; [eapply pend_same; [done|exact H2|apply same_emit]|]. split; [eapply ctl_trans; [exact C2|by apply ctl_emit]|done].
Qed.

(** The lease of an address. *)
Lemma lease_pend s c k p ip : srv_inv E s -> conns s !! c = Some k -> conn_idle k -> h3_conn k = true -> mqvpn_addr_pool_alloc (pool s) = Some (Some (p, ip)) ->
  exists off, srv_pend E (Some (c, off)) (s <| pool := p |> <| conns ::= <[c := k <| assigned_ip := ip |>]> |>) /\ has_v6 p = has_v6 (pool s).
Proof.
  intros Hs Hk Hi Hh Ea. pose proof (sv_pool _ _ _ Hs) as Hp. destruct (pool_alloc_ok (pool s) Hp) as (r & Er & Ho). rewrite Ea in Er. injection Er as <-. destruct Ho as (off & Hoff & Hfree & -> & ->). exists off. split; [|done].
  pose proof (po_size _ Hp) as Hsz. unfold MQVPN_ADDR_POOL_MAX in Hsz.
  assert (Hslot : sessions s !! Z.to_nat off = Some None).
  { destruct (lookup_lt_is_Some_2 (sessions s) (Z.to_nat off)) as [x Hx]; [rewrite (sv_len _ _ _ Hs); lia|]. destruct x as [c0|]; [|done]. destruct Hfree. pose proof (sv_leased _ _ _ Hs _ c0 Hx) as Hu. by rewrite Z2Nat.id in Hu by lia. }
  assert (Hid : <[Z.to_nat off := None]> (sessions s) = sessions s) by (by apply list_insert_id). set (p' := (pool s) <| used ::= _ |> <| pool_next := off + 1 |>). set (k' := k <| assigned_ip := base (pool s) + off |>).
  eapply (pend_same E HE _ (moved s p' off None c k' (n_sessions s))); [|unfold same_tables; cbn; rewrite Hid; split_and!; done || lia]. destruct (sv_conns _ _ _ Hs c k Hk) as (_ & He & _). destruct Hi as (I1 & I2 & I3).
  apply (move_inv None (Some (c, off)) s p' true None None c k k' off (n_sessions s)); try done; [by left|by right|by left| | |split; [by right|done]|by left|by rewrite Hid, (sv_count _ _ _ Hs)|apply (sv_room _ _ _ Hs)].
  - destruct (mark_used (pool s) off true Hp ltac:(lia)) as [Hp' Hu]. split_and!; try done. destruct Hp'. split; try done. cbn. lia.
  - unfold conn_state. rewrite decide_True by done. split_and!; try done; try (cbn; lia). cbn. by rewrite I3.
Qed.

(** What an answered request leaves behind. *)
Definition response_post (c : Z) (s : mqvpn_server_t) (k : svr_conn_t) (r : bool) (s' : mqvpn_server_t) : Prop :=
  srv_inv E s' /\ ctl_rel c s s' /\ exists k', conns s' !! c = Some k' /\ username k' = username k /\ tunnel_established k' = r.

Lemma response_ok s c sid k hdrs : srv_inv E s -> conns s !! c = Some k -> conn_idle k -> h3_conn k = true -> is_Some (streams s !! (c, sid)) ->
  dwp (svr_masque_send_response E c sid hdrs) s (response_post c s k).
Proof.
  intros Hs Hk Hi Hh [st Hst]. unfold svr_masque_send_response. apply dwp_bind, dwp_get. destruct (Z.leb_spec (max_clients s) (n_sessions s)) as [Hfull|Hroom].
  { apply dwp_bind. eapply dwp_mono; [by apply (answer_ok None)|]. intros [] s1 (H1 & (K1 & _) & C1). apply dwp_ret. split_and!; try done. exists k. rewrite C1. split_and!; try done. apply Hi. }
  apply dwp_bind. eapply dwp_mono; [by apply (negotiate_ok None)|]. intros [] s1 (H1 & K1 & k1 & Hk1 & Ha1 & U1). apply dwp_bind. eapply dwp_conn; [exact Hk1|]. apply dwp_bind, dwp_vask. apply dwp_bind, dwp_vemit.
  set (r := v_send_headers E (svr_calls s1)). match goal with |- dwp _ ?x _ => set (s2 := x) end.
  assert (H2 : srv_inv E s2) by (eapply pend_same; [done|exact H1|]; eapply same_trans; [apply same_ask|apply same_emit]).
  assert (K2 : kept_rel c s s2) by (eapply kept_rel_trans; [exact K1|]; split; [|done]; eapply ctl_trans; [apply ctl_ask|by apply ctl_emit]).
  assert (Hi1 : conn_idle k1) by (destruct Ha1 as (A1 & _ & A3 & A4 & _); destruct Hi as (I1 & I2 & I3); split_and!; congruence). assert (Hh1 : h3_conn k1 = true) by (by apply Ha1).
  destruct (r <? 0); [apply dwp_ret; split_and!; [done|apply K2|]; exists k1; split_and!; try done; apply Hi1|].
  apply dwp_bind. eapply dwp_lift; [exact Hst|]. apply dwp_bind, dwp_modify, dwp_bind. eapply (dwp_modify_conn c _ k1); [exact Hk1|]. set (k3 := k1 <| masque_stream_id := sid |>). match goal with |- dwp _ ?x _ => set (s3 := x) end.
  destruct K2 as (C2 & Q1 & Q2 & Q3 & Q4).
  assert (H3 : srv_inv E s3).
  { destruct (sv_conns _ _ _ H2 c k1 Hk1) as (_ & He & _). eapply (pend_put E None (s2 <| streams ::= <[(c, sid) := st <| header_sent := true |>]> |>) c k1 k3); [|done|by split_and!|exact He].
    destruct H2 as [P1 P2 P3 P4 P5 P6 P7 P8 P9 P10 P11 P12 P13 P14]. split; try done. intros c0 sid0 st0. cbn. intros Hx. destruct (decide ((c, sid) = (c0, sid0))) as [[= <- <-]|Hne]; [by exists k1|]. rewrite lookup_insert_ne in Hx by done. by eapply P11. }
  assert (C3 : ctl_rel c s s3) by (eapply ctl_trans; [exact C2|]; split_and!; try done; [intros c0 Hc; cbn; by rewrite lookup_insert_ne|]; exists []; by rewrite app_nil_r).
  assert (Hk3 : conns s3 !! c = Some k3) by (cbn; by rewrite lookup_insert_eq). assert (Hp3 : pool s3 = pool s) by exact Q1.
  apply dwp_bind. destruct (pool_alloc_ok (pool s) (sv_pool _ _ _ Hs)) as (a & Ea & _). eapply dwp_lift; [exact Ea|]. destruct a as [[p ip]|].
  2: { apply dwp_ret. split_and!; try done. exists k3. split_and!; try done. apply Hi1. }
  apply dwp_bind, dwp_modify, dwp_bind. eapply (dwp_modify_conn c _ k3); [exact Hk3|]. set (k4 := k3 <| assigned_ip := ip |>). match goal with |- dwp _ ?x _ => set (s4 := x) end.
  destruct (lease_pend s3 c k3 p ip H3 Hk3 Hi1 Hh1) as (off & H4 & E6); [by rewrite Hp3|]. assert (C4 : ctl_rel c s s4) by (eapply ctl_trans; [exact C3|]; split_and!; try done; [intros c0 Hc; cbn; by rewrite lookup_insert_ne|]; exists []; by rewrite app_nil_r).
  apply dwp_bind. eapply dwp_mono; [apply (assignments_ok s4 c off sid k4 H4); [cbn; by rewrite lookup_insert_eq|apply Hi1]|]. intros ok s5 (H5 & (C5 & R1 & R2 & R3 & R4) & k5 & Hk5 & U5 & V5). destruct ok; cbn [negb].
  - apply dwp_bind. eapply dwp_mono; [apply (register_ok s5 c off k5 H5 Hk5); [rewrite V5 by done; by rewrite R1|]|].
    + destruct C5 as (_ & _ & Em & _). rewrite R3, Em. destruct C4 as (_ & _ & Em4 & _). rewrite Em4. change (n_sessions s4) with (n_sessions s2). rewrite Q3. lia.
    + intros [] s6 (H6 & C6 & k6 & Hk6 & U6 & T6). apply dwp_ret. split_and!; [done|exact (ctl_trans _ _ _ _ C4 (ctl_trans _ _ _ _ C5 C6))|]. exists k6. split_and!; try done. rewrite U6, U5. exact U1.
  - eapply dwp_mono; [by apply (fail_release_ok s5 c off k5)|]. intros b s6 (-> & H6 & C6 & k6 & Hk6 & I6 & U6). split_and!; [done|exact (ctl_trans _ _ _ _ C4 (ctl_trans _ _ _ _ C5 C6))|]. exists k6. split_and!; [done|rewrite U6, U5; exact U1|apply I6].
Qed.
End sess.
