(* ===== verification/ServerOps.v ===== *)
(** * The server's control operations

    What each operation on connections, streams and users does to a consistent
    server: it does not fault, the sessions stay consistent, no other
    connection changes, and a tunnel comes up only for a caller that is
    entitled to one. *)

From Stdlib Require Import String.
From S2P Require Import Prelude Wire Ring ReorderRx RxFlow RxInv RxStep RxTable RxEngine ReorderTx TxProofs Icmp Gate AddrPool Hybrid Client TunFrame StateOpt Auth ServerConn ServerInv ServerSess.

#[local] Abbreviation length := List.length.
Open Scope list_scope.

(** ** Who is entitled to a tunnel *)

(** A request with these headers, under this name. *)
Definition entitled (a : svr_auth_config) (headers : list (list Z * list Z)) (name : list Z) : Prop :=
  svr_auth_required a = false \/ exists tok, (text "authorization", text "Bearer " ++ tok) ∈ headers /\ credential a tok name.

Lemma parse_header_token out h tok : auth_token (parse_header out h) = Some tok -> auth_token out = Some tok \/ h = (text "authorization", text "Bearer " ++ tok).
Proof.
  destruct h as [name value]. unfold parse_header. set (o1 := if bool_decide (name = text ":method") && _ then _ else _). set (o2 := if bool_decide (name = text ":protocol") && _ then _ else _).
  set (o3 := if bool_decide (name = text ":scheme") && _ then _ else _). set (o4 := if bool_decide (name = text ":path") && _ then _ else _). set (o5 := if bool_decide (name = text "capsule-protocol") && _ then _ else _).
  assert (H5 : auth_token o5 = auth_token out) by (subst o5 o4 o3 o2 o1; repeat case_match; done). clearbody o5. clear o1 o2 o3 o4. set (o6 := if bool_decide (name = text "authorization") && _ && _ then _ else _).
  intros H. assert (H6 : auth_token o6 = Some tok) by (revert H; repeat case_match; done). clear H. revert H6. subst o6.
  destruct (bool_decide (name = text "authorization")) eqn:En; cbn [andb]; [|rewrite H5; by left]. destruct (7 <? blen value); cbn [andb]; [|rewrite H5; by left].
  destruct (bool_decide (take 7 value = text "Bearer ")) eqn:Ev; [|rewrite H5; by left]. intros [= <-]. right. apply bool_decide_eq_true in En, Ev. subst name. f_equal. by rewrite <- Ev, take_drop.
Qed.

Lemma parse_token headers tok : auth_token (svr_parse_request_headers headers) = Some tok -> (text "authorization", text "Bearer " ++ tok) ∈ headers.
Proof.
  unfold svr_parse_request_headers. assert (Hgen : forall out, auth_token (fold_left parse_header headers out) = Some tok -> auth_token out = Some tok \/ (text "authorization", text "Bearer " ++ tok) ∈ headers).
  { induction headers as [|h hs IH]; intros out; cbn [fold_left]; [by left|]. intros H. destruct (IH _ H) as [H1|H1]; [|right; by right]. destruct (parse_header_token out h tok H1) as [?|<-]; [by left|right; by left]. }
  intros H. by destruct (Hgen no_headers H).
Qed.

Lemma auth_check_name a tok name : svr_auth_check a tok 64 = Some name -> snprintf_cap 64 name = name.
Proof.
  unfold svr_auth_check, snprintf_cap. destruct tok; [|done]. destruct (negb _); [done|]. destruct (key_matches _ _); intros [= <-].
  - reflexivity.
  - destruct (List.find _ _) as [u|]; cbn [fmap option_fmap option_map default from_option id]; [by rewrite take_take|done].
Qed.

Lemma auth_entitled a headers name : auth_wf a -> Forall (fun h => bytes_ok h.2) headers -> svr_auth_check a (auth_token (svr_parse_request_headers headers)) 64 = Some name -> entitled a headers name.
Proof.
  intros Ha Hb Hc. destruct (auth_token (svr_parse_request_headers headers)) as [tok|] eqn:Et; [|done]. apply parse_token in Et. right. exists tok. split; [done|].
  assert (Ht : bytes_ok tok) by (rewrite Forall_forall in Hb; specialize (Hb _ Et); cbn [snd] in Hb; by apply Forall_app in Hb as [_ ?]). pose proof (auth_check_ok a tok Ha Ht) as H. by rewrite Hc in H.
Qed.

Section ops.
Context (E : server_env) (HE : server_env_ok E).

(** ** The request *)

(** A connection was served: the tunnel is up only for an entitled caller. *)
Definition request_post (c : Z) (headers : list (list Z * list Z)) (s s' : mqvpn_server_t) : Prop :=
  srv_inv E s' /\ ctl_rel c s s' /\ exists k', conns s' !! c = Some k' /\ (tunnel_established k' = true -> entitled (sv_auth (sconfig s)) headers (username k')).

Lemma put_connected s c k k' : srv_inv E s -> conns s !! c = Some k -> same_addr k k' -> reorder_tx k' = reorder_tx k -> reorder_rx k' = reorder_rx k -> srv_inv E (s <| conns ::= <[c := k']> |>).
Proof.
  intros Hs Hk Ha E1 E2. eapply pend_put; [exact Hs|exact Hk|exact Ha|]. destruct (sv_conns _ _ _ Hs c k Hk) as (_ & He & _). unfold engines_ok in *. by rewrite E1, E2.
Qed.

(** From the release of a previous session on. *)
Lemma request_tail_ok s c sid k hdrs : srv_inv E s -> conns s !! c = Some k -> h3_conn k = true -> is_Some (streams s !! (c, sid)) ->
  dwp (svr_session_release E c ;; svr_conn_reorder_engines_init E c ;; modify_conn c (fun k => k <| peer_reorder_supported := has_reorder_hdr hdrs |>) ;; svr_masque_send_response E c sid hdrs) s
    (fun _ s' => srv_inv E s' /\ ctl_rel c s s' /\ exists k', conns s' !! c = Some k' /\ username k' = username k).
Proof.
  intros Hs Hk Hh Hst. apply dwp_bind. eapply dwp_mono; [by apply release_ok|]. intros [] s1 (H1 & C1 & St1 & _ & k1 & Hk1 & Hi1 & Hh1 & U1 & _).
  apply dwp_bind. eapply dwp_mono; [by apply (engines_init_ok E HE None s1 c k1)|]. intros [] s2 (H2 & (C2 & _ & _ & _ & St2) & k2 & Hk2 & Ha2 & U2 & _).
  apply dwp_bind. eapply dwp_modify_conn; [exact Hk2|]. set (k3 := k2 <| peer_reorder_supported := _ |>). set (s3 := s2 <| conns ::= _ |>).
  assert (H3 : srv_inv E s3) by (by eapply put_connected). assert (Hk3 : conns s3 !! c = Some k3) by (cbn; by rewrite lookup_insert_eq).
  destruct Ha2 as (A1 & A2 & A3 & A4 & A5 & A6). assert (Hi3 : conn_idle k3) by (destruct Hi1 as (I1 & I2 & I3); split_and!; cbn; congruence).
  assert (Hh3 : h3_conn k3 = true) by (apply A6; congruence). assert (Hst3 : is_Some (streams s3 !! (c, sid))) by (change (streams s3) with (streams s2); by rewrite St2, St1).
  eapply dwp_mono; [by apply (response_ok E HE s3 c sid k3)|]. intros r s4 (H4 & C4 & k4 & Hk4 & U4 & _). split_and!; [done| |].
  - exact (ctl_trans _ _ _ _ C1 (ctl_trans _ _ _ _ C2 (ctl_trans _ _ _ _ (ctl_put c s2 k3) C4))).
  - exists k4. split; [done|]. rewrite U4. change (username k3) with (username k2). congruence.
Qed.

Lemma on_request_ok s c sid k headers : srv_inv E s -> conns s !! c = Some k -> h3_conn k = true -> tunnel_established k = false -> is_Some (streams s !! (c, sid)) -> Forall (fun h => bytes_ok h.2) headers ->
  dwp (svr_connect_ip_on_request E c sid (svr_parse_request_headers headers)) s (fun _ s' => request_post c headers s s').
Proof.
  intros Hs Hk Hh Ht Hst Hb. unfold svr_connect_ip_on_request. set (hdrs := svr_parse_request_headers headers).
  assert (Hno : forall s', srv_inv E s' -> ctl_rel c s s' -> conns s' = conns s -> request_post c headers s s').
  { intros s' H1 H2 H3. split_and!; try done. exists k. rewrite H3. split; [done|]. by rewrite Ht. }
  destruct (_ || _); [apply dwp_ret, Hno; try done; apply ctl_refl|]. apply dwp_bind, dwp_get. cbv zeta. apply dwp_bind. destruct (svr_auth_required (sv_auth (sconfig s))) eqn:Er.
  - destruct (svr_auth_check _ _ 64) as [u|] eqn:Ea; cycle 1.
    { apply dwp_bind. eapply dwp_mono; [by apply (answer_ok E HE None)|]. intros [] s1 (H1 & (K1 & _) & C1). apply dwp_ret. cbn [negb]. apply dwp_ret. by apply Hno. }
    pose proof (auth_entitled _ headers u (sv_authed _ _ _ Hs) Hb Ea) as Hent. pose proof (auth_check_name _ _ _ Ea) as Hu. apply dwp_bind, dwp_vask, dwp_bind. eapply dwp_modify_conn; [exact Hk|]. rewrite Hu. apply dwp_ret. cbn [negb].
    set (k1 := k <| connected_at_us := _ |> <| username := u |>). match goal with |- dwp _ ?x _ => set (s1 := x) end.
    assert (H1 : srv_inv E s1) by (eapply put_connected; [eapply pend_same; [done|exact Hs|apply same_ask]|exact Hk|by split_and!|done|done]).
    eapply dwp_mono; [apply (request_tail_ok s1 c sid k1); try done; cbn; by rewrite lookup_insert_eq|]. intros r s2 (H2 & C2 & k2 & Hk2 & U2). split_and!; [done| |].
    + exact (ctl_trans _ _ _ _ (ctl_ask c s) (ctl_trans _ _ _ _ (ctl_put c _ k1) C2)).
    + exists k2. split; [done|]. intros _. by rewrite U2.
  - apply dwp_ret. cbn [negb]. eapply dwp_mono; [by apply (request_tail_ok s c sid k)|]. intros r s2 (H2 & C2 & k2 & Hk2 & U2). split_and!; [done..|]. exists k2. split; [done|]. intros _. by left.
Qed.

Lemma put_stream s c sid st k : srv_inv E s -> conns s !! c = Some k -> h3_conn k = true -> srv_inv E (s <| streams ::= <[(c, sid) := st]> |>).
Proof.
  intros [P1 P2 P3 P4 P5 P6 P7 P8 P9 P10 P11 P12 P13 P14] Hk Hh. split; try done. intros c0 sid0 st0. cbn. intros Hx.
  destruct (decide ((c, sid) = (c0, sid0))) as [[= <- <-]|Hne]; [by exists k|]. rewrite lookup_insert_ne in Hx by done. by eapply P11.
Qed.

Lemma ctl_streams c s f : ctl_rel c s (s <| streams ::= f |>).
Proof. by apply ctl_none. Qed.

Lemma request_headers_ok s c sid st headers : srv_inv E s -> streams s !! (c, sid) = Some st -> Forall (fun h => bytes_ok h.2) headers ->
  dwp (cb_request_headers E c sid headers) s (fun _ s' => srv_inv E s' /\ ctl_rel c s s' /\ exists k k', conns s !! c = Some k /\ conns s' !! c = Some k' /\
    (tunnel_established k' = true -> k' = k \/ entitled (sv_auth (sconfig s)) headers (username k'))).
Proof.
  intros Hs Hst Hb. destruct (sv_streams _ _ _ Hs c sid st Hst) as (k & Hk & Hh). unfold cb_request_headers. apply dwp_bind, dwp_get, dwp_bind. eapply dwp_lift; [exact Hst|]. cbv zeta.
  assert (Hans : forall hs, dwp ((r ← v_ask (v_send_headers E); v_emit (SxHeaders c sid hs r)) ;; mret true) s (fun _ s' => srv_inv E s' /\ ctl_rel c s s' /\ exists k k', conns s !! c = Some k /\ conns s' !! c = Some k' /\
    (tunnel_established k' = true -> k' = k \/ entitled (sv_auth (sconfig s)) headers (username k')))).
  { intros hs. apply dwp_bind. eapply dwp_mono; [by apply (answer_ok E HE None)|]. intros [] s1 (H1 & (K1 & _) & C1). apply dwp_ret. split_and!; [done..|]. exists k, k. rewrite C1. split_and!; try done. by left. }
  destruct (_ && _); [|apply Hans]. apply dwp_bind. eapply dwp_conn; [exact Hk|]. destruct (tunnel_established k) eqn:Et; [apply Hans|]. apply dwp_bind, dwp_modify.
  eapply dwp_mono; [apply (on_request_ok _ c sid k headers)|]; try done; [by eapply put_stream|cbn; rewrite lookup_insert_eq; by eexists|].
  intros r s2 (H2 & C2 & k2 & Hk2 & Hent). split_and!; [done|exact (ctl_trans _ _ _ _ (ctl_streams c s _) C2)|]. exists k, k2. split_and!; try done. auto.
Qed.

(** ** Streams and connections *)

Lemma request_create_ok s c sid k : srv_inv E s -> conns s !! c = Some k -> h3_conn k = true -> dwp (cb_request_create E c sid) s (fun _ s' => srv_inv E s' /\ ctl_rel c s s' /\ conns s' = conns s).
Proof.
  intros Hs Hk Hh. unfold cb_request_create. apply dwp_bind, dwp_vask. set (s1 := s <| svr_calls ::= S |>). assert (H1 : srv_inv E s1) by (eapply pend_same; [done|exact Hs|apply same_ask]).
  destruct (v_malloc E _); cbn [negb]; [|apply dwp_ret; split_and!; try done; apply ctl_ask]. apply dwp_bind, dwp_modify, dwp_ret. split_and!; [by eapply put_stream| |done].
  exact (ctl_trans _ _ _ _ (ctl_ask c s) (ctl_streams c s1 _)).
Qed.

(** No connection got a tunnel. *)
Definition no_new_tunnel (c : Z) (s s' : mqvpn_server_t) : Prop :=
  forall k', conns s' !! c = Some k' -> tunnel_established k' = true -> exists k, conns s !! c = Some k /\ tunnel_established k = true /\ username k' = username k.

Lemma request_close_ok s c sid st : srv_inv E s -> streams s !! (c, sid) = Some st -> dwp (cb_request_close E c sid) s (fun _ s' => srv_inv E s' /\ ctl_rel c s s' /\ no_new_tunnel c s s').
Proof.
  intros Hs Hst. destruct (sv_streams _ _ _ Hs c sid st Hst) as (k & Hk & Hh). unfold cb_request_close. apply dwp_bind, dwp_get, dwp_bind. eapply dwp_lift; [exact Hst|]. apply dwp_bind.
  assert (Hr : dwp (if bool_decide (role st = SVR_STREAM_ROLE_CONNECT_IP) then svr_session_release E c else d_skip) s (fun _ s' => srv_inv E s' /\ ctl_rel c s s' /\ no_new_tunnel c s s')).
  { case_bool_decide; [|apply dwp_skip; split_and!; [done|apply ctl_refl|]; intros k' Hk' Ht; by exists k']. eapply dwp_mono; [by apply release_ok|]. intros [] s1 (H1 & C1 & _ & _ & k1 & Hk1 & (_ & Hi & _) & _).
    split_and!; try done. intros k' Hk' Ht. rewrite Hk1 in Hk'. apply Some_inj in Hk'. subst k'. congruence. }
  eapply dwp_mono; [exact Hr|]. intros [] s1 (H1 & C1 & N1). apply dwp_modify. split_and!.
  - destruct H1 as [P1 P2 P3 P4 P5 P6 P7 P8 P9 P10 P11 P12 P13 P14]. split; try done. intros c0 sid0 st0. cbn. intros [_ Hx]%lookup_delete_Some. by eapply P11.
  - exact (ctl_trans _ _ _ _ C1 (ctl_streams c s1 _)).
  - exact N1.
Qed.

(** A connection without an address and without streams goes. *)
Lemma conn_free_ok s c k : srv_inv E s -> conns s !! c = Some k -> conn_idle k -> (forall sid, streams s !! (c, sid) = None) ->
  dwp (svr_conn_free E c) s (fun _ s' => srv_inv E s' /\ ctl_rel c s s' /\ conns s' = delete c (conns s)).
Proof.
  intros Hs Hk Hi Hno. unfold svr_conn_free. apply dwp_bind. eapply dwp_conn; [exact Hk|]. apply dwp_bind.
  assert (Hemit : dwp (if negb (tx_scope k =? 0) && v_has_release_scope E then v_emit (SxScopeReleased (tx_scope k)) else d_skip) s (fun _ s' => same_tables s s' /\ ctl_rel c s s' /\ conns s' = conns s)).
  { destruct (_ && _); [apply dwp_vemit|apply dwp_skip]; (split_and!; [|by apply ctl_emit || apply ctl_refl|done]); [apply same_emit|apply same_refl]. }
  eapply dwp_mono; [exact Hemit|]. clear Hemit. intros [] s1 (T1 & C1 & Ec). assert (H1 : srv_inv E s1) by (by eapply pend_same). apply dwp_modify. split_and!.
  - destruct T1 as (_ & _ & Ep & Es & _ & _ & _ & Est & _). destruct H1 as [P1 P2 P3 P4 P5 P6 P7 P8 P9 P10 P11 P12 P13 P14]. split; try done; cbn [conns streams sessions pool n_sessions update].
    + intros i c0 Hi0. destruct (P4 i c0 Hi0) as (k0 & Hk0 & Ea & Hl). exists k0. split_and!; try done. apply lookup_delete_Some. split; [|done]. intros <-. rewrite Ec, Hk in Hk0. apply Some_inj in Hk0. subst k0. destruct Hl as (Ht & _). destruct Hi as (_ & Hf & _). congruence.
    + intros c0 k0 [_ Hk0]%lookup_delete_Some. by apply P8.
    + intros c0 sid st Hx. destruct (P11 c0 sid st Hx) as (k0 & Hk0 & Hh). exists k0. split; [|done]. apply lookup_delete_Some. split; [|done]. intros <-. rewrite Est, Hno in Hx. done.
  - eapply ctl_trans; [exact C1|]. split_and!; try done; [intros c0 Hc; cbn; by rewrite lookup_delete_ne|]. exists []. by rewrite app_nil_r.
  - cbn. by rewrite Ec.
Qed.

Lemma conn_close_ok s c k : srv_inv E s -> conns s !! c = Some k -> (forall sid, streams s !! (c, sid) = None) ->
  dwp (cb_h3_conn_close E c) s (fun _ s' => srv_inv E s' /\ ctl_rel c s s' /\ conns s' !! c = None).
Proof.
  intros Hs Hk Hno. unfold cb_h3_conn_close. apply dwp_bind. eapply dwp_mono; [by apply release_ok|]. intros [] s1 (H1 & C1 & St1 & _ & k1 & Hk1 & Hi1 & _).
  eapply dwp_mono; [apply (conn_free_ok s1 c k1); try done; by rewrite St1|]. intros [] s2 (H2 & C2 & Ec). split_and!; [done|by eapply ctl_trans|]. rewrite Ec. apply lookup_delete_eq.
Qed.

Lemma refuse_ok s c k : srv_inv E s -> conns s !! c = Some k -> h3_conn k = false -> dwp (cb_refuse E c) s (fun _ s' => srv_inv E s' /\ ctl_rel c s s' /\ conns s' !! c = None).
Proof.
  intros Hs Hk Hh. unfold cb_refuse. destruct (sv_conns _ _ _ Hs c k Hk) as (St & _). assert (Hi : conn_idle k) by (destruct St as [?|(_ & ? & _)]; [done|congruence]).
  eapply dwp_mono; [apply (conn_free_ok s c k); try done|].
  - intros sid. apply eq_None_not_Some. intros [st Hx]. destruct (sv_streams _ _ _ Hs c sid st Hx) as (k0 & Hk0 & Hh0). rewrite Hk in Hk0. apply Some_inj in Hk0. congruence.
  - intros [] s2 (H2 & C2 & Ec). split_and!; [done..|]. rewrite Ec. apply lookup_delete_eq.
Qed.

Lemma h3_create_ok s c k : srv_inv E s -> conns s !! c = Some k -> dwp (cb_h3_conn_create E c) s (fun _ s' => srv_inv E s' /\ ctl_rel c s s' /\ no_new_tunnel c s s').
Proof.
  intros Hs Hk. unfold cb_h3_conn_create. apply dwp_bind. eapply dwp_modify_conn; [exact Hk|]. set (k1 := k <| h3_conn := true |>). set (s1 := s <| conns ::= _ |>).
  assert (H1 : srv_inv E s1) by (by eapply put_connected). eapply dwp_mono; [apply (engines_init_ok E HE None s1 c k1); [done|cbn; by rewrite lookup_insert_eq]|].
  intros [] s2 (H2 & (C2 & _) & k2 & Hk2 & (_ & _ & _ & T2 & _) & U2 & _). split_and!; [done|exact (ctl_trans _ _ _ _ (ctl_put c s k1) C2)|].
  intros k' Hk' Ht. rewrite Hk2 in Hk'. apply Some_inj in Hk'. subst k'. exists k. split_and!; [done|by rewrite <- Ht, T2|by rewrite U2].
Qed.

Lemma accept_ok s : srv_inv E s ->
  dwp (cb_accept E) s (fun r s' => srv_inv E s' /\ ctl_rel (next_tx_scope s + 1) s s' /\
    match r with
    | Some c => c = next_tx_scope s + 1 /\ conns s !! c = None /\ exists k, conns s' !! c = Some k /\ tunnel_established k = false
    | None => conns s' = conns s
    end).
Proof.
  intros Hs. unfold cb_accept. apply dwp_bind, dwp_vask. set (s1 := s <| svr_calls ::= S |>). assert (H1 : srv_inv E s1) by (eapply pend_same; [done|exact Hs|apply same_ask]).
  destruct (v_malloc E _); cbn [negb]; [|apply dwp_ret; split_and!; [done|apply ctl_ask|done]]. apply dwp_bind, dwp_get. change (next_tx_scope s1) with (next_tx_scope s). destruct (Z.eqb_spec (next_tx_scope s) (2 ^ 64 - 1)) as [Ef|Ef]; [apply dwp_ret; split_and!; [done|apply ctl_ask|done]|].
  cbv zeta. apply dwp_bind, dwp_modify, dwp_ret. set (k := new_svr_conn _ _). assert (Hfresh : conns s !! (next_tx_scope s + 1) = None) by (apply eq_None_not_Some; intros [k0 Hk0]; destruct (sv_conns _ _ _ Hs _ k0 Hk0) as (_ & _ & _ & Hr); lia).
  pose proof (sv_scope _ _ _ Hs) as Hsc. split_and!.
  - destruct H1 as [P1 P2 P3 P4 P5 P6 P7 P8 P9 P10 P11 P12 P13 P14]. split; cbn [conns streams sessions pool n_sessions next_tx_scope max_clients sconfig svr_calls update]; try done; try lia.
    + intros i c0 Hi0. destruct (P4 i c0 Hi0) as (k0 & Hk0 & Ea & Hl). exists k0. split_and!; try done. rewrite lookup_insert_ne; [done|]. intros <-. change (conns s1) with (conns s) in Hk0. congruence.
    + intros c0 k0 Hk0. change (next_tx_scope s1) with (next_tx_scope s) in P8. destruct (decide (next_tx_scope s + 1 = c0)) as [<-|Hne].
      * rewrite lookup_insert_eq in Hk0. apply Some_inj in Hk0. subst k0. split_and!; [by left|split; by intros ? ?|done| |lia]. lia.
      * rewrite lookup_insert_ne in Hk0 by done. destruct (P8 c0 k0 Hk0) as (A1 & A2 & A3 & A4). split_and!; try done; lia.
    + intros c0 sid st Hx. destruct (P11 c0 sid st Hx) as (k0 & Hk0 & Hh). exists k0. split; [|done]. rewrite lookup_insert_ne; [done|]. intros <-. change (conns s1) with (conns s) in Hk0. congruence.
  - split_and!; try done; [intros c0 Hc; cbn; by rewrite lookup_insert_ne|cbn; lia|]. exists []. by rewrite app_nil_r.
  - done.
  - done.
  - exists k. cbn. by rewrite lookup_insert_eq.
Qed.

(** ** Users *)

Lemma put_users s a : srv_inv E s -> auth_wf a -> srv_inv E (s <| sconfig ::= fun g => g <| sv_auth := a |> |>).
Proof. intros [P1 P2 P3 P4 P5 P6 P7 P8 P9 P10 P11 P12 P13 P14] Ha. by split. Qed.

Lemma add_user_ok s name key : srv_inv E s -> bytes_ok name -> bytes_ok key ->
  dwp (server_add_user name key) s (fun _ s' => srv_inv E s' /\ max_clients s' = max_clients s /\ conns s' = conns s /\ svr_out s' = svr_out s /\ sv_auth (sconfig s') = user_do (sv_auth (sconfig s)) (UAdd name key)).
Proof.
  intros Hs Hn Hk. unfold server_add_user. apply dwp_bind, dwp_get. destruct (user_do_refines (sv_auth (sconfig s)) (UAdd name key) (sv_authed _ _ _ Hs) (conj Hn Hk)) as (Hw & _). cbn [user_do] in *.
  destruct (mqvpn_server_add_user (sv_auth (sconfig s)) name key) as [r a]. apply dwp_bind, dwp_modify, dwp_ret. split_and!; try done. by apply put_users.
Qed.

(** The connections among [slots] that the user holds. *)
Definition user_closes (s : mqvpn_server_t) (name : list Z) (slots : list (option Z)) : list svr_fx :=
  omap (fun x => c ← x; k ← conns s !! c; if bool_decide (username k = name) then Some (SxConnClose c) else None) slots.

Lemma closes_same s s' name l : conns s' = conns s -> user_closes s' name l = user_closes s name l.
Proof. intros Hc. unfold user_closes. by rewrite Hc. Qed.

Lemma close_sessions_ok s n off name : srv_inv E s -> 0 <= off -> off + Z.of_nat n <= 255 ->
  dwp (close_user_sessions n off name) s (fun _ s' => same_tables s s' /\ svr_out s' = svr_out s ++ user_closes s name (take n (drop (Z.to_nat off) (sessions s)))).
Proof.
  revert s off. induction n as [|n IH]; intros s off Hs Ho Hn; cbn [close_user_sessions]; [apply dwp_skip; split; [apply same_refl|by rewrite take_0, app_nil_r]|].
  apply dwp_bind, dwp_get, dwp_bind. destruct (lookup_lt_is_Some_2 (sessions s) (Z.to_nat off)) as [x Hx]; [rewrite (sv_len _ _ _ Hs); lia|]. eapply dwp_lift; [exact Hx|]. rewrite (drop_S _ x _ Hx). cbn [take].
  replace (S (Z.to_nat off)) with (Z.to_nat (off + 1)) by lia. apply dwp_bind. set (l := take n _).
  assert (Hone : dwp (match x with None => d_skip | Some c => k ← get_conn c; if bool_decide (username k = name) then v_emit (SxConnClose c) else d_skip end) s
    (fun _ s' => same_tables s s' /\ svr_out s' = svr_out s ++ user_closes s name [x])).
  { destruct x as [c|]; [|apply dwp_skip; split; [apply same_refl|by rewrite app_nil_r]]. destruct (sv_slot _ _ _ Hs _ c Hx) as (k & Hk & _). apply dwp_bind. eapply dwp_conn; [exact Hk|]. unfold user_closes. cbn [omap list_omap mbind option_bind]. rewrite Hk. cbn [mbind option_bind].
    case_bool_decide; [apply dwp_vemit; split; [apply same_emit|done]|apply dwp_skip; split; [apply same_refl|by rewrite app_nil_r]]. }
  eapply dwp_mono; [exact Hone|]. clear Hone. intros [] s1 (T1 & O1). pose proof T1 as (_ & _ & _ & Es & _ & _ & Ec & _). eapply dwp_mono; [apply (IH s1 (off + 1)); [by eapply pend_same|lia|lia]|].
  intros [] s2 (T2 & O2). split; [by eapply same_trans|]. rewrite O2, O1, Es, (closes_same s s1) by done. rewrite <- app_assoc. f_equal. unfold user_closes. rewrite <- omap_app. done.
Qed.

Lemma remove_user_ok s name : srv_inv E s -> bytes_ok name ->
  dwp (mqvpn_server_remove_user name) s (fun r s' => srv_inv E s' /\ (r = MQVPN_OK <-> name <> [] /\ is_Some (drop_user (users (sv_auth (sconfig s))) name)) /\
    max_clients s' = max_clients s /\ conns s' = conns s /\ sv_auth (sconfig s') = user_do (sv_auth (sconfig s)) (URemove name) /\
    exists new, svr_out s' = svr_out s ++ new /\ forall x, x ∈ new <-> r = MQVPN_OK /\ exists c k, x = SxConnClose c /\ conns s !! c = Some k /\ tunnel_established k = true /\ username k = name).
Proof.
  intros Hs Hn. unfold mqvpn_server_remove_user. apply dwp_bind, dwp_get. destruct (user_do_refines (sv_auth (sconfig s)) (URemove name) (sv_authed _ _ _ Hs) Hn) as (Hw & _). cbn [user_do] in *.
  assert (Hno : forall r a, r <> MQVPN_OK -> ~ (name <> [] /\ is_Some (drop_user (users (sv_auth (sconfig s))) name)) -> a = sv_auth (sconfig s) -> srv_inv E s /\ (r = MQVPN_OK <-> name <> [] /\ is_Some (drop_user (users (sv_auth (sconfig s))) name)) /\ max_clients s = max_clients s /\ conns s = conns s /\ sv_auth (sconfig s) = a /\ exists new, svr_out s = svr_out s ++ new /\ forall x, x ∈ new <-> r = MQVPN_OK /\ exists c k, x = SxConnClose c /\ conns s !! c = Some k /\ tunnel_established k = true /\ username k = name).
  { intros r a Hr Hu ->. split_and!; try done. exists []. rewrite app_nil_r. split; [done|]. intros x. split; [by intros ?%elem_of_nil|by intros [? _]]. }
  case_bool_decide as En; [apply dwp_ret, Hno; try done; tauto|]. destruct (drop_user _ name) as [us|] eqn:Ed; [|apply dwp_ret, Hno; try done; by intros (_ & ? & ?)]. apply dwp_bind, dwp_modify. set (s1 := s <| sconfig ::= _ |>).
  assert (H1 : srv_inv E s1) by (by apply put_users). apply dwp_bind. eapply dwp_mono; [apply (close_sessions_ok s1 _ 1 name H1); [lia|unfold MQVPN_ADDR_POOL_MAX; lia]|]. intros [] s2 (T2 & O2). apply dwp_ret.
  pose proof T2 as (Ecf & _ & _ & Es & _ & Em & Ec & _). split_and!; [by eapply pend_same|by split; [split; [done|by eexists]|]|done|done|by rewrite Ecf|]. eexists. split; [exact O2|]. change (sessions s1) with (sessions s). rewrite (closes_same s s1) by done.
  rewrite take_ge by (rewrite length_drop, (sv_len _ _ _ Hs); unfold MQVPN_ADDR_POOL_MAX; lia). intros x. unfold user_closes. rewrite list_elem_of_omap. split.
  - intros (slot & Hin & Hx). split; [done|]. apply bind_Some in Hx as (c & -> & Hx). apply bind_Some in Hx as (k & Hk & Hx). case_bool_decide as Eu; [|done]. apply Some_inj in Hx. exists c, k. split_and!; try done.
    apply list_elem_of_lookup in Hin as [i Hi]. rewrite lookup_drop in Hi. destruct (sv_slot _ _ _ Hs _ c Hi) as (k0 & Hk0 & _ & Hl & _). rewrite Hk in Hk0. apply Some_inj in Hk0. by subst k0.
  - intros (_ & c & k & -> & Hk & Ht & Hu). destruct (sv_conns _ _ _ Hs c k Hk) as ([(_ & Hf & _)|Hl] & _); [congruence|]. destruct Hl as (_ & _ & _ & off & Hoff & _ & Hslot & _). exists (Some c). split.
    + apply list_elem_of_lookup. exists (Z.to_nat off - 1)%nat. rewrite lookup_drop. by replace (Z.to_nat 1 + (Z.to_nat off - 1))%nat with (Z.to_nat off) by lia.
    + cbn [mbind option_bind]. rewrite Hk. cbn [mbind option_bind]. by rewrite bool_decide_eq_true_2.
Qed.

End ops.
