(* ===== verification/ServerFwd.v ===== *)
(** * What the server does with packets of a client

    A packet that a client sent is handed to the tunnel only when its source is
    the address the client was assigned; when its hops are used up the client
    gets an ICMP error; nothing else happens. *)

From S2P Require Import Prelude Wire Ring ReorderRx RxFlow RxInv RxStep RxTable RxEngine ReorderTx TxProofs Icmp Gate FlowSched AddrPool Hybrid PathFsm Client RtxTable RedundantTx RedundantPorts TunFrame StateOpt ClientLane LaneProofs LaneRun Auth ServerConn ServerData ServerInv ServerSess.

Lemma be32_length v : blen (be32_list v) = 4.
Proof. done. Qed.

Lemma get6_length p off : length (base6 p) = 16%nat -> blen (mqvpn_addr_pool_get6 p off) = 16.
Proof. intros H. unfold mqvpn_addr_pool_get6, blen. rewrite length_app, length_take, H. done. Qed.

(** The source address belongs to the connection. *)
Definition src_owned (k : svr_conn_t) (pkt : list Z) : Prop :=
  (byte_at pkt 0 / 16 = 4 /\ 20 <= blen pkt /\ take 4 (drop 12 pkt) = be32_list (assigned_ip k)) \/
  (byte_at pkt 0 / 16 = 6 /\ 40 <= blen pkt /\ conn_has_v6 k = true /\ take 16 (drop 8 pkt) = assigned_ip6 k).

(** The TTL or the hop limit. *)
Definition hops (pkt : list Z) : Z := byte_at pkt (if byte_at pkt 0 / 16 =? 4 then 8 else 7).

(** An ICMP error that the server wrote in its own name. *)
Definition server_icmp (p : mqvpn_addr_pool_t) (q : list Z) : Prop :=
  exists type code mtu orig, mqvpn_icmp_send_v4 (be32_list (mqvpn_addr_pool_server_addr p)) type code mtu orig = Some (Some q) \/
    has_v6 p = true /\ mqvpn_icmp_send_v6 (mqvpn_addr_pool_server_addr6 p) type code mtu orig = Some (Some q).

Section fwd.
Context (E : server_env) (HE : server_env_ok E).

(** What becomes of one packet of connection [c]. *)
Inductive fwd_fx (p : mqvpn_addr_pool_t) (c : Z) (k : svr_conn_t) (pkt : list Z) : list svr_fx -> Prop :=
| FwdDrop : ~ (src_owned k pkt /\ 2 <= hops pkt /\ blen pkt <= MQVPN_DGRAM_STACK_BUF) -> fwd_fx p c k pkt []
| FwdTun q : src_owned k pkt -> 2 <= hops pkt -> blen pkt <= PACKET_BUF_SIZE -> ttl_decrement (byte_at pkt 0 / 16) pkt = Some q -> fwd_fx p c k pkt [SxTun q]
| FwdIcmp q frame r : src_owned k pkt -> hops pkt <= 1 -> server_icmp p q -> v_masque_frame_pkt E 1400 (masque_stream_id k) q = Some frame ->
    fwd_fx p c k pkt [SxDgram c frame None r].

(** ** The answers *)

Lemma dwp_ptb s (Q : bool -> mqvpn_server_t -> Prop) : (forall ok s', same_tables s s' -> svr_out s' = svr_out s -> Q ok s') -> dwp (ptb_rate_allow E) s Q.
Proof.
  intros H. unfold ptb_rate_allow. apply dwp_bind, dwp_vask, dwp_bind, dwp_get. destruct (mqvpn_ptb_bucket_allow _ _) as [b ok]. apply dwp_bind, dwp_modify, dwp_ret.
  apply H; [|done]. unfold same_tables. cbn. split_and!; done || lia.
Qed.

Lemma icmp4_ok P s type code pkt out (Q : unit -> mqvpn_server_t -> Prop) : srv_pend E P s ->
  (forall s', same_tables s s' -> svr_out s' = svr_out s -> Q tt s') ->
  (forall q s', server_icmp (pool s) q -> same_tables s s' -> svr_out s' = svr_out s -> dwp (out q) s' Q) -> dwp (icmp_answer4 E type code pkt out) s Q.
Proof.
  intros Hs H0 H1. unfold icmp_answer4. apply dwp_bind, dwp_ptb. intros ok s1 T1 O1. destruct ok; cbn [negb]; [|by apply dwp_skip, H0]. apply dwp_bind, dwp_get, dwp_bind. pose proof T1 as (_ & _ & Ep & _).
  destruct (icmp4_total (srv_addr s1) type code 0 pkt (be32_length _)) as [r Er]. eapply dwp_lift; [exact Er|]. destruct r as [q|]; [|by apply dwp_skip, H0]. apply H1; try done. exists type, code, 0, pkt. left. by rewrite <- Ep.
Qed.

Lemma icmp6_ok P s type code pkt out (Q : unit -> mqvpn_server_t -> Prop) : srv_pend E P s ->
  (forall s', same_tables s s' -> svr_out s' = svr_out s -> Q tt s') ->
  (forall q s', server_icmp (pool s) q -> same_tables s s' -> svr_out s' = svr_out s -> dwp (out q) s' Q) -> dwp (icmp_answer6 E type code pkt out) s Q.
Proof.
  intros Hs H0 H1. unfold icmp_answer6. apply dwp_bind, dwp_get. destruct (has_v6 (pool s)) eqn:E6; cbn [negb]; [|apply dwp_skip, H0; [apply same_refl|done]].
  apply dwp_bind, dwp_ptb. intros ok s1 T1 O1. destruct ok; cbn [negb]; [|by apply dwp_skip, H0]. apply dwp_bind, dwp_get, dwp_bind. pose proof T1 as (_ & _ & Ep & _). destruct (sv_pool6 _ _ _ Hs E6) as [Hl _].
  assert (Hb : blen (srv_addr6 s1) = 16) by (unfold srv_addr6; rewrite Ep; by apply get6_length).
  destruct (icmp6_total (srv_addr6 s1) type code 0 pkt Hb) as [r Er]. eapply dwp_lift; [exact Er|]. destruct r as [q|]; [|by apply dwp_skip, H0]. apply H1; try done. exists type, code, 0, pkt. right. split; [done|]. by rewrite <- Ep.
Qed.

(** ** One packet *)

(** The tables are as before and these effects came. *)
Definition emitted (s s' : mqvpn_server_t) (new : list svr_fx) : Prop := same_tables s s' /\ svr_out s' = svr_out s ++ new.

Lemma emitted_none s s' : same_tables s s' -> svr_out s' = svr_out s -> emitted s s' [].
Proof. intros H1 H2. split; [done|]. by rewrite app_nil_r. Qed.

Lemma send_icmp_ok s c k q : conns s !! c = Some k ->
  dwp (send_icmp_via_datagram E c q) s (fun _ s' => emitted s s' [] \/ exists frame r, v_masque_frame_pkt E 1400 (masque_stream_id k) q = Some frame /\ emitted s s' [SxDgram c frame None r]).
Proof.
  intros Hk. unfold send_icmp_via_datagram. apply dwp_bind. eapply dwp_conn; [exact Hk|]. destruct (v_masque_frame_pkt E 1400 (masque_stream_id k) q) as [frame|] eqn:Ef; [|apply dwp_skip; left; apply emitted_none; [apply same_refl|done]].
  apply dwp_bind, dwp_vask, dwp_bind, dwp_vemit. set (r := v_datagram_send _ _ _ _ _). destruct (r =? 0); [apply dwp_modify|apply dwp_skip]; right; exists frame, r; (split; [done|]); (split; [|done]); unfold same_tables; cbn; split_and!; done || lia.
Qed.

Lemma srv_forward_copy_ok s v pkt q : ttl_decrement v pkt = Some q ->
  dwp (forward_copy E v pkt) s (fun _ s' => emitted s s' [SxTun q] \/ emitted s s' [] /\ MQVPN_DGRAM_STACK_BUF < blen pkt).
Proof.
  intros Eq. unfold forward_copy. rewrite Eq. apply dwp_bind.
  assert (Hgo : forall s1, same_tables s s1 -> svr_out s1 = svr_out s -> dwp (fwd_pkt ← d_lift (Some q); d_modify (fun s => s <| sbytes_rx ::= fun n => u64 (n + blen pkt) |> <| dgram_recv ::= fun n => u64 (n + 1) |>) ;; v_emit (SxTun fwd_pkt)) s1
    (fun _ s' => emitted s s' [SxTun q] \/ emitted s s' [] /\ MQVPN_DGRAM_STACK_BUF < blen pkt)).
  { intros s1 T1 O1. apply dwp_bind. eapply dwp_lift; [done|]. apply dwp_bind, dwp_modify, dwp_vemit. left. split; [eapply same_trans; [exact T1|]; unfold same_tables; cbn; split_and!; done || lia|]. cbn. by rewrite O1. }
  destruct (Z.leb_spec (blen pkt) MQVPN_DGRAM_STACK_BUF) as [Hl|Hl]; [apply dwp_ret; cbn [negb]; apply Hgo; [apply same_refl|done]|].
  apply dwp_vask. destruct (v_malloc E _); cbn [negb]; [apply Hgo; [apply same_ask|done]|]. apply dwp_skip. right. split; [|done]. apply emitted_none; [apply same_ask|done].
Qed.

Lemma srv_forward_inner_ip_ok s c k pkt : srv_inv E s -> conns s !! c = Some k -> conn_live s c k ->
  dwp (forward_inner_ip E c pkt) s (fun _ s' => exists new, fwd_fx (pool s) c k pkt new /\ emitted s s' new).
Proof.
  intros Hs Hk Hlive. unfold forward_inner_ip. apply dwp_bind. eapply dwp_conn; [exact Hk|]. pose proof (blen_nonneg pkt) as Hn.
  assert (Hdrop : ~ (src_owned k pkt /\ 2 <= hops pkt /\ blen pkt <= MQVPN_DGRAM_STACK_BUF) -> dwp d_skip s (fun _ s' => exists new, fwd_fx (pool s) c k pkt new /\ emitted s s' new)).
  { intros H. apply dwp_skip. exists []. split; [by apply FwdDrop|]. apply emitted_none; [apply same_refl|done]. }
  assert (Hcopy : src_owned k pkt -> 2 <= hops pkt -> blen pkt <= PACKET_BUF_SIZE -> 12 <= blen pkt -> dwp (forward_copy E (byte_at pkt 0 / 16) pkt) s (fun _ s' => exists new, fwd_fx (pool s) c k pkt new /\ emitted s s' new)).
  { intros H1 H2 H3 H4. destruct (ttl_total (byte_at pkt 0 / 16) pkt H4) as [q Eq]. eapply dwp_mono; [by apply srv_forward_copy_ok|]. intros [] s' [Hx|[Hx Hl]]; [exists [SxTun q]|exists []]; (split; [|done]); [by apply FwdTun|]. apply FwdDrop. lia. }
  assert (Hicmp : src_owned k pkt -> hops pkt <= 1 -> forall q s', server_icmp (pool s) q -> same_tables s s' -> svr_out s' = svr_out s ->
    dwp (send_icmp_via_datagram E c q) s' (fun _ s'' => exists new, fwd_fx (pool s) c k pkt new /\ emitted s s'' new)).
  { intros H1 H2 q s' Hq T1 O1. eapply dwp_mono; [apply (send_icmp_ok s' c k q); destruct T1 as (_ & _ & _ & _ & _ & _ & Ec & _); by rewrite Ec|]. intros [] s'' [[T2 O2]|(frame & r & Ef & T2 & O2)]; [exists []|exists [SxDgram c frame None r]].
    - split; [apply FwdDrop; lia|]. split; [by eapply same_trans|]. by rewrite O2, O1.
    - split; [by eapply FwdIcmp|]. split; [by eapply same_trans|]. by rewrite O2, O1. }
  assert (Hquiet : hops pkt <= 1 -> forall s', same_tables s s' -> svr_out s' = svr_out s -> exists new, fwd_fx (pool s) c k pkt new /\ emitted s s' new).
  { intros H2 s' T1 O1. exists []. split; [apply FwdDrop; lia|by apply emitted_none]. }
  destruct (Z.ltb_spec (blen pkt) 1) as [H1|H1]; [apply Hdrop; intros ([(_ & ? & _)|(_ & ? & _)] & _); lia|]. rewrite (rd_byte_at pkt 0) by lia. apply dwp_bind. eapply dwp_lift; [done|]. cbv zeta. rewrite Z.shiftr_div_pow2 by lia. change (2 ^ 4) with 16.
  destruct (Z.ltb_spec PACKET_BUF_SIZE (blen pkt)) as [H2|H2]; [apply Hdrop; unfold PACKET_BUF_SIZE, MQVPN_DGRAM_STACK_BUF in *; lia|]. unfold src_owned, hops in *. set (v := byte_at pkt 0 / 16) in *.
  destruct (Z.eqb_spec v 4) as [E4|N4].
  - destruct (Z.ltb_spec (blen pkt) 20) as [H20|H20]; [apply Hdrop; lia|]. apply dwp_bind. eapply dwp_lift; [apply same_bytes_ok; rewrite ?be32_length; lia|]. change (take (Z.to_nat 4) (be32_list (assigned_ip k))) with (be32_list (assigned_ip k)).
    change (Z.to_nat 4) with 4%nat. change (Z.to_nat 12) with 12%nat. case_bool_decide as Es; cbn [negb]; [|apply Hdrop; intros ([(_ & _ & ?)|(? & _)] & _); [done|lia]].
    apply dwp_bind. eapply dwp_lift; [apply rd_byte_at; lia|]. destruct (Z.leb_spec (byte_at pkt 8) 1) as [Ht|Ht]; [|apply Hcopy; [by left|lia..]].
    apply (icmp4_ok None s); [done|by apply Hquiet|apply Hicmp; [by left|done]].
  - destruct (Z.eqb_spec v 6) as [E6|N6]; [|apply Hdrop; lia]. destruct (Z.ltb_spec (blen pkt) 40) as [H40|H40]; [apply Hdrop; lia|]. destruct (conn_has_v6 k) eqn:Ev; cbn [negb]; [|apply Hdrop; intros ([(? & _)|(_ & _ & ? & _)] & _); [lia|done]].
    destruct Hlive as (_ & _ & Hv & off & _ & _ & _ & Ha). rewrite Ev in Hv. specialize (Ha (eq_sym Hv)). destruct (sv_pool6 _ _ _ Hs (eq_sym Hv)) as [Hl _]. assert (Hl6 : blen (assigned_ip6 k) = 16) by (rewrite Ha; by apply get6_length).
    assert (Htk : take (Z.to_nat 16) (assigned_ip6 k) = assigned_ip6 k) by (apply take_ge; unfold blen in Hl6; lia).
    apply dwp_bind. eapply dwp_lift; [apply same_bytes_ok; lia|]. rewrite Htk. change (Z.to_nat 16) with 16%nat. change (Z.to_nat 8) with 8%nat. case_bool_decide as Es; cbn [negb]; [|apply Hdrop; intros ([(? & _)|(_ & _ & _ & ?)] & _); [lia|done]].
    apply dwp_bind. eapply dwp_lift; [apply rd_byte_at; lia|]. destruct (Z.leb_spec (byte_at pkt 7) 1) as [Ht|Ht]; [|apply Hcopy; [by right|lia..]].
    apply (icmp6_ok None s); [done|by apply Hquiet|apply Hicmp; [by right|done]].
Qed.

(** ** Several packets *)

Lemma emitted_trans s1 s2 s3 n1 n2 : emitted s1 s2 n1 -> emitted s2 s3 n2 -> emitted s1 s3 (n1 ++ n2).
Proof. intros [T1 O1] [T2 O2]. split; [by eapply same_trans|]. by rewrite O2, O1, app_assoc. Qed.

Lemma live_same s s' c k : same_tables s s' -> conn_live s c k -> conn_live s' c k.
Proof. intros (_ & _ & Ep & Es & _). unfold conn_live. by rewrite Ep, Es. Qed.

Lemma srv_forward_all_ok s c k pkts : srv_inv E s -> conns s !! c = Some k -> conn_live s c k ->
  dwp (forward_all E c pkts) s (fun _ s' => exists outs, Forall2 (fwd_fx (pool s) c k) pkts outs /\ emitted s s' (concat outs)).
Proof.
  revert s. induction pkts as [|q pkts IH]; intros s Hs Hk Hl; cbn [forward_all]; [apply dwp_skip; exists []; split; [apply Forall2_nil_2|apply emitted_none; [apply same_refl|done]]|].
  apply dwp_bind. eapply dwp_mono; [by apply srv_forward_inner_ip_ok|]. intros [] s1 (new & Hn & H1). pose proof H1 as [T1 _]. pose proof T1 as (_ & _ & Ep & _ & _ & _ & Ec & _).
  eapply dwp_mono; [apply IH; [by eapply pend_same|by rewrite Ec|by eapply live_same]|]. intros [] s2 (outs & Ho & H2). rewrite Ep in Ho. exists (new :: outs). split; [by apply Forall2_cons_2|]. by eapply emitted_trans.
Qed.

(** ** What packets leave alone *)

(** The connection is the same but for its engines and counters. *)
Definition conn_kept (k k' : svr_conn_t) : Prop := same_addr k k' /\ username k' = username k /\ masque_stream_id k' = masque_stream_id k /\ eff_sched k' = eff_sched k.

Definition conns_kept (m m' : gmap Z svr_conn_t) : Prop := forall c, option_relation conn_kept (fun _ => False) (fun _ => False) (m !! c) (m' !! c).

Record data_rel (s s' : mqvpn_server_t) : Prop := {
  dr_conns : conns_kept (conns s) (conns s');
  dr_config : sconfig s' = sconfig s;
  dr_pool : pool s' = pool s;
  dr_sessions : sessions s' = sessions s;
  dr_count : n_sessions s' = n_sessions s;
  dr_max : max_clients s' = max_clients s;
  dr_streams : streams s' = streams s;
  dr_calls : (svr_calls s <= svr_calls s')%nat
}.

Lemma conn_kept_refl k : conn_kept k k.
Proof. by split_and!. Qed.

Lemma conns_kept_refl m : conns_kept m m.
Proof. intros c. destruct (m !! c); [apply conn_kept_refl|done]. Qed.

Lemma conns_kept_trans m1 m2 m3 : conns_kept m1 m2 -> conns_kept m2 m3 -> conns_kept m1 m3.
Proof.
  intros H1 H2 c. specialize (H1 c). specialize (H2 c). destruct (m1 !! c) as [k1|], (m2 !! c) as [k2|], (m3 !! c) as [k3|]; try done. cbn in *.
  destruct H1 as ((A1 & A2 & A3 & A4 & A5 & A6) & A7 & A8 & A9), H2 as ((B1 & B2 & B3 & B4 & B5 & B6) & B7 & B8 & B9). unfold conn_kept, same_addr. split_and!; try congruence; auto.
Qed.

Lemma conns_kept_insert m c k k' : m !! c = Some k -> conn_kept k k' -> conns_kept m (<[c := k']> m).
Proof. intros Hk H c0. destruct (decide (c = c0)) as [<-|]; [by rewrite Hk, lookup_insert_eq|rewrite lookup_insert_ne by done; apply conns_kept_refl]. Qed.

Lemma data_same s s' : same_tables s s' -> data_rel s s'.
Proof. intros (H1 & H2 & H3 & H4 & H5 & H6 & H7 & H8 & H9). split; try done. rewrite H7. apply conns_kept_refl. Qed.

Lemma data_trans s1 s2 s3 : data_rel s1 s2 -> data_rel s2 s3 -> data_rel s1 s3.
Proof. intros [A1 A2 A3 A4 A5 A6 A7 A8] [B1 B2 B3 B4 B5 B6 B7 B8]. split; try congruence; [by eapply conns_kept_trans|lia]. Qed.

Lemma data_put s c k k' : conns s !! c = Some k -> conn_kept k k' -> data_rel s (s <| conns ::= <[c := k']> |>).
Proof. intros Hk H. split; try done. cbn. by eapply conns_kept_insert. Qed.

Lemma fwd_kept p c k k' pkt new : conn_kept k k' -> fwd_fx p c k' pkt new -> fwd_fx p c k pkt new.
Proof.
  intros ((A1 & A2 & A3 & _) & _ & A7 & _). assert (Hsrc : src_owned k' pkt <-> src_owned k pkt) by (unfold src_owned; by rewrite A1, A2, A3).
  intros [Hd|q H1 H2 H3 H4|q f r H1 H2 H3 H4]; [apply FwdDrop; by rewrite <- Hsrc|apply FwdTun; try done; by apply Hsrc|eapply FwdIcmp; try done; [by apply Hsrc|by rewrite <- A7]].
Qed.

(** ** The receive engine *)

(** A step of the engine of a live connection, and the packets it delivers. *)
Lemma svr_rx_step_ok s c k rx rx' T : srv_inv E s -> conns s !! c = Some k -> conn_live s c k -> rx_inv T rx' -> T <= v_now_us E (svr_calls s) ->
  dwp (svr_rx_step E c rx rx') s (fun _ s' => srv_inv E s' /\ data_rel s s' /\ exists outs, Forall2 (fwd_fx (pool s) c k) (drop (length (deliver_log rx)) (deliver_log rx')) outs /\ svr_out s' = svr_out s ++ concat outs /\
    conns s' = <[c := k <| reorder_rx := Some rx' |>]> (conns s)).
Proof.
  intros Hs Hk Hl Hrx HT. unfold svr_rx_step. apply dwp_bind. eapply dwp_modify_conn; [exact Hk|]. set (k1 := k <| reorder_rx := Some rx' |>). set (s1 := s <| conns ::= <[c := k1]> |>).
  assert (Hkept : conn_kept k k1) by (by split_and!).
  assert (H1 : srv_inv E s1).
  { eapply pend_put; [exact Hs|exact Hk|apply Hkept|]. destruct (sv_conns _ _ _ Hs c k Hk) as (_ & (He & _) & _). split; [exact He|]. intros r Hr. cbn in Hr. apply Some_inj in Hr. subst r. by exists T. }
  eapply dwp_mono; [apply (srv_forward_all_ok s1 c k1); [done|cbn; by rewrite lookup_insert_eq|exact Hl]|]. intros [] s2 (outs & Ho & T2 & O2). split; [by eapply pend_same|].
  split; [eapply data_trans; [by eapply data_put|by apply data_same]|]. exists outs. split; [|split; [done|by destruct T2 as (_ & _ & _ & _ & _ & _ & Ec & _)]]. eapply Forall2_impl; [exact Ho|]. intros q n. by apply fwd_kept.
Qed.

(** The datagram of a client. *)
Definition read_post (c : Z) (data : list Z) (s s' : mqvpn_server_t) : Prop :=
  srv_inv E s' /\ data_rel s s' /\ exists k pkts outs, conns s !! c = Some k /\ Forall2 (fwd_fx (pool s) c k) pkts outs /\ svr_out s' = svr_out s ++ concat outs /\
    (tunnel_established k = false -> pkts = []) /\
    forall q payload, v_masque_unframe_udp E data = Some (q, payload) -> (q <> masque_stream_id k / 4 -> pkts = []) /\
      (tunnel_established k = true -> q = masque_stream_id k / 4 -> 1 <= blen payload -> mqvpn_reorder_classify_byte (byte_at payload 0) = MQVPN_REORDER_KIND_RAW -> pkts = [payload]).

Lemma srv_dgram_read_ok s c k data : srv_inv E s -> conns s !! c = Some k -> bytes_ok data -> dwp (cb_dgram_read E c data) s (fun _ s' => read_post c data s s').
Proof.
  intros Hs Hk Hb. unfold cb_dgram_read. apply dwp_bind. eapply dwp_conn; [exact Hk|].
  assert (Hno : (forall q payload, v_masque_unframe_udp E data = Some (q, payload) -> tunnel_established k = true -> q = masque_stream_id k / 4 -> 1 <= blen payload -> mqvpn_reorder_classify_byte (byte_at payload 0) <> MQVPN_REORDER_KIND_RAW) ->
    dwp d_skip s (fun _ s' => read_post c data s s')).
  { intros Hr. apply dwp_skip. split; [done|]. split; [apply data_same, same_refl|]. exists k, [], []. split_and!; try done; [by rewrite app_nil_r|]. intros q payload Eu. split; [done|]. intros H1 H2 H3 H4. by destruct (Hr q payload Eu H1 H2 H3). }
  destruct (tunnel_established k) eqn:Et; cbn [negb]; [|apply Hno; done]. assert (Hl : conn_live s c k) by (destruct (sv_conns _ _ _ Hs c k Hk) as ([(_ & ? & _)|?] & _); [congruence|done]).
  destruct (v_masque_unframe_udp E data) as [[q payload]|] eqn:Eu; [|by apply Hno]. pose proof (ve_unframe _ HE data q payload Hb Eu) as Hbp.
  destruct (Z.eqb_spec q (masque_stream_id k / 4)) as [Eq|Nq]; cbn [negb]; [|apply Hno; intros ? ? [= <- <-]; done]. destruct (Z.ltb_spec (blen payload) 1) as [H1|H1]; [apply Hno; intros ? ? [= <- <-] ? ?; lia|].
  apply dwp_bind. eapply dwp_lift; [apply rd_byte_at; lia|]. destruct (mqvpn_reorder_classify_byte (byte_at payload 0)) eqn:Ec; try (apply Hno; intros ? ? [= <- <-]; congruence).
  - eapply dwp_mono; [by apply srv_forward_inner_ip_ok|]. intros [] s' (new & Hn & T1 & O1). split; [by eapply pend_same|]. split; [by apply data_same|]. exists k, [payload], [new]. split_and!; try done; [by apply Forall2_cons_2|by rewrite O1; cbn; rewrite app_nil_r|congruence|].
    rewrite Eu. intros ? ? [= <- <-]. split; [done|]. done.
  - destruct (reorder_rx k) as [rx|] eqn:Er; [|apply Hno; intros ? ? [= <- <-]; congruence]. apply dwp_bind, dwp_vask, dwp_bind, dwp_vask. set (s1 := s <| svr_calls ::= S |> <| svr_calls ::= S |>).
    destruct (sv_conns _ _ _ Hs c k Hk) as (_ & (_ & He) & _). destruct (He rx Er) as (T & Hrx & HT). pose proof (ve_range _ HE (svr_calls s)) as Hr. apply dwp_bind.
    destruct (on_packet_ok (v_rx_allocs E (svr_calls (s <| svr_calls ::= S |>))) T (v_now_us E (svr_calls s)) rx payload Hrx ltac:(lia) Hbp) as (rx' & Ex & Hrx' & _). eapply dwp_lift; [exact Ex|].
    assert (T1 : same_tables s s1) by (eapply same_trans; apply same_ask).
    eapply dwp_mono; [apply (svr_rx_step_ok s1 c k rx rx' (v_now_us E (svr_calls s))); [by eapply pend_same|done|done|done|apply (ve_mono _ HE); cbn; lia]|].
    intros [] s' (H2 & D2 & outs & Ho & O2 & _). split; [done|]. split; [eapply data_trans; [by apply data_same|done]|]. exists k, (drop (length (deliver_log rx)) (deliver_log rx')), outs. split_and!; try done; [congruence|].
    rewrite Eu. intros ? ? [= <- <-]. split; [done|]. congruence.
Qed.

(** ** The tick *)

(** An effect that a packet of a live connection had. *)
Definition client_fx (s : mqvpn_server_t) (x : svr_fx) : Prop :=
  exists c k pkt new, conns s !! c = Some k /\ tunnel_established k = true /\ fwd_fx (pool s) c k pkt new /\ x ∈ new.

Lemma client_fx_kept s s' x : data_rel s s' -> client_fx s' x -> client_fx s x.
Proof.
  intros [D1 _ D3 _ _ _ _ _] (c & k' & pkt & new & Hk' & Ht & Hn & Hx). specialize (D1 c). rewrite Hk' in D1. destruct (conns s !! c) as [k|] eqn:Hk; [|done]. cbn in D1. rewrite D3 in Hn. exists c, k, pkt, new. split_and!; try done.
  - destruct D1 as ((_ & _ & _ & A4 & _) & _). congruence.
  - by eapply fwd_kept.
Qed.

Lemma concat_fx s c k pkts outs : conns s !! c = Some k -> tunnel_established k = true -> Forall2 (fwd_fx (pool s) c k) pkts outs -> Forall (client_fx s) (concat outs).
Proof.
  intros Hk Ht H. induction H as [|pkt new pkts outs Hp _ IH]; cbn [concat]; [apply Forall_nil_2|]. apply Forall_app. split; [|done]. apply Forall_forall. intros x Hx. by exists c, k, pkt, new.
Qed.

Definition tick_rel (s s' : mqvpn_server_t) : Prop := srv_inv E s' /\ data_rel s s' /\ exists new, svr_out s' = svr_out s ++ new /\ Forall (client_fx s) new.

(** The clocks of the engines are not ahead of [t]. *)
Definition engines_before (t : Z) (s : mqvpn_server_t) : Prop := forall c k rx, conns s !! c = Some k -> reorder_rx k = Some rx -> exists T, rx_inv T rx /\ T <= t.

Lemma tick_refl s : srv_inv E s -> tick_rel s s.
Proof. intros Hs. split; [done|]. split; [apply data_same, same_refl|]. exists []. by rewrite app_nil_r. Qed.

Lemma tick_trans s1 s2 s3 : tick_rel s1 s2 -> tick_rel s2 s3 -> tick_rel s1 s3.
Proof.
  intros (_ & D1 & n1 & O1 & F1) (I2 & D2 & n2 & O2 & F2). split; [done|]. split; [by eapply data_trans|]. exists (n1 ++ n2). split; [by rewrite O2, O1, app_assoc|]. apply Forall_app. split; [done|].
  eapply Forall_impl; [exact F2|]. intros x. by apply client_fx_kept.
Qed.

Lemma tick_slot_ok s i x t : srv_inv E s -> sessions s !! i = Some x -> t < TIME_LIMIT -> t <= v_now_us E (svr_calls s) -> engines_before t s ->
  dwp (match x with None => d_skip | Some c => k ← get_conn c; match reorder_rx k with Some rx => svr_rx_step E c rx (mqvpn_reorder_rx_tick rx t) | None => d_skip end end) s
    (fun _ s' => tick_rel s s' /\ engines_before t s').
Proof.
  intros Hs Hx Ht Htn Hrx. pose proof (tick_refl s Hs) as Hsk. destruct x as [c|]; [|by apply dwp_skip]. destruct (sv_slot _ _ _ Hs _ c Hx) as (k & Hk & _ & Hl). apply dwp_bind. eapply dwp_conn; [exact Hk|].
  destruct (reorder_rx k) as [rx|] eqn:Er; [|by apply dwp_skip]. destruct (Hrx c k rx Hk Er) as (T & Hi & HT). destruct (tick_ok T t rx Hi ltac:(lia)) as (Hi' & _). cbn zeta in Hi'.
  eapply dwp_mono; [by apply (svr_rx_step_ok s c k rx _ t)|]. intros [] s' (H2 & D2 & outs & Ho & O2 & Ec). split.
  - split; [done|]. split; [done|]. exists (concat outs). split; [done|]. eapply concat_fx; [exact Hk|apply Hl|exact Ho].
  - intros c0 k0 rx0 Hk0 Hr0. rewrite Ec in Hk0. destruct (decide (c = c0)) as [<-|Hne]; [|rewrite lookup_insert_ne in Hk0 by done; by eapply Hrx]. rewrite lookup_insert_eq in Hk0. apply Some_inj in Hk0. subst k0. cbn in Hr0. apply Some_inj in Hr0. subst rx0. by exists t.
Qed.

Lemma tick_sessions_ok s n off t : srv_inv E s -> 0 <= off -> off + Z.of_nat n <= 255 -> t < TIME_LIMIT -> t <= v_now_us E (svr_calls s) -> engines_before t s ->
  dwp (tick_sessions E n off t) s (fun _ s' => tick_rel s s').
Proof.
  revert s off. induction n as [|n IH]; intros s off Hs Ho Hn Ht Htn Hrx; cbn [tick_sessions]; [by apply dwp_skip, tick_refl|].
  apply dwp_bind, dwp_get, dwp_bind. destruct (lookup_lt_is_Some_2 (sessions s) (Z.to_nat off)) as [x Hx]; [rewrite (sv_len _ _ _ Hs); lia|]. eapply dwp_lift; [exact Hx|]. apply dwp_bind.
  eapply dwp_mono; [by eapply tick_slot_ok|]. intros [] s1 (R1 & B1). pose proof R1 as (I1 & D1 & _). pose proof (ve_mono _ HE (svr_calls s) (svr_calls s1) (dr_calls _ _ D1)).
  eapply dwp_mono; [apply (IH s1 (off + 1)); try done; lia|]. intros [] s2 R2. by eapply tick_trans.
Qed.

Lemma server_tick_ok s : srv_inv E s -> dwp (mqvpn_server_tick E) s (fun _ s' => tick_rel s s').
Proof.
  intros Hs. unfold mqvpn_server_tick. apply dwp_bind, dwp_get. destruct (_ && _); [|by apply dwp_skip, tick_refl]. apply dwp_bind, dwp_vask. set (s1 := s <| svr_calls ::= S |>).
  assert (H1 : srv_inv E s1) by (eapply pend_same; [done|exact Hs|apply same_ask]). eapply dwp_mono; [apply (tick_sessions_ok s1); [done|lia|..]|].
  - unfold MQVPN_ADDR_POOL_MAX. lia.
  - apply (ve_range _ HE).
  - apply (ve_mono _ HE). cbn. lia.
  - intros c k rx Hk Hr. destruct (sv_conns _ _ _ Hs c k Hk) as (_ & (_ & He) & _). by apply He.
  - intros [] s2 R2. eapply tick_trans; [|exact R2]. split; [done|]. split; [apply data_same, same_ask|]. exists []. by rewrite app_nil_r.
Qed.
End fwd.
