(* ===== verification/ServerTun.v ===== *)
(** * What the server does with packets of the tunnel

    A packet of the tunnel reaches the client that holds its destination
    address, and no other. *)

From S2P Require Import Prelude Wire Ring ReorderRx RxFlow RxInv RxStep RxTable RxEngine ReorderTx TxProofs Icmp Gate FlowSched AddrPool Hybrid PathFsm Client RtxTable RedundantTx RedundantPorts TunFrame StateOpt ClientLane LaneProofs LaneRun Auth ServerConn ServerData ServerInv ServerSess ServerFwd.

(** The destination address belongs to the connection. *)
Definition dst_owned (k : svr_conn_t) (pkt : list Z) : Prop :=
  (byte_at pkt 0 / 16 = 4 /\ 20 <= blen pkt /\ take 4 (drop 16 pkt) = be32_list (assigned_ip k)) \/
  (byte_at pkt 0 / 16 = 6 /\ 40 <= blen pkt /\ conn_has_v6 k = true /\ take 16 (drop 24 pkt) = assigned_ip6 k).

Lemma be32_value_ok d : bytes_ok d -> blen d = 4 -> 0 <= be32_value d < 2 ^ 32 /\ be32_list (be32_value d) = d.
Proof.
  intros Hb Hl. unfold blen in Hl. destruct d as [|b0 [|b1 [|b2 [|b3 [|]]]]]; cbn [length] in Hl; try lia. repeat (apply Forall_cons in Hb as [? Hb]). unfold be32_value. rewrite be32_fold by done. unfold is_byte in *. split; [lia|].
  unfold be32_list. rewrite !Z.shiftr_div_pow2 by lia. unfold u8. change (2 ^ 24) with 16777216. change (2 ^ 16) with 65536. change (2 ^ 8) with 256. repeat f_equal; Z.to_euclidean_division_equations; lia.
Qed.

Lemma be32_list_bytes v : bytes_ok (be32_list v).
Proof. unfold be32_list. repeat (apply Forall_cons; split; [apply Z.mod_pos_bound; lia|]). apply Forall_nil_2. Qed.

Lemma be32_inj v d : 0 <= v < 2 ^ 32 -> d = be32_list v -> be32_value d = v.
Proof. intros Hv ->. change (be32_value (be32_list v)) with (low32 (replicate 12 0 ++ be32_list v)). by apply low32_write. Qed.

Lemma offset6_inv p a off : length (base6 p) = 16%nat -> bytes_ok (base6 p) -> bytes_ok a -> length a = 16%nat -> mqvpn_addr_pool_offset6 p a = off -> off <> 0 -> a = mqvpn_addr_pool_get6 p off.
Proof.
  intros Hl Hb Hba Hla. unfold mqvpn_addr_pool_offset6, mqvpn_addr_pool_get6. case_bool_decide as Et; cbn [negb]; [|by intros <-]. pose proof (low32_range _ Hb Hl) as R1. pose proof (low32_range _ Hba Hla) as R2.
  destruct (Z.ltb_spec (low32 a) (low32 (base6 p))); [by intros <-|]. rewrite (u32_small (low32 a - _)) by lia. intros <- _. replace (low32 (base6 p) + (low32 a - low32 (base6 p))) with (low32 a) by lia. rewrite u32_small by lia. rewrite <- Et.
  rewrite <- (take_drop 12 a) at 1. f_equal. unfold low32. assert (H4 : blen (drop 12 a) = 4) by (unfold blen; rewrite length_drop; lia). rewrite take_ge by (unfold blen in H4; lia).
  symmetry. apply (be32_value_ok (drop 12 a)); [by apply Forall_drop|done].
Qed.

Lemma offset6_get p off : length (base6 p) = 16%nat -> bytes_ok (base6 p) -> 0 <= off -> low32 (base6 p) + off < 2 ^ 32 -> mqvpn_addr_pool_offset6 p (mqvpn_addr_pool_get6 p off) = off.
Proof.
  intros Hl Hb Ho Hlt. pose proof (low32_range _ Hb Hl) as R1. unfold mqvpn_addr_pool_offset6, mqvpn_addr_pool_get6. rewrite u32_small by lia. assert (Htl : length (take 12 (base6 p)) = 12%nat) by (rewrite length_take; lia).
  rewrite take_app_length' by done. rewrite bool_decide_eq_true_2 by done. cbn [negb]. rewrite low32_write by (done || lia). rewrite (proj2 (Z.ltb_ge _ _)), u32_small by lia. lia.
Qed.

Section tun.
Context (E : server_env) (HE : server_env_ok E).

Lemma conn_up s c k : srv_inv E s -> conns s !! c = Some k -> tunnel_established k = true -> conn_live s c k.
Proof. intros Hs Hk Ht. destruct (sv_conns _ _ _ Hs c k Hk) as ([(_ & Hf & _)|?] & _); [congruence|done]. Qed.

(** The table finds the owner of the destination. *)
Definition target_post (s : mqvpn_server_t) (pkt : list Z) (r : option (option Z)) : Prop :=
  (forall c, r = Some (Some c) -> exists k, conns s !! c = Some k /\ conn_live s c k /\ dst_owned k pkt) /\
  (forall c k, conns s !! c = Some k -> conn_live s c k -> dst_owned k pkt -> r = Some (Some c)) /\
  (r <> None -> byte_at pkt 0 / 16 = 4 /\ 20 <= blen pkt \/ byte_at pkt 0 / 16 = 6 /\ 40 <= blen pkt /\ has_v6 (pool s) = true).

Lemma target_offset s pkt off (own : svr_conn_t -> Prop) : srv_inv E s ->
  (forall k, dst_owned k pkt -> own k) -> (forall k, own k -> dst_owned k pkt) ->
  (forall c k o, conns s !! c = Some k -> conn_live s c k -> 2 <= o <= pool_size (pool s) -> assigned_ip k = base (pool s) + o -> own k <-> off = o) ->
  (byte_at pkt 0 / 16 = 4 /\ 20 <= blen pkt \/ byte_at pkt 0 / 16 = 6 /\ 40 <= blen pkt /\ has_v6 (pool s) = true) -> 0 <= off ->
  exists r, (if (off =? 0) || (MQVPN_ADDR_POOL_MAX <? off) then Some None else slot ← sessions s !! Z.to_nat off; Some (Some slot)) = Some r /\ target_post s pkt r.
Proof.
  intros Hs Ho1 Ho2 Hown Hv H0. pose proof (sv_pool _ _ _ Hs) as Hp. pose proof (po_size _ Hp) as Hsz. unfold MQVPN_ADDR_POOL_MAX in *.
  destruct (Z.eqb_spec off 0) as [E0|N0]; cbn [orb]; [|destruct (Z.ltb_spec 254 off) as [Hb|Hb]; cbn [orb]].
  1, 2: (exists None; split; [done|]; split_and!; [done| |done]; intros c k Hk Hl Hd; pose proof Hl as (_ & _ & _ & o & Hor & Ea & _); apply Ho1 in Hd; apply (Hown c k o) in Hd; [lia|done..]).
  destruct (lookup_lt_is_Some_2 (sessions s) (Z.to_nat off)) as [x Hx]; [rewrite (sv_len _ _ _ Hs); lia|]. rewrite Hx, bind_some. exists (Some x). split; [done|]. split_and!.
  - intros c Ec. apply Some_inj in Ec. subst x. destruct (sv_slot _ _ _ Hs _ c Hx) as (k & Hk & Ea & Hl). exists k. split_and!; try done. destruct (live_off s c k _ Hp Hl Ea) as [Hr _]. apply Ho2. rewrite Z2Nat.id in * by lia. by apply (Hown c k off).
  - intros c k Hk Hl Hd. pose proof Hl as (_ & _ & _ & o & Hor & Ea & Hslot & _). apply Ho1 in Hd. apply (Hown c k o) in Hd; [|done..]. subst o. congruence.
  - done.
Qed.

Lemma tun_target_ok s pkt : srv_inv E s -> bytes_ok pkt -> exists r, tun_target s pkt (byte_at pkt 0 / 16) = Some r /\ target_post s pkt r.
Proof.
  intros Hs Hb. unfold tun_target. set (v := byte_at pkt 0 / 16). pose proof (sv_pool _ _ _ Hs) as Hp. destruct (po_base _ Hp) as [Hb0 Hb1]. pose proof (po_size _ Hp) as Hsz.
  assert (Hnone : (forall c k, conns s !! c = Some k -> conn_live s c k -> ~ dst_owned k pkt) -> exists r, Some None = Some r /\ target_post s pkt r).
  { intros H. exists None. split; [done|]. split_and!; [done| |done]. intros c k Hk Hl Hd. by destruct (H c k Hk Hl). }
  destruct (Z.eqb_spec v 4) as [E4|N4]; cbn [andb].
  - destruct (Z.leb_spec 20 (blen pkt)) as [H20|H20].
    + rewrite rdn_eq by lia. rewrite bind_some. change (Z.to_nat 4) with 4%nat. change (Z.to_nat 16) with 16%nat. set (d := take 4 (drop 16 pkt)).
      assert (Hd : blen d = 4) by (unfold blen, d in *; rewrite length_take, length_drop; lia). assert (Hdb : bytes_ok d) by (by apply Forall_take, Forall_drop). destruct (be32_value_ok d Hdb Hd) as [Hr Hinv].
      apply (target_offset s pkt _ (fun k => d = be32_list (assigned_ip k)) Hs).
      * intros k [(_ & _ & ?)|(? & _)]; [done|lia].
      * intros k Hk. left. by split_and!.
      * intros c k o Hk Hl Hor Ea. split.
        -- intros Ed. assert (be32_value d = base (pool s) + o) as -> by (apply be32_inj; [lia|congruence]). replace (base (pool s) + o - base (pool s)) with o by lia. apply u32_small. unfold MQVPN_ADDR_POOL_MAX in *. lia.
        -- intros Eo. rewrite <- Hinv, Ea. f_equal. revert Eo. unfold u32. unfold MQVPN_ADDR_POOL_MAX in *. intros Eo. rewrite <- Eo in *. Z.to_euclidean_division_equations. lia.
      * left. by split.
      * apply Z.mod_pos_bound. lia.
    + replace (v =? 6) with false by (symmetry; apply Z.eqb_neq; lia). cbn [andb]. apply Hnone. intros c k _ _ [(_ & ? & _)|(? & _)]; lia.
  - destruct (Z.eqb_spec v 6) as [E6|N6]; cbn [andb]; [|apply Hnone; intros c k _ _ [(? & _)|(? & _)]; done]. destruct (Z.leb_spec 40 (blen pkt)) as [H40|H40]; cbn [andb]; [|apply Hnone; intros c k _ _ [(? & _)|(_ & ? & _)]; [done|lia]].
    destruct (has_v6 (pool s)) eqn:Ev; cycle 1.
    { apply Hnone. intros c k _ (_ & _ & Hv & _) [(? & _)|(_ & _ & ? & _)]; [done|congruence]. }
    destruct (sv_pool6 _ _ _ Hs Ev) as (Hl6 & Hb6 & Hlow). rewrite rdn_eq by lia. rewrite bind_some. change (Z.to_nat 16) with 16%nat. change (Z.to_nat 24) with 24%nat. set (d := take 16 (drop 24 pkt)).
    assert (Hd : length d = 16%nat) by (unfold blen, d in *; rewrite length_take, length_drop; lia). assert (Hdb : bytes_ok d) by (by apply Forall_take, Forall_drop).
    apply (target_offset s pkt _ (fun k => conn_has_v6 k = true /\ d = assigned_ip6 k) Hs).
    + intros k [(? & _)|(_ & _ & ? & ?)]; done.
    + intros k [Hk1 Hk2]. right. by split_and!.
    + intros c k o Hk Hl Hor Ea. destruct Hl as (_ & _ & Hv & o' & Ho' & Ea' & _ & H6). assert (o' = o) as -> by lia. specialize (H6 Ev). split.
      * intros [_ ->]. rewrite H6. apply offset6_get; [done..|lia|lia].
      * intros Eo. split; [congruence|]. rewrite H6. apply offset6_inv; try done. lia.
    + right. by split_and!.
    + unfold mqvpn_addr_pool_offset6. destruct (negb _); [lia|]. cbv zeta. destruct (_ <? _); [lia|]. apply Z.mod_pos_bound. lia.
Qed.

(** ** Sending to a client *)

(** The frame fits the buffer on the stack, so that nothing but xquic decides. *)
Definition frame_fits (k : svr_conn_t) (pkt h : list Z) : Prop :=
  mqvpn_dgram_frame_cap (blen pkt) false <= MQVPN_DGRAM_STACK_BUF /\ v_masque_frame_udp E MQVPN_DGRAM_STACK_BUF (masque_stream_id k) = Some h /\ blen h + blen pkt <= MQVPN_DGRAM_STACK_BUF.

Definition send_post (c : Z) (k : svr_conn_t) (pkt : list Z) (st : bool) (s s' : mqvpn_server_t) : Prop :=
  srv_inv E s' /\ data_rel s s' /\
  ((svr_out s' = svr_out s /\ (st = false -> forall h, ~ frame_fits k pkt h)) \/
   exists q h fh r, ttl_decrement (byte_at pkt 0 / 16) pkt = Some q /\ svr_out s' = svr_out s ++ [SxDgram c (h ++ q) (Some fh) r]).

(** The counters and the sequence number after a send. *)
Lemma after_send_ok s c k st peek xret : srv_inv E s -> conns s !! c = Some k -> (st = true -> stamp_ready (reorder_tx k) peek) ->
  dwp (if xret =? - V_XQC_EAGAIN E then
           modify_conn c (fun k => k <| dgram_dropped_cnt ::= fun n => u64 (n + 1) |>) ;;
           d_modify (fun s => s <| tun_drop_cnt ::= fun n => u64 (n + 1) |>)
         else if xret =? 0 then
           d_modify (fun s => s <| dgram_sent ::= fun n => u64 (n + 1) |>) ;;
           if (st : bool) then
             tx ← d_lift (reorder_tx k);
             pk ← d_lift peek;
             t ← v_ask (v_now_us E);
             modify_conn c (fun k => k <| reorder_tx := Some (mqvpn_reorder_tx_commit tx pk t) |>)
           else d_skip
         else d_skip) s (fun _ s' => srv_inv E s' /\ data_rel s s' /\ svr_out s' = svr_out s).
Proof.
  intros Hs Hk Hst. destruct (sv_conns _ _ _ Hs c k Hk) as (_ & (Htx & Hrx) & _). destruct (xret =? - V_XQC_EAGAIN E).
  - apply dwp_bind. eapply dwp_modify_conn; [exact Hk|]. apply dwp_modify. set (k1 := k <| dgram_dropped_cnt ::= _ |>). assert (Hkept : conn_kept k k1) by (by split_and!). split_and!.
    + eapply (pend_same E HE _ (s <| conns ::= <[c := k1]> |>)); [eapply pend_put; [exact Hs|exact Hk|apply Hkept|by split]|]. unfold same_tables. cbn. split_and!; done || lia.
    + eapply data_trans; [by apply (data_put s c k k1)|]. apply data_same. unfold same_tables. cbn. split_and!; done || lia.
    + done.
  - destruct (xret =? 0); [|apply dwp_skip; split_and!; [done|apply data_same, same_refl|done]]. apply dwp_bind, dwp_modify. set (s1 := s <| dgram_sent ::= _ |>). assert (T1 : same_tables s s1) by (unfold same_tables; cbn; split_and!; done || lia).
    assert (H1 : srv_inv E s1) by (by eapply pend_same). destruct st; [|apply dwp_skip; split_and!; [done|by apply data_same|done]].
    destruct (Hst eq_refl) as (tx & pk & b & j & fl & Et & Ep & Ea & Ef & Eat). apply dwp_bind. eapply dwp_lift; [exact Et|]. apply dwp_bind. eapply dwp_lift; [exact Ep|]. apply dwp_bind, dwp_vask. set (s2 := s1 <| svr_calls ::= S |>). set (tm := v_now_us E _).
    eapply dwp_modify_conn; [exact Hk|]. set (k1 := k <| reorder_tx := Some _ |>). assert (Hkept : conn_kept k k1) by (by split_and!). assert (T2 : same_tables s s2) by (eapply same_trans; [exact T1|apply same_ask]).
    assert (H2 : srv_inv E s2) by (by eapply pend_same). split_and!.
    + eapply pend_put; [exact H2|exact Hk|apply Hkept|]. destruct (sv_conns _ _ _ H2 c k Hk) as (_ & (_ & Hrx2) & _). split; [|exact Hrx2]. intros tx0 Hx. cbn in Hx. apply Some_inj in Hx. subst tx0. exact (proj1 (tx_commit_ok tx pk tm b j fl (Htx tx Et) Ea Ef Eat)).
    + eapply data_trans; [by apply data_same|]. by apply (data_put s2 c k k1).
    + done.
Qed.

(** The header goes in front of the packet. *)
Lemma dgram_frame_shape cap sid rh pkt f : mqvpn_dgram_frame cap (v_masque_frame_udp E cap sid) rh pkt = Some (Some f) -> exists h, f = h ++ pkt.
Proof.
  unfold mqvpn_dgram_frame. destruct (v_masque_frame_udp E cap sid) as [h|]; [|done]. cbv zeta. destruct (u64 _ <? _); [done|]. destruct (_ <=? cap); [|done]. intros H. apply Some_inj, Some_inj in H. subst f. rewrite app_assoc. by eexists.
Qed.

Lemma dgram_frame_total len st cap heap sid rh pkt : frame_room len st = (cap, heap) -> is_Some (mqvpn_dgram_frame cap (v_masque_frame_udp E cap sid) rh pkt).
Proof.
  intros Er. unfold mqvpn_dgram_frame. destruct (v_masque_frame_udp E cap sid) as [h|] eqn:Eh; [|by eexists]. pose proof (ve_frame _ HE _ _ _ Eh) as Hh. pose proof (blen_nonneg h).
  assert (Hcap : cap < 2 ^ 64) by (revert Er; unfold frame_room, MASQUE_FRAME_BUF, PACKET_BUF_SIZE, MQVPN_DGRAM_STACK_BUF; cbv zeta; repeat case_match; intros [= <- _]; bool_to_prop; lia).
  rewrite u64_small by lia. cbv zeta. set (rb := match rh with Some r => r | None => [] end). destruct (Z.ltb_spec (cap - blen h) (blen rb + blen pkt)); [by eexists|]. rewrite (proj2 (Z.leb_le _ _)) by lia. by eexists.
Qed.

Lemma fits_frame k pkt h cap heap : frame_fits k pkt h -> frame_room (blen pkt) false = (cap, heap) ->
  heap = false /\ mqvpn_dgram_frame cap (v_masque_frame_udp E cap (masque_stream_id k)) None pkt <> Some None.
Proof.
  intros (H1 & H2 & H3). unfold frame_room. cbv zeta. unfold MASQUE_FRAME_BUF, PACKET_BUF_SIZE, MQVPN_DGRAM_STACK_BUF in *. rewrite (proj2 (Z.ltb_ge 65552 _)) by lia. rewrite (proj2 (Z.ltb_ge 2048 _)) by lia. intros [= <- <-]. split; [done|].
  unfold mqvpn_dgram_frame. change (65536 + 16) with 65552 in *. rewrite H2. pose proof (blen_nonneg h). pose proof (blen_nonneg pkt). rewrite u64_small by lia. cbn [blen length Z.of_nat]. change (blen []) with 0. rewrite (proj2 (Z.ltb_ge _ _)) by lia. by rewrite (proj2 (Z.leb_le _ _)) by lia.
Qed.

Lemma send_to_client_ok s c k pkt st peek : srv_inv E s -> conns s !! c = Some k -> 12 <= blen pkt -> (st = true -> stamp_ready (reorder_tx k) peek) ->
  dwp (send_to_client E c pkt (byte_at pkt 0 / 16) st peek) s (fun _ s' => send_post c k pkt st s s').
Proof.
  intros Hs Hk H12 Hst. unfold send_to_client. apply dwp_bind. eapply dwp_conn; [exact Hk|]. destruct (frame_room (blen pkt) st) as [cap heap] eqn:Er. apply dwp_bind.
  assert (Hno : forall s', same_tables s s' -> svr_out s' = svr_out s -> (st = false -> forall h, ~ frame_fits k pkt h) -> send_post c k pkt st s s').
  { intros s' T O Hf. split; [by eapply pend_same|]. split; [by apply data_same|]. by left. }
  assert (Hask : dwp (if (heap : bool) then v_ask (v_malloc E) else mret true) s (fun ok s' => same_tables s s' /\ svr_out s' = svr_out s /\ (heap = false -> ok = true))).
  { destruct heap; [apply dwp_vask; split_and!; [apply same_ask|done..]|apply dwp_ret; split_and!; [apply same_refl|done..]]. }
  eapply dwp_mono; [exact Hask|]. clear Hask. intros ok s1 (T1 & O1 & Hok). destruct ok; cbn [negb]; [|apply dwp_ret, Hno; try done; intros -> h Hf; destruct (fits_frame k pkt h cap heap Hf Er) as [Hh _]; by discriminate Hok].
  apply dwp_bind. assert (Hrh : dwp (if st then pk ← d_lift peek; mret (Some (hdr pk)) else mret None) s1 (fun rh s' => s' = s1 /\ (st = false -> rh = None))).
  { destruct st; [|by apply dwp_ret]. destruct (Hst eq_refl) as (? & pk & ? & ? & ? & _ & -> & _). apply dwp_bind. eapply dwp_lift; [done|]. by apply dwp_ret. }
  eapply dwp_mono; [exact Hrh|]. clear Hrh. intros rh s1' (-> & Hrh). apply dwp_bind. destruct (dgram_frame_total _ _ cap heap (masque_stream_id k) rh pkt Er) as [fo Ef]. eapply dwp_lift; [exact Ef|].
  destruct fo as [f|]; [|apply dwp_ret, Hno; try done; intros -> h Hf; rewrite (Hrh eq_refl) in Ef; by destruct (fits_frame k pkt h cap heap Hf Er) as [_ ?]].
  destruct (dgram_frame_shape _ _ _ _ _ Ef) as [h ->]. assert (Hn : Z.to_nat (blen (h ++ pkt) - blen pkt) = length h) by (unfold blen; rewrite length_app; lia). cbv zeta. rewrite Hn, drop_app_length, take_app_length.
  destruct (ttl_total (byte_at pkt 0 / 16) pkt H12) as [q Eq]. apply dwp_bind. eapply dwp_lift; [exact Eq|]. apply dwp_bind. destruct (flow_hash_total pkt (bool_decide (eff_sched k = MQVPN_SCHED_WLB_UDP_PIN))) as (fh & Eh & _). eapply dwp_lift; [exact Eh|].
  apply dwp_bind, dwp_vask, dwp_bind, dwp_vemit. set (xret := v_datagram_send E _ _ _ _). match goal with |- dwp _ ?x _ => set (s2 := x) end. apply dwp_bind.
  assert (T2 : same_tables s s2) by (eapply same_trans; [exact T1|]; eapply same_trans; [apply same_ask|apply same_emit]). pose proof T2 as (_ & _ & _ & _ & _ & _ & Ec & _).
  eapply dwp_mono; [apply (after_send_ok s2 c k st peek xret); [by eapply pend_same|by rewrite Ec|done]|]. intros [] s3 (H3 & D3 & O3). apply dwp_ret. split; [done|]. split; [eapply data_trans; [by apply data_same|done]|].
  right. exists q, h, fh, xret. split; [done|]. rewrite O3. cbn. by rewrite O1.
Qed.

(** ** A packet of the tunnel *)

(** Room for the packet on the path, as far as the connection knows. *)
Definition path_room (k : svr_conn_t) (pkt : list Z) : Prop :=
  let m := u32 (if 0 <? dgram_mss k then v_masque_udp_mss E (dgram_mss k) (masque_stream_id k) else 0) in m = 0 \/ blen pkt <= m.

(** Nothing but xquic keeps the packet from the client. *)
Definition deliverable (k : svr_conn_t) (pkt : list Z) : Prop :=
  dst_owned k pkt /\ 2 <= hops pkt /\ (reorder_tx k = None \/ peer_reorder_supported k = false) /\ path_room k pkt /\ exists h, frame_fits k pkt h.

(** What becomes of a packet of the tunnel. *)
Inductive tun_fx (s : mqvpn_server_t) (pkt : list Z) : list svr_fx -> Prop :=
| TunDrop : (forall c k, conns s !! c = Some k -> tunnel_established k = true -> ~ deliverable k pkt) -> tun_fx s pkt []
| TunIcmp q : (forall c k, conns s !! c = Some k -> tunnel_established k = true -> ~ deliverable k pkt) -> server_icmp (pool s) q -> tun_fx s pkt [SxTun q]
| TunSend c k h q fh r : conns s !! c = Some k -> tunnel_established k = true -> dst_owned k pkt -> 2 <= hops pkt -> ttl_decrement (byte_at pkt 0 / 16) pkt = Some q ->
    tun_fx s pkt [SxDgram c (h ++ q) (Some fh) r].

Definition tun_post (pkt : list Z) (s s' : mqvpn_server_t) : Prop := srv_inv E s' /\ data_rel s s' /\ exists new, svr_out s' = svr_out s ++ new /\ tun_fx s pkt new.

Lemma dst_kept k k' pkt : conn_kept k k' -> dst_owned k' pkt <-> dst_owned k pkt.
Proof. intros ((A1 & A2 & A3 & _) & _). unfold dst_owned. by rewrite A1, A2, A3. Qed.

Lemma dst_unique s pkt c c' k k' : srv_inv E s -> bytes_ok pkt -> conns s !! c = Some k -> conns s !! c' = Some k' -> tunnel_established k = true -> tunnel_established k' = true -> dst_owned k pkt -> dst_owned k' pkt -> c' = c /\ k' = k.
Proof.
  intros Hs Hb Hk Hk' Ht Ht' Hd Hd'. destruct (tun_target_ok s pkt Hs Hb) as (r & _ & _ & Hr & _). pose proof (Hr c k Hk (conn_up _ _ _ Hs Hk Ht) Hd) as E1. pose proof (Hr c' k' Hk' (conn_up _ _ _ Hs Hk' Ht') Hd') as E2.
  assert (c' = c) as -> by congruence. split; [done|]. congruence.
Qed.

(** From the check of the TTL on, in a state [s1] that packets may have reached from [s]. *)
Lemma forward_to_client_ok s s1 c k pkt st peek : srv_inv E s -> bytes_ok pkt -> conns s !! c = Some k -> tunnel_established k = true -> dst_owned k pkt ->
  srv_inv E s1 -> data_rel s s1 -> svr_out s1 = svr_out s -> (forall k1, conns s1 !! c = Some k1 -> st = true -> stamp_ready (reorder_tx k1) peek) ->
  (st = true -> ~ deliverable k pkt) ->
  dwp (forward_to_client E c pkt (byte_at pkt 0 / 16) st peek) s1 (fun _ s' => tun_post pkt s s').
Proof.
  intros Hs Hb Hk Ht Hd H1 D1 O1 Hst Hsd. pose proof (dr_conns _ _ D1 c) as Hc. rewrite Hk in Hc. destruct (conns s1 !! c) as [k1|] eqn:Hk1; [|done]. cbn in Hc. unfold forward_to_client.
  assert (Hlen : 20 <= blen pkt) by (destruct Hd as [(_ & ? & _)|(_ & ? & _)]; lia). assert (Hv : byte_at pkt 0 / 16 = 4 \/ byte_at pkt 0 / 16 = 6) by (destruct Hd as [(? & _)|(? & _)]; tauto).
  assert (Hother : ~ deliverable k pkt -> forall c' k', conns s !! c' = Some k' -> tunnel_established k' = true -> ~ deliverable k' pkt).
  { intros Hn c' k' Hk' Ht' Hdel. pose proof Hdel as [Hd' _]. destruct (dst_unique s pkt c c' k k') as [-> ->]; done. }
  destruct (Z.ltb_spec PACKET_BUF_SIZE (blen pkt)) as [Hbig|Hbig].
  { apply dwp_ret. split; [done|]. split; [done|]. exists []. split; [by rewrite app_nil_r|]. apply TunDrop, Hother. intros (_ & _ & _ & _ & h & Hf & _). unfold mqvpn_dgram_frame_cap, MQVPN_MASQUE_HDR_MAX, MQVPN_DGRAM_STACK_BUF, PACKET_BUF_SIZE in *. lia. }
  apply dwp_bind. eapply dwp_lift; [apply rd_byte_at; destruct (_ =? 4); lia|]. fold (hops pkt). destruct (Z.leb_spec (hops pkt) 1) as [Hh|Hh].
  - apply dwp_bind. assert (Hn : ~ deliverable k pkt) by (intros (_ & ? & _); lia). assert (H0 : forall s', same_tables s1 s' -> svr_out s' = svr_out s1 -> tun_post pkt s s').
    { intros s' T O. split; [by eapply pend_same|]. split; [eapply data_trans; [exact D1|by apply data_same]|]. exists []. split; [by rewrite app_nil_r, O|]. apply TunDrop. by apply Hother. }
    assert (Hq : forall q s', server_icmp (pool s1) q -> same_tables s1 s' -> svr_out s' = svr_out s1 -> dwp (v_emit (SxTun q)) s' (fun _ s' => tun_post pkt s s')).
    { intros q s' Hq T O. apply dwp_vemit. assert (T' : same_tables s1 (s' <| svr_out ::= fun l => l ++ [SxTun q] |>)) by (eapply same_trans; [exact T|apply same_emit]). split; [by eapply pend_same|]. split; [eapply data_trans; [exact D1|by apply data_same]|].
      exists [SxTun q]. split; [cbn; by rewrite O, O1|]. apply TunIcmp; [by apply Hother|]. by rewrite <- (dr_pool _ _ D1). }
    eapply dwp_mono with (Q := fun _ s' => tun_post pkt s s'); [|intros [] s' Hp; by apply dwp_ret]. destruct (_ =? 4); [by apply (icmp4_ok E None s1)|by apply (icmp6_ok E None s1)].
  - eapply dwp_mono; [apply (send_to_client_ok s1 c k1 pkt st peek H1 Hk1 ltac:(lia) (Hst k1 eq_refl))|]. intros r s2 (H2 & D2 & Hout). split; [done|]. split; [by eapply data_trans|].
    destruct Hout as [[O2 Hf]|(q & h & fh & x & Eq & O2)].
    + exists []. split; [by rewrite app_nil_r, O2|]. apply TunDrop, Hother. destruct st; [by apply Hsd|]. intros (_ & _ & _ & _ & h & Hfit). apply (Hf eq_refl h). destruct Hfit as (F1 & F2 & F3). split_and!; try done. destruct Hc as (_ & _ & -> & _). done.
    + exists [SxDgram c (h ++ q) (Some fh) x]. split; [by rewrite O2, O1|]. eapply TunSend; try done. lia.
Qed.

Lemma not_stamped ok otx peer m pkt now mss r : mqvpn_rgate_decide ok otx peer m pkt now mss = Some r -> (otx = None \/ peer = false) -> (mss = 0 \/ blen pkt <= mss) -> rg_verdict r = MQVPN_RGATE_RAW.
Proof.
  intros Hr Hp Hm. assert (Hraw : forall tx pk, rg_verdict (rgate_raw tx pk (blen pkt) mss) = MQVPN_RGATE_RAW).
  { intros tx pk. unfold rgate_raw. destruct (Z.ltb_spec 0 mss); cbn [andb]; [|done]. destruct (Z.ltb_spec mss (blen pkt)); [lia|done]. }
  unfold mqvpn_rgate_decide in Hr. destruct otx as [tx|]; [|apply Some_inj in Hr; subst r; apply Hraw]. destruct Hp as [?| -> ]; [done|]. cbn [andb] in Hr. apply Some_inj in Hr. subst r. apply Hraw.
Qed.

Lemma live_counted s c k : srv_inv E s -> conn_live s c k -> 0 < n_sessions s.
Proof.
  intros Hs (_ & _ & _ & off & _ & _ & Hslot & _). rewrite (sv_count _ _ _ Hs). pose proof (live_slots_split _ _ _ Hslot) as H. cbv iota in H. lia.
Qed.

(** The answer to a packet that is too big. *)
Lemma srv_ptb_ok s b ms v mtu pkt : srv_inv E s ->
  exists b' sent p, mqvpn_rgate_send_ptb b ms (if v =? 4 then 4 else 6) (if v =? 4 then true else has_v6 (pool s)) (if v =? 4 then srv_addr s else srv_addr6 s) mtu pkt = Some (b', sent, p) /\
    forall q, p = Some q -> server_icmp (pool s) q.
Proof.
  intros Hs. unfold mqvpn_rgate_send_ptb. destruct (Z.eqb_spec v 4) as [->|N4]; cbn [negb Z.eqb Pos.eqb].
  - destruct (mqvpn_ptb_bucket_allow b ms) as [b1 [|]]; cbn [negb]; [|by do 3 eexists]. destruct (icmp4_total (srv_addr s) 3 4 (if 65535 <? mtu then 65535 else u16 mtu) pkt (be32_length _)) as [r Er]. rewrite Er, bind_some. do 3 eexists. split; [done|]. intros q ->. do 4 eexists. left. exact Er.
  - destruct (has_v6 (pool s)) eqn:Ev; cbn [negb]; [|by do 3 eexists]. destruct (mqvpn_ptb_bucket_allow b ms) as [b1 [|]]; cbn [negb]; [|by do 3 eexists]. destruct (sv_pool6 _ _ _ Hs Ev) as [Hl _].
    destruct (icmp6_total (srv_addr6 s) 2 0 (u32 mtu) pkt) as [r Er]; [by apply get6_length|]. rewrite Er, bind_some. do 3 eexists. split; [done|]. intros q ->. do 4 eexists. right. split; [done|]. exact Er.
Qed.

(** From the gate on. *)
Definition gate_step (c : Z) (pkt : list Z) (ip_ver : Z) (rv : rgate_result) : V mqvpn_error_t :=
  match rg_verdict rv with
  | MQVPN_RGATE_DROP_REORDER_MTU | MQVPN_RGATE_DROP_RAW_MTU =>
      ms ← v_ask (v_now_ms E);
      s ← d_get;
      '(b, _, p) ← d_lift (mqvpn_rgate_send_ptb (ptb_bucket s) ms (if ip_ver =? 4 then 4 else 6) (if ip_ver =? 4 then true else has_v6 (pool s))
                             (if ip_ver =? 4 then srv_addr s else srv_addr6 s) (default 0 (rg_mtu rv)) pkt);
      d_modify (fun s => s <| ptb_bucket := b |>) ;;
      match p with Some p => v_emit (SxTun p) | None => d_skip end ;;
      mret MQVPN_OK
  | MQVPN_RGATE_STAMP => forward_to_client E c pkt ip_ver true (rg_peek rv)
  | MQVPN_RGATE_RAW => forward_to_client E c pkt ip_ver false (rg_peek rv)
  end.

Lemma gate_step_ok s s1 c k pkt rv : srv_inv E s -> bytes_ok pkt -> conns s !! c = Some k -> tunnel_established k = true -> dst_owned k pkt ->
  srv_inv E s1 -> data_rel s s1 -> svr_out s1 = svr_out s -> (forall k1, conns s1 !! c = Some k1 -> reorder_tx k1 = rg_tx rv) ->
  (rg_verdict rv = MQVPN_RGATE_STAMP -> stamp_ready (rg_tx rv) (rg_peek rv)) -> (deliverable k pkt -> rg_verdict rv = MQVPN_RGATE_RAW) ->
  dwp (gate_step c pkt (byte_at pkt 0 / 16) rv) s1 (fun _ s' => tun_post pkt s s').
Proof.
  intros Hs Hb Hk Ht Hd H1 D1 O1 Hrt Hst Hraw. unfold gate_step.
  assert (Hdrop : ~ deliverable k pkt -> dwp (ms ← v_ask (v_now_ms E); s ← d_get;
      '(b, _, p) ← d_lift (mqvpn_rgate_send_ptb (ptb_bucket s) ms (if byte_at pkt 0 / 16 =? 4 then 4 else 6) (if byte_at pkt 0 / 16 =? 4 then true else has_v6 (pool s))
                             (if byte_at pkt 0 / 16 =? 4 then srv_addr s else srv_addr6 s) (default 0 (rg_mtu rv)) pkt);
      d_modify (fun s => s <| ptb_bucket := b |>) ;; match p with Some p => v_emit (SxTun p) | None => d_skip end ;; mret MQVPN_OK) s1 (fun _ s' => tun_post pkt s s')).
  { intros Hn. assert (Hother : forall c' k', conns s !! c' = Some k' -> tunnel_established k' = true -> ~ deliverable k' pkt).
    { intros c' k' Hk' Ht' Hdel. pose proof Hdel as [Hd' _]. destruct (dst_unique s pkt c c' k k') as [-> ->]; done. }
    apply dwp_bind, dwp_vask, dwp_bind, dwp_get, dwp_bind. set (s2 := s1 <| svr_calls ::= S |>). assert (H2 : srv_inv E s2) by (eapply pend_same; [done|exact H1|apply same_ask]).
    destruct (srv_ptb_ok s2 (ptb_bucket s2) (v_now_ms E (svr_calls s1)) (byte_at pkt 0 / 16) (default 0 (rg_mtu rv)) pkt H2) as (b & sent & p & Ep & Hp). eapply dwp_lift; [exact Ep|]. apply dwp_bind, dwp_modify, dwp_bind.
    match goal with |- dwp _ ?x _ => set (s3 := x) end. assert (T3 : same_tables s1 s3) by (unfold same_tables; cbn; split_and!; done || lia).
    assert (Hpost : forall s' new, same_tables s3 s' -> svr_out s' = svr_out s3 ++ new -> tun_fx s pkt new -> dwp (mret MQVPN_OK) s' (fun _ s' => tun_post pkt s s')).
    { intros s' new T O Hf. apply dwp_ret. split; [eapply pend_same; [done|exact H1|by eapply same_trans]|]. split; [eapply data_trans; [exact D1|]; apply data_same; by eapply same_trans|]. exists new. split; [|done]. rewrite O. change (svr_out s3) with (svr_out s1). by rewrite O1. }
    destruct p as [q|]; [apply dwp_vemit|apply dwp_skip].
    - eapply Hpost; [apply same_emit|done|]. apply TunIcmp; [done|]. rewrite <- (dr_pool _ _ D1). by apply Hp.
    - eapply Hpost; [apply same_refl|by rewrite app_nil_r|]. by apply TunDrop. }
  destruct (rg_verdict rv) eqn:Ev.
  - apply (forward_to_client_ok s s1 c k); try done; [intros k1 Hk1 _; rewrite (Hrt k1 Hk1); by apply Hst|]. intros _ Hdel. by specialize (Hraw Hdel).
  - by apply (forward_to_client_ok s s1 c k).
  - apply Hdrop. intros Hdel. by specialize (Hraw Hdel).
  - apply Hdrop. intros Hdel. by specialize (Hraw Hdel).
Qed.

Lemma on_tun_packet_srv_ok s pkt : srv_inv E s -> bytes_ok pkt -> dwp (mqvpn_server_on_tun_packet E pkt) s (fun _ s' => tun_post pkt s s').
Proof.
  intros Hs Hb. unfold mqvpn_server_on_tun_packet. assert (Hn0 : 0 <= blen pkt) by apply blen_nonneg.
  assert (Hquiet : forall r : mqvpn_error_t, (forall c k, conns s !! c = Some k -> tunnel_established k = true -> ~ deliverable k pkt) -> dwp (mret r) s (fun _ s' => tun_post pkt s s')).
  { intros r H. apply dwp_ret. split; [done|]. split; [apply data_same, same_refl|]. exists []. split; [by rewrite app_nil_r|by apply TunDrop]. }
  destruct (Z.eqb_spec (blen pkt) 0) as [E0|N0]; [apply Hquiet; intros c k _ _ ([(_ & ? & _)|(_ & ? & _)] & _); lia|]. apply dwp_bind, dwp_get.
  destruct (Z.eqb_spec (n_sessions s) 0) as [Ez|Nz]; [apply Hquiet; intros c k Hk Ht _; pose proof (live_counted s c k Hs (conn_up _ _ _ Hs Hk Ht)); lia|].
  apply dwp_bind. eapply dwp_lift; [apply rd_byte_at; lia|]. cbv zeta. rewrite Z.shiftr_div_pow2 by lia. change (2 ^ 4) with 16. destruct (tun_target_ok s pkt Hs Hb) as (r & Er & R1 & R2 & R3). apply dwp_bind. eapply dwp_lift; [exact Er|].
  destruct r as [slot|]; [|apply Hquiet; intros c k Hk Ht (Hd & _); by specialize (R2 c k Hk (conn_up _ _ _ Hs Hk Ht) Hd)]. apply dwp_bind.
  destruct slot as [c|].
  - destruct (R1 c eq_refl) as (k & Hk & Hl & Hd). pose proof Hl as (Ht & _). apply dwp_bind. eapply dwp_conn; [exact Hk|]. apply dwp_ret. rewrite Ht. apply dwp_bind. eapply dwp_conn; [exact Hk|]. apply dwp_bind, dwp_vask, dwp_bind, dwp_vask.
    set (s1 := s <| svr_calls ::= S |> <| svr_calls ::= S |>). assert (T1 : same_tables s s1) by (eapply same_trans; apply same_ask). apply dwp_bind. destruct (sv_conns _ _ _ Hs c k Hk) as (_ & (Htx & Hrx) & _).
    match goal with |- context [mqvpn_rgate_decide ?a ?b ?p ?m ?x ?t ?u] => destruct (rgate_ok a b p m x t u Hb Htx) as (rv & Ev & Htx' & Hst & _); pose proof (not_stamped a b p m x t u rv Ev) as Hns end.
    eapply dwp_lift; [exact Ev|]. apply dwp_bind. unfold put_conn. apply dwp_modify. set (k1 := k <| reorder_tx := rg_tx rv |>). assert (Hkept : conn_kept k k1) by (by split_and!). fold (gate_step c pkt (byte_at pkt 0 / 16) rv).
    assert (H1 : srv_inv E s1) by (by eapply pend_same). apply (gate_step_ok s _ c k pkt rv); try done.
    + eapply pend_put; [exact H1|exact Hk|apply Hkept|]. destruct (sv_conns _ _ _ H1 c k Hk) as (_ & (_ & Hrx1) & _). split; [exact Htx'|exact Hrx1].
    + eapply data_trans; [by apply data_same|]. by apply (data_put s1 c k k1).
    + intros k2 Hk2. cbn in Hk2. rewrite lookup_insert_eq in Hk2. apply Some_inj in Hk2. by subst k2.
    + intros (_ & _ & Hno & Hroom & _). by apply Hns.
  - apply dwp_ret. assert (Hnone : forall c k, conns s !! c = Some k -> tunnel_established k = true -> ~ deliverable k pkt) by (intros c k Hk Ht (Hd & _); by specialize (R2 c k Hk (conn_up _ _ _ Hs Hk Ht) Hd)).
    apply dwp_bind. assert (H0 : forall s', same_tables s s' -> svr_out s' = svr_out s -> tun_post pkt s s').
    { intros s' T O. split; [by eapply pend_same|]. split; [by apply data_same|]. exists []. split; [by rewrite app_nil_r, O|]. by apply TunDrop. }
    assert (Hq : forall q s', server_icmp (pool s) q -> same_tables s s' -> svr_out s' = svr_out s -> dwp (v_emit (SxTun q)) s' (fun _ s' => tun_post pkt s s')).
    { intros q s' Hq T O. apply dwp_vemit. assert (T' : same_tables s (s' <| svr_out ::= fun l => l ++ [SxTun q] |>)) by (eapply same_trans; [exact T|apply same_emit]). split; [by eapply pend_same|]. split; [by apply data_same|].
      exists [SxTun q]. split; [cbn; by rewrite O|]. by apply TunIcmp. }
    eapply dwp_mono with (Q := fun _ s' => tun_post pkt s s'); [|intros [] s' Hp; by apply dwp_ret]. destruct (_ =? 4); [by apply (icmp4_ok E None s)|by apply (icmp6_ok E None s)].
Qed.

(** ** Counters *)

Lemma count_conn_ok s c k f g : srv_inv E s -> conns s !! c = Some k -> (forall k, conn_kept k (f k) /\ reorder_tx (f k) = reorder_tx k /\ reorder_rx (f k) = reorder_rx k) ->
  (forall s, same_tables s (g s) /\ svr_out (g s) = svr_out s) -> dwp (modify_conn c f ;; d_modify g) s (fun _ s' => srv_inv E s' /\ data_rel s s' /\ svr_out s' = svr_out s).
Proof.
  intros Hs Hk Hf Hg. apply dwp_bind. eapply dwp_modify_conn; [exact Hk|]. apply dwp_modify. destruct (Hf k) as (Hkept & E1 & E2). set (s1 := s <| conns ::= <[c := f k]> |>). destruct (Hg s1) as [T O].
  assert (H1 : srv_inv E s1).
  { eapply pend_put; [exact Hs|exact Hk|apply Hkept|]. destruct (sv_conns _ _ _ Hs c k Hk) as (_ & He & _). unfold engines_ok in *. by rewrite E1, E2. }
  split; [by eapply pend_same|]. split; [eapply data_trans; [by apply (data_put s c k (f k))|by apply data_same]|]. by rewrite O.
Qed.
End tun.
