(* ===== verification/ServerLife.v ===== *)
(** * Lifetimes of the server

    The operations of the server in the order xquic and the platform may call
    them, and what holds in every state they lead to: the session table agrees
    with the connections and the pool, only entitled callers get a tunnel, and
    packets reach only those they belong to. *)

From Stdlib Require Import String.
From S2P Require Import Prelude Wire CString Ring ReorderRx RxFlow RxInv RxStep RxTable RxEngine ReorderTx TxProofs Icmp Gate FlowSched AddrPool Hybrid PathFsm Client RtxTable RedundantTx RedundantPorts TunFrame StateOpt ClientLane LaneProofs LaneRun Auth ServerConn ServerData ServerInv ServerSess ServerOps ServerFwd ServerTun.

#[local] Abbreviation length := List.length.
Open Scope list_scope.

Inductive svr_op :=
| VAccept | VRefuse (c : Z) | VH3Create (c : Z) | VH3Close (c : Z)
| VReqCreate (c sid : Z) | VReqHeaders (c sid : Z) (headers : list (list Z * list Z)) | VReqClose (c sid : Z)
| VRead (c : Z) (data : list Z) | VAcked (c : Z) | VLost (c : Z) | VMss (c mss : Z)
| VTun (pkt : list Z) | VTick | VAddUser (name key : list Z) | VRemoveUser (name : list Z).

Definition svr_do (E : server_env) (op : svr_op) : V unit :=
  match op with
  | VAccept => _ ← cb_accept E; d_skip
  | VRefuse c => cb_refuse E c
  | VH3Create c => cb_h3_conn_create E c
  | VH3Close c => cb_h3_conn_close E c
  | VReqCreate c sid => _ ← cb_request_create E c sid; d_skip
  | VReqHeaders c sid headers => _ ← cb_request_headers E c sid headers; d_skip
  | VReqClose c sid => cb_request_close E c sid
  | VRead c data => cb_dgram_read E c data
  | VAcked c => cb_dgram_acked c
  | VLost c => cb_dgram_lost c
  | VMss c mss => cb_dgram_mss_updated c mss
  | VTun pkt => _ ← mqvpn_server_on_tun_packet E pkt; d_skip
  | VTick => mqvpn_server_tick E
  | VAddUser name key => _ ← server_add_user name key; d_skip
  | VRemoveUser name => _ ← mqvpn_server_remove_user name; d_skip
  end.

(** xquic refuses only connections that have not become HTTP/3 ones, makes a
    connection an HTTP/3 one once, closes one after its streams, and calls back
    for connections and streams it has; buffers hold bytes. *)
Definition svr_legal (s : mqvpn_server_t) (op : svr_op) : Prop :=
  match op with
  | VAccept | VTick => True
  | VRefuse c | VH3Create c => exists k, conns s !! c = Some k /\ h3_conn k = false
  | VH3Close c => is_Some (conns s !! c) /\ forall sid, streams s !! (c, sid) = None
  | VReqCreate c sid => streams s !! (c, sid) = None /\ exists k, conns s !! c = Some k /\ h3_conn k = true
  | VReqHeaders c sid headers => is_Some (streams s !! (c, sid)) /\ Forall (fun h => bytes_ok h.2) headers
  | VReqClose c sid => is_Some (streams s !! (c, sid))
  | VRead c data => is_Some (conns s !! c) /\ bytes_ok data
  | VAcked c | VLost c | VMss c _ => is_Some (conns s !! c)
  | VTun pkt => bytes_ok pkt
  | VAddUser name key => bytes_ok name /\ bytes_ok key
  | VRemoveUser name => bytes_ok name
  end.

(** The pool as [mqvpn_server_new] creates it, with or without an IPv6 subnet;
    [inet_pton] yields addresses. *)
Inductive pool_created : mqvpn_addr_pool_t -> Prop :=
| PoolV4 pton4 cidr p : (forall s a, pton4 s = Some a -> 0 <= a < 2 ^ 32) -> mqvpn_addr_pool_init pton4 cidr = (p, true) -> pool_created p
| PoolV46 pton4 cidr p pton6 cidr6 p' : (forall s a, pton4 s = Some a -> 0 <= a < 2 ^ 32) -> (forall s a, pton6 s = Some a -> bytes_ok a /\ length a = 16%nat) ->
    mqvpn_addr_pool_init pton4 cidr = (p, true) -> mqvpn_addr_pool_init6 pton6 p cidr6 = (p', true) -> pool_created p'.

(** A server that was set up. *)
Record server_start (cfg : server_config) (p : mqvpn_addr_pool_t) : Prop := {
  ss_auth : auth_wf (sv_auth cfg);
  ss_ranges : cfg_ranges (sv_reorder cfg) /\ 0 <= reset_mark_packets (sv_reorder cfg) < 2 ^ 32;
  ss_pool : pool_created p
}.

Lemma created_ok p : pool_created p -> pool_ok p /\ (has_v6 p = true -> length (base6 p) = 16%nat /\ bytes_ok (base6 p) /\ low32 (base6 p) + pool_size p < 2 ^ 32) /\
  forall off, 2 <= off <= pool_size p -> ~ in_use p off.
Proof.
  assert (Hfree : forall p, leases_of p ∅ -> forall off, 2 <= off <= pool_size p -> ~ in_use p off).
  { intros q HL off Ho Hu. assert (Hin : base q + off ∈ (∅ : gset Z)) by (apply HL; by exists off). set_solver. }
  intros [pton4 cidr q H4 Hi|pton4 cidr q pton6 cidr6 q' H4 H6 Hi Hi6].
  - destruct (pool_init_ok pton4 H4 cidr q Hi) as (H & HL & _). split_and!; [done| |by apply Hfree]. by rewrite (pool_init_v4 _ _ _ Hi).
  - destruct (pool_init_ok pton4 H4 cidr q Hi) as (H & HL & _). destruct (pool_init6_ok pton6 H6 q q' cidr6 H Hi6) as (Hb & Hl & Hp & _ & Es & Hfit). destruct (pool_init6_keeps _ _ _ _ Hi6) as (K1 & K2 & K3 & K4). split_and!.
    + destruct H as [P1 P2 P3 P4]. split; rewrite ?K1, ?K2, ?K3, ?K4; done.
    + intros _. split_and!; try done. pose proof (low32_range _ Hb Hl). apply (block_fits _ _ (128 - prefix6 q')); [lia|lia|]. by rewrite Es.
    + intros off Ho Hu. apply (Hfree q HL off); [lia|]. unfold in_use in *. by rewrite K4 in Hu.
Qed.

(** The states that legal operations lead to. *)
Inductive svr_reach (E : server_env) (s0 : mqvpn_server_t) : mqvpn_server_t -> Prop :=
| SvrStart : svr_reach E s0 s0
| SvrStep s op s' : svr_reach E s0 s -> svr_legal s op -> svr_do E op s = Some (tt, s') -> svr_reach E s0 s'.

(** ** One operation *)

Section life.
Context (E : server_env) (HE : server_env_ok E).

Lemma server_start_inv cfg p clients mtu : server_start cfg p -> srv_inv E (server_init cfg p clients mtu).
Proof.
  intros [H1 H2 Hp]. destruct (created_ok p Hp) as (H3 & H4 & H5). unfold server_init. split; cbn [pool sessions n_sessions max_clients streams sconfig next_tx_scope svr_calls conns]; try done.
  - intros i c Hi. apply lookup_replicate in Hi as [? _]. done.
  - intros off Ho Hu. by destruct (H5 off Ho).
  - intros i c Hi. apply lookup_replicate in Hi as [? _]. done.
  - destruct (Z.ltb_spec 0 clients); lia.
Qed.

(** A tunnel that is up was up before, under the same name, or came up for an
    entitled request of this operation. *)
Definition tunnels_from (s : mqvpn_server_t) (op : svr_op) (s' : mqvpn_server_t) : Prop :=
  forall c k', conns s' !! c = Some k' -> tunnel_established k' = true ->
    (exists k, conns s !! c = Some k /\ tunnel_established k = true /\ username k' = username k) \/
    exists sid headers, op = VReqHeaders c sid headers /\ entitled (sv_auth (sconfig s)) headers (username k').

(** An effect the operation may have. *)
Definition fx_allowed (s : mqvpn_server_t) (op : svr_op) (x : svr_fx) : Prop :=
  match x with
  | SxTun q => server_icmp (pool s) q \/ exists c k pkt, conns s !! c = Some k /\ tunnel_established k = true /\ src_owned k pkt /\ 2 <= hops pkt /\ ttl_decrement (byte_at pkt 0 / 16) pkt = Some q
  | SxDgram c frame _ _ => exists k, conns s !! c = Some k /\ tunnel_established k = true /\
      ((exists pkt h q, op = VTun pkt /\ dst_owned k pkt /\ ttl_decrement (byte_at pkt 0 / 16) pkt = Some q /\ frame = h ++ q) \/
       (exists pkt q, src_owned k pkt /\ server_icmp (pool s) q /\ v_masque_frame_pkt E 1400 (masque_stream_id k) q = Some frame))
  | _ => True
  end.

Definition op_post (op : svr_op) (s s' : mqvpn_server_t) : Prop :=
  srv_inv E s' /\ max_clients s' = max_clients s /\ tunnels_from s op s' /\ exists new, svr_out s' = svr_out s ++ new /\ Forall (fx_allowed s op) new.

Lemma ctl_allowed s op new : forallb is_ctl new = true -> Forall (fx_allowed s op) new.
Proof. intros H. apply Forall_forall. intros x Hx. rewrite forallb_forall in H. specialize (H x (proj1 (list_elem_of_In _ _) Hx)). by destruct x. Qed.

Lemma ctl_post op c s s' : srv_inv E s' -> ctl_rel c s s' ->
  (forall k', conns s' !! c = Some k' -> tunnel_established k' = true -> (exists k, conns s !! c = Some k /\ tunnel_established k = true /\ username k' = username k) \/
    exists sid headers, op = VReqHeaders c sid headers /\ entitled (sv_auth (sconfig s)) headers (username k')) -> op_post op s s'.
Proof.
  intros Hs (C1 & _ & Em & _ & new & O & F) Hc. split; [done|]. split; [done|]. split; [|exists new; split; [done|by apply ctl_allowed]]. intros c0 k0 Hk0 Ht0. destruct (decide (c0 = c)) as [->|Hne]; [by apply Hc|]. left. exists k0. rewrite C1 in Hk0 by done. done.
Qed.

Lemma none_post op c s s' : srv_inv E s' -> ctl_rel c s s' -> conns s' !! c = None -> op_post op s s'.
Proof. intros Hs C Hn. eapply ctl_post; [done|exact C|]. intros k' Hk'. congruence. Qed.

Lemma quiet_post op c s s' : srv_inv E s' -> ctl_rel c s s' -> no_new_tunnel c s s' -> op_post op s s'.
Proof. intros Hs C Hn. eapply ctl_post; [done|exact C|]. intros k' Hk' Ht. left. by apply Hn. Qed.

Lemma data_post op s s' new : srv_inv E s' -> data_rel s s' -> svr_out s' = svr_out s ++ new -> Forall (fx_allowed s op) new -> op_post op s s'.
Proof.
  intros Hs D O F. split; [done|]. split; [apply D|]. split; [|by exists new]. intros c k' Hk' Ht. left. pose proof (dr_conns _ _ D c) as H. rewrite Hk' in H. destruct (conns s !! c) as [k|]; [|done]. cbn in H. destruct H as ((_ & _ & _ & A4 & _) & U & _). exists k. split_and!; congruence.
Qed.

Lemma fwd_allowed s op c k pkt new : conns s !! c = Some k -> tunnel_established k = true -> fwd_fx E (pool s) c k pkt new -> Forall (fx_allowed s op) new.
Proof.
  intros Hk Ht [Hd|q H1 H2 H3 H4|q f r H1 H2 H3 H4]; [apply Forall_nil_2|..]; (apply Forall_cons; split; [|apply Forall_nil_2]).
  - right. by exists c, k, pkt.
  - exists k. split_and!; try done. right. by exists pkt, q.
Qed.

Lemma client_allowed s op new : Forall (client_fx E s) new -> Forall (fx_allowed s op) new.
Proof. intros H. eapply Forall_impl; [exact H|]. intros x (c & k & pkt & new0 & Hk & Ht & Hf & Hx). pose proof (fwd_allowed s op c k pkt new0 Hk Ht Hf) as Hall. rewrite Forall_forall in Hall. by apply Hall. Qed.

Lemma tun_allowed s pkt new : tun_fx E s pkt new -> Forall (fx_allowed s (VTun pkt)) new.
Proof.
  intros [Hd|q Hd Hq|c k h q fh r H1 H2 H3 H4 H5]; [apply Forall_nil_2|..]; (apply Forall_cons; split; [|apply Forall_nil_2]).
  - by left.
  - exists k. split_and!; try done. left. by exists pkt, h, q.
Qed.

Lemma read_allowed c data s s' : srv_inv E s -> read_post E c data s s' -> op_post (VRead c data) s s'.
Proof.
  intros Hs (H1 & D1 & k & pkts & outs & Hk & Ho & O1 & Hdown & _). eapply data_post; [done|done|exact O1|]. destruct (tunnel_established k) eqn:Ht; [by eapply client_allowed, concat_fx|].
  rewrite (Hdown eq_refl) in Ho. apply Forall2_nil_inv_l in Ho. subst outs. apply Forall_nil_2.
Qed.

Lemma skip_post {A} (m : V A) op s : dwp m s (fun _ s' => op_post op s s') -> dwp (_ ← m; d_skip) s (fun _ s' => op_post op s s').
Proof. intros H. apply dwp_bind. eapply dwp_mono; [exact H|]. intros a s' Hp. by apply dwp_skip. Qed.

Lemma counted_post op s s' : srv_inv E s' /\ data_rel s s' /\ svr_out s' = svr_out s -> op_post op s s'.
Proof. intros (H1 & H2 & H3). eapply (data_post op s s' []); [done|done|by rewrite app_nil_r|apply Forall_nil_2]. Qed.

(** Every legal operation on a consistent server. *)
Lemma svr_do_ok s op : srv_inv E s -> svr_legal s op -> dwp (svr_do E op) s (fun _ s' => op_post op s s').
Proof.
  intros Hs Hl. destruct op as [|c|c|c|c sid|c sid hs|c sid|c data|c|c|c mss|pkt| |name key|name]; cbn [svr_do svr_legal] in *.
  - apply skip_post. eapply dwp_mono; [by apply accept_ok|]. intros r s' (H1 & C1 & Hr). eapply ctl_post; [done|exact C1|]. intros k' Hk' Ht. destruct r as [c|].
    + destruct Hr as (-> & _ & k & Hk & Hf). rewrite Hk in Hk'. apply Some_inj in Hk'. congruence.
    + left. exists k'. by rewrite Hr in Hk'.
  - destruct Hl as (k & Hk & Hh). eapply dwp_mono; [by eapply refuse_ok|]. intros [] s' (H1 & C1 & Hn). by eapply none_post.
  - destruct Hl as (k & Hk & Hh). eapply dwp_mono; [by eapply h3_create_ok|]. intros [] s' (H1 & C1 & Hn). by eapply quiet_post.
  - destruct Hl as ([k Hk] & Hno). eapply dwp_mono; [by eapply conn_close_ok|]. intros [] s' (H1 & C1 & Hn). by eapply none_post.
  - destruct Hl as (_ & k & Hk & Hh). apply skip_post. eapply dwp_mono; [by eapply request_create_ok|]. intros r s' (H1 & C1 & Hn). eapply quiet_post; [done|exact C1|]. intros k' Hk' Ht. rewrite Hn in Hk'. by exists k'.
  - destruct Hl as ([st Hst] & Hb). apply skip_post. eapply dwp_mono; [by eapply request_headers_ok|]. intros r s' (H1 & C1 & k & k' & Hk & Hk' & He). eapply ctl_post; [done|exact C1|].
    intros k0 Hk0 Ht. rewrite Hk' in Hk0. apply Some_inj in Hk0. subst k0. destruct (He Ht) as [->|Hent]; [left; by exists k|right; by exists sid, hs].
  - destruct Hl as [st Hst]. eapply dwp_mono; [by eapply request_close_ok|]. intros [] s' (H1 & C1 & Hn). by eapply quiet_post.
  - destruct Hl as ([k Hk] & Hb). eapply dwp_mono; [by eapply srv_dgram_read_ok|]. intros [] s'. by apply read_allowed.
  - destruct Hl as [k Hk]. eapply dwp_mono; [eapply (count_conn_ok E HE s c k); [done|exact Hk|intros k0; by split_and!|]|intros [] s'; apply counted_post]. intros s0. split; [|done]. unfold same_tables. cbn. split_and!; done || lia.
  - destruct Hl as [k Hk]. eapply dwp_mono; [eapply (count_conn_ok E HE s c k); [done|exact Hk|intros k0; by split_and!|]|intros [] s'; apply counted_post]. intros s0. split; [|done]. unfold same_tables. cbn. split_and!; done || lia.
  - destruct Hl as [k Hk]. unfold cb_dgram_mss_updated. eapply dwp_modify_conn; [exact Hk|]. apply counted_post. split; [by eapply put_connected|]. split; [eapply data_put; [exact Hk|by split_and!]|done].
  - apply skip_post. eapply dwp_mono; [by apply on_tun_packet_srv_ok|]. intros r s' (H1 & D1 & new & O1 & Hf). eapply data_post; [done|done|exact O1|by apply tun_allowed].
  - eapply dwp_mono; [by apply server_tick_ok|]. intros [] s' (H1 & D1 & new & O1 & Hf). eapply data_post; [done|done|exact O1|by apply client_allowed].
  - apply skip_post. destruct Hl as [Hn Hk]. eapply dwp_mono; [by apply add_user_ok|]. intros r s' (H1 & Em & Ec & O & _). split; [done|]. split; [done|]. split; [|exists []; split; [by rewrite app_nil_r|apply Forall_nil_2]]. intros c k' Hk' Ht. left. rewrite Ec in Hk'. by exists k'.
  - apply skip_post. eapply dwp_mono; [by apply remove_user_ok|]. intros r s' (H1 & _ & Em & Ec & _ & new & O & Hx). split; [done|]. split; [done|]. split; [|exists new; split; [done|]].
    + intros c k' Hk' Ht. left. rewrite Ec in Hk'. by exists k'.
    + apply Forall_forall. intros x Hin. apply Hx in Hin as (_ & c & k & -> & _). done.
Qed.

Lemma step_post s op s' : srv_inv E s -> svr_legal s op -> svr_do E op s = Some (tt, s') -> op_post op s s'.
Proof. intros Hs Hl Hd. destruct (svr_do_ok s op Hs Hl) as (a & s1 & Hd1 & Hp). rewrite Hd in Hd1. apply Some_inj, pair_equal_spec in Hd1 as [_ <-]. done. Qed.

Lemma reach_inv cfg p clients mtu s : server_start cfg p -> svr_reach E (server_init cfg p clients mtu) s -> srv_inv E s /\ max_clients s = (if 0 <? clients then clients else 64).
Proof.
  intros H0 Hr. induction Hr as [|s op s' Hr [IH1 IH2] Hl Hd]; [split; [by apply server_start_inv|done]|]. destruct (step_post s op s' IH1 Hl Hd) as (H1 & H2 & _). split; [done|]. by rewrite H2.
Qed.

(** ** The sessions and the connections *)

Lemma omap_id_elem (l : list (option Z)) c : c ∈ omap id l <-> exists i, l !! i = Some (Some c).
Proof.
  rewrite list_elem_of_omap. split.
  - intros (x & Hx & E1). cbn in E1. subst x. by apply list_elem_of_lookup.
  - intros [i Hi]. exists (Some c). split; [|done]. by eapply list_elem_of_lookup_2.
Qed.

Lemma omap_id_nodup (l : list (option Z)) : (forall i j c, l !! i = Some (Some c) -> l !! j = Some (Some c) -> i = j) -> NoDup (omap id l).
Proof.
  induction l as [|x l IH]; intros H; [apply NoDup_nil_2|]. assert (Hl : NoDup (omap id l)) by (apply IH; intros i j c Hi Hj; exact (f_equal pred (H (S i) (S j) c Hi Hj))).
  destruct x as [c|]; [|exact Hl]. change (omap id (Some c :: l)) with (c :: omap id l). apply NoDup_cons. split; [|done]. rewrite omap_id_elem. intros [i Hi]. by specialize (H 0%nat (S i) c eq_refl Hi).
Qed.

Lemma sessions_nodup s : srv_inv E s -> NoDup (omap id (sessions s)).
Proof.
  intros Hs. apply omap_id_nodup. intros i j c Hi Hj. destruct (sv_slot _ _ _ Hs i c Hi) as (k & Hk & Ea & _). destruct (sv_slot _ _ _ Hs j c Hj) as (k' & Hk' & Ea' & _). rewrite Hk in Hk'. apply Some_inj in Hk'. subst k'. lia.
Qed.

Definition established (s : mqvpn_server_t) : gmap Z svr_conn_t := filter (fun ck => tunnel_established ck.2 = true) (conns s).

Lemma session_count s : srv_inv E s -> n_sessions s = Z.of_nat (size (established s)).
Proof.
  intros Hs. rewrite (sv_count _ _ _ Hs). f_equal. unfold live_slots. rewrite <- (size_list_to_set (C := gset Z)) by (by apply sessions_nodup). rewrite <- size_dom. f_equal. apply set_eq. intros c.
  rewrite elem_of_list_to_set, omap_id_elem, elem_of_dom. unfold established. split.
  - intros [i Hi]. destruct (sv_slot _ _ _ Hs i c Hi) as (k & Hk & _ & Hl & _). exists k. apply map_lookup_filter_Some. done.
  - intros [k Hk]. apply map_lookup_filter_Some in Hk as [Hk Ht]. destruct (conn_up E s c k Hs Hk Ht) as (_ & _ & _ & off & _ & _ & Hslot & _). by eexists.
Qed.

Lemma lease_held s off : srv_inv E s -> 2 <= off <= pool_size (pool s) ->
  in_use (pool s) off <-> exists c k, conns s !! c = Some k /\ tunnel_established k = true /\ assigned_ip k = base (pool s) + off.
Proof.
  intros Hs Ho. split.
  - intros Hu. destruct (sv_used _ _ _ Hs off Ho Hu) as [[c Hc]|[c Hc]]; [|done]. destruct (sv_slot _ _ _ Hs _ c Hc) as (k & Hk & Ea & Hl & _). exists c, k. split_and!; try done. lia.
  - intros (c & k & Hk & Ht & Ea). destruct (conn_up E s c k Hs Hk Ht) as (_ & _ & _ & o & Hor & Ea' & Hslot & _). assert (o = off) as -> by lia. pose proof (sv_leased _ _ _ Hs _ c Hslot) as Hu. by rewrite Z2Nat.id in Hu by lia.
Qed.

Lemma address_unique s c c' k k' : srv_inv E s -> conns s !! c = Some k -> conns s !! c' = Some k' -> tunnel_established k = true -> tunnel_established k' = true -> assigned_ip k = assigned_ip k' -> c = c'.
Proof.
  intros Hs Hk Hk' Ht Ht' Ea. destruct (conn_up E s c k Hs Hk Ht) as (_ & _ & _ & o & Ho & Eo & Hslot & _). destruct (conn_up E s c' k' Hs Hk' Ht') as (_ & _ & _ & o' & Ho' & Eo' & Hslot' & _).
  assert (o' = o) as -> by lia. congruence.
Qed.
End life.
