(* ===== verification/ServerRun.v ===== *)
(** * The server over its lifetime

    The claims on every reachable state of the server, and a concrete lifetime
    with two clients that shows them at work. *)

From Stdlib Require Import String.
From S2P Require Import Prelude Wire CString Ring ReorderRx RxFlow RxInv RxStep RxTrace RxTable RxEngine ReorderTx TxProofs Icmp Gate FlowSched AddrPool Hybrid PathFsm Client RtxTable RedundantTx RedundantPorts TunFrame StateOpt ClientLane LaneProofs LaneRun Auth ServerConn ServerData ServerInv ServerSess ServerOps ServerFwd ServerTun ServerLife.

#[local] Abbreviation length := List.length.
Open Scope list_scope.

(** ** What holds over every lifetime *)

(** C5: the session table.  After any sequence of legal operations on a new
    server, no legal operation faults (no freed connection is used, no access
    leaves the tables, the debug assertions hold); the number of sessions is
    the number of connections with a tunnel and within the limit; a connection
    without a tunnel holds no address; tunnels have distinct addresses from
    the pool, and an address of the pool is leased exactly when a tunnel holds
    it, so that nothing leaks. *)
Theorem server_sessions_sound E cfg p clients mtu s : server_env_ok E -> server_start cfg p -> svr_reach E (server_init cfg p clients mtu) s ->
  (forall op, svr_legal s op -> exists s', svr_do E op s = Some (tt, s')) /\
  n_sessions s = Z.of_nat (size (established s)) /\ n_sessions s <= (if 0 <? clients then clients else 64) /\
  (forall c k, conns s !! c = Some k -> tunnel_established k = false -> assigned_ip k = 0) /\
  (forall c k, conns s !! c = Some k -> tunnel_established k = true -> base (pool s) + 2 <= assigned_ip k <= base (pool s) + pool_size (pool s) /\
    (has_v6 (pool s) = true -> assigned_ip6 k = mqvpn_addr_pool_get6 (pool s) (assigned_ip k - base (pool s)))) /\
  (forall c c' k k', conns s !! c = Some k -> conns s !! c' = Some k' -> tunnel_established k = true -> tunnel_established k' = true -> assigned_ip k = assigned_ip k' -> c = c') /\
  (forall off, 2 <= off <= pool_size (pool s) -> in_use (pool s) off <-> exists c k, conns s !! c = Some k /\ tunnel_established k = true /\ assigned_ip k = base (pool s) + off).
Proof.
  intros HE H0 Hr. destruct (reach_inv E HE cfg p clients mtu s H0 Hr) as [Hs Hm]. split_and!.
  - intros op Hl. destruct (svr_do_ok E HE s op Hs Hl) as ([] & s' & Hd & _). by exists s'.
  - by apply (session_count E).
  - rewrite <- Hm. apply (sv_room _ _ _ Hs).
  - intros c k Hk Hf. destruct (sv_conns _ _ _ Hs c k Hk) as ([(H1 & _)|(H1 & _)] & _); congruence.
  - intros c k Hk Ht. destruct (conn_up E s c k Hs Hk Ht) as (_ & _ & _ & o & Ho & Eo & _ & H6). split; [lia|]. intros Hv. rewrite Eo. replace (base (pool s) + o - base (pool s)) with o by lia. auto.
  - intros c c' k k'. by apply (address_unique E).
  - intros off. by apply (lease_held E).
Qed.

(** C6: a tunnel needs credentials.  Whatever happens to a reachable server, a
    tunnel that is up after a step and was not up before it came up in the
    header phase of a request on that very connection, and that request was
    entitled: no authentication is configured, or it carries a bearer token
    that is at that moment the global key or the key of a user, whose name the
    connection has. *)
Theorem tunnel_needs_credential E cfg p clients mtu s op s' c k' : server_env_ok E -> server_start cfg p -> svr_reach E (server_init cfg p clients mtu) s ->
  svr_legal s op -> svr_do E op s = Some (tt, s') -> conns s' !! c = Some k' -> tunnel_established k' = true ->
  (exists k, conns s !! c = Some k /\ tunnel_established k = true /\ username k' = username k) \/
  exists sid headers, op = VReqHeaders c sid headers /\ entitled (sv_auth (sconfig s)) headers (username k').
Proof.
  intros HE H0 Hr Hl Hd Hk Ht. destruct (reach_inv E HE cfg p clients mtu s H0 Hr) as [Hs _]. destruct (step_post E HE s op s' Hs Hl Hd) as (_ & _ & Ht' & _). by apply Ht'.
Qed.




Lemma drop_user_iff us name : is_Some (drop_user us name) <-> exists key, (name, key) ∈ us.
Proof.
  induction us as [|[n k] us IH]; cbn [drop_user fst]; [split; [by intros [? ?]|by intros (? & ?%elem_of_nil)]|]. case_bool_decide as En; [subst n; split; [intros _; exists k; by left|by eexists]|].
  assert (Hc : is_Some (cons (n, k) <$> drop_user us name) <-> is_Some (drop_user us name)) by (by rewrite fmap_is_Some). rewrite Hc, IH. split; intros [key Hk]; exists key; [by right|]. apply elem_of_cons in Hk as [[= <- _]|?]; done.
Qed.


(** ** A concrete lifetime *)

Definition byteb (x : Z) : bool := (0 <=? x) && (x <? 256).

Lemma bytesb_ok l : forallb byteb l = true -> bytes_ok l.
Proof. rewrite forallb_forall. intros H. apply Forall_forall. intros x Hx%list_elem_of_In. specialize (H x Hx). unfold byteb in H. bool_to_prop. unfold is_byte. lia. Qed.

(** The legality of an operation, decided. *)
Definition svr_legalb (s : mqvpn_server_t) (op : svr_op) : bool :=
  match op with
  | VAccept | VTick => true
  | VRefuse c | VH3Create c => match conns s !! c with Some k => negb (h3_conn k) | None => false end
  | VH3Close c => bool_decide (is_Some (conns s !! c)) && forallb (fun cs => negb (cs.1.1 =? c)) (map_to_list (streams s))
  | VReqCreate c sid => bool_decide (streams s !! (c, sid) = None) && match conns s !! c with Some k => h3_conn k | None => false end
  | VReqHeaders c sid headers => bool_decide (is_Some (streams s !! (c, sid))) && forallb (fun h => forallb byteb h.2) headers
  | VReqClose c sid => bool_decide (is_Some (streams s !! (c, sid)))
  | VRead c data => bool_decide (is_Some (conns s !! c)) && forallb byteb data
  | VAcked c | VLost c | VMss c _ => bool_decide (is_Some (conns s !! c))
  | VTun pkt => forallb byteb pkt
  | VAddUser name key => forallb byteb name && forallb byteb key
  | VRemoveUser name => forallb byteb name
  end.

#[export] Instance stream_none_dec (o : option svr_stream_t) : Decision (o = None).
Proof. destruct o; [right|left]; done. Defined.

Lemma svr_legalb_ok s op : svr_legalb s op = true -> svr_legal s op.
Proof.
  destruct op as [|c|c|c|c sid|c sid hs|c sid|c data|c|c|c mss|pkt| |name key|name]; cbn [svr_legalb svr_legal]; try done.
  1, 2: (destruct (conns s !! c) as [k|]; [|done]; intros H; exists k; split; [done|]; by apply negb_true_iff).
  - intros [H1 H2]%andb_true_iff. apply bool_decide_eq_true in H1. split; [done|]. intros sid. apply eq_None_not_Some. intros [st Hst]. rewrite forallb_forall in H2.
    specialize (H2 ((c, sid), st) (proj1 (list_elem_of_In _ _) (proj2 (elem_of_map_to_list _ _ _) Hst))). cbn in H2. by rewrite Z.eqb_refl in H2.
  - intros [H1 H2]%andb_true_iff. apply bool_decide_eq_true in H1. split; [done|]. destruct (conns s !! c) as [k|]; [|done]. by exists k.
  - intros [H1 H2]%andb_true_iff. apply bool_decide_eq_true in H1. split; [done|]. rewrite forallb_forall in H2. apply Forall_forall. intros h Hh%list_elem_of_In. by apply bytesb_ok, H2.
  - apply bool_decide_eq_true.
  - intros [H1 H2]%andb_true_iff. apply bool_decide_eq_true in H1. split; [done|by apply bytesb_ok].
  - apply bool_decide_eq_true.
  - apply bool_decide_eq_true.
  - apply bool_decide_eq_true.
  - apply bytesb_ok.
  - intros [H1 H2]%andb_true_iff. split; by apply bytesb_ok.
  - apply bytesb_ok.
Qed.

(** A run that stops at a fault or at an operation that is not legal. *)
Fixpoint svr_run (E : server_env) (ops : list svr_op) (s : mqvpn_server_t) : option mqvpn_server_t :=
  match ops with
  | [] => Some s
  | op :: ops => if svr_legalb s op then match svr_do E op s with Some (_, s') => svr_run E ops s' | None => None end else None
  end.

Lemma run_reach E s0 s ops s' : svr_reach E s0 s -> svr_run E ops s = Some s' -> svr_reach E s0 s'.
Proof.
  revert s. induction ops as [|op ops IH]; intros s Hr; cbn [svr_run]; [by intros <-%Some_inj|]. destruct (svr_legalb s op) eqn:El; [|done]. destruct (svr_do E op s) as [[[] s1]|] eqn:Ed; [|done].
  apply IH. eapply SvrStep; [exact Hr|by apply svr_legalb_ok|exact Ed].
Qed.

Definition demo_server_env : server_env :=
  ServerEnv (fun n => Z.of_nat n `min` 1000000) (fun n => Z.of_nat n) (fun _ => 0) (fun _ => true) (fun _ => (true, true, true, true)) (fun _ => all_ok) (fun _ => 0) (fun _ => 0)
    (fun _ _ p => Some p) (fun _ => true) (fun cap sid => if 2 <=? cap then Some [0; 0] else None) (fun _ _ p => Some (0 :: 0 :: p)) (fun d => match d with q :: 0 :: p => Some (q, p) | _ => None end)
    (fun m _ => m - 2) (fun _ _ _ _ => 0) true true true true 11.

Lemma demo_server_env_ok : server_env_ok demo_server_env.
Proof.
  split; cbn [demo_server_env v_now_us v_masque_frame_udp v_masque_unframe_udp].
  - intros n m H. lia.
  - intros n. unfold TIME_LIMIT. lia.
  - intros cap sid h. destruct (Z.leb_spec 2 cap); [|done]. intros [= <-]. exact H.
  - intros d q p Hd. destruct d as [|x [|[| |] d]]; try done. intros [= <- <-]. by apply Forall_cons in Hd as [_ [_ Hd]%Forall_cons].
Qed.

(** "10.8.0.0/29" and two users. *)
Definition demo_pool : mqvpn_addr_pool_t := fst (mqvpn_addr_pool_init sample_pton4 (text "10.8.0.0/29")).

Definition demo_server_cfg : server_config := ServerConfig (SvrAuth [] [(text "ann", text "k1"); (text "bob", text "k2")]) demo_cfg true MQVPN_SCHED_MINRTT.

Lemma demo_server_start : server_start demo_server_cfg demo_pool.
Proof.
  assert (Hu : forall n k, n <> ""%string -> k <> ""%string -> blen (text n) <= 63 -> blen (text k) <= 255 -> bytes_ok (text n) /\ bytes_ok (text k) /\ text n <> [] /\ text k <> [] /\ blen (text n) <= 63 /\ blen (text k) <= 255).
  { intros n k Hn Hk H1 H2. split_and!; [apply text_bytes..| | |done|done]; by destruct n, k. }
  split.
  - split; cbn [demo_server_cfg sv_auth auth_key users]; [apply Forall_nil_2| | |cbn; unfold MQVPN_MAX_USERS; lia].
    + apply Forall_cons_2; [by apply (Hu "ann"%string "k1"%string)|]. apply Forall_cons_2; [by apply (Hu "bob"%string "k2"%string)|apply Forall_nil_2].
    + apply (bool_decide_unpack _). vm_compute. exact I.
  - split; [apply demo_cfg_ranges|vm_compute; split; [discriminate|reflexivity]].
  - apply (PoolV4 sample_pton4 (text "10.8.0.0/29")); [|vm_compute; reflexivity]. intros s a. unfold sample_pton4. destruct (bool_decide _); [|discriminate]. intros [= <-]. lia.
Qed.

Definition demo_server0 : mqvpn_server_t := server_init demo_server_cfg demo_pool 2 1400.

Definition demo_request (tok : string) : list (list Z * list Z) :=
  [(text ":method", text "CONNECT"); (text ":protocol", text "connect-ip"); (text ":scheme", text "https"); (text ":path", text "/.well-known/masque/ip/*/*/"); (text "capsule-protocol", text "?1");
   (text "authorization", text "Bearer " ++ text tok)].

(** From 10.8.0.2 to 10.8.0.3. *)
Definition demo_packet : list Z := [69; 0; 0; 28; 0; 0; 0; 0; 64; 17; 0; 0; 10; 8; 0; 2; 10; 8; 0; 3; 18; 52; 1; 187; 0; 8; 0; 0].

(** Two clients come, one of them first with a wrong token. *)
Definition demo_arrivals : list svr_op :=
  [VAccept; VH3Create 1; VReqCreate 1 0; VReqHeaders 1 0 (demo_request "k1"); VAccept; VH3Create 2; VReqCreate 2 0; VReqHeaders 2 0 (demo_request "k9"); VReqClose 2 0;
   VReqCreate 2 4; VReqHeaders 2 4 (demo_request "k2")].

(** A packet from the first to the second, one with a foreign source, and the
    end of both. *)
Definition demo_traffic : list svr_op := [VRead 1 (0 :: 0 :: demo_packet); VRead 2 (1 :: 0 :: demo_packet); VTun demo_packet; VTick; VRemoveUser (text "bob"); VReqClose 2 4; VH3Close 2; VReqClose 1 0; VH3Close 1].

Definition demo_server1 : mqvpn_server_t := default demo_server0 (svr_run demo_server_env demo_arrivals demo_server0).

Lemma demo_reach1 : svr_reach demo_server_env demo_server0 demo_server1.
Proof.
  apply (run_reach _ _ demo_server0 demo_arrivals); [apply SvrStart|]. unfold demo_server1. assert (H : bool_decide (is_Some (svr_run demo_server_env demo_arrivals demo_server0)) = true) by (vm_compute; reflexivity).
  apply bool_decide_eq_true in H as [s ->]. done.
Qed.

Definition demo_fx (x : svr_fx) : list Z :=
  match x with
  | SxTun q => 1 :: q | SxDgram c f _ _ => 2 :: c :: f | SxHeaders c sid ((_, st) :: _) _ => 3 :: c :: sid :: st | SxConnected off _ => [4; off] | SxDisconnected off => [5; off]
  | SxConnClose c => [6; c] | SxScopeReleased sc => [7; sc] | _ => []
  end.

(** The effects but for the capsules. *)
Example demo_server_trace :
  (fun s => (List.filter (fun l => negb (bool_decide (l = []))) (demo_fx <$> svr_out s), n_sessions s, size (conns s), used (pool s) !! 2%nat)) <$> svr_run demo_server_env (demo_arrivals ++ demo_traffic) demo_server0 =
  Some ([[3; 1; 0] ++ text "200"; [4; 2]; [3; 2; 0] ++ text "403"; [3; 2; 4] ++ text "200"; [4; 3];
         [1; 69; 0; 0; 28; 0; 0; 0; 0; 63; 17; 1; 0; 10; 8; 0; 2; 10; 8; 0; 3; 18; 52; 1; 187; 0; 8; 0; 0];
         [2; 2; 0; 0; 69; 0; 0; 28; 0; 0; 0; 0; 63; 17; 1; 0; 10; 8; 0; 2; 10; 8; 0; 3; 18; 52; 1; 187; 0; 8; 0; 0];
         [6; 2]; [5; 3]; [7; 2]; [5; 2]; [7; 1]], 0, 0%nat, Some false).
Proof. vm_compute. reflexivity. Qed.

(** ** The claims at work *)

Lemma default_eq {A} (d : A) (o : option A) : bool_decide (is_Some o) = true -> o = Some (default d o).
Proof. intros H. apply bool_decide_eq_true in H as [x ->]. done. Qed.

(** The state after an operation. *)
Definition svr_after (E : server_env) (op : svr_op) (s : mqvpn_server_t) : mqvpn_server_t := default s (snd <$> svr_do E op s).

Lemma svr_after_eq E op s : bool_decide (is_Some (svr_do E op s)) = true -> svr_do E op s = Some (tt, svr_after E op s).
Proof. intros H. apply bool_decide_eq_true in H as [[[] s'] H]. unfold svr_after. by rewrite H. Qed.

Lemma demo_bytes : bytes_ok demo_packet.
Proof. apply bytesb_ok. vm_compute. reflexivity. Qed.

Definition demo_conn_of (c : Z) (s : mqvpn_server_t) : svr_conn_t := default (new_svr_conn MQVPN_SCHED_MINRTT 0) (conns s !! c).

Lemma server_sessions_sound_witness : n_sessions demo_server1 = 2 /\ size (established demo_server1) = 2%nat /\
  (forall op, svr_legal demo_server1 op -> exists s', svr_do demo_server_env op demo_server1 = Some (tt, s')) /\
  (forall off, 2 <= off <= pool_size (pool demo_server1) -> in_use (pool demo_server1) off <->
    exists c k, conns demo_server1 !! c = Some k /\ tunnel_established k = true /\ assigned_ip k = base (pool demo_server1) + off).
Proof.
  destruct (server_sessions_sound demo_server_env demo_server_cfg demo_pool 2 1400 demo_server1 demo_server_env_ok demo_server_start demo_reach1) as (H1 & _ & _ & _ & _ & _ & H7).
  split; [vm_compute; reflexivity|]. split; [vm_compute; reflexivity|]. split; [exact H1|exact H7].
Defined.

(** Before the request of the second user. *)
Definition demo_server_a : mqvpn_server_t := default demo_server0 (svr_run demo_server_env (take 10 demo_arrivals) demo_server0).

Lemma demo_reach_a : svr_reach demo_server_env demo_server0 demo_server_a.
Proof. apply (run_reach _ _ demo_server0 (take 10 demo_arrivals)); [apply SvrStart|]. apply default_eq. vm_compute. reflexivity. Qed.

Lemma tunnel_needs_credential_witness :
  let op := VReqHeaders 2 4 (demo_request "k2") in
  let k' := demo_conn_of 2 (svr_after demo_server_env op demo_server_a) in
  username k' = text "bob" /\
  ((exists k, conns demo_server_a !! 2 = Some k /\ tunnel_established k = true /\ username k' = username k) \/
   exists sid headers, op = VReqHeaders 2 sid headers /\ entitled (sv_auth (sconfig demo_server_a)) headers (username k')).
Proof.
  cbv zeta. split; [vm_compute; reflexivity|].
  apply (tunnel_needs_credential demo_server_env demo_server_cfg demo_pool 2 1400 demo_server_a (VReqHeaders 2 4 (demo_request "k2")) (svr_after demo_server_env (VReqHeaders 2 4 (demo_request "k2")) demo_server_a) 2);
    [exact demo_server_env_ok|exact demo_server_start|exact demo_reach_a|apply svr_legalb_ok; vm_compute; reflexivity|apply svr_after_eq; vm_compute; reflexivity|apply default_eq; vm_compute; reflexivity|vm_compute; reflexivity].
Defined.





(** ** Two properties of the request handling *)

(** The path check compares 22 of the 23 characters of the prefix: any two
    characters may follow "/.well-known/masque/ip". *)
Lemma masque_path_loose a b rest : masque_path_ok (text "/.well-known/masque/ip" ++ a :: b :: rest) = true.
Proof.
  unfold masque_path_ok. rewrite (proj2 (Z.leb_le 24 _)); [|unfold blen; rewrite length_app; cbn; lia]. cbn [andb]. apply bool_decide_eq_true. reflexivity.
Qed.

(** A CONNECT-IP stream that was refused keeps its role: when it closes after
    another stream of the connection has brought the tunnel up, the tunnel goes
    down although its own stream is open. *)
Example refused_stream_ends_tunnel :
  let ops := [VAccept; VH3Create 1; VReqCreate 1 0; VReqHeaders 1 0 (demo_request "k9"); VReqCreate 1 4; VReqHeaders 1 4 (demo_request "k2")] in
  let view s := (tunnel_established (demo_conn_of 1 s), n_sessions s, bool_decide (is_Some (streams s !! (1, 4)))) in
  (view <$> svr_run demo_server_env ops demo_server0, view <$> svr_run demo_server_env (ops ++ [VReqClose 1 0]) demo_server0) = (Some (true, 1, true), Some (false, 0, true)).
Proof. vm_compute. reflexivity. Qed.
