(* ===== verification/TunOffload.v ===== *)
(** * Segmentation and receive offload ([src/platform/linux/tun_offload.c])

    The checksum over native words, the iterator that cuts a super-packet into
    segments, and the merger that holds packets of a flow and hands them to the
    tunnel device as one super-packet.  [le] is the byte order of the host:
    the code loads words as the host does.  An access outside a buffer is
    [None].  The answers of the emit callback are an argument, asked with the
    number of packets emitted before; what it is given is the log of the
    merger.  A merger's entry keeps the bytes of its buffer that are in use. *)

From S2P Require Import Prelude Wire StateOpt.

Definition IPV4_MIN_HLEN : Z := 20.
Definition IPV6_HLEN : Z := 40.
Definition TCP_MIN_HLEN : Z := 20.
Definition UDP_HLEN : Z := 8.

Definition TCP_FLAG_FIN : Z := 1.
Definition TCP_FLAG_PSH : Z := 8.
Definition TCP_FLAG_ACK : Z := 16.
Definition TCP_FLAG_CWR : Z := 128.

(** [struct virtio_net_hdr] of Linux and its constants. *)
Record virtio_net_hdr := VirtioHdr { vh_flags : Z; gso_type : Z; vh_hdr_len : Z; vh_gso_size : Z; csum_start : Z; csum_offset : Z }.

Definition VIRTIO_NET_HDR_F_NEEDS_CSUM : Z := 1.
Definition VIRTIO_NET_HDR_GSO_NONE : Z := 0.
Definition VIRTIO_NET_HDR_GSO_TCPV4 : Z := 1.
Definition VIRTIO_NET_HDR_GSO_TCPV6 : Z := 4.
Definition VIRTIO_NET_HDR_GSO_UDP_L4 : Z := 5.
Definition VIRTIO_NET_HDR_GSO_ECN : Z := 128.

Definition plain_vh : virtio_net_hdr := VirtioHdr 0 0 0 0 0 0.

(** [p[i] &= ~mask] on a byte. *)
Definition clear_bits (v mask : Z) : Z := Z.land v (255 - mask).

(** [get_be16] and [put_be16]. *)
Definition get_be16 (p : list Z) (off : Z) : option Z := hi ← rd p off; lo ← rd p (off + 1); Some (be16 hi lo).
Definition put_be16 (p : list Z) (off v : Z) : option (list Z) := wrn p off [Z.land (Z.shiftr v 8) 255; Z.land v 255].

(** [ntohl] of four bytes and [htonl] into four. *)
Definition get_be32 (p : list Z) (off : Z) : option Z := b ← rdn p off 4; Some (fold_left (fun acc x => Z.lor (Z.shiftl acc 8) x) b 0).
Definition put_be32 (p : list Z) (off v : Z) : option (list Z) :=
  wrn p off [Z.land (Z.shiftr v 24) 255; Z.land (Z.shiftr v 16) 255; Z.land (Z.shiftr v 8) 255; Z.land v 255].

Section order.
Context (le : bool).

(** ** Checksums *)

(** A word as the host loads it, and a 16-bit word as it stores it. *)
Fixpoint le_value (b : list Z) : Z := match b with [] => 0 | x :: b => x + 256 * le_value b end.
Definition be_value (b : list Z) : Z := fold_left (fun acc x => acc * 256 + x) b 0.
Definition native (b : list Z) : Z := if le then le_value b else be_value b.
Definition native_bytes (v : Z) : list Z := if le then [Z.land v 255; Z.shiftr v 8] else [Z.shiftr v 8; Z.land v 255].

Fixpoint csum_words8 (p : list Z) (acc : Z) : Z * list Z :=
  match p with
  | b0 :: b1 :: b2 :: b3 :: b4 :: b5 :: b6 :: b7 :: p' =>
      let w := native [b0; b1; b2; b3; b4; b5; b6; b7] in
      csum_words8 p' (u64 (acc + u64 (Z.land w 4294967295 + Z.shiftr w 32)))
  | _ => (acc, p)
  end.

Definition csum_sum (p : list Z) (acc : Z) : Z :=
  let '(acc, p) := csum_words8 p acc in
  let '(acc, p) := match p with b0 :: b1 :: b2 :: b3 :: p' => (u64 (acc + native [b0; b1; b2; b3]), p') | _ => (acc, p) end in
  let '(acc, p) := match p with b0 :: b1 :: p' => (u64 (acc + native [b0; b1]), p') | _ => (acc, p) end in
  match p with b :: _ => u64 (acc + native [b; 0]) | [] => acc end.

(** [while (acc >> 16) acc = (acc & 0xffff) + (acc >> 16)]. *)
Fixpoint csum_fold_loop (fuel : nat) (acc : Z) : Z :=
  match fuel with
  | O => acc
  | S fuel => if Z.shiftr acc 16 =? 0 then acc else csum_fold_loop fuel (u64 (Z.land acc 65535 + Z.shiftr acc 16))
  end.

(** A 64-bit sum is below [2^16] after four rounds. *)
Definition csum_fold (acc : Z) : Z := u16 (csum_fold_loop 5 acc).

Definition csum_store (p : list Z) (off acc : Z) : option (list Z) :=
  let c := u16 (65535 - csum_fold acc) in
  let c := if c =? 0 then 65535 else c in
  wrn p off (native_bytes c).

(** [ip] is the packet from its IP header on. *)
Definition csum_pseudo (ip : list Z) (v6 : bool) (proto l4len : Z) : option Z :=
  addrs ← (if v6 then rdn ip 8 32 else rdn ip 12 8);
  Some (csum_sum [0; proto; u8 (Z.shiftr l4len 8); u8 l4len] (csum_sum addrs 0)).

(** [Some None] for -1. *)
Definition mqvpn_vnet_finish_csum (pkt : list Z) (vh : virtio_net_hdr) : option (option (list Z)) :=
  let start := csum_start vh in
  let at_ := start + csum_offset vh in
  if (blen pkt <=? start) || (blen pkt <? at_ + 2) then Some None
  else
    f ← rdn pkt at_ 2;
    let acc := csum_sum f 0 in
    pkt ← wrn pkt at_ [0; 0];
    rest ← rdn pkt start (blen pkt - start);
    pkt ← csum_store pkt at_ (csum_sum rest acc);
    Some (Some pkt).

(** ** Cutting a super-packet *)

Record mqvpn_gso_iter_t := GsoIter {
  it_pkt : list Z;
  it_hdr_len : Z;
  it_off : Z;
  it_ip_hlen : Z;
  it_gso_size : Z;
  ip_id0 : Z;
  it_idx : Z;
  seq0 : Z;
  it_proto : Z;
  it_v6 : bool;
  it_done : bool
}.

#[export] Instance eta_gso_iter : Settable mqvpn_gso_iter_t := fun r =>
  GsoIter (it_pkt r) (it_hdr_len r) (it_off r) (it_ip_hlen r) (it_gso_size r) (ip_id0 r) (it_idx r) (seq0 r) (it_proto r) (it_v6 r) (it_done r).

Definition needs_csum (vh : virtio_net_hdr) : bool := negb (Z.land (vh_flags vh) VIRTIO_NET_HDR_F_NEEDS_CSUM =? 0).

(** The family and the protocol of the type; [None] for a type that is not cut. *)
Definition gso_kind (type b0 : Z) : option (bool * Z) :=
  if type =? VIRTIO_NET_HDR_GSO_TCPV4 then Some (false, MQVPN_IPPROTO_TCP)
  else if type =? VIRTIO_NET_HDR_GSO_TCPV6 then Some (true, MQVPN_IPPROTO_TCP)
  else if type =? VIRTIO_NET_HDR_GSO_UDP_L4 then Some (Z.shiftr b0 4 =? 6, MQVPN_IPPROTO_UDP)
  else None.

(** The length of the IP header, [None] for an error. *)
Definition gso_ip_hlen (pkt : list Z) (b0 : Z) (v6 : bool) (vh : virtio_net_hdr) : option Z :=
  if v6 then
    let ip_hlen := if negb (needs_csum vh) then IPV6_HLEN else csum_start vh in
    if (ip_hlen <? IPV6_HLEN) || (blen pkt <? IPV6_HLEN) || (65535 <? blen pkt - IPV6_HLEN) then None else Some ip_hlen
  else
    let ip_hlen := Z.land b0 15 * 4 in
    if (ip_hlen <? IPV4_MIN_HLEN) || (65535 <? blen pkt) then None
    else if needs_csum vh && negb (csum_start vh =? ip_hlen) then None else Some ip_hlen.

(** The length of the transport header, [None] inside for an error. *)
Definition gso_l4_hlen (pkt : list Z) (ip_hlen proto : Z) (vh : virtio_net_hdr) : option (option Z) :=
  if proto =? MQVPN_IPPROTO_TCP then
    if blen pkt <? ip_hlen + TCP_MIN_HLEN then Some None
    else
      b ← rd pkt (ip_hlen + 12);
      let l4hlen := Z.shiftr b 4 * 4 in
      if l4hlen <? TCP_MIN_HLEN then Some None
      else if needs_csum vh && negb (csum_offset vh =? 16) then Some None else Some (Some l4hlen)
  else if needs_csum vh && negb (csum_offset vh =? 6) then Some None else Some (Some UDP_HLEN).

(** [Some None] for -1. *)
Definition mqvpn_gso_begin (pkt : list Z) (vh : virtio_net_hdr) : option (option mqvpn_gso_iter_t) :=
  let type := clear_bits (gso_type vh) VIRTIO_NET_HDR_GSO_ECN in
  if (vh_gso_size vh =? 0) || (blen pkt <? IPV4_MIN_HLEN) then Some None
  else
    b0 ← rd pkt 0;
    match gso_kind type b0 with
    | None => Some None
    | Some (v6, proto) =>
        if negb (Z.shiftr b0 4 =? (if v6 then 6 else 4)) then Some None
        else
          match gso_ip_hlen pkt b0 v6 vh with
          | None => Some None
          | Some ip_hlen =>
              l4 ← gso_l4_hlen pkt ip_hlen proto vh;
              match l4 with
              | None => Some None
              | Some l4hlen =>
                  if blen pkt <? ip_hlen + l4hlen then Some None
                  else
                    id ← (if v6 then Some 0 else get_be16 pkt 4);
                    seq ← (if proto =? MQVPN_IPPROTO_TCP then get_be32 pkt (ip_hlen + 4) else Some 0);
                    Some (Some (GsoIter pkt (ip_hlen + l4hlen) 0 (u16 ip_hlen) (vh_gso_size vh) id 0 seq proto v6 false))
              end
          end
    end.

Inductive gso_ret := GsoEnd | GsoSmall | GsoSeg (out : list Z).

(** The IP header of a segment. *)
Definition gso_ip_header (it : mqvpn_gso_iter_t) (out : list Z) : option (list Z) :=
  let total := blen out in
  if it_v6 it then put_be16 out 4 (u16 (total - IPV6_HLEN))
  else
    out ← put_be16 out 2 (u16 total);
    out ← put_be16 out 4 (u16 (ip_id0 it + it_idx it));
    out ← wrn out 10 [0; 0];
    h ← rdn out 0 (it_ip_hlen it);
    csum_store out 10 (csum_sum h 0).

(** The checksum of the transport header at [l4 + field]. *)
Definition gso_l4_csum (it : mqvpn_gso_iter_t) (out : list Z) (field : Z) : option (list Z) :=
  let l4 := it_ip_hlen it in
  let l4len := blen out - l4 in
  out ← wrn out (l4 + field) [0; 0];
  ph ← csum_pseudo out (it_v6 it) (it_proto it) l4len;
  body ← rdn out l4 l4len;
  csum_store out (l4 + field) (csum_sum body ph).

Definition gso_l4_header (it : mqvpn_gso_iter_t) (last : bool) (out : list Z) : option (list Z) :=
  let l4 := it_ip_hlen it in
  if it_proto it =? MQVPN_IPPROTO_TCP then
    out ← put_be32 out (l4 + 4) (u32 (seq0 it + u32 (it_off it)));
    f ← rd out (l4 + 13);
    let f := if negb last then clear_bits f (TCP_FLAG_FIN + TCP_FLAG_PSH) else f in
    let f := if negb (it_idx it =? 0) then clear_bits f TCP_FLAG_CWR else f in
    out ← wr out (l4 + 13) f;
    gso_l4_csum it out 16
  else
    out ← put_be16 out (l4 + 4) (u16 (blen out - l4));
    gso_l4_csum it out 6.

Definition mqvpn_gso_next (it : mqvpn_gso_iter_t) (out_cap : Z) : option (gso_ret * mqvpn_gso_iter_t) :=
  if it_done it then Some (GsoEnd, it)
  else
    let payload_total := blen (it_pkt it) - it_hdr_len it in
    let seg := payload_total - it_off it in
    let seg := if it_gso_size it <? seg then it_gso_size it else seg in
    let total := it_hdr_len it + seg in
    let last := payload_total <=? it_off it + seg in
    if out_cap <? total then Some (GsoSmall, it)
    else
      hdr ← rdn (it_pkt it) 0 (it_hdr_len it);
      data ← rdn (it_pkt it) (it_hdr_len it + it_off it) seg;
      out ← gso_ip_header it (hdr ++ data);
      out ← gso_l4_header it last out;
      Some (GsoSeg out, it <| it_off ::= fun n => n + seg |> <| it_idx ::= fun n => u32 (n + 1) |> <| it_done := last |>).

(** ** Merging packets *)

Definition GRO_SLOTS : Z := 8.
Definition GRO_MAX_LEN : Z := 65535.
Definition GRO_UDP_MAX_SEGS : Z := 64.

Record gro_entry_t := GroEntry {
  e_used : bool;
  closed : bool;
  ack_only : bool;
  e_v6 : bool;
  e_proto : Z;
  e_ip_hlen : Z;
  e_l4_hlen : Z;
  e_gso_size : Z;
  next_id : Z;
  nseg : Z;
  e_next_seq : Z;
  e_buf : list Z
}.

#[export] Instance eta_gro_entry : Settable gro_entry_t := fun r =>
  GroEntry (e_used r) (closed r) (ack_only r) (e_v6 r) (e_proto r) (e_ip_hlen r) (e_l4_hlen r) (e_gso_size r) (next_id r) (nseg r) (e_next_seq r) (e_buf r).

Definition empty_entry : gro_entry_t := GroEntry false false false false 0 0 0 0 0 0 0 [].

(** What the callback was given and what it answered. *)
Record gro_out := GroOut { out_vh : virtio_net_hdr; out_pkt : list Z; out_ret : Z }.

Record mqvpn_gro_t := Gro {
  victim : Z;
  udp4 : bool;
  udp6 : bool;
  udp_refused : bool;
  pushed : Z;
  supers : Z;
  merged : Z;
  acks : Z;
  udp_supers : Z;
  udp_merged : Z;
  slots : list gro_entry_t;
  emitted_log : list gro_out
}.

#[export] Instance eta_gro : Settable mqvpn_gro_t := fun r =>
  Gro (victim r) (udp4 r) (udp6 r) (udp_refused r) (pushed r) (supers r) (merged r) (acks r) (udp_supers r) (udp_merged r) (slots r) (emitted_log r).

Definition mqvpn_gro_new : mqvpn_gro_t := Gro 0 false false false 0 0 0 0 0 0 (replicate 8 empty_entry) [].

Definition mqvpn_gro_pending (g : mqvpn_gro_t) : bool := existsb e_used (slots g).

(** The counters: pushed, super-packets, packets merged and acknowledgements
    dropped, and the same for UDP. *)
Definition mqvpn_gro_stats (g : mqvpn_gro_t) : Z * Z * Z * Z := (pushed g, supers g, merged g, acks g).
Definition mqvpn_gro_udp_stats (g : mqvpn_gro_t) : Z * Z := (udp_supers g, udp_merged g).

Record gro_pkt_t := GroPkt { k_v6 : bool; k_proto : Z; k_ip_hlen : Z; k_l4_hlen : Z; k_payload : Z; k_seq : Z; k_flags : Z }.

(** The IP header: family, protocol and header length, [None] inside for a
    packet that is not merged. *)
Definition gro_parse_ip (p : list Z) : option (option (bool * Z * Z)) :=
  b0 ← rd p 0;
  if Z.shiftr b0 4 =? 4 then
    if negb (b0 =? 69) then Some None
    else
      frag ← get_be16 p 6;
      len ← get_be16 p 2;
      if negb (Z.land frag 16383 =? 0) || negb (len =? blen p) then Some None
      else proto ← rd p 9; Some (Some (false, proto, IPV4_MIN_HLEN))
  else if Z.shiftr b0 4 =? 6 then
    if blen p <? IPV6_HLEN then Some None
    else
      len ← get_be16 p 4;
      if negb (len =? blen p - IPV6_HLEN) then Some None else proto ← rd p 6; Some (Some (true, proto, IPV6_HLEN))
  else Some None.

Definition gro_parse_udp (g : mqvpn_gro_t) (p : list Z) (v6 : bool) (ip_hlen : Z) : option (option gro_pkt_t) :=
  if negb (if v6 then udp6 g else udp4 g) || udp_refused g then Some None
  else if blen p <? ip_hlen + UDP_HLEN then Some None
  else
    len ← get_be16 p (ip_hlen + 4);
    if negb (len =? blen p - ip_hlen) then Some None
    else
      c0 ← rd p (ip_hlen + 6);
      c1 ← rd p (ip_hlen + 7);
      if (c0 =? 0) && (c1 =? 0) then Some None
      else
        let payload := blen p - ip_hlen - UDP_HLEN in
        if 0 <? payload then Some (Some (GroPkt v6 MQVPN_IPPROTO_UDP ip_hlen UDP_HLEN payload 0 0)) else Some None.

Definition gro_parse_tcp (p : list Z) (v6 : bool) (ip_hlen : Z) : option (option gro_pkt_t) :=
  if blen p <? ip_hlen + TCP_MIN_HLEN then Some None
  else
    b12 ← rd p (ip_hlen + 12);
    let l4_hlen := Z.shiftr b12 4 * 4 in
    if (l4_hlen <? TCP_MIN_HLEN) || (blen p <? ip_hlen + l4_hlen) then Some None
    else if negb (Z.land b12 15 =? 0) then Some None
    else
      flags ← rd p (ip_hlen + 13);
      let payload := blen p - ip_hlen - l4_hlen in
      if negb ((if payload =? 0 then flags else clear_bits flags TCP_FLAG_PSH) =? TCP_FLAG_ACK) then Some None
      else seq ← get_be32 p (ip_hlen + 4); Some (Some (GroPkt v6 MQVPN_IPPROTO_TCP ip_hlen l4_hlen payload seq flags)).

(** [None] inside for 0. *)
Definition gro_parse (g : mqvpn_gro_t) (p : list Z) : option (option gro_pkt_t) :=
  if blen p <? IPV4_MIN_HLEN then Some None
  else
    ip ← gro_parse_ip p;
    match ip with
    | None => Some None
    | Some (v6, proto, ip_hlen) =>
        if proto =? MQVPN_IPPROTO_UDP then gro_parse_udp g p v6 ip_hlen
        else if proto =? MQVPN_IPPROTO_TCP then gro_parse_tcp p v6 ip_hlen
        else Some None
    end.

(** [memcmp (a + i, b + j, n) == 0]. *)
Definition mem_eq (a : list Z) (i : Z) (b : list Z) (j n : Z) : option bool := x ← rdn a i n; y ← rdn b j n; Some (bool_decide (x = y)).

(** [a[i] == b[i]]. *)
Definition same_byte (a b : list Z) (i : Z) : option bool := mem_eq a i b i 1.

(** Tests in order: the first that fails decides. *)
Fixpoint all_of (l : list (option bool)) : option bool :=
  match l with
  | [] => Some true
  | t :: l => b ← t; if (b : bool) then all_of l else Some false
  end.

Definition gro_same_flow (e : gro_entry_t) (p : list Z) (k : gro_pkt_t) : option bool :=
  if negb (Bool.eqb (e_v6 e) (k_v6 k)) || negb (e_proto e =? k_proto k) then Some false
  else
    let '(aoff, alen) := if k_v6 k then (8, 32) else (12, 8) in
    all_of [mem_eq (e_buf e) aoff p aoff alen; mem_eq (e_buf e) (e_ip_hlen e) p (k_ip_hlen k) 4].

(** The fields of the IP header that must not change. *)
Definition same_ip_fields (e : gro_entry_t) (p : list Z) (v6 : bool) : option bool :=
  if v6 then all_of [mem_eq (e_buf e) 0 p 0 4; same_byte (e_buf e) p 7]
  else all_of [same_byte (e_buf e) p 1; same_byte (e_buf e) p 6; same_byte (e_buf e) p 8].

(** The TCP options. *)
Definition same_options (e : gro_entry_t) (p : list Z) (k : gro_pkt_t) : option bool :=
  if TCP_MIN_HLEN <? k_l4_hlen k then mem_eq (e_buf e) (e_ip_hlen e + 20) p (k_ip_hlen k + 20) (k_l4_hlen k - 20) else Some true.

Definition same_flags (e : gro_entry_t) (p : list Z) (k : gro_pkt_t) : option bool :=
  a ← rd (e_buf e) (e_ip_hlen e + 13);
  b ← rd p (k_ip_hlen k + 13);
  Some (clear_bits a TCP_FLAG_PSH =? clear_bits b TCP_FLAG_PSH).

Definition gro_can_append (e : gro_entry_t) (p : list Z) (k : gro_pkt_t) : option bool :=
  if closed e || ack_only e || negb (k_l4_hlen k =? e_l4_hlen e) then Some false
  else if (e_gso_size e <? k_payload k) || negb (k_seq k =? e_next_seq e) then Some false
  else if GRO_MAX_LEN <? blen (e_buf e) + k_payload k then Some false
  else
    all_of [same_ip_fields e p (k_v6 k); mem_eq (e_buf e) (e_ip_hlen e + 8) p (k_ip_hlen k + 8) 4; same_flags e p k;
            mem_eq (e_buf e) (e_ip_hlen e + 14) p (k_ip_hlen k + 14) 2; same_options e p k].

Definition ack_ahead (e : gro_entry_t) (p : list Z) (k : gro_pkt_t) : option bool :=
  held ← get_be32 (e_buf e) (e_ip_hlen e + 8);
  ack ← get_be32 p (k_ip_hlen k + 8);
  Some (0 <? s32 (ack - held)).

Definition gro_ack_supersedes (e : gro_entry_t) (p : list Z) (k : gro_pkt_t) : option bool :=
  if negb (k_l4_hlen k =? e_l4_hlen e) then Some false
  else
    all_of [same_ip_fields e p (k_v6 k); mem_eq (e_buf e) (e_ip_hlen e + 4) p (k_ip_hlen k + 4) 4; same_options e p k; ack_ahead e p k].

Definition gro_udp_can_append (e : gro_entry_t) (p : list Z) (k : gro_pkt_t) : option bool :=
  if closed e || (e_gso_size e <? k_payload k) then Some false
  else if (GRO_UDP_MAX_SEGS <=? nseg e) || (GRO_MAX_LEN <? blen (e_buf e) + k_payload k) then Some false
  else if k_v6 k then same_ip_fields e p true
  else all_of [same_ip_fields e p false; id ← get_be16 p 4; Some (id =? next_id e)].

Definition gro_may_follow_held (g : mqvpn_gro_t) (p : list Z) : option bool :=
  b0 ← rd p 0;
  let ver := Z.shiftr b0 4 in
  if ver =? 4 then
    if blen p <? IPV4_MIN_HLEN then Some false
    else b9 ← rd p 9; Some ((b9 =? MQVPN_IPPROTO_TCP) || (b9 =? MQVPN_IPPROTO_UDP) && udp4 g)
  else if ver =? 6 then
    if blen p <? IPV6_HLEN then Some false else b6 ← rd p 6; Some (negb (b6 =? MQVPN_IPPROTO_UDP) || udp6 g)
  else Some false.

(** ** The merger *)

Abbreviation G := (stM mqvpn_gro_t).

Section gro.
Context (emit_ret : nat -> Z) (EINVAL : Z).

(** [g->emit (g->ctx, vh, p, len)]. *)
Definition gro_emit (vh : virtio_net_hdr) (p : list Z) : G Z :=
  g ← d_get;
  let r := emit_ret (length (emitted_log g)) in
  d_modify (fun g => g <| emitted_log ::= fun l => l ++ [GroOut vh p r] |>) ;;
  mret r.

Definition gro_emit_plain (p : list Z) : G unit := _ ← gro_emit plain_vh p; d_skip.

(** The loop of the fallback; [fuel] counts its rounds. *)
Fixpoint fallback_loop (fuel : nat) (it : mqvpn_gso_iter_t) : G unit :=
  match fuel with
  | O => fun _ => None
  | S fuel =>
      r ← d_lift (mqvpn_gso_next it GRO_MAX_LEN);
      match r with
      | (GsoSeg seg, it) => if 0 <? blen seg then gro_emit_plain seg ;; fallback_loop fuel it else d_skip
      | _ => d_skip
      end
  end.

(** A segment is never empty, so that a packet has at most as many as bytes. *)
Definition gro_udp_fallback (buf : list Z) (vh : virtio_net_hdr) : G unit :=
  d_modify (fun g => g <| udp_refused := true |>) ;;
  b ← d_lift (mqvpn_gso_begin buf vh);
  match b with
  | None => d_skip
  | Some it => fallback_loop (S (length buf)) it
  end.

(** The buffer of an entry of several packets, made a super-packet. *)
Definition super_packet (e : gro_entry_t) : option (list Z) :=
  let l4 := e_ip_hlen e in
  let l4len := blen (e_buf e) - l4 in
  let udp := e_proto e =? MQVPN_IPPROTO_UDP in
  ip ← (if e_v6 e then put_be16 (e_buf e) 4 (u16 (blen (e_buf e) - IPV6_HLEN))
        else
          ip ← put_be16 (e_buf e) 2 (u16 (blen (e_buf e)));
          ip ← wrn ip 10 [0; 0];
          h ← rdn ip 0 (e_ip_hlen e);
          csum_store ip 10 (csum_sum h 0));
  ip ← (if udp then put_be16 ip (l4 + 4) (u16 l4len) else Some ip);
  ph ← csum_pseudo ip (e_v6 e) (e_proto e) l4len;
  wrn ip (l4 + (if udp then 6 else 16)) (native_bytes (csum_fold ph)).

Definition super_vh (e : gro_entry_t) : virtio_net_hdr :=
  let udp := e_proto e =? MQVPN_IPPROTO_UDP in
  VirtioHdr VIRTIO_NET_HDR_F_NEEDS_CSUM
    (if udp then VIRTIO_NET_HDR_GSO_UDP_L4 else if e_v6 e then VIRTIO_NET_HDR_GSO_TCPV6 else VIRTIO_NET_HDR_GSO_TCPV4)
    (u16 (e_ip_hlen e + e_l4_hlen e)) (e_gso_size e) (e_ip_hlen e) (if udp then 6 else 16).

Definition put_slot (i : nat) (e : gro_entry_t) : G unit := d_modify (fun g => g <| slots ::= <[i := e]> |>).

Definition gro_flush_entry (i : nat) : G unit :=
  g ← d_get;
  e ← d_lift (slots g !! i);
  if negb (e_used e) then d_skip
  else
    put_slot i (e <| e_used := false |>) ;;
    if nseg e =? 1 then gro_emit_plain (e_buf e)
    else
      let udp := e_proto e =? MQVPN_IPPROTO_UDP in
      p ← d_lift (super_packet e);
      put_slot i (e <| e_used := false |> <| e_buf := p |>) ;;
      d_modify (fun g => g <| supers ::= fun n => u64 (n + 1) |> <| merged ::= fun n => u64 (n + nseg e) |>) ;;
      (if udp then d_modify (fun g => g <| udp_supers ::= fun n => u64 (n + 1) |> <| udp_merged ::= fun n => u64 (n + nseg e) |>) else d_skip) ;;
      r ← gro_emit (super_vh e) p;
      if (r =? - EINVAL) && udp then gro_udp_fallback p (super_vh e) else d_skip.

Fixpoint flush_slots (n : nat) (i : nat) : G unit :=
  match n with O => d_skip | S n => gro_flush_entry i ;; flush_slots n (S i) end.

Definition mqvpn_gro_flush : G unit := flush_slots (Z.to_nat GRO_SLOTS) 0.

Definition mqvpn_gro_set_udp (v4 v6 : bool) : G unit :=
  mqvpn_gro_flush ;;
  d_modify (fun g => g <| udp4 := v4 |> <| udp6 := v6 |> <| udp_refused := false |>).

(** The entries with the addresses of [p] are flushed. *)
Fixpoint flush_addresses (n : nat) (i : nat) (p : list Z) (v6 : bool) : G unit :=
  match n with
  | O => d_skip
  | S n =>
      g ← d_get;
      e ← d_lift (slots g !! i);
      let '(aoff, alen) := if v6 then (8, 32) else (12, 8) in
      m ← (if e_used e && Bool.eqb (e_v6 e) v6 then d_lift (mem_eq (e_buf e) aoff p aoff alen) else mret false);
      (if (m : bool) then gro_flush_entry i else d_skip) ;;
      flush_addresses n (S i) p v6
  end.

(** The entry with the payload of [p] appended. *)
Definition append_udp (e : gro_entry_t) (p : list Z) (k : gro_pkt_t) : option gro_entry_t :=
  data ← rdn p (k_ip_hlen k + UDP_HLEN) (k_payload k);
  if GRO_MAX_LEN <? blen (e_buf e) + blen data then None
  else
    let e' := e <| e_buf ::= fun b => b ++ data |> <| nseg ::= fun n => u32 (n + 1) |> <| next_id ::= fun n => u16 (n + 1) |> in
    Some (if k_payload k <? e_gso_size e then e' <| closed := true |> else e').

Definition append_tcp (e : gro_entry_t) (p : list Z) (k : gro_pkt_t) : option gro_entry_t :=
  data ← rdn p (k_ip_hlen k + k_l4_hlen k) (k_payload k);
  if GRO_MAX_LEN <? blen (e_buf e) + blen data then None
  else
    let e' := e <| e_buf ::= fun b => b ++ data |> <| e_next_seq ::= fun n => u32 (n + u32 (k_payload k)) |> <| nseg ::= fun n => u32 (n + 1) |> in
    let psh := negb (Z.land (k_flags k) TCP_FLAG_PSH =? 0) in
    e' ← (if psh then f ← rd (e_buf e') (e_ip_hlen e' + 13); b ← wr (e_buf e') (e_ip_hlen e' + 13) (Z.lor f TCP_FLAG_PSH); Some (e' <| e_buf := b |>) else Some e');
    Some (if (k_payload k <? e_gso_size e) || psh then e' <| closed := true |> else e').

(** The search for the flow: the packet joined an entry, or a slot that may be
    used. *)
Inductive gro_found := GroJoined | GroSlot (i : option nat).

(** Whether the packet joined entry [i]. *)
Definition gro_join (i : nat) (e : gro_entry_t) (p : list Z) (k : gro_pkt_t) : G bool :=
  if k_proto k =? MQVPN_IPPROTO_UDP then
    ok ← d_lift (gro_udp_can_append e p k);
    if (ok : bool) then e' ← d_lift (append_udp e p k); put_slot i e' ;; mret true else mret false
  else if k_payload k =? 0 then
    ok ← (if ack_only e then d_lift (gro_ack_supersedes e p k) else mret false);
    if (ok : bool) then put_slot i (e <| e_buf := p |>) ;; d_modify (fun g => g <| acks ::= fun n => u64 (n + 1) |>) ;; mret true else mret false
  else
    ok ← d_lift (gro_can_append e p k);
    if (ok : bool) then e' ← d_lift (append_tcp e p k); put_slot i e' ;; mret true else mret false.

Fixpoint gro_search (n : nat) (i : nat) (p : list Z) (k : gro_pkt_t) (free_slot : option nat) : G gro_found :=
  match n with
  | O => mret (GroSlot free_slot)
  | S n =>
      g ← d_get;
      e ← d_lift (slots g !! i);
      if negb (e_used e) then gro_search n (S i) p k (match free_slot with None => Some i | _ => free_slot end)
      else
        same ← d_lift (gro_same_flow e p k);
        if negb same then gro_search n (S i) p k free_slot
        else
          joined ← gro_join i e p k;
          if (joined : bool) then mret GroJoined else gro_flush_entry i ;; mret (GroSlot (Some i))
  end.

(** A new run of one packet. *)
Definition new_entry (p : list Z) (k : gro_pkt_t) : option gro_entry_t :=
  id ← (if k_v6 k then Some 0 else v ← get_be16 p 4; Some (u16 (v + 1)));
  if GRO_MAX_LEN <? blen p then None
  else
    Some (GroEntry true (negb (Z.land (k_flags k) TCP_FLAG_PSH =? 0)) ((k_proto k =? MQVPN_IPPROTO_TCP) && (k_payload k =? 0)) (k_v6 k) (k_proto k)
            (u16 (k_ip_hlen k)) (u16 (k_l4_hlen k)) (u16 (k_payload k)) id 1 (u32 (k_seq k + u32 (k_payload k))) p).

Definition gro_start (p : list Z) (k : gro_pkt_t) (free_slot : option nat) : G unit :=
  i ← match free_slot with
      | Some i => mret i
      | None =>
          g ← d_get;
          let i := Z.to_nat (victim g mod GRO_SLOTS) in
          d_modify (fun g => g <| victim ::= fun n => u32 (n + 1) |>) ;;
          gro_flush_entry i ;;
          mret i
      end;
  e ← d_lift (new_entry p k);
  put_slot i e.

(** A packet that is not merged: what it must not overtake goes out first. *)
Definition gro_pass (p : list Z) : G unit :=
  g ← d_get;
  follow ← d_lift (gro_may_follow_held g p);
  (if (follow : bool) then b0 ← d_lift (rd p 0); flush_addresses (Z.to_nat GRO_SLOTS) 0 p (Z.shiftr b0 4 =? 6) else d_skip) ;;
  gro_emit_plain p.

Definition mqvpn_gro_push (p : list Z) : G unit :=
  d_modify (fun g => g <| pushed ::= fun n => u64 (n + 1) |>) ;;
  if blen p =? 0 then gro_emit_plain p
  else
    g ← d_get;
    k ← (if GRO_MAX_LEN <? blen p then mret None else d_lift (gro_parse g p));
    match k with
    | None => gro_pass p
    | Some k =>
        r ← gro_search (Z.to_nat GRO_SLOTS) 0 p k None;
        match r with GroJoined => d_skip | GroSlot f => gro_start p k f end
    end.

End gro.
End order.
