(* ===== verification/OffloadCsum.v ===== *)
(** * The checksum of the offload code

    The native-word sum of [tun_offload.c] against the Internet checksum of
    RFC 1071, on hosts of both byte orders, and what a write into a packet
    leaves alone. *)

From Stdlib Require Import Setoid Morphisms.
From S2P Require Import Prelude Wire Icmp StateOpt TunFrame TunOffload.

(** ** Ones' complement arithmetic *)

(** Equal as ones' complement sums of 16-bit words. *)
Definition cong (a b : Z) : Prop := a mod 65535 = b mod 65535.

#[export] Instance cong_equiv : Equivalence cong.
Proof. split; unfold cong; [done|by intros ?? ->|by intros ??? -> ->]. Qed.

#[export] Instance cong_add : Proper (cong ==> cong ==> cong) Z.add.
Proof. intros a a' Ha b b' Hb. unfold cong in *. rewrite Z.add_mod, Ha, Hb, <- Z.add_mod; done. Qed.

#[export] Instance cong_mul : Proper (cong ==> cong ==> cong) Z.mul.
Proof. intros a a' Ha b b' Hb. unfold cong in *. rewrite Z.mul_mod, Ha, Hb, <- Z.mul_mod; done. Qed.

Lemma cong_by q a b : a = b + 65535 * q -> cong a b.
Proof. intros ->. unfold cong. rewrite (Z.mul_comm 65535). apply Z_mod_plus_full. Qed.

Lemma cong_divide a : cong a 0 <-> (65535 | a).
Proof. unfold cong. rewrite Z.mod_0_l by done. split; [apply Z.mod_divide; done|apply Z.mod_divide; done]. Qed.

(** The factor by which a byte swap of a word changes the sum. *)
Definition order_factor (le : bool) : Z := if le then 256 else 1.

Lemma order_factor_sq le : cong (order_factor le * order_factor le) 1.
Proof. by destruct le. Qed.

(** A test that a concrete buffer holds bytes. *)
Definition bytes_okb (b : list Z) : bool := forallb (fun x => (0 <=? x) && (x <? 256)) b.

Lemma bytes_okb_ok b : bytes_okb b = true -> bytes_ok b.
Proof. intros H. apply Forall_forall. intros x Hx%list_elem_of_In. unfold bytes_okb in H. rewrite forallb_forall in H. specialize (H x Hx). bool_to_prop. unfold is_byte. lia. Qed.

Section order.
Context (le : bool).

(** A word of the host is the sum of its 16-bit words, swapped or not. *)
Lemma native_cong b : Nat.Even (length b) -> cong (native le b) (order_factor le * words b).
Proof.
  unfold native, order_factor. destruct le.
  - induction b as [|x|x y b IH] using pair_ind; intros [k Hk]; cbn [le_value words length] in *; [done|lia|].
    assert (IH' := IH ltac:(exists (k - 1)%nat; lia)). replace (x + 256 * (y + 256 * le_value b)) with (x + 256 * y + 65536 * le_value b) by lia.
    rewrite IH'. apply (cong_by (- x + 256 * words b)). lia.
  - unfold be_value. rewrite Z.mul_1_l. enough (H : forall acc, Nat.Even (length b) -> cong (fold_left (fun acc x => acc * 256 + x) b acc) (acc + words b)).
    { intros He. by rewrite (H 0 He). }
    induction b as [|x|x y b IH] using pair_ind; intros acc [k Hk]; cbn [fold_left words length] in *; [by rewrite Z.add_0_r|lia|].
    rewrite IH by (exists (k - 1)%nat; lia). apply (cong_by acc). lia.
Qed.

Lemma native_bound b : bytes_ok b -> 0 <= native le b < 256 ^ blen b.
Proof.
  unfold native. destruct le.
  - unfold blen. induction b as [|x b IH]; intros Hb; cbn [le_value length]; [lia|]. apply Forall_cons in Hb as [Hx Hb]. specialize (IH Hb). unfold is_byte in *.
    rewrite Nat2Z.inj_succ, Z.pow_succ_r by lia. lia.
  - unfold be_value. induction b as [|x b IH] using rev_ind; intros Hb; [done|]. apply Forall_app in Hb as [Hb [Hx _]%Forall_cons]. specialize (IH Hb). unfold is_byte in *.
    rewrite fold_left_app. cbn [fold_left]. replace (blen (b ++ [x])) with (Z.succ (blen b)) by (unfold blen; rewrite length_app; cbn; lia).
    rewrite Z.pow_succ_r by apply blen_nonneg. lia.
Qed.

(** A round of the sum adds the bytes it reads, and at most [2^33] for each. *)
Definition sum_step (acc acc' : Z) (pre : list Z) : Prop :=
  cong acc' (acc + order_factor le * words pre) /\ acc <= acc' <= acc + 2 ^ 33 * blen pre.

Lemma sum_step_nil acc : sum_step acc acc [].
Proof. split; [|unfold blen; cbn [length]; lia]. apply (cong_by 0). cbn [words]. lia. Qed.

Lemma sum_step_trans a0 a1 a2 p q : Nat.Even (length p) -> sum_step a0 a1 p -> sum_step a1 a2 q -> sum_step a0 a2 (p ++ q).
Proof.
  intros He (C1 & B1) (C2 & B2). split; [|unfold blen in *; rewrite length_app; lia]. rewrite C2, C1, words_app by done. apply (cong_by 0). lia.
Qed.

Lemma sum_word acc pre : bytes_ok pre -> Nat.Even (length pre) -> (0 < length pre <= 4)%nat -> 0 <= acc -> acc + 2 ^ 33 * blen pre < 2 ^ 64 ->
  sum_step acc (u64 (acc + native le pre)) pre.
Proof.
  intros Hb He Hl Ha Hs. pose proof (native_bound pre Hb) as Hn. assert (256 ^ blen pre <= 256 ^ 4) by (apply Z.pow_le_mono_r; unfold blen; lia).
  unfold blen in Hs. rewrite u64_small by lia. split; [|unfold blen; lia]. by rewrite native_cong.
Qed.

Lemma sum_word8 acc pre : bytes_ok pre -> length pre = 8%nat -> 0 <= acc -> acc + 2 ^ 33 * blen pre < 2 ^ 64 ->
  sum_step acc (u64 (acc + u64 (Z.land (native le pre) 4294967295 + Z.shiftr (native le pre) 32))) pre.
Proof.
  intros Hb Hl Ha Hs. pose proof (native_bound pre Hb) as Hn. assert (He : Nat.Even (length pre)) by (exists 4%nat; lia). pose proof (native_cong pre He) as Hc.
  unfold blen in Hn, Hs. rewrite Hl in Hn, Hs. change (256 ^ Z.of_nat 8) with (2 ^ 64) in Hn.
  set (w := native le pre) in *. change 4294967295 with (2 ^ 32 - 1). rewrite land_ones_mod, Z.shiftr_div_pow2 by lia.
  pose proof (Z.div_mod w (2 ^ 32) ltac:(lia)) as Hdm. pose proof (Z.mod_pos_bound w (2 ^ 32) ltac:(lia)).
  assert (0 <= w / 2 ^ 32 < 2 ^ 32) by (split; [apply Z.div_pos; lia|apply Z.div_lt_upper_bound; lia]).
  set (h := w / 2 ^ 32) in *. set (m := w mod 2 ^ 32) in *.
  rewrite (u64_small (m + h)), u64_small by lia. split; [|unfold blen; lia]. rewrite <- Hc. apply (cong_by (- 65537 * h)). lia.
Qed.

Lemma csum_words8_spec n p acc : (length p <= n)%nat -> bytes_ok p -> 0 <= acc -> acc + 2 ^ 33 * blen p < 2 ^ 64 ->
  exists pre acc' rest, csum_words8 le p acc = (acc', rest) /\ p = pre ++ rest /\ Nat.Even (length pre) /\ (length rest < 8)%nat /\ sum_step acc acc' pre.
Proof.
  revert p acc. induction n as [|n IH]; intros p acc Hn Hb Ha Hs.
  { destruct p; [|cbn in Hn; lia]. exists [], acc, []. split_and!; [done|done|by exists 0%nat|cbn; lia|apply sum_step_nil]. }
  assert (Hdone : (length p < 8)%nat -> csum_words8 le p acc = (acc, p) -> exists pre acc' rest,
    csum_words8 le p acc = (acc', rest) /\ p = pre ++ rest /\ Nat.Even (length pre) /\ (length rest < 8)%nat /\ sum_step acc acc' pre).
  { intros Hl E. exists [], acc, p. split_and!; [done|done|by exists 0%nat|done|apply sum_step_nil]. }
  destruct p as [|b0 [|b1 [|b2 [|b3 [|b4 [|b5 [|b6 [|b7 p]]]]]]]]; try (apply Hdone; [cbn; lia|done]). clear Hdone.
  set (w := [b0; b1; b2; b3; b4; b5; b6; b7]). assert (Hsplit : b0 :: b1 :: b2 :: b3 :: b4 :: b5 :: b6 :: b7 :: p = w ++ p) by done.
  rewrite Hsplit in Hb, Hs. apply Forall_app in Hb as [Hb1 Hb2]. unfold blen in Hs. rewrite length_app in Hs.
  pose proof (sum_word8 acc w Hb1 eq_refl Ha ltac:(unfold blen; lia)) as Hst. cbn [csum_words8]. cbv zeta. fold w.
  set (a1 := u64 _) in *. destruct (IH p a1) as (pre & acc' & rest & E & Hp & He & Hr & Hst'); [cbn in Hn; lia|done|destruct Hst; lia|destruct Hst as [_ Hst]; unfold blen in *; lia|].
  exists (w ++ pre), acc', rest. split_and!; [done|by rewrite Hsplit, Hp, app_assoc|destruct He as [k Hk]; exists (4 + k)%nat; rewrite length_app, Hk; cbn; lia|done|].
  apply (sum_step_trans acc a1 acc'); [by exists 4%nat|done|done].
Qed.

(** The last byte counts as the high byte of a word. *)
Lemma sum_odd acc b : is_byte b -> 0 <= acc -> acc + 2 ^ 33 < 2 ^ 64 -> sum_step acc (u64 (acc + native le [b; 0])) [b].
Proof.
  intros Hb Ha Hs. assert (H0 : is_byte 0) by (unfold is_byte; lia). pose proof (native_bound [b; 0] ltac:(apply Forall_cons_2; [done|apply Forall_cons_2; [done|apply Forall_nil_2]])) as Hn.
  assert (He : Nat.Even (length [b; 0])) by by exists 1%nat. pose proof (native_cong [b; 0] He) as Hc. change (256 ^ blen [b; 0]) with 65536 in Hn.
  rewrite u64_small by lia. split; [|unfold blen; cbn [length]; lia]. rewrite Hc. apply (cong_by 0). cbn [words]. lia.
Qed.

(** The sum over a whole buffer. *)
Lemma csum_sum_spec p acc : bytes_ok p -> 0 <= acc -> acc + 2 ^ 33 * blen p < 2 ^ 64 -> sum_step acc (csum_sum le p acc) p.
Proof.
  intros Hb Ha Hs. destruct (csum_words8_spec (length p) p acc ltac:(lia) Hb Ha Hs) as (pre & a1 & rest & E & -> & He & Hr & Hst).
  unfold csum_sum. rewrite E. clear E. apply Forall_app in Hb as [Hb1 Hb]. unfold blen in Hs. rewrite length_app in Hs. apply (sum_step_trans acc a1); [done..|].
  destruct Hst as [_ Hst]. assert (Ha1 : 0 <= a1 /\ a1 + 2 ^ 33 * blen rest < 2 ^ 64) by (unfold blen in *; lia). clear -Hb Hr Ha1. destruct Ha1 as [H0 H1]. unfold blen in H1.
  assert (Htail : forall a l, bytes_ok l -> (length l < 2)%nat -> 0 <= a -> a + 2 ^ 33 * blen l < 2 ^ 64 ->
    sum_step a (match l with b :: _ => u64 (a + native le [b; 0]) | [] => a end) l).
  { intros a [|b [|]] Hl Hlen Hp Hq; [apply sum_step_nil| |cbn in Hlen; lia]. apply Forall_cons in Hl as [? _]. apply sum_odd; [done|done|unfold blen in Hq; cbn [length] in Hq; lia]. }
  assert (Hmid : forall a l, bytes_ok l -> (length l < 4)%nat -> 0 <= a -> a + 2 ^ 33 * blen l < 2 ^ 64 ->
    sum_step a (let '(acc, p) := match l with b0 :: b1 :: p' => (u64 (a + native le [b0; b1]), p') | _ => (a, l) end in match p with b :: _ => u64 (acc + native le [b; 0]) | [] => acc end) l).
  { intros a [|b0 [|b1 l]] Hl Hlen Hp Hq; [apply sum_step_nil|apply (Htail a [b0]); [done|cbn; lia|done|done]|].
    change (b0 :: b1 :: l) with ([b0; b1] ++ l) in Hl, Hq |- *. apply Forall_app in Hl as [Hl1 Hl2]. unfold blen in Hq. rewrite length_app in Hq.
    destruct (sum_word a [b0; b1] Hl1 ltac:(by exists 1%nat) ltac:(cbn; lia) Hp ltac:(unfold blen; lia)) as [Hc Hbd]. unfold blen in Hbd. cbn [app].
    apply (sum_step_trans a (u64 (a + native le [b0; b1])) _ [b0; b1] l); [by exists 1%nat|split; done|]. apply (Htail _ l); [done|cbn in Hlen; lia|lia|unfold blen; lia]. }
  destruct rest as [|b0 [|b1 [|b2 [|b3 l]]]]; try (match goal with |- sum_step _ _ ?l => apply (Hmid a1 l); [done|cbn; lia|done|done] end).
  change (b0 :: b1 :: b2 :: b3 :: l) with ([b0; b1; b2; b3] ++ l) in Hb, H1 |- *. apply Forall_app in Hb as [Hl1 Hl2]. rewrite length_app in H1.
  destruct (sum_word a1 [b0; b1; b2; b3] Hl1 ltac:(by exists 2%nat) ltac:(cbn; lia) H0 ltac:(unfold blen; lia)) as [Hc Hbd]. unfold blen in Hbd. cbn [app].
  apply (sum_step_trans a1 (u64 (a1 + native le [b0; b1; b2; b3])) _ [b0; b1; b2; b3] l); [by exists 2%nat|split; done|]. apply (Hmid _ l); [done|cbn in Hr; lia|lia|unfold blen; lia].
Qed.

(** ** Folding *)

Lemma u64_fold_round c : 0 <= c < 2 ^ 64 -> u64 (Z.land c 65535 + Z.shiftr c 16) = c mod 2 ^ 16 + c / 2 ^ 16.
Proof.
  intros Hc. rewrite Z.shiftr_div_pow2 by lia. change 65535 with (2 ^ 16 - 1). rewrite land_ones_mod by lia.
  pose proof (Z.mod_pos_bound c (2 ^ 16) ltac:(lia)). assert (0 <= c / 2 ^ 16 < 2 ^ 48) by (split; [apply Z.div_pos; lia|apply Z.div_lt_upper_bound; lia]).
  by rewrite u64_small by lia.
Qed.

Lemma csum_fold_loop_spec n c : 0 <= c < 2 ^ 64 ->
  cong (csum_fold_loop n c) c /\ 0 <= csum_fold_loop n c <= c /\ (csum_fold_loop n c = 0 -> c = 0).
Proof.
  revert c. induction n as [|n IH]; intros c Hc; cbn [csum_fold_loop]; [by split_and!; [|lia..]|].
  destruct (Z.eqb_spec (Z.shiftr c 16) 0) as [|Hne]; [by split_and!; [|lia..]|]. rewrite u64_fold_round by done. rewrite Z.shiftr_div_pow2 in Hne by lia.
  pose proof (Z.div_mod c (2 ^ 16) ltac:(lia)). pose proof (Z.mod_pos_bound c (2 ^ 16) ltac:(lia)). assert (0 <= c / 2 ^ 16) by (apply Z.div_pos; lia).
  set (h := c / 2 ^ 16) in *. set (m := c mod 2 ^ 16) in *. destruct (IH (m + h) ltac:(lia)) as (Hq & Hr & Hz).
  split_and!; [|lia|lia|lia]. rewrite Hq. apply (cong_by (- h)). lia.
Qed.

Lemma fold_loop_next n c hi : 0 <= c < 2 ^ 64 -> c < 2 ^ 16 * hi ->
  csum_fold_loop (S n) c < 2 ^ 16 \/ exists c', csum_fold_loop (S n) c = csum_fold_loop n c' /\ 0 <= c' < 2 ^ 16 + hi - 1 /\ c' <= c - 65535.
Proof.
  intros Hc Hhi. cbn [csum_fold_loop]. rewrite Z.shiftr_div_pow2 by lia. pose proof (Z.div_mod c (2 ^ 16) ltac:(lia)). pose proof (Z.mod_pos_bound c (2 ^ 16) ltac:(lia)).
  assert (0 <= c / 2 ^ 16 < hi) by (split; [apply Z.div_pos; lia|apply Z.div_lt_upper_bound; lia]).
  destruct (Z.eqb_spec (c / 2 ^ 16) 0) as [E|Hne]; [left; lia|]. right. exists (c mod 2 ^ 16 + c / 2 ^ 16). rewrite <- u64_fold_round by done.
  rewrite Z.shiftr_div_pow2 by lia. split; [done|]. rewrite <- Z.shiftr_div_pow2, u64_fold_round by lia. lia.
Qed.

Lemma csum_fold_small c : 0 <= c < 2 ^ 64 -> csum_fold_loop 5 c < 2 ^ 16.
Proof.
  intros Hc. destruct (fold_loop_next 4 c (2 ^ 48)) as [?|(c1 & -> & H1 & _)]; [lia|lia|done|].
  destruct (fold_loop_next 3 c1 (2 ^ 32 + 1)) as [?|(c2 & -> & H2 & _)]; [lia|lia|done|].
  destruct (fold_loop_next 2 c2 (2 ^ 16 + 1)) as [?|(c3 & -> & H3 & _)]; [lia|lia|done|].
  destruct (fold_loop_next 1 c3 2) as [?|(c4 & -> & H4 & _)]; [lia|lia|done|].
  destruct (fold_loop_next 0 c4 2) as [?|(c5 & -> & H5 & H6)]; [lia|lia|done|]. cbn [csum_fold_loop]. lia.
Qed.

Lemma csum_fold_spec c : 0 <= c < 2 ^ 64 -> cong (csum_fold c) c /\ 0 <= csum_fold c < 2 ^ 16.
Proof.
  intros Hc. destruct (csum_fold_loop_spec 5 c Hc) as (Hq & Hr & _). pose proof (csum_fold_small c Hc). unfold csum_fold. rewrite u16_small by lia. split; [done|lia].
Qed.

(** ** Writing into a packet *)

(** [q] is [p] with [d] at [off]. *)
Record written (p : list Z) (off : Z) (d q : list Z) : Prop := {
  written_len : blen q = blen p;
  written_at : rdn q off (blen d) = Some d;
  written_else : forall i, ~ (off <= i < off + blen d) -> rd q i = rd p i;
  written_bytes : bytes_ok p -> bytes_ok d -> bytes_ok q
}.

Lemma wrn_written p off d : 0 <= off -> off + blen d <= blen p -> exists q, wrn p off d = Some q /\ written p off d q.
Proof.
  intros H0 H1. unfold wrn. rewrite !(proj2 (Z.leb_le _ _)) by lia. cbn [andb]. eexists. split; [done|]. unfold blen in *.
  assert (Hl : length (take (Z.to_nat off) p) = Z.to_nat off) by (rewrite length_take; lia).
  split; unfold blen.
  - rewrite !length_app, Hl, length_drop. lia.
  - apply (rdn_prefix (take (Z.to_nat off) p ++ d) (drop (Z.to_nat (off + Z.of_nat (length d))) p) off (Z.of_nat (length d))) in H0 as Hr; [|lia|unfold blen; rewrite length_app, Hl; lia].
    rewrite <- app_assoc in Hr. unfold blen in Hr. rewrite Hr. f_equal. rewrite Nat2Z.id. rewrite <- Hl at 1. by rewrite drop_app_length, firstn_all.
  - intros i Hi. unfold rd. destruct (Z.ltb_spec i 0); [done|]. destruct (Z.lt_ge_cases i off).
    + rewrite lookup_app_l by lia. apply lookup_take_lt. lia.
    + rewrite lookup_app_r by lia. rewrite Hl, lookup_app_r by lia. rewrite lookup_drop. f_equal. lia.
  - intros Hp Hd. apply Forall_app. split; [by apply Forall_take|]. apply Forall_app. split; [done|by apply Forall_drop].
Qed.

Lemma rd_nth b i : rd b i = if i <? 0 then None else b !! Z.to_nat i.
Proof. done. Qed.

Lemma written_twice p off d0 p1 d q : blen d0 = blen d -> written p off d0 p1 -> written p1 off d q -> bytes_ok d0 -> written p off d q.
Proof.
  intros Hl W0 W1 Hd. split; [by rewrite (written_len _ _ _ _ W1), (written_len _ _ _ _ W0)|apply W1| |intros; apply W1; [by apply W0|done]].
  intros i Hi. rewrite (written_else _ _ _ _ W1) by done. apply W0. lia.
Qed.

(** A range that agrees is read as the same bytes. *)
Lemma rdn_ext p q off n : blen p = blen q -> (forall i, off <= i < off + n -> rd p i = rd q i) -> rdn p off n = rdn q off n.
Proof.
  intros Hl Hs. unfold rdn. rewrite Hl. destruct (_ && _) eqn:E; [|done]. bool_to_prop. f_equal. unfold blen in *. apply list_eq. intros i.
  destruct (decide (i < Z.to_nat n)%nat) as [Hi|Hi].
  - rewrite !lookup_take_lt by done. rewrite !lookup_drop. specialize (Hs (off + Z.of_nat i) ltac:(lia)). unfold rd in Hs.
    rewrite (proj2 (Z.ltb_ge _ _)) in Hs by lia. rewrite Z2Nat.inj_add, Nat2Z.id in Hs by lia. done.
  - rewrite !lookup_take_ge by lia. done.
Qed.

Lemma rdn_written p off d q a n : written p off d q -> a + n <= off \/ off + blen d <= a -> rdn q a n = rdn p a n.
Proof. intros W Hd. apply rdn_ext; [apply W|]. intros i Hi. apply W. lia. Qed.

Lemma rd_rdn p off n b i : rdn p off n = Some b -> 0 <= i < n -> rd p (off + i) = rd b i.
Proof.
  intros (Hl & -> & Ho & Hn)%rdn_spec Hi. unfold rd. rewrite !(proj2 (Z.ltb_ge _ _)) by lia. rewrite lookup_take_lt, lookup_drop by lia. f_equal. lia.
Qed.

Lemma rdn_rdn p off n b a k : rdn p off n = Some b -> 0 <= a -> 0 <= k -> a + k <= n -> rdn p (off + a) k = rdn b a k.
Proof.
  intros (Hl & -> & Ho & Hn)%rdn_spec Ha Hk Hs. rewrite !rdn_eq by lia. f_equal. 
  rewrite skipn_firstn_comm, take_take, drop_drop. f_equal; [lia|]. f_equal. lia.
Qed.

(** The sum of the words around a field at an even offset. *)
Lemma words_field b f x y : 0 <= f -> Z.Even f -> rdn b f 2 = Some [x; y] ->
  words b = words (take (Z.to_nat f) b) + (x * 256 + y) + words (drop (Z.to_nat (f + 2)) b).
Proof.
  intros Hf [k Hk] (_ & E & _ & Hn)%rdn_spec. unfold blen in Hn. rewrite <- (take_drop (Z.to_nat f) b) at 1.
  rewrite words_app by (exists (Z.to_nat k); rewrite length_take; lia). rewrite <- (take_drop 2 (drop (Z.to_nat f) b)). change (Z.to_nat 2) with 2%nat in E. rewrite <- E.
  rewrite drop_drop. cbn [app words]. replace (Z.to_nat (f + 2)) with (Z.to_nat f + 2)%nat by lia. lia.
Qed.

(** Changing only the field changes the sum by the field. *)
Lemma words_written p a n f d q x y region : 0 <= f -> f + 2 <= n -> Z.Even f -> d = [x; y] -> written p (a + f) d q ->
  rdn p a n = Some region -> rdn p (a + f) 2 = Some [0; 0] -> exists region', rdn q a n = Some region' /\ words region' = words region + (x * 256 + y).
Proof.
  intros Hf Hn He -> W Hr Hz. pose proof (rdn_spec _ _ _ _ Hr) as (Hlr & _ & Ha & Hpn). destruct W as [Wl Wa We _]. change (blen [x; y]) with 2 in *.
  destruct (rdn_in_bounds q a n) as (region' & Hr'); [lia..|]. exists region'. split; [done|]. pose proof (rdn_spec _ _ _ _ Hr') as (Hlr' & _).
  rewrite (words_field region f 0 0); [|done|done|by rewrite <- (rdn_rdn p a n region f 2) by (done || lia)].
  rewrite (words_field region' f x y); [|done|done|by rewrite <- (rdn_rdn q a n region' f 2) by (done || lia)].
  assert (Hsub : forall k m, 0 <= k -> 0 <= m -> k + m <= f \/ f + 2 <= k -> k + m <= n -> rdn region' k m = rdn region k m).
  { intros k m Hk Hm Hd Hb. rewrite <- (rdn_rdn p a n region k m), <- (rdn_rdn q a n region' k m) by (done || lia). apply rdn_ext; [done|]. intros i Hi. apply We. lia. }
  pose proof (Hsub 0 f ltac:(lia) Hf ltac:(lia) ltac:(lia)) as H1. pose proof (Hsub (f + 2) (n - f - 2) ltac:(lia) ltac:(lia) ltac:(lia) ltac:(lia)) as H2.
  rewrite !rdn_eq in H1 by lia. rewrite !rdn_eq in H2 by lia. injection H1 as H1. injection H2 as H2. rewrite !drop_0 in H1. rewrite H1. unfold blen in *.
  rewrite !take_ge in H2 by (rewrite length_drop; lia). rewrite H2. lia.
Qed.

Lemma native_bytes_spec c : 0 < c <= 65535 -> exists x y, native_bytes le c = [x; y] /\ is_byte x /\ is_byte y /\ 0 < x * 256 + y /\ cong (x * 256 + y) (order_factor le * c).
Proof.
  intros Hc. destruct (split16 c ltac:(lia)) as (Hh & Hl & E). unfold native_bytes, order_factor. destruct le; do 2 eexists; (split_and!; [done|done|done|unfold is_byte in *; lia|]).
  - rewrite <- E at 3. apply (cong_by (- Z.shiftr c 8)). lia.
  - apply (cong_by 0). lia.
Qed.

(** The field that is stored makes the region sum to zero with whatever else
    was summed. *)
Lemma csum_store_spec p a n f acc others region :
  0 <= f -> f + 2 <= n -> Z.Even f -> rdn p a n = Some region -> rdn p (a + f) 2 = Some [0; 0] ->
  0 <= acc < 2 ^ 64 -> 0 <= others -> bytes_ok region -> cong acc (order_factor le * (others + words region)) ->
  exists q d region', csum_store le p (a + f) acc = Some q /\ written p (a + f) d q /\ blen d = 2 /\ bytes_ok d /\
    rdn q a n = Some region' /\ 0 < words region' /\ (65535 | others + words region').
Proof.
  intros Hf Hn He Hr Hz Hacc Ho Hb Hc. destruct (csum_fold_spec acc Hacc) as [Hfc Hfr]. unfold csum_store. rewrite (u16_small (65535 - _)) by lia.
  set (c := if 65535 - csum_fold acc =? 0 then 65535 else 65535 - csum_fold acc).
  assert (Hcr : 0 < c <= 65535) by (unfold c; destruct (Z.eqb_spec (65535 - csum_fold acc) 0); lia).
  assert (Hcc : cong (c + acc) 0). { rewrite <- Hfc. unfold c. destruct (Z.eqb_spec (65535 - csum_fold acc) 0) as [E|]; [|by apply (cong_by 1); lia]. apply (cong_by 2). lia. }
  destruct (native_bytes_spec c Hcr) as (x & y & -> & Hx & Hy & Hpos & Hv). pose proof (rdn_spec _ _ _ _ Hr) as (_ & _ & Ha & Hpn).
  destruct (wrn_written p (a + f) [x; y]) as (q & Hq & W); [lia|unfold blen at 1; cbn [length]; lia|].
  destruct (words_written p a n f [x; y] q x y region) as (region' & Hr' & Hw); [done..|]. pose proof (words_bounds region Hb).
  exists q, [x; y], region'. split_and!; [done|done|done|by apply Forall_cons_2, Forall_cons_2, Forall_nil_2|done|lia|].
  apply cong_divide. rewrite Hw, Z.add_assoc, Hv. pose proof (order_factor_sq le) as Hsq. set (k := order_factor le) in *.
  transitivity (k * (c + acc)); [|rewrite Hcc; by apply (cong_by 0); lia]. rewrite Hc. replace (k * (c + k * (others + words region))) with (k * k * (others + words region) + k * c) by lia.
  rewrite Hsq. apply (cong_by 0). lia.
Qed.

(** ** The pseudo header *)

(** The pseudo header of RFC 793 and RFC 8200, for the packet [ip]. *)
Definition pseudo_header (ip : list Z) (v6 : bool) (proto l4len : Z) : list Z :=
  if v6 then take 32 (drop 8 ip) ++ [0; 0; Z.shiftr l4len 8; Z.land l4len 255] ++ [0; 0; 0; proto]
  else take 8 (drop 12 ip) ++ [0; proto; Z.shiftr l4len 8; Z.land l4len 255].

(** A checksum that a receiver accepts. *)
Definition checksum_ok (b : list Z) : bool := fold_checksum (words b) =? 0.

Lemma words_half b : bytes_ok b -> 0 <= 2 * words b <= 65535 * (blen b + 1).
Proof.
  unfold blen. induction b as [|x|x y b IH] using pair_ind; intros Hb; cbn [words length]; [lia|..].
  - apply Forall_cons in Hb as [Hx _]. unfold is_byte in *. lia.
  - apply Forall_cons in Hb as [Hx [Hy Hb]%Forall_cons]. unfold is_byte in *. specialize (IH Hb). lia.
Qed.

Lemma checksum_ok_intro b : bytes_ok b -> blen b <= 2 ^ 17 -> 0 < words b -> (65535 | words b) -> checksum_ok b = true.
Proof.
  intros Hb Hl H0 Hd. pose proof (words_half b Hb). apply Z.eqb_eq, fold_checksum_zero; [lia|done].
Qed.

Lemma pseudo_header_ok ip (v6 : bool) proto l4len : bytes_ok ip -> (if v6 then 40 else 20) <= blen ip -> is_byte proto -> 0 <= l4len <= 65535 ->
  let h := pseudo_header ip v6 proto l4len in bytes_ok h /\ Nat.Even (length h) /\ blen h <= 40 /\
  exists acc, csum_pseudo le ip v6 proto l4len = Some acc /\ cong acc (order_factor le * words h) /\ 0 <= acc <= 2 ^ 40.
Proof.
  intros Hb Hl Hp Hn. cbn zeta. destruct (split16 l4len Hn) as (Hhi & Hlo & E). assert (H0 : is_byte 0) by (unfold is_byte; lia).
  assert (Hu : u8 (Z.shiftr l4len 8) = Z.shiftr l4len 8 /\ u8 l4len = Z.land l4len 255).
  { split; [apply u8_small; unfold is_byte in *; lia|]. change 255 with (2 ^ 8 - 1). by rewrite land_ones_mod by lia. }
  destruct Hu as [Eh El]. unfold csum_pseudo. rewrite Eh, El. set (t := [0; proto; Z.shiftr l4len 8; Z.land l4len 255]).
  assert (Ht : bytes_ok t) by (repeat (apply Forall_cons_2; [done|]); apply Forall_nil_2).
  assert (Hgen : forall addrs, bytes_ok addrs -> Nat.Even (length addrs) -> blen addrs <= 32 ->
    cong (csum_sum le t (csum_sum le addrs 0)) (order_factor le * (words addrs + words t)) /\ 0 <= csum_sum le t (csum_sum le addrs 0) <= 2 ^ 40).
  { intros addrs Ha _ Hla. pose proof (blen_nonneg addrs). destruct (csum_sum_spec addrs 0 Ha ltac:(lia) ltac:(lia)) as [C1 B1]. change (blen t) with 4 in *.
    destruct (csum_sum_spec t (csum_sum le addrs 0) Ht ltac:(lia)) as [C2 B2]; change (blen t) with 4 in *; [lia|]. split; [|lia]. rewrite C2, C1. apply (cong_by 0). lia. }
  unfold pseudo_header. unfold blen in Hl. destruct v6.
  - rewrite rdn_eq by (unfold blen; lia). change (Z.to_nat 32) with 32%nat. change (Z.to_nat 8) with 8%nat. cbn [mbind option_bind].
    set (a := take 32 (drop 8 ip)). assert (La : length a = 32%nat) by (unfold a; rewrite length_take, length_drop; lia).
    assert (Ha : bytes_ok a) by (apply Forall_take, Forall_drop, Hb). assert (Ea : Nat.Even (length a)) by (exists 16%nat; lia).
    destruct (Hgen a Ha Ea ltac:(unfold blen; lia)) as [C B]. split_and!.
    + apply Forall_app. split; [done|]. repeat (apply Forall_cons_2; [done|]). apply Forall_nil_2.
    + rewrite !length_app, La. by exists 20%nat.
    + unfold blen. rewrite !length_app, La. cbn. lia.
    + eexists. split; [done|]. split; [|done]. rewrite C, !words_app by done. unfold t. cbn [words app]. apply (cong_by 0). lia.
  - rewrite rdn_eq by (unfold blen; lia). change (Z.to_nat 12) with 12%nat. change (Z.to_nat 8) with 8%nat. cbn [mbind option_bind].
    set (a := take 8 (drop 12 ip)). assert (La : length a = 8%nat) by (unfold a; rewrite length_take, length_drop; lia).
    assert (Ha : bytes_ok a) by (apply Forall_take, Forall_drop, Hb). assert (Ea : Nat.Even (length a)) by (exists 4%nat; lia).
    destruct (Hgen a Ha Ea ltac:(unfold blen; lia)) as [C B]. split_and!.
    + by apply Forall_app.
    + rewrite !length_app, La. by exists 6%nat.
    + unfold blen. rewrite !length_app, La. cbn. lia.
    + eexists. split; [done|]. split; [|done]. rewrite C, !words_app by done. apply (cong_by 0). unfold t. lia.
Qed.

(** ** The checksum of a packet without segmentation *)

(** [mqvpn_vnet_finish_csum] fails exactly when the field or the start is
    outside the packet; otherwise, on hosts of both byte orders, it changes the
    two bytes of the field only, and when the field held the sum of a pseudo
    header, the checksum over that header and the rest of the packet is one a
    receiver accepts. *)
Theorem checksum_completed pkt vh : bytes_ok pkt -> blen pkt <= 65535 -> 0 <= csum_start vh -> 0 <= csum_offset vh -> Z.Even (csum_offset vh) ->
  let at_ := csum_start vh + csum_offset vh in
  if (blen pkt <=? csum_start vh) || (blen pkt <? at_ + 2) then mqvpn_vnet_finish_csum le pkt vh = Some None
  else exists q d x y, mqvpn_vnet_finish_csum le pkt vh = Some (Some q) /\ rdn pkt at_ 2 = Some [x; y] /\ written pkt at_ d q /\ blen d = 2 /\ bytes_ok d /\
    forall ph, bytes_ok ph -> Nat.Even (length ph) -> blen ph <= 40 -> cong (words ph) (x * 256 + y) -> checksum_ok (ph ++ drop (Z.to_nat (csum_start vh)) q) = true.
Proof.
  intros Hb Hl Hs Hf He. cbn zeta. destruct (_ || _) eqn:Eg.
  { unfold mqvpn_vnet_finish_csum. cbn zeta. by rewrite Eg. }
  bool_to_prop. set (at_ := csum_start vh + csum_offset vh) in *. destruct (rdn_in_bounds pkt at_ 2) as (fb & Hfb); [lia..|].
  pose proof (rdn_spec _ _ _ _ Hfb) as (Lf & _). pose proof (rdn_bytes _ _ _ _ Hb Hfb) as Bf. unfold blen in Lf. destruct fb as [|x [|y [|]]]; try (cbn in Lf; lia).
  apply Forall_cons in Bf as Bf'. destruct Bf' as [Hx [Hy _]%Forall_cons]. assert (Hz0 : is_byte 0) by (unfold is_byte; lia).
  assert (B0 : bytes_ok [0; 0]) by (by apply Forall_cons_2, Forall_cons_2, Forall_nil_2).
  destruct (wrn_written pkt at_ [0; 0]) as (p1 & Hp1 & W1); [lia|unfold blen at 1; cbn [length]; lia|]. pose proof (written_len _ _ _ _ W1) as L1.
  set (n := blen pkt - csum_start vh) in *. destruct (rdn_in_bounds p1 (csum_start vh) n) as (rest & Hrest); [lia..|].
  pose proof (written_bytes _ _ _ _ W1 Hb B0) as Bp1. pose proof (rdn_bytes _ _ _ _ Bp1 Hrest) as Brest. pose proof (rdn_spec _ _ _ _ Hrest) as (Lrest & _).
  destruct (csum_sum_spec [x; y] 0 Bf ltac:(lia)) as [C1 B1]; [unfold blen; cbn [length]; lia|]. change (blen [x; y]) with 2 in B1.
  destruct (csum_sum_spec rest (csum_sum le [x; y] 0) Brest ltac:(lia) ltac:(lia)) as [C2 B2]. pose proof (words_bounds rest Brest).
  destruct (csum_store_spec p1 (csum_start vh) n (csum_offset vh) (csum_sum le rest (csum_sum le [x; y] 0)) (x * 256 + y) rest)
    as (q & d & region' & Hq & W2 & Ld & Bd & Hr' & Hpos & Hdiv); [lia|lia|done|done|apply W1|lia|unfold is_byte in *; lia|done| |].
  { rewrite C2, C1. cbn [words]. apply (cong_by 0). lia. }
  exists q, d, x, y. assert (W : written pkt at_ d q) by (apply (written_twice _ _ [0; 0] p1); done). split_and!; [|done|done|done|done|].
  - unfold mqvpn_vnet_finish_csum. fold at_. cbn zeta. rewrite !(proj2 (Z.leb_gt _ _)), !(proj2 (Z.ltb_ge _ _)) by lia. cbn [orb]. rewrite Hfb. cbn [mbind option_bind]. rewrite Hp1. cbn [mbind option_bind].
    rewrite L1. fold n. rewrite Hrest. cbn [mbind option_bind]. fold at_ in Hq. by rewrite Hq.
  - intros ph Bph Eph Lph Hph. assert (Er : drop (Z.to_nat (csum_start vh)) q = region').
    { pose proof (rdn_spec _ _ _ _ Hr') as (_ & -> & _). rewrite take_ge; [done|]. rewrite length_drop. pose proof (written_len _ _ _ _ W) as Lq. unfold blen in *. lia. }
    rewrite Er. pose proof (written_bytes _ _ _ _ W Hb Bd) as Bq. pose proof (rdn_bytes _ _ _ _ Bq Hr') as Br. pose proof (rdn_spec _ _ _ _ Hr') as (Lr & _).
    pose proof (words_bounds ph Bph). apply checksum_ok_intro.
    + by apply Forall_app.
    + unfold blen in *. rewrite length_app. lia.
    + rewrite words_app by done. lia.
    + apply cong_divide. rewrite words_app, Hph by done. by apply cong_divide.
Qed.

End order.

(** A UDP packet of four bytes whose field holds the sum of the pseudo header
    of 10.0.0.1 and 10.0.0.2. *)
Definition sample_partial : list Z :=
  [69; 0; 0; 32; 0; 0; 0; 0; 64; 17; 0; 0; 10; 0; 0; 1; 10; 0; 0; 2] ++ [0; 53; 0; 54; 0; 12; 20; 32] ++ [222; 173; 190; 239].

Lemma checksum_completed_witness : exists q, mqvpn_vnet_finish_csum true sample_partial (VirtioHdr 1 0 0 0 20 6) = Some (Some q) /\
  checksum_ok (pseudo_header sample_partial false 17 12 ++ drop 20 q) = true /\
  mqvpn_vnet_finish_csum true sample_partial (VirtioHdr 1 0 0 0 20 12) = Some None.
Proof.
  pose proof (checksum_completed true sample_partial (VirtioHdr 1 0 0 0 20 6)) as H. pose proof (checksum_completed true sample_partial (VirtioHdr 1 0 0 0 20 12)) as H'.
  cbv zeta in H, H'. destruct H as (q & d & x & y & E & Ef & _ & _ & _ & Hck); [by apply bytes_okb_ok|done|cbn; lia|cbn; lia|by exists 3|]. exists q. split; [done|]. split.
  - vm_compute in Ef. injection Ef as <- <-. apply Hck; [by apply bytes_okb_ok|by exists 6%nat|done|done].
  - apply H'; [by apply bytes_okb_ok|done|cbn; lia|cbn; lia|by exists 6].
Defined.
