(* ===== verification/OffloadSplit.v ===== *)
(** * Cutting a super-packet

    The segments of [mqvpn_gso_begin] and [mqvpn_gso_next]: the fields a
    receiver reads, the checksums it verifies, and the payload it gets. *)

From Stdlib Require Import Setoid Morphisms.
From S2P Require Import Prelude Wire Icmp StateOpt TunFrame TunOffload OffloadCsum.

(** ** Fields of a packet *)

Lemma get_be16_ext p q off : rd p off = rd q off -> rd p (off + 1) = rd q (off + 1) -> get_be16 p off = get_be16 q off.
Proof. unfold get_be16. by intros -> ->. Qed.

Lemma get_be32_ext p q off : blen p = blen q -> (forall i, off <= i < off + 4 -> rd p i = rd q i) -> get_be32 p off = get_be32 q off.
Proof. intros Hl Hs. unfold get_be32. by rewrite (rdn_ext p q off 4). Qed.

Lemma get_be16_rdn p off x y : rdn p off 2 = Some [x; y] -> get_be16 p off = Some (be16 x y).
Proof.
  intros H. unfold get_be16. pose proof (rd_rdn p off 2 [x; y] 0 H ltac:(lia)) as H0. pose proof (rd_rdn p off 2 [x; y] 1 H ltac:(lia)) as H1.
  rewrite Z.add_0_r in H0. by rewrite H0, H1.
Qed.

Lemma put_be16_spec p off v : 0 <= v <= 65535 -> 0 <= off -> off + 2 <= blen p ->
  exists q d, put_be16 p off v = Some q /\ written p off d q /\ blen d = 2 /\ bytes_ok d /\ get_be16 q off = Some v.
Proof.
  intros Hv Ho Hl. unfold put_be16. set (d := [_; _]). destruct (wrn_written p off d) as (q & Hq & W); [done|unfold blen at 1; cbn [length d]; lia|].
  exists q, d. split_and!; [done|done|done|by apply Forall_cons_2, Forall_cons_2, Forall_nil_2; auto using land255_byte|].
  rewrite (get_be16_rdn q off (Z.land (Z.shiftr v 8) 255) (Z.land v 255)) by apply W. by rewrite be16_bytes.
Qed.

Lemma be32_value a b c d : is_byte a -> is_byte b -> is_byte c -> is_byte d ->
  fold_left (fun acc x => Z.lor (Z.shiftl acc 8) x) [a; b; c; d] 0 = be16 a b * 65536 + be16 c d.
Proof.
  unfold is_byte. intros. cbn [fold_left]. rewrite !be16_eq, !lor_shift_add by lia. change (2 ^ 8) with 256. lia.
Qed.

Lemma put_be32_spec p off v : 0 <= v < 2 ^ 32 -> 0 <= off -> off + 4 <= blen p ->
  exists q d, put_be32 p off v = Some q /\ written p off d q /\ blen d = 4 /\ bytes_ok d /\ get_be32 q off = Some v.
Proof.
  intros Hv Ho Hl. unfold put_be32. set (d := [_; _; _; _]). destruct (wrn_written p off d) as (q & Hq & W); [done|unfold blen at 1; cbn [length d]; lia|].
  exists q, d. split_and!; [done|done|done|by repeat (apply Forall_cons_2; [apply land255_byte|]); apply Forall_nil_2|].
  unfold get_be32. pose proof (written_at _ _ _ _ W) as Ha. change (blen d) with 4 in Ha. rewrite Ha. cbn [mbind option_bind]. f_equal. unfold d.
  rewrite be32_value by apply land255_byte. by apply be32_bytes.
Qed.

Lemma wr_written p i v : 0 <= i < blen p -> exists q, wr p i v = Some q /\ written p i [v] q.
Proof.
  intros Hi. destruct (wrn_written p i [v]) as (q & Hq & W); [lia|unfold blen at 1; cbn [length]; lia|]. exists q. split; [|done]. rewrite <- Hq. unfold wr, wrn.
  change (blen [v]) with 1. rewrite !(proj2 (Z.leb_le _ _)), (proj2 (Z.ltb_lt _ _)) by lia. cbn [andb]. f_equal. unfold blen in Hi.
  rewrite insert_take_drop by lia. do 2 f_equal. cbn [app]. do 2 f_equal. lia.
Qed.

(** ** The IP header of a segment *)

Definition ip_changed (v6 : bool) (i : Z) : Prop := if v6 then 4 <= i < 6 else 2 <= i < 6 \/ 10 <= i < 12.

(** What a receiver finds in the IP header of a packet of [total] bytes. *)
Definition ip_fields (v6 : bool) (ip_hlen id total : Z) (q : list Z) : Prop :=
  if v6 then get_be16 q 4 = Some (total - 40)
  else get_be16 q 2 = Some total /\ get_be16 q 4 = Some id /\ checksum_ok (take (Z.to_nat ip_hlen) q) = true.

(** ** The transport header of a segment *)

Definition l4_changed (proto l4 i : Z) : Prop :=
  if proto =? MQVPN_IPPROTO_TCP then l4 + 4 <= i < l4 + 8 \/ i = l4 + 13 \/ l4 + 16 <= i < l4 + 18 else l4 + 4 <= i < l4 + 8.

(** The flags of a segment: FIN and PSH on the last only, CWR on the first. *)
Definition segment_flags (first last : bool) (f : Z) : Z :=
  let f := if last then f else clear_bits f (TCP_FLAG_FIN + TCP_FLAG_PSH) in
  if first then f else clear_bits f TCP_FLAG_CWR.

Definition l4_fields (proto l4 seq : Z) (first last : bool) (flags : option Z) (q : list Z) : Prop :=
  if proto =? MQVPN_IPPROTO_TCP then get_be32 q (l4 + 4) = Some seq /\ rd q (l4 + 13) = segment_flags first last <$> flags
  else get_be16 q (l4 + 4) = Some (blen q - l4).

Definition l4_csum_ok (v6 : bool) (proto l4 : Z) (q : list Z) : Prop :=
  checksum_ok (pseudo_header q v6 proto (blen q - l4) ++ drop (Z.to_nat l4) q) = true.

Lemma clear_bits_byte v m : 0 <= m < 256 -> is_byte (clear_bits v m).
Proof.
  intros Hm. unfold clear_bits. assert (E : Z.land (255 - m) 255 = 255 - m).
  { change 255 with (2 ^ 8 - 1) at 2. rewrite land_ones_mod by lia. apply Z.mod_small. lia. }
  rewrite <- E, Z.land_assoc. apply land255_byte.
Qed.

Lemma segment_flags_byte a b f : is_byte f -> is_byte (segment_flags a b f).
Proof. intros Hf. unfold segment_flags. destruct a, b; try done; apply clear_bits_byte; unfold TCP_FLAG_FIN, TCP_FLAG_PSH, TCP_FLAG_CWR; lia. Qed.

Lemma pseudo_header_ext p q (v6 : bool) proto n l4 : blen p = blen q -> (if v6 then 40 <= l4 else 20 <= l4) -> (forall i, i < l4 -> rd p i = rd q i) -> l4 <= blen p ->
  pseudo_header p v6 proto n = pseudo_header q v6 proto n.
Proof.
  intros Hl H4 Hs Hb. unfold pseudo_header. destruct v6.
  - assert (E : rdn p 8 32 = rdn q 8 32) by (apply rdn_ext; [done|intros; apply Hs; lia]). rewrite !rdn_eq in E by lia. injection E as E. f_equal. exact E.
  - assert (E : rdn p 12 8 = rdn q 12 8) by (apply rdn_ext; [done|intros; apply Hs; lia]). rewrite !rdn_eq in E by lia. injection E as E. f_equal. exact E.
Qed.

(** ** Segments *)

Definition it_payload (it : mqvpn_gso_iter_t) : Z := blen (it_pkt it) - it_hdr_len it.

Record iter_wf (it : mqvpn_gso_iter_t) : Prop := {
  wf_bytes : bytes_ok (it_pkt it);
  wf_gso : 0 < it_gso_size it <= 65535;
  wf_proto : it_proto it = MQVPN_IPPROTO_TCP \/ it_proto it = MQVPN_IPPROTO_UDP;
  wf_ip : if it_v6 it then 40 <= it_ip_hlen it /\ blen (it_pkt it) - 40 <= 65535 else 20 <= it_ip_hlen it <= 60 /\ blen (it_pkt it) <= 65535;
  wf_hdr : it_ip_hlen it + (if it_proto it =? MQVPN_IPPROTO_TCP then 20 else 8) <= it_hdr_len it <= blen (it_pkt it)
}.

(** The number of segments and the payload of one. *)
Definition segment_count (it : mqvpn_gso_iter_t) : Z := Z.max 1 ((it_payload it + it_gso_size it - 1) / it_gso_size it).
Definition segment_len (it : mqvpn_gso_iter_t) (k : Z) : Z := Z.min (it_gso_size it) (it_payload it - k * it_gso_size it).

(** Segment [k] as a receiver sees it: the fields, the checksums and the
    payload, and a header that is otherwise the one of the super-packet. *)
Record segment_ok (it : mqvpn_gso_iter_t) (k : Z) (s : list Z) : Prop := {
  seg_bytes : bytes_ok s;
  seg_size : blen s = it_hdr_len it + segment_len it k;
  seg_data : drop (Z.to_nat (it_hdr_len it)) s = take (Z.to_nat (segment_len it k)) (drop (Z.to_nat (it_hdr_len it + k * it_gso_size it)) (it_pkt it));
  seg_ip : ip_fields (it_v6 it) (it_ip_hlen it) (u16 (ip_id0 it + k)) (blen s) s;
  seg_l4 : l4_fields (it_proto it) (it_ip_hlen it) (u32 (seq0 it + k * it_gso_size it)) (k =? 0) (k =? segment_count it - 1) (rd (it_pkt it) (it_ip_hlen it + 13)) s;
  seg_csum : l4_csum_ok (it_v6 it) (it_proto it) (it_ip_hlen it) s;
  seg_hdr : forall i, 0 <= i < it_hdr_len it -> ~ ip_changed (it_v6 it) i -> ~ l4_changed (it_proto it) (it_ip_hlen it) i -> rd s i = rd (it_pkt it) i
}.

(** The iterator after [k] segments. *)
Definition iter_at (it : mqvpn_gso_iter_t) (k : Z) : mqvpn_gso_iter_t := it <| it_off := k * it_gso_size it |> <| it_idx := k |> <| it_done := false |>.

Definition iter_done (it : mqvpn_gso_iter_t) : mqvpn_gso_iter_t :=
  it <| it_off := it_payload it |> <| it_idx := segment_count it |> <| it_done := true |>.

Lemma iter_at_begun it : it_off it = 0 /\ it_idx it = 0 /\ it_done it = false -> iter_at it 0 = it.
Proof. destruct it. cbn. intros (-> & -> & ->). done. Qed.

(** The segments counted: all but the last are full. *)
Lemma segment_count_spec it k : iter_wf it -> 0 <= k < segment_count it ->
  0 <= segment_len it k <= it_gso_size it /\ k < 65535 + 1 /\
  (if k =? segment_count it - 1 then k * it_gso_size it + segment_len it k = it_payload it
   else segment_len it k = it_gso_size it /\ k * it_gso_size it + segment_len it k < it_payload it).
Proof.
  intros W Hk. pose proof (wf_gso _ W) as Hg. assert (Hp : 0 <= it_payload it <= 65535) by (pose proof (wf_hdr _ W); pose proof (wf_ip _ W); unfold it_payload; destruct (it_v6 it), (it_proto it =? MQVPN_IPPROTO_TCP); lia).
  unfold segment_len, segment_count in *. set (g := it_gso_size it) in *. set (n := it_payload it) in *.
  pose proof (Z.div_mod (n + g - 1) g ltac:(lia)) as Hd. pose proof (Z.mod_pos_bound (n + g - 1) g ltac:(lia)) as Hm. set (c := (n + g - 1) / g) in *. set (r := (n + g - 1) mod g) in *.
  assert (Hc : 0 <= c <= 65535) by nia. destruct (Z.eqb_spec k (Z.max 1 c - 1)) as [E|Hne].
  - assert (c = 0 \/ 1 <= c) as [Hc0|Hc1] by lia; [assert (n = 0) by nia; assert (k = 0) by lia; subst k; lia|]. assert (Hck : c = k + 1) by lia. rewrite Hck in Hd. split_and!; nia.
  - assert (Hck : k + 2 <= c) by lia. assert (k * g + g < n) by nia. lia.
Qed.

Section order.
Context (le : bool).

(** The checksum over the IPv4 header, its field cleared first. *)
Lemma ip4_csum_spec p hlen : bytes_ok p -> 20 <= hlen <= 60 -> hlen <= blen p ->
  exists p1 q d h, wrn p 10 [0; 0] = Some p1 /\ rdn p1 0 hlen = Some h /\ csum_store le p1 10 (csum_sum le h 0) = Some q /\
    written p 10 d q /\ blen d = 2 /\ bytes_ok d /\ checksum_ok (take (Z.to_nat hlen) q) = true.
Proof.
  intros Hb Hh Hl. assert (Hz0 : is_byte 0) by (unfold is_byte; lia). assert (B0 : bytes_ok [0; 0]) by (by apply Forall_cons_2, Forall_cons_2, Forall_nil_2).
  destruct (wrn_written p 10 [0; 0]) as (p1 & Hp1 & W1); [lia|unfold blen at 1; cbn [length]; lia|]. pose proof (written_len _ _ _ _ W1) as L1.
  pose proof (written_bytes _ _ _ _ W1 Hb B0) as Bp1. destruct (rdn_in_bounds p1 0 hlen) as (h & Hr); [lia..|].
  pose proof (rdn_bytes _ _ _ _ Bp1 Hr) as Bh. pose proof (rdn_spec _ _ _ _ Hr) as (Lh & _).
  destruct (csum_sum_spec le h 0 Bh ltac:(lia) ltac:(lia)) as [C1 B1]. destruct (csum_store_spec le p1 0 hlen 10 (csum_sum le h 0) 0 h)
    as (q & d & h' & Hq & W2 & Ld & Bd & Hr' & Hpos & Hdiv); [lia|lia|by exists 5|done|apply W1|lia|lia|done|by rewrite C1|]. change (0 + 10) with 10 in *.
  assert (W : written p 10 d q) by (apply (written_twice p 10 [0; 0] p1 d q); done). exists p1, q, d, h. split_and!; [done..|].
  pose proof (written_bytes _ _ _ _ W Hb Bd) as Bq. pose proof (rdn_bytes _ _ _ _ Bq Hr') as Bh'. pose proof (rdn_spec _ _ _ _ Hr') as (Lh' & Eh' & _).
  rewrite drop_0 in Eh'. rewrite <- Eh'. apply checksum_ok_intro; [done|lia|done|done].
Qed.

Lemma gso_ip_header_spec it out : bytes_ok out -> it_ip_hlen it <= blen out ->
  (if it_v6 it then 40 <= it_ip_hlen it /\ blen out - 40 <= 65535 else 20 <= it_ip_hlen it <= 60 /\ blen out <= 65535) ->
  exists q, gso_ip_header le it out = Some q /\ blen q = blen out /\ bytes_ok q /\ (forall i, ~ ip_changed (it_v6 it) i -> rd q i = rd out i) /\
    ip_fields (it_v6 it) (it_ip_hlen it) (u16 (ip_id0 it + it_idx it)) (blen out) q.
Proof.
  intros Hb Hl Hs. unfold gso_ip_header, ip_fields, ip_changed, IPV6_HLEN. cbn zeta. destruct (it_v6 it); destruct Hs as [H1 H2].
  - rewrite u16_small by lia. destruct (put_be16_spec out 4 (blen out - 40)) as (q & d & Hq & W & Ld & Bd & Hg); [lia..|]. exists q. split_and!; [done|apply W|by apply W| |done].
    intros i Hi. apply W. lia.
  - rewrite (u16_small (blen out)) by (pose proof (blen_nonneg out); lia). destruct (put_be16_spec out 2 (blen out)) as (q1 & d1 & Hq1 & W1 & Ld1 & Bd1 & Hg1); [pose proof (blen_nonneg out); lia|lia|lia|].
    rewrite Hq1. cbn [mbind option_bind]. pose proof (written_len _ _ _ _ W1) as L1. set (id := u16 _). assert (Hid : 0 <= id <= 65535) by (unfold id, u16; pose proof (Z.mod_pos_bound (ip_id0 it + it_idx it) (2 ^ 16) ltac:(lia)); lia).
    destruct (put_be16_spec q1 4 id Hid) as (q2 & d2 & Hq2 & W2 & Ld2 & Bd2 & Hg2); [lia|lia|]. rewrite Hq2. cbn [mbind option_bind]. pose proof (written_len _ _ _ _ W2) as L2.
    pose proof (written_bytes _ _ _ _ W1 Hb Bd1) as B1. pose proof (written_bytes _ _ _ _ W2 B1 Bd2) as B2.
    destruct (ip4_csum_spec q2 (it_ip_hlen it)) as (p1 & q & d & h & Hp1 & Hh & Hq & W & Ld & Bd & Hck); [done|lia|lia|]. rewrite Hp1. cbn [mbind option_bind]. rewrite Hh. cbn [mbind option_bind].
    exists q. split_and!; [done|rewrite (written_len _ _ _ _ W); lia|by apply W| | | |done].
    + intros i Hi. rewrite (written_else _ _ _ _ W), (written_else _ _ _ _ W2), (written_else _ _ _ _ W1) by lia. done.
    + rewrite <- Hg1. apply get_be16_ext; rewrite (written_else _ _ _ _ W), (written_else _ _ _ _ W2) by lia; done.
    + rewrite <- Hg2. apply get_be16_ext; rewrite (written_else _ _ _ _ W) by lia; done.
Qed.

Lemma gso_l4_csum_spec it out field : bytes_ok out -> 0 <= field -> Z.Even field -> it_ip_hlen it + field + 2 <= blen out ->
  (if it_v6 it then 40 <= it_ip_hlen it else 20 <= it_ip_hlen it) -> blen out - it_ip_hlen it <= 65535 -> is_byte (it_proto it) ->
  exists q d, gso_l4_csum le it out field = Some q /\ written out (it_ip_hlen it + field) d q /\ blen d = 2 /\ bytes_ok d /\ l4_csum_ok (it_v6 it) (it_proto it) (it_ip_hlen it) q.
Proof.
  intros Hb Hf He Hl H4 Hn Hp. set (l4 := it_ip_hlen it) in *. assert (Hl4 : 20 <= l4) by (destruct (it_v6 it); lia).
  assert (Hz0 : is_byte 0) by (unfold is_byte; lia). assert (B0 : bytes_ok [0; 0]) by (by apply Forall_cons_2, Forall_cons_2, Forall_nil_2).
  destruct (wrn_written out (l4 + field) [0; 0]) as (p1 & Hp1 & W1); [lia|unfold blen at 1; cbn [length]; lia|]. pose proof (written_len _ _ _ _ W1) as L1.
  pose proof (written_bytes _ _ _ _ W1 Hb B0) as Bp1. destruct (rdn_in_bounds p1 l4 (blen out - l4)) as (body & Hr); [lia..|].
  pose proof (rdn_bytes _ _ _ _ Bp1 Hr) as Bb. pose proof (rdn_spec _ _ _ _ Hr) as (Lb & _).
  destruct (pseudo_header_ok le p1 (it_v6 it) (it_proto it) (blen out - l4)) as (Bh & Eh & Lh & acc & Hacc & Ca & Ra); [done|destruct (it_v6 it); lia|done|lia|].
  set (h := pseudo_header p1 (it_v6 it) (it_proto it) (blen out - l4)) in *. pose proof (words_bounds h Bh) as Wh. pose proof (words_bounds body Bb) as Wb.
  destruct (csum_sum_spec le body acc Bb ltac:(lia) ltac:(lia)) as [C1 B1].
  destruct (csum_store_spec le p1 l4 (blen out - l4) field (csum_sum le body acc) (words h) body)
    as (q & d & body' & Hq & W2 & Ld & Bd & Hr' & Hpos & Hdiv); [lia|lia|done|done|apply W1|lia|lia|done| |].
  { rewrite C1, Ca. apply (cong_by 0). lia. }
  assert (W : written out (l4 + field) d q) by (apply (written_twice out _ [0; 0] p1 d q); done). exists q, d. split_and!; [|done|done|done|].
  - unfold gso_l4_csum. fold l4. cbn zeta. rewrite Hp1. cbn [mbind option_bind]. rewrite Hacc. cbn [mbind option_bind]. rewrite Hr. cbn [mbind option_bind]. done.
  - unfold l4_csum_ok. pose proof (written_len _ _ _ _ W) as Lq. rewrite Lq. rewrite (pseudo_header_ext q p1 _ _ _ l4); [|lia|done|intros; apply W2; lia|lia].
    fold h. pose proof (written_bytes _ _ _ _ W Hb Bd) as Bq. pose proof (rdn_bytes _ _ _ _ Bq Hr') as Bb'. pose proof (rdn_spec _ _ _ _ Hr') as (Lb' & Eb' & _).
    assert (Er : drop (Z.to_nat l4) q = body') by (rewrite Eb', take_ge; [done|]; rewrite length_drop; unfold blen in *; lia). rewrite Er. apply checksum_ok_intro.
    + by apply Forall_app.
    + unfold blen in *. rewrite length_app. lia.
    + rewrite words_app by done. lia.
    + by rewrite words_app.
Qed.

Lemma gso_l4_header_spec it last out : bytes_ok out -> it_ip_hlen it + (if it_proto it =? MQVPN_IPPROTO_TCP then 20 else 8) <= blen out ->
  (if it_v6 it then 40 <= it_ip_hlen it else 20 <= it_ip_hlen it) -> blen out - it_ip_hlen it <= 65535 -> is_byte (it_proto it) ->
  exists q, gso_l4_header le it last out = Some q /\ blen q = blen out /\ bytes_ok q /\ (forall i, ~ l4_changed (it_proto it) (it_ip_hlen it) i -> rd q i = rd out i) /\
    l4_fields (it_proto it) (it_ip_hlen it) (u32 (seq0 it + u32 (it_off it))) (it_idx it =? 0) last (rd out (it_ip_hlen it + 13)) q /\
    l4_csum_ok (it_v6 it) (it_proto it) (it_ip_hlen it) q.
Proof.
  intros Hb Hl H4 Hn Hp. unfold gso_l4_header, l4_changed, l4_fields. cbn zeta. set (l4 := it_ip_hlen it) in *. assert (Hl4 : 20 <= l4) by (destruct (it_v6 it); lia).
  destruct (it_proto it =? MQVPN_IPPROTO_TCP).
  - pose proof (u32_range (seq0 it + u32 (it_off it))) as Hsr. destruct (put_be32_spec out (l4 + 4) (u32 (seq0 it + u32 (it_off it)))) as (q1 & d1 & Hq1 & W1 & Ld1 & Bd1 & Hg1); [lia..|].
    rewrite Hq1. cbn [mbind option_bind]. pose proof (written_len _ _ _ _ W1) as L1. pose proof (written_bytes _ _ _ _ W1 Hb Bd1) as B1.
    destruct (rd_in_bounds q1 (l4 + 13)) as (f & Hf); [lia|]. pose proof (rd_byte _ _ _ B1 Hf) as Rf. rewrite Hf. cbn [mbind option_bind].
    set (fl := segment_flags (it_idx it =? 0) last f). assert (Efl : (if negb (it_idx it =? 0) then clear_bits (if negb last then clear_bits f (TCP_FLAG_FIN + TCP_FLAG_PSH) else f) TCP_FLAG_CWR
      else if negb last then clear_bits f (TCP_FLAG_FIN + TCP_FLAG_PSH) else f) = fl) by (unfold fl, segment_flags; by destruct last, (it_idx it =? 0)). rewrite Efl.
    assert (Bfl : bytes_ok [fl]) by (apply Forall_cons_2; [by apply segment_flags_byte|apply Forall_nil_2]).
    destruct (wr_written q1 (l4 + 13) fl) as (q2 & Hq2 & W2); [lia|]. rewrite Hq2. cbn [mbind option_bind]. pose proof (written_len _ _ _ _ W2) as L2. pose proof (written_bytes _ _ _ _ W2 B1 Bfl) as B2.
    destruct (gso_l4_csum_spec it q2 16) as (q & d & Hq & W & Ld & Bd & Hck); [done|lia|by exists 8|fold l4; lia|done|fold l4; lia|done|]. fold l4 in W, Hck. change (blen [fl]) with 1 in *.
    exists q. assert (Hfo : rd out (l4 + 13) = Some f) by (rewrite <- Hf; symmetry; apply W1; lia). split_and!; [done|rewrite (written_len _ _ _ _ W); lia|by apply W| | | |done].
    + intros i Hi. rewrite (written_else _ _ _ _ W), (written_else _ _ _ _ W2), (written_else _ _ _ _ W1); [done|change (blen [fl]) with 1; lia..].
    + rewrite <- Hg1. apply get_be32_ext; [rewrite (written_len _ _ _ _ W); lia|]. intros i Hi. rewrite (written_else _ _ _ _ W), (written_else _ _ _ _ W2); [done|change (blen [fl]) with 1; lia..].
    + rewrite Hfo. cbn. rewrite (written_else _ _ _ _ W) by lia. pose proof (rd_rdn _ _ _ _ 0 (written_at _ _ _ _ W2) ltac:(change (blen [fl]) with 1; lia)) as Hr. rewrite Z.add_0_r in Hr. by rewrite Hr.
  - rewrite u16_small by lia. destruct (put_be16_spec out (l4 + 4) (blen out - l4)) as (q1 & d1 & Hq1 & W1 & Ld1 & Bd1 & Hg1); [lia..|].
    rewrite Hq1. cbn [mbind option_bind]. pose proof (written_len _ _ _ _ W1) as L1. pose proof (written_bytes _ _ _ _ W1 Hb Bd1) as B1.
    destruct (gso_l4_csum_spec it q1 6) as (q & d & Hq & W & Ld & Bd & Hck); [done|lia|by exists 3|fold l4; lia|done|fold l4; lia|done|]. fold l4 in W, Hck.
    exists q. pose proof (written_len _ _ _ _ W) as L2. split_and!; [done|lia|by apply W| | |done].
    + intros i Hi. rewrite (written_else _ _ _ _ W), (written_else _ _ _ _ W1) by lia. done.
    + replace (blen q - l4) with (blen out - l4) by lia. rewrite <- Hg1. apply get_be16_ext; rewrite (written_else _ _ _ _ W) by lia; done.
Qed.

(** One call of [mqvpn_gso_next]. *)
Lemma gso_next_spec it k cap : iter_wf it -> 0 <= k < segment_count it -> it_hdr_len it + it_gso_size it <= cap ->
  exists s, mqvpn_gso_next le (iter_at it k) cap = Some (GsoSeg s, if k =? segment_count it - 1 then iter_done it else iter_at it (k + 1)) /\ segment_ok it k s.
Proof.
  intros W Hk Hcap. destruct (segment_count_spec it k W Hk) as (Hlen & Hk16 & Hlast). pose proof (wf_hdr _ W) as Hhdr. pose proof (wf_ip _ W) as Hip. pose proof (wf_gso _ W) as Hg. pose proof (wf_bytes _ W) as Hb.
  assert (Hbyte : is_byte (it_proto it)) by (destruct (wf_proto _ W) as [-> | ->]; unfold is_byte, MQVPN_IPPROTO_TCP, MQVPN_IPPROTO_UDP; lia).
  set (len := segment_len it k) in *. set (off := k * it_gso_size it) in *. set (it' := iter_at it k).
  assert (Eseg : (if it_gso_size it <? it_payload it - off then it_gso_size it else it_payload it - off) = len) by (unfold len, segment_len; fold off; destruct (Z.ltb_spec (it_gso_size it) (it_payload it - off)); lia).
  assert (Elast : (it_payload it <=? off + len) = (k =? segment_count it - 1)) by (destruct (Z.eqb_spec k (segment_count it - 1)); [apply Z.leb_le; lia|apply Z.leb_gt; lia]).
  assert (Hpl : blen (it_pkt it) = it_hdr_len it + it_payload it /\ 20 <= it_ip_hlen it) by (unfold it_payload; destruct (it_v6 it); lia). destruct Hpl as [Hpl Hl4].
  assert (Hh : 0 <= it_hdr_len it) by (destruct (it_proto it =? MQVPN_IPPROTO_TCP); lia). assert (Hoff : 0 <= off /\ off + len <= it_payload it) by (destruct (Z.eqb_spec k (segment_count it - 1)); nia).
  destruct (rdn_in_bounds (it_pkt it) 0 (it_hdr_len it)) as (hdr & Ehdr); [lia..|]. destruct (rdn_in_bounds (it_pkt it) (it_hdr_len it + off) len) as (data & Edata); [lia..|].
  pose proof (rdn_spec _ _ _ _ Ehdr) as (Lh & _). pose proof (rdn_spec _ _ _ _ Edata) as (Ld & Edata' & _).
  assert (Bout : bytes_ok (hdr ++ data)) by (apply Forall_app; split; eapply rdn_bytes; eauto).
  assert (Lout : blen (hdr ++ data) = it_hdr_len it + len) by (unfold blen in *; rewrite length_app; lia).
  destruct (gso_ip_header_spec it' (hdr ++ data) Bout) as (o1 & E1 & L1 & B1 & F1 & I1); [change (it_ip_hlen it') with (it_ip_hlen it); destruct (it_proto it =? MQVPN_IPPROTO_TCP); lia|
    change (it_ip_hlen it') with (it_ip_hlen it); change (it_v6 it') with (it_v6 it); destruct (it_v6 it); lia|].
  destruct (gso_l4_header_spec it' (k =? segment_count it - 1) o1 B1) as (o2 & E2 & L2 & B2 & F2 & I2 & C2);
    change (it_ip_hlen it') with (it_ip_hlen it) in *; change (it_v6 it') with (it_v6 it) in *; change (it_proto it') with (it_proto it) in *; [lia|destruct (it_v6 it); lia|destruct (it_v6 it); lia|done|].
  change (ip_id0 it') with (ip_id0 it) in *. change (it_idx it') with k in *. change (seq0 it') with (seq0 it) in *. change (it_off it') with off in *.
  assert (Hl4c : forall i, i < it_ip_hlen it -> ~ l4_changed (it_proto it) (it_ip_hlen it) i) by (intros i Hi; unfold l4_changed; destruct (it_proto it =? MQVPN_IPPROTO_TCP); lia).
  assert (Hipc : forall i, it_ip_hlen it <= i -> ~ ip_changed (it_v6 it) i) by (intros i Hi; unfold ip_changed; destruct (it_v6 it); lia).
  assert (Hhd : forall i, 0 <= i < it_hdr_len it -> rd (hdr ++ data) i = rd (it_pkt it) i).
  { intros i Hi. pose proof (rd_rdn _ _ _ _ i Ehdr Hi) as Hr. rewrite Z.add_0_l in Hr. rewrite Hr. unfold rd. destruct (Z.ltb_spec i 0); [lia|]. rewrite lookup_app_l by (unfold blen in Lh; lia). done. }
  exists o2. split; [|split].
  - unfold mqvpn_gso_next. change (it_done it') with false. change (it_pkt it') with (it_pkt it). change (it_hdr_len it') with (it_hdr_len it). change (it_off it') with off. change (it_gso_size it') with (it_gso_size it).
    cbv iota zeta. fold (it_payload it). rewrite Eseg, Elast. rewrite (proj2 (Z.ltb_ge _ _)) by lia. rewrite Ehdr. cbn [mbind option_bind]. rewrite Edata. cbn [mbind option_bind]. rewrite E1. cbn [mbind option_bind]. rewrite E2. cbn [mbind option_bind].
    do 2 f_equal. unfold it', iter_done, iter_at. destruct (Z.eqb_spec k (segment_count it - 1)) as [Ek|Ek]; cbn [update it_pkt it_hdr_len it_off it_ip_hlen it_gso_size ip_id0 it_idx seq0 it_proto it_v6 it_done].
    + rewrite u32_small by lia. f_equal; lia.
    + rewrite u32_small by lia. f_equal; lia.
  - done.
  - by rewrite L2, L1, Lout.
  - fold len off. rewrite <- Edata'. apply list_eq. intros j. rewrite lookup_drop. assert (Hj : rd o2 (it_hdr_len it + Z.of_nat j) = data !! j).
    { assert (Hc : ~ l4_changed (it_proto it) (it_ip_hlen it) (it_hdr_len it + Z.of_nat j)) by (unfold l4_changed; destruct (it_proto it =? MQVPN_IPPROTO_TCP); lia).
      rewrite (F2 _ Hc), F1 by (apply Hipc; destruct (it_proto it =? MQVPN_IPPROTO_TCP); lia). unfold rd. rewrite (proj2 (Z.ltb_ge _ _)) by lia. rewrite lookup_app_r by (unfold blen in Lh; lia). f_equal. unfold blen in Lh. lia. }
    unfold rd in Hj. rewrite (proj2 (Z.ltb_ge _ _)) in Hj by lia. rewrite <- Hj. f_equal. lia.
  - rewrite L2, L1. unfold ip_fields in I1 |- *. destruct (it_v6 it); [rewrite <- I1; apply get_be16_ext; apply F2, Hl4c; lia|]. destruct I1 as (I1 & I3 & I4). split_and!.
    + rewrite <- I1. apply get_be16_ext; apply F2, Hl4c; lia.
    + rewrite <- I3. apply get_be16_ext; apply F2, Hl4c; lia.
    + assert (Er : rdn o2 0 (it_ip_hlen it) = rdn o1 0 (it_ip_hlen it)) by (apply rdn_ext; [done|]; intros i Hi; apply F2, Hl4c; lia).
      rewrite !rdn_eq in Er by (destruct (it_proto it =? MQVPN_IPPROTO_TCP); lia). injection Er as Er. rewrite !drop_0 in Er. by rewrite Er.
  - unfold l4_fields in I2 |- *. destruct (it_proto it =? MQVPN_IPPROTO_TCP) eqn:Ep; [|done]. destruct I2 as [I2 I3]. split.
    + rewrite I2. f_equal. unfold u32. rewrite Zplus_mod_idemp_r. done.
    + rewrite I3, F1 by (apply Hipc; lia). by rewrite Hhd by lia.
  - done.
  - intros i Hi Hc1 Hc2. rewrite F2, F1 by done. by apply Hhd.
Qed.

(** The loop of a caller: segments until the iterator is at its end; [None]
    also when the buffer is too small. *)
Fixpoint gso_segments (fuel : nat) (it : mqvpn_gso_iter_t) (cap : Z) : option (list (list Z)) :=
  match fuel with
  | O => None
  | S fuel =>
      r ← mqvpn_gso_next le it cap;
      match r with
      | (GsoSeg s, it) => l ← gso_segments fuel it cap; Some (s :: l)
      | (GsoEnd, _) => Some []
      | (GsoSmall, _) => None
      end
  end.

Lemma gso_segments_spec it cap m k : iter_wf it -> it_hdr_len it + it_gso_size it <= cap -> 0 <= k -> k + Z.of_nat (S m) = segment_count it ->
  exists segs, gso_segments (S (S m)) (iter_at it k) cap = Some segs /\ length segs = S m /\ (forall j s, segs !! j = Some s -> segment_ok it (k + Z.of_nat j) s).
Proof.
  intros W Hcap. revert k. induction m as [|m IH]; intros k Hk Hm; destruct (gso_next_spec it k cap W) as (s & Es & Hs); try (done || lia).
  - rewrite (proj2 (Z.eqb_eq _ _)) in Es by lia. exists [s]. cbn [gso_segments]. rewrite Es. cbn [mbind option_bind]. split_and!; [done|done|].
    intros [|j] s' Hj; [|done]. injection Hj as <-. by rewrite Z.add_0_r.
  - rewrite (proj2 (Z.eqb_neq _ _)) in Es by lia. destruct (IH (k + 1)) as (segs & El & Hl & Hsegs); [lia|lia|]. exists (s :: segs). remember (S (S m)) as n. cbn [gso_segments]. rewrite Es. cbn [mbind option_bind].
    rewrite El. cbn [mbind option_bind]. split_and!; [done|cbn; lia|].
    intros [|j] s' Hj; [injection Hj as <-; by rewrite Z.add_0_r|]. replace (k + Z.of_nat (S j)) with (k + 1 + Z.of_nat j) by lia. by apply Hsegs.
Qed.

(** The payloads of the segments, one after the other. *)
Lemma segments_payload it segs k : iter_wf it -> 0 <= k -> k + Z.of_nat (length segs) = segment_count it -> segs <> [] ->
  (forall j s, segs !! j = Some s -> segment_ok it (k + Z.of_nat j) s) ->
  concat (drop (Z.to_nat (it_hdr_len it)) <$> segs) = drop (Z.to_nat (it_hdr_len it + k * it_gso_size it)) (it_pkt it).
Proof.
  intros W. revert k. induction segs as [|s segs IH]; intros k Hk Hn Hne Hs; [done|]. clear Hne. pose proof (wf_gso _ W). cbn [length] in Hn.
  pose proof (Hs 0%nat s eq_refl) as S0. rewrite Z.add_0_r in S0. destruct (segment_count_spec it k W) as (Hlen & _ & Hlast); [lia|].
  assert (Hh : 0 <= it_hdr_len it) by (pose proof (wf_hdr _ W); pose proof (wf_ip _ W); destruct (it_v6 it), (it_proto it =? MQVPN_IPPROTO_TCP); lia). cbn [fmap list_fmap concat].
  rewrite (seg_data _ _ _ S0). destruct segs as [|s' segs].
  - cbn [length] in Hn. rewrite (proj2 (Z.eqb_eq _ _)) in Hlast by lia. cbn. rewrite app_nil_r. apply take_ge. rewrite length_drop. unfold it_payload, blen in Hlast. lia.
  - cbn [length] in Hn. rewrite (proj2 (Z.eqb_neq _ _)) in Hlast by lia. rewrite (IH (k + 1)); [|lia|cbn [length]; lia|done|].
    + destruct Hlast as [-> Hlast]. rewrite <- (take_drop (Z.to_nat (it_gso_size it)) (drop (Z.to_nat (it_hdr_len it + k * it_gso_size it)) (it_pkt it))) at 2. f_equal. rewrite drop_drop. f_equal. nia.
    + intros j x Hj. replace (k + 1 + Z.of_nat j) with (k + Z.of_nat (S j)) by lia. by apply Hs.
Qed.

(** What [mqvpn_gso_begin] reads. *)
Record begun (pkt : list Z) (vh : virtio_net_hdr) (it : mqvpn_gso_iter_t) : Prop := {
  begun_wf : iter_wf it;
  begun_pkt : it_pkt it = pkt;
  begun_start : it_off it = 0 /\ it_idx it = 0 /\ it_done it = false;
  begun_gso : it_gso_size it = vh_gso_size vh;
  begun_version : exists b0, rd pkt 0 = Some b0 /\ Z.shiftr b0 4 = (if it_v6 it then 6 else 4) /\ (it_v6 it = false -> it_ip_hlen it = Z.land b0 15 * 4);
  begun_id : it_v6 it = false -> get_be16 pkt 4 = Some (ip_id0 it);
  begun_l4 : if it_proto it =? MQVPN_IPPROTO_TCP
             then get_be32 pkt (it_ip_hlen it + 4) = Some (seq0 it) /\ exists b, rd pkt (it_ip_hlen it + 12) = Some b /\ it_hdr_len it = it_ip_hlen it + Z.shiftr b 4 * 4
             else it_hdr_len it = it_ip_hlen it + 8
}.

Lemma nibble_bound b : is_byte b -> 0 <= Z.land b 15 <= 15 /\ 0 <= Z.shiftr b 4 <= 15.
Proof.
  intros Hb. unfold is_byte in Hb. pose proof (land_ones_mod b 4 ltac:(lia)) as E. change (2 ^ 4 - 1) with 15 in E. rewrite E, Z.shiftr_div_pow2 by lia. pose proof (Z.mod_pos_bound b (2 ^ 4) ltac:(lia)).
  assert (0 <= b / 2 ^ 4 < 16) by (split; [apply Z.div_pos; lia|apply Z.div_lt_upper_bound; lia]). lia.
Qed.

Lemma gso_begin_spec pkt vh : bytes_ok pkt -> 0 <= vh_gso_size vh <= 65535 -> 0 <= csum_start vh <= 65535 ->
  exists r, mqvpn_gso_begin pkt vh = Some r /\ forall it, r = Some it -> begun pkt vh it.
Proof.
  intros Hb Hg Hc. unfold mqvpn_gso_begin, IPV4_MIN_HLEN. set (type := clear_bits _ _).
  assert (Hnone : forall (m : option (option mqvpn_gso_iter_t)), m = Some None -> exists r, m = Some r /\ forall it, r = Some it -> begun pkt vh it) by (intros m ->; by eexists).
  destruct (_ || _) eqn:Eg; [by apply Hnone|]. bool_to_prop. destruct (rd_in_bounds pkt 0) as (b0 & E0); [lia|]. rewrite E0. cbn [mbind option_bind].
  pose proof (nibble_bound b0 (rd_byte _ _ _ Hb E0)) as [Nb0 _].
  destruct (gso_kind type b0) as [[v6 proto]|] eqn:Ek; [|by apply Hnone]. destruct (negb _) eqn:Ev; [by apply Hnone|]. bool_to_prop.
  destruct (gso_ip_hlen pkt b0 v6 vh) as [ip_hlen|] eqn:Ei; [|by apply Hnone].
  assert (Hproto : proto = MQVPN_IPPROTO_TCP \/ proto = MQVPN_IPPROTO_UDP).
  { unfold gso_kind in Ek. repeat (destruct (_ =? _) in Ek; [injection Ek; intros; auto|]). done. }
  assert (Hip : (if v6 then 40 <= ip_hlen <= 65535 /\ 40 <= blen pkt /\ blen pkt - 40 <= 65535 else 20 <= ip_hlen <= 60 /\ blen pkt <= 65535) /\ (v6 = false -> ip_hlen = Z.land b0 15 * 4)).
  { unfold gso_ip_hlen, IPV6_HLEN, IPV4_MIN_HLEN in Ei. destruct v6; (destruct (_ || _) eqn:Eb in Ei; [done|]); bool_to_prop.
    - injection Ei as <-. split; [|done]. destruct (negb (needs_csum vh)); lia.
    - destruct (_ && _) in Ei; [done|]. injection Ei as <-. split; [lia|done]. }
  destruct Hip as [Hip Hihl]. assert (Hu : u16 ip_hlen = ip_hlen) by (apply u16_small; destruct v6; lia).
  assert (Hl4 : exists l4, gso_l4_hlen pkt ip_hlen proto vh = Some l4 /\ forall n, l4 = Some n ->
    if proto =? MQVPN_IPPROTO_TCP then 20 <= n /\ exists b, rd pkt (ip_hlen + 12) = Some b /\ n = Z.shiftr b 4 * 4 else n = 8).
  { unfold gso_l4_hlen, TCP_MIN_HLEN, UDP_HLEN. destruct (proto =? MQVPN_IPPROTO_TCP).
    - destruct (Z.ltb_spec (blen pkt) (ip_hlen + 20)); [by eexists|]. destruct (rd_in_bounds pkt (ip_hlen + 12)) as (b & E12); [destruct v6; lia|]. rewrite E12. cbn [mbind option_bind].
      destruct (Z.ltb_spec (Z.shiftr b 4 * 4) 20); [by eexists|]. destruct (_ && _); [by eexists|]. eexists. split; [done|]. intros n [= <-]. split; [done|by exists b].
    - destruct (_ && _); [by eexists|]. eexists. split; [done|]. by intros n [= <-]. }
  destruct Hl4 as (l4 & El4 & Hl4). rewrite El4. cbn [mbind option_bind]. destruct l4 as [n|]; [|by apply Hnone]. specialize (Hl4 n eq_refl).
  destruct (Z.ltb_spec (blen pkt) (ip_hlen + n)); [by apply Hnone|]. assert (Hl20 : 20 <= ip_hlen) by (destruct v6; lia).
  assert (Hn8 : (if proto =? MQVPN_IPPROTO_TCP then 20 else 8) <= n) by (destruct (proto =? MQVPN_IPPROTO_TCP); lia).
  assert (Hid : exists id, (if v6 then Some 0 else get_be16 pkt 4) = Some id /\ (v6 = false -> get_be16 pkt 4 = Some id)).
  { destruct v6; [by exists 0|]. unfold get_be16. destruct (rd_in_bounds pkt 4) as (x & ->); [lia|]. destruct (rd_in_bounds pkt (4 + 1)) as (y & ->); [lia|]. by eexists. }
  destruct Hid as (id & Eid & Hid). rewrite Eid. cbn [mbind option_bind].
  assert (Hseq : exists seq, (if proto =? MQVPN_IPPROTO_TCP then get_be32 pkt (ip_hlen + 4) else Some 0) = Some seq /\ ((proto =? MQVPN_IPPROTO_TCP) = true -> get_be32 pkt (ip_hlen + 4) = Some seq)).
  { destruct (proto =? MQVPN_IPPROTO_TCP); [|by exists 0]. unfold get_be32. destruct (rdn_in_bounds pkt (ip_hlen + 4) 4) as (x & ->); [lia..|]. by eexists. }
  destruct Hseq as (seq & Eseq & Hseq). rewrite Eseq. cbn [mbind option_bind]. eexists. split; [done|]. intros it [= <-]. rewrite Hu.
  split; cbn [it_pkt it_hdr_len it_off it_ip_hlen it_gso_size ip_id0 it_idx seq0 it_proto it_v6 it_done]; [|done|done|done|by exists b0|done|].
  - split; cbn [it_pkt it_hdr_len it_off it_ip_hlen it_gso_size ip_id0 it_idx seq0 it_proto it_v6 it_done]; [done|lia|done|destruct v6; lia|lia].
  - destruct (proto =? MQVPN_IPPROTO_TCP); [|lia]. split; [by apply Hseq|]. destruct Hl4 as [_ (b & Eb & ->)]. by exists b.
Qed.

End order.

(** ** Cutting a packet *)

(** C22: a super-packet that [mqvpn_gso_begin] accepts is cut into
    max(1, ceil(payload / gso_size)) segments, whatever the byte order of the
    host: with room for a header and [gso_size] bytes the loop over
    [mqvpn_gso_next] ends, no access leaves a buffer, the payloads of the
    segments put together are the payload of the super-packet, and every
    segment has its length, its identification or sequence number, FIN and PSH
    on the last only and CWR on the first only, a header that is otherwise the
    original one, and checksums that a receiver accepts. *)
Theorem gso_split le pkt vh cap : bytes_ok pkt -> 0 <= vh_gso_size vh <= 65535 -> 0 <= csum_start vh <= 65535 ->
  exists r, mqvpn_gso_begin pkt vh = Some r /\
  forall it, r = Some it -> begun pkt vh it /\
    (it_hdr_len it + it_gso_size it <= cap -> exists segs, gso_segments le (S (Z.to_nat (segment_count it))) it cap = Some segs /\
      Z.of_nat (length segs) = segment_count it /\
      concat (drop (Z.to_nat (it_hdr_len it)) <$> segs) = drop (Z.to_nat (it_hdr_len it)) pkt /\
      forall j s, segs !! j = Some s -> segment_ok it (Z.of_nat j) s).
Proof.
  intros Hb Hg Hc. destruct (gso_begin_spec pkt vh Hb Hg Hc) as (r & Er & Hr). exists r. split; [done|]. intros it ->. pose proof (Hr it eq_refl) as B. split; [done|].
  intros Hcap. pose proof (begun_wf _ _ _ B) as W. assert (Hn : exists m, Z.of_nat (S m) = segment_count it) by (exists (Z.to_nat (segment_count it - 1)); unfold segment_count; lia).
  destruct Hn as (m & Hm). destruct (gso_segments_spec le it cap m 0 W Hcap) as (segs & El & Hl & Hs); [lia|lia|]. rewrite iter_at_begun in El by (exact (begun_start _ _ _ B)).
  exists segs. replace (S (Z.to_nat (segment_count it))) with (S (S m)) by lia. split_and!; [done|lia| |].
  - rewrite (segments_payload it segs 0 W); [by rewrite Z.mul_0_l, Z.add_0_r, (begun_pkt _ _ _ B)|lia|lia|by destruct segs|done].
  - intros j s Hj. by apply (Hs j s).
Qed.

(** A TCP super-packet of seven bytes of payload, cut by three. *)
Definition sample_super : list Z :=
  [69; 0; 0; 47; 0; 9; 64; 0; 64; 6; 0; 0; 10; 0; 0; 1; 10; 0; 0; 2] ++
  [0; 80; 1; 187; 255; 255; 255; 254; 0; 0; 0; 5; 80; 153; 2; 0; 0; 0; 0; 0] ++ [1; 2; 3; 4; 5; 6; 7].

Definition sample_super_vh : virtio_net_hdr := VirtioHdr 1 1 40 3 20 16.

(** The same segments on both kinds of host. *)
Example sample_super_cut :
  (r ← mqvpn_gso_begin sample_super sample_super_vh; it ← r; gso_segments true 9 it 43) =
    Some [[69; 0; 0; 43; 0; 9; 64; 0; 64; 6; 38; 194; 10; 0; 0; 1; 10; 0; 0; 2; 0; 80; 1; 187; 255; 255; 255; 254; 0; 0; 0; 5; 80; 144; 2; 0; 147; 62; 0; 0; 1; 2; 3];
          [69; 0; 0; 43; 0; 10; 64; 0; 64; 6; 38; 193; 10; 0; 0; 1; 10; 0; 0; 2; 0; 80; 1; 187; 0; 0; 0; 1; 0; 0; 0; 5; 80; 16; 2; 0; 141; 185; 0; 0; 4; 5; 6];
          [69; 0; 0; 41; 0; 11; 64; 0; 64; 6; 38; 194; 10; 0; 0; 1; 10; 0; 0; 2; 0; 80; 1; 187; 0; 0; 0; 4; 0; 0; 0; 5; 80; 25; 2; 0; 144; 180; 0; 0; 7]] /\
  (r ← mqvpn_gso_begin sample_super sample_super_vh; it ← r; gso_segments false 9 it 43) =
  (r ← mqvpn_gso_begin sample_super sample_super_vh; it ← r; gso_segments true 9 it 43).
Proof. vm_compute. done. Qed.

Lemma gso_split_witness : exists it segs, mqvpn_gso_begin sample_super sample_super_vh = Some (Some it) /\ begun sample_super sample_super_vh it /\
  gso_segments false (S (Z.to_nat (segment_count it))) it 43 = Some segs /\ length segs = 3%nat /\ concat (drop 40 <$> segs) = [1; 2; 3; 4; 5; 6; 7] /\
  forall j s, segs !! j = Some s -> segment_ok it (Z.of_nat j) s.
Proof.
  destruct (gso_split false sample_super sample_super_vh 43) as (r & Er & H); [by apply bytes_okb_ok|cbn; lia|cbn; lia|]. vm_compute in Er. destruct r as [it|]; [|discriminate Er]. apply Some_inj in Er. apply Some_inj in Er.
  destruct (H it eq_refl) as [B Hs]. destruct Hs as (segs & E1 & E2 & E3 & E4); [by rewrite <- Er|]. exists it, segs. rewrite <- Er in E2, E3.
  split; [by rewrite <- Er|]. split_and!; [done|done|apply Nat2Z.inj, E2|exact E3|done].
Defined.
