(* ===== verification/GroEntry.v ===== *)
(** * What an entry of the merger holds

    The packets behind an entry of [mqvpn_gro_t], and that starting an entry,
    appending to it and replacing its acknowledgement keep the relation. *)

From Stdlib Require Import Setoid Morphisms.
From S2P Require Import Prelude Wire Icmp StateOpt TunFrame TunOffload OffloadCsum OffloadSplit.

(** ** Packets that may be merged *)

Definition ip_len (v6 : bool) : Z := if v6 then 40 else 20.

(** The addresses and the ports. *)
Definition flow_key (p : list Z) : option (bool * list Z * Z * list Z) :=
  b0 ← rd p 0;
  '(v6, addr, n, l4, pf) ← (if Z.shiftr b0 4 =? 4 then Some (false, 12, 8, Z.land b0 15 * 4, 9)
                            else if Z.shiftr b0 4 =? 6 then Some (true, 8, 32, 40, 6) else None);
  addrs ← rdn p addr n;
  proto ← rd p pf;
  ports ← rdn p l4 4;
  if (proto =? MQVPN_IPPROTO_TCP) || (proto =? MQVPN_IPPROTO_UDP) then Some (v6, addrs, proto, ports) else None.

(** What [gro_parse] found out about a packet. *)
Record parsed (p : list Z) (k : gro_pkt_t) : Prop := {
  pk_bytes : bytes_ok p;
  pk_len : blen p <= 65535;
  pk_hlen : k_ip_hlen k = ip_len (k_v6 k);
  pk_proto : k_proto k = MQVPN_IPPROTO_TCP \/ k_proto k = MQVPN_IPPROTO_UDP;
  pk_size : blen p = k_ip_hlen k + k_l4_hlen k + k_payload k;
  pk_payload : 0 <= k_payload k;
  pk_layout : gro_parse_ip p = Some (Some (k_v6 k, k_proto k, k_ip_hlen k));
  pk_ip : if k_v6 k then (exists b0, rd p 0 = Some b0 /\ Z.shiftr b0 4 = 6) /\ get_be16 p 4 = Some (blen p - 40) /\ rd p 6 = Some (k_proto k)
          else rd p 0 = Some 69 /\ get_be16 p 2 = Some (blen p) /\ rd p 7 = Some 0 /\ rd p 9 = Some (k_proto k);
  pk_l4 : if k_proto k =? MQVPN_IPPROTO_TCP
          then 20 <= k_l4_hlen k <= 60 /\ rd p (k_ip_hlen k + 12) = Some (k_l4_hlen k * 4) /\ rd p (k_ip_hlen k + 13) = Some (k_flags k) /\
               get_be32 p (k_ip_hlen k + 4) = Some (k_seq k) /\ (k_flags k = 16 \/ k_flags k = 24 /\ 0 < k_payload k) /\ (4 | k_l4_hlen k)
          else k_l4_hlen k = 8 /\ 0 < k_payload k /\ k_flags k = 0 /\ get_be16 p (k_ip_hlen k + 4) = Some (blen p - k_ip_hlen k)
}.

(** A statement about bytes, checked on all of them. *)
Lemma byte_check (P : Z -> bool) : forallb P (seqZ 0 256) = true -> forall b, is_byte b -> P b = true.
Proof. intros H b Hb. rewrite forallb_forall in H. apply H, list_elem_of_In, elem_of_seqZ. unfold is_byte in Hb. lia. Qed.

Lemma flags_psh f : is_byte f -> clear_bits f TCP_FLAG_PSH = TCP_FLAG_ACK -> f = 16 \/ f = 24.
Proof.
  intros Hf E. pose proof (byte_check (fun f => negb (clear_bits f TCP_FLAG_PSH =? TCP_FLAG_ACK) || (f =? 16) || (f =? 24)) eq_refl f Hf) as H. cbv beta in H. rewrite E in H.
  cbn in H. apply orb_true_iff in H as [H|H]; apply Z.eqb_eq in H; auto.
Qed.

Lemma b12_value b : is_byte b -> Z.land b 15 = 0 -> b = Z.shiftr b 4 * 4 * 4.
Proof.
  intros Hb E. pose proof (byte_check (fun b => negb (Z.land b 15 =? 0) || (b =? Z.shiftr b 4 * 4 * 4)) eq_refl b Hb) as H. cbv beta in H. rewrite E in H. cbn in H. by apply Z.eqb_eq in H.
Qed.

Lemma get_be16_total p off : bytes_ok p -> 0 <= off -> off + 2 <= blen p -> exists v, get_be16 p off = Some v /\ 0 <= v <= 65535.
Proof.
  intros Hb Ho Hl. unfold get_be16. destruct (rd_in_bounds p off) as (x & Ex); [lia|]. destruct (rd_in_bounds p (off + 1)) as (y & Ey); [lia|]. rewrite Ex. cbn [mbind option_bind]. rewrite Ey. cbn [mbind option_bind].
  eexists. split; [done|]. pose proof (be16_range x y (rd_byte _ _ _ Hb Ex) (rd_byte _ _ _ Hb Ey)). lia.
Qed.

Lemma get_be32_total p off : 0 <= off -> off + 4 <= blen p -> exists v, get_be32 p off = Some v.
Proof. intros. unfold get_be32. destruct (rdn_in_bounds p off 4) as (x & ->); [lia..|]. by eexists. Qed.

Lemma get_be32_value p off v : bytes_ok p -> get_be32 p off = Some v -> exists a b c d, rdn p off 4 = Some [a; b; c; d] /\ is_byte a /\ is_byte b /\ is_byte c /\ is_byte d /\ v = ((a * 256 + b) * 256 + c) * 256 + d.
Proof.
  intros Hb. unfold get_be32. destruct (rdn p off 4) as [l|] eqn:E; [|done]. cbn [mbind option_bind]. intros [= <-]. pose proof (rdn_bytes _ _ _ _ Hb E) as Bl. pose proof (rdn_spec _ _ _ _ E) as (Ll & _).
  destruct (list_4 l Ll) as (a & b & c & d & ->). exists a, b, c, d. apply Forall_cons in Bl as [Ha [Hb' [Hc [Hd _]%Forall_cons]%Forall_cons]%Forall_cons]. split_and!; try done.
  unfold is_byte in *. rewrite be32_value by done. rewrite !be16_eq by lia. lia.
Qed.

Lemma get_be32_range p off v : bytes_ok p -> get_be32 p off = Some v -> 0 <= v < 2 ^ 32.
Proof. intros Hb (a & b & c & d & _ & Ha & Hb' & Hc & Hd & ->)%get_be32_value; [|done]. unfold is_byte in *. lia. Qed.

Lemma parse_ip_spec p : bytes_ok p -> 20 <= blen p -> exists r, gro_parse_ip p = Some r /\ forall v6 proto l4, r = Some (v6, proto, l4) -> l4 = ip_len v6 /\ l4 <= blen p /\
  (if v6 then (exists b0, rd p 0 = Some b0 /\ Z.shiftr b0 4 = 6) /\ get_be16 p 4 = Some (blen p - 40) /\ rd p 6 = Some proto
   else rd p 0 = Some 69 /\ get_be16 p 2 = Some (blen p) /\ rd p 7 = Some 0 /\ rd p 9 = Some proto).
Proof.
  intros Hb Hl. unfold gro_parse_ip, IPV4_MIN_HLEN, IPV6_HLEN. destruct (rd_in_bounds p 0) as (b0 & E0); [lia|]. rewrite E0. cbn [mbind option_bind].
  destruct (Z.eqb_spec (Z.shiftr b0 4) 4).
  - destruct (Z.eqb_spec b0 69) as [->|]; [|by eexists]. cbn [negb]. destruct (rd_in_bounds p 6) as (b6 & E6); [lia|]. destruct (rd_in_bounds p (6 + 1)) as (b7 & E7); [lia|].
    assert (Ef : get_be16 p 6 = Some (be16 b6 b7)) by (unfold get_be16; by rewrite E6, E7). rewrite Ef. cbn [mbind option_bind]. destruct (get_be16_total p 2 Hb) as (len & El & _); [lia|lia|]. rewrite El. cbn [mbind option_bind].
    destruct (_ || _) eqn:Eg; [by eexists|]. bool_to_prop. destruct (rd_in_bounds p 9) as (proto & E9); [lia|]. rewrite E9. cbn [mbind option_bind]. eexists. split; [done|]. intros v6 pr l4 [= <- <- <-]. cbn [ip_len].
    split_and!; [done|done|done|by f_equal| |done]. change (6 + 1) with 7 in E7. pose proof (rd_byte _ _ _ Hb E6) as R6. pose proof (rd_byte _ _ _ Hb E7) as R7.
    rewrite be16_eq in H by done. pose proof (land_ones_mod (b6 * 256 + b7) 14 ltac:(lia)) as Em. change (2 ^ 14 - 1) with 16383 in Em. rewrite Em in H. rewrite E7. f_equal. Z.to_euclidean_division_equations. lia.
  - destruct (Z.eqb_spec (Z.shiftr b0 4) 6); [|by eexists]. destruct (Z.ltb_spec (blen p) 40); [by eexists|]. destruct (get_be16_total p 4 Hb) as (len & El & _); [lia|lia|]. rewrite El. cbn [mbind option_bind].
    destruct (negb _) eqn:Eg; [by eexists|]. bool_to_prop. destruct (rd_in_bounds p 6) as (proto & E6); [lia|]. rewrite E6. cbn [mbind option_bind]. eexists. split; [done|]. intros v6 pr l4 [= <- <- <-]. cbn [ip_len].
    split_and!; [done|done|by exists b0|by f_equal|done].
Qed.

Lemma gro_parse_spec g p : bytes_ok p -> blen p <= 65535 -> exists r, gro_parse g p = Some r /\
  forall k, r = Some k -> parsed p k /\ (k_proto k = MQVPN_IPPROTO_UDP -> (if k_v6 k then udp6 g else udp4 g) = true).
Proof.
  intros Hb Hl. unfold gro_parse, IPV4_MIN_HLEN. destruct (Z.ltb_spec (blen p) 20); [by eexists|]. destruct (parse_ip_spec p Hb) as (r & Er & Hr); [done|]. rewrite Er. cbn [mbind option_bind].
  destruct r as [[[v6 proto] l4]|]; [|by eexists]. destruct (Hr v6 proto l4 eq_refl) as (-> & Hl4 & Hip). clear Hr. assert (H20 : 20 <= ip_len v6) by (unfold ip_len; destruct v6; lia).
  destruct (Z.eqb_spec proto MQVPN_IPPROTO_UDP) as [->|].
  - unfold gro_parse_udp, UDP_HLEN. destruct (_ || _) eqn:Eu; [by eexists|]. destruct (Z.ltb_spec (blen p) (ip_len v6 + 8)); [by eexists|].
    destruct (get_be16_total p (ip_len v6 + 4) Hb) as (len & El & _); [lia|lia|]. rewrite El. cbn [mbind option_bind]. destruct (Z.eqb_spec len (blen p - ip_len v6)) as [->|]; [|by eexists]. cbn [negb].
    destruct (rd_in_bounds p (ip_len v6 + 6)) as (c0 & ->); [lia|]. destruct (rd_in_bounds p (ip_len v6 + 7)) as (c1 & ->); [lia|]. cbn [mbind option_bind]. destruct (_ && _); [by eexists|].
    destruct (Z.ltb_spec 0 (blen p - ip_len v6 - 8)); [|by eexists]. eexists. split; [done|]. intros k [= <-]. cbn [k_v6]. split.
    + split; cbn [k_v6 k_proto k_ip_hlen k_l4_hlen k_payload k_seq k_flags]; auto; [lia|lia|]. cbn [Z.eqb MQVPN_IPPROTO_UDP MQVPN_IPPROTO_TCP Pos.eqb]. split_and!; [done|lia|done|done].
    + intros _. apply orb_false_iff in Eu as [Eu _]. by apply negb_false_iff in Eu.
  - destruct (Z.eqb_spec proto MQVPN_IPPROTO_TCP) as [->|]; [|by eexists]. unfold gro_parse_tcp, TCP_MIN_HLEN. destruct (Z.ltb_spec (blen p) (ip_len v6 + 20)); [by eexists|].
    destruct (rd_in_bounds p (ip_len v6 + 12)) as (b12 & E12); [lia|]. rewrite E12. cbn [mbind option_bind]. pose proof (rd_byte _ _ _ Hb E12) as R12. pose proof (nibble_bound b12 R12) as [_ N12].
    destruct (_ || _) eqn:Eo; [by eexists|]. bool_to_prop. destruct (Z.eqb_spec (Z.land b12 15) 0) as [E15|]; [|by eexists]. cbn [negb].
    destruct (rd_in_bounds p (ip_len v6 + 13)) as (f & E13); [lia|]. rewrite E13. cbn [mbind option_bind]. pose proof (rd_byte _ _ _ Hb E13) as R13.
    destruct (negb _) eqn:Ef; [by eexists|]. bool_to_prop. destruct (get_be32_total p (ip_len v6 + 4)) as (seq & Es); [lia|lia|]. rewrite Es. cbn [mbind option_bind]. eexists. split; [done|]. intros k [= <-]. split; [|done].
    split; cbn [k_v6 k_proto k_ip_hlen k_l4_hlen k_payload k_seq k_flags]; auto; [lia|lia|]. cbn [Z.eqb MQVPN_IPPROTO_TCP Pos.eqb]. split_and!; [lia|lia|rewrite E12; f_equal; by apply b12_value|done|done| |].
    + destruct (Z.eqb_spec (blen p - ip_len v6 - Z.shiftr b12 4 * 4) 0); [by left|]. destruct (flags_psh f R13 Ef) as [-> | ->]; [by left|right; lia].
    + apply Z.divide_factor_r.
Qed.

(** ** The packets of an entry *)

(** The header bytes in which the packets of a run may differ. *)
Definition varies (v6 : bool) (proto l4 i : Z) : Prop :=
  ip_changed v6 i \/ l4_changed proto l4 i \/ proto = MQVPN_IPPROTO_TCP /\ l4 + 18 <= i < l4 + 20.

Definition hdr_len (k : gro_pkt_t) : Z := k_ip_hlen k + k_l4_hlen k.

(** Packet [j] of a run whose first is [p0]. *)
Record member (buf p0 : list Z) (k0 : gro_pkt_t) (j : Z) (full : bool) (p : list Z) (k : gro_pkt_t) : Prop := {
  m_parsed : parsed p k;
  m_key : flow_key p = flow_key p0;
  m_v6 : k_v6 k = k_v6 k0;
  m_proto : k_proto k = k_proto k0;
  m_l4 : k_l4_hlen k = k_l4_hlen k0;
  m_header : forall i, 0 <= i < hdr_len k0 -> ~ varies (k_v6 k0) (k_proto k0) (k_ip_hlen k0) i -> rd p i = rd p0 i;
  m_payload : k_payload k <= k_payload k0;
  m_full : full = true -> k_payload k = k_payload k0 /\ k_flags k <> 24;
  m_data : rdn p (hdr_len k0) (k_payload k) = rdn buf (hdr_len k0 + j * k_payload k0) (k_payload k);
  m_seq : k_proto k = MQVPN_IPPROTO_TCP -> k_seq k = u32 (k_seq k0 + j * k_payload k0);
  m_id : k_proto k = MQVPN_IPPROTO_UDP -> k_v6 k = false -> exists id, get_be16 p0 4 = Some id /\ get_be16 p 4 = Some (u16 (id + j))
}.

(** Entry [e] holds the packets [ps], the first [p0]; [kl] is the last. *)
Record held (e : gro_entry_t) (ps : list (list Z)) (p0 : list Z) (k0 kl : gro_pkt_t) : Prop := {
  h_used : e_used e = true;
  h_v6 : e_v6 e = k_v6 k0;
  h_proto : e_proto e = k_proto k0;
  h_hlen : e_ip_hlen e = k_ip_hlen k0;
  h_l4 : e_l4_hlen e = k_l4_hlen k0;
  h_gso : e_gso_size e = k_payload k0;
  h_ack : ack_only e = (k_proto k0 =? MQVPN_IPPROTO_TCP) && (k_payload k0 =? 0);
  h_ack1 : ack_only e = true -> ps = [p0];
  h_count : nseg e = Z.of_nat (length ps);
  h_first : ps !! 0%nat = Some p0;
  h_parsed : parsed p0 k0;
  h_bytes : bytes_ok (e_buf e);
  h_size : blen (e_buf e) = hdr_len k0 + (nseg e - 1) * k_payload k0 + k_payload kl;
  h_max : blen (e_buf e) <= 65535;
  h_last : 0 <= k_payload kl <= k_payload k0;
  h_pos : 1 < nseg e -> 0 < k_payload kl;
  h_head : forall i, 0 <= i < hdr_len k0 -> i <> k_ip_hlen k0 + 13 -> rd (e_buf e) i = rd p0 i;
  h_flags : k_proto k0 = MQVPN_IPPROTO_TCP -> rd (e_buf e) (k_ip_hlen k0 + 13) = Some (k_flags kl);
  h_id : k_proto k0 = MQVPN_IPPROTO_UDP -> k_v6 k0 = false -> exists id, get_be16 p0 4 = Some id /\ next_id e = u16 (id + nseg e);
  h_seq : k_proto k0 = MQVPN_IPPROTO_TCP -> closed e = false -> e_next_seq e = u32 (k_seq k0 + nseg e * k_payload k0);
  h_open : closed e = false -> k_payload kl = k_payload k0 /\ k_flags kl <> 24;
  h_members : forall j p, ps !! j = Some p -> exists k, member (e_buf e) p0 k0 (Z.of_nat j) (negb (closed e) || (Z.of_nat j <? nseg e - 1)) p k /\ (S j = length ps -> k = kl)
}.

Lemma parsed_bounds p k : parsed p k -> 20 <= k_ip_hlen k <= 40 /\ 8 <= k_l4_hlen k <= 60 /\ 28 <= hdr_len k <= 100 /\ 0 <= k_payload k <= 65535.
Proof.
  intros P. pose proof (pk_hlen _ _ P) as H1. pose proof (pk_l4 _ _ P) as H2. pose proof (pk_size _ _ P). pose proof (pk_len _ _ P). pose proof (pk_payload _ _ P). unfold ip_len in H1. unfold hdr_len.
  destruct (k_v6 k), (k_proto k =? MQVPN_IPPROTO_TCP); lia.
Qed.

Lemma psh_bit p k : parsed p k -> negb (Z.land (k_flags k) TCP_FLAG_PSH =? 0) = (k_flags k =? 24).
Proof. intros P. pose proof (pk_l4 _ _ P) as H. destruct (k_proto k =? MQVPN_IPPROTO_TCP); [destruct H as (_ & _ & _ & _ & [-> | [-> _]] & _); done|]. destruct H as (_ & _ & -> & _). done. Qed.

Lemma tcp_flags p k : parsed p k -> k_proto k = MQVPN_IPPROTO_TCP -> rd p (k_ip_hlen k + 13) = Some (k_flags k).
Proof. intros P E. pose proof (pk_l4 _ _ P) as H. rewrite E, Z.eqb_refl in H. apply H. Qed.

(** A new run of one packet. *)
Lemma new_entry_held p k : parsed p k -> exists e, new_entry p k = Some e /\ held e [p] p k k.
Proof.
  intros P. destruct (parsed_bounds p k P) as (B1 & B2 & B3 & B4). pose proof (pk_size _ _ P) as Hs. pose proof (pk_len _ _ P) as Hl. unfold new_entry.
  assert (Hid : exists id, (if k_v6 k then Some 0 else v ← get_be16 p 4; Some (u16 (v + 1))) = Some id /\ (k_v6 k = false -> exists v, get_be16 p 4 = Some v /\ id = u16 (v + 1))).
  { destruct (k_v6 k); [by exists 0|]. destruct (get_be16_total p 4 (pk_bytes _ _ P)) as (v & -> & _); [lia|unfold hdr_len in *; lia|]. eexists. split; [done|]. by exists v. }
  destruct Hid as (id & -> & Hid). cbn [mbind option_bind]. unfold GRO_MAX_LEN. rewrite (proj2 (Z.ltb_ge _ _)) by lia. eexists. split; [done|]. rewrite (psh_bit p k P).
  split; cbn [e_used closed ack_only e_v6 e_proto e_ip_hlen e_l4_hlen e_gso_size next_id nseg e_next_seq e_buf length]; try done; try lia.
  - by rewrite u16_small by lia.
  - rewrite u16_small; [done|]. unfold hdr_len in *. lia.
  - by rewrite u16_small by lia.
  - apply (pk_bytes _ _ P).
  - unfold hdr_len. lia.
  - by apply tcp_flags.
  - intros _ _. rewrite (u32_small (k_payload k)) by lia. f_equal. lia.
  - intros [|j] q Hq; [|done]. injection Hq as <-. exists k. split; [|done]. split; try done; try lia.
    + intros Hf. split; [done|]. cbn in Hf. rewrite orb_false_r in Hf. apply negb_true_iff, Z.eqb_neq in Hf. done.
    + by rewrite Z.mul_0_l, Z.add_0_r.
    + intros Ep. pose proof (pk_l4 _ _ P) as H. rewrite Ep, Z.eqb_refl in H. destruct H as (_ & _ & _ & Hsq & _). rewrite Z.mul_0_l, Z.add_0_r. symmetry. apply u32_small.
      by apply (get_be32_range p (k_ip_hlen k + 4)); [apply (pk_bytes _ _ P)|].
    + intros _ Ev. destruct (Hid Ev) as (v & Ev4 & _). exists v. split; [done|]. rewrite Ev4. f_equal. rewrite Z.add_0_r, u16_small; [done|].
      destruct (get_be16_total p 4 (pk_bytes _ _ P)) as (v' & Ev' & Hr); [lia|unfold hdr_len in *; lia|]. rewrite Ev4 in Ev'. injection Ev' as ->. lia.
Qed.

(** ** Comparing with an entry *)

(** Ranges of buffers of different lengths. *)
Lemma rdn_agree p q i j n : 0 <= i -> 0 <= j -> 0 <= n -> i + n <= blen p -> j + n <= blen q -> rdn p i n = rdn q j n <-> forall x, 0 <= x < n -> rd p (i + x) = rd q (j + x).
Proof.
  intros Hi Hj Hn Hp Hq. destruct (rdn_in_bounds p i n) as (a & Ea); [lia..|]. destruct (rdn_in_bounds q j n) as (b & Eb); [lia..|]. rewrite Ea, Eb. split.
  - intros [= ->] x Hx. by rewrite (rd_rdn _ _ _ _ x Ea Hx), (rd_rdn _ _ _ _ x Eb Hx).
  - intros H. f_equal. pose proof (rdn_spec _ _ _ _ Ea) as (La & _). pose proof (rdn_spec _ _ _ _ Eb) as (Lb & _). apply list_eq. intros x. unfold blen in La, Lb. destruct (decide (x < length a)%nat) as [Hx|Hx].
    + specialize (H (Z.of_nat x) ltac:(lia)). rewrite (rd_rdn _ _ _ _ _ Ea), (rd_rdn _ _ _ _ _ Eb) in H by lia. unfold rd in H. rewrite (proj2 (Z.ltb_ge _ _)), Nat2Z.id in H by lia. done.
    + rewrite !lookup_ge_None_2 by lia. done.
Qed.

(** A test of the code that is in bounds and decides [P]. *)
Definition tests (t : option bool) (P : Prop) : Prop := exists b, t = Some b /\ (b = true <-> P).

Lemma tests_nil : tests (all_of []) True.
Proof. by exists true. Qed.

Lemma tests_cons t l P Q : tests t P -> tests (all_of l) Q -> tests (all_of (t :: l)) (P /\ Q).
Proof. intros (b & -> & Hb) (c & Hc & HQ). cbn [all_of mbind option_bind]. destruct b; [exists c; rewrite Hc; split; [done|]; intuition congruence|exists false; split; [done|]; intuition congruence]. Qed.

Lemma tests_iff t P Q : (P <-> Q) -> tests t P -> tests t Q.
Proof. intros H (b & E & Hb). exists b. split; [done|]. by rewrite Hb. Qed.

#[export] Instance tests_proper : Proper (eq ==> iff ==> iff) tests.
Proof. intros t ? <- P Q HPQ. split; apply tests_iff; intuition congruence. Qed.

Lemma mem_eq_tests a i b j n : 0 <= i -> 0 <= j -> 0 <= n -> i + n <= blen a -> j + n <= blen b -> tests (mem_eq a i b j n) (forall x, 0 <= x < n -> rd a (i + x) = rd b (j + x)).
Proof.
  intros Hi Hj Hn Ha Hb. rewrite <- rdn_agree by done. unfold mem_eq. destruct (rdn_in_bounds a i n) as (x & Ex); [lia..|]. destruct (rdn_in_bounds b j n) as (y & Ey); [lia..|]. rewrite Ex, Ey. cbn [mbind option_bind].
  eexists. split; [done|]. rewrite bool_decide_eq_true. split; [by intros ->|by intros [= ->]].
Qed.

(** The key of a packet that may be merged. *)
Lemma flow_key_parsed p k : parsed p k -> flow_key p = (addrs ← rdn p (if k_v6 k then 8 else 12) (if k_v6 k then 32 else 8); ports ← rdn p (k_ip_hlen k) 4; Some (k_v6 k, addrs, k_proto k, ports)).
Proof.
  intros P. pose proof (pk_ip _ _ P) as Hip. pose proof (pk_hlen _ _ P) as Hh. assert (Ep : (k_proto k =? MQVPN_IPPROTO_TCP) || (k_proto k =? MQVPN_IPPROTO_UDP) = true) by (destruct (pk_proto _ _ P) as [-> | ->]; done).
  unfold flow_key, ip_len in *. destruct (k_v6 k).
  - destruct Hip as ((b0 & E0 & E4) & _ & E6). rewrite E0. cbn [mbind option_bind]. rewrite E4, Hh. change (6 =? 4) with false. change (6 =? 6) with true. cbn [mbind option_bind]. rewrite E6. destruct (rdn p 8 32); [|done]. cbn [mbind option_bind].
    destruct (rdn p 40 4); [|done]. cbn [mbind option_bind]. by rewrite Ep.
  - destruct Hip as (E0 & _ & _ & E9). rewrite E0. cbn [mbind option_bind]. change (Z.shiftr 69 4 =? 4) with true. cbn [mbind option_bind]. rewrite E9, Hh. change (Z.land 69 15 * 4) with 20. destruct (rdn p 12 8); [|done]. cbn [mbind option_bind].
    destruct (rdn p 20 4); [|done]. cbn [mbind option_bind]. by rewrite Ep.
Qed.

Lemma flow_key_eq p k q k' : parsed p k -> parsed q k' -> flow_key p = flow_key q <-> k_v6 k = k_v6 k' /\ k_proto k = k_proto k' /\
  rdn p (if k_v6 k then 8 else 12) (if k_v6 k then 32 else 8) = rdn q (if k_v6 k then 8 else 12) (if k_v6 k then 32 else 8) /\ rdn p (k_ip_hlen k) 4 = rdn q (k_ip_hlen k) 4.
Proof.
  intros P Q. rewrite (flow_key_parsed p k P), (flow_key_parsed q k' Q). destruct (parsed_bounds _ _ P) as (B1 & B2 & B3 & B4). destruct (parsed_bounds _ _ Q) as (C1 & C2 & C3 & C4).
  pose proof (pk_size _ _ P). pose proof (pk_size _ _ Q). pose proof (pk_hlen _ _ P) as Hp. pose proof (pk_hlen _ _ Q) as Hq. unfold ip_len in *. unfold hdr_len in *.
  destruct (rdn_in_bounds p (if k_v6 k then 8 else 12) (if k_v6 k then 32 else 8)) as (a & Ea); [destruct (k_v6 k); lia..|]. destruct (rdn_in_bounds p (k_ip_hlen k) 4) as (b & Eb); [lia..|].
  destruct (rdn_in_bounds q (if k_v6 k' then 8 else 12) (if k_v6 k' then 32 else 8)) as (a' & Ea'); [destruct (k_v6 k'); lia..|]. destruct (rdn_in_bounds q (k_ip_hlen k') 4) as (b' & Eb'); [lia..|].
  rewrite Ea, Eb, Ea', Eb'. cbn [mbind option_bind]. split.
  - intros [= E1 E2 E3 E4]. rewrite E1 in *. rewrite Hp, <- Hq, Ea', Eb'. subst. done.
  - intros (E1 & E2 & E3 & E4). rewrite E1 in *. rewrite Ea' in E3. rewrite Hp, <- Hq, Eb' in E4. injection E3 as ->. injection E4 as ->. by rewrite E2.
Qed.

Section entry.
Context (e : gro_entry_t) (ps : list (list Z)) (p0 : list Z) (k0 kl : gro_pkt_t) (H : held e ps p0 k0 kl).

Lemma held_bounds : 20 <= k_ip_hlen k0 <= 40 /\ 8 <= k_l4_hlen k0 <= 60 /\ 28 <= hdr_len k0 <= 100 /\ 0 <= k_payload k0 <= 65535 /\ hdr_len k0 <= blen (e_buf e) /\ hdr_len k0 <= blen p0 /\ 1 <= nseg e.
Proof.
  destruct (parsed_bounds _ _ (h_parsed _ _ _ _ _ H)) as (B1 & B2 & B3 & B4). pose proof (h_size _ _ _ _ _ H) as Hs. pose proof (h_last _ _ _ _ _ H). pose proof (pk_size _ _ (h_parsed _ _ _ _ _ H)) as Hp.
  pose proof (h_first _ _ _ _ _ H) as Hf. apply lookup_lt_Some in Hf. pose proof (h_count _ _ _ _ _ H). unfold hdr_len in *. split_and!; try lia; nia.
Qed.

(** Bytes of the header of the buffer but the flags are the first packet's. *)
Lemma held_agree i n : 0 <= i -> 0 <= n -> i + n <= hdr_len k0 -> ~ (i <= k_ip_hlen k0 + 13 < i + n) -> rdn (e_buf e) i n = rdn p0 i n.
Proof.
  intros Hi Hn Hb Hd. destruct held_bounds as (_ & _ & _ & _ & Bb & Bp & _). apply rdn_agree; [lia..|]. intros x Hx. apply (h_head _ _ _ _ _ H); lia.
Qed.

Lemma same_flow_tests p k : parsed p k -> tests (gro_same_flow e p k) (flow_key p = flow_key p0).
Proof.
  intros P. pose proof (h_parsed _ _ _ _ _ H) as P0. destruct held_bounds as (B1 & B2 & B3 & B4 & B5 & B6 & _). destruct (parsed_bounds _ _ P) as (C1 & C2 & C3 & C4). pose proof (pk_size _ _ P) as Hs. pose proof (pk_hlen _ _ P) as Hp. pose proof (pk_hlen _ _ P0) as Hp0.
  eapply tests_iff; [symmetry; apply (flow_key_eq p k p0 k0 P P0)|]. unfold gro_same_flow. rewrite (h_v6 _ _ _ _ _ H), (h_proto _ _ _ _ _ H), (h_hlen _ _ _ _ _ H). unfold hdr_len in *.
  destruct (Bool.eqb (k_v6 k0) (k_v6 k)) eqn:Ev; cbn [negb orb]; [|exists false; split; [done|]; split; [done|]; intros (Hv & _); by rewrite Hv, eqb_reflx in Ev].
  apply eqb_prop in Ev. destruct (Z.eqb_spec (k_proto k0) (k_proto k)) as [Epr|]; cbn [negb]; [|exists false; split; [done|]; intuition congruence].
  assert (Hkh : k_ip_hlen k = k_ip_hlen k0) by (by rewrite Hp, Hp0, Ev). rewrite Hkh. rewrite <- Ev in *.
  assert (Ht : forall off n, 0 <= off -> 0 <= n -> off + n <= k_ip_hlen k0 + 8 -> tests (mem_eq (e_buf e) off p off n) (rdn p off n = rdn p0 off n)).
  { intros off n Ho Hn Hb. rewrite <- (held_agree off n) by (unfold hdr_len; lia). eapply tests_iff; [|apply mem_eq_tests; lia]. rewrite <- rdn_agree by lia. split; by intros ->. }
  destruct (k_v6 k0) eqn:Ev0; (eapply tests_iff; [|apply tests_cons; [apply Ht; unfold ip_len in *; lia|apply tests_cons; [apply Ht; lia|apply tests_nil]]]); rewrite <- Epr; tauto.
Qed.

(** The fields of the IP header, and of the TCP header, that the code compares. *)
Definition ip_same (p : list Z) : Prop :=
  if k_v6 k0 then (forall x, 0 <= x < 4 -> rd p x = rd p0 x) /\ rd p 7 = rd p0 7 else rd p 1 = rd p0 1 /\ rd p 6 = rd p0 6 /\ rd p 8 = rd p0 8.

Definition options_same (p : list Z) : Prop := forall x, 20 <= x < k_l4_hlen k0 -> rd p (k_ip_hlen k0 + x) = rd p0 (k_ip_hlen k0 + x).

Definition tcp_same (p : list Z) : Prop :=
  (forall x, 8 <= x < 12 \/ 14 <= x < 16 -> rd p (k_ip_hlen k0 + x) = rd p0 (k_ip_hlen k0 + x)) /\ options_same p.

Lemma mem_eq_head p i n : 0 <= i -> 0 <= n -> i + n <= hdr_len k0 -> i + n <= blen p -> ~ (i <= k_ip_hlen k0 + 13 < i + n) ->
  tests (mem_eq (e_buf e) i p i n) (forall x, 0 <= x < n -> rd p (i + x) = rd p0 (i + x)).
Proof.
  intros Hi Hn Hb Hp Hd. destruct held_bounds as (_ & _ & _ & _ & B5 & B6 & _). rewrite <- rdn_agree by lia. rewrite <- (held_agree i n) by done.
  eapply tests_iff; [|apply mem_eq_tests; lia]. rewrite <- rdn_agree by lia. split; by intros ->.
Qed.

Lemma byte_head p i : 0 <= i < hdr_len k0 -> i < blen p -> i <> k_ip_hlen k0 + 13 -> tests (same_byte (e_buf e) p i) (rd p i = rd p0 i).
Proof.
  intros Hi Hp Hd. eapply tests_iff; [|apply mem_eq_head; lia]. split; [intros Hx; specialize (Hx 0 ltac:(lia)); by rewrite Z.add_0_r in Hx|].
  intros Hx x Hr. by replace (i + x) with i by lia.
Qed.

Lemma ip_fields_tests p : 28 <= blen p -> tests (same_ip_fields e p (k_v6 k0)) (ip_same p).
Proof.
  intros Hp. destruct held_bounds as (B1 & B2 & B3 & _). unfold same_ip_fields, ip_same. destruct (k_v6 k0).
  - eapply tests_iff; [|apply tests_cons; [apply mem_eq_head; lia|apply tests_cons; [apply byte_head; lia|apply tests_nil]]]. cbn. tauto.
  - eapply tests_iff; [|apply tests_cons; [apply byte_head; lia|apply tests_cons; [apply byte_head; lia|apply tests_cons; [apply byte_head; lia|apply tests_nil]]]]. tauto.
Qed.

Lemma options_tests p k : parsed p k -> k_ip_hlen k = k_ip_hlen k0 -> k_l4_hlen k = k_l4_hlen k0 -> k_proto k = MQVPN_IPPROTO_TCP -> tests (same_options e p k) (options_same p).
Proof.
  intros P Ek El Ep. destruct held_bounds as (B1 & B2 & B3 & _). pose proof (pk_size _ _ P) as Hs. pose proof (pk_payload _ _ P). unfold same_options, options_same, TCP_MIN_HLEN. rewrite (h_hlen _ _ _ _ _ H), Ek, El.
  destruct (Z.ltb_spec 20 (k_l4_hlen k0)); [|exists true; split; [done|]; split; [|done]; intros _ x Hx; lia]. eapply tests_iff; [|apply mem_eq_head; unfold hdr_len in *; lia].
  split; intros Hx x Hr; [specialize (Hx (x - 20) ltac:(lia))|specialize (Hx (20 + x) ltac:(lia))]; [by replace (k_ip_hlen k0 + 20 + (x - 20)) with (k_ip_hlen k0 + x) in Hx by lia|by rewrite Z.add_assoc in Hx].
Qed.

(** A test that holds only when [P] does. *)
Definition passes (t : option bool) (P : Prop) : Prop := exists b, t = Some b /\ (b = true -> P).

Lemma tests_passes t P (Q : Prop) : tests t P -> (P -> Q) -> passes t Q.
Proof. intros (b & E & Hb) HPQ. exists b. split; [done|]. tauto. Qed.

Lemma passes_no (P : Prop) : passes (Some false) P.
Proof. by exists false. Qed.

Lemma can_append_passes p k : parsed p k -> k_v6 k = k_v6 k0 -> k_proto k = MQVPN_IPPROTO_TCP -> k_proto k0 = MQVPN_IPPROTO_TCP ->
  passes (gro_can_append e p k) (closed e = false /\ ack_only e = false /\ k_l4_hlen k = k_l4_hlen k0 /\ k_payload k <= k_payload k0 /\ k_seq k = e_next_seq e /\
    blen (e_buf e) + k_payload k <= 65535 /\ ip_same p /\ tcp_same p).
Proof.
  intros P Ev Ep Ep0. pose proof (pk_size _ _ P) as Hs. destruct (parsed_bounds _ _ P) as (C1 & C2 & C3 & C4). destruct held_bounds as (B1 & B2 & B3 & B4 & B5 & B6 & _). unfold gro_can_append, GRO_MAX_LEN.
  assert (Ek : k_ip_hlen k = k_ip_hlen k0) by (rewrite (pk_hlen _ _ P), (pk_hlen _ _ (h_parsed _ _ _ _ _ H)); by rewrite Ev).
  rewrite (h_l4 _ _ _ _ _ H), (h_gso _ _ _ _ _ H), (h_hlen _ _ _ _ _ H). destruct (closed e); [apply passes_no|]. destruct (ack_only e); [apply passes_no|]. cbn [orb].
  destruct (Z.eqb_spec (k_l4_hlen k) (k_l4_hlen k0)) as [El|]; [|apply passes_no]. cbn [negb]. destruct (Z.ltb_spec (k_payload k0) (k_payload k)); [apply passes_no|]. cbn [orb].
  destruct (Z.eqb_spec (k_seq k) (e_next_seq e)) as [Es|]; [|apply passes_no]. cbn [negb]. destruct (Z.ltb_spec 65535 (blen (e_buf e) + k_payload k)); [apply passes_no|].
  pose proof (pk_l4 _ _ (h_parsed _ _ _ _ _ H)) as HL. rewrite Ep0, Z.eqb_refl in HL. assert (Hfl : tests (same_flags e p k) (exists a b, rd (e_buf e) (k_ip_hlen k0 + 13) = Some a /\ rd p (k_ip_hlen k0 + 13) = Some b /\ clear_bits a TCP_FLAG_PSH = clear_bits b TCP_FLAG_PSH)).
  { unfold same_flags. rewrite (h_hlen _ _ _ _ _ H), Ek. unfold hdr_len in *. destruct (rd_in_bounds (e_buf e) (k_ip_hlen k0 + 13)) as (a & Ea); [lia|]. destruct (rd_in_bounds p (k_ip_hlen k0 + 13)) as (b & Eb); [lia|]. rewrite Ea, Eb. cbn [mbind option_bind].
    eexists. split; [done|]. rewrite Z.eqb_eq. split; [by exists a, b|]. intros (a' & b' & [= <-] & [= <-] & E). done. }
  rewrite Ek, Ev. unfold hdr_len in *. eapply tests_passes; [apply tests_cons; [apply ip_fields_tests; lia|apply tests_cons; [apply mem_eq_head; unfold hdr_len; lia|apply tests_cons; [exact Hfl|
    apply tests_cons; [apply mem_eq_head; unfold hdr_len; lia|apply tests_cons; [by apply options_tests|apply tests_nil]]]]]|].
  intros (T1 & T2 & _ & T4 & T5 & _). split_and!; try done. split; [|done]. intros x [Hx|Hx]; [specialize (T2 (x - 8) ltac:(lia))|specialize (T4 (x - 14) ltac:(lia))];
    [by replace (k_ip_hlen k0 + 8 + (x - 8)) with (k_ip_hlen k0 + x) in T2 by lia|by replace (k_ip_hlen k0 + 14 + (x - 14)) with (k_ip_hlen k0 + x) in T4 by lia].
Qed.

Lemma udp_can_append_passes p k : parsed p k -> k_v6 k = k_v6 k0 ->
  passes (gro_udp_can_append e p k) (closed e = false /\ k_payload k <= k_payload k0 /\ blen (e_buf e) + k_payload k <= 65535 /\ ip_same p /\ (k_v6 k = false -> get_be16 p 4 = Some (next_id e))).
Proof.
  intros P Ev. pose proof (pk_size _ _ P) as Hs. destruct (parsed_bounds _ _ P) as (C1 & C2 & C3 & C4). unfold gro_udp_can_append, GRO_MAX_LEN, hdr_len in *. rewrite (h_gso _ _ _ _ _ H). destruct (closed e); [apply passes_no|]. cbn [orb].
  destruct (Z.ltb_spec (k_payload k0) (k_payload k)); [apply passes_no|]. destruct (_ <=? nseg e); [apply passes_no|]. cbn [orb]. destruct (Z.ltb_spec 65535 (blen (e_buf e) + k_payload k)); [apply passes_no|].
  pose proof (ip_fields_tests p ltac:(lia)) as Ht. rewrite <- Ev in Ht. destruct (k_v6 k) eqn:Ev6.
  - eapply tests_passes; [exact Ht|]. intros T. by split_and!.
  - destruct (get_be16_total p 4 (pk_bytes _ _ P)) as (id & Eid & _); [lia|lia|]. eapply tests_passes; [apply tests_cons; [exact Ht|apply tests_cons; [|apply tests_nil]]|].
    + rewrite Eid. cbn [mbind option_bind]. eexists. split; [done|]. apply Z.eqb_eq.
    + intros (T1 & T2 & _). split_and!; try done. intros _. by rewrite Eid, T2.
Qed.

Lemma ack_supersedes_passes p k : parsed p k -> k_v6 k = k_v6 k0 -> k_proto k = MQVPN_IPPROTO_TCP -> k_proto k0 = MQVPN_IPPROTO_TCP ->
  passes (gro_ack_supersedes e p k) (k_l4_hlen k = k_l4_hlen k0 /\ ip_same p /\ get_be32 p (k_ip_hlen k0 + 4) = get_be32 p0 (k_ip_hlen k0 + 4) /\ options_same p /\
    exists a b, get_be32 p0 (k_ip_hlen k0 + 8) = Some a /\ get_be32 p (k_ip_hlen k0 + 8) = Some b /\ 0 < s32 (b - a)).
Proof.
  intros P Ev Ep Ep0. pose proof (pk_size _ _ P) as Hs. destruct (parsed_bounds _ _ P) as (C1 & C2 & C3 & C4). destruct held_bounds as (B1 & B2 & B3 & B4 & B5 & B6 & _). unfold gro_ack_supersedes.
  assert (Ek : k_ip_hlen k = k_ip_hlen k0) by (rewrite (pk_hlen _ _ P), (pk_hlen _ _ (h_parsed _ _ _ _ _ H)); by rewrite Ev).
  pose proof (pk_l4 _ _ (h_parsed _ _ _ _ _ H)) as HL. rewrite Ep0, Z.eqb_refl in HL. rewrite (h_l4 _ _ _ _ _ H), (h_hlen _ _ _ _ _ H). destruct (Z.eqb_spec (k_l4_hlen k) (k_l4_hlen k0)) as [El|]; [|apply passes_no]. cbn [negb].
  assert (Hs4 : forall off, 0 <= off -> off + 4 <= 12 -> rdn (e_buf e) (k_ip_hlen k0 + off) 4 = rdn p0 (k_ip_hlen k0 + off) 4) by (intros; apply held_agree; unfold hdr_len; lia).
  assert (Ha : tests (ack_ahead e p k) (exists a b, get_be32 p0 (k_ip_hlen k0 + 8) = Some a /\ get_be32 p (k_ip_hlen k0 + 8) = Some b /\ 0 < s32 (b - a))).
  { unfold ack_ahead. rewrite (h_hlen _ _ _ _ _ H), Ek. assert (Eg : get_be32 (e_buf e) (k_ip_hlen k0 + 8) = get_be32 p0 (k_ip_hlen k0 + 8)) by (unfold get_be32; by rewrite Hs4 by lia). rewrite Eg. unfold hdr_len in *. destruct (get_be32_total p0 (k_ip_hlen k0 + 8)) as (a & Ea); [lia|lia|]. destruct (get_be32_total p (k_ip_hlen k0 + 8)) as (b & Eb); [lia|lia|].
    rewrite Ea, Eb. cbn [mbind option_bind]. eexists. split; [done|]. rewrite Z.ltb_lt. split; [by exists a, b|]. by intros (a' & b' & [= <-] & [= <-] & E). }
  rewrite Ek, Ev. unfold hdr_len in *. eapply tests_passes; [apply tests_cons; [apply ip_fields_tests; lia|apply tests_cons; [apply mem_eq_head; unfold hdr_len; lia|apply tests_cons; [by apply options_tests|apply tests_cons; [exact Ha|apply tests_nil]]]]|].
  intros (T1 & T2 & T3 & T4 & _). split_and!; try done. unfold get_be32. f_equal. apply rdn_agree; [lia..|]. exact T2.
Qed.

End entry.
