(* ===== verification/GroSuper.v ===== *)
(** * Appending to an entry

    A packet that passes the tests of the code becomes the next one of the
    run, and an acknowledgement that supersedes the held one takes its place. *)

From Stdlib Require Import Setoid Morphisms.
From S2P Require Import Prelude Wire Icmp StateOpt TunFrame TunOffload OffloadCsum OffloadSplit GroEntry.

(** The header of a packet of the flow that passed the tests. *)
Lemma header_like p0 k0 p k : parsed p0 k0 -> parsed p k -> flow_key p = flow_key p0 -> k_l4_hlen k = k_l4_hlen k0 -> ip_same p0 k0 p ->
  (k_proto k0 = MQVPN_IPPROTO_TCP -> tcp_same p0 k0 p) ->
  forall i, 0 <= i < hdr_len k0 -> ~ varies (k_v6 k0) (k_proto k0) (k_ip_hlen k0) i -> rd p i = rd p0 i.
Proof.
  intros P0 P Hk El Hip Htcp i Hi Hv. apply (flow_key_eq p k p0 k0 P P0) in Hk as (Ev & Ep & Ea & Eports).
  pose proof (pk_hlen _ _ P) as Hh. pose proof (pk_hlen _ _ P0) as Hh0. pose proof (pk_size _ _ P) as Sp. pose proof (pk_size _ _ P0) as Sp0. pose proof (pk_payload _ _ P). pose proof (pk_payload _ _ P0).
  destruct (parsed_bounds _ _ P0) as (B1 & B2 & _ & _). assert (Ek : k_ip_hlen k = k_ip_hlen k0) by (by rewrite Hh, Hh0, Ev). rewrite Ek, Ev in *. unfold hdr_len, varies, ip_changed, ip_len in *.
  assert (Haddr : forall o n, rdn p o n = rdn p0 o n -> 0 <= o -> o + n <= k_ip_hlen k0 + 4 -> o <= i < o + n -> rd p i = rd p0 i).
  { intros o n E Ho Hn Hr. rewrite rdn_agree in E by lia. specialize (E (i - o) ltac:(lia)). by replace (o + (i - o)) with i in E by lia. }
  destruct (Z.lt_ge_cases i (k_ip_hlen k0)) as [Hlt|Hge].
  - pose proof (pk_ip _ _ P) as I. pose proof (pk_ip _ _ P0) as I0. rewrite Ev in I. unfold ip_same in Hip. destruct (k_v6 k0).
    + destruct I as (_ & _ & I6), I0 as (_ & _ & I6'), Hip as [H03 H7]. destruct (Z.lt_ge_cases i 8); [|apply (Haddr _ _ Ea); lia].
      assert (i < 4 \/ i = 6 \/ i = 7) as [?|[-> | ->]] by lia; [apply H03; lia|by rewrite I6, I6', Ep|done].
    + destruct I as (I0a & _ & I7 & I9), I0 as (I0b & _ & I7' & I9'), Hip as (H1 & H6 & H8). destruct (Z.lt_ge_cases i 12); [|apply (Haddr _ _ Ea); lia].
      assert (i = 0 \/ i = 1 \/ i = 6 \/ i = 7 \/ i = 8 \/ i = 9) as [-> |[-> |[-> |[-> |[-> | ->]]]]] by lia; [congruence|done|done|congruence|done|rewrite I9, I9'; congruence].
  - destruct (Z.lt_ge_cases i (k_ip_hlen k0 + 4)); [apply (Haddr _ _ Eports); lia|]. unfold l4_changed in Hv. pose proof (pk_l4 _ _ P) as L. pose proof (pk_l4 _ _ P0) as L0. rewrite Ep, Ek in L. rewrite El in L. rewrite (Z.eqb_sym) in Hv.
    destruct (Z.eqb_spec (k_proto k0) MQVPN_IPPROTO_TCP) as [Et|Et]; [|destruct (pk_proto _ _ P0) as [?|Eu]; [done|]; rewrite Eu in Hv; cbn in Hv; lia].
    rewrite Et in Hv. rewrite Z.eqb_refl in Hv. destruct (Htcp Et) as [Hw Ho]. destruct L as (_ & L12 & _), L0 as (_ & L12' & _).
    assert (i = k_ip_hlen k0 + 12 \/ i <> k_ip_hlen k0 + 12) as [-> |Hne] by lia; [congruence|]. replace i with (k_ip_hlen k0 + (i - k_ip_hlen k0)) by lia.
    destruct (Z.lt_ge_cases i (k_ip_hlen k0 + 20)); [apply Hw; lia|apply Ho; lia].
Qed.

Lemma last_snoc_index {A} (l : list A) (x : A) (j : nat) (y : A) : (l ++ [x]) !! j = Some y -> l !! j = Some y /\ (j < length l)%nat \/ y = x /\ j = length l.
Proof.
  intros H. destruct (decide (j < length l)%nat); [left; by rewrite lookup_app_l in H|right]. rewrite lookup_app_r in H by lia. destruct (j - length l)%nat as [|m] eqn:E; [|done]. injection H as <-. split; [done|lia].
Qed.

(** A packet that continues the run of [e]. *)
Record continues (e : gro_entry_t) (p0 : list Z) (k0 : gro_pkt_t) (p : list Z) (k : gro_pkt_t) : Prop := {
  c_parsed : parsed p k;
  c_key : flow_key p = flow_key p0;
  c_l4 : k_l4_hlen k = k_l4_hlen k0;
  c_open : closed e = false;
  c_ack : ack_only e = false;
  c_payload : 0 < k_payload k <= k_payload k0;
  c_room : blen (e_buf e) + k_payload k <= 65535;
  c_ip : ip_same p0 k0 p;
  c_tcp : k_proto k0 = MQVPN_IPPROTO_TCP -> tcp_same p0 k0 p /\ k_seq k = e_next_seq e;
  c_udp : k_proto k0 = MQVPN_IPPROTO_UDP -> k_v6 k0 = false -> get_be16 p 4 = Some (next_id e)
}.

(** [e'] is [e] with the payload of [p] at the end. *)
Record appended (e : gro_entry_t) (p : list Z) (k : gro_pkt_t) (e' : gro_entry_t) : Prop := {
  a_same : (e_used e', ack_only e', e_v6 e', e_proto e', e_ip_hlen e', e_l4_hlen e', e_gso_size e') = (e_used e, ack_only e, e_v6 e, e_proto e, e_ip_hlen e, e_l4_hlen e, e_gso_size e);
  a_count : nseg e' = nseg e + 1;
  a_closed : closed e' = (k_payload k <? e_gso_size e) || (k_flags k =? 24);
  a_bytes : bytes_ok (e_buf e');
  a_len : blen (e_buf e') = blen (e_buf e) + k_payload k;
  a_old : forall i, i < blen (e_buf e) -> ~ (e_proto e = MQVPN_IPPROTO_TCP /\ i = e_ip_hlen e + 13) -> rd (e_buf e') i = rd (e_buf e) i;
  a_new : rdn (e_buf e') (blen (e_buf e)) (k_payload k) = rdn p (k_ip_hlen k + k_l4_hlen k) (k_payload k);
  a_flags : e_proto e = MQVPN_IPPROTO_TCP -> rd (e_buf e') (e_ip_hlen e + 13) = Some (k_flags k);
  a_seq : e_proto e = MQVPN_IPPROTO_TCP -> e_next_seq e' = u32 (e_next_seq e + k_payload k);
  a_id : e_proto e = MQVPN_IPPROTO_UDP -> next_id e' = u16 (next_id e + 1)
}.

Lemma u16_add a b : u16 (u16 a + b) = u16 (a + b).
Proof. unfold u16. by rewrite Zplus_mod_idemp_l. Qed.

Lemma u32_add a b : u32 (u32 a + b) = u32 (a + b).
Proof. unfold u32. by rewrite Zplus_mod_idemp_l. Qed.

Section append.
Context (e : gro_entry_t) (ps : list (list Z)) (p0 : list Z) (k0 kl : gro_pkt_t) (H : held e ps p0 k0 kl).

Lemma appended_held p k e' : continues e p0 k0 p k -> appended e p k e' -> held e' (ps ++ [p]) p0 k0 k.
Proof.
  intros C A. pose proof (c_parsed _ _ _ _ _ C) as P. pose proof (h_parsed _ _ _ _ _ H) as P0. pose proof (a_same _ _ _ _ A) as S. injection S as Su Sa S6 Sp Sh Sl Sg.
  destruct (held_bounds _ _ _ _ _ H) as (B1 & B2 & B3 & B4 & B5 & B6 & B7). pose proof (h_open _ _ _ _ _ H (c_open _ _ _ _ _ C)) as [Ho1 Ho2]. pose proof (h_size _ _ _ _ _ H) as Hs. pose proof (c_payload _ _ _ _ _ C) as Cp.
  pose proof (h_count _ _ _ _ _ H) as Hn. pose proof (a_count _ _ _ _ A) as Hn'. pose proof (a_len _ _ _ _ A) as La. rewrite Ho1 in Hs.
  pose proof (proj1 (flow_key_eq p k p0 k0 P P0) (c_key _ _ _ _ _ C)) as (Ev & Ep & _). assert (Ek : k_ip_hlen k = k_ip_hlen k0) by (rewrite (pk_hlen _ _ P), (pk_hlen _ _ P0); by rewrite Ev).
  assert (Hold : forall i, 0 <= i < blen (e_buf e) -> i <> k_ip_hlen k0 + 13 -> rd (e_buf e') i = rd (e_buf e) i).
  { intros i Hi Hne. apply (a_old _ _ _ _ A); [lia|]. rewrite (h_hlen _ _ _ _ _ H). lia. }
  assert (Hne : forall i, hdr_len k0 <= i < blen (e_buf e) -> rd (e_buf e') i = rd (e_buf e) i).
  { intros i Hi. apply (a_old _ _ _ _ A); [lia|]. rewrite (h_hlen _ _ _ _ _ H), (h_proto _ _ _ _ _ H). intros [Et ->]. pose proof (pk_l4 _ _ P0) as L. rewrite Et, Z.eqb_refl in L. unfold hdr_len in *. lia. }
  split.
  - rewrite Su. apply (h_used _ _ _ _ _ H).
  - rewrite S6. apply (h_v6 _ _ _ _ _ H).
  - rewrite Sp. apply (h_proto _ _ _ _ _ H).
  - rewrite Sh. apply (h_hlen _ _ _ _ _ H).
  - rewrite Sl. apply (h_l4 _ _ _ _ _ H).
  - rewrite Sg. apply (h_gso _ _ _ _ _ H).
  - rewrite Sa. apply (h_ack _ _ _ _ _ H).
  - rewrite Sa, (c_ack _ _ _ _ _ C). done.
  - rewrite length_app. cbn [length]. lia.
  - rewrite lookup_app_l; [apply (h_first _ _ _ _ _ H)|]. lia.
  - done.
  - apply (a_bytes _ _ _ _ A).
  - rewrite La, Hs, Hn'. lia.
  - pose proof (c_room _ _ _ _ _ C). lia.
  - lia.
  - lia.
  - intros i Hi Hf. rewrite Hold by lia. by apply (h_head _ _ _ _ _ H).
  - intros Et. rewrite <- (h_hlen _ _ _ _ _ H). apply (a_flags _ _ _ _ A). by rewrite (h_proto _ _ _ _ _ H).
  - intros Eu E4. destruct (h_id _ _ _ _ _ H Eu E4) as (id & E & En). exists id. split; [done|]. rewrite (a_id _ _ _ _ A) by (by rewrite (h_proto _ _ _ _ _ H)). rewrite En, u16_add, Hn'. f_equal. lia.
  - intros Et Ec. rewrite (a_closed _ _ _ _ A), (h_gso _ _ _ _ _ H) in Ec. apply orb_false_iff in Ec as [Ec _]. apply Z.ltb_ge in Ec. rewrite (a_seq _ _ _ _ A) by (by rewrite (h_proto _ _ _ _ _ H)).
    rewrite (h_seq _ _ _ _ _ H Et (c_open _ _ _ _ _ C)), u32_add, Hn'. f_equal. lia.
  - intros Ec. rewrite (a_closed _ _ _ _ A), (h_gso _ _ _ _ _ H) in Ec. apply orb_false_iff in Ec as [Ec Ef]. apply Z.ltb_ge in Ec. apply Z.eqb_neq in Ef. lia.
  - intros j q Hq. apply last_snoc_index in Hq as [[Hq Hj]|[-> ->]].
    + destruct (h_members _ _ _ _ _ H j q Hq) as (kq & M & _). exists kq. split; [|rewrite length_app; cbn [length]; lia]. rewrite (c_open _ _ _ _ _ C) in M. cbn [negb orb] in M.
      destruct M as [M1 M1' M2 M3 M4 M5 M6 M7 M8 M9 M10]. split; try done; [intros _; by apply M7|]. rewrite M8. destruct (M7 eq_refl) as [Mp _]. apply rdn_agree; [nia|nia|lia|nia|nia|]. intros x Hx. symmetry. apply Hne. nia.
    + exists k. split; [|done]. split; try done; [by apply (c_key _ _ _ _ _ C)|by apply (c_l4 _ _ _ _ _ C)| |lia| | | |].
      * apply (header_like p0 k0 p k P0 P (c_key _ _ _ _ _ C) (c_l4 _ _ _ _ _ C) (c_ip _ _ _ _ _ C)). intros Et. by apply (c_tcp _ _ _ _ _ C).
      * intros Hf. apply orb_true_iff in Hf as [Hf|Hf]; [|lia]. apply negb_true_iff in Hf. rewrite (a_closed _ _ _ _ A), (h_gso _ _ _ _ _ H) in Hf. apply orb_false_iff in Hf as [Ec Ef]. apply Z.ltb_ge in Ec. apply Z.eqb_neq in Ef. lia.
      * pose proof (a_new _ _ _ _ A) as An. unfold hdr_len in *. rewrite <- Ek, <- (c_l4 _ _ _ _ _ C) at 1. rewrite <- An. f_equal. rewrite Hs. lia.
      * intros Et. rewrite Ep in Et. destruct (c_tcp _ _ _ _ _ C Et) as [_ ->]. rewrite (h_seq _ _ _ _ _ H Et (c_open _ _ _ _ _ C)), Hn. done.
      * intros Eu E4. rewrite Ep in Eu. rewrite Ev in E4. destruct (h_id _ _ _ _ _ H Eu E4) as (id & E & En). exists id. split; [done|]. rewrite (c_udp _ _ _ _ _ C Eu E4), En, Hn. done.
Qed.

Lemma last_parsed : exists pl, parsed pl kl /\ k_proto kl = k_proto k0 /\ last ps = Some pl.
Proof.
  pose proof (h_first _ _ _ _ _ H) as Hf. destruct (last ps) as [pl|] eqn:El; [|apply last_None in El; by rewrite El in Hf]. apply last_Some in El as (l & El).
  destruct (h_members _ _ _ _ _ H (length l) pl) as (k & M & Hk); [by rewrite El, list_lookup_middle|]. rewrite El, length_app in Hk. cbn [length] in Hk. rewrite <- (Hk ltac:(lia)). exists pl. split_and!; [apply M|apply M|done].
Qed.

Lemma nseg_small : 0 < k_payload k0 -> nseg e <= 65536.
Proof. intros Hp. pose proof (h_size _ _ _ _ _ H). pose proof (h_max _ _ _ _ _ H). destruct (held_bounds _ _ _ _ _ H) as (B1 & B2 & B3 & B4 & B5 & B6 & B7). pose proof (h_last _ _ _ _ _ H). nia. Qed.

Lemma rd_app_l a b i : i < blen a -> rd (a ++ b) i = rd a i.
Proof. intros Hi. unfold rd. destruct (Z.ltb_spec i 0); [done|]. apply lookup_app_l. unfold blen in Hi. lia. Qed.

Lemma append_udp_appended p k : continues e p0 k0 p k -> k_proto k0 = MQVPN_IPPROTO_UDP -> exists e', append_udp e p k = Some e' /\ appended e p k e'.
Proof.
  intros C Eu. pose proof (c_parsed _ _ _ _ _ C) as P. pose proof (pk_size _ _ P) as Sp. pose proof (c_payload _ _ _ _ _ C) as Cp. pose proof (nseg_small ltac:(lia)) as Hn. destruct (held_bounds _ _ _ _ _ H) as (B1 & B2 & B3 & B4 & B5 & B6 & B7).
  pose proof (pk_l4 _ _ P) as L. pose proof (proj1 (flow_key_eq p k p0 k0 P (h_parsed _ _ _ _ _ H)) (c_key _ _ _ _ _ C)) as (Ev & Ep & _). rewrite Ep, Eu in L. cbn [Z.eqb MQVPN_IPPROTO_UDP MQVPN_IPPROTO_TCP Pos.eqb] in L. destruct L as (L8 & _ & Lf & _).
  destruct (parsed_bounds _ _ P) as (C1 & C2 & C3 & C4). unfold append_udp, UDP_HLEN, GRO_MAX_LEN. destruct (rdn_in_bounds p (k_ip_hlen k + 8) (k_payload k)) as (data & Ed); [lia..|]. rewrite Ed. cbn [mbind option_bind].
  pose proof (rdn_spec _ _ _ _ Ed) as (Ld & _). pose proof (rdn_bytes _ _ _ _ (pk_bytes _ _ P) Ed) as Bd. pose proof (c_room _ _ _ _ _ C). rewrite Ld. rewrite (proj2 (Z.ltb_ge _ _)) by lia. eexists. split; [done|].
  assert (Et : e_proto e = MQVPN_IPPROTO_UDP) by (by rewrite (h_proto _ _ _ _ _ H)).
  destruct (Z.ltb_spec (k_payload k) (e_gso_size e)); (split; cbn [update e_used closed ack_only e_v6 e_proto e_ip_hlen e_l4_hlen e_gso_size next_id nseg e_next_seq e_buf]; try done;
    [apply u32_small; lia|rewrite ?(proj2 (Z.ltb_lt _ _)), ?(proj2 (Z.ltb_ge _ _)), ?Lf by lia; rewrite ?(c_open _ _ _ _ _ C); done|apply Forall_app; split; [apply (h_bytes _ _ _ _ _ H)|done]|unfold blen in *; rewrite length_app; lia|intros i Hi _; by apply rd_app_l|
     rewrite rdn_rest by (done || unfold blen in *; lia); by rewrite L8|by rewrite Et..]).
Qed.

Lemma append_tcp_appended p k : continues e p0 k0 p k -> k_proto k0 = MQVPN_IPPROTO_TCP -> exists e', append_tcp e p k = Some e' /\ appended e p k e'.
Proof.
  intros C Et. pose proof (c_parsed _ _ _ _ _ C) as P. pose proof (pk_size _ _ P) as Sp. pose proof (c_payload _ _ _ _ _ C) as Cp. pose proof (nseg_small ltac:(lia)) as Hn. destruct (held_bounds _ _ _ _ _ H) as (B1 & B2 & B3 & B4 & B5 & B6 & B7).
  pose proof (proj1 (flow_key_eq p k p0 k0 P (h_parsed _ _ _ _ _ H)) (c_key _ _ _ _ _ C)) as (Ev & Ep & _). pose proof (pk_l4 _ _ (h_parsed _ _ _ _ _ H)) as L0. rewrite Et, Z.eqb_refl in L0.
  pose proof (pk_l4 _ _ P) as L. rewrite Ep, Et, Z.eqb_refl in L. destruct L as (L20 & _ & _ & _ & Lf & _). destruct last_parsed as (pl & Pl & El & _). pose proof (pk_l4 _ _ Pl) as Ll. rewrite El, Et, Z.eqb_refl in Ll. destruct Ll as (_ & _ & _ & _ & Lfl & _).
  destruct (h_open _ _ _ _ _ H (c_open _ _ _ _ _ C)) as [_ Hno]. assert (Hfl : rd (e_buf e) (e_ip_hlen e + 13) = Some 16) by (rewrite (h_hlen _ _ _ _ _ H), (h_flags _ _ _ _ _ H Et); f_equal; lia).
  destruct (parsed_bounds _ _ P) as (C1 & C2 & C3 & C4). unfold append_tcp, GRO_MAX_LEN. destruct (rdn_in_bounds p (k_ip_hlen k + k_l4_hlen k) (k_payload k)) as (data & Ed); [lia..|]. rewrite Ed. cbn [mbind option_bind].
  pose proof (rdn_spec _ _ _ _ Ed) as (Ld & _). pose proof (rdn_bytes _ _ _ _ (pk_bytes _ _ P) Ed) as Bd. pose proof (c_room _ _ _ _ _ C). rewrite Ld. rewrite (proj2 (Z.ltb_ge _ _)) by lia. rewrite (psh_bit p k P). cbv zeta.
  assert (Etc : e_proto e = MQVPN_IPPROTO_TCP) by (by rewrite (h_proto _ _ _ _ _ H)). pose proof (h_hlen _ _ _ _ _ H) as Hh. unfold hdr_len in *.
  assert (Bb : bytes_ok (e_buf e ++ data)) by (apply Forall_app; split; [apply (h_bytes _ _ _ _ _ H)|done]). assert (Lb : blen (e_buf e ++ data) = blen (e_buf e) + k_payload k) by (unfold blen in *; rewrite length_app; lia).
  assert (Hr : rd (e_buf e ++ data) (e_ip_hlen e + 13) = Some 16) by (rewrite rd_app_l by lia; done). assert (Hnew : rdn (e_buf e ++ data) (blen (e_buf e)) (k_payload k) = Some data) by (apply rdn_rest; [done|lia]).
  destruct (Z.eqb_spec (k_flags k) 24) as [Ef|Ef].
  - cbn [update e_used closed ack_only e_v6 e_proto e_ip_hlen e_l4_hlen e_gso_size next_id nseg e_next_seq e_buf]. rewrite Hr. cbn [mbind option_bind]. destruct (wr_written (e_buf e ++ data) (e_ip_hlen e + 13) (Z.lor 16 TCP_FLAG_PSH)) as (b & Eb & W); [lia|]. rewrite Eb. cbn [mbind option_bind].
    rewrite orb_true_r. eexists. split; [done|]. change (Z.lor 16 TCP_FLAG_PSH) with 24 in *. pose proof (written_len _ _ _ _ W) as Lw. change (blen [24]) with 1 in *.
    split; cbn [update e_used closed ack_only e_v6 e_proto e_ip_hlen e_l4_hlen e_gso_size next_id nseg e_next_seq e_buf]; try done.
    + apply u32_small. lia.
    + rewrite Ef. by rewrite orb_true_r.
    + apply W; [done|]. apply Forall_cons_2; [unfold is_byte; lia|apply Forall_nil_2].
    + lia.
    + intros i Hi Hx. rewrite (written_else _ _ _ _ W) by (change (blen [24]) with 1; lia). by apply rd_app_l.
    + rewrite (rdn_written _ _ _ _ _ _ W) by (change (blen [24]) with 1; lia). by rewrite Hnew.
    + intros _. pose proof (written_at _ _ _ _ W) as Wa. pose proof (rd_rdn _ _ _ _ 0 Wa ltac:(change (blen [24]) with 1; lia)) as Hx. rewrite Z.add_0_r in Hx. rewrite Hx, Ef. done.
    + intros _. by rewrite (u32_small (k_payload k)) by lia.
    + rewrite Etc. done.
  - cbn [mbind option_bind]. rewrite orb_false_r. eexists. split; [done|].
    destruct (Z.ltb_spec (k_payload k) (e_gso_size e)); (split; cbn [update e_used closed ack_only e_v6 e_proto e_ip_hlen e_l4_hlen e_gso_size next_id nseg e_next_seq e_buf]; try done;
      [apply u32_small; lia|rewrite ?(proj2 (Z.ltb_lt _ _)), ?(proj2 (Z.ltb_ge _ _)), ?(proj2 (Z.eqb_neq _ _)) by lia; rewrite ?(c_open _ _ _ _ _ C); done|intros i Hi _; by apply rd_app_l|by rewrite Hnew|
       intros _; rewrite Hr; f_equal; lia|intros _; by rewrite (u32_small (k_payload k)) by lia|by rewrite Etc]).
Qed.

(** The held acknowledgement replaced. *)
Lemma replaced_held p k : ack_only e = true -> parsed p k -> k_v6 k = k_v6 k0 -> k_proto k = MQVPN_IPPROTO_TCP -> k_payload k = 0 -> k_l4_hlen k = k_l4_hlen k0 -> k_seq k = k_seq k0 ->
  held (e <| e_buf := p |>) [p] p k k.
Proof.
  intros Ha P Ev Ep E0 El Es. pose proof (h_ack _ _ _ _ _ H) as Hack. rewrite Ha in Hack. symmetry in Hack. apply andb_true_iff in Hack as [Et%Z.eqb_eq Eg%Z.eqb_eq]. pose proof (h_parsed _ _ _ _ _ H) as P0.
  pose proof (h_count _ _ _ _ _ H) as Hn. rewrite (h_ack1 _ _ _ _ _ H Ha) in Hn. cbn [length] in Hn. assert (Hlen : blen p = hdr_len k) by (rewrite (pk_size _ _ P); unfold hdr_len; lia). pose proof (pk_len _ _ P) as Hl.
  assert (Hf : k_flags k = 16) by (pose proof (pk_l4 _ _ P) as L; rewrite Ep, Z.eqb_refl in L; lia).
  split; cbn [update e_used closed ack_only e_v6 e_proto e_ip_hlen e_l4_hlen e_gso_size next_id nseg e_next_seq e_buf]; try done.
  - apply (h_used _ _ _ _ _ H).
  - by rewrite (h_v6 _ _ _ _ _ H).
  - by rewrite (h_proto _ _ _ _ _ H), Et.
  - by rewrite (h_hlen _ _ _ _ _ H), (pk_hlen _ _ P), (pk_hlen _ _ P0), Ev.
  - by rewrite (h_l4 _ _ _ _ _ H).
  - by rewrite (h_gso _ _ _ _ _ H), Eg.
  - by rewrite Ha, Ep, E0.
  - apply (pk_bytes _ _ P).
  - lia.
  - lia.
  - lia.
  - intros _. by apply tcp_flags.
  - by rewrite Ep.
  - intros _ Hc. rewrite (h_seq _ _ _ _ _ H Et Hc), Eg, E0, Es. done.
  - intros _. split; [done|lia].
  - intros [|j] q Hq; [|done]. injection Hq as <-. exists k. split; [|done]. split; try done; [lia|by rewrite Z.mul_0_l, Z.add_0_r| |].
    + intros _. rewrite Z.mul_0_l, Z.add_0_r. symmetry. apply u32_small. pose proof (pk_l4 _ _ P) as L. rewrite Ep, Z.eqb_refl in L. apply (get_be32_range p (k_ip_hlen k + 4)); [apply (pk_bytes _ _ P)|apply L].
    + by rewrite Ep.
Qed.

(** The buffer of a single packet. *)
Lemma single_buf : nseg e = 1 -> e_buf e = p0 /\ ps = [p0].
Proof.
  intros Hn. pose proof (h_count _ _ _ _ _ H) as Hc. pose proof (h_first _ _ _ _ _ H) as Hf. assert (Eps : ps = [p0]) by (destruct ps as [|a [|b l]]; [done|by injection Hf as ->|cbn in Hc; lia]). split; [|done].
  destruct (h_members _ _ _ _ _ H 0%nat p0 Hf) as (k & M & Hkl). rewrite (Hkl ltac:(by rewrite Eps)) in M. pose proof (m_parsed _ _ _ _ _ _ _ M) as P. pose proof (pk_size _ _ P) as Sp. pose proof (h_size _ _ _ _ _ H) as Hs. rewrite Hn in Hs.
  destruct (held_bounds _ _ _ _ _ H) as (B1 & B2 & B3 & B4 & B5 & B6 & B7). pose proof (h_last _ _ _ _ _ H).
  assert (Ek : k_ip_hlen kl = k_ip_hlen k0) by (rewrite (pk_hlen _ _ P), (pk_hlen _ _ (h_parsed _ _ _ _ _ H)); by rewrite (m_v6 _ _ _ _ _ _ _ M)). pose proof (m_l4 _ _ _ _ _ _ _ M) as El.
  assert (Hlen : blen (e_buf e) = blen p0) by (unfold hdr_len in *; lia). assert (Hrd : forall i, 0 <= i < blen p0 -> rd (e_buf e) i = rd p0 i).
  { intros i Hi. destruct (Z.lt_ge_cases i (hdr_len k0)) as [Hh|Hh].
    - destruct (Z.eq_dec i (k_ip_hlen k0 + 13)) as [-> |]; [|apply (h_head _ _ _ _ _ H); lia]. pose proof (m_proto _ _ _ _ _ _ _ M) as Ep. destruct (pk_proto _ _ (h_parsed _ _ _ _ _ H)) as [Et|Eu].
      + rewrite (h_flags _ _ _ _ _ H Et), <- Ek. symmetry. apply tcp_flags; [done|by rewrite Ep].
      + pose proof (pk_l4 _ _ (h_parsed _ _ _ _ _ H)) as L. rewrite Eu in L. cbn [Z.eqb Pos.eqb MQVPN_IPPROTO_TCP MQVPN_IPPROTO_UDP] in L. unfold hdr_len in *. lia.
    - pose proof (m_data _ _ _ _ _ _ _ M) as D. rewrite Z.mul_0_l, Z.add_0_r in D. unfold hdr_len in *. rewrite rdn_agree in D by lia. specialize (D (i - (k_ip_hlen k0 + k_l4_hlen k0)) ltac:(lia)). by replace (k_ip_hlen k0 + k_l4_hlen k0 + (i - (k_ip_hlen k0 + k_l4_hlen k0))) with i in D by lia. }
  apply list_eq. intros i. unfold blen in *. destruct (decide (i < length p0)%nat) as [Hi|Hi].
  - specialize (Hrd (Z.of_nat i) ltac:(lia)). unfold rd in Hrd. by rewrite (proj2 (Z.ltb_ge _ _)), Nat2Z.id in Hrd by lia.
  - rewrite !lookup_ge_None_2 by lia. done.
Qed.

Lemma held_key p : p ∈ ps -> flow_key p = flow_key p0.
Proof. intros (j & Hj)%list_elem_of_lookup. destruct (h_members _ _ _ _ _ H j p Hj) as (k & M & _). apply M. Qed.

End append.

(** * The super-packet of an entry

    The packet that a flush hands over for a run of several is cut again into
    the packets that were merged, but for the fields a segmentation chooses. *)

#[export] Instance ip_changed_dec v6 i : Decision (ip_changed v6 i).
Proof. unfold ip_changed. destruct v6; apply _. Defined.

#[export] Instance l4_changed_dec proto l4 i : Decision (l4_changed proto l4 i).
Proof. unfold l4_changed. destruct (proto =? MQVPN_IPPROTO_TCP); apply _. Defined.

#[export] Instance varies_dec v6 proto l4 i : Decision (varies v6 proto l4 i).
Proof. unfold varies. apply _. Defined.

(** The bytes that a merge may lose: the IPv4 identification of a TCP packet,
    the checksums and the urgent pointer of a packet without URG. *)
Definition volatile (v6 : bool) (proto l4 i : Z) : Prop :=
  v6 = false /\ (10 <= i < 12 \/ proto = MQVPN_IPPROTO_TCP /\ 4 <= i < 6) \/
  (if proto =? MQVPN_IPPROTO_TCP then l4 + 16 <= i < l4 + 20 else l4 + 6 <= i < l4 + 8).

(** [q] arrives for [p]: [p] itself, or [p] with other volatile bytes and
    checksums that a receiver accepts. *)
Definition same_packet (p q : list Z) : Prop :=
  p = q \/ exists v6 proto l4, gro_parse_ip p = Some (Some (v6, proto, l4)) /\ blen q = blen p /\ (forall i, ~ volatile v6 proto l4 i -> rd q i = rd p i) /\
    l4_csum_ok v6 proto l4 q /\ (v6 = false -> checksum_ok (take (Z.to_nat l4) q) = true).

Definition super_changed (v6 : bool) (proto l4 i : Z) : Prop :=
  (if v6 then 4 <= i < 6 else 2 <= i < 4 \/ 10 <= i < 12) \/ (if proto =? MQVPN_IPPROTO_UDP then l4 + 4 <= i < l4 + 8 else l4 + 16 <= i < l4 + 18).

Lemma get_be16_inj p q o v : bytes_ok p -> bytes_ok q -> get_be16 p o = Some v -> get_be16 q o = Some v -> rd q o = rd p o /\ rd q (o + 1) = rd p (o + 1).
Proof.
  unfold get_be16. intros Bp Bq. destruct (rd p o) as [a|] eqn:E1; [|done]. cbn [mbind option_bind]. destruct (rd p (o + 1)) as [b|] eqn:E2; [|done]. cbn [mbind option_bind].
  destruct (rd q o) as [c|] eqn:E3; [|done]. cbn [mbind option_bind]. destruct (rd q (o + 1)) as [d|] eqn:E4; [|done]. cbn [mbind option_bind]. intros [= <-] [= E].
  pose proof (rd_byte _ _ _ Bp E1). pose proof (rd_byte _ _ _ Bp E2). pose proof (rd_byte _ _ _ Bq E3). pose proof (rd_byte _ _ _ Bq E4). rewrite !be16_eq in E by lia. split; f_equal; lia.
Qed.

Lemma get_be32_inj p q o v : bytes_ok p -> bytes_ok q -> get_be32 p o = Some v -> get_be32 q o = Some v -> forall i, o <= i < o + 4 -> rd q i = rd p i.
Proof.
  intros Bp Bq (a & b & c & d & E1 & Ha & Hb & Hc & Hd & Ev)%get_be32_value (a' & b' & c' & d' & E2 & Ha' & Hb' & Hc' & Hd' & Ev')%get_be32_value i Hi; [|done..].
  unfold is_byte in *. assert (a = a' /\ b = b' /\ c = c' /\ d = d') as (<- & <- & <- & <-) by lia. replace i with (o + (i - o)) by lia. by rewrite (rd_rdn _ _ _ _ (i - o) E1), (rd_rdn _ _ _ _ (i - o) E2) by lia.
Qed.

Lemma native_bytes_ok le v : 0 <= v <= 65535 -> blen (native_bytes le v) = 2 /\ bytes_ok (native_bytes le v).
Proof. intros Hv. destruct (split16 v Hv) as (Hh & Hl & _). unfold native_bytes. destruct le; (split; [done|]); by apply Forall_cons_2, Forall_cons_2, Forall_nil_2. Qed.

Lemma gso_segments_mono le n m it cap l : (n <= m)%nat -> gso_segments le n it cap = Some l -> gso_segments le m it cap = Some l.
Proof.
  revert m it l. induction n as [|n IH]; intros m it l Hm E; [done|]. destruct m as [|m]; [lia|]. cbn [gso_segments] in *. destruct (mqvpn_gso_next le it cap) as [[r it']|]; [|done]. cbn [mbind option_bind] in *.
  destruct r as [| |s]; [done..|]. destruct (gso_segments le n it' cap) as [l'|] eqn:El; [|done]. cbn [mbind option_bind] in E. rewrite (IH m it' l') by (done || lia). done.
Qed.

Section super.
Context (le : bool) (e : gro_entry_t) (ps : list (list Z)) (p0 : list Z) (k0 kl : gro_pkt_t) (H : held e ps p0 k0 kl).

Lemma super_packet_spec : exists q, super_packet le e = Some q /\ blen q = blen (e_buf e) /\ bytes_ok q /\ forall i, ~ super_changed (k_v6 k0) (k_proto k0) (k_ip_hlen k0) i -> rd q i = rd (e_buf e) i.
Proof.
  destruct (held_bounds _ _ _ _ _ H) as (B1 & B2 & B3 & B4 & B5 & B6 & B7). pose proof (h_parsed _ _ _ _ _ H) as P0. pose proof (pk_hlen _ _ P0) as Hh. pose proof (h_max _ _ _ _ _ H) as Hm. pose proof (h_bytes _ _ _ _ _ H) as Bb. unfold hdr_len in *.
  unfold super_packet, super_changed. rewrite (h_v6 _ _ _ _ _ H), (h_proto _ _ _ _ _ H), (h_hlen _ _ _ _ _ H). cbv zeta. set (buf := e_buf e) in *.
  match goal with |- context [?X ≫= _] => assert (Hip : exists q1, X = Some q1 /\ blen q1 = blen buf /\ bytes_ok q1 /\ forall i, ~ (if k_v6 k0 then 4 <= i < 6 else 2 <= i < 4 \/ 10 <= i < 12) -> rd q1 i = rd buf i) end.
  { unfold ip_len, IPV6_HLEN in *. destruct (k_v6 k0).
    - rewrite u16_small by lia. destruct (put_be16_spec buf 4 (blen buf - 40)) as (q1 & d & E & W & Ld & Bd & _); [lia..|]. exists q1. split_and!; [done|apply W|by apply W|]. intros i Hi. apply W. lia.
    - rewrite u16_small by lia. destruct (put_be16_spec buf 2 (blen buf)) as (q1 & d & E & W & Ld & Bd & _); [lia..|]. rewrite E. cbn [mbind option_bind]. pose proof (written_len _ _ _ _ W) as L1. pose proof (written_bytes _ _ _ _ W Bb Bd) as Bq1.
      destruct (ip4_csum_spec le q1 (k_ip_hlen k0)) as (q2 & q3 & d' & h & E2 & Er & E3 & W3 & Ld' & Bd' & _); [done|lia|lia|]. rewrite E2. cbn [mbind option_bind]. rewrite Er. cbn [mbind option_bind].
      exists q3. split_and!; [done|rewrite (written_len _ _ _ _ W3); lia|by apply W3|]. intros i Hi. rewrite (written_else _ _ _ _ W3), (written_else _ _ _ _ W) by lia. done. }
  destruct Hip as (q1 & -> & L1 & Bq1 & F1). cbn [mbind option_bind].
  assert (Hl8 : k_ip_hlen k0 + (if k_proto k0 =? MQVPN_IPPROTO_UDP then 8 else 20) <= blen buf).
  { pose proof (pk_l4 _ _ P0) as L. destruct (pk_proto _ _ P0) as [Et|Eu]; rewrite ?Et, ?Eu in *; cbn [Z.eqb Pos.eqb MQVPN_IPPROTO_UDP MQVPN_IPPROTO_TCP] in *; lia. }
  match goal with |- context [?X ≫= _] => assert (Hudp : exists q2, X = Some q2 /\ blen q2 = blen buf /\ bytes_ok q2 /\ forall i, ~ ((k_proto k0 =? MQVPN_IPPROTO_UDP) = true /\ k_ip_hlen k0 + 4 <= i < k_ip_hlen k0 + 6) -> rd q2 i = rd q1 i) end.
  { destruct (k_proto k0 =? MQVPN_IPPROTO_UDP); [|by exists q1]. rewrite u16_small by lia. destruct (put_be16_spec q1 (k_ip_hlen k0 + 4) (blen buf - k_ip_hlen k0)) as (q2 & d & E & W & Ld & Bd & _); [lia..|].
    exists q2. split_and!; [done|rewrite (written_len _ _ _ _ W); lia|by apply W|]. intros i Hi. apply W. lia. }
  destruct Hudp as (q2 & -> & L2 & Bq2 & F2). cbn [mbind option_bind].
  destruct (pseudo_header_ok le q2 (k_v6 k0) (k_proto k0) (blen buf - k_ip_hlen k0)) as (_ & _ & _ & acc & Hacc & _ & Ra); [done|unfold ip_len in *; destruct (k_v6 k0); lia|destruct (pk_proto _ _ P0) as [-> | ->]; unfold is_byte, MQVPN_IPPROTO_TCP, MQVPN_IPPROTO_UDP; lia|destruct (k_proto k0 =? MQVPN_IPPROTO_UDP); lia|].
  rewrite Hacc. cbn [mbind option_bind]. destruct (csum_fold_spec acc ltac:(lia)) as [_ Rf]. destruct (native_bytes_ok le (csum_fold acc) ltac:(lia)) as [Ln Bn].
  destruct (wrn_written q2 (k_ip_hlen k0 + (if k_proto k0 =? MQVPN_IPPROTO_UDP then 6 else 16)) (native_bytes le (csum_fold acc))) as (q & Eq & W); [destruct (k_proto k0 =? MQVPN_IPPROTO_UDP); lia..|].
  exists q. split_and!; [done|rewrite (written_len _ _ _ _ W); lia|by apply W|]. intros i Hi. rewrite (written_else _ _ _ _ W), F2, F1; [done|..]; destruct (k_proto k0 =? MQVPN_IPPROTO_UDP), (k_v6 k0); lia.
Qed.

(** The iterator over the super-packet. *)
Lemma super_begin q : 1 < nseg e -> blen q = blen (e_buf e) -> bytes_ok q -> (forall i, ~ super_changed (k_v6 k0) (k_proto k0) (k_ip_hlen k0) i -> rd q i = rd (e_buf e) i) ->
  exists it, mqvpn_gso_begin q (super_vh e) = Some (Some it) /\ begun q (super_vh e) it /\ it_v6 it = k_v6 k0 /\ it_proto it = k_proto k0 /\ it_ip_hlen it = k_ip_hlen k0 /\ it_hdr_len it = hdr_len k0 /\ it_gso_size it = k_payload k0 /\
    (k_v6 k0 = false -> get_be16 p0 4 = Some (ip_id0 it)) /\ (k_proto k0 = MQVPN_IPPROTO_TCP -> seq0 it = k_seq k0).
Proof.
  intros Hn Lq Bq F. destruct (held_bounds _ _ _ _ _ H) as (B1 & B2 & B3 & B4 & B5 & B6 & B7). pose proof (h_parsed _ _ _ _ _ H) as P0. pose proof (pk_hlen _ _ P0) as Hh. pose proof (h_max _ _ _ _ _ H) as Hm. pose proof (h_pos _ _ _ _ _ H Hn) as Hp.
  pose proof (h_last _ _ _ _ _ H) as Hl. pose proof (pk_l4 _ _ P0) as L. pose proof (pk_ip _ _ P0) as I. pose proof (h_hlen _ _ _ _ _ H) as Eh.
  assert (Hgso : vh_gso_size (super_vh e) = k_payload k0 /\ csum_start (super_vh e) = k_ip_hlen k0) by (unfold super_vh; cbn [vh_gso_size csum_start]; by rewrite (h_gso _ _ _ _ _ H), Eh). destruct Hgso as [Hgso Hcs].
  destruct (gso_begin_spec q (super_vh e) Bq) as (r & Er & Hr); [rewrite Hgso; lia|rewrite Hcs; lia|].
  assert (Hrd : forall i, 0 <= i < hdr_len k0 -> i <> k_ip_hlen k0 + 13 -> ~ super_changed (k_v6 k0) (k_proto k0) (k_ip_hlen k0) i -> rd q i = rd p0 i) by (intros i Hi Hne Hc; rewrite F by done; by apply (h_head _ _ _ _ _ H)).
  assert (H0 : rd q 0 = rd p0 0) by (apply Hrd; [lia|lia|]; unfold super_changed; destruct (k_v6 k0), (k_proto k0 =? MQVPN_IPPROTO_UDP); lia).
  assert (Hb0 : exists b0, rd q 0 = Some b0 /\ Z.shiftr b0 4 = (if k_v6 k0 then 6 else 4) /\ (k_v6 k0 = false -> b0 = 69)).
  { rewrite H0. destruct (k_v6 k0); [destruct I as ((b0 & E & E4) & _); by exists b0|]. destruct I as (E & _). by exists 69. }
  destruct Hb0 as (b0 & E0 & E4 & E69). assert (H12 : k_proto k0 = MQVPN_IPPROTO_TCP -> rd q (k_ip_hlen k0 + 12) = Some (k_l4_hlen k0 * 4)).
  { intros Et. rewrite Et, Z.eqb_refl in L. rewrite Hrd; [apply L|unfold hdr_len; lia|lia|]. unfold super_changed. rewrite Et. cbn [Z.eqb Pos.eqb MQVPN_IPPROTO_TCP MQVPN_IPPROTO_UDP]. destruct (k_v6 k0); lia. }
  assert (Hsome : exists it, mqvpn_gso_begin q (super_vh e) = Some (Some it) /\ it_v6 it = k_v6 k0 /\ it_proto it = k_proto k0 /\ it_ip_hlen it = k_ip_hlen k0 /\ it_hdr_len it = hdr_len k0).
  { unfold mqvpn_gso_begin. rewrite Hgso, E0. unfold IPV4_MIN_HLEN. rewrite (proj2 (Z.eqb_neq _ _)), (proj2 (Z.ltb_ge _ _)) by lia. cbn [orb mbind option_bind]. cbv zeta.
    assert (Ekind : gso_kind (clear_bits (gso_type (super_vh e)) VIRTIO_NET_HDR_GSO_ECN) b0 = Some (k_v6 k0, k_proto k0)).
    { unfold super_vh. cbn [gso_type]. rewrite (h_v6 _ _ _ _ _ H), (h_proto _ _ _ _ _ H). destruct (pk_proto _ _ P0) as [-> | ->]; cbn [Z.eqb Pos.eqb MQVPN_IPPROTO_TCP MQVPN_IPPROTO_UDP].
      - by destruct (k_v6 k0).
      - unfold gso_kind. rewrite E4. by destruct (k_v6 k0). }
    rewrite Ekind, E4, Z.eqb_refl. cbn [negb]. assert (Eip : gso_ip_hlen q b0 (k_v6 k0) (super_vh e) = Some (k_ip_hlen k0)).
    { unfold gso_ip_hlen, IPV6_HLEN, IPV4_MIN_HLEN. rewrite Hcs. change (needs_csum (super_vh e)) with true. cbn [negb andb]. unfold ip_len in Hh. destruct (k_v6 k0).
      - unfold hdr_len in *. rewrite Hh. rewrite (proj2 (Z.ltb_ge (blen q) _)), (proj2 (Z.ltb_ge 65535 _)) by lia. done.
      - rewrite (E69 eq_refl), Hh. change (Z.land 69 15 * 4) with 20. rewrite (proj2 (Z.ltb_ge 65535 _)) by lia. done. }
    rewrite Eip. assert (El4 : gso_l4_hlen q (k_ip_hlen k0) (k_proto k0) (super_vh e) = Some (Some (k_l4_hlen k0))).
    { unfold gso_l4_hlen, TCP_MIN_HLEN, UDP_HLEN. change (needs_csum (super_vh e)) with true. unfold super_vh. cbn [csum_offset andb]. rewrite (h_proto _ _ _ _ _ H). destruct (pk_proto _ _ P0) as [Et|Eu].
      - rewrite (H12 Et). rewrite Et, Z.eqb_refl in L |- *. cbn [Z.eqb Pos.eqb MQVPN_IPPROTO_TCP MQVPN_IPPROTO_UDP negb]. unfold hdr_len in *. rewrite (proj2 (Z.ltb_ge _ _)) by lia. cbn [mbind option_bind].
        destruct L as (L20 & _ & _ & _ & _ & [m Hm4]). rewrite Z.shiftr_div_pow2 by lia. assert (Ediv : k_l4_hlen k0 * 4 / 2 ^ 4 * 4 = k_l4_hlen k0) by (rewrite Hm4; replace (m * 4 * 4) with (m * 2 ^ 4) by lia; rewrite Z.div_mul by lia; lia).
        rewrite Ediv. by rewrite (proj2 (Z.ltb_ge _ _)) by lia.
      - rewrite Eu in L |- *. cbn [Z.eqb Pos.eqb MQVPN_IPPROTO_TCP MQVPN_IPPROTO_UDP negb] in L |- *. by destruct L as (-> & _). }
    rewrite El4. cbn [mbind option_bind]. unfold hdr_len in *. rewrite (proj2 (Z.ltb_ge _ _)) by lia.
    assert (Hid : exists id, (if k_v6 k0 then Some 0 else get_be16 q 4) = Some id) by (destruct (k_v6 k0); [by eexists|]; destruct (get_be16_total q 4 Bq) as (v & Ev & _); [lia|lia|]; by exists v).
    destruct Hid as (id & ->). cbn [mbind option_bind]. assert (Hsq : exists s, (if k_proto k0 =? MQVPN_IPPROTO_TCP then get_be32 q (k_ip_hlen k0 + 4) else Some 0) = Some s) by (destruct (k_proto k0 =? MQVPN_IPPROTO_TCP); [|by eexists]; apply get_be32_total; lia).
    destruct Hsq as (sq & ->). cbn [mbind option_bind]. eexists. split; [done|]. cbn [it_v6 it_proto it_ip_hlen it_hdr_len]. rewrite u16_small by lia. done. }
  destruct Hsome as (it & Eit & E6 & Epr & Ehl & Ehd). rewrite Eit in Er. injection Er as <-. pose proof (Hr it eq_refl) as Bg. exists it. split_and!; try done.
  - by rewrite (begun_gso _ _ _ Bg).
  - intros Ev. rewrite <- (begun_id _ _ _ Bg) by (by rewrite E6). apply get_be16_ext; symmetry; apply Hrd; try lia; unfold super_changed; rewrite Ev; destruct (k_proto k0 =? MQVPN_IPPROTO_UDP); lia.
  - intros Et. pose proof (begun_l4 _ _ _ Bg) as G. rewrite Epr, Et, Z.eqb_refl in G. destruct G as [G _]. rewrite Et, Z.eqb_refl in L. destruct L as (L20 & _ & _ & Ls & _). rewrite Ehl in G. apply Some_inj. rewrite <- G, <- Ls.
    unfold get_be32. f_equal. apply rdn_agree; [unfold hdr_len in *; lia..|]. intros x Hx. apply Hrd; [unfold hdr_len in *; lia|lia|]. unfold super_changed. rewrite Et. cbn [Z.eqb Pos.eqb MQVPN_IPPROTO_TCP MQVPN_IPPROTO_UDP]. destruct (k_v6 k0); lia.
Qed.

Context (q : list Z) (it : mqvpn_gso_iter_t) (Hmany : 1 < nseg e) (Lq : blen q = blen (e_buf e)) (Bq : bytes_ok q) (F : forall i, ~ super_changed (k_v6 k0) (k_proto k0) (k_ip_hlen k0) i -> rd q i = rd (e_buf e) i).
Context (Bg : begun q (super_vh e) it) (E6 : it_v6 it = k_v6 k0) (Epr : it_proto it = k_proto k0) (Ehl : it_ip_hlen it = k_ip_hlen k0) (Ehd : it_hdr_len it = hdr_len k0) (Egs : it_gso_size it = k_payload k0).
Context (Eid : k_v6 k0 = false -> get_be16 p0 4 = Some (ip_id0 it)) (Esq : k_proto k0 = MQVPN_IPPROTO_TCP -> seq0 it = k_seq k0).

Lemma super_count : segment_count it = nseg e.
Proof.
  pose proof (h_size _ _ _ _ _ H) as Hs. pose proof (h_last _ _ _ _ _ H) as Hl. pose proof (h_pos _ _ _ _ _ H Hmany) as Hp. unfold segment_count, it_payload. rewrite (begun_pkt _ _ _ Bg), Lq, Ehd, Egs, Hs.
  assert (Hdiv : (hdr_len k0 + (nseg e - 1) * k_payload k0 + k_payload kl - hdr_len k0 + k_payload k0 - 1) / k_payload k0 = nseg e); [|lia].
  symmetry. apply (Z.div_unique _ _ _ (k_payload kl - 1)); [lia|]. lia.
Qed.

Lemma super_len j p k : member (e_buf e) p0 k0 (Z.of_nat j) (negb (closed e) || (Z.of_nat j <? nseg e - 1)) p k -> ps !! j = Some p -> (S j = length ps -> k = kl) -> segment_len it (Z.of_nat j) = k_payload k.
Proof.
  intros M Hj Hkl. pose proof (h_size _ _ _ _ _ H) as Hs. pose proof (h_last _ _ _ _ _ H) as Hl. pose proof (h_count _ _ _ _ _ H) as Hc. apply lookup_lt_Some in Hj. unfold segment_len, it_payload. rewrite (begun_pkt _ _ _ Bg), Lq, Ehd, Egs, Hs.
  destruct (decide (S j = length ps)) as [El|Hne].
  - rewrite (Hkl El). replace (nseg e - 1) with (Z.of_nat j) by lia. lia.
  - rewrite (proj2 (Z.ltb_lt _ _)), orb_true_r in M by lia. destruct (m_full _ _ _ _ _ _ _ M eq_refl) as [-> _]. nia.
Qed.

(** Segment [j], which arrives for packet [j]. *)
Context (j : nat) (p s : list Z) (k : gro_pkt_t) (Hj : ps !! j = Some p) (S : segment_ok it (Z.of_nat j) s).
Context (M : member (e_buf e) p0 k0 (Z.of_nat j) (negb (closed e) || (Z.of_nat j <? nseg e - 1)) p k) (Hkl : Datatypes.S j = length ps -> k = kl).

Lemma segment_sizes : k_ip_hlen k = k_ip_hlen k0 /\ blen s = hdr_len k0 + k_payload k /\ blen s = blen p /\ 0 <= k_payload k /\ 28 <= hdr_len k0 /\ 20 <= k_ip_hlen k0 <= 40 /\ 8 <= k_l4_hlen k0.
Proof.
  pose proof (super_len j p k M Hj Hkl) as Hlen. pose proof (m_parsed _ _ _ _ _ _ _ M) as P. pose proof (h_parsed _ _ _ _ _ H) as P0. destruct (held_bounds _ _ _ _ _ H) as (B1 & B2 & B3 & _).
  assert (Ek : k_ip_hlen k = k_ip_hlen k0) by (rewrite (pk_hlen _ _ P), (pk_hlen _ _ P0); by rewrite (m_v6 _ _ _ _ _ _ _ M)).
  pose proof (pk_size _ _ P) as Sp. pose proof (pk_payload _ _ P). pose proof (seg_size _ _ _ S) as Ss. rewrite Ehd, Hlen in Ss. pose proof (m_l4 _ _ _ _ _ _ _ M). unfold hdr_len in *. split_and!; lia || done.
Qed.

Lemma segment_payload i : hdr_len k0 <= i -> rd s i = rd p i.
Proof.
  intros Hi. destruct segment_sizes as (Ek & Ls & Lsp & Hp & Hh & Hip & Hl4). destruct (Z.lt_ge_cases i (blen s)) as [Hlt|Hge]; cycle 1.
  { assert (Hnone : forall b, blen b <= i -> rd b i = None) by (intros b Hb; destruct (rd b i) eqn:E; [|done]; apply rd_lt in E; lia). rewrite !Hnone by lia. done. }
  pose proof (seg_data _ _ _ S) as D. pose proof (super_len j p k M Hj Hkl) as Hlen. rewrite Ehd, Hlen, Egs, (begun_pkt _ _ _ Bg) in D.
  pose proof (h_size _ _ _ _ _ H) as Hs. pose proof (h_count _ _ _ _ _ H) as Hc. pose proof (h_last _ _ _ _ _ H). pose proof (lookup_lt_Some _ _ _ Hj) as Hjn.
  assert (Hin : hdr_len k0 + Z.of_nat j * k_payload k0 + k_payload k <= blen (e_buf e)).
  { destruct (decide (Datatypes.S j = length ps)) as [El|Hne]; [rewrite (Hkl El); nia|]. pose proof (m_payload _ _ _ _ _ _ _ M). nia. }
  assert (Es : rdn s (hdr_len k0) (k_payload k) = rdn q (hdr_len k0 + Z.of_nat j * k_payload k0) (k_payload k)).
  { pose proof (h_last _ _ _ _ _ H). rewrite !rdn_eq by nia. f_equal. rewrite <- D. apply take_ge. rewrite length_drop. unfold blen in *. lia. }
  assert (Eb : rdn q (hdr_len k0 + Z.of_nat j * k_payload k0) (k_payload k) = rdn (e_buf e) (hdr_len k0 + Z.of_nat j * k_payload k0) (k_payload k)).
  { apply rdn_ext; [done|]. intros x Hx. apply F. pose proof (pk_l4 _ _ (h_parsed _ _ _ _ _ H)) as L. unfold super_changed, hdr_len in *. destruct (pk_proto _ _ (h_parsed _ _ _ _ _ H)) as [Et|Eu]; rewrite ?Et, ?Eu in *;
      cbn [Z.eqb Pos.eqb MQVPN_IPPROTO_TCP MQVPN_IPPROTO_UDP] in *; destruct (k_v6 k0); nia. }
  rewrite Eb, <- (m_data _ _ _ _ _ _ _ M) in Es. rewrite rdn_agree in Es by lia. specialize (Es (i - hdr_len k0) ltac:(lia)). by replace (hdr_len k0 + (i - hdr_len k0)) with i in Es by lia.
Qed.

(** A byte that nothing on the way changes. *)
Lemma segment_kept i : 0 <= i < hdr_len k0 -> ~ varies (k_v6 k0) (k_proto k0) (k_ip_hlen k0) i -> rd s i = rd p i.
Proof.
  intros Hi Hv. rewrite (seg_hdr _ _ _ S i), (begun_pkt _ _ _ Bg), F, (m_header _ _ _ _ _ _ _ M i), (h_head _ _ _ _ _ H i); rewrite ?E6, ?Epr, ?Ehl, ?Ehd; try done; unfold varies in Hv.
  - intros ->. pose proof (pk_l4 _ _ (h_parsed _ _ _ _ _ H)) as L. unfold l4_changed, hdr_len in *. destruct (k_proto k0 =? MQVPN_IPPROTO_TCP); lia.
  - unfold super_changed, l4_changed, ip_changed in *. destruct (pk_proto _ _ (h_parsed _ _ _ _ _ H)) as [Et|Eu]; rewrite ?Et, ?Eu in *; cbn [Z.eqb Pos.eqb MQVPN_IPPROTO_TCP MQVPN_IPPROTO_UDP] in *; destruct (k_v6 k0); lia.
  - tauto.
  - tauto.
Qed.

Lemma segment_ip i : 0 <= i -> ip_changed (k_v6 k0) i -> ~ volatile (k_v6 k0) (k_proto k0) (k_ip_hlen k0) i -> rd s i = rd p i.
Proof.
  intros Hi Hc Hv. destruct segment_sizes as (Ek & Ls & Lsp & Hp & Hh & Hip & Hl4). pose proof (m_parsed _ _ _ _ _ _ _ M) as P. pose proof (seg_ip _ _ _ S) as I. pose proof (pk_ip _ _ P) as Ip. unfold ip_fields in I. rewrite E6, Ehl in I. rewrite (m_v6 _ _ _ _ _ _ _ M) in Ip.
  pose proof (seg_bytes _ _ _ S) as Bs. pose proof (pk_bytes _ _ P) as Bp. unfold ip_changed, volatile in *. destruct (k_v6 k0) eqn:Ev.
  - destruct Ip as (_ & Ip & _). rewrite Lsp in I. destruct (get_be16_inj p s 4 _ Bp Bs Ip I). assert (i = 4 \/ i = 4 + 1) as [-> | ->] by lia; done.
  - destruct Ip as (_ & Ip & _), I as (I2 & I4 & _). rewrite Lsp in I2. destruct (get_be16_inj p s 2 _ Bp Bs Ip I2). assert (i = 2 \/ i = 2 + 1 \/ 4 <= i < 6) as [-> |[-> |Hi4]] by lia; [done..|].
    destruct (pk_proto _ _ (h_parsed _ _ _ _ _ H)) as [Et|Eu]; [exfalso; apply Hv; left; auto|]. destruct (m_id _ _ _ _ _ _ _ M) as (id & Eid0 & Eidp); [by rewrite (m_proto _ _ _ _ _ _ _ M)|by rewrite (m_v6 _ _ _ _ _ _ _ M)|].
    rewrite (Eid eq_refl) in Eid0. injection Eid0 as <-. destruct (get_be16_inj p s 4 _ Bp Bs Eidp I4). assert (i = 4 \/ i = 4 + 1) as [-> | ->] by lia; done.
Qed.

Lemma segment_l4 i : 0 <= i < hdr_len k0 -> l4_changed (k_proto k0) (k_ip_hlen k0) i -> ~ volatile (k_v6 k0) (k_proto k0) (k_ip_hlen k0) i -> rd s i = rd p i.
Proof.
  intros Hi Hc Hv. destruct segment_sizes as (Ek & Ls & Lsp & Hp & Hh & Hip & Hl4). pose proof (m_parsed _ _ _ _ _ _ _ M) as P. pose proof (seg_l4 _ _ _ S) as I. pose proof (pk_l4 _ _ P) as Ip. unfold l4_fields in I. rewrite Epr, Ehl in I. rewrite (m_proto _ _ _ _ _ _ _ M), Ek in Ip.
  pose proof (seg_bytes _ _ _ S) as Bs. pose proof (pk_bytes _ _ P) as Bp. unfold l4_changed, volatile in *. destruct (k_proto k0 =? MQVPN_IPPROTO_TCP) eqn:Et.
  - destruct Ip as (L20 & _ & Lf & Lsq & Lfl & _), I as [Is If]. apply Z.eqb_eq in Et. pose proof (m_seq _ _ _ _ _ _ _ M ltac:(by rewrite (m_proto _ _ _ _ _ _ _ M))) as Eks. rewrite (Esq Et), Egs, <- Eks in Is.
    assert (k_ip_hlen k0 + 4 <= i < k_ip_hlen k0 + 4 + 4 \/ i = k_ip_hlen k0 + 13) as [Hi4| ->] by lia; [by apply (get_be32_inj p s (k_ip_hlen k0 + 4) (k_seq k))|].
    rewrite If, Lf. rewrite (begun_pkt _ _ _ Bg), F; [|unfold super_changed; rewrite Et; cbn [Z.eqb Pos.eqb MQVPN_IPPROTO_TCP MQVPN_IPPROTO_UDP]; destruct (k_v6 k0); lia].
    rewrite (h_flags _ _ _ _ _ H Et). cbn [fmap option_fmap option_map]. f_equal. rewrite super_count. pose proof (h_count _ _ _ _ _ H) as Hn. pose proof (lookup_lt_Some _ _ _ Hj) as Hjn.
    destruct (last_parsed e ps p0 k0 kl H) as (pl & Pl & El & _). pose proof (pk_l4 _ _ Pl) as Ll. rewrite El, Et, Z.eqb_refl in Ll. destruct Ll as (_ & _ & _ & _ & Lkl & _).
    destruct (Z.eqb_spec (Z.of_nat j) (nseg e - 1)) as [Ej|Ej].
    + rewrite (Hkl ltac:(lia)). destruct Lkl as [-> | [-> _]]; by destruct (Z.of_nat j =? 0).
    + rewrite (proj2 (Z.ltb_lt _ _)), orb_true_r in M by lia. destruct (m_full _ _ _ _ _ _ _ M eq_refl) as [_ Hne]. assert (Ef : k_flags k = 16) by lia. rewrite Ef. destruct Lkl as [-> | [-> _]]; by destruct (Z.of_nat j =? 0).
  - destruct Ip as (_ & _ & _ & Ip). rewrite Lsp in I. destruct (get_be16_inj p s (k_ip_hlen k0 + 4) _ Bp Bs Ip I) as [H1 H2]. assert (i = k_ip_hlen k0 + 4 \/ i = k_ip_hlen k0 + 4 + 1) as [-> | ->] by lia; done.
Qed.

Lemma segment_same : same_packet p s.
Proof.
  destruct segment_sizes as (Ek & Ls & Lsp & Hp & Hh & Hip & Hl4). pose proof (m_parsed _ _ _ _ _ _ _ M) as P. right. exists (k_v6 k0), (k_proto k0), (k_ip_hlen k0). pose proof (pk_layout _ _ P) as Lay.
  rewrite (m_v6 _ _ _ _ _ _ _ M), (m_proto _ _ _ _ _ _ _ M), Ek in Lay. split_and!; [done|done| | |].
  - intros i Hi. destruct (Z.lt_ge_cases i 0); [unfold rd; by rewrite !(proj2 (Z.ltb_lt _ _))|]. destruct (Z.lt_ge_cases i (hdr_len k0)) as [Hhdr|Hpay]; [|by apply segment_payload].
    destruct (decide (varies (k_v6 k0) (k_proto k0) (k_ip_hlen k0) i)) as [[Hc|[Hc|[Et Hc]]]|Hn]; [by apply segment_ip|by apply segment_l4| |by apply segment_kept].
    exfalso. apply Hi. unfold volatile. rewrite Et. right. cbn [Z.eqb Pos.eqb MQVPN_IPPROTO_TCP]. lia.
  - pose proof (seg_csum _ _ _ S) as C. by rewrite E6, Epr, Ehl in C.
  - intros Ev. pose proof (seg_ip _ _ _ S) as I. unfold ip_fields in I. rewrite E6, Ev, Ehl in I. apply I.
Qed.

End super.
