(* ===== verification/GroFlush.v ===== *)
(** * Flushing entries of the merger

    What the tunnel device gets for the calls of the emit callback, the order
    that is promised, and that a flush keeps both. *)

From S2P Require Import Prelude Wire Icmp StateOpt TunFrame TunOffload OffloadCsum OffloadSplit GroEntry GroSuper.

(** ** The promise *)

(** An acknowledgement without data. *)
Definition pure_ack (p : list Z) (v6 : bool) (l4 : Z) : Prop :=
  gro_parse_ip p = Some (Some (v6, MQVPN_IPPROTO_TCP, l4)) /\ rd p (l4 + 12) = Some ((blen p - l4) * 4) /\ rd p (l4 + 13) = Some TCP_FLAG_ACK.

(** [a] may be dropped when [p] follows: both are pure acknowledgements of the
    flow from the same sequence number, and [p] acknowledges more. *)
Definition superseded (a p : list Z) : Prop :=
  exists v6 l4 x y, pure_ack a v6 l4 /\ pure_ack p v6 l4 /\ blen p = blen a /\ flow_key p = flow_key a /\ get_be32 p (l4 + 4) = get_be32 a (l4 + 4) /\
    get_be32 a (l4 + 8) = Some x /\ get_be32 p (l4 + 8) = Some y /\ 0 < s32 (y - x).

(** [qs] is [ps] without packets that the next one of [ps] supersedes. *)
Inductive thinned : list (list Z) -> list (list Z) -> Prop :=
  | thin_nil : thinned [] []
  | thin_keep p ps qs : thinned ps qs -> thinned (p :: ps) (p :: qs)
  | thin_drop a p ps qs : superseded a p -> thinned (p :: ps) qs -> thinned (a :: p :: ps) qs.

(** The packets of a flow ([None]: of no flow). *)
Definition of_flow (K : option (bool * list Z * Z * list Z)) (ps : list (list Z)) : list (list Z) := filter (fun p => flow_key p = K) ps.

Section delivery.
Context (le : bool) (EINVAL : Z).

(** The packets behind a call of the callback: a super-packet stands for its
    segments, unless it was refused as the kernel refuses UDP ones. *)
Definition delivered_item (o : gro_out) : option (list (list Z)) :=
  if gso_type (out_vh o) =? VIRTIO_NET_HDR_GSO_NONE then Some [out_pkt o]
  else if (out_ret o =? - EINVAL) && (gso_type (out_vh o) =? VIRTIO_NET_HDR_GSO_UDP_L4) then Some []
  else r ← mqvpn_gso_begin (out_pkt o) (out_vh o); it ← r; gso_segments le (S (length (out_pkt o))) it GRO_MAX_LEN.

Fixpoint delivered (log : list gro_out) : option (list (list Z)) :=
  match log with
  | [] => Some []
  | o :: log => a ← delivered_item o; b ← delivered log; Some (a ++ b)
  end.

Lemma delivered_app a b x y : delivered a = Some x -> delivered b = Some y -> delivered (a ++ b) = Some (x ++ y).
Proof.
  revert x. induction a as [|o a IH]; intros x; cbn [delivered app].
  - by intros [= <-].
  - destruct (delivered_item o) as [i|]; [|done]. cbn [mbind option_bind]. destruct (delivered a) as [z|]; [|done]. cbn [mbind option_bind]. intros [= <-] Hy. rewrite (IH z eq_refl Hy). cbn [mbind option_bind]. by rewrite app_assoc.
Qed.

Lemma delivered_plain ps rs : length rs = length ps -> delivered (zip_with (fun p r => GroOut plain_vh p r) ps rs) = Some ps.
Proof. revert rs. induction ps as [|p ps IH]; intros [|r rs] Hl; cbn in Hl; try done. cbn [zip_with delivered]. by rewrite (IH rs) by lia. Qed.

End delivery.

(** ** Thinned sequences *)

Lemma thinned_refl ps : thinned ps ps.
Proof. induction ps; by constructor. Qed.

Lemma thinned_snoc ps qs p : thinned ps qs -> thinned (ps ++ [p]) (qs ++ [p]).
Proof. induction 1; cbn [app] in *; [apply (thin_keep p [] []), thin_nil|by apply thin_keep|by apply thin_drop]. Qed.

Lemma thinned_nil ps qs : thinned ps qs -> qs = [] -> ps = [].
Proof. induction 1 as [|? ? ? ? IH|? ? ? ? ? ? IH]; intros E; [done..|]. by specialize (IH E). Qed.

Lemma thinned_supersede ps qs a p : thinned ps (qs ++ [a]) -> superseded a p -> thinned (ps ++ [p]) (qs ++ [p]).
Proof.
  intros Ht Hs. remember (qs ++ [a]) as l eqn:El. revert qs El. induction Ht as [|x ps l Ht IH|b x ps l Hb Ht IH]; intros qs El.
  - by destruct qs.
  - destruct qs as [|y qs].
    + injection El as -> ->. rewrite (thinned_nil ps [] Ht eq_refl). apply thin_drop; [done|]. apply thinned_refl.
    + injection El as -> ->. by apply thin_keep, IH.
  - apply thin_drop; [done|]. by apply IH.
Qed.

(** ** Flows and slots *)

Lemma of_flow_app K a b : of_flow K (a ++ b) = of_flow K a ++ of_flow K b.
Proof. apply filter_app. Qed.

Lemma of_flow_none K ps : (forall p, p ∈ ps -> flow_key p <> K) -> of_flow K ps = [].
Proof. intros H. induction ps as [|p ps IH]; [done|]. unfold of_flow in *. rewrite filter_cons_False by (apply H, list_elem_of_here). apply IH. intros q Hq. apply H. by apply list_elem_of_further. Qed.

Lemma of_flow_all K ps : (forall p, p ∈ ps -> flow_key p = K) -> of_flow K ps = ps.
Proof. intros H. induction ps as [|p ps IH]; [done|]. unfold of_flow in *. rewrite filter_cons_True by (apply H, list_elem_of_here). f_equal. apply IH. intros q Hq. apply H. by apply list_elem_of_further. Qed.

(** No two slots hold packets of the same flow. *)
Definition apart (hs : list (list (list Z))) : Prop :=
  forall i j a b p q, hs !! i = Some a -> hs !! j = Some b -> p ∈ a -> q ∈ b -> flow_key p = flow_key q -> i = j.

Definition no_flow (hs : list (list (list Z))) (K : option (bool * list Z * Z * list Z)) : Prop := forall h p, h ∈ hs -> p ∈ h -> flow_key p <> K.

Lemma no_flow_concat hs K : no_flow hs K -> of_flow K (concat hs) = [].
Proof. intros H. apply of_flow_none. intros p Hp. apply list_elem_of_In, in_concat in Hp as (h & Hh & Hp). apply (H h); by apply list_elem_of_In. Qed.

Lemma concat_insert (hs : list (list (list Z))) i h x : hs !! i = Some h -> exists l r, concat hs = l ++ h ++ r /\ concat (<[i := x]> hs) = l ++ x ++ r /\ l = concat (take i hs) /\ r = concat (drop (S i) hs).
Proof.
  intros Hi. exists (concat (take i hs)), (concat (drop (S i) hs)). pose proof (lookup_lt_Some _ _ _ Hi). split_and!; [|by rewrite insert_take_drop, concat_app by done|done|done].
  rewrite <- (take_drop_middle hs i h Hi) at 1. by rewrite concat_app.
Qed.

(** The flow of a slot is in no other. *)
Lemma apart_others hs i h p : apart hs -> hs !! i = Some h -> p ∈ h -> of_flow (flow_key p) (concat (take i hs)) = [] /\ of_flow (flow_key p) (concat (drop (S i) hs)) = [].
Proof.
  intros Ha Hi Hp. pose proof (lookup_lt_Some _ _ _ Hi). split; apply no_flow_concat; intros a q (j & Hj)%list_elem_of_lookup Hq E.
  - pose proof (lookup_lt_Some _ _ _ Hj) as Hl. rewrite length_take in Hl. rewrite lookup_take_lt in Hj by lia. pose proof (Ha j i a h q p Hj Hi Hq Hp E). lia.
  - rewrite lookup_drop in Hj. pose proof (Ha _ i a h q p Hj Hi Hq Hp E). lia.
Qed.

Lemma flush_order hs i h K : apart hs -> hs !! i = Some h -> (forall p q, p ∈ h -> q ∈ h -> flow_key p = flow_key q) ->
  of_flow K (h ++ concat (<[i := []]> hs)) = of_flow K (concat hs).
Proof.
  intros Ha Hi Hh. destruct (concat_insert hs i h [] Hi) as (l & r & -> & -> & El & Er). rewrite !of_flow_app. change (of_flow K []) with (@nil (list Z)). cbn [app].
  destruct (of_flow K h) as [|p f] eqn:E; [done|]. assert (Hp : p ∈ h /\ flow_key p = K) by (pose proof (list_elem_of_here p f) as Hp; rewrite <- E in Hp; apply list_elem_of_filter in Hp; tauto). destruct Hp as [Hp <-].
  destruct (apart_others hs i h p Ha Hi Hp) as [H1 H2]. rewrite El, Er, H1, H2. by rewrite !app_nil_r.
Qed.

Lemma join_order hs i h p K : apart hs -> hs !! i = Some h -> (h = [] -> no_flow hs (flow_key p)) -> (forall q, q ∈ h -> flow_key q = flow_key p) ->
  of_flow K (concat (<[i := h ++ [p]]> hs)) = of_flow K (concat hs) ++ of_flow K [p].
Proof.
  intros Ha Hi H0 Hh. destruct (concat_insert hs i h (h ++ [p]) Hi) as (l & r & E1 & -> & El & Er). rewrite E1. rewrite !of_flow_app, <- !app_assoc.
  destruct (decide (flow_key p = K)) as [<-|Hne].
  - assert (Hr : of_flow (flow_key p) r = []).
    { destruct h as [|q h]; [pose proof (no_flow_concat _ _ (H0 eq_refl)) as Hn; rewrite E1, !of_flow_app in Hn; by apply app_eq_nil in Hn as [_ [_ Hn]%app_eq_nil]|].
      pose proof (Hh q (list_elem_of_here _ _)) as Eq. rewrite <- Eq, Er. by apply (apart_others hs i (q :: h) q Ha Hi (list_elem_of_here _ _)). }
    rewrite Hr. by rewrite !app_nil_r.
  - assert (Hp : of_flow K [p] = []) by (unfold of_flow; by rewrite filter_cons_False by done). rewrite Hp. by rewrite !app_nil_r.
Qed.

Lemma held_apart_insert hs i h x : apart hs -> hs !! i = Some h -> (forall j b p q, j <> i -> hs !! j = Some b -> p ∈ x -> q ∈ b -> flow_key p <> flow_key q) -> apart (<[i := x]> hs).
Proof.
  intros Ha Hi Hx a b ha hb p q Hja Hjb Hp Hq E. pose proof (lookup_lt_Some _ _ _ Hi) as Hlen.
  destruct (decide (a = i)) as [->|Hna], (decide (b = i)) as [->|Hnb]; [done|..].
  - rewrite list_lookup_insert_eq in Hja by done. injection Hja as <-. rewrite list_lookup_insert_ne in Hjb by done. by destruct (Hx b hb p q Hnb Hjb Hp Hq).
  - rewrite list_lookup_insert_eq in Hjb by done. injection Hjb as <-. rewrite list_lookup_insert_ne in Hja by done. by destruct (Hx a ha q p Hna Hja Hq Hp).
  - rewrite list_lookup_insert_ne in Hja by done. rewrite list_lookup_insert_ne in Hjb by done. by apply (Ha a b ha hb p q).
Qed.

(** ** The state *)

Section run.
Context (le : bool) (EINVAL : Z) (emit_ret : nat -> Z).

Definition slot_holds (g : mqvpn_gro_t) (e : gro_entry_t) (h : list (list Z)) : Prop :=
  if e_used e then (exists p0 k0 kl, held e h p0 k0 kl) /\ (e_proto e = MQVPN_IPPROTO_UDP -> (if e_v6 e then udp6 g else udp4 g) = true) else h = [].

(** After pushing [pushed]: [outs] went out and [hs] is held. *)
Record gro_inv (g : mqvpn_gro_t) (pushed outs : list (list Z)) (hs : list (list (list Z))) : Prop := {
  gi_len : length (slots g) = 8%nat;
  gi_slots : Forall2 (slot_holds g) (slots g) hs;
  gi_apart : apart hs;
  gi_sent : exists sent, delivered le EINVAL (emitted_log g) = Some sent /\ Forall2 same_packet outs sent;
  gi_order : forall K, thinned (of_flow K pushed) (of_flow K (outs ++ concat hs))
}.

Lemma dwp_gro_emit vh p g (Q : Z -> mqvpn_gro_t -> Prop) :
  (forall r, Q r (g <| emitted_log ::= fun l => l ++ [GroOut vh p r] |>)) -> dwp (gro_emit emit_ret vh p) g Q.
Proof. intros H. unfold gro_emit. apply dwp_bind, dwp_get, dwp_bind, dwp_modify, dwp_ret. apply H. Qed.

Lemma dwp_gro_emit_plain p g (Q : unit -> mqvpn_gro_t -> Prop) :
  (forall r, Q tt (g <| emitted_log ::= fun l => l ++ [GroOut plain_vh p r] |>)) -> dwp (gro_emit_plain emit_ret p) g Q.
Proof. intros H. unfold gro_emit_plain. apply dwp_bind, dwp_gro_emit. intros r. apply dwp_skip, H. Qed.

Lemma gro_log_app g a b : g <| emitted_log ::= fun l => l ++ a |> <| emitted_log ::= fun l => l ++ b |> = g <| emitted_log ::= fun l => l ++ a ++ b |>.
Proof. destruct g. unfold update. cbn. by rewrite app_assoc. Qed.

Lemma fallback_loop_spec fuel it g segs : gso_segments le fuel it GRO_MAX_LEN = Some segs -> Forall (fun s => 0 < blen s) segs ->
  dwp (fallback_loop le emit_ret fuel it) g (fun _ g' => exists rs, length rs = length segs /\ g' = g <| emitted_log ::= fun l => l ++ zip_with (fun p r => GroOut plain_vh p r) segs rs |>).
Proof.
  revert it g segs. induction fuel as [|fuel IH]; intros it g segs E Hpos; [done|]. cbn [gso_segments fallback_loop] in *. destruct (mqvpn_gso_next le it GRO_MAX_LEN) as [[r it']|] eqn:En; [|done]. cbn [mbind option_bind] in E.
  apply dwp_bind. eapply dwp_lift; [done|]. destruct r as [| |s]; [|done|].
  - injection E as <-. apply dwp_skip. exists []. split; [done|]. destruct g. unfold update. cbn. by rewrite app_nil_r.
  - destruct (gso_segments le fuel it' GRO_MAX_LEN) as [l|] eqn:El; [|done]. injection E as <-. apply Forall_cons in Hpos as [Hs Hpos]. rewrite (proj2 (Z.ltb_lt _ _)) by done.
    apply dwp_bind, dwp_gro_emit_plain. intros r. eapply dwp_mono; [apply (IH it' _ l El Hpos)|]. intros _ g' (rs & Hl & ->). exists (r :: rs). split; [cbn; lia|]. by rewrite gro_log_app.
Qed.

(** The super-packet of an entry and its segments. *)
Lemma super_delivered e ps p0 k0 kl : held e ps p0 k0 kl -> 1 < nseg e -> exists q it segs, super_packet le e = Some q /\ mqvpn_gso_begin q (super_vh e) = Some (Some it) /\
  gso_segments le (S (length q)) it GRO_MAX_LEN = Some segs /\ Forall2 same_packet ps segs /\ Forall (fun s => 0 < blen s) segs.
Proof.
  intros H Hn. destruct (super_packet_spec le e ps p0 k0 kl H) as (q & Eq & Lq & Bq & F). destruct (super_begin e ps p0 k0 kl H q Hn Lq Bq F) as (it & Eit & Bg & E6 & Ep & Eh & Ehd & Eg & Eid & Esq).
  pose proof (super_count e ps p0 k0 kl H q it Hn Lq Bg Ehd Eg) as Hcnt. pose proof (h_count _ _ _ _ _ H) as Hc. destruct (held_bounds _ _ _ _ _ H) as (B1 & B2 & B3 & B4 & B5 & B6 & B7). pose proof (pk_len _ _ (h_parsed _ _ _ _ _ H)) as Hl. pose proof (pk_size _ _ (h_parsed _ _ _ _ _ H)) as Hs0.
  destruct (gso_segments_spec le it GRO_MAX_LEN (length ps - 2 + 1) 0 (begun_wf _ _ _ Bg)) as (segs & El & Hlen & Hsegs); [rewrite Ehd, Eg; unfold GRO_MAX_LEN, hdr_len; lia|lia|lia|].
  rewrite (iter_at_begun it (begun_start _ _ _ Bg)) in El. pose proof (h_size _ _ _ _ _ H) as Hs. pose proof (h_pos _ _ _ _ _ H Hn). pose proof (h_last _ _ _ _ _ H).
  exists q, it, segs. split_and!; [done|done| | |].
  - eapply gso_segments_mono; [|exact El]. unfold blen in *. nia.
  - apply Forall2_same_length_lookup_2; [lia|]. intros j p s Hp Hs'. destruct (h_members _ _ _ _ _ H j p Hp) as (k & M & Hk).
    eapply (segment_same e ps p0 k0 kl H q it); try done; by apply Hsegs.
  - apply Forall_lookup. intros j s Hj. pose proof (seg_size _ _ _ (Hsegs j s Hj)) as Ss. destruct (segment_count_spec it (0 + Z.of_nat j) (begun_wf _ _ _ Bg)) as (Hsl & _); [apply lookup_lt_Some in Hj; lia|]. lia.
Qed.

Lemma same_packet_refl ps : Forall2 same_packet ps ps.
Proof. induction ps; constructor; [by left|done]. Qed.

(** What a flush of slot [i], which holds [h], does to the state. *)
Record flushed (i : nat) (h : list (list Z)) (g g' : mqvpn_gro_t) : Prop := {
  fl_slots : exists e', slots g' = <[i := e']> (slots g) /\ e_used e' = false;
  fl_log : exists items sent, emitted_log g' = emitted_log g ++ items /\ delivered le EINVAL items = Some sent /\ Forall2 same_packet h sent;
  fl_udp : udp4 g' = udp4 g /\ udp6 g' = udp6 g
}.

Lemma flush_entry_spec i g e h : slots g !! i = Some e -> slot_holds g e h -> dwp (gro_flush_entry le emit_ret EINVAL i) g (fun _ g' => flushed i h g g').
Proof.
  intros Hi Hh. unfold gro_flush_entry. apply dwp_bind, dwp_get, dwp_bind. eapply dwp_lift; [done|]. unfold slot_holds in Hh. destruct (e_used e) eqn:Eu; cbn [negb]; cycle 1.
  { apply dwp_skip. subst h. split; [exists e; by rewrite list_insert_id|exists [], []; by rewrite app_nil_r|done]. }
  destruct Hh as [(p0 & k0 & kl & H) _]. unfold put_slot. apply dwp_bind, dwp_modify. destruct (Z.eqb_spec (nseg e) 1) as [E1|E1].
  { apply dwp_gro_emit_plain. intros r. destruct (single_buf _ _ _ _ _ H E1) as [-> ->]. split; cbn [slots emitted_log update udp4 udp6]; [by eexists|exists [GroOut plain_vh p0 r], [p0]|done]. split_and!; [done|done|apply same_packet_refl]. }
  assert (Hn : 1 < nseg e) by (destruct (held_bounds _ _ _ _ _ H) as (_ & _ & _ & _ & _ & _ & B7); lia). destruct (super_delivered e h p0 k0 kl H Hn) as (q & it & segs & Eq & Ebeg & Eseg & Hsame & Hpos).
  apply dwp_bind. eapply dwp_lift; [exact Eq|]. apply dwp_bind, dwp_modify, dwp_bind, dwp_modify, dwp_bind.
  eapply (dwp_mono _ _ (fun _ g' => slots g' = <[i := e <| e_used := false |> <| e_buf := q |>]> (slots g) /\ emitted_log g' = emitted_log g /\ udp4 g' = udp4 g /\ udp6 g' = udp6 g)).
  { destruct (e_proto e =? MQVPN_IPPROTO_UDP); [apply dwp_modify|apply dwp_skip]; cbn [slots emitted_log update udp4 udp6]; by rewrite list_insert_insert_eq. }
  intros _ g1 (S1 & L1 & U4 & U6). apply dwp_bind, dwp_gro_emit. intros r.
  assert (Hitem : forall log', emitted_log g1 ++ [GroOut (super_vh e) q r] ++ log' = emitted_log g ++ (GroOut (super_vh e) q r :: log')) by (intros; by rewrite L1).
  assert (Htype : (gso_type (super_vh e) =? VIRTIO_NET_HDR_GSO_NONE) = false /\ (gso_type (super_vh e) =? VIRTIO_NET_HDR_GSO_UDP_L4) = (e_proto e =? MQVPN_IPPROTO_UDP)) by (unfold super_vh; cbn [gso_type]; destruct (e_proto e =? MQVPN_IPPROTO_UDP), (e_v6 e); done). destruct Htype as [T1 T2].
  destruct ((r =? - EINVAL) && (e_proto e =? MQVPN_IPPROTO_UDP)) eqn:Er.
  - unfold gro_udp_fallback. apply dwp_bind, dwp_modify, dwp_bind. eapply dwp_lift; [exact Ebeg|]. eapply dwp_mono; [apply (fallback_loop_spec _ it _ segs Eseg Hpos)|]. intros _ g' (rs & Hrs & ->).
    split; cbn [slots emitted_log update udp4 udp6]; [by eexists|..].
    + eexists _, segs. rewrite <- app_assoc, Hitem. split; [done|]. split; [|done]. cbn [delivered]. unfold delivered_item at 1. cbn [out_vh out_pkt out_ret]. rewrite T1, T2, Er. cbn [mbind option_bind]. by rewrite delivered_plain.
    + done.
  - apply dwp_skip. split; cbn [slots emitted_log update udp4 udp6]; [by eexists|..].
    + exists [GroOut (super_vh e) q r], segs. split; [by rewrite L1|]. split; [|done]. cbn [delivered]. unfold delivered_item. cbn [out_vh out_pkt out_ret]. rewrite T1, T2, Er, Ebeg. cbn [mbind option_bind]. rewrite Eseg. cbn [mbind option_bind]. by rewrite app_nil_r.
    + done.
Qed.

Lemma held_keys e h g p q : slot_holds g e h -> p ∈ h -> q ∈ h -> flow_key p = flow_key q.
Proof.
  unfold slot_holds. destruct (e_used e); [|intros -> H; by apply not_elem_of_nil in H]. intros [(p0 & k0 & kl & H) _] Hp Hq. by rewrite (held_key _ _ _ _ _ H p Hp), (held_key _ _ _ _ _ H q Hq).
Qed.

Lemma slots_udp g g' es hs : udp4 g' = udp4 g /\ udp6 g' = udp6 g -> Forall2 (slot_holds g) es hs -> Forall2 (slot_holds g') es hs.
Proof. intros [E4 E6] H. eapply Forall2_impl; [exact H|]. intros e h. unfold slot_holds. by rewrite E4, E6. Qed.

Lemma flushed_inv i h g g' pushed outs hs : gro_inv g pushed outs hs -> hs !! i = Some h -> flushed i h g g' -> gro_inv g' pushed (outs ++ h) (<[i := []]> hs).
Proof.
  intros I Hi Fl. destruct (fl_slots _ _ _ _ Fl) as (e' & Es & Eu). destruct (fl_log _ _ _ _ Fl) as (items & sent & El & Ed & Hs). destruct (gi_sent _ _ _ _ I) as (sent0 & Ed0 & Hs0).
  destruct (Forall2_lookup_r _ _ _ _ _ (gi_slots _ _ _ _ I) Hi) as (e & He & Hh). split.
  - rewrite Es, length_insert. apply I.
  - rewrite Es. apply Forall2_insert; [|unfold slot_holds; by rewrite Eu]. apply (slots_udp g g' _ _ (fl_udp _ _ _ _ Fl)), I.
  - apply (held_apart_insert hs i h); [apply I|done|]. intros j b p q _ _ Hp. by apply not_elem_of_nil in Hp.
  - exists (sent0 ++ sent). rewrite El. split; [by apply delivered_app|by apply Forall2_app].
  - intros K. rewrite <- app_assoc, of_flow_app, (flush_order hs i h K (gi_apart _ _ _ _ I) Hi), <- of_flow_app; [apply I|]. intros p q. by apply (held_keys e h g).
Qed.

(** A flush of one slot. *)
Lemma flush_one i h g pushed outs hs : gro_inv g pushed outs hs -> hs !! i = Some h ->
  dwp (gro_flush_entry le emit_ret EINVAL i) g (fun _ g' => gro_inv g' pushed (outs ++ h) (<[i := []]> hs) /\ udp4 g' = udp4 g /\ udp6 g' = udp6 g).
Proof.
  intros I Hi. destruct (Forall2_lookup_r _ _ _ _ _ (gi_slots _ _ _ _ I) Hi) as (e & He & Hh). eapply dwp_mono; [apply (flush_entry_spec i g e h He Hh)|]. intros u g' Fl. cbv beta in Fl. split; [by apply (flushed_inv i h g)|apply Fl].
Qed.

Lemma inv_slots_len g pushed outs hs : gro_inv g pushed outs hs -> length hs = 8%nat.
Proof. intros I. rewrite <- (gi_len _ _ _ _ I). symmetry. apply (Forall2_length _ _ _ (gi_slots _ _ _ _ I)). Qed.

(** Slots [0] to [i - 1] are empty. *)
Definition empty_below (i : nat) (hs : list (list (list Z))) : Prop := forall j h, (j < i)%nat -> hs !! j = Some h -> h = [].

Lemma flush_slots_spec n i g pushed outs hs : gro_inv g pushed outs hs -> (i + n = 8)%nat -> empty_below i hs ->
  dwp (flush_slots le emit_ret EINVAL n i) g (fun _ g' => (exists outs', gro_inv g' pushed outs' (replicate 8 [])) /\ udp4 g' = udp4 g /\ udp6 g' = udp6 g).
Proof.
  revert i g outs hs. induction n as [|n IH]; intros i g outs hs I Hn He; cbn [flush_slots].
  - apply dwp_skip. split; [|done]. exists outs. assert (Eh : hs = replicate 8 []); [|by rewrite <- Eh]. pose proof (inv_slots_len _ _ _ _ I) as Hl. apply list_eq. intros j. destruct (hs !! j) as [h|] eqn:Ej.
    + rewrite (He j h) in * by (done || (apply lookup_lt_Some in Ej; lia)). symmetry. apply lookup_replicate. split; [done|]. apply lookup_lt_Some in Ej. lia.
    + symmetry. apply lookup_ge_None_2. rewrite length_replicate. apply lookup_ge_None_1 in Ej. lia.
  - pose proof (inv_slots_len _ _ _ _ I) as Hl. destruct (lookup_lt_is_Some_2 hs i ltac:(lia)) as (h & Hi). apply dwp_bind. eapply dwp_mono; [apply (flush_one i h g pushed outs hs I Hi)|]. intros _ g' (I' & E4 & E6).
    eapply dwp_mono; [apply (IH (S i) g' _ _ I'); [lia|]|].
    + intros j h' Hj Hjh. destruct (decide (j = i)) as [->|Hne]; [rewrite list_lookup_insert_eq in Hjh by (apply lookup_lt_Some in Hi; done); by injection Hjh as <-|]. rewrite list_lookup_insert_ne in Hjh by done. apply (He j); [lia|done].
    + intros _ g'' (I'' & E4' & E6'). split; [done|]. by rewrite E4', E6'.
Qed.

Lemma flush_spec g pushed outs hs : gro_inv g pushed outs hs ->
  dwp (mqvpn_gro_flush le emit_ret EINVAL) g (fun _ g' => (exists outs', gro_inv g' pushed outs' (replicate 8 [])) /\ udp4 g' = udp4 g /\ udp6 g' = udp6 g).
Proof. intros I. apply (flush_slots_spec 8 0 g pushed outs hs I); [done|]. intros j h Hj. lia. Qed.

End run.
