(* ===== verification/GroRun.v ===== *)
(** * The merger as a whole

    Pushing packets, flushing and switching UDP, in any order: nothing is lost
    and no packet overtakes another one of its flow. *)

From S2P Require Import Prelude Wire Icmp StateOpt TunFrame TunOffload OffloadCsum OffloadSplit GroEntry GroSuper GroFlush.

Lemma thinned_push K ps qs qs' p : thinned (of_flow K ps) (of_flow K qs) -> of_flow K qs' = of_flow K qs ++ of_flow K [p] -> thinned (of_flow K (ps ++ [p])) (of_flow K qs').
Proof.
  intros Ht ->. rewrite of_flow_app. destruct (decide (flow_key p = K)) as [E|E].
  - assert (Ep : of_flow K [p] = [p]) by (apply of_flow_all; intros q Hq; apply list_elem_of_singleton in Hq; by subst). rewrite Ep. by apply thinned_snoc.
  - assert (Ep : of_flow K [p] = []) by (apply of_flow_none; intros q Hq; apply list_elem_of_singleton in Hq; by subst). rewrite Ep. by rewrite !app_nil_r.
Qed.

Lemma flow_key_is p k : parsed p k -> exists a ports, flow_key p = Some (k_v6 k, a, k_proto k, ports) /\ rdn p (if k_v6 k then 8 else 12) (if k_v6 k then 32 else 8) = Some a.
Proof.
  intros P. rewrite (flow_key_parsed p k P). pose proof (pk_size _ _ P). pose proof (pk_hlen _ _ P). destruct (parsed_bounds _ _ P) as (B1 & B2 & B3 & B4). unfold ip_len in *.
  destruct (rdn_in_bounds p (if k_v6 k then 8 else 12) (if k_v6 k then 32 else 8)) as (a & Ea); [destruct (k_v6 k); lia..|]. destruct (rdn_in_bounds p (k_ip_hlen k) 4) as (b & Eb); [lia..|]. exists a, b. by rewrite Ea, Eb.
Qed.

Section run.
Context (le : bool) (EINVAL : Z) (emit_ret : nat -> Z).
#[local] Abbreviation inv := (gro_inv le EINVAL).

(** A change of what the invariant does not speak of. *)
Lemma inv_frame g g' pushed outs hs : inv g pushed outs hs -> slots g' = slots g -> emitted_log g' = emitted_log g -> udp4 g' = udp4 g -> udp6 g' = udp6 g -> inv g' pushed outs hs.
Proof.
  intros I Es El E4 E6. split; [rewrite Es; apply I| |apply I|rewrite El; apply I|apply I]. rewrite Es. apply (slots_udp g g'); [done|apply I].
Qed.

(** A packet put at the end of slot [i]. *)
Lemma inv_put g pushed outs hs i h e p : inv g pushed outs hs -> hs !! i = Some h -> slot_holds g e (h ++ [p]) -> (h = [] -> no_flow hs (flow_key p)) ->
  inv (g <| slots ::= <[i := e]> |>) (pushed ++ [p]) outs (<[i := h ++ [p]]> hs).
Proof.
  intros I Hi He H0. assert (Hk : forall q, q ∈ h -> flow_key q = flow_key p) by (intros q Hq; apply (held_keys e (h ++ [p]) g q p He); apply elem_of_app; [by left|right; by apply list_elem_of_singleton]).
  split; cbn [update slots emitted_log].
  - rewrite length_insert. apply I.
  - apply Forall2_insert; [|done]. apply I.
  - apply (held_apart_insert hs i h); [apply I|done|]. intros j b x q Hj Hb Hx Hq E. assert (Ex : flow_key x = flow_key p) by (apply elem_of_app in Hx as [Hx|Hx]; [by apply Hk|apply list_elem_of_singleton in Hx; by subst]).
    destruct h as [|y h]; [apply (H0 eq_refl b q); [by apply list_elem_of_lookup_2 in Hb|done|congruence]|]. apply Hj. apply (gi_apart _ _ _ _ _ _ I j i b (y :: h) q y Hb Hi Hq (list_elem_of_here _ _)). rewrite (Hk y) by apply list_elem_of_here. congruence.
  - apply I.
  - intros K. apply (thinned_push K pushed (outs ++ concat hs)); [apply I|]. rewrite !of_flow_app, (join_order hs i h p K (gi_apart _ _ _ _ _ _ I) Hi H0 Hk). by rewrite app_assoc.
Qed.

(** The acknowledgement of slot [i] replaced. *)
Lemma inv_replace g pushed outs hs i a e p : inv g pushed outs hs -> hs !! i = Some [a] -> slot_holds g e [p] -> superseded a p -> flow_key p = flow_key a ->
  inv (g <| slots ::= <[i := e]> |>) (pushed ++ [p]) outs (<[i := [p]]> hs).
Proof.
  intros I Hi He Hs Hk. split; cbn [update slots emitted_log].
  - rewrite length_insert. apply I.
  - apply Forall2_insert; [|done]. apply I.
  - apply (held_apart_insert hs i [a]); [apply I|done|]. intros j b x q Hj Hb Hx Hq E. apply list_elem_of_singleton in Hx as ->. apply Hj. apply (gi_apart _ _ _ _ _ _ I j i b [a] q a Hb Hi Hq); [by apply list_elem_of_singleton|congruence].
  - apply I.
  - intros K. pose proof (gi_order _ _ _ _ _ _ I K) as Ht. destruct (concat_insert hs i [a] [p] Hi) as (l & r & E1 & -> & El & Er). rewrite E1 in Ht. rewrite !of_flow_app in Ht. rewrite !of_flow_app. destruct (decide (flow_key a = K)) as [<-|Hne].
    + destruct (apart_others hs i [a] a (gi_apart _ _ _ _ _ _ I) Hi) as [N1 N2]; [by apply list_elem_of_singleton|]. rewrite El, Er, N1, N2 in Ht |- *. rewrite app_nil_r in Ht |- *. cbn [app] in Ht |- *.
      assert (Ea : of_flow (flow_key a) [a] = [a]) by (apply of_flow_all; intros q Hq; apply list_elem_of_singleton in Hq; by subst). assert (Ep : of_flow (flow_key a) [p] = [p]) by (apply of_flow_all; intros q Hq; apply list_elem_of_singleton in Hq; by subst).
      rewrite Ea in Ht. rewrite Ep. by apply (thinned_supersede _ _ a).
    + assert (Ea : of_flow K [a] = []) by (apply of_flow_none; intros q Hq; apply list_elem_of_singleton in Hq; by subst). assert (Ep : of_flow K [p] = []) by (apply of_flow_none; intros q Hq; apply list_elem_of_singleton in Hq; subst; congruence).
      rewrite Ea in Ht. rewrite Ep. by rewrite !app_nil_r.
Qed.

(** Two pure acknowledgements of which the second supersedes the first. *)
Lemma superseded_intro e h p0 k0 kl p k : held e h p0 k0 kl -> ack_only e = true -> parsed p k -> flow_key p = flow_key p0 -> k_proto k = MQVPN_IPPROTO_TCP -> k_payload k = 0 -> k_l4_hlen k = k_l4_hlen k0 ->
  get_be32 p (k_ip_hlen k0 + 4) = get_be32 p0 (k_ip_hlen k0 + 4) -> (exists a b, get_be32 p0 (k_ip_hlen k0 + 8) = Some a /\ get_be32 p (k_ip_hlen k0 + 8) = Some b /\ 0 < s32 (b - a)) -> superseded p0 p.
Proof.
  intros H Ha P Hk Ep E0 El Es (a & b & E1 & E2 & Hab). pose proof (h_parsed _ _ _ _ _ H) as P0. pose proof (h_ack _ _ _ _ _ H) as Hack. rewrite Ha in Hack. symmetry in Hack. apply andb_true_iff in Hack as [Et%Z.eqb_eq Eg%Z.eqb_eq].
  pose proof (proj1 (flow_key_eq p k p0 k0 P P0) Hk) as (Ev & _). assert (Ek : k_ip_hlen k = k_ip_hlen k0) by (rewrite (pk_hlen _ _ P), (pk_hlen _ _ P0); by rewrite Ev).
  assert (Hpure : forall x kx, parsed x kx -> k_v6 kx = k_v6 k0 -> k_ip_hlen kx = k_ip_hlen k0 -> k_proto kx = MQVPN_IPPROTO_TCP -> k_payload kx = 0 -> pure_ack x (k_v6 k0) (k_ip_hlen k0)).
  { intros x kx Px Evx Ekx Epx E0x. pose proof (pk_layout _ _ Px) as Lay. rewrite Evx, Epx, Ekx in Lay. pose proof (pk_l4 _ _ Px) as L. rewrite Epx, Z.eqb_refl, Ekx in L. destruct L as (_ & L12 & L13 & _ & Lf & _). pose proof (pk_size _ _ Px) as Sx.
    split_and!; [done|rewrite L12; f_equal; lia|rewrite L13; unfold TCP_FLAG_ACK; f_equal; lia]. }
  exists (k_v6 k0), (k_ip_hlen k0), a, b. split_and!; try done; [by apply (Hpure p0 k0)|by apply (Hpure p k)|]. rewrite (pk_size _ _ P), (pk_size _ _ P0). lia.
Qed.

Lemma join_spec i e h p0 k0 kl g pushed outs hs p k : inv g pushed outs hs -> hs !! i = Some h -> held e h p0 k0 kl -> (e_proto e = MQVPN_IPPROTO_UDP -> (if e_v6 e then udp6 g else udp4 g) = true) ->
  parsed p k -> flow_key p = flow_key p0 ->
  dwp (gro_join i e p k) g (fun joined g' => udp4 g' = udp4 g /\ udp6 g' = udp6 g /\ if (joined : bool) then exists hs', inv g' (pushed ++ [p]) outs hs' else g' = g).
Proof.
  intros I Hi H Hu P Hk. pose proof (h_parsed _ _ _ _ _ H) as P0. pose proof (proj1 (flow_key_eq p k p0 k0 P P0) Hk) as (Ev & Ep & _). destruct (held_bounds _ _ _ _ _ H) as (B1 & B2 & B3 & B4 & B5 & B6 & B7).
  assert (Hne : h <> []) by (pose proof (h_first _ _ _ _ _ H) as Hf; by intros ->). assert (Hno : dwp (mret false : stM mqvpn_gro_t bool) g (fun joined g' => udp4 g' = udp4 g /\ udp6 g' = udp6 g /\ if (joined : bool) then exists hs', inv g' (pushed ++ [p]) outs hs' else g' = g)) by by apply dwp_ret.
  assert (Happ : forall e', continues e p0 k0 p k -> appended e p k e' -> dwp (put_slot i e' ;; mret true : stM mqvpn_gro_t bool) g (fun joined g' => udp4 g' = udp4 g /\ udp6 g' = udp6 g /\ if (joined : bool) then exists hs', inv g' (pushed ++ [p]) outs hs' else g' = g)).
  { intros e' C A. unfold put_slot. apply dwp_bind, dwp_modify, dwp_ret. split_and!; [done|done|]. exists (<[i := h ++ [p]]> hs). apply inv_put; [done|done| |done]. pose proof (a_same _ _ _ _ A) as S. injection S as Su Sa S6 Sp Sh Sl Sg.
    unfold slot_holds. rewrite Su, (h_used _ _ _ _ _ H), Sp, S6. split; [|done]. exists p0, k0, k. by apply (appended_held e h p0 k0 kl). }
  unfold gro_join. destruct (Z.eqb_spec (k_proto k) MQVPN_IPPROTO_UDP) as [Eu|Eu].
  - destruct (udp_can_append_passes e h p0 k0 kl H p k P Ev) as (b & Eb & Hb). apply dwp_bind. eapply dwp_lift; [exact Eb|]. destruct b; [|done]. destruct (Hb eq_refl) as (C1 & C2 & C3 & C4 & C5). rewrite Ep in Eu. clear Hno.
    assert (C : continues e p0 k0 p k). { pose proof (pk_l4 _ _ P) as L. pose proof (pk_l4 _ _ P0) as L0. rewrite Ep, Eu in L. rewrite Eu in L0. cbn [Z.eqb Pos.eqb MQVPN_IPPROTO_TCP MQVPN_IPPROTO_UDP] in L, L0.
      split; try done; [lia|rewrite (h_ack _ _ _ _ _ H), Eu; done|lia|rewrite Eu; done|intros _ E4; apply C5; by rewrite Ev]. }
    destruct (append_udp_appended e h p0 k0 kl H p k C Eu) as (e' & Ee & A). apply dwp_bind. eapply dwp_lift; [exact Ee|]. by apply Happ.
  - assert (Et : k_proto k = MQVPN_IPPROTO_TCP) by (by destruct (pk_proto _ _ P)). assert (Et0 : k_proto k0 = MQVPN_IPPROTO_TCP) by (by rewrite <- Ep). destruct (Z.eqb_spec (k_payload k) 0) as [E0|E0].
    + destruct (ack_only e) eqn:Ea; [|apply dwp_bind, dwp_ret; done]. destruct (ack_supersedes_passes e h p0 k0 kl H p k P Ev Et Et0) as (b & Eb & Hb). apply dwp_bind. eapply dwp_lift; [exact Eb|]. destruct b; [|done].
      destruct (Hb eq_refl) as (C1 & C2 & C3 & C4 & C5). unfold put_slot. apply dwp_bind, dwp_modify, dwp_bind, dwp_modify, dwp_ret. split_and!; [done|done|]. pose proof (h_ack1 _ _ _ _ _ H Ea) as Eh. exists (<[i := [p]]> hs).
      apply (inv_frame (g <| slots ::= <[i := e <| e_buf := p |>]> |>)); try done. apply (inv_replace g pushed outs hs i p0); [done|by rewrite Hi, Eh| | |done].
      * assert (Hr : held (e <| e_buf := p |>) [p] p k k); [|unfold slot_holds; rewrite (h_used _ _ _ _ _ Hr); split; [by exists p, k, k|exact Hu]]. apply (replaced_held e h p0 k0 kl H p k); try done.
        pose proof (pk_l4 _ _ P) as L. pose proof (pk_l4 _ _ P0) as L0. rewrite Et, Z.eqb_refl in L. rewrite Et0, Z.eqb_refl in L0. assert (Ek : k_ip_hlen k = k_ip_hlen k0) by (rewrite (pk_hlen _ _ P), (pk_hlen _ _ P0); by rewrite Ev).
        destruct L as (_ & _ & _ & L & _), L0 as (_ & _ & _ & L0 & _). rewrite Ek, C3, L0 in L. by injection L.
      * by apply (superseded_intro e h p0 k0 kl p k).
    + destruct (can_append_passes e h p0 k0 kl H p k P Ev Et Et0) as (b & Eb & Hb). apply dwp_bind. eapply dwp_lift; [exact Eb|]. destruct b; [|done]. destruct (Hb eq_refl) as (C1 & C2 & C3 & C4 & C5 & C6 & C7 & C8). pose proof (pk_payload _ _ P).
      assert (C : continues e p0 k0 p k) by (split; try done; [lia|rewrite Et0; done]). destruct (append_tcp_appended e h p0 k0 kl H p k C Et0) as (e' & Ee & A). apply dwp_bind. eapply dwp_lift; [exact Ee|]. by apply Happ.
Qed.

(** What is held in a slot. *)
Lemma inv_slot g pushed outs hs i h : inv g pushed outs hs -> hs !! i = Some h -> exists e, slots g !! i = Some e /\ slot_holds g e h.
Proof. intros I Hi. by apply (Forall2_lookup_r _ _ _ _ _ (gi_slots _ _ _ _ _ _ I)). Qed.

Lemma inv_elem g pushed outs hs h q : inv g pushed outs hs -> h ∈ hs -> q ∈ h -> exists e p0 k0 kl, held e h p0 k0 kl /\ flow_key q = flow_key p0 /\ (k_proto k0 = MQVPN_IPPROTO_UDP -> (if k_v6 k0 then udp6 g else udp4 g) = true).
Proof.
  intros I (i & Hi)%list_elem_of_lookup Hq. destruct (inv_slot _ _ _ _ _ _ I Hi) as (e & _ & He). unfold slot_holds in He. destruct (e_used e); [|subst h; by apply not_elem_of_nil in Hq].
  destruct He as [(p0 & k0 & kl & H) Hu]. exists e, p0, k0, kl. split_and!; [done|by apply (held_key _ _ _ _ _ H)|]. by rewrite (h_proto _ _ _ _ _ H), (h_v6 _ _ _ _ _ H) in Hu.
Qed.

(** After the search: the packet joined its flow, or no slot holds it. *)
Definition searched (g : mqvpn_gro_t) (pushed : list (list Z)) (p : list Z) (r : gro_found) (g' : mqvpn_gro_t) : Prop :=
  udp4 g' = udp4 g /\ udp6 g' = udp6 g /\ exists outs hs,
    match r with GroJoined => inv g' (pushed ++ [p]) outs hs | GroSlot f => inv g' pushed outs hs /\ no_flow hs (flow_key p) /\ forall i, f = Some i -> hs !! i = Some [] end.

Lemma search_spec n i g pushed outs hs p k free : inv g pushed outs hs -> parsed p k -> (i + n = 8)%nat -> (forall j h q, (j < i)%nat -> hs !! j = Some h -> q ∈ h -> flow_key q <> flow_key p) ->
  (forall j, free = Some j -> hs !! j = Some []) -> dwp (gro_search le emit_ret EINVAL n i p k free) g (searched g pushed p).
Proof.
  revert i free. induction n as [|n IH]; intros i free I P Hn Hbelow Hfree; cbn [gro_search]; pose proof (inv_slots_len _ _ _ _ _ _ I) as Hl.
  { apply dwp_ret. split_and!; [done|done|]. exists outs, hs. split_and!; [done| |done]. intros h q (j & Hj)%list_elem_of_lookup Hq. apply (Hbelow j h q); [apply lookup_lt_Some in Hj; lia|done|done]. }
  destruct (lookup_lt_is_Some_2 hs i ltac:(lia)) as (h & Hi). destruct (inv_slot _ _ _ _ _ _ I Hi) as (e & He & Hh). apply dwp_bind, dwp_get, dwp_bind. eapply dwp_lift; [exact He|]. unfold slot_holds in Hh. destruct (e_used e); cbn [negb]; cycle 1.
  { subst h. apply (IH (S i)); [done|done|lia| |].
    - intros j h q Hj Hjh Hq. destruct (decide (j = i)) as [->|Hne]; [rewrite Hi in Hjh; injection Hjh as <-; by apply not_elem_of_nil in Hq|]. apply (Hbelow j h q); [lia|done|done].
    - intros j. destruct free as [f|]; [apply Hfree|]. by intros [= <-]. }
  destruct Hh as [(p0 & k0 & kl & H) Hu]. destruct (same_flow_tests e h p0 k0 kl H p k P) as (b & Eb & Hb). apply dwp_bind. eapply dwp_lift; [exact Eb|]. destruct b; cbn [negb]; cycle 1.
  { apply (IH (S i)); [done|done|lia| |done]. intros j h' q Hj Hjh Hq. destruct (decide (j = i)) as [->|Hne]; [|apply (Hbelow j h' q); [lia|done|done]]. rewrite Hi in Hjh. injection Hjh as <-. rewrite (held_key _ _ _ _ _ H q Hq). intros E. by pose proof (proj2 Hb (eq_sym E)). }
  pose proof (proj1 Hb eq_refl) as Hk. apply dwp_bind. eapply dwp_mono; [apply (join_spec i e h p0 k0 kl g pushed outs hs p k I Hi H Hu P Hk)|]. intros b g1 (E4 & E6 & Hj). destruct b.
  - destruct Hj as (hs' & I'). apply dwp_ret. split_and!; [done|done|]. by exists outs, hs'.
  - subst g1. apply dwp_bind. eapply dwp_mono; [apply (flush_one le EINVAL emit_ret i h g pushed outs hs I Hi)|]. intros _ g' (I' & E4' & E6'). apply dwp_ret. split_and!; [done|done|]. exists (outs ++ h), (<[i := []]> hs). split_and!; [done| |].
    + intros h' q (j & Hj)%list_elem_of_lookup Hq E. destruct (decide (j = i)) as [->|Hne]; [rewrite list_lookup_insert_eq in Hj by lia; injection Hj as <-; by apply not_elem_of_nil in Hq|].
      rewrite list_lookup_insert_ne in Hj by done. apply Hne. apply (gi_apart _ _ _ _ _ _ I j i h' h q p0 Hj Hi Hq); [|congruence]. by apply list_elem_of_lookup_2 with 0%nat, (h_first _ _ _ _ _ H).
    + intros j [= <-]. apply list_lookup_insert_eq. lia.
Qed.

Lemma start_spec g pushed outs hs p k free : inv g pushed outs hs -> parsed p k -> (k_proto k = MQVPN_IPPROTO_UDP -> (if k_v6 k then udp6 g else udp4 g) = true) -> no_flow hs (flow_key p) -> (forall i, free = Some i -> hs !! i = Some []) ->
  dwp (gro_start le emit_ret EINVAL p k free) g (fun _ g' => udp4 g' = udp4 g /\ udp6 g' = udp6 g /\ exists outs' hs', inv g' (pushed ++ [p]) outs' hs').
Proof.
  intros I P Hu Hno Hfree. unfold gro_start. apply dwp_bind.
  apply (dwp_mono _ _ (fun i g' => udp4 g' = udp4 g /\ udp6 g' = udp6 g /\ exists outs' hs', inv g' pushed outs' hs' /\ no_flow hs' (flow_key p) /\ hs' !! i = Some [])).
  - destruct free as [i|]; [apply dwp_ret; split_and!; [done|done|]; exists outs, hs; auto|]. apply dwp_bind, dwp_get, dwp_bind, dwp_modify, dwp_bind. unfold GRO_SLOTS. set (i := Z.to_nat (victim g mod 8)).
    assert (Hi8 : (i < 8)%nat) by (pose proof (Z.mod_pos_bound (victim g) 8 ltac:(lia)); lia). pose proof (inv_slots_len _ _ _ _ _ _ I) as Hl. destruct (lookup_lt_is_Some_2 hs i ltac:(lia)) as (h & Hi).
    eapply dwp_mono; [apply (flush_one le EINVAL emit_ret i h _ pushed outs hs); [by apply (inv_frame g)|done]|]. intros _ g' (I' & E4 & E6). apply dwp_ret. split_and!; [done|done|]. exists (outs ++ h), (<[i := []]> hs). split_and!; [done| |apply list_lookup_insert_eq; lia].
    intros h' q (j & Hj)%list_elem_of_lookup Hq. destruct (decide (j = i)) as [->|Hne]; [rewrite list_lookup_insert_eq in Hj by lia; injection Hj as <-; by apply not_elem_of_nil in Hq|]. rewrite list_lookup_insert_ne in Hj by done. apply (Hno h' q); [by apply list_elem_of_lookup_2 in Hj|done].
  - intros i g' (E4 & E6 & outs' & hs' & I' & Hno' & Hi'). destruct (new_entry_held p k P) as (e & Ee & H). apply dwp_bind. eapply dwp_lift; [exact Ee|]. unfold put_slot. apply dwp_modify. split_and!; [done|done|]. exists outs', (<[i := [] ++ [p]]> hs').
    apply inv_put; [done|done| |done]. unfold slot_holds. rewrite (h_used _ _ _ _ _ H), (h_proto _ _ _ _ _ H), (h_v6 _ _ _ _ _ H), E4, E6. split; [by exists p, k, k|done].
Qed.

(** A packet that goes out at once. *)
Lemma inv_emit g pushed outs hs p r : inv g pushed outs hs -> no_flow hs (flow_key p) -> inv (g <| emitted_log ::= fun l => l ++ [GroOut plain_vh p r] |>) (pushed ++ [p]) (outs ++ [p]) hs.
Proof.
  intros I Hno. split; cbn [update slots emitted_log udp4 udp6]; [apply I|apply I|apply I| |].
  - destruct (gi_sent _ _ _ _ _ _ I) as (sent & Ed & Hs). exists (sent ++ [p]). split; [by apply delivered_app|]. apply Forall2_app; [done|]. apply same_packet_refl.
  - intros K. apply (thinned_push K pushed (outs ++ concat hs)); [apply I|]. rewrite !of_flow_app, <- !app_assoc. f_equal. destruct (decide (flow_key p = K)) as [<-|Hne].
    + rewrite (no_flow_concat _ _ Hno). by rewrite app_nil_r.
    + assert (Ep : of_flow K [p] = []) by (apply of_flow_none; intros q Hq; apply list_elem_of_singleton in Hq; by subst). rewrite Ep. by rewrite app_nil_r.
Qed.

(** [q] has other addresses than [p]. *)
Definition other_addr (v6 : bool) (p q : list Z) : Prop := forall a proto ports, flow_key q = Some (v6, a, proto, ports) -> rdn p (if v6 then 8 else 12) (if v6 then 32 else 8) <> Some a.

Lemma flush_addresses_spec n i g pushed outs hs p (v6 : bool) : inv g pushed outs hs -> (i + n = 8)%nat -> (if v6 then 40 else 20) <= blen p -> (forall j h q, (j < i)%nat -> hs !! j = Some h -> q ∈ h -> other_addr v6 p q) ->
  dwp (flush_addresses le emit_ret EINVAL n i p v6) g (fun _ g' => udp4 g' = udp4 g /\ udp6 g' = udp6 g /\ exists outs' hs', inv g' pushed outs' hs' /\ forall h q, h ∈ hs' -> q ∈ h -> other_addr v6 p q).
Proof.
  revert i g outs hs. induction n as [|n IH]; intros i g outs hs I Hn Hp Hbelow; cbn [flush_addresses]; pose proof (inv_slots_len _ _ _ _ _ _ I) as Hl.
  { apply dwp_skip. split_and!; [done|done|]. exists outs, hs. split; [done|]. intros h q (j & Hj)%list_elem_of_lookup Hq. apply (Hbelow j h q); [apply lookup_lt_Some in Hj; lia|done|done]. }
  destruct (lookup_lt_is_Some_2 hs i ltac:(lia)) as (h & Hi). destruct (inv_slot _ _ _ _ _ _ I Hi) as (e & He & Hh). apply dwp_bind, dwp_get, dwp_bind. eapply dwp_lift; [exact He|].
  assert (Hnext : (forall q, q ∈ h -> other_addr v6 p q) -> forall j h' q, (j < S i)%nat -> hs !! j = Some h' -> q ∈ h' -> other_addr v6 p q).
  { intros Hq j h' q Hj Hjh Hin. destruct (decide (j = i)) as [->|Hne]; [rewrite Hi in Hjh; injection Hjh as <-; by apply Hq|]. apply (Hbelow j h' q); [lia|done|done]. }
  assert (Htest : exists m : bool, dwp (if e_used e && Bool.eqb (e_v6 e) v6 then d_lift (mem_eq (e_buf e) (if v6 then 8 else 12) p (if v6 then 8 else 12) (if v6 then 32 else 8)) else mret false) g (fun b g' => b = m /\ g' = g) /\ (m = false -> forall q, q ∈ h -> other_addr v6 p q)).
  { unfold slot_holds in Hh. destruct (e_used e); cbn [andb]; [|exists false; split; [by apply dwp_ret|]; intros _ q Hq; subst h; by apply not_elem_of_nil in Hq]. destruct Hh as [(p0 & k0 & kl & H) _]. destruct (flow_key_is _ _ (h_parsed _ _ _ _ _ H)) as (a0 & po0 & Hk & E0). rewrite (h_v6 _ _ _ _ _ H).
    destruct (Bool.eqb (k_v6 k0) v6) eqn:Ev; cycle 1.
    - exists false. split; [by apply dwp_ret|]. intros _ q Hq a pr po E. rewrite (held_key _ _ _ _ _ H q Hq), Hk in E. injection E as E _ _ _. by rewrite E, eqb_reflx in Ev.
    - apply eqb_prop in Ev. subst v6. destruct (held_bounds _ _ _ _ _ H) as (B1 & B2 & B3 & _ & _ & B6 & _). pose proof (pk_hlen _ _ (h_parsed _ _ _ _ _ H)) as Hh0. unfold ip_len, hdr_len in *.
      destruct (mem_eq_head e h p0 k0 kl H p (if k_v6 k0 then 8 else 12) (if k_v6 k0 then 32 else 8)) as (m & Em & Hm); [destruct (k_v6 k0); unfold hdr_len in *; lia..|].
      exists m. split; [eapply dwp_lift; [|done]; destruct (k_v6 k0); exact Em|]. intros -> q Hq a pr po E Er. rewrite (held_key _ _ _ _ _ H q Hq), Hk in E.
      injection E as -> _ _. enough (false = true) by done. apply Hm. apply rdn_agree; [destruct (k_v6 k0); lia..|]. by rewrite Er, E0. }
  destruct Htest as (m & Hm & Hoth). assert (Epair : (if v6 then (8, 32) else (12, 8)) = ((if v6 then 8 else 12), (if v6 then 32 else 8))) by (by destruct v6). rewrite Epair. cbv beta iota.
  apply dwp_bind. eapply dwp_mono; [exact Hm|]. intros b g1 [-> ->]. apply dwp_bind. destruct m.
  - eapply dwp_mono; [apply (flush_one le EINVAL emit_ret i h g pushed outs hs I Hi)|]. intros _ g' (I' & E4 & E6). eapply dwp_mono; [apply (IH (S i) g' _ _ I'); [lia|done|]|].
    + intros j h' q Hj Hjh Hq. destruct (decide (j = i)) as [->|Hne]; [rewrite list_lookup_insert_eq in Hjh by lia; injection Hjh as <-; by apply not_elem_of_nil in Hq|]. rewrite list_lookup_insert_ne in Hjh by done. apply (Hbelow j h' q); [lia|done|done].
    + intros _ g'' (E4' & E6' & R). split_and!; [congruence|congruence|done].
  - apply dwp_skip. apply (IH (S i) g outs hs I); [lia|done|]. by apply Hnext, Hoth.
Qed.

(** The key of a packet, taken apart. *)
Lemma flow_key_some p v6 a proto ports : flow_key p = Some (v6, a, proto, ports) -> exists b0, rd p 0 = Some b0 /\ Z.shiftr b0 4 = (if v6 then 6 else 4) /\ rdn p (if v6 then 8 else 12) (if v6 then 32 else 8) = Some a /\ rd p (if v6 then 6 else 9) = Some proto /\
  (proto = MQVPN_IPPROTO_TCP \/ proto = MQVPN_IPPROTO_UDP).
Proof.
  unfold flow_key. destruct (rd p 0) as [b0|]; [|done]. cbn [mbind option_bind]. intros E. exists b0. split; [done|].
  assert (Hg : forall (w : bool) o n l pf, (addrs ← rdn p o n; pr ← rd p pf; po ← rdn p l 4; if (pr =? MQVPN_IPPROTO_TCP) || (pr =? MQVPN_IPPROTO_UDP) then Some (w, addrs, pr, po) else None) = Some (v6, a, proto, ports) ->
    w = v6 /\ rdn p o n = Some a /\ rd p pf = Some proto /\ (proto = MQVPN_IPPROTO_TCP \/ proto = MQVPN_IPPROTO_UDP)).
  { intros w o n l pf Ex. destruct (rdn p o n); [|done]. cbn [mbind option_bind] in Ex. destruct (rd p pf); [|done]. cbn [mbind option_bind] in Ex. destruct (rdn p l 4); [|done]. cbn [mbind option_bind] in Ex. destruct (_ || _) eqn:Eo in Ex; [|done].
    injection Ex as -> -> -> _. split_and!; try done. apply orb_true_iff in Eo as [Eo|Eo]; apply Z.eqb_eq in Eo; auto. }
  destruct (Z.eqb_spec (Z.shiftr b0 4) 4) as [E4|_]; [|destruct (Z.eqb_spec (Z.shiftr b0 4) 6) as [E6|_]; [|done]]; cbn [mbind option_bind] in E; apply Hg in E as (<- & E1 & E2 & E3); done.
Qed.

Lemma pass_spec g pushed outs hs p : inv g pushed outs hs -> 0 < blen p -> dwp (gro_pass le emit_ret EINVAL p) g (fun _ g' => udp4 g' = udp4 g /\ udp6 g' = udp6 g /\ exists outs' hs', inv g' (pushed ++ [p]) outs' hs').
Proof.
  intros I Hp. unfold gro_pass. apply dwp_bind, dwp_get. destruct (rd_in_bounds p 0) as (b0 & E0); [lia|].
  assert (Hf : exists follow, gro_may_follow_held g p = Some follow /\ (follow = true -> (if Z.shiftr b0 4 =? 6 then 40 else 20) <= blen p) /\
    (follow = false -> no_flow hs (flow_key p))).
  { unfold gro_may_follow_held, IPV4_MIN_HLEN, IPV6_HLEN. rewrite E0. cbn [mbind option_bind].
    assert (Hkey : (forall v6 a proto ports, flow_key p = Some (v6, a, proto, ports) -> Z.shiftr b0 4 = (if v6 then 6 else 4) -> rdn p (if v6 then 8 else 12) (if v6 then 32 else 8) = Some a -> rd p (if v6 then 6 else 9) = Some proto ->
      (proto = MQVPN_IPPROTO_TCP \/ proto = MQVPN_IPPROTO_UDP) -> proto = MQVPN_IPPROTO_UDP /\ (if v6 then udp6 g else udp4 g) = false) -> no_flow hs (flow_key p)).
    { intros Hc h q Hh Hq E. destruct (inv_elem _ _ _ _ _ _ I Hh Hq) as (e & p0 & k0 & kl & H & Ek & Hu). destruct (flow_key_is _ _ (h_parsed _ _ _ _ _ H)) as (a & po & Hk & _). rewrite <- E, Ek in Hc.
      destruct (flow_key_some p (k_v6 k0) a (k_proto k0) po) as (b & Eb & Hv & Ha & Hpr & Htu); [by rewrite <- E, Ek|]. rewrite E0 in Eb. injection Eb as <-. destruct (Hc _ _ _ _ Hk Hv Ha Hpr Htu) as [Eu Ef]. rewrite (Hu Eu) in Ef. done. }
    destruct (Z.eqb_spec (Z.shiftr b0 4) 4) as [E4|E4].
    - rewrite E4. change (4 =? 6) with false. cbv iota. destruct (Z.ltb_spec (blen p) 20); [exists false; split_and!; [done|done|]|].
      + intros _. apply Hkey. intros v6 a pr po _ Hv Ha _ _. rewrite E4 in Hv. destruct v6; [done|]. apply rdn_spec in Ha as (_ & _ & _ & Ha). lia.
      + destruct (rd_in_bounds p 9) as (b9 & E9); [lia|]. rewrite E9. cbn [mbind option_bind]. eexists. split_and!; [done|done|]. intros Ef. apply Hkey. intros v6 a pr po _ Hv _ Hpr Htu. rewrite E4 in Hv. destruct v6; [done|]. rewrite E9 in Hpr. injection Hpr as ->.
        destruct Htu as [-> | ->]; [done|]. split; [done|]. by cbn in Ef.
    - destruct (Z.eqb_spec (Z.shiftr b0 4) 6) as [E6|E6].
      + destruct (Z.ltb_spec (blen p) 40); [exists false; split_and!; [done|done|]|].
        * intros _. apply Hkey. intros v6 a pr po _ Hv Ha _ _. rewrite E6 in Hv. destruct v6; [|done]. apply rdn_spec in Ha as (_ & _ & _ & Ha). lia.
        * destruct (rd_in_bounds p 6) as (b6 & Eb6); [lia|]. rewrite Eb6. cbn [mbind option_bind]. eexists. split_and!; [done|done|]. intros Ef. apply Hkey. intros v6 a pr po _ Hv _ Hpr Htu. rewrite E6 in Hv. destruct v6; [|done]. rewrite Eb6 in Hpr. injection Hpr as ->.
          destruct Htu as [-> | ->]; [done|]. split; [done|]. by cbn in Ef.
      + exists false. split_and!; [done|done|]. intros _. apply Hkey. intros v6 a pr po _ Hv. destruct v6; congruence. }
  destruct Hf as (follow & Ef & Hlen & Hno). apply dwp_bind. eapply dwp_lift; [exact Ef|]. apply dwp_bind.
  apply (dwp_mono _ _ (fun _ g' => udp4 g' = udp4 g /\ udp6 g' = udp6 g /\ exists outs' hs', inv g' pushed outs' hs' /\ no_flow hs' (flow_key p))).
  - destruct follow; [|apply dwp_skip; split_and!; [done|done|]; exists outs, hs; auto]. apply dwp_bind. eapply dwp_lift; [exact E0|]. eapply dwp_mono; [apply (flush_addresses_spec 8 0 g pushed outs hs p (Z.shiftr b0 4 =? 6) I); [done|by apply Hlen|]|].
    + intros j h q Hj. lia.
    + intros _ g' (E4 & E6 & outs' & hs' & I' & Hoth). split_and!; [done|done|]. exists outs', hs'. split; [done|]. intros h q Hh Hq E. destruct (inv_elem _ _ _ _ _ _ I' Hh Hq) as (e & p0 & k0 & kl & H & Ek & _). destruct (flow_key_is _ _ (h_parsed _ _ _ _ _ H)) as (a & po & Hk & _).
      destruct (flow_key_some p (k_v6 k0) a (k_proto k0) po) as (b & Eb & Hv & Ha & _); [by rewrite <- E, Ek|]. rewrite E0 in Eb. injection Eb as <-. specialize (Hoth h q Hh Hq a (k_proto k0) po). rewrite Ek, Hk, Hv in Hoth. destruct (k_v6 k0); by apply Hoth.
  - intros _ g' (E4 & E6 & outs' & hs' & I' & Hno'). apply dwp_gro_emit_plain. intros r. split_and!; [done|done|]. exists (outs' ++ [p]), hs'. by apply inv_emit.
Qed.

Lemma push_spec g pushed outs hs p : inv g pushed outs hs -> bytes_ok p -> dwp (mqvpn_gro_push le emit_ret EINVAL p) g (fun _ g' => exists outs' hs', inv g' (pushed ++ [p]) outs' hs').
Proof.
  intros I Hb. unfold mqvpn_gro_push. apply dwp_bind, dwp_modify. set (g0 := update _ _ g). assert (I0 : inv g0 pushed outs hs) by (by apply (inv_frame g)). clearbody g0. clear I g. destruct (Z.eqb_spec (blen p) 0) as [E0|E0].
  - apply dwp_gro_emit_plain. intros r. exists (outs ++ [p]), hs. apply inv_emit; [done|]. assert (Ep : p = []) by (destruct p; [done|unfold blen in E0; cbn in E0; lia]). intros h q Hh Hq E. destruct (inv_elem _ _ _ _ _ _ I0 Hh Hq) as (e & p0 & k0 & kl & H & Ek & _).
    destruct (flow_key_is _ _ (h_parsed _ _ _ _ _ H)) as (a & po & Hk & _). rewrite Ek, Hk, Ep in E. done.
  - pose proof (blen_nonneg p). assert (Hpass : dwp (gro_pass le emit_ret EINVAL p) g0 (fun _ g' => exists outs' hs', inv g' (pushed ++ [p]) outs' hs')) by (eapply dwp_mono; [apply (pass_spec g0 pushed outs hs p I0); lia|]; intros _ g' (_ & _ & Hx); exact Hx).
    apply dwp_bind, dwp_get, dwp_bind. unfold GRO_MAX_LEN. destruct (Z.ltb_spec 65535 (blen p)); [by apply dwp_ret|]. destruct (gro_parse_spec g0 p Hb) as (r & Er & Hr); [lia|]. eapply dwp_lift; [exact Er|]. destruct r as [k|]; [|done]. destruct (Hr k eq_refl) as [P Hu].
    apply dwp_bind. eapply dwp_mono; [apply (search_spec 8 0 g0 pushed outs hs p k None I0 P); [done|intros j h q Hj; lia|done]|]. intros r g1 (E4 & E6 & outs' & hs' & Hs). destruct r as [|f].
    + apply dwp_skip. by exists outs', hs'.
    + destruct Hs as (I1 & Hno & Hf). eapply dwp_mono; [apply (start_spec g1 pushed outs' hs' p k f I1 P); [by rewrite E4, E6|done|done]|]. intros _ g' (_ & _ & Hx). exact Hx.
Qed.

Lemma set_udp_spec g pushed outs hs v4 v6 : inv g pushed outs hs -> dwp (mqvpn_gro_set_udp le emit_ret EINVAL v4 v6) g (fun _ g' => exists outs' hs', inv g' pushed outs' hs').
Proof.
  intros I. unfold mqvpn_gro_set_udp. apply dwp_bind. eapply dwp_mono; [by apply (flush_spec le EINVAL emit_ret g pushed outs hs)|]. intros _ g' ((outs' & I') & _). apply dwp_modify. exists outs', (replicate 8 []).
  split; cbn [update slots emitted_log]; [apply I'| |apply I'|apply I'|apply I']. pose proof (gi_slots _ _ _ _ _ _ I') as Hs. apply Forall2_same_length_lookup. split; [by apply (Forall2_length _ _ _ Hs)|]. intros j e h He Hh.
  pose proof (Forall2_lookup_lr _ _ _ _ _ _ Hs He Hh) as Hx. apply lookup_replicate in Hh as [-> _]. unfold slot_holds in Hx |- *. destruct (e_used e); [|done]. destruct Hx as [(p0 & k0 & kl & H) _]. by pose proof (h_first _ _ _ _ _ H).
Qed.

Lemma new_inv : inv mqvpn_gro_new [] [] (replicate 8 []).
Proof.
  split; cbn [slots emitted_log mqvpn_gro_new]; [done| |..].
  - by repeat constructor.
  - intros i j a b p q Ha Hb Hp. apply lookup_replicate in Ha as [-> _]. by apply not_elem_of_nil in Hp.
  - exists []. by split; [|constructor].
  - intros K. apply thin_nil.
Qed.

(** ** Operation sequences *)

Inductive gro_op := GroPush (p : list Z) | GroFlush | GroSetUdp (v4 v6 : bool).

Definition gro_step (o : gro_op) : stM mqvpn_gro_t unit :=
  match o with
  | GroPush p => mqvpn_gro_push le emit_ret EINVAL p
  | GroFlush => mqvpn_gro_flush le emit_ret EINVAL
  | GroSetUdp v4 v6 => mqvpn_gro_set_udp le emit_ret EINVAL v4 v6
  end.

Fixpoint gro_run (ops : list gro_op) : stM mqvpn_gro_t unit :=
  match ops with [] => d_skip | o :: ops => gro_step o ;; gro_run ops end.

Definition op_packets (o : gro_op) : list (list Z) := match o with GroPush p => [p] | _ => [] end.
Definition packets (ops : list gro_op) : list (list Z) := concat (op_packets <$> ops).

Lemma gro_run_spec ops g pushed outs hs : inv g pushed outs hs -> Forall bytes_ok (packets ops) -> dwp (gro_run ops) g (fun _ g' => exists outs' hs', inv g' (pushed ++ packets ops) outs' hs').
Proof.
  revert g pushed outs hs. induction ops as [|o ops IH]; intros g pushed outs hs I Hb; cbn [gro_run].
  - apply dwp_skip. exists outs, hs. by rewrite app_nil_r.
  - apply Forall_app in Hb as [Ho Hops]. apply dwp_bind. apply (dwp_mono _ _ (fun _ g' => exists outs' hs', inv g' (pushed ++ op_packets o) outs' hs')).
    + destruct o as [p| |v4 v6]; cbn [op_packets gro_step] in *; rewrite ?app_nil_r.
      * apply (push_spec g pushed outs hs p I). by apply Forall_cons in Ho as [Ho _].
      * eapply dwp_mono; [apply (flush_spec le EINVAL emit_ret g pushed outs hs I)|]. intros _ g' ((outs' & I') & _). by eexists _, _.
      * apply (set_udp_spec g pushed outs hs v4 v6 I).
    + intros _ g' (outs' & hs' & I'). eapply dwp_mono; [apply (IH g' _ _ _ I' Hops)|]. intros u g'' H. cbv beta in H. unfold packets in *. cbn [fmap list_fmap concat]. by rewrite app_assoc.
Qed.

Lemma gro_run_app a b g : gro_run (a ++ b) g = (gro_run a ;; gro_run b) g.
Proof.
  revert g. induction a as [|o a IH]; intros g; [done|]. cbn [app gro_run]. unfold mbind, stM_bind in *. destruct (gro_step o g) as [[[] g']|]; [|done]. apply IH.
Qed.

Lemma dwp_run_app a b g (Q : unit -> mqvpn_gro_t -> Prop) : dwp (gro_run a ;; gro_run b) g Q -> dwp (gro_run (a ++ b)) g Q.
Proof. unfold dwp. by rewrite gro_run_app. Qed.

Lemma nothing_held g pushed outs : inv g pushed outs (replicate 8 []) -> mqvpn_gro_pending g = false.
Proof.
  intros I. unfold mqvpn_gro_pending. apply not_true_is_false. intros Hx. apply existsb_exists in Hx as (e & He & Hu). apply list_elem_of_In, list_elem_of_lookup in He as (i & Hi).
  destruct (Forall2_lookup_l _ _ _ _ _ (gi_slots _ _ _ _ _ _ I) Hi) as (h & Hh & Hs). apply lookup_replicate in Hh as [-> _]. unfold slot_holds in Hs. rewrite Hu in Hs. destruct Hs as [(p0 & k0 & kl & H) _]. by pose proof (h_first _ _ _ _ _ H).
Qed.

End run.


(** Packets of 10.0.0.1:80 to 10.0.0.2:443: data, data with PSH, and pure
    acknowledgements; one of port 81 with FIN. *)
Definition sample_tcp (port seq ack flags : Z) (data : list Z) : list Z :=
  [69; 0; 0; 40 + blen data; 0; seq; 64; 0; 64; 6; 0; 0; 10; 0; 0; 1; 10; 0; 0; 2] ++ [0; port; 1; 187; 0; 0; 0; seq; 0; 0; 0; ack; 80; flags; 2; 0; 0; 0; 0; 0] ++ data.

Definition sample_ops : list gro_op :=
  [GroPush (sample_tcp 80 10 7 16 [1; 2; 3]); GroPush (sample_tcp 80 13 7 24 [4; 5]); GroPush (sample_tcp 81 1 7 17 []); GroPush (sample_tcp 82 4 1 16 []); GroPush (sample_tcp 82 4 2 16 [])].

(** UDP datagrams of the same addresses, merged, refused and cut again. *)
Definition sample_dgram (id : Z) (data : list Z) : list Z :=
  [69; 0; 0; 28 + blen data; 0; id; 0; 0; 64; 17; 0; 0; 10; 0; 0; 1; 10; 0; 0; 2] ++ [0; 53; 0; 54; 0; 8 + blen data; 1; 1] ++ data.

Definition emitted_view (m : option (unit * mqvpn_gro_t)) : option (list (Z * Z) * Z * bool) :=
  '(_, g) ← m; Some ((fun o => (gso_type (out_vh o), blen (out_pkt o))) <$> emitted_log g, acks g, udp_refused g).

Example sample_ops_merge : emitted_view (gro_run true 22 (fun _ => 0) (sample_ops ++ [GroFlush]) mqvpn_gro_new) = Some ([(1, 45); (0, 40); (0, 40)], 1, false).
Proof. by vm_compute. Qed.

Example sample_udp_refused : emitted_view (gro_run false 22 (fun n => if (n =? 0)%nat then -22 else 0)
  [GroSetUdp true true; GroPush (sample_dgram 5 [1; 2]); GroPush (sample_dgram 6 [3; 4]); GroPush (sample_dgram 7 [5]); GroFlush] mqvpn_gro_new) = Some ([(5, 33); (0, 30); (0, 30); (0, 29)], 0, true).
Proof. by vm_compute. Qed.

