(* ===== verification/SniParse.v ===== *)
(** * Parsers of the SNI router ([src/sni_router.c])

    The QUIC long header, packet numbers, the frames of an Initial packet, the
    reassembly of the CRYPTO stream and the search for the server name in a
    ClientHello.  Buffers are lists of bytes, C strings lists of non-zero bytes
    without their terminator.  A read outside a buffer, a read of a byte of the
    CRYPTO buffer that was never written and a size subtraction that would wrap
    are [None]. *)

From S2P Require Import Prelude StateOpt.

Definition QUIC_V1 : Z := 1.
Definition QUIC_V2 : Z := 1798521807.
Definition SNI_DEFAULT_MAX_CONNS : Z := 1024.
Definition SNI_DEFAULT_TIMEOUT_SEC : Z := 60.
Definition SNI_DEFAULT_CH_BYTES : Z := 65536.
Definition SNI_DEFAULT_PENDING_PACKETS : Z := 8.
Definition QUIC_AEAD_TAG_LEN : Z := 16.
Definition QUIC_HP_SAMPLE_LEN : Z := 16.
Definition QUIC_RETRY_TAG_LEN : Z := 16.

(** [a - b] of two sizes. *)
Definition size_sub (a b : Z) : option Z := if a <? b then None else Some (a - b).

(** ** Names *)

Definition ascii_tolower (c : Z) : Z := if (65 <=? c) && (c <=? 90) then c + 32 else c.

Fixpoint ascii_case_equal (a b : list Z) : bool :=
  match a, b with
  | x :: a, y :: b => if ascii_tolower x =? ascii_tolower y then ascii_case_equal a b else false
  | [], [] => true
  | _, _ => false
  end.

Definition DOT : Z := 46.
Definition DASH : Z := 45.
Definition STAR : Z := 42.

Definition dns_char (c : Z) : bool :=
  ((97 <=? c) && (c <=? 122)) || ((65 <=? c) && (c <=? 90)) || ((48 <=? c) && (c <=? 57)) || (c =? DASH).

(** The loop over the labels; [prev] is [name[i - 1]]. *)
Fixpoint dns_labels (name : list Z) (prev label_len : Z) : option Z :=
  match name with
  | [] => Some label_len
  | c :: name =>
      if c =? DOT then
        if (label_len =? 0) || (63 <? label_len) || (prev =? DASH) then None else dns_labels name c 0
      else if negb (dns_char c) then None
      else if (label_len =? 0) && (c =? DASH) then None
      else dns_labels name c (label_len + 1)
  end.

Definition valid_dns_name (name : list Z) : bool :=
  let total := blen name in
  let last := default 0 (last name) in
  if (total =? 0) || (253 <? total) || (last =? DOT) then false
  else match dns_labels name 0 0 with
       | None => false
       | Some label_len => (0 <? label_len) && (label_len <=? 63) && negb (last =? DASH)
       end.

Definition is_wildcard (pattern : list Z) : bool :=
  match pattern with c :: d :: _ => (c =? STAR) && (d =? DOT) | _ => false end.

(** The empty list is the empty string; a NULL pattern is not modelled. *)
Definition valid_sni_pattern (pattern : list Z) : bool :=
  match pattern with
  | [] => false
  | _ => if is_wildcard pattern then valid_dns_name (drop 2 pattern) else negb (existsb (fun c => c =? STAR) pattern) && valid_dns_name pattern
  end.

(** One pattern of [sni_router_match]. *)
Definition pattern_matches (sni pattern : list Z) : bool :=
  if ascii_case_equal pattern sni then true
  else if is_wildcard pattern then
    let suffix := drop 1 pattern in
    let prefix_len := if blen suffix <? blen sni then blen sni - blen suffix else 0 in
    let prefix := take (Z.to_nat prefix_len) sni in
    (0 <? prefix_len) && negb (existsb (fun c => c =? DOT) prefix) && ascii_case_equal (drop (Z.to_nat prefix_len) sni) suffix
  else false.

Definition sni_router_match (allowed_snis : list (list Z)) (sni : list Z) : bool := existsb (pattern_matches sni) allowed_snis.

(** ** Variable-length integers *)

Fixpoint varint_tail (data : list Z) (value : Z) : Z :=
  match data with [] => value | b :: data => varint_tail data (u64 (Z.lor (Z.shiftl value 8) b)) end.

(** At [data + pos]: the value and the bytes read; [None] inside for 0. *)
Definition decode_varint (data : list Z) (pos : Z) : option (option (Z * Z)) :=
  len ← size_sub (blen data) pos;
  if len =? 0 then Some None
  else
    b0 ← rd data pos;
    let n := Z.shiftl 1 (Z.shiftr b0 6) in
    if len <? n then Some None
    else tail ← rdn data (pos + 1) (n - 1); Some (Some (varint_tail tail (Z.land b0 63), n)).

(** ** Long headers *)

Definition be32_of (pkt : list Z) (pos : Z) : option Z :=
  b ← rdn pkt pos 4; Some (fold_left (fun acc x => Z.lor (Z.shiftl acc 8) x) b 0).

Record initial_header_t := InitialHeader { ih_version : Z; first_byte : Z; ih_dcid : list Z; ih_scid : list Z; pn_offset : Z; packet_end : Z }.
Record retry_header_t := RetryHeader { rh_version : Z; rh_dcid : list Z; rh_scid : list Z }.

Inductive parse_ret (A : Type) := ParseError | ParseOther | ParseOk (h : A).
Arguments ParseError {A}.
Arguments ParseOther {A}.
Arguments ParseOk {A}.

(** A connection id at [pos]: its bytes and the position after it; [None]
    inside for an error. *)
Definition parse_cid (pkt : list Z) (pos : Z) : option (option (list Z * Z)) :=
  cid_len ← rd pkt pos;
  let pos := pos + 1 in
  rest ← size_sub (blen pkt) pos;
  if (20 <? cid_len) || (rest <? cid_len) then Some None
  else cid ← rdn pkt pos cid_len; Some (Some (cid, pos + cid_len)).

(** From the token on: the offsets of the packet number and of the end. *)
Definition parse_initial_tail (pkt : list Z) (pos : Z) : option (option (Z * Z)) :=
  t ← decode_varint pkt pos;
  match t with
  | None => Some None
  | Some (token_len, n) =>
      rest ← size_sub (blen pkt) (pos + n);
      if rest <? token_len then Some None
      else
        let pos := pos + n + token_len in
        l ← decode_varint pkt pos;
        match l with
        | None => Some None
        | Some (protected_len, n) =>
            let pos := pos + n in
            rest ← size_sub (blen pkt) pos;
            if (rest <? protected_len) || (protected_len <? 1 + QUIC_AEAD_TAG_LEN) then Some None else Some (Some (pos, pos + protected_len))
        end
  end.

Definition is_initial (version b0 : Z) : bool :=
  let packet_type := Z.land (Z.shiftr b0 4) 3 in
  negb (((version =? QUIC_V1) && negb (packet_type =? 0)) || ((version =? QUIC_V2) && negb (packet_type =? 1))).

Definition parse_initial_header (pkt : list Z) : option (parse_ret initial_header_t) :=
  if blen pkt <? 7 then Some ParseError
  else
    b0 ← rd pkt 0;
    if negb (Z.land b0 192 =? 192) then Some ParseError
    else
      version ← be32_of pkt 1;
      if negb (version =? QUIC_V1) && negb (version =? QUIC_V2) then Some ParseOther
      else if negb (is_initial version b0) then Some ParseOther
      else
        d ← parse_cid pkt 5;
        match d with
        | None => Some ParseError
        | Some (dcid, pos) =>
            if blen pkt <=? pos then Some ParseError
            else
              s ← parse_cid pkt pos;
              match s with
              | None => Some ParseError
              | Some (scid, pos) =>
                  t ← parse_initial_tail pkt pos;
                  match t with
                  | None => Some ParseError
                  | Some (pn, e) => Some (ParseOk (InitialHeader version b0 dcid scid pn e))
                  end
              end
        end.

Definition is_retry (version b0 : Z) : bool :=
  let packet_type := Z.land (Z.shiftr b0 4) 3 in
  negb (((version =? QUIC_V1) && negb (packet_type =? 3)) || ((version =? QUIC_V2) && negb (packet_type =? 0))).

(** [None] inside for -1. *)
Definition parse_retry_header (pkt : list Z) : option (option retry_header_t) :=
  if blen pkt <? 5 + 1 + 1 + QUIC_RETRY_TAG_LEN then Some None
  else
    b0 ← rd pkt 0;
    if negb (Z.land b0 192 =? 192) then Some None
    else
      version ← be32_of pkt 1;
      if negb (version =? QUIC_V1) && negb (version =? QUIC_V2) then Some None
      else if negb (is_retry version b0) then Some None
      else
        d ← parse_cid pkt 5;
        match d with
        | None => Some None
        | Some (dcid, pos) =>
            if blen pkt <=? pos then Some None
            else
              s ← parse_cid pkt pos;
              match s with
              | None => Some None
              | Some (scid, pos) =>
                  rest ← size_sub (blen pkt) pos;
                  if rest <? QUIC_RETRY_TAG_LEN then Some None else Some (Some (RetryHeader version dcid scid))
              end
        end.

Definition constant_time_equal (a b : list Z) : bool := fold_left Z.lor (zip_with Z.lxor a b) 0 =? 0.

(** ** Packet numbers *)

Definition decode_packet_number (largest : Z) (have_largest : bool) (truncated pn_nbits : Z) : Z :=
  if negb have_largest then truncated
  else
    let max_packet_number := 2 ^ 62 - 1 in
    let expected := u64 (largest + 1) in
    let pn_window := u64 (Z.shiftl 1 pn_nbits) in
    let pn_half_window := pn_window / 2 in
    let pn_mask := u64 (pn_window - 1) in
    let candidate := Z.lor (Z.ldiff expected pn_mask) truncated in
    if (u64 (candidate + pn_half_window) <=? expected) && (candidate <? u64 (max_packet_number - pn_window)) then u64 (candidate + pn_window)
    else if (expected <? candidate) && (pn_half_window <? u64 (candidate - expected)) && (pn_window <=? candidate) then u64 (candidate - pn_window)
    else candidate.

(** ** The CRYPTO stream *)

(** The buffer of a connection: [crypto_data] up to [crypto_cap], a byte that
    was never written being [None], and the bitmap, [None] before it is
    allocated. *)
Record crypto_buf := CryptoBuf { crypto_data : list (option Z); crypto_present : option (list Z); crypto_contiguous : Z }.

#[export] Instance eta_crypto_buf : Settable crypto_buf := fun r => CryptoBuf (crypto_data r) (crypto_present r) (crypto_contiguous r).

Definition empty_crypto : crypto_buf := CryptoBuf [] None 0.
Definition crypto_cap (b : crypto_buf) : Z := Z.of_nat (length (crypto_data b)).

(** [while (cap < end && cap < limit / 2) cap *= 2]; a size at least doubles,
    so that 64 rounds are enough. *)
Fixpoint grow_cap (fuel : nat) (cap end_ limit : Z) : Z :=
  match fuel with
  | O => cap
  | S fuel => if (cap <? end_) && (cap <? limit / 2) then grow_cap fuel (cap * 2) end_ limit else cap
  end.

Definition new_cap (cap end_ limit : Z) : Z :=
  let cap := grow_cap 64 (if cap =? 0 then 1024 else cap) end_ limit in
  if cap <? end_ then end_ else cap.

(** [crypto_present[i / 8] |= 1 << (i % 8)] for [i] from [i] on, [n] times. *)
Fixpoint set_present (n : nat) (i : Z) (bits : list Z) : option (list Z) :=
  match n with
  | O => Some bits
  | S n => b ← rd bits (i / 8); bits ← wr bits (i / 8) (Z.lor b (u8 (Z.shiftl 1 (i mod 8)))); set_present n (i + 1) bits
  end.

(** The loop that advances [crypto_contiguous] below [limit]. *)
Fixpoint advance (fuel : nat) (i limit : Z) (bits : list Z) : option Z :=
  if limit <=? i then Some i
  else b ← rd bits (i / 8);
       if Z.land b (u8 (Z.shiftl 1 (i mod 8))) =? 0 then Some i
       else match fuel with O => None | S fuel => advance fuel (i + 1) limit bits end.

(** [memcpy] into the buffer. *)
Definition put_crypto (data : list (option Z)) (off : Z) (src : list Z) : option (list (option Z)) :=
  if (0 <=? off) && (off + blen src <=? Z.of_nat (length data))
  then Some (take (Z.to_nat off) data ++ (Some <$> src) ++ drop (Z.to_nat (off + blen src)) data) else None.

(** The buffer and whether the call returns 0; [realloc_ok] and [calloc_ok]
    say whether the allocations succeed. *)
Definition crypto_mark_range (limit : Z) (realloc_ok calloc_ok : bool) (b : crypto_buf) (offset : Z) (data : list Z) : option (crypto_buf * bool) :=
  if limit <? offset then Some (b, false)
  else if limit - offset <? blen data then Some (b, false)
  else
    let end_ := offset + blen data in
    let grow := crypto_cap b <? end_ in
    if grow && negb realloc_ok then Some (b, false)
    else
      let b := if grow then b <| crypto_data ::= fun d => d ++ replicate (Z.to_nat (new_cap (crypto_cap b) end_ limit - crypto_cap b)) None |> else b in
      match match crypto_present b with Some bits => Some bits | None => if calloc_ok then Some (replicate (Z.to_nat ((limit + 7) / 8)) 0) else None end with
      | None => Some (b, false)
      | Some bits =>
          d ← put_crypto (crypto_data b) offset data;
          bits ← set_present (length data) offset bits;
          c ← advance (Z.to_nat limit) (crypto_contiguous b) limit bits;
          Some (CryptoBuf d (Some bits) c, true)
      end.

(** ** Frames *)

(** [n] varints skipped; [None] inside for an error. *)
Fixpoint skip_varints (n : nat) (data : list Z) (pos : Z) : option (option Z) :=
  match n with
  | O => Some (Some pos)
  | S n => v ← decode_varint data pos; match v with None => Some None | Some (_, k) => skip_varints n data (pos + k) end
  end.

(** The ranges of an ACK frame; every one takes two bytes at least. *)
Fixpoint skip_ranges (fuel : nat) (count : Z) (data : list Z) (pos : Z) : option (option Z) :=
  if count =? 0 then Some (Some pos)
  else match fuel with
       | O => None
       | S fuel => r ← skip_varints 2 data pos; match r with None => Some None | Some pos => skip_ranges fuel (count - 1) data pos end
       end.

Definition skip_ack_frame (data : list Z) (pos : Z) (ecn : bool) : option (option Z) :=
  a ← skip_varints 2 data pos;
  match a with
  | None => Some None
  | Some pos =>
      c ← decode_varint data pos;
      match c with
      | None => Some None
      | Some (range_count, n) =>
          f ← skip_varints 1 data (pos + n);
          match f with
          | None => Some None
          | Some pos =>
              r ← skip_ranges (S (length data)) range_count data pos;
              match r with
              | None => Some None
              | Some pos => if ecn then skip_varints 3 data pos else Some (Some pos)
              end
          end
      end
  end.

(** A CRYPTO frame after its type: offset and data and the position after it. *)
Definition parse_crypto_frame (data : list Z) (pos : Z) : option (option (Z * list Z * Z)) :=
  o ← decode_varint data pos;
  match o with
  | None => Some None
  | Some (offset, n) =>
      let pos := pos + n in
      l ← decode_varint data pos;
      match l with
      | None => Some None
      | Some (crypto_len, n) =>
          rest ← size_sub (blen data) (pos + n);
          if rest <? crypto_len then Some None
          else d ← rdn data (pos + n) crypto_len; Some (Some (offset, d, pos + n + crypto_len))
      end
  end.

(** The buffer and whether the call returns 0: the frames before an error have
    been collected.  [malloc] answers the allocations of a CRYPTO frame, which
    has its offset and its length at two positions at least. *)
Fixpoint collect_crypto_frames (fuel : nat) (limit : Z) (malloc : Z -> bool) (b : crypto_buf) (plaintext : list Z) (pos : Z) : option (crypto_buf * bool) :=
  if blen plaintext <=? pos then Some (b, true)
  else match fuel with
  | O => None
  | S fuel =>
      t ← decode_varint plaintext pos;
      match t with
      | None => Some (b, false)
      | Some (frame_type, n) =>
          let pos := pos + n in
          if (frame_type =? 0) || (frame_type =? 1) then collect_crypto_frames fuel limit malloc b plaintext pos
          else if (frame_type =? 2) || (frame_type =? 3) then
            r ← skip_ack_frame plaintext pos (frame_type =? 3);
            match r with None => Some (b, false) | Some pos => collect_crypto_frames fuel limit malloc b plaintext pos end
          else if frame_type =? 6 then
            f ← parse_crypto_frame plaintext pos;
            match f with
            | None => Some (b, false)
            | Some (offset, d, pos') =>
                match crypto_mark_range limit (malloc pos) (malloc (pos + 1)) b offset d with
                | Some (b, true) => collect_crypto_frames fuel limit malloc b plaintext pos'
                | m => m
                end
            end
          else Some (b, (frame_type =? 28) || (frame_type =? 29))
      end
  end.

(** ** The server name *)

(** A byte of the CRYPTO buffer. *)
Definition crd (data : list (option Z)) (i : Z) : option Z := if i <? 0 then None else mjoin (data !! Z.to_nat i).

Definition crd16 (data : list (option Z)) (i : Z) : option Z := hi ← crd data i; lo ← crd data (i + 1); Some (be16 hi lo).

Definition crdn (data : list (option Z)) (off n : Z) : option (list Z) :=
  if (0 <=? off) && (0 <=? n) && (off + n <=? Z.of_nat (length data)) then mapM id (take (Z.to_nat n) (drop (Z.to_nat off) data)) else None.

(** The entries of the server name list up to [ext_end]; [None] inside for -1. *)
Fixpoint sni_names (fuel : nat) (data : list (option Z)) (pos ext_end out_cap : Z) : option (option (list Z)) :=
  rest ← size_sub ext_end pos;
  if rest <? 3 then Some None
  else match fuel with
  | O => None
  | S fuel =>
      name_type ← crd data pos;
      name_len ← crd16 data (pos + 1);
      let pos := pos + 3 in
      rest ← size_sub ext_end pos;
      if rest <? name_len then Some None
      else if name_type =? 0 then
        if (name_len =? 0) || (out_cap <=? name_len) then Some None
        else
          name ← crdn data pos name_len;
          if existsb (fun c => (c <=? 32) || (127 <=? c)) name then Some None else Some (Some (ascii_tolower <$> name))
      else sni_names fuel data (pos + name_len) ext_end out_cap
  end.

Fixpoint sni_extensions (fuel : nat) (data : list (option Z)) (pos end_ out_cap : Z) : option (option (list Z)) :=
  rest ← size_sub end_ pos;
  if rest <? 4 then Some None
  else match fuel with
  | O => None
  | S fuel =>
      type ← crd16 data pos;
      ext_len ← crd16 data (pos + 2);
      let pos := pos + 4 in
      rest ← size_sub end_ pos;
      if rest <? ext_len then Some None
      else if type =? 0 then
        let ext_end := pos + ext_len in
        if ext_len <? 2 then Some None
        else
          list_len ← crd16 data pos;
          let pos := pos + 2 in
          rest ← size_sub ext_end pos;
          if negb (list_len =? rest) then Some None else sni_names (S (length data)) data pos ext_end out_cap
      else sni_extensions fuel data (pos + ext_len) end_ out_cap
  end.

(** A field of [n] bytes of length and that many bytes. *)
Definition skip_opaque8 (data : list (option Z)) (pos end_ : Z) : option (option Z) :=
  if end_ <=? pos then Some None
  else n ← crd data pos; rest ← size_sub end_ (pos + 1); if rest <? n then Some None else Some (Some (pos + 1 + n)).

Definition skip_opaque16 (data : list (option Z)) (pos end_ : Z) : option (option Z) :=
  rest ← size_sub end_ pos;
  if rest <? 2 then Some None
  else n ← crd16 data pos; rest ← size_sub end_ (pos + 2); if rest <? n then Some None else Some (Some (pos + 2 + n)).

Definition hello_len (data : list (option Z)) : option Z :=
  a ← crd data 1; b ← crd data 2; c ← crd data 3; Some (Z.lor (Z.lor (Z.shiftl a 16) (Z.shiftl b 8)) c).

Definition extract_sni (data : list (option Z)) (len out_cap : Z) : option (option (list Z)) :=
  if len <? 4 then Some None
  else
    t ← crd data 0;
    if negb (t =? 1) then Some None
    else
      message_len ← hello_len data;
      if (len - 4 <? message_len) || (message_len <? 38) then Some None
      else
        let end_ := 4 + message_len in
        s ← skip_opaque8 data (4 + 2 + 32) end_;
        match s with
        | None => Some None
        | Some pos =>
            c ← skip_opaque16 data pos end_;
            match c with
            | None => Some None
            | Some pos =>
                m ← skip_opaque8 data pos end_;
                match m with
                | None => Some None
                | Some pos =>
                    rest ← size_sub end_ pos;
                    if rest <? 2 then Some None
                    else
                      extensions_len ← crd16 data pos;
                      let pos := pos + 2 in
                      rest ← size_sub end_ pos;
                      if negb (extensions_len =? rest) then Some None else sni_extensions (S (length data)) data pos end_ out_cap
                end
            end
        end.

Inductive hello_status := HelloPartial | HelloBad | HelloSni (sni : list Z).

Definition client_hello_status (b : crypto_buf) : option hello_status :=
  if crypto_contiguous b <? 4 then Some HelloPartial
  else
    message_len ← hello_len (crypto_data b);
    if crypto_contiguous b <? 4 + message_len then Some HelloPartial
    else
      r ← extract_sni (crypto_data b) (4 + message_len) 256;
      Some (match r with Some sni => HelloSni sni | None => HelloBad end).
