(* ===== verification/SniCrypto.v ===== *)
(** * Packet protection of the SNI router ([src/sni_router.c])

    Key derivation, header protection and the opening of an Initial packet, and
    the integrity tag of a Retry packet.  HKDF, AES and the AEAD are those of
    the TLS library, arguments of the model; [None] of one of them is a failure
    it reports, [malloc] whether the allocation of the call succeeds. *)

From S2P Require Import Prelude StateOpt SniParse.

Definition QUIC_V1_INITIAL_SALT : list Z :=
  [56; 118; 44; 247; 245; 89; 52; 179; 77; 23; 154; 230; 164; 200; 12; 173; 204; 187; 127; 10].
Definition QUIC_V2_INITIAL_SALT : list Z :=
  [13; 237; 227; 222; 247; 0; 166; 219; 129; 147; 129; 190; 110; 38; 157; 203; 249; 189; 46; 217].
Definition QUIC_V1_RETRY_KEY : list Z := [190; 12; 105; 11; 159; 102; 87; 90; 29; 118; 107; 84; 227; 104; 200; 78].
Definition QUIC_V1_RETRY_NONCE : list Z := [70; 21; 153; 211; 93; 99; 43; 242; 35; 152; 37; 187].
Definition QUIC_V2_RETRY_KEY : list Z := [143; 180; 176; 27; 86; 172; 72; 226; 96; 251; 203; 206; 173; 124; 204; 146].
Definition QUIC_V2_RETRY_NONCE : list Z := [216; 105; 105; 188; 45; 124; 109; 153; 144; 239; 176; 74].

(** "tls13 ", "client in", "quic key", "quicv2 key" and so on. *)
Definition label_prefix : list Z := [116; 108; 115; 49; 51; 32].
Definition label_client_in : list Z := [99; 108; 105; 101; 110; 116; 32; 105; 110].
Definition label_key (version : Z) : list Z := if version =? QUIC_V2 then [113; 117; 105; 99; 118; 50; 32; 107; 101; 121] else [113; 117; 105; 99; 32; 107; 101; 121].
Definition label_iv (version : Z) : list Z := if version =? QUIC_V2 then [113; 117; 105; 99; 118; 50; 32; 105; 118] else [113; 117; 105; 99; 32; 105; 118].
Definition label_hp (version : Z) : list Z := if version =? QUIC_V2 then [113; 117; 105; 99; 118; 50; 32; 104; 112] else [113; 117; 105; 99; 32; 104; 112].

Section crypto.
Context (HKDF_extract : list Z -> list Z -> option (list Z)) (HKDF_expand : Z -> list Z -> list Z -> option (list Z)).
Context (AES_encrypt : list Z -> list Z -> option (list Z)) (AEAD_seal AEAD_open : list Z -> list Z -> list Z -> list Z -> option (list Z)).

Definition hkdf_info (out_len : Z) (label : list Z) : list Z :=
  [u8 (Z.shiftr out_len 8); u8 out_len; u8 (blen label_prefix + blen label)] ++ label_prefix ++ label ++ [0].

Definition hkdf_expand_label (out_len : Z) (secret label : list Z) : option (list Z) :=
  if (65535 <? out_len) || (255 <? blen label_prefix + blen label) || (32 <? blen label) then None
  else HKDF_expand out_len secret (hkdf_info out_len label).

(** The key, the IV and the header protection key; [None] for -1. *)
Definition derive_client_keys (version : Z) (dcid : list Z) : option (list Z * list Z * list Z) :=
  initial_secret ← HKDF_extract dcid (if version =? QUIC_V2 then QUIC_V2_INITIAL_SALT else QUIC_V1_INITIAL_SALT);
  if negb (blen initial_secret =? 32) then None
  else
    client_secret ← hkdf_expand_label 32 initial_secret label_client_in;
    key ← hkdf_expand_label 16 client_secret (label_key version);
    iv ← hkdf_expand_label 12 client_secret (label_iv version);
    hp ← hkdf_expand_label 16 client_secret (label_hp version);
    Some (key, iv, hp).

(** [nonce[11 - i] ^= (uint8_t)(pn >> (8 * i))] for the eight low bytes. *)
Definition packet_nonce (iv : list Z) (pn : Z) : list Z :=
  take 4 iv ++ zip_with Z.lxor (drop 4 iv) ((fun i => u8 (Z.shiftr pn (8 * (7 - i)))) <$> [0; 1; 2; 3; 4; 5; 6; 7]).

(** The packet number under header protection, and its value. *)
Definition unmask_pn (pkt mask : list Z) (pn_offset pn_len : Z) : option (list Z) :=
  p ← rdn pkt pn_offset pn_len;
  m ← rdn mask 1 pn_len;
  Some (zip_with Z.lxor p m).

(** The plaintext and the packet number.  The plaintext buffer has
    [plaintext_cap] bytes. *)
Definition decrypt_initial_with_state (malloc : bool) (pkt : list Z) (plaintext_cap largest_pn : Z) (have_largest : bool) : option (parse_ret (list Z * Z)) :=
  parsed ← parse_initial_header pkt;
  match parsed with
  | ParseError => Some ParseError
  | ParseOther => Some ParseOther
  | ParseOk h =>
      if (packet_end h <? pn_offset h) || (packet_end h <? pn_offset h + 4 + QUIC_HP_SAMPLE_LEN) then Some ParseError
      else
        match derive_client_keys (ih_version h) (ih_dcid h) with
        | None => Some ParseError
        | Some (key, iv, hp) =>
            sample ← rdn pkt (pn_offset h + 4) 16;
            match AES_encrypt hp sample with
            | None => Some ParseError
            | Some mask =>
                b0 ← rd pkt 0;
                m0 ← rd mask 0;
                let first := Z.lxor b0 (Z.land m0 15) in
                let pn_len := Z.land first 3 + 1 in
                if packet_end h <? pn_offset h + pn_len then Some ParseError
                else
                  let ad_len := pn_offset h + pn_len in
                  if negb malloc then Some ParseError
                  else
                    ad ← rdn pkt 0 ad_len;
                    ad ← wr ad 0 first;
                    p ← unmask_pn pkt mask (pn_offset h) pn_len;
                    ad ← wrn ad (pn_offset h) p;
                    let truncated := varint_tail p 0 in
                    let pn := decode_packet_number largest_pn have_largest truncated (pn_len * 8) in
                    let nonce := packet_nonce iv pn in
                    ciphertext_len ← size_sub (packet_end h) ad_len;
                    if (ciphertext_len <? QUIC_AEAD_TAG_LEN) || (plaintext_cap <? ciphertext_len - QUIC_AEAD_TAG_LEN) then Some ParseError
                    else
                      ct ← rdn pkt ad_len ciphertext_len;
                      match AEAD_open key nonce ct ad with
                      | None => Some ParseError
                      | Some plaintext => Some (ParseOk (plaintext, pn))
                      end
            end
        end
  end.

Definition sni_router_decrypt_initial (malloc : bool) (pkt : list Z) (plaintext_cap : Z) : option (parse_ret (list Z * Z)) :=
  decrypt_initial_with_state malloc pkt plaintext_cap 0 false.

(** The header of a Retry packet that answers a client with these connection
    ids; [None] inside for -1. *)
Definition validate_retry (malloc : bool) (version : Z) (initial_scid initial_dcid pkt : list Z) : option (option retry_header_t) :=
  r ← parse_retry_header pkt;
  match r with
  | None => Some None
  | Some retry =>
      if negb (rh_version retry =? version) || negb (bool_decide (rh_dcid retry = initial_scid)) then Some None
      else
        let '(key, nonce) := if rh_version retry =? QUIC_V2 then (QUIC_V2_RETRY_KEY, QUIC_V2_RETRY_NONCE) else (QUIC_V1_RETRY_KEY, QUIC_V1_RETRY_NONCE) in
        retry_without_tag_len ← size_sub (blen pkt) QUIC_RETRY_TAG_LEN;
        body ← rdn pkt 0 retry_without_tag_len;
        tag ← rdn pkt retry_without_tag_len QUIC_RETRY_TAG_LEN;
        if negb malloc then Some None
        else
          match AEAD_seal key nonce [] ([blen initial_dcid] ++ initial_dcid ++ body) with
          | None => Some None
          | Some calculated =>
              if negb (blen calculated =? QUIC_RETRY_TAG_LEN) then Some None
              else Some (if constant_time_equal calculated tag then Some retry else None)
          end
  end.

End crypto.
