(* ===== verification/SniRouter.v ===== *)
(** * The SNI router ([src/sni_router.c], [src/sni_router.h])

    The table of client connections and the decision where their datagrams go:
    to the VPN server ([accept_packet]) or to the fallback server.  Connection
    objects live in a heap from addresses to records, and the table holds
    their addresses, so that a use after free is [None].  The operating system,
    the allocator and the callbacks are an environment that is asked with a
    counter; the log holds the calls that leave the router, and the calls of
    [fallback_send].  A socket address is its family, port and address. *)

From S2P Require Import Prelude StateOpt SniParse SniCrypto.

Inductive sni_route_result_t := SNI_ROUTE_ACCEPT | SNI_ROUTE_FALLBACK | SNI_ROUTE_PENDING | SNI_ROUTE_ERROR.

#[export] Instance sni_route_result_eq_dec : EqDecision sni_route_result_t.
Proof. solve_decision. Defined.

Inductive sa_family_t := AF_INET | AF_INET6 | AF_OTHER.

#[export] Instance sa_family_eq_dec : EqDecision sa_family_t.
Proof. solve_decision. Defined.

(** Port and address as they are in memory, in network order. *)
Record sockaddr := SockAddr { sa_family : sa_family_t; sin_port : list Z; sin_addr : list Z }.

#[export] Instance sockaddr_eq_dec : EqDecision sockaddr.
Proof. solve_decision. Defined.

Record sni_router_config_t := RouterConfig {
  allowed_snis : list (list Z);
  fallback_addr : sockaddr;
  fallback_addrlen : Z;
  max_tracked_conns : Z;
  conn_timeout_sec : Z;
  max_client_hello_bytes : Z;
  max_pending_packets : Z;
  fallback_proxy_protocol : bool
}.

#[export] Instance eta_router_config : Settable sni_router_config_t := fun r =>
  RouterConfig (allowed_snis r) (fallback_addr r) (fallback_addrlen r) (max_tracked_conns r) (conn_timeout_sec r) (max_client_hello_bytes r) (max_pending_packets r) (fallback_proxy_protocol r).

Record sni_connection_state_t := SniConn {
  peer_addr : sockaddr;
  initial_dcid : list Z;
  initial_scid : list Z;
  server_scid : list Z;
  c_version : Z;
  have_server_scid : bool;
  largest_initial_pn : Z;
  have_largest_initial_pn : bool;
  last_seen : Z;
  decision : sni_route_result_t;
  crypto : crypto_buf;
  pending : list (list Z);
  fallback_proxy_sent : bool;
  fallback_fd : option Z
}.

#[export] Instance eta_sni_conn : Settable sni_connection_state_t := fun r =>
  SniConn (peer_addr r) (initial_dcid r) (initial_scid r) (server_scid r) (c_version r) (have_server_scid r) (largest_initial_pn r) (have_largest_initial_pn r) (last_seen r) (decision r) (crypto r) (pending r) (fallback_proxy_sent r) (fallback_fd r).

(** Calls of the environment and of [fallback_send]. *)
Inductive sni_event :=
  | EvAccept (peer : sockaddr) (pkt : list Z) (rc : Z)
  | EvFallback (peer : sockaddr) (pkt : list Z)
  | EvSocket (fd : Z)
  | EvRegister (fd ptr : Z)
  | EvSend (fd : Z) (bytes : list Z) (ok : bool)
  | EvUnregister (fd : Z)
  | EvClose (fd : Z)
  | EvClient (peer : sockaddr) (pkt : list Z) (rc : Z).

Record sni_router_t := Router {
  config : sni_router_config_t;
  conn_table : list (list Z);
  conn_count : Z;
  heap : gmap Z sni_connection_state_t;
  calls : nat;
  log : list sni_event
}.

#[export] Instance eta_router : Settable sni_router_t := fun r => Router (config r) (conn_table r) (conn_count r) (heap r) (calls r) (log r).

(** [socket] and [connect]: no socket, a socket that was closed again, or one. *)
Inductive open_ret := OpenNone | OpenFailed (fd : Z) | OpenOk (fd : Z).

(** [recv]: nothing there, an error, or a datagram (of no byte: the end). *)
Inductive recv_ret := RecvAgain | RecvError | RecvData (buf : list Z).

(** The environment, asked with the number of questions before.  [env_new] is
    the address of a new connection object beside those that exist, [None] when
    there is no memory; [env_frames] answers the allocations of the frames of a
    packet. *)
Record sni_env := SniEnv {
  env_time : nat -> Z;
  env_malloc : nat -> bool;
  env_frames : nat -> Z -> bool;
  env_new : nat -> gset Z -> option Z;
  env_accept : nat -> Z;
  env_open : nat -> open_ret;
  env_send : nat -> bool;
  env_recv : nat -> recv_ret;
  env_client : nat -> Z
}.

Definition sockaddr_in_len : Z := 16.
Definition sockaddr_in6_len : Z := 28.
Definition sockaddr_storage_len : Z := 128.

Definition addr_len_valid (family : sa_family_t) (len : Z) : bool :=
  match family with AF_INET => sockaddr_in_len <=? len | AF_INET6 => sockaddr_in6_len <=? len | AF_OTHER => false end.

Definition addr_equal (a b : sockaddr) : bool :=
  match sa_family a, sa_family b with
  | AF_INET, AF_INET | AF_INET6, AF_INET6 => bool_decide (sin_port a = sin_port b) && bool_decide (sin_addr a = sin_addr b)
  | _, _ => false
  end.

Definition hash_bytes (data : list Z) : Z := fold_left (fun h b => u32 (Z.lxor h b * 16777619)) data 2166136261.

Section router.
Context (le : bool).

(** The port as the host loads it. *)
Definition port_value (p : list Z) : Z := if le then nth 0 p 0 + 256 * nth 1 p 0 else nth 0 p 0 * 256 + nth 1 p 0.

Definition hash_peer (peer : sockaddr) : Z := u32 (Z.lxor (hash_bytes (sin_addr peer)) (port_value (sin_port peer)) * 16777619).

Context (HKDF_extract : list Z -> list Z -> option (list Z)) (HKDF_expand : Z -> list Z -> list Z -> option (list Z)).
Context (AES_encrypt : list Z -> list Z -> option (list Z)) (AEAD_seal AEAD_open : list Z -> list Z -> list Z -> list Z -> option (list Z)).
Context (E : sni_env).

Abbreviation R := (stM sni_router_t).

Definition ask {A} (f : nat -> A) : R A := s ← d_get; d_modify (fun s => s <| calls ::= S |>) ;; mret (f (calls s)).
Definition emit (e : sni_event) : R unit := d_modify (fun s => s <| log ::= fun l => l ++ [e] |>).

Definition get_conn (ptr : Z) : R sni_connection_state_t := s ← d_get; d_lift (heap s !! ptr).
Definition modify_conn (ptr : Z) (f : sni_connection_state_t -> sni_connection_state_t) : R unit :=
  c ← get_conn ptr; d_modify (fun s => s <| heap ::= <[ptr := f c]> |>).

(** ** Pending packets and the fallback socket *)

(** Whether the packet was queued. *)
Definition pending_append (ptr : Z) (pkt : list Z) : R bool :=
  s ← d_get;
  c ← get_conn ptr;
  if max_pending_packets (config s) <=? Z.of_nat (length (pending c)) then mret false
  else
    ok ← ask (env_malloc E);
    if negb ok then mret false else modify_conn ptr (fun c => c <| pending ::= fun l => l ++ [pkt] |>) ;; mret true.

Definition socket_close (fd : Z) : R unit := emit (EvClose fd).

Definition fallback_open (ptr : Z) : R bool :=
  r ← ask (env_open E);
  match r with
  | OpenNone => mret false
  | OpenFailed fd => emit (EvSocket fd) ;; socket_close fd ;; mret false
  | OpenOk fd =>
      emit (EvSocket fd) ;;
      modify_conn ptr (fun c => c <| fallback_fd := Some fd |>) ;;
      emit (EvRegister fd ptr) ;;
      mret true
  end.

Definition PP2_SIGNATURE : list Z := [13; 10; 13; 10; 0; 13; 10; 81; 85; 73; 84; 10].

(** The PROXY protocol header; [None] for addresses of different families. *)
Definition pp2_header (src dst : sockaddr) : option (list Z) :=
  match sa_family src, sa_family dst with
  | AF_INET, AF_INET => Some (PP2_SIGNATURE ++ [33; 18; 0; 12] ++ sin_addr src ++ sin_addr dst ++ sin_port src ++ sin_port dst)
  | AF_INET6, AF_INET6 => Some (PP2_SIGNATURE ++ [33; 34; 0; 36] ++ sin_addr src ++ sin_addr dst ++ sin_port src ++ sin_port dst)
  | _, _ => None
  end.

(** Whether the packet was sent. *)
Definition fallback_send (ptr : Z) (pkt : list Z) : R bool :=
  c ← get_conn ptr;
  emit (EvFallback (peer_addr c) pkt) ;;
  opened ← (if decide (fallback_fd c = None) then fallback_open ptr else mret true);
  if negb opened then mret false
  else
    s ← d_get;
    c ← get_conn ptr;
    fd ← d_lift (fallback_fd c);
    if fallback_proxy_protocol (config s) && negb (fallback_proxy_sent c) then
      match pp2_header (peer_addr c) (fallback_addr (config s)) with
      | None => mret false
      | Some header =>
          ok ← ask (env_send E);
          emit (EvSend fd (header ++ pkt) ok) ;;
          if negb ok then mret false else modify_conn ptr (fun c => c <| fallback_proxy_sent := true |>) ;; mret true
      end
    else ok ← ask (env_send E); emit (EvSend fd pkt ok) ;; mret ok.

(** [router->callbacks.accept_packet]: whether it took the packet. *)
Definition accept_packet (peer : sockaddr) (pkt : list Z) : R bool :=
  rc ← ask (env_accept E); emit (EvAccept peer pkt rc) ;; mret (rc =? 0).

(** ** Connections *)

Definition connection_free (ptr : Z) : R unit :=
  c ← get_conn ptr;
  match fallback_fd c with
  | Some fd => emit (EvUnregister fd) ;; socket_close fd
  | None => d_skip
  end ;;
  d_modify (fun s => s <| heap ::= delete ptr |>).

(** The bucket of an address. *)
Definition bucket_of (s : sni_router_t) (peer : sockaddr) : nat := Z.to_nat (hash_peer peer mod Z.of_nat (length (conn_table s))).

(** The first connection of a chain with the address. *)
Fixpoint chain_lookup (chain : list Z) (peer : sockaddr) : R (option Z) :=
  match chain with
  | [] => mret None
  | ptr :: chain => c ← get_conn ptr; if addr_equal (peer_addr c) peer then mret (Some ptr) else chain_lookup chain peer
  end.

Definition connection_lookup (peer : sockaddr) : R (option Z) :=
  s ← d_get; chain ← d_lift (conn_table s !! bucket_of s peer); chain_lookup chain peer.

(** The chain without the first occurrence. *)
Fixpoint chain_remove (chain : list Z) (target : Z) : option (list Z) :=
  match chain with
  | [] => None
  | ptr :: chain => if ptr =? target then Some chain else l ← chain_remove chain target; Some (ptr :: l)
  end.

Definition connection_remove (target : Z) : R unit :=
  s ← d_get;
  c ← get_conn target;
  let idx := bucket_of s (peer_addr c) in
  chain ← d_lift (conn_table s !! idx);
  match chain_remove chain target with
  | None => d_skip
  | Some chain => d_modify (fun s => s <| conn_table ::= <[idx := chain]> |> <| conn_count ::= fun n => n - 1 |>) ;; connection_free target
  end.

(** The loop of [deliver_pending]. *)
Fixpoint deliver_all (ptr : Z) (pkts : list (list Z)) (result : bool) : R bool :=
  match pkts with
  | [] => mret result
  | pkt :: pkts =>
      c ← get_conn ptr;
      ok ← (if decide (decision c = SNI_ROUTE_ACCEPT) then accept_packet (peer_addr c) pkt else fallback_send ptr pkt);
      deliver_all ptr pkts (result && ok)
  end.

Definition deliver_pending (ptr : Z) : R bool :=
  c ← get_conn ptr;
  result ← deliver_all ptr (pending c) true;
  modify_conn ptr (fun c => c <| pending := [] |> <| crypto ::= fun b => b <| crypto_data := [] |> <| crypto_present := None |> |>) ;;
  mret result.

(** A connection without a decision goes to the server. *)
Definition accept_undecided (ptr : Z) : R unit :=
  c ← get_conn ptr;
  if decide (decision c = SNI_ROUTE_PENDING) then
    modify_conn ptr (fun c => c <| decision := SNI_ROUTE_ACCEPT |>) ;; _ ← deliver_pending ptr; d_skip
  else d_skip.

(** The connection seen last longest ago; the first of equals. *)
Fixpoint oldest_in (ptrs : list Z) (oldest : option (Z * Z)) : R (option (Z * Z)) :=
  match ptrs with
  | [] => mret oldest
  | ptr :: ptrs =>
      c ← get_conn ptr;
      oldest_in ptrs (match oldest with
                      | None => Some (ptr, last_seen c)
                      | Some (o, t) => if last_seen c <? t then Some (ptr, last_seen c) else Some (o, t)
                      end)
  end.

Definition evict_oldest : R unit :=
  s ← d_get;
  o ← oldest_in (concat (conn_table s)) None;
  match o with None => d_skip | Some (ptr, _) => accept_undecided ptr ;; connection_remove ptr end.

Definition connection_create (peer : sockaddr) (h : initial_header_t) : R (option Z) :=
  s ← d_get;
  (if max_tracked_conns (config s) <=? conn_count s then evict_oldest else d_skip) ;;
  s ← d_get;
  p ← ask (fun n => env_new E n (dom (heap s)));
  match p with
  | None => mret None
  | Some ptr =>
      now ← ask (env_time E);
      s ← d_get;
      let idx := bucket_of s peer in
      chain ← d_lift (conn_table s !! idx);
      d_modify (fun s => s
        <| heap ::= <[ptr := SniConn peer (ih_dcid h) (ih_scid h) [] (ih_version h) false 0 false now SNI_ROUTE_PENDING empty_crypto [] false None]> |>
        <| conn_table ::= <[idx := ptr :: chain]> |> <| conn_count ::= fun n => n + 1 |>) ;;
      mret (Some ptr)
  end.

Definition accept_pending_and_current (ptr : Z) (pkt : list Z) (peer : sockaddr) (current_is_pending : bool) : R sni_route_result_t :=
  modify_conn ptr (fun c => c <| decision := SNI_ROUTE_ACCEPT |>) ;;
  result ← deliver_pending ptr;
  result ← (if current_is_pending then mret result else ok ← accept_packet peer pkt; mret (result && ok));
  mret (if (result : bool) then SNI_ROUTE_ACCEPT else SNI_ROUTE_ERROR).

(** ** Processing a datagram *)

Definition connection_matches_server_scid (c : sni_connection_state_t) (h : initial_header_t) : bool :=
  bool_decide (decision c = SNI_ROUTE_FALLBACK) && have_server_scid c && (c_version c =? ih_version h) && bool_decide (server_scid c = ih_dcid h).

Definition route_of (ok : bool) (r : sni_route_result_t) : sni_route_result_t := if ok then r else SNI_ROUTE_ERROR.

(** The connection of the peer, when the packet belongs to it: an Initial
    packet with another destination id starts a new one. *)
Definition current_connection (peer : sockaddr) (parsed : parse_ret initial_header_t) : R (option Z) :=
  conn ← connection_lookup peer;
  match conn, parsed with
  | Some ptr, ParseOk h =>
      c ← get_conn ptr;
      if negb (connection_matches_server_scid c h) && negb (bool_decide (initial_dcid c = ih_dcid h)) then
        accept_undecided ptr ;; connection_remove ptr ;; mret None
      else mret conn
  | _, _ => mret conn
  end.

(** The Initial packet of an undecided connection, which is queued. *)
Definition process_initial (ptr : Z) (pkt : list Z) (peer : sockaddr) : R sni_route_result_t :=
  s ← d_get;
  c ← get_conn ptr;
  have_plaintext ← ask (env_malloc E);
  if negb have_plaintext then accept_pending_and_current ptr pkt peer true
  else
    malloc ← ask (env_malloc E);
    d ← d_lift (decrypt_initial_with_state HKDF_extract HKDF_expand AES_encrypt AEAD_open malloc pkt (blen pkt) (largest_initial_pn c) (have_largest_initial_pn c));
    match d with
    | ParseError | ParseOther => accept_pending_and_current ptr pkt peer true
    | ParseOk (plaintext, pn) =>
        frame_malloc ← ask (env_frames E);
        f ← d_lift (collect_crypto_frames (S (length plaintext)) (max_client_hello_bytes (config s)) frame_malloc (crypto c) plaintext 0);
        let '(b, collected) := f in
        modify_conn ptr (fun c => c <| crypto := b |>) ;;
        if negb collected then accept_pending_and_current ptr pkt peer true
        else
          modify_conn ptr (fun c => if negb (have_largest_initial_pn c) || (largest_initial_pn c <? pn) then c <| largest_initial_pn := pn |> <| have_largest_initial_pn := true |> else c) ;;
          hello ← d_lift (client_hello_status b);
          match hello with
          | HelloPartial => mret SNI_ROUTE_PENDING
          | _ =>
              let r := match hello with
                       | HelloSni sni => if sni_router_match (allowed_snis (config s)) sni then SNI_ROUTE_ACCEPT else SNI_ROUTE_FALLBACK
                       | _ => SNI_ROUTE_FALLBACK
                       end in
              modify_conn ptr (fun c => c <| decision := r |>) ;;
              ok ← deliver_pending ptr;
              mret (route_of ok r)
          end
    end.

Definition sni_router_process (pkt : list Z) (peer : sockaddr) (peer_len : Z) : R sni_route_result_t :=
  if (blen pkt =? 0) || negb (addr_len_valid (sa_family peer) peer_len) || (sockaddr_storage_len <? peer_len) then mret SNI_ROUTE_ERROR
  else
    parsed ← d_lift (parse_initial_header pkt);
    conn ← current_connection peer parsed;
    dec ← match conn with Some ptr => c ← get_conn ptr; mret (Some (decision c)) | None => mret None end;
    match conn, dec with
    | Some ptr, Some SNI_ROUTE_ACCEPT =>
        now ← ask (env_time E);
        modify_conn ptr (fun c => c <| last_seen := now |>) ;;
        ok ← accept_packet peer pkt;
        mret (route_of ok SNI_ROUTE_ACCEPT)
    | Some ptr, Some SNI_ROUTE_FALLBACK =>
        now ← ask (env_time E);
        modify_conn ptr (fun c => c <| last_seen := now |>) ;;
        ok ← fallback_send ptr pkt;
        mret (route_of ok SNI_ROUTE_FALLBACK)
    | _, _ =>
        match parsed with
        | ParseOk h =>
            conn ← match conn with Some ptr => mret (Some ptr) | None => connection_create peer h end;
            match conn with
            | None => mret SNI_ROUTE_ERROR
            | Some ptr =>
                now ← ask (env_time E);
                modify_conn ptr (fun c => c <| last_seen := now |>) ;;
                queued ← pending_append ptr pkt;
                if negb queued then accept_pending_and_current ptr pkt peer false else process_initial ptr pkt peer
            end
        | _ =>
            match conn with
            | Some ptr => accept_pending_and_current ptr pkt peer false
            | None => ok ← accept_packet peer pkt; mret (route_of ok SNI_ROUTE_ACCEPT)
            end
        end
    end.

(** ** The fallback's answers, timeouts, creation and destruction *)

Definition sni_router_owns_fd (fd ptr : Z) : R bool :=
  s ← d_get;
  if existsb (fun p => p =? ptr) (concat (conn_table s)) then c ← get_conn ptr; mret (bool_decide (fallback_fd c = Some fd)) else mret false.

(** The connection id that the fallback server chose, if [buf] says it. *)
Definition learn_server_scid (ptr : Z) (buf : list Z) : R unit :=
  c ← get_conn ptr;
  if bool_decide (decision c = SNI_ROUTE_FALLBACK) && negb (have_server_scid c) then
    i ← d_lift (parse_initial_header buf);
    match i with
    | ParseOk h =>
        if (ih_version h =? c_version c) && bool_decide (ih_dcid h = initial_scid c) then
          modify_conn ptr (fun c => c <| server_scid := ih_scid h |> <| have_server_scid := true |>)
        else d_skip
    | _ => d_skip
    end ;;
    c ← get_conn ptr;
    if have_server_scid c then d_skip
    else
      malloc ← ask (env_malloc E);
      r ← d_lift (validate_retry AEAD_seal malloc (c_version c) (initial_scid c) (initial_dcid c) buf);
      match r with
      | Some h => modify_conn ptr (fun c => c <| server_scid := rh_scid h |> <| have_server_scid := true |>)
      | None => d_skip
      end
  else d_skip.

(** The loop; [fuel] bounds the datagrams that are read in one call. *)
Fixpoint read_loop (fuel : nat) (ptr : Z) : R unit :=
  match fuel with
  | O => d_skip
  | S fuel =>
      r ← ask (env_recv E);
      match r with
      | RecvAgain => d_skip
      | RecvError => connection_remove ptr
      | RecvData [] => d_skip
      | RecvData buf =>
          now ← ask (env_time E);
          modify_conn ptr (fun c => c <| last_seen := now |>) ;;
          learn_server_scid ptr buf ;;
          c ← get_conn ptr;
          rc ← ask (env_client E);
          emit (EvClient (peer_addr c) buf rc) ;;
          if negb (rc =? 0) then d_skip else read_loop fuel ptr
      end
  end.

Definition sni_router_on_fd_readable (fuel : nat) (fd ptr : Z) : R unit :=
  owns ← sni_router_owns_fd fd ptr;
  if negb owns then d_skip else read_loop fuel ptr.

(** One chain of the cleanup: what stays. *)
Fixpoint cleanup_chain (chain : list Z) (cutoff : Z) : R (list Z) :=
  match chain with
  | [] => mret []
  | ptr :: chain =>
      c ← get_conn ptr;
      if last_seen c <? cutoff then
        accept_undecided ptr ;;
        d_modify (fun s => s <| conn_count ::= fun n => n - 1 |>) ;;
        connection_free ptr ;;
        cleanup_chain chain cutoff
      else l ← cleanup_chain chain cutoff; mret (ptr :: l)
  end.

Fixpoint cleanup_table (n i : nat) (cutoff : Z) : R unit :=
  match n with
  | O => d_skip
  | S n =>
      s ← d_get;
      chain ← d_lift (conn_table s !! i);
      l ← cleanup_chain chain cutoff;
      d_modify (fun s => s <| conn_table ::= <[i := l]> |>) ;;
      cleanup_table n (S i) cutoff
  end.

Definition sni_router_cleanup (now_sec : Z) : R unit :=
  s ← d_get;
  let cutoff := if conn_timeout_sec (config s) <? now_sec then now_sec - conn_timeout_sec (config s) else 0 in
  cleanup_table (length (conn_table s)) 0 cutoff.

Fixpoint free_all (ptrs : list Z) : R unit :=
  match ptrs with [] => d_skip | ptr :: ptrs => connection_free ptr ;; free_all ptrs end.

(** Every connection is freed; the table goes with the router. *)
Definition sni_router_destroy : R unit :=
  s ← d_get;
  free_all (concat (conn_table s)) ;;
  d_modify (fun s => s <| conn_table := [] |>).

Definition or_default (v d : Z) : Z := if v =? 0 then d else v.

(** [None] for NULL; the callbacks that must be given are, and [malloc] says
    whether the allocations succeed. *)
Definition sni_router_create (malloc : bool) (cfg : sni_router_config_t) : option sni_router_t :=
  if negb malloc || bool_decide (allowed_snis cfg = []) || negb (addr_len_valid (sa_family (fallback_addr cfg)) (fallback_addrlen cfg)) then None
  else
    let cfg := cfg
      <| max_tracked_conns := or_default (max_tracked_conns cfg) SNI_DEFAULT_MAX_CONNS |>
      <| conn_timeout_sec := or_default (conn_timeout_sec cfg) SNI_DEFAULT_TIMEOUT_SEC |>
      <| max_client_hello_bytes := or_default (max_client_hello_bytes cfg) SNI_DEFAULT_CH_BYTES |>
      <| max_pending_packets := or_default (max_pending_packets cfg) SNI_DEFAULT_PENDING_PACKETS |> in
    if (65535 <? max_tracked_conns cfg) || (86400 <? conn_timeout_sec cfg) || (1048576 <? max_client_hello_bytes cfg) || (64 <? max_pending_packets cfg) then None
    else if negb (forallb valid_sni_pattern (allowed_snis cfg)) then None
    else Some (Router (cfg <| allowed_snis ::= map (map ascii_tolower) |>) (replicate (Z.to_nat (max_tracked_conns cfg)) []) 0 ∅ 0 []).

End router.
