(* ===== verification/SniStream.v ===== *)
(** * The parsers of the SNI router stay in their buffers

    No parser reads outside a buffer or wraps a size on any byte string, and
    the CRYPTO buffer implements a finite map from stream offsets to bytes
    together with the length of the prefix that is complete. *)

From S2P Require Import Prelude Wire Icmp StateOpt OffloadCsum SniParse SniCrypto.

(** ** Integers and headers *)

Lemma size_sub_ok a b : b <= a -> size_sub a b = Some (a - b).
Proof. intros H. unfold size_sub. by rewrite (proj2 (Z.ltb_ge _ _)). Qed.

(** The bytes as a number, the first the highest. *)
Fixpoint be_val (b : list Z) : Z := match b with [] => 0 | x :: b => x * 256 ^ blen b + be_val b end.

Lemma blen_cons (x : Z) (b : list Z) : blen (x :: b) = 1 + blen b.
Proof. unfold blen. cbn [length]. lia. Qed.

Lemma be_val_bound b : bytes_ok b -> 0 <= be_val b < 256 ^ blen b.
Proof.
  induction b as [|x b IH]; intros Hb; cbn [be_val]; [done|]. apply Forall_cons in Hb as [Hx Hb]. specialize (IH Hb). unfold is_byte in Hx. rewrite blen_cons, Z.pow_add_r by (lia || apply blen_nonneg). change (256 ^ 1) with 256.
  assert (0 < 256 ^ blen b) by (apply Z.pow_pos_nonneg; [lia|apply blen_nonneg]). nia.
Qed.

Lemma varint_tail_value data v : bytes_ok data -> 0 <= v -> (v + 1) * 256 ^ blen data <= 2 ^ 64 -> varint_tail data v = v * 256 ^ blen data + be_val data.
Proof.
  revert v. induction data as [|b data IH]; intros v Hb Hv Hl; cbn [varint_tail be_val]; [change (blen []) with 0; lia|]. apply Forall_cons in Hb as [Hb0 Hb]. unfold is_byte in Hb0.
  rewrite blen_cons, Z.pow_add_r in Hl |- * by (lia || apply blen_nonneg). change (256 ^ 1) with 256 in *. assert (1 <= 256 ^ blen data) by (pose proof (Z.pow_pos_nonneg 256 (blen data) ltac:(lia) (blen_nonneg data)); lia).
  rewrite lor_shift_add by lia. change (2 ^ 8) with 256. rewrite u64_small by nia. rewrite IH; [lia|done|lia|nia].
Qed.

Lemma varint_len b : is_byte b -> let n := Z.shiftl 1 (Z.shiftr b 6) in n = 1 \/ n = 2 \/ n = 4 \/ n = 8.
Proof.
  intros Hb. unfold is_byte in Hb. cbn zeta. rewrite Z.shiftr_div_pow2 by lia. change (2 ^ 6) with 64. assert (Hd : 0 <= b / 64 < 4) by (split; [apply Z.div_pos; lia|apply Z.div_lt_upper_bound; lia]).
  assert (b / 64 = 0 \/ b / 64 = 1 \/ b / 64 = 2 \/ b / 64 = 3) as [-> |[-> |[-> | ->]]] by lia; cbn; auto.
Qed.

Lemma decode_varint_safe data pos : bytes_ok data -> 0 <= pos <= blen data -> exists r, decode_varint data pos = Some r /\
  forall v n, r = Some (v, n) -> 1 <= n <= 8 /\ pos + n <= blen data /\ 0 <= v < 2 ^ 62.
Proof.
  intros Hb Hp. unfold decode_varint. rewrite size_sub_ok by lia. cbn [mbind option_bind]. destruct (Z.eqb_spec (blen data - pos) 0) as [|Hne0]; [by eexists|]. destruct (rd_in_bounds data pos) as (b0 & E0); [lia|]. rewrite E0. cbn [mbind option_bind].
  pose proof (rd_byte _ _ _ Hb E0) as Rb. pose proof (varint_len b0 Rb) as Hn. cbn zeta in Hn. set (n := Z.shiftl 1 (Z.shiftr b0 6)) in *. destruct (Z.ltb_spec (blen data - pos) n); [by eexists|].
  destruct (rdn_in_bounds data (pos + 1) (n - 1)) as (t & Et); [lia..|]. rewrite Et. cbn [mbind option_bind]. eexists. split; [done|]. intros v n' [= <- <-]. split; [lia|]. split; [lia|].
  pose proof (rdn_spec _ _ _ _ Et) as (Lt & _). pose proof (rdn_bytes _ _ _ _ Hb Et) as Bt. pose proof (land_ones_mod b0 6 ltac:(lia)) as Em. change (2 ^ 6 - 1) with 63 in Em. pose proof (Z.mod_pos_bound b0 (2 ^ 6) ltac:(lia)) as Hm. rewrite Em. set (v := b0 mod 2 ^ 6) in *.
  assert (Hk : 64 * 256 ^ blen t <= 2 ^ 62) by (rewrite Lt; destruct Hn as [-> |[-> |[-> | ->]]]; cbn; lia). assert (0 < 256 ^ blen t) by (apply Z.pow_pos_nonneg; [lia|apply blen_nonneg]).
  rewrite varint_tail_value by (done || nia). pose proof (be_val_bound t Bt). nia.
Qed.

(** A connection id, and what follows it. *)
Lemma parse_cid_safe pkt pos : bytes_ok pkt -> 0 <= pos < blen pkt -> exists r, parse_cid pkt pos = Some r /\
  forall cid p, r = Some (cid, p) -> bytes_ok cid /\ blen cid <= 20 /\ pos + 1 <= p <= blen pkt.
Proof.
  intros Hb Hp. unfold parse_cid. destruct (rd_in_bounds pkt pos Hp) as (n & En). rewrite En. cbn [mbind option_bind]. rewrite size_sub_ok by lia. cbn [mbind option_bind]. pose proof (rd_byte _ _ _ Hb En). destruct (_ || _) eqn:Eg; [by eexists|]. bool_to_prop.
  destruct (rdn_in_bounds pkt (pos + 1) n) as (cid & Ec); [lia..|]. rewrite Ec. cbn [mbind option_bind]. eexists. split; [done|]. intros c p [= <- <-]. pose proof (rdn_spec _ _ _ _ Ec) as (Lc & _). split; [by eapply rdn_bytes|]. lia.
Qed.

Lemma be32_of_safe pkt pos : 0 <= pos -> pos + 4 <= blen pkt -> exists v, be32_of pkt pos = Some v.
Proof. intros. unfold be32_of. destruct (rdn_in_bounds pkt pos 4) as (b & ->); [lia..|]. by eexists. Qed.

Lemma parse_initial_tail_safe pkt pos : bytes_ok pkt -> 0 <= pos <= blen pkt -> exists r, parse_initial_tail pkt pos = Some r /\
  forall pn e, r = Some (pn, e) -> pos <= pn /\ pn + 17 <= e <= blen pkt.
Proof.
  intros Hb Hp. unfold parse_initial_tail, QUIC_AEAD_TAG_LEN. destruct (decode_varint_safe pkt pos Hb Hp) as (t & Et & Ht). rewrite Et. cbn [mbind option_bind]. destruct t as [[token n]|]; [|by eexists]. destruct (Ht _ _ eq_refl) as (Hn & Hpn & Hv).
  rewrite size_sub_ok by lia. cbn [mbind option_bind]. destruct (Z.ltb_spec (blen pkt - (pos + n)) token); [by eexists|]. destruct (decode_varint_safe pkt (pos + n + token) Hb) as (l & El & Hl); [lia|]. rewrite El. cbn [mbind option_bind].
  destruct l as [[plen m]|]; [|by eexists]. destruct (Hl _ _ eq_refl) as (Hm & Hpm & Hw). rewrite size_sub_ok by lia. cbn [mbind option_bind]. destruct (_ || _) eqn:Eg; [by eexists|]. bool_to_prop. eexists. split; [done|]. intros pn e [= <- <-]. lia.
Qed.

Definition header_ok (pkt : list Z) (h : initial_header_t) : Prop :=
  (ih_version h = QUIC_V1 \/ ih_version h = QUIC_V2) /\ bytes_ok (ih_dcid h) /\ blen (ih_dcid h) <= 20 /\ bytes_ok (ih_scid h) /\ blen (ih_scid h) <= 20 /\ 7 <= pn_offset h /\ pn_offset h + 17 <= packet_end h <= blen pkt.

Lemma parse_initial_header_safe pkt : bytes_ok pkt -> exists r, parse_initial_header pkt = Some r /\ forall h, r = ParseOk h -> header_ok pkt h.
Proof.
  intros Hb. unfold parse_initial_header. destruct (Z.ltb_spec (blen pkt) 7); [by eexists|]. destruct (rd_in_bounds pkt 0) as (b0 & E0); [lia|]. rewrite E0. cbn [mbind option_bind]. destruct (negb _); [by eexists|].
  destruct (be32_of_safe pkt 1) as (version & Ev); [lia|lia|]. rewrite Ev. cbn [mbind option_bind]. destruct (negb _ && negb _) eqn:Ever; [by eexists|]. destruct (negb (is_initial _ _)); [by eexists|].
  destruct (parse_cid_safe pkt 5 Hb) as (d & Ed & Hd); [lia|]. rewrite Ed. cbn [mbind option_bind]. destruct d as [[dcid pos]|]; [|by eexists]. destruct (Hd _ _ eq_refl) as (Bd & Ld & Hp). destruct (Z.leb_spec (blen pkt) pos); [by eexists|].
  destruct (parse_cid_safe pkt pos Hb) as (sc & Es & Hs); [lia|]. rewrite Es. cbn [mbind option_bind]. destruct sc as [[scid pos']|]; [|by eexists]. destruct (Hs _ _ eq_refl) as (Bs & Ls & Hp').
  destruct (parse_initial_tail_safe pkt pos' Hb) as (t & Et & Ht); [lia|]. rewrite Et. cbn [mbind option_bind]. destruct t as [[pn e]|]; [|by eexists]. destruct (Ht _ _ eq_refl) as (Hpn & He). eexists. split; [done|]. intros h [= <-].
  unfold header_ok. cbn [ih_version ih_dcid ih_scid pn_offset packet_end]. split_and!; try done; lia.
Qed.

Lemma parse_retry_header_safe pkt : bytes_ok pkt -> exists r, parse_retry_header pkt = Some r /\ forall h, r = Some h -> bytes_ok (rh_scid h) /\ blen (rh_scid h) <= 20 /\ 23 <= blen pkt.
Proof.
  intros Hb. unfold parse_retry_header, QUIC_RETRY_TAG_LEN. destruct (Z.ltb_spec (blen pkt) (5 + 1 + 1 + 16)); [by eexists|]. destruct (rd_in_bounds pkt 0) as (b0 & E0); [lia|]. rewrite E0. cbn [mbind option_bind]. destruct (negb _); [by eexists|].
  destruct (be32_of_safe pkt 1) as (version & Ev); [lia|lia|]. rewrite Ev. cbn [mbind option_bind]. destruct (negb _ && negb _); [by eexists|]. destruct (negb (is_retry _ _)); [by eexists|].
  destruct (parse_cid_safe pkt 5 Hb) as (d & Ed & Hd); [lia|]. rewrite Ed. cbn [mbind option_bind]. destruct d as [[dcid pos]|]; [|by eexists]. destruct (Hd _ _ eq_refl) as (Bd & Ld & Hp). destruct (Z.leb_spec (blen pkt) pos); [by eexists|].
  destruct (parse_cid_safe pkt pos Hb) as (sc & Es & Hs); [lia|]. rewrite Es. cbn [mbind option_bind]. destruct sc as [[scid pos']|]; [|by eexists]. destruct (Hs _ _ eq_refl) as (Bs & Ls & Hp').
  rewrite size_sub_ok by lia. cbn [mbind option_bind]. destruct (_ <? 16); [by eexists|]. eexists. split; [done|]. intros h [= <-]. cbn [rh_scid]. split_and!; [done|done|lia].
Qed.

(** * The CRYPTO stream of the SNI router

    The buffer of a connection implements a finite map from stream offsets to
    bytes, and its counter is the length of the prefix that is complete.  No
    frame makes it read or write outside its memory. *)

(** Case analysis on the comparisons of the goal. *)
Ltac cmp_cases :=
  repeat match goal with
  | |- context [?a <=? ?b] => destruct (Z.leb_spec a b)
  | |- context [?a <? ?b] => destruct (Z.ltb_spec a b)
  | |- context [?a =? ?b] => destruct (Z.eqb_spec a b)
  end; cbn [andb orb negb]; try reflexivity; try (exfalso; lia).

(** ** The abstract stream *)

Fixpoint stream_write (m : gmap Z Z) (offset : Z) (data : list Z) : gmap Z Z :=
  match data with [] => m | x :: data => stream_write (<[offset := x]> m) (offset + 1) data end.

(** The length of the prefix that is there, up to [n] bytes from [i] on. *)
Fixpoint prefix_from (n : nat) (i : Z) (m : gmap Z Z) : Z :=
  match n with O => i | S n => if decide (is_Some (m !! i)) then prefix_from n (i + 1) m else i end.

Definition stream_prefix (limit : Z) (m : gmap Z Z) : Z := prefix_from (Z.to_nat limit) 0 m.

Lemma stream_write_lookup m off data j :
  stream_write m off data !! j = if (off <=? j) && (j <? off + blen data) then data !! Z.to_nat (j - off) else m !! j.
Proof.
  revert m off. induction data as [|x data IH]; intros m off; cbn [stream_write]; [change (blen []) with 0; destruct (_ && _) eqn:E; [lia|done]|]. rewrite IH, blen_cons.
  destruct (Z.eq_dec off j) as [->|Hne].
  { replace (j + 1 <=? j) with false by lia. cbn [andb]. rewrite lookup_insert_eq. pose proof (blen_nonneg data). replace ((j <=? j) && _) with true by lia. by rewrite Z.sub_diag. }
  rewrite lookup_insert_ne by done. replace ((off + 1 <=? j) && (j <? off + 1 + blen data)) with ((off <=? j) && (j <? off + (1 + blen data))) by lia. destruct (_ && _) eqn:E; [|done].
  replace (Z.to_nat (j - off)) with (S (Z.to_nat (j - (off + 1)))) by lia. done.
Qed.

Lemma prefix_from_spec n i m : let c := prefix_from n i m in
  i <= c <= i + Z.of_nat n /\ (forall j, i <= j < c -> is_Some (m !! j)) /\ (c = i + Z.of_nat n \/ m !! c = None).
Proof.
  revert i. induction n as [|n IH]; intros i; cbn [prefix_from]; [split_and!; [lia..|]; left; lia|]. case_decide as Hi.
  - specialize (IH (i + 1)). cbn zeta in IH. destruct IH as (H1 & H2 & H3). split_and!; [lia..| |destruct H3; [left; lia|by right]]. intros j Hj. destruct (Z.eq_dec j i) as [->|]; [done|apply H2; lia].
  - split_and!; [lia..|]. right. by apply eq_None_not_Some.
Qed.

Lemma stream_prefix_spec limit m : 0 <= limit -> let c := stream_prefix limit m in
  0 <= c <= limit /\ (forall j, 0 <= j < c -> is_Some (m !! j)) /\ (c = limit \/ m !! c = None).
Proof. intros Hl. pose proof (prefix_from_spec (Z.to_nat limit) 0 m) as H. cbn zeta in H |- *. unfold stream_prefix. rewrite Z2Nat.id, Z.add_0_l in H by done. exact H. Qed.

(** It is determined by what it means. *)
Lemma stream_prefix_unique limit m c : 0 <= c <= limit -> (forall j, 0 <= j < c -> is_Some (m !! j)) -> (c = limit \/ m !! c = None) -> c = stream_prefix limit m.
Proof.
  intros Hc Hall Hend. destruct (stream_prefix_spec limit m) as (Hp & Hpa & Hpe); [lia|]. set (p := stream_prefix limit m) in *. destruct (Z.lt_trichotomy c p) as [Hl|[Hl|Hl]]; [|done|].
  - destruct (Hpa c) as (v & E); [lia|]. destruct Hend as [->|Hn]; [lia|congruence].
  - destruct (Hall p) as (v & E); [lia|]. destruct Hpe as [->|Hn]; [lia|congruence].
Qed.

(** ** The bitmap *)

Definition present (bits : list Z) (i : Z) : bool := Z.testbit (default 0 (bits !! Z.to_nat (i / 8))) (i mod 8).

Lemma bit_of k : 0 <= k < 8 -> u8 (Z.shiftl 1 k) = 2 ^ k.
Proof. intros Hk. rewrite Z.shiftl_1_l. apply u8_small. split; [lia|]. apply Z.pow_lt_mono_r; lia. Qed.

Lemma land_bit b k : 0 <= k -> (Z.land b (2 ^ k) =? 0) = negb (Z.testbit b k).
Proof.
  intros Hk. destruct (Z.testbit b k) eqn:E; cbn [negb].
  - apply Z.eqb_neq. intros H. apply (f_equal (fun z => Z.testbit z k)) in H. by rewrite Z.land_spec, E, Z.pow2_bits_true, Z.bits_0 in H by done.
  - apply Z.eqb_eq, Z.bits_inj'. intros n Hn. rewrite Z.land_spec, Z.bits_0. destruct (Z.eq_dec n k) as [->|]; [by rewrite E|]. by rewrite Z.pow2_bits_false, andb_false_r by lia.
Qed.

Lemma div8_lt i n : 0 <= i < 8 * n -> 0 <= i / 8 < n.
Proof. intros. split; [apply Z.div_pos; lia|apply Z.div_lt_upper_bound; lia]. Qed.

Lemma set_bit_spec bits i : 0 <= i < 8 * blen bits -> exists bits', (b ← rd bits (i / 8); wr bits (i / 8) (Z.lor b (u8 (Z.shiftl 1 (i mod 8))))) = Some bits' /\
  blen bits' = blen bits /\ forall j, 0 <= j -> present bits' j = present bits j || (j =? i).
Proof.
  intros Hi. pose proof (div8_lt i (blen bits) Hi) as Hd. pose proof (Z.mod_pos_bound i 8 ltac:(lia)) as Hm. destruct (rd_in_bounds bits (i / 8) Hd) as (b & Eb). rewrite Eb. cbn [mbind option_bind]. unfold wr. replace ((0 <=? i / 8) && (i / 8 <? blen bits)) with true by lia.
  rewrite bit_of by done. eexists. split; [done|]. split; [unfold blen; by rewrite length_insert|]. intros j Hj. unfold present. unfold rd in Eb. destruct (Z.ltb_spec (i / 8) 0); [done|]. pose proof (Z.div_pos j 8 Hj ltac:(lia)) as Hjd.
  destruct (Z.eq_dec (j / 8) (i / 8)) as [E|Hne].
  - rewrite E, list_lookup_insert_eq by (apply lookup_lt_Some in Eb; done). rewrite Eb. cbn [from_option]. unfold id. rewrite Z.lor_spec. f_equal. rewrite Z.pow2_bits_eqb by lia. pose proof (Z.div_mod j 8). pose proof (Z.div_mod i 8). destruct (Z.eqb_spec (i mod 8) (j mod 8)), (Z.eqb_spec j i); try done; lia.
  - rewrite list_lookup_insert_ne by lia. replace (j =? i) with false; [by rewrite orb_false_r|]. symmetry. apply Z.eqb_neq. congruence.
Qed.

Lemma set_present_spec n i bits : 0 <= i -> i + Z.of_nat n <= 8 * blen bits -> exists bits', set_present n i bits = Some bits' /\
  blen bits' = blen bits /\ forall j, 0 <= j -> present bits' j = present bits j || ((i <=? j) && (j <? i + Z.of_nat n)).
Proof.
  revert i bits. induction n as [|n IH]; intros i bits Hi Hl; cbn [set_present].
  { exists bits. split_and!; [done..|]. intros j Hj. replace ((i <=? j) && (j <? i + Z.of_nat 0)) with false by cmp_cases. by rewrite orb_false_r. }
  destruct (set_bit_spec bits i) as (bits1 & E1 & L1 & P1); [lia|]. destruct (rd bits (i / 8)) as [b|] eqn:Eb; [|done]. cbn [mbind option_bind] in E1 |- *. rewrite E1. cbn [mbind option_bind].
  destruct (IH (i + 1) bits1) as (bits2 & E2 & L2 & P2); [lia|lia|]. exists bits2. split; [done|]. split; [lia|]. intros j Hj. rewrite P2, P1, <- orb_assoc by done. f_equal. cmp_cases.
Qed.

Lemma advance_spec fuel i limit bits : 0 <= i <= limit -> limit <= 8 * blen bits -> limit - i <= Z.of_nat fuel -> exists c, advance fuel i limit bits = Some c /\
  i <= c <= limit /\ (forall j, i <= j < c -> present bits j = true) /\ (c = limit \/ present bits c = false).
Proof.
  revert i. induction fuel as [|fuel IH]; intros i Hi Hl Hf; cbn [advance].
  { replace (limit <=? i) with true by lia. exists i. split_and!; [done|lia..|]. left. lia. }
  destruct (Z.leb_spec limit i); [exists i; split_and!; [done|lia..|]; left; lia|]. destruct (rd_in_bounds bits (i / 8)) as (b & Eb); [apply div8_lt; lia|]. rewrite Eb. cbn [mbind option_bind].
  pose proof (Z.mod_pos_bound i 8 ltac:(lia)). rewrite bit_of, land_bit by lia. assert (Ep : present bits i = Z.testbit b (i mod 8)) by (unfold present; unfold rd in Eb; destruct (_ <? 0); [done|]; by rewrite Eb). rewrite <- Ep.
  destruct (present bits i) eqn:Epi; cbn [negb]; [|exists i; split_and!; [done|lia..|by right]]. destruct (IH (i + 1)) as (c & Ec & Hc & Ha & He); [lia..|]. exists c. split_and!; [done|lia..| |done]. intros j Hj. destruct (Z.eq_dec j i) as [->|]; [done|apply Ha; lia].
Qed.

(** ** Memory *)

(** Sixty-four doublings reach every limit of a size. *)
Lemma grow_cap_spec fuel cap end_ limit : 1024 <= cap -> limit <= cap * 2 ^ Z.of_nat fuel -> let c := grow_cap fuel cap end_ limit in
  cap <= c <= Z.max cap limit /\ ((c <? end_) && (c <? limit / 2) = false).
Proof.
  revert cap. induction fuel as [|fuel IH]; intros cap Hc Hl; cbn [grow_cap]; cbn zeta.
  { split; [lia|]. rewrite Z.mul_1_r in Hl. pose proof (Z.div_le_upper_bound limit 2 cap). lia. }
  destruct (_ && _) eqn:Eg; [|split; [lia|done]]. bool_to_prop. rewrite Nat2Z.inj_succ, Z.pow_succ_r in Hl by lia. destruct (IH (cap * 2)) as [H1 H2]; [lia|lia|]. split; [|done]. assert (cap * 2 <= limit) by (pose proof (Z.mul_div_le limit 2); lia). lia.
Qed.

Lemma new_cap_spec cap end_ limit : cap = 0 \/ 1024 <= cap -> end_ <= limit < 2 ^ 64 -> end_ <= new_cap cap end_ limit <= Z.max 1024 (Z.max cap limit) /\ Z.max 1024 cap <= new_cap cap end_ limit.
Proof.
  intros Hcap Hl. unfold new_cap. set (c0 := if cap =? 0 then 1024 else cap). assert (H0 : 1024 <= c0 /\ c0 = Z.max 1024 cap) by (unfold c0; destruct (Z.eqb_spec cap 0); lia). destruct H0 as (Ha & Hb).
  destruct (grow_cap_spec 64 c0 end_ limit) as [H1 _]; [lia|change (2 ^ Z.of_nat 64) with (2 ^ 64); nia|]. destruct (_ <? end_) eqn:E; lia.
Qed.

(** ** The buffer implements the stream *)

(** A byte that is present was written, the rest may be anything. *)
Record crypto_rel (limit : Z) (b : crypto_buf) (m : gmap Z Z) : Prop := {
  cr_limit : 0 < limit < 2 ^ 62;
  cr_cap : crypto_cap b = 0 \/ 1024 <= crypto_cap b <= Z.max 1024 limit;
  cr_prefix : crypto_contiguous b = stream_prefix limit m;
  cr_data : forall i v, m !! i = Some v -> 0 <= i < limit /\ is_byte v /\ crypto_data b !! Z.to_nat i = Some (Some v);
  cr_bits : match crypto_present b with
            | None => m = ∅
            | Some bits => blen bits = (limit + 7) / 8 /\ forall i, 0 <= i -> present bits i = bool_decide (is_Some (m !! i))
            end
}.

Lemma empty_rel limit : 0 < limit < 2 ^ 62 -> crypto_rel limit empty_crypto ∅.
Proof.
  intros Hl. constructor; cbn [crypto_cap empty_crypto crypto_data crypto_present crypto_contiguous length]; [done|by left| |intros i v H; by rewrite lookup_empty in H|done].
  apply stream_prefix_unique; [lia|intros j Hj; lia|]. right. apply lookup_empty.
Qed.

Lemma limit_bits limit : 0 < limit -> limit <= 8 * ((limit + 7) / 8).
Proof. intros. pose proof (Z.div_mod (limit + 7) 8 ltac:(lia)). pose proof (Z.mod_pos_bound (limit + 7) 8 ltac:(lia)). lia. Qed.

Lemma put_crypto_spec data off src : 0 <= off -> off + blen src <= Z.of_nat (length data) -> exists d, put_crypto data off src = Some d /\
  length d = length data /\ forall i, 0 <= i -> d !! Z.to_nat i = if (off <=? i) && (i <? off + blen src) then Some <$> (src !! Z.to_nat (i - off)) else data !! Z.to_nat i.
Proof.
  intros Ho Hl. unfold put_crypto. replace ((0 <=? off) && (off + blen src <=? Z.of_nat (length data))) with true by lia. eexists. split; [done|]. unfold blen in *.
  split; [rewrite !length_app, length_fmap, length_take, length_drop; lia|]. intros i Hi. assert (Lt : length (take (Z.to_nat off) data) = Z.to_nat off) by (rewrite length_take; lia). destruct (Z.leb_spec off i), (Z.ltb_spec i (off + Z.of_nat (length src))); cbn [andb]; [| | |lia].
  - rewrite lookup_app_r by lia. rewrite lookup_app_l by (rewrite length_fmap; lia). rewrite list_lookup_fmap, Lt. do 2 f_equal. lia.
  - rewrite lookup_app_r by lia. rewrite lookup_app_r by (rewrite length_fmap; lia). rewrite lookup_drop, length_fmap, Lt. f_equal. lia.
  - rewrite lookup_app_l by lia. rewrite lookup_take_lt by lia. done.
Qed.

(** The buffer, grown to hold [end_] bytes if it is too small. *)
Definition grown (limit end_ : Z) (b : crypto_buf) : crypto_buf :=
  if crypto_cap b <? end_ then b <| crypto_data ::= fun d => d ++ replicate (Z.to_nat (new_cap (crypto_cap b) end_ limit - crypto_cap b)) None |> else b.

Lemma grown_rel limit end_ b m : crypto_rel limit b m -> end_ <= limit -> crypto_rel limit (grown limit end_ b) m /\ end_ <= crypto_cap (grown limit end_ b) /\
  crypto_present (grown limit end_ b) = crypto_present b /\ crypto_contiguous (grown limit end_ b) = crypto_contiguous b.
Proof.
  intros [H1 H2 H3 H4 H5] He. unfold grown. destruct (Z.ltb_spec (crypto_cap b) end_) as [Hlt|]; [|done]. destruct (new_cap_spec (crypto_cap b) end_ limit) as [Ha Hb]; [lia|lia|].
  assert (Ec : crypto_cap (b <| crypto_data ::= fun d => d ++ replicate (Z.to_nat (new_cap (crypto_cap b) end_ limit - crypto_cap b)) None |>) = new_cap (crypto_cap b) end_ limit).
  { cbn [update crypto_data]. unfold crypto_cap at 1. cbn [crypto_data]. rewrite length_app, length_replicate. unfold crypto_cap in *. lia. }
  split; [|split; [rewrite Ec; lia|done]]. constructor; [done|rewrite Ec; lia|exact H3| |exact H5]. intros i v Hi. destruct (H4 i v Hi) as (? & ? & E). split; [done|]. split; [done|]. cbn [update crypto_data]. apply lookup_app_l_Some. exact E.
Qed.

(** The bitmap, allocated if there is none. *)
Lemma bits_of_rel limit b m : crypto_rel limit b m -> forall bits, match crypto_present b with Some bits => Some bits | None => Some (replicate (Z.to_nat ((limit + 7) / 8)) 0) end = Some bits ->
  blen bits = (limit + 7) / 8 /\ forall i, 0 <= i -> present bits i = bool_decide (is_Some (m !! i)).
Proof.
  intros [H1 H2 H3 H4 H5] bits E. destruct (crypto_present b) as [b0|]; [by injection E as <-|]. injection E as <-. subst m. split.
  - unfold blen. rewrite length_replicate. pose proof (Z.div_pos (limit + 7) 8). lia.
  - intros i Hi. rewrite lookup_empty. rewrite bool_decide_false by (by intros [? ?]). unfold present. destruct (replicate _ 0 !! _) as [x|] eqn:Ex; [apply lookup_replicate in Ex as [-> _]|]; apply Z.bits_0.
Qed.

(** The write itself. *)
Lemma crypto_write_rel limit b m bits offset data : crypto_rel limit b m -> 0 <= offset -> offset + blen data <= limit -> offset + blen data <= crypto_cap b -> bytes_ok data ->
  blen bits = (limit + 7) / 8 -> (forall i, 0 <= i -> present bits i = bool_decide (is_Some (m !! i))) ->
  exists d bits' c, put_crypto (crypto_data b) offset data = Some d /\ set_present (length data) offset bits = Some bits' /\ advance (Z.to_nat limit) (crypto_contiguous b) limit bits' = Some c /\
  crypto_rel limit (CryptoBuf d (Some bits') c) (stream_write m offset data).
Proof.
  intros [H1 H2 H3 H4 H5] Ho Hl Hc Hb Lb Pb. pose proof (limit_bits limit ltac:(lia)) as Hlb. pose proof (blen_nonneg data) as Hd0. destruct (put_crypto_spec (crypto_data b) offset data Ho Hc) as (d & Ed & Ld & Dd).
  destruct (set_present_spec (length data) offset bits Ho) as (bits' & Es & Ls & Ps); [unfold blen in *; lia|]. change (Z.of_nat (length data)) with (blen data) in Ps. destruct (stream_prefix_spec limit m) as (Hp & Hpa & Hpe); [lia|].
  destruct (advance_spec (Z.to_nat limit) (crypto_contiguous b) limit bits') as (c & Ec & Hcc & Hca & Hce); [lia|lia|lia|].
  assert (Pm : forall i, 0 <= i -> present bits' i = bool_decide (is_Some (stream_write m offset data !! i))).
  { intros i Hi. rewrite Ps, Pb, stream_write_lookup by done. destruct ((offset <=? i) && (i <? offset + blen data)) eqn:E; [|by rewrite orb_false_r]. rewrite orb_true_r. symmetry. apply bool_decide_eq_true, lookup_lt_is_Some. unfold blen in E. lia. }
  exists d, bits', c. split_and!; [done..|]. constructor; cbn [crypto_data crypto_present crypto_contiguous]; [done| | | |split; [lia|done]].
  - unfold crypto_cap in *. cbn [crypto_data]. by rewrite Ld.
  - apply stream_prefix_unique; [lia| |destruct Hce as [|Hce]; [by left|right]].
    + intros j Hj. destruct (Z.lt_ge_cases j (crypto_contiguous b)) as [Hlt|Hge]; [|apply (bool_decide_eq_true_1 (is_Some _)); rewrite <- Pm by lia; apply Hca; lia]. rewrite stream_write_lookup. destruct (_ && _) eqn:E; [apply lookup_lt_is_Some; unfold blen in E; lia|apply Hpa; lia].
    + apply eq_None_not_Some. intros Hs. rewrite Pm, bool_decide_true in Hce by (lia || done). done.
  - intros i v. rewrite stream_write_lookup. destruct (_ && _) eqn:E.
    + intros Ev. split; [lia|]. split; [by eapply (Forall_lookup_1 is_byte) in Ev|]. rewrite Dd, E, Ev by lia. done.
    + intros Ev. destruct (H4 i v Ev) as (? & ? & ?). split; [done|]. split; [done|]. by rewrite Dd, E by lia.
Qed.

(** A frame outside the limit or without memory is refused and changes nothing
    that can be read; every other one is written. *)
Lemma mark_range_rel limit m1 m2 b m offset data : crypto_rel limit b m -> 0 <= offset -> bytes_ok data -> exists b' ok, crypto_mark_range limit m1 m2 b offset data = Some (b', ok) /\
  crypto_rel limit b' (if ok then stream_write m offset data else m) /\ (m1 && m2 = true -> ok = (offset + blen data <=? limit)).
Proof.
  intros Hr Ho Hb. unfold crypto_mark_range. pose proof (blen_nonneg data). destruct (Z.ltb_spec limit offset); [exists b, false; split_and!; [done..|]; cmp_cases|]. destruct (Z.ltb_spec (limit - offset) (blen data)); [exists b, false; split_and!; [done..|]; cmp_cases|].
  cbn zeta. fold (grown limit (offset + blen data) b). destruct (grown_rel limit (offset + blen data) b m Hr) as (Hg & Hcap & Ep & Ec); [lia|]. destruct (_ && negb m1) eqn:Em1; [exists b, false; split_and!; [done..|]; intros Hm; destruct m1; [by rewrite andb_false_r in Em1|done]|].
  rewrite Ep. destruct (match crypto_present b with Some bits => Some bits | None => if m2 then _ else None end) as [bits|] eqn:Eb; [|exists (grown limit (offset + blen data) b), false; split_and!; [done..|]; intros Hm; destruct (crypto_present b), m2; [done|done|done|by rewrite andb_false_r in Hm]].
  destruct (bits_of_rel limit b m Hr bits) as (Lb & Pb); [destruct (crypto_present b); [done|]; by destruct m2|].
  destruct (crypto_write_rel limit _ m bits offset data Hg) as (d & bits' & c & Ed & Es & Ea & Hrel); [done|lia|done..|]. rewrite Ed. cbn [mbind option_bind]. rewrite Es. cbn [mbind option_bind]. rewrite Ea. cbn [mbind option_bind]. exists (CryptoBuf d (Some bits') c), true. split_and!; [done..|]. intros _. cmp_cases.
Qed.

(** ** Frames *)

Lemma skip_varints_safe n data pos : bytes_ok data -> 0 <= pos <= blen data -> exists r, skip_varints n data pos = Some r /\ forall p, r = Some p -> pos + Z.of_nat n <= p <= blen data.
Proof.
  intros Hb. revert pos. induction n as [|n IH]; intros pos Hp; cbn [skip_varints]; [eexists; split; [done|]; intros p [= <-]; lia|]. destruct (decode_varint_safe data pos Hb Hp) as (r & E & Hr). rewrite E. cbn [mbind option_bind]. destruct r as [[v k]|]; [|by eexists].
  destruct (Hr v k eq_refl) as (Hk & Hpk & _). destruct (IH (pos + k)) as (r & E' & Hr'); [lia|]. exists r. split; [done|]. intros p Ep. specialize (Hr' p Ep). lia.
Qed.

Lemma skip_ranges_safe fuel count data pos : bytes_ok data -> 0 <= pos <= blen data -> 0 <= count -> blen data - pos < Z.of_nat fuel ->
  exists r, skip_ranges fuel count data pos = Some r /\ forall p, r = Some p -> pos <= p <= blen data.
Proof.
  intros Hb. revert count pos. induction fuel as [|fuel IH]; intros count pos Hp Hc Hf; [lia|]. cbn [skip_ranges]. destruct (Z.eqb_spec count 0); [eexists; split; [done|]; intros p [= <-]; lia|].
  destruct (skip_varints_safe 2 data pos Hb Hp) as (r & E & Hr). rewrite E. cbn [mbind option_bind]. destruct r as [q|]; [|by eexists]. specialize (Hr q eq_refl). destruct (IH (count - 1) q) as (r & E' & Hr'); [lia..|]. exists r. split; [done|]. intros p Ep. specialize (Hr' p Ep). lia.
Qed.

Lemma skip_ack_frame_safe data pos ecn : bytes_ok data -> 0 <= pos <= blen data -> exists r, skip_ack_frame data pos ecn = Some r /\ forall p, r = Some p -> pos <= p <= blen data.
Proof.
  intros Hb Hp. unfold skip_ack_frame. destruct (skip_varints_safe 2 data pos Hb Hp) as (a & Ea & Ha). rewrite Ea. cbn [mbind option_bind]. destruct a as [p1|]; [|by eexists]. specialize (Ha p1 eq_refl).
  destruct (decode_varint_safe data p1 Hb) as (c & Ec & Hc); [lia|]. rewrite Ec. cbn [mbind option_bind]. destruct c as [[count n]|]; [|by eexists]. destruct (Hc _ _ eq_refl) as (Hn & Hpn & Hv).
  destruct (skip_varints_safe 1 data (p1 + n) Hb) as (f & Ef & Hf); [lia|]. rewrite Ef. cbn [mbind option_bind]. destruct f as [p2|]; [|by eexists]. specialize (Hf p2 eq_refl).
  destruct (skip_ranges_safe (S (length data)) count data p2 Hb) as (r & Er & Hr); [lia|lia|unfold blen; lia|]. rewrite Er. cbn [mbind option_bind]. destruct r as [p3|]; [|by eexists]. specialize (Hr p3 eq_refl).
  destruct ecn; [|eexists; split; [done|]; intros p [= <-]; lia]. destruct (skip_varints_safe 3 data p3 Hb) as (t & Et & Ht); [lia|]. exists t. split; [done|]. intros p E. specialize (Ht p E). lia.
Qed.

Lemma parse_crypto_frame_safe data pos : bytes_ok data -> 0 <= pos <= blen data -> exists r, parse_crypto_frame data pos = Some r /\
  forall o d p, r = Some (o, d, p) -> 0 <= o /\ bytes_ok d /\ pos <= p <= blen data.
Proof.
  intros Hb Hp. unfold parse_crypto_frame. destruct (decode_varint_safe data pos Hb Hp) as (o & Eo & Ho). rewrite Eo. cbn [mbind option_bind]. destruct o as [[off n]|]; [|by eexists]. destruct (Ho _ _ eq_refl) as (Hn & Hpn & Hv).
  destruct (decode_varint_safe data (pos + n) Hb) as (l & El & Hl); [lia|]. rewrite El. cbn [mbind option_bind]. destruct l as [[len k]|]; [|by eexists]. destruct (Hl _ _ eq_refl) as (Hk & Hpk & Hw). rewrite size_sub_ok by lia. cbn [mbind option_bind].
  destruct (Z.ltb_spec (blen data - (pos + n + k)) len); [by eexists|]. destruct (rdn_in_bounds data (pos + n + k) len) as (d & Ed); [lia..|]. rewrite Ed. cbn [mbind option_bind]. eexists. split; [done|]. intros o d' p [= <- <- <-]. split; [lia|]. split; [by eapply rdn_bytes|lia].
Qed.

(** Frames of any bytes leave a buffer that implements a stream. *)
Lemma collect_safe fuel limit malloc b m plaintext pos : bytes_ok plaintext -> crypto_rel limit b m -> 0 <= pos <= blen plaintext -> blen plaintext - pos < Z.of_nat fuel ->
  exists b' ok m', collect_crypto_frames fuel limit malloc b plaintext pos = Some (b', ok) /\ crypto_rel limit b' m'.
Proof.
  intros Hb. revert b m pos. induction fuel as [|fuel IH]; intros b m pos Hr Hp Hf; [lia|]. cbn [collect_crypto_frames]. destruct (Z.leb_spec (blen plaintext) pos); [by exists b, true, m|].
  destruct (decode_varint_safe plaintext pos Hb Hp) as (t & Et & Ht). rewrite Et. cbn [mbind option_bind]. destruct t as [[ft n]|]; [|by exists b, false, m]. destruct (Ht _ _ eq_refl) as (Hn & Hpn & _).
  destruct (_ || _); [apply (IH b m); [done|lia..]|]. destruct ((ft =? 2) || (ft =? 3)).
  { destruct (skip_ack_frame_safe plaintext (pos + n) (ft =? 3) Hb) as (r & Er & Hrr); [lia|]. rewrite Er. cbn [mbind option_bind]. destruct r as [p|]; [|by exists b, false, m]. specialize (Hrr p eq_refl). apply (IH b m); [done|lia..]. }
  destruct (ft =? 6); [|by eexists _, _, m]. destruct (parse_crypto_frame_safe plaintext (pos + n) Hb) as (f & Ef & Hff); [lia|]. rewrite Ef. cbn [mbind option_bind]. destruct f as [[[o d] p]|]; [|by exists b, false, m]. destruct (Hff _ _ _ eq_refl) as (Ho & Hd & Hpp).
  destruct (mark_range_rel limit (malloc (pos + n)) (malloc (pos + n + 1)) b m o d Hr Ho Hd) as (b' & ok & Em & Hr' & _). rewrite Em. destruct ok; [apply (IH b' (stream_write m o d)); [done|lia..]|by exists b', false, m].
Qed.
