(* ===== verification/SniHello.v ===== *)
(** * The server name of a ClientHello

    The search for the name never reads a byte that was not received, and on
    the encoding of any ClientHello it finds the name that the message has, in
    lower case, or that it has none. *)

From S2P Require Import Prelude Wire Icmp StateOpt OffloadCsum SniParse SniCrypto SniStream.

(** ** Reads of what was received *)

(** The first [len] bytes have been written. *)
Definition received (data : list (option Z)) (len : Z) : Prop := forall i, 0 <= i < len -> exists v, crd data i = Some v /\ is_byte v.

Lemma crd_lookup data i : 0 <= i -> crd data i = mjoin (data !! Z.to_nat i).
Proof. intros. unfold crd. by destruct (Z.ltb_spec i 0); [lia|]. Qed.

Lemma received_len data len : received data len -> len <= Z.of_nat (length data).
Proof.
  intros H. destruct (Z.le_gt_cases len 0); [lia|]. destruct (H (len - 1)) as (v & E & _); [lia|]. rewrite crd_lookup in E by lia. destruct (data !! Z.to_nat (len - 1)) eqn:El; [|done]. apply lookup_lt_Some in El. lia.
Qed.

Lemma crd16_safe data len i : received data len -> 0 <= i -> i + 2 <= len -> exists v, crd16 data i = Some v /\ 0 <= v < 65536.
Proof.
  intros H Hi Hl. destruct (H i) as (a & Ea & Ha); [lia|]. destruct (H (i + 1)) as (b & Eb & Hb); [lia|]. unfold crd16. rewrite Ea. cbn [mbind option_bind]. rewrite Eb. cbn [mbind option_bind]. unfold is_byte in *. rewrite be16_eq by lia. eexists. split; [done|]. lia.
Qed.

(** A range of the buffer, byte by byte. *)
Lemma crdn_intro data off l : 0 <= off -> (forall k v, l !! k = Some v -> crd data (off + Z.of_nat k) = Some v) -> off <= Z.of_nat (length data) -> crdn data off (blen l) = Some l.
Proof.
  intros Ho Hl Hoff. assert (Hlen : off + blen l <= Z.of_nat (length data)).
  { destruct l as [|x l] using rev_ind; [change (blen []) with 0; lia|]. clear IHl. specialize (Hl (length l) x). rewrite lookup_app_r, Nat.sub_diag in Hl by lia. specialize (Hl eq_refl). rewrite crd_lookup in Hl by lia. destruct (data !! _) eqn:E; [|done]. apply lookup_lt_Some in E. unfold blen. rewrite length_app. cbn [length]. lia. }
  unfold crdn. pose proof (blen_nonneg l). replace ((0 <=? off) && (0 <=? blen l) && (off + blen l <=? Z.of_nat (length data))) with true by lia. apply mapM_Some. apply Forall2_same_length_lookup_2.
  { rewrite length_take, length_drop. unfold blen in *. lia. }
  intros k o v Ek Ev. specialize (Hl k v Ev). apply lookup_lt_Some in Ev. rewrite lookup_take_lt, lookup_drop in Ek by (unfold blen; lia). rewrite crd_lookup in Hl by lia. replace (Z.to_nat (off + Z.of_nat k)) with (Z.to_nat off + k)%nat in Hl by lia. rewrite Ek in Hl. exact Hl.
Qed.

Lemma received_list data len n : received data len -> forall off, 0 <= off -> off + Z.of_nat n <= len ->
  exists l, length l = n /\ (forall k v, l !! k = Some v -> crd data (off + Z.of_nat k) = Some v).
Proof.
  intros H. induction n as [|n IH]; intros off Ho Hl; [by exists []|]. destruct (IH (off + 1)) as (l & Ll & Hll); [lia..|]. destruct (H off) as (v & Ev & _); [lia|]. exists (v :: l). split; [cbn [length]; lia|].
  intros [|k] w E; cbn in E; [injection E as <-; rewrite Z.add_0_r; exact Ev|]. rewrite <- (Hll k w E). f_equal. lia.
Qed.

Lemma crdn_safe data len off n : received data len -> 0 <= off -> 0 <= n -> off + n <= len -> exists l, crdn data off n = Some l.
Proof.
  intros H Ho Hn Hl. destruct (received_list data len (Z.to_nat n) H off Ho) as (l & Ll & Hll); [lia|]. exists l. replace n with (blen l) by (unfold blen; lia). apply crdn_intro; [done|done|]. pose proof (received_len _ _ H). lia.
Qed.

Lemma sni_names_safe fuel data len pos ext_end cap : received data len -> 0 <= pos <= ext_end -> ext_end <= len -> ext_end - pos < Z.of_nat fuel -> exists r, sni_names fuel data pos ext_end cap = Some r.
Proof.
  intros H. revert pos. induction fuel as [|fuel IH]; intros pos Hp He Hf; [lia|]. cbn [sni_names]. rewrite (size_sub_ok ext_end pos) by lia. cbn [mbind option_bind]. destruct (Z.ltb_spec (ext_end - pos) 3); [by eexists|].
  destruct (H pos) as (t & Et & _); [lia|]. rewrite Et. cbn [mbind option_bind]. destruct (crd16_safe data len (pos + 1) H) as (n & En & Hn); [lia..|]. rewrite En. cbn [mbind option_bind]. rewrite (size_sub_ok ext_end (pos + 3)) by lia. cbn [mbind option_bind].
  destruct (Z.ltb_spec (ext_end - (pos + 3)) n); [by eexists|]. destruct (t =? 0); [|apply IH; lia]. destruct (_ || _); [by eexists|]. destruct (crdn_safe data len (pos + 3) n H) as (l & El); [lia..|]. rewrite El. cbn [mbind option_bind]. destruct (existsb _ _); by eexists.
Qed.

Lemma sni_extensions_safe fuel data len pos end_ cap : received data len -> 0 <= pos <= end_ -> end_ <= len -> end_ - pos < Z.of_nat fuel -> exists r, sni_extensions fuel data pos end_ cap = Some r.
Proof.
  intros H. revert pos. induction fuel as [|fuel IH]; intros pos Hp He Hf; [lia|]. cbn [sni_extensions]. rewrite (size_sub_ok end_ pos) by lia. cbn [mbind option_bind]. destruct (Z.ltb_spec (end_ - pos) 4); [by eexists|].
  destruct (crd16_safe data len pos H) as (t & Et & _); [lia..|]. rewrite Et. cbn [mbind option_bind]. destruct (crd16_safe data len (pos + 2) H) as (n & En & Hn); [lia..|]. rewrite En. cbn [mbind option_bind]. rewrite (size_sub_ok end_ (pos + 4)) by lia. cbn [mbind option_bind].
  destruct (Z.ltb_spec (end_ - (pos + 4)) n); [by eexists|]. destruct (t =? 0); [|apply IH; lia]. destruct (Z.ltb_spec n 2); [by eexists|]. destruct (crd16_safe data len (pos + 4) H) as (k & Ek & Hk); [lia..|]. rewrite Ek. cbn [mbind option_bind]. rewrite (size_sub_ok (pos + 4 + n) (pos + 4 + 2)) by lia. cbn [mbind option_bind].
  destruct (negb _); [by eexists|]. apply (sni_names_safe _ data len); [done|lia..|]. pose proof (received_len _ _ H). lia.
Qed.

Lemma skip_opaque8_safe data len pos end_ : received data len -> 0 <= pos -> end_ <= len -> exists r, skip_opaque8 data pos end_ = Some r /\ forall p, r = Some p -> 0 <= p <= end_.
Proof.
  intros H Hp He. unfold skip_opaque8. destruct (Z.leb_spec end_ pos); [by eexists|]. destruct (H pos) as (n & En & Hn); [lia|]. rewrite En. cbn [mbind option_bind]. unfold is_byte in Hn. rewrite (size_sub_ok end_ (pos + 1)) by lia. cbn [mbind option_bind].
  destruct (Z.ltb_spec (end_ - (pos + 1)) n); [by eexists|]. eexists. split; [done|]. intros p [= <-]. lia.
Qed.

Lemma skip_opaque16_safe data len pos end_ : received data len -> 0 <= pos <= end_ -> end_ <= len -> exists r, skip_opaque16 data pos end_ = Some r /\ forall p, r = Some p -> 0 <= p <= end_.
Proof.
  intros H Hp He. unfold skip_opaque16. rewrite (size_sub_ok end_ pos) by lia. cbn [mbind option_bind]. destruct (Z.ltb_spec (end_ - pos) 2); [by eexists|]. destruct (crd16_safe data len pos H) as (n & En & Hn); [lia..|]. rewrite En. cbn [mbind option_bind].
  rewrite (size_sub_ok end_ (pos + 2)) by lia. cbn [mbind option_bind]. destruct (Z.ltb_spec (end_ - (pos + 2)) n); [by eexists|]. eexists. split; [done|]. intros p [= <-]. lia.
Qed.

Lemma hello_len_safe data len : received data len -> 4 <= len -> exists n, hello_len data = Some n /\ 0 <= n < 2 ^ 24.
Proof.
  intros H Hl. unfold hello_len. destruct (H 1) as (a & Ea & Ha); [lia|]. destruct (H 2) as (b & Eb & Hb); [lia|]. destruct (H 3) as (c & Ec & Hc); [lia|]. rewrite Ea. cbn [mbind option_bind]. rewrite Eb. cbn [mbind option_bind]. rewrite Ec. cbn [mbind option_bind].
  unfold is_byte in *. assert (E : Z.lor (Z.lor (Z.shiftl a 16) (Z.shiftl b 8)) c = a * 65536 + b * 256 + c).
  { replace (Z.shiftl a 16) with (Z.shiftl (Z.shiftl a 8) 8) by (by rewrite Z.shiftl_shiftl). rewrite <- Z.shiftl_lor, lor_shift_add, lor_shift_add by lia. lia. }
  rewrite E. eexists. split; [done|]. lia.
Qed.

Lemma extract_sni_safe data len cap : received data len -> exists r, extract_sni data len cap = Some r.
Proof.
  intros H. unfold extract_sni. destruct (Z.ltb_spec len 4); [by eexists|]. destruct (H 0) as (t & Et & _); [lia|]. rewrite Et. cbn [mbind option_bind]. destruct (negb _); [by eexists|]. destruct (hello_len_safe data len H) as (n & En & Hn); [lia|]. rewrite En. cbn [mbind option_bind].
  destruct (_ || _) eqn:Eg; [by eexists|]. bool_to_prop. destruct (skip_opaque8_safe data len (4 + 2 + 32) (4 + n) H) as (s & Es & Hs); [lia..|]. rewrite Es. cbn [mbind option_bind]. destruct s as [p1|]; [|by eexists]. specialize (Hs p1 eq_refl).
  destruct (skip_opaque16_safe data len p1 (4 + n) H) as (c & Ec & Hc); [lia..|]. rewrite Ec. cbn [mbind option_bind]. destruct c as [p2|]; [|by eexists]. specialize (Hc p2 eq_refl). destruct (skip_opaque8_safe data len p2 (4 + n) H) as (m & Em & Hm); [lia..|]. rewrite Em. cbn [mbind option_bind]. destruct m as [p3|]; [|by eexists]. specialize (Hm p3 eq_refl).
  rewrite (size_sub_ok (4 + n) p3) by lia. cbn [mbind option_bind]. destruct (Z.ltb_spec (4 + n - p3) 2); [by eexists|]. destruct (crd16_safe data len p3 H) as (e & Ee & He); [lia..|]. rewrite Ee. cbn [mbind option_bind]. rewrite (size_sub_ok (4 + n) (p3 + 2)) by lia. cbn [mbind option_bind]. destruct (negb _); [by eexists|].
  apply (sni_extensions_safe _ data len); [done|lia..|]. pose proof (received_len _ _ H). lia.
Qed.

(** What a buffer that implements a stream has received. *)
Lemma rel_received limit b m : crypto_rel limit b m -> received (crypto_data b) (crypto_contiguous b).
Proof.
  intros [H1 H2 H3 H4 H5] i Hi. rewrite H3 in Hi. destruct (stream_prefix_spec limit m) as (_ & Hpa & _); [lia|]. destruct (Hpa i Hi) as (v & Ev). destruct (H4 i v Ev) as (_ & Hv & E). exists v. split; [|done]. rewrite crd_lookup by lia. by rewrite E.
Qed.

Lemma received_mono data len len' : received data len -> len' <= len -> received data len'.
Proof. intros H Hl i Hi. apply H. lia. Qed.

Lemma client_hello_status_safe limit b m : crypto_rel limit b m -> exists h, client_hello_status b = Some h.
Proof.
  intros Hr. pose proof (rel_received _ _ _ Hr) as H. unfold client_hello_status. destruct (Z.ltb_spec (crypto_contiguous b) 4); [by eexists|]. destruct (hello_len_safe _ _ H) as (n & En & Hn); [lia|]. rewrite En. cbn [mbind option_bind].
  destruct (Z.ltb_spec (crypto_contiguous b) (4 + n)); [by eexists|]. destruct (extract_sni_safe (crypto_data b) (4 + n) 256) as (r & Er); [by eapply received_mono|]. rewrite Er. by eexists.
Qed.

(** ** The encoding of a ClientHello *)

Definition enc16 (n : Z) : list Z := [n / 256; n mod 256].
Definition enc24 (n : Z) : list Z := [n / 65536; n / 256 mod 256; n mod 256].

(** An entry of a server name list: its type and its name. *)
Definition enc_name (e : Z * list Z) : list Z := e.1 :: enc16 (blen e.2) ++ e.2.
Definition enc_names (names : list (Z * list Z)) : list Z := concat (enc_name <$> names).

Inductive extension := ServerName (names : list (Z * list Z)) | OtherExt (type : Z) (body : list Z).

Definition ext_type (e : extension) : Z := match e with ServerName _ => 0 | OtherExt t _ => t end.
Definition ext_body (e : extension) : list Z := match e with ServerName names => enc16 (blen (enc_names names)) ++ enc_names names | OtherExt _ body => body end.
Definition enc_ext (e : extension) : list Z := enc16 (ext_type e) ++ enc16 (blen (ext_body e)) ++ ext_body e.
Definition enc_exts (es : list extension) : list Z := concat (enc_ext <$> es).

Record client_hello := ClientHello { ch_version : list Z; ch_random : list Z; ch_session_id : list Z; ch_cipher_suites : list Z; ch_compression : list Z; ch_extensions : list extension }.

Definition hello_body (ch : client_hello) : list Z :=
  ch_version ch ++ ch_random ch ++ (blen (ch_session_id ch) :: ch_session_id ch) ++ (enc16 (blen (ch_cipher_suites ch)) ++ ch_cipher_suites ch)
  ++ (blen (ch_compression ch) :: ch_compression ch) ++ enc16 (blen (enc_exts (ch_extensions ch))) ++ enc_exts (ch_extensions ch).

Definition enc_hello (ch : client_hello) : list Z := 1 :: enc24 (blen (hello_body ch)) ++ hello_body ch.

(** The fields fit their lengths. *)
Definition name_wf (e : Z * list Z) : Prop := is_byte e.1 /\ bytes_ok e.2 /\ blen e.2 < 65536.

Definition ext_wf (e : extension) : Prop :=
  0 <= ext_type e < 65536 /\ bytes_ok (ext_body e) /\ blen (ext_body e) < 65536 /\
  match e with ServerName names => Forall name_wf names | OtherExt t _ => t <> 0 end.

Record hello_wf (ch : client_hello) : Prop := {
  hw_version : blen (ch_version ch) = 2;
  hw_random : blen (ch_random ch) = 32;
  hw_session : blen (ch_session_id ch) < 256;
  hw_ciphers : blen (ch_cipher_suites ch) < 65536;
  hw_compression : blen (ch_compression ch) < 256;
  hw_extensions : blen (enc_exts (ch_extensions ch)) < 65536;
  hw_bytes : bytes_ok (enc_hello ch);
  hw_exts : Forall ext_wf (ch_extensions ch)
}.

(** ** The name of a ClientHello *)

(** A host name that is taken: printable and of at most 255 bytes. *)
Definition name_ok (name : list Z) : bool := (0 <? blen name) && (blen name <? 256) && forallb (fun c => (32 <? c) && (c <? 127)) name.

Fixpoint first_name (names : list (Z * list Z)) : option (list Z) :=
  match names with
  | [] => None
  | (t, name) :: names => if t =? 0 then if name_ok name then Some (ascii_tolower <$> name) else None else first_name names
  end.

Fixpoint first_sni (es : list extension) : option (list Z) :=
  match es with
  | [] => None
  | ServerName names :: _ => first_name names
  | OtherExt _ _ :: es => first_sni es
  end.

(** ** Bytes at a position *)

Definition holds (data : list (option Z)) (pos : Z) (l : list Z) : Prop := forall k v, l !! k = Some v -> crd data (pos + Z.of_nat k) = Some v.

Lemma holds_app data pos a b : holds data pos (a ++ b) <-> holds data pos a /\ holds data (pos + blen a) b.
Proof.
  split.
  - intros H. split; intros k v E; [apply (H k v); by apply lookup_app_l_Some|]. rewrite <- (H (length a + k)%nat v); [f_equal; unfold blen; lia|]. rewrite lookup_app_r by lia. by replace (length a + k - length a)%nat with k by lia.
  - intros [Ha Hb] k v [E|[Hl E]]%lookup_app_Some; [by apply Ha|]. rewrite <- (Hb (k - length a)%nat v E). f_equal. unfold blen. lia.
Qed.

Lemma holds_cons data pos x l : holds data pos (x :: l) <-> crd data pos = Some x /\ holds data (pos + 1) l.
Proof.
  change (x :: l) with ([x] ++ l). rewrite holds_app. change (blen [x]) with 1. assert (holds data pos [x] <-> crd data pos = Some x) as ->; [|done]. split.
  - intros H. rewrite <- (H 0%nat x eq_refl). f_equal. lia.
  - intros E [|k] v Hv; [|done]. injection Hv as <-. by rewrite Z.add_0_r.
Qed.

Lemma holds_enc16 data pos n : 0 <= n < 65536 -> holds data pos (enc16 n) -> crd16 data pos = Some n.
Proof.
  intros Hn [H1 [H2 _]%holds_cons]%holds_cons. unfold crd16. rewrite H1. cbn [mbind option_bind]. rewrite H2. cbn [mbind option_bind]. pose proof (Z.mod_pos_bound n 256 ltac:(lia)). rewrite be16_eq by lia. f_equal. pose proof (Z.div_mod n 256 ltac:(lia)). lia.
Qed.

Lemma blen_app (a b : list Z) : blen (a ++ b) = blen a + blen b.
Proof. unfold blen. rewrite length_app. lia. Qed.

Lemma holds_crdn data pos l : 0 <= pos -> pos <= Z.of_nat (length data) -> holds data pos l -> crdn data pos (blen l) = Some l.
Proof. intros Hp Hl H. by apply crdn_intro. Qed.

Lemma enc_name_len t name : blen (enc_name (t, name)) = 3 + blen name.
Proof. unfold enc_name. cbn [fst snd]. rewrite blen_cons, blen_app. change (blen (enc16 _)) with 2. lia. Qed.

Lemma name_ok_check name : negb (existsb (fun c => (c <=? 32) || (127 <=? c)) name) = forallb (fun c => (32 <? c) && (c <? 127)) name.
Proof. induction name as [|c name IH]; [done|]. cbn [existsb forallb]. rewrite negb_orb, IH. f_equal. cmp_cases. Qed.

Lemma sni_names_enc fuel data len pos names : received data len -> 0 <= pos -> pos + blen (enc_names names) <= len -> Forall name_wf names -> blen (enc_names names) < Z.of_nat fuel ->
  holds data pos (enc_names names) -> sni_names fuel data pos (pos + blen (enc_names names)) 256 = Some (first_name names).
Proof.
  intros Hr. revert pos names. induction fuel as [|fuel IH]; intros pos names Hp Hl Hw Hf Hh; [pose proof (blen_nonneg (enc_names names)); lia|]. cbn [sni_names].
  destruct names as [|[t name] names]; [change (blen (enc_names [])) with 0; rewrite (size_sub_ok (pos + 0) pos) by lia; cbn [mbind option_bind]; destruct (Z.ltb_spec (pos + 0 - pos) 3); [done|lia]|]. apply Forall_cons in Hw as [(Ht & Hb & Hn) Hw]. cbn [fst snd] in Ht, Hb, Hn. change (enc_names ((t, name) :: names)) with (enc_name (t, name) ++ enc_names names) in *.
  pose proof (blen_nonneg name). pose proof (blen_nonneg (enc_names names)). rewrite blen_app, enc_name_len in *. apply holds_app in Hh as [Hh Hh2]. rewrite enc_name_len in Hh2. unfold enc_name in Hh. cbn [fst snd] in Hh. apply holds_cons in Hh as [H1 [H2 H3]%holds_app].
  rewrite (size_sub_ok _ pos) by lia. cbn [mbind option_bind]. destruct (Z.ltb_spec (pos + (3 + blen name + blen (enc_names names)) - pos) 3); [lia|]. rewrite H1. cbn [mbind option_bind]. rewrite (holds_enc16 data (pos + 1) (blen name)) by (lia || done). cbn [mbind option_bind].
  rewrite (size_sub_ok _ (pos + 3)) by lia. cbn [mbind option_bind]. destruct (Z.ltb_spec (pos + (3 + blen name + blen (enc_names names)) - (pos + 3)) (blen name)); [lia|]. cbn [first_name]. change (blen (enc16 (blen name))) with 2 in H3. replace (pos + 1 + 2) with (pos + 3) in H3 by lia. destruct (t =? 0).
  - unfold name_ok. rewrite <- name_ok_check. replace ((0 <? blen name) && (blen name <? 256)) with (negb ((blen name =? 0) || (256 <=? blen name))) by cmp_cases. destruct ((blen name =? 0) || (256 <=? blen name)); [done|]. pose proof (received_len _ _ Hr). rewrite holds_crdn by (done || lia). cbn [mbind option_bind andb negb]. by destruct (existsb _ _).
  - replace (pos + (3 + blen name + blen (enc_names names))) with (pos + 3 + blen name + blen (enc_names names)) by lia. apply IH; [lia|lia|done|lia|]. by replace (pos + 3 + blen name) with (pos + (3 + blen name)) by lia.
Qed.

Lemma enc_ext_len e : blen (enc_ext e) = 4 + blen (ext_body e).
Proof. unfold enc_ext. rewrite !blen_app. change (blen (enc16 _)) with 2. change (blen (enc16 _)) with 2. lia. Qed.

Lemma sni_extensions_enc fuel data len pos es : received data len -> 0 <= pos -> pos + blen (enc_exts es) <= len -> Forall ext_wf es -> blen (enc_exts es) < Z.of_nat fuel ->
  holds data pos (enc_exts es) -> sni_extensions fuel data pos (pos + blen (enc_exts es)) 256 = Some (first_sni es).
Proof.
  intros Hr. revert pos es. induction fuel as [|fuel IH]; intros pos es Hp Hl Hw Hf Hh; [pose proof (blen_nonneg (enc_exts es)); lia|]. cbn [sni_extensions].
  destruct es as [|e es]; [change (blen (enc_exts [])) with 0; rewrite (size_sub_ok (pos + 0) pos) by lia; cbn [mbind option_bind]; destruct (Z.ltb_spec (pos + 0 - pos) 4); [done|lia]|]. apply Forall_cons in Hw as [(Ht & Hb & Hn & He) Hw]. change (enc_exts (e :: es)) with (enc_ext e ++ enc_exts es) in *.
  pose proof (blen_nonneg (ext_body e)). pose proof (blen_nonneg (enc_exts es)). rewrite blen_app, enc_ext_len in *. apply holds_app in Hh as [Hh Hh2]. rewrite enc_ext_len in Hh2. unfold enc_ext in Hh. apply holds_app in Hh as [H1 [H2 H3]%holds_app]. change (blen (enc16 _)) with 2 in H2, H3. change (blen (enc16 _)) with 2 in H3. replace (pos + 2 + 2) with (pos + 4) in H3 by lia.
  set (end_ := pos + (4 + blen (ext_body e) + blen (enc_exts es))) in *. rewrite (size_sub_ok end_ pos) by lia. cbn [mbind option_bind]. destruct (Z.ltb_spec (end_ - pos) 4); [lia|]. rewrite (holds_enc16 data pos (ext_type e)) by done. cbn [mbind option_bind]. rewrite (holds_enc16 data (pos + 2) (blen (ext_body e))) by (done || lia). cbn [mbind option_bind].
  rewrite (size_sub_ok end_ (pos + 4)) by lia. cbn [mbind option_bind]. destruct (Z.ltb_spec (end_ - (pos + 4)) (blen (ext_body e))); [lia|]. destruct e as [names|t body]; cbn [ext_type ext_body first_sni] in *.
  - change (0 =? 0) with true. cbn iota. apply holds_app in H3 as [H3 Hnm]. rewrite !blen_app in *. change (blen (enc16 _)) with 2 in *. pose proof (blen_nonneg (enc_names names)). destruct (Z.ltb_spec (2 + blen (enc_names names)) 2); [lia|]. rewrite (holds_enc16 data (pos + 4) (blen (enc_names names))) by (done || lia). cbn [mbind option_bind].
    rewrite (size_sub_ok _ (pos + 4 + 2)) by lia. cbn [mbind option_bind]. replace (blen (enc_names names) =? _) with true by lia. cbn [negb]. replace (pos + 4 + (2 + blen (enc_names names))) with (pos + 4 + 2 + blen (enc_names names)) by lia. pose proof (received_len _ _ Hr). apply (sni_names_enc _ data len); [done|lia|lia|done|lia|done].
  - destruct (Z.eqb_spec t 0); [done|]. replace end_ with (pos + 4 + blen body + blen (enc_exts es)) by lia. apply IH; [lia|lia|done|lia|]. by replace (pos + 4 + blen body) with (pos + (4 + blen body)) by lia.
Qed.

Lemma skip_opaque8_enc data pos end_ l : 0 <= pos -> pos + 1 + blen l <= end_ -> holds data pos (blen l :: l) -> skip_opaque8 data pos end_ = Some (Some (pos + 1 + blen l)).
Proof.
  intros Hp He [H1 _]%holds_cons. pose proof (blen_nonneg l). unfold skip_opaque8. destruct (Z.leb_spec end_ pos); [lia|]. rewrite H1. cbn [mbind option_bind]. rewrite (size_sub_ok end_ (pos + 1)) by lia. cbn [mbind option_bind]. by destruct (Z.ltb_spec (end_ - (pos + 1)) (blen l)); [lia|].
Qed.

Lemma skip_opaque16_enc data pos end_ l : 0 <= pos -> pos + 2 + blen l <= end_ -> blen l < 65536 -> holds data pos (enc16 (blen l) ++ l) -> skip_opaque16 data pos end_ = Some (Some (pos + 2 + blen l)).
Proof.
  intros Hp He Hl [H1 _]%holds_app. pose proof (blen_nonneg l). unfold skip_opaque16. rewrite (size_sub_ok end_ pos) by lia. cbn [mbind option_bind]. destruct (Z.ltb_spec (end_ - pos) 2); [lia|]. rewrite (holds_enc16 data pos (blen l)) by (done || lia). cbn [mbind option_bind].
  rewrite (size_sub_ok end_ (pos + 2)) by lia. cbn [mbind option_bind]. by destruct (Z.ltb_spec (end_ - (pos + 2)) (blen l)); [lia|].
Qed.

Lemma hello_len_enc data n : 0 <= n < 2 ^ 24 -> holds data 1 (enc24 n) -> hello_len data = Some n.
Proof.
  intros Hn [H1 [H2 [H3 _]%holds_cons]%holds_cons]%holds_cons. unfold hello_len. rewrite H1. cbn [mbind option_bind]. change (1 + 1) with 2 in *. change (2 + 1) with 3 in *. rewrite H2. cbn [mbind option_bind]. rewrite H3. cbn [mbind option_bind]. f_equal.
  pose proof (Z.mod_pos_bound (n / 256) 256 ltac:(lia)). pose proof (Z.mod_pos_bound n 256 ltac:(lia)). replace (Z.shiftl (n / 65536) 16) with (Z.shiftl (Z.shiftl (n / 65536) 8) 8) by (by rewrite Z.shiftl_shiftl). rewrite <- Z.shiftl_lor, lor_shift_add, lor_shift_add by lia. change (2 ^ 8) with 256.
  replace (n / 65536) with (n / 256 / 256) by (by rewrite Z.div_div by lia). pose proof (Z.div_mod (n / 256) 256 ltac:(lia)). pose proof (Z.div_mod n 256 ltac:(lia)). lia.
Qed.

Lemma hello_body_len ch : hello_wf ch -> 40 <= blen (hello_body ch) < 2 ^ 24 /\
  blen (hello_body ch) = 40 + blen (ch_session_id ch) + blen (ch_cipher_suites ch) + blen (ch_compression ch) + blen (enc_exts (ch_extensions ch)).
Proof.
  intros [H1 H2 H3 H4 H5 H6 H7 H8]. unfold hello_body. rewrite !blen_app, !blen_cons. change (blen (enc16 _)) with 2. change (blen (enc16 _)) with 2. pose proof (blen_nonneg (ch_session_id ch)). pose proof (blen_nonneg (ch_cipher_suites ch)). pose proof (blen_nonneg (ch_compression ch)). pose proof (blen_nonneg (enc_exts (ch_extensions ch))). lia.
Qed.

Lemma enc_hello_len ch : blen (enc_hello ch) = 4 + blen (hello_body ch).
Proof. unfold enc_hello. rewrite blen_cons, blen_app. change (blen (enc24 _)) with 3. lia. Qed.

(** On the bytes of a ClientHello the search finds what the message says. *)
Lemma extract_sni_enc data ch : hello_wf ch -> received data (blen (enc_hello ch)) -> holds data 0 (enc_hello ch) -> extract_sni data (blen (enc_hello ch)) 256 = Some (first_sni (ch_extensions ch)).
Proof.
  intros Hw Hr Hh. pose proof (hello_body_len ch Hw) as [Hbl Hbe]. pose proof (received_len _ _ Hr) as Hlen. rewrite enc_hello_len in Hr, Hlen |- *. destruct Hw as [W1 W2 W3 W4 W5 W6 W7 W8]. unfold enc_hello in Hh. apply holds_cons in Hh as [H0 [Hn Hbody]%holds_app]. change (blen (enc24 _)) with 3 in Hbody. change (0 + 1 + 3) with 4 in Hbody. change (0 + 1) with 1 in Hn.
  unfold hello_body in Hbody. apply holds_app in Hbody as [_ Hbody]. apply holds_app in Hbody as [_ Hbody]. rewrite W1, W2 in Hbody. apply holds_app in Hbody as [Hsid Hbody]. rewrite blen_cons in Hbody. apply holds_app in Hbody as [Hcs Hbody]. rewrite blen_app in Hbody. change (blen (enc16 _)) with 2 in Hbody. apply holds_app in Hbody as [Hcomp Hbody]. rewrite blen_cons in Hbody. apply holds_app in Hbody as [Hel Hext]. change (blen (enc16 _)) with 2 in Hext.
  set (n := blen (hello_body ch)) in *. unfold extract_sni. destruct (Z.ltb_spec (4 + n) 4); [lia|]. rewrite H0. cbn [mbind option_bind negb]. change (negb (1 =? 1)) with false. cbn iota. rewrite (hello_len_enc data n) by (done || lia). cbn [mbind option_bind]. destruct (_ || _) eqn:Eg; [bool_to_prop; lia|].
  pose proof (blen_nonneg (ch_session_id ch)). pose proof (blen_nonneg (ch_cipher_suites ch)). pose proof (blen_nonneg (ch_compression ch)). pose proof (blen_nonneg (enc_exts (ch_extensions ch))).
  rewrite (skip_opaque8_enc data (4 + 2 + 32) (4 + n) (ch_session_id ch)) by (done || lia). cbn [mbind option_bind]. rewrite (skip_opaque16_enc data _ (4 + n) (ch_cipher_suites ch)) by (done || lia || by replace (4 + 2 + 32 + 1 + blen (ch_session_id ch)) with (4 + 2 + 32 + (1 + blen (ch_session_id ch))) by lia). cbn [mbind option_bind].
  set (p1 := 4 + 2 + 32 + 1 + blen (ch_session_id ch) + 2 + blen (ch_cipher_suites ch)). replace (4 + 2 + 32 + (1 + blen (ch_session_id ch)) + (2 + blen (ch_cipher_suites ch))) with p1 in Hcomp, Hel, Hext by lia. rewrite (skip_opaque8_enc data p1 (4 + n) (ch_compression ch)) by (done || lia). cbn [mbind option_bind].
  set (p2 := p1 + 1 + blen (ch_compression ch)). replace (p1 + (1 + blen (ch_compression ch))) with p2 in Hel, Hext by lia. rewrite (size_sub_ok (4 + n) p2) by lia. cbn [mbind option_bind]. destruct (Z.ltb_spec (4 + n - p2) 2); [lia|]. rewrite (holds_enc16 data p2 (blen (enc_exts (ch_extensions ch)))) by (done || lia). cbn [mbind option_bind].
  rewrite (size_sub_ok (4 + n) (p2 + 2)) by lia. cbn [mbind option_bind]. replace (blen (enc_exts (ch_extensions ch)) =? 4 + n - (p2 + 2)) with true by lia. cbn [negb]. replace (4 + n) with (p2 + 2 + blen (enc_exts (ch_extensions ch))) by lia. apply (sni_extensions_enc _ data (4 + n)); [done|lia|lia|done|lia|done].
Qed.
