(* ===== verification/SniFrames.v ===== *)
(** * The ClientHello of the frames of a connection

    The frames of the packets of a connection, in any order and with any
    overlap, put the ClientHello together, and the server name is known when
    and only when its last byte has arrived. *)

From S2P Require Import Prelude Wire Icmp StateOpt OffloadCsum SniParse SniCrypto SniStream SniHello.

(** ** Variable-length integers *)

(** The lowest [n] bytes of a number, the highest first. *)
Fixpoint be_bytes (n : nat) (v : Z) : list Z := match n with O => [] | S n => be_bytes n (v / 256) ++ [v mod 256] end.

Definition enc_varint (v : Z) : list Z :=
  if v <? 2 ^ 6 then [v]
  else if v <? 2 ^ 14 then (64 + v / 2 ^ 8) :: be_bytes 1 v
  else if v <? 2 ^ 30 then (128 + v / 2 ^ 24) :: be_bytes 3 v
  else (192 + v / 2 ^ 56) :: be_bytes 7 v.

Lemma be_bytes_len n v : blen (be_bytes n v) = Z.of_nat n.
Proof. revert v. induction n as [|n IH]; intros v; cbn [be_bytes]; [done|]. rewrite blen_app, IH. change (blen [_]) with 1. lia. Qed.

Lemma be_bytes_ok n v : bytes_ok (be_bytes n v).
Proof. revert v. induction n as [|n IH]; intros v; cbn [be_bytes]; [by apply Forall_nil|]. apply Forall_app. split; [apply IH|]. apply Forall_singleton. apply Z.mod_pos_bound. lia. Qed.

Lemma be_val_snoc l x : be_val (l ++ [x]) = be_val l * 256 + x.
Proof. induction l as [|y l IH]; cbn [be_val app]; [change (blen []) with 0; lia|]. rewrite IH, blen_app. change (blen [x]) with 1. rewrite Z.pow_add_r by (lia || apply blen_nonneg). lia. Qed.

Lemma be_val_bytes n v : be_val (be_bytes n v) = v mod 256 ^ Z.of_nat n.
Proof.
  revert v. induction n as [|n IH]; intros v; cbn [be_bytes]; [change (256 ^ Z.of_nat 0) with 1; by rewrite Z.mod_1_r|]. rewrite be_val_snoc, IH, Nat2Z.inj_succ, Z.pow_succ_r by lia. assert (0 < 256 ^ Z.of_nat n) by (apply Z.pow_pos_nonneg; lia).
  rewrite (Z.rem_mul_r v 256 (256 ^ Z.of_nat n)) by lia. lia.
Qed.

Lemma rdn_mid pre mid post : rdn (pre ++ mid ++ post) (blen pre) (blen mid) = Some mid.
Proof.
  unfold rdn. rewrite !blen_app. pose proof (blen_nonneg pre). pose proof (blen_nonneg mid). pose proof (blen_nonneg post). replace (_ && _) with true by lia. f_equal. unfold blen. rewrite !Nat2Z.id, drop_app_length. by rewrite take_app_length.
Qed.

Lemma rd_mid pre x post : rd (pre ++ x :: post) (blen pre) = Some x.
Proof. unfold rd. pose proof (blen_nonneg pre). destruct (Z.ltb_spec (blen pre) 0); [lia|]. unfold blen. rewrite Nat2Z.id. by rewrite lookup_app_r, Nat.sub_diag by lia. Qed.

Lemma decode_class pre k h tail post : 0 <= k < 4 -> 0 <= h < 64 -> bytes_ok tail -> blen tail = 2 ^ k - 1 ->
  decode_varint (pre ++ ((64 * k + h) :: tail) ++ post) (blen pre) = Some (Some (h * 256 ^ blen tail + be_val tail, 1 + blen tail)).
Proof.
  intros Hk Hh Hb Hl. unfold decode_varint. rewrite !blen_app, blen_cons. pose proof (blen_nonneg tail). pose proof (blen_nonneg post). rewrite size_sub_ok by (pose proof (blen_nonneg pre); lia). cbn [mbind option_bind]. destruct (Z.eqb_spec (blen pre + (1 + blen tail + blen post) - blen pre) 0); [lia|].
  cbn [app]. rewrite rd_mid. cbn [mbind option_bind]. assert (E6 : Z.shiftr (64 * k + h) 6 = k). { rewrite Z.shiftr_div_pow2 by lia. change (2 ^ 6) with 64. rewrite Z.mul_comm, Z.div_add_l, Z.div_small; lia. }
  assert (E63 : Z.land (64 * k + h) 63 = h). { change 63 with (2 ^ 6 - 1). rewrite land_ones_mod by lia. change (2 ^ 6) with 64. rewrite Z.mul_comm, Z.add_comm, Z_mod_plus_full. by apply Z.mod_small. }
  rewrite E6, E63, Z.shiftl_1_l. destruct (Z.ltb_spec (blen pre + (1 + blen tail + blen post) - blen pre) (2 ^ k)); [lia|]. rewrite <- Hl. pose proof (rdn_mid (pre ++ [64 * k + h]) tail post) as E. rewrite <- app_assoc, blen_app in E. change (blen [64 * k + h]) with 1 in E. cbn [app] in E. rewrite E. cbn [mbind option_bind].
  do 2 f_equal. rewrite varint_tail_value; [f_equal; lia|done|lia|]. assert (Hc : k = 0 \/ k = 1 \/ k = 2 \/ k = 3) by lia. rewrite Hl. destruct Hc as [-> |[-> |[-> | ->]]]; cbn; lia.
Qed.

Lemma decode_enc pre v post : 0 <= v < 2 ^ 62 -> decode_varint (pre ++ enc_varint v ++ post) (blen pre) = Some (Some (v, blen (enc_varint v))).
Proof.
  intros Hv. unfold enc_varint.
  assert (Hc : forall k n, 0 <= k < 4 -> 2 ^ k - 1 = Z.of_nat n -> 0 <= v / 256 ^ Z.of_nat n < 64 -> decode_varint (pre ++ ((64 * k + v / 256 ^ Z.of_nat n) :: be_bytes n v) ++ post) (blen pre) = Some (Some (v, blen ((64 * k + v / 256 ^ Z.of_nat n) :: be_bytes n v)))).
  { intros k n Hk Hn Hd. rewrite decode_class; [|done|done|apply be_bytes_ok|rewrite be_bytes_len; lia]. rewrite blen_cons, be_bytes_len, be_val_bytes. do 3 f_equal. assert (0 < 256 ^ Z.of_nat n) by (apply Z.pow_pos_nonneg; lia). pose proof (Z.div_mod v (256 ^ Z.of_nat n)). lia. }
  destruct (Z.ltb_spec v (2 ^ 6)); [|destruct (Z.ltb_spec v (2 ^ 14)); [|destruct (Z.ltb_spec v (2 ^ 30))]].
  - specialize (Hc 0 0%nat). change (256 ^ Z.of_nat 0) with 1 in Hc. rewrite Z.div_1_r in Hc. apply Hc; lia.
  - apply (Hc 1 1%nat); [lia|lia|]. change (256 ^ Z.of_nat 1) with (2 ^ 8). split; [apply Z.div_pos; lia|apply Z.div_lt_upper_bound; lia].
  - apply (Hc 2 3%nat); [lia|lia|]. change (256 ^ Z.of_nat 3) with (2 ^ 24). split; [apply Z.div_pos; lia|apply Z.div_lt_upper_bound; lia].
  - apply (Hc 3 7%nat); [lia|lia|]. change (256 ^ Z.of_nat 7) with (2 ^ 56). split; [apply Z.div_pos; lia|apply Z.div_lt_upper_bound; lia].
Qed.

Lemma enc_varint_bytes v : 0 <= v < 2 ^ 62 -> bytes_ok (enc_varint v).
Proof.
  intros Hv. unfold enc_varint. assert (Hd : forall k, 0 < k -> 0 <= v / k) by (intros; apply Z.div_pos; lia).
  destruct (Z.ltb_spec v (2 ^ 6)); [|destruct (Z.ltb_spec v (2 ^ 14)); [|destruct (Z.ltb_spec v (2 ^ 30))]]; (apply Forall_cons_2; [unfold is_byte|first [apply be_bytes_ok|by apply Forall_nil]]).
  - lia.
  - specialize (Hd (2 ^ 8)). assert (v / 2 ^ 8 < 64) by (apply Z.div_lt_upper_bound; lia). lia.
  - specialize (Hd (2 ^ 24)). assert (v / 2 ^ 24 < 64) by (apply Z.div_lt_upper_bound; lia). lia.
  - specialize (Hd (2 ^ 56)). assert (v / 2 ^ 56 < 64) by (apply Z.div_lt_upper_bound; lia). lia.
Qed.

Lemma enc_varint_pos v : 1 <= blen (enc_varint v).
Proof. assert (H : forall (x : Z) l, 1 <= blen (x :: l)) by (intros x l; rewrite blen_cons; pose proof (blen_nonneg l); lia). unfold enc_varint. repeat destruct (_ <? _); apply H. Qed.

(** ** Frames *)

Inductive frame :=
  | FPadding
  | FPing
  | FAck (largest delay first : Z) (ranges : list (Z * Z)) (ecn : option (Z * Z * Z))
  | FCrypto (offset : Z) (data : list Z).

Definition enc_ranges (ranges : list (Z * Z)) : list Z := concat ((fun r => enc_varint r.1 ++ enc_varint r.2) <$> ranges).

Definition enc_frame (f : frame) : list Z :=
  match f with
  | FPadding => enc_varint 0
  | FPing => enc_varint 1
  | FAck l d fr ranges ecn =>
      enc_varint (match ecn with Some _ => 3 | None => 2 end) ++ enc_varint l ++ enc_varint d ++ enc_varint (Z.of_nat (length ranges)) ++ enc_varint fr ++ enc_ranges ranges
      ++ match ecn with Some (a, b, c) => enc_varint a ++ enc_varint b ++ enc_varint c | None => [] end
  | FCrypto offset data => enc_varint 6 ++ enc_varint offset ++ enc_varint (blen data) ++ data
  end.

Definition enc_frames (fs : list frame) : list Z := concat (enc_frame <$> fs).

Definition is_varint (v : Z) : Prop := 0 <= v < 2 ^ 62.

Definition frame_wf (limit : Z) (f : frame) : Prop :=
  match f with
  | FAck l d fr ranges ecn =>
      is_varint l /\ is_varint d /\ is_varint fr /\ is_varint (Z.of_nat (length ranges)) /\ Forall (fun r => is_varint r.1 /\ is_varint r.2) ranges /\
      match ecn with Some (a, b, c) => is_varint a /\ is_varint b /\ is_varint c | None => True end
  | FCrypto offset data => 0 <= offset /\ offset + blen data <= limit /\ bytes_ok data
  | _ => True
  end.

(** What a frame writes to the stream. *)
Definition frame_write (m : gmap Z Z) (f : frame) : gmap Z Z := match f with FCrypto offset data => stream_write m offset data | _ => m end.

(** ** Bytes inside a packet *)

Definition sits (data : list Z) (pos : Z) (l : list Z) : Prop := exists pre post, data = pre ++ l ++ post /\ pos = blen pre.

Lemma sits_app data pos a b : sits data pos (a ++ b) -> sits data pos a /\ sits data (pos + blen a) b.
Proof.
  intros (pre & post & -> & ->). split; [exists pre, (b ++ post); by rewrite <- app_assoc|]. exists (pre ++ a), post. split; [by rewrite <- !app_assoc|]. by rewrite blen_app.
Qed.

Lemma sits_len data pos l : sits data pos l -> 0 <= pos /\ pos + blen l <= blen data.
Proof. intros (pre & post & -> & ->). rewrite !blen_app. pose proof (blen_nonneg pre). pose proof (blen_nonneg post). lia. Qed.

Lemma sits_rdn data pos l : sits data pos l -> rdn data pos (blen l) = Some l.
Proof. intros (pre & post & -> & ->). apply rdn_mid. Qed.

Lemma sits_varint data pos v : sits data pos (enc_varint v) -> is_varint v -> decode_varint data pos = Some (Some (v, blen (enc_varint v))).
Proof. intros (pre & post & -> & ->) Hv. by apply decode_enc. Qed.

Lemma sits_skip n data pos v : sits data pos (enc_varint v) -> is_varint v -> skip_varints (S n) data pos = skip_varints n data (pos + blen (enc_varint v)).
Proof. intros Hs Hv. cbn [skip_varints]. by rewrite (sits_varint _ _ v). Qed.

Lemma skip_none data pos : skip_varints 0 data pos = Some (Some pos).
Proof. done. Qed.

(** ** The frames of a packet *)

Lemma skip_ranges_enc fuel data pos ranges : Forall (fun r => is_varint r.1 /\ is_varint r.2) ranges -> (length ranges < fuel)%nat -> sits data pos (enc_ranges ranges) ->
  skip_ranges fuel (Z.of_nat (length ranges)) data pos = Some (Some (pos + blen (enc_ranges ranges))).
Proof.
  revert pos ranges. induction fuel as [|fuel IH]; intros pos ranges Hr Hf Hs; [lia|]. destruct ranges as [|[a b] ranges]; [cbn [skip_ranges length]; change (blen (enc_ranges [])) with 0; by rewrite Z.add_0_r|].
  apply Forall_cons in Hr as [[Ha Hb] Hr]. cbn [fst snd] in Ha, Hb. cbn [length] in *. cbn [skip_ranges]. destruct (Z.eqb_spec (Z.of_nat (S (length ranges))) 0); [lia|]. change (enc_ranges ((a, b) :: ranges)) with ((enc_varint a ++ enc_varint b) ++ enc_ranges ranges) in *.
  apply sits_app in Hs as [[Hs1 Hs2]%sits_app Hs3]. rewrite (sits_skip _ _ _ a), (sits_skip _ _ _ b) by done. cbn [skip_varints mbind option_bind]. replace (Z.of_nat (S (length ranges)) - 1) with (Z.of_nat (length ranges)) by lia.
  rewrite blen_app in Hs3. rewrite !blen_app. rewrite IH; [do 2 f_equal; lia|done|lia|]. by rewrite <- Z.add_assoc.
Qed.

Lemma enc_ranges_len ranges : Z.of_nat (length ranges) <= blen (enc_ranges ranges).
Proof.
  induction ranges as [|[a b] ranges IH]; [done|]. change (enc_ranges ((a, b) :: ranges)) with ((enc_varint a ++ enc_varint b) ++ enc_ranges ranges). rewrite !blen_app. cbn [length]. pose proof (enc_varint_pos a). pose proof (blen_nonneg (enc_varint b)). lia.
Qed.

Lemma skip_ack_enc limit data pos l d fr ranges ecn : frame_wf limit (FAck l d fr ranges ecn) -> sits data pos (enc_frame (FAck l d fr ranges ecn)) ->
  let t := enc_varint (match ecn with Some _ => 3 | None => 2 end) in
  skip_ack_frame data (pos + blen t) (match ecn with Some _ => true | None => false end) = Some (Some (pos + blen (enc_frame (FAck l d fr ranges ecn)))).
Proof.
  intros (Hl & Hd & Hf & Hn & Hr & He) Hs. cbn zeta. cbn [enc_frame] in *. set (t := enc_varint (match ecn with Some _ => 3 | None => 2 end)) in *. pose proof (sits_len _ _ _ Hs) as Hlen. rewrite !blen_app in *.
  apply sits_app in Hs as [_ Hs]. apply sits_app in Hs as [H1 Hs]. apply sits_app in Hs as [H2 Hs]. apply sits_app in Hs as [H3 Hs]. apply sits_app in Hs as [H4 Hs]. apply sits_app in Hs as [H5 H6]. unfold skip_ack_frame.
  rewrite (sits_skip _ _ _ l), (sits_skip _ _ _ d) by done. rewrite skip_none. cbn [mbind option_bind]. rewrite (sits_varint _ _ (Z.of_nat (length ranges))) by done. cbn [mbind option_bind]. rewrite (sits_skip _ _ _ fr) by done. rewrite skip_none. cbn [mbind option_bind].
  rewrite skip_ranges_enc; [|done| |done]. 2:{ pose proof (enc_ranges_len ranges). pose proof (blen_nonneg t). pose proof (blen_nonneg (enc_varint l)). pose proof (blen_nonneg (enc_varint d)). pose proof (blen_nonneg (enc_varint fr)). pose proof (blen_nonneg (enc_varint (Z.of_nat (length ranges)))). unfold blen at 7 in Hlen. pose proof (sits_len _ _ _ H5). unfold blen in *. lia. }
  cbn [mbind option_bind]. destruct ecn as [[[a b] c]|]; [|do 2 f_equal; change (blen []) with 0; lia]. destruct He as (Ha & Hb & Hc). apply sits_app in H6 as [E1 [E2 E3]%sits_app]. rewrite (sits_skip _ _ _ a), (sits_skip _ _ _ b), (sits_skip _ _ _ c) by done. rewrite skip_none, !blen_app. do 2 f_equal. lia.
Qed.

Lemma enc_frame_pos f : 1 <= blen (enc_frame f).
Proof.
  assert (H : forall v r, 1 <= blen (enc_varint v ++ r)) by (intros v r; rewrite blen_app; pose proof (enc_varint_pos v); pose proof (blen_nonneg r); lia). destruct f; cbn [enc_frame]; first [apply enc_varint_pos|apply H].
Qed.

(** One frame, and the rest of the packet. *)
Lemma collect_frame fuel limit b m data pos f : crypto_rel limit b m -> frame_wf limit f -> sits data pos (enc_frame f) ->
  exists b', collect_crypto_frames (S fuel) limit (fun _ => true) b data pos = collect_crypto_frames fuel limit (fun _ => true) b' data (pos + blen (enc_frame f)) /\ crypto_rel limit b' (frame_write m f).
Proof.
  intros Hr Hw Hs. pose proof (sits_len _ _ _ Hs) as Hlen. pose proof (enc_frame_pos f) as Hpos. cbn [collect_crypto_frames]. destruct (Z.leb_spec (blen data) pos); [lia|]. destruct f as [| |l d fr ranges ecn|offset d].
  - rewrite (sits_varint _ _ 0) by done. exists b. split; [reflexivity|done].
  - rewrite (sits_varint _ _ 1) by done. exists b. split; [reflexivity|done].
  - pose proof (skip_ack_enc limit data pos l d fr ranges ecn Hw Hs) as Ek. cbn zeta in Ek. exists b. split; [|done]. destruct (sits_app _ _ _ _ Hs) as [Ht _]. rewrite (sits_varint _ _ (match ecn with Some _ => 3 | None => 2 end)) by (done || by destruct ecn). cbn [mbind option_bind].
    destruct ecn; cbn [Z.eqb orb Pos.eqb]; rewrite Ek; reflexivity.
  - cbn [enc_frame] in *. destruct (sits_app _ _ _ _ Hs) as [Ht Hs1]. apply sits_app in Hs1 as [Ho Hs1]. apply sits_app in Hs1 as [Hl Hd]. destruct Hw as (Hoff & Hlim & Hb). pose proof (cr_limit _ _ _ Hr). pose proof (blen_nonneg d). rewrite (sits_varint _ _ 6) by done. cbn [mbind option_bind Z.eqb orb Pos.eqb]. unfold parse_crypto_frame.
    rewrite (sits_varint _ _ offset) by (done || unfold is_varint; lia). cbn [mbind option_bind]. rewrite (sits_varint _ _ (blen d)) by (done || unfold is_varint; lia). cbn [mbind option_bind]. pose proof (sits_len _ _ _ Hd). rewrite size_sub_ok by lia. cbn [mbind option_bind]. destruct (Z.ltb_spec (blen data - (pos + blen (enc_varint 6) + blen (enc_varint offset) + blen (enc_varint (blen d)))) (blen d)); [lia|].
    rewrite (sits_rdn _ _ d) by done. cbn [mbind option_bind]. destruct (mark_range_rel limit true true b m offset d Hr Hoff Hb) as (b' & ok & Em & Hr' & Hok). rewrite (Hok eq_refl) in *. replace (offset + blen d <=? limit) with true in * by lia. rewrite Em. exists b'. split; [|done]. f_equal. rewrite !blen_app. lia.
Qed.

Lemma collect_enc fuel limit b m data pos fs : crypto_rel limit b m -> Forall (frame_wf limit) fs -> sits data pos (enc_frames fs) -> pos + blen (enc_frames fs) = blen data -> (length fs < fuel)%nat ->
  exists b', collect_crypto_frames fuel limit (fun _ => true) b data pos = Some (b', true) /\ crypto_rel limit b' (fold_left frame_write fs m).
Proof.
  intros Hr Hw. revert fuel b m pos Hr. induction fs as [|f fs IH]; intros fuel b m pos Hr Hs He Hf; (destruct fuel as [|fuel]; [cbn [length] in Hf; lia|]).
  - change (blen (enc_frames [])) with 0 in He. cbn [collect_crypto_frames]. destruct (Z.leb_spec (blen data) pos); [|lia]. by exists b.
  - apply Forall_cons in Hw as [Hw1 Hw]. change (enc_frames (f :: fs)) with (enc_frame f ++ enc_frames fs) in *. destruct (sits_app _ _ _ _ Hs) as [H1 H2]. rewrite blen_app in He. destruct (collect_frame fuel limit b m data pos f Hr Hw1 H1) as (b' & E & Hr'). rewrite E. cbn [fold_left]. apply IH; [done|done|done|lia|cbn [length] in Hf; lia].
Qed.

Lemma enc_frames_len fs : Z.of_nat (length fs) <= blen (enc_frames fs).
Proof. induction fs as [|f fs IH]; [done|]. change (enc_frames (f :: fs)) with (enc_frame f ++ enc_frames fs). rewrite blen_app. cbn [length]. pose proof (enc_frame_pos f). lia. Qed.

(** The frames of a packet, as [process_initial] collects them. *)
Lemma collect_packet limit b m fs : crypto_rel limit b m -> Forall (frame_wf limit) fs ->
  exists b', collect_crypto_frames (S (length (enc_frames fs))) limit (fun _ => true) b (enc_frames fs) 0 = Some (b', true) /\ crypto_rel limit b' (fold_left frame_write fs m).
Proof.
  intros Hr Hw. apply collect_enc; [done|done| |done|pose proof (enc_frames_len fs); unfold blen in *; lia]. exists [], []. by rewrite app_nil_r.
Qed.

(** ** The packets of a connection *)

(** The buffer after some packets of a connection. *)
Fixpoint collect_packets (limit : Z) (b : crypto_buf) (packets : list (list frame)) : option crypto_buf :=
  match packets with
  | [] => Some b
  | fs :: packets =>
      match collect_crypto_frames (S (length (enc_frames fs))) limit (fun _ => true) b (enc_frames fs) 0 with
      | Some (b, true) => collect_packets limit b packets
      | _ => None
      end
  end.

Lemma collect_packets_rel limit b m packets : crypto_rel limit b m -> Forall (Forall (frame_wf limit)) packets -> exists b', collect_packets limit b packets = Some b' /\ crypto_rel limit b' (fold_left frame_write (concat packets) m).
Proof.
  intros Hr Hw. revert b m Hr. induction Hw as [|fs packets Hf _ IH]; intros b m Hr; cbn [collect_packets concat fold_left]; [by exists b|]. destruct (collect_packet limit b m fs Hr Hf) as (b1 & -> & Hr1). rewrite fold_left_app. by apply IH.
Qed.

(** A frame carries a piece of [hello], or no piece of the stream. *)
Definition piece_of (hello : list Z) (f : frame) : Prop := match f with FCrypto offset data => 0 <= offset /\ rdn hello offset (blen data) = Some data | _ => True end.

Definition covers (i : Z) (f : frame) : bool := match f with FCrypto offset data => (offset <=? i) && (i <? offset + blen data) | _ => false end.

(** Every byte of a message of [n] bytes has arrived. *)
Definition complete (n : nat) (fs : list frame) : bool := forallb (fun i => existsb (covers (Z.of_nat i)) fs) (seq 0 n).

Lemma piece_lookup hello offset data k v : 0 <= offset -> rdn hello offset (blen data) = Some data -> data !! k = Some v -> hello !! Z.to_nat (offset + Z.of_nat k) = Some v.
Proof.
  intros Ho (_ & E & _ & Hl)%rdn_spec Ek. pose proof (lookup_lt_Some _ _ _ Ek). rewrite E in Ek. rewrite lookup_take_lt, lookup_drop in Ek by (unfold blen; lia). rewrite <- Ek. f_equal. lia.
Qed.

(** The stream of pieces of a message is a part of it: what is there is its
    byte, and it is there when a piece covers it. *)
Lemma pieces_lookup hello fs m i : Forall (piece_of hello) fs -> (forall i v, m !! i = Some v -> 0 <= i /\ hello !! Z.to_nat i = Some v) ->
  (forall v, fold_left frame_write fs m !! i = Some v -> 0 <= i /\ hello !! Z.to_nat i = Some v) /\ (is_Some (fold_left frame_write fs m !! i) <-> is_Some (m !! i) \/ existsb (covers i) fs = true).
Proof.
  intros Hp. revert m. induction Hp as [|f fs Hf _ IH]; intros m Hm; cbn [fold_left existsb]; [split; [apply Hm|intuition done]|].
  assert (Hm' : forall i v, frame_write m f !! i = Some v -> 0 <= i /\ hello !! Z.to_nat i = Some v).
  { intros j v. destruct f as [| | |offset data]; try apply Hm. cbn [frame_write piece_of] in *. destruct Hf as [Ho Hf]. rewrite stream_write_lookup. destruct (_ && _) eqn:Ec; [|apply Hm]. intros Ek. pose proof (piece_lookup _ _ _ _ _ Ho Hf Ek) as E. rewrite Z2Nat.id in E by lia. replace (offset + (j - offset)) with j in E by lia. split; [lia|done]. }
  destruct (IH _ Hm') as [H1 H2]. split; [done|]. rewrite H2. destruct f as [| | |offset data]; try done. cbn [frame_write covers]. rewrite stream_write_lookup. destruct (_ && _) eqn:Ec; [|done]. split; [auto|intros _; left]. apply lookup_lt_is_Some. unfold blen in Ec. lia.
Qed.

(** The prefix of such a stream is the message when nothing is missing. *)
Lemma pieces_prefix limit hello fs : blen hello <= limit -> Forall (piece_of hello) fs -> let p := stream_prefix limit (fold_left frame_write fs ∅) in
  0 <= p <= blen hello /\ (p =? blen hello) = complete (length hello) fs.
Proof.
  intros Hl Hp. cbn zeta. pose proof (blen_nonneg hello). assert (Hlk : forall i, (forall v, fold_left frame_write fs ∅ !! i = Some v -> 0 <= i /\ hello !! Z.to_nat i = Some v) /\ (is_Some (fold_left frame_write fs ∅ !! i) <-> existsb (covers i) fs = true)).
  { intros i. destruct (pieces_lookup hello fs ∅ i Hp) as [H1 H2]; [intros j v E; by rewrite lookup_empty in E|]. split; [done|]. rewrite H2, lookup_empty. split; [intros [[? ?]|?]; done|auto]. }
  destruct (stream_prefix_spec limit (fold_left frame_write fs ∅)) as (Hr & Hall & Hend); [lia|]. set (p := stream_prefix limit (fold_left frame_write fs ∅)) in *.
  assert (Hle : p <= blen hello). { destruct (Z.le_gt_cases p (blen hello)); [done|]. destruct (Hall (blen hello)) as (v & Ev); [lia|]. apply Hlk in Ev as [_ Ev]. apply lookup_lt_Some in Ev. unfold blen in Ev. lia. }
  split; [lia|]. apply eq_true_iff_eq. rewrite Z.eqb_eq. unfold complete. rewrite forallb_forall. split.
  - intros E i Hi. apply in_seq in Hi. apply Hlk, Hall. unfold blen in E. lia.
  - intros Hc. destruct Hend as [Hend|Hend]; [lia|]. destruct (Z.eq_dec p (blen hello)); [done|]. specialize (Hc (Z.to_nat p)). rewrite Z2Nat.id in Hc by lia. destruct (proj2 (proj2 (Hlk p))) as (v & Ev); [apply Hc, in_seq; unfold blen in *; lia|]. congruence.
Qed.

(** What the buffer holds of the message. *)
Lemma pieces_hold limit b hello fs : crypto_rel limit b (fold_left frame_write fs ∅) -> Forall (piece_of hello) fs -> holds (crypto_data b) 0 (take (Z.to_nat (crypto_contiguous b)) hello).
Proof.
  intros Hr Hp k v Ek. pose proof (lookup_lt_Some _ _ _ Ek) as Hk. rewrite length_take in Hk. rewrite lookup_take_lt in Ek by lia. destruct Hr as [H1 H2 H3 H4 H5]. destruct (stream_prefix_spec limit (fold_left frame_write fs ∅)) as (_ & Hall & _); [lia|].
  destruct (Hall (Z.of_nat k)) as (w & Ew); [lia|]. destruct (pieces_lookup hello fs ∅ (Z.of_nat k) Hp) as [Hl _]; [intros j x E; by rewrite lookup_empty in E|]. destruct (Hl w Ew) as [_ E]. rewrite Nat2Z.id, Ek in E. injection E as <-. destruct (H4 _ _ Ew) as (_ & _ & Ed). rewrite crd_lookup by lia. rewrite Z.add_0_l. by rewrite Ed.
Qed.

Lemma holds_take data pos n l : holds data pos l -> holds data pos (take n l).
Proof. intros H k v E. apply H. by apply lookup_take_Some in E as [? _]. Qed.

(** What a buffer of pieces of a ClientHello says. *)
Lemma status_of_pieces limit b ch fs : hello_wf ch -> blen (enc_hello ch) <= limit -> crypto_rel limit b (fold_left frame_write fs ∅) -> Forall (piece_of (enc_hello ch)) fs ->
  client_hello_status b = Some (if complete (length (enc_hello ch)) fs then match first_sni (ch_extensions ch) with Some name => HelloSni name | None => HelloBad end else HelloPartial).
Proof.
  intros Hw Hl Hr Hp. pose proof (hello_body_len ch Hw) as [Hbl _]. pose proof (enc_hello_len ch) as Hel.
  destruct (pieces_prefix limit (enc_hello ch) fs) as [Hc Ec]; [lia|done|]. rewrite <- (cr_prefix _ _ _ Hr) in Hc, Ec. rewrite <- Ec. pose proof (pieces_hold _ _ _ _ Hr Hp) as Hh. pose proof (rel_received _ _ _ Hr) as Hrec. set (p := crypto_contiguous b) in *. set (n := blen (hello_body ch)) in *.
  unfold client_hello_status. fold p. destruct (Z.ltb_spec p 4); [by destruct (Z.eqb_spec p (blen (enc_hello ch))); [lia|]|]. assert (Hn : hello_len (crypto_data b) = Some n).
  { apply hello_len_enc; [lia|]. apply (holds_take _ _ 4) in Hh. rewrite take_take, Nat.min_l in Hh by lia. by apply holds_cons in Hh as [_ Hh]. }
  rewrite Hn. cbn [mbind option_bind]. destruct (Z.ltb_spec p (4 + n)); [by destruct (Z.eqb_spec p (blen (enc_hello ch))); [lia|]|]. assert (Ep : p = blen (enc_hello ch)) by lia. rewrite Ep, Z.eqb_refl. rewrite Ep in Hh, Hrec. unfold blen in Hh. rewrite Nat2Z.id, take_ge in Hh by lia.
  replace (4 + n) with (blen (enc_hello ch)) by lia. rewrite (extract_sni_enc _ ch Hw Hrec Hh). cbn [mbind option_bind]. by destruct (first_sni _).
Qed.

(** Whatever Initial packets carry the pieces of a ClientHello, in any
    order and with any overlap, between PADDING, PING and ACK frames, the
    router collects them without a fault, waits as long as a byte is missing,
    and when the last one has come finds the host name of the message in lower
    case, or that it has none it takes. *)
Theorem hello_reassembled limit ch packets : hello_wf ch -> blen (enc_hello ch) <= limit < 2 ^ 62 -> Forall (Forall (frame_wf limit)) packets -> Forall (Forall (piece_of (enc_hello ch))) packets ->
  exists b, collect_packets limit empty_crypto packets = Some b /\
  client_hello_status b = Some (if complete (length (enc_hello ch)) (concat packets) then match first_sni (ch_extensions ch) with Some name => HelloSni name | None => HelloBad end else HelloPartial).
Proof.
  intros Hw Hl Hf Hp. pose proof (hello_body_len ch Hw) as [Hbl _]. pose proof (enc_hello_len ch) as Hel. destruct (collect_packets_rel limit empty_crypto ∅ packets) as (b & Eb & Hr); [apply empty_rel; lia|done|]. exists b. split; [done|].
  apply (status_of_pieces limit); [done|lia|done|by apply Forall_concat].
Qed.

(** A ClientHello for [vpn.Example], the second half before the first. *)
Definition hello_example : client_hello :=
  ClientHello [3; 3] (replicate 32 7) [1; 2] [19; 1] [0] [OtherExt 43 [2; 3; 4]; ServerName [(0, [118; 112; 110; 46; 69; 120])]; OtherExt 10 []].

Definition hello_packets : list (list frame) :=
  [[FPing; FCrypto 30 (drop 30 (enc_hello hello_example))]; [FAck 5 0 0 [(0, 1)] None; FCrypto 0 (take 40 (enc_hello hello_example)); FPadding]].

Lemma hello_reassembled_witness : exists b, collect_packets 65536 empty_crypto hello_packets = Some b /\
  client_hello_status b = Some (if complete (length (enc_hello hello_example)) (concat hello_packets) then match first_sni (ch_extensions hello_example) with Some name => HelloSni name | None => HelloBad end else HelloPartial).
Proof.
  apply hello_reassembled.
  - constructor; try (vm_compute; reflexivity); [apply bytes_okb_ok; vm_compute; reflexivity|]. repeat apply Forall_cons_2; [..|apply Forall_nil_2]; unfold ext_wf; (split; [cbn; lia|]); (split; [apply bytes_okb_ok; vm_compute; reflexivity|]); (split; [vm_compute; reflexivity|]); try done.
    apply Forall_cons_2; [|apply Forall_nil_2]. split; [cbv; split; [intros [=]|reflexivity]|]. split; [apply bytes_okb_ok; vm_compute; reflexivity|vm_compute; reflexivity].
  - split; [vm_compute; intros [=]|lia].
  - unfold hello_packets. repeat first [apply Forall_cons_2|apply Forall_nil_2]; cbn [frame_wf]; try exact I.
    + split; [lia|]. split; [vm_compute; intros [=]|]. apply bytes_okb_ok. vm_compute. reflexivity.
    + unfold is_varint. split_and!; try (cbn [length]; lia). apply Forall_cons_2; [cbn [fst snd]; lia|apply Forall_nil_2].
    + split; [lia|]. split; [vm_compute; intros [=]|]. apply bytes_okb_ok. vm_compute. reflexivity.
  - unfold hello_packets. repeat first [apply Forall_cons_2|apply Forall_nil_2]; cbn [piece_of]; try exact I; (split; [lia|vm_compute; reflexivity]).
Defined.
