(* ===== verification/SniOpen.v ===== *)
(** * Opening Initial packets

    The router opens every Initial packet that a client protected as RFC 9001
    says, and recovers its packet number; no packet makes it read outside a
    buffer. *)

From S2P Require Import Prelude Wire Icmp StateOpt OffloadCsum SniParse SniCrypto SniStream SniHello SniFrames.

(** ** Packet numbers *)

Lemma clear_low e k t : 0 <= k -> 0 <= t < 2 ^ k -> Z.lor (Z.ldiff e (2 ^ k - 1)) t = e / 2 ^ k * 2 ^ k + t.
Proof.
  intros Hk Ht. replace (2 ^ k - 1) with (Z.ones k) by (rewrite Z.ones_equiv; lia). rewrite Z.ldiff_ones_r, lor_shift_add by lia. by rewrite Z.shiftr_div_pow2 by lia.
Qed.

(** The number whose low bits are given and that lies within half a window of
    the one that is expected. *)
Lemma decode_pn_spec largest pn nbits : nbits = 8 \/ nbits = 16 \/ nbits = 24 \/ nbits = 32 -> 0 <= largest < 2 ^ 62 - 1 -> 0 <= pn < 2 ^ 62 - 1 ->
  largest + 1 - 2 ^ (nbits - 1) < pn <= largest + 1 + 2 ^ (nbits - 1) -> decode_packet_number largest true (pn mod 2 ^ nbits) nbits = pn.
Proof.
  intros Hn Hl Hp Hw. unfold decode_packet_number. cbn [negb]. set (e := largest + 1) in *. set (w := 2 ^ nbits). assert (Hwv : w = 2 * 2 ^ (nbits - 1) /\ 2 ^ (nbits - 1) <= 2 ^ 31 /\ 0 < 2 ^ (nbits - 1)) by (subst w; destruct Hn as [-> |[-> |[-> | ->]]]; lia). destruct Hwv as (Hw2 & Hh & Hh0). set (half := 2 ^ (nbits - 1)) in *.
  rewrite (u64_small e), Z.shiftl_1_l by lia. fold w. rewrite (u64_small w) by lia. assert (Ew : w / 2 = half) by (rewrite Hw2, Z.mul_comm; apply Z.div_mul; lia). rewrite Ew, (u64_small (w - 1)) by lia. pose proof (Z.mod_pos_bound pn w ltac:(lia)) as Ht. change (w - 1) with (2 ^ nbits - 1). rewrite clear_low by (subst w; lia). fold w.
  pose proof (Z.div_mod e w ltac:(lia)) as De. pose proof (Z.mod_pos_bound e w ltac:(lia)) as Re. pose proof (Z.div_mod pn w ltac:(lia)) as Dp. set (q := e / w) in *. set (t := pn mod w) in *. set (r := pn / w) in *. assert (Hq : 0 <= q) by (apply Z.div_pos; lia).
  assert (Hrq : r = q - 1 \/ r = q \/ r = q + 1) by nia. set (c := q * w + t). assert (Hc : 0 <= c < 2 ^ 63) by nia. assert (Hpc : pn = c - w \/ pn = c \/ pn = c + w) by (destruct Hrq as [-> |[-> | ->]]; subst c; lia). rewrite (u64_small (c + half)), (u64_small (2 ^ 62 - 1 - w)) by lia.
  assert (He : c - w < e < c + w) by (subst c; nia). destruct ((c + half <=? e) && (c <? 2 ^ 62 - 1 - w)) eqn:E1; [bool_to_prop; rewrite u64_small by lia; lia|]. destruct (Z.ltb_spec e c); cbn [andb]; [|bool_to_prop; lia]. rewrite (u64_small (c - e)) by lia. destruct ((half <? c - e) && (w <=? c)) eqn:E2; [bool_to_prop; rewrite u64_small by lia; lia|].
  bool_to_prop; lia.
Qed.

(** ** The protection of an Initial packet (RFC 9001, section 5) *)

Record initial_packet := InitialPacket { ip_version : Z; ip_dcid : list Z; ip_scid : list Z; ip_token : list Z; ip_pn_len : nat; ip_pn : Z; ip_payload : list Z }.

(** The first byte before header protection. *)
Definition ip_first (p : initial_packet) : Z := 192 + 16 * (if ip_version p =? QUIC_V2 then 1 else 0) + (Z.of_nat (ip_pn_len p) - 1).

(** The header after its first byte, up to the packet number. *)
Definition ip_header (p : initial_packet) (ciphertext_len : Z) : list Z :=
  be_bytes 4 (ip_version p) ++ (blen (ip_dcid p) :: ip_dcid p) ++ (blen (ip_scid p) :: ip_scid p) ++ (enc_varint (blen (ip_token p)) ++ ip_token p)
  ++ enc_varint (Z.of_nat (ip_pn_len p) + ciphertext_len).

Record packet_wf (p : initial_packet) : Prop := {
  pw_version : ip_version p = QUIC_V1 \/ ip_version p = QUIC_V2;
  pw_dcid : bytes_ok (ip_dcid p) /\ blen (ip_dcid p) <= 20;
  pw_scid : bytes_ok (ip_scid p) /\ blen (ip_scid p) <= 20;
  pw_token : bytes_ok (ip_token p) /\ blen (ip_token p) < 2 ^ 62;
  pw_pn_len : (1 <= ip_pn_len p <= 4)%nat;
  pw_pn : 0 <= ip_pn p < 2 ^ 62 - 1;
  pw_payload : bytes_ok (ip_payload p) /\ 4 <= Z.of_nat (ip_pn_len p) + blen (ip_payload p) < 2 ^ 61
}.

(** The packet number can be recovered by who has seen [largest]. *)
Definition pn_in_window (p : initial_packet) (largest : Z) (have_largest : bool) : Prop :=
  if have_largest then 0 <= largest < 2 ^ 62 - 1 /\ largest + 1 - 2 ^ (8 * Z.of_nat (ip_pn_len p) - 1) < ip_pn p <= largest + 1 + 2 ^ (8 * Z.of_nat (ip_pn_len p) - 1)
  else ip_pn p < 2 ^ (8 * Z.of_nat (ip_pn_len p)).

(** ** What the parser makes of a protected packet *)

Lemma lxor_low a l m : 0 <= l < 16 -> 0 <= m < 16 -> Z.lxor (16 * a + l) m = 16 * a + Z.lxor l m /\ 0 <= Z.lxor l m < 16.
Proof.
  intros Hl Hm. assert (Hx : 0 <= Z.lxor l m < 16).
  { split; [by apply Z.lxor_nonneg; lia|]. destruct (Z.eq_dec (Z.lxor l m) 0) as [->|Hne]; [lia|]. assert (0 <= Z.lxor l m) by (apply Z.lxor_nonneg; lia). change 16 with (2 ^ 4). apply Z.log2_lt_pow2; [lia|]. pose proof (Z.log2_lxor l m ltac:(lia) ltac:(lia)) as Hg. assert (forall x, 0 <= x < 16 -> Z.log2 x < 4) as H4. { intros x Hxx. destruct (Z.eq_dec x 0) as [->|]; [done|]. apply Z.log2_lt_pow2; lia. } pose proof (H4 l Hl). pose proof (H4 m Hm). lia. }
  split; [|done]. replace (16 * a + l) with (Z.lor (Z.shiftl a 4) l) by (rewrite lor_shift_add by lia; lia). replace (16 * a + Z.lxor l m) with (Z.lor (Z.shiftl a 4) (Z.lxor l m)) by (rewrite lor_shift_add by lia; lia).
  apply Z.bits_inj'. intros n Hn. rewrite Z.lxor_spec, !Z.lor_spec, Z.lxor_spec. destruct (Z.ltb_spec n 4); [by rewrite Z.shiftl_spec_low by lia|]. rewrite (testbit_high l 4 n), (testbit_high m 4 n) by lia. by rewrite !orb_false_r, xorb_false_r.
Qed.

(** The long-header bits of a byte whose low half is protected. *)
Lemma first_bits t low : 0 <= t < 4 -> 0 <= low < 16 -> Z.land (16 * (12 + t) + low) 192 = 192 /\ Z.land (Z.shiftr (16 * (12 + t) + low) 4) 3 = t.
Proof.
  intros Ht Hl. assert (E4 : Z.shiftr (16 * (12 + t) + low) 4 = 12 + t) by (rewrite Z.shiftr_div_pow2 by lia; change (2 ^ 4) with 16; rewrite Z.mul_comm, Z.div_add_l, Z.div_small by lia; lia). rewrite E4.
  split; [|assert (t = 0 \/ t = 1 \/ t = 2 \/ t = 3) as [-> |[-> |[-> | ->]]] by lia; reflexivity]. assert (H : forall x, Z.land (16 * (12 + t) + low) x = Z.land (16 * (12 + t) + low) x) by done. replace (16 * (12 + t) + low) with (Z.lor (Z.shiftl 3 6) (16 * t + low)) by (rewrite lor_shift_add by lia; lia).
  rewrite Z.land_lor_distr_l. change (Z.land (Z.shiftl 3 6) 192) with 192. replace (Z.land (16 * t + low) 192) with 0; [done|]. symmetry. apply Z.bits_inj'. intros n Hn. rewrite Z.land_spec, Z.bits_0. destruct (Z.ltb_spec n 6); [|by rewrite (testbit_high _ 6) by lia].
  change 192 with (Z.shiftl 3 6). by rewrite Z.shiftl_spec_low, andb_false_r by lia.
Qed.

Lemma be32_of_sits pkt pos v : 0 <= v < 2 ^ 32 -> sits pkt pos (be_bytes 4 v) -> be32_of pkt pos = Some v.
Proof.
  intros Hv Hs. unfold be32_of. pose proof (be_bytes_len 4 v) as L. apply sits_rdn in Hs. rewrite L in Hs. change (Z.of_nat 4) with 4 in Hs. rewrite Hs. cbn [mbind option_bind]. f_equal. rewrite <- (Z.mod_small v (256 ^ Z.of_nat 4)) at 2 by (change (256 ^ Z.of_nat 4) with (2 ^ 32); lia). rewrite <- be_val_bytes.
  pose proof (be_bytes_ok 4 v) as Hb. set (l := be_bytes 4 v) in *. clearbody l. unfold blen in L. destruct l as [|a [|b [|c [|d [|]]]]]; try (cbn in L; lia). unfold bytes_ok in Hb. repeat (apply Forall_cons in Hb as [? Hb]). unfold is_byte in *. cbn [fold_left be_val]. rewrite !lor_shift_add by lia. change (blen [b; c; d]) with 3. change (blen [c; d]) with 2. change (blen [d]) with 1. change (blen []) with 0. lia.
Qed.

Lemma parse_cid_sits pkt pos cid : blen cid <= 20 -> sits pkt pos (blen cid :: cid) -> parse_cid pkt pos = Some (Some (cid, pos + 1 + blen cid)).
Proof.
  intros Hl Hs. pose proof (sits_len _ _ _ Hs) as [Hp Hlen]. rewrite blen_cons in Hlen. pose proof (blen_nonneg cid). change (blen cid :: cid) with ([blen cid] ++ cid) in Hs. apply sits_app in Hs as [(pre & post & -> & ->) H2]. unfold parse_cid. cbn [app] in *. rewrite rd_mid. cbn [mbind option_bind]. rewrite size_sub_ok by lia. cbn [mbind option_bind].
  destruct (_ || _) eqn:Eg; [bool_to_prop; lia|]. change (blen [blen cid]) with 1 in H2. rewrite (sits_rdn _ _ _ H2). done.
Qed.

Lemma parse_tail_sits pkt pos token plen : blen token < 2 ^ 62 -> 17 <= plen < 2 ^ 62 -> sits pkt pos ((enc_varint (blen token) ++ token) ++ enc_varint plen) ->
  pos + blen ((enc_varint (blen token) ++ token) ++ enc_varint plen) + plen <= blen pkt ->
  parse_initial_tail pkt pos = Some (Some (pos + blen ((enc_varint (blen token) ++ token) ++ enc_varint plen), pos + blen ((enc_varint (blen token) ++ token) ++ enc_varint plen) + plen)).
Proof.
  intros Ht Hp [[H1 H2]%sits_app H3]%sits_app Hl. rewrite !blen_app in *. pose proof (blen_nonneg token). pose proof (blen_nonneg (enc_varint plen)). pose proof (sits_len _ _ _ H3). unfold parse_initial_tail, QUIC_AEAD_TAG_LEN. rewrite (sits_varint _ _ (blen token)) by (done || unfold is_varint; lia). cbn [mbind option_bind]. rewrite size_sub_ok by lia. cbn [mbind option_bind].
  destruct (Z.ltb_spec (blen pkt - (pos + blen (enc_varint (blen token)))) (blen token)); [pose proof (blen_nonneg (enc_varint plen)); lia|]. rewrite Z.add_assoc in H3. rewrite (sits_varint _ _ plen) by (done || unfold is_varint; lia). cbn [mbind option_bind]. rewrite size_sub_ok by lia. cbn [mbind option_bind].
  destruct (_ || _) eqn:Eg; [bool_to_prop; lia|]. do 3 f_equal; lia.
Qed.

Lemma parse_protected p low rest : packet_wf p -> 0 <= low < 16 -> Z.of_nat (ip_pn_len p) + blen (ip_payload p) + 16 <= blen rest ->
  let b0 := 16 * (12 + (if ip_version p =? QUIC_V2 then 1 else 0)) + low in
  let header := ip_header p (blen (ip_payload p) + 16) in
  parse_initial_header ((b0 :: header) ++ rest) =
  Some (ParseOk (InitialHeader (ip_version p) b0 (ip_dcid p) (ip_scid p) (1 + blen header) (1 + blen header + (Z.of_nat (ip_pn_len p) + (blen (ip_payload p) + 16))))).
Proof.
  intros [W1 [W2 W2'] [W3 W3'] [W4 W4'] W5 W6 [W7 W7']] Hlow Hr b0 header. set (plen := Z.of_nat (ip_pn_len p) + (blen (ip_payload p) + 16)). pose proof (blen_nonneg (ip_payload p)).
  assert (Hs : sits ((b0 :: header) ++ rest) 1 header) by (exists [b0], rest; done). assert (Hlen : blen ((b0 :: header) ++ rest) = 1 + blen header + blen rest) by (rewrite blen_app, blen_cons; lia). assert (H0 : rd ((b0 :: header) ++ rest) 0 = Some b0) by done.
  set (pkt := (b0 :: header) ++ rest) in *. clearbody pkt. unfold header, ip_header in Hs. fold plen in Hs. assert (Hhl : blen header = 4 + (1 + blen (ip_dcid p)) + (1 + blen (ip_scid p)) + blen ((enc_varint (blen (ip_token p)) ++ ip_token p) ++ enc_varint plen)) by (unfold header, ip_header; fold plen; rewrite !blen_app, !blen_cons, be_bytes_len; lia). clearbody header.
  apply sits_app in Hs as [Hv Hs]. rewrite be_bytes_len in Hs. apply sits_app in Hs as [Hd Hs]. rewrite blen_cons in Hs. apply sits_app in Hs as [Hsc Hs]. rewrite blen_cons in Hs. pose proof (blen_nonneg (ip_dcid p)). pose proof (blen_nonneg (ip_scid p)). pose proof (blen_nonneg ((enc_varint (blen (ip_token p)) ++ ip_token p) ++ enc_varint plen)). pose proof (enc_varint_pos plen). pose proof (enc_varint_pos (blen (ip_token p))). change (Z.of_nat 4) with 4 in *.
  destruct (first_bits (if ip_version p =? QUIC_V2 then 1 else 0) low) as [Hb1 Hb2]; [by destruct (_ =? _)|done|]. fold b0 in Hb1, Hb2. unfold parse_initial_header. destruct (Z.ltb_spec (blen pkt) 7); [lia|]. rewrite H0. cbn [mbind option_bind]. rewrite Hb1. cbn [negb Z.eqb Pos.eqb].
  rewrite (be32_of_sits _ _ (ip_version p)) by (done || destruct W1 as [-> | ->]; unfold QUIC_V1, QUIC_V2; lia). cbn [mbind option_bind]. replace (negb (ip_version p =? QUIC_V1) && negb (ip_version p =? QUIC_V2)) with false by (destruct W1 as [-> | ->]; reflexivity). unfold is_initial. rewrite Hb2.
  replace (negb (negb (_ || _))) with false by (destruct W1 as [-> | ->]; reflexivity). change (1 + 4) with 5 in *. rewrite (parse_cid_sits _ _ _ W2' Hd). cbn [mbind option_bind]. rewrite Z.add_assoc in Hsc, Hs. destruct (Z.leb_spec (blen pkt) (5 + 1 + blen (ip_dcid p))); [lia|]. rewrite (parse_cid_sits _ _ _ W3' Hsc). cbn [mbind option_bind]. rewrite Z.add_assoc in Hs.
  rewrite (parse_tail_sits _ _ (ip_token p) plen) by (done || lia). cbn [mbind option_bind]. do 3 f_equal; lia.
Qed.

(** ** Opening what was protected *)

Lemma xor_twice (l m : list Z) : (length l <= length m)%nat -> zip_with Z.lxor (zip_with Z.lxor l m) (take (length l) m) = l.
Proof.
  revert m. induction l as [|x l IH]; intros m Hm; [done|]. destruct m as [|y m]; [cbn [length] in Hm; lia|]. cbn [zip_with take length] in *. rewrite IH by lia. f_equal. by rewrite Z.lxor_assoc, Z.lxor_nilpotent, Z.lxor_0_r.
Qed.

Lemma sits_sub data pos l k n : sits data pos l -> 0 <= k -> 0 <= n -> k + n <= blen l -> rdn data (pos + k) n = Some (take (Z.to_nat n) (drop (Z.to_nat k) l)).
Proof.
  intros Hs Hk Hn Hl. pose proof (sits_rdn _ _ _ Hs) as E. rewrite (rdn_rdn _ _ _ _ k n E) by lia. by rewrite rdn_eq by lia.
Qed.

(** The packet number of a packet whose number is in the window. *)
Lemma decode_pn_packet p largest have : packet_wf p -> pn_in_window p largest have -> decode_packet_number largest have (be_val (be_bytes (ip_pn_len p) (ip_pn p))) (Z.of_nat (ip_pn_len p) * 8) = ip_pn p.
Proof.
  intros [_ _ _ _ W5 W6 _] Hw. rewrite be_val_bytes. replace (256 ^ Z.of_nat (ip_pn_len p)) with (2 ^ (8 * Z.of_nat (ip_pn_len p))) by (change 256 with (2 ^ 8); rewrite <- Z.pow_mul_r by lia; done). rewrite (Z.mul_comm _ 8). destruct have; cbn [pn_in_window] in Hw.
  - apply decode_pn_spec; [lia|lia|lia|lia].
  - unfold decode_packet_number. cbn [negb]. apply Z.mod_small. lia.
Qed.

(** Header and packet number, taken out of their protection. *)
Lemma unprotect_ad b0 first header x pn : blen x = blen pn -> (ad ← wr ((b0 :: header) ++ x) 0 first; wrn ad (1 + blen header) pn) = Some ((first :: header) ++ pn).
Proof.
  intros Hx. unfold wr. rewrite blen_app, blen_cons. pose proof (blen_nonneg header). pose proof (blen_nonneg x). replace ((0 <=? 0) && (0 <? 1 + blen header + blen x)) with true by lia. cbn [mbind option_bind]. change (<[Z.to_nat 0:=first]> ((b0 :: header) ++ x)) with ((first :: header) ++ x). apply wrn_rest; [by rewrite blen_cons|unfold blen in Hx; lia].
Qed.

Section open.
Context (HKDF_extract : list Z -> list Z -> option (list Z)) (HKDF_expand : Z -> list Z -> list Z -> option (list Z)).
Context (AES_encrypt : list Z -> list Z -> option (list Z)) (AEAD_seal AEAD_open : list Z -> list Z -> list Z -> list Z -> option (list Z)).

(** What AES and AEAD_AES_128_GCM promise. *)
Record crypto_ok : Prop := {
  aes_block : forall key sample mask, AES_encrypt key sample = Some mask -> blen mask = 16 /\ bytes_ok mask;
  seal_len : forall key nonce p ad c, AEAD_seal key nonce p ad = Some c -> blen c = blen p + 16 /\ bytes_ok c;
  open_bytes : forall key nonce c ad p, AEAD_open key nonce c ad = Some p -> bytes_ok p;
  open_seal : forall key nonce p ad c, AEAD_seal key nonce p ad = Some c -> AEAD_open key nonce c ad = Some p
}.

(** The bytes on the wire; [None] when a primitive fails. *)
Definition protect_initial (p : initial_packet) : option (list Z) :=
  keys ← derive_client_keys HKDF_extract HKDF_expand (ip_version p) (ip_dcid p);
  let '(key, iv, hp) := keys in
  let pn := be_bytes (ip_pn_len p) (ip_pn p) in
  let header := ip_header p (blen (ip_payload p) + 16) in
  ciphertext ← AEAD_seal key (packet_nonce iv (ip_pn p)) (ip_payload p) ((ip_first p :: header) ++ pn);
  mask ← AES_encrypt hp (take 16 (drop (4 - ip_pn_len p) ciphertext));
  m0 ← rd mask 0;
  Some ((Z.lxor (ip_first p) (Z.land m0 15) :: header) ++ zip_with Z.lxor pn (drop 1 mask) ++ ciphertext).

Hypothesis Hcrypto : crypto_ok.

(** Opening any bytes is memory safe. *)
Lemma decrypt_safe malloc pkt cap largest have : bytes_ok pkt -> exists r, decrypt_initial_with_state HKDF_extract HKDF_expand AES_encrypt AEAD_open malloc pkt cap largest have = Some r /\
  forall pt pn, r = ParseOk (pt, pn) -> bytes_ok pt.
Proof.
  intros Hb. unfold decrypt_initial_with_state, QUIC_HP_SAMPLE_LEN, QUIC_AEAD_TAG_LEN. destruct (parse_initial_header_safe pkt Hb) as (r & Er & Hr). rewrite Er. cbn [mbind option_bind]. destruct r as [| |h]; [by eexists..|]. destruct (Hr h eq_refl) as (_ & _ & _ & _ & _ & Hpn & He).
  destruct ((_ <? _) || _) eqn:Eg; [by eexists|]. bool_to_prop. destruct (derive_client_keys _ _ _ _) as [[[key iv] hp]|]; [|by eexists]. destruct (rdn_in_bounds pkt (pn_offset h + 4) 16) as (sample & Es); [lia..|]. rewrite Es. cbn [mbind option_bind].
  destruct (AES_encrypt hp sample) as [mask|] eqn:Ea; [|by eexists]. destruct (aes_block Hcrypto _ _ _ Ea) as [Lm Bm]. destruct (rd_in_bounds pkt 0) as (b0 & E0); [lia|]. destruct (rd_in_bounds mask 0) as (m0 & Em); [lia|]. rewrite E0. cbn [mbind option_bind]. rewrite Em. cbn [mbind option_bind].
  set (first := Z.lxor b0 (Z.land m0 15)). set (n := Z.land first 3 + 1). assert (Hn : 1 <= n <= 4). { subst n. change 3 with (2 ^ 2 - 1). rewrite land_ones_mod by lia. pose proof (Z.mod_pos_bound first (2 ^ 2)). lia. }
  destruct (Z.ltb_spec (packet_end h) (pn_offset h + n)); [by eexists|]. destruct (negb malloc); [by eexists|]. destruct (rdn_in_bounds pkt 0 (pn_offset h + n)) as (ad & Ead); [lia..|]. rewrite Ead. cbn [mbind option_bind]. pose proof (rdn_spec _ _ _ _ Ead) as (Lad & _).
  unfold wr. replace ((0 <=? 0) && (0 <? blen ad)) with true by lia. cbn [mbind option_bind]. unfold unmask_pn. destruct (rdn_in_bounds pkt (pn_offset h) n) as (pp & Ep); [lia..|]. destruct (rdn_in_bounds mask 1 n) as (mm & Emm); [lia..|]. rewrite Ep. cbn [mbind option_bind]. rewrite Emm. cbn [mbind option_bind].
  pose proof (rdn_spec _ _ _ _ Ep) as (Lp & _). pose proof (rdn_spec _ _ _ _ Emm) as (Lmm & _). assert (Lx : blen (zip_with Z.lxor pp mm) = n) by (unfold blen in *; rewrite length_zip_with; lia). unfold wrn. assert (La : blen (<[Z.to_nat 0:=first]> ad) = pn_offset h + n) by (unfold blen in *; by rewrite length_insert).
  rewrite Lx, La. replace ((0 <=? pn_offset h) && (pn_offset h + n <=? pn_offset h + n)) with true by lia. cbn [mbind option_bind]. rewrite size_sub_ok by lia. cbn [mbind option_bind]. destruct (_ || _) eqn:Eg2; [by eexists|]. bool_to_prop.
  destruct (rdn_in_bounds pkt (pn_offset h + n) (packet_end h - (pn_offset h + n))) as (ct & Ect); [lia..|]. rewrite Ect. cbn [mbind option_bind]. destruct (AEAD_open _ _ _ _) as [pt|] eqn:Eo; [|by eexists]. eexists. split; [done|]. intros pt' pn' [= <- _]. by eapply (open_bytes Hcrypto).
Qed.

Lemma validate_retry_safe malloc version scid dcid pkt : bytes_ok pkt -> exists r, validate_retry AEAD_seal malloc version scid dcid pkt = Some r.
Proof.
  intros Hb. unfold validate_retry, QUIC_RETRY_TAG_LEN. destruct (parse_retry_header_safe pkt Hb) as (r & Er & Hr). rewrite Er. cbn [mbind option_bind]. destruct r as [h|]; [|by eexists]. destruct (Hr h eq_refl) as (_ & _ & Hl). destruct (_ || _); [by eexists|]. destruct (if rh_version h =? QUIC_V2 then (QUIC_V2_RETRY_KEY, QUIC_V2_RETRY_NONCE) else _) as [key nonce].
  rewrite size_sub_ok by lia. cbn [mbind option_bind]. destruct (rdn_in_bounds pkt 0 (blen pkt - 16)) as (body & Eb); [lia..|]. rewrite Eb. cbn [mbind option_bind]. destruct (rdn_in_bounds pkt (blen pkt - 16) 16) as (tag & Et); [lia..|]. rewrite Et. cbn [mbind option_bind].
  destruct (negb malloc); [by eexists|]. destruct (AEAD_seal _ _ _ _); [|by eexists]. destruct (negb _); by eexists.
Qed.

(** Opening undoes the protection. *)
Lemma decrypt_protected p pkt coalesced cap largest have : packet_wf p -> pn_in_window p largest have -> protect_initial p = Some pkt -> blen (ip_payload p) <= cap ->
  decrypt_initial_with_state HKDF_extract HKDF_expand AES_encrypt AEAD_open true (pkt ++ coalesced) cap largest have = Some (ParseOk (ip_payload p, ip_pn p)).
Proof.
  intros Hw Hwin Hprot Hcap. unfold protect_initial in Hprot. destruct (derive_client_keys _ _ _ _) as [[[key iv] hp]|] eqn:Ek; [|done]. cbn [mbind option_bind] in Hprot. set (header := ip_header p (blen (ip_payload p) + 16)) in *. set (pn := be_bytes (ip_pn_len p) (ip_pn p)) in *.
  destruct (AEAD_seal _ _ _ _) as [ct|] eqn:Ec; [|done]. cbn [mbind option_bind] in Hprot. destruct (AES_encrypt _ _) as [mask|] eqn:Em; [|done]. cbn [mbind option_bind] in Hprot. destruct (rd mask 0) as [m0|] eqn:E0; [|done]. cbn [mbind option_bind] in Hprot. apply Some_inj in Hprot. subst pkt.
  destruct (seal_len Hcrypto _ _ _ _ _ Ec) as [Lc Bc]. destruct (aes_block Hcrypto _ _ _ Em) as [Lm Bm]. pose proof (open_seal Hcrypto _ _ _ _ _ Ec) as Eo. pose proof (decode_pn_packet p largest have Hw Hwin) as Hdec. pose proof Hw as [W1 W2 W3 W4 W5 W6 [W7 W7']]. assert (Lp : blen pn = Z.of_nat (ip_pn_len p)) by apply be_bytes_len. set (n := Z.of_nat (ip_pn_len p)) in *.
  set (x := zip_with Z.lxor pn (drop 1 mask)). assert (Lx : blen x = n) by (unfold x, blen in *; rewrite length_zip_with, length_drop; lia). pose proof (rd_byte _ _ _ Bm E0) as Hm0. assert (Hm : 0 <= Z.land m0 15 < 16) by (change 15 with (2 ^ 4 - 1); rewrite land_ones_mod by lia; apply Z.mod_pos_bound; lia).
  set (t := if ip_version p =? QUIC_V2 then 1 else 0). assert (Ht : 0 <= t < 4) by (unfold t; destruct (_ =? _); lia). assert (Ef : ip_first p = 16 * (12 + t) + (n - 1)) by (unfold ip_first; fold t n; lia). destruct (lxor_low (12 + t) (n - 1) (Z.land m0 15)) as [Ex Hx]; [lia|done|].
  rewrite Ef, Ex in *. set (low := Z.lxor (n - 1) (Z.land m0 15)) in *. set (b0 := 16 * (12 + t) + low) in *. set (first := 16 * (12 + t) + (n - 1)) in *. assert (Eb : Z.lxor b0 (Z.land m0 15) = first) by (rewrite <- Ex; by rewrite Z.lxor_assoc, Z.lxor_nilpotent, Z.lxor_0_r).
  assert (En : Z.land first 3 + 1 = n). { change 3 with (2 ^ 2 - 1). rewrite land_ones_mod by lia. unfold first. replace (16 * (12 + t) + (n - 1)) with ((n - 1) + (4 * (12 + t)) * 2 ^ 2) by lia. rewrite Z_mod_plus_full, Z.mod_small by lia. lia. }
  unfold decrypt_initial_with_state, QUIC_HP_SAMPLE_LEN, QUIC_AEAD_TAG_LEN. assert (Epar := parse_protected p low ((x ++ ct) ++ coalesced) Hw Hx). cbn zeta in Epar. fold t b0 header n in Epar. rewrite <- (app_assoc (b0 :: header)), Epar by (rewrite !blen_app; pose proof (blen_nonneg coalesced); lia). cbn [mbind option_bind packet_end pn_offset ih_version ih_dcid]. set (off := 1 + blen header). pose proof (blen_nonneg header).
  set (data := (b0 :: header) ++ (x ++ ct) ++ coalesced). assert (S1 : sits data 0 ((b0 :: header) ++ x)) by (exists [], (ct ++ coalesced); unfold data; cbn [app]; by rewrite <- !app_assoc). assert (S2 : sits data off (x ++ ct)) by (exists (b0 :: header), coalesced; split; [done|by rewrite blen_cons]).
  assert (R0 : rd data 0 = Some b0) by done. clearbody data. destruct (sits_app _ _ _ _ S2) as [Sx Sc]. rewrite Lx in Sc. destruct (_ || _) eqn:Eg; [bool_to_prop; lia|]. rewrite Ek. replace (off + 4) with (off + n + (4 - n)) by lia. rewrite (sits_sub _ _ _ (4 - n) 16 Sc) by lia. cbn [mbind option_bind].
  replace (Z.to_nat (4 - n)) with (4 - ip_pn_len p)%nat by lia. change (Z.to_nat 16) with 16%nat. rewrite Em. rewrite R0. cbn [mbind option_bind]. rewrite E0. cbn [mbind option_bind]. rewrite Eb, En. destruct (Z.ltb_spec (off + (n + (blen (ip_payload p) + 16))) (off + n)); [lia|]. cbn [negb].
  pose proof (sits_rdn _ _ _ S1) as Ead. rewrite blen_app, blen_cons, Lx in Ead. fold off in Ead. rewrite Ead. cbn [mbind option_bind]. pose proof (unprotect_ad b0 first header x pn ltac:(lia)) as Eu. fold off in Eu. destruct (wr _ 0 first) as [ad|]; [|done]. cbn [mbind option_bind] in Eu |- *. unfold unmask_pn.
  pose proof (sits_rdn _ _ _ Sx) as Exx. rewrite Lx in Exx. rewrite Exx. cbn [mbind option_bind]. rewrite (rdn_eq mask 1 n) by lia. cbn [mbind option_bind]. replace (Z.to_nat n) with (length pn) by (unfold blen in Lp; lia). change (Z.to_nat 1) with 1%nat. unfold x. rewrite xor_twice by (rewrite length_drop; unfold blen in *; lia). rewrite Eu. cbn [mbind option_bind].
  rewrite varint_tail_value by (first [apply be_bytes_ok|lia|rewrite Lp; assert (256 ^ n <= 256 ^ 4) by (apply Z.pow_le_mono_r; lia); lia]). fold pn in Hdec. rewrite Z.mul_0_l, Z.add_0_l, Hdec. rewrite size_sub_ok by lia. cbn [mbind option_bind]. replace (off + (n + (blen (ip_payload p) + 16)) - (off + n)) with (blen ct) by lia.
  destruct ((_ <? 16) || _) eqn:Eg2; [bool_to_prop; lia|]. rewrite (sits_rdn _ _ _ Sc). cbn [mbind option_bind]. by rewrite Eo.
Qed.

(** What is seen of a protected packet without its keys. *)
Lemma protect_shape p pkt : packet_wf p -> protect_initial p = Some pkt -> exists low rest, 0 <= low < 16 /\ blen rest = Z.of_nat (ip_pn_len p) + blen (ip_payload p) + 16 /\
  pkt = ((16 * (12 + (if ip_version p =? QUIC_V2 then 1 else 0)) + low) :: ip_header p (blen (ip_payload p) + 16)) ++ rest.
Proof.
  intros [W1 W2 W3 W4 W5 W6 W7] Hprot. unfold protect_initial in Hprot. destruct (derive_client_keys _ _ _ _) as [[[key iv] hp]|]; [|done]. cbn [mbind option_bind] in Hprot. destruct (AEAD_seal _ _ _ _) as [ct|] eqn:Ec; [|done]. cbn [mbind option_bind] in Hprot. destruct (AES_encrypt _ _) as [mask|] eqn:Em; [|done]. cbn [mbind option_bind] in Hprot.
  destruct (rd mask 0) as [m0|] eqn:E0; [|done]. cbn [mbind option_bind] in Hprot. apply Some_inj in Hprot. subst pkt. destruct (seal_len Hcrypto _ _ _ _ _ Ec) as [Lc _]. destruct (aes_block Hcrypto _ _ _ Em) as [Lm Bm]. pose proof (be_bytes_len (ip_pn_len p) (ip_pn p)) as Lp.
  assert (Hm : 0 <= Z.land m0 15 < 16) by (change 15 with (2 ^ 4 - 1); rewrite land_ones_mod by lia; apply Z.mod_pos_bound; lia). set (t := if ip_version p =? QUIC_V2 then 1 else 0). assert (Ef : ip_first p = 16 * (12 + t) + (Z.of_nat (ip_pn_len p) - 1)) by (unfold ip_first; fold t; lia).
  destruct (lxor_low (12 + t) (Z.of_nat (ip_pn_len p) - 1) (Z.land m0 15)) as [Ex Hx]; [lia|done|]. rewrite Ef, Ex. eexists _, _. split; [exact Hx|]. split; [|reflexivity]. rewrite blen_app, Lc. unfold blen in Lp, Lm |- *. rewrite length_zip_with, length_drop. lia.
Qed.


End open.

(** Primitives of the shape the theorem asks for: an AEAD that appends the
    length of the additional data, a fixed mask. *)
Definition toy_aes (key sample : list Z) : option (list Z) := Some (seqZ 201 16).
Definition toy_tag (ad : list Z) : list Z := replicate 16 (blen ad mod 256).
Definition toy_seal (key nonce p ad : list Z) : option (list Z) := if bytes_okb p then Some (p ++ toy_tag ad) else None.
Definition toy_open (key nonce c ad : list Z) : option (list Z) := let p := take (length c - 16) c in if bytes_okb p && bool_decide (drop (length c - 16) c = toy_tag ad) then Some p else None.
Definition toy_extract (secret salt : list Z) : option (list Z) := Some (replicate 32 9).
Definition toy_expand (n : Z) (secret info : list Z) : option (list Z) := Some (replicate (Z.to_nat n) 3).

Lemma toy_crypto_ok : crypto_ok toy_aes toy_seal toy_open.
Proof.
  constructor.
  - intros key sample mask [= <-]. split; [done|by apply bytes_okb_ok].
  - intros key nonce p ad c. unfold toy_seal. destruct (bytes_okb p) eqn:E; [|done]. intros [= <-]. split; [by rewrite blen_app|]. apply Forall_app. split; [by apply bytes_okb_ok|]. apply Forall_replicate, Z.mod_pos_bound. lia.
  - intros key nonce c ad p. unfold toy_open. destruct (bytes_okb _) eqn:E; [|done]. cbn [andb]. case_bool_decide; [|done]. intros [= <-]. by apply bytes_okb_ok.
  - intros key nonce p ad c. unfold toy_seal, toy_open. destruct (bytes_okb p) eqn:E; [|done]. intros [= <-]. rewrite length_app. change (length (toy_tag ad)) with 16%nat. rewrite Nat.add_sub, take_app_length, drop_app_length, E. by rewrite bool_decide_true.
Qed.

Definition packet_example : initial_packet := InitialPacket QUIC_V2 [1; 2; 3; 4; 5; 6; 7; 8] [9] [] 2 70000 [6; 0; 3; 1; 2; 3].

