(* ===== verification/SniMatch.v ===== *)
(** * Matching server names

    A router that was created accepts exactly the names of its patterns. *)

From S2P Require Import Prelude StateOpt SniParse SniCrypto SniRouter.

Lemma tolower_idem c : ascii_tolower (ascii_tolower c) = ascii_tolower c.
Proof. unfold ascii_tolower. destruct ((65 <=? c) && (c <=? 90)) eqn:E; [|by rewrite E]. bool_to_prop. destruct (_ && _) eqn:E2; [|done]. bool_to_prop. lia. Qed.

(** Two names that differ in the case of letters only. *)
Definition same_name (a b : list Z) : Prop := map ascii_tolower a = map ascii_tolower b.

Lemma ascii_case_equal_spec a b : ascii_case_equal a b = true <-> same_name a b.
Proof.
  unfold same_name. revert b. induction a as [|x a IH]; intros [|y b]; cbn [ascii_case_equal map]; [done..|]. destruct (Z.eqb_spec (ascii_tolower x) (ascii_tolower y)) as [E|Hne]; [rewrite IH; split; [intros ->; by rewrite E|by intros [= _ ?]]|]. split; [done|intros [= ? _]; done].
Qed.

Lemma same_name_len a b : same_name a b -> length a = length b.
Proof. unfold same_name. intros H. apply (f_equal length) in H. by rewrite !length_map in H. Qed.

Lemma same_name_lower a b : same_name (map ascii_tolower a) b <-> same_name a b.
Proof. unfold same_name. rewrite map_map. by rewrite (map_ext (fun x => ascii_tolower (ascii_tolower x)) ascii_tolower tolower_idem). Qed.

(** What a pattern stands for: itself, or with one label in place of the star. *)
Definition pattern_names (pattern sni : list Z) : Prop :=
  same_name pattern sni \/ exists base label rest, pattern = STAR :: DOT :: base /\ sni = label ++ rest /\ label <> [] /\ ~ DOT ∈ label /\ same_name rest (DOT :: base).

Lemma is_wildcard_spec pattern : is_wildcard pattern = true <-> exists base, pattern = STAR :: DOT :: base.
Proof.
  split; [|by intros (base & ->)]. destruct pattern as [|c [|d base]]; [done..|]. cbn [is_wildcard]. intros [->%Z.eqb_eq ->%Z.eqb_eq]%andb_prop. by exists base.
Qed.

Lemma no_dot l : negb (existsb (fun c => c =? DOT) l) = true <-> ~ DOT ∈ l.
Proof.
  rewrite negb_true_iff. split.
  - intros H Hin. apply list_elem_of_In in Hin. assert (existsb (fun c => c =? DOT) l = true) by (apply existsb_exists; by exists DOT). congruence.
  - intros H. apply not_true_iff_false. intros (x & Hx & ->%Z.eqb_eq)%existsb_exists. by apply H, list_elem_of_In.
Qed.

Lemma pattern_matches_spec sni pattern : pattern_matches sni pattern = true <-> pattern_names pattern sni.
Proof.
  unfold pattern_matches, pattern_names. pose proof (ascii_case_equal_spec pattern sni) as He. destruct (ascii_case_equal pattern sni); [split; [left; by apply He|done]|]. assert (Hn : ~ same_name pattern sni) by (intros H; apply He in H; done). destruct (is_wildcard pattern) eqn:Ew.
  - apply is_wildcard_spec in Ew as (base & ->). change (drop 1 (STAR :: DOT :: base)) with (DOT :: base). set (n := if blen (DOT :: base) <? blen sni then _ else 0). split.
    + intros [[H1 H2]%andb_prop H3]%andb_prop. right. exists base, (take (Z.to_nat n) sni), (drop (Z.to_nat n) sni). split_and!; [done|by rewrite take_drop| |by apply no_dot|by apply ascii_case_equal_spec].
      intros E. apply (f_equal length) in E. rewrite length_take in E. cbn [length] in E. subst n. unfold blen in *. destruct (Z.ltb_spec (Z.of_nat (length (DOT :: base))) (Z.of_nat (length sni))); [cbn [length] in *; lia|done].
    + intros [H|(base' & label & rest & [= <-] & -> & Hl & Hd & Hs)]; [done|]. assert (En : n = Z.of_nat (length label)).
      { subst n. apply same_name_len in Hs. unfold blen. rewrite length_app, Hs. assert (length label <> 0)%nat by (by destruct label). destruct (Z.ltb_spec (Z.of_nat (length (DOT :: base))) (Z.of_nat (length label + length (DOT :: base)))); lia. }
      rewrite En, Nat2Z.id, take_app_length, drop_app_length. assert (length label <> 0)%nat by (by destruct label). rewrite (proj2 (no_dot label) Hd), (proj2 (ascii_case_equal_spec _ _) Hs). replace (0 <? Z.of_nat (length label)) with true by lia. done.
  - split; [done|]. intros [H|(base & label & rest & -> & _)]; done.
Qed.

(** Lower case changes nothing in what a pattern stands for. *)
Lemma pattern_names_lower pattern sni : pattern_names (map ascii_tolower pattern) sni <-> pattern_names pattern sni.
Proof.
  assert (Hfix : forall c, (ascii_tolower c = STAR <-> c = STAR) /\ (ascii_tolower c = DOT <-> c = DOT)). { intros c. unfold ascii_tolower, STAR, DOT. destruct (_ && _) eqn:E; [bool_to_prop; lia|done]. }
  unfold pattern_names. rewrite same_name_lower. f_equiv. split.
  - intros (base & label & rest & E & -> & Hl & Hd & Hs). destruct pattern as [|c [|d base']]; [done..|]. cbn [map] in E. injection E as E1 E2 <-. apply Hfix in E1 as ->. apply Hfix in E2 as ->. exists base', label, rest. split_and!; [done..|]. unfold same_name in *. rewrite Hs. cbn [map]. f_equal. apply same_name_lower. done.
  - intros (base & label & rest & -> & -> & Hl & Hd & Hs). exists (map ascii_tolower base), label, rest. split_and!; [done..|]. unfold same_name in *. rewrite Hs. cbn [map]. f_equal. symmetry. by apply same_name_lower.
Qed.

(** C20: a router made from a configuration accepts a server name exactly when
    it is one of the configured names, up to the case of letters, or one label
    in place of the star of a configured wildcard; nothing below a wildcard's
    label, and not the bare base name. *)
Theorem match_exact malloc cfg r sni : sni_router_create malloc cfg = Some r ->
  sni_router_match (allowed_snis (config r)) sni = true <-> exists pattern, pattern ∈ allowed_snis cfg /\ pattern_names pattern sni.
Proof.
  intros Hr. assert (Ea : allowed_snis (config r) = map (map ascii_tolower) (allowed_snis cfg)). { unfold sni_router_create in Hr. destruct (_ || _); [done|]. cbn zeta in Hr. destruct (_ || _); [done|]. destruct (negb _); [done|]. by injection Hr as <-. }
  rewrite Ea. unfold sni_router_match. rewrite existsb_exists. split.
  - intros (p & (q & <- & Hq)%in_map_iff & Hm%pattern_matches_spec). exists q. split; [by apply list_elem_of_In|]. by apply pattern_names_lower.
  - intros (q & Hq%list_elem_of_In & Hm). exists (map ascii_tolower q). split; [apply in_map_iff; by exists q|]. by apply pattern_matches_spec, pattern_names_lower.
Qed.

(** "*.ex.am" *)
Definition config_example : sni_router_config_t :=
  RouterConfig [[42; 46; 69; 120; 46; 97; 109]] (SockAddr AF_INET [1; 187] [10; 0; 0; 1]) 16 2 0 0 2 false.

Lemma match_exact_witness : exists r, sni_router_create true config_example = Some r /\
  (sni_router_match (allowed_snis (config r)) [118; 46; 101; 88; 46; 97; 109] = true <-> exists pattern, pattern ∈ allowed_snis config_example /\ pattern_names pattern [118; 46; 101; 88; 46; 97; 109]).
Proof. eexists. split; [vm_compute; reflexivity|]. apply (match_exact true). vm_compute. reflexivity. Defined.
