(* ===== verification/SniInv.v ===== *)
(** * The invariant of the SNI router

    The table and the heap: every chain holds live connections of its bucket,
    no connection is in it twice, no peer has two, the counter counts them, and
    every connection is in a state of its life.  Then what the log says of the
    packets of a peer and of a socket. *)

From S2P Require Import Prelude StateOpt OffloadCsum SniParse SniCrypto SniStream SniHello SniFrames SniOpen SniRouter.

(** ** What the log says *)

(** The packet that an event hands on for a peer, to the VPN server ([true]) or
    to the fallback. *)
Definition handed_on (peer : sockaddr) (e : sni_event) : option (bool * list Z) :=
  match e with
  | EvAccept p pkt _ => if decide (p = peer) then Some (true, pkt) else None
  | EvFallback p pkt => if decide (p = peer) then Some (false, pkt) else None
  | _ => None
  end.

Definition handed (peer : sockaddr) (l : list sni_event) : list (bool * list Z) := omap (handed_on peer) l.

(** Sockets opened less sockets closed. *)
Definition fd_change (fd : Z) (e : sni_event) : Z :=
  match e with EvSocket f => if f =? fd then 1 else 0 | EvClose f => if f =? fd then - 1 else 0 | _ => 0 end.

Fixpoint balance (fd : Z) (l : list sni_event) : Z := match l with [] => 0 | e :: l => fd_change fd e + balance fd l end.

Lemma handed_app peer a b : handed peer (a ++ b) = handed peer a ++ handed peer b.
Proof. apply omap_app. Qed.

Lemma handed_one peer e : handed peer [e] = match handed_on peer e with Some pkt => [pkt] | None => [] end.
Proof. done. Qed.

Lemma balance_app fd a b : balance fd (a ++ b) = balance fd a + balance fd b.
Proof. induction a as [|e a IH]; cbn [balance app]; [done|]. rewrite IH. lia. Qed.

(** ** What the heap says *)

(** The packets of a peer that wait. *)
Definition queued (h : gmap Z sni_connection_state_t) (peer : sockaddr) : list (list Z) :=
  concat ((fun x => pending x.2) <$> map_to_list (filter (fun x => peer_addr x.2 = peer) h)).

Definition holds_fd (fd : Z) (c : sni_connection_state_t) : Z := if decide (fallback_fd c = Some fd) then 1 else 0.

(** The connections that hold a socket. *)
Definition holders (fd : Z) (h : gmap Z sni_connection_state_t) : Z := Z.of_nat (size (filter (fun x => fallback_fd x.2 = Some fd) h)).

Lemma holders_new fd h ptr c : h !! ptr = None -> holders fd (<[ptr := c]> h) = holders fd h + holds_fd fd c.
Proof.
  intros Hn. unfold holders, holds_fd. case_decide as Hd.
  - rewrite map_filter_insert_True by done. rewrite map_size_insert_None by (apply map_lookup_filter_None; by left). lia.
  - rewrite map_filter_insert_False by done. rewrite delete_id by done. lia.
Qed.

Lemma holders_delete fd h ptr c : h !! ptr = Some c -> holders fd (delete ptr h) = holders fd h - holds_fd fd c.
Proof. intros Hp. rewrite <- (insert_delete_id h ptr c Hp) at 2. rewrite holders_new by apply lookup_delete_eq. lia. Qed.

Lemma holders_insert fd h ptr c c' : h !! ptr = Some c -> holders fd (<[ptr := c']> h) = holders fd h - holds_fd fd c + holds_fd fd c'.
Proof. intros Hp. rewrite <- insert_delete_eq. rewrite holders_new by apply lookup_delete_eq. by rewrite (holders_delete _ _ _ c). Qed.

(** ** Addresses *)

Definition valid_family (a : sockaddr) : Prop := sa_family a <> AF_OTHER.

Lemma addr_equal_spec a b : valid_family a -> addr_equal a b = true <-> a = b.
Proof.
  unfold valid_family, addr_equal. destruct a as [f p x], b as [f' p' x']. cbn [sa_family sin_port sin_addr]. intros Hf. split.
  - intros H. destruct f, f'; try done; apply andb_prop in H as [->%bool_decide_eq_true ->%bool_decide_eq_true]; done.
  - intros [= <- <- <-]. destruct f; [by rewrite !bool_decide_true..|done].
Qed.

(** ** Connections *)

(** A connection in a state of its life: packets wait only while there is no
    decision, a socket is there only for the fallback. *)
Record conn_ok (cfg : sni_router_config_t) (c : sni_connection_state_t) : Prop := {
  co_family : valid_family (peer_addr c);
  co_pending : Z.of_nat (length (pending c)) <= max_pending_packets cfg;
  co_decision : match decision c with
                | SNI_ROUTE_PENDING => fallback_fd c = None /\ exists m, crypto_rel (max_client_hello_bytes cfg) (crypto c) m
                | SNI_ROUTE_ACCEPT => pending c = [] /\ fallback_fd c = None
                | SNI_ROUTE_FALLBACK => pending c = []
                | SNI_ROUTE_ERROR => False
                end
}.

Record cfg_ok (cfg : sni_router_config_t) : Prop := {
  cfg_conns : 1 <= max_tracked_conns cfg;
  cfg_hello : 1 <= max_client_hello_bytes cfg < 2 ^ 62;
  cfg_pending : 1 <= max_pending_packets cfg
}.

Section inv.
Context (le : bool).

Abbreviation heap_t := (gmap Z sni_connection_state_t).

Definition bucket_ix (T : list (list Z)) (peer : sockaddr) : nat := Z.to_nat (hash_peer le peer mod Z.of_nat (length T)).

(** Table and heap; [conns_ok] apart, it depends on the addresses only. *)
Record tab_ok (cfg : sni_router_config_t) (T : list (list Z)) (n : Z) (h : heap_t) : Prop := {
  to_cfg : cfg_ok cfg;
  to_len : Z.of_nat (length T) = max_tracked_conns cfg;
  to_nodup : NoDup (concat T);
  to_dom : forall ptr, ptr ∈ concat T <-> is_Some (h !! ptr);
  to_bucket : forall i chain ptr c, T !! i = Some chain -> ptr ∈ chain -> h !! ptr = Some c -> bucket_ix T (peer_addr c) = i;
  to_unique : forall p q c d, h !! p = Some c -> h !! q = Some d -> peer_addr c = peer_addr d -> p = q;
  to_count : n = Z.of_nat (length (concat T));
  to_max : n <= max_tracked_conns cfg;
  to_conns : forall ptr c, h !! ptr = Some c -> conn_ok cfg c
}.

Lemma concat_insert_perm (T : list (list Z)) i (ch ch' : list Z) ptr : T !! i = Some ch -> ch ≡ₚ ptr :: ch' -> concat T ≡ₚ ptr :: concat (<[i := ch']> T).
Proof.
  intros Hi Hp. rewrite <- (take_drop_middle T i ch Hi) at 1. rewrite (insert_take_drop T i ch') by (by eapply lookup_lt_Some). rewrite !concat_app. cbn [concat]. rewrite Hp. cbn [app]. symmetry. apply Permutation_middle.
Qed.

Lemma in_chain (T : list (list Z)) i (ch : list Z) ptr : T !! i = Some ch -> ptr ∈ ch -> ptr ∈ concat T.
Proof. intros Hi Hp. apply list_elem_of_In, in_concat. exists ch. split; apply list_elem_of_In; [by eapply list_elem_of_lookup_2|done]. Qed.

Lemma bucket_lt cfg T n h peer : tab_ok cfg T n h -> (bucket_ix T peer < length T)%nat.
Proof. intros [Hc Hl _ _ _ _ _ _ _]. destruct Hc as [H1 _ _]. unfold bucket_ix. pose proof (Z.mod_pos_bound (hash_peer le peer) (Z.of_nat (length T)) ltac:(lia)). lia. Qed.

Lemma bucket_insert T i ch peer : bucket_ix (<[i := ch]> T) peer = bucket_ix T peer.
Proof. unfold bucket_ix. by rewrite length_insert. Qed.

(** A connection is changed. *)
Lemma tab_update cfg T n h ptr c c' : tab_ok cfg T n h -> h !! ptr = Some c -> peer_addr c' = peer_addr c -> conn_ok cfg c' -> tab_ok cfg T n (<[ptr := c']> h).
Proof.
  intros [H1 H2 H3 H4 H5 H6 H7 H8 H9] Hp Ha Hc. assert (Hback : forall q d, <[ptr := c']> h !! q = Some d -> exists d0, h !! q = Some d0 /\ peer_addr d = peer_addr d0). { intros q d [[-> <-]|[Hne E]]%lookup_insert_Some; [by exists c|by exists d]. }
  constructor; [done..| | | |done|done|].
  - intros q. rewrite H4. destruct (decide (q = ptr)) as [->|]; [rewrite lookup_insert_eq, Hp; split; by eexists|by rewrite lookup_insert_ne].
  - intros i chain q d Hi Hq E. destruct (Hback q d E) as (d0 & E0 & ->). by eapply H5.
  - intros p q x y Ex Ey E. destruct (Hback _ _ Ex) as (x0 & Ex0 & Ea). destruct (Hback _ _ Ey) as (y0 & Ey0 & Eb). eapply H6; [done|done|congruence].
  - intros q d [[-> <-]|[Hne E]]%lookup_insert_Some; [done|by eapply H9].
Qed.

(** A connection is taken out of its chain and freed. *)
Lemma tab_remove cfg T n h i k r ptr : tab_ok cfg T n h -> T !! i = Some (k ++ ptr :: r) -> tab_ok cfg (<[i := k ++ r]> T) (n - 1) (delete ptr h).
Proof.
  intros [H1 H2 H3 H4 H5 H6 H7 H8 H9] Hi. pose proof (concat_insert_perm T i (k ++ ptr :: r) (k ++ r) ptr Hi) as Hp. specialize (Hp ltac:(by rewrite Permutation_middle)). rewrite Hp in H3. apply NoDup_cons in H3 as [Hnin H3].
  constructor; [done|by rewrite length_insert|done| | | | |lia|].
  - intros q. destruct (decide (q = ptr)) as [->|Hne]; [rewrite lookup_delete_eq; split; [done|by intros [? ?]]|]. rewrite lookup_delete_ne by done. rewrite <- H4, Hp. rewrite elem_of_cons. split; [by right|by intros [->|]].
  - intros j chain q d Hj Hq [Hne E]%lookup_delete_Some. rewrite bucket_insert. apply list_lookup_insert_Some in Hj as [(<- & <- & Hlt)|[Hnj Hj]]; [|by eapply H5]. eapply H5; [done| |done]. apply elem_of_app in Hq as [Hq|Hq]; apply elem_of_app; [by left|right; by apply list_elem_of_further].
  - intros p q c d [_ Ec]%lookup_delete_Some [_ Ed]%lookup_delete_Some. by eapply H6.
  - rewrite H7, Hp. cbn [length]. lia.
  - intros q d [_ E]%lookup_delete_Some. by eapply H9.
Qed.

(** A connection is put at the head of its chain. *)
Lemma tab_add cfg T n h ptr c chain : tab_ok cfg T n h -> n < max_tracked_conns cfg -> h !! ptr = None -> (forall q d, h !! q = Some d -> peer_addr d <> peer_addr c) -> conn_ok cfg c -> T !! bucket_ix T (peer_addr c) = Some chain ->
  tab_ok cfg (<[bucket_ix T (peer_addr c) := ptr :: chain]> T) (n + 1) (<[ptr := c]> h).
Proof.
  intros [H1 H2 H3 H4 H5 H6 H7 H8 H9] Hn Hp Hu Hc Hi. set (i := bucket_ix T (peer_addr c)) in *. assert (Hlt : (i < length T)%nat) by (by eapply lookup_lt_Some). pose proof (concat_insert_perm (<[i := ptr :: chain]> T) i (ptr :: chain) chain ptr) as Hperm. rewrite list_lookup_insert_eq in Hperm by done. specialize (Hperm eq_refl ltac:(done)). rewrite list_insert_insert_eq, (list_insert_id T i chain Hi) in Hperm.
  assert (Hnin : ptr ∉ concat T) by (rewrite H4, Hp; by intros [? ?]). constructor; [done|by rewrite length_insert|rewrite Hperm; by apply NoDup_cons| | | | |lia|].
  - intros q. rewrite Hperm, elem_of_cons, H4. destruct (decide (q = ptr)) as [->|]; [rewrite lookup_insert_eq; split; [by eexists|by left]|rewrite lookup_insert_ne by done; split; [by intros [->|]|by right]].
  - intros j ch q d Hj Hq E. rewrite bucket_insert. apply list_lookup_insert_Some in Hj as [(<- & <- & _)|[Hnj Hj]].
    + apply lookup_insert_Some in E as [[-> <-]|[Hne E]]; [done|]. apply elem_of_cons in Hq as [->|Hq]; [done|]. by eapply H5.
    + apply lookup_insert_Some in E as [[-> <-]|[Hne E]]; [|by eapply H5]. destruct Hnin. by eapply in_chain.
  - intros p q x y [[-> <-]|[Hne Ex]]%lookup_insert_Some [[-> <-]|[Hne' Ey]]%lookup_insert_Some E; [done| | |by eapply H6]; exfalso; eapply Hu; eauto.
  - rewrite H7, Hperm. cbn [length]. lia.
  - intros q d [[-> <-]|[Hne E]]%lookup_insert_Some; [done|by eapply H9].
Qed.

(** ** The queues *)

Lemma queued_one cfg T n h ptr c : tab_ok cfg T n h -> h !! ptr = Some c -> queued h (peer_addr c) = pending c.
Proof.
  intros Ht Hp. unfold queued. assert (filter (fun x : Z * sni_connection_state_t => peer_addr x.2 = peer_addr c) h = {[ptr := c]}) as ->; [|rewrite map_to_list_singleton; cbn; by rewrite app_nil_r].
  apply map_eq. intros q. destruct (decide (q = ptr)) as [->|Hne]; [rewrite lookup_singleton_eq; by apply map_lookup_filter_Some|]. rewrite lookup_singleton_ne by done. apply map_lookup_filter_None. right. intros d Ed Hd. cbn in Hd. apply Hne. eapply (to_unique _ _ _ _ Ht); [done|done|done].
Qed.

Lemma queued_none h peer : (forall q d, h !! q = Some d -> peer_addr d <> peer) -> queued h peer = [].
Proof.
  intros Hn. unfold queued. assert (filter (fun x : Z * sni_connection_state_t => peer_addr x.2 = peer) h = ∅) as ->; [|by rewrite map_to_list_empty]. apply map_empty. intros q. apply map_lookup_filter_None. right. intros d Ed. by apply (Hn q).
Qed.

(** A peer that a change does not concern. *)
Lemma queued_other h ptr c c' peer : h !! ptr = Some c -> peer_addr c' = peer_addr c -> peer <> peer_addr c -> queued (<[ptr := c']> h) peer = queued h peer.
Proof.
  intros Hp Ha Hne. unfold queued. do 3 f_equal. rewrite map_filter_insert_False by (cbn; congruence). rewrite map_filter_delete. apply delete_id. apply map_lookup_filter_None. right. cbn. intros d Ed. congruence.
Qed.

(** An idle connection comes and goes without a trace. *)
Lemma queued_idle h ptr c peer : h !! ptr = Some c -> pending c = [] -> (forall q d, h !! q = Some d -> peer_addr d = peer_addr c -> q = ptr) -> queued (delete ptr h) peer = queued h peer.
Proof.
  intros Hp He Hu. destruct (decide (peer = peer_addr c)) as [->|Hne].
  - rewrite (queued_none (delete ptr h)) by (intros q d [Hq Ed]%lookup_delete_Some E; apply Hq; symmetry; by eapply Hu). unfold queued. assert (filter (fun x : Z * sni_connection_state_t => peer_addr x.2 = peer_addr c) h = {[ptr := c]}) as ->; [|rewrite map_to_list_singleton; cbn; by rewrite He].
    apply map_eq. intros q. destruct (decide (q = ptr)) as [->|Hq]; [rewrite lookup_singleton_eq; by apply map_lookup_filter_Some|]. rewrite lookup_singleton_ne by done. apply map_lookup_filter_None. right. intros d Ed Hd. apply Hq. by eapply Hu.
  - unfold queued. do 3 f_equal. rewrite map_filter_delete. apply delete_id. apply map_lookup_filter_None. right. cbn. intros d Ed. congruence.
Qed.

End inv.
