(* ===== verification/SniRun.v ===== *)
(** * Steps of one connection of the SNI router

    The operations that concern one connection change nothing else, hand on
    exactly the packets that they are given or that wait, and keep account of
    its socket. *)

From S2P Require Import Prelude StateOpt OffloadCsum SniParse SniCrypto SniStream SniHello SniFrames SniOpen SniRouter SniInv SniMatch.

(** From [s] to [s'] the connection at [ptr] became [c'], and [pkts] were
    handed on for its peer. *)
Record conn_step (ptr : Z) (c c' : sni_connection_state_t) (pkts : list (bool * list Z)) (s s' : sni_router_t) : Prop := {
  cs_before : heap s !! ptr = Some c;
  cs_after : heap s' = <[ptr := c']> (heap s);
  cs_config : config s' = config s;
  cs_table : conn_table s' = conn_table s;
  cs_count : conn_count s' = conn_count s;
  cs_peer : peer_addr c' = peer_addr c;
  cs_handed : forall peer, handed peer (log s') = handed peer (log s) ++ if decide (peer = peer_addr c) then pkts else [];
  cs_fds : forall fd, balance fd (log s') = balance fd (log s) - holds_fd fd c + holds_fd fd c'
}.

Lemma cs_refl ptr c s : heap s !! ptr = Some c -> conn_step ptr c c [] s s.
Proof. intros Hp. constructor; [done|by rewrite insert_id|done..| |lia]. intros peer. case_decide; by rewrite app_nil_r. Qed.

Lemma cs_trans ptr c c1 c2 p q s s1 s2 : conn_step ptr c c1 p s s1 -> conn_step ptr c1 c2 q s1 s2 -> conn_step ptr c c2 (p ++ q) s s2.
Proof.
  intros [A1 A2 A3 A4 A5 A6 A7 A8] [B1 B2 B3 B4 B5 B6 B7 B8]. constructor; [done|by rewrite B2, A2, insert_insert_eq|congruence..| |].
  - intros peer. rewrite B7, A7, A6. case_decide; [by rewrite app_assoc|by rewrite !app_nil_r].
  - intros fd. rewrite B8, A8. lia.
Qed.

Lemma cs_lookup ptr c c' p s s' : conn_step ptr c c' p s s' -> heap s' !! ptr = Some c'.
Proof. intros H. rewrite (cs_after _ _ _ _ _ _ H). apply lookup_insert_eq. Qed.

(** ** Rules *)

Section rules.
Context (ptr : Z) (c : sni_connection_state_t) (s0 : sni_router_t).

Abbreviation step c' p s := (conn_step ptr c c' p s0 s).

Lemma dwp_cs_get c1 p s (Q : sni_connection_state_t -> sni_router_t -> Prop) : step c1 p s -> Q c1 s -> dwp (get_conn ptr) s Q.
Proof. intros H HQ. unfold get_conn. apply dwp_bind, dwp_get. eapply dwp_lift; [by eapply cs_lookup|done]. Qed.

Lemma dwp_cs_ask {A} (f : nat -> A) c1 p s (Q : A -> sni_router_t -> Prop) : step c1 p s -> (forall a s', step c1 p s' -> Q a s') -> dwp (ask f) s Q.
Proof.
  intros H HQ. unfold ask. apply dwp_bind, dwp_get. apply dwp_bind, dwp_modify. apply dwp_ret, HQ. by destruct H.
Qed.

Lemma dwp_cs_modify f c1 p s (Q : unit -> sni_router_t -> Prop) : step c1 p s -> peer_addr (f c1) = peer_addr c1 -> fallback_fd (f c1) = fallback_fd c1 -> (forall s', step (f c1) p s' -> Q tt s') -> dwp (modify_conn ptr f) s Q.
Proof.
  intros H Ha Hf HQ. unfold modify_conn. apply dwp_bind. eapply dwp_cs_get; [done|]. apply dwp_modify, HQ. destruct H as [A1 A2 A3 A4 A5 A6 A7 A8]. constructor; [done| |done..|congruence|done|].
  - cbn [heap update]. by rewrite A2, insert_insert_eq.
  - intros fd. cbn [log update]. rewrite A8. unfold holds_fd. by rewrite Hf.
Qed.

(** An event that hands nothing on and concerns no socket. *)
Lemma dwp_cs_quiet e c1 p s (Q : unit -> sni_router_t -> Prop) : step c1 p s -> (forall peer, handed_on peer e = None) -> (forall fd, fd_change fd e = 0) -> (forall s', step c1 p s' -> Q tt s') -> dwp (emit e) s Q.
Proof.
  intros H Hh Hf HQ. apply dwp_modify, HQ. destruct H as [A1 A2 A3 A4 A5 A6 A7 A8]. constructor; [done..| |].
  - intros peer. cbn [log update]. rewrite handed_app, A7, handed_one, Hh. by rewrite app_nil_r.
  - intros fd. cbn [log update]. rewrite balance_app, A8. cbn [balance]. rewrite Hf. lia.
Qed.

(** An event that hands a packet of the connection's peer on. *)
Lemma dwp_cs_handed e pkt c1 p s (Q : unit -> sni_router_t -> Prop) : step c1 p s -> (forall peer, handed_on peer e = if decide (peer_addr c = peer) then Some pkt else None) -> (forall fd, fd_change fd e = 0) -> (forall s', step c1 (p ++ [pkt]) s' -> Q tt s') -> dwp (emit e) s Q.
Proof.
  intros H Hh Hf HQ. apply dwp_modify, HQ. destruct H as [A1 A2 A3 A4 A5 A6 A7 A8]. constructor; [done..| |].
  - intros peer. cbn [log update]. rewrite handed_app, A7, handed_one, Hh. destruct (decide (peer_addr c = peer)) as [<-|Hne]; [rewrite !decide_True by done; by rewrite <- app_assoc|]. rewrite !decide_False by congruence. by rewrite app_nil_r.
  - intros fd. cbn [log update]. rewrite balance_app, A8. cbn [balance]. rewrite Hf. lia.
Qed.

Context (E : sni_env).

(** The connection with another socket. *)
Definition with_fd (c1 : sni_connection_state_t) (fd : option Z) (sent : bool) : sni_connection_state_t := c1 <| fallback_fd := fd |> <| fallback_proxy_sent := sent |>.

Lemma with_fd_id c1 : with_fd c1 (fallback_fd c1) (fallback_proxy_sent c1) = c1.
Proof. by destruct c1. Qed.

Lemma with_fd_twice c1 fd sent fd' sent' : with_fd (with_fd c1 fd sent) fd' sent' = with_fd c1 fd' sent'.
Proof. by destruct c1. Qed.

Lemma dwp_fallback_open c1 p s : step c1 p s -> fallback_fd c1 = None -> dwp (fallback_open E ptr) s (fun ok s' => exists fd, step (with_fd c1 fd (fallback_proxy_sent c1)) p s' /\ (ok = true -> fd <> None)).
Proof.
  intros H Hn. unfold fallback_open, socket_close. apply dwp_bind. eapply dwp_cs_ask; [exact H|]. intros r s1 H1. destruct r as [|fd|fd].
  - apply dwp_ret. exists None. split; [|done]. rewrite <- Hn. by rewrite with_fd_id.
  - apply dwp_bind, dwp_modify. apply dwp_bind, dwp_modify. apply dwp_ret. exists None. split; [|done]. rewrite <- Hn, with_fd_id. destruct H1 as [A1 A2 A3 A4 A5 A6 A7 A8]. constructor; [done..| |]; cbn [log update].
    + intros peer. rewrite !handed_app, A7. cbn. by rewrite !app_nil_r.
    + intros f. rewrite !balance_app, A8. cbn [balance fd_change]. destruct (fd =? f); lia.
  - apply dwp_bind, dwp_modify. apply dwp_bind. unfold modify_conn, get_conn. apply dwp_bind, dwp_bind, dwp_get. eapply dwp_lift; [cbn [heap update]; by eapply cs_lookup|]. apply dwp_modify. apply dwp_bind, dwp_modify. apply dwp_ret. exists (Some fd). split; [|done].
    destruct H1 as [A1 A2 A3 A4 A5 A6 A7 A8]. constructor; [done|cbn [heap update]; rewrite A2, insert_insert_eq; by destruct c1|done..| |]; cbn [log update].
    + intros peer. rewrite !handed_app, A7. cbn. by rewrite !app_nil_r.
    + intros f. rewrite !balance_app, A8. cbn [balance fd_change]. unfold holds_fd, with_fd. cbn [fallback_fd update]. rewrite Hn. destruct (Z.eqb_spec fd f) as [->|Hne]; [rewrite (decide_True (P := Some f = Some f)) by done|rewrite (decide_False (P := Some fd = Some f)) by congruence]; rewrite (decide_False (P := None = Some f)) by done; lia.
Qed.

(** A packet for the fallback is handed on once, whether it can be sent or
    not; only the socket may change. *)
Lemma dwp_fallback_send c1 p s pkt : step c1 p s -> dwp (fallback_send E ptr pkt) s (fun _ s' => exists fd sent, step (with_fd c1 fd sent) (p ++ [(false, pkt)]) s').
Proof.
  intros H. unfold fallback_send. apply dwp_bind. eapply dwp_cs_get; [done|]. apply dwp_bind. pose proof (cs_peer _ _ _ _ _ _ H) as Ha. eapply (dwp_cs_handed _ (false, pkt)); [exact H| |done|].
  { intros peer. cbn [handed_on]. by rewrite Ha. }
  intros s1 H1. apply dwp_bind. eapply (dwp_mono _ _ (fun ok s' => exists fd, step (with_fd c1 fd (fallback_proxy_sent c1)) (p ++ [(false, pkt)]) s' /\ (ok = true -> fd <> None))).
  { destruct (decide (fallback_fd c1 = None)) as [Hn|Hn]; [by apply dwp_fallback_open|]. apply dwp_ret. exists (fallback_fd c1). split; [by rewrite with_fd_id|done]. }
  intros ok s2 (fd & H2 & Hok). destruct ok; cbn [negb]; [|apply dwp_ret; by eauto]. apply dwp_bind, dwp_get. apply dwp_bind. eapply dwp_cs_get; [exact H2|]. destruct fd as [fd|]; [|by destruct (Hok eq_refl)]. apply dwp_bind. eapply dwp_lift; [done|].
  destruct (_ && _).
  - destruct (pp2_header _ _) as [header|]; [|apply dwp_ret; by eauto]. apply dwp_bind. eapply dwp_cs_ask; [exact H2|]. intros ok s3 H3. apply dwp_bind. eapply dwp_cs_quiet; [exact H3|done|done|]. intros s4 H4. destruct ok; cbn [negb]; [|apply dwp_ret; by eauto].
    apply dwp_bind. eapply dwp_cs_modify; [exact H4|done|done|]. intros s5 H5. apply dwp_ret. exists (Some fd), true. exact H5.
  - apply dwp_bind. eapply dwp_cs_ask; [exact H2|]. intros ok s3 H3. apply dwp_bind. eapply dwp_cs_quiet; [exact H3|done|done|]. intros s4 H4. apply dwp_ret. by eauto.
Qed.

Lemma dwp_accept_packet c1 p s pkt peer : step c1 p s -> peer = peer_addr c -> dwp (accept_packet E peer pkt) s (fun _ s' => step c1 (p ++ [(true, pkt)]) s').
Proof.
  intros H ->. unfold accept_packet. apply dwp_bind. eapply dwp_cs_ask; [exact H|]. intros rc s1 H1. apply dwp_bind. eapply (dwp_cs_handed _ (true, pkt)); [exact H1|done|done|]. intros s2 H2. by apply dwp_ret.
Qed.

(** What is common to the states of a connection while packets are sent. *)
Definition sends_from (c1 c2 : sni_connection_state_t) : Prop := exists fd sent, c2 = with_fd c1 fd sent /\ (decision c1 = SNI_ROUTE_ACCEPT -> fd = fallback_fd c1).

(** Packets with the way that the connection's decision sends them. *)
Definition routed (c1 : sni_connection_state_t) (pkts : list (list Z)) : list (bool * list Z) := pair (bool_decide (decision c1 = SNI_ROUTE_ACCEPT)) <$> pkts.

Lemma routed_accept c1 pkts : decision c1 = SNI_ROUTE_ACCEPT -> routed c1 pkts = pair true <$> pkts.
Proof. intros Hd. unfold routed. by rewrite bool_decide_true. Qed.

Lemma dwp_deliver_all c1 p pkts r s : step c1 p s -> dwp (deliver_all E ptr pkts r) s (fun _ s' => exists c2, step c2 (p ++ routed c1 pkts) s' /\ sends_from c1 c2).
Proof.
  assert (Hid : forall c1, sends_from c1 c1) by (intros c0; exists (fallback_fd c0), (fallback_proxy_sent c0); split; [by rewrite with_fd_id|done]). revert c1 p r s. induction pkts as [|pkt pkts IH]; intros c1 p r s H; cbn [deliver_all]; [apply dwp_ret; exists c1; rewrite app_nil_r; done|].
  apply dwp_bind. eapply dwp_cs_get; [done|]. apply dwp_bind. eapply (dwp_mono _ _ (fun _ s' => exists c2, step c2 (p ++ routed c1 [pkt]) s' /\ sends_from c1 c2)).
  { case_decide as Hd; [eapply dwp_mono; [apply dwp_accept_packet; [exact H|by rewrite (cs_peer _ _ _ _ _ _ H)]|]; intros ok s1 H1; exists c1; unfold routed; rewrite bool_decide_true by done; done|]. eapply dwp_mono; [by apply dwp_fallback_send|]. intros ok s1 (fd & sent & H1). exists (with_fd c1 fd sent). unfold routed. rewrite bool_decide_false by done. split; [done|]. by exists fd, sent. }
  intros ok s1 (c2 & H1 & fd & sent & -> & Hf). eapply dwp_mono; [by eapply IH|]. intros r' s2 (c3 & H2 & fd' & sent' & -> & Hf'). rewrite <- app_assoc in H2. eexists. split; [exact H2|]. rewrite with_fd_twice. exists fd', sent'. split; [done|]. intros Hd. rewrite <- (Hf Hd). by apply Hf'.
Qed.

(** The packets that wait are handed on, all and in order. *)
Lemma dwp_deliver_pending c1 p s : step c1 p s -> dwp (deliver_pending E ptr) s (fun _ s' => exists c2, step c2 (p ++ routed c1 (pending c1)) s' /\ pending c2 = [] /\ decision c2 = decision c1 /\ (decision c1 = SNI_ROUTE_ACCEPT -> fallback_fd c2 = fallback_fd c1)).
Proof.
  intros H. unfold deliver_pending. apply dwp_bind. eapply dwp_cs_get; [done|]. apply dwp_bind. eapply dwp_mono; [by apply dwp_deliver_all|]. intros r s1 (c2 & H1 & fd & sent & -> & Hf). apply dwp_bind. eapply dwp_cs_modify; [exact H1|done|done|]. intros s2 H2. apply dwp_ret. eexists. split; [exact H2|]. done.
Qed.

(** Queueing a packet. *)
Lemma dwp_pending_append c1 p s pkt : step c1 p s -> dwp (pending_append E ptr pkt) s (fun ok s' => step (if ok then c1 <| pending ::= fun l => l ++ [pkt] |> else c1) p s' /\ (ok = true -> Z.of_nat (length (pending c1)) < max_pending_packets (config s0))).
Proof.
  intros H. unfold pending_append. apply dwp_bind, dwp_get. apply dwp_bind. eapply dwp_cs_get; [done|]. rewrite (cs_config _ _ _ _ _ _ H). destruct (Z.leb_spec (max_pending_packets (config s0)) (Z.of_nat (length (pending c1)))); [by apply dwp_ret|].
  apply dwp_bind. eapply dwp_cs_ask; [done|]. intros ok s1 H1. destruct ok; cbn [negb]; [|by apply dwp_ret]. apply dwp_bind. eapply dwp_cs_modify; [exact H1|done|done|]. intros s2 H2. apply dwp_ret. by split.
Qed.

End rules.

(** ** Decisions *)

Section decisions.
Context (ptr : Z) (c : sni_connection_state_t) (s0 : sni_router_t) (E : sni_env) (cfg : sni_router_config_t).
Context (HKDF_extract : list Z -> list Z -> option (list Z)) (HKDF_expand : Z -> list Z -> list Z -> option (list Z)).
Context (AES_encrypt : list Z -> list Z -> option (list Z)) (AEAD_seal AEAD_open : list Z -> list Z -> list Z -> list Z -> option (list Z)).

Abbreviation step c' p s := (conn_step ptr c c' p s0 s).

Lemma dwp_accept_undecided c1 p s : step c1 p s -> cfg_ok cfg -> conn_ok cfg c1 -> dwp (accept_undecided E ptr) s (fun _ s' => exists c2, step c2 (p ++ (pair true <$> pending c1)) s' /\ conn_ok cfg c2 /\ pending c2 = []).
Proof.
  intros H Hcfg Hc. unfold accept_undecided. apply dwp_bind. eapply dwp_cs_get; [done|]. destruct Hc as [Hf Hp Hd]. case_decide as He.
  - rewrite He in Hd. destruct Hd as [Hn _]. apply dwp_bind. eapply dwp_cs_modify; [exact H|done|done|]. intros s1 H1. apply dwp_bind. eapply dwp_mono; [by apply dwp_deliver_pending|]. intros r s2 (c2 & H2 & Hq & Hd2 & Hf2). rewrite routed_accept in H2 by done. apply dwp_skip. exists c2. split; [exact H2|]. split; [|done].
    constructor; [pose proof (cs_peer _ _ _ _ _ _ H2) as E2; pose proof (cs_peer _ _ _ _ _ _ H) as E1; unfold valid_family in *; congruence|rewrite Hq; cbn [length]; destruct Hcfg; lia|]. rewrite Hd2. cbn [decision update]. split; [done|]. rewrite Hf2 by done. exact Hn.
  - assert (Hq : pending c1 = []) by (destruct (decision c1); [by destruct Hd|done|done|done]). apply dwp_skip. exists c1. rewrite Hq, app_nil_r. done.
Qed.

Lemma dwp_accept_pending c1 p s pkt peer queued : step c1 p s -> cfg_ok cfg -> valid_family (peer_addr c1) -> fallback_fd c1 = None -> peer = peer_addr c ->
  dwp (accept_pending_and_current E ptr pkt peer queued) s (fun _ s' => exists c2, step c2 (p ++ (pair true <$> pending c1 ++ if queued then [] else [pkt])) s' /\ conn_ok cfg c2 /\ pending c2 = []).
Proof.
  intros H Hcfg Hf Hn Ha. unfold accept_pending_and_current. apply dwp_bind. eapply dwp_cs_modify; [exact H|done|done|]. intros s1 H1. apply dwp_bind. eapply dwp_mono; [by apply dwp_deliver_pending|]. intros r s2 (c2 & H2 & Hq & Hd2 & Hf2). rewrite routed_accept in H2 by done. cbn [pending update] in H2.
  assert (Hc2 : conn_ok cfg c2). { constructor; [pose proof (cs_peer _ _ _ _ _ _ H2) as E2; pose proof (cs_peer _ _ _ _ _ _ H) as E1; unfold valid_family in *; congruence|rewrite Hq; cbn [length]; destruct Hcfg; lia|]. rewrite Hd2. cbn [decision update]. split; [done|]. rewrite Hf2 by done. exact Hn. }
  apply dwp_bind. destruct queued; [apply dwp_ret, dwp_ret; exists c2; by rewrite app_nil_r|]. apply dwp_bind. eapply dwp_mono; [by apply dwp_accept_packet|]. intros ok s3 H3. apply dwp_ret, dwp_ret. exists c2. rewrite <- app_assoc in H3. by rewrite fmap_app.
Qed.

Hypothesis Hcrypto : crypto_ok AES_encrypt AEAD_seal AEAD_open.

(** A queued Initial packet: its connection gets a decision, and what waits is
    handed on, or it goes on waiting. *)
Lemma dwp_process_initial c1 p s pkt peer : step c1 p s -> cfg_ok cfg -> config s0 = cfg -> conn_ok cfg c1 -> decision c1 = SNI_ROUTE_PENDING -> bytes_ok pkt -> peer = peer_addr c ->
  dwp (process_initial HKDF_extract HKDF_expand AES_encrypt AEAD_open E ptr pkt peer) s (fun _ s' => exists c2 q, step c2 (p ++ q) s' /\ conn_ok cfg c2 /\ (snd <$> q) ++ pending c2 = pending c1).
Proof.
  intros H Hcfg Ecfg [Hf Hp Hd] Hdec Hb Ha. rewrite Hdec in Hd. destruct Hd as [Hn (m & Hm)].
  assert (Hacc : forall c2 s, step c2 p s -> peer_addr c2 = peer_addr c1 -> fallback_fd c2 = None -> pending c2 = pending c1 -> dwp (accept_pending_and_current E ptr pkt peer true) s (fun _ s' => exists c2 q, step c2 (p ++ q) s' /\ conn_ok cfg c2 /\ (snd <$> q) ++ pending c2 = pending c1)).
  { intros c2 s' H' E1 E2 E3. eapply dwp_mono; [apply (dwp_accept_pending c2 p); [done|done|by rewrite E1|done|done]|]. intros r s2 (c3 & H3 & Hc3 & Hq). rewrite app_nil_r, E3 in H3. exists c3, (pair true <$> pending c1). rewrite Hq, app_nil_r, <- list_fmap_compose. split; [done|]. split; [done|]. by rewrite list_fmap_id. }
  unfold process_initial. apply dwp_bind, dwp_get. apply dwp_bind. eapply dwp_cs_get; [done|]. apply dwp_bind. eapply dwp_cs_ask; [exact H|]. intros have s1 H1. destruct have; cbn [negb]; [|by eapply Hacc]. apply dwp_bind. eapply dwp_cs_ask; [exact H1|]. intros ml s2 H2.
  apply dwp_bind. destruct (decrypt_safe HKDF_extract HKDF_expand AES_encrypt AEAD_seal AEAD_open Hcrypto ml pkt (blen pkt) (largest_initial_pn c1) (have_largest_initial_pn c1) Hb) as (d & Ed & Hpt). eapply dwp_lift; [exact Ed|]. destruct d as [| |[plaintext pn]]; [by eapply Hacc..|]. specialize (Hpt _ _ eq_refl).
  apply dwp_bind. eapply dwp_cs_ask; [exact H2|]. intros fm s3 H3. apply dwp_bind. rewrite (cs_config _ _ _ _ _ _ H), Ecfg. destruct (collect_safe (S (length plaintext)) (max_client_hello_bytes cfg) fm (crypto c1) m plaintext 0 Hpt Hm) as (b & ok & m' & Eb & Hb'); [pose proof (blen_nonneg plaintext); lia|unfold blen; lia|].
  eapply dwp_lift; [exact Eb|]. apply dwp_bind. eapply dwp_cs_modify; [exact H3|done|done|]. intros s4 H4. destruct ok; cbn [negb]; [|by eapply Hacc]. apply dwp_bind. set (c4 := c1 <| crypto := b |>) in *. set (f := fun c : sni_connection_state_t => if negb (have_largest_initial_pn c) || (largest_initial_pn c <? pn) then _ else c).
  assert (Hf4 : peer_addr (f c4) = peer_addr c1 /\ fallback_fd (f c4) = None /\ pending (f c4) = pending c1 /\ decision (f c4) = SNI_ROUTE_PENDING /\ crypto (f c4) = b) by (unfold f; destruct (_ || _); done). destruct Hf4 as (F1 & F2 & F3 & F4 & F5).
  eapply dwp_cs_modify; [exact H4|done|by rewrite F2|]. intros s5 H5. apply dwp_bind. destruct (client_hello_status_safe _ _ _ Hb') as (hello & Eh). eapply dwp_lift; [exact Eh|]. fold f in H5. set (c5 := f c4) in *.
  assert (Hdecide : forall r, r <> SNI_ROUTE_PENDING -> r <> SNI_ROUTE_ERROR -> dwp (modify_conn ptr (fun c => c <| decision := r |>) ;; ok ← deliver_pending E ptr; mret (route_of ok r)) s5 (fun _ s' => exists c2 q, step c2 (p ++ q) s' /\ conn_ok cfg c2 /\ (snd <$> q) ++ pending c2 = pending c1)).
  { intros r Hr Hr'. apply dwp_bind. eapply dwp_cs_modify; [exact H5|done|done|]. intros s6 H6. apply dwp_bind. eapply dwp_mono; [by apply dwp_deliver_pending|]. intros o s7 (c7 & H7 & Hq & Hd7 & Hf7). apply dwp_ret. cbn [pending update] in H7. rewrite F3 in H7. exists c7. eexists. split; [exact H7|]. split; [|unfold routed; rewrite Hq, app_nil_r, <- list_fmap_compose; by rewrite list_fmap_id].
    constructor; [pose proof (cs_peer _ _ _ _ _ _ H7) as E7; pose proof (cs_peer _ _ _ _ _ _ H) as E1; unfold valid_family in *; congruence|rewrite Hq; cbn [length]; destruct Hcfg; lia|]. rewrite Hd7. cbn [decision update] in *. destruct r; try done. split; [done|]. rewrite Hf7 by done. exact F2. }
  destruct hello as [| |sni]; [|by apply Hdecide|by apply Hdecide; destruct (sni_router_match _ _)]. apply dwp_ret. exists c5, []. rewrite app_nil_r. split; [done|]. split; [|done]. constructor; [unfold valid_family in *; by rewrite F1|by rewrite F3|]. rewrite F4, F5. split; [done|by exists m'].
Qed.

End decisions.

(** * The table of the SNI router

    Connections are found, made, evicted and removed without a fault; no
    packet is lost on the way and no socket is left open. *)

(** What was handed on for a peer, and what waits. *)
Definition total (s : sni_router_t) (peer : sockaddr) : list (list Z) := (snd <$> handed peer (log s)) ++ queued (heap s) peer.

Lemma pair_snd (b : bool) (l : list (list Z)) : snd <$> (pair b <$> l) = l.
Proof. rewrite <- list_fmap_compose. by rewrite list_fmap_id. Qed.

Definition fds_ok (s : sni_router_t) : Prop := forall fd, balance fd (log s) = holders fd (heap s).

Lemma dwp_seq {S A} (m1 m2 : stM S unit) (m3 : stM S A) s Q : dwp (m1 ;; m2) s (fun _ s' => dwp m3 s' Q) -> dwp (m1 ;; m2 ;; m3) s Q.
Proof. intros (u & s1 & Em & a & s2 & Ea & HQ). exists a, s2. split; [|done]. unfold mbind, stM_bind in *. destruct (m1 s) as [[u1 s3]|]; [|done]. by rewrite Em. Qed.

Section table.
Context (le : bool) (E : sni_env).

Record router_ok (s : sni_router_t) : Prop := {
  ro_tab : tab_ok le (config s) (conn_table s) (conn_count s) (heap s);
  ro_fds : fds_ok s
}.

(** A step of one connection that leaves it well formed. *)
Lemma conn_step_ok ptr c c' q s s' : router_ok s -> conn_step ptr c c' q s s' -> conn_ok (config s) c' -> router_ok s'.
Proof.
  intros [Ht Hf] [A1 A2 A3 A4 A5 A6 A7 A8] Hc. constructor.
  - rewrite A2, A3, A4, A5. by eapply tab_update.
  - intros fd. rewrite A8, A2, (holders_insert _ _ _ c) by done. by rewrite Hf.
Qed.

Lemma conn_step_total ptr c c' q new s s' : router_ok s -> conn_step ptr c c' q s s' -> conn_ok (config s) c' -> (snd <$> q) ++ pending c' = pending c ++ new ->
  forall peer, total s' peer = total s peer ++ if decide (peer = peer_addr c) then new else [].
Proof.
  intros Hr Hs Hc Hq peer. pose proof (conn_step_ok _ _ _ _ _ _ Hr Hs Hc) as [Ht' _]. destruct Hr as [Ht _]. pose proof (cs_lookup _ _ _ _ _ _ Hs) as Hl. destruct Hs as [A1 A2 A3 A4 A5 A6 A7 A8]. unfold total. rewrite A7, fmap_app. destruct (decide (peer = peer_addr c)) as [->|Hne].
  - rewrite (queued_one _ _ _ _ _ _ _ Ht A1). rewrite <- A6 at 2. rewrite (queued_one _ _ _ _ _ _ _ Ht' Hl). by rewrite <- !app_assoc, Hq.
  - rewrite A2, (queued_other _ _ c) by done. by rewrite !app_nil_r.
Qed.

(** ** Finding *)

Lemma chain_lookup_spec s chain peer : (forall ptr, ptr ∈ chain -> exists c, heap s !! ptr = Some c /\ valid_family (peer_addr c)) ->
  dwp (chain_lookup chain peer) s (fun r s' => s' = s /\ match r with Some ptr => exists c, heap s !! ptr = Some c /\ peer_addr c = peer | None => forall ptr c, ptr ∈ chain -> heap s !! ptr = Some c -> peer_addr c <> peer end).
Proof.
  induction chain as [|p chain IH]; intros H; cbn [chain_lookup]; [apply dwp_ret; split; [done|]; intros ptr c Hin; by apply not_elem_of_nil in Hin|]. destruct (H p) as (c & Ec & Hf); [by apply list_elem_of_here|]. unfold get_conn. apply dwp_bind, dwp_bind, dwp_get. eapply dwp_lift; [done|].
  pose proof (addr_equal_spec (peer_addr c) peer Hf) as Ha. destruct (addr_equal (peer_addr c) peer); [apply dwp_ret; split; [done|]; exists c; split; [done|by apply Ha]|]. eapply dwp_mono; [apply IH; intros ptr Hin; apply H; by apply list_elem_of_further|]. intros r s' [-> Hr]. split; [done|]. destruct r; [done|].
  intros ptr d [->|Hin]%elem_of_cons Ed; [|by eapply Hr]. intros Hp. rewrite Ec in Ed. injection Ed as <-. by apply Ha in Hp.
Qed.

Lemma dwp_connection_lookup s peer : router_ok s -> dwp (connection_lookup le peer) s (fun r s' => s' = s /\ match r with Some ptr => exists c, heap s !! ptr = Some c /\ peer_addr c = peer | None => forall ptr c, heap s !! ptr = Some c -> peer_addr c <> peer end).
Proof.
  intros [Ht _]. unfold connection_lookup. apply dwp_bind, dwp_get. change (bucket_of le s peer) with (bucket_ix le (conn_table s) peer). destruct (lookup_lt_is_Some_2 (conn_table s) (bucket_ix le (conn_table s) peer)) as (chain & Ec); [by eapply bucket_lt|]. apply dwp_bind. eapply dwp_lift; [exact Ec|].
  eapply dwp_mono; [apply chain_lookup_spec|].
  { intros ptr Hin. pose proof (proj1 (to_dom _ _ _ _ _ Ht ptr) (in_chain _ _ _ _ Ec Hin)) as (c & Hc). exists c. split; [done|]. by apply (to_conns _ _ _ _ _ Ht) in Hc as [? _ _]. }
  intros r s' [-> Hr]. split; [done|]. destruct r; [done|]. intros ptr c Hc Hp. assert (Hin : ptr ∈ concat (conn_table s)) by (apply (to_dom _ _ _ _ _ Ht); by eexists). apply list_elem_of_In, in_concat in Hin as (ch & Hch%list_elem_of_In & Hin%list_elem_of_In). apply list_elem_of_lookup_1 in Hch as (i & Hi).
  pose proof (to_bucket _ _ _ _ _ Ht _ _ _ _ Hi Hin Hc) as Hb. rewrite Hp in Hb. rewrite <- Hb, Ec in Hi. injection Hi as <-. by eapply Hr.
Qed.

(** ** Freeing *)

Lemma dwp_connection_free ptr c s : heap s !! ptr = Some c -> dwp (connection_free ptr) s (fun _ s' => heap s' = delete ptr (heap s) /\ config s' = config s /\ conn_table s' = conn_table s /\ conn_count s' = conn_count s /\
  (forall peer, handed peer (log s') = handed peer (log s)) /\ (forall fd, balance fd (log s') = balance fd (log s) - holds_fd fd c)).
Proof.
  intros Hp. unfold connection_free. apply dwp_bind. unfold get_conn. apply dwp_bind, dwp_get. eapply dwp_lift; [done|]. apply dwp_bind. destruct (fallback_fd c) as [fd|] eqn:Ef.
  - apply dwp_bind, dwp_modify. apply dwp_modify. apply dwp_modify. split_and!; [done..| |]; cbn [log update].
    + intros peer. rewrite !handed_app. cbn. by rewrite !app_nil_r.
    + intros f. rewrite !balance_app. cbn [balance fd_change]. unfold holds_fd. rewrite Ef. destruct (Z.eqb_spec fd f) as [->|]; [rewrite decide_True by done|rewrite decide_False by congruence]; lia.
  - apply dwp_skip, dwp_modify. split_and!; [done..|]. intros fd. cbn [log update]. unfold holds_fd. rewrite decide_False by congruence. lia.
Qed.

(** An idle connection of a chain goes: the state with it taken out of the
    chain is well formed, whatever else the chain becomes. *)
Lemma free_ok s s1 s' T i k r ptr c : tab_ok le (config s) T (conn_count s) (heap s) -> fds_ok s -> T !! i = Some (k ++ ptr :: r) -> heap s !! ptr = Some c -> pending c = [] ->
  heap s1 = heap s -> log s1 = log s -> config s1 = config s -> conn_count s1 = conn_count s - 1 ->
  heap s' = delete ptr (heap s1) /\ config s' = config s1 /\ conn_count s' = conn_count s1 /\ (forall peer, handed peer (log s') = handed peer (log s1)) /\ (forall fd, balance fd (log s') = balance fd (log s1) - holds_fd fd c) ->
  tab_ok le (config s') (<[i := k ++ r]> T) (conn_count s') (heap s') /\ fds_ok s' /\ forall peer, total s' peer = total s peer.
Proof.
  intros Ht Hf Hi Hp Hq E1 E2 E3 E4 (F1 & F2 & F3 & F4 & F5). split; [rewrite F1, F2, F3, E1, E3, E4; by apply tab_remove|]. split.
  - intros fd. rewrite F5, F1, E1, E2, (holders_delete _ _ _ c) by done. by rewrite Hf.
  - intros peer. unfold total. rewrite F4, F1, E1, E2. f_equal. eapply queued_idle; [done|done|]. intros q d Hd Ha. by eapply (to_unique _ _ _ _ _ Ht).
Qed.

Lemma chain_remove_spec chain ptr : ptr ∈ chain -> exists k r, chain = k ++ ptr :: r /\ chain_remove chain ptr = Some (k ++ r).
Proof.
  induction chain as [|p chain IH]; intros Hin; [by apply not_elem_of_nil in Hin|]. cbn [chain_remove]. destruct (Z.eqb_spec p ptr) as [->|Hne]; [by exists [], chain|]. apply elem_of_cons in Hin as [->|Hin]; [done|]. destruct (IH Hin) as (k & r & -> & E'). rewrite E'. by exists (p :: k), r.
Qed.

(** The chain of a connection. *)
Lemma chain_of s ptr c : router_ok s -> heap s !! ptr = Some c -> exists chain, conn_table s !! bucket_ix le (conn_table s) (peer_addr c) = Some chain /\ ptr ∈ chain.
Proof.
  intros [Ht _] Hp. assert (Hin : ptr ∈ concat (conn_table s)) by (apply (to_dom _ _ _ _ _ Ht); by eexists). apply list_elem_of_In, in_concat in Hin as (ch & Hch%list_elem_of_In & Hin%list_elem_of_In). apply list_elem_of_lookup_1 in Hch as (i & Hi). rewrite (to_bucket _ _ _ _ _ Ht _ _ _ _ Hi Hin Hp). by exists ch.
Qed.

Lemma dwp_connection_remove s ptr c : router_ok s -> heap s !! ptr = Some c -> pending c = [] -> dwp (connection_remove le ptr) s (fun _ s' => router_ok s' /\ (forall peer, total s' peer = total s peer) /\ heap s' = delete ptr (heap s) /\ config s' = config s /\ conn_count s' = conn_count s - 1 /\ forall peer, handed peer (log s') = handed peer (log s)).
Proof.
  intros Hr Hp Hq. destruct (chain_of s ptr c Hr Hp) as (chain & Ec & Hin). destruct (chain_remove_spec chain ptr Hin) as (k & r & Ek & Er). subst chain. unfold connection_remove. apply dwp_bind, dwp_get. apply dwp_bind. unfold get_conn. apply dwp_bind, dwp_get. eapply dwp_lift; [done|]. cbn zeta. change (bucket_of le s (peer_addr c)) with (bucket_ix le (conn_table s) (peer_addr c)).
  apply dwp_bind. eapply dwp_lift; [exact Ec|]. rewrite Er. apply dwp_bind, dwp_modify. eapply dwp_mono; [eapply dwp_connection_free; exact Hp|]. intros u s' (F1 & F2 & F3 & F4 & F5 & F6). destruct Hr as [Ht Hf].
  pose proof (free_ok s (s <| conn_table ::= <[bucket_ix le (conn_table s) (peer_addr c) := k ++ r]> |> <| conn_count ::= fun n => n - 1 |>) s' (conn_table s) _ k r ptr c Ht Hf Ec Hp Hq ltac:(done) ltac:(done) ltac:(done) ltac:(done) ltac:(done)) as (G1 & G2 & G3). split; [constructor; [by rewrite F3|done]|]. done.
Qed.

(** An undecided connection is accepted and removed. *)
Lemma dwp_release s ptr c : router_ok s -> heap s !! ptr = Some c -> dwp (accept_undecided E ptr ;; connection_remove le ptr) s (fun _ s' => router_ok s' /\ (forall peer, total s' peer = total s peer) /\ heap s' = delete ptr (heap s) /\ config s' = config s /\ conn_count s' = conn_count s - 1 /\ forall peer, peer <> peer_addr c -> handed peer (log s') = handed peer (log s)).
Proof.
  intros Hr Hp. pose proof Hr as [Ht _]. apply dwp_bind. eapply dwp_mono; [apply (dwp_accept_undecided ptr c s E (config s) c []); [by apply cs_refl|by apply Ht|by eapply (to_conns _ _ _ _ _ Ht)]|]. intros u s1 (c1 & H1 & Hc1 & Hq1). cbn [app] in H1.
  pose proof (conn_step_ok _ _ _ _ _ _ Hr H1 Hc1) as Hr1. pose proof (conn_step_total _ _ _ _ [] _ _ Hr H1 Hc1 ltac:(by rewrite Hq1, pair_snd)) as Ht1. eapply dwp_mono; [apply (dwp_connection_remove s1 ptr c1); [done|by eapply cs_lookup|done]|]. intros u' s2 (H2 & T2 & G1 & G2 & G3 & G4). destruct H1 as [A1 A2 A3 A4 A5 A6 A7 A8]. split; [done|]. split_and!.
  - intros peer. rewrite T2, Ht1. case_decide; by rewrite app_nil_r.
  - rewrite G1, A2. apply delete_insert_eq.
  - congruence.
  - congruence.
  - intros peer Hne. rewrite G4, A7, decide_False by done. by rewrite app_nil_r.
Qed.

(** ** Making *)

Lemma router_ok_calls s : router_ok s -> router_ok (s <| calls ::= S |>).
Proof. intros [Ht Hf]. by constructor. Qed.

Lemma dwp_sni_ask {A} (f : nat -> A) s (Q : A -> sni_router_t -> Prop) : Q (f (calls s)) (s <| calls ::= S |>) -> dwp (ask f) s Q.
Proof. intros H. unfold ask. apply dwp_bind, dwp_get. apply dwp_bind, dwp_modify. by apply dwp_ret. Qed.

Lemma oldest_in_spec s ptrs o : (forall ptr, ptr ∈ ptrs -> is_Some (heap s !! ptr)) -> dwp (oldest_in ptrs o) s (fun r s' => s' = s /\ match r with Some (p, _) => p ∈ ptrs \/ exists t, o = Some (p, t) | None => ptrs = [] /\ o = None end).
Proof.
  revert o. induction ptrs as [|p ptrs IH]; intros o H; cbn [oldest_in]; [apply dwp_ret; split; [done|]; destruct o as [[q t]|]; [right; by exists t|done]|]. destruct (H p) as (c & Ec); [by apply list_elem_of_here|]. unfold get_conn. apply dwp_bind, dwp_bind, dwp_get. eapply dwp_lift; [done|].
  eapply dwp_mono; [apply IH; intros q Hq; apply H; by apply list_elem_of_further|]. intros r s' [-> Hr]. split; [done|]. destruct r as [[q t]|]; [|destruct Hr as [_ Hr]; exfalso; destruct o as [[? t0]|]; [by destruct (last_seen c <? t0)|done]]. destruct Hr as [Hr|(t' & Hr)]; [left; by apply list_elem_of_further|].
  destruct o as [[q' t'']|]; [destruct (last_seen c <? t'')|]; simplify_eq; [left; apply list_elem_of_here|right; by eexists|left; apply list_elem_of_here].
Qed.

Lemma dwp_evict_oldest s : router_ok s -> 0 < conn_count s -> dwp (evict_oldest le E) s (fun _ s' => router_ok s' /\ (forall peer, total s' peer = total s peer) /\ heap s' ⊆ heap s /\ config s' = config s /\ conn_count s' = conn_count s - 1 /\ forall peer, (forall ptr c, heap s !! ptr = Some c -> peer_addr c <> peer) -> handed peer (log s') = handed peer (log s)).
Proof.
  intros Hr Hn. pose proof Hr as [Ht _]. unfold evict_oldest. apply dwp_bind, dwp_get. apply dwp_bind. eapply dwp_mono; [apply oldest_in_spec; intros ptr Hin; by apply (to_dom _ _ _ _ _ Ht)|]. intros r s' [-> Hor]. destruct r as [[ptr t]|].
  - destruct Hor as [Hin|(t' & [=])]. apply (to_dom _ _ _ _ _ Ht) in Hin as (c & Hc). eapply dwp_mono; [by eapply dwp_release|]. intros u s' (H1 & H2 & H3 & H4 & H5 & H6). split_and!; [done|done|rewrite H3; apply delete_subseteq|done|done|]. intros peer Hno. apply H6. intros ->. by eapply Hno.
  - destruct Hor as [He _]. rewrite (to_count _ _ _ _ _ Ht), He in Hn. cbn [length] in Hn. lia.
Qed.

Hypothesis Hnew : forall n live ptr, env_new E n live = Some ptr -> ptr ∉ live.

Definition out_of_memory : Prop := exists n live, env_new E n live = None.

Lemma dwp_connection_create s peer h : router_ok s -> valid_family peer -> (forall ptr c, heap s !! ptr = Some c -> peer_addr c <> peer) ->
  dwp (connection_create le E peer h) s (fun r s' => router_ok s' /\ (forall p, total s' p = total s p) /\ config s' = config s /\
    handed peer (log s') = handed peer (log s) /\
    match r with Some ptr => exists now, heap s' !! ptr = Some (SniConn peer (ih_dcid h) (ih_scid h) [] (ih_version h) false 0 false now SNI_ROUTE_PENDING empty_crypto [] false None) | None => (forall ptr c, heap s' !! ptr = Some c -> peer_addr c <> peer) /\ out_of_memory end).
Proof.
  intros Hr Hf Hu. unfold connection_create. apply dwp_bind, dwp_get. apply dwp_bind. eapply (dwp_mono _ _ (fun _ s1 => router_ok s1 /\ (forall p, total s1 p = total s p) /\ heap s1 ⊆ heap s /\ config s1 = config s /\ conn_count s1 < max_tracked_conns (config s) /\ handed peer (log s1) = handed peer (log s))).
  { pose proof Hr as [Ht _]. pose proof (to_cfg _ _ _ _ _ Ht) as [Hc1 _ _]. pose proof (to_max _ _ _ _ _ Ht) as Hm. destruct (Z.leb_spec (max_tracked_conns (config s)) (conn_count s)); [|apply dwp_skip; by split_and!]. eapply dwp_mono; [apply dwp_evict_oldest; [done|lia]|]. intros u s1 (H1 & H2 & H3 & H4 & H5 & H6). split_and!; [done..|lia|]. by apply H6. }
  intros u s1 (Hr1 & Ht1 & Hsub & Ec1 & Hc1 & Hh1). assert (Hu1 : forall ptr c, heap s1 !! ptr = Some c -> peer_addr c <> peer) by (intros ptr c Hp; eapply Hu, lookup_weaken; [exact Hp|done]). apply dwp_bind, dwp_get. apply dwp_bind, dwp_sni_ask. destruct (env_new E (calls s1) (dom (heap s1))) as [ptr|] eqn:En; [|apply dwp_ret; split_and!; [by apply router_ok_calls|done|done|done|done|]; by eexists _, _].
  pose proof (Hnew _ _ _ En) as Hfresh. apply not_elem_of_dom in Hfresh. apply dwp_bind, dwp_sni_ask. apply dwp_bind, dwp_get. set (s2 := s1 <| calls ::= S |> <| calls ::= S |>). cbn zeta. change (bucket_of le s2 peer) with (bucket_ix le (conn_table s1) peer). change (conn_table s2) with (conn_table s1).
  pose proof Hr1 as [Htab Hfds]. destruct (lookup_lt_is_Some_2 (conn_table s1) (bucket_ix le (conn_table s1) peer)) as (chain & Ech); [by eapply bucket_lt|]. apply dwp_bind. eapply dwp_lift; [exact Ech|]. apply dwp_bind, dwp_modify. apply dwp_ret. set (now := env_time E (calls s1 <| calls ::= S |>)). set (c := SniConn peer (ih_dcid h) (ih_scid h) [] (ih_version h) false 0 false now SNI_ROUTE_PENDING empty_crypto [] false None).
  pose proof (to_cfg _ _ _ _ _ Htab) as [Hcf1 Hcf2 Hcf3]. assert (Hcok : conn_ok (config s1) c) by (constructor; [done|cbn [pending c length]; lia|split; [done|]; exists ∅; apply empty_rel; lia]).
  pose proof (tab_add le (config s1) (conn_table s1) (conn_count s1) (heap s1) ptr c chain Htab ltac:(rewrite Ec1; lia) Hfresh Hu1 Hcok Ech) as Htab'. split_and!; [constructor; [exact Htab'|]| |done|done|exists now; apply lookup_insert_eq].
  - intros fd. cbn [heap log update]. rewrite holders_new by done. change (log s2) with (log s1). change (heap s2) with (heap s1). rewrite Hfds. unfold holds_fd. rewrite decide_False by done. lia.
  - intros p. rewrite <- Ht1. unfold total. cbn [heap log update]. change (heap s2) with (heap s1). change (log s2) with (log s1). f_equal. rewrite <- (queued_idle (<[ptr := c]> (heap s1)) ptr c p); [by rewrite delete_insert_id|apply lookup_insert_eq|done|].
    intros q d [[-> _]|[Hne Ed]]%lookup_insert_Some Ha; [done|]. by destruct (Hu1 q d Ed).
Qed.

(** The connection of a peer, and whether the packet starts a new one. *)
Lemma dwp_current_connection s peer parsed : router_ok s -> dwp (current_connection le E peer parsed) s (fun r s' => router_ok s' /\ (forall p, total s' p = total s p) /\ config s' = config s /\
  match r with Some ptr => exists c, heap s' !! ptr = Some c /\ peer_addr c = peer | None => forall ptr c, heap s' !! ptr = Some c -> peer_addr c <> peer end).
Proof.
  intros Hr. unfold current_connection. apply dwp_bind. eapply dwp_mono; [by apply dwp_connection_lookup|]. intros r s' [-> Hl]. destruct r as [ptr|]; [|by apply dwp_ret]. destruct Hl as (c & Hc & Ha). destruct parsed as [| |h]; try (apply dwp_ret; split_and!; [done..|by exists c]). apply dwp_bind. unfold get_conn. apply dwp_bind, dwp_get. eapply dwp_lift; [done|].
  destruct (_ && _); [|apply dwp_ret; split_and!; [done..|by exists c]].
  apply dwp_seq. eapply dwp_mono; [by eapply dwp_release|]. intros u s1 (H1 & H2 & H3 & H4 & H5 & _). apply dwp_ret. split_and!; [done..|]. intros q d Hd. rewrite H3 in Hd. apply lookup_delete_Some in Hd as [Hne Hd]. intros Hp. apply Hne. destruct Hr as [Ht _]. eapply (to_unique _ _ _ _ _ Ht); [exact Hc|exact Hd|congruence].
Qed.

End table.

(** * Runs of the SNI router

    Over any sequence of datagrams, answers of the fallback server and
    clean-ups, under any behaviour of the system, nothing faults, every
    datagram of a client is handed on once and in order or waits, the tables
    stay within their limits, and every socket that was opened is closed. *)

Section run.
Context (le : bool) (E : sni_env).
Context (HKDF_extract : list Z -> list Z -> option (list Z)) (HKDF_expand : Z -> list Z -> list Z -> option (list Z)).
Context (AES_encrypt : list Z -> list Z -> option (list Z)) (AEAD_seal AEAD_open : list Z -> list Z -> list Z -> list Z -> option (list Z)).

(** A new object has an address of its own, a datagram is bytes. *)
Record sni_env_ok : Prop := {
  new_fresh : forall n live ptr, env_new E n live = Some ptr -> ptr ∉ live;
  recv_bytes : forall n buf, env_recv E n = RecvData buf -> bytes_ok buf
}.

Hypothesis Hcrypto : crypto_ok AES_encrypt AEAD_seal AEAD_open.
Hypothesis Henv : sni_env_ok.

(** The state is well formed again, and [new] more packets of [peer] were
    handed on or wait. *)
Definition took (peer : sockaddr) (new : list (list Z)) (s s' : sni_router_t) : Prop :=
  router_ok le s' /\ config s' = config s /\ forall p, total s' p = total s p ++ if decide (p = peer) then new else [].

Lemma took_after peer new s s1 s' : (forall p, total s1 p = total s p) -> config s1 = config s -> took peer new s1 s' -> took peer new s s'.
Proof. intros H1 H2 (H3 & H4 & H5). split; [done|]. split; [congruence|]. intros p. by rewrite H5, H1. Qed.

Lemma took_conn ptr c c' q new s s' : router_ok le s -> conn_step ptr c c' q s s' -> conn_ok (config s) c' -> (snd <$> q) ++ pending c' = pending c ++ new -> took (peer_addr c) new s s'.
Proof. intros Hr Hs Hc Hq. split; [by eapply conn_step_ok|]. split; [by eapply cs_config|]. by eapply conn_step_total. Qed.

Lemma took_nothing peer s s' : router_ok le s' -> config s' = config s -> (forall p, total s' p = total s p) -> took peer [] s s'.
Proof. intros H1 H2 H3. split; [done|]. split; [done|]. intros p. rewrite H3. case_decide; by rewrite app_nil_r. Qed.

(** A packet of a peer without a connection. *)
Lemma dwp_accept_plain s peer pkt : router_ok le s -> (forall ptr c, heap s !! ptr = Some c -> peer_addr c <> peer) -> dwp (accept_packet E peer pkt) s (fun _ s' => took peer [pkt] s s').
Proof.
  intros Hr Hn. unfold accept_packet. apply dwp_bind, dwp_sni_ask. apply dwp_bind, dwp_modify. apply dwp_ret. destruct Hr as [Ht Hf]. split; [constructor; [exact Ht|]|split; [done|]].
  - intros fd. cbn [log heap update]. rewrite balance_app. cbn [balance fd_change]. specialize (Hf fd). lia.
  - intros p. unfold total. cbn [log heap update]. rewrite handed_app, handed_one, fmap_app. cbn [handed_on]. destruct (decide (p = peer)) as [->|Hne]; [rewrite decide_True by done; rewrite (queued_none (heap s)) by done; by rewrite !app_nil_r|]. rewrite decide_False by congruence. by rewrite !app_nil_r.
Qed.

Lemma seen_ok cfg c now : conn_ok cfg c -> conn_ok cfg (c <| last_seen := now |>).
Proof. intros [H1 H2 H3]. by constructor. Qed.

(** The Initial packet of an undecided connection. *)
Lemma dwp_queue_initial s ptr c pkt : router_ok le s -> heap s !! ptr = Some c -> decision c = SNI_ROUTE_PENDING -> bytes_ok pkt ->
  dwp (now ← ask (env_time E); modify_conn ptr (fun c => c <| last_seen := now |>) ;; queued ← pending_append E ptr pkt;
       if negb queued then accept_pending_and_current E ptr pkt (peer_addr c) false else process_initial HKDF_extract HKDF_expand AES_encrypt AEAD_open E ptr pkt (peer_addr c)) s (fun _ s' => took (peer_addr c) [pkt] s s').
Proof.
  intros Hr Hp Hd Hb. pose proof Hr as [Ht _]. pose proof (to_cfg _ _ _ _ _ Ht) as Hcfg. pose proof (to_conns _ _ _ _ _ Ht _ _ Hp) as Hc. apply dwp_bind. eapply dwp_cs_ask; [by apply cs_refl|]. intros now s1 H1. apply dwp_bind. eapply dwp_cs_modify; [exact H1|done|done|]. intros s2 H2. set (c1 := c <| last_seen := now |>) in *. apply (seen_ok _ _ now) in Hc. fold c1 in Hc.
  apply dwp_bind. eapply dwp_mono; [by apply dwp_pending_append|]. intros ok s3 [H3 Hlen]. pose proof Hc as [C1 C2 C3]. change (decision c1) with (decision c) in C3. rewrite Hd in C3. destruct C3 as [C3 C4]. destruct ok; cbn [negb].
  - set (c2 := c1 <| pending ::= fun l => l ++ [pkt] |>) in *. assert (Hc2 : conn_ok (config s) c2). { specialize (Hlen eq_refl). constructor; [done|unfold c2; cbn [pending update]; rewrite length_app; cbn [length]; lia|]. change (decision c2) with (decision c). rewrite Hd. done. }
    eapply dwp_mono; [eapply (dwp_process_initial ptr c s E (config s)); [exact Hcrypto|exact H3|done|done|done|done|done|done]|]. intros r s4 (c4 & q & H4 & Hc4 & Hq). cbn [app] in H4. by eapply took_conn.
  - eapply dwp_mono; [eapply (dwp_accept_pending ptr c s E (config s)); [exact H3|done|done|done|done]|]. intros r s4 (c4 & H4 & Hc4 & Hq). cbn [app] in H4. eapply took_conn; [done|exact H4|done|]. by rewrite Hq, app_nil_r, pair_snd.
Qed.

(** A packet of a decided connection. *)
Lemma dwp_decided s ptr c pkt now : router_ok le s -> heap s !! ptr = Some c -> decision c <> SNI_ROUTE_PENDING ->
  dwp (modify_conn ptr (fun c => c <| last_seen := now |>) ;; if decide (decision c = SNI_ROUTE_ACCEPT) then accept_packet E (peer_addr c) pkt else fallback_send E ptr pkt) s (fun _ s' => took (peer_addr c) [pkt] s s').
Proof.
  intros Hr Hp Hd. pose proof Hr as [Ht _]. pose proof (to_conns _ _ _ _ _ Ht _ _ Hp) as Hc. apply dwp_bind. eapply dwp_cs_modify; [by apply cs_refl|done|done|]. intros s1 H1. assert (Hq : pending c = []) by (destruct Hc as [_ _ C]; destruct (decision c); [by destruct C|done|done|done]). case_decide as He.
  - eapply dwp_mono; [by apply (dwp_accept_packet ptr c s)|]. intros ok s2 H2. eapply took_conn; [done|exact H2|by apply seen_ok|]. cbn [pending update]. by rewrite Hq.
  - eapply dwp_mono; [by apply (dwp_fallback_send ptr c s)|]. intros ok s2 (fd & sent & H2). eapply took_conn; [done|exact H2| |]; [|unfold with_fd; cbn [pending update]; by rewrite Hq]. destruct Hc as [C1 C2 C3]. constructor; [done|done|]. unfold with_fd. cbn [decision update]. by destruct (decision c).
Qed.

Definition args_ok (pkt : list Z) (peer : sockaddr) (peer_len : Z) : bool :=
  negb ((blen pkt =? 0) || negb (addr_len_valid (sa_family peer) peer_len) || (sockaddr_storage_len <? peer_len)).

(** A datagram with proper arguments is handed on, now or later, or there was
    no memory for its connection and the caller is told. *)
Lemma dwp_process s pkt peer peer_len : router_ok le s -> bytes_ok pkt ->
  dwp (sni_router_process le HKDF_extract HKDF_expand AES_encrypt AEAD_open E pkt peer peer_len) s (fun r s' =>
    if args_ok pkt peer peer_len then took peer [pkt] s s' \/ (took peer [] s s' /\ r = SNI_ROUTE_ERROR /\ out_of_memory E) else s' = s /\ r = SNI_ROUTE_ERROR).
Proof.
  intros Hr Hb. unfold sni_router_process, args_ok. destruct (_ || _) eqn:Eg; cbn [negb]; [by apply dwp_ret|]. assert (Hfam : valid_family peer) by (unfold valid_family, addr_len_valid in *; destruct (sa_family peer); [done|done|]; by rewrite orb_true_r in Eg).
  apply dwp_bind. destruct (parse_initial_header_safe pkt Hb) as (parsed & Ep & _). eapply dwp_lift; [exact Ep|]. apply dwp_bind. eapply dwp_mono; [by apply dwp_current_connection|]. intros conn s1 (Hr1 & Ht1 & Ec1 & Hconn). apply dwp_bind.
  assert (Hmono : forall (m : stM sni_router_t sni_route_result_t), dwp m s1 (fun _ s' => took peer [pkt] s1 s') -> dwp m s1 (fun r s' => took peer [pkt] s s' \/ (took peer [] s s' /\ r = SNI_ROUTE_ERROR /\ out_of_memory E))). { intros m Hm. eapply dwp_mono; [exact Hm|]. intros r s' Ht. left. by eapply took_after. }
  destruct conn as [ptr|].
  - destruct Hconn as (c & Hc & <-). apply dwp_bind. unfold get_conn. apply dwp_bind, dwp_get. eapply dwp_lift; [exact Hc|]. apply dwp_ret. pose proof Hr1 as [Htab1 _]. pose proof (to_conns _ _ _ _ _ Htab1 _ _ Hc) as Hcok. pose proof (to_cfg _ _ _ _ _ Htab1) as Hcfg.
    assert (Hdec : forall r, decision c = r -> r = SNI_ROUTE_ACCEPT \/ r = SNI_ROUTE_FALLBACK -> forall (m : stM sni_router_t bool), m = (if decide (decision c = SNI_ROUTE_ACCEPT) then accept_packet E (peer_addr c) pkt else fallback_send E ptr pkt) ->
      dwp (now ← ask (env_time E); modify_conn ptr (fun c => c <| last_seen := now |>) ;; ok ← m; mret (route_of ok r)) s1 (fun _ s' => took (peer_addr c) [pkt] s1 s')).
    { intros r Er Hr' m ->. apply dwp_bind, dwp_sni_ask. assert (Hgo := dwp_decided (s1 <| calls ::= S |>) ptr c pkt (env_time E (calls s1)) (router_ok_calls _ _ Hr1) Hc). specialize (Hgo ltac:(destruct Hr' as [-> | ->]; congruence)). destruct Hgo as (ok & s2 & Em & Htk). exists (route_of ok r), s2. split; [|exact Htk]. unfold mbind, stM_bind in *. destruct (modify_conn _ _ _) as [[u s3]|]; [|done]. by rewrite Em. }
    destruct (decision c) eqn:Ed.
    + apply Hmono, Hdec; [done|by left|]. by rewrite decide_True.
    + apply Hmono, Hdec; [done|by right|]. by rewrite decide_False.
    + destruct parsed as [| |h].
      1,2: apply Hmono; destruct Hcok as [C1 C2 C3]; rewrite Ed in C3; eapply dwp_mono; [eapply (dwp_accept_pending ptr c s1 E (config s1)); [by apply cs_refl|done|done|by destruct C3|done]|]; intros r s2 (c2 & H2 & Hc2 & Hq); cbn [app] in H2; eapply took_conn; [done|exact H2|done|]; by rewrite Hq, app_nil_r, pair_snd.
      apply Hmono. apply dwp_bind, dwp_ret. by apply dwp_queue_initial.
    + destruct Hcok as [_ _ C3]. by rewrite Ed in C3.
  - apply dwp_ret. destruct parsed as [| |h].
    1,2: apply Hmono, dwp_bind; eapply dwp_mono; [by apply dwp_accept_plain|]; intros ok s2 H2; by apply dwp_ret.
    apply dwp_bind. eapply dwp_mono; [apply (dwp_connection_create le E); [by apply Henv|done|done|done]|]. intros r s2 (Hr2 & Ht2 & Ec2 & _ & Hc2). destruct r as [ptr|].
    + destruct Hc2 as (now & Hc). pose proof (dwp_queue_initial s2 ptr _ pkt Hr2 Hc eq_refl Hb) as Hgo. cbn [peer_addr] in Hgo. eapply dwp_mono; [exact Hgo|]. intros r s3 H3. left. eapply (took_after _ _ s s2); [|congruence|exact H3]. intros p. by rewrite Ht2.
    + apply dwp_ret. right. destruct Hc2 as [_ Hm]. split; [|done]. apply took_nothing; [done|congruence|]. intros p. by rewrite Ht2.
Qed.

(** ** Answers of the fallback server *)

Lemma dwp_learn ptr c s0 cfg c1 p s buf : conn_step ptr c c1 p s0 s -> conn_ok cfg c1 -> bytes_ok buf ->
  dwp (learn_server_scid AEAD_seal E ptr buf) s (fun _ s' => exists c2, conn_step ptr c c2 p s0 s' /\ conn_ok cfg c2 /\ pending c2 = pending c1 /\ peer_addr c2 = peer_addr c1).
Proof.
  intros H Hc Hb. assert (Hset : forall c2 x s, conn_step ptr c c2 p s0 s -> conn_ok cfg c2 /\ pending c2 = pending c1 /\ peer_addr c2 = peer_addr c1 -> dwp (modify_conn ptr (fun c => c <| server_scid := x |> <| have_server_scid := true |>)) s (fun _ s' => exists c2, conn_step ptr c c2 p s0 s' /\ conn_ok cfg c2 /\ pending c2 = pending c1 /\ peer_addr c2 = peer_addr c1)).
  { intros c2 x s' H' ([C1 C2 C3] & Eq & Ea). eapply dwp_cs_modify; [exact H'|done|done|]. intros s2 H2. eexists. split; [exact H2|]. done. }
  unfold learn_server_scid. apply dwp_bind. eapply dwp_cs_get; [done|]. destruct (_ && _); [|apply dwp_skip; by exists c1]. apply dwp_bind. destruct (parse_initial_header_safe buf Hb) as (i & Ei & _). eapply dwp_lift; [exact Ei|]. apply dwp_bind.
  eapply (dwp_mono _ _ (fun _ s' => exists c2, conn_step ptr c c2 p s0 s' /\ conn_ok cfg c2 /\ pending c2 = pending c1 /\ peer_addr c2 = peer_addr c1)); [destruct i as [| |h]; [apply dwp_skip; by exists c1..|]; destruct (_ && _); [by eapply Hset|apply dwp_skip; by exists c1]|].
  intros u s1 (c2 & H2 & Hc2). apply dwp_bind. eapply dwp_cs_get; [done|]. destruct (have_server_scid c2); [apply dwp_skip; by exists c2|]. apply dwp_bind. eapply dwp_cs_ask; [exact H2|]. intros ml s2 H3. apply dwp_bind.
  destruct (validate_retry_safe AEAD_seal ml (c_version c2) (initial_scid c2) (initial_dcid c2) buf Hb) as (r & Er). eapply dwp_lift; [exact Er|]. destruct r as [h|]; [by eapply Hset|apply dwp_skip; by exists c2].
Qed.

(** Reading concerns the account of no peer. *)
Lemma dwp_read_loop fuel ptr c s : router_ok le s -> heap s !! ptr = Some c -> pending c = [] -> dwp (read_loop le AEAD_seal E fuel ptr) s (fun _ s' => router_ok le s' /\ config s' = config s /\ forall p, total s' p = total s p).
Proof.
  revert c s. induction fuel as [|fuel IH]; intros c s Hr Hp Hq; cbn [read_loop]; [by apply dwp_skip|]. pose proof Hr as [Ht _]. apply dwp_bind, dwp_sni_ask. set (s1 := s <| calls ::= S |>). assert (Hr1 : router_ok le s1) by (by apply router_ok_calls). destruct (env_recv E (calls s)) as [| |buf] eqn:Erv; [by apply dwp_skip| |].
  { eapply dwp_mono; [by eapply (dwp_connection_remove le s1)|]. intros u s2 (H1 & H2 & H3 & H4 & H5). done. }
  pose proof (recv_bytes Henv _ _ Erv) as Hb. destruct buf as [|b0 buf]; [by apply dwp_skip|]. set (data := b0 :: buf) in *. clearbody data. apply dwp_bind, dwp_sni_ask. set (s2 := s1 <| calls ::= S |>). assert (Hr2 : router_ok le s2) by (by apply router_ok_calls). apply dwp_bind. eapply (dwp_cs_modify ptr c s2); [by apply cs_refl|done|done|]. intros s3 H3.
  apply dwp_bind. eapply dwp_mono; [eapply (dwp_learn ptr c s2 (config s2)); [exact H3|apply seen_ok; by eapply (to_conns _ _ _ _ _ Ht)|done]|]. intros u s4 (c4 & H4 & Hc4 & Hq4 & _). apply dwp_bind. eapply dwp_cs_get; [exact H4|]. apply dwp_bind. eapply dwp_cs_ask; [exact H4|]. intros rc s5 H5. apply dwp_bind. eapply dwp_cs_quiet; [exact H5|done|done|]. intros s6 H6.
  assert (Hstep : router_ok le s6 /\ config s6 = config s /\ forall p, total s6 p = total s p). { split; [by eapply conn_step_ok|]. split; [by rewrite (cs_config _ _ _ _ _ _ H6)|]. intros p. rewrite (conn_step_total _ _ _ _ _ [] _ _ Hr2 H6 Hc4) by (rewrite Hq4; cbn [pending update]; by rewrite Hq). case_decide; by rewrite app_nil_r. }
  destruct Hstep as (Hr6 & Ec6 & Ht6). destruct (negb (rc =? 0)); [by apply dwp_skip|]. eapply dwp_mono; [apply (IH c4); [done|by eapply cs_lookup|rewrite Hq4; exact Hq]|]. intros u' s7 (G1 & G2 & G3). split; [done|]. split; [congruence|]. intros p. by rewrite G3.
Qed.

Lemma dwp_readable fuel fd ptr s : router_ok le s -> dwp (sni_router_on_fd_readable le AEAD_seal E fuel fd ptr) s (fun _ s' => router_ok le s' /\ config s' = config s /\ forall p, total s' p = total s p).
Proof.
  intros Hr. pose proof Hr as [Ht _]. unfold sni_router_on_fd_readable, sni_router_owns_fd. apply dwp_bind, dwp_bind, dwp_get. destruct (existsb _ _) eqn:Ee; [|apply dwp_ret; by apply dwp_skip]. apply existsb_exists in Ee as (p & Hin%list_elem_of_In & ->%Z.eqb_eq). apply (to_dom _ _ _ _ _ Ht) in Hin as (c & Hc). unfold get_conn. apply dwp_bind, dwp_bind, dwp_get. eapply dwp_lift; [done|].
  apply dwp_ret. case_bool_decide as Hfd; cbn [negb]; [|by apply dwp_skip]. eapply dwp_read_loop; [done|done|]. apply (to_conns _ _ _ _ _ Ht) in Hc as [_ _ Hd]. destruct (decision c); [by destruct Hd|done|destruct Hd; congruence|done].
Qed.

(** ** Clean-up and destruction *)

(** A step of a connection, seen with another table. *)
Lemma conn_step_at T ptr c c' q s s' : conn_step ptr c c' q s s' -> conn_step ptr c c' q (s <| conn_table := T |>) (s' <| conn_table := T |>).
Proof. intros [A1 A2 A3 A4 A5 A6 A7 A8]. by constructor. Qed.

(** [T] is the table with the chain as it will be. *)
Lemma dwp_cleanup_chain s T i k chain cutoff : router_ok le (s <| conn_table := T |>) -> T !! i = Some (k ++ chain) ->
  dwp (cleanup_chain E chain cutoff) s (fun l s' => router_ok le (s' <| conn_table := <[i := k ++ l]> T |>) /\ conn_table s' = conn_table s /\ config s' = config s /\ forall p, total s' p = total s p).
Proof.
  revert s T k. induction chain as [|ptr chain IH]; intros s T k Hr Hi; cbn [cleanup_chain]; [apply dwp_ret; by rewrite list_insert_id|]. pose proof Hr as [Ht Hfd]. destruct (proj1 (to_dom _ _ _ _ _ Ht ptr)) as (c & Hc); [eapply (in_chain T); [exact Hi|]; apply elem_of_app; right; apply list_elem_of_here|]. cbn [heap update] in Hc.
  apply dwp_bind. unfold get_conn. apply dwp_bind, dwp_get. eapply dwp_lift; [done|]. destruct (last_seen c <? cutoff).
  - apply dwp_bind. eapply dwp_mono; [apply (dwp_accept_undecided ptr c s E (config s) c []); [by apply cs_refl|by apply Ht|by eapply (to_conns _ _ _ _ _ Ht)]|]. intros u s1 (c1 & H1 & Hc1 & Hq1). cbn [app] in H1. pose proof (conn_step_at T _ _ _ _ _ _ H1) as H1T. pose proof (conn_step_ok _ _ _ _ _ _ _ Hr H1T Hc1) as Hr1. pose proof (conn_step_total _ _ _ _ _ [] _ _ Hr H1T Hc1 ltac:(by rewrite Hq1, pair_snd)) as Ht1.
    apply dwp_bind, dwp_modify. apply dwp_bind. eapply dwp_mono; [apply (dwp_connection_free ptr c1); exact (cs_lookup _ _ _ _ _ _ H1)|]. intros u' s2 (F1 & F2 & F3 & F4 & F5 & F6). destruct Hr1 as [Htab1 Hfds1]. pose proof (free_ok le (s1 <| conn_table := T |>) (s1 <| conn_count ::= fun n => n - 1 |>) s2 T i k chain ptr c1 Htab1 Hfds1 Hi (cs_lookup _ _ _ _ _ _ H1) Hq1 ltac:(done) ltac:(done) ltac:(done) ltac:(done) ltac:(done)) as (G1 & G2 & G3).
    eapply dwp_mono; [apply (IH s2 (<[i := k ++ chain]> T) k); [by constructor|apply list_lookup_insert_eq; by eapply lookup_lt_Some]|]. intros l s3 (K1 & K2 & K3 & K4). rewrite list_insert_insert_eq in K1. split; [done|]. destruct H1 as [A1 A2 A3 A4 A5 A6 A7 A8]. split; [rewrite K2, F3; exact A4|]. split; [rewrite K3, F2; exact A3|]. intros p. rewrite K4, G3. pose proof (Ht1 p) as Hp1. change (total s1 p = total s p ++ if decide (p = peer_addr c) then [] else []) in Hp1. change (total s1 p = total s p). rewrite Hp1. case_decide; by rewrite app_nil_r.
  - apply dwp_bind. eapply dwp_mono; [apply (IH s T (k ++ [ptr])); [done|rewrite <- app_assoc; exact Hi]|]. intros l s1 (K1 & K2 & K3 & K4). rewrite <- app_assoc in K1. apply dwp_ret. split; [exact K1|done].
Qed.

Lemma dwp_cleanup_table n i s cutoff : router_ok le s -> (i + n <= length (conn_table s))%nat -> dwp (cleanup_table E n i cutoff) s (fun _ s' => router_ok le s' /\ config s' = config s /\ forall p, total s' p = total s p).
Proof.
  revert i s. induction n as [|n IH]; intros i s Hr Hl; cbn [cleanup_table]; [by apply dwp_skip|]. apply dwp_bind, dwp_get. destruct (lookup_lt_is_Some_2 (conn_table s) i) as (chain & Ec); [lia|]. apply dwp_bind. eapply dwp_lift; [done|]. apply dwp_bind. eapply dwp_mono; [apply (dwp_cleanup_chain s (conn_table s) i []); [destruct Hr; by constructor|done]|].
  intros l s1 (H1 & H2 & H3 & H4). cbn [app] in H1. apply dwp_bind, dwp_modify. eapply dwp_mono; [apply IH|].
  - destruct H1 as [G1 G2]. constructor; [cbn [config conn_table conn_count heap update]; rewrite H2; exact G1|exact G2].
  - cbn [conn_table update]. rewrite length_insert, H2. lia.
  - intros u s2 (K1 & K2 & K3). split; [done|]. split; [rewrite K2; exact H3|]. intros p. rewrite K3. apply H4.
Qed.

Lemma dwp_cleanup s now : router_ok le s -> dwp (sni_router_cleanup E now) s (fun _ s' => router_ok le s' /\ config s' = config s /\ forall p, total s' p = total s p).
Proof. intros Hr. unfold sni_router_cleanup. apply dwp_bind, dwp_get. by apply dwp_cleanup_table. Qed.

Lemma dwp_free_all ptrs s : NoDup ptrs -> (forall ptr, ptr ∈ ptrs -> is_Some (heap s !! ptr)) -> fds_ok s -> dwp (free_all ptrs) s (fun _ s' => fds_ok s' /\ forall q, is_Some (heap s' !! q) <-> is_Some (heap s !! q) /\ q ∉ ptrs).
Proof.
  revert s. induction ptrs as [|ptr ptrs IH]; intros s Hnd Hl Hf; cbn [free_all]; [apply dwp_skip; split; [done|]; intros q; split; [intros H; split; [done|apply not_elem_of_nil]|by intros [? _]]|]. apply NoDup_cons in Hnd as [Hnin Hnd]. destruct (Hl ptr) as (c & Hc); [apply list_elem_of_here|]. apply dwp_bind. eapply dwp_mono; [by apply (dwp_connection_free ptr c)|]. intros u s1 (F1 & F2 & F3 & F4 & F5 & F6).
  assert (Hne : forall q, is_Some (heap s1 !! q) <-> is_Some (heap s !! q) /\ q <> ptr). { intros q. rewrite F1. destruct (decide (q = ptr)) as [->|Hne]; [rewrite lookup_delete_eq; split; [by intros [? ?]|by intros [_ ?]]|rewrite lookup_delete_ne by done; split; [done|by intros [? _]]]. }
  eapply dwp_mono; [apply IH; [done| |]|].
  - intros q Hq. apply Hne. split; [apply Hl; by apply list_elem_of_further|]. intros ->. done.
  - intros fd. rewrite F6, F1, (holders_delete _ _ _ c) by done. by rewrite Hf.
  - intros u' s2 [G1 G2]. split; [done|]. intros q. rewrite G2, Hne, not_elem_of_cons. tauto.
Qed.

Lemma dwp_destroy s : router_ok le s -> dwp sni_router_destroy s (fun _ s' => heap s' = ∅ /\ forall fd, balance fd (log s') = 0).
Proof.
  intros [Ht Hf]. unfold sni_router_destroy. apply dwp_bind, dwp_get. apply dwp_bind. eapply dwp_mono; [apply dwp_free_all; [by apply Ht|intros ptr Hin; by apply (to_dom _ _ _ _ _ Ht)|done]|]. intros u s1 [G1 G2]. apply dwp_modify. assert (He : heap s1 = ∅). { apply map_empty. intros q. apply eq_None_not_Some. intros Hq. apply G2 in Hq as [Hq Hn]. apply Hn. by apply (to_dom _ _ _ _ _ Ht). }
  cbn [heap log update]. split; [done|]. intros fd. rewrite G1, He. unfold holders. by rewrite map_filter_empty.
Qed.

End run.
