(* ===== verification/SniTrace.v ===== *)
(** * Runs of the SNI router: the claims

    Any sequence of datagrams, answers of the fallback server and clean-ups
    from the creation of a router on. *)

From S2P Require Import Prelude StateOpt OffloadCsum SniParse SniCrypto SniStream SniHello SniFrames SniOpen SniRouter SniMatch SniInv SniRun.

Inductive sni_op :=
  | OpProcess (pkt : list Z) (peer : sockaddr) (peer_len : Z)
  | OpReadable (fuel : nat) (fd ptr : Z)
  | OpCleanup (now_sec : Z).

(** The fields of a configuration are of unsigned types. *)
Definition cfg_unsigned (cfg : sni_router_config_t) : Prop := 0 <= max_tracked_conns cfg /\ 0 <= conn_timeout_sec cfg /\ 0 <= max_client_hello_bytes cfg /\ 0 <= max_pending_packets cfg.

Definition op_ok (op : sni_op) : Prop := match op with OpProcess pkt _ _ => bytes_ok pkt | _ => True end.

(** The datagrams of a peer, in order. *)
Definition offered (peer : sockaddr) (ops : list sni_op) : list (list Z) :=
  omap (fun op => match op with OpProcess pkt p n => if decide (p = peer) then if args_ok pkt p n then Some pkt else None else None | _ => None end) ops.

#[export] Instance sni_event_eq_dec : EqDecision sni_event.
Proof. solve_decision. Defined.

(** Sockets opened and closed. *)
Definition opened (fd : Z) (l : list sni_event) : nat := length (filter (fun e => e = EvSocket fd) l).
Definition closed (fd : Z) (l : list sni_event) : nat := length (filter (fun e => e = EvClose fd) l).

Lemma balance_counts fd l : balance fd l = Z.of_nat (opened fd l) - Z.of_nat (closed fd l).
Proof.
  unfold opened, closed. induction l as [|e l IH]; [done|]. cbn [balance]. rewrite IH, !filter_cons. destruct e; cbn [fd_change]; try (rewrite !decide_False by done; lia); destruct (Z.eqb_spec fd0 fd) as [->|Hne].
  - rewrite decide_True by done. rewrite decide_False by done. cbn [length]. lia.
  - rewrite !decide_False by congruence. lia.
  - rewrite decide_False by done. rewrite decide_True by done. cbn [length]. lia.
  - rewrite !decide_False by congruence. lia.
Qed.

Section trace.
Context (le : bool) (E : sni_env).
Context (HKDF_extract : list Z -> list Z -> option (list Z)) (HKDF_expand : Z -> list Z -> list Z -> option (list Z)).
Context (AES_encrypt : list Z -> list Z -> option (list Z)) (AEAD_seal AEAD_open : list Z -> list Z -> list Z -> list Z -> option (list Z)).

Definition run_op (op : sni_op) : stM sni_router_t unit :=
  match op with
  | OpProcess pkt peer n => _ ← sni_router_process le HKDF_extract HKDF_expand AES_encrypt AEAD_open E pkt peer n; d_skip
  | OpReadable fuel fd ptr => sni_router_on_fd_readable le AEAD_seal E fuel fd ptr
  | OpCleanup now => sni_router_cleanup E now
  end.

Fixpoint run (ops : list sni_op) : stM sni_router_t unit := match ops with [] => d_skip | op :: ops => run_op op ;; run ops end.

Lemma create_ok malloc cfg s : cfg_unsigned cfg -> sni_router_create malloc cfg = Some s -> router_ok le s /\ log s = [] /\ heap s = ∅ /\ 1 <= max_tracked_conns (config s) <= 65535 /\ max_pending_packets (config s) <= 64 /\ 1 <= max_client_hello_bytes (config s) <= 1048576.
Proof.
  intros (U1 & U2 & U3 & U4) Hs. unfold sni_router_create in Hs. destruct (_ || _); [done|]. cbn zeta in Hs. set (cfg' := cfg <| max_tracked_conns := _ |> <| conn_timeout_sec := _ |> <| max_client_hello_bytes := _ |> <| max_pending_packets := _ |>) in Hs. destruct (_ || _) eqn:Eg; [done|]. destruct (negb _); [done|]. apply Some_inj in Hs.
  assert (Hd : forall v d, 0 <= v -> 1 <= d -> 1 <= or_default v d) by (intros v d Hv H1; unfold or_default; destruct (Z.eqb_spec v 0); lia). pose proof (Hd (max_tracked_conns cfg) SNI_DEFAULT_MAX_CONNS U1 ltac:(done)) as D1. pose proof (Hd (max_client_hello_bytes cfg) SNI_DEFAULT_CH_BYTES U3 ltac:(done)) as D2. pose proof (Hd (max_pending_packets cfg) SNI_DEFAULT_PENDING_PACKETS U4 ltac:(done)) as D3.
  change (or_default (max_tracked_conns cfg) SNI_DEFAULT_MAX_CONNS) with (max_tracked_conns cfg') in D1. change (or_default (max_client_hello_bytes cfg) SNI_DEFAULT_CH_BYTES) with (max_client_hello_bytes cfg') in D2. change (or_default (max_pending_packets cfg) SNI_DEFAULT_PENDING_PACKETS) with (max_pending_packets cfg') in D3. clearbody cfg'. bool_to_prop. subst s. cbn [config log heap conn_table conn_count allowed_snis update max_tracked_conns max_pending_packets max_client_hello_bytes].
  assert (Hcat : forall n, concat (replicate n (@nil Z)) = []) by (induction n; done). split; [|split_and!; [done|done|lia..]]. constructor; [|intros fd; cbn; unfold holders; by rewrite map_filter_empty]. constructor; cbn [config conn_table conn_count heap max_tracked_conns max_client_hello_bytes max_pending_packets update].
  - constructor; cbn [max_tracked_conns max_client_hello_bytes max_pending_packets update]; lia.
  - rewrite length_replicate. lia.
  - rewrite Hcat. apply NoDup_nil_2.
  - intros ptr. rewrite Hcat, lookup_empty. split; [intros Hx; by apply not_elem_of_nil in Hx|by intros [? ?]].
  - intros i chain ptr c _ _ Hx. by rewrite lookup_empty in Hx.
  - intros q r c d Hx. by rewrite lookup_empty in Hx.
  - by rewrite Hcat.
  - lia.
  - intros ptr c Hx. by rewrite lookup_empty in Hx.
Qed.

Hypothesis Hcrypto : crypto_ok AES_encrypt AEAD_seal AEAD_open.
Hypothesis Henv : sni_env_ok E.

(** One operation adds the datagram it was given, unless there is no memory. *)
Lemma dwp_run_op s op : router_ok le s -> op_ok op -> dwp (run_op op) s (fun _ s' => router_ok le s' /\ config s' = config s /\
  forall p, (exists new, total s' p = total s p ++ new /\ new `sublist_of` offered p [op]) /\ (~ out_of_memory E -> total s' p = total s p ++ offered p [op])).
Proof.
  intros Hr Ho. assert (Hquiet : forall s', router_ok le s' /\ config s' = config s /\ (forall p, total s' p = total s p) -> (forall p, offered p [op] = []) -> router_ok le s' /\ config s' = config s /\ forall p, (exists new, total s' p = total s p ++ new /\ new `sublist_of` offered p [op]) /\ (~ out_of_memory E -> total s' p = total s p ++ offered p [op])).
  { intros s' (H1 & H2 & H3) H4. split; [done|]. split; [done|]. intros p. rewrite H4, H3. split; [exists []|intros _]; by rewrite app_nil_r. }
  destruct op as [pkt peer n|fuel fd ptr|now]; cbn [run_op op_ok] in *.
  - apply dwp_bind. eapply dwp_mono; [by eapply dwp_process|]. intros r s' H. cbv beta in H. apply dwp_skip. assert (Eo : forall p, offered p [OpProcess pkt peer n] = if decide (peer = p) then if args_ok pkt peer n then [pkt] else [] else []) by (intros p; unfold offered; cbn; repeat case_decide; try done; by destruct (args_ok pkt peer n)).
    destruct (args_ok pkt peer n); [|destruct H as [-> _]; apply Hquiet; [done|intros p; rewrite Eo; by case_decide]]. destruct H as [(H1 & H2 & H3)|((H1 & H2 & H3) & _ & Hm)]; (split; [done|]); (split; [done|]); intros p; rewrite Eo, H3; destruct (decide (p = peer)) as [->|Hne].
    + rewrite decide_True by done. split; [by exists [pkt]|done].
    + rewrite decide_False by congruence. split; [by exists []|done].
    + rewrite decide_True by done. split; [exists []; split; [done|apply sublist_nil_l]|by intros Hn].
    + rewrite decide_False by congruence. split; [by exists []|done].
  - eapply dwp_mono; [by eapply dwp_readable|]. intros u s' H. by apply Hquiet.
  - eapply dwp_mono; [by eapply dwp_cleanup|]. intros u s' H. by apply Hquiet.
Qed.

Lemma dwp_run s ops : router_ok le s -> Forall op_ok ops -> dwp (run ops) s (fun _ s' => router_ok le s' /\ config s' = config s /\
  forall p, (exists new, total s' p = total s p ++ new /\ new `sublist_of` offered p ops) /\ (~ out_of_memory E -> total s' p = total s p ++ offered p ops)).
Proof.
  intros Hr Ho. revert s Hr. induction Ho as [|op ops Hop _ IH]; intros s Hr; cbn [run]; [apply dwp_skip; split; [done|]; split; [done|]; intros p; split; [exists []|intros _]; by rewrite app_nil_r|]. apply dwp_bind. eapply dwp_mono; [by apply dwp_run_op|]. intros u s1 (H1 & H2 & H3). eapply dwp_mono; [by apply IH|]. intros u' s2 (G1 & G2 & G3). split; [done|]. split; [congruence|]. intros p.
  assert (Ea : offered p (op :: ops) = offered p [op] ++ offered p ops) by (change (op :: ops) with ([op] ++ ops); apply omap_app). rewrite Ea. destruct (H3 p) as [(n1 & E1 & S1) F1], (G3 p) as [(n2 & E2 & S2) F2]. split.
  - exists (n1 ++ n2). split; [by rewrite E2, E1, app_assoc|]. by apply sublist_app.
  - intros Hm. by rewrite (F2 Hm), (F1 Hm), app_assoc.
Qed.



(** C17: when a router is destroyed after any such sequence, no connection is
    left, and every socket it opened has been closed, as often as it was
    opened. *)
Theorem sockets_closed malloc cfg s0 ops : cfg_unsigned cfg -> sni_router_create malloc cfg = Some s0 -> Forall op_ok ops -> exists s', (run ops ;; sni_router_destroy) s0 = Some (tt, s') /\ heap s' = ∅ /\ forall fd, opened fd (log s') = closed fd (log s').
Proof.
  intros Hu Hc Ho. destruct (create_ok malloc cfg s0 Hu Hc) as (Hr & _). assert (Hd : dwp (run ops ;; sni_router_destroy) s0 (fun _ s' => heap s' = ∅ /\ forall fd, balance fd (log s') = 0)) by (apply dwp_bind; eapply dwp_mono; [by apply dwp_run|]; intros u s1 (H1 & _); by eapply dwp_destroy).
  destruct Hd as ([] & s' & Er & He & Hb). exists s'. split; [done|]. split; [done|]. intros fd. specialize (Hb fd). rewrite balance_counts in Hb. lia.
Qed.

End trace.

(** A system in which everything succeeds. *)
Definition env_example : sni_env :=
  SniEnv (fun n => 100 + Z.of_nat n) (fun _ => true) (fun _ _ => true) (fun _ live => Some (fresh live)) (fun _ => 0) (fun n => OpenOk (3 + Z.of_nat n)) (fun _ => true) (fun n => if Nat.even n then RecvAgain else RecvData [64; 1; 2]) (fun _ => 0).

Lemma env_example_ok : sni_env_ok env_example.
Proof.
  constructor.
  - intros n live ptr [= <-]. apply is_fresh.
  - intros n buf. cbn [env_recv env_example]. destruct (Nat.even n); [done|]. intros [= <-]. by apply bytes_okb_ok.
Qed.

Definition ops_example : list sni_op :=
  [OpProcess [64; 1; 2; 3] (SockAddr AF_INET [4; 210] [192; 0; 2; 1]) 16; OpReadable 4 7 1; OpProcess [] (SockAddr AF_INET [4; 210] [192; 0; 2; 1]) 16; OpCleanup 1000].

Lemma ops_example_ok : Forall op_ok ops_example.
Proof. do 4 (apply Forall_cons_2; [first [exact I|by apply bytes_okb_ok]|]). apply Forall_nil_2. Qed.

Lemma create_example : exists s0, sni_router_create true config_example = Some s0.
Proof. eexists. vm_compute. reflexivity. Qed.



Lemma sockets_closed_witness : exists s0 s', sni_router_create true config_example = Some s0 /\ (run true env_example toy_extract toy_expand toy_aes toy_seal toy_open ops_example ;; sni_router_destroy) s0 = Some (tt, s') /\ heap s' = ∅ /\ forall fd, opened fd (log s') = closed fd (log s').
Proof.
  destruct create_example as (s0 & Hc). destruct (sockets_closed true env_example toy_extract toy_expand toy_aes toy_seal toy_open toy_crypto_ok env_example_ok true config_example s0 ops_example ltac:(repeat split; done) Hc ops_example_ok) as (s' & H). exists s0, s'. split; [exact Hc|exact H].
Defined.
