(* ===== verification/SniRoute.v ===== *)
(** * The way of a client

    A client that the router does not know sends a ClientHello in protected
    Initial packets: the router opens them, puts the message together, looks up
    its server name and hands all of them on, to the VPN server when the name
    is allowed and to the fallback when it is not. *)

From S2P Require Import Prelude StateOpt OffloadCsum SniParse SniCrypto SniStream SniHello SniFrames SniOpen SniRouter SniMatch SniInv SniRun SniTrace.

Lemma dwp_and {S A} (m : stM S A) s (Q R : A -> S -> Prop) : dwp m s Q -> dwp m s R -> dwp m s (fun a s' => Q a s' /\ R a s').
Proof. intros (a & s1 & E & HQ) (b & s2 & E' & HR). rewrite E in E'. injection E' as <- <-. by exists a, s1. Qed.

(** An Initial packet of a client: what it says, its frames, its bytes, and
    what follows it in the datagram. *)
Record client_packet := ClientPacket { cp_packet : initial_packet; cp_frames : list frame; cp_wire : list Z; cp_rest : list Z }.

Definition datagram (cp : client_packet) : list Z := cp_wire cp ++ cp_rest cp.

Section route.
Context (le : bool) (E : sni_env).
Context (HKDF_extract : list Z -> list Z -> option (list Z)) (HKDF_expand : Z -> list Z -> list Z -> option (list Z)).
Context (AES_encrypt : list Z -> list Z -> option (list Z)) (AEAD_seal AEAD_open : list Z -> list Z -> list Z -> list Z -> option (list Z)).
Hypothesis Hcrypto : crypto_ok AES_encrypt AEAD_seal AEAD_open.
Hypothesis Henv : sni_env_ok E.

(** Every allocation succeeds. *)
Record memory_ok : Prop := {
  mem_malloc : forall n, env_malloc E n = true;
  mem_frames : forall n, env_frames E n = fun _ => true;
  mem_new : ~ out_of_memory E
}.

Hypothesis Hmem : memory_ok.

Context (peer : sockaddr) (dcid : list Z) (ch : client_hello) (limit : Z) (allowed : bool).

(** The ClientHello fits the limit. *)
Hypothesis Hhello : hello_wf ch.
Hypothesis Hlimit : blen (enc_hello ch) <= limit.

(** A packet of the handshake: protected under the connection id, numbered
    from the start, with pieces of the ClientHello. *)
Record cp_ok (cp : client_packet) : Prop := {
  cp_wf : packet_wf (cp_packet cp);
  cp_dcid : ip_dcid (cp_packet cp) = dcid;
  cp_pn : ip_pn (cp_packet cp) < 127;
  cp_payload : ip_payload (cp_packet cp) = enc_frames (cp_frames cp);
  cp_protected : protect_initial HKDF_extract HKDF_expand AES_encrypt AEAD_seal (cp_packet cp) = Some (cp_wire cp);
  cp_bytes : bytes_ok (datagram cp);
  cp_frames_wf : Forall (frame_wf limit) (cp_frames cp);
  cp_pieces : Forall (piece_of (enc_hello ch)) (cp_frames cp)
}.

(** The connection has collected the frames [fs] and has no decision. *)
Record collecting (c : sni_connection_state_t) (fs : list frame) : Prop := {
  cl_dcid : initial_dcid c = dcid;
  cl_decision : decision c = SNI_ROUTE_PENDING;
  cl_fd : fallback_fd c = None;
  cl_crypto : crypto_rel limit (crypto c) (fold_left frame_write fs ∅);
  cl_pieces : Forall (piece_of (enc_hello ch)) fs;
  cl_pn : have_largest_initial_pn c = true -> 0 <= largest_initial_pn c < 127
}.

Abbreviation process_pkt := (process_initial HKDF_extract HKDF_expand AES_encrypt AEAD_open E).
Abbreviation whole fs := (complete (length (enc_hello ch)) fs).

(** The answer of the router for the ClientHello. *)
Definition route : sni_route_result_t := if allowed then SNI_ROUTE_ACCEPT else SNI_ROUTE_FALLBACK.

(** What a packet does to a connection that waits. *)
Definition advanced (ptr : Z) (c0 c1 : sni_connection_state_t) (p : list (bool * list Z)) (fs : list frame) (s0 : sni_router_t) (r : sni_route_result_t) (s' : sni_router_t) : Prop :=
  if whole fs then (r = route \/ r = SNI_ROUTE_ERROR) /\ exists c2, conn_step ptr c0 c2 (p ++ (pair allowed <$> pending c1)) s0 s'
  else r = SNI_ROUTE_PENDING /\ exists c2, conn_step ptr c0 c2 p s0 s' /\ collecting c2 fs /\ pending c2 = pending c1.

Lemma window_ok cp c : cp_ok cp -> (have_largest_initial_pn c = true -> 0 <= largest_initial_pn c < 127) -> pn_in_window (cp_packet cp) (largest_initial_pn c) (have_largest_initial_pn c).
Proof.
  intros [W _ Hpn _ _ _ _ _] Hl. destruct W as [_ _ _ _ W5 W6 _]. set (n := Z.of_nat (ip_pn_len (cp_packet cp))). assert (H8 : 2 ^ 7 <= 2 ^ (8 * n - 1)) by (apply Z.pow_le_mono_r; lia). assert (H9 : 2 ^ 8 <= 2 ^ (8 * n)) by (apply Z.pow_le_mono_r; lia). unfold pn_in_window. fold n. destruct (have_largest_initial_pn c); [specialize (Hl eq_refl); lia|lia].
Qed.

Lemma datagram_len cp : cp_ok cp -> blen (ip_payload (cp_packet cp)) <= blen (datagram cp).
Proof.
  intros [W _ _ _ Hp _ _ _]. destruct (protect_shape _ _ _ _ _ Hcrypto _ _ W Hp) as (low & rest & _ & Lr & Ew). unfold datagram. rewrite Ew, !blen_app. pose proof (blen_nonneg (cp_rest cp)). match goal with |- context [blen (?x :: ?l)] => pose proof (blen_nonneg (x :: l)) end. lia.
Qed.

(** A queued packet of the handshake. *)
Lemma dwp_process_hello ptr c s0 c1 p s cp fs : conn_step ptr c c1 p s0 s -> max_client_hello_bytes (config s0) = limit ->
  allowed = match first_sni (ch_extensions ch) with Some name => sni_router_match (allowed_snis (config s0)) name | None => false end -> collecting c1 fs -> cp_ok cp ->
  dwp (process_pkt ptr (datagram cp) peer) s (advanced ptr c c1 p (fs ++ cp_frames cp) s0).
Proof.
  intros H Elim Eall [L1 L2 L3 L4 L5 L6] Hcp. pose proof Hcp as [W1 W2 W3 W4 W5 W6 W7 W8]. unfold process_initial. apply dwp_bind, dwp_get. apply dwp_bind. eapply dwp_cs_get; [exact H|]. apply dwp_bind, dwp_bind, dwp_get. apply dwp_bind, dwp_modify. apply dwp_ret. rewrite (mem_malloc Hmem). cbn [negb]. set (s1 := s <| calls ::= S |>).
  assert (H1 : conn_step ptr c c1 p s0 s1) by (by destruct H). apply dwp_bind, dwp_bind, dwp_get. apply dwp_bind, dwp_modify. apply dwp_ret. rewrite (mem_malloc Hmem). set (s2 := s1 <| calls ::= S |>). assert (H2 : conn_step ptr c c1 p s0 s2) by (by destruct H1). apply dwp_bind.
  pose proof (decrypt_protected _ _ _ _ _ Hcrypto (cp_packet cp) (cp_wire cp) (cp_rest cp) (blen (datagram cp)) _ _ W1 (window_ok cp c1 Hcp L6) W5 (datagram_len cp Hcp)) as Edec. eapply dwp_lift; [exact Edec|]. apply dwp_bind, dwp_bind, dwp_get. apply dwp_bind, dwp_modify. apply dwp_ret. rewrite (mem_frames Hmem). set (s3 := s2 <| calls ::= S |>). assert (H3 : conn_step ptr c c1 p s0 s3) by (by destruct H2).
  rewrite (cs_config _ _ _ _ _ _ H), Elim, W4. destruct (collect_packet limit (crypto c1) _ (cp_frames cp) L4 W7) as (b & Eb & Hb). rewrite <- fold_left_app in Hb. apply dwp_bind. eapply dwp_lift; [exact Eb|]. apply dwp_bind. eapply dwp_cs_modify; [exact H3|done|done|]. intros s4 H4. cbn [negb]. apply dwp_bind. set (c4 := c1 <| crypto := b |>) in *.
  set (f := fun c : sni_connection_state_t => if negb (have_largest_initial_pn c) || (largest_initial_pn c <? ip_pn (cp_packet cp)) then _ else c). assert (Hf : peer_addr (f c4) = peer_addr c4 /\ fallback_fd (f c4) = None /\ pending (f c4) = pending c1 /\ decision (f c4) = SNI_ROUTE_PENDING /\ crypto (f c4) = b /\ initial_dcid (f c4) = dcid /\ (have_largest_initial_pn (f c4) = true -> 0 <= largest_initial_pn (f c4) < 127)).
  { unfold f. pose proof (pw_pn _ W1). destruct (_ || _) eqn:Eo; cbn [peer_addr fallback_fd pending decision crypto initial_dcid have_largest_initial_pn largest_initial_pn update c4]; split_and!; try done. intros _. lia. }
  destruct Hf as (F1 & F2 & F3 & F4 & F5 & F6 & F7). eapply dwp_cs_modify; [exact H4|exact F1|by rewrite F2|]. intros s5 H5. fold f in H5. set (c5 := f c4) in *. clearbody c5. assert (Hall : Forall (piece_of (enc_hello ch)) (fs ++ cp_frames cp)) by (by apply Forall_app). apply dwp_bind. eapply dwp_lift; [exact (status_of_pieces limit b ch _ Hhello Hlimit Hb Hall)|]. unfold advanced.
  destruct (whole (fs ++ cp_frames cp)); [|apply dwp_ret; split; [done|]; exists c5; split; [exact H5|]; split; [|done]; constructor; try done; by rewrite F5].
  assert (Hdec : forall r, r = route -> dwp (modify_conn ptr (fun c => c <| decision := r |>) ;; ok ← deliver_pending E ptr; mret (route_of ok r)) s5 (fun r s' => (r = route \/ r = SNI_ROUTE_ERROR) /\ exists c2, conn_step ptr c c2 (p ++ (pair allowed <$> pending c1)) s0 s')).
  { intros r ->. apply dwp_bind. eapply dwp_cs_modify; [exact H5|done|done|]. intros s6 H6. apply dwp_bind. eapply dwp_mono; [by apply dwp_deliver_pending|]. intros ok s7 (c7 & H7 & _). apply dwp_ret. split; [destruct ok; [by left|by right]|]. exists c7. unfold routed in H7. cbn [decision pending update] in H7. rewrite F3 in H7.
    replace (bool_decide (route = SNI_ROUTE_ACCEPT)) with allowed in H7; [exact H7|]. unfold route. by destruct allowed. }
  assert (Eroute : route = match first_sni (ch_extensions ch) with Some name => if sni_router_match (allowed_snis (config s0)) name then SNI_ROUTE_ACCEPT else SNI_ROUTE_FALLBACK | None => SNI_ROUTE_FALLBACK end) by (unfold route; rewrite Eall; by destruct (first_sni _)).
  destruct (first_sni (ch_extensions ch)) as [name|]; apply Hdec; by rewrite Eroute.
Qed.

Abbreviation process := (sni_router_process le HKDF_extract HKDF_expand AES_encrypt AEAD_open E).

(** The packet is queued and processed. *)
Lemma dwp_hello_tail ptr c s cp fs : heap s !! ptr = Some c -> max_client_hello_bytes (config s) = limit ->
  allowed = match first_sni (ch_extensions ch) with Some name => sni_router_match (allowed_snis (config s)) name | None => false end -> collecting c fs -> cp_ok cp -> Z.of_nat (length (pending c)) < max_pending_packets (config s) ->
  dwp (now ← ask (env_time E); modify_conn ptr (fun c => c <| last_seen := now |>) ;; queued ← pending_append E ptr (datagram cp);
       if negb queued then accept_pending_and_current E ptr (datagram cp) peer false else process_pkt ptr (datagram cp) peer) s
    (advanced ptr c (c <| pending ::= fun l => l ++ [datagram cp] |>) [] (fs ++ cp_frames cp) s).
Proof.
  intros Hp Elim Eall Hcl Hcp Hlen. apply dwp_bind. eapply dwp_cs_ask; [by apply cs_refl|]. intros now s1 H1. apply dwp_bind. eapply dwp_cs_modify; [exact H1|done|done|]. intros s2 H2. set (c2 := c <| last_seen := now |>) in *. apply dwp_bind. unfold pending_append. apply dwp_bind, dwp_get. apply dwp_bind. eapply dwp_cs_get; [exact H2|]. rewrite (cs_config _ _ _ _ _ _ H2).
  change (pending c2) with (pending c). destruct (Z.leb_spec (max_pending_packets (config s)) (Z.of_nat (length (pending c)))); [lia|]. apply dwp_bind, dwp_bind, dwp_get. apply dwp_bind, dwp_modify. apply dwp_ret. rewrite (mem_malloc Hmem). cbn [negb]. assert (H3 : conn_step ptr c c2 [] s (s2 <| calls ::= S |>)) by (by destruct H2). apply dwp_bind. eapply dwp_cs_modify; [exact H3|done|done|]. intros s4 H4. apply dwp_ret. cbn [negb].
  set (c4 := c2 <| pending ::= fun l => l ++ [datagram cp] |>) in *. eapply dwp_mono; [apply (dwp_process_hello ptr c s c4 [] s4 cp fs); [exact H4|done|done| |done]|]; [by destruct Hcl|]. intros r s5. unfold advanced. done.
Qed.

Hypothesis Hpeer : valid_family peer.

(** The header of a packet of the handshake. *)
Lemma datagram_header cp : cp_ok cp -> exists h, parse_initial_header (datagram cp) = Some (ParseOk h) /\ ih_dcid h = dcid.
Proof.
  intros [W1 W2 _ _ Hp _ _ _]. destruct (protect_shape _ _ _ _ _ Hcrypto _ _ W1 Hp) as (low & rest & Hl & Lr & Ew). unfold datagram. rewrite Ew, <- app_assoc. pose proof (parse_protected (cp_packet cp) low (rest ++ cp_rest cp) W1 Hl) as Epar. cbn zeta in Epar. rewrite Epar by (rewrite blen_app; pose proof (blen_nonneg (cp_rest cp)); lia). eexists. split; [done|]. exact W2.
Qed.

Lemma datagram_args cp peer_len : cp_ok cp -> addr_len_valid (sa_family peer) peer_len = true -> peer_len <= sockaddr_storage_len -> (blen (datagram cp) =? 0) || negb (addr_len_valid (sa_family peer) peer_len) || (sockaddr_storage_len <? peer_len) = false.
Proof.
  intros Hcp Ha Hl. destruct (datagram_header cp Hcp) as (h & Eh & _). rewrite Ha. unfold parse_initial_header in Eh. destruct (Z.ltb_spec (blen (datagram cp)) 7); [done|]. cmp_cases.
Qed.

(** A packet of a peer whose connection waits. *)
Lemma dwp_process_next s ptr c cp fs peer_len : router_ok le s -> heap s !! ptr = Some c -> peer_addr c = peer -> max_client_hello_bytes (config s) = limit ->
  allowed = match first_sni (ch_extensions ch) with Some name => sni_router_match (allowed_snis (config s)) name | None => false end -> collecting c fs -> cp_ok cp -> Z.of_nat (length (pending c)) < max_pending_packets (config s) ->
  addr_len_valid (sa_family peer) peer_len = true -> peer_len <= sockaddr_storage_len ->
  dwp (process (datagram cp) peer peer_len) s (fun r s' => router_ok le s' /\ config s' = config s /\ advanced ptr c (c <| pending ::= fun l => l ++ [datagram cp] |>) [] (fs ++ cp_frames cp) s r s').
Proof.
  intros Hr Hp Ha Elim Eall Hcl Hcp Hlen Hfam Hpl. pose proof (dwp_process le E HKDF_extract HKDF_expand AES_encrypt AEAD_seal AEAD_open Hcrypto Henv s (datagram cp) peer peer_len Hr (cp_bytes cp Hcp)) as Hdp.
  assert (Hgo : dwp (process (datagram cp) peer peer_len) s (advanced ptr c (c <| pending ::= fun l => l ++ [datagram cp] |>) [] (fs ++ cp_frames cp) s)).
  { unfold sni_router_process. rewrite (datagram_args cp peer_len Hcp Hfam Hpl). destruct (datagram_header cp Hcp) as (h & Eh & Ed). apply dwp_bind. eapply dwp_lift; [exact Eh|]. apply dwp_bind. unfold current_connection. apply dwp_bind. eapply dwp_mono; [by apply dwp_connection_lookup|]. intros r s' [-> Hl]. destruct r as [q|]; [|by destruct (Hl ptr c Hp)].
    destruct Hl as (d & Hd & Had). assert (q = ptr) as -> by (destruct Hr as [Ht _]; eapply (to_unique _ _ _ _ _ Ht); [exact Hd|exact Hp|congruence]). assert (d = c) as -> by congruence. apply dwp_bind. unfold get_conn at 1. apply dwp_bind, dwp_get. eapply dwp_lift; [exact Hp|]. rewrite (cl_dcid _ _ Hcl), Ed, (bool_decide_true (dcid = dcid)) by done. cbn [negb]. rewrite andb_false_r. apply dwp_ret.
    apply dwp_bind, dwp_bind. unfold get_conn at 1. apply dwp_bind, dwp_get. eapply dwp_lift; [exact Hp|]. apply dwp_ret. rewrite (cl_decision _ _ Hcl). apply dwp_bind, dwp_ret. by apply dwp_hello_tail. }
  eapply dwp_mono; [exact (dwp_and _ _ _ _ Hdp Hgo)|]. intros r s' [H1 H2]. cbv beta in H1. unfold args_ok in H1. rewrite (datagram_args cp peer_len Hcp Hfam Hpl) in H1. cbn [negb] in H1. destruct H1 as [(G1 & G2 & _)|((G1 & G2 & _) & _)]; done.
Qed.

(** The first packet makes the connection. *)
Lemma dwp_process_first s cp peer_len : router_ok le s -> (forall ptr c, heap s !! ptr = Some c -> peer_addr c <> peer) -> max_client_hello_bytes (config s) = limit ->
  allowed = match first_sni (ch_extensions ch) with Some name => sni_router_match (allowed_snis (config s)) name | None => false end -> cp_ok cp ->
  addr_len_valid (sa_family peer) peer_len = true -> peer_len <= sockaddr_storage_len ->
  dwp (process (datagram cp) peer peer_len) s (fun r s' => router_ok le s' /\ config s' = config s /\ exists ptr c s1, peer_addr c = peer /\ pending c = [] /\ handed peer (log s1) = handed peer (log s) /\ advanced ptr c (c <| pending ::= fun l => l ++ [datagram cp] |>) [] (cp_frames cp) s1 r s').
Proof.
  intros Hr Hn Elim Eall Hcp Hfam Hpl. pose proof (dwp_process le E HKDF_extract HKDF_expand AES_encrypt AEAD_seal AEAD_open Hcrypto Henv s (datagram cp) peer peer_len Hr (cp_bytes cp Hcp)) as Hdp.
  assert (Hgo : dwp (process (datagram cp) peer peer_len) s (fun r s' => exists ptr c s1, peer_addr c = peer /\ pending c = [] /\ handed peer (log s1) = handed peer (log s) /\ advanced ptr c (c <| pending ::= fun l => l ++ [datagram cp] |>) [] (cp_frames cp) s1 r s')).
  { unfold sni_router_process. rewrite (datagram_args cp peer_len Hcp Hfam Hpl). destruct (datagram_header cp Hcp) as (h & Eh & Ed). apply dwp_bind. eapply dwp_lift; [exact Eh|]. apply dwp_bind. unfold current_connection. apply dwp_bind. eapply dwp_mono; [by apply dwp_connection_lookup|]. intros r s' [-> Hl]. destruct r as [q|]; [destruct Hl as (d & Hd & Had); by destruct (Hn q d Hd)|].
    apply dwp_ret. apply dwp_bind, dwp_ret. apply dwp_bind. eapply dwp_mono; [apply (dwp_connection_create le E (new_fresh E Henv)); [done|done|done]|]. intros r s1 (H1 & H2 & H3 & H4 & H5). destruct r as [ptr|]; [|destruct H5 as [_ Hm]; by destruct (mem_new Hmem)]. destruct H5 as (now & Hc). set (c := SniConn _ _ _ _ _ _ _ _ _ _ _ _ _ _) in Hc.
    pose proof (to_cfg _ _ _ _ _ (ro_tab _ _ H1)) as [_ Hcf Hcp']. assert (Hcl : collecting c []) by (constructor; [exact Ed|done|done|apply empty_rel; rewrite <- Elim, <- H3; lia|apply Forall_nil_2|done]). eapply dwp_mono; [apply (dwp_hello_tail ptr c s1 cp []); [exact Hc|congruence|rewrite H3; exact Eall|exact Hcl|exact Hcp|change (0 < max_pending_packets (config s1)); lia]|]. intros r s2 H6. exists ptr, c, s1. done. }
  eapply dwp_mono; [exact (dwp_and _ _ _ _ Hdp Hgo)|]. intros r s' [H1 H2]. cbv beta in H1. unfold args_ok in H1. rewrite (datagram_args cp peer_len Hcp Hfam Hpl) in H1. cbn [negb] in H1. destruct H1 as [(G1 & G2 & _)|((G1 & G2 & _) & _)]; done.
Qed.

(** ** The whole handshake *)

Fixpoint process_all (peer_len : Z) (cps : list client_packet) : stM sni_router_t (list sni_route_result_t) :=
  match cps with [] => mret [] | cp :: cps => r ← process (datagram cp) peer peer_len; rs ← process_all peer_len cps; mret (r :: rs) end.

(** The message is complete with the last of the packets. *)
Definition ends_with (fs : list frame) (cps : list client_packet) : Prop :=
  (forall k, (k < length cps)%nat -> whole (fs ++ concat (cp_frames <$> take k cps)) = false) /\ whole (fs ++ concat (cp_frames <$> cps)) = true.

Lemma ends_cons fs cp cps : ends_with fs (cp :: cps) -> match cps with [] => whole (fs ++ cp_frames cp) = true | _ => whole (fs ++ cp_frames cp) = false /\ ends_with (fs ++ cp_frames cp) cps end.
Proof.
  intros [H1 H2]. cbn [fmap list_fmap concat] in H2. destruct cps as [|cp' cps]; [cbn in H2; by rewrite app_nil_r in H2|]. split; [specialize (H1 1%nat ltac:(cbn [length]; lia)); cbn in H1; by rewrite app_nil_r in H1|]. split; [|by rewrite <- app_assoc].
  intros k Hk. specialize (H1 (S k) ltac:(cbn [length] in *; lia)). cbn [take fmap list_fmap concat] in H1. by rewrite <- app_assoc.
Qed.

(** The answers: wait, and at the end the route. *)
Definition answers (n : nat) (rs : list sni_route_result_t) : Prop := exists r, rs = replicate (n - 1) SNI_ROUTE_PENDING ++ [r] /\ (r = route \/ r = SNI_ROUTE_ERROR).

Lemma dwp_process_rest cps s ptr c fs peer_len : cps <> [] -> router_ok le s -> heap s !! ptr = Some c -> peer_addr c = peer -> max_client_hello_bytes (config s) = limit ->
  allowed = match first_sni (ch_extensions ch) with Some name => sni_router_match (allowed_snis (config s)) name | None => false end -> collecting c fs -> Forall cp_ok cps -> Z.of_nat (length (pending c) + length cps) <= max_pending_packets (config s) ->
  addr_len_valid (sa_family peer) peer_len = true -> peer_len <= sockaddr_storage_len -> ends_with fs cps ->
  dwp (process_all peer_len cps) s (fun rs s' => answers (length cps) rs /\ handed peer (log s') = handed peer (log s) ++ (pair allowed <$> pending c ++ (datagram <$> cps))).
Proof.
  intros Hne Hr Hp Ha Elim Eall Hcl Hcps Hlen Hfam Hpl He. revert s ptr c fs Hr Hp Ha Elim Eall Hcl Hlen He. induction Hcps as [|cp cps Hcp Hcps IH]; intros s ptr c fs Hr Hp Ha Elim Eall Hcl Hlen He; [done|]. cbn [process_all length] in *. apply ends_cons in He. apply dwp_bind. eapply dwp_mono; [apply (dwp_process_next s ptr c cp fs peer_len); try done; lia|]. intros r s1 (Hr1 & Ec1 & Hadv). unfold advanced in Hadv. cbn [pending update app] in Hadv.
  apply dwp_bind. destruct cps as [|cp' cps].
  - rewrite He in Hadv. destruct Hadv as [Hres (c2 & Hs2)]. apply dwp_ret, dwp_ret. split; [by exists r|]. rewrite (cs_handed _ _ _ _ _ _ Hs2), decide_True by done. done.
  - destruct He as [Hf He]. rewrite Hf in Hadv. destruct Hadv as [-> (c2 & Hs2 & Hcl2 & Hq2)]. eapply dwp_mono; [eapply (IH ltac:(done) s1 ptr c2); [done|by eapply cs_lookup|by rewrite (cs_peer _ _ _ _ _ _ Hs2)|congruence|by rewrite Ec1|exact Hcl2| |exact He]|].
    { rewrite Hq2, Ec1, length_app. cbn [length] in *. lia. }
    intros rs s2 [(r & -> & Hres) Hh]. apply dwp_ret. split; [exists r; split; [|done]; cbn [length]; by rewrite !Nat.sub_succ, !Nat.sub_0_r|]. rewrite Hh, Hq2, (cs_handed _ _ _ _ _ _ Hs2). case_decide; rewrite app_nil_r, <- app_assoc; done.
Qed.

Lemma dwp_process_all cps s peer_len : cps <> [] -> router_ok le s -> (forall ptr c, heap s !! ptr = Some c -> peer_addr c <> peer) -> max_client_hello_bytes (config s) = limit ->
  allowed = match first_sni (ch_extensions ch) with Some name => sni_router_match (allowed_snis (config s)) name | None => false end -> Forall cp_ok cps -> Z.of_nat (length cps) <= max_pending_packets (config s) ->
  addr_len_valid (sa_family peer) peer_len = true -> peer_len <= sockaddr_storage_len -> ends_with [] cps ->
  dwp (process_all peer_len cps) s (fun rs s' => answers (length cps) rs /\ handed peer (log s') = handed peer (log s) ++ (pair allowed <$> (datagram <$> cps))).
Proof.
  intros Hne Hr Hn Elim Eall Hcps Hlen Hfam Hpl He. destruct Hcps as [|cp cps Hcp Hcps]; [done|]. cbn [process_all length] in *. apply ends_cons in He. apply dwp_bind. eapply dwp_mono; [by apply (dwp_process_first s cp peer_len)|]. intros r s1 (Hr1 & Ec1 & ptr & c & s0 & Ha & Hq & Hh & Hadv). unfold advanced in Hadv. cbn [pending update app] in Hadv, He. rewrite Hq in Hadv. cbn [app] in Hadv.
  apply dwp_bind. destruct cps as [|cp' cps].
  - rewrite He in Hadv. destruct Hadv as [Hres (c2 & Hs2)]. apply dwp_ret, dwp_ret. split; [by exists r|]. rewrite (cs_handed _ _ _ _ _ _ Hs2), decide_True, Hh by done. done.
  - destruct He as [Hf He]. rewrite Hf in Hadv. destruct Hadv as [-> (c2 & Hs2 & Hcl2 & Hq2)]. eapply dwp_mono; [eapply (dwp_process_rest (cp' :: cps) s1 ptr c2); [done|done|by eapply cs_lookup|by rewrite (cs_peer _ _ _ _ _ _ Hs2)|congruence|by rewrite Ec1|exact Hcl2|done| |done|done|exact He]|].
    { rewrite Hq2, Ec1. cbn [length] in *. lia. }
    intros rs s2 [(r & -> & Hres) Hh2]. apply dwp_ret. split; [exists r; split; [|done]; cbn [length]; by rewrite !Nat.sub_succ, !Nat.sub_0_r|]. rewrite Hh2, Hq2, (cs_handed _ _ _ _ _ _ Hs2), Hh. case_decide; rewrite app_nil_r; done.
Qed.

End route.


(** A client of [v.eX.am] before a router for the names below [Ex.am]; the
    second half of its ClientHello arrives first. *)
Definition router_example : sni_router_t := match sni_router_create true config_example with Some s => s | None => Router config_example [] 0 ∅ 0 [] end.

Definition hello_allowed : client_hello :=
  ClientHello [3; 3] (replicate 32 7) [] [19; 1] [0] [OtherExt 43 [2; 3; 4]; ServerName [(0, [118; 46; 101; 88; 46; 97; 109])]].

Definition packet_of (pn : Z) (fs : list frame) : client_packet :=
  let p := InitialPacket QUIC_V1 [1; 2; 3; 4; 5; 6; 7; 8] [9] [] 1 pn (enc_frames fs) in
  ClientPacket p fs (default [] (protect_initial toy_extract toy_expand toy_aes toy_seal p)) [0; 0].

Definition packets_example : list client_packet :=
  [packet_of 0 [FCrypto 30 (drop 30 (enc_hello hello_allowed))]; packet_of 1 [FPing; FCrypto 0 (take 40 (enc_hello hello_allowed)); FPadding]].

Lemma hello_allowed_wf : hello_wf hello_allowed.
Proof.
  constructor; try (vm_compute; reflexivity); [apply bytes_okb_ok; vm_compute; reflexivity|]. cbn [ch_extensions hello_allowed]. repeat first [apply Forall_cons_2|apply Forall_nil_2]; unfold ext_wf; (split; [cbn; lia|]); (split; [apply bytes_okb_ok; vm_compute; reflexivity|]); (split; [vm_compute; reflexivity|]); try done.
  apply Forall_cons_2; [|apply Forall_nil_2]. split; [cbv; split; [intros [=]|reflexivity]|]. split; [apply bytes_okb_ok; vm_compute; reflexivity|vm_compute; reflexivity].
Qed.

Lemma packet_of_ok pn fs : 0 <= pn < 127 -> bytes_okb (enc_frames fs) = true -> 4 <= 1 + blen (enc_frames fs) < 2 ^ 61 -> protect_initial toy_extract toy_expand toy_aes toy_seal (cp_packet (packet_of pn fs)) = Some (cp_wire (packet_of pn fs)) -> bytes_okb (datagram (packet_of pn fs)) = true ->
  Forall (frame_wf 65536) fs -> Forall (piece_of (enc_hello hello_allowed)) fs -> cp_ok toy_extract toy_expand toy_aes toy_seal [1; 2; 3; 4; 5; 6; 7; 8] hello_allowed 65536 (packet_of pn fs).
Proof.
  intros Hpn Hb Hlen Hprot Hd Hf Hp. constructor; [|done|cbn; lia|done|done|by apply bytes_okb_ok|done|done]. constructor; [by left|split; [by apply bytes_okb_ok|done]|split; [by apply bytes_okb_ok|done]|split; [by apply bytes_okb_ok|done]|cbn; lia|cbn [ip_pn cp_packet packet_of]; lia|split; [by apply bytes_okb_ok|exact Hlen]].
Qed.

