(* ===== verification/TcpLane.v ===== *)
(** * The TCP lane of the client: flows and their table
    ([src/hybrid/tcp_lane.c], [src/hybrid/tcp_lane_internal.h],
    [src/hybrid/tcp_lane.h])

    Inner TCP connections that lwIP terminates and HTTP/3 streams carry.  A
    flow is an object of the heap [flows]; the chains of the hash table and the
    list of flows bound to a stream hold its address, so that a use of a freed
    flow, or of a NULL [lane], [pcb] or [h3_request], is [None].  lwIP and xquic
    are an environment asked with a counter; what they keep for the lane is in
    [tcp_args] (the callback argument of a pcb) and [h3_streams] (the request
    of a stream).  The log holds the calls that cross the border, the latest
    first.  A pbuf is the list of its payloads, one per element of the chain;
    the release of pbufs is not modelled. *)

From S2P Require Import Prelude StateOpt CString Wire ReorderTx Hybrid Client.

(** ** Data *)

Inductive mqvpn_tcp_flow_state_t :=
  | TCP_FLOW_STICKY_RAW | TCP_FLOW_PENDING_ACCEPT | TCP_FLOW_PENDING_STREAM | TCP_FLOW_ACTIVE | TCP_FLOW_CLOSING.

#[export] Instance tcp_flow_state_eq_dec : EqDecision mqvpn_tcp_flow_state_t.
Proof. solve_decision. Defined.

Inductive tcp_lane_flow_status_t := TCP_LANE_FLOW_LIVE | TCP_LANE_FLOW_GONE | TCP_LANE_FLOW_ABORTED.

#[export] Instance tcp_lane_flow_status_eq_dec : EqDecision tcp_lane_flow_status_t.
Proof. solve_decision. Defined.

(** The results of lwIP; the ones the lane tells apart have a name. *)
Inductive err_t := ERR_OK | ERR_MEM | ERR_VAL | ERR_ABRT | ERR_OTHER (code : Z).

#[export] Instance err_eq_dec : EqDecision err_t.
Proof. solve_decision. Defined.

Abbreviation pbuf := (list (list Z)).
Definition tot_len (p : pbuf) : Z := blen (concat p).

Record mqvpn_tcp_uplink_node_t := UplinkNode { un_p : pbuf; un_offset : Z }.

(** [ip_addr_t]: the family and the bytes in network order. *)
Record ip_addr_t := IpAddr { ip_is_v6 : bool; ip_bytes : list Z }.

(** [pcb] and the other pointers are addresses; [f_lane] says whether [lane]
    is set; [downlink_stash] is the buffer, when there is one. *)
Record mqvpn_tcp_flow_t := TcpFlow {
  f_key : mqvpn_flow_key_t;
  f_state : mqvpn_tcp_flow_state_t;
  f_last_activity_us : Z;
  syn_isn : Z;
  f_pcb : option Z;
  target_ip : ip_addr_t;
  target_port : Z;
  f_h3_request : option Z;
  f_stream : option Z;
  uplink_q : list mqvpn_tcp_uplink_node_t;
  uplink_queued_bytes : Z;
  uplink_withheld_recved : Z;
  uplink_withheld : bool;
  downlink_paused : bool;
  fin_sent_to_h3 : bool;
  fin_received_from_h3 : bool;
  tcp_fin_seen : bool;
  downlink_stash : option (list Z);
  downlink_stash_len : Z;
  f_lane : bool
}.

#[export] Instance eta_tcp_flow : Settable mqvpn_tcp_flow_t := fun r =>
  TcpFlow (f_key r) (f_state r) (f_last_activity_us r) (syn_isn r) (f_pcb r) (target_ip r) (target_port r) (f_h3_request r) (f_stream r)
    (uplink_q r) (uplink_queued_bytes r) (uplink_withheld_recved r) (uplink_withheld r) (downlink_paused r) (fin_sent_to_h3 r)
    (fin_received_from_h3 r) (tcp_fin_seen r) (downlink_stash r) (downlink_stash_len r) (f_lane r).

Record mqvpn_tcp_lane_stats_t := LaneStats {
  flows_active : Z;
  flows_total : Z;
  flows_rejected_cap : Z;
  flows_rejected_other : Z;
  flows_idle_evicted : Z;
  raw_markers_active : Z
}.

#[export] Instance eta_lane_stats : Settable mqvpn_tcp_lane_stats_t := fun r =>
  LaneStats (flows_active r) (flows_total r) (flows_rejected_cap r) (flows_rejected_other r) (flows_idle_evicted r) (raw_markers_active r).

(** Calls of lwIP and xquic by the lane ([Fx]), and frames that lwIP and xquic
    enter ([In]): a delivery or a FIN, the result a callback returned, a pcb
    freed by lwIP, a request destroyed by xquic. *)
Inductive tcp_fx :=
  | FxAttach (pcb f : Z)
  | FxDetach (pcb : Z)
  | FxRecved (pcb n : Z)
  | FxWrite (pcb : Z) (data : list Z) (err : err_t)
  | FxShutdown (pcb : Z) (err : err_t)
  | FxOutput (pcb : Z)
  | FxAbort (pcb : Z)
  | FxClose (pcb : Z)
  | FxCreate (req stream : Z)
  | FxHeaders (req : Z) (headers : list (list Z * list Z)) (ret : Z)
  | FxBind (pcb req : Z)
  | FxSend (req : Z) (data : list Z) (fin : bool) (ret : Z)
  | FxBody (req : Z) (data : list Z) (fin : bool)
  | FxNotify (req : Z) (enabled : bool)
  | FxH3Close (req : Z)
  | InFrame (pcb : Z)
  | InData (pcb : Z) (data : list Z)
  | InFin (pcb : Z)
  | InReturn (pcb : Z) (err : err_t)
  | InPcbFreed (pcb : Z)
  | InRequestGone (req : Z).

(** The lane and what is outside of it. *)
Record mqvpn_tcp_lane_t := TcpLane {
  tl_cfg : mqvpn_hybrid_config_t;
  hash_seed : Z;
  buckets : list (list Z);
  n_tcp_flows : Z;
  n_raw_markers : Z;
  n_closing : Z;
  last_sweep_us : Z;
  tl_stats : mqvpn_tcp_lane_stats_t;
  bound : list Z;
  flows : gmap Z mqvpn_tcp_flow_t;
  tcp_args : gmap Z Z;
  h3_streams : gmap Z Z;
  tl_calls : nat;
  tl_reads : nat;
  tl_log : list tcp_fx
}.

#[export] Instance eta_tcp_lane : Settable mqvpn_tcp_lane_t := fun r =>
  TcpLane (tl_cfg r) (hash_seed r) (buckets r) (n_tcp_flows r) (n_raw_markers r) (n_closing r) (last_sweep_us r) (tl_stats r) (bound r)
    (flows r) (tcp_args r) (h3_streams r) (tl_calls r) (tl_reads r) (tl_log r).

(** The environment.  [te_clock] is NULL or the clock; [te_flow] and
    [te_stream] are the addresses of new objects beside those that exist,
    [te_request] that of a new request; [te_body] is what a read of a body
    gives, after its FIN or before: the result, the bytes written and the FIN.
    [te_reads] bounds the reads after which a body is exhausted for now. *)
Record tcp_env := TcpEnv {
  te_clock : option (nat -> Z);
  te_malloc : nat -> bool;
  te_flow : nat -> gset Z -> option Z;
  te_stream : nat -> gset Z -> option Z;
  te_request : nat -> gset Z -> option Z;
  te_h3_conn : nat -> bool;
  te_headers : nat -> Z;
  te_send : nat -> Z -> Z;
  te_unsent : nat -> Z;
  te_notify : nat -> bool;
  te_body : bool -> nat -> Z -> Z * list Z * bool;
  te_reads : nat;
  te_sndbuf : nat -> Z;
  te_write : nat -> err_t;
  te_shutdown : nat -> err_t;
  te_copy : pbuf -> Z -> Z -> list Z;
  te_inet_ntop6 : list Z -> option (list Z);
  te_EAGAIN : Z
}.

(** The client's settings that a request names. *)
Record lane_client := LaneClient { server_host : list Z; server_port : Z; auth_key : list Z }.

(** The sizes of a build profile: the pool of pcbs, the caps of the two kinds
    of markers and the watermarks. *)
Record lane_profile := LaneProfile {
  MEMP_NUM_TCP_PCB : Z;
  TCP_LANE_RAW_MARKER_CAP : Z;
  TCP_LANE_CLOSING_CAP : Z;
  BP_HIGH_WATER : Z;
  BP_LOW_WATER : Z;
  TCP_WND : Z
}.

Definition profile_default : lane_profile := LaneProfile 8192 4096 4096 262144 65536 (65535 * 8).
Definition profile_android : lane_profile := LaneProfile 512 4096 4096 262144 65536 (65535 * 8).
Definition profile_ios : lane_profile := LaneProfile 128 256 256 (65535 * 4 / 2) (65535 * 4 / 8) (65535 * 4).

Definition TCP_MSS : Z := 8960.
Definition TCP_MSL : Z := 60000.
Definition TCP_LANE_CLOSING_GRACE_US : Z := 2 * TCP_MSL * 1000.
Definition H3_SEND_AGAIN : Z := -1.
Definition H3_SEND_ERR : Z := -2.
Definition H3_RECV_AGAIN : Z := -1.
Definition H3_RECV_ERR : Z := -2.

(** Whether the FIN of a request's body has been reported. *)
Fixpoint fin_reported (req : Z) (l : list tcp_fx) : bool :=
  match l with
  | [] => false
  | FxCreate r _ :: l => if r =? req then false else fin_reported req l
  | FxBody r _ fin :: l => if r =? req then fin || fin_reported req l else fin_reported req l
  | _ :: l => fin_reported req l
  end.

(** ** The monad *)

Abbreviation T := (stM mqvpn_tcp_lane_t).

Definition t_ask {A} (f : nat -> A) : T A := fun s => Some (f (tl_calls s), s <| tl_calls ::= S |>).
Definition t_emit (e : tcp_fx) : T unit := d_modify (fun s => s <| tl_log ::= cons e |>).
Definition t_assert (b : bool) : T unit := d_lift (if b then Some tt else None).
Definition get_flow (p : Z) : T mqvpn_tcp_flow_t := s ← d_get; d_lift (flows s !! p).
Definition set_flow (p : Z) (g : mqvpn_tcp_flow_t -> mqvpn_tcp_flow_t) : T unit :=
  f ← get_flow p; d_modify (fun s => s <| flows ::= <[p := g f]> |>).

(** The list without the first occurrence; [None] when there is none. *)
Fixpoint unlink (l : list Z) (x : Z) : option (list Z) :=
  match l with
  | [] => None
  | y :: l => if y =? x then Some l else r ← unlink l x; Some (y :: r)
  end.

Section lane.
Context (E : tcp_env) (C : lane_client) (P : lane_profile).

(** [lane->clock_fn ? lane->clock_fn (lane->clock_ctx) : 0]. *)
Definition clock_or_0 : T Z := match te_clock E with Some now => t_ask now | None => mret 0 end.

(** ** The table *)

(** [f->stream] and the list of the flows that have one. *)
Definition flow_set_stream (p : Z) (stream : option Z) : T unit :=
  f ← get_flow p;
  match stream, f_stream f with
  | Some _, None => d_modify (fun s => s <| bound ::= cons p |>)
  | None, Some _ => s ← d_get; b ← d_lift (unlink (bound s) p); d_modify (fun s => s <| bound := b |>)
  | _, _ => d_skip
  end ;;
  set_flow p (fun f => f <| f_stream := stream |>).

(** [ok_lane] and [ok_buckets] are the answers of the two [calloc]s. *)
Definition mqvpn_tcp_lane_new (ok_lane ok_buckets : bool) (cfg : option mqvpn_hybrid_config_t) (seed : Z) : option mqvpn_tcp_lane_t :=
  match cfg with
  | None => None
  | Some cfg =>
      if negb ok_lane then None
      else
        let cfg := if MEMP_NUM_TCP_PCB P / 2 <? tcp_max_flows cfg then cfg <| tcp_max_flows := MEMP_NUM_TCP_PCB P / 2 |> else cfg in
        let n := pick_buckets (u32 (tcp_max_flows cfg + TCP_LANE_RAW_MARKER_CAP P)) in
        if negb ok_buckets then None
        else Some (TcpLane cfg seed (replicate (Z.to_nat n) []) 0 0 0 0 (LaneStats 0 0 0 0 0 0) [] ∅ ∅ ∅ 0 0 [])
  end.

(** [hash & (n_buckets - 1)]. *)
Definition bucket_of (seed : Z) (n : nat) (key : mqvpn_flow_key_t) : nat :=
  Z.to_nat (u32 (Z.land (mqvpn_flow_key_hash key seed) (u32 (Z.of_nat n - 1)))).

Definition lane_bucket (s : mqvpn_tcp_lane_t) (key : mqvpn_flow_key_t) : nat := bucket_of (hash_seed s) (length (buckets s)) key.

Fixpoint find_in_chain (chain : list Z) (key : mqvpn_flow_key_t) : T (option Z) :=
  match chain with
  | [] => mret None
  | p :: chain => f ← get_flow p; if mqvpn_flow_key_eq (f_key f) key then mret (Some p) else find_in_chain chain key
  end.

Definition find_flow (key : mqvpn_flow_key_t) : T (option Z) :=
  s ← d_get; chain ← d_lift (buckets s !! lane_bucket s key); find_in_chain chain key.

(** [None] when there is no entry; else [(raw, closing)]. *)
Definition mqvpn_tcp_lane_lookup (key : mqvpn_flow_key_t) : T (option (bool * bool)) :=
  o ← find_flow key;
  match o with
  | None => mret None
  | Some p => f ← get_flow p; mret (Some (bool_decide (f_state f = TCP_FLOW_STICKY_RAW), bool_decide (f_state f = TCP_FLOW_CLOSING)))
  end.

Definition mqvpn_tcp_lane_marker_isn (key : mqvpn_flow_key_t) : T Z :=
  o ← find_flow key;
  match o with
  | None => mret 0
  | Some p => f ← get_flow p; mret (if negb (bool_decide (f_state f = TCP_FLOW_STICKY_RAW)) then 0 else syn_isn f)
  end.

Definition tcp_lane_uplink_queue_free (p : Z) : T unit :=
  set_flow p (fun f => f <| uplink_q := [] |> <| uplink_queued_bytes := 0 |>).

Definition tcp_lane_downlink_stash_free (p : Z) : T unit :=
  set_flow p (fun f => f <| downlink_stash := None |> <| downlink_stash_len := 0 |>).

Definition tcp_lane_remove_flow (p : Z) : T unit :=
  f ← get_flow p;
  s ← d_get;
  let b := lane_bucket s (f_key f) in
  chain ← d_lift (buckets s !! b);
  match unlink chain p with
  | Some chain => d_modify (fun s => s <| buckets ::= <[b := chain]> |>)
  | None => d_skip
  end ;;
  match f_state f with
  | TCP_FLOW_STICKY_RAW => d_modify (fun s => s <| n_raw_markers ::= fun n => u32 (n - 1) |>)
  | TCP_FLOW_CLOSING => d_modify (fun s => s <| n_closing ::= fun n => u32 (n - 1) |>)
  | _ => d_modify (fun s => s <| n_tcp_flows ::= fun n => u32 (n - 1) |>)
  end ;;
  flow_set_stream p None ;;
  tcp_lane_uplink_queue_free p ;;
  tcp_lane_downlink_stash_free p ;;
  d_modify (fun s => s <| flows ::= delete p |>).

(** A new flow, as [calloc] and [mqvpn_tcp_lane_on_syn] leave it. *)
Definition new_flow (key : mqvpn_flow_key_t) (to_tcp : bool) (isn now : Z) : mqvpn_tcp_flow_t :=
  TcpFlow key (if to_tcp then TCP_FLOW_PENDING_ACCEPT else TCP_FLOW_STICKY_RAW) now isn None (IpAddr false []) 0 None None
    [] 0 0 false false false false false None 0 to_tcp.

Definition bump_stat (proj : mqvpn_tcp_lane_stats_t -> Z) {_ : Setter proj} : T unit :=
  d_modify (fun s => s <| tl_stats ::= fun st => st <| proj ::= fun n => u64 (n + 1) |> |>).

(** Whether the SYN was committed. *)
Definition mqvpn_tcp_lane_on_syn (key : mqvpn_flow_key_t) (to_tcp : bool) (isn : Z) : T bool :=
  existing ← find_flow key;
  dup ← match existing with
        | None => mret false
        | Some p =>
            f ← get_flow p;
            if bool_decide (f_state f = TCP_FLOW_CLOSING) || bool_decide (f_state f = TCP_FLOW_STICKY_RAW)
            then tcp_lane_remove_flow p ;; mret false
            else bump_stat flows_rejected_other ;; mret true
        end;
  if (dup : bool) then mret false
  else
    s ← d_get;
    if to_tcp && (tcp_max_flows (tl_cfg s) <=? n_tcp_flows s) then bump_stat flows_rejected_cap ;; mret false
    else if negb to_tcp && (TCP_LANE_RAW_MARKER_CAP P <=? n_raw_markers s) then mret false
    else
      o ← t_ask (fun n => te_flow E n (dom (flows s)));
      match o with
      | None => bump_stat flows_rejected_other ;; mret false
      | Some p =>
          now ← clock_or_0;
          let b := lane_bucket s key in
          chain ← d_lift (buckets s !! b);
          d_modify (fun s => s <| flows ::= <[p := new_flow key to_tcp isn now]> |> <| buckets ::= <[b := p :: chain]> |>) ;;
          bump_stat flows_total ;;
          (if to_tcp then d_modify (fun s => s <| n_tcp_flows ::= fun n => u32 (n + 1) |>)
           else d_modify (fun s => s <| n_raw_markers ::= fun n => u32 (n + 1) |>)) ;;
          mret true
      end.

Definition mqvpn_tcp_lane_get_stats (s : mqvpn_tcp_lane_t) : mqvpn_tcp_lane_stats_t :=
  (tl_stats s) <| flows_active := n_tcp_flows s |> <| raw_markers_active := n_raw_markers s |>.

Definition mqvpn_tcp_lane_effective_max_flows (lane : option mqvpn_tcp_lane_t) : Z :=
  match lane with Some s => tcp_max_flows (tl_cfg s) | None => 0 end.

Definition mqvpn_tcp_lane_pool_flow_bound : Z := MEMP_NUM_TCP_PCB P / 2.

(** The first flow bound to a stream. *)
Fixpoint find_bound (l : list Z) (stream : Z) : T (option Z) :=
  match l with
  | [] => mret None
  | p :: l => f ← get_flow p; if bool_decide (f_stream f = Some stream) then mret (Some p) else find_bound l stream
  end.

Definition find_flow_by_stream (stream : Z) : T (option Z) := s ← d_get; find_bound (bound s) stream.

(** ** Teardown *)

(** [tcp_arg], [tcp_recv], [tcp_sent] and [tcp_err] with NULL. *)
Definition detach_pcb (pcb : Z) : T unit := t_emit (FxDetach pcb) ;; d_modify (fun s => s <| tcp_args ::= delete pcb |>).

(** Whether a pcb was aborted. *)
Definition tcp_lane_silent_abort_pcb (p : Z) : T bool :=
  f ← get_flow p;
  match f_pcb f with
  | None => mret false
  | Some pcb => detach_pcb pcb ;; t_emit (FxAbort pcb) ;; set_flow p (fun f => f <| f_pcb := None |>) ;; mret true
  end.

Definition cli_tcp_lane_h3_close (req : Z) : T unit := t_emit (FxH3Close req).

Definition tcp_lane_close_h3 (p : Z) : T unit :=
  f ← get_flow p;
  match f_h3_request f with
  | None => d_skip
  | Some req =>
      cli_tcp_lane_h3_close req ;;
      set_flow p (fun f => f <| f_h3_request := None |>) ;;
      t_assert (f_lane f) ;;
      flow_set_stream p None
  end.

Definition tcp_lane_teardown_flow (p : Z) (close_h3 : bool) : T tcp_lane_flow_status_t :=
  (if close_h3 then tcp_lane_close_h3 p
   else set_flow p (fun f => f <| f_h3_request := None |>) ;; flow_set_stream p None) ;;
  aborted ← tcp_lane_silent_abort_pcb p;
  f ← get_flow p;
  t_assert (f_lane f) ;;
  tcp_lane_remove_flow p ;;
  mret (if (aborted : bool) then TCP_LANE_FLOW_ABORTED else TCP_LANE_FLOW_GONE).

(** The walk for the CLOSING flow with the smallest time; the first of equals. *)
Fixpoint oldest_closing (l : list Z) (oldest : option (Z * Z)) : T (option (Z * Z)) :=
  match l with
  | [] => mret oldest
  | p :: l =>
      f ← get_flow p;
      oldest_closing l
        (if bool_decide (f_state f = TCP_FLOW_CLOSING) then
           match oldest with
           | None => Some (p, f_last_activity_us f)
           | Some (_, t) => if f_last_activity_us f <? t then Some (p, f_last_activity_us f) else oldest
           end
         else oldest)
  end.

Definition tcp_lane_evict_oldest_closing : T unit :=
  s ← d_get;
  o ← oldest_closing (concat (buckets s)) None;
  match o with None => d_skip | Some (p, _) => tcp_lane_remove_flow p end.

Definition tcp_lane_mark_closing (p : Z) : T unit :=
  f ← get_flow p;
  t_assert (f_lane f) ;;
  s ← d_get;
  (if TCP_LANE_CLOSING_CAP P <=? n_closing s then tcp_lane_evict_oldest_closing else d_skip) ;;
  d_modify (fun s => s <| n_tcp_flows ::= fun n => u32 (n - 1) |> <| n_closing ::= fun n => u32 (n + 1) |>) ;;
  now ← clock_or_0;
  set_flow p (fun f => f <| f_state := TCP_FLOW_CLOSING |> <| f_last_activity_us := now |>) ;;
  tcp_lane_downlink_stash_free p.

Definition mqvpn_tcp_lane_on_relay_error (p : Z) : T tcp_lane_flow_status_t := tcp_lane_teardown_flow p true.

Definition tcp_lane_finish_clean_close (p : Z) : T unit :=
  f ← get_flow p;
  match f_pcb f with
  | None => d_skip
  | Some pcb => detach_pcb pcb ;; t_emit (FxClose pcb) ;; set_flow p (fun f => f <| f_pcb := None |>)
  end ;;
  set_flow p (fun f => f <| f_h3_request := None |>) ;;
  flow_set_stream p None ;;
  tcp_lane_mark_closing p.

End lane.

(** * The TCP lane of the client: the two directions of a flow
    ([src/hybrid/tcp_lane_uplink.c], [src/hybrid/tcp_lane.c], and the calls of
    xquic of [src/mqvpn_client.c])

    Uplink: lwIP delivers bytes, they go to the body of the HTTP/3 request, or
    wait in the queue; the window is opened again with [tcp_recved], at once or
    when the backlog is gone.  Downlink: the body of the response is read and
    written to the pcb; what does not fit waits in the stash. *)

Section relay.
Context (E : tcp_env) (P : lane_profile).

(** ** Calls of xquic *)

Definition cli_tcp_lane_h3_send (req : Z) (data : list Z) (fin : bool) : T Z :=
  ret ← t_ask (fun n => te_send E n (blen data));
  let ret := if ret =? - te_EAGAIN E then H3_SEND_AGAIN else if ret <? 0 then H3_SEND_ERR else ret in
  t_emit (FxSend req data fin ret) ;;
  mret ret.

Definition cli_tcp_lane_h3_unsent_queue_bytes : T Z := t_ask (te_unsent E).

Definition cli_tcp_lane_h3_set_write_notify (req : Z) (enabled : bool) : T Z :=
  ok ← t_ask (te_notify E);
  t_emit (FxNotify req enabled) ;;
  mret (if (ok : bool) then 0 else -1).

(** The result, what was read and the FIN. *)
Definition cli_tcp_lane_h3_recv (req : Z) (len : Z) : T (Z * list Z * bool) :=
  s ← d_get;
  d_modify (fun s => s <| tl_reads ::= S |>) ;;
  let '(n, buf, fin) := te_body E (fin_reported req (tl_log s)) (tl_reads s) len in
  if n =? - te_EAGAIN E then mret (H3_RECV_AGAIN, [], false)
  else if n <? 0 then mret (H3_RECV_ERR, [], false)
  else t_emit (FxBody req buf fin) ;; mret (n, buf, fin).

(** ** Uplink *)

Definition tcp_lane_uplink_xquic_bytes (p : Z) : T Z :=
  f ← get_flow p;
  match f_h3_request f with Some _ => cli_tcp_lane_h3_unsent_queue_bytes | None => mret 0 end.

Definition tcp_lane_uplink_withhold (p : Z) : T unit :=
  set_flow p (fun f => f <| uplink_withheld := true |>) ;;
  f ← get_flow p;
  match f_h3_request f with
  | Some req => _ ← cli_tcp_lane_h3_set_write_notify req true; d_skip
  | None => d_skip
  end.

(** The steps of at most 65535; [fuel] of them reach any 32-bit length. *)
Fixpoint recved_loop (fuel : nat) (pcb len : Z) : T unit :=
  if 0 <? len then
    match fuel with
    | O => d_lift None
    | S fuel => let chunk := if 65535 <? len then 65535 else len in t_emit (FxRecved pcb chunk) ;; recved_loop fuel pcb (len - chunk)
    end
  else d_skip.

Definition tcp_lane_recved (pcb len : Z) : T unit := recved_loop (S (Z.to_nat (len / 65535))) pcb len.

(** The bytes of a pbuf that are offered from an offset on. *)
Definition pbuf_chunk (b : pbuf) (offset : Z) : option (list Z) :=
  let rest := u16 (tot_len b - offset) in
  match b with
  | [payload] => rdn payload offset rest
  | _ => Some (te_copy E b (if TCP_MSS <? rest then TCP_MSS else rest) offset)
  end.

(** The new offset; [None] for -1.  A round that does not leave the loop takes
    a byte at least. *)
Fixpoint send_from_loop (fuel : nat) (p : Z) (b : pbuf) (offset : Z) : T (option Z) :=
  if negb (offset <? tot_len b) then mret (Some offset)
  else
    match fuel with
    | O => d_lift None
    | S fuel =>
        chunk ← d_lift (pbuf_chunk b offset);
        if negb (length b =? 1)%nat && (blen chunk =? 0) then mret None
        else
          f ← get_flow p;
          req ← d_lift (f_h3_request f);
          sent ← cli_tcp_lane_h3_send req chunk false;
          if sent =? H3_SEND_AGAIN then mret (Some offset)
          else if sent <? 0 then mret None
          else
            let offset := u16 (offset + u16 sent) in
            if sent <? blen chunk then mret (Some offset)
            else
              full ← (if offset <? tot_len b then x ← tcp_lane_uplink_xquic_bytes p; mret (BP_HIGH_WATER P <=? x) else mret false);
              if (full : bool) then tcp_lane_uplink_withhold p ;; mret (Some offset) else send_from_loop fuel p b offset
    end.

Definition tcp_lane_uplink_send_from (p : Z) (b : pbuf) (offset : Z) : T (option Z) :=
  send_from_loop (S (length (concat b))) p b offset.

(** Whether there was memory for the node. *)
Definition tcp_lane_uplink_stash (p : Z) (b : pbuf) (offset : Z) : T bool :=
  ok ← t_ask (te_malloc E);
  if negb ok then mret false
  else
    set_flow p (fun f => f <| uplink_q ::= fun q => q ++ [UplinkNode b offset] |>
                           <| uplink_queued_bytes ::= fun n => u32 (n + u32 (tot_len b - offset)) |>) ;;
    mret true.

Definition tcp_lane_uplink_maybe_fin (p : Z) : T tcp_lane_flow_status_t :=
  f ← get_flow p;
  match f_h3_request f with
  | Some req =>
      if negb (bool_decide (f_state f = TCP_FLOW_ACTIVE)) || negb (tcp_fin_seen f) || fin_sent_to_h3 f || negb (length (uplink_q f) =? 0)%nat
      then mret TCP_LANE_FLOW_LIVE
      else
        r ← cli_tcp_lane_h3_send req [] true;
        if r =? H3_SEND_ERR then mqvpn_tcp_lane_on_relay_error p
        else if 0 <=? r then
          set_flow p (fun f => f <| fin_sent_to_h3 := true |>) ;;
          if fin_received_from_h3 f then tcp_lane_finish_clean_close E P p ;; mret TCP_LANE_FLOW_GONE
          else mret TCP_LANE_FLOW_LIVE
        else mret TCP_LANE_FLOW_LIVE
  | None => mret TCP_LANE_FLOW_LIVE
  end.

(** The queue is drained in order; [false] for a relay error.  A round that
    does not leave the loop takes a node. *)
Fixpoint flush_loop (fuel : nat) (p : Z) : T bool :=
  f ← get_flow p;
  match uplink_q f with
  | [] => mret true
  | n :: q =>
      match fuel with
      | O => d_lift None
      | S fuel =>
          x ← tcp_lane_uplink_xquic_bytes p;
          if BP_HIGH_WATER P <=? x then tcp_lane_uplink_withhold p ;; mret true
          else
            o ← tcp_lane_uplink_send_from p (un_p n) (un_offset n);
            match o with
            | None => mret false
            | Some off =>
                set_flow p (fun f => f <| uplink_queued_bytes ::= fun k => u32 (k - u32 (off - un_offset n)) |>
                                       <| uplink_q := UplinkNode (un_p n) (u16 off) :: q |>) ;;
                if u16 off <? tot_len (un_p n) then tcp_lane_uplink_withhold p ;; mret true
                else
                  set_flow p (fun f => f <| uplink_q := q |>) ;;
                  x ← tcp_lane_uplink_xquic_bytes p;
                  if BP_HIGH_WATER P <=? x then tcp_lane_uplink_withhold p ;; mret true else flush_loop fuel p
            end
      end
  end.

(** The end of [tcp_lane_uplink_flush]: the window withheld is opened. *)
Definition flush_resume (p : Z) : T unit :=
  x ← tcp_lane_uplink_xquic_bytes p;
  f ← get_flow p;
  req ← d_lift (f_h3_request f);
  if uplink_withheld f && (length (uplink_q f) =? 0)%nat && (x <=? BP_LOW_WATER P) then
    set_flow p (fun f => f <| uplink_withheld := false |>) ;;
    match f_pcb f with
    | Some pcb => if 0 <? uplink_withheld_recved f then tcp_lane_recved pcb (uplink_withheld_recved f) else d_skip
    | None => d_skip
    end ;;
    set_flow p (fun f => f <| uplink_withheld_recved := 0 |>) ;;
    if negb (tcp_fin_seen f) || fin_sent_to_h3 f then _ ← cli_tcp_lane_h3_set_write_notify req false; d_skip else d_skip
  else if uplink_withheld f then _ ← cli_tcp_lane_h3_set_write_notify req true; d_skip
  else d_skip.

Definition tcp_lane_uplink_flush (p : Z) : T tcp_lane_flow_status_t :=
  f ← get_flow p;
  if negb (bool_decide (f_state f = TCP_FLOW_ACTIVE)) || bool_decide (f_h3_request f = None) then mret TCP_LANE_FLOW_LIVE
  else
    ok ← flush_loop (S (length (uplink_q f))) p;
    if negb ok then mqvpn_tcp_lane_on_relay_error p
    else
      st ← tcp_lane_uplink_maybe_fin p;
      if negb (bool_decide (st = TCP_LANE_FLOW_LIVE)) then mret st else flush_resume p ;; mret TCP_LANE_FLOW_LIVE.

Definition tcp_lane_uplink_deliver (p : Z) (b : pbuf) : T tcp_lane_flow_status_t :=
  let tot := tot_len b in
  f ← get_flow p;
  direct ← (if bool_decide (f_state f = TCP_FLOW_ACTIVE) && (length (uplink_q f) =? 0)%nat && negb (bool_decide (f_h3_request f = None))
            then x ← tcp_lane_uplink_xquic_bytes p; mret (x <? BP_HIGH_WATER P) else mret false);
  r ← (if (direct : bool) then tcp_lane_uplink_send_from p b 0 else mret (Some 0));
  match r with
  | None => mqvpn_tcp_lane_on_relay_error p
  | Some off =>
      let off := u16 off in
      if off =? tot then
        f ← get_flow p;
        held ← (if uplink_withheld f then mret true else x ← tcp_lane_uplink_xquic_bytes p; mret (BP_HIGH_WATER P <=? x));
        (if (held : bool) then
           tcp_lane_uplink_withhold p ;; set_flow p (fun f => f <| uplink_withheld_recved ::= fun n => u32 (n + tot) |>)
         else pcb ← d_lift (f_pcb f); tcp_lane_recved pcb tot) ;;
        mret TCP_LANE_FLOW_LIVE
      else
        ok ← tcp_lane_uplink_stash p b off;
        if negb ok then mqvpn_tcp_lane_on_relay_error p
        else
          f ← get_flow p;
          (if bool_decide (f_state f = TCP_FLOW_ACTIVE) || (BP_HIGH_WATER P <=? uplink_queued_bytes f) then tcp_lane_uplink_withhold p
           else d_skip) ;;
          f ← get_flow p;
          (if uplink_withheld f then set_flow p (fun f => f <| uplink_withheld_recved ::= fun n => u32 (n + tot) |>)
           else pcb ← d_lift (f_pcb f); tcp_lane_recved pcb tot) ;;
          mret TCP_LANE_FLOW_LIVE
  end.

(** ** Downlink *)

Definition tcp_write (pcb : Z) (data : list Z) : T err_t :=
  err ← t_ask (te_write E); t_emit (FxWrite pcb data err) ;; mret err.

(** Whether there was memory; the buffer has [TCP_MSS] bytes. *)
Definition tcp_lane_downlink_stash (p : Z) (data : list Z) : T bool :=
  f ← get_flow p;
  buf ← match downlink_stash f with
        | Some buf => mret (Some buf)
        | None => ok ← t_ask (te_malloc E); mret (if (ok : bool) then Some (replicate (Z.to_nat TCP_MSS) 0) else None)
        end;
  match buf with
  | None => mret false
  | Some buf =>
      buf ← d_lift (wrn buf 0 data);
      set_flow p (fun f => f <| downlink_stash := Some buf |> <| downlink_stash_len := u16 (blen data) |>) ;;
      mret true
  end.

Definition tcp_lane_downlink_maybe_shutdown (p : Z) : T tcp_lane_flow_status_t :=
  f ← get_flow p;
  if fin_received_from_h3 f then mret TCP_LANE_FLOW_LIVE
  else
    set_flow p (fun f => f <| fin_received_from_h3 := true |>) ;;
    pcb ← d_lift (f_pcb f);
    err ← t_ask (te_shutdown E);
    t_emit (FxShutdown pcb err) ;;
    if negb (bool_decide (err = ERR_OK)) then mqvpn_tcp_lane_on_relay_error p
    else if fin_sent_to_h3 f then tcp_lane_finish_clean_close E P p ;; mret TCP_LANE_FLOW_GONE
    else mret TCP_LANE_FLOW_LIVE.

(** The chunk that was read waits in the stash. *)
Definition stash_and_pause (p : Z) (data : list Z) : T bool :=
  ok ← tcp_lane_downlink_stash p data;
  if (ok : bool) then set_flow p (fun f => f <| downlink_paused := true |>) ;; mret true else mret false.

(** One round of the drain: it ends with a status, or the loop is left, or the
    loop goes on; with [wrote_any]. *)
Inductive drain_round := DrainReturn (st : tcp_lane_flow_status_t) | DrainBreak (wrote_any : bool) | DrainGo (wrote_any : bool).

Definition drain_step (p : Z) (wrote_any : bool) : T drain_round :=
  f ← get_flow p;
  req ← d_lift (f_h3_request f);
  '(n, buf, fin) ← cli_tcp_lane_h3_recv req TCP_MSS;
  let fatal := st ← mqvpn_tcp_lane_on_relay_error p; mret (DrainReturn st) in
  let finish wrote := if (fin : bool) then
      st ← tcp_lane_downlink_maybe_shutdown p;
      mret (if bool_decide (st = TCP_LANE_FLOW_LIVE) then DrainBreak wrote else DrainReturn st)
    else mret (DrainGo wrote) in
  if n =? H3_RECV_AGAIN then mret (DrainBreak wrote_any)
  else if n =? H3_RECV_ERR then fatal
  else if (n <=? 0) && negb fin then fatal
  else if 0 <? n then
    data ← d_lift (rdn buf 0 n);
    pcb ← d_lift (f_pcb f);
    room ← t_ask (te_sndbuf E);
    if room <? n then ok ← stash_and_pause p data; if (ok : bool) then mret (DrainBreak wrote_any) else fatal
    else
      werr ← tcp_write pcb data;
      match werr with
      | ERR_MEM => ok ← stash_and_pause p data; if (ok : bool) then mret (DrainBreak wrote_any) else fatal
      | ERR_OK => finish true
      | _ => fatal
      end
  else finish wrote_any.

Fixpoint drain_loop (fuel : nat) (p : Z) (wrote_any : bool) : T tcp_lane_flow_status_t :=
  match fuel with
  | O => d_lift None
  | S fuel =>
      r ← drain_step p wrote_any;
      match r with
      | DrainReturn st => mret st
      | DrainGo wrote_any => drain_loop fuel p wrote_any
      | DrainBreak wrote_any =>
          (if wrote_any then f ← get_flow p; pcb ← d_lift (f_pcb f); t_emit (FxOutput pcb) else d_skip) ;; mret TCP_LANE_FLOW_LIVE
      end
  end.

(** A body is exhausted after [te_reads] reads. *)
Definition tcp_lane_downlink_drain (p : Z) : T tcp_lane_flow_status_t := drain_loop (te_reads E) p false.

Definition tcp_lane_downlink_stash_retry (p : Z) : T tcp_lane_flow_status_t :=
  f ← get_flow p;
  pcb ← d_lift (f_pcb f);
  room ← t_ask (te_sndbuf E);
  if room <? downlink_stash_len f then mret TCP_LANE_FLOW_LIVE
  else
    stash ← d_lift (downlink_stash f);
    data ← d_lift (rdn stash 0 (downlink_stash_len f));
    werr ← tcp_write pcb data;
    match werr with
    | ERR_MEM => mret TCP_LANE_FLOW_LIVE
    | ERR_OK => t_emit (FxOutput pcb) ;; set_flow p (fun f => f <| downlink_stash_len := 0 |> <| downlink_paused := false |>) ;; mret TCP_LANE_FLOW_LIVE
    | _ => mqvpn_tcp_lane_on_relay_error p
    end.

Definition tcp_lane_downlink_pump_status (stream : Z) : T tcp_lane_flow_status_t :=
  o ← find_flow_by_stream stream;
  match o with
  | None => mret TCP_LANE_FLOW_LIVE
  | Some p =>
      f ← get_flow p;
      if bool_decide (f_state f = TCP_FLOW_CLOSING) then mret TCP_LANE_FLOW_LIVE
      else
        st ← (if downlink_paused f then tcp_lane_downlink_stash_retry p else mret TCP_LANE_FLOW_LIVE);
        if negb (bool_decide (st = TCP_LANE_FLOW_LIVE)) then mret st
        else
          f ← get_flow p;
          if downlink_paused f then mret TCP_LANE_FLOW_LIVE
          else if negb (bool_decide (f_state f = TCP_FLOW_ACTIVE)) || bool_decide (f_h3_request f = None) || bool_decide (f_pcb f = None)
          then mret TCP_LANE_FLOW_LIVE
          else tcp_lane_downlink_drain p
  end.

Definition mqvpn_tcp_lane_downlink_pump (stream : Z) : T Z :=
  st ← tcp_lane_downlink_pump_status stream; mret (if bool_decide (st = TCP_LANE_FLOW_LIVE) then 0 else -1).

End relay.
