(* ===== verification/TcpEvent.v ===== *)
(** * The TCP lane of the client: callbacks, requests and the sweep
    ([src/hybrid/tcp_lane.c], [src/mqvpn_client.c])

    What lwIP, xquic and the client's tick call.  [tcp_event] is one such call
    with what it brings; [tcp_step] runs it.  Calls that lwIP or xquic do not
    make, such as one for a pcb without a callback argument or a delivery
    beyond the window, are steps that do nothing. *)

From Stdlib Require Import String.
From S2P Require Import Prelude StateOpt CString Wire ReorderTx Hybrid PathFsm Client TcpLane.

(** A pcb as the accept callback sees it. *)
Record tcp_pcb := TcpPcb { pcb_ptr : Z; remote_ip : ip_addr_t; local_ip : ip_addr_t; remote_port : Z; local_port : Z }.

(** ** Response status *)

(** The first ":status" header, -1 when it is no status code. *)
Fixpoint cli_connect_tcp_parse_status (hdrs : list (list Z * list Z)) : Z :=
  match hdrs with
  | [] => -1
  | (name, value) :: hdrs =>
      if bool_decide (name = text ":status"%string) then
        if (length value =? 0)%nat || (8 <=? length value)%nat then -1
        else
          let buf := cstr value in
          let c := nth 0 value 0 in
          if (c <? 48) || (57 <? c) then -1
          else
            let '(v, rest) := strtol buf in
            if bad_number buf rest || (v <? 100) || (599 <? v) then -1 else v
      else cli_connect_tcp_parse_status hdrs
  end.

Section event.
Context (E : tcp_env) (C : lane_client) (P : lane_profile).

(** ** Opening the request of a flow *)

Definition mqvpn_tcp_lane_bind_h3_request (p req stream : Z) : T unit :=
  f ← get_flow p;
  match f_pcb f with Some pcb => t_emit (FxBind pcb req) | None => d_skip end ;;
  set_flow p (fun f => f <| f_h3_request := Some req |>) ;;
  t_assert (f_lane f) ;;
  flow_set_stream p (Some stream).

Definition mqvpn_tcp_lane_abort_pending (p : Z) : T Z :=
  st ← tcp_lane_teardown_flow p false;
  mret (if bool_decide (st = TCP_LANE_FLOW_ABORTED) then 1 else 0).

(** "%d". *)
Definition print_d (n : Z) : list Z := if n <? 0 then 45 :: print_u32 (- n) else print_u32 n.

Definition cli_append_auth_header (hdrs : list (list Z * list Z)) : list (list Z * list Z) :=
  match cstr (auth_key C) with
  | [] => hdrs
  | key => hdrs ++ [(text "authorization"%string, fst (snprintf_z 300 (text "Bearer "%string ++ key)))]
  end.

Definition connect_headers (path : list Z) : list (list Z * list Z) :=
  cli_append_auth_header
    [(text ":method"%string, text "CONNECT"%string); (text ":protocol"%string, text "mqvpn-tcp"%string); (text ":scheme"%string, text "https"%string);
     (text ":authority"%string, fst (snprintf_z 280 (cstr (server_host C) ++ [58] ++ print_d (server_port C)))); (text ":path"%string, path)].

(** 0 when the flow proceeds; a new object of the environment is fresh beside
    the live ones.  [xqc_h3_request_close] is logged as the lane's own close. *)
Definition cli_tcp_lane_open_stream (p : Z) (key : mqvpn_flow_key_t) : T Z :=
  up ← t_ask (te_h3_conn E);
  if negb up then mqvpn_tcp_lane_abort_pending p
  else
    s ← d_get;
    o ← t_ask (fun n => te_stream E n (dom (h3_streams s)));
    match o with
    | None => mqvpn_tcp_lane_abort_pending p
    | Some stream =>
        r ← t_ask (fun n => te_request E n (map_img (h3_streams s)));
        match r with
        | None => mqvpn_tcp_lane_abort_pending p
        | Some req =>
            t_emit (FxCreate req stream) ;;
            d_modify (fun s => s <| h3_streams ::= <[stream := req]> |>) ;;
            match mqvpn_tcp_lane_format_connect_path (te_inet_ntop6 E) MQVPN_TCP_CONNECT_PATH_CAP key with
            | None => t_emit (FxH3Close req) ;; mqvpn_tcp_lane_abort_pending p
            | Some (path, _) =>
                mqvpn_tcp_lane_bind_h3_request p req stream ;;
                ret ← t_ask (te_headers E);
                t_emit (FxHeaders req (connect_headers path) ret) ;;
                if (ret <? 0) && negb (ret =? - te_EAGAIN E) then t_emit (FxH3Close req) ;; mqvpn_tcp_lane_abort_pending p
                else mret 0
            end
        end
    end.

(** The flow key of a pcb. *)
Definition pcb_key (pcb : tcp_pcb) : mqvpn_flow_key_t :=
  let pad a := if ip_is_v6 (local_ip pcb) then ip_bytes a else ip_bytes a ++ replicate 12 0 in
  FlowKey (if ip_is_v6 (local_ip pcb) then 6 else 4) MQVPN_IPPROTO_TCP (remote_port pcb) (local_port pcb) (pad (remote_ip pcb)) (pad (local_ip pcb)).

Definition mqvpn_tcp_lane_lwip_accept (newpcb : option tcp_pcb) (err : err_t) : T err_t :=
  match newpcb with
  | None => mret ERR_MEM
  | Some pcb =>
      if negb (bool_decide (err = ERR_OK)) then mret ERR_MEM
      else
        let key := pcb_key pcb in
        o ← find_flow key;
        match o with
        | None => mret ERR_VAL
        | Some p =>
            f ← get_flow p;
            if negb (bool_decide (f_state f = TCP_FLOW_PENDING_ACCEPT)) then mret ERR_VAL
            else
              s ← d_get;
              if tcp_max_flows (tl_cfg s) <? n_tcp_flows s then bump_stat flows_rejected_cap ;; tcp_lane_remove_flow p ;; mret ERR_MEM
              else
                now ← clock_or_0 E;
                set_flow p (fun f => f <| f_pcb := Some (pcb_ptr pcb) |> <| target_ip := local_ip pcb |> <| target_port := local_port pcb |>
                                       <| f_state := TCP_FLOW_PENDING_STREAM |> <| f_last_activity_us := now |> <| f_lane := true |>) ;;
                t_emit (FxAttach (pcb_ptr pcb) p) ;;
                d_modify (fun s => s <| tcp_args ::= <[pcb_ptr pcb := p]> |>) ;;
                r ← cli_tcp_lane_open_stream p key;
                mret (if negb (r =? 0) then ERR_ABRT else ERR_OK)
        end
  end.

(** ** Callbacks of lwIP *)

(** The time of the last activity, when there is a clock. *)
Definition stamp_activity (p : Z) : T unit :=
  f ← get_flow p;
  match te_clock E with
  | Some clk => if f_lane f then now ← t_ask clk; set_flow p (fun f => f <| f_last_activity_us := now |>) else d_skip
  | None => d_skip
  end.

Definition err_of_status (st : tcp_lane_flow_status_t) : err_t := if bool_decide (st = TCP_LANE_FLOW_ABORTED) then ERR_ABRT else ERR_OK.

(** [b] is [None] for the FIN of the peer. *)
Definition mqvpn_tcp_lane_on_lwip_recv (p : Z) (b : option pbuf) : T err_t :=
  stamp_activity p ;;
  match b with
  | None =>
      set_flow p (fun f => f <| tcp_fin_seen := true |>) ;;
      st ← tcp_lane_uplink_flush E P p;
      mret (err_of_status st)
  | Some b =>
      f ← get_flow p;
      if negb (bool_decide (f_state f = TCP_FLOW_ACTIVE)) && negb (bool_decide (f_state f = TCP_FLOW_PENDING_STREAM)) then mret ERR_OK
      else st ← tcp_lane_uplink_deliver E P p b; mret (err_of_status st)
  end.

Definition mqvpn_tcp_lane_on_lwip_sent (p : Z) : T err_t :=
  stamp_activity p ;;
  f ← get_flow p;
  if negb (downlink_paused f) then mret ERR_OK
  else
    rst ← tcp_lane_downlink_stash_retry E p;
    if negb (bool_decide (rst = TCP_LANE_FLOW_LIVE)) then mret (err_of_status rst)
    else
      f ← get_flow p;
      if downlink_paused f then mret ERR_OK
      else
        st ← match f_stream f with
             | Some stream => t_assert (f_lane f) ;; tcp_lane_downlink_pump_status E P stream
             | None => mret TCP_LANE_FLOW_LIVE
             end;
        mret (err_of_status st).

Definition mqvpn_tcp_lane_on_lwip_err (p : Z) : T unit :=
  set_flow p (fun f => f <| f_pcb := None |>) ;;
  tcp_lane_close_h3 p ;;
  f ← get_flow p;
  t_assert (f_lane f) ;;
  tcp_lane_remove_flow p.

(** ** Callbacks of xquic *)

(** The flow of a stream, if there is one. *)
Definition with_stream (stream : Z) (k : Z -> T unit) : T unit :=
  o ← find_flow_by_stream stream; match o with None => d_skip | Some p => k p end.

Definition mqvpn_tcp_lane_on_stream_established (stream : Z) : T unit :=
  with_stream stream (fun p =>
    now ← clock_or_0 E;
    set_flow p (fun f => f <| f_state := TCP_FLOW_ACTIVE |> <| f_last_activity_us := now |>) ;;
    _ ← tcp_lane_uplink_flush E P p;
    d_skip).

Definition mqvpn_tcp_lane_on_stream_rejected (stream : Z) : T unit :=
  with_stream stream (fun p => _ ← tcp_lane_teardown_flow p true; d_skip).

Definition mqvpn_tcp_lane_on_h3_closing (stream : Z) : T unit :=
  with_stream stream (fun p => _ ← tcp_lane_teardown_flow p false; d_skip).

Definition mqvpn_tcp_lane_on_h3_writable (stream : Z) : T unit :=
  with_stream stream (fun p => _ ← tcp_lane_uplink_flush E P p; d_skip).

(** [hdrs] is what [xqc_h3_request_recv_headers] gives. *)
Definition cli_connect_tcp_on_headers (stream : Z) (hdrs : option (list (list Z * list Z))) : T unit :=
  match hdrs with
  | None => d_skip
  | Some hdrs =>
      let status := cli_connect_tcp_parse_status hdrs in
      if (200 <=? status) && (status <? 300) then mqvpn_tcp_lane_on_stream_established stream else mqvpn_tcp_lane_on_stream_rejected stream
  end.

(** [hdrs] for the flag READ_HEADER, [body] for READ_BODY or READ_EMPTY_FIN. *)
Definition cb_request_read (stream : Z) (hdrs : option (option (list (list Z * list Z)))) (body : bool) : T Z :=
  match hdrs with Some h => cli_connect_tcp_on_headers stream h | None => d_skip end ;;
  (if body then _ ← mqvpn_tcp_lane_downlink_pump E P stream; d_skip else d_skip) ;;
  mret 0.

(** The last notice of a request: the stream is freed. *)
Definition cb_request_close (stream : Z) : T Z :=
  mqvpn_tcp_lane_on_h3_closing stream ;;
  d_modify (fun s => s <| h3_streams ::= delete stream |>) ;;
  mret 0.

(** ** The sweep *)

(** [f->next]. *)
Fixpoint next_in (chain : list Z) (p : Z) : option Z :=
  match chain with [] => None | q :: chain => if q =? p then head chain else next_in chain p end.

(** [now_us > t && now_us - t > limit]. *)
Definition older_than (now t limit : Z) : bool := (t <? now) && (limit <? u64 (now - t)).

(** What is done for one flow: whether the walk starts again at the head. *)
Definition tick_flow (p : Z) (now : Z) : T bool :=
  f ← get_flow p;
  s ← d_get;
  let idle := tcp_idle_timeout_sec (tl_cfg s) in
  if bool_decide (f_state f = TCP_FLOW_CLOSING) then
    (if older_than now (f_last_activity_us f) TCP_LANE_CLOSING_GRACE_US then tcp_lane_remove_flow p else d_skip) ;; mret false
  else if negb (idle =? 0) && negb (bool_decide (f_state f = TCP_FLOW_STICKY_RAW)) && older_than now (f_last_activity_us f) (u64 (idle * 1000000)) then
    bump_stat flows_idle_evicted ;; _ ← tcp_lane_teardown_flow p true; mret false
  else if downlink_paused f then
    st ← tcp_lane_downlink_stash_retry E p;
    st ← (if bool_decide (st = TCP_LANE_FLOW_LIVE) then
            f ← get_flow p;
            if negb (downlink_paused f) && bool_decide (f_state f = TCP_FLOW_ACTIVE) && negb (bool_decide (f_h3_request f = None)) && negb (bool_decide (f_pcb f = None))
            then tcp_lane_downlink_drain E P p else mret st
          else mret st);
    mret (negb (bool_decide (st = TCP_LANE_FLOW_LIVE)))
  else mret false.

(** One bucket from a flow on. *)
Fixpoint tick_chain (fuel : nat) (b : nat) (cur : option Z) (now : Z) : T unit :=
  match cur with
  | None => d_skip
  | Some p =>
      match fuel with
      | O => d_lift None
      | S fuel =>
          s ← d_get;
          chain ← d_lift (buckets s !! b);
          let next := next_in chain p in
          restart ← tick_flow p now;
          s ← d_get;
          chain ← d_lift (buckets s !! b);
          tick_chain fuel b (if (restart : bool) then head chain else next) now
      end
  end.

(** The walk starts again only when a flow is no longer paused, and passes a
    flow otherwise. *)
Fixpoint tick_buckets (n b : nat) (now : Z) : T unit :=
  match n with
  | O => d_skip
  | S n =>
      s ← d_get;
      chain ← d_lift (buckets s !! b);
      tick_chain (S (length chain) * S (length chain)) b (head chain) now ;;
      tick_buckets n (S b) now
  end.

Definition mqvpn_tcp_lane_tick (now_us : Z) : T unit :=
  s ← d_get;
  if (n_tcp_flows s =? 0) && (n_closing s =? 0) then d_skip
  else if u64 (now_us - last_sweep_us s) <? 1000000 then d_skip
  else d_modify (fun s => s <| last_sweep_us := now_us |>) ;; tick_buckets (length (buckets s)) 0 now_us.

(** ** The end of a lane *)

Fixpoint free_flows (l : list Z) : T unit :=
  match l with
  | [] => d_skip
  | p :: l =>
      _ ← tcp_lane_silent_abort_pcb p;
      tcp_lane_uplink_queue_free p ;;
      tcp_lane_downlink_stash_free p ;;
      d_modify (fun s => s <| flows ::= delete p |>) ;;
      free_flows l
  end.

Definition mqvpn_tcp_lane_free : T unit := s ← d_get; free_flows (concat (buckets s)) ;; d_modify (fun s => s <| buckets := [] |>).

End event.

(** * The TCP lane of the client: packets from the tunnel and events
    ([src/mqvpn_client.c], [src/hybrid/tcp_lane.h])

    The lane of a packet in a build with the TCP lane: the part of
    [tun_decide_lane] before the reorder gate, which [ClientLane] models.  Then
    a step of the lane with its surroundings, and runs of them. *)

(** ** Packets *)

(** Whether the packet is a SYN without ACK; [None] reads out of bounds. *)
Definition mqvpn_tcp_syn_flag (pkt : list Z) : option bool :=
  if blen pkt <? 1 then Some false
  else
    b0 ← rd pkt 0;
    let flags_at tcp_off := if blen pkt <? tcp_off + 14 then Some false else fl ← rd pkt (tcp_off + 13); Some (Z.land fl 18 =? 2) in
    if Z.shiftr b0 4 =? 4 then
      if blen pkt <? 20 then Some false
      else let tcp_off := Z.land b0 15 * 4 in if tcp_off <? 20 then Some false else flags_at tcp_off
    else if Z.shiftr b0 4 =? 6 then flags_at 40
    else Some false.

Definition mqvpn_tcp_syn_isn (pkt : list Z) : option Z :=
  b0 ← rd pkt 0;
  let seq := if Z.shiftr b0 4 =? 6 then 40 + 4 else Z.land b0 15 * 4 + 4 in
  a ← rd pkt seq; b ← rd pkt (seq + 1); c ← rd pkt (seq + 2); d ← rd pkt (seq + 3);
  Some (Z.lor (Z.lor (Z.lor (Z.shiftl a 24) (Z.shiftl b 16)) (Z.shiftl c 8)) d).

Definition active_paths_count (c : mqvpn_client_t) : Z := Z.of_nat (length (filter (fun p => state p = PATH_LC_ACTIVE) (paths c))).

(** Whether a new connection goes over a stream. *)
Definition hybrid_tcp_syn_policy (c : mqvpn_client_t) : bool :=
  if tcp_mode (hybrid (config c)) =? MQVPN_HYBRID_TCP_STREAM then true
  else if tcp_mode (hybrid (config c)) =? MQVPN_HYBRID_TCP_RAW then false
  else 2 <=? active_paths_count c.

(** Where a packet goes: to lwIP ([pkts_lane_tcp]), on to the reorder gate as a
    datagram packet ([pkts_lane_dgram]) or as a raw one ([pkts_lane_raw]; with
    [tcp_flows_rejected]), or on without a lane. *)
Inductive packet_lane := LaneLwip | LaneDgram | LaneRaw (rejected : bool) | LaneNone.

(** [m], or [d] without it. *)
Definition m_if {A} (b : bool) (m : T A) (d : A) : T A := if b then m else mret d.

(** The case MQVPN_LANE_TCP. *)
Definition route_tcp (E : tcp_env) (P : lane_profile) (c : mqvpn_client_t) (pkt : list Z) (key : mqvpn_flow_key_t) : T packet_lane :=
  e ← mqvpn_tcp_lane_lookup key;
  let '(is_raw, is_closing) := default (false, false) e in
  let found := bool_decide (is_Some e) in
  is_syn ← m_if (negb found || is_closing || is_raw) (d_lift (mqvpn_tcp_syn_flag pkt)) false;
  pkt_isn ← m_if is_syn (d_lift (mqvpn_tcp_syn_isn pkt)) 0;
  renewed ← (if found && is_syn then
               if is_closing then mret true else if is_raw then m ← mqvpn_tcp_lane_marker_isn key; mret (negb (pkt_isn =? m)) else mret false
             else mret false);
  if negb found || renewed then
    if negb is_syn then mret (LaneRaw false)
    else
      let want_tcp := hybrid_tcp_syn_policy c in
      ok ← mqvpn_tcp_lane_on_syn E P key want_tcp pkt_isn;
      mret (if negb ok then LaneRaw want_tcp else if negb want_tcp then LaneRaw false else LaneLwip)
  else if is_raw then mret (LaneRaw false)
  else mret LaneLwip.

Definition tun_packet_lane (E : tcp_env) (P : lane_profile) (c : mqvpn_client_t) (pkt : list Z) : T packet_lane :=
  if negb (enabled (hybrid (config c))) then mret LaneNone
  else
    '(lane, key) ← d_lift (mqvpn_hybrid_classify pkt (Some (hybrid (config c))));
    match lane with
    | MQVPN_LANE_TCP => key ← d_lift key; route_tcp E P c pkt key
    | MQVPN_LANE_DGRAM => mret LaneDgram
    | MQVPN_LANE_RAW => mret (LaneRaw false)
    end.

(** ** Events *)

(** What the log says of a pcb since it was given to the lane: whether it is
    there, whether the lane aborted it in the current frame, the bytes lwIP
    delivered and the FIN, the bytes that were given back to the window, the
    bytes written and the FIN, and the request. *)
Record pcb_view := PcbView {
  pv_open : bool;
  pv_aborted : bool;
  pv_in : list Z;
  pv_fin_in : bool;
  pv_credit : Z;
  pv_out : list Z;
  pv_fin_out : bool;
  pv_req : option Z
}.

#[export] Instance eta_pcb_view : Settable pcb_view := fun r =>
  PcbView (pv_open r) (pv_aborted r) (pv_in r) (pv_fin_in r) (pv_credit r) (pv_out r) (pv_fin_out r) (pv_req r).

(** Of a request since it was created: whether it may be used, the bytes that
    xquic took and the FIN, and the bytes that were read. *)
Record req_view := ReqView { rv_open : bool; rv_sent : list Z; rv_fin_sent : bool; rv_body : list Z }.

#[export] Instance eta_req_view : Settable req_view := fun r => ReqView (rv_open r) (rv_sent r) (rv_fin_sent r) (rv_body r).

(** The pcb and the request an entry is about. *)
Definition fx_pcb (e : tcp_fx) : option Z :=
  match e with
  | FxAttach q _ | FxDetach q | FxRecved q _ | FxWrite q _ _ | FxShutdown q _ | FxOutput q | FxAbort q | FxClose q | FxBind q _
  | InFrame q | InData q _ | InFin q | InReturn q _ | InPcbFreed q => Some q
  | _ => None
  end.

Definition fx_req (e : tcp_fx) : option Z :=
  match e with
  | FxCreate r _ | FxHeaders r _ _ | FxSend r _ _ _ | FxBody r _ _ | FxNotify r _ | FxH3Close r | InRequestGone r => Some r
  | _ => None
  end.

Definition pcb_effect (e : tcp_fx) (v : pcb_view) : pcb_view :=
  match e with
  | FxAttach _ _ => PcbView true false [] false 0 [] false None
  | FxRecved _ n => v <| pv_credit ::= fun c => c + n |>
  | FxWrite _ data ERR_OK => v <| pv_out ::= fun o => o ++ data |>
  | FxShutdown _ ERR_OK => v <| pv_fin_out := true |>
  | FxAbort _ => v <| pv_open := false |> <| pv_aborted := true |>
  | FxClose _ | InPcbFreed _ => v <| pv_open := false |>
  | FxBind _ r => v <| pv_req := Some r |>
  | InFrame _ => v <| pv_aborted := false |>
  | InData _ data => v <| pv_in ::= fun i => i ++ data |>
  | InFin _ => v <| pv_fin_in := true |>
  | _ => v
  end.

Definition req_effect (e : tcp_fx) (v : req_view) : req_view :=
  match e with
  | FxCreate _ _ => ReqView true [] false []
  | FxSend _ data fin ret =>
      if 0 <=? ret then v <| rv_sent ::= fun x => x ++ take (Z.to_nat ret) data |> <| rv_fin_sent ::= fun b => b || fin |> else v
  | FxBody _ data _ => v <| rv_body ::= fun x => x ++ data |>
  | FxH3Close _ | InRequestGone _ => v <| rv_open := false |>
  | _ => v
  end.

Fixpoint pcb_of (q : Z) (l : list tcp_fx) : pcb_view :=
  match l with
  | [] => PcbView false false [] false 0 [] false None
  | e :: l => if bool_decide (fx_pcb e = Some q) then pcb_effect e (pcb_of q l) else pcb_of q l
  end.

Fixpoint req_of (r : Z) (l : list tcp_fx) : req_view :=
  match l with
  | [] => ReqView false [] false []
  | e :: l => if bool_decide (fx_req e = Some r) then req_effect e (req_of r l) else req_of r l
  end.

(** What lwIP delivers: nothing after the FIN, and no more than the window. *)
Definition lwip_delivers (P : lane_profile) (s : mqvpn_tcp_lane_t) (q : Z) (b : option pbuf) : bool :=
  let v := pcb_of q (tl_log s) in
  negb (pv_fin_in v) &&
  match b with
  | None => true
  | Some b => negb (length b =? 0)%nat && (tot_len b <=? 65535) && (blen (pv_in v) - pv_credit v + tot_len b <=? TCP_WND P)
  end.

(** A pcb that lwIP hands out has addresses and ports of their sizes. *)
Definition addr_okb (is6 : bool) (a : ip_addr_t) : bool :=
  Bool.eqb (ip_is_v6 a) is6 && (length (ip_bytes a) =? (if is6 then 16 else 4))%nat && forallb (fun b => (0 <=? b) && (b <? 256)) (ip_bytes a).

Definition port_okb (p : Z) : bool := (0 <=? p) && (p <? 65536).

Definition pcb_okb (pcb : tcp_pcb) : bool :=
  addr_okb (ip_is_v6 (local_ip pcb)) (local_ip pcb) && addr_okb (ip_is_v6 (local_ip pcb)) (remote_ip pcb) && port_okb (remote_port pcb) && port_okb (local_port pcb).

Inductive tcp_event :=
  | EvPacket (c : mqvpn_client_t) (pkt : list Z)
  | EvAccept (pcb : option tcp_pcb) (err : err_t)
  | EvRecv (q : Z) (b : option pbuf)
  | EvSent (q : Z)
  | EvErr (q : Z)
  | EvRead (stream : Z) (hdrs : option (option (list (list Z * list Z)))) (body : bool)
  | EvWritable (stream : Z)
  | EvClosing (stream : Z)
  | EvRequestClose (stream : Z)
  | EvTick (now_us : Z).

Section step.
Context (E : tcp_env) (C : lane_client) (P : lane_profile).

(** A callback of lwIP for a pcb, with its frame and its result. *)
Definition in_frame (q : Z) (input : list tcp_fx) (m : T err_t) : T unit :=
  t_emit (InFrame q) ;;
  match input with [e] => t_emit e | _ => d_skip end ;;
  r ← m;
  t_emit (InReturn q r).

(** A callback for a pcb is made with the argument that was set. *)
Definition with_arg (q : Z) (k : Z -> T unit) : T unit := s ← d_get; match tcp_args s !! q with Some p => k p | None => d_skip end.

Definition live_stream (stream : Z) (m : T unit) : T unit :=
  s ← d_get; match h3_streams s !! stream with Some _ => m | None => d_skip end.

Definition tcp_step (ev : tcp_event) : T unit :=
  match ev with
  | EvPacket c pkt => _ ← tun_packet_lane E P c pkt; d_skip
  | EvAccept None err => _ ← mqvpn_tcp_lane_lwip_accept E C None err; d_skip
  | EvAccept (Some pcb) err =>
      s ← d_get;
      if bool_decide (tcp_args s !! pcb_ptr pcb = None) && pcb_okb pcb then
        in_frame (pcb_ptr pcb) [] (mqvpn_tcp_lane_lwip_accept E C (Some pcb) err)
      else d_skip
  | EvRecv q b =>
      s ← d_get;
      if lwip_delivers P s q b then
        with_arg q (fun p =>
          in_frame q [match b with Some b => InData q (concat b) | None => InFin q end] (mqvpn_tcp_lane_on_lwip_recv E P p b))
      else d_skip
  | EvSent q => with_arg q (fun p => in_frame q [] (mqvpn_tcp_lane_on_lwip_sent E P p))
  | EvErr q =>
      with_arg q (fun p => t_emit (InPcbFreed q) ;; d_modify (fun s => s <| tcp_args ::= delete q |>) ;; mqvpn_tcp_lane_on_lwip_err p)
  | EvRead stream hdrs body => live_stream stream (_ ← cb_request_read E P stream hdrs body; d_skip)
  | EvWritable stream => live_stream stream (mqvpn_tcp_lane_on_h3_writable E P stream)
  | EvClosing stream => live_stream stream (mqvpn_tcp_lane_on_h3_closing stream)
  | EvRequestClose stream =>
      s ← d_get;
      match h3_streams s !! stream with
      | Some req => _ ← cb_request_close stream; t_emit (InRequestGone req)
      | None => d_skip
      end
  | EvTick now => mqvpn_tcp_lane_tick E P now
  end.

Fixpoint tcp_run (evs : list tcp_event) : T unit :=
  match evs with [] => d_skip | ev :: evs => tcp_step ev ;; tcp_run evs end.

End step.
