(* ===== verification/TcpTable.v ===== *)
(** * The invariant of the TCP lane

    The table, the counters and the list of bound flows; the pcbs and requests
    that are open; and of every flow that relays, what the log says of its pcb
    and its request: the bytes of each direction, and the window. *)

From S2P Require Import Prelude StateOpt CString Wire ReorderTx Hybrid PathFsm Client TcpLane TcpEvent Chains.

(** ** The environment *)

(** A read that ends a drain. *)
Definition read_ends (r : Z * list Z * bool) : bool := let '(n, _, fin) := r in (n <=? 0) || fin.

(** New objects are new; xquic takes no more than it is offered; a read gives
    at most what was asked for, nothing after the FIN, and comes to an end;
    lwIP copies the bytes of a pbuf. *)
Record tcp_env_ok (E : tcp_env) : Prop := {
  eo_flow : forall n live p, te_flow E n live = Some p -> p ∉ live;
  eo_stream : forall n live p, te_stream E n live = Some p -> p ∉ live;
  eo_request : forall n live p, te_request E n live = Some p -> p ∉ live;
  eo_send : forall n len, te_send E n len <= len;
  eo_body : forall b n len k buf fin, te_body E b n len = (k, buf, fin) -> 0 <= k -> blen buf = k /\ k <= len;
  eo_fin : forall n len k buf fin, te_body E true n len = (k, buf, fin) -> k <= 0;
  eo_ends : forall b n len, exists k, (k < te_reads E)%nat /\ read_ends (te_body E b (n + k) len) = true;
  eo_copy : forall b want off, 0 <= off -> 0 <= want -> te_copy E b want off = take (Z.to_nat want) (drop (Z.to_nat off) (concat b));
  eo_again : 0 < te_EAGAIN E
}.

Record profile_ok (P : lane_profile) : Prop := {
  po_pool : 0 <= MEMP_NUM_TCP_PCB P < 2 ^ 31;
  po_raw : 0 <= TCP_LANE_RAW_MARKER_CAP P < 2 ^ 31;
  po_closing : 1 <= TCP_LANE_CLOSING_CAP P < 2 ^ 31;
  po_high : 0 <= BP_HIGH_WATER P;
  po_wnd : 0 <= TCP_WND P;
  po_sum : BP_HIGH_WATER P + TCP_WND P + 65536 < 2 ^ 32
}.

Lemma pool_half P : profile_ok P -> MEMP_NUM_TCP_PCB P / 2 < 2 ^ 31.
Proof. intros []. pose proof (Z.div_le_upper_bound (MEMP_NUM_TCP_PCB P) 2 (2 ^ 31 - 1)). lia. Qed.

(** ** Populations *)

Inductive flow_kind := KRaw | KTcp | KClosing.

#[export] Instance flow_kind_eq_dec : EqDecision flow_kind.
Proof. solve_decision. Defined.

Definition kind_of (f : mqvpn_tcp_flow_t) : flow_kind :=
  match f_state f with TCP_FLOW_STICKY_RAW => KRaw | TCP_FLOW_CLOSING => KClosing | _ => KTcp end.

Definition pop (k : flow_kind) (m : gmap Z mqvpn_tcp_flow_t) : Z := Z.of_nat (size (filter (fun x => kind_of x.2 = k) m)).
Definition one (k : flow_kind) (f : mqvpn_tcp_flow_t) : Z := if decide (kind_of f = k) then 1 else 0.

Lemma pop_new k m p f : m !! p = None -> pop k (<[p := f]> m) = pop k m + one k f.
Proof.
  intros Hn. unfold pop, one. case_decide as Hd.
  - rewrite map_filter_insert_True by done. rewrite map_size_insert_None by (apply map_lookup_filter_None; by left). lia.
  - rewrite map_filter_insert_False by done. rewrite delete_id by done. lia.
Qed.

Lemma pop_delete k m p f : m !! p = Some f -> pop k (delete p m) = pop k m - one k f.
Proof. intros Hp. rewrite <- (insert_delete_id m p f Hp) at 2. rewrite pop_new by apply lookup_delete_eq. lia. Qed.

Lemma pop_insert k m p f f' : m !! p = Some f -> pop k (<[p := f']> m) = pop k m - one k f + one k f'.
Proof. intros Hp. rewrite <- insert_delete_eq. rewrite pop_new by apply lookup_delete_eq. by rewrite (pop_delete _ _ _ f). Qed.

Lemma pop_nonneg k m : 0 <= pop k m.
Proof. unfold pop. lia. Qed.

Lemma pop_pos k m p f : m !! p = Some f -> kind_of f = k -> 1 <= pop k m.
Proof. intros Hp Hk. pose proof (pop_delete k m p f Hp). unfold one in *. rewrite decide_True in H by done. pose proof (pop_nonneg k (delete p m)). lia. Qed.

(** ** The log *)

(** The bytes of the queue that are not sent. *)
Definition queue_bytes (q : list mqvpn_tcp_uplink_node_t) : list Z := concat ((fun n => drop (Z.to_nat (un_offset n)) (concat (un_p n))) <$> q).

(** The bytes of the stash. *)
Definition stashed (f : mqvpn_tcp_flow_t) : list Z :=
  if downlink_paused f then take (Z.to_nat (downlink_stash_len f)) (default [] (downlink_stash f)) else [].

(** Both directions are complete. *)
Definition complete (q : Z) (l : list tcp_fx) : Prop :=
  exists r, pv_req (pcb_of q l) = Some r /\
    rv_sent (req_of r l) = pv_in (pcb_of q l) /\ pv_fin_in (pcb_of q l) = true /\ rv_fin_sent (req_of r l) = true /\
    pv_out (pcb_of q l) = rv_body (req_of r l) /\ fin_reported r l = true /\ pv_fin_out (pcb_of q l) = true.

(** When an entry may follow a log: calls only with a pcb or a request that is
    there, no byte after a FIN, a close when all is relayed, and [ERR_ABRT]
    exactly after an abort. *)
Definition fx_ok (l : list tcp_fx) (e : tcp_fx) : Prop :=
  match e with
  | FxAttach q _ => pv_open (pcb_of q l) = false
  | FxDetach q | FxOutput q | FxAbort q | FxBind q _ => pv_open (pcb_of q l) = true
  | FxRecved q n => pv_open (pcb_of q l) = true /\ 0 < n <= 65535
  | FxWrite q _ _ | FxShutdown q _ => pv_open (pcb_of q l) = true /\ pv_fin_out (pcb_of q l) = false
  | FxClose q => pv_open (pcb_of q l) = true /\ complete q l
  | FxCreate r _ => rv_open (req_of r l) = false
  | FxHeaders r _ _ | FxBody r _ _ | FxNotify r _ | FxH3Close r => rv_open (req_of r l) = true
  | FxSend r _ _ _ => rv_open (req_of r l) = true /\ rv_fin_sent (req_of r l) = false
  | InReturn q err => err = ERR_ABRT <-> pv_aborted (pcb_of q l) = true
  | _ => True
  end.

Fixpoint log_ok (l : list tcp_fx) : Prop := match l with [] => True | e :: l => fx_ok l e /\ log_ok l end.

(** ** Flows *)

(** The pointers a flow has in each state; between the accept of a pcb and the
    creation of the request there is none yet. *)
Definition ptrs_ok (f : mqvpn_tcp_flow_t) : Prop :=
  (f_h3_request f = None <-> f_stream f = None) /\
  match f_state f with
  | TCP_FLOW_STICKY_RAW => f_lane f = false /\ f_pcb f = None /\ f_h3_request f = None
  | TCP_FLOW_PENDING_ACCEPT | TCP_FLOW_CLOSING => f_lane f = true /\ f_pcb f = None /\ f_h3_request f = None
  | TCP_FLOW_PENDING_STREAM => f_lane f = true /\ f_pcb f <> None
  | TCP_FLOW_ACTIVE => f_lane f = true /\ f_pcb f <> None /\ f_h3_request f <> None
  end.

(** A flow that has not relayed anything. *)
Definition unused (f : mqvpn_tcp_flow_t) : Prop :=
  uplink_q f = [] /\ uplink_queued_bytes f = 0 /\ uplink_withheld_recved f = 0 /\ uplink_withheld f = false /\ downlink_paused f = false /\
  fin_sent_to_h3 f = false /\ fin_received_from_h3 f = false /\ tcp_fin_seen f = false /\ downlink_stash f = None /\ downlink_stash_len f = 0.

Definition node_ok (n : mqvpn_tcp_uplink_node_t) : Prop := un_p n <> [] /\ 0 <= un_offset n < tot_len (un_p n) /\ tot_len (un_p n) <= 65535.

Section inv.
Context (P : lane_profile).

(** Uplink: the bytes lwIP delivered are those that xquic took and those of the
    queue; the window lacks what is withheld; the FIN is sent after all. *)
Record uplink_ok (l : list tcp_fx) (f : mqvpn_tcp_flow_t) (q r : Z) : Prop := {
  up_bytes : pv_in (pcb_of q l) = rv_sent (req_of r l) ++ queue_bytes (uplink_q f);
  up_nodes : Forall node_ok (uplink_q f);
  up_queued : uplink_queued_bytes f = blen (queue_bytes (uplink_q f));
  up_credit : pv_credit (pcb_of q l) + uplink_withheld_recved f = blen (pv_in (pcb_of q l));
  up_wnd : 0 <= uplink_withheld_recved f <= TCP_WND P;
  up_high : uplink_queued_bytes f <= BP_HIGH_WATER P + uplink_withheld_recved f;
  up_held : uplink_withheld f = false -> uplink_withheld_recved f = 0;
  up_fin : tcp_fin_seen f = pv_fin_in (pcb_of q l);
  up_fin_sent : fin_sent_to_h3 f = rv_fin_sent (req_of r l);
  up_fin_last : fin_sent_to_h3 f = true -> tcp_fin_seen f = true /\ uplink_q f = []
}.

(** Downlink: the bytes of the body are those written and those of the stash. *)
Record downlink_ok (l : list tcp_fx) (f : mqvpn_tcp_flow_t) (q r : Z) : Prop := {
  dn_bytes : rv_body (req_of r l) = pv_out (pcb_of q l) ++ stashed f;
  dn_buf : forall buf, downlink_stash f = Some buf -> blen buf = TCP_MSS;
  dn_paused : downlink_paused f = true -> is_Some (downlink_stash f) /\ 0 < downlink_stash_len f <= TCP_MSS;
  dn_fin : fin_received_from_h3 f = pv_fin_out (pcb_of q l);
  dn_fin_last : fin_received_from_h3 f = true -> fin_reported r l = true /\ downlink_paused f = false
}.

Definition data_ok (l : list tcp_fx) (f : mqvpn_tcp_flow_t) : Prop :=
  match f_pcb f, f_h3_request f with
  | Some q, Some r => pv_req (pcb_of q l) = Some r /\ uplink_ok l f q r /\ downlink_ok l f q r
  | Some _, None => False
  | None, _ => f_state f <> TCP_FLOW_CLOSING -> unused f
  end.

(** ** The state *)

Record shape (s : mqvpn_tcp_lane_t) : Prop := {
  sh_len : 0 < Z.of_nat (length (buckets s)) <= 2 ^ 20;
  sh_nodup : NoDup (concat (buckets s));
  sh_dom : forall p, p ∈ concat (buckets s) <-> is_Some (flows s !! p);
  sh_bucket : forall i ch p f, buckets s !! i = Some ch -> p ∈ ch -> flows s !! p = Some f -> lane_bucket s (f_key f) = i;
  sh_key : forall p f, flows s !! p = Some f -> key_wf (f_key f);
  sh_uniq : forall p p' f f', flows s !! p = Some f -> flows s !! p' = Some f' -> f_key f = f_key f' -> p = p';
  sh_ptrs : forall p f, flows s !! p = Some f -> ptrs_ok f;
  sh_tcp : n_tcp_flows s = pop KTcp (flows s);
  sh_raw : n_raw_markers s = pop KRaw (flows s);
  sh_closing : n_closing s = pop KClosing (flows s);
  sh_max : pop KTcp (flows s) <= tcp_max_flows (tl_cfg s) <= MEMP_NUM_TCP_PCB P / 2;
  sh_max_raw : pop KRaw (flows s) <= TCP_LANE_RAW_MARKER_CAP P;
  sh_max_closing : pop KClosing (flows s) <= TCP_LANE_CLOSING_CAP P;
  sh_bnodup : NoDup (bound s);
  sh_bound : forall p, p ∈ bound s <-> exists f, flows s !! p = Some f /\ f_stream f <> None;
  sh_stream : forall p f st, flows s !! p = Some f -> f_stream f = Some st ->
    exists r, f_h3_request f = Some r /\ h3_streams s !! st = Some r /\ rv_open (req_of r (tl_log s)) = true;
  sh_suniq : forall p p' f f' st, flows s !! p = Some f -> flows s !! p' = Some f' -> f_stream f = Some st -> f_stream f' = Some st -> p = p';
  sh_inj : forall st st' r, h3_streams s !! st = Some r -> h3_streams s !! st' = Some r -> st = st';
  sh_args : forall q p, tcp_args s !! q = Some p <-> exists f, flows s !! p = Some f /\ f_pcb f = Some q;
  sh_open : forall q, pv_open (pcb_of q (tl_log s)) = true <-> is_Some (tcp_args s !! q);
  sh_ropen : forall r, rv_open (req_of r (tl_log s)) = true -> exists st, h3_streams s !! st = Some r
}.

(** All but the data of one flow. *)
Record focus (p : Z) (s : mqvpn_tcp_lane_t) : Prop := {
  fo_shape : shape s;
  fo_log : log_ok (tl_log s);
  fo_others : forall p' f, p' <> p -> flows s !! p' = Some f -> data_ok (tl_log s) f
}.

Record lane_inv (s : mqvpn_tcp_lane_t) : Prop := {
  li_shape : shape s;
  li_log : log_ok (tl_log s);
  li_data : forall p f, flows s !! p = Some f -> data_ok (tl_log s) f
}.

Lemma inv_focus p s : lane_inv s -> focus p s.
Proof. intros [H1 H2 H3]. constructor; [done..|]. intros p' f _. apply H3. Qed.

Lemma focus_inv p s f : focus p s -> flows s !! p = Some f -> data_ok (tl_log s) f -> lane_inv s.
Proof. intros [H1 H2 H3] Hf Hd. constructor; [done..|]. intros p' f' Hf'. destruct (decide (p' = p)) as [->|Hne]; [by simplify_eq|by eapply H3]. Qed.

Lemma focus_inv_none p s : focus p s -> flows s !! p = None -> lane_inv s.
Proof. intros [H1 H2 H3] Hf. constructor; [done..|]. intros p' f' Hf'. apply (H3 p'); [congruence|done]. Qed.

(** ** Views under new entries *)

Lemma pcb_other q e l : fx_pcb e <> Some q -> pcb_of q (e :: l) = pcb_of q l.
Proof. intros H. cbn [pcb_of]. by rewrite bool_decide_false. Qed.

Lemma pcb_same q e l : fx_pcb e = Some q -> pcb_of q (e :: l) = pcb_effect e (pcb_of q l).
Proof. intros H. cbn [pcb_of]. by rewrite bool_decide_true. Qed.

Lemma req_other r e l : fx_req e <> Some r -> req_of r (e :: l) = req_of r l.
Proof. intros H. cbn [req_of]. by rewrite bool_decide_false. Qed.

Lemma req_same r e l : fx_req e = Some r -> req_of r (e :: l) = req_effect e (req_of r l).
Proof. intros H. cbn [req_of]. by rewrite bool_decide_true. Qed.

Lemma fin_other r e l : fx_req e <> Some r -> fin_reported r (e :: l) = fin_reported r l.
Proof. intros H. destruct e; cbn in *; try done; case_match eqn:Hr; try done; apply Z.eqb_eq in Hr; congruence. Qed.

Lemma data_frame l e f : fx_pcb e = None \/ fx_pcb e <> f_pcb f -> fx_req e = None \/ fx_req e <> f_h3_request f -> data_ok l f -> data_ok (e :: l) f.
Proof.
  unfold data_ok. intros Hq Hr. destruct (f_pcb f) as [q|], (f_h3_request f) as [r|]; try done. assert (Hq' : fx_pcb e <> Some q) by (destruct Hq; congruence). assert (Hr' : fx_req e <> Some r) by (destruct Hr; congruence).
  intros (H1 & [U1 U2 U3 U4 U5 U6 U7 U8 U9 U10] & [D1 D2 D3 D4 D5]). rewrite !pcb_other by done. split; [done|]. split; constructor; rewrite ?pcb_other, ?req_other, ?fin_other by done; done.
Qed.

End inv.

(** * The table of the TCP lane

    The lookups find what is there, and the invariant when a flow is added,
    changed or taken out. *)

Lemma land_le a n : 0 <= n -> 0 <= Z.land a n <= n.
Proof.
  intros Hn. split; [apply Z.land_nonneg; by right|]. assert (Hd : Z.land (Z.ldiff n a) (Z.land n a) = 0). { apply Z.bits_inj'. intros i Hi. rewrite Z.land_spec, Z.ldiff_spec, Z.land_spec, Z.bits_0. by destruct (Z.testbit n i), (Z.testbit a i). }
  assert (Hs : Z.ldiff n a + Z.land n a = n) by (rewrite Z.add_nocarry_lxor by done; rewrite Z.lxor_lor by done; apply Z.lor_ldiff_and).
  assert (0 <= Z.ldiff n a) by (apply Z.ldiff_nonneg; by left). rewrite Z.land_comm. lia.
Qed.

(** ** Lists *)

Lemma unlink_split l x : x ∈ l -> exists k r, l = k ++ x :: r /\ x ∉ k /\ unlink l x = Some (k ++ r).
Proof.
  induction l as [|y l IH]; [by intros ?%elem_of_nil|]. cbn [unlink]. intros Hx. destruct (Z.eqb_spec y x) as [->|Hne].
  - exists [], l. split; [done|]. split; [apply not_elem_of_nil|done].
  - apply elem_of_cons in Hx as [->|Hx]; [done|]. destruct (IH Hx) as (k & r & -> & Hk & ->). exists (y :: k), r. split; [done|]. split; [rewrite not_elem_of_cons; by split|done].
Qed.

Lemma unlink_spec l x : NoDup l -> x ∈ l -> exists l', unlink l x = Some l' /\ NoDup l' /\ forall y, y ∈ l' <-> y ∈ l /\ y <> x.
Proof.
  intros Hn Hx. destruct (unlink_split l x Hx) as (k & r & -> & Hk & ->). exists (k ++ r). split; [done|]. rewrite <- Permutation_middle in Hn. apply NoDup_cons in Hn as [Hnin Hn]. split; [done|]. intros y. rewrite !elem_of_app, elem_of_cons. rewrite elem_of_app in Hnin. split; [|tauto]. intros Hy. split; [tauto|]. intros ->. tauto.
Qed.

Section table.
Context (P : lane_profile).
Implicit Types (s : mqvpn_tcp_lane_t) (f : mqvpn_tcp_flow_t).

(** ** Buckets *)

Lemma lane_bucket_lt s key : 0 < Z.of_nat (length (buckets s)) <= 2 ^ 20 -> (lane_bucket s key < length (buckets s))%nat.
Proof.
  intros Hl. unfold lane_bucket, bucket_of. rewrite (u32_small (_ - 1)) by lia. pose proof (land_le (mqvpn_flow_key_hash key (hash_seed s)) (Z.of_nat (length (buckets s)) - 1) ltac:(lia)).
  rewrite u32_small by lia. lia.
Qed.

Lemma flow_in_chain s p f : shape P s -> flows s !! p = Some f -> exists ch, buckets s !! lane_bucket s (f_key f) = Some ch /\ p ∈ ch.
Proof.
  intros Hs Hf. assert (Hin : p ∈ concat (buckets s)) by (apply (sh_dom _ _ Hs); by eexists). apply elem_of_concat_lookup in Hin as (i & ch & Hi & Hp). rewrite (sh_bucket _ _ Hs i ch p f Hi Hp Hf). by exists ch.
Qed.

(** ** Lookups *)

Lemma dwp_get_flow s p f (Q : mqvpn_tcp_flow_t -> mqvpn_tcp_lane_t -> Prop) : flows s !! p = Some f -> Q f s -> dwp (get_flow p) s Q.
Proof. intros Hf HQ. unfold get_flow. apply dwp_bind, dwp_get. by eapply dwp_lift. Qed.

Lemma dwp_set_flow s p f g (Q : unit -> mqvpn_tcp_lane_t -> Prop) : flows s !! p = Some f -> Q tt (s <| flows ::= <[p := g f]> |>) -> dwp (set_flow p g) s Q.
Proof. intros Hf HQ. unfold set_flow. apply dwp_bind. eapply dwp_get_flow; [done|]. by apply dwp_modify. Qed.

Definition found s (key : mqvpn_flow_key_t) (o : option Z) : Prop :=
  match o with
  | Some p => exists f, flows s !! p = Some f /\ f_key f = key
  | None => forall p f, flows s !! p = Some f -> f_key f <> key
  end.

Lemma dwp_find_flow s key (Q : option Z -> mqvpn_tcp_lane_t -> Prop) : shape P s -> key_wf key -> (forall o, found s key o -> Q o s) -> dwp (find_flow key) s Q.
Proof.
  intros Hs Hk HQ. unfold find_flow. apply dwp_bind, dwp_get. destruct (lookup_lt_is_Some_2 (buckets s) (lane_bucket s key)) as [ch Hch]; [apply lane_bucket_lt, (sh_len P _ Hs)|]. apply dwp_bind. eapply dwp_lift; [exact Hch|].
  assert (Hgen : forall l, (forall p, p ∈ l -> p ∈ ch) -> (forall p f, p ∈ ch -> p ∉ l -> flows s !! p = Some f -> f_key f <> key) -> dwp (find_in_chain l key) s Q).
  { induction l as [|p l IH]; intros Hsub Hnot; cbn [find_in_chain].
    - apply dwp_ret, HQ. intros p f Hf Hkf. destruct (flow_in_chain s p f Hs Hf) as (ch' & Hch' & Hp). rewrite Hkf, Hch in Hch'. injection Hch' as <-. by apply (Hnot p f Hp ltac:(apply not_elem_of_nil) Hf).
    - assert (Hp : p ∈ ch) by (apply Hsub; by left). assert (is_Some (flows s !! p)) as [f Hf] by (apply (sh_dom _ _ Hs), elem_of_concat_lookup; eauto). apply dwp_bind. eapply dwp_get_flow; [done|]. destruct (mqvpn_flow_key_eq (f_key f) key) eqn:Ek.
      + apply flow_key_eq_spec in Ek; [|by eapply (sh_key _ _ Hs)|done]. apply dwp_ret, HQ. by exists f.
      + apply IH; [intros x Hx; apply Hsub; by right|]. intros x fx Hx Hnx Hfx. destruct (decide (x = p)) as [->|Hne]; [|apply (Hnot x fx Hx); [rewrite not_elem_of_cons; by split|done]]. simplify_eq. intros Ekey. rewrite (proj2 (flow_key_eq_spec (f_key f) key ltac:(by eapply (sh_key _ _ Hs)) Hk) Ekey) in Ek. done. }
  apply Hgen; [done|]. intros p f Hp Hn. done.
Qed.

Lemma dwp_find_stream s st (Q : option Z -> mqvpn_tcp_lane_t -> Prop) : shape P s ->
  (forall o, match o with Some p => exists f, flows s !! p = Some f /\ f_stream f = Some st | None => forall p f, flows s !! p = Some f -> f_stream f <> Some st end -> Q o s) -> dwp (find_flow_by_stream st) s Q.
Proof.
  intros Hs HQ. unfold find_flow_by_stream. apply dwp_bind, dwp_get.
  assert (Hgen : forall l, (forall p, p ∈ l -> p ∈ bound s) -> (forall p f, p ∈ bound s -> p ∉ l -> flows s !! p = Some f -> f_stream f <> Some st) -> dwp (find_bound l st) s Q).
  { induction l as [|p l IH]; intros Hsub Hnot; cbn [find_bound].
    - apply dwp_ret, HQ. intros p f Hf Hst. apply (Hnot p f); [|apply not_elem_of_nil|done|done]. apply (sh_bound _ _ Hs). exists f. by rewrite Hst.
    - assert (Hp : p ∈ bound s) by (apply Hsub; by left). pose proof Hp as (f & Hf & Hst)%(sh_bound _ _ Hs). apply dwp_bind. eapply dwp_get_flow; [done|]. case_bool_decide as Hd; [apply dwp_ret, HQ; by exists f|].
      apply IH; [intros x Hx; apply Hsub; by right|]. intros x fx Hx Hnx Hfx. destruct (decide (x = p)) as [->|Hne]; [by simplify_eq|]. apply (Hnot x fx Hx); [rewrite not_elem_of_cons; by split|done]. }
  apply Hgen; [done|]. intros p f Hp Hn. done.
Qed.

(** ** Changes of the table *)

(** A flow is taken out. *)
Lemma shape_removed s s' p f k r : shape P s -> flows s !! p = Some f -> buckets s !! lane_bucket s (f_key f) = Some (k ++ p :: r) ->
  flows s' = delete p (flows s) -> buckets s' = <[lane_bucket s (f_key f) := k ++ r]> (buckets s) -> hash_seed s' = hash_seed s -> tl_cfg s' = tl_cfg s ->
  n_tcp_flows s' = n_tcp_flows s - one KTcp f -> n_raw_markers s' = n_raw_markers s - one KRaw f -> n_closing s' = n_closing s - one KClosing f ->
  NoDup (bound s') -> (forall x, x ∈ bound s' <-> x ∈ bound s /\ x <> p) -> h3_streams s' = h3_streams s ->
  (forall q x, tcp_args s' !! q = Some x <-> tcp_args s !! q = Some x /\ x <> p) ->
  (forall q, pv_open (pcb_of q (tl_log s')) = true <-> pv_open (pcb_of q (tl_log s)) = true /\ f_pcb f <> Some q) ->
  (forall x, rv_open (req_of x (tl_log s')) = true -> rv_open (req_of x (tl_log s)) = true) ->
  (forall x, f_h3_request f <> Some x -> rv_open (req_of x (tl_log s)) = true -> rv_open (req_of x (tl_log s')) = true) -> shape P s'.
Proof.
  intros Hs Hf Hch Ef Eb Es Ec Et Er Ek Hbn Hb Eh Ha Ho Hr Hr'. pose proof (concat_take (buckets s) (lane_bucket s (f_key f)) (length k) (k ++ p :: r) p Hch) as Hp. rewrite list_lookup_middle in Hp by done. specialize (Hp eq_refl) as [Hperm _]. rewrite delete_middle in Hperm. rewrite <- Eb in Hperm.
  assert (Elen : length (buckets s') = length (buckets s)) by (rewrite Eb; apply length_insert). assert (Elb : forall key, lane_bucket s' key = lane_bucket s key) by (intros key; unfold lane_bucket; by rewrite Es, Elen).
  assert (Hback : forall x fx, flows s' !! x = Some fx -> x <> p /\ flows s !! x = Some fx). { intros x fx. rewrite Ef. intros [? ?]%lookup_delete_Some. by split. }
  destruct Hs as [sh_len0 sh_nodup0 sh_dom0 sh_bucket0 sh_key0 sh_uniq0 sh_ptrs0 sh_tcp0 sh_raw0 sh_closing0 sh_max0 sh_max_raw0 sh_max_closing0 sh_bnodup0 sh_bound0 sh_stream0 sh_suniq0 sh_inj0 sh_args0 sh_open0 sh_ropen0]. rewrite Hperm in sh_nodup0. apply NoDup_cons in sh_nodup0 as [Hnin Hnd]. constructor; [by rewrite Elen|done| | | | | | | | | | | |done| | | | | | |].
  - intros x. rewrite Ef. destruct (decide (x = p)) as [->|Hne]; [rewrite lookup_delete_eq; split; [done|by intros [? ?]]|]. rewrite lookup_delete_ne by done. rewrite <- sh_dom0, Hperm, elem_of_cons. tauto.
  - intros i ch x fx Hi Hx Hfx. destruct (Hback x fx Hfx) as [Hne Hfx']. rewrite Elb. rewrite Eb in Hi. apply list_lookup_insert_Some in Hi as [(<- & <- & _)|[Hni Hi]]; [|by eapply sh_bucket0]. eapply sh_bucket0; [done| |done]. apply elem_of_app in Hx as [Hx|Hx]; apply elem_of_app; [by left|right; by apply list_elem_of_further].
  - intros x fx Hfx. destruct (Hback x fx Hfx). by eapply sh_key0.
  - intros x y fx fy Hx Hy. destruct (Hback x fx Hx), (Hback y fy Hy). by eapply sh_uniq0.
  - intros x fx Hfx. destruct (Hback x fx Hfx). by eapply sh_ptrs0.
  - rewrite Et, Ef, (pop_delete _ _ _ f Hf). lia.
  - rewrite Er, Ef, (pop_delete _ _ _ f Hf). lia.
  - rewrite Ek, Ef, (pop_delete _ _ _ f Hf). lia.
  - rewrite Ef, Ec, (pop_delete _ _ _ f Hf). unfold one. case_decide; lia.
  - rewrite Ef, (pop_delete _ _ _ f Hf). unfold one. case_decide; lia.
  - rewrite Ef, (pop_delete _ _ _ f Hf). unfold one. case_decide; lia.
  - intros x. rewrite Hb, sh_bound0, Ef. split; [intros [(fx & Hfx & Hst) Hne]; exists fx; split; [by rewrite lookup_delete_ne|done]|]. intros (fx & [Hne Hfx]%lookup_delete_Some & Hst). split; [by exists fx|done].
  - intros x fx st Hx Hst. destruct (Hback x fx Hx) as [Hne Hx']. destruct (sh_stream0 x fx st Hx' Hst) as (rq & H1 & H2 & H3). exists rq. rewrite Eh. split; [done|]. split; [done|]. apply Hr'; [|done]. intros Hq. destruct (f_stream f) as [st'|] eqn:Est.
    + destruct (sh_stream0 p f st' Hf Est) as (rq' & G1 & G2 & _). assert (rq' = rq) by congruence. subst rq'. assert (st' = st) by (by eapply sh_inj0). subst st'. apply Hne. by eapply sh_suniq0.
    + apply (proj1 (sh_ptrs0 p f Hf)) in Est. congruence.
  - intros x y fx fy st Hx Hy. destruct (Hback x fx Hx), (Hback y fy Hy). by eapply sh_suniq0.
  - rewrite Eh. done.
  - intros q x. rewrite Ha, sh_args0. split; [intros [(fx & Hfx & Hq) Hne]; exists fx; rewrite Ef, lookup_delete_ne by done; done|]. intros (fx & Hfx & Hq). destruct (Hback x fx Hfx). split; [by exists fx|done].
  - intros q. rewrite Ho, sh_open0. split.
    + intros [[x Hx] Hne]. exists x. apply Ha. split; [done|]. intros ->. apply sh_args0 in Hx as (fx & Hfx & Hq). simplify_eq.
    + intros [x [Hx Hne]%Ha]. split; [by exists x|]. intros Hq. apply Hne. apply sh_args0 in Hx as (fx & Hfx & Hq'). assert (tcp_args s !! q = Some p) by (apply sh_args0; by exists f). assert (tcp_args s !! q = Some x) by (apply sh_args0; by exists fx). congruence.
  - intros x Hx. rewrite Eh. by apply sh_ropen0, Hr.
Qed.

(** A flow is changed. *)
Lemma shape_update s s' p f f' : shape P s -> flows s !! p = Some f ->
  flows s' = <[p := f']> (flows s) -> buckets s' = buckets s -> hash_seed s' = hash_seed s -> tl_cfg s' = tl_cfg s -> f_key f' = f_key f -> ptrs_ok f' ->
  n_tcp_flows s' = n_tcp_flows s - one KTcp f + one KTcp f' -> n_raw_markers s' = n_raw_markers s - one KRaw f + one KRaw f' -> n_closing s' = n_closing s - one KClosing f + one KClosing f' ->
  pop KTcp (flows s') <= tcp_max_flows (tl_cfg s) -> pop KRaw (flows s') <= TCP_LANE_RAW_MARKER_CAP P -> pop KClosing (flows s') <= TCP_LANE_CLOSING_CAP P ->
  NoDup (bound s') -> (forall x, x ∈ bound s' <-> (x <> p /\ x ∈ bound s) \/ (x = p /\ f_stream f' <> None)) ->
  (forall st r, h3_streams s !! st = Some r -> h3_streams s' !! st = Some r) -> (forall st st' r, h3_streams s' !! st = Some r -> h3_streams s' !! st' = Some r -> st = st') ->
  (forall st, f_stream f' = Some st -> (exists r, f_h3_request f' = Some r /\ h3_streams s' !! st = Some r /\ rv_open (req_of r (tl_log s')) = true) /\ forall x fx, x <> p -> flows s !! x = Some fx -> f_stream fx <> Some st) ->
  (forall x fx r, x <> p -> flows s !! x = Some fx -> f_h3_request fx = Some r -> rv_open (req_of r (tl_log s)) = true -> rv_open (req_of r (tl_log s')) = true) ->
  (forall q x, tcp_args s' !! q = Some x <-> (x <> p /\ tcp_args s !! q = Some x) \/ (x = p /\ f_pcb f' = Some q)) ->
  (forall q, pv_open (pcb_of q (tl_log s')) = true <-> is_Some (tcp_args s' !! q)) ->
  (forall r, rv_open (req_of r (tl_log s')) = true -> exists st, h3_streams s' !! st = Some r) -> shape P s'.
Proof.
  intros Hs Hf Ef Eb Es Ec Ekey Hptr Et Er Ek M1 M2 M3 Hbn Hb Hh Hinj Hst Hro Ha Ho Hr.
  assert (Elb : forall key, lane_bucket s' key = lane_bucket s key) by (intros key; unfold lane_bucket; by rewrite Es, Eb).
  assert (Hback : forall x fx, flows s' !! x = Some fx -> (x = p /\ fx = f') \/ (x <> p /\ flows s !! x = Some fx)). { intros x fx. rewrite Ef. intros [[<- <-]|[? ?]]%lookup_insert_Some; [by left|by right]. }
  destruct Hs as [sh_len0 sh_nodup0 sh_dom0 sh_bucket0 sh_key0 sh_uniq0 sh_ptrs0 sh_tcp0 sh_raw0 sh_closing0 sh_max0 sh_max_raw0 sh_max_closing0 sh_bnodup0 sh_bound0 sh_stream0 sh_suniq0 sh_inj0 sh_args0 sh_open0 sh_ropen0]. constructor; rewrite ?Eb; [done|done| | | | | | | | | | | |done| | | |done| |done|done].
  - intros x. rewrite Ef, sh_dom0. destruct (decide (x = p)) as [->|Hne]; [rewrite lookup_insert_eq, Hf; split; by eexists|by rewrite lookup_insert_ne].
  - intros i ch x fx Hi Hx Hfx. rewrite Elb. destruct (Hback x fx Hfx) as [[-> ->]|[Hne Hfx']]; [rewrite Ekey; by eapply sh_bucket0|by eapply sh_bucket0].
  - intros x fx Hfx. destruct (Hback x fx Hfx) as [[-> ->]|[Hne Hfx']]; [rewrite Ekey; by eapply sh_key0|by eapply sh_key0].
  - intros x y fx fy Hx Hy E. destruct (Hback x fx Hx) as [[-> ->]|[Hnx Hx']], (Hback y fy Hy) as [[-> ->]|[Hny Hy']]; [done|eapply sh_uniq0; [done|done|congruence]..].
  - intros x fx Hfx. destruct (Hback x fx Hfx) as [[-> ->]|[Hne Hfx']]; [done|by eapply sh_ptrs0].
  - rewrite Et, Ef, (pop_insert _ _ _ f _ Hf). lia.
  - rewrite Er, Ef, (pop_insert _ _ _ f _ Hf). lia.
  - rewrite Ek, Ef, (pop_insert _ _ _ f _ Hf). lia.
  - rewrite Ec. lia.
  - lia.
  - lia.
  - intros x. rewrite Hb, sh_bound0. split.
    + intros [[Hne (fx & Hfx & Hsx)]|[-> Hsx]]; [exists fx; rewrite Ef, lookup_insert_ne by done; done|exists f'; by rewrite Ef, lookup_insert_eq].
    + intros (fx & Hfx & Hsx). destruct (Hback x fx Hfx) as [[-> ->]|[Hne Hfx']]; [by right|left; split; [done|by exists fx]].
  - intros x fx st Hx Hsx. destruct (Hback x fx Hx) as [[-> ->]|[Hne Hx']]; [by apply Hst|]. destruct (sh_stream0 x fx st Hx' Hsx) as (r & H1 & H2 & H3). exists r. split; [done|]. split; [by apply Hh|]. by eapply Hro.
  - intros x y fx fy st Hx Hy Hsx Hsy. destruct (Hback x fx Hx) as [[-> ->]|[Hnx Hx']], (Hback y fy Hy) as [[-> ->]|[Hny Hy']]; [done| | |by eapply sh_suniq0].
    + by destruct (proj2 (Hst st Hsx) y fy Hny Hy').
    + by destruct (proj2 (Hst st Hsy) x fx Hnx Hx').
  - intros q x. rewrite Ha, sh_args0, Ef. split.
    + intros [[Hne (fx & Hfx & Hq)]|[-> Hq]]; [exists fx; by rewrite lookup_insert_ne|exists f'; by rewrite lookup_insert_eq].
    + intros (fx & [[<- <-]|[Hne Hfx]]%lookup_insert_Some & Hq); [by right|left; split; [done|by exists fx]].
Qed.

End table.
