(* ===== verification/TcpClose.v ===== *)
(** * Flows of the TCP lane that come and go

    Every way a flow is created, torn down or closed keeps the invariant; the
    teardown aborts the pcb exactly when it says so. *)

From S2P Require Import Prelude StateOpt CString Wire ReorderTx Hybrid PathFsm Client TcpLane TcpEvent TcpTable Chains.

Section close.
Context (E : tcp_env) (P : lane_profile) (HE : tcp_env_ok E) (HP : profile_ok P).
Implicit Types (s : mqvpn_tcp_lane_t) (f : mqvpn_tcp_flow_t).

(** ** Removal *)

(** The state without a flow. *)
Definition taken s (p : Z) f (ch : list Z) : mqvpn_tcp_lane_t :=
  s <| buckets ::= <[lane_bucket s (f_key f) := ch]> |> <| n_tcp_flows ::= fun n => n - one KTcp f |> <| n_raw_markers ::= fun n => n - one KRaw f |>
    <| n_closing ::= fun n => n - one KClosing f |> <| flows ::= delete p |>.

(** The counters of a flow's kind count it. *)
Definition counted s f : Prop := one KTcp f <= n_tcp_flows s < 2 ^ 32 /\ one KRaw f <= n_raw_markers s < 2 ^ 32 /\ one KClosing f <= n_closing s < 2 ^ 32.

Lemma one_le_pop k (m : gmap Z mqvpn_tcp_flow_t) p f : m !! p = Some f -> one k f <= pop k m.
Proof. intros Hf. unfold one. case_decide; [by eapply pop_pos|apply pop_nonneg]. Qed.

Lemma shape_counted s p f : shape P s -> flows s !! p = Some f -> counted s f.
Proof.
  intros Hs Hf. pose proof (pool_half P HP). destruct HP. destruct Hs as [_ _ _ _ _ _ _ H1 H2 H3 H4 H5 H6 _ _ _ _ _ _ _ _]. unfold counted. rewrite H1, H2, H3. pose proof (one_le_pop KTcp _ _ _ Hf). pose proof (one_le_pop KRaw _ _ _ Hf). pose proof (one_le_pop KClosing _ _ _ Hf). lia.
Qed.

Lemma dwp_remove s p f k r (Q : unit -> mqvpn_tcp_lane_t -> Prop) : flows s !! p = Some f -> f_stream f = None -> buckets s !! lane_bucket s (f_key f) = Some (k ++ p :: r) -> p ∉ k -> counted s f -> Q tt (taken s p f (k ++ r)) -> dwp (tcp_lane_remove_flow p) s Q.
Proof.
  intros Hf Hst Hch Hk (C1 & C2 & C3) HQ. assert (Hu : unlink (k ++ p :: r) p = Some (k ++ r)). { clear -Hk. induction k as [|y k IH]; cbn [unlink app]; [by rewrite Z.eqb_refl|]. rewrite not_elem_of_cons in Hk. destruct Hk as [Hne Hk]. rewrite (proj2 (Z.eqb_neq y p)) by congruence. by rewrite (IH Hk). }
  unfold tcp_lane_remove_flow. apply dwp_bind. eapply dwp_get_flow; [done|]. apply dwp_bind, dwp_get, dwp_bind. eapply dwp_lift; [exact Hch|]. rewrite Hu. apply dwp_bind, dwp_modify.
  set (s1 := s <| buckets ::= _ |>). apply dwp_bind. set (s2 := s1 <| n_tcp_flows ::= fun n => n - one KTcp f |> <| n_raw_markers ::= fun n => n - one KRaw f |> <| n_closing ::= fun n => n - one KClosing f |>).
  assert (Hc : dwp (match f_state f with TCP_FLOW_STICKY_RAW => d_modify (fun s => s <| n_raw_markers ::= fun n => u32 (n - 1) |>) | TCP_FLOW_CLOSING => d_modify (fun s => s <| n_closing ::= fun n => u32 (n - 1) |>) | _ => d_modify (fun s => s <| n_tcp_flows ::= fun n => u32 (n - 1) |>) end) s1 (fun _ s' => s' = s2)).
  { unfold one, kind_of in *. subst s2 s1. destruct s. cbn in *. destruct (f_state f); repeat case_decide; try done; apply dwp_modify; cbn; rewrite u32_small by lia; repeat f_equal; lia. }
  eapply dwp_mono; [exact Hc|]. intros [] s' ->. assert (Hf2 : flows s2 !! p = Some f) by done. apply dwp_bind. unfold flow_set_stream. apply dwp_bind. eapply dwp_get_flow; [exact Hf2|]. rewrite Hst. apply dwp_bind, dwp_skip. eapply dwp_set_flow; [exact Hf2|].
  apply dwp_bind. eapply dwp_set_flow; [cbn; apply lookup_insert_eq|]. apply dwp_bind. eapply dwp_set_flow; [cbn; apply lookup_insert_eq|]. apply dwp_modify. match goal with |- Q tt ?x => replace x with (taken s p f (k ++ r)); [done|] end.
  unfold taken. subst s2 s1. destruct s. cbn. f_equal. by rewrite !delete_insert_eq.
Qed.

(** ** Teardown *)

Lemma dwp_unbind s p f st (Q : unit -> mqvpn_tcp_lane_t -> Prop) : NoDup (bound s) -> flows s !! p = Some f -> (f_stream f <> None -> p ∈ bound s) -> (f_stream f = None -> p ∉ bound s) -> st = None ->
  (forall b, NoDup b -> (forall x, x ∈ b <-> x ∈ bound s /\ x <> p) -> Q tt (s <| bound := b |> <| flows ::= <[p := f <| f_stream := None |>]> |>)) -> dwp (flow_set_stream p st) s Q.
Proof.
  intros Hn Hf Hb Hb' -> HQ. unfold flow_set_stream. apply dwp_bind. eapply dwp_get_flow; [exact Hf|]. apply dwp_bind. destruct (f_stream f) as [st|] eqn:Est.
  - destruct (unlink_spec (bound s) p Hn (Hb ltac:(done))) as (b & Eb & Hnb & Hib). apply dwp_bind, dwp_get, dwp_bind. eapply dwp_lift; [exact Eb|]. apply dwp_modify. eapply dwp_set_flow; [exact Hf|]. by apply HQ.
  - apply dwp_skip. eapply dwp_set_flow; [exact Hf|]. specialize (Hb' eq_refl). specialize (HQ (bound s) Hn). assert (E1 : s <| bound := bound s |> = s) by (by destruct s). rewrite E1 in HQ. apply HQ. intros x. split; [|tauto]. intros Hx. split; [done|]. intros ->. done.
Qed.

(** How the log of a teardown ends: the request closed, or its pointer
    forgotten; then the pcb. *)
Definition teardown_log (close_h3 : bool) f (l : list tcp_fx) : list tcp_fx :=
  let l1 := match f_h3_request f with Some r => if close_h3 then FxH3Close r :: l else l | None => l end in
  match f_pcb f with Some q => FxAbort q :: FxDetach q :: l1 | None => l1 end.

(** ** Requests and pcbs of one flow *)

(** Another flow has another request and another pcb. *)
Lemma other_req s p x f fx r : shape P s -> flows s !! p = Some f -> flows s !! x = Some fx -> x <> p -> f_h3_request f = Some r -> f_h3_request fx <> Some r.
Proof.
  intros Hs Hf Hx Hne Hr Hrx. assert (Hgen : forall y fy, flows s !! y = Some fy -> f_h3_request fy = Some r -> exists st, f_stream fy = Some st /\ h3_streams s !! st = Some r).
  { intros y fy Hy Hry. destruct (f_stream fy) as [st|] eqn:Est; [|apply (proj1 (sh_ptrs _ _ Hs y fy Hy)) in Est; congruence]. exists st. split; [done|]. destruct (sh_stream _ _ Hs y fy st Hy Est) as (r' & ? & ? & _). congruence. }
  destruct (Hgen p f Hf Hr) as (st & S1 & S2), (Hgen x fx Hx Hrx) as (st' & S1' & S2'). assert (st' = st) by (by eapply (sh_inj _ _ Hs)). subst st'. apply Hne. by eapply (sh_suniq _ _ Hs).
Qed.

Lemma other_pcb s p x f fx q : shape P s -> flows s !! p = Some f -> flows s !! x = Some fx -> x <> p -> f_pcb f = Some q -> f_pcb fx <> Some q.
Proof.
  intros Hs Hf Hx Hne Hq Hqx. assert (tcp_args s !! q = Some p) by (apply (sh_args _ _ Hs); by exists f). assert (tcp_args s !! q = Some x) by (apply (sh_args _ _ Hs); by exists fx). congruence.
Qed.

Lemma pcb_is_open s p f q : shape P s -> flows s !! p = Some f -> f_pcb f = Some q -> pv_open (pcb_of q (tl_log s)) = true.
Proof. intros Hs Hf Hq. apply (sh_open _ _ Hs). exists p. apply (sh_args _ _ Hs). by exists f. Qed.

Lemma req_is_open s p f r : shape P s -> flows s !! p = Some f -> f_h3_request f = Some r -> rv_open (req_of r (tl_log s)) = true.
Proof.
  intros Hs Hf Hr. destruct (f_stream f) as [st|] eqn:Est; [|apply (proj1 (sh_ptrs _ _ Hs p f Hf)) in Est; congruence]. destruct (sh_stream _ _ Hs p f st Hf Est) as (r' & ? & ? & ?). congruence.
Qed.

(** ** The log of a teardown *)

Lemma teardown_pcb c f l q : pcb_of q (teardown_log c f l) = if decide (f_pcb f = Some q) then (pcb_of q l) <| pv_open := false |> <| pv_aborted := true |> else pcb_of q l.
Proof.
  unfold teardown_log. assert (E1 : forall l0, pcb_of q (match f_h3_request f with Some r => if c then FxH3Close r :: l0 else l0 | None => l0 end) = pcb_of q l0) by (intros l0; by destruct (f_h3_request f), c).
  destruct (f_pcb f) as [q'|]; [|rewrite decide_False by done; apply E1]. case_decide as Hd; [simplify_eq; rewrite !pcb_same by done; cbn [pcb_effect]; by rewrite E1|]. rewrite !pcb_other by (cbn; congruence). apply E1.
Qed.

Lemma teardown_req c f l x : req_of x (teardown_log c f l) = if decide (f_h3_request f = Some x /\ c = true) then (req_of x l) <| rv_open := false |> else req_of x l.
Proof.
  unfold teardown_log. assert (E1 : forall l0, req_of x (match f_pcb f with Some q => FxAbort q :: FxDetach q :: l0 | None => l0 end) = req_of x l0) by (intros l0; by destruct (f_pcb f)). rewrite E1.
  destruct (f_h3_request f) as [r|]; [|rewrite decide_False by (by intros [? _]); done]. destruct c; [|by rewrite decide_False by (by intros [_ ?])]. case_decide as Hd; [destruct Hd as [? _]; simplify_eq; by rewrite req_same|]. rewrite req_other; [done|]. cbn. intros ?. apply Hd. by split.
Qed.

Lemma teardown_log_ok s p f c : shape P s -> log_ok (tl_log s) -> flows s !! p = Some f -> log_ok (teardown_log c f (tl_log s)).
Proof.
  intros Hs Hl Hf. unfold teardown_log. set (l1 := match f_h3_request f with Some r => if c then FxH3Close r :: tl_log s else tl_log s | None => tl_log s end).
  assert (Hl1 : log_ok l1) by (subst l1; destruct (f_h3_request f) as [r|] eqn:Er, c; [|done..]; split; [exact (req_is_open s p f r Hs Hf Er)|done]). assert (Ep : forall q, pcb_of q l1 = pcb_of q (tl_log s)) by (intros q; subst l1; by destruct (f_h3_request f), c).
  destruct (f_pcb f) as [q|] eqn:Eq; [|done]. cbn [log_ok fx_ok]. rewrite pcb_same by done. cbn [pcb_effect]. rewrite !Ep. pose proof (pcb_is_open s p f q Hs Hf Eq). done.
Qed.

Lemma teardown_others s p f c x fx : shape P s -> flows s !! p = Some f -> x <> p -> flows s !! x = Some fx -> data_ok P (tl_log s) fx -> data_ok P (teardown_log c f (tl_log s)) fx.
Proof.
  intros Hs Hf Hne Hx Hd. unfold teardown_log. set (l1 := match f_h3_request f with Some r => if c then FxH3Close r :: tl_log s else tl_log s | None => tl_log s end).
  assert (Hd1 : data_ok P l1 fx). { subst l1. destruct (f_h3_request f) as [r|] eqn:Er, c; [|done..]. apply data_frame; [by left| |done]. right. cbn. intros E0. exact (other_req s p x f fx r Hs Hf Hx Hne Er (eq_sym E0)). }
  destruct (f_pcb f) as [q|] eqn:Eq; [|done]. apply data_frame; [right; cbn; intros E0; exact (other_pcb s p x f fx q Hs Hf Hx Hne Eq (eq_sym E0))|by left|]. apply data_frame; [right; cbn; intros E0; exact (other_pcb s p x f fx q Hs Hf Hx Hne Eq (eq_sym E0))|by left|done].
Qed.

(** ** The teardown *)

Definition gone_status f : tcp_lane_flow_status_t := match f_pcb f with Some _ => TCP_LANE_FLOW_ABORTED | None => TCP_LANE_FLOW_GONE end.

(** What is left when a flow is torn down. *)
Record torn (c : bool) (p : Z) f s s' : Prop := {
  to_inv : lane_inv P s';
  to_log : tl_log s' = teardown_log c f (tl_log s);
  to_flows : flows s' = delete p (flows s);
  to_chain : exists k r, buckets s !! lane_bucket s (f_key f) = Some (k ++ p :: r) /\ p ∉ k /\ buckets s' = <[lane_bucket s (f_key f) := k ++ r]> (buckets s);
  to_seed : hash_seed s' = hash_seed s;
  to_cfg : tl_cfg s' = tl_cfg s;
  to_streams : h3_streams s' = h3_streams s;
  to_args : tcp_args s' = match f_pcb f with Some q => delete q (tcp_args s) | None => tcp_args s end
}.

Lemma torn_intro c s s' p f k r : focus P p s -> flows s !! p = Some f -> buckets s !! lane_bucket s (f_key f) = Some (k ++ p :: r) -> p ∉ k ->
  flows s' = delete p (flows s) -> buckets s' = <[lane_bucket s (f_key f) := k ++ r]> (buckets s) -> hash_seed s' = hash_seed s -> tl_cfg s' = tl_cfg s ->
  n_tcp_flows s' = n_tcp_flows s - one KTcp f -> n_raw_markers s' = n_raw_markers s - one KRaw f -> n_closing s' = n_closing s - one KClosing f ->
  NoDup (bound s') -> (forall x, x ∈ bound s' <-> x ∈ bound s /\ x <> p) -> h3_streams s' = h3_streams s ->
  tcp_args s' = match f_pcb f with Some q => delete q (tcp_args s) | None => tcp_args s end -> tl_log s' = teardown_log c f (tl_log s) -> torn c p f s s'.
Proof.
  intros [Hs Hl Ho] Hf Hch Hk Ef Eb Es Ec Et Er Ek Hbn Hb Eh Ea El. constructor; [|done|done|by exists k, r|done|done|done|done].
  apply (focus_inv_none P p); [|rewrite Ef; apply lookup_delete_eq]. constructor.
  - eapply (shape_removed P s s' p f k r); [done|done|done|done|done|done|done|done|done|done|done|done|done| | | |].
    + intros q x. rewrite Ea. destruct (f_pcb f) as [q0|] eqn:Eq.
      * rewrite lookup_delete_Some. assert (Hq0 : tcp_args s !! q0 = Some p) by (apply (sh_args _ _ Hs); by exists f). split; [|intros [Hx Hne]; split; [congruence|done]]. intros [Hne Hx]. split; [done|]. intros ->. apply (sh_args _ _ Hs) in Hx as (fx & Hfx & Hq). simplify_eq.
      * split; [|by intros [? _]]. intros Hx. split; [done|]. intros ->. apply (sh_args _ _ Hs) in Hx as (fx & Hfx & Hq). simplify_eq.
    + intros q. rewrite El, teardown_pcb. case_decide as Hd; cbn [pv_open update]; [split; [done|by intros [_ ?]]|tauto].
    + intros x. rewrite El, teardown_req. case_decide; [done|done].
    + intros x Hx Hox. rewrite El, teardown_req. rewrite decide_False by (by intros [? _]). done.
  - rewrite El. by eapply teardown_log_ok.
  - intros x fx Hne Hx. rewrite Ef in Hx. apply lookup_delete_Some in Hx as [_ Hx]. rewrite El. eapply teardown_others; [done|done|done|done|by eapply Ho].
Qed.

Lemma in_bound s p f : shape P s -> flows s !! p = Some f -> (f_stream f <> None -> p ∈ bound s) /\ (f_stream f = None -> p ∉ bound s).
Proof. intros Hs Hf. split; [intros Hn; apply (sh_bound _ _ Hs); by exists f|]. intros Hn (f' & Hf' & Hn')%(sh_bound _ _ Hs). simplify_eq. Qed.

Lemma dwp_teardown s p f c (Q : tcp_lane_flow_status_t -> mqvpn_tcp_lane_t -> Prop) : focus P p s -> flows s !! p = Some f -> f_lane f = true -> (forall s', torn c p f s s' -> Q (gone_status f) s') -> dwp (tcp_lane_teardown_flow p c) s Q.
Proof.
  intros Hfo Hf Hlane HQ. pose proof (fo_shape _ _ _ Hfo) as Hs. destruct (flow_in_chain P s p f Hs Hf) as (ch & Hch & Hp). destruct (unlink_split ch p Hp) as (k & r & -> & Hk & _). destruct (in_bound s p f Hs Hf) as [Hb1 Hb2]. pose proof (shape_counted s p f Hs Hf) as Hc.
  unfold tcp_lane_teardown_flow. apply dwp_bind.
  assert (H1 : dwp (if c then tcp_lane_close_h3 p else set_flow p (fun f => f <| f_h3_request := None |>) ;; flow_set_stream p None) s (fun _ s' => exists b, NoDup b /\ (forall x, x ∈ b <-> x ∈ bound s /\ x <> p) /\
    exists g, g = f <| f_h3_request := None |> <| f_stream := None |> /\ s' = s <| flows ::= <[p := g]> |> <| bound := b |> <| tl_log := match f_h3_request f with Some r => if c then FxH3Close r :: tl_log s else tl_log s | None => tl_log s end |>)).
  { destruct c.
    - unfold tcp_lane_close_h3. apply dwp_bind. eapply dwp_get_flow; [done|]. destruct (f_h3_request f) as [rq|] eqn:Er.
      + apply dwp_bind. unfold cli_tcp_lane_h3_close, t_emit. apply dwp_modify, dwp_bind. eapply dwp_set_flow; [exact Hf|]. apply dwp_bind. unfold t_assert. eapply dwp_lift; [by rewrite Hlane|].
        eapply dwp_unbind; [apply (sh_bnodup _ _ Hs)|cbn; apply lookup_insert_eq|done|done|done|]. intros b Hn Hb. exists b. split; [done|]. split; [done|]. eexists. split; [reflexivity|]. destruct s. cbn. f_equal. by rewrite insert_insert_eq.
      + apply dwp_skip. apply (proj1 (sh_ptrs _ _ Hs p f Hf)) in Er as Est. exists (bound s). split; [apply (sh_bnodup _ _ Hs)|]. split; [intros x; split; [|tauto]; intros Hx; split; [done|]; intros ->; by apply Hb2|]. exists f. split; [destruct f; cbn in *; congruence|]. destruct s. cbn in *. f_equal. by rewrite insert_id.
    - apply dwp_bind. eapply dwp_set_flow; [exact Hf|]. eapply dwp_unbind; [apply (sh_bnodup _ _ Hs)|cbn; apply lookup_insert_eq|done|done|done|]. intros b Hn Hb. exists b. split; [done|]. split; [done|]. eexists. split; [reflexivity|]. destruct s. cbn. f_equal; [by rewrite insert_insert_eq|]. by destruct (f_h3_request f). }
  eapply dwp_mono; [exact H1|]. cbn beta. intros [] s1 (b & Hbn & Hb & g & Eg & ->). set (l1 := match f_h3_request f with Some r => _ | None => _ end). apply dwp_bind. unfold tcp_lane_silent_abort_pcb. apply dwp_bind. eapply dwp_get_flow; [cbn; apply lookup_insert_eq|].
  assert (Egp : f_pcb g = f_pcb f) by (by rewrite Eg). rewrite Egp. assert (Ek : f_key g = f_key f) by (by rewrite Eg). assert (Eo : forall k, one k g = one k f) by (intros k0; unfold one, kind_of; by rewrite Eg).
  assert (Hcg : forall g' , f_key g' = f_key f -> f_state g' = f_state f -> f_lane g' = f_lane f -> f_stream g' = None -> forall s1, flows s1 !! p = Some g' -> buckets s1 = buckets s -> hash_seed s1 = hash_seed s -> n_tcp_flows s1 = n_tcp_flows s -> n_raw_markers s1 = n_raw_markers s -> n_closing s1 = n_closing s ->
     forall Q' : tcp_lane_flow_status_t -> mqvpn_tcp_lane_t -> Prop, forall a : bool, Q' (if a then TCP_LANE_FLOW_ABORTED else TCP_LANE_FLOW_GONE) (taken s1 p g' (k ++ r)) -> dwp (f ← get_flow p; t_assert (f_lane f) ;; tcp_lane_remove_flow p ;; mret (if a then TCP_LANE_FLOW_ABORTED else TCP_LANE_FLOW_GONE)) s1 Q').
  { intros g' G1 G2 G3 G4 s1 F1 F2 F3 F4 F5 F6 Q' a HQ'. apply dwp_bind. eapply dwp_get_flow; [exact F1|]. apply dwp_bind. unfold t_assert. eapply dwp_lift; [by rewrite G3, Hlane|]. apply dwp_bind. eapply (dwp_remove s1 p g' k r); [done|done| |done| |by apply dwp_ret].
    - unfold lane_bucket. rewrite F2, F3, G1. exact Hch.
    - unfold counted, one, kind_of in *. by rewrite F4, F5, F6, G2. }
  unfold gone_status in HQ. destruct (f_pcb f) as [q|] eqn:Eq.
  - unfold detach_pcb, t_emit. apply dwp_bind, dwp_bind, dwp_modify, dwp_modify, dwp_bind, dwp_modify, dwp_bind. eapply dwp_set_flow; [cbn; apply lookup_insert_eq|]. apply dwp_ret.
    set (g1 := g <| f_pcb := None |>). refine (Hcg g1 Ek ltac:(by subst g1; rewrite Eg) ltac:(by subst g1; rewrite Eg) ltac:(by subst g1; rewrite Eg) _ _ _ _ _ _ _ Q true _); [apply (lookup_insert_eq (<[p := g]> (flows s)))|done..|]. apply HQ. unfold one, kind_of in *.
    eapply (torn_intro c s _ p f k r); [done|done|done|done|cbn; by rewrite !delete_insert_eq|cbn; unfold lane_bucket; cbn; by subst g1; rewrite Ek|done|done|subst g1; cbn; by rewrite Eg|subst g1; cbn; by rewrite Eg|subst g1; cbn; by rewrite Eg|done|done|done|cbn; by rewrite Eq|cbn; unfold teardown_log; by rewrite Eq].
  - apply dwp_ret. refine (Hcg g Ek ltac:(by rewrite Eg) ltac:(by rewrite Eg) ltac:(by rewrite Eg) _ _ _ _ _ _ _ Q false _); [apply (lookup_insert_eq (flows s))|done..|]. apply HQ. unfold one, kind_of in *.
    eapply (torn_intro c s _ p f k r); [done|done|done|done|cbn; by rewrite !delete_insert_eq|cbn; unfold lane_bucket; cbn; by rewrite Ek|done|done|cbn; by rewrite Eg|cbn; by rewrite Eg|cbn; by rewrite Eg|done|done|done|cbn; by rewrite Eq|cbn; unfold teardown_log; by rewrite Eq].
Qed.

(** ** Markers *)

Lemma teardown_log_idle c f l : f_pcb f = None -> f_h3_request f = None -> teardown_log c f l = l.
Proof. unfold teardown_log. by intros -> ->. Qed.

(** A flow without pcb and request is removed. *)
Lemma dwp_remove_idle s p f (Q : unit -> mqvpn_tcp_lane_t -> Prop) : focus P p s -> flows s !! p = Some f -> f_pcb f = None -> f_h3_request f = None -> (forall s', torn false p f s s' -> Q tt s') -> dwp (tcp_lane_remove_flow p) s Q.
Proof.
  intros Hfo Hf Hq Hr HQ. pose proof (fo_shape _ _ _ Hfo) as Hs. destruct (flow_in_chain P s p f Hs Hf) as (ch & Hch & Hp). destruct (unlink_split ch p Hp) as (k & r & -> & Hk & _). pose proof (proj1 (proj1 (sh_ptrs _ _ Hs p f Hf)) Hr) as Hst.
  eapply dwp_remove; [done|done|done|done|by eapply shape_counted|]. apply HQ. eapply (torn_intro false s _ p f k r); [done..|apply (sh_bnodup _ _ Hs)| |done|by rewrite Hq|by rewrite teardown_log_idle].
  intros x. cbn. split; [|tauto]. intros Hx. split; [done|]. intros ->. by apply (proj2 (in_bound s p f Hs Hf) Hst).
Qed.

(** The marker that is closing longest. *)
Lemma dwp_oldest s l o (Q : option (Z * Z) -> mqvpn_tcp_lane_t -> Prop) : (forall x, x ∈ l -> is_Some (flows s !! x)) ->
  (forall o', (forall x t, o' = Some (x, t) -> o = Some (x, t) \/ exists f, x ∈ l /\ flows s !! x = Some f /\ f_state f = TCP_FLOW_CLOSING /\ f_last_activity_us f = t) ->
     (o' = None -> o = None) -> (forall y f, y ∈ l -> flows s !! y = Some f -> f_state f = TCP_FLOW_CLOSING -> exists x t, o' = Some (x, t) /\ t <= f_last_activity_us f) ->
     (forall x t, o = Some (x, t) -> exists x' t', o' = Some (x', t') /\ t' <= t) -> Q o' s) -> dwp (oldest_closing l o) s Q.
Proof.
  revert o. induction l as [|p l IH]; intros o Hl HQ; cbn [oldest_closing].
  - apply dwp_ret, HQ; [by left|done| |intros x t ->; exists x, t; split; [done|lia]]. intros y f ?%elem_of_nil. done.
  - destruct (Hl p) as [f Hf]; [by left|]. apply dwp_bind. eapply dwp_get_flow; [done|]. apply IH; [intros x Hx; apply Hl; by right|]. intros o' H1 H2 H3 H4. apply HQ.
    + intros x t Hx. destruct (H1 x t Hx) as [He|(fx & Hin & ? & ? & ?)]; [|right; exists fx; split; [by right|done]]. case_bool_decide as Hc; [|by left]. assert (Hnew : (x, t) = (p, f_last_activity_us f) -> exists fx, x ∈ p :: l /\ flows s !! x = Some fx /\ f_state fx = TCP_FLOW_CLOSING /\ f_last_activity_us fx = t) by (intros [= -> ->]; exists f; split; [by left|done]).
      destruct o as [[x0 t0]|]; [destruct (f_last_activity_us f <? t0); [right; apply Hnew; congruence|by left]|right; apply Hnew; congruence].
    + intros Hn. specialize (H2 Hn). case_bool_decide; [|done]. destruct o as [[x0 t0]|]; [|done]. by destruct (_ <? _).
    + intros y fy [->|Hy]%elem_of_cons Hfy Hc; [|by eapply H3]. simplify_eq. rewrite bool_decide_true in H4 by done. destruct o as [[x0 t0]|]; [destruct (Z.ltb_spec (f_last_activity_us f) t0)|]; [by eapply H4|edestruct (H4 x0 t0) as (x' & t' & -> & ?); [done|]; exists x', t'; split; [done|lia]|by eapply H4].
    + intros x t ->. case_bool_decide; [|by eapply H4]. destruct (Z.ltb_spec (f_last_activity_us f) t); [|by eapply H4]. edestruct (H4 p (f_last_activity_us f)) as (x' & t' & -> & ?); [done|]. exists x', t'. split; [done|lia].
Qed.

(** ** The clean close *)

(** The other flows are some of those that were there, in the same order. *)
Definition thinned (p : Z) s s' : Prop :=
  (forall x f, x <> p -> flows s' !! x = Some f -> flows s !! x = Some f) /\ length (buckets s') = length (buckets s) /\
  (forall i ch', buckets s' !! i = Some ch' -> exists ch, buckets s !! i = Some ch /\ ch' `sublist_of` ch) /\ hash_seed s' = hash_seed s /\ tl_cfg s' = tl_cfg s.

Lemma torn_thinned c p f s s' : torn c p f s s' -> thinned p s s'.
Proof.
  intros [_ _ Ef (k & r & Hch & _ & Eb) Es Ec _ _]. split; [intros x fx _; rewrite Ef; by intros [_ ?]%lookup_delete_Some|]. split; [rewrite Eb; apply length_insert|]. split; [|done]. intros i ch'. rewrite Eb. intros [(<- & <- & _)|[Hne Hi]]%list_lookup_insert_Some; [|by exists ch']. exists (k ++ p :: r). split; [done|]. apply sublist_app; [done|by apply sublist_cons].
Qed.

(** An eviction before a change of the flow [p], which is not a marker. *)
Lemma dwp_evict s s1 p f1 (Q : unit -> mqvpn_tcp_lane_t -> Prop) : shape P s -> is_Some (flows s !! p) -> (forall f, flows s !! p = Some f -> f_state f <> TCP_FLOW_CLOSING) -> f_state f1 <> TCP_FLOW_CLOSING ->
  flows s1 = <[p := f1]> (flows s) -> buckets s1 = buckets s -> hash_seed s1 = hash_seed s -> n_tcp_flows s1 = n_tcp_flows s -> n_raw_markers s1 = n_raw_markers s -> n_closing s1 = n_closing s -> TCP_LANE_CLOSING_CAP P <= n_closing s ->
  (forall x fx k r, x <> p -> flows s !! x = Some fx -> f_state fx = TCP_FLOW_CLOSING -> (forall y fy, flows s !! y = Some fy -> f_state fy = TCP_FLOW_CLOSING -> f_last_activity_us fx <= f_last_activity_us fy) ->
     buckets s !! lane_bucket s (f_key fx) = Some (k ++ x :: r) -> x ∉ k -> Q tt (taken s1 x fx (k ++ r))) -> dwp tcp_lane_evict_oldest_closing s1 Q.
Proof.
  intros Hs [f Hf] Hnc Hnc1 Ef Eb Eh E1 E2 E3 Hcap HQ. assert (Hother : forall x fx, f_state fx = TCP_FLOW_CLOSING -> flows s1 !! x = Some fx <-> flows s !! x = Some fx).
  { intros x fx Hc. rewrite Ef. destruct (decide (x = p)) as [->|Hne]; [|by rewrite lookup_insert_ne]. rewrite lookup_insert_eq. split; [intros [= ->]; done|]. intros Hx. by destruct (Hnc fx Hx). }
  unfold tcp_lane_evict_oldest_closing. apply dwp_bind, dwp_get, dwp_bind. rewrite Eb. apply dwp_oldest.
  - intros x Hx. apply (sh_dom _ _ Hs) in Hx. rewrite Ef. destruct (decide (x = p)) as [->|Hne]; [rewrite lookup_insert_eq; by eexists|by rewrite lookup_insert_ne].
  - intros o H1 _ H3 _. assert (Hcl : exists y fy, flows s !! y = Some fy /\ f_state fy = TCP_FLOW_CLOSING).
    { destruct HP. assert (Hn : 1 <= pop KClosing (flows s)) by (rewrite <- (sh_closing _ _ Hs); lia). unfold pop in Hn. destruct (map_choose (filter (fun x : Z * mqvpn_tcp_flow_t => kind_of x.2 = KClosing) (flows s))) as (y & fy & Hy).
      - intros He. rewrite He, map_size_empty in Hn. lia.
      - apply map_lookup_filter_Some in Hy as [Hy Hk]. exists y, fy. split; [done|]. cbn in Hk. unfold kind_of in Hk. by destruct (f_state fy). }
    destruct Hcl as (y & fy & Hy & Hcy). assert (Hiny : y ∈ concat (buckets s)) by (apply (sh_dom _ _ Hs); by eexists). destruct (H3 y fy Hiny (proj2 (Hother y fy Hcy) Hy) Hcy) as (x & t & -> & _). destruct (H1 x t eq_refl) as [?|(fx & Hinx & Hx & Hcx & Ht)]; [done|]. pose proof (proj1 (Hother x fx Hcx) Hx) as Hx0.
    assert (Hne : x <> p) by (intros ->; by destruct (Hnc fx Hx0)). destruct (flow_in_chain P s x fx Hs Hx0) as (ch & Hch & Hinch). destruct (unlink_split ch x Hinch) as (k & r & -> & Hk & _). pose proof (sh_ptrs _ _ Hs x fx Hx0) as [Hb Hp]. rewrite Hcx in Hp. destruct Hp as (_ & Hpq & Hpr).
    eapply (dwp_remove s1 x fx k r); [done|by apply Hb|unfold lane_bucket; by rewrite Eb, Eh|done|unfold counted; rewrite E1, E2, E3; by eapply shape_counted|]. apply (HQ x fx k r); [done|done|done| |done|done].
    intros z fz Hz Hcz. assert (Hinz : z ∈ concat (buckets s)) by (apply (sh_dom _ _ Hs); by eexists). destruct (H3 z fz Hinz (proj2 (Hother z fz Hcz) Hz) Hcz) as (x' & t' & [= <- <-] & Hle). by rewrite Ht.
Qed.

Lemma shape_taken s x fx k r : shape P s -> flows s !! x = Some fx -> f_pcb fx = None -> f_h3_request fx = None -> buckets s !! lane_bucket s (f_key fx) = Some (k ++ x :: r) -> shape P (taken s x fx (k ++ r)).
Proof.
  intros Hs Hx Hq Hr Hch. pose proof (proj1 (proj1 (sh_ptrs _ _ Hs x fx Hx)) Hr) as Hst. eapply (shape_removed P s _ x fx k r); [done..|apply (sh_bnodup _ _ Hs)| |done| | |done|done].
  - intros y. cbn. split; [|tauto]. intros Hy. split; [done|]. intros ->. by apply (proj2 (in_bound s x fx Hs Hx) Hst).
  - intros q y. cbn. split; [|tauto]. intros Hy. split; [done|]. intros ->. apply (sh_args _ _ Hs) in Hy as (f' & Hf' & ?). simplify_eq.
  - intros q. cbn. rewrite Hq. split; [done|by intros [? _]].
Qed.

(** After the close the flow is a marker, and the rest is as it was but for a
    marker that made room. *)
Record closed (p : Z) f (q : Z) s s' : Prop := {
  cl_inv : lane_inv P s';
  cl_log : tl_log s' = FxClose q :: FxDetach q :: tl_log s;
  cl_flow : exists f', flows s' !! p = Some f' /\ f_state f' = TCP_FLOW_CLOSING;
  cl_thin : thinned p s s'
}.

(** The closing of a flow in a state [s1] with some markers less. *)
Lemma closed_intro s s1 s' p f f' q : focus P p s -> flows s !! p = Some f -> f_pcb f = Some q -> complete q (tl_log s) ->
  shape P s1 -> thinned p s s1 -> flows s1 !! p = Some f -> bound s1 = bound s -> tcp_args s1 = tcp_args s -> h3_streams s1 = h3_streams s -> tl_log s1 = tl_log s -> pop KClosing (flows s1) < TCP_LANE_CLOSING_CAP P ->
  flows s' = <[p := f']> (flows s1) -> buckets s' = buckets s1 -> hash_seed s' = hash_seed s1 -> tl_cfg s' = tl_cfg s1 -> f_key f' = f_key f -> f_state f' = TCP_FLOW_CLOSING -> f_lane f' = true -> f_pcb f' = None -> f_h3_request f' = None -> f_stream f' = None ->
  n_tcp_flows s' = n_tcp_flows s1 - 1 -> n_raw_markers s' = n_raw_markers s1 -> n_closing s' = n_closing s1 + 1 ->
  NoDup (bound s') -> (forall x, x ∈ bound s' <-> x ∈ bound s /\ x <> p) -> h3_streams s' = h3_streams s1 -> tcp_args s' = delete q (tcp_args s1) -> tl_log s' = FxClose q :: FxDetach q :: tl_log s1 -> closed p f q s s'.
Proof.
  intros [Hs Hl Ho] Hf Hq Hc Hs1 (T1 & T2 & T3 & T4 & T5) Hf1 B1 A1 S1 L1 Hpop Ef Eb Eh Ec Ekey Est Elane Epcb Ereq Estr Et Er Ek Hbn Hb Es Ea El.
  assert (Hkind : kind_of f = KTcp) by (unfold kind_of; destruct (sh_ptrs _ _ Hs p f Hf) as [_ Hp]; destruct (f_state f); destruct Hp as (? & ? & ?) || destruct Hp as (? & ?); congruence). assert (Hkind' : kind_of f' = KClosing) by (unfold kind_of; by rewrite Est).
  assert (O1 : one KTcp f = 1 /\ one KRaw f = 0 /\ one KClosing f = 0 /\ one KTcp f' = 0 /\ one KRaw f' = 0 /\ one KClosing f' = 1) by (unfold one; rewrite Hkind, Hkind'; done). destruct O1 as (O1 & O2 & O3 & O4 & O5 & O6).
  assert (Hopen : pv_open (pcb_of q (tl_log s)) = true) by (by eapply pcb_is_open). constructor.
  - apply (focus_inv P p _ f'); [|rewrite Ef; apply lookup_insert_eq|unfold data_ok; rewrite Epcb; by rewrite Est]. constructor.
    + eapply (shape_update P s1 s' p f f'); [done|done|done|done|done|done|done| |lia|lia|lia| | | |done| | | | | | | |].
      * split; [by rewrite Ereq, Estr|]. by rewrite Est, Elane, Epcb, Ereq.
      * rewrite Ef, (pop_insert _ _ _ f _ Hf1). pose proof (sh_max _ _ Hs1). lia.
      * rewrite Ef, (pop_insert _ _ _ f _ Hf1). pose proof (sh_max_raw _ _ Hs1). lia.
      * rewrite Ef, (pop_insert _ _ _ f _ Hf1). lia.
      * intros x. rewrite Hb, B1, Estr. tauto.
      * by rewrite Es.
      * rewrite Es. apply (sh_inj _ _ Hs1).
      * intros st. by rewrite Estr.
      * intros x fx r _ _ _. rewrite El. by rewrite !req_other.
      * intros q' x. rewrite Ea, lookup_delete_Some, Epcb. assert (Hqp : tcp_args s1 !! q = Some p) by (apply (sh_args _ _ Hs1); by exists f). split; [intros [Hne Hx]; left; split; [|done]; intros ->; apply (sh_args _ _ Hs1) in Hx as (f2 & ? & ?); simplify_eq|]. intros [[Hne Hx]|[_ ?]]; [|done]. split; [congruence|done].
      * intros q'. rewrite El, Ea. destruct (decide (q' = q)) as [->|Hne]; [rewrite pcb_same by done; rewrite lookup_delete_eq; cbn; split; [done|by intros [? ?]]|]. rewrite !pcb_other by (cbn; congruence). rewrite lookup_delete_ne by done. apply (sh_open _ _ Hs1).
      * intros r. rewrite El, Es, !req_other by done. apply (sh_ropen _ _ Hs1).
    + rewrite El, L1. split; [|split; [done|done]]. cbn [fx_ok]. rewrite pcb_same by done. cbn [pcb_effect]. split; [done|]. destruct Hc as (r & C1 & C2 & C3 & C4 & C5 & C6 & C7). exists r. rewrite pcb_same by done. cbn [pcb_effect]. rewrite req_other, fin_other by done. done.
    + intros x fx Hne. rewrite Ef, lookup_insert_ne by done. intros Hx. specialize (T1 x fx Hne Hx). rewrite El, L1. apply data_frame; [right; cbn; intros E0; exact (other_pcb s p x f fx q Hs Hf T1 Hne Hq (eq_sym E0))|by left|]. apply data_frame; [right; cbn; intros E0; exact (other_pcb s p x f fx q Hs Hf T1 Hne Hq (eq_sym E0))|by left|by eapply Ho].
  - by rewrite El, L1.
  - exists f'. split; [rewrite Ef; apply lookup_insert_eq|done].
  - split; [intros x fx Hne; rewrite Ef, lookup_insert_ne by done; by apply T1|]. rewrite Eb, Eh, Ec. done.
Qed.

Lemma dwp_t_ask {A} (g : nat -> A) s (Q : A -> mqvpn_tcp_lane_t -> Prop) : (forall k n, Q (g k) (s <| tl_calls := n |>)) -> dwp (t_ask g) s Q.
Proof. intros HQ. exists (g (tl_calls s)), (s <| tl_calls ::= S |>). split; [done|]. apply (HQ (tl_calls s) (S (tl_calls s))). Qed.

Lemma dwp_clock s (Q : Z -> mqvpn_tcp_lane_t -> Prop) : (forall now n, Q now (s <| tl_calls := n |>)) -> dwp (clock_or_0 E) s Q.
Proof.
  intros HQ. unfold clock_or_0. destruct (te_clock E); [apply dwp_t_ask; intros; apply HQ|]. apply dwp_ret. specialize (HQ 0 (tl_calls s)). by destruct s.
Qed.

(** The end of a clean close, from the state [s0] in which the flow has lost
    its pointers; [s] is the state before. *)
Lemma dwp_mark_closing s s0 p f g q (Q : unit -> mqvpn_tcp_lane_t -> Prop) : focus P p s -> flows s !! p = Some f -> f_pcb f = Some q -> complete q (tl_log s) ->
  g = f <| f_pcb := None |> <| f_h3_request := None |> <| f_stream := None |> ->
  (exists b, NoDup b /\ (forall x, x ∈ b <-> x ∈ bound s /\ x <> p) /\ s0 = s <| flows ::= <[p := g]> |> <| bound := b |> <| tcp_args ::= delete q |> <| tl_log := FxClose q :: FxDetach q :: tl_log s |>) ->
  (forall s', closed p f q s s' -> Q tt s') -> dwp (tcp_lane_mark_closing E P p) s0 Q.
Proof.
  intros Hfo Hf Hq Hc Eg (b & Hbn & Hb & Es0) HQ. pose proof (fo_shape _ _ _ Hfo) as Hs. destruct (sh_ptrs _ _ Hs p f Hf) as [_ Hp]. assert (Hlane : f_lane f = true) by (destruct (f_state f); destruct Hp as (? & ? & ?) || destruct Hp as (? & ?); congruence). assert (Hnc : f_state f <> TCP_FLOW_CLOSING) by (intros E0; rewrite E0 in Hp; destruct Hp as (_ & ? & _); congruence).
  assert (Hnr : f_state f <> TCP_FLOW_STICKY_RAW) by (intros E0; rewrite E0 in Hp; destruct Hp as (_ & ? & _); congruence). assert (Hkind : kind_of f = KTcp) by (unfold kind_of; by destruct (f_state f)). assert (Hf0 : flows s0 !! p = Some g) by (rewrite Es0; apply lookup_insert_eq).
  unfold tcp_lane_mark_closing. apply dwp_bind. eapply dwp_get_flow; [exact Hf0|]. apply dwp_bind. unfold t_assert. eapply dwp_lift; [rewrite Eg; cbn; by rewrite Hlane|]. apply dwp_bind, dwp_get, dwp_bind.
  assert (Hend : forall s1 s2, shape P s1 -> thinned p s s1 -> flows s1 !! p = Some f -> bound s1 = bound s -> tcp_args s1 = tcp_args s -> h3_streams s1 = h3_streams s -> tl_log s1 = tl_log s -> pop KClosing (flows s1) < TCP_LANE_CLOSING_CAP P ->
    s2 = s1 <| flows ::= <[p := g]> |> <| bound := b |> <| tcp_args ::= delete q |> <| tl_log := FxClose q :: FxDetach q :: tl_log s |> ->
    dwp (d_modify (fun s => s <| n_tcp_flows ::= fun n => u32 (n - 1) |> <| n_closing ::= fun n => u32 (n + 1) |>) ;; now ← clock_or_0 E; set_flow p (fun f => f <| f_state := TCP_FLOW_CLOSING |> <| f_last_activity_us := now |>) ;; tcp_lane_downlink_stash_free p) s2 Q).
  { intros s1 s2 G1 G2 G3 G4 G5 G6 G7 G8 ->. apply dwp_bind, dwp_modify, dwp_bind, dwp_clock. intros now n. apply dwp_bind. eapply dwp_set_flow; [apply (lookup_insert_eq (flows s1))|]. eapply dwp_set_flow; [apply (lookup_insert_eq (<[p := g]> (flows s1)))|]. apply HQ. destruct HP.
    destruct (shape_counted s1 p f G1 G3) as (C1 & C2 & C3). unfold one in C1, C2, C3. rewrite Hkind in C1, C2, C3. repeat case_decide; try done. pose proof (sh_closing _ _ G1) as Hnc1. pose proof (pop_nonneg KClosing (flows s1)).
    eapply (closed_intro s s1 _ p f _ q Hfo Hf Hq Hc G1 G2 G3 G4 G5 G6 G7 G8); [cbn; by rewrite !insert_insert_eq|done|done|done|by rewrite Eg|done|by rewrite Eg|by rewrite Eg|by rewrite Eg|by rewrite Eg|cbn; rewrite u32_small by lia; lia|done|cbn; rewrite u32_small by lia; lia|done|done|done|done|cbn; by rewrite G7]. }
  destruct (Z.leb_spec (TCP_LANE_CLOSING_CAP P) (n_closing s0)) as [Hcap|Hcap].
  - eapply (dwp_evict s s0 p g); [done|by eexists|intros f' Hf'; by simplify_eq|by rewrite Eg|by rewrite Es0..|rewrite Es0 in Hcap; done|]. intros x fx k r Hne Hx Hcx _ Hch Hk. pose proof (sh_ptrs _ _ Hs x fx Hx) as [_ Hpx]. rewrite Hcx in Hpx. destruct Hpx as (_ & Hpq & Hpr).
    assert (Hkx : kind_of fx = KClosing) by (unfold kind_of; by rewrite Hcx). apply (Hend (taken s x fx (k ++ r))); [by eapply shape_taken| |cbn; by rewrite lookup_delete_ne|done|done|done|done| |].
    + split; [cbn; intros y fy _; by intros [_ ?]%lookup_delete_Some|]. split; [apply length_insert|]. split; [|done]. cbn. intros i ch'. intros [(<- & <- & _)|[Hni Hi]]%list_lookup_insert_Some; [|by exists ch']. exists (k ++ x :: r). split; [done|]. apply sublist_app; [done|by apply sublist_cons].
    + cbn. rewrite (pop_delete _ _ _ fx Hx). unfold one. rewrite decide_True by done. pose proof (sh_max_closing _ _ Hs). lia.
    + unfold taken. rewrite Es0. destruct s. cbn. f_equal. by rewrite delete_insert_ne.
  - apply dwp_skip. apply (Hend s); [done| |done|done|done|done|done| |done].
    + split; [by intros|]. split; [done|]. split; [|done]. intros i ch' Hi. by exists ch'.
    + rewrite <- (sh_closing _ _ Hs). by rewrite Es0 in Hcap.
Qed.

Lemma dwp_clean_close s p f q r (Q : unit -> mqvpn_tcp_lane_t -> Prop) : focus P p s -> flows s !! p = Some f -> f_pcb f = Some q -> f_h3_request f = Some r -> complete q (tl_log s) -> (forall s', closed p f q s s' -> Q tt s') -> dwp (tcp_lane_finish_clean_close E P p) s Q.
Proof.
  intros Hfo Hf Hq Hr Hc HQ. pose proof (fo_shape _ _ _ Hfo) as Hs. destruct (in_bound s p f Hs Hf) as [Hb1 Hb2]. unfold tcp_lane_finish_clean_close. apply dwp_bind. eapply dwp_get_flow; [done|]. rewrite Hq. unfold detach_pcb, t_emit. apply dwp_bind, dwp_bind, dwp_bind, dwp_modify, dwp_modify, dwp_bind, dwp_modify. eapply dwp_set_flow; [exact Hf|].
  apply dwp_bind. eapply dwp_set_flow; [apply (lookup_insert_eq (flows s))|]. apply dwp_bind. set (g := f <| f_pcb := None |> <| f_h3_request := None |>). eapply (dwp_unbind _ p g); [apply (sh_bnodup _ _ Hs)|apply (lookup_insert_eq (<[p := f <| f_pcb := None |>]> (flows s)))|done|done|done|]. intros b Hbn Hb.
  eapply (dwp_mark_closing s _ p f (g <| f_stream := None |>) q); [done|done|done|done|done| |exact HQ]. exists b. split; [done|]. split; [done|]. destruct s. cbn. f_equal. by rewrite !insert_insert_eq.
Qed.

End close.
