(* ===== verification/TcpSyn.v ===== *)
(** * New flows of the TCP lane

    A SYN adds a flow or a marker within the caps, or nothing; the invariant is
    kept.  Then the packets from the tunnel. *)

From S2P Require Import Prelude StateOpt CString Wire ReorderTx Hybrid HybridProofs PathFsm Client TcpLane TcpEvent TcpTable Chains TcpClose.

Section syn.
Context (E : tcp_env) (P : lane_profile) (HE : tcp_env_ok E) (HP : profile_ok P).
Implicit Types (s : mqvpn_tcp_lane_t) (f : mqvpn_tcp_flow_t).

(** A flow without pcb and request is put at the head of its chain. *)
Lemma shape_added s s' p f ch : shape P s -> flows s !! p = None -> key_wf (f_key f) -> (forall x fx, flows s !! x = Some fx -> f_key fx <> f_key f) -> ptrs_ok f -> f_pcb f = None -> f_h3_request f = None ->
  buckets s !! lane_bucket s (f_key f) = Some ch -> flows s' = <[p := f]> (flows s) -> buckets s' = <[lane_bucket s (f_key f) := p :: ch]> (buckets s) -> hash_seed s' = hash_seed s -> tl_cfg s' = tl_cfg s ->
  n_tcp_flows s' = n_tcp_flows s + one KTcp f -> n_raw_markers s' = n_raw_markers s + one KRaw f -> n_closing s' = n_closing s + one KClosing f ->
  pop KTcp (flows s') <= tcp_max_flows (tl_cfg s) -> pop KRaw (flows s') <= TCP_LANE_RAW_MARKER_CAP P -> pop KClosing (flows s') <= TCP_LANE_CLOSING_CAP P ->
  bound s' = bound s -> h3_streams s' = h3_streams s -> tcp_args s' = tcp_args s -> tl_log s' = tl_log s -> shape P s'.
Proof.
  intros Hs Hp Hk Hu Hptr Hq Hr Hch Ef Eb Es Ec Et Er Ek M1 M2 M3 Ebd Eh Ea El. pose proof (proj1 (proj1 Hptr) Hr) as Hst. set (i := lane_bucket s (f_key f)) in *. pose proof (concat_cons (buckets s) i ch p Hch) as Hperm. rewrite <- Eb in Hperm.
  assert (Elen : length (buckets s') = length (buckets s)) by (rewrite Eb; apply length_insert). assert (Elb : forall key, lane_bucket s' key = lane_bucket s key) by (intros key; unfold lane_bucket; by rewrite Es, Elen).
  assert (Hback : forall x fx, flows s' !! x = Some fx -> (x = p /\ fx = f) \/ (x <> p /\ flows s !! x = Some fx)). { intros x fx. rewrite Ef. intros [[<- <-]|[? ?]]%lookup_insert_Some; [by left|by right]. }
  assert (Hnin : p ∉ concat (buckets s)) by (rewrite (sh_dom _ _ Hs), Hp; by intros [? ?]). assert (Hne : forall x fx, flows s !! x = Some fx -> x <> p) by congruence.
  destruct Hs as [sh_len0 sh_nodup0 sh_dom0 sh_bucket0 sh_key0 sh_uniq0 sh_ptrs0 sh_tcp0 sh_raw0 sh_closing0 sh_max0 sh_max_raw0 sh_max_closing0 sh_bnodup0 sh_bound0 sh_stream0 sh_suniq0 sh_inj0 sh_args0 sh_open0 sh_ropen0].
  constructor; rewrite ?Ebd, ?Eh, ?Ea, ?El, ?Elen; [done|rewrite Hperm; by apply NoDup_cons| | | | | | | | | | | |done| | | |done| |done|done].
  - intros x. rewrite Hperm, Ef, elem_of_cons, sh_dom0. destruct (decide (x = p)) as [->|Hx]; [rewrite lookup_insert_eq; split; [by eexists|by left]|rewrite lookup_insert_ne by done; tauto].
  - intros j c x fx Hj Hx Hfx. rewrite Elb. rewrite Eb in Hj. destruct (Hback x fx Hfx) as [[-> ->]|[Hxp Hfx']].
    + apply list_lookup_insert_Some in Hj as [(<- & _ & _)|[Hnj Hj]]; [done|]. destruct Hnin. apply elem_of_concat_lookup. by exists j, c.
    + apply list_lookup_insert_Some in Hj as [(<- & <- & _)|[Hnj Hj]]; [|by eapply sh_bucket0]. apply elem_of_cons in Hx as [->|Hx]; [done|]. by eapply sh_bucket0.
  - intros x fx Hfx. destruct (Hback x fx Hfx) as [[-> ->]|[Hx Hfx']]; [done|by eapply sh_key0].
  - intros x y fx fy Hx Hy E0. destruct (Hback x fx Hx) as [[-> ->]|[Hnx Hx']], (Hback y fy Hy) as [[-> ->]|[Hny Hy']]; [done| | |by eapply sh_uniq0]; exfalso; eapply Hu; eauto.
  - intros x fx Hfx. destruct (Hback x fx Hfx) as [[-> ->]|[Hx Hfx']]; [done|by eapply sh_ptrs0].
  - rewrite Et, Ef, pop_new by done. lia.
  - rewrite Er, Ef, pop_new by done. lia.
  - rewrite Ek, Ef, pop_new by done. lia.
  - rewrite Ec. lia.
  - done.
  - done.
  - intros x. rewrite sh_bound0, Ef. split; [intros (fx & Hfx & Hsx); exists fx; rewrite lookup_insert_ne by (intros ->; congruence); done|]. intros (fx & [[<- <-]|[Hx Hfx]]%lookup_insert_Some & Hsx); [done|by exists fx].
  - intros x fx st Hx Hsx. destruct (Hback x fx Hx) as [[-> ->]|[Hxp Hx']]; [congruence|by eapply sh_stream0].
  - intros x y fx fy st Hx Hy Hsx Hsy. destruct (Hback x fx Hx) as [[-> ->]|[Hnx Hx']], (Hback y fy Hy) as [[-> ->]|[Hny Hy']]; [done|congruence|congruence|by eapply sh_suniq0].
  - intros q x. rewrite sh_args0, Ef. split; [intros (fx & Hfx & Hqx); exists fx; rewrite lookup_insert_ne by (intros ->; congruence); done|]. intros (fx & [[<- <-]|[Hx Hfx]]%lookup_insert_Some & Hqx); [congruence|by exists fx].
Qed.

(** A change that the invariant does not look at. *)
Lemma inv_stats s s' : lane_inv P s -> buckets s' = buckets s -> hash_seed s' = hash_seed s -> tl_cfg s' = tl_cfg s -> n_tcp_flows s' = n_tcp_flows s -> n_raw_markers s' = n_raw_markers s -> n_closing s' = n_closing s -> bound s' = bound s -> flows s' = flows s -> tcp_args s' = tcp_args s -> h3_streams s' = h3_streams s -> tl_log s' = tl_log s -> lane_inv P s'.
Proof.
  intros [Hs Hl Hd] E1 E2 E3 E4 E5 E6 E7 E8 E9 E10 E11. constructor; [|by rewrite E11|by rewrite E8, E11].
  destruct Hs. constructor; unfold lane_bucket; rewrite ?E1, ?E2, ?E3, ?E4, ?E5, ?E6, ?E7, ?E8, ?E9, ?E10, ?E11; done.
Qed.

Lemma new_flow_unused key tcp isn now : unused (new_flow key tcp isn now) /\ ptrs_ok (new_flow key tcp isn now).
Proof. by destruct tcp. Qed.

(** What a SYN leaves: the invariant, and the verdict in the table when it was
    committed. *)
Definition syn_post (key : mqvpn_flow_key_t) (to_tcp : bool) (isn : Z) s (ok : bool) s' : Prop :=
  lane_inv P s' /\ tl_log s' = tl_log s /\
  (ok = true -> exists p f, flows s' !! p = Some f /\ f_key f = key /\ f_state f = (if to_tcp then TCP_FLOW_PENDING_ACCEPT else TCP_FLOW_STICKY_RAW) /\ (to_tcp = false -> syn_isn f = isn)) /\
  (ok = false -> forall p f, flows s' !! p = Some f -> f_key f = key -> flows s !! p = Some f /\ f_state f <> TCP_FLOW_CLOSING /\ f_state f <> TCP_FLOW_STICKY_RAW) /\
  (forall p f, flows s !! p = Some f -> kind_of f = KTcp -> flows s' !! p = Some f).

Lemma dwp_insert s key (to_tcp : bool) isn : lane_inv P s -> key_wf key -> found s key None -> dwp (
    s ← d_get;
    if to_tcp && (tcp_max_flows (tl_cfg s) <=? n_tcp_flows s) then bump_stat flows_rejected_cap ;; mret false
    else if negb to_tcp && (TCP_LANE_RAW_MARKER_CAP P <=? n_raw_markers s) then mret false
    else
      o ← t_ask (fun n => te_flow E n (dom (flows s)));
      match o with
      | None => bump_stat flows_rejected_other ;; mret false
      | Some p =>
          now ← clock_or_0 E;
          let b := lane_bucket s key in
          chain ← d_lift (buckets s !! b);
          d_modify (fun s => s <| flows ::= <[p := new_flow key to_tcp isn now]> |> <| buckets ::= <[b := p :: chain]> |>) ;;
          bump_stat flows_total ;;
          (if to_tcp then d_modify (fun s => s <| n_tcp_flows ::= fun n => u32 (n + 1) |>)
           else d_modify (fun s => s <| n_raw_markers ::= fun n => u32 (n + 1) |>)) ;;
          mret true
      end) s (syn_post key to_tcp isn s).
Proof.
  intros Hi Hk Hn. pose proof (li_shape _ _ Hi) as Hs. pose proof (pool_half P HP). destruct HP. apply dwp_bind, dwp_get. destruct (to_tcp && _) eqn:C1. { apply dwp_bind, dwp_modify, dwp_ret. split; [by eapply inv_stats|]. split; [done|]. split; [done|]. split; [|done]. intros _ p f Hf Hkf. by destruct (Hn p f). }
  destruct (negb to_tcp && _) eqn:C2; [apply dwp_ret; split; [done|]; split; [done|]; split; [done|]; split; [|done]; intros _ p f Hf Hkf; by destruct (Hn p f)|]. apply dwp_bind, dwp_t_ask. intros k n. destruct (te_flow E k (dom (flows s))) as [p|] eqn:Ep; [|apply dwp_bind, dwp_modify, dwp_ret; split; [by eapply inv_stats|]; split; [done|]; split; [done|]; split; [|done]; intros _ p f Hf Hkf; by destruct (Hn p f)].
  apply (eo_flow _ HE) in Ep. apply not_elem_of_dom in Ep. apply dwp_bind, dwp_clock. intros now m. destruct (lookup_lt_is_Some_2 (buckets s) (lane_bucket s key)) as [ch Hch]; [apply lane_bucket_lt, (sh_len P _ Hs)|]. apply dwp_bind. eapply dwp_lift; [exact Hch|]. apply dwp_bind, dwp_modify, dwp_bind, dwp_modify.
  destruct (new_flow_unused key to_tcp isn now) as [Hu Hptr]. set (f := new_flow key to_tcp isn now) in *. assert (Hst : kind_of f = if to_tcp then KTcp else KRaw) by (by destruct to_tcp). pose proof (sh_max _ _ Hs). pose proof (sh_max_raw _ _ Hs). pose proof (sh_max_closing _ _ Hs). pose proof (sh_tcp _ _ Hs). pose proof (sh_raw _ _ Hs). pose proof (pop_nonneg KTcp (flows s)). pose proof (pop_nonneg KRaw (flows s)).
  assert (Hfin : forall s', flows s' = <[p := f]> (flows s) -> buckets s' = <[lane_bucket s (f_key f) := p :: ch]> (buckets s) -> hash_seed s' = hash_seed s -> tl_cfg s' = tl_cfg s -> n_tcp_flows s' = n_tcp_flows s + one KTcp f -> n_raw_markers s' = n_raw_markers s + one KRaw f -> n_closing s' = n_closing s + one KClosing f -> bound s' = bound s -> h3_streams s' = h3_streams s -> tcp_args s' = tcp_args s -> tl_log s' = tl_log s -> syn_post key to_tcp isn s true s').
  { intros s' F1 F2 F3 F4 F5 F6 F7 F8 F9 F10 F11. split; [|split; [done|]].
    - apply (focus_inv P p _ f); [|rewrite F1; apply lookup_insert_eq|done]. constructor; [|rewrite F11; apply (li_log _ _ Hi)|].
      + eapply (shape_added s s' p f ch); [done|done|done| |done|done|done|done|done|done|done|done|done|done|done| | | |done|done|done|done]; [intros x fx Hx; by eapply (Hn x)|..]; rewrite F1, pop_new by done; unfold one; rewrite Hst; repeat case_decide; try lia; destruct to_tcp; try done; cbn in C1, C2; bool_to_prop; lia.
      + intros x fx Hne. rewrite F1, lookup_insert_ne by done. rewrite F11. apply (li_data _ _ Hi).
    - split; [intros _; exists p, f; split; [rewrite F1; apply lookup_insert_eq|]; split; [done|]; split; [done|]; by destruct to_tcp|]. split; [done|]. intros x fx Hx _. rewrite F1, lookup_insert_ne by (intros ->; congruence). done. }
  apply dwp_bind. unfold one in Hfin. rewrite Hst in Hfin. destruct to_tcp; apply dwp_modify, dwp_ret, Hfin; try done; cbn; repeat case_decide; try done; try lia; rewrite ?u32_small by (cbn in C1, C2; bool_to_prop; lia); try done; lia.
Qed.

Lemma dwp_on_syn s key to_tcp isn : lane_inv P s -> key_wf key -> dwp (mqvpn_tcp_lane_on_syn E P key to_tcp isn) s (syn_post key to_tcp isn s).
Proof.
  intros Hi Hk. pose proof (li_shape _ _ Hi) as Hs. unfold mqvpn_tcp_lane_on_syn. apply dwp_bind. eapply dwp_find_flow; [done|done|]. intros [p|] Ho; apply dwp_bind; [|apply dwp_ret; by apply dwp_insert].
  destruct Ho as (f & Hf & Hkey). apply dwp_bind. eapply dwp_get_flow; [done|]. destruct (_ || _) eqn:Est.
  - apply dwp_bind. pose proof (sh_ptrs _ _ Hs p f Hf) as [_ Hp]. assert (Hpp : f_pcb f = None /\ f_h3_request f = None). { apply orb_prop in Est as [H%bool_decide_eq_true|H%bool_decide_eq_true]; rewrite H in Hp; tauto. } destruct Hpp as [Hq Hr].
    eapply (dwp_remove_idle P HP s p f); [by apply inv_focus|done|done|done|]. intros s1 Ht. apply dwp_ret. cbn beta iota. eapply dwp_mono; [apply dwp_insert; [apply (to_inv _ _ _ _ _ _ Ht)|done|]|].
    + intros x fx. rewrite (to_flows _ _ _ _ _ _ Ht). intros [Hne Hx]%lookup_delete_Some E0. apply Hne. eapply (sh_uniq _ _ Hs); [done|done|congruence].
    + intros ok s2 (H1 & H2 & H3 & H4 & H5). split; [done|]. split; [rewrite H2, (to_log _ _ _ _ _ _ Ht); by apply teardown_log_idle|]. split; [done|]. rewrite (to_flows _ _ _ _ _ _ Ht) in *. split.
      * intros Hok x fx Hx Hkx. destruct (H4 Hok x fx Hx Hkx) as ([_ ?]%lookup_delete_Some & ?). done.
      * intros x fx Hx Hkx. apply H5; [|done]. rewrite lookup_delete_ne; [done|]. intros <-. simplify_eq. unfold kind_of in Hkx. apply orb_prop in Est as [H%bool_decide_eq_true|H%bool_decide_eq_true]; by rewrite H in Hkx.
  - apply dwp_bind, dwp_modify, dwp_ret. cbn beta iota. apply dwp_ret. split; [by eapply inv_stats|]. split; [done|]. split; [done|]. split; [|done]. intros _ x fx Hx Hkx. split; [done|]. assert (x = p) as -> by (eapply (sh_uniq _ _ Hs); [done|done|congruence]). assert (fx = f) as -> by (cbn in Hx; congruence). apply orb_false_elim in Est as [?%bool_decide_eq_false ?%bool_decide_eq_false]. done.
Qed.

(** ** Packets from the tunnel *)

Lemma syn_flag_safe pkt : exists b, mqvpn_tcp_syn_flag pkt = Some b /\ (b = true -> exists isn, mqvpn_tcp_syn_isn pkt = Some isn).
Proof.
  unfold mqvpn_tcp_syn_flag, mqvpn_tcp_syn_isn. destruct (Z.ltb_spec (blen pkt) 1) as [Hl|Hl]; [by exists false|]. destruct (rd_in_bounds pkt 0) as [b0 E0]; [lia|]. rewrite E0. cbn [mbind option_bind]. pose proof (land_le b0 15 ltac:(lia)) as Hland.
  assert (Hat : forall off, 0 <= off -> exists b, (if blen pkt <? off + 14 then Some false else fl ← rd pkt (off + 13); Some (Z.land fl 18 =? 2)) = Some b /\ (b = true -> off + 14 <= blen pkt)).
  { intros off Ho. destruct (Z.ltb_spec (blen pkt) (off + 14)); [by exists false|]. destruct (rd_in_bounds pkt (off + 13)) as [fl ->]; [lia|]. cbn [mbind option_bind]. eexists. split; [done|]. intros _. lia. }
  assert (Hseq : forall off, 0 <= off -> off + 14 <= blen pkt -> exists isn, (a ← rd pkt (off + 4); b ← rd pkt (off + 4 + 1); c ← rd pkt (off + 4 + 2); d ← rd pkt (off + 4 + 3); Some (Z.lor (Z.lor (Z.lor (Z.shiftl a 24) (Z.shiftl b 16)) (Z.shiftl c 8)) d)) = Some isn).
  { intros off Ho Hlen. destruct (rd_in_bounds pkt (off + 4)) as [x1 ->]; [lia|]. destruct (rd_in_bounds pkt (off + 4 + 1)) as [x2 ->]; [lia|]. destruct (rd_in_bounds pkt (off + 4 + 2)) as [x3 ->]; [lia|]. destruct (rd_in_bounds pkt (off + 4 + 3)) as [x4 ->]; [lia|]. by eexists. }
  destruct (Z.eqb_spec (Z.shiftr b0 4) 4) as [E4|N4].
  - destruct (blen pkt <? 20); [by exists false|]. destruct (_ <? 20); [by exists false|]. destruct (Hat (Z.land b0 15 * 4)) as (b & -> & Hb); [lia|]. exists b. split; [done|]. intros ->. rewrite E4. cbn [Z.eqb Pos.eqb]. apply Hseq; [lia|by apply Hb].
  - destruct (Z.eqb_spec (Z.shiftr b0 4) 6) as [E6|N6]; [|by exists false]. destruct (Hat 40) as (b & -> & Hb); [lia|]. exists b. split; [done|]. intros ->. apply (Hseq 40); [lia|by apply Hb].
Qed.

(** A packet goes to lwIP exactly when its connection has an entry in the table
    that is no raw marker; flows that relay are left alone, and nothing is
    called. *)
Definition route_post (key : mqvpn_flow_key_t) s (v : packet_lane) s' : Prop :=
  lane_inv P s' /\ tl_log s' = tl_log s /\ (forall p f, flows s !! p = Some f -> kind_of f = KTcp -> flows s' !! p = Some f) /\
  (v = LaneLwip <-> exists p f, flows s' !! p = Some f /\ f_key f = key /\ f_state f <> TCP_FLOW_STICKY_RAW) /\ (v = LaneLwip \/ exists b, v = LaneRaw b).

Lemma route_same key s v p f : lane_inv P s -> flows s !! p = Some f -> f_key f = key -> v = (if bool_decide (f_state f = TCP_FLOW_STICKY_RAW) then LaneRaw false else LaneLwip) -> route_post key s v s.
Proof.
  intros Hi Hf Hk ->. split; [done|]. split; [done|]. split; [done|]. case_bool_decide as Hs.
  - split; [|right; by eexists]. split; [done|]. intros (x & fx & Hx & Hkx & Hn). destruct Hn. assert (x = p) as -> by (eapply (sh_uniq _ _ (li_shape _ _ Hi)); [done|done|congruence]). congruence.
  - split; [|by left]. split; [|done]. intros _. by exists p, f.
Qed.

Lemma dwp_lookup s key (Q : option (bool * bool) -> mqvpn_tcp_lane_t -> Prop) : shape P s -> key_wf key ->
  (forall o, found s key o -> Q (match o with Some p => match flows s !! p with Some f => Some (bool_decide (f_state f = TCP_FLOW_STICKY_RAW), bool_decide (f_state f = TCP_FLOW_CLOSING)) | None => None end | None => None end) s) -> dwp (mqvpn_tcp_lane_lookup key) s Q.
Proof.
  intros Hs Hk HQ. unfold mqvpn_tcp_lane_lookup. apply dwp_bind. eapply dwp_find_flow; [done|done|]. intros [p|] Ho; [|apply dwp_ret; by apply (HQ None)]. specialize (HQ (Some p) Ho). destruct Ho as (f & Hf & Hkf). cbn beta iota in HQ. rewrite Hf in HQ. apply dwp_bind. eapply dwp_get_flow; [done|]. by apply dwp_ret.
Qed.

Lemma dwp_renew s c key isn : lane_inv P s -> key_wf key -> (forall p f, flows s !! p = Some f -> f_key f = key -> f_state f = TCP_FLOW_CLOSING \/ f_state f = TCP_FLOW_STICKY_RAW) ->
  dwp (ok ← mqvpn_tcp_lane_on_syn E P key (hybrid_tcp_syn_policy c) isn; mret (if negb ok then LaneRaw (hybrid_tcp_syn_policy c) else if negb (hybrid_tcp_syn_policy c) then LaneRaw false else LaneLwip)) s (route_post key s).
Proof.
  intros Hi Hk Hm. apply dwp_bind. eapply dwp_mono; [by apply dwp_on_syn|]. intros ok s' (H1 & H2 & H3 & H4 & H5). apply dwp_ret. split; [done|]. split; [done|]. split; [done|]. destruct ok; cbn [negb].
  - destruct (H3 eq_refl) as (p & f & Hf & Hkf & Hst & _). destruct (hybrid_tcp_syn_policy c); cbn [negb]; [split; [|by left]; split; [|done]; intros _; exists p, f; split; [done|]; split; [done|]; by rewrite Hst|]. split; [|right; by eexists]. split; [done|]. intros (x & fx & Hx & Hkx & Hn). destruct Hn. assert (x = p) as -> by (eapply (sh_uniq _ _ (li_shape _ _ H1)); [done|done|congruence]). congruence.
  - split; [|right; by eexists]. split; [done|]. intros (x & fx & Hx & Hkx & Hn). destruct (H4 eq_refl x fx Hx Hkx) as (Hx0 & N1 & N2). destruct (Hm x fx Hx0 Hkx); done.
Qed.

Lemma dwp_route s c pkt key : lane_inv P s -> key_wf key -> dwp (route_tcp E P c pkt key) s (route_post key s).
Proof.
  intros Hi Hk. pose proof (li_shape _ _ Hi) as Hs. destruct (syn_flag_safe pkt) as (syn & Esyn & Hisn). unfold route_tcp. apply dwp_bind. apply dwp_lookup; [done|done|]. intros o Ho.
  assert (Hsyn : forall b (Q : bool -> mqvpn_tcp_lane_t -> Prop), Q (b && syn) s -> dwp (m_if b (d_lift (mqvpn_tcp_syn_flag pkt)) false) s Q). { intros b Q HQ. unfold m_if. destruct b; [by eapply dwp_lift|by apply dwp_ret]. }
  assert (Hisn' : forall b (Q : Z -> mqvpn_tcp_lane_t -> Prop), (b = true -> syn = true) -> (forall isn, Q isn s) -> dwp (m_if b (d_lift (mqvpn_tcp_syn_isn pkt)) 0) s Q). { intros b Q Hb HQ. unfold m_if. destruct b; [|by apply dwp_ret]. destruct (Hisn (Hb eq_refl)) as (isn & E1). by eapply dwp_lift. }
  destruct o as [p|].
  - pose proof Ho as (f & Hf & Hkf). rewrite Hf. cbn [default option_map]. rewrite (bool_decide_true (is_Some (Some _))) by (by eexists). cbn [negb orb andb]. apply dwp_bind, Hsyn. apply dwp_bind, Hisn'; [intros Hb; by apply andb_prop in Hb as [_ ->]|]. intros isn. apply dwp_bind.
    assert (Hmark : f_state f = TCP_FLOW_CLOSING \/ f_state f = TCP_FLOW_STICKY_RAW -> forall x fx, flows s !! x = Some fx -> f_key fx = key -> f_state fx = TCP_FLOW_CLOSING \/ f_state fx = TCP_FLOW_STICKY_RAW). { intros Hst x fx Hx Hkx. assert (x = p) as -> by (eapply (sh_uniq _ _ Hs); [done|done|congruence]). by simplify_eq. }
    destruct (bool_decide_reflect (f_state f = TCP_FLOW_CLOSING)) as [Ec|Nc].
    + rewrite bool_decide_false by congruence. cbn [orb andb]. destruct syn.
      * apply dwp_ret. cbn [negb]. apply dwp_renew; [done|done|]. apply Hmark. by left.
      * apply dwp_ret, dwp_ret. eapply route_same; [done|done|done|]. by rewrite bool_decide_false by congruence.
    + destruct (bool_decide_reflect (f_state f = TCP_FLOW_STICKY_RAW)) as [Er|Nr]; cbn [orb andb].
      * assert (Hstay : dwp (mret (LaneRaw false)) s (route_post key s)) by (apply dwp_ret; eapply route_same; [done|done|done|]; by rewrite bool_decide_true). destruct syn; [|apply dwp_ret; exact Hstay]. apply dwp_bind. unfold mqvpn_tcp_lane_marker_isn. apply dwp_bind. eapply dwp_find_flow; [done|done|]. intros o' Ho'.
        assert (o' = Some p) as ->. { destruct o' as [p'|]; [|by destruct (Ho' p f Hf)]. destruct Ho' as (f' & Hf' & Hk'). f_equal. eapply (sh_uniq _ _ Hs); [done|done|congruence]. }
        apply dwp_bind. eapply dwp_get_flow; [done|]. apply dwp_ret, dwp_ret. destruct (negb _); [|exact Hstay]. apply dwp_renew; [done|done|]. apply Hmark. by right.
      * apply dwp_ret, dwp_ret. eapply route_same; [done|done|done|]. by rewrite bool_decide_false.
  - cbn [default option_map]. rewrite (bool_decide_false (is_Some None)) by (by intros [? ?]). cbn [negb orb andb]. apply dwp_bind, Hsyn. cbn [andb]. apply dwp_bind, Hisn'; [done|]. intros isn. apply dwp_bind, dwp_ret. destruct syn; cbn [negb].
    + apply dwp_renew; [done|done|]. intros p f Hf Hkf. by destruct (Ho p f).
    + apply dwp_ret. split; [done|]. split; [done|]. split; [done|]. split; [|right; by eexists]. split; [done|]. intros (x & fx & Hx & Hkx & _). by destruct (Ho x fx).
Qed.

(** The settings of the client that the classifier reads are in order. *)
Definition client_lane_ok (c : mqvpn_client_t) : Prop := entry_ok (client_tunnel_subnet (hybrid (config c))).1 /\ entry_ok (client_tunnel_subnet (hybrid (config c))).2.

Lemma dwp_packet s c pkt : lane_inv P s -> client_lane_ok c -> bytes_ok pkt -> dwp (tun_packet_lane E P c pkt) s (fun v s' => lane_inv P s' /\ tl_log s' = tl_log s /\ (forall p f, flows s !! p = Some f -> kind_of f = KTcp -> flows s' !! p = Some f) /\
  (v = LaneLwip <-> exists k p f, mqvpn_hybrid_classify pkt (Some (hybrid (config c))) = Some (MQVPN_LANE_TCP, Some k) /\ enabled (hybrid (config c)) = true /\ flows s' !! p = Some f /\ f_key f = k /\ f_state f <> TCP_FLOW_STICKY_RAW)).
Proof.
  intros Hi Hc Hb. unfold tun_packet_lane. destruct (enabled (hybrid (config c))) eqn:Een; cbn [negb].
  2:{ apply dwp_ret. split; [done|]. split; [done|]. split; [done|]. split; [done|]. by intros (? & ? & ? & _ & ? & _). }
  destruct (classify_lane pkt (Some (hybrid (config c))) Hb) as (v & key & lane & Ep & Ec & _ & Htcp); [intros p [= <-]; apply Hc|]. apply dwp_bind. eapply dwp_lift; [exact Ec|]. destruct lane; cbn [fst snd].
  - destruct (proj1 Htcp eq_refl) as (p & k & [= <-] & -> & -> & _). apply dwp_bind. eapply dwp_lift; [done|]. destruct (parse_l3l4_wf pkt Hb) as (r & Er & Hw). rewrite Ep in Er. injection Er as <-. destruct Hw as [Hk _]. eapply dwp_mono; [by apply dwp_route|]. intros vv s' (H1 & H2 & H3 & H4 & _). split; [done|]. split; [done|]. split; [done|]. rewrite H4, Ec. split; [intros (x & f & ?); exists k, x, f; tauto|]. intros (k' & x & f & [= <-] & _ & ?). by exists x, f.
  - apply dwp_ret. split; [done|]. split; [done|]. split; [done|]. split; [done|]. intros (? & ? & ? & ? & _). congruence.
  - apply dwp_ret. split; [done|]. split; [done|]. split; [done|]. split; [done|]. intros (? & ? & ? & ? & _). congruence.
Qed.

End syn.
