(* ===== verification/TcpUplink.v ===== *)
(** * Local steps of a flow of the TCP lane

    The relay of a flow changes that flow and calls lwIP and xquic for its own
    pcb and request; everything else stays.  A calculus for such computations,
    in terms of the flow and the log only. *)

From S2P Require Import Prelude StateOpt CString Wire ReorderTx Hybrid PathFsm Client TcpLane TcpEvent TcpTable Chains TcpClose.

(** The entries a relay makes. *)
Definition fx_local (q r : Z) (e : tcp_fx) : Prop :=
  match e with
  | FxRecved x _ | FxWrite x _ _ | FxShutdown x _ | FxOutput x => x = q
  | FxSend x _ _ _ | FxBody x _ _ | FxNotify x _ => x = r
  | _ => False
  end.

Definition same_ids (f f' : mqvpn_tcp_flow_t) : Prop :=
  f_key f' = f_key f /\ f_state f' = f_state f /\ f_pcb f' = f_pcb f /\ f_h3_request f' = f_h3_request f /\ f_stream f' = f_stream f /\ f_lane f' = f_lane f.

#[export] Instance same_ids_pre : PreOrder same_ids.
Proof.
  split; [by intros f|]. intros f1 f2 f3 (A1 & A2 & A3 & A4 & A5 & A6) (B1 & B2 & B3 & B4 & B5 & B6). unfold same_ids. by rewrite B1, B2, B3, B4, B5, B6, A1, A2, A3, A4, A5, A6.
Qed.

Section local.
Context (P : lane_profile) (p q r : Z).
Implicit Types (s : mqvpn_tcp_lane_t) (f : mqvpn_tcp_flow_t) (l : list tcp_fx).

Record local s s' : Prop := {
  lo_flow : exists f f', flows s !! p = Some f /\ flows s' = <[p := f']> (flows s) /\ same_ids f f';
  lo_buckets : buckets s' = buckets s;
  lo_seed : hash_seed s' = hash_seed s;
  lo_cfg : tl_cfg s' = tl_cfg s;
  lo_tcp : n_tcp_flows s' = n_tcp_flows s;
  lo_raw : n_raw_markers s' = n_raw_markers s;
  lo_closing : n_closing s' = n_closing s;
  lo_bound : bound s' = bound s;
  lo_args : tcp_args s' = tcp_args s;
  lo_streams : h3_streams s' = h3_streams s;
  lo_log : exists ext, tl_log s' = ext ++ tl_log s /\ Forall (fx_local q r) ext
}.

Lemma local_refl s f : flows s !! p = Some f -> local s s.
Proof. intros Hf. constructor; [|done..|by exists []]. exists f, f. split; [done|]. split; [by rewrite insert_id|done]. Qed.

Lemma local_trans s1 s2 s3 : local s1 s2 -> local s2 s3 -> local s1 s3.
Proof.
  intros [(f1 & f2 & F1 & F2 & F3) A1 A2 A3 A4 A5 A6 A7 A8 A9 (x & Ex & Hx)] [(g1 & g2 & G1 & G2 & G3) B1 B2 B3 B4 B5 B6 B7 B8 B9 (y & Ey & Hy)]. constructor; [|congruence..|].
  - exists f1, g2. split; [done|]. rewrite F2 in G1. rewrite lookup_insert_eq in G1. injection G1 as <-. split; [by rewrite G2, F2, insert_insert_eq|]. by transitivity f2.
  - exists (y ++ x). split; [by rewrite Ey, Ex, app_assoc|]. by apply Forall_app.
Qed.

(** ** The calculus *)

Definition lwp {A} (m : T A) f l (n : nat) (Q : A -> mqvpn_tcp_flow_t -> list tcp_fx -> nat -> Prop) : Prop :=
  forall s, flows s !! p = Some f -> tl_log s = l -> tl_reads s = n -> dwp m s (fun a s' => local s s' /\ exists f', flows s' !! p = Some f' /\ Q a f' (tl_log s') (tl_reads s')).

Lemma lwp_mono {A} (m : T A) f l n (Q Q' : A -> mqvpn_tcp_flow_t -> list tcp_fx -> nat -> Prop) : lwp m f l n Q -> (forall a f' l' n', Q a f' l' n' -> Q' a f' l' n') -> lwp m f l n Q'.
Proof. intros Hm Hi s H1 H2 H3. eapply dwp_mono; [by apply Hm|]. intros a s' (L & f' & F & HQ). split; [done|]. exists f'. auto. Qed.

Lemma lwp_bind {A B} (m : T A) (k : A -> T B) f l n Q : lwp m f l n (fun a f' l' n' => lwp (k a) f' l' n' Q) -> lwp (m ≫= k) f l n Q.
Proof.
  intros Hm s H1 H2 H3. apply dwp_bind. eapply dwp_mono; [by apply Hm|]. intros a s' (L & f' & F & HQ). eapply dwp_mono; [by apply HQ|]. intros b s'' (L' & f'' & F' & HQ'). split; [by eapply local_trans|]. by exists f''.
Qed.

Lemma lwp_ret {A} (a : A) f l n (Q : A -> mqvpn_tcp_flow_t -> list tcp_fx -> nat -> Prop) : Q a f l n -> lwp (mret a) f l n Q.
Proof. intros HQ s H1 <- <-. apply dwp_ret. split; [by eapply local_refl|]. by exists f. Qed.

Lemma lwp_skip f l n (Q : unit -> mqvpn_tcp_flow_t -> list tcp_fx -> nat -> Prop) : Q tt f l n -> lwp d_skip f l n Q.
Proof. apply lwp_ret. Qed.

Lemma lwp_lift {A} (o : option A) a f l n (Q : A -> mqvpn_tcp_flow_t -> list tcp_fx -> nat -> Prop) : o = Some a -> Q a f l n -> lwp (d_lift o) f l n Q.
Proof. intros Ho HQ s H1 <- <-. eapply dwp_lift; [done|]. split; [by eapply local_refl|]. by exists f. Qed.

Lemma lwp_get f l n (Q : mqvpn_tcp_flow_t -> mqvpn_tcp_flow_t -> list tcp_fx -> nat -> Prop) : Q f f l n -> lwp (get_flow p) f l n Q.
Proof. intros HQ s H1 <- <-. eapply dwp_get_flow; [done|]. split; [by eapply local_refl|]. by exists f. Qed.

Lemma lwp_set g f l n (Q : unit -> mqvpn_tcp_flow_t -> list tcp_fx -> nat -> Prop) : same_ids f (g f) -> Q tt (g f) l n -> lwp (set_flow p g) f l n Q.
Proof.
  intros Hi HQ s H1 <- <-. eapply dwp_set_flow; [done|]. split; [|exists (g f); split; [apply (lookup_insert_eq (flows s))|done]]. constructor; [|done..|by exists []]. by exists f, (g f).
Qed.

Lemma lwp_ask {A} (g : nat -> A) f l n (Q : A -> mqvpn_tcp_flow_t -> list tcp_fx -> nat -> Prop) : (forall k, Q (g k) f l n) -> lwp (t_ask g) f l n Q.
Proof.
  intros HQ s H1 <- <-. apply dwp_t_ask. intros k m. split; [|by exists f]. constructor; [|done..|by exists []]. exists f, f. split; [done|]. split; [cbn; by rewrite insert_id|done].
Qed.

Lemma lwp_emit e f l n (Q : unit -> mqvpn_tcp_flow_t -> list tcp_fx -> nat -> Prop) : fx_local q r e -> Q tt f (e :: l) n -> lwp (t_emit e) f l n Q.
Proof.
  intros He HQ s H1 <- <-. unfold t_emit. apply dwp_modify. split; [|by exists f]. constructor; [|done..|exists [e]; split; [done|by apply Forall_singleton]]. exists f, f. split; [done|]. split; [cbn; by rewrite insert_id|done].
Qed.

(** A read has a number of its own. *)
Lemma lwp_reads {B} (k : nat -> list tcp_fx -> T B) f l n (Q : B -> mqvpn_tcp_flow_t -> list tcp_fx -> nat -> Prop) : lwp (k n l) f l (S n) Q -> lwp (s ← d_get; d_modify (fun s => s <| tl_reads ::= S |>) ;; k (tl_reads s) (tl_log s)) f l n Q.
Proof.
  intros Hk s H1 <- <-. apply dwp_bind, dwp_get, dwp_bind, dwp_modify. eapply dwp_mono; [by apply Hk|]. intros b s' (L & HQ). split; [|done]. eapply local_trans; [|exact L]. constructor; [|done..|by exists []]. exists f, f. split; [done|]. split; [cbn; by rewrite insert_id|done].
Qed.

(** ** Back to the state *)

Lemma local_log q' r' ext l : Forall (fx_local q r) ext -> pv_open (pcb_of q' (ext ++ l)) = pv_open (pcb_of q' l) /\ rv_open (req_of r' (ext ++ l)) = rv_open (req_of r' l) /\ pv_aborted (pcb_of q' (ext ++ l)) = pv_aborted (pcb_of q' l) /\ pv_req (pcb_of q' (ext ++ l)) = pv_req (pcb_of q' l).
Proof.
  induction ext as [|e ext IH]; [done|]. intros [He Hx]%Forall_cons. destruct (IH Hx) as (I1 & I2 & I3 & I4). cbn [app pcb_of req_of]. destruct (bool_decide (fx_pcb e = Some q')), (bool_decide (fx_req e = Some r')); destruct e; try done; cbn [pcb_effect req_effect] in *; try done; repeat case_match; done.
Qed.

Lemma local_data ext l f : Forall (fx_local q r) ext -> f_pcb f <> Some q -> f_h3_request f <> Some r -> data_ok P l f -> data_ok P (ext ++ l) f.
Proof.
  intros Hx Hq Hr Hd. induction ext as [|e ext IH]; [done|]. apply Forall_cons in Hx as [He Hx]. cbn [app]. apply data_frame; [| |by apply IH].
  - destruct e; try done; cbn in He |- *; try (by left); right; subst; congruence.
  - destruct e; try done; cbn in He |- *; try (by left); right; subst; congruence.
Qed.

Lemma shape_local s s' f : shape P s -> flows s !! p = Some f -> f_pcb f = Some q -> f_h3_request f = Some r -> local s s' -> shape P s'.
Proof.
  intros Hs Hf Hq Hr [(f0 & f' & F1 & F2 & (I1 & I2 & I3 & I4 & I5 & I6)) B1 B2 B3 B4 B5 B6 B7 B8 B9 (ext & El & Hx)]. simplify_eq.
  assert (Ho : forall k, one k f' = one k f) by (intros k; unfold one, kind_of; by rewrite I2). assert (Hpop : forall k, pop k (flows s') = pop k (flows s)) by (intros k; rewrite F2, (pop_insert _ _ _ f _ Hf), Ho; lia).
  eapply (shape_update P s s' p f f'); [done|done|done|done|done|done|done| |rewrite Ho; lia|rewrite Ho; lia|rewrite Ho; lia| | | | | | | | | | | |].
  - pose proof (sh_ptrs _ _ Hs p f Hf). unfold ptrs_ok in *. by rewrite I2, I3, I4, I5, I6.
  - rewrite Hpop. apply (sh_max _ _ Hs).
  - rewrite Hpop. apply (sh_max_raw _ _ Hs).
  - rewrite Hpop. apply (sh_max_closing _ _ Hs).
  - rewrite B7. apply (sh_bnodup _ _ Hs).
  - intros x. rewrite B7, I5. destruct (decide (x = p)) as [->|Hne]; [|tauto]. rewrite (sh_bound _ _ Hs). split; [intros (f2 & ? & ?); simplify_eq; by right|intros [[? _]|[_ ?]]; [done|by exists f]].
  - by rewrite B9.
  - rewrite B9. apply (sh_inj _ _ Hs).
  - intros st. rewrite I5, I4, B9, El. intros Hst. destruct (sh_stream _ _ Hs p f st Hf Hst) as (r0 & R1 & R2 & R3). split; [exists r0; split; [done|]; split; [done|]; by rewrite (proj1 (proj2 (local_log 0 r0 ext (tl_log s) Hx)))|]. intros x fx Hne Hfx Hsx. apply Hne. by eapply (sh_suniq _ _ Hs).
  - intros x fx r0 _ _ _ Ho0. by rewrite El, (proj1 (proj2 (local_log 0 r0 ext (tl_log s) Hx))).
  - intros q0 x. rewrite B8, I3. destruct (decide (x = p)) as [->|Hne]; [|tauto]. rewrite (sh_args _ _ Hs). split; [intros (f2 & ? & ?); simplify_eq; by right|intros [[? _]|[_ ?]]; [done|by exists f]].
  - intros q0. rewrite B8, El, (proj1 (local_log q0 0 ext (tl_log s) Hx)). apply (sh_open _ _ Hs).
  - intros r0. rewrite B9, El, (proj1 (proj2 (local_log 0 r0 ext (tl_log s) Hx))). apply (sh_ropen _ _ Hs).
Qed.

Lemma focus_local s s' f : focus P p s -> flows s !! p = Some f -> f_pcb f = Some q -> f_h3_request f = Some r -> local s s' -> log_ok (tl_log s') -> focus P p s'.
Proof.
  intros [Hs Hl Ho] Hf Hq Hr Hlo Hl'. constructor; [by eapply shape_local|done|]. destruct Hlo as [(f0 & f' & F1 & F2 & _) _ _ _ _ _ _ _ _ _ (ext & El & Hx)]. intros x fx Hne. rewrite F2, lookup_insert_ne by done. intros Hfx. rewrite El. apply local_data; [done|exact (other_pcb P s p x f fx q Hs Hf Hfx Hne Hq)|exact (other_req P s p x f fx r Hs Hf Hfx Hne Hr)|by eapply Ho].
Qed.

Lemma local_thinned s s' : local s s' -> thinned p s s'.
Proof.
  intros [(f0 & f' & F1 & F2 & _) B1 B2 B3 _ _ _ _ _ _ _]. split; [intros x fx Hne; by rewrite F2, lookup_insert_ne|]. rewrite B1. split; [done|]. split; [|done]. intros i ch Hi. by exists ch.
Qed.

End local.

(** * The uplink of the TCP lane

    Every byte that lwIP delivers goes to the request once and in order, or
    waits in the queue; the window is given back for what was delivered and not
    withheld. *)

(** ** Byte lists *)

Definition slice (b : list Z) (i j : Z) : list Z := take (Z.to_nat (j - i)) (drop (Z.to_nat i) b).

Lemma slice_all b i : 0 <= i -> slice b i (blen b) = drop (Z.to_nat i) b.
Proof. intros Hi. unfold slice, blen. apply take_ge. rewrite length_drop. lia. Qed.

Lemma slice_split b i j k : 0 <= i <= j -> j <= k -> slice b i k = slice b i j ++ slice b j k.
Proof.
  intros Hi Hj. unfold slice. replace (Z.to_nat (k - i)) with (Z.to_nat (j - i) + Z.to_nat (k - j))%nat by lia. rewrite <- take_take_drop. f_equal. rewrite drop_drop. do 2 f_equal. lia.
Qed.

Lemma slice_drop b i j : 0 <= i <= j -> j <= blen b -> drop (Z.to_nat i) b = slice b i j ++ drop (Z.to_nat j) b.
Proof. intros Hi Hj. rewrite <- (slice_all b i), <- (slice_all b j) by lia. apply slice_split; lia. Qed.

Lemma slice_len b i j : 0 <= i <= j -> j <= blen b -> blen (slice b i j) = j - i.
Proof. intros Hi Hj. unfold slice, blen in *. rewrite length_take, length_drop. lia. Qed.

Lemma slice_nil b i : slice b i i = [].
Proof. unfold slice. by rewrite Z.sub_diag. Qed.

Lemma blen_cat a b : blen (a ++ b) = blen a + blen b.
Proof. unfold blen. rewrite length_app. lia. Qed.

Section uplink.
Context (E : tcp_env) (P : lane_profile) (HE : tcp_env_ok E) (HP : profile_ok P) (p q r : Z).
Implicit Types (s : mqvpn_tcp_lane_t) (f : mqvpn_tcp_flow_t) (l : list tcp_fx).

Abbreviation lwp := (lwp p q r).

(** ** Calls of xquic and lwIP *)

Lemma lwp_unsent f l n (Q : Z -> mqvpn_tcp_flow_t -> list tcp_fx -> nat -> Prop) : (forall x, Q x f l n) -> lwp (tcp_lane_uplink_xquic_bytes E p) f l n Q.
Proof. intros HQ. unfold tcp_lane_uplink_xquic_bytes. apply lwp_bind, lwp_get. destruct (f_h3_request f); [by apply lwp_ask|by apply lwp_ret]. Qed.

Lemma lwp_notify b f l n (Q : Z -> mqvpn_tcp_flow_t -> list tcp_fx -> nat -> Prop) : (forall x, Q x f (FxNotify r b :: l) n) -> lwp (cli_tcp_lane_h3_set_write_notify E r b) f l n Q.
Proof. intros HQ. unfold cli_tcp_lane_h3_set_write_notify. apply lwp_bind, lwp_ask. intros k. apply lwp_bind, lwp_emit; [done|]. by apply lwp_ret. Qed.

Lemma lwp_withhold f l n (Q : unit -> mqvpn_tcp_flow_t -> list tcp_fx -> nat -> Prop) : f_h3_request f = Some r -> Q tt (f <| uplink_withheld := true |>) (FxNotify r true :: l) n -> lwp (tcp_lane_uplink_withhold E p) f l n Q.
Proof.
  intros Hr HQ. unfold tcp_lane_uplink_withhold. apply lwp_bind, lwp_set; [done|]. apply lwp_bind, lwp_get. change (f_h3_request (f <| uplink_withheld := true |>)) with (f_h3_request f). rewrite Hr. apply lwp_bind, lwp_notify. intros _. apply lwp_skip, HQ.
Qed.

(** A send takes a prefix, or nothing. *)
Lemma lwp_send data fin f l n (Q : Z -> mqvpn_tcp_flow_t -> list tcp_fx -> nat -> Prop) :
  (forall ret, ret = H3_SEND_AGAIN \/ ret = H3_SEND_ERR \/ 0 <= ret <= blen data -> Q ret f (FxSend r data fin ret :: l) n) -> lwp (cli_tcp_lane_h3_send E r data fin) f l n Q.
Proof.
  intros HQ. unfold cli_tcp_lane_h3_send. apply lwp_bind, lwp_ask. intros k. apply lwp_bind, lwp_emit; [done|]. apply lwp_ret, HQ. pose proof (eo_send _ HE k (blen data)). destruct (Z.eqb_spec (te_send E k (blen data)) (- te_EAGAIN E)); [by left|]. destruct (Z.ltb_spec (te_send E k (blen data)) 0); [by right; left|]. right; right. lia.
Qed.

(** The same log but for some entries of the relay that show in the credit only. *)
Definition recved_view (n : Z) l l' : Prop := log_ok l' /\ pcb_of q l' = (pcb_of q l) <| pv_credit ::= fun c => c + n |> /\ req_of r l' = req_of r l /\ fin_reported r l' = fin_reported r l.

Lemma lwp_recved len f l n (Q : unit -> mqvpn_tcp_flow_t -> list tcp_fx -> nat -> Prop) : 0 <= len -> log_ok l -> pv_open (pcb_of q l) = true -> (forall l', recved_view len l l' -> Q tt f l' n) -> lwp (tcp_lane_recved q len) f l n Q.
Proof.
  intros Hlen Hl Ho HQ. unfold tcp_lane_recved. assert (Hgen : forall fuel k l0, len <= 65535 * Z.of_nat fuel + k -> 0 <= k <= len -> recved_view k l l0 -> lwp (recved_loop fuel q (len - k)) f l0 n Q).
  { induction fuel as [|fuel IH]; intros k l0 Hf Hk Hv; cbn [recved_loop]; destruct (Z.ltb_spec 0 (len - k)) as [Hpos|Hpos].
    - lia.
    - apply lwp_skip, HQ. by replace len with k by lia.
    - destruct Hv as (V1 & V2 & V3 & V4). set (chunk := if 65535 <? len - k then 65535 else len - k). assert (Hc : 0 < chunk <= 65535 /\ chunk <= len - k /\ (chunk = 65535 \/ chunk = len - k)) by (subst chunk; destruct (Z.ltb_spec 65535 (len - k)); lia). apply lwp_bind, lwp_emit; [done|]. replace (len - k - chunk) with (len - (k + chunk)) by lia.
      apply IH; [lia|lia|]. split; [split; [|done]; cbn [fx_ok]; split; [by rewrite V2|lia]|]. split; [rewrite pcb_same by done; cbn [pcb_effect]; rewrite V2; cbn; f_equal; lia|]. rewrite req_other, fin_other by done. done.
    - apply lwp_skip, HQ. by replace len with k by lia. }
  replace len with (len - 0) at 2 by lia. apply Hgen; [|lia|].
  - rewrite Nat2Z.inj_succ, Z2Nat.id by (apply Z.div_pos; lia). pose proof (Z.div_mod len 65535 ltac:(lia)). pose proof (Z.mod_pos_bound len 65535 ltac:(lia)). lia.
  - split; [done|]. split; [|done]. destruct (pcb_of q l). cbn. f_equal. lia.
Qed.

(** ** Sending a pbuf *)

Lemma chunk_spec b off : b <> [] -> 0 <= off < tot_len b -> tot_len b <= 65535 -> exists j, pbuf_chunk E b off = Some (slice (concat b) off j) /\ off < j <= tot_len b.
Proof.
  intros Hb Hoff Htot. unfold pbuf_chunk. rewrite (u16_small (tot_len b - off)) by lia. destruct b as [|x [|y b]]; [done| |].
  - exists (tot_len [x]). split; [|lia]. unfold tot_len in *. cbn [concat] in *. rewrite app_nil_r in *. unfold rdn. destruct (Z.leb_spec 0 off), (Z.leb_spec 0 (blen x - off)), (Z.leb_spec (off + (blen x - off)) (blen x)); try lia. done.
  - set (b' := x :: y :: b) in *. set (w := if TCP_MSS <? tot_len b' - off then TCP_MSS else tot_len b' - off). assert (Hw : 0 < w <= tot_len b' - off) by (subst w; unfold TCP_MSS; destruct (Z.ltb_spec 8960 (tot_len b' - off)); lia). exists (off + w). split; [|lia]. rewrite (eo_copy _ HE) by lia. unfold slice. do 3 f_equal. lia.
Qed.

(** What a send of bytes leaves: only the request's view changes. *)
Definition sent_view (data : list Z) l l' : Prop := log_ok l' /\ pcb_of q l' = pcb_of q l /\ fin_reported r l' = fin_reported r l /\ req_of r l' = (req_of r l) <| rv_sent ::= fun x => x ++ data |>.

Lemma sent_view_refl l : log_ok l -> sent_view [] l l.
Proof. intros Hl. split; [done|]. split; [done|]. split; [done|]. destruct (req_of r l). cbn. by rewrite app_nil_r. Qed.

Lemma sent_view_notify d l l' b : rv_open (req_of r l) = true -> sent_view d l l' -> sent_view d l (FxNotify r b :: l').
Proof.
  intros Ho (V1 & V2 & V3 & V4). split; [split; [cbn [fx_ok]; by rewrite V4|done]|]. split; [by rewrite pcb_other|]. split; [done|]. rewrite req_same by done. done.
Qed.

Lemma lwp_send_from f l n b off (Q : option Z -> mqvpn_tcp_flow_t -> list tcp_fx -> nat -> Prop) : f_h3_request f = Some r -> log_ok l -> rv_open (req_of r l) = true -> rv_fin_sent (req_of r l) = false -> b <> [] -> 0 <= off <= tot_len b -> tot_len b <= 65535 ->
  (forall j f' l', off <= j <= tot_len b -> sent_view (slice (concat b) off j) l l' -> f' = f \/ f' = f <| uplink_withheld := true |> -> Q (Some j) f' l' n) -> (forall f' l', log_ok l' -> f' = f -> Q None f' l' n) -> lwp (tcp_lane_uplink_send_from E P p b off) f l n Q.
Proof.
  intros Hr Hl Ho Hfs Hb Hoff Htot HS HN. unfold tcp_lane_uplink_send_from.
  assert (Hgen : forall fuel i l0, tot_len b - i < Z.of_nat fuel -> off <= i <= tot_len b -> sent_view (slice (concat b) off i) l l0 -> lwp (send_from_loop E P fuel p b i) f l0 n Q).
  { induction fuel as [|fuel IH]; intros i l0 Hf Hi Hv; cbn [send_from_loop]; destruct (Z.ltb_spec i (tot_len b)) as [Hlt|Hge]; cbn [negb]; [lia|apply lwp_ret, HS; [lia|done|by left]| |apply lwp_ret, HS; [lia|done|by left]]. destruct Hv as (V1 & V2 & V3 & V4).
    destruct (chunk_spec b i Hb ltac:(lia) Htot) as (j & Ej & Hj). apply lwp_bind. eapply lwp_lift; [exact Ej|]. pose proof (slice_len (concat b) i j ltac:(lia) ltac:(unfold tot_len in *; lia)) as Hsl. rewrite (proj2 (Z.eqb_neq (blen _) 0)) by lia. rewrite andb_false_r. apply lwp_bind, lwp_get, lwp_bind. eapply lwp_lift; [exact Hr|].
    apply lwp_bind, lwp_send. intros ret Hret. assert (Hok : log_ok (FxSend r (slice (concat b) i j) false ret :: l0)) by (split; [cbn [fx_ok]; by rewrite V4|done]). unfold H3_SEND_AGAIN, H3_SEND_ERR in *. destruct (Z.eqb_spec ret (-1)) as [->|Nagain].
    - apply lwp_ret, HS; [done| |by left]. split; [done|]. split; [by rewrite pcb_other|]. split; [done|]. rewrite req_same by done. done.
    - destruct (Z.ltb_spec ret 0) as [Hneg|Hpos]; [apply lwp_ret; by apply HN|]. rewrite (u16_small ret), (u16_small (i + ret)) by lia.
      assert (Hv' : sent_view (slice (concat b) off (i + ret)) l (FxSend r (slice (concat b) i j) false ret :: l0)).
      { split; [done|]. split; [by rewrite pcb_other|]. split; [done|]. rewrite req_same by done. cbn [req_effect]. rewrite (proj2 (Z.leb_le 0 ret)) by done. rewrite V4. destruct (req_of r l) as [o1 o2 o3 o4]. cbn. rewrite orb_false_r. f_equal. rewrite <- app_assoc. f_equal. rewrite (slice_split (concat b) off i (i + ret)) by lia. f_equal. unfold slice. rewrite take_take. f_equal. lia. }
      destruct (Z.ltb_spec ret (blen (slice (concat b) i j))); [apply lwp_ret, HS; [lia|done|by left]|].
      assert (Hstop : lwp (tcp_lane_uplink_withhold E p ;; mret (Some (i + ret))) f (FxSend r (slice (concat b) i j) false ret :: l0) n Q) by (apply lwp_bind, lwp_withhold; [done|]; apply lwp_ret, HS; [lia|by apply sent_view_notify|by right]).
      assert (Hgo : lwp (send_from_loop E P fuel p b (i + ret)) f (FxSend r (slice (concat b) i j) false ret :: l0) n Q) by (apply IH; [lia|lia|done]).
      apply lwp_bind. destruct (i + ret <? tot_len b); [|apply lwp_ret; exact Hgo]. apply lwp_bind, lwp_unsent. intros x. apply lwp_ret. destruct (_ <=? x); [exact Hstop|exact Hgo]. }
  apply Hgen; [unfold tot_len, blen in *; lia|lia|]. rewrite slice_nil. by apply sent_view_refl.
Qed.

(** ** The queue *)

(** The flow has its pcb and its request, and they are open. *)
Record ready l f : Prop := {
  rd_pcb : f_pcb f = Some q;
  rd_req : f_h3_request f = Some r;
  rd_log : log_ok l;
  rd_open : pv_open (pcb_of q l) = true;
  rd_ropen : rv_open (req_of r l) = true
}.

(** The downlink is as it was. *)
Definition down_same l f l' f' : Prop :=
  rv_body (req_of r l') = rv_body (req_of r l) /\ pv_out (pcb_of q l') = pv_out (pcb_of q l) /\ pv_fin_out (pcb_of q l') = pv_fin_out (pcb_of q l) /\ fin_reported r l' = fin_reported r l /\
  downlink_paused f' = downlink_paused f /\ downlink_stash f' = downlink_stash f /\ downlink_stash_len f' = downlink_stash_len f /\ fin_received_from_h3 f' = fin_received_from_h3 f.

Lemma down_same_trans l1 f1 l2 f2 l3 f3 : down_same l1 f1 l2 f2 -> down_same l2 f2 l3 f3 -> down_same l1 f1 l3 f3.
Proof. intros (A1 & A2 & A3 & A4 & A5 & A6 & A7 & A8) (B1 & B2 & B3 & B4 & B5 & B6 & B7 & B8). repeat split; congruence. Qed.

Lemma downlink_same l f l' f' : down_same l f l' f' -> downlink_ok l f q r -> downlink_ok l' f' q r.
Proof.
  intros (A1 & A2 & A3 & A4 & A5 & A6 & A7 & A8) [D1 D2 D3 D4 D5]. constructor; rewrite ?A1, ?A2, ?A3, ?A4, ?A5, ?A6, ?A7, ?A8; [|done..]. rewrite D1. unfold stashed. by rewrite A5, A6, A7.
Qed.

Lemma queue_cons n qs : queue_bytes (n :: qs) = drop (Z.to_nat (un_offset n)) (concat (un_p n)) ++ queue_bytes qs.
Proof. done. Qed.

(** Bytes at the head of the queue were sent. *)
Lemma uplink_sent l f l' f' n qs j : uplink_ok P l f q r -> uplink_q f = n :: qs -> un_offset n <= j <= tot_len (un_p n) -> sent_view (slice (concat (un_p n)) (un_offset n) j) l l' ->
  uplink_q f' = (if j <? tot_len (un_p n) then UplinkNode (un_p n) j :: qs else qs) -> uplink_queued_bytes f' = uplink_queued_bytes f - (j - un_offset n) -> uplink_withheld_recved f' = uplink_withheld_recved f ->
  (uplink_withheld f' = false -> uplink_withheld f = false) -> tcp_fin_seen f' = tcp_fin_seen f -> fin_sent_to_h3 f' = fin_sent_to_h3 f -> uplink_ok P l' f' q r.
Proof.
  intros [U1 U2 U3 U4 U5 U6 U7 U8 U9 U10] Eq Hj (V1 & V2 & V3 & V4) F1 F2 F3 F4 F5 F6. rewrite Eq in *. apply Forall_cons in U2 as [(N1 & N2 & N3) U2]. rewrite queue_cons in *. assert (Hdrop : drop (Z.to_nat (un_offset n)) (concat (un_p n)) = slice (concat (un_p n)) (un_offset n) j ++ drop (Z.to_nat j) (concat (un_p n))) by (apply slice_drop; unfold tot_len in *; lia).
  assert (Hqb : queue_bytes (uplink_q f') = drop (Z.to_nat j) (concat (un_p n)) ++ queue_bytes qs). { rewrite F1. destruct (Z.ltb_spec j (tot_len (un_p n))); [done|]. rewrite drop_ge; [done|]. unfold tot_len, blen in *. lia. }
  pose proof (slice_len (concat (un_p n)) (un_offset n) j ltac:(lia) ltac:(unfold tot_len in *; lia)) as Hsl. constructor; rewrite ?V2, ?V4, ?F2, ?F3, ?F5, ?F6; [| | |done|done| |intros Hw; by apply U7, F4|done|done|intros Hs; by destruct (U10 Hs)].
  - cbn [rv_sent update]. rewrite Hqb, U1, Hdrop. by rewrite <- !app_assoc.
  - rewrite F1. destruct (Z.ltb_spec j (tot_len (un_p n))); [|done]. apply Forall_cons. split; [|done]. split; [done|]. cbn [un_offset un_p]. lia.
  - rewrite Hqb, U3, Hdrop, !blen_cat. lia.
  - lia.
Qed.

Lemma lwp_flush_loop fuel f l n : ready l f -> uplink_ok P l f q r -> (length (uplink_q f) <= fuel)%nat ->
  lwp (flush_loop E P fuel p) f l n (fun ok f' l' n' => n' = n /\ log_ok l' /\ (ok = true -> uplink_ok P l' f' q r /\ down_same l f l' f' /\ fin_sent_to_h3 f' = fin_sent_to_h3 f /\ tcp_fin_seen f' = tcp_fin_seen f)).
Proof.
  revert f l n. induction fuel as [|fuel IH]; intros f l n Hrd Hu Hfuel; cbn [flush_loop]; (apply lwp_bind, lwp_get; destruct (uplink_q f) as [|nd qs] eqn:Eq; [apply lwp_ret; split; [done|]; split; [apply (rd_log _ _ Hrd)|]; done|]); [cbn in Hfuel; lia|].
  destruct Hrd as [R1 R2 R3 R4 R5]. pose proof Hu as [_ U2 U3 _ U5 U6 _ _ U9 U10]. rewrite Eq in U2, U3. apply Forall_cons in U2 as [(N1 & N2 & N3) U2]. assert (Hfs : fin_sent_to_h3 f = false) by (destruct (fin_sent_to_h3 f); [by destruct (U10 eq_refl) as [_ ?]; rewrite Eq in *|done]).
  assert (Hstop : forall f1 l1, f_h3_request f1 = Some r -> log_ok l1 -> rv_open (req_of r l1) = true -> uplink_ok P l1 (f1 <| uplink_withheld := true |>) q r -> down_same l f l1 f1 -> fin_sent_to_h3 f1 = fin_sent_to_h3 f -> tcp_fin_seen f1 = tcp_fin_seen f -> lwp (tcp_lane_uplink_withhold E p ;; mret true) f1 l1 n (fun ok f' l' n' => n' = n /\ log_ok l' /\ (ok = true -> uplink_ok P l' f' q r /\ down_same l f l' f' /\ fin_sent_to_h3 f' = fin_sent_to_h3 f /\ tcp_fin_seen f' = tcp_fin_seen f))).
  { intros f1 l1 G1 G2 G3 G4 G5 G6 G7. apply lwp_bind, lwp_withhold; [done|]. apply lwp_ret. split; [done|]. split; [by split|]. intros _. split; [|split; [|done]].
    - destruct G4. constructor; rewrite ?pcb_other, ?req_same by done; done.
    - eapply down_same_trans; [exact G5|]. unfold down_same. by rewrite pcb_other, req_same by done. }
  apply lwp_bind, lwp_unsent. intros x. destruct (BP_HIGH_WATER P <=? x). { apply Hstop; [done|done|done| |done|done|done]. destruct Hu. by constructor. }
  apply lwp_bind, lwp_send_from; [done|done|done|by rewrite <- U9|done|lia|lia| |by intros f' l' Hl' _; apply lwp_ret].
  intros j f1 l1 Hj Hv Hf1. assert (Hq2 : uplink_queued_bytes f = blen (drop (Z.to_nat (un_offset nd)) (concat (un_p nd)) ++ queue_bytes qs)) by done. rewrite blen_cat in Hq2. assert (blen (drop (Z.to_nat (un_offset nd)) (concat (un_p nd))) = tot_len (un_p nd) - un_offset nd) by (unfold tot_len, blen in *; rewrite length_drop; lia). pose proof (blen_nonneg (queue_bytes qs)). destruct HP.
  assert (Hf1f : uplink_queued_bytes f1 = uplink_queued_bytes f /\ uplink_withheld_recved f1 = uplink_withheld_recved f /\ tcp_fin_seen f1 = tcp_fin_seen f /\ fin_sent_to_h3 f1 = fin_sent_to_h3 f /\ (uplink_withheld f1 = false -> uplink_withheld f = false) /\ f_h3_request f1 = Some r /\ f_pcb f1 = Some q /\ down_same l f l1 f1).
  { destruct Hv as (V1 & V2 & V3 & V4). destruct Hf1 as [-> | ->]; repeat (split; [done|]); unfold down_same; rewrite V2, V3, V4; done. } destruct Hf1f as (G1 & G2 & G3 & G4 & G5 & G6 & G7 & G8).
  apply lwp_bind, lwp_set; [done|]. rewrite (u16_small j) by lia. set (f2 := f1 <| uplink_queued_bytes ::= _ |> <| uplink_q := _ |>). assert (Hqb2 : uplink_queued_bytes f2 = uplink_queued_bytes f - (j - un_offset nd)) by (subst f2; cbn; rewrite G1, (u32_small (j - un_offset nd)), u32_small by lia; done). destruct Hv as (V1 & V2 & V3 & V4). assert (Hro : rv_open (req_of r l1) = true) by (by rewrite V4).
  destruct (Z.ltb_spec j (tot_len (un_p nd))) as [Hlt|Hge].
  - apply Hstop; [done|done|done| |done|done|done]. eapply (uplink_sent l f _ _ nd qs j); [done|done|done|by split|cbn; by rewrite (proj2 (Z.ltb_lt _ _))|done|done|done|done|done].
  - assert (Hu3 : uplink_ok P l1 (f2 <| uplink_q := qs |>) q r) by (eapply (uplink_sent l f _ _ nd qs j); [done|done|done|by split|cbn; by rewrite (proj2 (Z.ltb_ge _ _))|done|done|done|done|done]). apply lwp_bind, lwp_set; [done|]. apply lwp_bind, lwp_unsent. intros y. destruct (BP_HIGH_WATER P <=? y).
    + apply Hstop; [done|done|done| |done|done|done]. destruct Hu3. by constructor.
    + eapply lwp_mono; [apply IH; [|done|cbn; cbn in Hfuel; lia]|].
      * constructor; [done|done|done|by rewrite V2|done].
      * cbn beta. intros ok f' l' n' (-> & H2 & H3). split; [done|]. split; [done|]. intros Hok. destruct (H3 Hok) as (K1 & K2 & K3 & K4). split; [done|]. split; [by eapply down_same_trans|]. cbn in K3, K4. by rewrite K3, K4.
Qed.

(** ** Results of a relay step *)

(** Flows were taken out, or none. *)
Definition thin (none : bool) s s' : Prop := thinned p s s' /\ (none = true -> buckets s' = buckets s).

(** The invariant holds; the flow is still there, or gone from the relay; the
    pcb was aborted exactly when the status says so. *)
Definition relay_post f s (st : tcp_lane_flow_status_t) s' : Prop :=
  lane_inv P s' /\ thin (bool_decide (st = TCP_LANE_FLOW_LIVE)) s s' /\ pv_aborted (pcb_of q (tl_log s')) = (if bool_decide (st = TCP_LANE_FLOW_ABORTED) then true else pv_aborted (pcb_of q (tl_log s))) /\
  match st with
  | TCP_LANE_FLOW_LIVE => exists f', flows s' !! p = Some f' /\ same_ids f f'
  | _ => forall f', flows s' !! p = Some f' -> f_state f' = TCP_FLOW_CLOSING
  end.

Lemma thinned_same s : thinned p s s.
Proof. split; [done|]. split; [done|]. split; [|done]. intros i ch Hi. by exists ch. Qed.

Lemma thinned_trans s1 s2 s3 : thinned p s1 s2 -> thinned p s2 s3 -> thinned p s1 s3.
Proof.
  intros (A1 & A2 & A3 & A4 & A5) (B1 & B2 & B3 & B4 & B5). split; [auto|]. split; [congruence|]. split; [|split; congruence]. intros i ch3 H3. destruct (B3 i ch3 H3) as (ch2 & H2 & S2). destruct (A3 i ch2 H2) as (ch1 & H1 & S1). exists ch1. split; [done|]. by transitivity ch2.
Qed.

Lemma thin_refl c s : thin c s s.
Proof. split; [apply thinned_same|done]. Qed.

Lemma thin_trans c s1 s2 s3 : thin true s1 s2 -> thin c s2 s3 -> thin c s1 s3.
Proof. intros [A1 A2] [B1 B2]. split; [by eapply thinned_trans|]. intros Hc. rewrite (B2 Hc). by apply A2. Qed.

Lemma local_thin c s s' : local p q r s s' -> thin c s s'.
Proof. intros L. split; [by eapply local_thinned|]. intros _. apply (lo_buckets _ _ _ _ _ L). Qed.

(** A step before does not matter. *)
Definition led s f s1 f1 : Prop := focus P p s1 /\ flows s1 !! p = Some f1 /\ same_ids f f1 /\ thin true s s1 /\ pv_aborted (pcb_of q (tl_log s1)) = pv_aborted (pcb_of q (tl_log s)).

Lemma relay_lead s f s1 f1 st s2 : led s f s1 f1 -> relay_post f1 s1 st s2 -> relay_post f s st s2.
Proof.
  intros (H1 & H2 & H3 & H4 & H5) (R1 & R2 & R3 & R4). split; [done|]. split; [by eapply thin_trans|]. split; [by rewrite R3, H5|]. destruct st; [|done..]. destruct R4 as (f' & ? & ?). exists f'. split; [done|]. by transitivity f1.
Qed.

Lemma lwp_led {A} (m : T A) s f (Q : A -> mqvpn_tcp_flow_t -> list tcp_fx -> nat -> Prop) (R : A -> mqvpn_tcp_lane_t -> Prop) : focus P p s -> flows s !! p = Some f -> f_pcb f = Some q -> f_h3_request f = Some r ->
  lwp m f (tl_log s) (tl_reads s) Q -> (forall a f' l' n', Q a f' l' n' -> log_ok l') -> (forall a s1 f1, led s f s1 f1 -> Q a f1 (tl_log s1) (tl_reads s1) -> R a s1) -> dwp m s R.
Proof.
  intros Hfo Hf Hq Hr Hm Hl HR. eapply dwp_mono; [by apply Hm|]. intros a s1 (L & f1 & Hf1 & HQ). apply (HR a s1 f1); [|done]. split; [by eapply (focus_local P p q r s s1 f); eauto|]. split; [done|]. pose proof L as [(f0 & f0' & F1 & F2 & F3) _ _ _ _ _ _ _ _ _ (ext & El & Hx)]. split; [rewrite F2, lookup_insert_eq in Hf1; congruence|]. split; [by eapply local_thin|]. rewrite El. by apply (local_log q r q r).
Qed.

Lemma led_refl s f : focus P p s -> flows s !! p = Some f -> led s f s f.
Proof. intros Hfo Hf. split; [done|]. split; [done|]. split; [done|]. split; [apply thin_refl|done]. Qed.

(** The flow is torn down. *)
Lemma dwp_relay_error s f : focus P p s -> flows s !! p = Some f -> f_pcb f = Some q -> f_lane f = true -> dwp (mqvpn_tcp_lane_on_relay_error p) s (fun st s' => relay_post f s st s' /\ st = TCP_LANE_FLOW_ABORTED).
Proof.
  intros Hfo Hf Hq Hl. unfold mqvpn_tcp_lane_on_relay_error. eapply dwp_teardown; [done|done|done|done|]. intros s' Ht. unfold gone_status. rewrite Hq. split; [|done]. split; [apply (to_inv _ _ _ _ _ _ Ht)|]. split; [split; [by eapply torn_thinned|by rewrite bool_decide_false by done]|]. split.
  - rewrite bool_decide_true by done. rewrite (to_log _ _ _ _ _ _ Ht), teardown_pcb. by rewrite decide_True.
  - intros f'. rewrite (to_flows _ _ _ _ _ _ Ht), lookup_delete_eq. done.
Qed.

(** ** The FIN *)

Lemma relay_lane s f : shape P s -> flows s !! p = Some f -> f_pcb f = Some q -> f_lane f = true.
Proof. intros Hs Hf Hq. destruct (sh_ptrs _ _ Hs p f Hf) as [_ Hp]. destruct (f_state f); [destruct Hp as (_ & ? & _); congruence..|by destruct Hp|by destruct Hp|destruct Hp as (_ & ? & _); congruence]. Qed.

Lemma dwp_live s f f' : lane_inv P s -> flows s !! p = Some f' -> same_ids f f' -> relay_post f s TCP_LANE_FLOW_LIVE s.
Proof. intros Hi Hf Hs. split; [done|]. split; [apply thin_refl|]. split; [done|]. by exists f'. Qed.

Lemma dwp_close s f : focus P p s -> flows s !! p = Some f -> f_pcb f = Some q -> f_h3_request f = Some r -> complete q (tl_log s) -> dwp (tcp_lane_finish_clean_close E P p ;; mret TCP_LANE_FLOW_GONE) s (relay_post f s).
Proof.
  intros Hfo Hf Hq Hr Hc. apply dwp_bind. eapply (dwp_clean_close E P HP s p f q r); [done..|]. intros s' [C1 C2 (f' & Hf' & Hs') C4]. apply dwp_ret. split; [done|]. split; [done|]. split; [rewrite bool_decide_false by done; rewrite C2, !pcb_same by done; done|]. intros f2 Hf2. congruence.
Qed.

Lemma dwp_maybe_fin s f : lane_inv P s -> flows s !! p = Some f -> f_pcb f = Some q -> f_h3_request f = Some r -> dwp (tcp_lane_uplink_maybe_fin E P p) s (relay_post f s).
Proof.
  intros Hi Hf Hq Hr. pose proof (li_shape _ _ Hi) as Hs. pose proof (li_data _ _ Hi p f Hf) as Hd. unfold data_ok in Hd. rewrite Hq, Hr in Hd. destruct Hd as (Hreq & Hu & Hdn). pose proof Hu as [U1 U2 U3 U4 U5 U6 U7 U8 U9 U10]. pose proof Hdn as [D1 D2 D3 D4 D5].
  unfold tcp_lane_uplink_maybe_fin. apply dwp_bind. eapply dwp_get_flow; [done|]. rewrite Hr. destruct (_ || negb (length (uplink_q f) =? 0)%nat) eqn:Eg; [apply dwp_ret; by eapply dwp_live|]. apply orb_false_elim in Eg as [Eg Eq]. apply orb_false_elim in Eg as [Eg Efs]. apply orb_false_elim in Eg as [Est Efin]. apply negb_false_iff in Efin, Eq. apply Nat.eqb_eq, nil_length_inv in Eq. rewrite Efs in U9.
  pose proof (inv_focus P p s Hi) as Hfo. assert (Hrop : rv_open (req_of r (tl_log s)) = true) by (by eapply req_is_open). apply dwp_bind. eapply (lwp_led _ s f (fun ret f' l' n' => f' = f /\ l' = FxSend r [] true ret :: tl_log s /\ log_ok l' /\ (ret = H3_SEND_AGAIN \/ ret = H3_SEND_ERR \/ ret = 0))); [done|done|done|done| |by intros a f' l' n' (_ & _ & ? & _)|].
  { apply lwp_send. intros ret Hret. split; [done|]. split; [done|]. split; [split; [cbn [fx_ok]; by rewrite <- U9|apply (li_log _ _ Hi)]|]. change (blen []) with 0 in Hret. destruct Hret as [?|[?|?]]; [by left|by right; left|right; right; lia]. }
  intros ret s1 f1 Hled (-> & El & Hl1 & Hret). pose proof Hled as (L1 & L2 & L3 & L4 & L5). unfold H3_SEND_AGAIN, H3_SEND_ERR in *. destruct Hret as [->|[-> | ->]]; cbn [Z.eqb Z.leb Pos.eqb Z.compare].
  - apply dwp_ret. eapply relay_lead; [exact Hled|]. eapply dwp_live; [|done|done]. apply (focus_inv P p s1 f L1 L2). unfold data_ok. rewrite Hq, Hr, El. split; [by rewrite pcb_other|]. split.
    + constructor; rewrite ?pcb_other, ?req_same by done; try done. by rewrite Efs.
    + eapply downlink_same; [|exact Hdn]. unfold down_same. by rewrite pcb_other, req_same by done.
  - eapply dwp_mono; [apply dwp_relay_error; [done|done|done|by eapply relay_lane]|]. intros st s2 [Hp _]. by eapply relay_lead.
  - set (g := fun f : mqvpn_tcp_flow_t => f <| fin_sent_to_h3 := true |>). apply dwp_bind. eapply (lwp_led _ s1 f (fun _ f' l' n' => f' = g f /\ l' = tl_log s1)); [done|done|done|done|apply lwp_set; [done|]; done|intros ? ? ? ? [_ ->]; exact Hl1|]. intros [] s2 f2 Hled2 [-> El2]. pose proof Hled2 as (M1 & M2 & M3 & M4 & M5).
    assert (Hled' : led s f s2 (g f)) by (split; [done|]; split; [done|]; split; [done|]; split; [by eapply thin_trans|congruence]). assert (Hup : uplink_ok P (tl_log s2) (g f) q r). { rewrite El2, El. constructor; rewrite ?pcb_other, ?req_same by done; cbn; try done. - rewrite app_nil_r. done. - by rewrite orb_true_r. }
    assert (Hdn2 : downlink_ok (tl_log s2) (g f) q r). { rewrite El2, El. eapply downlink_same; [|exact Hdn]. unfold down_same. by rewrite pcb_other, req_same by done. } assert (Hreq2 : pv_req (pcb_of q (tl_log s2)) = Some r) by (rewrite El2, El; by rewrite pcb_other).
    destruct (fin_received_from_h3 f) eqn:Efr.
    + eapply dwp_mono; [apply (dwp_close s2 (g f)); [done|done|done|done|]|intros st s3 Hp; by eapply relay_lead]. destruct Hup as [K1 _ _ _ _ _ _ K8 K9 _]. destruct Hdn2 as [J1 _ _ J4 J5]. exists r. split; [done|]. cbn in K1, K8, K9, J4. destruct (J5 Efr) as [J6 J7]. rewrite Eq in K1. cbn [queue_bytes fmap list_fmap concat] in K1. rewrite app_nil_r in K1. split; [done|]. split; [congruence|]. split; [done|]. split; [|split; [done|congruence]]. rewrite J1. unfold stashed. rewrite J7. by rewrite app_nil_r.
    + apply dwp_ret. eapply relay_lead; [exact Hled'|]. eapply dwp_live; [|done|done]. apply (focus_inv P p s2 (g f) M1 M2). unfold data_ok. change (f_pcb (g f)) with (f_pcb f). change (f_h3_request (g f)) with (f_h3_request f). rewrite Hq, Hr. done.
Qed.

(** ** The flush *)

Lemma uplink_notify l f b : uplink_ok P l f q r -> uplink_ok P (FxNotify r b :: l) f q r.
Proof. intros []. constructor; rewrite ?pcb_other, ?req_same by done; done. Qed.

Lemma down_notify l f b : down_same l f (FxNotify r b :: l) f.
Proof. unfold down_same. by rewrite pcb_other, req_same by done. Qed.

Lemma lwp_resume f l n : ready l f -> uplink_ok P l f q r -> lwp (flush_resume E P p) f l n (fun _ f' l' n' => n' = n /\ log_ok l' /\ uplink_ok P l' f' q r /\ down_same l f l' f').
Proof.
  intros [R1 R2 R3 R4 R5] Hu. unfold flush_resume. apply lwp_bind, lwp_unsent. intros x. apply lwp_bind, lwp_get, lwp_bind. eapply lwp_lift; [exact R2|].
  assert (Hnot : forall f1 l1 b, log_ok l1 -> rv_open (req_of r l1) = true -> uplink_ok P l1 f1 q r -> down_same l f l1 f1 -> lwp (_ ← cli_tcp_lane_h3_set_write_notify E r b; d_skip) f1 l1 n (fun _ f' l' n' => n' = n /\ log_ok l' /\ uplink_ok P l' f' q r /\ down_same l f l' f')).
  { intros f1 l1 b G1 G2 G3 G4. apply lwp_bind, lwp_notify. intros _. apply lwp_skip. split; [done|]. split; [by split|]. split; [by apply uplink_notify|]. eapply down_same_trans; [exact G4|apply down_notify]. }
  destruct (uplink_withheld f && _ && _) eqn:Eg.
  - apply andb_prop in Eg as [Eg _]. apply andb_prop in Eg as [Ew Eq]. apply Nat.eqb_eq, nil_length_inv in Eq. pose proof Hu as [U1 U2 U3 U4 U5 U6 U7 U8 U9 U10]. apply lwp_bind, lwp_set; [done|]. rewrite R1. set (f1 := f <| uplink_withheld := false |>).
    assert (Hrec : lwp (if 0 <? uplink_withheld_recved f then tcp_lane_recved q (uplink_withheld_recved f) else d_skip) f1 l n (fun _ f' l' n' => n' = n /\ f' = f1 /\ recved_view (uplink_withheld_recved f) l l')).
    { destruct (Z.ltb_spec 0 (uplink_withheld_recved f)); [apply lwp_recved; [lia|done|done|]; done|]. apply lwp_skip. split; [done|]. split; [done|]. split; [done|]. split; [|done]. destruct (pcb_of q l). cbn. f_equal. lia. }
    apply lwp_bind. eapply lwp_mono; [exact Hrec|]. cbn beta. intros [] f' l' n' (-> & -> & V1 & V2 & V3 & V4). apply lwp_bind, lwp_set; [done|]. set (f2 := f1 <| uplink_withheld_recved := 0 |>). assert (Hqe : queue_bytes (uplink_q f) = []) by (by rewrite Eq). rewrite Hqe in U3. change (blen []) with 0 in U3.
    assert (Hu2 : uplink_ok P l' f2 q r). { destruct HP. subst f2 f1. constructor; rewrite ?V2, ?V3; cbn; [done|done|rewrite Eq; exact U3|lia|lia|lia|done|done|done|done]. } assert (Hd2 : down_same l f l' f2) by (unfold down_same; rewrite V2, V3, V4; done).
    destruct (_ || _); [apply Hnot; [done|by rewrite V3|done|done]|]. apply lwp_skip. done.
  - destruct (uplink_withheld f); [by apply Hnot|]. apply lwp_skip. done.
Qed.

Lemma ready_of s f : shape P s -> log_ok (tl_log s) -> flows s !! p = Some f -> f_pcb f = Some q -> f_h3_request f = Some r -> ready (tl_log s) f.
Proof. intros Hs Hl Hf Hq Hr. constructor; [done|done|done|exact (pcb_is_open P s p f q Hs Hf Hq)|exact (req_is_open P s p f r Hs Hf Hr)]. Qed.

Lemma data_split l f : f_pcb f = Some q -> f_h3_request f = Some r -> data_ok P l f <-> pv_req (pcb_of q l) = Some r /\ uplink_ok P l f q r /\ downlink_ok l f q r.
Proof. intros Hq Hr. unfold data_ok. by rewrite Hq, Hr. Qed.

Lemma ids_ptrs f f' : same_ids f f' -> f_pcb f = Some q -> f_h3_request f = Some r -> f_pcb f' = Some q /\ f_h3_request f' = Some r.
Proof. intros (_ & _ & -> & -> & _) Hq Hr. done. Qed.

(** A local step that keeps the relay in order gives the invariant back. *)
Lemma led_inv s f s1 f1 : led s f s1 f1 -> f_pcb f = Some q -> f_h3_request f = Some r -> pv_req (pcb_of q (tl_log s1)) = Some r -> uplink_ok P (tl_log s1) f1 q r -> downlink_ok (tl_log s1) f1 q r -> lane_inv P s1.
Proof. intros (L1 & L2 & L3 & _) Hq Hr Hreq Hu Hd. destruct (ids_ptrs f f1 L3 Hq Hr) as [Hq1 Hr1]. apply (focus_inv P p s1 f1 L1 L2). by apply data_split. Qed.

Lemma led_req {A} (m : T A) s f Q (R : A -> mqvpn_tcp_lane_t -> Prop) : focus P p s -> flows s !! p = Some f -> f_pcb f = Some q -> f_h3_request f = Some r -> pv_req (pcb_of q (tl_log s)) = Some r ->
  lwp m f (tl_log s) (tl_reads s) Q -> (forall a f' l' n', Q a f' l' n' -> log_ok l') -> (forall a s1 f1, led s f s1 f1 -> pv_req (pcb_of q (tl_log s1)) = Some r -> Q a f1 (tl_log s1) (tl_reads s1) -> R a s1) -> dwp m s R.
Proof.
  intros Hfo Hf Hq Hr Hreq Hm Hl HR. eapply dwp_mono; [by apply Hm|]. intros a s1 (L & f1 & Hf1 & HQ). pose proof L as [(f0 & f0' & F1 & F2 & F3) _ _ _ _ _ _ _ _ _ (ext & El & Hx)]. apply (HR a s1 f1); [|by rewrite El, (proj2 (proj2 (proj2 (local_log q r q r ext (tl_log s) Hx))))|done].
  split; [by eapply (focus_local P p q r s s1 f); eauto|]. split; [done|]. split; [rewrite F2, lookup_insert_eq in Hf1; congruence|]. split; [by eapply local_thin|]. rewrite El. by apply (local_log q r q r).
Qed.

Lemma dwp_flush s f : lane_inv P s -> flows s !! p = Some f -> f_pcb f = Some q -> f_h3_request f = Some r -> dwp (tcp_lane_uplink_flush E P p) s (relay_post f s).
Proof.
  intros Hi Hf Hq Hr. pose proof (li_shape _ _ Hi) as Hs. pose proof (proj1 (data_split _ f Hq Hr) (li_data _ _ Hi p f Hf)) as (Hreq & Hu & Hdn). pose proof (ready_of s f Hs (li_log _ _ Hi) Hf Hq Hr) as Hrd.
  unfold tcp_lane_uplink_flush. apply dwp_bind. eapply dwp_get_flow; [done|]. destruct (_ || _); [apply dwp_ret; by eapply dwp_live|]. apply dwp_bind.
  eapply (led_req _ s f); [by apply inv_focus|done|done|done|done|apply lwp_flush_loop; [done|done|lia]|by intros a f' l' n' (_ & ? & _)|]. cbn beta. intros ok s1 f1 Hled Hreq1 (_ & Hl1 & Hok). pose proof Hled as (L1 & L2 & L3 & _). destruct (ids_ptrs f f1 L3 Hq Hr) as [Hq1 Hr1]. destruct ok; cbn [negb].
  - destruct (Hok eq_refl) as (Hu1 & Hd1 & _). assert (Hi1 : lane_inv P s1) by (eapply led_inv; [done|done|done|done|done|by eapply downlink_same]). apply dwp_bind. eapply dwp_mono; [by apply dwp_maybe_fin|]. intros st s2 Hp2. case_bool_decide as Hst; cbn [negb]; [|apply dwp_ret; by eapply relay_lead].
    subst st. pose proof Hp2 as (Hi2 & Ht2 & Ha2 & (f2 & Hf2 & Hs2)). destruct (ids_ptrs f1 f2 Hs2 Hq1 Hr1) as [Hq2 Hr2]. pose proof (proj1 (data_split _ f2 Hq2 Hr2) (li_data _ _ Hi2 p f2 Hf2)) as (Hreq2 & Hu2 & Hdn2). apply dwp_bind.
    eapply (led_req _ s2 f2); [by apply inv_focus|done|done|done|done|apply lwp_resume; [by apply ready_of; [apply (li_shape _ _ Hi2)|apply (li_log _ _ Hi2)|..]|done]|by intros a f' l' n' (_ & ? & _)|]. cbn beta. intros [] s3 f3 Hled3 Hreq3 (_ & Hl3 & Hu3 & Hd3). apply dwp_ret. eapply relay_lead; [exact Hled|]. pose proof Hled3 as (K1 & K2 & K3 & K4 & K5).
    split; [eapply led_inv; [done|done|done|done|done|by eapply downlink_same]|]. split; [by eapply thin_trans|]. split; [cbn in *; congruence|]. exists f3. split; [done|]. by transitivity f2.
  - eapply dwp_mono; [apply dwp_relay_error; [done|done|done|eapply relay_lane; [apply (fo_shape _ _ _ L1)|done|done]]|]. intros st s2 [Hp2 _]. by eapply relay_lead.
Qed.

(** ** Deliveries *)

(** The uplink when lwIP has delivered bytes that are not yet taken. *)
Record uplink_pre l f (data : list Z) : Prop := {
  ur_bytes : pv_in (pcb_of q l) = rv_sent (req_of r l) ++ queue_bytes (uplink_q f) ++ data;
  ur_nodes : Forall node_ok (uplink_q f);
  ur_queued : uplink_queued_bytes f = blen (queue_bytes (uplink_q f));
  ur_credit : pv_credit (pcb_of q l) + uplink_withheld_recved f + blen data = blen (pv_in (pcb_of q l));
  ur_wnd : 0 <= uplink_withheld_recved f /\ uplink_withheld_recved f + blen data <= TCP_WND P;
  ur_high : uplink_queued_bytes f <= BP_HIGH_WATER P + uplink_withheld_recved f;
  ur_held : uplink_withheld f = false -> uplink_withheld_recved f = 0;
  ur_fin : tcp_fin_seen f = pv_fin_in (pcb_of q l);
  ur_fin_sent : rv_fin_sent (req_of r l) = false /\ fin_sent_to_h3 f = false
}.

Lemma led_trans s f s1 f1 s2 f2 : led s f s1 f1 -> led s1 f1 s2 f2 -> led s f s2 f2.
Proof. intros (A1 & A2 & A3 & A4 & A5) (B1 & B2 & B3 & B4 & B5). split; [done|]. split; [done|]. split; [by transitivity f1|]. split; [by eapply thin_trans|congruence]. Qed.

Lemma queue_snoc qs n : queue_bytes (qs ++ [n]) = queue_bytes qs ++ drop (Z.to_nat (un_offset n)) (concat (un_p n)).
Proof. unfold queue_bytes. rewrite fmap_app, concat_app. cbn. by rewrite app_nil_r. Qed.

(** Credit for a delivery is withheld or given. *)
Lemma lwp_credit f l n tot held : ready l f -> 0 <= tot -> (held = true -> uplink_withheld_recved f + tot < 2 ^ 32) -> 0 <= uplink_withheld_recved f ->
  (forall w l', log_ok l' -> req_of r l' = req_of r l -> fin_reported r l' = fin_reported r l -> pcb_of q l' = (pcb_of q l) <| pv_credit ::= fun c => c + (if held then 0 else tot) |> -> w = (if held then uplink_withheld_recved f + tot else uplink_withheld_recved f) ->
     uplink_ok P l' (f <| uplink_withheld_recved := w |>) q r) ->
  lwp (if (held : bool) then set_flow p (fun f => f <| uplink_withheld_recved ::= fun n => u32 (n + tot) |>) else pcb ← d_lift (f_pcb f); tcp_lane_recved pcb tot) f l n (fun _ f' l' n' => n' = n /\ log_ok l' /\ uplink_ok P l' f' q r /\ down_same l f l' f').
Proof.
  intros [R1 R2 R3 R4 R5] Ht Hh Hw HU. destruct held.
  - apply lwp_set; [done|]. split; [done|]. split; [done|]. specialize (Hh eq_refl). split; [|done]. specialize (HU (u32 (uplink_withheld_recved f + tot)) l). cbn beta iota in HU. assert (E0 : pcb_of q l = (pcb_of q l) <| pv_credit ::= fun c => c + 0 |>) by (destruct (pcb_of q l); cbn; f_equal; lia). apply HU; [done|done|done|done|]. apply u32_small. lia.
  - rewrite R1. apply lwp_bind. eapply lwp_lift; [done|]. apply lwp_recved; [done|done|done|]. intros l' (V1 & V2 & V3 & V4). split; [done|]. split; [done|]. split.
    + specialize (HU (uplink_withheld_recved f) l' V1 V3 V4 V2 eq_refl). by destruct f.
    + unfold down_same. by rewrite V2, V3, V4.
Qed.

Lemma dwp_deliver s f b : focus P p s -> flows s !! p = Some f -> f_pcb f = Some q -> f_h3_request f = Some r -> pv_req (pcb_of q (tl_log s)) = Some r -> b <> [] -> tot_len b <= 65535 -> uplink_pre (tl_log s) f (concat b) -> downlink_ok (tl_log s) f q r ->
  dwp (tcp_lane_uplink_deliver E P p b) s (relay_post f s).
Proof.
  intros Hfo Hf Hq Hr Hreq Hb Htot Hu Hdn. pose proof (fo_shape _ _ _ Hfo) as Hs. pose proof (ready_of s f Hs (fo_log _ _ _ Hfo) Hf Hq Hr) as Hrd. destruct HP. pose proof (blen_nonneg (concat b)) as Htn. fold (tot_len b) in Htn. pose proof (blen_nonneg (queue_bytes (uplink_q f))) as Hqn.
  unfold tcp_lane_uplink_deliver. apply dwp_bind. eapply dwp_get_flow; [done|]. apply dwp_bind.
  eapply (led_req _ s f (fun d f' l' _ => f' = f /\ l' = tl_log s /\ (d = true -> uplink_q f = []))); [done|done|done|done|done| |intros ? ? ? ? (_ & -> & _); apply (rd_log _ _ Hrd)|].
  { destruct (_ && _ && _) eqn:Eg; [|apply lwp_ret; done]. apply lwp_bind, lwp_unsent. intros x. apply lwp_ret. split; [done|]. split; [done|]. intros _. apply andb_prop in Eg as [Eg _]. apply andb_prop in Eg as [_ Eg]. by apply Nat.eqb_eq, nil_length_inv in Eg. }
  intros direct s0 f0 Hled0 Hreq0 (-> & El0 & Hdir). pose proof Hled0 as (A1 & A2 & A3 & A4 & A5). rewrite <- El0 in Hu, Hdn, Hrd. clear El0. destruct Hu as [U1 U2 U3 U4 [U5 U5'] U6 U7 U8 [U9 U10]]. fold (tot_len b) in U4, U5'. apply dwp_bind.
  eapply (led_req _ s0 f (fun o f' l' _ => log_ok l' /\ (f' = f \/ f' = f <| uplink_withheld := true |>) /\ forall j, o = Some j -> 0 <= j <= tot_len b /\ sent_view (slice (concat b) 0 j) (tl_log s0) l' /\ (uplink_q f = [] \/ j = 0))); [done|done|done|done|done| |by intros ? ? ? ? (? & _)|].
  { destruct direct.
    - apply lwp_send_from; [done|apply (rd_log _ _ Hrd)|apply (rd_ropen _ _ Hrd)|done|done|lia|done| |intros f' l' Hl' ->; split; [done|]; split; [by left|done]]. intros j f' l' Hj Hv Hf'. split; [apply Hv|]. split; [done|]. intros j' [= <-]. split; [done|]. split; [done|]. left. by apply Hdir.
    - apply lwp_ret. split; [apply (rd_log _ _ Hrd)|]. split; [by left|]. intros j [= <-]. split; [lia|]. split; [rewrite slice_nil; apply sent_view_refl, (rd_log _ _ Hrd)|by right]. }
  intros o s1 f1 Hled1 Hreq1 (Hl1 & Hf1 & Ho). pose proof (led_trans _ _ _ _ _ _ Hled0 Hled1) as Hled. pose proof Hled as (B1 & B2 & B3 & B4 & B5). destruct (ids_ptrs f f1 B3 Hq Hr) as [Hq1 Hr1]. assert (Hlane : f_lane f1 = true) by (exact (relay_lane s1 f1 (fo_shape _ _ _ B1) B2 Hq1)).
  assert (Herr : dwp (mqvpn_tcp_lane_on_relay_error p) s1 (relay_post f s)) by (eapply dwp_mono; [by apply dwp_relay_error|]; intros st s2 [Hp2 _]; by eapply relay_lead).
  destruct o as [j|]; [|exact Herr]. destruct (Ho j eq_refl) as (Hj & (V1 & V2 & V3 & V4) & Hqj). rewrite (u16_small j) by lia. pose proof (ready_of s1 f1 (fo_shape _ _ _ B1) Hl1 B2 Hq1 Hr1) as Hrd1.
  assert (Hf1f : uplink_q f1 = uplink_q f /\ uplink_queued_bytes f1 = uplink_queued_bytes f /\ uplink_withheld_recved f1 = uplink_withheld_recved f /\ tcp_fin_seen f1 = tcp_fin_seen f /\ fin_sent_to_h3 f1 = fin_sent_to_h3 f /\ (uplink_withheld f1 = false -> uplink_withheld f = false)) by (by destruct Hf1 as [-> | ->]). destruct Hf1f as (G1 & G2 & G3 & G4 & G5 & G6).
  assert (Hd1 : downlink_ok (tl_log s1) f1 q r). { eapply downlink_same; [|exact Hdn]. unfold down_same. rewrite V2, V3, V4. by destruct Hf1 as [-> | ->]. } assert (Hvi : pv_in (pcb_of q (tl_log s1)) = pv_in (pcb_of q (tl_log s0))) by (by rewrite V2). assert (Hrs : rv_sent (req_of r (tl_log s1)) = rv_sent (req_of r (tl_log s0)) ++ slice (concat b) 0 j) by (by rewrite V4).
  assert (Hfin : forall (m : T unit) s2 f2, led s f s2 f2 -> pv_req (pcb_of q (tl_log s2)) = Some r -> downlink_ok (tl_log s2) f2 q r -> lwp m f2 (tl_log s2) (tl_reads s2) (fun _ f' l' _ => log_ok l' /\ uplink_ok P l' f' q r /\ down_same (tl_log s2) f2 l' f') -> dwp (m ;; mret TCP_LANE_FLOW_LIVE) s2 (relay_post f s)).
  { intros m s2 f2 Hled2 Hreq2 Hdn2 Hm. pose proof Hled2 as (C1 & C2 & C3 & _). destruct (ids_ptrs f f2 C3 Hq Hr) as [Hq2 Hr2]. apply dwp_bind. eapply (led_req _ s2 f2); [done|done|done|done|done|exact Hm|by intros ? ? ? ? (? & _)|]. intros [] s3 f3 Hled3 Hreq3 (Hl3 & Hu3 & Hds3). apply dwp_ret. eapply relay_lead; [exact (led_trans _ _ _ _ _ _ Hled2 Hled3)|]. pose proof Hled3 as (_ & D2 & _). eapply dwp_live; [|done|done]. eapply led_inv; [exact Hled3|done|done|done|done|by eapply downlink_same]. }
  assert (Hbytes : uplink_q f = [] \/ j = 0 -> pv_in (pcb_of q (tl_log s1)) = rv_sent (req_of r (tl_log s1)) ++ queue_bytes (uplink_q f) ++ drop (Z.to_nat j) (concat b)).
  { intros [Hq0 | Hj0]; rewrite Hvi, Hrs, U1.
    - rewrite Hq0. cbn [queue_bytes fmap list_fmap concat app]. rewrite <- app_assoc. f_equal. apply (slice_drop (concat b) 0 j); unfold tot_len in *; lia.
    - subst j. rewrite slice_nil, app_nil_r. by change (drop (Z.to_nat 0) (concat b)) with (concat b). }
  specialize (Hbytes Hqj). assert (Hcr : pv_credit (pcb_of q (tl_log s1)) = pv_credit (pcb_of q (tl_log s0))) by (by rewrite V2).
  destruct (Z.eqb_spec j (tot_len b)) as [Hall|Hpart].
  - rewrite drop_ge in Hbytes by (unfold tot_len, blen in *; lia). rewrite app_nil_r in Hbytes. apply dwp_bind. eapply dwp_get_flow; [exact B2|]. apply dwp_bind.
    eapply (led_req _ s1 f1 (fun h f' l' _ => f' = f1 /\ l' = tl_log s1 /\ (h = false -> uplink_withheld f1 = false))); [done|done|done|done|done| |intros ? ? ? ? (_ & -> & _); done|].
    { destruct (uplink_withheld f1); [by apply lwp_ret|]. apply lwp_bind, lwp_unsent. intros x. by apply lwp_ret. }
    intros held s2 f2 Hled2 Hreq2 (-> & El2 & Hh). pose proof (led_trans _ _ _ _ _ _ Hled Hled2) as Hledb. rewrite <- El2 in *. clear El2. apply (Hfin _ s2 f1); [done|done|done|]. destruct held.
    + apply lwp_bind, lwp_withhold; [done|]. destruct Hrd1 as [R1 R2 R3 R4 R5]. eapply lwp_mono; [apply (lwp_credit _ _ _ (tot_len b) true)|].
      * constructor; [done|done|by split|by rewrite pcb_other|by rewrite req_same].
      * lia.
      * intros _. cbn. rewrite G3. lia.
      * cbn. rewrite G3. lia.
      * intros w l' W1 W2 W3 W4 ->. rewrite req_same in W2 by done. rewrite pcb_other in W4 by done. cbn [req_effect] in W2. constructor; rewrite ?W2, ?W4; cbn; rewrite ?G1, ?G2, ?G3, ?G4, ?G5, ?V2; [by rewrite <- Hvi|done|done|lia|lia|lia|done|done|by rewrite V4, U10|by rewrite U10].
      * cbn beta. intros [] f' l' n' (_ & K1 & K2 & K3). split; [done|]. split; [done|]. eapply down_same_trans; [|exact K3]. unfold down_same. by rewrite pcb_other, req_same by done.
    + eapply lwp_mono; [apply (lwp_credit _ _ _ (tot_len b) false); [done|lia|done|rewrite G3; lia|]|cbn beta; tauto]. intros w l' W1 W2 W3 W4 ->. specialize (Hh eq_refl). constructor; rewrite ?W2, ?W4; cbn; rewrite ?G1, ?G2, ?G3, ?G4, ?G5, ?V2; [by rewrite <- Hvi|done|done|lia|lia|lia|intros _; by apply U7, G6|done|by rewrite V4, U10|by rewrite U10].
  - assert (Hjt : j < tot_len b) by lia. assert (Hdl : blen (drop (Z.to_nat j) (concat b)) = tot_len b - j) by (unfold tot_len, blen in *; rewrite length_drop; lia). apply dwp_bind. set (g := fun f : mqvpn_tcp_flow_t => f <| uplink_q ::= fun q => q ++ [UplinkNode b j] |> <| uplink_queued_bytes ::= fun n => u32 (n + u32 (tot_len b - j)) |>).
    eapply (led_req _ s1 f1 (fun ok f' l' _ => l' = tl_log s1 /\ f' = (if (ok : bool) then g f1 else f1))); [done|done|done|done|done| |intros ? ? ? ? [-> _]; done|].
    { unfold tcp_lane_uplink_stash. apply lwp_bind, lwp_ask. intros k. destruct (te_malloc E k); cbn [negb]; [|by apply lwp_ret]. apply lwp_bind, lwp_set; [done|]. by apply lwp_ret. }
    intros ok s2 f2 Hled2 Hreq2 [El2 ->]. pose proof (led_trans _ _ _ _ _ _ Hled Hled2) as Hledb. pose proof Hledb as (C1 & C2 & C3 & _). destruct ok; cbn [negb].
    2:{ destruct (ids_ptrs f f1 C3 Hq Hr) as [Hq2 Hr2]. eapply dwp_mono; [apply dwp_relay_error; [done|done|done|exact (relay_lane s2 f1 (fo_shape _ _ _ C1) C2 Hq2)]|]. intros st s3 [Hp3 _]. by eapply relay_lead. }
    assert (Hqg : uplink_queued_bytes (g f1) = uplink_queued_bytes f + (tot_len b - j)). { subst g. cbn. rewrite G2, (u32_small (tot_len b - j)), u32_small by lia. done. }
    assert (Hup : forall w l' f', req_of r l' = req_of r (tl_log s1) -> pcb_of q l' = (pcb_of q (tl_log s1)) <| pv_credit ::= fun c => c + (if uplink_withheld f' then 0 else tot_len b) |> -> w = (if uplink_withheld f' then uplink_withheld_recved f + tot_len b else uplink_withheld_recved f) ->
      (f' = g f1 \/ f' = (g f1) <| uplink_withheld := true |>) -> (uplink_withheld f' = false -> uplink_queued_bytes (g f1) < BP_HIGH_WATER P) -> uplink_ok P l' (f' <| uplink_withheld_recved := w |>) q r).
    { intros w l' f' W2 W4 Hw Hf' Hhi. assert (Ff : uplink_q f' = uplink_q f ++ [UplinkNode b j] /\ uplink_queued_bytes f' = uplink_queued_bytes (g f1) /\ tcp_fin_seen f' = tcp_fin_seen f /\ fin_sent_to_h3 f' = fin_sent_to_h3 f /\ (uplink_withheld f' = false -> uplink_withheld f = false)) by (subst g; destruct Hf' as [-> | ->]; cbn; rewrite G1; done). destruct Ff as (F1 & F2 & F3 & F4 & F5).
      assert (Hqb : queue_bytes (uplink_q f') = queue_bytes (uplink_q f) ++ drop (Z.to_nat j) (concat b)) by (rewrite F1; apply queue_snoc).
      constructor; rewrite ?W2, ?W4.
      - cbn [pv_in update uplink_q]. rewrite Hqb. exact Hbytes.
      - cbn [uplink_q update]. rewrite F1. apply Forall_app. split; [done|]. apply Forall_singleton. split; [done|]. cbn [un_p un_offset]. lia.
      - cbn [uplink_q uplink_queued_bytes update]. rewrite Hqb, F2, Hqg, blen_cat, Hdl. lia.
      - cbn [pv_credit pv_in uplink_withheld_recved update]. rewrite Hvi, Hcr, Hw. destruct (uplink_withheld f'); lia.
      - cbn [uplink_withheld_recved update]. rewrite Hw. destruct (uplink_withheld f'); lia.
      - cbn [uplink_withheld_recved uplink_queued_bytes update]. rewrite F2, Hw, Hqg. destruct (uplink_withheld f'); [lia|]. specialize (Hhi eq_refl). lia.
      - cbn [uplink_withheld uplink_withheld_recved update]. intros Hwf. rewrite Hw, Hwf. by apply U7, F5.
      - cbn [tcp_fin_seen pv_fin_in update]. by rewrite F3, U8, V2.
      - cbn [fin_sent_to_h3 update]. by rewrite F4, V4, U10.
      - cbn [fin_sent_to_h3 update]. by rewrite F4, U10. }
    destruct (ids_ptrs f (g f1) C3 Hq Hr) as [Hq2 Hr2]. apply dwp_bind. eapply dwp_get_flow; [exact C2|]. apply dwp_bind.
    eapply (led_req _ s2 (g f1) (fun _ f' l' _ => log_ok l' /\ (f' = g f1 \/ f' = (g f1) <| uplink_withheld := true |>) /\ (uplink_withheld f' = false -> uplink_queued_bytes (g f1) < BP_HIGH_WATER P) /\ pcb_of q l' = pcb_of q (tl_log s1) /\ req_of r l' = req_of r (tl_log s1) /\ fin_reported r l' = fin_reported r (tl_log s1))); [done|done|done|done|done| |by intros ? ? ? ? (? & _)|].
    { destruct (_ || _) eqn:Eh.
      - apply lwp_withhold; [done|]. rewrite El2. split; [split; [cbn [fx_ok]; apply (rd_ropen _ _ Hrd1)|done]|]. split; [by right|]. split; [done|]. by rewrite pcb_other, req_same by done.
      - apply lwp_skip. rewrite El2. split; [done|]. split; [by left|]. split; [|done]. intros _. apply orb_false_elim in Eh as [_ Eh]. by apply Z.leb_gt in Eh. }
    intros [] s3 f3 Hled3 Hreq3 (Hl3 & Hf3 & Hhi3 & X1 & X2 & X3). pose proof (led_trans _ _ _ _ _ _ Hledb Hled3) as Hledc. pose proof Hledc as (D1 & D2 & D3 & _). destruct (ids_ptrs f f3 D3 Hq Hr) as [Hq3 Hr3]. apply dwp_bind. eapply dwp_get_flow; [exact D2|].
    apply (Hfin _ s3 f3); [done|done| |].
    + eapply downlink_same; [|exact Hd1]. unfold down_same. rewrite X1, X2, X3. subst g. by destruct Hf3 as [-> | ->].
    + assert (Hwr : uplink_withheld_recved f3 = uplink_withheld_recved f) by (subst g; destruct Hf3 as [-> | ->]; exact G3). eapply lwp_mono; [apply (lwp_credit _ _ _ (tot_len b) (uplink_withheld f3)); [by apply ready_of; [apply (fo_shape _ _ _ D1)|..]|lia|intros _; rewrite Hwr; lia|rewrite Hwr; lia|]|cbn beta; tauto].
      intros w l' W1 W2 W3 W4 Hw. apply (Hup w l' f3); [by rewrite W2|by rewrite W4, X1|by rewrite Hw, Hwr|done|done].
Qed.

End uplink.
