(* ===== verification/TcpDownlink.v ===== *)
(** * The downlink of the TCP lane

    Every byte that is read from a request's body goes to lwIP once and in
    order, or waits in the stash; the FIN follows when all is written.  The
    drain ends. *)

From S2P Require Import Prelude StateOpt CString Wire ReorderTx Hybrid PathFsm Client TcpLane TcpEvent TcpTable Chains TcpClose TcpUplink Icmp.

Section downlink.
Context (E : tcp_env) (P : lane_profile) (HE : tcp_env_ok E) (HP : profile_ok P) (p q r : Z).
Implicit Types (s : mqvpn_tcp_lane_t) (f : mqvpn_tcp_flow_t) (l : list tcp_fx).

Abbreviation lwp := (lwp p q r).
Abbreviation led := (led P p q).
Abbreviation relay_post := (relay_post P p q).

(** The uplink is as it was. *)
Definition up_same l f l' f' : Prop :=
  rv_sent (req_of r l') = rv_sent (req_of r l) /\ rv_fin_sent (req_of r l') = rv_fin_sent (req_of r l) /\ pv_in (pcb_of q l') = pv_in (pcb_of q l) /\ pv_credit (pcb_of q l') = pv_credit (pcb_of q l) /\ pv_fin_in (pcb_of q l') = pv_fin_in (pcb_of q l) /\
  uplink_q f' = uplink_q f /\ uplink_queued_bytes f' = uplink_queued_bytes f /\ uplink_withheld_recved f' = uplink_withheld_recved f /\ uplink_withheld f' = uplink_withheld f /\ tcp_fin_seen f' = tcp_fin_seen f /\ fin_sent_to_h3 f' = fin_sent_to_h3 f.

Lemma uplink_same l f l' f' : up_same l f l' f' -> uplink_ok P l f q r -> uplink_ok P l' f' q r.
Proof.
  intros (A1 & A2 & A3 & A4 & A5 & A6 & A7 & A8 & A9 & A10 & A11) [U1 U2 U3 U4 U5 U6 U7 U8 U9 U10]. constructor; rewrite ?A1, ?A2, ?A3, ?A4, ?A5, ?A6, ?A7, ?A8, ?A9, ?A10, ?A11; done.
Qed.

Lemma up_same_trans l1 f1 l2 f2 l3 f3 : up_same l1 f1 l2 f2 -> up_same l2 f2 l3 f3 -> up_same l1 f1 l3 f3.
Proof. intros (A1 & A2 & A3 & A4 & A5 & A6 & A7 & A8 & A9 & A10 & A11) (B1 & B2 & B3 & B4 & B5 & B6 & B7 & B8 & B9 & B10 & B11). repeat split; congruence. Qed.

(** A relay error after some steps. *)
Lemma dwp_fatal s f s1 f1 : led s f s1 f1 -> f_pcb f = Some q -> dwp (mqvpn_tcp_lane_on_relay_error p) s1 (fun st s' => relay_post f s st s' /\ st = TCP_LANE_FLOW_ABORTED).
Proof.
  intros Hled Hq. pose proof Hled as (L1 & L2 & (_ & _ & L3 & _) & _). rewrite Hq in L3. eapply dwp_mono; [apply (dwp_relay_error P HP p q); [done|done|done|exact (relay_lane P p q s1 f1 (fo_shape _ _ _ L1) L2 L3)]|]. intros st s2 [Hp2 ->]. split; [by eapply relay_lead|done].
Qed.

(** The end of steps that keep the flow in order. *)
Lemma live_after s f s1 f1 : led s f s1 f1 -> f_pcb f = Some q -> f_h3_request f = Some r -> pv_req (pcb_of q (tl_log s1)) = Some r -> uplink_ok P (tl_log s1) f1 q r -> downlink_ok (tl_log s1) f1 q r -> relay_post f s TCP_LANE_FLOW_LIVE s1.
Proof. intros Hled Hq Hr Hreq Hu Hd. eapply relay_lead; [exact Hled|]. pose proof Hled as (_ & L2 & _). eapply dwp_live; [by eapply led_inv|done|done]. Qed.

(** ** The FIN *)

Lemma dwp_shutdown s f : lane_inv P s -> flows s !! p = Some f -> f_pcb f = Some q -> f_h3_request f = Some r -> fin_reported r (tl_log s) = true -> downlink_paused f = false -> dwp (tcp_lane_downlink_maybe_shutdown E P p) s (relay_post f s).
Proof.
  intros Hi Hf Hq Hr Hfin Hpa. pose proof (proj1 (data_split P q r _ f Hq Hr) (li_data _ _ Hi p f Hf)) as (Hreq & Hu & Hdn). pose proof (ready_of P p q r s f (li_shape _ _ Hi) (li_log _ _ Hi) Hf Hq Hr) as [_ _ R3 R4 R5]. pose proof Hdn as [D1 D2 D3 D4 D5].
  unfold tcp_lane_downlink_maybe_shutdown. apply dwp_bind. eapply dwp_get_flow; [done|]. destruct (fin_received_from_h3 f) eqn:Efr; [apply dwp_ret; by eapply dwp_live|]. rewrite Hq.
  set (g := fun f : mqvpn_tcp_flow_t => f <| fin_received_from_h3 := true |>). apply dwp_bind.
  eapply (led_req P p q r _ s f (fun _ f' l' _ => f' = g f /\ l' = tl_log s)); [by apply inv_focus|done|done|done|done|by apply lwp_set|by intros ? ? ? ? [_ ->]|]. intros [] s1 f1 Hled1 Hreq1 [-> El1]. apply dwp_bind. eapply dwp_lift; [done|]. apply dwp_bind.
  pose proof Hled1 as (A1 & A2 & _). eapply (led_req P p q r _ s1 (g f) (fun err f' l' _ => f' = g f /\ l' = tl_log s)); [done|done|done|done|done|by apply lwp_ask|by intros ? ? ? ? [_ ->]|]. intros err s2 f2 Hled2 Hreq2 [-> El2]. pose proof (led_trans _ _ _ _ _ _ _ _ _ Hled1 Hled2) as Hledb. pose proof Hled2 as (B1 & B2 & _). apply dwp_bind.
  assert (Hok : log_ok (FxShutdown q err :: tl_log s)) by (split; [cbn [fx_ok]; by rewrite <- D4|done]).
  eapply (led_req P p q r _ s2 (g f) (fun _ f' l' _ => f' = g f /\ l' = FxShutdown q err :: tl_log s)); [done|done|done|done|done|apply lwp_emit; [done|by rewrite El2]|by intros ? ? ? ? [_ ->]|]. intros [] s3 f3 Hled3 Hreq3 [-> El3]. pose proof (led_trans _ _ _ _ _ _ _ _ _ Hledb Hled3) as Hled. pose proof Hled3 as (C1 & C2 & _).
  case_bool_decide as Herr; cbn [negb]; [|eapply dwp_mono; [by eapply dwp_fatal|]; by intros ? ? [? _]]. subst err.
  assert (Hu3 : uplink_ok P (tl_log s3) (g f) q r) by (rewrite El3; eapply uplink_same; [|exact Hu]; unfold up_same; by rewrite pcb_same, req_other by done).
  assert (Hd3 : downlink_ok (tl_log s3) (g f) q r). { rewrite El3. constructor; rewrite ?pcb_same, ?req_other, ?fin_other by done; cbn; [|done..]. rewrite D1. unfold stashed. cbn. done. }
  destruct (fin_sent_to_h3 f) eqn:Efs; [|apply dwp_ret; by eapply live_after].
  eapply dwp_mono; [apply (dwp_close E P HP p q r s3 (g f)); [done|done|done|done|]|intros st s4 Hp4; by eapply relay_lead]. destruct Hu3 as [K1 _ _ _ _ _ _ K8 K9 K10]. destruct Hd3 as [J1 _ _ J4 J5]. cbn in K8, K9, K10, J4. rewrite Efs in K9. destruct (K10 Efs) as [K11 K12]. change (uplink_q (g f)) with (uplink_q f) in K1. rewrite K12 in K1. cbn [queue_bytes fmap list_fmap concat] in K1. rewrite app_nil_r in K1.
  exists r. split; [done|]. split; [done|]. split; [congruence|]. split; [done|]. split; [rewrite J1; unfold stashed; cbn; rewrite Hpa; by rewrite app_nil_r|]. split; [by apply J5|done].
Qed.

(** ** Reads and the stash *)

(** A read gives nothing, an error, or a part of the body. *)
Lemma lwp_recv f l n (Q : Z * list Z * bool -> mqvpn_tcp_flow_t -> list tcp_fx -> nat -> Prop) :
  Q (H3_RECV_AGAIN, [], false) f l (S n) -> Q (H3_RECV_ERR, [], false) f l (S n) ->
  (forall k buf fin, te_body E (fin_reported r l) n TCP_MSS = (k, buf, fin) -> 0 <= k <= TCP_MSS -> blen buf = k -> (fin_reported r l = true -> k = 0) -> Q (k, buf, fin) f (FxBody r buf fin :: l) (S n)) ->
  lwp (cli_tcp_lane_h3_recv E r TCP_MSS) f l n Q.
Proof.
  intros HA HR HQ. unfold cli_tcp_lane_h3_recv. apply (lwp_reads p q r (fun reads log => let '(k, buf, fin) := te_body E (fin_reported r log) reads TCP_MSS in if k =? - te_EAGAIN E then mret (H3_RECV_AGAIN, [], false) else if k <? 0 then mret (H3_RECV_ERR, [], false) else t_emit (FxBody r buf fin) ;; mret (k, buf, fin))).
  destruct (te_body E (fin_reported r l) n TCP_MSS) as [[k buf] fin] eqn:Eb. destruct (k =? _); [by apply lwp_ret|]. destruct (Z.ltb_spec k 0) as [Hk|Hk]; [by apply lwp_ret|]. destruct (eo_body _ HE _ _ _ _ _ _ Eb Hk) as [B1 B2]. apply lwp_bind, lwp_emit; [done|]. apply lwp_ret, HQ; [done|lia|done|].
  intros Hfr. rewrite Hfr in Eb. pose proof (eo_fin _ HE _ _ _ _ _ Eb). lia.
Qed.

(** The chunk is in the buffer, or there was no memory. *)
Definition stash_of f (data buf : list Z) : mqvpn_tcp_flow_t := f <| downlink_stash := Some buf |> <| downlink_stash_len := blen data |> <| downlink_paused := true |>.

Lemma lwp_stash f l n data : (forall buf, downlink_stash f = Some buf -> blen buf = TCP_MSS) -> 0 < blen data <= TCP_MSS ->
  lwp (stash_and_pause E p data) f l n (fun ok f' l' n' => l' = l /\ n' = n /\ if ok : bool then exists buf, f' = stash_of f data buf /\ blen buf = TCP_MSS /\ take (Z.to_nat (blen data)) buf = data else f' = f).
Proof.
  intros Hb Hd. unfold stash_and_pause, tcp_lane_downlink_stash. apply lwp_bind, lwp_bind, lwp_get, lwp_bind.
  assert (Hset : forall buf, blen buf = TCP_MSS -> lwp (buf ← d_lift (wrn buf 0 data); set_flow p (fun f => f <| downlink_stash := Some buf |> <| downlink_stash_len := u16 (blen data) |>) ;; mret true) f l n (fun ok f' l' n' => lwp (if ok : bool then set_flow p (fun f => f <| downlink_paused := true |>) ;; mret true else mret false) f' l' n' (fun ok f' l' n' => l' = l /\ n' = n /\ if ok : bool then exists buf, f' = stash_of f data buf /\ blen buf = TCP_MSS /\ take (Z.to_nat (blen data)) buf = data else f' = f))).
  { intros buf Hbuf. pose proof (wrn_prefix buf [] 0 data ltac:(lia) ltac:(lia)) as Hw. rewrite !app_nil_r in Hw. change (take (Z.to_nat 0) buf) with (@nil Z) in Hw. cbn [app] in Hw. rewrite Z.add_0_l in Hw. set (buf' := data ++ _) in Hw. apply lwp_bind. eapply lwp_lift; [exact Hw|]. apply lwp_bind, lwp_set; [done|]. apply lwp_ret, lwp_bind, lwp_set; [done|]. apply lwp_ret. split; [done|]. split; [done|]. exists buf'. unfold TCP_MSS in *. rewrite u16_small by lia. split; [done|]. split.
    - unfold buf', blen in *. rewrite length_app, length_drop. lia.
    - unfold buf', blen. rewrite Nat2Z.id. by apply take_app_length. }
  destruct (downlink_stash f) as [buf|] eqn:Es; [apply lwp_ret, Hset; by apply Hb|]. apply lwp_bind, lwp_ask. intros k. apply lwp_ret. destruct (te_malloc E k); [|by apply lwp_ret, lwp_ret]. apply Hset. unfold blen. rewrite length_replicate. done.
Qed.

(** ** One round *)

(** What a round leaves. *)
Definition round_post f s (rd : drain_round) s' : Prop :=
  match rd with
  | DrainReturn st => relay_post f s st s' /\ st <> TCP_LANE_FLOW_LIVE
  | DrainBreak _ => relay_post f s TCP_LANE_FLOW_LIVE s'
  | DrainGo _ => relay_post f s TCP_LANE_FLOW_LIVE s' /\ (forall f', flows s' !! p = Some f' -> downlink_paused f' = false) /\ fin_reported r (tl_log s') = fin_reported r (tl_log s) /\
      tl_reads s' = S (tl_reads s) /\ read_ends (te_body E (fin_reported r (tl_log s)) (tl_reads s) TCP_MSS) = false
  end.

(** The end of a round that left nothing in the stash. *)
Lemma dwp_finish s f s1 f1 (fin wrote : bool) : led s f s1 f1 -> f_pcb f = Some q -> f_h3_request f = Some r -> pv_req (pcb_of q (tl_log s1)) = Some r -> uplink_ok P (tl_log s1) f1 q r -> downlink_ok (tl_log s1) f1 q r -> downlink_paused f1 = false ->
  fin_reported r (tl_log s1) = fin || fin_reported r (tl_log s) -> tl_reads s1 = S (tl_reads s) -> (fin = false -> read_ends (te_body E (fin_reported r (tl_log s)) (tl_reads s) TCP_MSS) = false) ->
  dwp (if fin then st ← tcp_lane_downlink_maybe_shutdown E P p; mret (if bool_decide (st = TCP_LANE_FLOW_LIVE) then DrainBreak wrote else DrainReturn st) else mret (DrainGo wrote)) s1 (round_post f s).
Proof.
  intros Hled Hq Hr Hreq Hu Hd Hpa Hfr Hrd He. pose proof Hled as (L1 & L2 & L3 & _). destruct (ids_ptrs q r f f1 L3 Hq Hr) as [Hq1 Hr1]. destruct fin.
  - apply dwp_bind. eapply dwp_mono; [apply (dwp_shutdown s1 f1); [by eapply led_inv|done|done|done|done|done]|]. intros st s2 Hp2. apply dwp_ret. pose proof (relay_lead _ _ _ _ _ _ _ _ _ Hled Hp2) as Hp. case_bool_decide; [by subst|]. by split.
  - apply dwp_ret. split; [by eapply live_after|]. split; [intros f' Hf'; congruence|]. split; [done|]. split; [done|]. by apply He.
Qed.

(** A chunk of the body goes to lwIP or to the stash. *)
Lemma dwp_chunk s f s1 data (fin w : bool) : lane_inv P s -> flows s !! p = Some f -> f_pcb f = Some q -> f_h3_request f = Some r -> downlink_paused f = false ->
  led s f s1 f -> tl_log s1 = FxBody r data fin :: tl_log s -> log_ok (tl_log s1) -> pv_req (pcb_of q (tl_log s1)) = Some r -> tl_reads s1 = S (tl_reads s) -> 0 < blen data <= TCP_MSS -> fin_reported r (tl_log s) = false -> te_body E false (tl_reads s) TCP_MSS = (blen data, data, fin) ->
  let fatal := st ← mqvpn_tcp_lane_on_relay_error p; mret (DrainReturn st) in
  let pause := ok ← stash_and_pause E p data; if (ok : bool) then mret (DrainBreak w) else fatal in
  dwp (room ← t_ask (te_sndbuf E); if room <? blen data then pause else
    werr ← tcp_write E q data;
    match werr with
    | ERR_MEM => pause
    | ERR_OK => if fin then st ← tcp_lane_downlink_maybe_shutdown E P p; mret (if bool_decide (st = TCP_LANE_FLOW_LIVE) then DrainBreak true else DrainReturn st) else mret (DrainGo true)
    | _ => fatal
    end) s1 (round_post f s).
Proof.
  intros Hi Hf Hq Hr Hpa Hled1 El1 Hl1 Hreq1 Hrd1 Hlen Hfr Hbody fatal pause. pose proof (proj1 (data_split P q r _ f Hq Hr) (li_data _ _ Hi p f Hf)) as (Hreq & Hu & Hdn). pose proof Hdn as [D1 D2 D3 D4 D5]. pose proof (ready_of P p q r s f (li_shape _ _ Hi) (li_log _ _ Hi) Hf Hq Hr) as [_ _ R3 R4 R5].
  assert (Hnf : fin_received_from_h3 f = false) by (destruct (fin_received_from_h3 f); [destruct (D5 eq_refl); congruence|done]). assert (Hst : stashed f = []) by (unfold stashed; by rewrite Hpa). rewrite Hst, app_nil_r in D1.
  assert (Hfatal : forall s2 f2, led s f s2 f2 -> dwp fatal s2 (round_post f s)). { intros s2 f2 Hl2. subst fatal. apply dwp_bind. eapply dwp_mono; [by eapply dwp_fatal|]. intros st s3 [Hp3 ->]. apply dwp_ret. by split. }
  assert (Hsame : up_same (tl_log s) f (tl_log s1) f) by (rewrite El1; unfold up_same; by rewrite pcb_other, req_same by done).
  assert (Hbody1 : rv_body (req_of r (tl_log s1)) = pv_out (pcb_of q (tl_log s1)) ++ data) by (rewrite El1, req_same, pcb_other by done; cbn; by rewrite D1).
  assert (Hpause : forall s2, led s f s2 f -> pv_req (pcb_of q (tl_log s2)) = Some r -> log_ok (tl_log s2) -> pcb_of q (tl_log s2) = pcb_of q (tl_log s1) -> req_of r (tl_log s2) = req_of r (tl_log s1) -> dwp pause s2 (round_post f s)).
  { intros s2 Hl2 Hreq2 Hlog2 Ep Er. pose proof Hl2 as (F1 & F2 & _). apply dwp_bind. eapply (led_req P p q r _ s2 f); [done|done|done|done|done|apply (lwp_stash f _ _ data D2 Hlen)|by intros ? ? ? ? [-> _]|]. cbn beta. intros ok s3 f3 Hl3 Hreq3 (El3 & _ & Hok). pose proof (led_trans _ _ _ _ _ _ _ _ _ Hl2 Hl3) as Hled. destruct ok; [|by eapply Hfatal].
    destruct Hok as (buf & -> & Hbuf & Htake). apply dwp_ret. eapply live_after; [done|done|done|done| |].
    - eapply uplink_same; [|exact Hu]. eapply up_same_trans; [exact Hsame|]. unfold up_same. by rewrite El3, Ep, Er.
    - rewrite El3. unfold stash_of. constructor; rewrite ?Ep, ?Er; cbn; [|by intros ? [= <-]|by intros _|rewrite D4, El1; by rewrite pcb_other|by rewrite Hnf]. rewrite Hbody1. unfold stashed. cbn. by rewrite Htake. }
  apply dwp_bind. eapply (led_req P p q r _ s1 f (fun _ f' l' n' => f' = f /\ l' = tl_log s1 /\ n' = tl_reads s1)); [apply Hled1|apply Hled1|done|done|done|by apply lwp_ask|by intros ? ? ? ? (_ & -> & _)|]. intros room s2 f2 Hled2 Hreq2 (-> & El2 & Hrd2). pose proof (led_trans _ _ _ _ _ _ _ _ _ Hled1 Hled2) as Hledb. destruct (room <? blen data); [apply Hpause; [done|done|by rewrite El2|by rewrite El2|by rewrite El2]|].
  unfold tcp_write. apply dwp_bind. eapply (led_req P p q r _ s2 f (fun err f' l' n' => f' = f /\ l' = FxWrite q data err :: tl_log s1 /\ n' = tl_reads s1)); [apply Hledb|apply Hledb|done|done|done| |intros ? ? ? ? (_ & -> & _)|].
  { apply lwp_bind, lwp_ask. intros k. apply lwp_bind, lwp_emit; [done|]. apply lwp_ret. rewrite El2. done. }
  { split; [|done]. cbn [fx_ok]. rewrite El1, pcb_other by done. split; [done|congruence]. }
  intros err s3 f3 Hled3 Hreq3 (-> & El3 & Hrd3). pose proof (led_trans _ _ _ _ _ _ _ _ _ Hledb Hled3) as Hledc. assert (Hlog3 : log_ok (tl_log s3)) by (rewrite El3; split; [cbn [fx_ok]; rewrite El1, pcb_other by done; split; [done|congruence]|done]).
  assert (Hmem : err <> ERR_OK -> pcb_of q (tl_log s3) = pcb_of q (tl_log s1) /\ req_of r (tl_log s3) = req_of r (tl_log s1)). { intros Hne. rewrite El3, pcb_same, req_other by done. by destruct err. }
  destruct err; [|by apply Hpause; [..|apply Hmem|apply Hmem]|by eapply Hfatal..].
  eapply (dwp_finish s f s3 f fin true); [done|done|done|done| | |done| | |].
  - eapply uplink_same; [|exact Hu]. eapply up_same_trans; [exact Hsame|]. rewrite El3. unfold up_same. by rewrite pcb_same, req_other by done.
  - rewrite El3. constructor; rewrite ?pcb_same, ?req_other, ?fin_other by done; cbn; [|done|done|rewrite D4, El1; by rewrite pcb_other|by rewrite Hnf]. by rewrite Hbody1, Hst, app_nil_r.
  - rewrite El3, El1. cbn [fin_reported]. by rewrite Z.eqb_refl.
  - congruence.
  - intros ->. rewrite Hfr, Hbody. cbn [read_ends]. rewrite orb_false_r. apply Z.leb_gt. lia.
Qed.

Lemma rdn_whole (b : list Z) n : blen b = n -> rdn b 0 n = Some b.
Proof. intros <-. rewrite rdn_eq by (unfold blen; lia). f_equal. cbn [drop]. apply take_ge. unfold blen. lia. Qed.

Lemma dwp_drain_step s f w : lane_inv P s -> flows s !! p = Some f -> f_pcb f = Some q -> f_h3_request f = Some r -> downlink_paused f = false -> dwp (drain_step E P p w) s (round_post f s).
Proof.
  intros Hi Hf Hq Hr Hpa. pose proof (proj1 (data_split P q r _ f Hq Hr) (li_data _ _ Hi p f Hf)) as (Hreq & Hu & Hdn). pose proof (ready_of P p q r s f (li_shape _ _ Hi) (li_log _ _ Hi) Hf Hq Hr) as [_ _ R3 R4 R5].
  unfold drain_step. apply dwp_bind. eapply dwp_get_flow; [done|]. apply dwp_bind. eapply dwp_lift; [exact Hr|]. apply dwp_bind.
  set (Q := fun (x : Z * list Z * bool) f' l' n' => f' = f /\ n' = S (tl_reads s) /\ let '(k, buf, fin) := x in
    (l' = tl_log s /\ (k = H3_RECV_AGAIN \/ k = H3_RECV_ERR)) \/ (l' = FxBody r buf fin :: tl_log s /\ te_body E (fin_reported r (tl_log s)) (tl_reads s) TCP_MSS = (k, buf, fin) /\ 0 <= k <= TCP_MSS /\ blen buf = k /\ (fin_reported r (tl_log s) = true -> k = 0))).
  assert (HlogB : forall buf fin, log_ok (FxBody r buf fin :: tl_log s)) by (intros; by split).
  eapply (led_req P p q r _ s f Q); [by apply inv_focus|done|done|done|done| | |].
  { apply lwp_recv; [split; [done|]; split; [done|]; left; split; [done|by left]|split; [done|]; split; [done|]; left; split; [done|by right]|]. intros k buf fin H1 H2 H3 H4. split; [done|]. split; [done|]. by right. }
  { intros [[k buf] fin] f' l' n' (_ & _ & [[-> _]|[-> _]]); [done|apply HlogB]. }
  intros [[k buf] fin] s1 f1 Hled Hreq1 (-> & Hrd1 & Hcase). assert (Hfatal : dwp (st ← mqvpn_tcp_lane_on_relay_error p; mret (DrainReturn st)) s1 (round_post f s)). { apply dwp_bind. eapply dwp_mono; [by eapply dwp_fatal|]. intros st s3 [Hp3 ->]. apply dwp_ret. by split. }
  assert (Hsame : forall buf0 fin0, tl_log s1 = FxBody r buf0 fin0 :: tl_log s -> up_same (tl_log s) f (tl_log s1) f) by (intros ? ? ->; unfold up_same; by rewrite pcb_other, req_same by done).
  destruct Hcase as [[El [-> | ->]]|(El & Hb & Hk & Hlen & Hfr)]; unfold H3_RECV_AGAIN, H3_RECV_ERR; cbn [Z.eqb Z.leb Z.ltb Z.compare Pos.eqb Pos.compare Pos.compare_cont negb andb].
  - apply dwp_ret. eapply live_after; [done|done|done|done|by rewrite El|by rewrite El].
  - exact Hfatal.
  - rewrite (proj2 (Z.eqb_neq k (-1))), (proj2 (Z.eqb_neq k (-2))) by lia. destruct ((k <=? 0) && negb fin) eqn:Ez; [exact Hfatal|]. destruct (Z.ltb_spec 0 k) as [Hpos|Hz].
    + apply dwp_bind. eapply dwp_lift; [by apply rdn_whole|]. apply dwp_bind. eapply dwp_lift; [exact Hq|]. assert (Hnr : fin_reported r (tl_log s) = false) by (destruct (fin_reported r (tl_log s)); [specialize (Hfr eq_refl); lia|done]). rewrite Hnr in Hb. subst k. apply (dwp_chunk s f s1 buf fin w); [done..|rewrite El; apply HlogB|done|done|lia|done|done].
    + assert (Hk0 : k = 0) by lia. rewrite Hk0 in *. cbn [Z.leb Z.compare andb] in Ez. apply negb_false_iff in Ez. subst fin. assert (Hnil : buf = []) by (destruct buf; [done|unfold blen in *; cbn in *; lia]). subst buf.
      eapply (dwp_finish s f s1 f true w); [done|done|done|done|eapply uplink_same; [by eapply Hsame|done]| |done| |done|done].
      * rewrite El. destruct Hdn as [D1 D2 D3 D4 D5]. constructor; rewrite ?pcb_other, ?req_same by done; cbn; [by rewrite app_nil_r|done|done|done|]. intros Hx. rewrite Z.eqb_refl. split; [done|]. by apply D5.
      * rewrite El. cbn [fin_reported]. by rewrite Z.eqb_refl.
Qed.

(** ** The drain *)

Lemma dwp_output s f : lane_inv P s -> flows s !! p = Some f -> f_pcb f = Some q -> f_h3_request f = Some r -> dwp (f ← get_flow p; pcb ← d_lift (f_pcb f); t_emit (FxOutput pcb)) s (fun _ s' => relay_post f s TCP_LANE_FLOW_LIVE s').
Proof.
  intros Hi Hf Hq Hr. pose proof (proj1 (data_split P q r _ f Hq Hr) (li_data _ _ Hi p f Hf)) as (Hreq & Hu & Hdn). pose proof (ready_of P p q r s f (li_shape _ _ Hi) (li_log _ _ Hi) Hf Hq Hr) as [_ _ R3 R4 R5].
  eapply (led_req P p q r _ s f (fun _ f' l' _ => f' = f /\ l' = FxOutput q :: tl_log s)); [by apply inv_focus|done|done|done|done| |by intros ? ? ? ? [_ ->]|].
  { apply lwp_bind, lwp_get, lwp_bind. eapply lwp_lift; [exact Hq|]. by apply lwp_emit. }
  intros [] s1 f1 Hled Hreq1 [-> El]. eapply live_after; [done|done|done|done| |].
  - eapply uplink_same; [|exact Hu]. rewrite El. unfold up_same. by rewrite pcb_same, req_other by done.
  - eapply downlink_same; [|exact Hdn]. rewrite El. unfold down_same. by rewrite pcb_same, req_other by done.
Qed.

(** One step of a relay after another. *)
Lemma relay_trans s f s1 st s2 f1 : relay_post f s TCP_LANE_FLOW_LIVE s1 -> flows s1 !! p = Some f1 -> relay_post f1 s1 st s2 -> relay_post f s st s2.
Proof.
  intros (A1 & A2 & A3 & (f1' & A4 & A5)) Hf1 Hp. simplify_eq. eapply relay_lead; [|exact Hp]. split; [by apply inv_focus|]. done.
Qed.

(** Whatever the drain reads, it reads an end within [te_reads] reads. *)
Lemma dwp_drain s f : lane_inv P s -> flows s !! p = Some f -> f_pcb f = Some q -> f_h3_request f = Some r -> downlink_paused f = false -> dwp (tcp_lane_downlink_drain E P p) s (relay_post f s).
Proof.
  intros Hi Hf Hq Hr Hpa. unfold tcp_lane_downlink_drain. set (b := fin_reported r (tl_log s)). destruct (eo_ends _ HE b (tl_reads s) TCP_MSS) as (k & Hk & Hend).
  assert (Hgen : forall fuel i w s1 f1, (i <= k < i + fuel)%nat -> lane_inv P s1 -> flows s1 !! p = Some f1 -> f_pcb f1 = Some q -> f_h3_request f1 = Some r -> downlink_paused f1 = false -> fin_reported r (tl_log s1) = b -> tl_reads s1 = (tl_reads s + i)%nat -> dwp (drain_loop E P fuel p w) s1 (relay_post f1 s1)).
  { induction fuel as [|fuel IH]; intros i w s1 f1 Hik Hi1 Hf1 Hq1 Hr1 Hp1 Hb1 Hn1; [lia|]. cbn [drain_loop]. apply dwp_bind. eapply dwp_mono; [by apply (dwp_drain_step s1 f1 w)|]. intros [st|w'|w'] s2; cbn [round_post].
    - intros [Hp2 _]. by apply dwp_ret.
    - intros Hp2. pose proof Hp2 as (Hi2 & _ & _ & f2 & Hf2 & Hs2). destruct (ids_ptrs q r f1 f2 Hs2 Hq1 Hr1) as [Hq2 Hr2]. apply dwp_bind. destruct w'; [|apply dwp_skip, dwp_ret; done]. eapply dwp_mono; [by apply (dwp_output s2 f2)|]. intros [] s3 Hp3. apply dwp_ret. by eapply relay_trans.
    - intros (Hp2 & Hp2' & Hb2 & Hn2 & Hne). pose proof Hp2 as (Hi2 & _ & _ & f2 & Hf2 & Hs2). destruct (ids_ptrs q r f1 f2 Hs2 Hq1 Hr1) as [Hq2 Hr2]. rewrite Hb1, Hn1 in Hne. assert (i <> k) by (intros ->; congruence). eapply dwp_mono; [apply (IH (S i) w' s2 f2); [lia|done|done|done|done|by apply Hp2'|congruence|lia]|]. intros st s3 Hp3. by eapply relay_trans. }
  apply (Hgen _ 0%nat); [lia|done|done|done|done|done|done|lia].
Qed.

(** ** The stash again *)

Lemma dwp_stash_retry s f : lane_inv P s -> flows s !! p = Some f -> f_pcb f = Some q -> f_h3_request f = Some r -> downlink_paused f = true -> dwp (tcp_lane_downlink_stash_retry E p) s (relay_post f s).
Proof.
  intros Hi Hf Hq Hr Hpa. pose proof (proj1 (data_split P q r _ f Hq Hr) (li_data _ _ Hi p f Hf)) as (Hreq & Hu & Hdn). pose proof (ready_of P p q r s f (li_shape _ _ Hi) (li_log _ _ Hi) Hf Hq Hr) as [_ _ R3 R4 R5]. pose proof Hdn as [D1 D2 D3 D4 D5]. destruct (D3 Hpa) as ((buf & Hbuf) & Hlen). pose proof (D2 buf Hbuf) as Hbl.
  assert (Hnf : fin_received_from_h3 f = false) by (destruct (fin_received_from_h3 f); [destruct (D5 eq_refl); congruence|done]). set (data := take (Z.to_nat (downlink_stash_len f)) buf). assert (Hst : stashed f = data) by (unfold stashed; by rewrite Hpa, Hbuf). assert (Hrdn : rdn buf 0 (downlink_stash_len f) = Some data) by (rewrite rdn_eq by lia; done).
  unfold tcp_lane_downlink_stash_retry. apply dwp_bind. eapply dwp_get_flow; [done|]. apply dwp_bind. eapply dwp_lift; [exact Hq|]. apply dwp_bind.
  eapply (led_req P p q r _ s f (fun _ f' l' _ => f' = f /\ l' = tl_log s)); [by apply inv_focus|done|done|done|done|by apply lwp_ask|by intros ? ? ? ? [_ ->]|]. intros room s1 f1 Hled1 Hreq1 [-> El1]. destruct (room <? downlink_stash_len f); [apply dwp_ret; eapply live_after; [done|done|done|done|by rewrite El1|by rewrite El1]|].
  apply dwp_bind. eapply dwp_lift; [exact Hbuf|]. apply dwp_bind. eapply dwp_lift; [exact Hrdn|]. apply dwp_bind. assert (Hok : forall err, log_ok (FxWrite q data err :: tl_log s)) by (intros err; split; [cbn [fx_ok]; by rewrite <- D4|done]).
  pose proof Hled1 as (A1 & A2 & _). eapply (led_req P p q r _ s1 f (fun err f' l' _ => f' = f /\ l' = FxWrite q data err :: tl_log s)); [done|done|done|done|done| |intros ? ? ? ? [_ ->]; apply Hok|].
  { unfold tcp_write. apply lwp_bind, lwp_ask. intros k. apply lwp_bind, lwp_emit; [done|]. apply lwp_ret. by rewrite El1. }
  intros err s2 f2 Hled2 Hreq2 [-> El2]. pose proof (led_trans _ _ _ _ _ _ _ _ _ Hled1 Hled2) as Hled. pose proof Hled as (B1 & B2 & _). assert (Hfatal : dwp (mqvpn_tcp_lane_on_relay_error p) s2 (relay_post f s)) by (eapply dwp_mono; [by eapply dwp_fatal|]; by intros ? ? [? _]).
  destruct err; [|apply dwp_ret|exact Hfatal..].
  - set (g := fun f : mqvpn_tcp_flow_t => f <| downlink_stash_len := 0 |> <| downlink_paused := false |>). apply dwp_bind. eapply (led_req P p q r _ s2 f (fun _ f' l' _ => f' = f /\ l' = FxOutput q :: FxWrite q data ERR_OK :: tl_log s)); [done|done|done|done|done|apply lwp_emit; [done|by rewrite El2]|intros ? ? ? ? [_ ->]|].
    { split; [cbn [fx_ok]; by rewrite pcb_same|apply Hok]. }
    intros [] s3 f3 Hled3 Hreq3 [-> El3]. pose proof (led_trans _ _ _ _ _ _ _ _ _ Hled Hled3) as Hledc. pose proof Hledc as (C1 & C2 & _). assert (Hlog3 : log_ok (tl_log s3)) by (rewrite El3; split; [cbn [fx_ok]; by rewrite pcb_same|apply Hok]). apply dwp_bind.
    eapply (led_req P p q r _ s3 f (fun _ f' l' _ => f' = g f /\ l' = tl_log s3)); [done|done|done|done|done|by apply lwp_set|by intros ? ? ? ? [_ ->]|]. intros [] s4 f4 Hled4 Hreq4 [-> El4]. apply dwp_ret. eapply live_after; [exact (led_trans _ _ _ _ _ _ _ _ _ Hledc Hled4)|done|done|done| |].
    + eapply uplink_same; [|exact Hu]. rewrite El4, El3. unfold up_same. by rewrite !pcb_same, !req_other by done.
    + rewrite El4, El3. constructor; rewrite ?pcb_same, ?req_other, ?fin_other by done; cbn; [|done|done|by rewrite D4|by rewrite Hnf]. rewrite D1, Hst. unfold stashed. cbn. by rewrite app_nil_r.
  - eapply live_after; [done|done|done|done| |].
    + eapply uplink_same; [|exact Hu]. rewrite El2. unfold up_same. by rewrite pcb_same, req_other by done.
    + eapply downlink_same; [|exact Hdn]. rewrite El2. unfold down_same. by rewrite pcb_same, req_other by done.
Qed.

End downlink.
