(* ===== verification/TcpOps.v ===== *)
(** * Callbacks of the TCP lane

    Every callback of lwIP and of xquic keeps the invariant, and a callback of
    lwIP returns [ERR_ABRT] exactly when it aborted the pcb. *)

From S2P Require Import Prelude StateOpt CString Wire ReorderTx Hybrid HybridProofs PathFsm Client TcpLane TcpEvent TcpTable Chains TcpClose TcpSyn TcpUplink TcpDownlink.

Section ops.
Context (E : tcp_env) (P : lane_profile) (HE : tcp_env_ok E) (HP : profile_ok P).
Implicit Types (s : mqvpn_tcp_lane_t) (f : mqvpn_tcp_flow_t) (l : list tcp_fx).

(** ** Entries of the log *)

Definition with_log s l : mqvpn_tcp_lane_t := s <| tl_log := l |>.

Lemma shape_log s l : shape P s -> (forall q, pv_open (pcb_of q l) = pv_open (pcb_of q (tl_log s))) -> (forall r, rv_open (req_of r l) = rv_open (req_of r (tl_log s))) -> shape P (with_log s l).
Proof.
  intros [] Hq Hr. constructor; unfold lane_bucket in *; cbn; try done.
  - intros p f st Hf Hst. destruct (sh_stream p f st Hf Hst) as (r & ? & ? & ?). exists r. by rewrite Hr.
  - intros q. by rewrite Hq.
  - intros r. rewrite Hr. apply sh_ropen.
Qed.

(** An entry that is about one pcb and opens or closes nothing. *)
Definition calm (q : Z) (e : tcp_fx) : Prop := match e with InFrame x | InReturn x _ | InData x _ | InFin x => x = q | _ => False end.

Lemma calm_pcb q e : calm q e -> fx_pcb e = Some q /\ fx_req e = None.
Proof. destruct e; intros Hc; try done; cbn in Hc; by subst. Qed.

Lemma calm_open q e l x : calm q e -> pv_open (pcb_of x (e :: l)) = pv_open (pcb_of x l) /\ pv_req (pcb_of x (e :: l)) = pv_req (pcb_of x l).
Proof.
  intros Hc. destruct (calm_pcb q e Hc) as [Hp _]. destruct (decide (x = q)) as [->|Hne]; [rewrite pcb_same by done; by destruct e|rewrite pcb_other by congruence; done].
Qed.

Lemma focus_calm s p q e f : focus P p s -> calm q e -> flows s !! p = Some f -> f_pcb f = Some q -> fx_ok (tl_log s) e -> focus P p (with_log s (e :: tl_log s)).
Proof.
  intros [Hs Hl Ho] Hc Hf Hq He. destruct (calm_pcb q e Hc) as [Hp Hr]. constructor.
  - apply shape_log; [done|intros x; by apply (calm_open q)|]. intros r. rewrite req_other by (rewrite Hr; done). done.
  - by split.
  - intros x fx Hne Hx. apply data_frame; [right; rewrite Hp; intros E0; exact (other_pcb P s p x f fx q Hs Hf Hx Hne Hq (eq_sym E0))|by left|by eapply Ho].
Qed.

(** A frame changes nothing the data depend on. *)
Definition frame_entry (q : Z) (e : tcp_fx) : Prop := match e with InFrame x | InReturn x _ => x = q | _ => False end.

Lemma inv_in_frame s q e : lane_inv P s -> frame_entry q e -> fx_ok (tl_log s) e -> lane_inv P (with_log s (e :: tl_log s)).
Proof.
  intros [Hs Hl Hd] Hc He. assert (Hcalm : calm q e) by (by destruct e). destruct (calm_pcb q e Hcalm) as [Hp Hr]. constructor.
  - apply shape_log; [done|intros x; by apply (calm_open q)|]. intros r. rewrite req_other by (rewrite Hr; done). done.
  - by split.
  - intros p f Hf. specialize (Hd p f Hf). change (data_ok P (e :: tl_log s) f). destruct (decide (f_pcb f = Some q)) as [Hq|Hq]; [|apply data_frame; [right; rewrite Hp; congruence|by left|done]].
    unfold data_ok in *. rewrite Hq in *. destruct (f_h3_request f) as [r|]; [|done]. destruct Hd as (D1 & D2 & D3). assert (Ep : pcb_of q (e :: tl_log s) = pcb_effect e (pcb_of q (tl_log s))) by (by apply pcb_same). assert (Er : req_of r (e :: tl_log s) = req_of r (tl_log s)) by (apply req_other; by rewrite Hr).
    assert (Ef : fin_reported r (e :: tl_log s) = fin_reported r (tl_log s)) by (by destruct e). split; [rewrite Ep; by destruct e|]. split.
    + eapply uplink_same; [|exact D2]. unfold up_same. rewrite Ep, Er. by destruct e.
    + eapply downlink_same; [|exact D3]. unfold down_same. rewrite Ep, Er, Ef. by destruct e.
Qed.

(** The flow of a pcb. *)
Lemma arg_flow s q p : lane_inv P s -> tcp_args s !! q = Some p -> exists f r, flows s !! p = Some f /\ f_pcb f = Some q /\ f_h3_request f = Some r.
Proof.
  intros Hi Ha. apply (sh_args _ _ (li_shape _ _ Hi)) in Ha as (f & Hf & Hq). pose proof (li_data _ _ Hi p f Hf) as Hd. unfold data_ok in Hd. rewrite Hq in Hd. destruct (f_h3_request f) as [r|] eqn:Er; [|done]. by exists f, r.
Qed.

(** The flow of a stream. *)
Lemma stream_flow s p f st : lane_inv P s -> flows s !! p = Some f -> f_stream f = Some st -> exists q r, f_pcb f = Some q /\ f_h3_request f = Some r.
Proof.
  intros Hi Hf Hst. destruct (sh_stream _ _ (li_shape _ _ Hi) p f st Hf Hst) as (r & Hr & _). destruct (sh_ptrs _ _ (li_shape _ _ Hi) p f Hf) as [_ Hp]. destruct (f_pcb f) as [q|] eqn:Eq; [by exists q, r|]. rewrite Hr in Hp. destruct (f_state f); destruct Hp as (? & ? & ?) || destruct Hp as (? & ?); done.
Qed.

Lemma fin_up l f q r : uplink_ok P l f q r -> pv_fin_in (pcb_of q l) = false -> tcp_fin_seen f = false /\ fin_sent_to_h3 f = false /\ rv_fin_sent (req_of r l) = false.
Proof. intros [_ _ _ _ _ _ _ U8 U9 U10] Hf. rewrite Hf in U8. split; [done|]. destruct (fin_sent_to_h3 f); [destruct (U10 eq_refl); congruence|]. by rewrite <- U9. Qed.

(** ** The end of a frame *)

Lemma dwp_return p q f s st s1 : relay_post P p q f s st s1 -> pv_aborted (pcb_of q (tl_log s)) = false -> dwp (t_emit (InReturn q (err_of_status st))) s1 (fun _ s' => lane_inv P s').
Proof.
  intros (H1 & _ & H3 & _) Ha. unfold t_emit. apply dwp_modify. apply (inv_in_frame s1 q); [done|done|]. cbn [fx_ok]. rewrite H3, Ha. unfold err_of_status. case_bool_decide; done.
Qed.

(** The time of the last activity. *)
Lemma lwp_stamp p q r f l n (Q : unit -> mqvpn_tcp_flow_t -> list tcp_fx -> nat -> Prop) : Q tt f l n -> (forall t, Q tt (f <| f_last_activity_us := t |>) l n) -> lwp p q r (stamp_activity E p) f l n Q.
Proof.
  intros H1 H2. unfold stamp_activity. apply lwp_bind, lwp_get. destruct (te_clock E); [|by apply lwp_skip]. destruct (f_lane f); [|by apply lwp_skip]. apply lwp_bind, lwp_ask. intros k. by apply lwp_set.
Qed.

(** A step that may move the time of the flow, then another. *)
Lemma dwp_stamped {A} p q r s f (k : T A) (R : A -> mqvpn_tcp_lane_t -> Prop) : focus P p s -> flows s !! p = Some f -> f_pcb f = Some q -> f_h3_request f = Some r -> pv_req (pcb_of q (tl_log s)) = Some r ->
  (forall s1 t, led P p q s f s1 (f <| f_last_activity_us := t |>) -> tl_log s1 = tl_log s -> dwp k s1 R) -> dwp (stamp_activity E p ;; k) s R.
Proof.
  intros Hfo Hf Hq Hr Hreq HR. apply dwp_bind. eapply (led_req P p q r _ s f (fun _ f' l' _ => l' = tl_log s /\ exists t, f' = f <| f_last_activity_us := t |>)); [done|done|done|done|done| |intros ? ? ? ? [-> _]; apply (fo_log _ _ _ Hfo)|].
  - apply lwp_stamp; [split; [done|]; exists (f_last_activity_us f); by destruct f|intros t; split; [done|by exists t]].
  - intros [] s1 f1 Hled _ [El (t & ->)]. by eapply HR.
Qed.

(** ** Callbacks of lwIP *)

Lemma dwp_recv_data s q p b : lane_inv P s -> tcp_args s !! q = Some p -> lwip_delivers P s q (Some b) = true ->
  dwp (in_frame q [InData q (concat b)] (mqvpn_tcp_lane_on_lwip_recv E P p (Some b))) s (fun _ s' => lane_inv P s').
Proof.
  intros Hi Ha Hdel. unfold lwip_delivers in Hdel. apply andb_prop in Hdel as [Hfin Hdel]. apply negb_true_iff in Hfin. apply andb_prop in Hdel as [Hdel Hw]. apply andb_prop in Hdel as [Hne Htot]. apply negb_true_iff, Nat.eqb_neq in Hne. apply Z.leb_le in Htot, Hw.
  destruct (arg_flow s q p Hi Ha) as (f & r & Hf & Hq & Hr). pose proof (proj1 (data_split P q r _ f Hq Hr) (li_data _ _ Hi p f Hf)) as (Hreq & Hu & Hdn). destruct (fin_up _ _ _ _ Hu Hfin) as (F1 & F2 & F3).
  unfold in_frame, t_emit. apply dwp_bind, dwp_modify. set (s1 := with_log s (InFrame q :: tl_log s)). change (s <| tl_log ::= cons (InFrame q) |>) with s1. assert (Hi1 : lane_inv P s1) by (by apply (inv_in_frame s q)). apply dwp_bind, dwp_modify. set (s2 := with_log s1 (InData q (concat b) :: tl_log s1)). change (s1 <| tl_log ::= cons (InData q (concat b)) |>) with s2.
  assert (Hfo : focus P p s2) by (eapply (focus_calm s1 p q _ f); [by apply inv_focus|done|done|done|done]). assert (El : tl_log s2 = InData q (concat b) :: InFrame q :: tl_log s) by done.
  assert (Ep : pcb_of q (tl_log s2) = (pcb_of q (tl_log s)) <| pv_aborted := false |> <| pv_in ::= fun i => i ++ concat b |>) by (rewrite El, !pcb_same by done; done). assert (Er : req_of r (tl_log s2) = req_of r (tl_log s)) by (rewrite El, !req_other by done; done).
  apply dwp_bind. unfold mqvpn_tcp_lane_on_lwip_recv. eapply (dwp_stamped p q r s2 f); [done|done|done|done|by rewrite Ep|]. intros s3 t Hled El3. set (f3 := f <| f_last_activity_us := t |>) in *. pose proof Hled as (L1 & L2 & _). apply dwp_bind. eapply dwp_get_flow; [exact L2|].
  assert (Hst : negb (bool_decide (f_state f3 = TCP_FLOW_ACTIVE)) && negb (bool_decide (f_state f3 = TCP_FLOW_PENDING_STREAM)) = false). { destruct (sh_ptrs _ _ (li_shape _ _ Hi) p f Hf) as [_ Hp]. change (f_state f3) with (f_state f). rewrite Hq in Hp. destruct (f_state f); destruct Hp as (? & ? & ?) || destruct Hp as (? & ?); done. } rewrite Hst.
  apply dwp_bind. pose proof Hu as [U1 U2 U3 U4 U5 U6 U7 U8 U9 U10]. eapply dwp_mono; [apply (dwp_deliver E P HE HP p q r s3 f3); [done|done|done|done|by rewrite El3, Ep|by intros ->|done| |]|].
  - rewrite El3. unfold tot_len in *. constructor; rewrite ?Ep, ?Er; cbn [pv_in pv_credit pv_fin_in pv_aborted update]; subst f3; cbn; [by rewrite U1, <- app_assoc|done|done|rewrite blen_cat; lia|lia|done|done|done|done].
  - rewrite El3. eapply downlink_same; [|exact Hdn]. unfold down_same. rewrite Ep, Er, El. done.
  - intros st s4 Hp4. apply dwp_ret. eapply dwp_return; [eapply relay_lead; [exact Hled|exact Hp4]|]. by rewrite Ep.
Qed.

Lemma dwp_recv_fin s q p : lane_inv P s -> tcp_args s !! q = Some p -> lwip_delivers P s q None = true -> dwp (in_frame q [InFin q] (mqvpn_tcp_lane_on_lwip_recv E P p None)) s (fun _ s' => lane_inv P s').
Proof.
  intros Hi Ha Hdel. unfold lwip_delivers in Hdel. rewrite andb_true_r in Hdel. apply negb_true_iff in Hdel. rename Hdel into Hfin.
  destruct (arg_flow s q p Hi Ha) as (f & r & Hf & Hq & Hr). pose proof (proj1 (data_split P q r _ f Hq Hr) (li_data _ _ Hi p f Hf)) as (Hreq & Hu & Hdn). destruct (fin_up _ _ _ _ Hu Hfin) as (F1 & F2 & F3).
  unfold in_frame, t_emit. apply dwp_bind, dwp_modify. set (s1 := with_log s (InFrame q :: tl_log s)). change (s <| tl_log ::= cons (InFrame q) |>) with s1. assert (Hi1 : lane_inv P s1) by (by apply (inv_in_frame s q)). apply dwp_bind, dwp_modify. set (s2 := with_log s1 (InFin q :: tl_log s1)). change (s1 <| tl_log ::= cons (InFin q) |>) with s2.
  assert (Hfo : focus P p s2) by (eapply (focus_calm s1 p q _ f); [by apply inv_focus|done|done|done|done]). assert (El : tl_log s2 = InFin q :: InFrame q :: tl_log s) by done.
  assert (Ep : pcb_of q (tl_log s2) = (pcb_of q (tl_log s)) <| pv_aborted := false |> <| pv_fin_in := true |>) by (rewrite El, !pcb_same by done; done). assert (Er : req_of r (tl_log s2) = req_of r (tl_log s)) by (rewrite El, !req_other by done; done).
  apply dwp_bind. unfold mqvpn_tcp_lane_on_lwip_recv. eapply (dwp_stamped p q r s2 f); [done|done|done|done|by rewrite Ep|]. intros s3 t Hled El3. set (f3 := f <| f_last_activity_us := t |>) in *. pose proof Hled as (L1 & L2 & _). set (g := fun f : mqvpn_tcp_flow_t => f <| tcp_fin_seen := true |>). apply dwp_bind.
  eapply (led_req P p q r _ s3 f3 (fun _ f' l' _ => f' = g f3 /\ l' = tl_log s3)); [done|done|done|done|by rewrite El3, Ep|by apply lwp_set|intros ? ? ? ? [_ ->]; apply (fo_log _ _ _ L1)|]. intros [] s4 f4 Hled4 Hreq4 [-> El4]. pose proof Hled4 as (M1 & M2 & _).
  assert (Hi4 : lane_inv P s4). { eapply led_inv; [exact Hled4|done|done|done| |]; rewrite El4, El3.
    - destruct Hu as [U1 U2 U3 U4 U5 U6 U7 U8 U9 U10]. constructor; rewrite ?Ep, ?Er; subst f3; cbn; [done..|by rewrite F2].
    - eapply downlink_same; [|exact Hdn]. unfold down_same. rewrite Ep, Er, El. done. }
  apply dwp_bind. eapply dwp_mono; [by apply (dwp_flush E P HE HP p q r s4 (g f3))|]. intros st s5 Hp5. apply dwp_ret. eapply dwp_return; [eapply relay_lead; [exact (led_trans _ _ _ _ _ _ _ _ _ Hled Hled4)|exact Hp5]|]. by rewrite Ep.
Qed.

(** ** The pump *)

(** A relay step, or nothing, for the flow of a stream. *)
Lemma dwp_pump s st : lane_inv P s -> dwp (tcp_lane_downlink_pump_status E P st) s (fun r s' => (s' = s /\ r = TCP_LANE_FLOW_LIVE /\ forall p f, flows s !! p = Some f -> f_stream f <> Some st) \/ exists p f q, flows s !! p = Some f /\ f_stream f = Some st /\ f_pcb f = Some q /\ relay_post P p q f s r s').
Proof.
  intros Hi. unfold tcp_lane_downlink_pump_status. apply dwp_bind. eapply (dwp_find_stream P); [apply (li_shape _ _ Hi)|]. intros [p|] Ho; [|apply dwp_ret; by left]. destruct Ho as (f & Hf & Hst). destruct (stream_flow s p f st Hi Hf Hst) as (q & r & Hq & Hr). apply dwp_bind. eapply dwp_get_flow; [done|].
  assert (Hlive : relay_post P p q f s TCP_LANE_FLOW_LIVE s) by (by eapply dwp_live). eapply (dwp_mono _ _ (relay_post P p q f s)); [|intros st' s' Hp; right; by exists p, f, q]. destruct (bool_decide _); [by apply dwp_ret|]. apply dwp_bind.
  assert (H1 : dwp (if downlink_paused f then tcp_lane_downlink_stash_retry E p else mret TCP_LANE_FLOW_LIVE) s (relay_post P p q f s)) by (destruct (downlink_paused f) eqn:Ep; [by apply (dwp_stash_retry E P HP p q r)|by apply dwp_ret]).
  eapply dwp_mono; [exact H1|]. intros st1 s1 Hp1. case_bool_decide as Hs1; cbn [negb]; [|by apply dwp_ret]. subst st1. pose proof Hp1 as (Hi1 & _ & _ & f1 & Hf1 & Hs1). destruct (ids_ptrs q r f f1 Hs1 Hq Hr) as [Hq1 Hr1]. apply dwp_bind. eapply dwp_get_flow; [done|]. destruct (downlink_paused f1) eqn:Ep1; [by apply dwp_ret|]. destruct (_ || _ || _); [by apply dwp_ret|].
  eapply dwp_mono; [by apply (dwp_drain E P HE HP p q r s1 f1)|]. intros st2 s2 Hp2. by eapply relay_trans.
Qed.

Lemma dwp_sent s q p : lane_inv P s -> tcp_args s !! q = Some p -> dwp (in_frame q [] (mqvpn_tcp_lane_on_lwip_sent E P p)) s (fun _ s' => lane_inv P s').
Proof.
  intros Hi Ha. destruct (arg_flow s q p Hi Ha) as (f & r & Hf & Hq & Hr). unfold in_frame, t_emit. apply dwp_bind, dwp_modify. set (s1 := with_log s (InFrame q :: tl_log s)). change (s <| tl_log ::= cons (InFrame q) |>) with s1. assert (Hi1 : lane_inv P s1) by (by apply (inv_in_frame s q)). assert (Hab : pv_aborted (pcb_of q (tl_log s1)) = false) by (change (tl_log s1) with (InFrame q :: tl_log s); by rewrite pcb_same).
  pose proof (proj1 (data_split P q r _ f Hq Hr) (li_data _ _ Hi1 p f Hf)) as (Hreq & Hu & Hdn). apply dwp_bind, dwp_skip, dwp_bind. unfold mqvpn_tcp_lane_on_lwip_sent. eapply (dwp_stamped p q r s1 f); [by apply inv_focus|done|done|done|done|]. intros s2 t Hled El2. set (f2 := f <| f_last_activity_us := t |>) in *. pose proof Hled as (L1 & L2 & _).
  assert (Hi2 : lane_inv P s2) by (eapply led_inv; [exact Hled|done|done|by rewrite El2| |]; rewrite El2; [by eapply uplink_same; [|exact Hu]|by eapply downlink_same; [|exact Hdn]]). assert (Hq2 : f_pcb f2 = Some q /\ f_h3_request f2 = Some r) by done. destruct Hq2 as [Hq2 Hr2].
  assert (Hend : forall st s3, relay_post P p q f2 s2 st s3 -> dwp (t_emit (InReturn q (err_of_status st))) s3 (fun _ s' => lane_inv P s')). { intros st s3 Hp3. eapply dwp_return; [eapply relay_lead; [exact Hled|exact Hp3]|done]. }
  assert (Hlive : relay_post P p q f2 s2 TCP_LANE_FLOW_LIVE s2) by (by eapply dwp_live). apply dwp_bind. eapply dwp_get_flow; [exact L2|]. destruct (downlink_paused f2) eqn:Epa; cbn [negb]; [|apply dwp_ret; exact (Hend _ _ Hlive)].
  apply dwp_bind. eapply dwp_mono; [by apply (dwp_stash_retry E P HP p q r s2 f2)|]. intros st3 s3 Hp3. case_bool_decide as Hs3; cbn [negb]; [|apply dwp_ret; exact (Hend _ _ Hp3)]. subst st3. pose proof Hp3 as (Hi3 & _ & _ & f3 & Hf3 & Hid3). destruct (ids_ptrs q r f2 f3 Hid3 Hq2 Hr2) as [Hq3 Hr3]. apply dwp_bind. eapply dwp_get_flow; [exact Hf3|]. destruct (downlink_paused f3); [apply dwp_ret; exact (Hend _ _ Hp3)|].
  destruct (f_stream f3) as [st|] eqn:Est; [|apply dwp_bind, dwp_ret, dwp_ret; exact (Hend _ _ Hp3)]. apply dwp_bind, dwp_bind. unfold t_assert. eapply dwp_lift; [by rewrite (relay_lane P p q s3 f3 (li_shape _ _ Hi3) Hf3 Hq3)|].
  eapply dwp_mono; [by apply dwp_pump|]. intros st4 s4 [(-> & -> & Hno)|(p' & f' & q' & Hf' & Hst' & Hq' & Hp4)]; apply dwp_ret; [by destruct (Hno p f3 Hf3)|]. assert (p' = p) by (by eapply (sh_suniq _ _ (li_shape _ _ Hi3))). simplify_eq. eapply Hend. by eapply relay_trans.
Qed.

(** ** A pcb that is gone *)

Lemma dwp_err s q p : lane_inv P s -> tcp_args s !! q = Some p -> dwp (t_emit (InPcbFreed q) ;; d_modify (fun s => s <| tcp_args ::= delete q |>) ;; mqvpn_tcp_lane_on_lwip_err p) s (fun _ s' => lane_inv P s').
Proof.
  intros Hi Ha. destruct (arg_flow s q p Hi Ha) as (f & r & Hf & Hq & Hr). pose proof (li_shape _ _ Hi) as Hs. destruct (flow_in_chain P s p f Hs Hf) as (ch & Hch & Hp). destruct (unlink_split ch p Hp) as (k & rest & -> & Hk & _). destruct (in_bound P s p f Hs Hf) as [Hb1 Hb2]. pose proof (shape_counted P HP s p f Hs Hf) as Hc. pose proof (relay_lane P p q s f Hs Hf Hq) as Hlane.
  unfold t_emit, mqvpn_tcp_lane_on_lwip_err. apply dwp_bind, dwp_modify, dwp_bind, dwp_modify, dwp_bind. eapply dwp_set_flow; [exact Hf|]. apply dwp_bind. unfold tcp_lane_close_h3. apply dwp_bind. eapply dwp_get_flow; [apply (lookup_insert_eq (flows s))|]. change (f_h3_request (f <| f_pcb := None |>)) with (f_h3_request f). rewrite Hr.
  unfold cli_tcp_lane_h3_close, t_emit, t_assert. apply dwp_bind, dwp_modify, dwp_bind. eapply dwp_set_flow; [apply (lookup_insert_eq (flows s))|]. apply dwp_bind. eapply dwp_lift; [change (f_lane (f <| f_pcb := None |>)) with (f_lane f); by rewrite Hlane|].
  eapply dwp_unbind; [apply (sh_bnodup _ _ Hs)|cbn; apply lookup_insert_eq|done|done|done|]. intros b Hbn Hb. apply dwp_bind. eapply dwp_get_flow; [cbn; apply lookup_insert_eq|]. apply dwp_bind. eapply dwp_lift; [cbn; by rewrite Hlane|]. set (g := f <| f_pcb := None |> <| f_h3_request := None |> <| f_stream := None |>).
  eapply (dwp_remove _ p g k rest); [cbn; apply lookup_insert_eq|done|exact Hch|done|exact Hc|]. match goal with |- lane_inv P ?x => set (s' := x) end. assert (El : tl_log s' = FxH3Close r :: InPcbFreed q :: tl_log s) by done. assert (Ef : flows s' = delete p (flows s)) by (subst s'; cbn; by rewrite !delete_insert_eq).
  assert (Er : forall x, req_of x (tl_log s') = if decide (x = r) then (req_of x (tl_log s)) <| rv_open := false |> else req_of x (tl_log s)). { intros x. rewrite El. case_decide as Hx; [subst x; by rewrite req_same, req_other|]. by rewrite !req_other by (cbn; congruence). }
  assert (Ep : forall x, pcb_of x (tl_log s') = if decide (x = q) then (pcb_of x (tl_log s)) <| pv_open := false |> else pcb_of x (tl_log s)). { intros x. rewrite El, pcb_other by done. case_decide as Hx; [subst x; by rewrite pcb_same|]. by rewrite !pcb_other by (cbn; congruence). }
  apply (focus_inv_none P p); [|rewrite Ef; apply lookup_delete_eq]. constructor.
  - eapply (shape_removed P s s' p f k rest); [done|done|done|done|done|done|done|done|done|done|done|done|done| | | |].
    + intros x y. change (tcp_args s') with (delete q (tcp_args s)). rewrite lookup_delete_Some. split; [|intros [Hx Hne]; split; [congruence|done]]. intros [Hne Hx]. split; [done|]. intros ->. apply (sh_args _ _ Hs) in Hx as (fx & Hfx & Hqx). simplify_eq.
    + intros x. rewrite Ep, Hq. case_decide as Hx; cbn; [subst; split; [done|by intros [_ ?]]|]. split; [|by intros [? _]]. intros Hox. split; [done|congruence].
    + intros x. rewrite Er. by case_decide.
    + intros x Hx Hox. rewrite Er. rewrite decide_False by congruence. done.
  - rewrite El. split; [|split; [done|apply (li_log _ _ Hi)]]. cbn [fx_ok]. rewrite req_other by done. exact (req_is_open P s p f r Hs Hf Hr).
  - intros x fx Hne Hx. rewrite Ef in Hx. apply lookup_delete_Some in Hx as [_ Hx]. rewrite El. apply data_frame; [by left|right; cbn; intros E0; exact (other_req P s p x f fx r Hs Hf Hx Hne Hr (eq_sym E0))|]. apply data_frame; [right; cbn; intros E0; exact (other_pcb P s p x f fx q Hs Hf Hx Hne Hq (eq_sym E0))|by left|by apply (li_data _ _ Hi x)].
Qed.

(** ** Callbacks of xquic *)

(** A callback for the flow of a stream. *)
Lemma dwp_with_stream s st k (R : mqvpn_tcp_lane_t -> Prop) : lane_inv P s -> ((forall p f, flows s !! p = Some f -> f_stream f <> Some st) -> R s) ->
  (forall p f q r, flows s !! p = Some f -> f_stream f = Some st -> f_pcb f = Some q -> f_h3_request f = Some r -> dwp (k p) s (fun _ => R)) -> dwp (with_stream st k) s (fun _ => R).
Proof.
  intros Hi HR Hk. unfold with_stream. apply dwp_bind. eapply (dwp_find_stream P); [apply (li_shape _ _ Hi)|]. intros [p|] Ho; [|apply dwp_skip; by apply HR]. destruct Ho as (f & Hf & Hst). destruct (stream_flow s p f st Hi Hf Hst) as (q & r & Hq & Hr). by eapply Hk.
Qed.

Lemma dwp_gone s p f c : lane_inv P s -> flows s !! p = Some f -> f_lane f = true -> dwp (_ ← tcp_lane_teardown_flow p c; d_skip) s (fun _ s' => torn P c p f s s').
Proof. intros Hi Hf Hl. apply dwp_bind. eapply (dwp_teardown P HP); [by apply inv_focus|done|done|]. intros s' Ht. by apply dwp_skip. Qed.

Lemma dwp_rejected s st : lane_inv P s -> dwp (mqvpn_tcp_lane_on_stream_rejected st) s (fun _ s' => lane_inv P s').
Proof.
  intros Hi. apply dwp_with_stream; [done|done|]. intros p f q r Hf Hst Hq Hr. eapply dwp_mono; [apply (dwp_gone s p f); [done|done|exact (relay_lane P p q s f (li_shape _ _ Hi) Hf Hq)]|]. intros [] s' Ht. apply (to_inv _ _ _ _ _ _ Ht).
Qed.

(** After the closing no flow has the stream. *)
Lemma dwp_closing s st : lane_inv P s -> dwp (mqvpn_tcp_lane_on_h3_closing st) s (fun _ s' => lane_inv P s' /\ h3_streams s' = h3_streams s /\ forall p f, flows s' !! p = Some f -> f_stream f <> Some st).
Proof.
  intros Hi. apply (dwp_with_stream s st _ (fun s' => lane_inv P s' /\ h3_streams s' = h3_streams s /\ forall p f, flows s' !! p = Some f -> f_stream f <> Some st)); [done|done|]. intros p f q r Hf Hst Hq Hr. eapply dwp_mono; [apply (dwp_gone s p f); [done|done|exact (relay_lane P p q s f (li_shape _ _ Hi) Hf Hq)]|]. intros [] s' Ht.
  split; [apply (to_inv _ _ _ _ _ _ Ht)|]. split; [apply (to_streams _ _ _ _ _ _ Ht)|]. intros x fx. rewrite (to_flows _ _ _ _ _ _ Ht). intros [Hne Hx]%lookup_delete_Some Hsx. apply Hne. by eapply (sh_suniq _ _ (li_shape _ _ Hi)).
Qed.

Lemma dwp_writable s st : lane_inv P s -> dwp (mqvpn_tcp_lane_on_h3_writable E P st) s (fun _ s' => lane_inv P s').
Proof.
  intros Hi. apply dwp_with_stream; [done|done|]. intros p f q r Hf Hst Hq Hr. apply dwp_bind. eapply dwp_mono; [by apply (dwp_flush E P HE HP p q r s f)|]. intros x s' (Hi' & _). by apply dwp_skip.
Qed.

Lemma dwp_established s st : lane_inv P s -> dwp (mqvpn_tcp_lane_on_stream_established E P st) s (fun _ s' => lane_inv P s').
Proof.
  intros Hi. apply dwp_with_stream; [done|done|]. intros p f q r Hf Hst Hq Hr. pose proof (li_shape _ _ Hi) as Hs. apply dwp_bind, dwp_clock. intros now n. apply dwp_bind. eapply dwp_set_flow; [exact Hf|]. set (f' := f <| f_state := TCP_FLOW_ACTIVE |> <| f_last_activity_us := now |>). set (s1 := _ <| flows ::= _ |>).
  destruct (sh_ptrs _ _ Hs p f Hf) as [Hb Hp]. assert (Hkind : kind_of f = KTcp) by (unfold kind_of; rewrite Hq in Hp; destruct (f_state f); destruct Hp as (? & ? & ?) || destruct Hp as (? & ?); done). pose proof (relay_lane P p q s f Hs Hf Hq) as Hlane.
  assert (Ho : forall k, one k f' = one k f) by (intros k; unfold one; by rewrite Hkind). assert (Hpop : forall k, pop k (flows s1) = pop k (flows s)) by (intros k; subst s1; cbn; rewrite (pop_insert _ _ _ f _ Hf), Ho; lia).
  assert (Hi1 : lane_inv P s1). { apply (focus_inv P p s1 f'); [|apply (lookup_insert_eq (flows s))|].
    - constructor; [|apply (li_log _ _ Hi)|].
      + eapply (shape_update P s s1 p f f'); [done|done|done|done|done|done|done| |rewrite Ho; cbn; lia|rewrite Ho; cbn; lia|rewrite Ho; cbn; lia|rewrite Hpop; apply (sh_max _ _ Hs)|rewrite Hpop; apply (sh_max_raw _ _ Hs)|rewrite Hpop; apply (sh_max_closing _ _ Hs)|apply (sh_bnodup _ _ Hs)| |done|apply (sh_inj _ _ Hs)| |done| |apply (sh_open _ _ Hs)|apply (sh_ropen _ _ Hs)].
        * split; [done|]. cbn. rewrite Hlane, Hq, Hr. done.
        * intros x. change (bound s1) with (bound s). change (f_stream f') with (f_stream f). destruct (decide (x = p)) as [->|Hne]; [|tauto]. rewrite (sh_bound _ _ Hs). split; [intros (f2 & ? & ?); simplify_eq; by right|intros [[? _]|[_ ?]]; [done|by exists f]].
        * intros st0 Hst0. change (f_stream f') with (f_stream f) in Hst0. split; [by apply (sh_stream _ _ Hs p f)|]. intros x fx Hne Hfx Hsx. apply Hne. by eapply (sh_suniq _ _ Hs).
        * intros q0 x. change (tcp_args s1) with (tcp_args s). change (f_pcb f') with (f_pcb f). destruct (decide (x = p)) as [->|Hne]; [|tauto]. rewrite (sh_args _ _ Hs). split; [intros (f2 & ? & ?); simplify_eq; by right|intros [[? _]|[_ ?]]; [done|by exists f]].
      + intros x fx Hne. subst s1. cbn. rewrite lookup_insert_ne by done. apply (li_data _ _ Hi).
    - destruct (proj1 (data_split P q r _ f Hq Hr) (li_data _ _ Hi p f Hf)) as (A1 & A2 & A3). apply (data_split P q r); [done|done|]. split; [done|]. split; [by eapply uplink_same; [|exact A2]|by eapply downlink_same; [|exact A3]]. }
  apply dwp_bind. eapply dwp_mono; [apply (dwp_flush E P HE HP p q r s1 f'); [done|apply (lookup_insert_eq (flows s))|done|done]|]. intros x s' (Hi' & _). by apply dwp_skip.
Qed.

(** ** Requests come and go *)

(** An entry about a request that no flow has, and the map of the streams. *)
Definition with_streams s (e : tcp_fx) (m : gmap Z Z) : mqvpn_tcp_lane_t := s <| h3_streams := m |> <| tl_log := e :: tl_log s |>.

Lemma flow_request s x fx r0 : shape P s -> flows s !! x = Some fx -> f_h3_request fx = Some r0 -> exists st, f_stream fx = Some st /\ h3_streams s !! st = Some r0.
Proof.
  intros Hs Hx Hr. destruct (f_stream fx) as [st|] eqn:Est; [|apply (proj1 (sh_ptrs _ _ Hs x fx Hx)) in Est; congruence]. exists st. split; [done|]. destruct (sh_stream _ _ Hs x fx st Hx Est) as (r' & ? & ? & _). congruence.
Qed.

Lemma shape_req s e r m : shape P s -> fx_pcb e = None -> fx_req e = Some r -> (forall x fx, flows s !! x = Some fx -> f_h3_request fx <> Some r) ->
  (forall x fx st r0, flows s !! x = Some fx -> f_stream fx = Some st -> h3_streams s !! st = Some r0 -> m !! st = Some r0) -> (forall st st' r0, m !! st = Some r0 -> m !! st' = Some r0 -> st = st') ->
  (forall r0 st, r0 <> r -> h3_streams s !! st = Some r0 -> m !! st = Some r0) -> (rv_open (req_of r (e :: tl_log s)) = true -> exists st, m !! st = Some r) -> shape P (with_streams s e m).
Proof.
  intros [] Hp Hr Hno Hkeep Hinj Hold Hopen. assert (Ep : forall q, pcb_of q (e :: tl_log s) = pcb_of q (tl_log s)) by (intros q; apply pcb_other; by rewrite Hp). assert (Er : forall r0, r0 <> r -> req_of r0 (e :: tl_log s) = req_of r0 (tl_log s)) by (intros r0 Hne; apply req_other; rewrite Hr; congruence).
  constructor; unfold lane_bucket in *; try done.
  - intros x fx st Hx Hst. destruct (sh_stream x fx st Hx Hst) as (r0 & R1 & R2 & R3). exists r0. split; [done|]. split; [by eapply Hkeep|]. change (rv_open (req_of r0 (e :: tl_log s)) = true). rewrite Er; [done|]. intros ->. by eapply Hno.
  - intros q. change (pv_open (pcb_of q (e :: tl_log s)) = true <-> is_Some (tcp_args s !! q)). rewrite Ep. apply sh_open.
  - intros r0. change (rv_open (req_of r0 (e :: tl_log s)) = true -> exists st, m !! st = Some r0). destruct (decide (r0 = r)) as [->|Hne]; [done|]. rewrite Er by done. intros Ho. destruct (sh_ropen r0 Ho) as [st Hst]. exists st. by eapply Hold.
Qed.

Lemma data_req s e r f : fx_pcb e = None -> fx_req e = Some r -> f_h3_request f <> Some r -> data_ok P (tl_log s) f -> data_ok P (e :: tl_log s) f.
Proof. intros Hp Hr Hne. apply data_frame; [by left|right; rewrite Hr; congruence]. Qed.

(** The last notice of a request. *)
Lemma dwp_request_close s st r : lane_inv P s -> h3_streams s !! st = Some r -> dwp (_ ← cb_request_close st; t_emit (InRequestGone r)) s (fun _ s' => lane_inv P s').
Proof.
  intros Hi Hst. unfold cb_request_close. apply dwp_bind, dwp_bind. eapply dwp_mono; [by apply dwp_closing|]. intros [] s1 (Hi1 & Eh & Hno). apply dwp_bind. unfold t_emit. apply dwp_modify, dwp_ret, dwp_modify. pose proof (li_shape _ _ Hi1) as Hs1. rewrite <- Eh in Hst.
  change (lane_inv P (with_streams s1 (InRequestGone r) (delete st (h3_streams s1)))). assert (Hnr : forall x fx, flows s1 !! x = Some fx -> f_h3_request fx <> Some r). { intros x fx Hx Hr. destruct (flow_request s1 x fx r Hs1 Hx Hr) as (st' & S1 & S2). assert (st' = st) by (by eapply (sh_inj _ _ Hs1)). subst st'. by eapply Hno. }
  constructor.
  - eapply (shape_req s1 _ r); [done|done|done|done| | | |].
    + intros x fx st0 r0 Hx Hs0 Hm. rewrite lookup_delete_ne; [done|]. intros <-. by eapply Hno.
    + intros st1 st2 r0 [_ H1]%lookup_delete_Some [_ H2]%lookup_delete_Some. by eapply (sh_inj _ _ Hs1).
    + intros r0 st0 Hne Hm. rewrite lookup_delete_ne; [done|]. intros <-. congruence.
    + rewrite req_same by done. done.
  - split; [done|apply (li_log _ _ Hi1)].
  - intros x fx Hx. eapply data_req; [done|done|by eapply Hnr|by apply (li_data _ _ Hi1 x)].
Qed.

(** ** The request of a new pcb *)

(** A pcb was accepted and has no request yet. *)
Record opening (p q : Z) s f : Prop := {
  og_focus : focus P p s;
  og_flow : flows s !! p = Some f;
  og_pcb : f_pcb f = Some q;
  og_req : f_h3_request f = None;
  og_state : f_state f = TCP_FLOW_PENDING_STREAM;
  og_lane : f_lane f = true;
  og_unused : unused f;
  og_view : pcb_of q (tl_log s) = PcbView true false [] false 0 [] false None
}.

Lemma opening_calls p q s f n : opening p q s f -> opening p q (s <| tl_calls := n |>) f.
Proof. intros [[[] ? ?] ? ? ? ? ? ? ?]. constructor; [|done..]. constructor; [|done..]. constructor; done. Qed.

(** What an attempt leaves: 0 or an aborted pcb. *)
Definition opened (q : Z) (ret : Z) s : Prop := lane_inv P s /\ pv_aborted (pcb_of q (tl_log s)) = negb (ret =? 0).

Lemma dwp_abort_pending p q s f : focus P p s -> flows s !! p = Some f -> f_pcb f = Some q -> f_lane f = true -> dwp (mqvpn_tcp_lane_abort_pending p) s (opened q).
Proof.
  intros Hfo Hf Hq Hl. unfold mqvpn_tcp_lane_abort_pending. apply dwp_bind. eapply (dwp_teardown P HP); [done|done|done|]. intros s' Ht. apply dwp_ret. unfold gone_status. rewrite Hq. split; [apply (to_inv _ _ _ _ _ _ Ht)|]. rewrite (to_log _ _ _ _ _ _ Ht), teardown_pcb, decide_True by done. done.
Qed.

Lemma bind_eq {A B} (m : T A) (k : A -> T B) s a s' : m s = Some (a, s') -> (m ≫= k) s = k a s'.
Proof. intros Hm. unfold mbind, stM_bind. by rewrite Hm. Qed.

Lemma get_flow_eq p s f : flows s !! p = Some f -> get_flow p s = Some (f, s).
Proof. intros Hf. unfold get_flow. rewrite (bind_eq d_get _ s s s) by done. unfold d_lift. by rewrite Hf. Qed.

Lemma set_flow_eq p s f g : flows s !! p = Some f -> set_flow p g s = Some (tt, s <| flows ::= <[p := g f]> |>).
Proof. intros Hf. unfold set_flow. by rewrite (bind_eq _ _ s f s) by (by apply get_flow_eq). Qed.

(** A flow whose request was closed by the caller. *)
Lemma dwp_drop {A} p s f r (k : tcp_lane_flow_status_t -> T A) Q : flows s !! p = Some f -> f_h3_request f = Some r -> f_lane f = true -> dwp (st ← tcp_lane_teardown_flow p true; k st) s Q -> dwp (t_emit (FxH3Close r) ;; st ← tcp_lane_teardown_flow p false; k st) s Q.
Proof.
  intros Hf Hr Hl. set (s1 := with_log s (FxH3Close r :: tl_log s)). set (s2 := s1 <| flows ::= <[p := f <| f_h3_request := None |>]> |>).
  assert (H1 : (set_flow p (fun f => f <| f_h3_request := None |>) ;; flow_set_stream p None) s1 = flow_set_stream p None s2) by (by rewrite (bind_eq _ _ s1 tt s2) by (by apply set_flow_eq)).
  assert (H2 : tcp_lane_close_h3 p s = flow_set_stream p None s2). { unfold tcp_lane_close_h3. rewrite (bind_eq _ _ s f s) by (by apply get_flow_eq). rewrite Hr. rewrite (bind_eq _ _ s tt s1) by done. rewrite (bind_eq _ _ s1 tt s2) by (by apply set_flow_eq). by rewrite (bind_eq _ _ s2 tt s2) by (rewrite Hl; done). }
  intros (a & s' & E0 & HQ). exists a, s'. split; [|done]. rewrite <- E0. rewrite (bind_eq _ _ s tt s1) by done. unfold tcp_lane_teardown_flow. unfold mbind, stM_bind in H1 |- *. rewrite H1, H2. done.
Qed.

(** The request is there. *)
Lemma opening_created p q s f r st : opening p q s f -> h3_streams s !! st = None -> r ∉ (map_img (h3_streams s) : gset Z) -> opening p q (with_streams s (FxCreate r st) (<[st := r]> (h3_streams s))) f /\ forall x fx, flows s !! x = Some fx -> f_h3_request fx <> Some r.
Proof.
  intros [[Hs Hl Ho] O2 O3 O4 O5 O6 O7 O8] Hst Hr. assert (Hfresh : forall st0, h3_streams s !! st0 <> Some r) by (intros st0 Hm; apply Hr; by eapply elem_of_map_img_2). assert (Hno : forall x fx, flows s !! x = Some fx -> f_h3_request fx <> Some r) by (intros x fx Hx Hrx; destruct (flow_request s x fx r Hs Hx Hrx) as (st0 & _ & Hm); by eapply Hfresh).
  split; [|done]. constructor; [|done|done|done|done|done|done|done]. constructor.
  - eapply (shape_req s _ r); [done|done|done|done| | | |].
    + intros x fx st0 r0 _ _ Hm. rewrite lookup_insert_ne by congruence. done.
    + intros st1 st2 r0 [[E1 E2]|[_ H1]]%lookup_insert_Some [[E3 E4]|[_ H2]]%lookup_insert_Some; [congruence|subst; by destruct (Hfresh st2)|subst; by destruct (Hfresh st1)|by eapply (sh_inj _ _ Hs)].
    + intros r0 st0 _ Hm. rewrite lookup_insert_ne by congruence. done.
    + intros _. exists st. apply lookup_insert_eq.
  - split; [|done]. cbn [fx_ok]. destruct (rv_open (req_of r (tl_log s))) eqn:Ero; [|done]. destruct (sh_ropen _ _ Hs r Ero) as [st0 Hm]. by destruct (Hfresh st0).
  - intros x fx Hne Hx. eapply data_req; [done|done|by eapply Hno|by eapply Ho].
Qed.

(** The flow has its request. *)
Lemma inv_bound p q s f r st s' f' : opening p q s f -> h3_streams s !! st = Some r -> (forall x fx, flows s !! x = Some fx -> f_h3_request fx <> Some r) -> req_of r (tl_log s) = ReqView true [] false [] -> fin_reported r (tl_log s) = false ->
  f' = f <| f_h3_request := Some r |> <| f_stream := Some st |> -> s' = s <| tl_log := FxBind q r :: tl_log s |> <| bound ::= cons p |> <| flows ::= <[p := f']> |> -> lane_inv P s'.
Proof.
  intros [[Hs Hl Ho] O2 O3 O4 O5 O6 O7 O8] Hst Hno Hreq Hfin Ef Es. pose proof (sh_ptrs _ _ Hs p f O2) as [Hb _]. pose proof (proj1 Hb O4) as Hsn. assert (Hq' : f_pcb f' = Some q) by (by subst). assert (Hr' : f_h3_request f' = Some r) by (by subst). assert (Hpb : p ∉ bound s) by (by apply (in_bound P s p f)).
  assert (Hk : forall k, one k f' = one k f) by (intros k; unfold one, kind_of; by subst). assert (Hpop : forall k, pop k (flows s') = pop k (flows s)) by (intros k; subst s'; cbn; rewrite (pop_insert _ _ _ f _ O2), Hk; lia). assert (El : tl_log s' = FxBind q r :: tl_log s) by (by subst). assert (Efl : flows s' = <[p := f']> (flows s)) by (by subst).
  assert (Hother : forall x fx, x <> p -> flows s !! x = Some fx -> f_stream fx <> Some st). { intros x fx Hne Hx Hsx. destruct (sh_stream _ _ Hs x fx st Hx Hsx) as (r0 & R1 & R2 & _). simplify_eq. by eapply Hno. }
  apply (focus_inv P p s' f'); [|rewrite Efl; apply lookup_insert_eq|].
  - constructor.
    + eapply (shape_update P s s' p f f'); [done|done|done|by subst|by subst|by subst|by subst| |rewrite Hk; subst; cbn; lia|rewrite Hk; subst; cbn; lia|rewrite Hk; subst; cbn; lia|rewrite Hpop; apply (sh_max _ _ Hs)|rewrite Hpop; apply (sh_max_raw _ _ Hs)|rewrite Hpop; apply (sh_max_closing _ _ Hs)| | |by subst|subst; apply (sh_inj _ _ Hs)| | | | |].
      * subst f'. split; [done|]. cbn. rewrite O5, O6, O3. done.
      * subst s'. apply NoDup_cons. split; [done|apply (sh_bnodup _ _ Hs)].
      * intros x. subst s' f'. cbn. rewrite elem_of_cons. destruct (decide (x = p)) as [->|Hne]; [split; [by right|by left]|tauto].
      * intros st0. subst f'. cbn. intros [= <-]. split; [|done]. exists r. split; [done|]. split; [by subst|]. rewrite El, req_other by done. by rewrite Hreq.
      * intros x fx r0 _ _ _. rewrite El, req_other by done. done.
      * intros q0 x. subst s' f'. cbn. destruct (decide (x = p)) as [->|Hne]; [|tauto]. rewrite (sh_args _ _ Hs). split; [intros (f2 & ? & ?); simplify_eq; by right|intros [[? _]|[_ ?]]; [done|by exists f]].
      * intros q0. rewrite El. subst s'. cbn [tcp_args update]. destruct (decide (q0 = q)) as [->|Hne]; [rewrite pcb_same by done|rewrite pcb_other by (cbn; congruence)]; apply (sh_open _ _ Hs).
      * intros r0. rewrite El, req_other by done. subst s'. apply (sh_ropen _ _ Hs).
    + rewrite El. split; [|done]. cbn [fx_ok]. by rewrite O8.
    + intros x fx Hne. rewrite Efl, lookup_insert_ne by done. intros Hx. rewrite El. apply data_frame; [right; cbn; intros E0; exact (other_pcb P s p x f fx q Hs O2 Hx Hne O3 (eq_sym E0))|by left|by eapply Ho].
  - apply (data_split P q r); [done|done|]. assert (Ep : pcb_of q (tl_log s') = PcbView true false [] false 0 [] false (Some r)) by (rewrite El, pcb_same by done; cbn [pcb_effect]; by rewrite O8). assert (Er : req_of r (tl_log s') = ReqView true [] false []) by (by rewrite El, req_other by done). assert (Ero : fin_reported r (tl_log s') = false) by (by rewrite El).
    destruct O7 as (N1 & N2 & N3 & N4 & N5 & N6 & N7 & N8 & N9 & N10). destruct HP. split; [by rewrite Ep|]. split.
    + constructor; rewrite ?Ep, ?Er; subst f'; cbn; rewrite ?N1, ?N2, ?N3, ?N4, ?N6, ?N8; try done; lia.
    + constructor; rewrite ?Ep, ?Er, ?Ero; subst f'; unfold stashed; cbn; rewrite ?N5, ?N7, ?N9; done.
Qed.

(** An entry that shows in no view. *)
Lemma inv_silent s r e : lane_inv P s -> fx_pcb e = None -> fx_req e = Some r -> (forall v, req_effect e v = v) -> fin_reported r (e :: tl_log s) = fin_reported r (tl_log s) -> fx_ok (tl_log s) e -> lane_inv P (with_log s (e :: tl_log s)).
Proof.
  intros [Hs Hl Hd] Hp Hr He Hfin Hok. assert (Ep : forall q, pcb_of q (e :: tl_log s) = pcb_of q (tl_log s)) by (intros q; apply pcb_other; by rewrite Hp). assert (Er : forall x, req_of x (e :: tl_log s) = req_of x (tl_log s)) by (intros x; destruct (decide (x = r)) as [->|Hne]; [by rewrite req_same|apply req_other; rewrite Hr; congruence]).
  constructor; [apply shape_log; [done|intros x; by rewrite Ep|intros x; by rewrite Er]|by split|]. intros p f Hf. specialize (Hd p f Hf). change (data_ok P (e :: tl_log s) f). unfold data_ok in *. destruct (f_pcb f) as [q|]; [|done]. destruct (f_h3_request f) as [r0|]; [|done]. destruct Hd as (D1 & D2 & D3). rewrite Ep. split; [done|]. split.
  - eapply uplink_same; [|exact D2]. unfold up_same. by rewrite Ep, Er.
  - eapply downlink_same; [|exact D3]. unfold down_same. rewrite Ep, Er. split_and!; try done. destruct (decide (r0 = r)) as [->|Hne]; [done|]. apply fin_other. rewrite Hr. congruence.
Qed.

Lemma dwp_open_stream C p q s f key : opening p q s f -> dwp (cli_tcp_lane_open_stream E C p key) s (opened q).
Proof.
  intros Hop. assert (Habort : forall s1, opening p q s1 f -> dwp (mqvpn_tcp_lane_abort_pending p) s1 (opened q)) by (intros s1 [O1 O2 O3 _ _ O6 _ _]; by eapply dwp_abort_pending).
  unfold cli_tcp_lane_open_stream. apply dwp_bind, dwp_t_ask. intros k0 n0. apply (opening_calls _ _ _ _ n0) in Hop. set (s0 := s <| tl_calls := n0 |>) in *. clearbody s0. clear s. rename s0 into s. destruct (te_h3_conn E k0); cbn [negb]; [|by apply Habort].
  apply dwp_bind, dwp_get, dwp_bind, dwp_t_ask. intros k1 n1. pose proof (opening_calls _ _ _ _ n1 Hop) as Hop1. destruct (te_stream E k1 (dom (h3_streams s))) as [st|] eqn:Est; [|by apply Habort]. apply dwp_bind, dwp_t_ask. intros k2 n2. pose proof (opening_calls _ _ _ _ n2 Hop1) as Hop2. set (s2 := s <| tl_calls := n1 |> <| tl_calls := n2 |>) in *.
  destruct (te_request E k2 (map_img (h3_streams s))) as [r|] eqn:Erq; [|by apply Habort]. apply (eo_stream _ HE), not_elem_of_dom in Est. apply (eo_request _ HE) in Erq. unfold t_emit. apply dwp_bind, dwp_modify, dwp_bind, dwp_modify.
  destruct (opening_created p q s2 f r st Hop2 Est Erq) as [Hop3 Hno]. set (s3 := with_streams s2 (FxCreate r st) (<[st := r]> (h3_streams s2))) in *. match goal with |- dwp _ ?x _ => change x with s3 end. assert (Ereq : req_of r (tl_log s3) = ReqView true [] false []) by (change (tl_log s3) with (FxCreate r st :: tl_log s2); by rewrite req_same). pose proof Hop3 as [O1 O2 O3 O4 O5 O6 O7 O8].
  destruct (mqvpn_tcp_lane_format_connect_path _ _ key) as [[path len]|].
  - apply dwp_bind. unfold mqvpn_tcp_lane_bind_h3_request. apply dwp_bind. eapply dwp_get_flow; [exact O2|]. rewrite O3. unfold t_emit, t_assert. apply dwp_bind, dwp_modify, dwp_bind. eapply dwp_set_flow; [exact O2|]. apply dwp_bind. eapply dwp_lift; [by rewrite O6|].
    pose proof (sh_ptrs _ _ (fo_shape _ _ _ O1) p f O2) as [Hb _]. pose proof (proj1 Hb O4) as Hsn. unfold flow_set_stream. apply dwp_bind. eapply dwp_get_flow; [cbn; apply lookup_insert_eq|]. change (f_stream (f <| f_h3_request := Some r |>)) with (f_stream f). rewrite Hsn. apply dwp_bind, dwp_modify. eapply dwp_set_flow; [cbn; apply lookup_insert_eq|].
    set (f4 := f <| f_h3_request := Some r |> <| f_stream := Some st |>). match goal with |- dwp _ ?x _ => set (s4 := x) end. assert (Hi4 : lane_inv P s4). { eapply (inv_bound p q s3 f r st s4 f4); [done|apply lookup_insert_eq|done|done| |done|]; [change (tl_log s3) with (FxCreate r st :: tl_log s2); cbn [fin_reported]; by rewrite Z.eqb_refl|]. subst s4. destruct s3. cbn. f_equal. by rewrite insert_insert_eq. }
    assert (Ea4 : pv_aborted (pcb_of q (tl_log s4)) = false) by (change (tl_log s4) with (FxBind q r :: tl_log s3); rewrite pcb_same by done; cbn [pcb_effect]; by rewrite O8). assert (Ero4 : rv_open (req_of r (tl_log s4)) = true) by (change (tl_log s4) with (FxBind q r :: tl_log s3); rewrite req_other by done; by rewrite Ereq). assert (Hf4 : flows s4 !! p = Some f4) by (apply lookup_insert_eq). clearbody s4.
    apply dwp_bind, dwp_t_ask. intros k5 n5. assert (Hi5 : lane_inv P (s4 <| tl_calls := n5 |>)) by (by eapply inv_stats). set (s5 := s4 <| tl_calls := n5 |>) in *. apply dwp_bind, dwp_modify. set (e := FxHeaders r (connect_headers C path) (te_headers E k5)). change (s5 <| tl_log ::= cons e |>) with (with_log s5 (e :: tl_log s5)).
    assert (Hi6 : lane_inv P (with_log s5 (e :: tl_log s5))) by (by eapply (inv_silent s5 r e)). set (s6 := with_log s5 (e :: tl_log s5)) in *. assert (Ea6 : pv_aborted (pcb_of q (tl_log s6)) = false) by (change (tl_log s6) with (e :: tl_log s4); by rewrite pcb_other). destruct ((_ <? 0) && _); [|apply dwp_ret; by split].
    eapply dwp_drop; [exact Hf4|done|done|]. apply dwp_bind. eapply (dwp_teardown P HP); [by apply inv_focus|exact Hf4|done|]. intros s' Ht. apply dwp_ret. unfold gone_status. change (f_pcb f4) with (f_pcb f). rewrite O3. split; [apply (to_inv _ _ _ _ _ _ Ht)|]. rewrite (to_log _ _ _ _ _ _ Ht), teardown_pcb, decide_True by done. done.
  - apply dwp_bind, dwp_modify. set (s4 := with_streams s3 (FxH3Close r) (h3_streams s3)). match goal with |- dwp _ ?x _ => replace x with s4 by (by destruct s3) end. eapply dwp_abort_pending; [|exact O2|done|done]. destruct O1 as [Hs3 Hl3 Ho3]. constructor.
    + eapply (shape_req s3 _ r); [done|done|done|done|done|apply (sh_inj _ _ Hs3)|done|]. rewrite req_same by done. done.
    + split; [|done]. cbn [fx_ok]. by rewrite Ereq.
    + intros x fx Hne Hx. eapply data_req; [done|done|by eapply Hno|by eapply Ho3].
Qed.

Lemma pcb_key_wf pcb : pcb_okb pcb = true -> key_wf (pcb_key pcb).
Proof.
  unfold pcb_okb, addr_okb, port_okb. intros H. repeat (apply andb_prop in H as [H ?]). bool_to_prop. unfold pcb_key, key_wf. cbn. repeat match goal with H : forallb _ _ = true |- _ => rewrite forallb_forall in H end.
  assert (Hb : forall a : ip_addr_t, (forall x, In x (ip_bytes a) -> (0 <=? x) && (x <? 256) = true) -> bytes_ok (ip_bytes a)). { intros a Ha. apply Forall_forall. intros x Hx%list_elem_of_In. specialize (Ha x Hx). apply andb_prop in Ha as [Ha1 Ha2]. apply Z.leb_le in Ha1. apply Z.ltb_lt in Ha2. unfold is_byte. lia. }
  split; [destruct (ip_is_v6 (local_ip pcb)); [by right|by left]|]. split; [by right|]. split; [lia|]. split; [lia|].
  repeat match goal with H : (_ =? _)%nat = true |- _ => apply Nat.eqb_eq in H end. assert (Hz : bytes_ok [0; 0; 0; 0; 0; 0; 0; 0; 0; 0; 0; 0]) by (repeat constructor; unfold is_byte; lia).
  destruct (ip_is_v6 (local_ip pcb)); [split; [done|]; split; [done|]; split; by apply Hb|]. rewrite !length_app. cbn [length]. split; [lia|]. split; [lia|]. split; apply Forall_app; (split; [by apply Hb|done]).
Qed.

Lemma dwp_accept C s pcb err : lane_inv P s -> tcp_args s !! pcb_ptr pcb = None -> pcb_okb pcb = true -> dwp (in_frame (pcb_ptr pcb) [] (mqvpn_tcp_lane_lwip_accept E C (Some pcb) err)) s (fun _ s' => lane_inv P s').
Proof.
  intros Hi Ha Hpcb. set (q := pcb_ptr pcb) in *. unfold in_frame, t_emit. apply dwp_bind, dwp_modify. set (s1 := with_log s (InFrame q :: tl_log s)). change (s <| tl_log ::= cons (InFrame q) |>) with s1. assert (Hi1 : lane_inv P s1) by (by apply (inv_in_frame s q)). pose proof (li_shape _ _ Hi1) as Hs1. assert (Ea1 : pv_aborted (pcb_of q (tl_log s1)) = false) by (change (tl_log s1) with (InFrame q :: tl_log s); by rewrite pcb_same). change (tcp_args s) with (tcp_args s1) in Ha. clearbody s1. clear Hi s.
  assert (Hret : forall s2 err2 b, lane_inv P s2 -> pv_aborted (pcb_of q (tl_log s2)) = b -> (err2 = ERR_ABRT <-> b = true) -> dwp (t_emit (InReturn q err2)) s2 (fun _ s' => lane_inv P s')) by (intros s2 err2 b Hi2 Hb He; unfold t_emit; apply dwp_modify; apply (inv_in_frame s2 q); [done|done|]; cbn [fx_ok]; by rewrite Hb).
  apply dwp_bind, dwp_skip, dwp_bind. unfold mqvpn_tcp_lane_lwip_accept. destruct (negb _); [apply dwp_ret; by eapply Hret|]. apply dwp_bind. eapply (dwp_find_flow P); [done|by apply pcb_key_wf|]. intros [p|] Ho; [|apply dwp_ret; by eapply Hret]. destruct Ho as (f & Hf & Hkey). apply dwp_bind. eapply dwp_get_flow; [done|]. case_bool_decide as Hst; cbn [negb]; [|apply dwp_ret; by eapply Hret].
  apply dwp_bind, dwp_get. rewrite (proj2 (Z.ltb_ge _ _)) by (rewrite (sh_tcp _ _ Hs1); apply (sh_max _ _ Hs1)). apply dwp_bind, dwp_clock. intros now n. apply dwp_bind. eapply dwp_set_flow; [exact Hf|]. set (f2 := f <| f_pcb := Some (pcb_ptr pcb) |> <| target_ip := local_ip pcb |> <| target_port := local_port pcb |> <| f_state := TCP_FLOW_PENDING_STREAM |> <| f_last_activity_us := now |> <| f_lane := true |>). unfold t_emit at 1. apply dwp_bind, dwp_modify, dwp_bind, dwp_modify. match goal with |- dwp _ ?x _ => set (s2 := x) end.
  destruct (sh_ptrs _ _ Hs1 p f Hf) as [Hb Hp]. rewrite Hst in Hp. destruct Hp as (P1 & P2 & P3). pose proof (proj1 Hb P3) as P4. pose proof (li_data _ _ Hi1 p f Hf) as Hd. unfold data_ok in Hd. rewrite P2 in Hd. specialize (Hd ltac:(by rewrite Hst)).
  assert (El2 : tl_log s2 = FxAttach q p :: tl_log s1) by done. assert (Hk : forall k, one k f2 = one k f) by (intros k; unfold one, kind_of; subst f2; cbn; by rewrite Hst). assert (Hpop : forall k, pop k (flows s2) = pop k (flows s1)) by (intros k; subst s2; cbn; rewrite (pop_insert _ _ _ f _ Hf), Hk; lia).
  assert (Hclosed : pv_open (pcb_of q (tl_log s1)) = false). { destruct (pv_open (pcb_of q (tl_log s1))) eqn:Eo; [|done]. apply (sh_open _ _ Hs1) in Eo as [x Hx]. congruence. }
  assert (Hop : opening p q s2 f2). { constructor; [|apply (lookup_insert_eq (flows s1))|done|done|done|done|exact Hd|rewrite El2; by rewrite pcb_same]. constructor.
    - eapply (shape_update P s1 s2 p f f2); [done|done|done|done|done|done|done|by split|rewrite Hk; cbn; lia|rewrite Hk; cbn; lia|rewrite Hk; cbn; lia|rewrite Hpop; apply (sh_max _ _ Hs1)|rewrite Hpop; apply (sh_max_raw _ _ Hs1)|rewrite Hpop; apply (sh_max_closing _ _ Hs1)|apply (sh_bnodup _ _ Hs1)| |done|apply (sh_inj _ _ Hs1)| | | | |].
      + intros x. change (bound s2) with (bound s1). change (f_stream f2) with (f_stream f). rewrite P4. pose proof (proj2 (in_bound P s1 p f Hs1 Hf) P4). destruct (decide (x = p)) as [->|Hne]; [|tauto]. split; [done|]. intros [[? _]|[_ ?]]; done.
      + intros st. change (f_stream f2) with (f_stream f). congruence.
      + intros x fx r _ _ _. rewrite El2, req_other by done. done.
      + intros q0 x. change (tcp_args s2) with (<[q := p]> (tcp_args s1)). change (f_pcb f2) with (Some q). rewrite lookup_insert_Some. split.
        * intros [[-> ->]|[Hne Hx]]; [by right|]. left. split; [|done]. intros ->. apply (sh_args _ _ Hs1) in Hx as (f3 & ? & ?). simplify_eq.
        * intros [[Hne Hx]|[-> [= ->]]]; [|by left]. right. split; [congruence|done].
      + intros q0. rewrite El2. change (tcp_args s2) with (<[q := p]> (tcp_args s1)). destruct (decide (q0 = q)) as [->|Hne]; [rewrite pcb_same, lookup_insert_eq by done; split; [by eexists|done]|]. rewrite pcb_other by (cbn; congruence). rewrite lookup_insert_ne by done. apply (sh_open _ _ Hs1).
      + intros r. rewrite El2, req_other by done. apply (sh_ropen _ _ Hs1).
    - rewrite El2. split; [done|apply (li_log _ _ Hi1)].
    - intros x fx Hne. change (flows s2) with (<[p := f2]> (flows s1)). rewrite lookup_insert_ne by done. intros Hx. rewrite El2. apply data_frame; [|by left|by apply (li_data _ _ Hi1 x)]. right. cbn. intros E0. assert (Hx' : tcp_args s1 !! q = Some x) by (apply (sh_args _ _ Hs1); by exists fx). congruence. }
  apply dwp_bind. eapply dwp_mono; [exact (dwp_open_stream C p q s2 f2 _ Hop)|]. intros ret s3 [Hi3 Ha3]. apply dwp_ret. eapply Hret; [done|exact Ha3|]. by destruct (ret =? 0).
Qed.

(** ** Reads of a request *)

Lemma dwp_read s st hdrs (body : bool) : lane_inv P s -> dwp (_ ← cb_request_read E P st hdrs body; d_skip) s (fun _ s' => lane_inv P s').
Proof.
  intros Hi. unfold cb_request_read. apply dwp_bind, dwp_bind. eapply (dwp_mono _ _ (fun _ s' => lane_inv P s')).
  - destruct hdrs as [[h|]|]; [|by apply dwp_skip..]. unfold cli_connect_tcp_on_headers. destruct (_ && _); [by apply dwp_established|by apply dwp_rejected].
  - intros [] s1 Hi1. apply dwp_bind. destruct body; [|apply dwp_skip, dwp_ret, dwp_skip; done]. unfold mqvpn_tcp_lane_downlink_pump. apply dwp_bind, dwp_bind. eapply dwp_mono; [by apply dwp_pump|]. intros st' s2 Hp. apply dwp_ret, dwp_skip, dwp_ret, dwp_skip. destruct Hp as [(-> & _)|(p & f & q & _ & _ & _ & (Hi2 & _))]; done.
Qed.

End ops.
