(* ===== verification/TcpTick.v ===== *)
(** * The sweep and the end of the TCP lane

    A tick walks every bucket and comes to an end; it starts again at the head
    of a bucket only for a flow that is no longer paused.  The end of the lane
    aborts every pcb that it holds. *)

From S2P Require Import Prelude StateOpt CString Wire ReorderTx Hybrid HybridProofs PathFsm Client TcpLane TcpEvent TcpTable Chains TcpClose TcpSyn TcpUplink TcpDownlink TcpOps.

(** ** Lists *)

Lemma filter_le {A} (g h : A -> bool) (l : list A) : (forall x, g x = true -> h x = true) -> (length (List.filter g l) <= length (List.filter h l))%nat.
Proof. intros Hgh. induction l as [|x l IH]; [done|]. cbn. destruct (g x) eqn:Eg; [rewrite (Hgh x Eg); cbn; lia|]. destruct (h x); cbn; lia. Qed.

Lemma filter_lt {A} (g h : A -> bool) (l : list A) p : (forall x, g x = true -> h x = true) -> p ∈ l -> h p = true -> g p = false -> (length (List.filter g l) < length (List.filter h l))%nat.
Proof.
  intros Hgh Hp Hhp Hgp. induction l as [|x l IH]; [by apply elem_of_nil in Hp|]. cbn. apply elem_of_cons in Hp as [<-|Hp].
  - rewrite Hgp, Hhp. cbn. pose proof (filter_le g h l Hgh). lia.
  - specialize (IH Hp). destruct (g x) eqn:Eg; [rewrite (Hgh x Eg); cbn; lia|]. destruct (h x); cbn; lia.
Qed.

Lemma filter_sublist {A} (g : A -> bool) (l l' : list A) : l' `sublist_of` l -> (length (List.filter g l') <= length (List.filter g l))%nat.
Proof. induction 1 as [|x l1 l2 _ IH|x l1 l2 _ IH]; cbn; [lia|destruct (g x); cbn; lia|destruct (g x); cbn; lia]. Qed.

Lemma split_at (k r pre rest : list Z) p : p ∉ k -> p ∉ pre -> k ++ p :: r = pre ++ p :: rest -> k = pre /\ r = rest.
Proof.
  revert pre. induction k as [|x k IH]; intros [|y pre] Hk Hp E0; cbn in E0; simplify_eq; [done| | |].
  - by destruct Hp; left.
  - by destruct Hk; left.
  - rewrite not_elem_of_cons in Hk, Hp. destruct (IH pre) as [-> ->]; tauto.
Qed.

Lemma next_in_split pre p rest : p ∉ pre -> next_in (pre ++ p :: rest) p = head rest.
Proof. induction pre as [|x pre IH]; intros Hp; cbn; [by rewrite Z.eqb_refl|]. rewrite not_elem_of_cons in Hp. rewrite (proj2 (Z.eqb_neq x p)) by (intros ->; tauto). apply IH. tauto. Qed.

Section tick.
Context (E : tcp_env) (P : lane_profile) (HE : tcp_env_ok E) (HP : profile_ok P).
Implicit Types (s : mqvpn_tcp_lane_t) (f : mqvpn_tcp_flow_t).

(** ** One flow *)

(** Flows that a walk may start again for. *)
Definition stalled s (x : Z) : bool := match flows s !! x with Some f => downlink_paused f && negb (bool_decide (f_state f = TCP_FLOW_CLOSING)) | None => false end.
Definition stalls s (ch : list Z) : nat := length (List.filter (stalled s) ch).

(** After a visit the walk goes on behind the flow, or starts again with fewer
    flows that are stalled. *)
Definition visited (b : nat) (pre : list Z) (p : Z) (rest : list Z) s (restart : bool) s' : Prop :=
  lane_inv P s' /\ length (buckets s') = length (buckets s) /\
  if restart then exists ch, buckets s' !! b = Some ch /\ (length ch <= length (pre ++ p :: rest))%nat /\ (stalls s' ch < stalls s (pre ++ p :: rest))%nat
  else exists pre', buckets s' !! b = Some (pre' ++ rest) /\ (length (pre' ++ rest) <= length (pre ++ p :: rest))%nat /\ (stalls s' (pre' ++ rest) <= stalls s (pre ++ p :: rest))%nat.

Lemma visited_same b pre p rest s : lane_inv P s -> buckets s !! b = Some (pre ++ p :: rest) -> visited b pre p rest s false s.
Proof. intros Hi Hb. split; [done|]. split; [done|]. exists (pre ++ [p]). rewrite <- app_assoc. done. Qed.

Lemma visited_torn b pre p rest s s' f c : lane_inv P s -> buckets s !! b = Some (pre ++ p :: rest) -> p ∉ pre -> flows s !! p = Some f -> torn P c p f s s' -> visited b pre p rest s false s'.
Proof.
  intros Hi Hb Hp Hf Ht. split; [apply (to_inv _ _ _ _ _ _ Ht)|]. destruct (to_chain _ _ _ _ _ _ Ht) as (k & r & Hch & Hk & Eb). assert (Hbk : lane_bucket s (f_key f) = b). { eapply (sh_bucket _ _ (li_shape _ _ Hi)); [done| |done]. apply elem_of_app. right. by left. } rewrite Hbk in *. rewrite Hb in Hch. apply Some_inj in Hch. destruct (split_at k r pre rest p Hk Hp (eq_sym Hch)) as [-> ->].
  split; [rewrite Eb; apply length_insert|]. exists pre. split; [rewrite Eb; apply list_lookup_insert_eq; by eapply lookup_lt_Some|]. rewrite !length_app. cbn [length]. split; [lia|]. unfold stalls. etransitivity; [apply (filter_sublist _ (pre ++ p :: rest)); apply sublist_app; [done|by apply sublist_cons]|]. apply filter_le. intros x. unfold stalled. rewrite (to_flows _ _ _ _ _ _ Ht). destruct (decide (x = p)) as [->|Hne]; [by rewrite lookup_delete_eq|by rewrite lookup_delete_ne].
Qed.

(** A paused flow is tried again. *)
Lemma visited_relay b pre p rest s s' f q st : lane_inv P s -> buckets s !! b = Some (pre ++ p :: rest) -> flows s !! p = Some f -> stalled s p = true -> relay_post P p q f s st s' -> visited b pre p rest s (negb (bool_decide (st = TCP_LANE_FLOW_LIVE))) s'.
Proof.
  intros Hi Hb Hf Hst (Hi' & [Hth Heq] & _ & Hres). destruct Hth as (T1 & T2 & T3 & _). split; [done|]. split; [done|].
  assert (Himp : forall x, x <> p -> stalled s' x = true -> stalled s x = true). { intros x Hne. unfold stalled. destruct (flows s' !! x) as [fx|] eqn:Ex; [|done]. by rewrite (T1 x fx Hne Ex). }
  assert (Himp' : forall x, stalled s' x = true -> stalled s x = true) by (intros x Hx; destruct (decide (x = p)) as [->|Hne]; [done|by apply Himp]). case_bool_decide as Hlive; cbn [negb].
  - specialize (Heq ltac:(done)). exists (pre ++ [p]). rewrite <- app_assoc, Heq. split; [done|]. split; [done|]. by apply filter_le.
  - destruct (lookup_lt_is_Some_2 (buckets s') b) as [ch Hch]; [rewrite T2; by eapply lookup_lt_Some|]. exists ch. destruct (T3 b ch Hch) as (ch0 & Hch0 & Hsub). rewrite Hb in Hch0. apply Some_inj in Hch0. subst ch0. split; [done|]. split; [by apply sublist_length|]. unfold stalls. eapply Nat.le_lt_trans; [by apply (filter_sublist _ (pre ++ p :: rest))|]. apply (filter_lt _ _ _ p); [done|apply elem_of_app; right; by left|done|].
    assert (Hcl : forall f', flows s' !! p = Some f' -> f_state f' = TCP_FLOW_CLOSING) by (by destruct st). unfold stalled. destruct (flows s' !! p) as [f'|] eqn:Ef; [|done]. rewrite (Hcl f' eq_refl), bool_decide_true by done. by rewrite andb_false_r.
Qed.

Lemma dwp_tick_flow b pre p rest s f now : lane_inv P s -> buckets s !! b = Some (pre ++ p :: rest) -> p ∉ pre -> flows s !! p = Some f -> dwp (tick_flow E P p now) s (visited b pre p rest s).
Proof.
  intros Hi Hb Hp Hf. pose proof (li_shape _ _ Hi) as Hs. destruct (sh_ptrs _ _ Hs p f Hf) as [_ Hptr]. unfold tick_flow. apply dwp_bind. eapply dwp_get_flow; [done|]. apply dwp_bind, dwp_get. pose proof (visited_same b pre p rest s Hi Hb) as Hsame. case_bool_decide as Hcl.
  - rewrite Hcl in Hptr. destruct Hptr as (_ & Hq & Hr). apply dwp_bind. destruct (older_than _ _ _); [|apply dwp_skip, dwp_ret; done]. eapply (dwp_remove_idle P HP s p f); [by apply inv_focus|done|done|done|]. intros s' Ht. apply dwp_ret. by eapply visited_torn.
  - destruct (_ && _ && _) eqn:Eidle.
    + apply andb_prop in Eidle as [Eidle _]. apply andb_prop in Eidle as [_ Eraw]. apply negb_true_iff, bool_decide_eq_false in Eraw. assert (Hlane : f_lane f = true) by (destruct (f_state f); destruct Hptr as (? & ? & ?) || destruct Hptr as (? & ?); done). unfold bump_stat. apply dwp_bind, dwp_modify, dwp_bind. match goal with |- dwp _ ?x _ => set (s1 := x) end. assert (Hi1 : lane_inv P s1) by (by eapply inv_stats). eapply (dwp_teardown P HP s1 p f); [by apply inv_focus|done|done|]. intros s' Ht. apply dwp_ret.
      destruct (visited_torn b pre p rest s1 s' f true Hi1 Hb Hp Hf Ht) as (V1 & V2 & V3). done.
    + clear Eidle. destruct (downlink_paused f) eqn:Epa; [|by apply dwp_ret]. assert (Hqr : exists q r, f_pcb f = Some q /\ f_h3_request f = Some r). { pose proof (li_data _ _ Hi p f Hf) as Hd. unfold data_ok in Hd. destruct (f_pcb f) as [q|]; [destruct (f_h3_request f) as [r|]; [by exists q, r|done]|]. destruct (Hd Hcl) as (_ & _ & _ & _ & Hx & _). congruence. } destruct Hqr as (q & r & Hq & Hr).
      assert (Hst : stalled s p = true) by (unfold stalled; rewrite Hf, Epa, bool_decide_false by done; done). apply dwp_bind. eapply dwp_mono; [by apply (dwp_stash_retry E P HP p q r s f)|]. intros st s1 Hp1. apply dwp_bind. assert (Hend : forall st2 s2, relay_post P p q f s st2 s2 -> dwp (mret (negb (bool_decide (st2 = TCP_LANE_FLOW_LIVE))) : T bool) s2 (visited b pre p rest s)) by (intros st2 s2 Hp2; apply dwp_ret; by eapply visited_relay).
      case_bool_decide as Hlive; [|apply dwp_ret, Hend; done]. subst st. pose proof Hp1 as (Hi1 & _ & _ & f1 & Hf1 & Hid1). destruct (ids_ptrs q r f f1 Hid1 Hq Hr) as [Hq1 Hr1]. apply dwp_bind. eapply dwp_get_flow; [done|]. destruct (negb (downlink_paused f1) && _ && _ && _) eqn:Eg; [|apply dwp_ret, Hend; done]. rewrite <- !andb_assoc in Eg. apply andb_prop in Eg as [Eg _]. apply negb_true_iff in Eg.
      eapply dwp_mono; [by apply (dwp_drain E P HE HP p q r s1 f1)|]. intros st2 s2 Hp2. apply Hend. by eapply relay_trans.
Qed.

(** ** The walk *)

Lemma bucket_nodup s b ch : shape P s -> buckets s !! b = Some ch -> NoDup ch.
Proof. intros Hs Hb. pose proof (sh_nodup _ _ Hs) as Hn. rewrite <- (take_drop_middle _ _ _ Hb), concat_app in Hn. apply NoDup_app in Hn as (_ & _ & Hn). cbn in Hn. by apply NoDup_app in Hn as (Hn & _ & _). Qed.

Lemma bucket_flow s b ch x : shape P s -> buckets s !! b = Some ch -> x ∈ ch -> is_Some (flows s !! x).
Proof. intros Hs Hb Hx. apply (sh_dom _ _ Hs), elem_of_concat_lookup. by exists b, ch. Qed.

(** Enough fuel: what is left of the chain, and the chain again for each flow
    that is stalled. *)
Lemma dwp_tick_chain n b now fuel s pre rest : lane_inv P s -> buckets s !! b = Some (pre ++ rest) -> (length (pre ++ rest) <= n)%nat -> (length rest + stalls s (pre ++ rest) * n <= fuel)%nat ->
  dwp (tick_chain E P fuel b (head rest) now) s (fun _ s' => lane_inv P s' /\ length (buckets s') = length (buckets s)).
Proof.
  revert s pre rest. induction fuel as [|fuel IH]; intros s pre [|p rest] Hi Hb Hn Hfuel; cbn [head tick_chain]; [by apply dwp_skip|cbn in Hfuel; lia|by apply dwp_skip|]. pose proof (li_shape _ _ Hi) as Hs. pose proof (bucket_nodup s b _ Hs Hb) as Hnd. assert (Hp : p ∉ pre) by (apply NoDup_app in Hnd as (_ & Hd & _); intros Hx; apply (Hd p Hx); by left).
  destruct (bucket_flow s b _ p Hs Hb) as [f Hf]; [apply elem_of_app; right; by left|]. apply dwp_bind, dwp_get, dwp_bind. eapply dwp_lift; [exact Hb|]. rewrite next_in_split by done. apply dwp_bind. eapply dwp_mono; [by apply (dwp_tick_flow b pre p rest s f now)|]. intros restart s' (Hi' & Hlen & Hv). apply dwp_bind, dwp_get, dwp_bind. cbn [length] in Hfuel. destruct restart.
  - destruct Hv as (ch & Hch & Hl & Hst). eapply dwp_lift; [exact Hch|]. pose proof (Nat.mul_le_mono_r (S (stalls s' ch)) _ n Hst) as Hm. cbn [Nat.mul] in Hm. eapply dwp_mono; [apply (IH s' [] ch); [done|done|cbn [app]; lia|cbn [app]; lia]|]. intros [] s2 [Hi2 Hl2]. split; [done|]. by rewrite Hl2.
  - destruct Hv as (pre' & Hch & Hl & Hst). eapply dwp_lift; [exact Hch|]. eapply dwp_mono; [apply (IH s' pre' rest); [done|done|lia|pose proof (Nat.mul_le_mono_r _ _ n Hst); lia]|]. intros [] s2 [Hi2 Hl2]. split; [done|]. by rewrite Hl2.
Qed.

Lemma dwp_tick_buckets n b now s : lane_inv P s -> (b + n = length (buckets s))%nat -> dwp (tick_buckets E P n b now) s (fun _ s' => lane_inv P s').
Proof.
  revert b s. induction n as [|n IH]; intros b s Hi Hb; cbn [tick_buckets]; [by apply dwp_skip|]. destruct (lookup_lt_is_Some_2 (buckets s) b) as [ch Hch]; [lia|]. apply dwp_bind, dwp_get, dwp_bind. eapply dwp_lift; [exact Hch|]. apply dwp_bind. eapply dwp_mono; [apply (dwp_tick_chain (length ch) b now _ s [] ch); [done|done|done|]|].
  - cbn [app]. assert (stalls s ch <= length ch)%nat by (unfold stalls; clear; induction ch as [|x ch IH]; cbn; [lia|destruct (stalled s x); cbn; lia]). nia.
  - intros [] s' [Hi' Hl']. apply IH; [done|lia].
Qed.

Lemma dwp_tick s now : lane_inv P s -> dwp (mqvpn_tcp_lane_tick E P now) s (fun _ s' => lane_inv P s').
Proof.
  intros Hi. unfold mqvpn_tcp_lane_tick. apply dwp_bind, dwp_get. destruct (_ && _); [by apply dwp_skip|]. destruct (_ <? _); [by apply dwp_skip|]. apply dwp_bind, dwp_modify. apply dwp_tick_buckets; [by eapply inv_stats|done].
Qed.

(** ** The end *)

(** The flows of a list are all that is left. *)
Record leaving s (l : list Z) : Prop := {
  lv_nodup : NoDup l;
  lv_dom : forall x, x ∈ l <-> is_Some (flows s !! x);
  lv_log : log_ok (tl_log s);
  lv_open : forall q, pv_open (pcb_of q (tl_log s)) = true <-> exists x f, flows s !! x = Some f /\ f_pcb f = Some q;
  lv_uniq : forall x y fx fy q, flows s !! x = Some fx -> flows s !! y = Some fy -> f_pcb fx = Some q -> f_pcb fy = Some q -> x = y
}.

Lemma leaving_start s : lane_inv P s -> leaving s (concat (buckets s)).
Proof.
  intros [Hs Hl _]. constructor; [apply (sh_nodup _ _ Hs)|apply (sh_dom _ _ Hs)|done| |].
  - intros q. rewrite (sh_open _ _ Hs). split; [intros [x Hx]; exists x; by apply (sh_args _ _ Hs)|]. intros (x & f & Hf & Hq). exists x. apply (sh_args _ _ Hs). by exists f.
  - intros x y fx fy q Hx Hy Hqx Hqy. assert (tcp_args s !! q = Some x) by (apply (sh_args _ _ Hs); by exists fx). assert (tcp_args s !! q = Some y) by (apply (sh_args _ _ Hs); by exists fy). congruence.
Qed.

Lemma leaving_next s s' p f l : leaving s (p :: l) -> flows s !! p = Some f -> flows s' = delete p (flows s) -> tl_log s' = match f_pcb f with Some q => FxAbort q :: FxDetach q :: tl_log s | None => tl_log s end -> leaving s' l.
Proof.
  intros [L1 L2 L3 L4 L5] Hf Ef El. apply NoDup_cons in L1 as [Hnin Hnd]. assert (Hback : forall x fx, flows s' !! x = Some fx -> x <> p /\ flows s !! x = Some fx) by (intros x fx; rewrite Ef; intros [? ?]%lookup_delete_Some; done). constructor; [done| | | |].
  - intros x. rewrite Ef. destruct (decide (x = p)) as [->|Hne]; [rewrite lookup_delete_eq; split; [done|by intros [? ?]]|]. rewrite lookup_delete_ne by done. rewrite <- L2, elem_of_cons. tauto.
  - rewrite El. destruct (f_pcb f) as [q|] eqn:Eq; [|done]. assert (Hq : pv_open (pcb_of q (tl_log s)) = true) by (apply L4; by exists p, f). cbn [log_ok fx_ok]. rewrite pcb_same by done. done.
  - intros q. rewrite El. split.
    + intros Ho. assert (Hno : pv_open (pcb_of q (tl_log s)) = true /\ f_pcb f <> Some q). { destruct (f_pcb f) as [q0|]; [|done]. destruct (decide (q = q0)) as [->|Hne]; [rewrite pcb_same in Ho by done; done|]. rewrite !pcb_other in Ho by (cbn; congruence). split; [done|congruence]. } destruct Hno as [Hq Hne]. apply L4 in Hq as (x & fx & Hx & Hqx). exists x, fx. rewrite Ef, lookup_delete_ne; [done|]. intros <-. congruence.
    + intros (x & fx & Hx & Hqx). destruct (Hback x fx Hx) as [Hne Hx']. assert (Hq : pv_open (pcb_of q (tl_log s)) = true) by (apply L4; by exists x, fx). destruct (f_pcb f) as [q0|] eqn:Eq; [|done]. assert (q <> q0) by (intros ->; apply Hne; by eapply L5). by rewrite !pcb_other by (cbn; congruence).
  - intros x y fx fy q Hx Hy. destruct (Hback x fx Hx), (Hback y fy Hy). by eapply L5.
Qed.

Lemma dwp_free s : lane_inv P s -> dwp mqvpn_tcp_lane_free s (fun _ s' => leaving s' [] /\ buckets s' = []).
Proof.
  intros Hi. unfold mqvpn_tcp_lane_free. apply dwp_bind, dwp_get, dwp_bind. pose proof (leaving_start s Hi) as Hl. remember (concat (buckets s)) as l eqn:El. clear El Hi. eapply (dwp_mono _ _ (fun _ s' => leaving s' [])).
  - revert s Hl. induction l as [|p l IH]; intros s Hl; cbn [free_flows]; [by apply dwp_skip|]. destruct (proj1 (lv_dom _ _ Hl p) ltac:(by left)) as [f Hf]. apply dwp_bind. unfold tcp_lane_silent_abort_pcb. apply dwp_bind. eapply dwp_get_flow; [done|].
    assert (Hrest : forall s1 f1, flows s1 = <[p := f1]> (flows s) -> tl_log s1 = match f_pcb f with Some q => FxAbort q :: FxDetach q :: tl_log s | None => tl_log s end -> dwp (tcp_lane_uplink_queue_free p ;; tcp_lane_downlink_stash_free p ;; d_modify (fun s => s <| flows ::= delete p |>) ;; free_flows l) s1 (fun _ s' => leaving s' [])).
    { intros s1 f1 E1 E2. unfold tcp_lane_uplink_queue_free, tcp_lane_downlink_stash_free. apply dwp_bind. eapply dwp_set_flow; [rewrite E1; apply lookup_insert_eq|]. apply dwp_bind. eapply dwp_set_flow; [cbn; apply lookup_insert_eq|]. apply dwp_bind, dwp_modify. apply IH. eapply (leaving_next s _ p f); [done|done| |done]. cbn. by rewrite E1, !delete_insert_eq. }
    destruct (f_pcb f) as [q|] eqn:Eq.
    + unfold detach_pcb, t_emit. apply dwp_bind, dwp_bind, dwp_modify, dwp_modify, dwp_bind, dwp_modify, dwp_bind. eapply dwp_set_flow; [exact Hf|]. apply dwp_ret. by eapply Hrest.
    + apply dwp_ret. apply (Hrest s f); [by rewrite insert_id|done].
  - intros [] s1 Hl1. apply dwp_modify. split; [|done]. destruct Hl1. by constructor.
Qed.

End tick.
