(* ===== verification/TcpTrace.v ===== *)
(** * Lifetimes of the TCP lane

    What holds after any sequence of packets, callbacks of lwIP and of xquic and
    ticks on a new lane: nothing faults, every byte is relayed once and in
    order, the windows and queues are bounded, the table is right, and lwIP and
    xquic are called as they ask to be. *)

From Stdlib Require Import String.
From S2P Require Import Prelude StateOpt CString Wire ReorderTx TxProofs Hybrid HybridProofs HybridLane PathFsm Client TcpLane TcpEvent TcpTable Chains TcpClose TcpSyn TcpUplink TcpDownlink TcpOps TcpTick.

(** The client's settings and the bytes of a packet are in range. *)
Definition ev_ok (ev : tcp_event) : Prop := match ev with EvPacket c pkt => client_lane_ok c /\ bytes_ok pkt | _ => True end.

(** ** A sample lifetime *)

(** xquic takes two bytes at a time; a body gives two bytes and then nothing
    for now; the objects have fixed addresses. *)
Definition demo_tcp_env : tcp_env :=
  let fresh p (live : gset Z) := if bool_decide (p ∈ live) then None else Some p in
  TcpEnv (Some (fun n => 1000000 * Z.of_nat n)) (fun _ => true) (fun _ => fresh 100) (fun _ => fresh 1) (fun _ => fresh 200) (fun _ => true) (fun _ => 0)
    (fun _ len => Z.min len 2) (fun _ => 0) (fun _ => true)
    (fun fin n len => if fin && (0 <=? len) then (0, [], true) else if negb fin && Nat.even n && (2 <=? len) then (2, [72; 105], false) else (-11, [], false)) 2
    (fun _ => 65535) (fun _ => ERR_OK) (fun _ => ERR_OK) (fun b want off => take (Z.to_nat want) (drop (Z.to_nat off) (concat b))) (fun _ => None) 11.

Lemma demo_tcp_env_ok : tcp_env_ok demo_tcp_env.
Proof.
  assert (Hf : forall p x (live : gset Z), (if bool_decide (p ∈ live) then None else Some p) = Some x -> x ∉ live) by (intros p x live; case_bool_decide; [done|by intros [= <-]]). constructor; cbn.
  - intros _ live p. apply Hf.
  - intros _ live p. apply Hf.
  - intros _ live p. apply Hf.
  - intros _ len. lia.
  - intros [] n len k buf fin; cbn [andb negb]; [destruct (Z.leb_spec 0 len); intros [= <- <- <-] ?; unfold blen; cbn; lia|]. destruct (Nat.even n); cbn [andb]; [destruct (Z.leb_spec 2 len); intros [= <- <- <-] ?; unfold blen; cbn; lia|intros [= <- <- <-]; lia].
  - intros n len k buf fin. destruct (0 <=? len); intros [= <- _ _]; lia.
  - intros [] n len; [exists 0%nat; split; [lia|by destruct (0 <=? len)]|]. cbn [andb negb]. destruct (Nat.even n) eqn:En; [exists 1%nat|exists 0%nat; rewrite Nat.add_0_r, En; split; [lia|done]]. rewrite Nat.add_1_r, Nat.even_succ, <- Nat.negb_even, En. split; [lia|done].
  - done.
  - lia.
Qed.

Lemma profile_default_ok : profile_ok profile_default.
Proof. constructor; vm_compute; repeat split; congruence. Qed.

Definition demo_tcp_config : mqvpn_hybrid_config_t := lane_config <| tcp_mode := MQVPN_HYBRID_TCP_STREAM |>.
Definition demo_tcp_client : mqvpn_client_t := client_init_handle (ClientConfig true MQVPN_SCHED_MINRTT true 5 false 0 MQVPN_REORDER_ON true demo_tcp_config).
Definition demo_lane_client : lane_client := LaneClient (text "vpn.example"%string) 443 (text "key"%string).

(** A SYN from 10.0.0.2, port 4660, to 8.8.8.8, port 443. *)
Definition demo_syn : list Z := [69; 0; 0; 40; 0; 0; 0; 0; 64; 6; 0; 0; 10; 0; 0; 2; 8; 8; 8; 8; 18; 52; 1; 187; 0; 0; 0; 7; 0; 0; 0; 0; 80; 2; 0; 0; 0; 0; 0; 0].
Definition demo_pcb : tcp_pcb := TcpPcb 500 (IpAddr false [10; 0; 0; 2]) (IpAddr false [8; 8; 8; 8]) 4660 443.

(** The SYN, the accept, the answer 200, five bytes of data, a part of the
    body, and a tick. *)
Definition demo_events : list tcp_event :=
  [EvPacket demo_tcp_client demo_syn; EvAccept (Some demo_pcb) ERR_OK; EvRead 1 (Some (Some [(text ":status"%string, text "200"%string)])) false;
   EvRecv 500 (Some [[1; 2; 3]; [4; 5]]); EvRead 1 None true; EvTick 5000000].

Lemma demo_events_ok : Forall ev_ok demo_events.
Proof.
  assert (Hb : bytes_ok demo_syn) by (apply Forall_forall; intros x Hx%list_elem_of_In; assert (Hall : forallb (fun x => (0 <=? x) && (x <? 256)) demo_syn = true) by done; rewrite forallb_forall in Hall; specialize (Hall x Hx); apply andb_prop in Hall as [H1%Z.leb_le H2%Z.ltb_lt]; unfold is_byte; lia).
  apply Forall_cons_2; [split; [split; [split; [split; [repeat constructor; unfold is_byte; lia|done]|done]|exact unset_cidr_ok]|exact Hb]|]. do 5 (apply Forall_cons_2; [exact I|]). apply Forall_nil_2.
Qed.

Definition demo_tcp_lane : mqvpn_tcp_lane_t := default (TcpLane lane_config 0 [] 0 0 0 0 (LaneStats 0 0 0 0 0 0) [] ∅ ∅ ∅ 0 0 []) (mqvpn_tcp_lane_new profile_default true true (Some demo_tcp_config) 99).

Section trace.
Context (E : tcp_env) (C : lane_client) (P : lane_profile) (HE : tcp_env_ok E) (HP : profile_ok P).
Implicit Types (s : mqvpn_tcp_lane_t) (f : mqvpn_tcp_flow_t).

(** ** Runs *)

Lemma lane_new_inv cfg seed s : 0 <= tcp_max_flows cfg -> mqvpn_tcp_lane_new P true true (Some cfg) seed = Some s -> lane_inv P s.
Proof.
  intros Hm. unfold mqvpn_tcp_lane_new. cbn [negb]. set (cfg' := if _ <? _ then _ else cfg). intros <-%Some_inj. destruct HP. assert (Hc : 0 <= tcp_max_flows cfg' <= MEMP_NUM_TCP_PCB P / 2) by (subst cfg'; pose proof (Z.div_pos (MEMP_NUM_TCP_PCB P) 2); destruct (Z.ltb_spec (MEMP_NUM_TCP_PCB P / 2) (tcp_max_flows cfg)); cbn; lia).
  destruct (pick_loop_pow2 17 4 (u32 (tcp_max_flows cfg' + TCP_LANE_RAW_MARKER_CAP P))) as (k & Hk & Ek); [lia|]. unfold pick_buckets. change 16 with (2 ^ 4). rewrite Ek. pose proof (Z.pow_le_mono_r 2 k 20 ltac:(lia) ltac:(lia)). pose proof (Z.pow_pos_nonneg 2 k ltac:(lia) ltac:(lia)). assert (Hpop : forall k, pop k ∅ = 0) by (intros k0; unfold pop; by rewrite map_filter_empty, map_size_empty).
  constructor; [|done|by intros]. constructor; cbn; rewrite ?concat_replicate_nil, ?Hpop, ?length_replicate; try done; try lia.
  - constructor.
  - intros p. split; [by intros ?%elem_of_nil|by intros [? ?]].
  - constructor.
  - intros p. split; [by intros ?%elem_of_nil|by intros (? & ? & _)].
  - intros q p. split; [done|by intros (? & ? & _)].
  - intros q. split; [done|by intros [? ?]].
Qed.

Lemma dwp_step s ev : lane_inv P s -> ev_ok ev -> dwp (tcp_step E C P ev) s (fun _ s' => lane_inv P s').
Proof.
  intros Hi Hev. destruct ev as [c pkt|[pcb|] err|q b|q|q|st hdrs body|st|st|st|now]; cbn [tcp_step].
  - destruct Hev as [Hc Hb]. apply dwp_bind. eapply dwp_mono; [by apply (dwp_packet E P HE HP)|]. intros v s' (Hi' & _). by apply dwp_skip.
  - apply dwp_bind, dwp_get. destruct (_ && _) eqn:Eg; [|by apply dwp_skip]. apply andb_prop in Eg as [Ha%bool_decide_eq_true Hp]. by apply (dwp_accept E P HE HP).
  - apply dwp_bind, dwp_ret, dwp_skip. done.
  - apply dwp_bind, dwp_get. destruct (lwip_delivers P s q b) eqn:Ed; [|by apply dwp_skip]. unfold with_arg. apply dwp_bind, dwp_get. destruct (tcp_args s !! q) as [p|] eqn:Ea; [|by apply dwp_skip]. destruct b as [b|]; [by apply (dwp_recv_data E P HE HP)|by apply (dwp_recv_fin E P HE HP)].
  - unfold with_arg. apply dwp_bind, dwp_get. destruct (tcp_args s !! q) as [p|] eqn:Ea; [|by apply dwp_skip]. by apply (dwp_sent E P HE HP).
  - unfold with_arg. apply dwp_bind, dwp_get. destruct (tcp_args s !! q) as [p|] eqn:Ea; [|by apply dwp_skip]. by apply (dwp_err P HP).
  - unfold live_stream. apply dwp_bind, dwp_get. destruct (h3_streams s !! st); [|by apply dwp_skip]. by apply (dwp_read E P HE HP).
  - unfold live_stream. apply dwp_bind, dwp_get. destruct (h3_streams s !! st); [|by apply dwp_skip]. by apply (dwp_writable E P HE HP).
  - unfold live_stream. apply dwp_bind, dwp_get. destruct (h3_streams s !! st); [|by apply dwp_skip]. eapply dwp_mono; [by apply (dwp_closing P HP)|]. by intros [] s' (? & _).
  - apply dwp_bind, dwp_get. destruct (h3_streams s !! st) as [r|] eqn:Er; [|by apply dwp_skip]. by apply (dwp_request_close P HP).
  - by apply (dwp_tick E P HE HP).
Qed.

Lemma dwp_tcp_run s evs : lane_inv P s -> Forall ev_ok evs -> dwp (tcp_run E C P evs) s (fun _ s' => lane_inv P s').
Proof.
  intros Hi Hev. revert s Hi. induction Hev as [|ev evs Hev _ IH]; intros s Hi; cbn [tcp_run]; [by apply dwp_skip|]. apply dwp_bind. eapply dwp_mono; [by apply dwp_step|]. intros [] s' Hi'. by apply IH.
Qed.

Lemma tcp_run_inv cfg seed evs s0 : 0 <= tcp_max_flows cfg -> mqvpn_tcp_lane_new P true true (Some cfg) seed = Some s0 -> Forall ev_ok evs -> exists s, tcp_run E C P evs s0 = Some (tt, s) /\ lane_inv P s.
Proof. intros Hm Hn Hev. destruct (dwp_tcp_run s0 evs (lane_new_inv cfg seed s0 Hm Hn) Hev) as ([] & s & Hrun & Hi). by exists s. Qed.

Lemma log_entry l newer e older : log_ok l -> l = newer ++ e :: older -> fx_ok older e.
Proof. intros Hl ->. induction newer as [|x newer IH]; cbn in Hl; [apply Hl|]. apply IH, Hl. Qed.

(** ** The lifetime of a lane *)

(** C11: every byte is relayed once and in order.  On a new lane, whatever packets,
    callbacks, answers of lwIP and xquic and ticks come, nothing faults, and in
    the state they lead to every flow with a pcb has its request, and: the bytes
    lwIP delivered are those xquic took followed by those of the queue; the bytes
    read from the body are those written to the pcb followed by those of the
    stash; the FIN went to xquic only when lwIP gave it and all bytes were taken,
    and to lwIP only when the body ended and all of it was written. *)
Theorem tcp_relay_exact cfg seed evs s0 : 0 <= tcp_max_flows cfg -> mqvpn_tcp_lane_new P true true (Some cfg) seed = Some s0 -> Forall ev_ok evs ->
  exists s, tcp_run E C P evs s0 = Some (tt, s) /\ forall p f q, flows s !! p = Some f -> f_pcb f = Some q ->
    exists r, f_h3_request f = Some r /\ pv_req (pcb_of q (tl_log s)) = Some r /\
      pv_in (pcb_of q (tl_log s)) = rv_sent (req_of r (tl_log s)) ++ queue_bytes (uplink_q f) /\
      rv_body (req_of r (tl_log s)) = pv_out (pcb_of q (tl_log s)) ++ stashed f /\
      (rv_fin_sent (req_of r (tl_log s)) = true -> pv_fin_in (pcb_of q (tl_log s)) = true /\ rv_sent (req_of r (tl_log s)) = pv_in (pcb_of q (tl_log s))) /\
      (pv_fin_out (pcb_of q (tl_log s)) = true -> fin_reported r (tl_log s) = true /\ pv_out (pcb_of q (tl_log s)) = rv_body (req_of r (tl_log s))).
Proof.
  intros Hm Hn Hev. destruct (tcp_run_inv cfg seed evs s0 Hm Hn Hev) as (s & Hrun & Hi). exists s. split; [done|]. intros p f q Hf Hq. destruct (arg_flow P s q p Hi) as (f' & r & Hf' & _ & Hr); [apply (sh_args _ _ (li_shape _ _ Hi)); by exists f|]. simplify_eq. exists r.
  destruct (proj1 (data_split P q r _ f Hq Hr) (li_data _ _ Hi p f Hf)) as (Hreq & [U1 U2 U3 U4 U5 U6 U7 U8 U9 U10] & [D1 D2 D3 D4 D5]). split; [done|]. split; [done|]. split; [done|]. split; [done|]. split.
  - rewrite <- U9. intros Hs. destruct (U10 Hs) as [Hfin Hq0]. split; [congruence|]. rewrite U1, Hq0. cbn. by rewrite app_nil_r.
  - rewrite <- D4. intros Hs. destruct (D5 Hs) as [Hfin Hp0]. split; [done|]. rewrite D1. unfold stashed. rewrite Hp0. by rewrite app_nil_r.
Qed.

(** C13: no window is lost and no queue grows without bound.  After any run, of
    every flow with a pcb: what was given back to the window and what is withheld
    make up exactly what lwIP delivered; no more than the window is withheld, and
    nothing unless the flow is held; the count of queued bytes is that of the
    queue and at most the high-water mark and the window; at most one segment is
    in the stash. *)
Theorem tcp_window_bounded cfg seed evs s0 : 0 <= tcp_max_flows cfg -> mqvpn_tcp_lane_new P true true (Some cfg) seed = Some s0 -> Forall ev_ok evs ->
  exists s, tcp_run E C P evs s0 = Some (tt, s) /\ forall p f q, flows s !! p = Some f -> f_pcb f = Some q ->
    pv_credit (pcb_of q (tl_log s)) + uplink_withheld_recved f = blen (pv_in (pcb_of q (tl_log s))) /\
    0 <= uplink_withheld_recved f <= TCP_WND P /\ (uplink_withheld f = false -> uplink_withheld_recved f = 0) /\
    uplink_queued_bytes f = blen (queue_bytes (uplink_q f)) /\ uplink_queued_bytes f <= BP_HIGH_WATER P + TCP_WND P /\ blen (stashed f) <= TCP_MSS.
Proof.
  intros Hm Hn Hev. destruct (tcp_run_inv cfg seed evs s0 Hm Hn Hev) as (s & Hrun & Hi). exists s. split; [done|]. intros p f q Hf Hq. destruct (arg_flow P s q p Hi) as (f' & r & Hf' & _ & Hr); [apply (sh_args _ _ (li_shape _ _ Hi)); by exists f|]. simplify_eq.
  destruct (proj1 (data_split P q r _ f Hq Hr) (li_data _ _ Hi p f Hf)) as (_ & [U1 U2 U3 U4 U5 U6 U7 U8 U9 U10] & [D1 D2 D3 D4 D5]). split; [done|]. split; [done|]. split; [done|]. split; [done|]. split; [lia|]. unfold stashed. destruct (downlink_paused f) eqn:Ep; [|unfold blen, TCP_MSS; cbn; lia]. destruct (D3 eq_refl) as [_ Hlen]. unfold blen. rewrite length_take. lia.
Qed.

(** C12: lwIP and xquic are called as they ask to be.  Of every call of a run:
    the pcb or the request was there; no byte is written after a FIN in either
    direction; a pcb is closed only when both directions are complete, to the
    last byte and FIN; a callback of lwIP returns [ERR_ABRT] exactly when the
    lane aborted the pcb in that callback. *)
Theorem tcp_calls_legal cfg seed evs s0 : 0 <= tcp_max_flows cfg -> mqvpn_tcp_lane_new P true true (Some cfg) seed = Some s0 -> Forall ev_ok evs ->
  exists s, tcp_run E C P evs s0 = Some (tt, s) /\ forall newer e older, tl_log s = newer ++ e :: older -> fx_ok older e.
Proof.
  intros Hm Hn Hev. destruct (tcp_run_inv cfg seed evs s0 Hm Hn Hev) as (s & Hrun & Hi). exists s. split; [done|]. intros newer e older Hl. by eapply log_entry; [apply (li_log _ _ Hi)|].
Qed.

(** C14: the table is right.  After any run the lookup of a key ends and finds the
    flow of that key, which is the only one, or says that there is none; the
    three counters count the connections, the raw markers and the closing
    markers, within their limits, and the connections fit half the pool of pcbs;
    a flow has the pointers of its state; the pcbs that are open are those of
    the flows. *)
Theorem tcp_table_sound cfg seed evs s0 : 0 <= tcp_max_flows cfg -> mqvpn_tcp_lane_new P true true (Some cfg) seed = Some s0 -> Forall ev_ok evs ->
  exists s, tcp_run E C P evs s0 = Some (tt, s) /\
    (forall key, key_wf key -> exists o, find_flow key s = Some (o, s) /\ match o with
      | Some p => exists f, flows s !! p = Some f /\ f_key f = key /\ forall p' f', flows s !! p' = Some f' -> f_key f' = key -> p' = p
      | None => forall p f, flows s !! p = Some f -> f_key f <> key end) /\
    n_tcp_flows s = pop KTcp (flows s) /\ n_tcp_flows s <= mqvpn_tcp_lane_effective_max_flows (Some s) /\ mqvpn_tcp_lane_effective_max_flows (Some s) <= mqvpn_tcp_lane_pool_flow_bound P /\
    n_raw_markers s = pop KRaw (flows s) /\ n_raw_markers s <= TCP_LANE_RAW_MARKER_CAP P /\ n_closing s = pop KClosing (flows s) /\ n_closing s <= TCP_LANE_CLOSING_CAP P /\
    (forall p f, flows s !! p = Some f -> ptrs_ok f) /\
    (forall q, pv_open (pcb_of q (tl_log s)) = true <-> exists p f, flows s !! p = Some f /\ f_pcb f = Some q).
Proof.
  intros Hm Hn Hev. destruct (tcp_run_inv cfg seed evs s0 Hm Hn Hev) as (s & Hrun & Hi). exists s. split; [done|]. pose proof (li_shape _ _ Hi) as Hs. split.
  - intros key Hk. destruct (dwp_find_flow P s key (fun o s' => s' = s /\ found s key o) Hs Hk) as (o & s' & Ho & -> & Hf); [done|]. exists o. split; [done|]. destruct o as [p|]; [|done]. destruct Hf as (f & Hf & Hkf). exists f. split; [done|]. split; [done|]. intros p' f' Hf' Hk'. eapply (sh_uniq _ _ Hs); [done|done|congruence].
  - rewrite (sh_tcp _ _ Hs), (sh_raw _ _ Hs), (sh_closing _ _ Hs). destruct (sh_max _ _ Hs) as [M1 M2]. split; [done|]. split; [done|]. split; [done|]. split; [done|]. split; [apply (sh_max_raw _ _ Hs)|]. split; [done|]. split; [apply (sh_max_closing _ _ Hs)|]. split; [apply (sh_ptrs _ _ Hs)|]. exact (lv_open _ _ (leaving_start P s Hi)).
Qed.



End trace.

(** What is read from the state after a sample lifetime. *)
Definition demo_after {A} (g : mqvpn_tcp_lane_t -> mqvpn_tcp_flow_t -> A) (r : option (unit * mqvpn_tcp_lane_t)) : option A :=
  match r with Some (_, s) => match flows s !! 100 with Some f => Some (g s f) | None => None end | None => None end.

(** ** The queue can hold more than a window *)

(** Sizes in the proportion of the profiles: half a window is the high-water
    mark. *)
Definition small_profile : lane_profile := LaneProfile 8 4 4 8 2 16.

(** Before the answer to the request: seven bytes are queued and their window
    given back; then the peer fills a whole window. *)
Definition pending_events : list tcp_event :=
  [EvPacket demo_tcp_client demo_syn; EvAccept (Some demo_pcb) ERR_OK; EvRecv 500 (Some [[1; 2; 3; 4; 5; 6; 7]]); EvRecv 500 (Some [[1; 2; 3; 4; 5; 6; 7; 8; 9; 10; 11; 12; 13; 14; 15; 16]])].

Lemma queue_beyond_window : demo_after (fun _ f => uplink_queued_bytes f) (s ← mqvpn_tcp_lane_new small_profile true true (Some demo_tcp_config) 99; tcp_run demo_tcp_env demo_lane_client small_profile pending_events s) = Some 23 /\ TCP_WND small_profile = 16.
Proof. split; vm_compute; reflexivity. Qed.

(** ** Witnesses *)

Lemma tcp_relay_exact_witness : exists s f, tcp_run demo_tcp_env demo_lane_client profile_default demo_events demo_tcp_lane = Some (tt, s) /\ flows s !! 100 = Some f /\ queue_bytes (uplink_q f) = [3; 4; 5] /\
  pv_in (pcb_of 500 (tl_log s)) = rv_sent (req_of 200 (tl_log s)) ++ [3; 4; 5] /\ rv_body (req_of 200 (tl_log s)) = pv_out (pcb_of 500 (tl_log s)) ++ [].
Proof.
  destruct (tcp_relay_exact demo_tcp_env demo_lane_client profile_default demo_tcp_env_ok profile_default_ok demo_tcp_config 99 demo_events demo_tcp_lane) as (s & Hrun & H); [vm_compute; discriminate|vm_compute; reflexivity|exact demo_events_ok|].
  assert (Hv : demo_after (fun _ f => (f_pcb f, f_h3_request f, queue_bytes (uplink_q f), stashed f)) (tcp_run demo_tcp_env demo_lane_client profile_default demo_events demo_tcp_lane) = Some (Some 500, Some 200, [3; 4; 5], [])) by (vm_compute; reflexivity).
  rewrite Hrun in Hv. cbn [demo_after] in Hv. destruct (flows s !! 100) as [f|] eqn:Hf; [|discriminate]. injection Hv as V1 V2 V3 V4. destruct (H 100 f 500 Hf V1) as (r & R1 & _ & R3 & R4 & _). assert (r = 200) by congruence. subst r. rewrite V3 in R3. rewrite V4 in R4. exists s, f. split; [exact Hrun|]. split; [exact Hf|]. split; [exact V3|]. split; [exact R3|exact R4].
Defined.

Lemma tcp_window_bounded_witness : exists s f, tcp_run demo_tcp_env demo_lane_client profile_default demo_events demo_tcp_lane = Some (tt, s) /\ flows s !! 100 = Some f /\ uplink_withheld_recved f = 5 /\ uplink_queued_bytes f = 3 /\ pv_credit (pcb_of 500 (tl_log s)) + 5 = blen (pv_in (pcb_of 500 (tl_log s))).
Proof.
  destruct (tcp_window_bounded demo_tcp_env demo_lane_client profile_default demo_tcp_env_ok profile_default_ok demo_tcp_config 99 demo_events demo_tcp_lane) as (s & Hrun & H); [vm_compute; discriminate|vm_compute; reflexivity|exact demo_events_ok|].
  assert (Hv : demo_after (fun _ f => (f_pcb f, uplink_withheld_recved f, uplink_queued_bytes f)) (tcp_run demo_tcp_env demo_lane_client profile_default demo_events demo_tcp_lane) = Some (Some 500, 5, 3)) by (vm_compute; reflexivity).
  rewrite Hrun in Hv. cbn [demo_after] in Hv. destruct (flows s !! 100) as [f|] eqn:Hf; [|discriminate]. injection Hv as V1 V2 V3. destruct (H 100 f 500 Hf V1) as (H1 & _). rewrite V2 in H1. exists s, f. split; [exact Hrun|]. split; [exact Hf|]. split; [exact V2|]. split; [exact V3|exact H1].
Defined.

Lemma tcp_calls_legal_witness : exists s older, tcp_run demo_tcp_env demo_lane_client profile_default demo_events demo_tcp_lane = Some (tt, s) /\ tl_log s = [FxOutput 500] ++ FxWrite 500 [72; 105] ERR_OK :: older /\ fx_ok older (FxWrite 500 [72; 105] ERR_OK).
Proof.
  destruct (tcp_calls_legal demo_tcp_env demo_lane_client profile_default demo_tcp_env_ok profile_default_ok demo_tcp_config 99 demo_events demo_tcp_lane) as (s & Hrun & H); [vm_compute; discriminate|vm_compute; reflexivity|exact demo_events_ok|].
  assert (Hv : demo_after (fun s _ => take 2 (tl_log s)) (tcp_run demo_tcp_env demo_lane_client profile_default demo_events demo_tcp_lane) = Some [FxOutput 500; FxWrite 500 [72; 105] ERR_OK]) by (vm_compute; reflexivity).
  rewrite Hrun in Hv. cbn [demo_after] in Hv. destruct (flows s !! 100) as [f|]; [|discriminate]. apply Some_inj in Hv. assert (Hl : tl_log s = [FxOutput 500] ++ FxWrite 500 [72; 105] ERR_OK :: drop 2 (tl_log s)) by (rewrite <- (take_drop 2 (tl_log s)) at 1; rewrite Hv; reflexivity).
  exists s, (drop 2 (tl_log s)). split; [exact Hrun|]. split; [exact Hl|]. exact (H _ _ _ Hl).
Defined.

Lemma tcp_table_sound_witness : exists s, tcp_run demo_tcp_env demo_lane_client profile_default demo_events demo_tcp_lane = Some (tt, s) /\ n_tcp_flows s = 1 /\ n_tcp_flows s = pop KTcp (flows s) /\ exists o, find_flow (pcb_key demo_pcb) s = Some (o, s) /\ is_Some o.
Proof.
  destruct (tcp_table_sound demo_tcp_env demo_lane_client profile_default demo_tcp_env_ok profile_default_ok demo_tcp_config 99 demo_events demo_tcp_lane) as (s & Hrun & Hfind & Hn & _); [vm_compute; discriminate|vm_compute; reflexivity|exact demo_events_ok|].
  assert (Hv : demo_after (fun s f => (n_tcp_flows s, f_key f)) (tcp_run demo_tcp_env demo_lane_client profile_default demo_events demo_tcp_lane) = Some (1, pcb_key demo_pcb)) by (vm_compute; reflexivity).
  rewrite Hrun in Hv. cbn [demo_after] in Hv. destruct (flows s !! 100) as [f|] eqn:Hf; [|discriminate]. injection Hv as V1 V2. exists s. split; [exact Hrun|]. split; [exact V1|]. split; [exact Hn|]. destruct (Hfind (pcb_key demo_pcb)) as (o & Ho & Hspec); [apply pcb_key_wf; vm_compute; reflexivity|]. exists o. split; [exact Ho|]. destruct o as [p|]; [by exists p|]. destruct (Hspec 100 f Hf). rewrite V2. reflexivity.
Defined.


